(* ===== verification/_CoqProject ===== *)
-Q . S2P
Prelude.v
Errors.v
Msg.v
Attr.v
Data.v
Hash.v
Handlers.v
Socket.v
Nl.v
NlList.v
Object.v
Cache.v
CacheInv.v
CacheOps.v
CacheSpec.v
CacheLife.v
CacheSync.v
CacheOwn.v
CacheProps.v
ObjAttr.v
CacheMngt.v
CacheDump.v
CString.v
Utils.v
Addr.v
Wire.v
Build.v
Rtnl.v
CacheMngr.v
CacheMngrProps.v
Neigh.v
RtAddr.v
Rule.v
Ends.v
StepMsg.v
Sriov.v
LinkApi.v
LinkReg.v
Link.v
LinkMsg.v
LinkProps.v
Nexthop.v
Route.v
RouteProps.v
Genl.v
GenlMngt.v
GenlCtrl.v
LinkKind.v
KindTunnel.v
KindMisc.v
KindVxlan.v
KindLib.v
