(* ===== verification/Prelude.v ===== *)
(** * The core of libnl: a verification development

    libnl talks to the Linux kernel over netlink sockets: a message is a 16 byte
    header, a header of the family of messages, and attributes (type, length,
    payload, padded to four bytes) that may nest.  On top of messages and sockets
    the library keeps objects (links, addresses, routes, ...) in caches that follow
    the kernel.  This development models the library from the bytes of a message up
    to the routing objects, one file per component, and proves what makes each
    component correct.

    ** Files and what they model

    Foundations
    - Prelude: machine integers, bytes in buffers, the monad [exec], record
      updates, hints and tactics.
    - Errors (lib/error.c), NlList (include/netlink/list.h), Hash (lib/hash.c),
      Data (lib/data.c), CString and Utils (lib/utils.c), Addr (lib/addr.c,
      lib/mpls.c).
    Messages and sockets
    - Msg (lib/msg.c), Attr (lib/attr.c): layout, allocation, iteration,
      validation, parsing, construction, nesting.
    - Handlers (lib/handlers.c), Socket (lib/socket.c), Nl (lib/nl.c): callback
      sets, local ports, configuration, sending, and the receive state machine.
    - Wire, Build, StepMsg, Ends: what a region of attributes carries, composing
      field by field, composing step by step into a message of the caller, and
      functions that end.
    Objects and caches
    - Object (lib/object.c, lib/hashtable.c), ObjAttr (the macros of
      include/netlink-private/object-api.h), Cache (lib/cache.c), CacheMngt
      (lib/cache_mngt.c), CacheDump (the requests and dumps of lib/cache.c and
      lib/nl.c), CacheMngr (lib/cache_mngr.c).
    - CacheInv, CacheOps, CacheLife, CacheSync, CacheSpec, CacheOwn, CacheProps,
      CacheMngrProps: the ownership invariant, that operations keep it, results on
      every branch, and the theorems.
    Routing and generic netlink
    - Rtnl (lib/route/rtnl.c, route_utils.c), Neigh, RtAddr, Rule, Nexthop, Route
      with RouteProps (lib/route/neigh.c, addr.c, rule.c, nexthop.c,
      nexthop_encap.c, nh_encap_mpls.c, route_obj.c, route.c).
    - LinkApi and LinkReg (lib/route/link/api.c), Link, LinkMsg and LinkProps
      (lib/route/link.c), Sriov (lib/route/link/sriov.c).
    - LinkKind: what the kinds of links have in common; KindTunnel (lib/route/link/
      ipip.c, ipgre.c, ipvti.c, sit.c, ip6tnl.c, xfrmi.c), KindMisc (vrf.c, ppp.c,
      ipvlan.c, dummy.c, ifb.c, bonding.c, team.c), KindVxlan (vxlan.c, geneve.c);
      KindLib: their tables in one registry.
    - Genl, GenlMngt, GenlCtrl (lib/genl/genl.c, family.c, mngt.c, ctrl.c).

    Definitions have the names of the functions they model.  A function that the
    code writes as one long body may be several definitions here, composed in the
    order of the code.

    ** How the code is modelled

    - [exec T] is what running a piece of code comes to: [Done v]; [Fault], an
      access outside an object or through a null or freed pointer; [Bug], a BUG()
      or a failed assertion; [NoFuel], a loop that was cut short.  Theorems that
      something ends exclude the last one.  Where a loop takes fuel, it is computed
      from the data it walks over (the length of a buffer or of a list), which is
      shown to be enough; receive and poll loops, which end when the kernel lets
      them, take it as an argument and are theorems about every sufficient amount.
    - Buffers are lists of bytes, pointers into them offsets, structures on the wire
      the bytes they are; integers are [Z] at their width, with [u8] ... [s64]
      where the code converts.  The host is little endian.
    - A function that changes an object or a message gives the new one back.
      Objects, caches, callback sets and cache types that are shared live in heaps
      by address, with reference counts and list pointers.
    - Allocations and system calls are arguments: a [bool] says whether memory can
      be had, a function or a value what the kernel answers.  Functions of the C
      library that depend on the system (inet_pton, inet_ntop, the resolver) are
      parameters; string functions are those of the C locale, on lists of character
      codes.
    - Callbacks of applications are arbitrary functions on the state [W] of the
      world outside the library; they do not change the socket they are called for.
      Change callbacks of caches are recorded as events.  The callbacks that are the
      library's own (parsers, pickup, acknowledgements) run inside the receive loop
      on the part of the world that is the library's.
    - Functions that hold a lock for their whole run are single steps.
    - Kinds of objects, of links, and families are tables of functions, as in the
      code; theorems about caches hold for every table that keeps to the contract
      stated with them (CacheInv), those about links for every registry that does
      (LinkProps).
    - Inside objects, abstract addresses, data, next hops and virtual functions are
      values: their own reference counts and what copies of structures share are
      not followed; where the code shares what it must not, there is a finding.
      References to the tables of kinds and families are followed in LinkReg only.

    ** What is shown

    - Messages and attributes: operations stay inside the buffer and keep a message
      well formed; parsing is characterised exactly; what is put is parsed back;
      nests close or roll back.
    - Sockets: ports are owned by one socket; the receive loop is characterised for
      dumps, dispatches every message once, never leaves the datagram and ends when
      the kernel has no more to deliver; waiting for an acknowledgement; completing a message.
    - Caches: over every sequence of calls counts are exact, nothing freed is
      touched, and when all is given back nothing is left but the objects whose
      references failed moves lose; results of adding, moving,
      searching, including a notification, and refilling from a dump; the registry
      of cache types and linked lists refine sequences; the cache manager.
    - Routing objects: requests that applications compose stay inside the message
      and are well formed; what is composed is parsed back as the same object
      (neighbours, addresses, rules); parsers end; objects that compare as the same
      have the same key.
    - Kinds and families of links: a table in use stays registered; the tables of
      the sixteen kinds modelled keep the promises that links depend on; what has been
      set of a link of such a kind is sent and read back; whatever is received, their
      parsers (but that of PPP) read inside it.
    - Text: addresses, name tables, flag lists, label stacks read back.
    - Generic netlink: dispatch to the right command, and what the controller makes
      of an announcement.

    Each property has an instance at a concrete input, in the same file.  Lemmas
    under "What modelling showed" exhibit behaviour that the code, its comments or
    its documentation do not intend.

    ** Not modelled

    Printing (the dump functions of every kind, nl_object_dump, nl_perror), which is
    formatted output; conversions to floating point in lib/utils.c and the clock
    read from /proc; allocation of objects by the name of a kind and the debugging
    aids; the kinds of links vlan, macvlan, macvtap, macsec, veth and can, and the
    families of lib/route/link/inet.c, inet6.c and bridge.c, so that theorems about
    links take families as parameters; the kernel headers in include/linux-private and the bindings and tools
    (python, lib/cli, src), which only call the library; the other subsystems of lib/ are listed in the manifest. *)
From stdpp Require Export base list numbers strings gmap.
#[global] Open Scope Z_scope.

(** ** Machine integers *)

(** [uN z]: the value of [z] converted to an [N]-bit unsigned C integer. *)
Definition u8 (z : Z) : Z := z mod 2 ^ 8.
Definition u16 (z : Z) : Z := z mod 2 ^ 16.
Definition u32 (z : Z) : Z := z mod 2 ^ 32.
Definition u64 (z : Z) : Z := z mod 2 ^ 64.

(** [sN z]: the value of [z] converted to an [N]-bit two's complement integer. *)
Definition s8 (z : Z) : Z := (z + 2 ^ 7) mod 2 ^ 8 - 2 ^ 7.
Definition s16 (z : Z) : Z := (z + 2 ^ 15) mod 2 ^ 16 - 2 ^ 15.
Definition s32 (z : Z) : Z := (z + 2 ^ 31) mod 2 ^ 32 - 2 ^ 31.
Definition s64 (z : Z) : Z := (z + 2 ^ 63) mod 2 ^ 64 - 2 ^ 63.

Definition UINT32_MAX : Z := 2 ^ 32 - 1.
Definition UINT64_MAX : Z := 2 ^ 64 - 1.
Definition USHRT_MAX : Z := 65535.

(** [(x + 3) & ~3], the rounding the ALIGN macros of netlink do. *)
Definition align4 (x : Z) : Z := Z.land (x + 3) (Z.lnot 3).

(** Flag words: [f & m] as a truth value, [f | m] and [f & ~m]. *)
Definition has_flag (f m : Z) : bool := negb (Z.land f m =? 0).
Definition set_flag (f m : Z) : Z := Z.lor f m.
Definition clear_flag (f m : Z) : Z := Z.land f (Z.lnot m).

(** Whether a pointer is not null. *)
Definition is_some {A} (o : option A) : bool := match o with Some _ => true | None => false end.

(** ** Records

    [r <| f := v |>]: the record [r] with [v] in the field [f].  Every record
    used this way is an instance of [Eta], its constructor applied to its own
    fields, from which the notation builds the new record; a record may have two
    parameters. *)
Class Eta (R : Type) := eta : R -> R.

Ltac upd_field r f v :=
  tryif is_var r then
    (let R := type of r in
     let e := constr:(eta (R := R) r) in
     let e := eval hnf in e in
     let fr := match goal with _ => constr:(f r) | _ => constr:(f _ _ r) end in
     match e with context C [fr] => let t := context C [v] in exact t end)
  else (let x := fresh "x" in refine (let x := r in _); upd_field x f v).

Declare Scope rec_scope.
Delimit Scope rec_scope with rec.
Notation "r <| f := v |>" := (ltac:(upd_field r f v))
  (at level 1, left associativity, only parsing) : rec_scope.
#[global] Open Scope rec_scope.

(** ** Outcomes of C code

    [Done a]: the code runs to its end with the value [a] (error codes are
    ordinary values).  [Bug]: it stops in the macro [BUG()].  [Fault]: it
    touches memory outside the object it is given.  [NoFuel]: a loop of the
    model ran out of its bound; the theorems show that it does not happen. *)
Inductive exec (A : Type) : Type :=
| Done (a : A)
| Bug
| Fault
| NoFuel.
Arguments Done {A} _.
Arguments Bug {A}.
Arguments Fault {A}.
Arguments NoFuel {A}.

#[export] Instance exec_ret : MRet exec := fun A a => Done a.
#[export] Instance exec_bind : MBind exec := fun A B f m =>
  match m with
  | Done a => f a
  | Bug => Bug
  | Fault => Fault
  | NoFuel => NoFuel
  end.
#[export] Instance exec_fmap : FMap exec := fun A B f m =>
  match m with
  | Done a => Done (f a)
  | Bug => Bug
  | Fault => Fault
  | NoFuel => NoFuel
  end.

(** ** Byte buffers *)

Definition zlen {A} (l : list A) : Z := Z.of_nat (length l).

Definition bytes_ok (b : list Z) : Prop := Forall (fun x => 0 <= x < 256) b.

(** Zero-filled storage, as [calloc] and [memset(_, 0, n)] make it. *)
Definition zeros (n : Z) : list Z := replicate (Z.to_nat n) 0.

(** The [n] bytes of [b] from offset [off], and [b] with the bytes [d] over
    the ones from offset [off]. *)
Definition sub (b : list Z) (off n : Z) : list Z :=
  take (Z.to_nat n) (drop (Z.to_nat off) b).
Definition splice (b : list Z) (off : Z) (d : list Z) : list Z :=
  take (Z.to_nat off) b ++ d ++ drop (Z.to_nat off + length d) b.

Definition in_bounds (b : list Z) (off n : Z) : bool :=
  (0 <=? off) && (0 <=? n) && (off + n <=? zlen b).

(** Checked reads and writes. *)
Definition load (b : list Z) (off n : Z) : exec (list Z) :=
  if in_bounds b off n then Done (sub b off n) else Fault.
Definition store (b : list Z) (off : Z) (d : list Z) : exec (list Z) :=
  if in_bounds b off (zlen d) then Done (splice b off d) else Fault.

(** Integers in memory: the host is little endian (HAVE_LITTLE_ENDIAN). *)
Fixpoint le_encode (n : nat) (v : Z) : list Z :=
  match n with
  | O => []
  | S n' => v mod 256 :: le_encode n' (v / 256)
  end.
Fixpoint le_decode (l : list Z) : Z :=
  match l with
  | [] => 0
  | x :: r => x + 256 * le_decode r
  end.

Definition le_at (n : Z) (b : list Z) (off : Z) : Z := le_decode (sub b off n).

Definition get_u8 (b : list Z) (off : Z) : exec Z := le_decode <$> load b off 1.
Definition get_u16 (b : list Z) (off : Z) : exec Z := le_decode <$> load b off 2.
Definition get_u32 (b : list Z) (off : Z) : exec Z := le_decode <$> load b off 4.
Definition get_u64 (b : list Z) (off : Z) : exec Z := le_decode <$> load b off 8.
Definition put_u8 (b : list Z) (off v : Z) : exec (list Z) := store b off (le_encode 1 v).
Definition put_u16 (b : list Z) (off v : Z) : exec (list Z) := store b off (le_encode 2 v).
Definition put_u32 (b : list Z) (off v : Z) : exec (list Z) := store b off (le_encode 4 v).
Definition put_u64 (b : list Z) (off v : Z) : exec (list Z) := store b off (le_encode 8 v).

(** [memcmp]: the difference of the first two bytes that differ (the sign is
    all ISO C fixes; the code relies on no more than the sign). *)
Fixpoint memcmp (a b : list Z) : Z :=
  match a, b with
  | x :: a', y :: b' => if x =? y then memcmp a' b' else x - y
  | _, _ => 0
  end.

(** ** Tactics *)

(** Arithmetic with division and modulo by constants. *)
Ltac zdiv_lia := Z.to_euclidean_division_equations; lia.

(** Case analysis on the first boolean or decidable test of the goal. *)
Ltac case_test :=
  match goal with
  | |- context [if ?b then _ else _] => let E := fresh "E" in destruct b eqn:E
  end.

(** Turns boolean comparisons in hypotheses into propositions. *)
Ltac bool_hyps :=
  repeat match goal with
  | H : (_ && _)%bool = true |- _ => apply andb_prop in H; destruct H
  | H : (_ || _)%bool = false |- _ => apply orb_false_iff in H; destruct H
  | H : (_ && _)%bool = false |- _ => apply andb_false_iff in H
  | H : (_ || _)%bool = true |- _ => apply orb_prop in H
  | H : negb _ = true |- _ => apply negb_true_iff in H
  | H : negb _ = false |- _ => apply negb_false_iff in H
  | H : (_ <=? _) = true |- _ => apply Z.leb_le in H
  | H : (_ <=? _) = false |- _ => apply Z.leb_gt in H
  | H : (_ <? _) = true |- _ => apply Z.ltb_lt in H
  | H : (_ <? _) = false |- _ => apply Z.ltb_ge in H
  | H : (_ =? _) = true |- _ => apply Z.eqb_eq in H
  | H : (_ =? _) = false |- _ => apply Z.eqb_neq in H
  end.

Create HintDb nl.
Create Rewrite HintDb nl_len.

(** ** Lemmas on integers *)

Lemma align4_eq x : align4 x = 4 * ((x + 3) / 4).
Proof.
  unfold align4. change 3 with (Z.ones 2) at 2.
  rewrite <- Z.ldiff_land, Z.ldiff_ones_r by lia.
  rewrite Z.shiftl_mul_pow2, Z.shiftr_div_pow2 by lia. change (2 ^ 2) with 4. lia.
Qed.

Lemma align4_bounds x : x <= align4 x < x + 4.
Proof. rewrite align4_eq. zdiv_lia. Qed.

Lemma align4_mod x : align4 x mod 4 = 0.
Proof. rewrite align4_eq. zdiv_lia. Qed.

Lemma align4_id x : x mod 4 = 0 -> align4 x = x.
Proof. rewrite align4_eq. intros. zdiv_lia. Qed.

Lemma align4_add x y : x mod 4 = 0 -> align4 (x + y) = x + align4 y.
Proof. rewrite !align4_eq. intros. zdiv_lia. Qed.

Lemma align4_mono x y : x <= y -> align4 x <= align4 y.
Proof. rewrite !align4_eq. intros. zdiv_lia. Qed.

Lemma u8_id z : 0 <= z < 2 ^ 8 -> u8 z = z.
Proof. intros. by apply Z.mod_small. Qed.
Lemma u16_id z : 0 <= z < 65536 -> u16 z = z.
Proof. intros. unfold u16. apply Z.mod_small. lia. Qed.

Lemma u32_id z : 0 <= z < 4294967296 -> u32 z = z.
Proof. intros. unfold u32. apply Z.mod_small. lia. Qed.

Lemma u64_id z : 0 <= z < 18446744073709551616 -> u64 z = z.
Proof. intros. unfold u64. apply Z.mod_small. lia. Qed.

Lemma s32_id z : -2147483648 <= z < 2147483648 -> s32 z = z.
Proof. intros. unfold s32. change (2 ^ 31) with 2147483648.
  rewrite Z.mod_small; lia. Qed.

Lemma u32_s32 z : u32 (s32 z) = u32 z.
Proof. unfold u32, s32. change (2 ^ 31) with 2147483648. change (2 ^ 32) with 4294967296. zdiv_lia. Qed.
Lemma u32_range z : 0 <= u32 z < 4294967296.
Proof. unfold u32. apply Z.mod_pos_bound. lia. Qed.

Lemma u8_range z : 0 <= u8 z < 256.
Proof. unfold u8. apply Z.mod_pos_bound. lia. Qed.

Lemma u16_range z : 0 <= u16 z < 65536.
Proof. unfold u16. apply Z.mod_pos_bound. lia. Qed.

(** ** Lemmas on flag words *)

Lemma lor_range k a b : 0 <= k -> 0 <= a < 2 ^ k -> 0 <= b < 2 ^ k -> 0 <= Z.lor a b < 2 ^ k.
Proof.
  intros Hk Ha Hb. assert (0 <= Z.lor a b) as H by (apply Z.lor_nonneg; lia).
  split; [done|]. destruct (decide (Z.lor a b = 0)) as [->|]; [lia|].
  apply Z.log2_lt_pow2; [lia|]. rewrite Z.log2_lor by lia.
  assert (forall x, 0 <= x < 2 ^ k -> x = 0 \/ Z.log2 x < k) as Hx.
  { intros x Hx. destruct (decide (x = 0)); [by left|]. right. apply Z.log2_lt_pow2; lia. }
  assert (0 < k). { destruct (decide (k = 0)) as [->|]; [|lia]. change (2 ^ 0) with 1 in *.
    assert (a = 0) as -> by lia. assert (b = 0) as -> by lia. done. }
  destruct (Hx a Ha) as [-> |], (Hx b Hb) as [-> |]; change (Z.log2 0) with 0; lia.
Qed.

Lemma has_flag_set f m : m <> 0 -> has_flag (set_flag f m) m = true.
Proof.
  intros Hm. unfold has_flag, set_flag.
  replace (Z.land (Z.lor f m) m) with m; [by apply negb_true_iff, Z.eqb_neq|].
  apply Z.bits_inj'. intros i _. rewrite Z.land_spec, Z.lor_spec.
  by destruct (Z.testbit f i), (Z.testbit m i).
Qed.

Lemma has_flag_clear f m : has_flag (clear_flag f m) m = false.
Proof.
  unfold has_flag, clear_flag. rewrite <- Z.land_assoc, (Z.land_comm _ m), Z.land_lnot_diag.
  by rewrite Z.land_0_r.
Qed.

Lemma has_flag_set_other f m m' : Z.land m' m = 0 -> has_flag (set_flag f m') m = has_flag f m.
Proof. intros H. unfold has_flag, set_flag. by rewrite Z.land_lor_distr_l, H, Z.lor_0_r. Qed.

Lemma has_flag_clear_other f m m' : Z.land m' m = 0 -> has_flag (clear_flag f m') m = has_flag f m.
Proof.
  intros H. unfold has_flag, clear_flag. do 2 f_equal. rewrite <- Z.land_assoc. f_equal.
  apply Z.bits_inj'. intros i Hi. rewrite Z.land_spec, Z.lnot_spec by done.
  assert (Z.testbit (Z.land m' m) i = false) as Hb by (by rewrite H, Z.bits_0).
  rewrite Z.land_spec in Hb. by destruct (Z.testbit m' i), (Z.testbit m i).
Qed.

(** ** Lemmas on buffers *)

Section Buffers.
Implicit Types (b d : list Z) (off n : Z).

Lemma zlen_nonneg {A} (l : list A) : 0 <= zlen l.
Proof. unfold zlen. lia. Qed.

Lemma zlen_app {A} (l k : list A) : zlen (l ++ k) = zlen l + zlen k.
Proof. unfold zlen. rewrite length_app. lia. Qed.

Lemma zlen_cons {A} (x : A) l : zlen (x :: l) = 1 + zlen l.
Proof. unfold zlen. simpl. lia. Qed.

Lemma zlen_nil {A} : zlen (@nil A) = 0.
Proof. reflexivity. Qed.

Lemma zlen_zeros n : 0 <= n -> zlen (zeros n) = n.
Proof. intros. unfold zlen, zeros. rewrite length_replicate. lia. Qed.

Lemma zlen_le_encode k v : zlen (le_encode k v) = Z.of_nat k.
Proof. unfold zlen. f_equal. revert v. induction k; intros; simpl; auto. Qed.

Lemma zlen_sub b off n : 0 <= off -> 0 <= n -> off + n <= zlen b -> zlen (sub b off n) = n.
Proof. unfold zlen, sub. intros. rewrite length_take, length_drop. lia. Qed.

Lemma zlen_splice b off d :
  0 <= off -> off + zlen d <= zlen b -> zlen (splice b off d) = zlen b.
Proof.
  unfold zlen, splice. intros. rewrite !length_app, length_take, length_drop. lia.
Qed.

Lemma in_bounds_true b off n :
  0 <= off -> 0 <= n -> off + n <= zlen b -> in_bounds b off n = true.
Proof. unfold in_bounds. intros. rewrite !andb_true_iff, !Z.leb_le. lia. Qed.

Lemma load_done b off n :
  0 <= off -> 0 <= n -> off + n <= zlen b -> load b off n = Done (sub b off n).
Proof. intros. unfold load. by rewrite in_bounds_true. Qed.

Lemma store_done b off d :
  0 <= off -> off + zlen d <= zlen b -> store b off d = Done (splice b off d).
Proof. intros. unfold store. rewrite in_bounds_true; auto using zlen_nonneg. Qed.

Lemma sub_all b : sub b 0 (zlen b) = b.
Proof. unfold sub, zlen. rewrite Nat2Z.id. simpl. by apply take_ge. Qed.

Lemma sub_nil b off : sub b off 0 = [].
Proof. reflexivity. Qed.

Lemma sub_split b off n m :
  0 <= off -> 0 <= n -> 0 <= m ->
  sub b off (n + m) = sub b off n ++ sub b (off + n) m.
Proof.
  intros. unfold sub. rewrite !Z2Nat.inj_add by lia.
  rewrite <- drop_drop.
  rewrite <- (take_drop (Z.to_nat n) (take _ (drop (Z.to_nat off) b))) at 1.
  rewrite take_take, <- take_drop_commute.
  rewrite Nat.min_l by lia. reflexivity.
Qed.

Lemma sub_sub b off n i m :
  0 <= off -> 0 <= i -> 0 <= m -> i + m <= n ->
  sub (sub b off n) i m = sub b (off + i) m.
Proof.
  intros. unfold sub. rewrite Z2Nat.inj_add by lia.
  rewrite <- drop_drop.
  rewrite skipn_firstn_comm, take_take.
  f_equal. lia.
Qed.

Lemma sub_splice_same b off d :
  0 <= off -> off + zlen d <= zlen b -> sub (splice b off d) off (zlen d) = d.
Proof.
  unfold sub, splice, zlen. intros.
  rewrite drop_app_length' by (rewrite length_take; lia).
  rewrite take_app_length' by lia. reflexivity.
Qed.

Lemma sub_splice_eq b off d n :
  0 <= off -> zlen d = n -> off + n <= zlen b -> sub (splice b off d) off n = d.
Proof. intros ? <- ?. by apply sub_splice_same. Qed.

Lemma sub_splice_before b off d i n :
  0 <= i -> 0 <= n -> i + n <= off -> off + zlen d <= zlen b ->
  sub (splice b off d) i n = sub b i n.
Proof.
  unfold sub, splice, zlen. intros.
  rewrite skipn_app, length_take.
  replace (Z.to_nat i - Z.to_nat off `min` length b)%nat with O by lia. simpl.
  rewrite firstn_app, skipn_firstn_comm, take_take, length_take, length_drop.
  replace (Z.to_nat n - _)%nat with O by lia. simpl.
  rewrite app_nil_r. f_equal. lia.
Qed.

Lemma sub_splice_after b off d i n :
  0 <= off -> 0 <= n -> off + zlen d <= i -> off + zlen d <= zlen b ->
  sub (splice b off d) i n = sub b i n.
Proof.
  unfold sub, splice, zlen. intros.
  rewrite app_assoc, skipn_app, length_app, length_take.
  rewrite (drop_ge (_ ++ _)) by (rewrite length_app, length_take; lia). simpl.
  rewrite drop_drop. repeat f_equal. lia.
Qed.

Lemma sub_zeros i n m : 0 <= i -> 0 <= n -> i + n <= m -> sub (zeros m) i n = zeros n.
Proof.
  intros. unfold sub, zeros. rewrite drop_replicate, take_replicate. f_equal. lia.
Qed.

Lemma sub_app_l b d off n :
  0 <= off -> 0 <= n -> off + n <= zlen b -> sub (b ++ d) off n = sub b off n.
Proof.
  intros. unfold sub, zlen in *. rewrite skipn_app, firstn_app, length_drop.
  replace (Z.to_nat n - _)%nat with O by lia. simpl. by rewrite app_nil_r.
Qed.

Lemma sub_app_r b d off n :
  zlen b <= off -> sub (b ++ d) off n = sub d (off - zlen b) n.
Proof.
  intros. unfold sub, zlen in *. rewrite skipn_app, drop_ge by lia. simpl.
  repeat f_equal. lia.
Qed.

Lemma bytes_ok_app b d : bytes_ok (b ++ d) <-> bytes_ok b /\ bytes_ok d.
Proof. apply Forall_app. Qed.

Lemma bytes_ok_sub b off n : bytes_ok b -> bytes_ok (sub b off n).
Proof. intros. by apply Forall_take, Forall_drop. Qed.

Lemma bytes_ok_splice b off d : bytes_ok b -> bytes_ok d -> bytes_ok (splice b off d).
Proof.
  intros. apply bytes_ok_app. split; [by apply Forall_take|].
  apply bytes_ok_app. split; [done|by apply Forall_drop].
Qed.

(** Bytes checked by computation. *)
Lemma bytes_ok_dec b : forallb (fun x => (0 <=? x) && (x <? 256)) b = true -> bytes_ok b.
Proof.
  induction b as [|x b IH]; simpl; intros H; constructor; bool_hyps; [lia|].
  by apply IH.
Qed.

Lemma bytes_ok_zeros n : bytes_ok (zeros n).
Proof. apply Forall_replicate. lia. Qed.

Lemma bytes_ok_le_encode k v : bytes_ok (le_encode k v).
Proof.
  revert v. induction k; intros; simpl; constructor; [|apply IHk].
  apply Z.mod_pos_bound. lia.
Qed.

Lemma le_decode_encode k v : le_decode (le_encode k v) = v mod 256 ^ Z.of_nat k.
Proof.
  revert v. induction k as [|k IH]; intros; [by rewrite Z.mod_1_r|].
  cbn [le_encode le_decode]. rewrite IH.
  replace (Z.of_nat (S k)) with (Z.succ (Z.of_nat k)) by lia.
  rewrite Z.pow_succ_r by lia.
  rewrite (Z.rem_mul_r v 256) by (try apply Z.pow_nonzero; lia). lia.
Qed.

Lemma le_encode_decode l : bytes_ok l -> le_encode (length l) (le_decode l) = l.
Proof.
  induction 1 as [|x l Hx Hl IH]; [done|]. cbn [length le_encode le_decode].
  rewrite (Z.mul_comm 256), Z_mod_plus_full, (Z.mod_small x) by lia.
  rewrite Z.div_add, (Z.div_small x) by lia. by rewrite Z.add_0_l, IH.
Qed.

Lemma le_decode_range l : bytes_ok l -> 0 <= le_decode l < 256 ^ zlen l.
Proof.
  induction 1 as [|x l Hx Hl IH]; [by split|].
  rewrite zlen_cons. cbn [le_decode]. pose proof (zlen_nonneg l).
  rewrite Z.pow_add_r by lia. lia.
Qed.

Lemma le_at_range k b off :
  bytes_ok b -> 0 <= k -> 0 <= le_at k b off < 256 ^ k.
Proof.
  intros Hb Hk. unfold le_at.
  pose proof (le_decode_range (sub b off k) (bytes_ok_sub _ _ _ Hb)) as H.
  assert (zlen (sub b off k) <= k).
  { unfold sub, zlen. rewrite length_take. lia. }
  pose proof (Z.pow_le_mono_r 256 (zlen (sub b off k)) k). lia.
Qed.

Lemma le_at_splice_same k b off v :
  0 <= off -> off + Z.of_nat k <= zlen b ->
  le_at (Z.of_nat k) (splice b off (le_encode k v)) off = v mod 256 ^ Z.of_nat k.
Proof.
  intros. unfold le_at. rewrite <- (zlen_le_encode k v).
  rewrite sub_splice_same by (rewrite ?zlen_le_encode; lia).
  by rewrite le_decode_encode, zlen_le_encode.
Qed.

Lemma get_u8_done b off : 0 <= off -> off + 1 <= zlen b -> get_u8 b off = Done (le_at 1 b off).
Proof. intros. unfold get_u8. by rewrite load_done by lia. Qed.
Lemma get_u16_done b off : 0 <= off -> off + 2 <= zlen b -> get_u16 b off = Done (le_at 2 b off).
Proof. intros. unfold get_u16. by rewrite load_done by lia. Qed.
Lemma get_u32_done b off : 0 <= off -> off + 4 <= zlen b -> get_u32 b off = Done (le_at 4 b off).
Proof. intros. unfold get_u32. by rewrite load_done by lia. Qed.
Lemma get_u64_done b off : 0 <= off -> off + 8 <= zlen b -> get_u64 b off = Done (le_at 8 b off).
Proof. intros. unfold get_u64. by rewrite load_done by lia. Qed.

Lemma put_u16_done b off v :
  0 <= off -> off + 2 <= zlen b -> put_u16 b off v = Done (splice b off (le_encode 2 v)).
Proof. intros. unfold put_u16. rewrite store_done; rewrite ?zlen_le_encode; auto; lia. Qed.
Lemma put_u32_done b off v :
  0 <= off -> off + 4 <= zlen b -> put_u32 b off v = Done (splice b off (le_encode 4 v)).
Proof. intros. unfold put_u32. rewrite store_done; rewrite ?zlen_le_encode; auto; lia. Qed.

End Buffers.

#[export] Hint Resolve bytes_ok_sub bytes_ok_splice bytes_ok_zeros bytes_ok_le_encode : nl.
#[export] Hint Rewrite @zlen_app @zlen_cons @zlen_nil zlen_le_encode : nl_len.

(** Length side conditions: [zl] closes arithmetic goals about lengths of
    spliced and encoded buffers. *)
Ltac zl :=
  unfold put_u8, put_u16, put_u32, put_u64 in *; autorewrite with nl_len;
  repeat first [rewrite zlen_zeros by lia | rewrite zlen_splice by zl];
  try apply zlen_nonneg; lia.

(** Reads of a spliced buffer away from the splice, and of the splice. *)
Ltac sub_step :=
  first [ rewrite sub_splice_before by zl
        | rewrite sub_splice_after by zl ].
Ltac sub_simpl := repeat sub_step.

(** Unfolds the binds and returns of [exec], nothing else. *)
Ltac exec_simpl := cbn [mbind mret exec_bind exec_ret fmap exec_fmap].

(** Runs the checked memory accesses whose bounds [zl] can show. *)
Ltac exec_step :=
  first [ rewrite load_done by zl | rewrite store_done by zl
        | rewrite get_u8_done by zl | rewrite get_u16_done by zl
        | rewrite get_u32_done by zl | rewrite get_u64_done by zl
        | rewrite put_u16_done by zl | rewrite put_u32_done by zl ];
  exec_simpl.
Ltac exec_run := repeat exec_step.
