(* ===== verification/Errors.v ===== *)
(** Error codes of the library (include/netlink/errno.h, lib/error.c): the
    numbers, the message table and the translation of system error codes. *)
From S2P Require Import Prelude.

Definition NLE_SUCCESS := 0.
Definition NLE_FAILURE := 1.
Definition NLE_INTR := 2.
Definition NLE_BAD_SOCK := 3.
Definition NLE_AGAIN := 4.
Definition NLE_NOMEM := 5.
Definition NLE_EXIST := 6.
Definition NLE_INVAL := 7.
Definition NLE_RANGE := 8.
Definition NLE_MSGSIZE := 9.
Definition NLE_OPNOTSUPP := 10.
Definition NLE_AF_NOSUPPORT := 11.
Definition NLE_OBJ_NOTFOUND := 12.
Definition NLE_NOATTR := 13.
Definition NLE_MISSING_ATTR := 14.
Definition NLE_AF_MISMATCH := 15.
Definition NLE_SEQ_MISMATCH := 16.
Definition NLE_MSG_OVERFLOW := 17.
Definition NLE_MSG_TRUNC := 18.
Definition NLE_NOADDR := 19.
Definition NLE_SRCRT_NOSUPPORT := 20.
Definition NLE_MSG_TOOSHORT := 21.
Definition NLE_MSGTYPE_NOSUPPORT := 22.
Definition NLE_OBJ_MISMATCH := 23.
Definition NLE_NOCACHE := 24.
Definition NLE_BUSY := 25.
Definition NLE_PROTO_MISMATCH := 26.
Definition NLE_NOACCESS := 27.
Definition NLE_PERM := 28.
Definition NLE_PKTLOC_FILE := 29.
Definition NLE_PARSE_ERR := 30.
Definition NLE_NODEV := 31.
Definition NLE_IMMUTABLE := 32.
Definition NLE_DUMP_INTR := 33.
Definition NLE_ATTRSIZE := 34.
Definition NLE_MAX := NLE_ATTRSIZE.

(** errno values of Linux that the translation names. *)
Definition EPERM := 1.
Definition ENOENT := 2.
Definition ESRCH := 3.
Definition EINTR := 4.
Definition EBADF := 9.
Definition EAGAIN := 11.
Definition ENOMEM := 12.
Definition EACCES := 13.
Definition EFAULT := 14.
Definition EBUSY := 16.
Definition EEXIST := 17.
Definition ENODEV := 19.
Definition EINVAL := 22.
Definition ERANGE := 34.
Definition ENOTSOCK := 88.
Definition ENOPROTOOPT := 92.
Definition EPROTONOSUPPORT := 93.
Definition EOPNOTSUPP := 95.
Definition EAFNOSUPPORT := 97.
Definition EADDRINUSE := 98.
Definition EADDRNOTAVAIL := 99.
Definition ENOBUFS := 105.

(** [abs] of the C library on a 32-bit int: [abs(INT_MIN)] stays [INT_MIN]. *)
Definition c_abs (e : Z) : Z := s32 (Z.abs e).

(** The table [errmsg], in the order of the codes. *)
Definition errmsg : list string :=
  [ "Success"; "Unspecific failure"; "Interrupted system call"; "Bad socket";
    "Try again"; "Out of memory"; "Object exists";
    "Invalid input data or parameter"; "Input data out of range";
    "Message size not sufficient"; "Operation not supported";
    "Address family not supported"; "Object not found";
    "Attribute not available"; "Missing attribute"; "Address family mismatch";
    "Message sequence number mismatch"; "Kernel reported message overflow";
    "Kernel reported truncated message";
    "Invalid address for specified address family";
    "Source based routing not supported"; "Netlink message is too short";
    "Netlink message type is not supported"; "Object type does not match cache";
    "Unknown or invalid cache type"; "Object busy"; "Protocol mismatch";
    "No Access"; "Operation not permitted"; "Unable to open packet location file";
    "Unable to parse object"; "No such device"; "Immutable attribute";
    "Dump inconsistency detected, interrupted"; "Attribute max length exceeded" ]%string.

Definition nl_geterror (error : Z) : exec string :=
  let error := c_abs error in
  let error := if NLE_MAX <? error then NLE_FAILURE else error in
  if error <? 0 then Fault
  else match errmsg !! Z.to_nat error with
       | Some s => Done s
       | None => Fault
       end.

Definition nl_syserr2nlerr (error : Z) : Z :=
  let error := c_abs error in
  if error =? EBADF then NLE_BAD_SOCK
  else if error =? EADDRINUSE then NLE_EXIST
  else if error =? EEXIST then NLE_EXIST
  else if error =? EADDRNOTAVAIL then NLE_NOADDR
  else if (error =? ESRCH) || (error =? ENOENT) then NLE_OBJ_NOTFOUND
  else if error =? EINTR then NLE_INTR
  else if error =? EAGAIN then NLE_AGAIN
  else if error =? ENOTSOCK then NLE_BAD_SOCK
  else if error =? ENOPROTOOPT then NLE_INVAL
  else if error =? EFAULT then NLE_INVAL
  else if error =? EACCES then NLE_NOACCESS
  else if error =? EINVAL then NLE_INVAL
  else if error =? ENOBUFS then NLE_NOMEM
  else if error =? ENOMEM then NLE_NOMEM
  else if error =? EAFNOSUPPORT then NLE_AF_NOSUPPORT
  else if error =? EPROTONOSUPPORT then NLE_PROTO_MISMATCH
  else if error =? EOPNOTSUPP then NLE_OPNOTSUPP
  else if error =? EPERM then NLE_PERM
  else if error =? EBUSY then NLE_BUSY
  else if error =? ERANGE then NLE_RANGE
  else if error =? ENODEV then NLE_NODEV
  else NLE_FAILURE.

(** ** Lemmas *)

Lemma nl_syserr2nlerr_range e : 0 < nl_syserr2nlerr e <= NLE_MAX.
Proof. unfold nl_syserr2nlerr. cbv zeta. repeat case_test; by vm_compute. Qed.

Lemma nl_syserr2nlerr_neg e : - nl_syserr2nlerr e < 0.
Proof. pose proof (nl_syserr2nlerr_range e). lia. Qed.

Lemma nl_geterror_in_table k :
  (k <= 34)%nat -> errmsg !! k = Some (nth k errmsg ""%string).
Proof. intros. do 35 (destruct k as [|k]; [done|]). lia. Qed.

#[export] Hint Resolve nl_syserr2nlerr_neg : nl.

(** ** Properties *)

(** The error interface is total and keeps failures visible: a failing system
    call never translates to the success code, every translated code is one of
    the documented ones, and [nl_geterror] yields an entry of its table for
    every int except INT_MIN (whose [abs] overflows), falling back to
    "Unspecific failure" for unknown codes. *)
Theorem error_codes_total e :
  (0 < nl_syserr2nlerr e <= NLE_MAX) /\
  (- 2147483648 < e < 2147483648 ->
   nl_geterror e = Done (if NLE_MAX <? Z.abs e then "Unspecific failure"%string
                         else nth (Z.to_nat (Z.abs e)) errmsg ""%string)).
Proof.
  split; [apply nl_syserr2nlerr_range|]. intros He.
  unfold nl_geterror, c_abs. rewrite s32_id by lia. cbv zeta.
  destruct (NLE_MAX <? Z.abs e) eqn:E; [done|]. bool_hyps.
  replace (Z.abs e <? 0) with false by (symmetry; apply Z.ltb_ge; lia).
  rewrite nl_geterror_in_table; [done|]. unfold NLE_MAX, NLE_ATTRSIZE in E. lia.
Qed.

Lemma error_codes_total_witness :
  -2147483648 < -12 < 2147483648 /\
  nl_geterror (-12) = Done "Object not found"%string.
Proof. split; [lia|]. apply (error_codes_total (-12)). lia. Defined.
