(* ===== verification/Msg.v ===== *)
(** Netlink messages (lib/msg.c): sizes, the message buffer with its header,
    allocation, room reservation, appending, header construction, reference
    counts, and the iteration over a buffer of messages.

    A pointer into a buffer is an offset; [struct nlmsghdr] is its 16 bytes in
    the buffer and the fields are read and written there. *)
From S2P Require Import Prelude Errors.

(** ** Data *)

Record sockaddr_nl := { nl_family : Z; nl_pid : Z; nl_groups : Z }.
Record ucred := { cr_pid : Z; cr_uid : Z; cr_gid : Z }.

Record nl_msg := {
  nm_protocol : Z;
  nm_flags : Z;
  nm_src : sockaddr_nl;
  nm_dst : sockaddr_nl;
  nm_creds : ucred;
  nm_nlh : list Z;
  nm_size : Z;
  nm_refcnt : Z
}.

Definition NL_MSG_CRED_PRESENT := 1.
Definition NLMSG_HDRLEN := 16.
Definition NLMSG_ALIGNTO := 4.
Definition sizeof_nlmsghdr := 16.
Definition NL_AUTO_PORT := 0.
Definition NL_AUTO_SEQ := 0.
Definition NLM_F_REQUEST := 1.
Definition NLM_F_MULTI := 2.
Definition NLM_F_ACK := 4.
Definition NLM_F_DUMP_INTR := 16.
Definition NLM_F_DUMP := 768.
Definition NLMSG_NOOP := 1.
Definition NLMSG_ERROR := 2.
Definition NLMSG_DONE := 3.
Definition NLMSG_OVERRUN := 4.

Definition NLMSG_ALIGN (len : Z) : Z := u32 (align4 len).

(** The fields of the header at offset [nlh] of the buffer [b]. *)
Definition nlmsg_len (b : list Z) (nlh : Z) : exec Z := get_u32 b nlh.
Definition nlmsg_type (b : list Z) (nlh : Z) : exec Z := get_u16 b (nlh + 4).
Definition nlmsg_flags (b : list Z) (nlh : Z) : exec Z := get_u16 b (nlh + 6).
Definition nlmsg_seq (b : list Z) (nlh : Z) : exec Z := get_u32 b (nlh + 8).
Definition nlmsg_pid (b : list Z) (nlh : Z) : exec Z := get_u32 b (nlh + 12).

Definition set_nlmsg_len (b : list Z) (nlh v : Z) : exec (list Z) := put_u32 b nlh v.
Definition set_nlmsg_type (b : list Z) (nlh v : Z) : exec (list Z) := put_u16 b (nlh + 4) v.
Definition set_nlmsg_flags (b : list Z) (nlh v : Z) : exec (list Z) := put_u16 b (nlh + 6) v.
Definition set_nlmsg_seq (b : list Z) (nlh v : Z) : exec (list Z) := put_u32 b (nlh + 8) v.
Definition set_nlmsg_pid (b : list Z) (nlh v : Z) : exec (list Z) := put_u32 b (nlh + 12) v.

Definition set_buf (m : nl_msg) (b : list Z) : nl_msg :=
  {| nm_protocol := nm_protocol m; nm_flags := nm_flags m; nm_src := nm_src m;
     nm_dst := nm_dst m; nm_creds := nm_creds m; nm_nlh := b;
     nm_size := nm_size m; nm_refcnt := nm_refcnt m |}.

Definition set_refcnt (m : nl_msg) (n : Z) : nl_msg :=
  {| nm_protocol := nm_protocol m; nm_flags := nm_flags m; nm_src := nm_src m;
     nm_dst := nm_dst m; nm_creds := nm_creds m; nm_nlh := nm_nlh m;
     nm_size := nm_size m; nm_refcnt := n |}.

(** ** Sizes *)

Definition nlmsg_size (payload : Z) : Z := s32 (NLMSG_HDRLEN + payload).
Definition nlmsg_msg_size (payload : Z) : Z := nlmsg_size payload.
Definition nlmsg_total_size (payload : Z) : Z := s32 (NLMSG_ALIGN (nlmsg_msg_size payload)).
Definition nlmsg_padlen (payload : Z) : Z :=
  s32 (nlmsg_total_size payload - nlmsg_msg_size payload).

(** ** Access *)

Definition nlmsg_data (nlh : Z) : Z := nlh + NLMSG_HDRLEN.
Definition nlmsg_tail (b : list Z) (nlh : Z) : exec Z :=
  len ← nlmsg_len b nlh; mret (nlh + NLMSG_ALIGN len).
Definition nlmsg_datalen (b : list Z) (nlh : Z) : exec Z :=
  len ← nlmsg_len b nlh; mret (s32 (len - NLMSG_HDRLEN)).
Definition nlmsg_attrdata (nlh hdrlen : Z) : Z := nlmsg_data nlh + NLMSG_ALIGN hdrlen.
Definition nlmsg_attrlen (b : list Z) (nlh hdrlen : Z) : exec Z :=
  len ← nlmsg_datalen b nlh; mret (Z.max (s32 (len - NLMSG_ALIGN hdrlen)) 0).

(** ** Iteration *)

Definition nlmsg_valid_hdr (b : list Z) (nlh hdrlen : Z) : exec bool :=
  len ← nlmsg_len b nlh;
  mret (negb (len <? u32 (nlmsg_msg_size hdrlen))).

Definition nlmsg_ok (b : list Z) (nlh remaining : Z) : exec bool :=
  if sizeof_nlmsghdr <=? remaining then
    len ← nlmsg_len b nlh;
    mret ((sizeof_nlmsghdr <=? len) && (len <=? u32 remaining))
  else mret false.

Definition nlmsg_next (b : list Z) (nlh remaining : Z) : exec (Z * Z) :=
  len ← nlmsg_len b nlh;
  let totlen := s32 (NLMSG_ALIGN len) in
  mret (nlh + totlen, s32 (remaining - totlen)).

(** ** Allocation.  [c1] and [c2] say whether the two callocs succeed. *)

Definition sockaddr_0 : sockaddr_nl := {| nl_family := 0; nl_pid := 0; nl_groups := 0 |}.
Definition ucred_0 : ucred := {| cr_pid := 0; cr_uid := 0; cr_gid := 0 |}.

Definition __nlmsg_alloc (c1 c2 : bool) (len : Z) : exec (option nl_msg) :=
  let len := if len <? sizeof_nlmsghdr then sizeof_nlmsghdr else len in
  if negb c1 then mret None
  else if negb c2 then mret None
  else
    b ← set_nlmsg_len (zeros len) 0 (nlmsg_total_size 0);
    mret (Some {| nm_protocol := -1; nm_flags := 0; nm_src := sockaddr_0;
                  nm_dst := sockaddr_0; nm_creds := ucred_0; nm_nlh := b;
                  nm_size := len; nm_refcnt := 1 |}).

Definition nlmsg_alloc (c1 c2 : bool) (default_msg_size : Z) : exec (option nl_msg) :=
  __nlmsg_alloc c1 c2 default_msg_size.

Definition nlmsg_alloc_size (c1 c2 : bool) (max : Z) : exec (option nl_msg) :=
  __nlmsg_alloc c1 c2 max.

(** The header a new message inherits: type, flags, sequence number, port. *)
Record hdr_template := { ht_type : Z; ht_flags : Z; ht_seq : Z; ht_pid : Z }.

Definition nlmsg_inherit (c1 c2 : bool) (default_msg_size : Z) (hdr : option hdr_template)
    : exec (option nl_msg) :=
  nm ← nlmsg_alloc c1 c2 default_msg_size;
  match nm, hdr with
  | Some m, Some h =>
      b ← set_nlmsg_type (nm_nlh m) 0 (ht_type h);
      b ← set_nlmsg_flags b 0 (ht_flags h);
      b ← set_nlmsg_seq b 0 (ht_seq h);
      b ← set_nlmsg_pid b 0 (ht_pid h);
      mret (Some (set_buf m b))
  | _, _ => mret nm
  end.

Definition nlmsg_alloc_simple (c1 c2 : bool) (default_msg_size nlmsgtype flags : Z)
    : exec (option nl_msg) :=
  nlmsg_inherit c1 c2 default_msg_size
    (Some {| ht_type := nlmsgtype; ht_flags := flags; ht_seq := NL_AUTO_SEQ;
             ht_pid := NL_AUTO_PORT |}).

(** The new value of the global [default_msg_size]. *)
Definition nlmsg_set_default_size (max : Z) : Z :=
  if max <? u64 (nlmsg_total_size 0) then nlmsg_total_size 0 else max.

(** A message object from the message at offset [hdr] of a receive buffer. *)
Definition nlmsg_convert (c1 c2 : bool) (b : list Z) (hdr : Z) : exec (option nl_msg) :=
  len ← nlmsg_len b hdr;
  nm ← __nlmsg_alloc c1 c2 (NLMSG_ALIGN len);
  match nm with
  | None => mret None
  | Some m =>
      d ← load b hdr len;
      b' ← store (nm_nlh m) 0 d;
      mret (Some (set_buf m b'))
  end.

(** ** Construction *)

Definition pad_len (len pad : Z) : Z :=
  if pad =? 0 then len else Z.land (u64 (len + (pad - 1))) (Z.lnot (pad - 1)).

Definition nlmsg_reserve (n : nl_msg) (len pad : Z) : exec (option Z * nl_msg) :=
  mlen ← nlmsg_len (nm_nlh n) 0;
  if nm_size n <? len then mret (None, n)
  else
    let tlen := pad_len len pad in
    if nm_size n <? u64 (tlen + mlen) then mret (None, n)
    else
      let buf := mlen in
      b ← set_nlmsg_len (nm_nlh n) 0 (mlen + tlen);
      b ← (if len <? tlen then store b (buf + len) (zeros (tlen - len)) else mret b);
      mret (Some buf, set_buf n b).

Definition nlmsg_append (n : nl_msg) (data : list Z) (len pad : Z) : exec (Z * nl_msg) :=
  '(tmp, n) ← nlmsg_reserve n len pad;
  match tmp with
  | None => mret (- NLE_NOMEM, n)
  | Some p =>
      d ← load data 0 len;
      b ← store (nm_nlh n) p d;
      mret (0, set_buf n b)
  end.

(** [fresh]: what realloc returns beyond the old contents, [None] when it fails. *)
Definition nlmsg_expand (n : nl_msg) (newlen : Z) (fresh : option (list Z)) : Z * nl_msg :=
  if newlen <=? nm_size n then (- NLE_INVAL, n)
  else match fresh with
  | None => (- NLE_NOMEM, n)
  | Some junk =>
      (0, {| nm_protocol := nm_protocol n; nm_flags := nm_flags n; nm_src := nm_src n;
             nm_dst := nm_dst n; nm_creds := nm_creds n; nm_nlh := nm_nlh n ++ junk;
             nm_size := newlen; nm_refcnt := nm_refcnt n |})
  end.

(** The offset of the header (always 0), or [None] when the payload does not fit. *)
Definition nlmsg_put (n : nl_msg) (pid seq type payload flags : Z) : exec (option Z * nl_msg) :=
  len ← nlmsg_len (nm_nlh n) 0;
  if len <? NLMSG_HDRLEN then Bug
  else
    b ← set_nlmsg_type (nm_nlh n) 0 type;
    b ← set_nlmsg_flags b 0 flags;
    b ← set_nlmsg_pid b 0 pid;
    b ← set_nlmsg_seq b 0 seq;
    let n := set_buf n b in
    if 0 <? payload then
      '(p, n) ← nlmsg_reserve n payload NLMSG_ALIGNTO;
      match p with
      | None => mret (None, n)
      | Some _ => mret (Some 0, n)
      end
    else mret (Some 0, n).

(** ** Reference counts and attributes *)

Definition nlmsg_get (m : nl_msg) : nl_msg := set_refcnt m (nm_refcnt m + 1).

(** [None]: the message has been freed. *)
Definition nlmsg_free (m : option nl_msg) : exec (option nl_msg) :=
  match m with
  | None => mret None
  | Some m =>
      let m := set_refcnt m (nm_refcnt m - 1) in
      if nm_refcnt m <? 0 then Bug
      else if nm_refcnt m <=? 0 then mret None
      else mret (Some m)
  end.

Definition nlmsg_set_proto (m : nl_msg) (protocol : Z) : nl_msg :=
  {| nm_protocol := protocol; nm_flags := nm_flags m; nm_src := nm_src m;
     nm_dst := nm_dst m; nm_creds := nm_creds m; nm_nlh := nm_nlh m;
     nm_size := nm_size m; nm_refcnt := nm_refcnt m |}.
Definition nlmsg_get_proto (m : nl_msg) : Z := nm_protocol m.
Definition nlmsg_get_max_size (m : nl_msg) : Z := nm_size m.

Definition nlmsg_set_src (m : nl_msg) (addr : sockaddr_nl) : nl_msg :=
  {| nm_protocol := nm_protocol m; nm_flags := nm_flags m; nm_src := addr;
     nm_dst := nm_dst m; nm_creds := nm_creds m; nm_nlh := nm_nlh m;
     nm_size := nm_size m; nm_refcnt := nm_refcnt m |}.
Definition nlmsg_get_src (m : nl_msg) : sockaddr_nl := nm_src m.

Definition nlmsg_set_dst (m : nl_msg) (addr : sockaddr_nl) : nl_msg :=
  {| nm_protocol := nm_protocol m; nm_flags := nm_flags m; nm_src := nm_src m;
     nm_dst := addr; nm_creds := nm_creds m; nm_nlh := nm_nlh m;
     nm_size := nm_size m; nm_refcnt := nm_refcnt m |}.
Definition nlmsg_get_dst (m : nl_msg) : sockaddr_nl := nm_dst m.

Definition nlmsg_set_creds (m : nl_msg) (creds : ucred) : nl_msg :=
  {| nm_protocol := nm_protocol m; nm_flags := set_flag (nm_flags m) NL_MSG_CRED_PRESENT;
     nm_src := nm_src m; nm_dst := nm_dst m; nm_creds := creds; nm_nlh := nm_nlh m;
     nm_size := nm_size m; nm_refcnt := nm_refcnt m |}.
Definition nlmsg_get_creds (m : nl_msg) : option ucred :=
  if has_flag (nm_flags m) NL_MSG_CRED_PRESENT then Some (nm_creds m) else None.

(** ** Invariant *)

(** The length the header states. *)
Definition msg_len (m : nl_msg) : Z := le_at 4 (nm_nlh m) 0.

(** A message owns a buffer of [nm_size] bytes, below 2 GiB, whose header
    states a length between the header's own and the buffer's. *)
Definition msg_wf (m : nl_msg) : Prop :=
  zlen (nm_nlh m) = nm_size m /\ bytes_ok (nm_nlh m) /\
  sizeof_nlmsghdr <= msg_len m <= nm_size m /\ nm_size m < 2147483648.

Lemma NLMSG_ALIGN_small x : 0 <= x < 4294967292 -> NLMSG_ALIGN x = align4 x.
Proof. intros. unfold NLMSG_ALIGN. apply u32_id. pose proof (align4_bounds x). lia. Qed.

Lemma pad_len_0 len : pad_len len 0 = len.
Proof. done. Qed.

Lemma pad_len_pow2 len k :
  0 <= k < 32 -> 0 <= len < 2147483648 ->
  pad_len len (2 ^ k) = 2 ^ k * ((len + (2 ^ k - 1)) / 2 ^ k).
Proof.
  intros Hk Hl. unfold pad_len.
  assert (0 < 2 ^ k) by (apply Z.pow_pos_nonneg; lia).
  assert (2 ^ k <= 2 ^ 31) by (apply Z.pow_le_mono_r; lia).
  destruct (2 ^ k =? 0) eqn:E; bool_hyps; [lia|].
  rewrite u64_id by lia.
  replace (2 ^ k - 1) with (Z.ones k) by (rewrite Z.ones_equiv; lia).
  rewrite <- Z.ldiff_land, Z.ldiff_ones_r by lia.
  rewrite Z.shiftl_mul_pow2, Z.shiftr_div_pow2 by lia. lia.
Qed.

Lemma pad_len_4 len : 0 <= len < 2147483648 -> pad_len len NLMSG_ALIGNTO = align4 len.
Proof.
  intros. unfold NLMSG_ALIGNTO. change 4 with (2 ^ 2).
  rewrite pad_len_pow2 by lia. change (2 ^ 2) with 4. by rewrite align4_eq.
Qed.

Lemma nlmsg_len_done m : msg_wf m -> nlmsg_len (nm_nlh m) 0 = Done (msg_len m).
Proof.
  intros (Hz & _ & Hl & _). unfold sizeof_nlmsghdr in Hl. unfold nlmsg_len.
  by rewrite get_u32_done by lia.
Qed.

Lemma nlmsg_tail_done m :
  msg_wf m -> nlmsg_tail (nm_nlh m) 0 = Done (align4 (msg_len m)).
Proof.
  intros Hm. unfold nlmsg_tail. rewrite nlmsg_len_done by done. simpl.
  destruct Hm as (_ & _ & Hl & Hs). unfold sizeof_nlmsghdr in Hl.
  rewrite NLMSG_ALIGN_small by lia. done.
Qed.

(** Replacing the length field. *)
Lemma msg_len_set b v :
  4 <= zlen b -> 0 <= v < 4294967296 -> le_at 4 (splice b 0 (le_encode 4 v)) 0 = v.
Proof.
  intros. change 4 with (Z.of_nat 4) at 1. rewrite le_at_splice_same by lia.
  apply Z.mod_small. lia.
Qed.

Lemma le_at_splice_other k b off d i :
  0 <= i -> 0 <= k -> 0 <= off -> off + zlen d <= zlen b ->
  i + k <= off \/ off + zlen d <= i ->
  le_at k (splice b off d) i = le_at k b i.
Proof.
  intros ????[]; unfold le_at; f_equal;
    [apply sub_splice_before | apply sub_splice_after]; lia.
Qed.

(** What a successful reservation of [len] bytes, padded to [tlen], leaves:
    the header states [tlen] bytes more, the padding is zero, and nothing but
    the length field and the padding has changed. *)
Definition reserved (b b' : list Z) (mlen len tlen : Z) : Prop :=
  zlen b' = zlen b /\ bytes_ok b' /\ le_at 4 b' 0 = mlen + tlen /\
  sub b' (mlen + len) (tlen - len) = zeros (tlen - len) /\
  (forall i k, 4 <= i -> 0 <= k -> i + k <= mlen + len -> sub b' i k = sub b i k) /\
  (forall i k, mlen + tlen <= i -> 0 <= k -> sub b' i k = sub b i k).

Lemma nlmsg_reserve_ok n len pad :
  msg_wf n -> 0 <= len -> len <= pad_len len pad ->
  msg_len n + pad_len len pad <= nm_size n ->
  exists b', nlmsg_reserve n len pad = Done (Some (msg_len n), set_buf n b') /\
    reserved (nm_nlh n) b' (msg_len n) len (pad_len len pad).
Proof.
  intros Hw Hlen Hpad Hfit. pose proof Hw as (Hz & Hb & Hl & Hs).
  unfold sizeof_nlmsghdr in Hl. unfold nlmsg_reserve.
  rewrite nlmsg_len_done by done. cbn [mbind exec_bind].
  set (t := pad_len len pad) in *. set (ml := msg_len n) in *.
  replace (nm_size n <? len) with false by (symmetry; apply Z.ltb_ge; lia).
  rewrite (u64_id (t + ml)) by lia.
  replace (nm_size n <? t + ml) with false by (symmetry; apply Z.ltb_ge; lia).
  unfold set_nlmsg_len. exec_step.
  destruct (len <? t) eqn:E; bool_hyps.
  - exec_step. eexists. split; [reflexivity|].
    unfold reserved. repeat split.
    + zl.
    + auto with nl.
    + rewrite le_at_splice_other by zl. apply msg_len_set; lia.
    + apply sub_splice_eq; zl.
    + intros. by sub_simpl.
    + intros. by sub_simpl.
  - assert (t = len) as Ht by lia. clearbody t. subst t.
    eexists. split; [reflexivity|]. unfold reserved. rewrite Z.sub_diag. repeat split.
    + zl.
    + auto with nl.
    + apply msg_len_set; lia.
    + intros. by sub_simpl.
    + intros. by sub_simpl.
Qed.

Lemma nlmsg_reserve_full n len pad :
  msg_wf n -> 0 <= len -> len <= pad_len len pad -> pad_len len pad < 2 ^ 63 ->
  nm_size n < msg_len n + pad_len len pad ->
  nlmsg_reserve n len pad = Done (None, n).
Proof.
  intros Hw Hlen Hpad Hmax Hfit. pose proof Hw as (Hz & Hb & Hl & Hs).
  unfold sizeof_nlmsghdr in Hl. unfold nlmsg_reserve.
  rewrite nlmsg_len_done by done. cbn [mbind exec_bind].
  destruct (nm_size n <? len); [done|]. rewrite u64_id by lia.
  by replace (nm_size n <? _) with true by (symmetry; apply Z.ltb_lt; lia).
Qed.

Lemma reserved_wf n b' len tlen :
  msg_wf n -> 0 <= tlen -> msg_len n + tlen <= nm_size n ->
  reserved (nm_nlh n) b' (msg_len n) len tlen -> msg_wf (set_buf n b').
Proof.
  intros (Hz & Hb & Hl & Hs) ?? (Hz' & Hb' & Hl' & _).
  unfold msg_wf, msg_len in *. simpl. rewrite Hl'. repeat split; auto; lia.
Qed.

(** ** Lemmas on allocation and headers *)

Lemma nlmsg_alloc_done c1 c2 len :
  len < 2147483648 ->
  exists r, __nlmsg_alloc c1 c2 len = Done r /\
    match r with
    | None => c1 && c2 = false
    | Some m => c1 && c2 = true /\ msg_wf m /\ nm_size m = Z.max len 16 /\ msg_len m = 16 /\
                nm_refcnt m = 1 /\ sub (nm_nlh m) 16 (nm_size m - 16) = zeros (nm_size m - 16)
    end.
Proof.
  intros Hlen. unfold __nlmsg_alloc. destruct c1; [|by exists None]. destruct c2; [|by exists None].
  cbn [negb]. cbv zeta. unfold sizeof_nlmsghdr.
  replace (if len <? 16 then 16 else len) with (Z.max len 16).
  2: { destruct (len <? 16) eqn:E; bool_hyps; lia. }
  set (n := Z.max len 16). assert (16 <= n < 2147483648) as Hn by lia.
  change (nlmsg_total_size 0) with 16. unfold set_nlmsg_len. exec_step.
  eexists. split; [done|]. unfold msg_wf, msg_len, sizeof_nlmsghdr. cbn [nm_nlh nm_size nm_refcnt].
  rewrite msg_len_set by zl. split_and!; try (done || lia); [zl|auto with nl|].
  rewrite sub_splice_after by zl. apply sub_zeros; lia.
Qed.

(** The four fields that follow the length, written in any order: the code of
    [nlmsg_inherit] and of [nlmsg_put] writes all of them. *)
Definition hdr_is (b : list Z) (type flags seq pid : Z) : Prop :=
  le_at 2 b 4 = u16 type /\ le_at 2 b 6 = u16 flags /\
  le_at 4 b 8 = u32 seq /\ le_at 4 b 12 = u32 pid.

Lemma le_at_put2 b off v :
  0 <= off -> off + 2 <= zlen b -> le_at 2 (splice b off (le_encode 2 v)) off = u16 v.
Proof. intros. exact (le_at_splice_same 2 b off v ltac:(done) ltac:(done)). Qed.
Lemma le_at_put4 b off v :
  0 <= off -> off + 4 <= zlen b -> le_at 4 (splice b off (le_encode 4 v)) off = u32 v.
Proof. intros. exact (le_at_splice_same 4 b off v ltac:(done) ltac:(done)). Qed.

Definition put_hdr (b : list Z) (type flags seq pid : Z) : list Z :=
  splice (splice (splice (splice b 4 (le_encode 2 type)) 6 (le_encode 2 flags))
    12 (le_encode 4 pid)) 8 (le_encode 4 seq).

Lemma put_hdr_spec b type flags seq pid :
  bytes_ok b -> 16 <= zlen b ->
  let b' := put_hdr b type flags seq pid in
  hdr_is b' type flags seq pid /\ zlen b' = zlen b /\ bytes_ok b' /\
  le_at 4 b' 0 = le_at 4 b 0 /\
  forall i k, 16 <= i -> 0 <= k -> sub b' i k = sub b i k.
Proof.
  intros Hb Hz b'. unfold b', put_hdr, hdr_is.
  split_and!; [..|zl|auto 10 with nl| |intros; by sub_simpl];
    repeat (rewrite le_at_splice_other by zl); try done;
    first [apply le_at_put2 | apply le_at_put4]; zl.
Qed.

Lemma put_hdr_wf m type flags seq pid :
  msg_wf m -> msg_wf (set_buf m (put_hdr (nm_nlh m) type flags seq pid)).
Proof.
  intros (Hz & Hb & Hl & Hs). unfold sizeof_nlmsghdr in Hl.
  destruct (put_hdr_spec (nm_nlh m) type flags seq pid) as (_ & Hz' & Hb' & Hl' & _); [done|lia|].
  unfold msg_wf, msg_len, sizeof_nlmsghdr in *. simpl. rewrite Hl'. split_and!; (done || lia).
Qed.

(** Paddings the library uses: none, or a power of two. *)
Definition pad_ok (pad : Z) : Prop := pad = 0 \/ exists k, 0 <= k <= 16 /\ pad = 2 ^ k.

Lemma pad_len_bounds len pad :
  pad_ok pad -> 0 <= len < 2147483648 -> len <= pad_len len pad < 2147483648 + 65536.
Proof.
  intros [->|(k & Hk & ->)] Hl; [rewrite pad_len_0; lia|]. rewrite pad_len_pow2 by lia.
  assert (0 < 2 ^ k) by (apply Z.pow_pos_nonneg; lia).
  assert (2 ^ k <= 2 ^ 16) by (apply Z.pow_le_mono_r; lia).
  pose proof (Z.div_mod (len + (2 ^ k - 1)) (2 ^ k)).
  pose proof (Z.mod_pos_bound (len + (2 ^ k - 1)) (2 ^ k)). lia.
Qed.

(** [appended m m' d t]: [m'] is [m] with [d] and zeros up to [t] bytes at its end. *)
Definition appended (m m' : nl_msg) (d : list Z) (t : Z) : Prop :=
  msg_wf m' /\ nm_size m' = nm_size m /\ msg_len m' = msg_len m + t /\
  sub (nm_nlh m') (msg_len m) t = d ++ zeros (t - zlen d) /\
  forall i k, 4 <= i -> 0 <= k -> i + k <= msg_len m ->
    sub (nm_nlh m') i k = sub (nm_nlh m) i k.

Lemma nlmsg_append_ok m d pad :
  msg_wf m -> bytes_ok d -> zlen d < 2147483648 -> pad_ok pad ->
  msg_len m + pad_len (zlen d) pad <= nm_size m ->
  exists m', nlmsg_append m d (zlen d) pad = Done (0, m') /\
    appended m m' d (pad_len (zlen d) pad).
Proof.
  intros Hw Hd Hn Hp Hfit. pose proof (zlen_nonneg d).
  pose proof (pad_len_bounds (zlen d) pad Hp) as Ht.
  destruct (nlmsg_reserve_ok m (zlen d) pad) as (b & Hres & Hb); [done|lia..|].
  set (t := pad_len (zlen d) pad) in *.
  pose proof (reserved_wf m b (zlen d) t Hw) as Hw'. destruct Hw' as (Hz' & Hb' & Hl' & Hs'); [lia..|done|].
  destruct Hb as (Hz & _ & Hlen & Hpad & Hlo & Hhi). destruct Hw as (Hzm & Hbm & Hlm & Hsm).
  unfold sizeof_nlmsghdr in *. unfold nlmsg_append. rewrite Hres. exec_simpl.
  rewrite load_done, sub_all by lia. exec_simpl. cbn [nm_nlh set_buf] in *. exec_step.
  eexists. split; [done|]. unfold appended, msg_wf, msg_len in *. cbn [nm_nlh set_buf nm_size] in *.
  unfold sizeof_nlmsghdr. rewrite le_at_splice_other by lia.
  split_and!; try lia; [zl|auto with nl| |].
  - replace t with (zlen d + (t - zlen d)) at 1 by lia. rewrite sub_split by lia.
    rewrite sub_splice_same by lia. f_equal. by rewrite sub_splice_after by lia.
  - intros. rewrite sub_splice_before by lia. apply Hlo; lia.
Qed.

Lemma nlmsg_append_full m d pad :
  msg_wf m -> zlen d < 2147483648 -> pad_ok pad ->
  nm_size m < msg_len m + pad_len (zlen d) pad ->
  nlmsg_append m d (zlen d) pad = Done (- NLE_NOMEM, m).
Proof.
  intros Hw Hn Hp Hf. pose proof (zlen_nonneg d). pose proof (pad_len_bounds (zlen d) pad Hp).
  unfold nlmsg_append. by rewrite nlmsg_reserve_full by (done || lia).
Qed.

Lemma nlmsg_put_steps m pid seq type payload flags :
  msg_wf m ->
  nlmsg_put m pid seq type payload flags =
  let n := set_buf m (put_hdr (nm_nlh m) type flags seq pid) in
  if 0 <? payload then
    '(p, n) ← nlmsg_reserve n payload NLMSG_ALIGNTO;
    mret (match p with None => (None, n) | Some _ => (Some 0, n) end)
  else mret (Some 0, n).
Proof.
  intros Hw. unfold nlmsg_put. rewrite nlmsg_len_done by done. exec_simpl.
  destruct Hw as (Hz & Hb & Hl & Hs). unfold sizeof_nlmsghdr, NLMSG_HDRLEN in *.
  rewrite (proj2 (Z.ltb_ge _ 16)) by lia.
  unfold set_nlmsg_type, set_nlmsg_flags, set_nlmsg_pid, set_nlmsg_seq. exec_run.
  unfold put_hdr. cbv zeta. destruct (0 <? payload); [|done].
  by destruct (nlmsg_reserve _ _ _) as [[[?|] ?]| | |].
Qed.

(** ** Sequences of operations

    The construction operations of a message owner, with the arguments the
    interface allows, as one step relation. *)
Inductive msg_op :=
| OpReserve (len pad : Z)
| OpAppend (d : list Z) (pad : Z)
| OpPut (pid seq type payload flags : Z)
| OpExpand (newlen : Z) (fresh : option (list Z))
| OpProto (protocol : Z)
| OpSrc (addr : sockaddr_nl)
| OpDst (addr : sockaddr_nl)
| OpCreds (creds : ucred)
| OpGet.

Definition run_msg_op (m : nl_msg) (op : msg_op) : exec nl_msg :=
  match op with
  | OpReserve len pad => '(_, m) ← nlmsg_reserve m len pad; mret m
  | OpAppend d pad => '(_, m) ← nlmsg_append m d (zlen d) pad; mret m
  | OpPut pid seq type payload flags =>
      '(_, m) ← nlmsg_put m pid seq type payload flags; mret m
  | OpExpand newlen fresh => mret (nlmsg_expand m newlen fresh).2
  | OpProto p => mret (nlmsg_set_proto m p)
  | OpSrc a => mret (nlmsg_set_src m a)
  | OpDst a => mret (nlmsg_set_dst m a)
  | OpCreds c => mret (nlmsg_set_creds m c)
  | OpGet => mret (nlmsg_get m)
  end.

Definition msg_op_ok (m : nl_msg) (op : msg_op) : Prop :=
  match op with
  | OpReserve len pad => 0 <= len < 2147483648 /\ pad_ok pad
  | OpAppend d pad => bytes_ok d /\ zlen d < 2147483648 /\ pad_ok pad
  | OpPut _ _ _ payload _ => 0 <= payload < 2147483648
  | OpExpand newlen (Some junk) =>
      bytes_ok junk /\ zlen junk = newlen - nm_size m /\ newlen < 2147483648
  | _ => True
  end.

Definition msg_step (m m' : nl_msg) : Prop :=
  exists op, msg_op_ok m op /\ run_msg_op m op = Done m'.

(** What the steps keep: well-formedness, and nothing already written is cut off. *)
Definition grows (m m' : nl_msg) : Prop :=
  msg_wf m' /\ msg_len m <= msg_len m' /\ nm_size m <= nm_size m'.

Lemma grows_trans m1 m2 m3 : grows m1 m2 -> grows m2 m3 -> grows m1 m3.
Proof. intros (? & ? & ?) (? & ? & ?). split; [done|lia]. Qed.

Lemma run_reserve_ok m len pad :
  msg_wf m -> 0 <= len < 2147483648 -> pad_ok pad ->
  exists m', run_msg_op m (OpReserve len pad) = Done m' /\ grows m m'.
Proof.
  intros Hw Hl Hp. pose proof (pad_len_bounds len pad Hp Hl). unfold run_msg_op, grows.
  destruct (decide (msg_len m + pad_len len pad <= nm_size m)).
  - destruct (nlmsg_reserve_ok m len pad) as (b & -> & Hb); [done|lia..|].
    eexists. split; [done|]. split; [apply (reserved_wf m b len (pad_len len pad)); (done || lia)|].
    destruct Hb as (_ & _ & Hlen & _). unfold msg_len in *. simpl. lia.
  - rewrite nlmsg_reserve_full; [by exists m|done|lia|lia|change (2 ^ 63) with 9223372036854775808; lia|lia].
Qed.

Lemma run_put_ok m pid seq type payload flags :
  msg_wf m -> 0 <= payload < 2147483648 ->
  exists m', run_msg_op m (OpPut pid seq type payload flags) = Done m' /\ grows m m'.
Proof.
  intros Hw Hp. unfold run_msg_op. rewrite nlmsg_put_steps by done. cbv zeta.
  pose proof Hw as (Hz & Hb & Hl & _). unfold sizeof_nlmsghdr in Hl.
  pose proof (put_hdr_wf m type flags seq pid Hw) as Hw1.
  destruct (put_hdr_spec (nm_nlh m) type flags seq pid) as (_ & _ & _ & Hlen & _); [done|lia|].
  set (m1 := set_buf m _) in *.
  assert (grows m m1) as Hg by (unfold grows, msg_len in *; simpl; rewrite Hlen; split_and!; (done || lia)).
  destruct (0 <? payload); [|by exists m1].
  destruct (run_reserve_ok m1 payload NLMSG_ALIGNTO) as (m2 & Hr & Hg2); [done..| |].
  { right. by exists 2. }
  exists m2. unfold run_msg_op in Hr. destruct (nlmsg_reserve m1 _ _) as [[[?|] ?]| | |]; try done;
    exec_simpl; cbn in Hr; simplify_eq; (split; [done|]); by eapply grows_trans.
Qed.

Lemma run_expand_ok m newlen fresh :
  msg_wf m -> msg_op_ok m (OpExpand newlen fresh) ->
  grows m (nlmsg_expand m newlen fresh).2.
Proof.
  intros Hw Hok. pose proof Hw as (Hz & Hb & Hl & Hs). unfold sizeof_nlmsghdr in Hl.
  assert (grows m m) as Hg by (by split_and!). unfold nlmsg_expand.
  destruct (newlen <=? nm_size m) eqn:E; [done|]. destruct fresh as [junk|]; [|done].
  bool_hyps. destruct Hok as (Hj & Hn & Hx). unfold grows, msg_wf, msg_len in *. simpl.
  assert (le_at 4 (nm_nlh m ++ junk) 0 = le_at 4 (nm_nlh m) 0) as ->
    by (unfold le_at; by rewrite sub_app_l by lia).
  unfold sizeof_nlmsghdr. split_and!; try lia; [rewrite zlen_app; lia|by apply bytes_ok_app].
Qed.

Lemma run_msg_op_ok m op :
  msg_wf m -> msg_op_ok m op -> exists m', run_msg_op m op = Done m' /\ grows m m'.
Proof.
  intros Hw Hok. destruct op as [len pad|d pad|pid seq type payload flags|newlen fresh|?|?|?|?|];
    try (eexists; split; [done|]; by split_and!).
  - destruct Hok. by apply run_reserve_ok.
  - destruct Hok as (Hd & Hn & Hp). unfold run_msg_op, grows.
    pose proof (zlen_nonneg d) as Hd0. pose proof (pad_len_bounds (zlen d) pad Hp).
    destruct (decide (msg_len m + pad_len (zlen d) pad <= nm_size m)).
    + destruct (nlmsg_append_ok m d pad) as (m' & -> & Ha); [done..|].
      exists m'. split; [done|]. destruct Ha as (? & -> & -> & _). split; [done|lia].
    + rewrite nlmsg_append_full by (done || lia). by exists m.
  - by apply run_put_ok.
  - eexists. split; [done|]. by apply run_expand_ok.
Qed.

Lemma msg_steps_grow m m' : rtc msg_step m m' -> msg_wf m -> grows m m'.
Proof.
  induction 1 as [m|m m1 m2 (op & Hok & Hrun) _ IH]; intros Hw; [by split_and!|].
  destruct (run_msg_op_ok m op) as (m1' & Hrun' & Hg); [done..|].
  rewrite Hrun in Hrun'. simplify_eq.
  eapply grows_trans; [exact Hg|]. apply IH, Hg.
Qed.

Lemma nlmsg_put_done m pid seq type payload flags :
  msg_wf m -> 0 <= payload < 2147483648 ->
  exists b', nlmsg_put m pid seq type payload flags =
      Done (if msg_len m + align4 payload <=? nm_size m then Some 0 else None, set_buf m b') /\
    msg_wf (set_buf m b') /\ hdr_is b' type flags seq pid /\
    le_at 4 b' 0 = (if msg_len m + align4 payload <=? nm_size m
                    then msg_len m + align4 payload else msg_len m).
Proof.
  intros Hw Hp. rewrite nlmsg_put_steps by done. cbv zeta.
  pose proof Hw as (Hz & Hb & Hl & Hs). unfold sizeof_nlmsghdr in Hl.
  pose proof (put_hdr_wf m type flags seq pid Hw) as Hw1.
  destruct (put_hdr_spec (nm_nlh m) type flags seq pid) as (Hh & _ & _ & Hlen & _); [done|lia|].
  set (m1 := set_buf m _) in *.
  assert (msg_len m1 = msg_len m) as Hl1 by apply Hlen.
  destruct (0 <? payload) eqn:E; bool_hyps.
  2: { assert (payload = 0) as -> by lia. change (align4 0) with 0. rewrite Z.add_0_r.
       rewrite (proj2 (Z.leb_le _ _)) by lia. by exists (nm_nlh m1). }
  pose proof (pad_len_4 payload Hp) as Hpad. pose proof (align4_bounds payload).
  destruct (msg_len m + align4 payload <=? nm_size m) eqn:E2; bool_hyps.
  - destruct (nlmsg_reserve_ok m1 payload NLMSG_ALIGNTO) as (b & Hres & Hrd);
      [done|lia|lia|rewrite Hpad, Hl1; simpl; lia|].
    rewrite Hpad in Hrd. rewrite Hres. exec_simpl. exists b. split; [done|].
    split; [apply (reserved_wf m1 b payload (align4 payload)); [done|lia|rewrite Hl1; simpl; lia|done]|].
    destruct Hrd as (_ & _ & Hlb & _ & Hlo & _). rewrite Hl1 in *. split; [|exact Hlb].
    unfold hdr_is, le_at in *. cbn [nm_nlh set_buf]. by rewrite !Hlo by lia.
  - rewrite nlmsg_reserve_full; [exec_simpl; by exists (nm_nlh m1)|done|lia|lia|rewrite Hpad; change (2 ^ 63) with 9223372036854775808; lia|rewrite Hpad, Hl1; simpl; lia].
Qed.

(** ** Properties *)

(** Appending to a well-formed message: when the padded data fits below the
    buffer size it is copied behind the current end, zero padded, with the
    message length advanced by exactly the padded size and everything before it
    untouched; when it does not fit the message is unchanged and the result is
    [-NLE_NOMEM]. *)
Theorem nlmsg_append_spec m d pad :
  msg_wf m -> bytes_ok d -> zlen d < 2147483648 -> pad_ok pad ->
  let t := pad_len (zlen d) pad in
  if msg_len m + t <=? nm_size m then
    exists m', nlmsg_append m d (zlen d) pad = Done (0, m') /\ appended m m' d t
  else nlmsg_append m d (zlen d) pad = Done (- NLE_NOMEM, m).
Proof.
  intros Hw Hd Hn Hp t. destruct (msg_len m + t <=? nm_size m) eqn:E; bool_hyps.
  - by apply nlmsg_append_ok.
  - by apply nlmsg_append_full.
Qed.

(** [nlmsg_put] fills in the header of a well-formed message and reserves
    the aligned payload behind what is there, or reports that it does not fit;
    in both cases the message stays well formed and the header holds the given
    type, flags, sequence number and port, truncated to their widths. *)
Theorem nlmsg_put_spec m pid seq type payload flags :
  msg_wf m -> 0 <= payload < 2147483648 ->
  exists m', nlmsg_put m pid seq type payload flags =
      Done (if msg_len m + align4 payload <=? nm_size m then Some 0 else None, m') /\
    msg_wf m' /\ hdr_is (nm_nlh m') type flags seq pid /\
    msg_len m' = (if msg_len m + align4 payload <=? nm_size m
                  then msg_len m + align4 payload else msg_len m).
Proof.
  intros Hw Hp. destruct (nlmsg_put_done m pid seq type payload flags Hw Hp) as (b & Hput & Hw' & Hh & Hl).
  by exists (set_buf m b).
Qed.

(** [nlmsg_convert] copies a received message: given room for it in the
    receive buffer, the new message is well formed, has the padded size, one
    reference, and its bytes are those of the message received. *)
Theorem nlmsg_convert_spec b hdr :
  bytes_ok b -> 0 <= hdr -> hdr + 16 <= zlen b ->
  let len := le_at 4 b hdr in
  16 <= len < 2147483644 -> hdr + len <= zlen b ->
  exists m, nlmsg_convert true true b hdr = Done (Some m) /\ msg_wf m /\
    nm_size m = align4 len /\ nm_refcnt m = 1 /\
    sub (nm_nlh m) 0 len = sub b hdr len.
Proof.
  intros Hb Hh Hz len Hlen Hfit. pose proof (align4_bounds len).
  unfold nlmsg_convert, nlmsg_len. exec_step. fold len.
  rewrite NLMSG_ALIGN_small by lia.
  destruct (nlmsg_alloc_done true true (align4 len)) as (r & -> & Hr); [lia|].
  destruct r as [m|]; [|done].
  destruct Hr as (_ & (Hzm & Hbm & Hlm & Hsm) & Hsize & Hml & Href & _).
  exec_simpl. rewrite load_done by lia. exec_simpl.
  assert (zlen (sub b hdr len) = len) as Hzs by (apply zlen_sub; lia).
  rewrite store_done by lia. exec_simpl. eexists. split; [done|].
  cbn [nm_nlh set_buf nm_size nm_refcnt].
  assert (sub (splice (nm_nlh m) 0 (sub b hdr len)) 0 len = sub b hdr len) as Hs0
    by (apply sub_splice_eq; lia).
  split_and!; [|lia|done|done].
  assert (le_at 4 (splice (nm_nlh m) 0 (sub b hdr len)) 0 = len) as Hln.
  { unfold le_at. rewrite <- (sub_sub _ 0 len 0 4) by lia. rewrite Hs0.
    rewrite sub_sub, Z.add_0_r by lia. done. }
  unfold msg_wf, msg_len. cbn [nm_nlh set_buf nm_size]. rewrite Hln.
  unfold sizeof_nlmsghdr. split_and!; [zl|auto with nl|lia..].
Qed.

(** C8. A message is memory safe over its life: whatever sequence of
    construction operations follows a successful allocation, the buffer, its
    length and the length in the header stay consistent, the written part and
    the buffer never shrink, and every further operation ends without touching
    memory outside the buffer and without reaching BUG(). *)
Theorem msg_ops_safe size m0 m :
  size < 2147483648 -> __nlmsg_alloc true true size = Done (Some m0) -> rtc msg_step m0 m ->
  msg_wf m /\ 16 <= msg_len m /\ Z.max size 16 <= nm_size m /\
  forall op, msg_op_ok m op -> exists m', run_msg_op m op = Done m'.
Proof.
  intros Hsize Halloc Hsteps. destruct (nlmsg_alloc_done true true size) as (r & Hr & Hm); [done|].
  rewrite Halloc in Hr. simplify_eq. destruct Hm as (_ & Hw & Hs & Hl & _).
  destruct (msg_steps_grow m0 m) as (Hw' & ? & ?); [done..|]. split_and!; [done|lia..|].
  intros op Hok. destruct (run_msg_op_ok m op) as (m' & ? & _); [done..|]. by exists m'.
Qed.

(** ** The properties at concrete inputs *)

(** A message of 64 bytes that holds its header only. *)
Definition ex_msg : nl_msg :=
  {| nm_protocol := 0; nm_flags := 0; nm_src := sockaddr_0; nm_dst := sockaddr_0;
     nm_creds := ucred_0; nm_nlh := le_encode 4 16 ++ zeros 60; nm_size := 64;
     nm_refcnt := 1 |}.

Lemma ex_msg_wf : msg_wf ex_msg.
Proof.
  unfold msg_wf. split_and!; [done|by apply bytes_ok_dec|by vm_compute..].
Qed.


Lemma nlmsg_append_spec_witness :
  exists m', nlmsg_append ex_msg [1; 2; 3; 4; 5] 5 4 = Done (0, m') /\
    appended ex_msg m' [1; 2; 3; 4; 5] 8.
Proof.
  apply (nlmsg_append_spec ex_msg [1; 2; 3; 4; 5] 4);
    [apply ex_msg_wf|by apply bytes_ok_dec|done|right; by exists 2].
Defined.

Lemma nlmsg_put_spec_witness :
  exists m', nlmsg_put ex_msg 7 9 16 20 5 = Done (Some 0, m') /\
    msg_wf m' /\ hdr_is (nm_nlh m') 16 5 9 7 /\ msg_len m' = 36.
Proof. apply (nlmsg_put_spec ex_msg 7 9 16 20 5); [apply ex_msg_wf|done]. Defined.

Definition ex_rx : list Z := [0; 0] ++ le_encode 4 18 ++ zeros 12 ++ [55; 66; 0; 0].

Lemma nlmsg_convert_spec_witness :
  exists m, nlmsg_convert true true ex_rx 2 = Done (Some m) /\ msg_wf m /\
    nm_size m = 20 /\ nm_refcnt m = 1 /\ sub (nm_nlh m) 0 18 = sub ex_rx 2 18.
Proof.
  apply (nlmsg_convert_spec ex_rx 2); [by apply bytes_ok_dec|done|done|done|done].
Defined.

Definition ex_alloc : nl_msg :=
  match __nlmsg_alloc true true 40 with Done (Some m) => m | _ => ex_msg end.
Definition ex_grown : nl_msg :=
  match run_msg_op ex_alloc (OpAppend [1; 2; 3; 4; 5] 4) with Done m => m | _ => ex_msg end.

Lemma ex_grown_step : rtc msg_step ex_alloc ex_grown.
Proof.
  apply rtc_once. exists (OpAppend [1; 2; 3; 4; 5] 4). split; [|reflexivity].
  split_and!; [by apply bytes_ok_dec|done|right; by exists 2].
Qed.

Lemma msg_ops_safe_witness :
  msg_wf ex_grown /\ 16 <= msg_len ex_grown /\ Z.max 40 16 <= nm_size ex_grown /\
  forall op, msg_op_ok ex_grown op -> exists m', run_msg_op ex_grown op = Done m'.
Proof. apply (msg_ops_safe 40 ex_alloc ex_grown); [done|reflexivity|apply ex_grown_step]. Defined.
