(* ===== verification/Attr.v ===== *)
(** Netlink attributes (lib/attr.c, the iteration macros of
    include/netlink/attr.h, and the parsing wrappers of lib/msg.c): access,
    iteration, validation against a policy, parsing into an index, lookup,
    construction, typed payloads and nesting.

    An attribute is the offset of its 4 byte header in a buffer. *)
From S2P Require Import Prelude Errors Msg.

(** ** Constants and data *)

Definition NLA_HDRLEN := 4.
Definition sizeof_nlattr := 4.
Definition NLA_F_NESTED := 32768.
Definition NLA_F_NET_BYTEORDER := 16384.
Definition NLA_TYPE_MASK := Z.lnot (Z.lor NLA_F_NESTED NLA_F_NET_BYTEORDER).
Definition NLA_ALIGN (len : Z) : Z := s32 (align4 len).

(** Attribute types of a policy, in the order of the enum. *)
Definition NLA_UNSPEC := 0.
Definition NLA_U8 := 1.
Definition NLA_U16 := 2.
Definition NLA_U32 := 3.
Definition NLA_U64 := 4.
Definition NLA_STRING := 5.
Definition NLA_FLAG := 6.
Definition NLA_NESTED := 8.
Definition NLA_S32 := 14.
Definition NLA_TYPE_MAX := 15.

Record nla_policy := { pol_type : Z; pol_minlen : Z; pol_maxlen : Z }.

Definition nla_attr_minlen : list Z := [0; 1; 2; 4; 8; 1; 0; 0; 0; 0; 0; 0; 0; 0; 0; 0].

(** The two fields of [struct nlattr]. *)
Definition nlattr_len (b : list Z) (nla : Z) : exec Z := get_u16 b nla.
Definition nlattr_type (b : list Z) (nla : Z) : exec Z := get_u16 b (nla + 2).

(** ** Size calculations and access *)

Definition nla_attr_size (payload : Z) : Z := s32 (NLA_HDRLEN + payload).
Definition nla_total_size (payload : Z) : Z := NLA_ALIGN (nla_attr_size payload).
Definition nla_padlen (payload : Z) : Z := s32 (nla_total_size payload - nla_attr_size payload).

Definition nla_type (b : list Z) (nla : Z) : exec Z :=
  t ← nlattr_type b nla; mret (Z.land t NLA_TYPE_MASK).
Definition nla_data (nla : Z) : Z := nla + NLA_HDRLEN.
Definition nla_len (b : list Z) (nla : Z) : exec Z :=
  l ← nlattr_len b nla; mret (l - NLA_HDRLEN).

(** ** Iteration *)

Definition nla_ok (b : list Z) (nla remaining : Z) : exec bool :=
  if sizeof_nlattr <=? remaining then
    l ← nlattr_len b nla;
    mret ((sizeof_nlattr <=? l) && (l <=? remaining))
  else mret false.

Definition nla_next (b : list Z) (nla remaining : Z) : exec (Z * Z) :=
  l ← nlattr_len b nla;
  let totlen := NLA_ALIGN l in
  mret (nla + totlen, remaining - totlen).

(** The loop of the macro [nla_for_each_attr]: the body maps the loop's state
    and the attribute to a new state ([inl]) or leaves the loop ([inr]).
    Every round takes at least 4 of the [len] bytes, so [len] rounds do. *)
Fixpoint attr_loop {S R} (fuel : nat) (b : list Z) (body : S -> Z -> exec (S + R))
    (pos rem : Z) (st : S) : exec (S + R) :=
  ok ← nla_ok b pos rem;
  if ok : bool then
    match fuel with
    | O => NoFuel
    | Datatypes.S fuel =>
        r ← body st pos;
        match r with
        | inr x => mret (inr x)
        | inl st =>
            '(pos, rem) ← nla_next b pos rem;
            attr_loop fuel b body pos rem st
        end
    end
  else mret (inl st).

Definition nla_for_each_attr {S R} (b : list Z) (body : S -> Z -> exec (S + R))
    (head len : Z) (st : S) : exec (S + R) :=
  attr_loop (Z.to_nat len) b body head len st.

Definition nla_for_each_nested {S R} (b : list Z) (body : S -> Z -> exec (S + R))
    (nla : Z) (st : S) : exec (S + R) :=
  len ← nla_len b nla;
  nla_for_each_attr b body (nla_data nla) len st.

(** ** Validation and parsing *)

Definition validate_nla (b : list Z) (nla maxtype : Z) (policy : option (list nla_policy))
    : exec Z :=
  type ← nla_type b nla;
  if (type <? 0) || (maxtype <? type) then mret 0
  else match policy ≫= (fun p => p !! Z.to_nat type) with
  | None => Fault
  | Some pt =>
      if NLA_TYPE_MAX <? pol_type pt then Bug
      else
        let minlen :=
          if negb (pol_minlen pt =? 0) then pol_minlen pt
          else if negb (pol_type pt =? NLA_UNSPEC)
               then nth (Z.to_nat (pol_type pt)) nla_attr_minlen 0
               else 0 in
        len ← nla_len b nla;
        if u32 len <? minlen then mret (- NLE_RANGE)
        else if negb (pol_maxlen pt =? 0) && (pol_maxlen pt <? len) then mret (- NLE_RANGE)
        else if pol_type pt =? NLA_STRING then
          c ← get_u8 b (nla_data nla + (len - 1));
          if negb (c =? 0) then mret (- NLE_INVAL) else mret 0
        else mret 0
  end.

(** The index [tb] has [maxtype + 1] entries; a pointer is the offset of an
    attribute, NULL is [None]. *)
Definition nla_parse_body (b : list Z) (maxtype : Z) (policy : option (list nla_policy))
    (tb : list (option Z)) (nla : Z) : exec (list (option Z) + (Z * list (option Z))) :=
  type ← nla_type b nla;
  if maxtype <? type then mret (inl tb)
  else
    err ← (match policy with
           | Some _ => validate_nla b nla maxtype policy
           | None => mret 0
           end);
    if err <? 0 then mret (inr (err, tb))
    else mret (inl (<[Z.to_nat type := Some nla]> tb)).

Definition nla_parse (b : list Z) (maxtype head len : Z) (policy : option (list nla_policy))
    : exec (Z * list (option Z)) :=
  let tb := replicate (Z.to_nat (maxtype + 1)) None in
  r ← nla_for_each_attr b (nla_parse_body b maxtype policy) head len tb;
  match r with
  | inl tb => mret (0, tb)
  | inr x => mret x
  end.

Definition nla_validate_body (b : list Z) (maxtype : Z) (policy : option (list nla_policy))
    (_ : unit) (nla : Z) : exec (unit + Z) :=
  err ← validate_nla b nla maxtype policy;
  if err <? 0 then mret (inr err) else mret (inl tt).

Definition nla_validate (b : list Z) (head len maxtype : Z) (policy : option (list nla_policy))
    : exec Z :=
  r ← nla_for_each_attr b (nla_validate_body b maxtype policy) head len tt;
  match r with
  | inl _ => mret 0
  | inr err => mret err
  end.

Definition nla_find_body (b : list Z) (attrtype : Z) (_ : unit) (nla : Z) : exec (unit + Z) :=
  type ← nla_type b nla;
  if type =? attrtype then mret (inr nla) else mret (inl tt).

Definition nla_find (b : list Z) (head len attrtype : Z) : exec (option Z) :=
  r ← nla_for_each_attr b (nla_find_body b attrtype) head len tt;
  match r with
  | inl _ => mret None
  | inr nla => mret (Some nla)
  end.

Definition nla_parse_nested (b : list Z) (maxtype nla : Z) (policy : option (list nla_policy))
    : exec (Z * list (option Z)) :=
  len ← nla_len b nla;
  nla_parse b maxtype (nla_data nla) len policy.

Definition nla_is_nested (b : list Z) (attr : Z) : exec bool :=
  t ← nlattr_type b attr; mret (has_flag t NLA_F_NESTED).

(** The wrappers of lib/msg.c. *)
Definition nlmsg_parse (b : list Z) (nlh hdrlen maxtype : Z) (policy : option (list nla_policy))
    : exec (Z * list (option Z)) :=
  valid ← nlmsg_valid_hdr b nlh hdrlen;
  if negb valid then mret (- NLE_MSG_TOOSHORT, [])
  else
    len ← nlmsg_attrlen b nlh hdrlen;
    nla_parse b maxtype (nlmsg_attrdata nlh hdrlen) len policy.

Definition nlmsg_find_attr (b : list Z) (nlh hdrlen attrtype : Z) : exec (option Z) :=
  len ← nlmsg_attrlen b nlh hdrlen;
  nla_find b (nlmsg_attrdata nlh hdrlen) len attrtype.

Definition nlmsg_validate (b : list Z) (nlh hdrlen maxtype : Z)
    (policy : option (list nla_policy)) : exec Z :=
  valid ← nlmsg_valid_hdr b nlh hdrlen;
  if negb valid then mret (- NLE_MSG_TOOSHORT)
  else
    len ← nlmsg_attrlen b nlh hdrlen;
    nla_validate b (nlmsg_attrdata nlh hdrlen) len maxtype policy.

(** ** Helper functions *)

Definition nla_memcpy (b dest : list Z) (src : option Z) (count : Z) : exec (Z * list Z) :=
  match src with
  | None => mret (0, dest)
  | Some src =>
      len ← nla_len b src;
      let minlen := Z.min count len in
      d ← load b (nla_data src) minlen;
      dest ← store dest 0 d;
      mret (minlen, dest)
  end.

Definition nla_strlcpy (b dst : list Z) (nla dstsize : Z) : exec (Z * list Z) :=
  len ← nla_len b nla;
  let srclen := u64 len in
  let src := nla_data nla in
  srclen ← (if 0 <? srclen then
              c ← get_u8 b (src + (srclen - 1));
              mret (if c =? 0 then srclen - 1 else srclen)
            else mret srclen);
  if 0 <? dstsize then
    let len := if dstsize <=? srclen then dstsize - 1 else srclen in
    dst ← store dst 0 (zeros dstsize);
    d ← load b src len;
    dst ← store dst 0 d;
    mret (srclen, dst)
  else mret (srclen, dst).

Definition nla_memcmp (b : list Z) (nla : Z) (data : list Z) (size : Z) : exec Z :=
  len ← nla_len b nla;
  let d := s32 (len - size) in
  if d =? 0 then
    x ← load b (nla_data nla) size;
    y ← load data 0 size;
    mret (memcmp x y)
  else mret d.

(** [str]: the characters before the terminating NUL. *)
Definition nla_strcmp (b : list Z) (nla : Z) (str : list Z) : exec Z :=
  let len := zlen str + 1 in
  l ← nla_len b nla;
  let d := s32 (l - len) in
  if d =? 0 then
    x ← load b (nla_data nla) len;
    mret (memcmp x (str ++ [0]))
  else mret d.

(** ** Construction *)

Definition nla_reserve (msg : nl_msg) (attrtype attrlen : Z) : exec (option Z * nl_msg) :=
  if attrlen <? 0 then mret (None, msg)
  else
    mlen ← nlmsg_len (nm_nlh msg) 0;
    let tlen := s32 (NLMSG_ALIGN mlen + nla_total_size attrlen) in
    if nm_size msg <? u64 tlen then mret (None, msg)
    else
      nla ← nlmsg_tail (nm_nlh msg) 0;
      b ← put_u16 (nm_nlh msg) (nla + 2) attrtype;
      b ← put_u16 b nla (nla_attr_size attrlen);
      b ← (if negb (attrlen =? 0) then
             l ← nlattr_len b nla;
             store b (nla + l) (zeros (nla_padlen attrlen))
           else mret b);
      b ← set_nlmsg_len b 0 tlen;
      mret (Some nla, set_buf msg b).

(** [data]: the memory the source pointer points to. *)
Definition nla_put (msg : nl_msg) (attrtype datalen : Z) (data : list Z) : exec (Z * nl_msg) :=
  '(nla, msg) ← nla_reserve msg attrtype datalen;
  match nla with
  | None => if datalen <? 0 then mret (- NLE_INVAL, msg) else mret (- NLE_NOMEM, msg)
  | Some nla =>
      if 0 <? datalen then
        d ← load data 0 datalen;
        b ← store (nm_nlh msg) (nla_data nla) d;
        mret (0, set_buf msg b)
      else mret (0, msg)
  end.

(** *** Integers *)

Definition nla_put_s8 (msg : nl_msg) (attrtype value : Z) := nla_put msg attrtype 1 (le_encode 1 value).
Definition nla_get_s8 (b : list Z) (nla : Z) : exec Z := s8 <$> get_u8 b (nla_data nla).
Definition nla_put_u8 (msg : nl_msg) (attrtype value : Z) := nla_put msg attrtype 1 (le_encode 1 value).
Definition nla_get_u8 (b : list Z) (nla : Z) : exec Z := get_u8 b (nla_data nla).
Definition nla_put_s16 (msg : nl_msg) (attrtype value : Z) := nla_put msg attrtype 2 (le_encode 2 value).
Definition nla_get_s16 (b : list Z) (nla : Z) : exec Z := s16 <$> get_u16 b (nla_data nla).
Definition nla_put_u16 (msg : nl_msg) (attrtype value : Z) := nla_put msg attrtype 2 (le_encode 2 value).
Definition nla_get_u16 (b : list Z) (nla : Z) : exec Z := get_u16 b (nla_data nla).
Definition nla_put_s32 (msg : nl_msg) (attrtype value : Z) := nla_put msg attrtype 4 (le_encode 4 value).
Definition nla_get_s32 (b : list Z) (nla : Z) : exec Z := s32 <$> get_u32 b (nla_data nla).
Definition nla_put_u32 (msg : nl_msg) (attrtype value : Z) := nla_put msg attrtype 4 (le_encode 4 value).
Definition nla_get_u32 (b : list Z) (nla : Z) : exec Z := get_u32 b (nla_data nla).
Definition nla_put_s64 (msg : nl_msg) (attrtype value : Z) := nla_put msg attrtype 8 (le_encode 8 value).
Definition nla_get_s64 (b : list Z) (nla : option Z) : exec Z :=
  match nla with
  | None => mret 0
  | Some nla =>
      len ← nla_len b nla;
      if 8 <=? u64 len then s64 <$> get_u64 b (nla_data nla) else mret 0
  end.
Definition nla_put_u64 (msg : nl_msg) (attrtype value : Z) := nla_put msg attrtype 8 (le_encode 8 value).
Definition nla_get_u64 (b : list Z) (nla : option Z) : exec Z :=
  match nla with
  | None => mret 0
  | Some nla =>
      len ← nla_len b nla;
      if 8 <=? u64 len then get_u64 b (nla_data nla) else mret 0
  end.

(** *** Strings, flags, milliseconds *)

Definition nla_put_string (msg : nl_msg) (attrtype : Z) (str : list Z) : exec (Z * nl_msg) :=
  nla_put msg attrtype (zlen str + 1) (str ++ [0]).

Definition nla_get_string (nla : Z) : Z := nla_data nla.

(** The characters of the NUL-terminated string the bytes [l] start with. *)
Fixpoint c_string (l : list Z) : exec (list Z) :=
  match l with
  | [] => Fault
  | c :: l => if c =? 0 then mret [] else (cons c) <$> c_string l
  end.

Definition nla_strdup (b : list Z) (nla : Z) : exec (list Z) :=
  c_string (drop (Z.to_nat (nla_get_string nla)) b).

Definition nla_put_flag (msg : nl_msg) (attrtype : Z) : exec (Z * nl_msg) :=
  nla_put msg attrtype 0 [].
Definition nla_get_flag (nla : option Z) : Z := match nla with Some _ => 1 | None => 0 end.

Definition nla_put_msecs (n : nl_msg) (attrtype msecs : Z) := nla_put_u64 n attrtype msecs.
Definition nla_get_msecs (b : list Z) (nla : option Z) : exec Z := nla_get_u64 b nla.

(** *** Nesting *)

Definition nla_put_nested (msg : nl_msg) (attrtype : Z) (nested : nl_msg) : exec (Z * nl_msg) :=
  len ← nlmsg_datalen (nm_nlh nested) 0;
  nla_put msg attrtype len (drop (Z.to_nat (nlmsg_data 0)) (nm_nlh nested)).

Definition nla_nest_start (msg : nl_msg) (attrtype : Z) : exec (option Z * nl_msg) :=
  start ← nlmsg_tail (nm_nlh msg) 0;
  '(err, msg) ← nla_put msg (Z.lor NLA_F_NESTED attrtype) 0 [];
  if err <? 0 then mret (None, msg) else mret (Some start, msg).

Definition nla_nest_cancel (msg : nl_msg) (attr : Z) : exec nl_msg :=
  tail ← nlmsg_tail (nm_nlh msg) 0;
  let len := tail - attr in
  if len <? 0 then Bug
  else if 0 <? len then
    mlen ← nlmsg_len (nm_nlh msg) 0;
    b ← set_nlmsg_len (nm_nlh msg) 0 (mlen - len);
    tail ← nlmsg_tail b 0;
    b ← store b tail (zeros len);
    mret (set_buf msg b)
  else mret msg.

Definition _nest_end (msg : nl_msg) (start : Z) (keep_empty : bool) : exec (Z * nl_msg) :=
  tail ← nlmsg_tail (nm_nlh msg) 0;
  let len := u64 (tail - start) in
  if (USHRT_MAX <? len) || (negb keep_empty && (len =? NLA_HDRLEN)) then
    msg ← nla_nest_cancel msg start;
    mret (if len =? NLA_HDRLEN then 0 else - NLE_ATTRSIZE, msg)
  else
    b ← put_u16 (nm_nlh msg) start len;
    let msg := set_buf msg b in
    mlen ← nlmsg_len (nm_nlh msg) 0;
    let pad := u32 (NLMSG_ALIGN mlen - mlen) in
    if 0 <? pad then
      '(p, msg) ← nlmsg_reserve msg pad 0;
      match p with
      | None => Bug
      | Some _ => mret (0, msg)
      end
    else mret (0, msg).

Definition nla_nest_end (msg : nl_msg) (start : Z) := _nest_end msg start false.
Definition nla_nest_end_keep_empty (msg : nl_msg) (start : Z) := _nest_end msg start true.

(** ** The attributes of a buffer, as a list of offsets

    [attr_stream b pos rem l]: [l] are the attributes in the [rem] bytes from
    [pos], in order, up to the first place where no attribute fits. *)

Definition attr_len (b : list Z) (nla : Z) : Z := le_at 2 b nla.
Definition attr_type (b : list Z) (nla : Z) : Z := Z.land (le_at 2 b (nla + 2)) NLA_TYPE_MASK.
Definition attr_payload (b : list Z) (nla : Z) : list Z :=
  sub b (nla + NLA_HDRLEN) (attr_len b nla - NLA_HDRLEN).

Definition attr_ok (b : list Z) (pos rem : Z) : bool :=
  (4 <=? rem) && (4 <=? attr_len b pos) && (attr_len b pos <=? rem).

Inductive attr_stream (b : list Z) : Z -> Z -> list Z -> Prop :=
| attr_stream_end pos rem :
    attr_ok b pos rem = false -> attr_stream b pos rem []
| attr_stream_next pos rem l :
    attr_ok b pos rem = true ->
    attr_stream b (pos + align4 (attr_len b pos)) (rem - align4 (attr_len b pos)) l ->
    attr_stream b pos rem (pos :: l).

Fixpoint attrs_aux (fuel : nat) (b : list Z) (pos rem : Z) : list Z :=
  match fuel with
  | O => []
  | S fuel =>
      if attr_ok b pos rem then
        pos :: attrs_aux fuel b (pos + align4 (attr_len b pos)) (rem - align4 (attr_len b pos))
      else []
  end.

Definition attrs (b : list Z) (head len : Z) : list Z := attrs_aux (Z.to_nat len) b head len.

(** A left-to-right pass over a list with early exit: what the loop is. *)
Fixpoint foldx {S R} (body : S -> Z -> exec (S + R)) (st : S) (l : list Z) : exec (S + R) :=
  match l with
  | [] => mret (inl st)
  | nla :: l =>
      r ← body st nla;
      match r with
      | inr x => mret (inr x)
      | inl st => foldx body st l
      end
  end.

(** [nla] is the offset of an attribute that lies in the [len] bytes from [head]. *)
Definition attr_in (b : list Z) (head len nla : Z) : Prop :=
  head <= nla /\ 4 <= attr_len b nla /\ nla + attr_len b nla <= head + len.

(** ** Lemmas on the iteration *)

Lemma NLA_ALIGN_small x : 0 <= x < 2147483644 -> NLA_ALIGN x = align4 x.
Proof. intros. unfold NLA_ALIGN. apply s32_id. pose proof (align4_bounds x). lia. Qed.

Lemma attr_len_range b nla : bytes_ok b -> 0 <= attr_len b nla < 65536.
Proof. intros. apply (le_at_range 2); auto; lia. Qed.

Lemma attr_ok_true b pos rem :
  attr_ok b pos rem = true <-> 4 <= rem /\ 4 <= attr_len b pos <= rem.
Proof. unfold attr_ok. rewrite !andb_true_iff, !Z.leb_le. lia. Qed.

Lemma attr_ok_false b pos rem :
  attr_ok b pos rem = false <-> rem < 4 \/ attr_len b pos < 4 \/ rem < attr_len b pos.
Proof. rewrite <- not_true_iff_false, attr_ok_true. lia. Qed.

Lemma attr_stream_attrs b head len : attr_stream b head len (attrs b head len).
Proof.
  unfold attrs. remember (Z.to_nat len) as f eqn:Hf.
  assert (Z.to_nat len <= f)%nat as H by lia. clear Hf.
  revert head len H. induction f as [|f IH]; intros; simpl.
  - apply attr_stream_end. apply attr_ok_false. lia.
  - destruct (attr_ok b head len) eqn:E; [|by apply attr_stream_end].
    apply attr_stream_next; [done|]. apply IH.
    apply attr_ok_true in E. pose proof (align4_bounds (attr_len b head)). lia.
Qed.

Lemma attr_stream_det b pos rem l l' :
  attr_stream b pos rem l -> attr_stream b pos rem l' -> l = l'.
Proof.
  intros H. revert l'. induction H; inversion 1; subst; try congruence.
  f_equal. auto.
Qed.

Lemma attrs_eq b head len l : attr_stream b head len l -> attrs b head len = l.
Proof. intros. eapply attr_stream_det; eauto using attr_stream_attrs. Qed.

Lemma attr_stream_in b head len l :
  attr_stream b head len l -> Forall (attr_in b head len) l.
Proof.
  induction 1 as [|pos rem l Hok _ IH]; constructor.
  - apply attr_ok_true in Hok. unfold attr_in. lia.
  - apply attr_ok_true in Hok. pose proof (align4_bounds (attr_len b pos)).
    eapply Forall_impl; [exact IH|]. unfold attr_in. intros; simpl in *. lia.
Qed.

Lemma attrs_in b head len : Forall (attr_in b head len) (attrs b head len).
Proof. apply attr_stream_in, attr_stream_attrs. Qed.

Lemma nla_ok_done b pos rem :
  0 <= pos -> pos + rem <= zlen b -> nla_ok b pos rem = Done (attr_ok b pos rem).
Proof.
  intros. unfold nla_ok, attr_ok, sizeof_nlattr.
  destruct (4 <=? rem) eqn:E; [|done]. bool_hyps.
  unfold nlattr_len. exec_step. done.
Qed.

Lemma nla_next_done b pos rem :
  bytes_ok b -> 0 <= pos -> 4 <= rem -> pos + rem <= zlen b ->
  nla_next b pos rem = Done (pos + align4 (attr_len b pos), rem - align4 (attr_len b pos)).
Proof.
  intros Hb **. unfold nla_next, nlattr_len. exec_step.
  pose proof (attr_len_range b pos Hb). unfold attr_len in *.
  by rewrite NLA_ALIGN_small by lia.
Qed.

Lemma attr_loop_refines {S R} b (body : S -> Z -> exec (S + R)) pos rem l :
  attr_stream b pos rem l -> bytes_ok b -> 0 <= pos -> pos + rem <= zlen b ->
  forall fuel st, (Z.to_nat rem <= fuel)%nat ->
  attr_loop fuel b body pos rem st = foldx body st l.
Proof.
  intros Hs Hb. induction Hs as [pos rem Hok|pos rem l Hok _ IH]; intros Hp Hr fuel st Hf.
  - destruct fuel; simpl; by rewrite nla_ok_done, Hok by lia.
  - pose proof Hok as Hok'. apply attr_ok_true in Hok'.
    pose proof (align4_bounds (attr_len b pos)).
    destruct fuel as [|fuel]; [lia|]. simpl.
    rewrite nla_ok_done, Hok by lia. simpl.
    destruct (body st pos) as [[st'|x]| | |]; simpl; try done.
    rewrite nla_next_done by (auto; lia). simpl. apply IH; lia.
Qed.

Lemma nla_for_each_attr_foldx {S R} b (body : S -> Z -> exec (S + R)) head len st :
  bytes_ok b -> 0 <= head -> head + len <= zlen b ->
  nla_for_each_attr b body head len st = foldx body st (attrs b head len).
Proof.
  intros. unfold nla_for_each_attr.
  apply attr_loop_refines; auto using attr_stream_attrs.
Qed.

(** ** Lemmas on access *)

Lemma land_type_mask x : 0 <= x < 65536 -> Z.land x NLA_TYPE_MASK = x mod 2 ^ 14.
Proof.
  intros Hx. unfold NLA_TYPE_MASK.
  change (Z.lor NLA_F_NESTED NLA_F_NET_BYTEORDER) with (Z.shiftl (Z.ones 2) 14).
  rewrite <- Z.land_ones by lia. apply Z.bits_inj'. intros k Hk.
  rewrite !Z.land_spec, Z.lnot_spec, Z.shiftl_spec by lia.
  rewrite (Z.testbit_ones_nonneg 14) by lia.
  destruct (decide (k < 14)).
  { rewrite (proj2 (Z.ltb_lt k 14)) by lia. by rewrite (Z.testbit_neg_r _ (k - 14)) by lia. }
  rewrite (proj2 (Z.ltb_ge k 14)) by lia. rewrite andb_false_r.
  destruct (decide (k < 16)).
  { rewrite Z.testbit_ones_nonneg by lia. rewrite (proj2 (Z.ltb_lt (k - 14) 2)) by lia.
    by rewrite andb_false_r. }
  apply andb_false_intro1. apply Z.testbit_false; [lia|].
  rewrite Z.div_small; [done|]. split; [lia|].
  eapply Z.lt_le_trans; [|apply (Z.pow_le_mono_r 2 16); lia]. lia.
Qed.

Lemma attr_type_range b nla : bytes_ok b -> 0 <= attr_type b nla < 16384.
Proof.
  intros Hb. pose proof (le_at_range 2 b (nla + 2) Hb).
  unfold attr_type. rewrite land_type_mask by lia. apply Z.mod_pos_bound. lia.
Qed.

Lemma nla_type_done b head len nla :
  attr_in b head len nla -> 0 <= head -> head + len <= zlen b ->
  nla_type b nla = Done (attr_type b nla).
Proof.
  unfold attr_in. intros. unfold nla_type, nlattr_type. by exec_step.
Qed.

Lemma nla_len_done b head len nla :
  attr_in b head len nla -> 0 <= head -> head + len <= zlen b ->
  nla_len b nla = Done (attr_len b nla - 4).
Proof. unfold attr_in. intros. unfold nla_len, nlattr_len. by exec_step. Qed.

(** ** Policies *)

(** A policy usable with [maxtype]: an entry for every accepted type, whose
    type is a known one and whose bounds are unsigned 16-bit numbers. *)
Definition policy_ok (maxtype : Z) (p : list nla_policy) : Prop :=
  zlen p = maxtype + 1 /\
  Forall (fun pt => 0 <= pol_type pt <= NLA_TYPE_MAX /\ 0 <= pol_minlen pt < 65536 /\
                    0 <= pol_maxlen pt < 65536) p.

(** The least payload an entry asks for. *)
Definition policy_min (pt : nla_policy) : Z :=
  if pol_minlen pt =? 0 then nth (Z.to_nat (pol_type pt)) nla_attr_minlen 0
  else pol_minlen pt.

(** What it means that an attribute complies with an entry, and with a policy:
    types beyond [maxtype] are free. *)
Definition complies_entry (b : list Z) (nla : Z) (pt : nla_policy) : Prop :=
  policy_min pt <= attr_len b nla - 4 /\
  (pol_maxlen pt <> 0 -> attr_len b nla - 4 <= pol_maxlen pt) /\
  (pol_type pt = NLA_STRING -> le_at 1 b (nla + 4 + (attr_len b nla - 4 - 1)) = 0).
Definition complies (b : list Z) (maxtype : Z) (p : list nla_policy) (nla : Z) : Prop :=
  attr_type b nla <= maxtype ->
  exists pt, p !! Z.to_nat (attr_type b nla) = Some pt /\ complies_entry b nla pt.

Lemma policy_min_code pt :
  0 <= pol_type pt ->
  (if negb (pol_minlen pt =? 0) then pol_minlen pt
   else if negb (pol_type pt =? NLA_UNSPEC)
        then nth (Z.to_nat (pol_type pt)) nla_attr_minlen 0 else 0) = policy_min pt.
Proof.
  intros. unfold policy_min. destruct (pol_minlen pt =? 0); [|done]. simpl negb. cbv iota.
  destruct (pol_type pt =? NLA_UNSPEC) eqn:E; [|done].
  bool_hyps. rewrite E. done.
Qed.

Lemma policy_min_string pt :
  pol_type pt = NLA_STRING -> 0 <= pol_minlen pt -> 1 <= policy_min pt.
Proof.
  intros Ht Hm. unfold policy_min. rewrite Ht.
  destruct (pol_minlen pt =? 0) eqn:E; bool_hyps; [vm_compute; congruence|lia].
Qed.

Lemma validate_nla_spec b head len nla maxtype p :
  bytes_ok b -> 0 <= head -> head + len <= zlen b -> attr_in b head len nla ->
  policy_ok maxtype p ->
  exists err, validate_nla b nla maxtype (Some p) = Done err /\ err <= 0 /\
    (err = 0 <-> complies b maxtype p nla).
Proof.
  intros Hb Hh Hl Hin (Hplen & Hp). unfold validate_nla.
  rewrite (nla_type_done b head len) by done. exec_simpl.
  pose proof (attr_type_range b nla Hb) as Ht.
  rewrite (proj2 (Z.ltb_ge (attr_type b nla) 0)) by lia. rewrite orb_false_l.
  destruct (maxtype <? attr_type b nla) eqn:Em; bool_hyps.
  { exists 0. split_and!; [done..|]. unfold complies. split; [lia|done]. }
  destruct (lookup_lt_is_Some_2 p (Z.to_nat (attr_type b nla))) as [pt Hpt].
  { unfold zlen in Hplen. lia. }
  cbn [mbind option_bind]. rewrite Hpt. pose proof (Forall_lookup_1 _ _ _ _ Hp Hpt) as (Hty & Hmin & Hmax).
  rewrite (proj2 (Z.ltb_ge _ (pol_type pt))) by lia.
  cbv zeta. rewrite (policy_min_code pt) by lia.
  rewrite (nla_len_done b head len) by done. exec_simpl.
  pose proof (attr_len_range b nla Hb). unfold attr_in in Hin.
  rewrite u32_id by lia.
  assert (complies b maxtype p nla <-> complies_entry b nla pt) as Hiff.
  { unfold complies. split.
    - intros (pt' & ? & ?); [done|]. by simplify_eq.
    - intros. by exists pt. }
  setoid_rewrite Hiff. unfold complies_entry.
  destruct (attr_len b nla - 4 <? policy_min pt) eqn:E1; bool_hyps.
  { exists (- NLE_RANGE). split_and!; [done..|]. split; [done|lia]. }
  destruct (negb (pol_maxlen pt =? 0) && (pol_maxlen pt <? attr_len b nla - 4)) eqn:E2.
  { bool_hyps. exists (- NLE_RANGE). split_and!; [done..|]. split; [done|].
    intros (_ & Hm & _). lia. }
  assert (pol_maxlen pt ≠ 0 -> attr_len b nla - 4 <= pol_maxlen pt).
  { intros. apply andb_false_iff in E2 as []; bool_hyps; lia. }
  destruct (pol_type pt =? NLA_STRING) eqn:E3; bool_hyps.
  - pose proof (policy_min_string pt E3). unfold nla_data, NLA_HDRLEN. exec_step.
    destruct (le_at 1 b _ =? 0) eqn:E4; bool_hyps; simpl.
    + exists 0. split_and!; [done..|]. split; auto.
    + exists (- NLE_INVAL). split_and!; [done..|]. split; [done|].
      intros (_ & _ & Hs). by destruct E4; auto.
  - exists 0. split_and!; [done..|]. split; [|done]. intros _. by split_and!.
Qed.

(** ** Parsing *)

(** The index an attribute list gives: the last attribute of each type. *)
Definition last_of_type (b : list Z) (t : Z) (l : list Z) : option Z :=
  last (filter (fun nla => attr_type b nla = t) l).

(** [index_of b maxtype l tb]: [tb] has an entry for each type up to
    [maxtype], the last attribute of [l] with that type. *)
Definition index_of (b : list Z) (maxtype : Z) (l : list Z) (tb : list (option Z)) : Prop :=
  zlen tb = Z.max 0 (maxtype + 1) /\
  forall t, 0 <= t <= maxtype -> tb !! Z.to_nat t = Some (last_of_type b t l).

Lemma index_of_nil b maxtype :
  index_of b maxtype [] (replicate (Z.to_nat (maxtype + 1)) None).
Proof.
  split; [unfold zlen; rewrite length_replicate; lia|].
  intros. apply lookup_replicate_2. lia.
Qed.

Lemma last_of_type_snoc b t l nla :
  last_of_type b t (l ++ [nla]) =
  if decide (attr_type b nla = t) then Some nla else last_of_type b t l.
Proof.
  unfold last_of_type. rewrite filter_app. rewrite filter_cons, filter_nil.
  case_decide; [by rewrite last_snoc|by rewrite app_nil_r].
Qed.

Lemma index_of_skip b maxtype l tb nla :
  maxtype < attr_type b nla -> index_of b maxtype l tb -> index_of b maxtype (l ++ [nla]) tb.
Proof.
  intros ? [Hl Hi]. split; [done|]. intros. rewrite Hi by done. f_equal.
  rewrite last_of_type_snoc. case_decide; [lia|done].
Qed.

Lemma index_of_insert b maxtype l tb nla :
  0 <= attr_type b nla <= maxtype -> index_of b maxtype l tb ->
  index_of b maxtype (l ++ [nla]) (<[Z.to_nat (attr_type b nla) := Some nla]> tb).
Proof.
  intros Ht [Hl Hi]. split; [unfold zlen in *; by rewrite length_insert|].
  intros t ?. rewrite last_of_type_snoc. case_decide as Hd.
  - subst t. apply list_lookup_insert_eq. unfold zlen in *. lia.
  - rewrite list_lookup_insert_ne by lia. by apply Hi.
Qed.

(** The state of [nla_parse] after a prefix of the attributes: the index of
    that prefix, and every attribute of it accepted. *)
Definition accepts (b : list Z) (maxtype : Z) (policy : option (list nla_policy)) (nla : Z) : Prop :=
  match policy with
  | None => True
  | Some p => complies b maxtype p nla
  end.

Definition policy_opt_ok (maxtype : Z) (policy : option (list nla_policy)) : Prop :=
  match policy with
  | None => True
  | Some p => policy_ok maxtype p
  end.

(** Parsing stopped after [pre] because of the attribute [nla], or went through. *)
Definition parse_result (b : list Z) (maxtype : Z) (policy : option (list nla_policy))
    (l pre : list Z) (err : Z) : Prop :=
  Forall (accepts b maxtype policy) pre /\
  ((err = 0 /\ l = pre) \/
   (err < 0 /\ exists nla post, l = pre ++ nla :: post /\ ~ accepts b maxtype policy nla)).

Lemma parse_fold b maxtype head len policy l pre tb :
  bytes_ok b -> 0 <= head -> head + len <= zlen b -> policy_opt_ok maxtype policy ->
  Forall (attr_in b head len) l ->
  Forall (accepts b maxtype policy) pre -> index_of b maxtype pre tb ->
  exists err tb' mid,
    foldx (nla_parse_body b maxtype policy) tb l =
      Done (if err <? 0 then inr (err, tb') else inl tb') /\
    parse_result b maxtype policy (pre ++ l) (pre ++ mid) err /\
    index_of b maxtype (pre ++ mid) tb'.
Proof.
  intros Hb Hh Hlen Hpol Hin. revert pre tb.
  induction Hin as [|nla l Hnla Hin IH]; intros pre tb Hacc Hidx.
  { exists 0, tb, []. rewrite !app_nil_r. split_and!; [done| |done].
    split; [done|]. by left. }
  cbn [foldx]. unfold nla_parse_body at 2. rewrite (nla_type_done b head len) by done. exec_simpl.
  pose proof (attr_type_range b nla Hb) as Ht.
  assert (forall tb', accepts b maxtype policy nla -> index_of b maxtype (pre ++ [nla]) tb' ->
    exists err tb'' mid, foldx (nla_parse_body b maxtype policy) tb' l = Done (if err <? 0 then inr (err, tb'') else inl tb'') /\
      parse_result b maxtype policy (pre ++ nla :: l) (pre ++ mid) err /\
      index_of b maxtype (pre ++ mid) tb'') as Hstep.
  { intros tb' Ha Hi. destruct (IH (pre ++ [nla]) tb') as (err & tb'' & mid & Hf & Hr & Hi').
    - apply Forall_app_2; [done|by constructor].
    - done.
    - rewrite <- (app_assoc pre [nla] l), <- (app_assoc pre [nla] mid) in Hr.
      rewrite <- (app_assoc pre [nla] mid) in Hi'. by exists err, tb'', (nla :: mid). }
  clear IH. destruct (maxtype <? attr_type b nla) eqn:Em; bool_hyps.
  { apply Hstep; [|by apply index_of_skip].
    destruct policy; simpl; [|done]. unfold complies. lia. }
  assert (exists err, (match policy with
           | Some _ => validate_nla b nla maxtype policy
           | None => mret 0
           end) = Done err /\ err <= 0 /\ (err = 0 <-> accepts b maxtype policy nla))
    as (err & Hv & Hle & Hiff).
  { destruct policy as [p|]; simpl in *.
    - by apply (validate_nla_spec b head len).
    - by exists 0. }
  rewrite Hv. exec_simpl. destruct (err <? 0) eqn:Ee; bool_hyps.
  - exists err, tb, []. rewrite app_nil_r. rewrite (proj2 (Z.ltb_lt err 0)) by lia.
    split_and!; [done| |done]. split; [done|]. right. split; [done|].
    exists nla, l. split; [done|]. rewrite <- Hiff. lia.
  - apply Hstep; [apply Hiff; lia|]. apply index_of_insert; [lia|done].
Qed.

Lemma validate_fold b maxtype head len p l :
  bytes_ok b -> 0 <= head -> head + len <= zlen b -> policy_ok maxtype p ->
  Forall (attr_in b head len) l ->
  exists err,
    foldx (nla_validate_body b maxtype (Some p)) tt l =
      Done (if err <? 0 then inr err else inl tt) /\
    err <= 0 /\ (err = 0 <-> Forall (complies b maxtype p) l).
Proof.
  intros Hb Hh Hlen Hp Hin. induction Hin as [|nla l Hnla Hin IH].
  { by exists 0. }
  destruct (validate_nla_spec b head len nla maxtype p) as (e & Hv & Hle & Hiff); [done..|].
  cbn [foldx]. unfold nla_validate_body at 2. rewrite Hv. exec_simpl. setoid_rewrite Forall_cons. setoid_rewrite <- Hiff.
  destruct (e <? 0) eqn:E; bool_hyps.
  - exists e. rewrite (proj2 (Z.ltb_lt e 0)) by lia. split_and!; [done..|]. lia.
  - destruct IH as (err & Hf & Hle' & Hiff'). exists err. rewrite <- Hiff'.
    split_and!; [done..|]. lia.
Qed.

Lemma find_fold b head len t l :
  0 <= head -> head + len <= zlen b -> Forall (attr_in b head len) l ->
  foldx (nla_find_body b t) tt l =
  Done (match filter (fun nla => attr_type b nla = t) l with
        | [] => inl tt
        | nla :: _ => inr nla
        end).
Proof.
  intros Hh Hl Hin. induction Hin as [|nla l Hnla Hin IH]; [done|].
  cbn [foldx]. unfold nla_find_body at 2. rewrite (nla_type_done b head len) by done. exec_simpl.
  rewrite filter_cons. case_decide as Hd.
  - by rewrite (proj2 (Z.eqb_eq _ _) Hd).
  - by rewrite (proj2 (Z.eqb_neq _ _) Hd).
Qed.

(** ** Lemmas on construction *)

Definition msg_tail (m : nl_msg) : Z := align4 (msg_len m).

Lemma nla_total_size_small n : 0 <= n < 2147483640 -> nla_total_size n = align4 (4 + n).
Proof.
  intros. unfold nla_total_size, nla_attr_size, NLA_HDRLEN.
  rewrite s32_id by lia. apply NLA_ALIGN_small. lia.
Qed.

Lemma nla_padlen_small n : 0 <= n < 2147483640 -> nla_padlen n = align4 (4 + n) - (4 + n).
Proof.
  intros. unfold nla_padlen. rewrite nla_total_size_small by lia.
  unfold nla_attr_size, NLA_HDRLEN. pose proof (align4_bounds (4 + n)).
  rewrite !s32_id; rewrite ?s32_id; lia.
Qed.

(** What a message buffer [b] becomes when an attribute of type [t] with
    payload [d] is put at its tail: header, payload, zero padding and the new
    message length; everything else is as it was. *)
Definition put_result (b b' : list Z) (tail t : Z) (d : list Z) : Prop :=
  let n := zlen d in
  zlen b' = zlen b /\ bytes_ok b' /\
  le_at 4 b' 0 = tail + align4 (4 + n) /\
  le_at 2 b' tail = 4 + n /\ le_at 2 b' (tail + 2) = u16 t /\
  sub b' (tail + 4) n = d /\
  sub b' (tail + 4 + n) (align4 (4 + n) - (4 + n)) = zeros (align4 (4 + n) - (4 + n)) /\
  (forall i k, 4 <= i -> 0 <= k -> i + k <= tail -> sub b' i k = sub b i k) /\
  (forall i k, tail + align4 (4 + n) <= i -> 0 <= k -> sub b' i k = sub b i k).

Lemma msg_tail_bounds m :
  msg_wf m -> msg_len m <= msg_tail m < msg_len m + 4 /\ 16 <= msg_tail m.
Proof.
  intros (_ & _ & Hl & _). unfold sizeof_nlmsghdr in Hl. unfold msg_tail.
  pose proof (align4_bounds (msg_len m)). lia.
Qed.

(** What [nla_reserve] leaves for a payload of [n] bytes: as above, with the
    room for the payload untouched. *)
Definition reserve_result (b b' : list Z) (tail t n : Z) : Prop :=
  zlen b' = zlen b /\ bytes_ok b' /\
  le_at 4 b' 0 = tail + align4 (4 + n) /\
  le_at 2 b' tail = 4 + n /\ le_at 2 b' (tail + 2) = u16 t /\
  sub b' (tail + 4 + n) (align4 (4 + n) - (4 + n)) = zeros (align4 (4 + n) - (4 + n)) /\
  (forall i k, 4 <= i -> 0 <= k -> i + k <= tail -> sub b' i k = sub b i k) /\
  (forall i k, tail + 4 <= i -> 0 <= k -> i + k <= tail + 4 + n -> sub b' i k = sub b i k) /\
  (forall i k, tail + align4 (4 + n) <= i -> 0 <= k -> sub b' i k = sub b i k).

(** The memset of the padding: empty payloads have no padding. *)
Lemma reserve_padding b tl n :
  bytes_ok b -> 16 <= tl -> 0 <= n <= 65531 -> tl + align4 (4 + n) <= zlen b ->
  le_at 2 b tl = 4 + n ->
  exists b', (if negb (n =? 0)
              then l ← nlattr_len b tl; store b (tl + l) (zeros (nla_padlen n))
              else mret b) = Done b' /\
    zlen b' = zlen b /\ bytes_ok b' /\
    sub b' (tl + 4 + n) (align4 (4 + n) - (4 + n)) = zeros (align4 (4 + n) - (4 + n)) /\
    (forall i k, 0 <= i -> 0 <= k -> i + k <= tl + 4 + n -> sub b' i k = sub b i k) /\
    (forall i k, tl + align4 (4 + n) <= i -> 0 <= k -> sub b' i k = sub b i k).
Proof.
  intros Hb Htl Hn Hfit Hlen. pose proof (align4_bounds (4 + n)).
  rewrite nla_padlen_small by lia.
  destruct (n =? 0) eqn:E; bool_hyps; simpl negb; cbv iota.
  - exists b. replace (align4 (4 + n) - (4 + n)) with 0 by (rewrite E; reflexivity).
    by split_and!.
  - unfold nlattr_len. exec_step. rewrite Hlen, Z.add_assoc. exec_step. eexists. split; [done|].
    split_and!; [zl|auto with nl|apply sub_splice_eq; zl|..]; intros; by sub_simpl.
Qed.

Lemma nla_reserve_ok m t n :
  msg_wf m -> 0 <= n <= 65531 -> msg_tail m + align4 (4 + n) <= nm_size m ->
  exists b', nla_reserve m t n = Done (Some (msg_tail m), set_buf m b') /\
    reserve_result (nm_nlh m) b' (msg_tail m) t n.
Proof.
  intros Hw Hn Hfit. pose proof Hw as (Hz & Hb & Hl & Hs).
  pose proof (msg_tail_bounds m Hw) as [Ht Ht'].
  pose proof (align4_bounds (4 + n)) as Ha.
  unfold sizeof_nlmsghdr in Hl. unfold nla_reserve.
  rewrite (proj2 (Z.ltb_ge n 0)), nlmsg_len_done by (done || lia). exec_simpl.
  rewrite NLMSG_ALIGN_small, nla_total_size_small by lia. fold (msg_tail m).
  rewrite s32_id, u64_id, (proj2 (Z.ltb_ge (nm_size m) _)) by lia.
  rewrite nlmsg_tail_done by done. fold (msg_tail m). exec_simpl.
  set (tl := msg_tail m) in *. do 2 exec_step.
  unfold nla_attr_size, NLA_HDRLEN. rewrite (s32_id (4 + n)) by lia.
  set (b1 := splice (nm_nlh m) (tl + 2) (le_encode 2 t)).
  assert (zlen b1 = nm_size m) as Hz1 by (unfold b1; zl).
  destruct (reserve_padding (splice b1 tl (le_encode 2 (4 + n))) tl n)
    as (b3 & -> & Hz3 & Hb3 & Hpad & Hlo & Hhi).
  { unfold b1. auto with nl. } { lia. } { lia. } { zl. }
  { change 2 with (Z.of_nat 2) at 1. rewrite le_at_splice_same by lia.
    apply Z.mod_small. lia. }
  rewrite zlen_splice in Hz3 by zl. exec_simpl. unfold set_nlmsg_len. exec_step.
  eexists. split; [reflexivity|]. unfold reserve_result. split_and!.
  - zl.
  - auto with nl.
  - apply msg_len_set; lia.
  - unfold le_at. sub_simpl. rewrite Hlo by lia.
    fold (le_at 2 (splice b1 tl (le_encode 2 (4 + n))) tl).
    change 2 with (Z.of_nat 2) at 1. rewrite le_at_splice_same by lia. apply Z.mod_small. lia.
  - unfold le_at. sub_simpl. rewrite Hlo by lia. sub_simpl.
    fold (le_at 2 b1 (tl + 2)). unfold b1.
    change 2 with (Z.of_nat 2) at 1. by rewrite le_at_splice_same by lia.
  - by sub_simpl.
  - intros. sub_simpl. rewrite Hlo by lia. unfold b1. by sub_simpl.
  - intros. sub_simpl. rewrite Hlo by lia. unfold b1. by sub_simpl.
  - intros. sub_simpl. rewrite Hhi by lia. unfold b1. by sub_simpl.
Qed.

Lemma nla_put_ok m t d :
  msg_wf m -> bytes_ok d -> zlen d <= 65531 ->
  msg_tail m + align4 (4 + zlen d) <= nm_size m ->
  exists b', nla_put m t (zlen d) d = Done (0, set_buf m b') /\
    put_result (nm_nlh m) b' (msg_tail m) t d.
Proof.
  intros Hw Hd Hn Hfit. pose proof Hw as (Hz & Hb & Hl & Hs).
  pose proof (msg_tail_bounds m Hw) as [Ht Ht']. pose proof (zlen_nonneg d) as Hd0.
  pose proof (align4_bounds (4 + zlen d)) as Ha.
  destruct (nla_reserve_ok m t (zlen d)) as (b & Hres & Hb'); [done|lia|lia|].
  destruct Hb' as (Hzb & Hbb & Hlen & Hal & Hat & Hpad & Hlo & Hmid & Hhi).
  unfold nla_put. rewrite Hres. exec_simpl.
  assert (splice b (msg_tail m + 4) [] = b) as Hnil.
  { unfold splice. simpl. by rewrite Nat.add_0_r, take_drop. }
  exists (splice b (msg_tail m + 4) d). split.
  - destruct (0 <? zlen d) eqn:E; bool_hyps.
    + exec_step. rewrite sub_all. unfold nla_data, NLA_HDRLEN. simpl nm_nlh. exec_step. done.
    + assert (d = []) as -> by (apply length_zero_iff_nil; unfold zlen in *; lia).
      by rewrite Hnil.
  - unfold put_result. cbv zeta. split_and!; [zl|auto with nl|..];
      try (unfold le_at in *; sub_simpl; done).
    + apply sub_splice_eq; zl.
    + intros. sub_simpl. auto.
    + intros. sub_simpl. auto.
Qed.

Lemma put_result_wf m b' t d :
  msg_wf m -> msg_tail m + align4 (4 + zlen d) <= nm_size m ->
  put_result (nm_nlh m) b' (msg_tail m) t d ->
  msg_wf (set_buf m b') /\ msg_len (set_buf m b') = msg_tail m + align4 (4 + zlen d).
Proof.
  intros Hw Hfit (Hz' & Hb' & Hl' & _). pose proof (msg_tail_bounds m Hw).
  destruct Hw as (Hz & Hb & Hl & Hs). unfold sizeof_nlmsghdr in *.
  pose proof (align4_bounds (4 + zlen d)). pose proof (zlen_nonneg d).
  unfold msg_wf, msg_len in *. simpl. rewrite Hl'. unfold sizeof_nlmsghdr.
  split_and!; try done; lia.
Qed.

Lemma nla_put_full m t n d :
  msg_wf m -> 0 <= n < 2147483632 -> nm_size m < msg_tail m + align4 (4 + n) ->
  nla_put m t n d = Done (- NLE_NOMEM, m).
Proof.
  intros Hw Hn Hfit. pose proof (msg_tail_bounds m Hw) as [Ht Ht'].
  pose proof Hw as (Hz & Hb & Hl & Hs). pose proof (align4_bounds (4 + n)).
  unfold sizeof_nlmsghdr in Hl. unfold nla_put, nla_reserve.
  rewrite (proj2 (Z.ltb_ge n 0)), nlmsg_len_done by (done || lia). exec_simpl.
  rewrite NLMSG_ALIGN_small, nla_total_size_small by lia. fold (msg_tail m).
  assert (nm_size m < u64 (s32 (msg_tail m + align4 (4 + n)))) as Hlt.
  { unfold s32, u64. change (2 ^ 31) with 2147483648. change (2 ^ 32) with 4294967296.
    change (2 ^ 64) with 18446744073709551616. zdiv_lia. }
  by rewrite (proj2 (Z.ltb_lt _ _) Hlt).
Qed.

Lemma nla_put_negative m t n d : n < 0 -> nla_put m t n d = Done (- NLE_INVAL, m).
Proof.
  intros. unfold nla_put, nla_reserve. by rewrite (proj2 (Z.ltb_lt n 0)) by lia.
Qed.

(** ** Attribute regions

    [attr_exact b pos n l]: the [n] bytes from [pos] are exactly the
    attributes [l], paddings included, with nothing left over. *)
Inductive attr_exact (b : list Z) : Z -> Z -> list Z -> Prop :=
| attr_exact_nil pos : attr_exact b pos 0 []
| attr_exact_cons pos n l :
    attr_ok b pos n = true ->
    attr_exact b (pos + align4 (attr_len b pos)) (n - align4 (attr_len b pos)) l ->
    attr_exact b pos n (pos :: l).

Definition attr_content (b : list Z) (nla : Z) : Z * list Z :=
  (attr_type b nla, attr_payload b nla).

Lemma attr_exact_stream b pos n l : attr_exact b pos n l -> attr_stream b pos n l.
Proof.
  induction 1; [by apply attr_stream_end|by apply attr_stream_next].
Qed.

Lemma attr_exact_nonneg b pos n l : attr_exact b pos n l -> 0 <= n.
Proof. induction 1 as [|? ? ? Hok]; [done|]. apply attr_ok_true in Hok. lia. Qed.

Lemma attr_exact_app b pos n m l k :
  attr_exact b pos n l -> attr_exact b (pos + n) m k -> attr_exact b pos (n + m) (l ++ k).
Proof.
  intros H Hk. pose proof (attr_exact_nonneg _ _ _ _ Hk) as Hm. revert Hk.
  induction H as [|pos n l Hok _ IH]; intros Hk; simpl; [by rewrite Z.add_0_r in Hk|].
  apply attr_exact_cons.
  - apply attr_ok_true in Hok. apply attr_ok_true. lia.
  - replace (n + m - align4 (attr_len b pos)) with (n - align4 (attr_len b pos) + m) by lia.
    apply IH. by replace (_ + (n - _)) with (pos + n) by lia.
Qed.

(** Regions depend on their own bytes only. *)
Definition same_bytes (b b' : list Z) (pos n : Z) : Prop :=
  forall i k, pos <= i -> 0 <= k -> i + k <= pos + n -> sub b' i k = sub b i k.

Lemma same_bytes_le_at b b' pos n i k :
  same_bytes b b' pos n -> pos <= i -> 0 <= k -> i + k <= pos + n -> le_at k b' i = le_at k b i.
Proof. intros. unfold le_at. f_equal. auto. Qed.

Lemma attr_exact_ext b b' pos n l :
  attr_exact b pos n l -> same_bytes b b' pos n -> attr_exact b' pos n l.
Proof.
  induction 1 as [pos|pos n l Hok Hex IH]; intros Hs; constructor.
  - apply attr_ok_true in Hok. apply attr_ok_true.
    unfold attr_len. rewrite (same_bytes_le_at b b' pos n) by (done || lia). done.
  - pose proof Hok as Hok'. apply attr_ok_true in Hok'.
    pose proof (attr_exact_nonneg _ _ _ _ Hex). pose proof (align4_bounds (attr_len b pos)).
    unfold attr_len at 1 2. rewrite (same_bytes_le_at b b' pos n) by (done || lia).
    apply IH. intros i k ???. apply Hs; unfold attr_len in *; lia.
Qed.

Lemma attr_content_ext b b' pos n l :
  attr_exact b pos n l -> same_bytes b b' pos n ->
  map (attr_content b') l = map (attr_content b) l.
Proof.
  intros Hex Hs. apply attr_exact_stream, attr_stream_in in Hex.
  induction Hex as [|nla l (Hi & Hlen & Hend) _ IH]; simpl; [done|]. f_equal; [|done].
  unfold attr_content, attr_type, attr_payload, attr_len, NLA_HDRLEN in *.
  rewrite !(same_bytes_le_at b b' pos n) by (done || lia). f_equal. apply Hs; lia.
Qed.

(** The attributes of a message from offset [head] on. *)
Definition holds (m : nl_msg) (head : Z) (l : list (Z * list Z)) : Prop :=
  msg_wf m /\ msg_len m mod 4 = 0 /\ 16 <= head /\
  exists offs, attr_exact (nm_nlh m) head (msg_len m - head) offs /\
               map (attr_content (nm_nlh m)) offs = l.

Definition attr_fits (a : Z * list Z) : Prop :=
  0 <= a.1 < 16384 /\ bytes_ok a.2 /\ zlen a.2 <= 65531.

Definition attr_room (a : Z * list Z) : Z := align4 (4 + zlen a.2).

Lemma put_result_attr b b' tail t d :
  put_result b b' tail t d -> 0 <= tail ->
  attr_exact b' tail (align4 (4 + zlen d)) [tail] /\
  attr_content b' tail = (Z.land (u16 t) NLA_TYPE_MASK, d).
Proof.
  intros (_ & _ & _ & Hal & Hat & Hd & _) Ht.
  pose proof (zlen_nonneg d). pose proof (align4_bounds (4 + zlen d)). split.
  - apply attr_exact_cons; [apply attr_ok_true; unfold attr_len; rewrite Hal; lia|].
    unfold attr_len. rewrite Hal, Z.sub_diag. constructor.
  - unfold attr_content, attr_type, attr_payload, attr_len, NLA_HDRLEN.
    rewrite Hat, Hal. f_equal. by replace (4 + zlen d - 4) with (zlen d) by lia.
Qed.

Lemma u16_type t : 0 <= t < 16384 -> Z.land (u16 t) NLA_TYPE_MASK = t.
Proof. intros. rewrite u16_id, land_type_mask by lia. apply Z.mod_small. lia. Qed.

Lemma holds_put m head l a :
  holds m head l -> attr_fits a ->
  msg_len m + attr_room a <= nm_size m ->
  exists m', nla_put m a.1 (zlen a.2) a.2 = Done (0, m') /\
    holds m' head (l ++ [a]) /\ msg_len m' = msg_len m + attr_room a /\
    nm_size m' = nm_size m /\
    same_bytes (nm_nlh m) (nm_nlh m') 4 (msg_len m - 4).
Proof.
  destruct a as [t d]. unfold attr_fits, attr_room. simpl.
  intros (Hw & Hal & Hh & offs & Hex & Hc) (Ht & Hd & Hn) Hfit.
  assert (msg_tail m = msg_len m) as Htl by (apply align4_id; done).
  destruct (nla_put_ok m t d) as (b' & Hput & Hres); [done..|by rewrite Htl|].
  destruct (put_result_wf m b' t d) as [Hw' Hl']; [done|by rewrite Htl|done|].
  rewrite Htl in *. exists (set_buf m b').
  pose proof (attr_exact_nonneg _ _ _ _ Hex).
  destruct (put_result_attr _ _ _ _ _ Hres) as [Hex' Hc']; [lia|].
  destruct Hres as (_ & _ & _ & _ & _ & _ & _ & Hlo & _).
  assert (same_bytes (nm_nlh m) b' head (msg_len m - head)) as Hsame.
  { intros i k ???. apply Hlo; lia. }
  split_and!; [done| |done|done|intros i k ???; apply Hlo; lia].
  split_and!; [done| |done|].
  - rewrite Hl'. rewrite Zplus_mod, Hal, align4_mod. done.
  - exists (offs ++ [msg_len m]). rewrite Hl'. simpl nm_nlh. split.
    + replace (_ + _ - head) with (msg_len m - head + align4 (4 + zlen d)) by lia.
      apply attr_exact_app; [by eapply attr_exact_ext|].
      by replace (head + (msg_len m - head)) with (msg_len m) by lia.
    + rewrite map_app. simpl. rewrite Hc', u16_type by done. f_equal.
      rewrite <- Hc. by eapply attr_content_ext.
Qed.

(** ** Sequences of attributes

    A function that composes a message puts its attributes one after the other
    and leaves at the first failure (the NLA_PUT macros). *)
Fixpoint nla_put_all (msg : nl_msg) (l : list (Z * list Z)) : exec (Z * nl_msg) :=
  match l with
  | [] => mret (0, msg)
  | a :: l =>
      '(err, msg) ← nla_put msg a.1 (zlen a.2) a.2;
      if err <? 0 then mret (- NLE_NOMEM, msg) else nla_put_all msg l
  end.

Fixpoint total_room (l : list (Z * list Z)) : Z :=
  match l with
  | [] => 0
  | a :: l => attr_room a + total_room l
  end.

(** Nested attributes: start, the inner attributes, end. *)
Definition nest_seq (msg : nl_msg) (attrtype : Z) (inner : list (Z * list Z))
    : exec (Z * nl_msg) :=
  '(nest, msg) ← nla_nest_start msg attrtype;
  match nest with
  | None => mret (- NLE_NOMEM, msg)
  | Some start =>
      '(err, msg) ← nla_put_all msg inner;
      if err <? 0 then mret (err, msg) else nla_nest_end msg start
  end.

Lemma total_room_nonneg l : 0 <= total_room l.
Proof.
  induction l as [|a l IH]; simpl; [done|]. unfold attr_room.
  pose proof (zlen_nonneg a.2). pose proof (align4_bounds (4 + zlen a.2)). lia.
Qed.

Lemma same_bytes_trans b1 b2 b3 pos n :
  same_bytes b1 b2 pos n -> same_bytes b2 b3 pos n -> same_bytes b1 b3 pos n.
Proof. intros H1 H2 i k ???. by rewrite H2, H1. Qed.

Lemma same_bytes_sub b1 b2 pos n pos' n' :
  same_bytes b1 b2 pos n -> pos <= pos' -> pos' + n' <= pos + n -> same_bytes b1 b2 pos' n'.
Proof. intros H ?? i k ???. apply H; lia. Qed.

Lemma holds_put_all l2 : forall m head l1,
  holds m head l1 -> Forall attr_fits l2 -> msg_len m + total_room l2 <= nm_size m ->
  exists m', nla_put_all m l2 = Done (0, m') /\
    holds m' head (l1 ++ l2) /\ msg_len m' = msg_len m + total_room l2 /\
    nm_size m' = nm_size m /\ same_bytes (nm_nlh m) (nm_nlh m') 4 (msg_len m - 4).
Proof.
  induction l2 as [|a l2 IH]; intros m head l1 Hh Hf Hroom; simpl in *.
  { exists m. rewrite app_nil_r. split_and!; [done..|lia|done|by intros i k ???]. }
  apply Forall_cons in Hf as [Ha Hf]. pose proof (total_room_nonneg l2).
  destruct (holds_put m head l1 a) as (m1 & Hput & Hh1 & Hlen1 & Hs1 & Hb1); [done..|lia|].
  rewrite Hput. exec_simpl. change (0 <? 0) with false. cbv iota.
  destruct (IH m1 head (l1 ++ [a])) as (m2 & Hall & Hh2 & Hlen2 & Hs2 & Hb2); [done..|lia|].
  rewrite <- (app_assoc l1 [a] l2) in Hh2. exists m2. split_and!; [done|done|lia|congruence|].
  eapply same_bytes_trans; [done|]. eapply same_bytes_sub; [done|lia|].
  assert (0 <= attr_room a); [|lia]. unfold attr_room.
  pose proof (zlen_nonneg a.2). pose proof (align4_bounds (4 + zlen a.2)). lia.
Qed.

(** The attributes [attrs] finds are the ones [holds] speaks of. *)
Lemma holds_attrs m head l :
  holds m head l ->
  map (attr_content (nm_nlh m)) (attrs (nm_nlh m) head (msg_len m - head)) = l.
Proof.
  intros (_ & _ & _ & offs & Hex & <-). f_equal. by apply attrs_eq, attr_exact_stream.
Qed.

Lemma last_of_type_content b t offs l :
  map (attr_content b) offs = l ->
  attr_payload b <$> last_of_type b t offs = snd <$> last (filter (fun a => a.1 = t) l).
Proof.
  intros <-. unfold last_of_type. induction offs as [|nla offs IH] using rev_ind; [done|].
  rewrite map_app, !filter_app. simpl. rewrite !filter_cons, !filter_nil. simpl.
  case_decide; [by rewrite !last_snoc|by rewrite !app_nil_r].
Qed.

Lemma nlmsg_parse_done m hdrlen maxtype policy :
  msg_wf m -> 0 <= hdrlen < 1073741824 -> 16 + align4 hdrlen <= msg_len m ->
  nlmsg_parse (nm_nlh m) 0 hdrlen maxtype policy =
  nla_parse (nm_nlh m) maxtype (16 + align4 hdrlen) (msg_len m - (16 + align4 hdrlen)) policy.
Proof.
  intros Hw Hh Hl. pose proof Hw as (_ & _ & Hb & Hs). unfold sizeof_nlmsghdr in Hb.
  pose proof (align4_bounds hdrlen). unfold nlmsg_parse, nlmsg_valid_hdr, nlmsg_attrlen, nlmsg_datalen.
  rewrite nlmsg_len_done by done. exec_simpl.
  unfold nlmsg_msg_size, nlmsg_size, NLMSG_HDRLEN. rewrite s32_id, u32_id by lia.
  rewrite (proj2 (Z.ltb_ge (msg_len m) (16 + hdrlen))) by lia. simpl negb. cbv iota.
  rewrite NLMSG_ALIGN_small by lia. rewrite !s32_id; rewrite ?s32_id; [|lia..].
  unfold nlmsg_attrdata, nlmsg_data, NLMSG_HDRLEN. rewrite NLMSG_ALIGN_small by lia.
  f_equal; lia.
Qed.

(** ** Lemmas on nesting *)

(** The state between start and end of a nest at [start]: the attributes
    before it, the header of the nest with length 4, and the inner ones. *)
Definition nesting (m : nl_msg) (head start t : Z) (l inner : list (Z * list Z)) : Prop :=
  holds m (start + 4) inner /\ head <= start /\ 16 <= head /\ start mod 4 = 0 /\
  le_at 2 (nm_nlh m) (start + 2) = Z.lor NLA_F_NESTED t /\
  exists offs, attr_exact (nm_nlh m) head (start - head) offs /\
               map (attr_content (nm_nlh m)) offs = l.

Lemma lor_nested t : 0 <= t < 16384 -> Z.lor NLA_F_NESTED t = NLA_F_NESTED + t.
Proof.
  intros. unfold NLA_F_NESTED. rewrite <- Z.lxor_lor, <- Z.add_nocarry_lxor; try done;
    change 32768 with (Z.shiftl 1 15); apply Z.bits_inj'; intros k Hk;
    rewrite Z.land_spec, Z.bits_0, Z.shiftl_spec by done;
    (destruct (decide (k < 15)); [by rewrite Z.testbit_neg_r by lia|]);
    apply andb_false_intro2, Z.testbit_false; try done;
    rewrite Z.div_small; try done; split; try lia;
    apply Z.lt_le_trans with (2 ^ 15); try apply Z.pow_le_mono_r; lia.
Qed.

Lemma nested_type t : 0 <= t < 16384 ->
  u16 (Z.lor NLA_F_NESTED t) = Z.lor NLA_F_NESTED t /\
  Z.land (Z.lor NLA_F_NESTED t) NLA_TYPE_MASK = t /\
  has_flag (Z.lor NLA_F_NESTED t) NLA_F_NESTED = true.
Proof.
  intros Ht. pose proof (lor_nested t Ht) as He. split_and!.
  - rewrite He. apply u16_id. unfold NLA_F_NESTED. lia.
  - rewrite He, land_type_mask by (unfold NLA_F_NESTED; lia).
    unfold NLA_F_NESTED. zdiv_lia.
  - unfold has_flag. apply negb_true_iff, Z.eqb_neq. intros H.
    assert (Z.testbit (Z.land (Z.lor NLA_F_NESTED t) NLA_F_NESTED) 15 = false) as H' by by rewrite H.
    rewrite Z.land_spec, Z.lor_spec in H'. by rewrite orb_true_l in H'.
Qed.

Lemma nest_start_ok m head l t :
  holds m head l -> 0 <= t < 16384 -> head <= msg_len m -> msg_len m + 4 <= nm_size m ->
  exists m', nla_nest_start m t = Done (Some (msg_len m), m') /\
    nesting m' head (msg_len m) t l [] /\ msg_len m' = msg_len m + 4 /\
    nm_size m' = nm_size m /\ same_bytes (nm_nlh m) (nm_nlh m') 4 (msg_len m - 4).
Proof.
  intros (Hw & Hal & Hh & offs & Hex & Hc) Ht Hle Hfit.
  assert (msg_tail m = msg_len m) as Htl by (apply align4_id; done).
  destruct (nla_put_ok m (Z.lor NLA_F_NESTED t) []) as (b' & Hput & Hres);
    [done|by constructor|done|by rewrite Htl|].
  destruct (put_result_wf m b' (Z.lor NLA_F_NESTED t) []) as [Hw' Hl']; [done|by rewrite Htl|done|].
  unfold nla_nest_start. rewrite nlmsg_tail_done by done. exec_simpl.
  change (zlen []) with 0 in *. rewrite Hput. exec_simpl. change (0 <? 0) with false. cbv iota.
  fold (msg_tail m). rewrite Htl in *. change (align4 (4 + 0)) with 4 in *.
  destruct Hres as (_ & _ & _ & _ & Hty & _ & _ & Hlo & _).
  exists (set_buf m b'). split_and!; [done| |done|done|intros i k ???; apply Hlo; lia].
  assert (same_bytes (nm_nlh m) b' head (msg_len m - head)) as Hsame.
  { intros i k ???. apply Hlo; lia. }
  split_and!; [|done..| |].
  - split_and!; [done| |lia|].
    + rewrite Hl', Zplus_mod, Hal. done.
    + exists []. rewrite Hl', Z.sub_diag. split; [constructor|done].
  - simpl. rewrite Hty. by apply nested_type.
  - exists offs. simpl. split; [by eapply attr_exact_ext|].
    rewrite <- Hc. by eapply attr_content_ext.
Qed.

Lemma nest_put_all m head start t l inner :
  nesting m head start t l [] -> msg_len m = start + 4 -> Forall attr_fits inner ->
  msg_len m + total_room inner <= nm_size m ->
  exists m', nla_put_all m inner = Done (0, m') /\ nesting m' head start t l inner /\
    msg_len m' = start + 4 + total_room inner /\ nm_size m' = nm_size m /\
    same_bytes (nm_nlh m) (nm_nlh m') 4 start.
Proof.
  intros (Hn & Hhs & Hh & Hal & Hty & offs & Hex & Hc) Hlen Hf Hroom.
  destruct (holds_put_all inner m (start + 4) []) as (m' & Hput & Hh' & Hlen' & Hs & Hb); [done..|].
  rewrite Hlen in Hb. replace (start + 4 - 4) with start in Hb by lia.
  exists m'. split_and!; [done| |lia|done|done].
  split_and!; [done..| |].
  - rewrite (same_bytes_le_at (nm_nlh m) (nm_nlh m') 4 start); (done || lia).
  - exists offs. assert (same_bytes (nm_nlh m) (nm_nlh m') head (start - head)) by
      (eapply same_bytes_sub; [done|lia|lia]).
    split; [by eapply attr_exact_ext|]. rewrite <- Hc. by eapply attr_content_ext.
Qed.

(** Rolling back to an aligned [start]. *)
Lemma nest_cancel_ok m head start t l inner :
  nesting m head start t l inner -> start + 4 <= msg_len m ->
  exists m', nla_nest_cancel m start = Done m' /\ holds m' head l /\
    msg_len m' = start /\ nm_size m' = nm_size m /\
    same_bytes (nm_nlh m) (nm_nlh m') 4 (start - 4).
Proof.
  intros ((Hw & Hml & _) & Hhs & Hh & Hal & _ & offs & Hex & Hc) Hlen.
  pose proof Hw as (Hz & Hb & Hl & Hs). unfold sizeof_nlmsghdr in Hl.
  unfold nla_nest_cancel. rewrite nlmsg_tail_done by done. exec_simpl.
  rewrite align4_id by done.
  rewrite (proj2 (Z.ltb_ge (msg_len m - start) 0)), (proj2 (Z.ltb_lt 0 (msg_len m - start))) by lia.
  rewrite nlmsg_len_done by done. exec_simpl.
  replace (msg_len m - (msg_len m - start)) with start by lia.
  unfold set_nlmsg_len. exec_step.
  set (b1 := splice (nm_nlh m) 0 (le_encode 4 start)).
  assert (le_at 4 b1 0 = start) as Hl1 by (apply msg_len_set; lia).
  assert (zlen b1 = nm_size m) as Hz1 by (unfold b1; zl).
  assert (nlmsg_tail b1 0 = Done start) as ->.
  { unfold nlmsg_tail, nlmsg_len. rewrite get_u32_done by lia. exec_simpl.
    rewrite Hl1, NLMSG_ALIGN_small, align4_id; (done || lia). }
  exec_simpl. exec_step. eexists. split; [done|].
  set (b2 := splice b1 start _).
  assert (le_at 4 b2 0 = start) as Hl2.
  { unfold b2. rewrite le_at_splice_other by zl. done. }
  assert (same_bytes (nm_nlh m) b2 4 (start - 4)) as Hsame.
  { intros i k ???. unfold b2. rewrite sub_splice_before by zl. unfold b1. by sub_simpl. }
  assert (zlen b2 = nm_size m) by (unfold b2; zl).
  assert (bytes_ok b2) by (unfold b2, b1; auto with nl).
  unfold holds, msg_wf, msg_len, sizeof_nlmsghdr. simpl. rewrite Hl2.
  split_and!; try (done || lia).
  exists offs. assert (same_bytes (nm_nlh m) b2 head (start - head)) by
    (eapply same_bytes_sub; [done|lia|lia]).
  split; [by eapply attr_exact_ext|]. rewrite <- Hc. by eapply attr_content_ext.
Qed.

(** Closing: the nest becomes one attribute of the outer list. *)
Lemma nest_end_ok m head start t l inner :
  nesting m head start t l inner -> 0 <= t < 16384 ->
  start + 4 < msg_len m <= start + USHRT_MAX ->
  exists m' d, nla_nest_end m start = Done (0, m') /\
    holds m' head (l ++ [(t, d)]) /\ holds m' (start + 4) inner /\
    nla_is_nested (nm_nlh m') start = Done true /\
    zlen d = msg_len m - start - 4 /\
    msg_len m' = msg_len m /\ nm_size m' = nm_size m /\
    attr_len (nm_nlh m') start = msg_len m - start /\ d = attr_payload (nm_nlh m') start.
Proof.
  intros ((Hw & Hml & _ & ioffs & Hiex & Hic) & Hhs & Hh & Hal & Hty & offs & Hex & Hc) Ht Hlen.
  pose proof Hw as (Hz & Hb & Hl & Hs). unfold sizeof_nlmsghdr, USHRT_MAX in *.
  unfold nla_nest_end, _nest_end. rewrite nlmsg_tail_done by done. exec_simpl.
  rewrite align4_id, u64_id by (done || lia). cbv zeta. unfold USHRT_MAX, NLA_HDRLEN.
  rewrite (proj2 (Z.ltb_ge 65535 _)), (proj2 (Z.eqb_neq _ 4)) by lia. simpl negb. cbv iota.
  rewrite orb_false_l, andb_false_r. exec_step.
  set (b' := splice (nm_nlh m) start (le_encode 2 (msg_len m - start))).
  assert (msg_len (set_buf m b') = msg_len m) as Hlb.
  { unfold msg_len. simpl. unfold b'. by rewrite le_at_splice_other by zl. }
  assert (zlen b' = nm_size m) as Hzb by (unfold b'; zl).
  assert (msg_wf (set_buf m b')) as Hw'.
  { unfold msg_wf. rewrite Hlb. simpl. unfold b', sizeof_nlmsghdr. split_and!; (lia || auto with nl). }
  rewrite (nlmsg_len_done (set_buf m b') Hw'), Hlb. exec_simpl.
  rewrite NLMSG_ALIGN_small, (align4_id (msg_len m)), Z.sub_diag by (done || lia).
  change (0 <? u32 0) with false. cbv iota.
  assert (le_at 2 b' start = msg_len m - start) as Hlen'.
  { unfold b'. change 2 with (Z.of_nat 2) at 1. rewrite le_at_splice_same by lia.
    apply Z.mod_small. lia. }
  assert (le_at 2 b' (start + 2) = Z.lor NLA_F_NESTED t) as Hty'.
  { unfold b'. by rewrite le_at_splice_other by zl. }
  assert (same_bytes (nm_nlh m) b' head (start - head)) as Hlo.
  { intros i k ???. unfold b'. by sub_simpl. }
  assert (same_bytes (nm_nlh m) b' (start + 4) (msg_len m - (start + 4))) as Hhi.
  { intros i k ???. unfold b'. by sub_simpl. }
  exists (set_buf m b'), (attr_payload b' start). split; [done|].
  unfold holds. rewrite Hlb. simpl nm_nlh. pose proof (nested_type t Ht) as (_ & Hmask & Hnest).
  split_and!; try (done || lia).
  - exists (offs ++ [start]). split.
    + replace (msg_len m - head) with (start - head + (msg_len m - start)) by lia.
      apply attr_exact_app; [by eapply attr_exact_ext|].
      replace (head + (start - head)) with start by lia.
      apply attr_exact_cons; unfold attr_len; [apply attr_ok_true; unfold attr_len; lia|].
      rewrite Hlen', align4_id, Z.sub_diag by zdiv_lia. constructor.
    + rewrite map_app. simpl. f_equal; [rewrite <- Hc; by eapply attr_content_ext|].
      unfold attr_content, attr_type. by rewrite Hty', Hmask.
  - exists ioffs. split; [by eapply attr_exact_ext|]. rewrite <- Hic. by eapply attr_content_ext.
  - unfold nla_is_nested, nlattr_type. rewrite get_u16_done by lia. exec_simpl.
    by rewrite Hty', Hnest.
  - unfold attr_payload, attr_len, NLA_HDRLEN. rewrite Hlen', zlen_sub; lia.
Qed.

(** Closing a nest that is empty or too long for the length field. *)
Lemma nest_end_cancel m head start t l inner :
  nesting m head start t l inner -> start + 4 <= msg_len m ->
  msg_len m = start + 4 \/ start + USHRT_MAX < msg_len m ->
  exists m', nla_nest_end m start =
      Done (if msg_len m =? start + 4 then 0 else - NLE_ATTRSIZE, m') /\
    holds m' head l /\ msg_len m' = start /\ nm_size m' = nm_size m /\
    same_bytes (nm_nlh m) (nm_nlh m') 4 (start - 4).
Proof.
  intros Hn Hlen Hcase. pose proof Hn as ((Hw & Hml & _) & Hhs & Hh & _).
  pose proof Hw as (Hz & Hb & Hl & Hs).
  destruct (nest_cancel_ok _ _ _ _ _ _ Hn Hlen) as (m' & Hcan & Hres).
  exists m'. split; [|done]. unfold nla_nest_end, _nest_end.
  rewrite nlmsg_tail_done by done. exec_simpl.
  rewrite align4_id, u64_id by (done || lia). cbv zeta. unfold NLA_HDRLEN.
  replace ((USHRT_MAX <? msg_len m - start) || (negb false && (msg_len m - start =? 4))) with true.
  - rewrite Hcan. exec_simpl. do 3 f_equal.
    by destruct (Z.eqb_spec (msg_len m - start) 4), (Z.eqb_spec (msg_len m) (start + 4)); try lia.
  - symmetry. apply orb_true_iff. rewrite Z.ltb_lt. simpl. rewrite Z.eqb_eq. unfold USHRT_MAX in *. lia.
Qed.

(** What [nla_put] leaves when the length does not fit its 16-bit field. *)
Lemma nla_put_oversize_done m t d :
  msg_wf m -> bytes_ok d -> 65531 < zlen d -> msg_tail m + align4 (4 + zlen d) <= nm_size m ->
  exists b', nla_put m t (zlen d) d = Done (0, set_buf m b') /\
    zlen b' = nm_size m /\ bytes_ok b' /\
    le_at 4 b' 0 = msg_tail m + align4 (4 + zlen d).
Proof.
  intros Hw Hd Hn Hfit. pose proof Hw as (Hz & Hb & Hl & Hs).
  pose proof (msg_tail_bounds m Hw) as [Ht Ht']. pose proof (align4_bounds (4 + zlen d)) as Ha.
  set (n := zlen d) in *. unfold sizeof_nlmsghdr in Hl. unfold nla_put, nla_reserve.
  rewrite (proj2 (Z.ltb_ge n 0)), nlmsg_len_done by (done || lia). exec_simpl.
  rewrite NLMSG_ALIGN_small, nla_total_size_small by lia. fold (msg_tail m).
  rewrite s32_id, u64_id, (proj2 (Z.ltb_ge (nm_size m) _)) by lia.
  rewrite nlmsg_tail_done by done. fold (msg_tail m). exec_simpl.
  set (tl := msg_tail m) in *. do 2 exec_step.
  unfold nla_attr_size, NLA_HDRLEN. rewrite (s32_id (4 + n)) by lia.
  set (b1 := splice (nm_nlh m) (tl + 2) (le_encode 2 t)).
  assert (zlen b1 = nm_size m) as Hz1 by (unfold b1; zl).
  set (b2 := splice b1 tl (le_encode 2 (4 + n))).
  assert (zlen b2 = nm_size m) as Hz2 by (unfold b2; zl).
  assert (le_at 2 b2 tl = (4 + n) mod 65536) as Hlen.
  { unfold b2. change 2 with (Z.of_nat 2) at 1. by rewrite le_at_splice_same by lia. }
  rewrite (proj2 (Z.eqb_neq n 0)) by lia. cbn [negb]. unfold nlattr_len.
  exec_step. fold b2. rewrite (get_u16_done b2) by lia. exec_simpl. rewrite Hlen, nla_padlen_small by lia.
  assert (0 <= (4 + n) mod 65536 <= 4 + n - 65536) by zdiv_lia.
  exec_step. unfold set_nlmsg_len. exec_step.
  rewrite (proj2 (Z.ltb_lt 0 n)) by lia.
  rewrite (sub_all d : sub d 0 n = d). unfold nla_data, NLA_HDRLEN. cbn [nm_nlh set_buf].
  assert (zlen d = n) as Hdn by done. exec_step. eexists. split; [done|].
  split_and!; [zl|unfold b2, b1; auto 10 with nl|].
  rewrite le_at_splice_other by zl. apply msg_len_set; zl.
Qed.

(** ** Lemmas on typed payloads *)

Lemma s8_u8 v : s8 (v mod 2 ^ 8) = s8 v.
Proof. unfold s8. by rewrite Zplus_mod_idemp_l. Qed.
Lemma s16_u16 v : s16 (v mod 2 ^ 16) = s16 v.
Proof. unfold s16. by rewrite Zplus_mod_idemp_l. Qed.
Lemma s32_u32 v : s32 (v mod 2 ^ 32) = s32 v.
Proof. unfold s32. by rewrite Zplus_mod_idemp_l. Qed.
Lemma s64_u64 v : s64 (v mod 2 ^ 64) = s64 v.
Proof. unfold s64. by rewrite Zplus_mod_idemp_l. Qed.

(** A [k]-byte integer put at the tail reads back modulo its width. *)
Lemma put_le_ok m t v k :
  msg_wf m -> (k <= 8)%nat -> msg_tail m + 12 <= nm_size m ->
  exists m', nla_put m t (Z.of_nat k) (le_encode k v) = Done (0, m') /\
    msg_tail m + 4 + Z.of_nat k <= zlen (nm_nlh m') /\ 0 <= msg_tail m /\
    le_at (Z.of_nat k) (nm_nlh m') (msg_tail m + 4) = v mod 2 ^ (8 * Z.of_nat k) /\
    nla_len (nm_nlh m') (msg_tail m) = Done (Z.of_nat k).
Proof.
  intros Hw Hk Hfit. pose proof (msg_tail_bounds m Hw). pose proof Hw as (Hz & _).
  assert (zlen (le_encode k v) = Z.of_nat k) as Hn by apply zlen_le_encode.
  assert (align4 (4 + Z.of_nat k) <= 12) by (change 12 with (align4 12); apply align4_mono; lia).
  destruct (nla_put_ok m t (le_encode k v)) as (b' & Hput & Hz' & _ & _ & Hlen & _ & Hd & _);
    [done|apply bytes_ok_le_encode|rewrite Hn; lia..|].
  rewrite Hn in *. exists (set_buf m b'). simpl. pose proof (align4_bounds (4 + Z.of_nat k)).
  split_and!; [done|lia|lia| |].
  - unfold le_at. rewrite Hd, le_decode_encode. by rewrite Z.pow_mul_r by lia.
  - unfold nla_len, nlattr_len. rewrite get_u16_done by lia. exec_simpl. rewrite Hlen.
    f_equal. unfold NLA_HDRLEN. lia.
Qed.

(** The bytes before the first NUL. *)
Lemma c_string_app str rest :
  Forall (fun c => c <> 0) str -> c_string (str ++ 0 :: rest) = Done str.
Proof.
  induction 1 as [|c str Hc _ IH]; [done|]. simpl.
  rewrite (proj2 (Z.eqb_neq c 0)) by done. by rewrite IH.
Qed.

Lemma drop_sub b off n :
  0 <= off -> 0 <= n -> drop (Z.to_nat off) b = sub b off n ++ drop (Z.to_nat (off + n)) b.
Proof.
  intros. unfold sub. rewrite Z2Nat.inj_add by lia. rewrite <- drop_drop. by rewrite take_drop.
Qed.

(** The length [nla_strlcpy] finds: the payload less one trailing NUL. *)
Definition str_len (b : list Z) (nla : Z) : Z :=
  let n := attr_len b nla - 4 in
  if (0 <? n) && (le_at 1 b (nla + 4 + (n - 1)) =? 0) then n - 1 else n.

(** ** Properties *)

(** C3. Parsing a stream of attributes never reads outside it and always
    terminates; its result is 0 exactly when every attribute with a known type
    complies with the policy, parsing stops at the first one that does not, and
    the index holds, for each type up to [maxtype], the last attribute of that
    type among the ones parsed. *)
Theorem nla_parse_spec b maxtype head len policy :
  bytes_ok b -> 0 <= head -> head + len <= zlen b -> policy_opt_ok maxtype policy ->
  exists err tb pre,
    nla_parse b maxtype head len policy = Done (err, tb) /\
    parse_result b maxtype policy (attrs b head len) pre err /\
    index_of b maxtype pre tb.
Proof.
  intros Hb Hh Hl Hp. unfold nla_parse. rewrite nla_for_each_attr_foldx by done.
  destruct (parse_fold b maxtype head len policy (attrs b head len) []
              (replicate (Z.to_nat (maxtype + 1)) None)) as (err & tb & pre & Hf & Hr & Hi);
    [done..|apply attrs_in|constructor|apply index_of_nil|].
  simpl in Hr, Hi. rewrite Hf. exec_simpl. exists err, tb, pre.
  destruct (err <? 0) eqn:E; [done|]. bool_hyps. split_and!; [|done..].
  destruct Hr as (_ & [[-> _]|[? _]]); [done|lia].
Qed.

(** C30. [nla_validate] terminates inside the buffer with 0 exactly when every
    attribute of the stream complies with the policy. *)
Theorem nla_validate_spec b head len maxtype p :
  bytes_ok b -> 0 <= head -> head + len <= zlen b -> policy_ok maxtype p ->
  exists err,
    nla_validate b head len maxtype (Some p) = Done err /\ err <= 0 /\
    (err = 0 <-> Forall (complies b maxtype p) (attrs b head len)).
Proof.
  intros Hb Hh Hl Hp. unfold nla_validate. rewrite nla_for_each_attr_foldx by done.
  destruct (validate_fold b maxtype head len p (attrs b head len)) as (err & Hf & Hle & Hiff);
    [done..|apply attrs_in|].
  rewrite Hf. exists err. destruct (err <? 0) eqn:E; [done|]. bool_hyps.
  split_and!; [|done..]. exec_simpl. repeat f_equal. lia.
Qed.

(** [nla_find] returns the first attribute of the stream with the wanted
    type, and NULL exactly when there is none. *)
Theorem nla_find_spec b head len t :
  bytes_ok b -> 0 <= head -> head + len <= zlen b ->
  nla_find b head len t =
  Done (list.head (filter (fun nla => attr_type b nla = t) (attrs b head len))).
Proof.
  intros Hb Hh Hl. unfold nla_find. rewrite nla_for_each_attr_foldx by done.
  rewrite (find_fold b head len) by (done || apply attrs_in).
  by destruct (filter _ _).
Qed.

(** Adding an attribute to a well-formed message: when it fits, it is
    written at the aligned tail with zeroed padding, the message length grows by
    its padded size and no byte outside it and the length field changes; when it
    does not fit the message is untouched and the result is [-NLE_NOMEM]; a
    negative length is refused with [-NLE_INVAL]. *)
Theorem nla_put_spec m t d :
  msg_wf m -> bytes_ok d -> zlen d <= 65531 ->
  (msg_tail m + align4 (4 + zlen d) <= nm_size m ->
   exists b', nla_put m t (zlen d) d = Done (0, set_buf m b') /\
     put_result (nm_nlh m) b' (msg_tail m) t d /\ msg_wf (set_buf m b')) /\
  (nm_size m < msg_tail m + align4 (4 + zlen d) ->
   nla_put m t (zlen d) d = Done (- NLE_NOMEM, m)) /\
  (forall n, n < 0 -> nla_put m t n d = Done (- NLE_INVAL, m)).
Proof.
  intros Hw Hd Hn. pose proof (zlen_nonneg d). split_and!.
  - intros Hfit. destruct (nla_put_ok m t d) as (b' & ? & ?); [done..|].
    exists b'. split_and!; [done..|]. by eapply put_result_wf.
  - intros. by apply nla_put_full; [|lia|].
  - intros. by apply nla_put_negative.
Qed.

(** Payloads beyond 65531 bytes are not refused: [nla_put] reports
    success, yet the 16-bit length field cannot state the length and no reader
    sees the payload that was put. *)
Theorem nla_put_oversize m t d :
  msg_wf m -> bytes_ok d -> 65531 < zlen d -> msg_tail m + align4 (4 + zlen d) <= nm_size m ->
  exists m', nla_put m t (zlen d) d = Done (0, m') /\ msg_wf m' /\
    msg_len m' = msg_tail m + align4 (4 + zlen d) /\
    zlen (attr_payload (nm_nlh m') (msg_tail m)) < zlen d.
Proof.
  intros Hw Hd Hn Hfit. pose proof (msg_tail_bounds m Hw). pose proof Hw as (_ & _ & Hl & Hs).
  pose proof (align4_bounds (4 + zlen d)). unfold sizeof_nlmsghdr in Hl.
  destruct (nla_put_oversize_done m t d) as (b' & Hput & Hz & Hb & Hlen); [done..|].
  exists (set_buf m b'). unfold msg_wf, msg_len, sizeof_nlmsghdr. simpl. rewrite Hlen.
  split_and!; try (done || lia). unfold attr_payload, NLA_HDRLEN.
  pose proof (attr_len_range b' (msg_tail m) Hb). unfold sub, zlen in *.
  rewrite length_take. lia.
Qed.

(** C6. Composing and parsing are inverse: attributes put one after the other
    behind a message's family header are all accepted, and parsing the message
    finds for each type exactly the payload put last under that type. *)
Theorem put_parse_roundtrip m hdrlen l maxtype :
  msg_wf m -> 0 <= hdrlen < 1073741824 -> msg_len m = 16 + align4 hdrlen ->
  Forall attr_fits l -> msg_len m + total_room l <= nm_size m ->
  exists m' tb,
    nla_put_all m l = Done (0, m') /\
    nlmsg_parse (nm_nlh m') 0 hdrlen maxtype None = Done (0, tb) /\
    forall t, 0 <= t <= maxtype ->
      exists o, tb !! Z.to_nat t = Some o /\
        attr_payload (nm_nlh m') <$> o = snd <$> last (filter (fun a => a.1 = t) l).
Proof.
  intros Hw Hh Hlen Hf Hroom. pose proof (align4_bounds hdrlen).
  pose proof (total_room_nonneg l).
  assert (holds m (msg_len m) []) as Hstart.
  { split_and!; [done| |lia|exists []; split; [rewrite Z.sub_diag; constructor|done]].
    rewrite Hlen, Zplus_mod, align4_mod. done. }
  destruct (holds_put_all l m (msg_len m) []) as (m' & Hput & Hm' & Hlen' & _); [done..|].
  simpl in Hm'. pose proof (holds_attrs _ _ _ Hm') as Hat.
  destruct Hm' as ((Hz' & Hb' & Hl' & Hs') & _).
  exists m'. rewrite nlmsg_parse_done by (done || lia). rewrite <- Hlen.
  unfold nla_parse. rewrite nla_for_each_attr_foldx by (done || lia).
  set (L := attrs _ _ _) in *.
  destruct (parse_fold (nm_nlh m') maxtype (msg_len m) (msg_len m' - msg_len m) None L []
    (replicate (Z.to_nat (maxtype + 1)) None)) as (err & tb & pre & Hfo & Hr & Hi);
    [done|lia|lia|done|apply attrs_in|constructor|apply index_of_nil|].
  simpl in Hr, Hi. rewrite Hfo. destruct Hr as (_ & [[-> <-]|(_ & ? & ? & _ & [])]); [|done].
  exists tb. split_and!; [done..|]. intros t Ht. destruct Hi as [_ Hi]. rewrite Hi by done.
  eexists. split; [done|]. by apply last_of_type_content.
Qed.

(** C13. Nested attributes: opening a nest, putting attributes and closing it
    yields one attribute with the nested flag whose payload is exactly the inner
    attributes; an empty nest is removed and reported as success; a nest too
    long for the length field is removed with [-NLE_ATTRSIZE].  In both removals
    the attributes before it and the message length are as before the start. *)
Theorem nest_seq_spec m head l t inner :
  holds m head l -> 0 <= t < 16384 -> head <= msg_len m -> Forall attr_fits inner ->
  msg_len m + 4 + total_room inner <= nm_size m ->
  let n := total_room inner in
  if (0 <? n) && (4 + n <=? USHRT_MAX) then
    exists m' d, nest_seq m t inner = Done (0, m') /\ holds m' head (l ++ [(t, d)]) /\
      holds m' (msg_len m + 4) inner /\ zlen d = n /\
      nla_is_nested (nm_nlh m') (msg_len m) = Done true
  else
    exists m', nest_seq m t inner = Done (if n =? 0 then 0 else - NLE_ATTRSIZE, m') /\
      holds m' head l /\ msg_len m' = msg_len m.
Proof.
  intros Hh Ht Hle Hf Hroom n. pose proof (total_room_nonneg inner).
  destruct (nest_start_ok m head l t) as (m1 & Hst & Hn1 & Hl1 & Hs1 & Hb1); [done..|lia|].
  destruct (nest_put_all m1 head (msg_len m) t l inner)
    as (m2 & Hput & Hn2 & Hl2 & Hs2 & Hb2); [done..|lia|].
  unfold nest_seq. rewrite Hst. exec_simpl. rewrite Hput. exec_simpl.
  change (0 <? 0) with false. cbv iota. fold n in Hl2.
  destruct ((0 <? n) && (4 + n <=? USHRT_MAX)) eqn:E.
  - bool_hyps.
    destruct (nest_end_ok m2 head (msg_len m) t l inner) as (m3 & d & He & Ho & Hi & Hnest & Hd & Hl3 & _);
      [done..|lia|]. exists m3, d. split_and!; (done || lia).
  - assert (msg_len m2 = msg_len m + 4 \/ msg_len m + USHRT_MAX < msg_len m2) as Hc.
    { apply andb_false_iff in E as []; bool_hyps; lia. }
    destruct (nest_end_cancel m2 head (msg_len m) t l inner) as (m3 & He & Ho & Hl3 & _);
      [done|lia|done|]. rewrite He. exists m3. split_and!; try done. do 2 f_equal.
    by destruct (Z.eqb_spec (msg_len m2) (msg_len m + 4)), (Z.eqb_spec n 0); try lia.
Qed.

(** Typed attributes: an integer put into a message with any of the eight
    accessors is read back by the matching one as the value converted to its
    type. *)
Theorem int_attr_roundtrip m t v :
  msg_wf m -> msg_tail m + 12 <= nm_size m ->
  let reads put get r := exists m', put m t v = Done (0, m') /\
                          get (nm_nlh m') (msg_tail m) = Done r in
  reads nla_put_u8 nla_get_u8 (u8 v) /\ reads nla_put_s8 nla_get_s8 (s8 v) /\
  reads nla_put_u16 nla_get_u16 (u16 v) /\ reads nla_put_s16 nla_get_s16 (s16 v) /\
  reads nla_put_u32 nla_get_u32 (u32 v) /\ reads nla_put_s32 nla_get_s32 (s32 v) /\
  reads nla_put_u64 (fun b nla => nla_get_u64 b (Some nla)) (u64 v) /\
  reads nla_put_s64 (fun b nla => nla_get_s64 b (Some nla)) (s64 v).
Proof.
  intros Hw Hfit reads.
  assert (forall k, (k <= 8)%nat -> exists m',
    nla_put m t (Z.of_nat k) (le_encode k v) = Done (0, m') /\
    load (nm_nlh m') (msg_tail m + 4) (Z.of_nat k) = Done (sub (nm_nlh m') (msg_tail m + 4) (Z.of_nat k)) /\
    le_decode (sub (nm_nlh m') (msg_tail m + 4) (Z.of_nat k)) = v mod 2 ^ (8 * Z.of_nat k) /\
    nla_len (nm_nlh m') (msg_tail m) = Done (Z.of_nat k)) as Hk.
  { intros k Hle. destruct (put_le_ok m t v k) as (m' & ? & ? & ? & ? & ?); [done..|].
    exists m'. split_and!; [done| |done..]. apply load_done; lia. }
  destruct (Hk 1%nat) as (m1 & Hp1 & Hr1 & Hv1 & _); [lia|].
  destruct (Hk 2%nat) as (m2 & Hp2 & Hr2 & Hv2 & _); [lia|].
  destruct (Hk 4%nat) as (m4 & Hp4 & Hr4 & Hv4 & _); [lia|].
  destruct (Hk 8%nat) as (m8 & Hp8 & Hr8 & Hv8 & Hl8); [lia|].
  change (Z.of_nat 1) with 1 in *. change (Z.of_nat 2) with 2 in *.
  change (Z.of_nat 4) with 4 in *. change (Z.of_nat 8) with 8 in *.
  unfold reads. split_and!; [exists m1|exists m1|exists m2|exists m2|exists m4|exists m4|exists m8|exists m8];
    (split; [first [exact Hp1|exact Hp2|exact Hp4|exact Hp8]|]);
    unfold nla_get_u8, nla_get_s8, nla_get_u16, nla_get_s16, nla_get_u32, nla_get_s32, nla_get_u64,
      nla_get_s64; rewrite ?Hl8; exec_simpl; try change (8 <=? u64 8) with true; cbv iota;
    unfold get_u8, get_u16, get_u32, get_u64, nla_data, NLA_HDRLEN;
    rewrite ?Hr1, ?Hr2, ?Hr4, ?Hr8; exec_simpl; rewrite ?Hv1, ?Hv2, ?Hv4, ?Hv8; f_equal;
    first [done|apply s8_u8|apply s16_u16|apply s32_u32|apply s64_u64].
Qed.

(** Strings: a NUL-free string put as an attribute is what [nla_strdup]
    returns from it and what [nla_strcmp] finds equal. *)
Theorem string_attr_roundtrip m t str :
  msg_wf m -> bytes_ok str -> Forall (fun c => c <> 0) str -> zlen str <= 65530 ->
  msg_tail m + align4 (5 + zlen str) <= nm_size m ->
  exists m', nla_put_string m t str = Done (0, m') /\
    nla_strdup (nm_nlh m') (msg_tail m) = Done str /\
    nla_strcmp (nm_nlh m') (msg_tail m) str = Done 0.
Proof.
  intros Hw Hb Hnz Hl Hfit. pose proof (msg_tail_bounds m Hw). pose proof Hw as (Hz & _ & _ & Hs).
  pose proof (zlen_nonneg str). pose proof (align4_bounds (5 + zlen str)).
  assert (zlen (str ++ [0]) = zlen str + 1) as Hn by (rewrite zlen_app; done).
  destruct (nla_put_ok m t (str ++ [0])) as (b' & Hput & Hz' & _ & _ & Hlen & _ & Hd & _).
  { done. } { apply bytes_ok_app. split; [done|]. constructor; [lia|constructor]. } { lia. }
  { rewrite Hn. by replace (4 + (zlen str + 1)) with (5 + zlen str) by lia. }
  rewrite Hn in *. exists (set_buf m b'). simpl. split_and!; [done| |].
  - unfold nla_strdup, nla_get_string, nla_data, NLA_HDRLEN.
    rewrite (drop_sub _ _ (zlen str + 1)) by lia. rewrite Hd, <- app_assoc. by apply c_string_app.
  - unfold nla_strcmp, nla_len, nlattr_len. rewrite get_u16_done by lia. exec_simpl.
    rewrite Hlen. unfold nla_data, NLA_HDRLEN.
    replace (4 + (zlen str + 1) - 4 - (zlen str + 1)) with 0 by lia. change (s32 0 =? 0) with true.
    cbv iota. rewrite load_done by lia. exec_simpl. rewrite Hd. f_equal.
    clear. induction (str ++ [0]) as [|x l IH]; [done|]. simpl. by rewrite Z.eqb_refl.
Qed.

Lemma nla_strlcpy_done b dst nla head len dstsize :
  bytes_ok b -> 0 <= head -> head + len <= zlen b -> attr_in b head len nla ->
  zlen dst = dstsize -> 0 < dstsize ->
  let n := str_len b nla in
  let c := Z.min n (dstsize - 1) in
  nla_strlcpy b dst nla dstsize =
    Done (n, sub b (nla + 4) c ++ zeros (dstsize - c)).
Proof.
  intros Hb Hh Hl Hin Hd Hp n c. unfold nla_strlcpy. rewrite (nla_len_done b head len) by done.
  pose proof (attr_len_range b nla Hb). unfold attr_in in Hin. exec_simpl.
  unfold nla_data, NLA_HDRLEN. rewrite u64_id by lia. set (p := attr_len b nla - 4) in *.
  assert ((if 0 <? p then c ← get_u8 b (nla + 4 + (p - 1)); mret (if c =? 0 then p - 1 else p)
           else mret p) = Done n) as ->.
  { unfold n, str_len. fold p. destruct (0 <? p) eqn:E; [|done]. bool_hyps.
    rewrite get_u8_done by lia. exec_simpl. by destruct (le_at 1 b _ =? 0). }
  assert (0 <= n <= p) as Hn.
  { unfold n, str_len. fold p. destruct (0 <? p) eqn:E; simpl; [bool_hyps; case_test; lia|].
    unfold p. lia. }
  exec_simpl. rewrite (proj2 (Z.ltb_lt 0 dstsize)) by done.
  replace (if dstsize <=? n then dstsize - 1 else n) with c.
  2: { unfold c. destruct (dstsize <=? n) eqn:E; bool_hyps; lia. }
  assert (0 <= c <= p /\ c < dstsize) by lia.
  rewrite load_done, store_done by zl. exec_simpl.
  assert (zlen (sub b (nla + 4) c) = c) as Hc by (apply zlen_sub; lia).
  rewrite store_done; [|lia|rewrite Hc; zl]. exec_simpl. do 2 f_equal.
  assert (splice dst 0 (zeros dstsize) = zeros dstsize) as ->.
  { unfold splice. simpl. rewrite drop_ge, app_nil_r; [done|].
    unfold zeros, zlen in *. rewrite length_replicate. lia. }
  unfold splice. simpl. f_equal. unfold zeros. rewrite drop_replicate. f_equal.
  unfold zlen in *. lia.
Qed.

(** [nla_strlcpy] stays inside the attribute and the destination, returns
    the length of the source string, and fills the destination with as much of
    it as fits, zero padded and always NUL-terminated. *)
Theorem nla_strlcpy_spec b dst nla head len dstsize :
  bytes_ok b -> 0 <= head -> head + len <= zlen b -> attr_in b head len nla ->
  zlen dst = dstsize -> 0 < dstsize ->
  let n := str_len b nla in
  let c := Z.min n (dstsize - 1) in
  nla_strlcpy b dst nla dstsize =
    Done (n, sub b (nla + 4) c ++ zeros (dstsize - c)).
Proof. intros. by eapply nla_strlcpy_done. Qed.

(** ** The properties at concrete inputs *)

(** A u32 of type 1, a string of type 2 and a second u32 of type 1. *)
Definition ex_attrs : list (Z * list Z) :=
  [(1, [1; 0; 0; 0]); (2, [97; 98; 0]); (1, [7; 0; 0; 0])].

Definition ex_stream : list Z :=
  [8; 0; 1; 0; 1; 0; 0; 0; 7; 0; 2; 0; 97; 98; 0; 0; 8; 0; 1; 0; 7; 0; 0; 0].

Definition ex_policy : list nla_policy :=
  [ {| pol_type := NLA_UNSPEC; pol_minlen := 0; pol_maxlen := 0 |};
    {| pol_type := NLA_U32; pol_minlen := 0; pol_maxlen := 0 |};
    {| pol_type := NLA_STRING; pol_minlen := 0; pol_maxlen := 16 |} ].

Lemma ex_attrs_fit : Forall attr_fits ex_attrs.
Proof.
  repeat constructor; try (by apply bytes_ok_dec); by vm_compute.
Qed.

Lemma ex_policy_ok : policy_ok 2 ex_policy.
Proof. split; [done|]. repeat constructor; by vm_compute. Qed.

Lemma nla_parse_spec_witness :
  exists err tb pre,
    nla_parse ex_stream 2 0 24 (Some ex_policy) = Done (err, tb) /\
    parse_result ex_stream 2 (Some ex_policy) (attrs ex_stream 0 24) pre err /\
    index_of ex_stream 2 pre tb.
Proof.
  apply (nla_parse_spec ex_stream 2 0 24 (Some ex_policy));
    [by apply bytes_ok_dec|done|done|apply ex_policy_ok].
Defined.

Lemma nla_validate_spec_witness :
  exists err,
    nla_validate ex_stream 0 24 2 (Some ex_policy) = Done err /\ err <= 0 /\
    (err = 0 <-> Forall (complies ex_stream 2 ex_policy) (attrs ex_stream 0 24)).
Proof.
  apply (nla_validate_spec ex_stream 0 24 2 ex_policy);
    [by apply bytes_ok_dec|done|done|apply ex_policy_ok].
Defined.

Lemma nla_find_spec_witness : nla_find ex_stream 0 24 2 = Done (Some 8).
Proof.
  rewrite (nla_find_spec ex_stream 0 24 2);
    [reflexivity|by apply bytes_ok_dec|done|done].
Defined.

Lemma nla_put_spec_witness :
  exists b', nla_put ex_msg 5 3 [1; 2; 3] = Done (0, set_buf ex_msg b') /\
    put_result (nm_nlh ex_msg) b' 16 5 [1; 2; 3] /\ msg_wf (set_buf ex_msg b').
Proof.
  apply (nla_put_spec ex_msg 5 [1; 2; 3]);
    [apply ex_msg_wf|by apply bytes_ok_dec|done|done].
Defined.

Lemma put_parse_roundtrip_witness :
  exists m' tb,
    nla_put_all ex_msg ex_attrs = Done (0, m') /\
    nlmsg_parse (nm_nlh m') 0 0 2 None = Done (0, tb) /\
    forall t, 0 <= t <= 2 ->
      exists o, tb !! Z.to_nat t = Some o /\
        attr_payload (nm_nlh m') <$> o = snd <$> last (filter (fun a => a.1 = t) ex_attrs).
Proof.
  apply (put_parse_roundtrip ex_msg 0 ex_attrs 2);
    [apply ex_msg_wf|done|done|apply ex_attrs_fit|by vm_compute].
Defined.

Lemma nest_seq_spec_witness :
  exists m' d, nest_seq ex_msg 9 ex_attrs = Done (0, m') /\ holds m' 16 ([] ++ [(9, d)]) /\
    holds m' 20 ex_attrs /\ zlen d = 24 /\ nla_is_nested (nm_nlh m') 16 = Done true.
Proof.
  apply (nest_seq_spec ex_msg 16 [] 9 ex_attrs);
    [|done|by vm_compute|apply ex_attrs_fit|by vm_compute].
  split_and!; [apply ex_msg_wf|done|done|]. exists []. split; [constructor|done].
Defined.

Lemma int_attr_roundtrip_witness :
  exists m', nla_put_s16 ex_msg 4 (-2) = Done (0, m') /\
    nla_get_s16 (nm_nlh m') 16 = Done (-2).
Proof.
  destruct (int_attr_roundtrip ex_msg 4 (-2) ex_msg_wf) as (_ & _ & _ & H & _); [done|].
  exact H.
Defined.

Lemma string_attr_roundtrip_witness :
  exists m', nla_put_string ex_msg 4 [101; 116; 104] = Done (0, m') /\
    nla_strdup (nm_nlh m') 16 = Done [101; 116; 104] /\
    nla_strcmp (nm_nlh m') 16 [101; 116; 104] = Done 0.
Proof.
  apply (string_attr_roundtrip ex_msg 4 [101; 116; 104]);
    [apply ex_msg_wf|by apply bytes_ok_dec|by repeat constructor|done|by vm_compute].
Defined.

Lemma nla_strlcpy_spec_witness :
  nla_strlcpy ex_stream [9; 9; 9; 9; 9] 8 5 = Done (2, [97; 98; 0; 0; 0]) /\
  nla_strlcpy ex_stream [9; 9] 8 2 = Done (2, [97; 0]).
Proof.
  split.
  - apply (nla_strlcpy_spec ex_stream [9; 9; 9; 9; 9] 8 0 24 5);
      [by apply bytes_ok_dec|done|done|by vm_compute|done|done].
  - apply (nla_strlcpy_spec ex_stream [9; 9] 8 0 24 2);
      [by apply bytes_ok_dec|done|done|by vm_compute|done|done].
Defined.

(** A message with room for an attribute of 65532 bytes. *)
Definition ex_big : nl_msg :=
  {| nm_protocol := 0; nm_flags := 0; nm_src := sockaddr_0; nm_dst := sockaddr_0;
     nm_creds := ucred_0; nm_nlh := le_encode 4 16 ++ zeros 70000; nm_size := 70004;
     nm_refcnt := 1 |}.

Lemma nla_put_oversize_witness :
  exists m', nla_put ex_big 1 (zlen (zeros 65532)) (zeros 65532) = Done (0, m') /\ msg_wf m' /\
    msg_len m' = msg_tail ex_big + align4 (4 + zlen (zeros 65532)) /\
    zlen (attr_payload (nm_nlh m') (msg_tail ex_big)) < zlen (zeros 65532).
Proof.
  apply (nla_put_oversize ex_big 1 (zeros 65532)).
  - unfold msg_wf. split_and!; [by vm_compute|by apply bytes_ok_dec; vm_compute|by vm_compute..].
  - apply bytes_ok_zeros.
  - by vm_compute.
  - by vm_compute.
Defined.
