(* ===== verification/Data.v ===== *)
(** Abstract data (lib/data.c) and its attribute interface (nla_put_data of
    lib/attr.c): a byte string with allocation, cloning, appending and
    comparison. *)
From S2P Require Import Prelude Errors Msg Attr.

(** [d_data]: the heap block, at least [d_size] bytes. *)
Record nl_data := { d_size : Z; d_data : list Z }.

(** [c1], [c2]: whether the two callocs succeed; [buf]: the memory behind the
    source pointer, [None] for NULL. *)
Definition nl_data_alloc (c1 c2 : bool) (buf : option (list Z)) (size : Z)
    : exec (option nl_data) :=
  if negb c1 then mret None
  else if negb c2 then mret None
  else
    match buf with
    | None => mret (Some {| d_size := size; d_data := zeros size |})
    | Some buf =>
        d ← load buf 0 size;
        m ← store (zeros size) 0 d;
        mret (Some {| d_size := size; d_data := m |})
    end.

Definition nl_data_alloc_attr (c1 c2 : bool) (b : list Z) (nla : Z) : exec (option nl_data) :=
  len ← nla_len b nla;
  nl_data_alloc c1 c2 (Some (drop (Z.to_nat (nla_data nla)) b)) len.

Definition nl_data_clone (c1 c2 : bool) (src : nl_data) : exec (option nl_data) :=
  nl_data_alloc c1 c2 (Some (d_data src)) (d_size src).

(** [r]: whether realloc succeeds; the fresh bytes are written at once. *)
Definition nl_data_append (r : bool) (data : nl_data) (buf : option (list Z)) (size : Z)
    : exec (Z * nl_data) :=
  if 0 <? size then
    if negb r then mret (- NLE_NOMEM, data)
    else
      old ← load (d_data data) 0 (d_size data);
      new ← (match buf with Some buf => load buf 0 size | None => mret (zeros size) end);
      mret (0, {| d_size := d_size data + size; d_data := old ++ new |})
  else mret (0, data).

Definition nl_data_get (data : nl_data) : option (list Z) :=
  if 0 <? d_size data then Some (d_data data) else None.

Definition nl_data_get_size (data : nl_data) : Z := d_size data.

Definition nl_data_cmp (a b : nl_data) : exec Z :=
  match nl_data_get a, nl_data_get b with
  | Some a_, Some b_ =>
      x ← load a_ 0 (nl_data_get_size a);
      y ← load b_ 0 (nl_data_get_size a);
      mret (memcmp x y)
  | _, _ => mret (-1)
  end.

Definition nla_put_data (msg : nl_msg) (attrtype : Z) (data : nl_data) : exec (Z * nl_msg) :=
  nla_put msg attrtype (nl_data_get_size data)
    (match nl_data_get data with Some d => d | None => [] end).

(** ** The byte string a data object stands for *)

Definition data_is (d : nl_data) (l : list Z) : Prop := d_data d = l /\ d_size d = zlen l.

Lemma memcmp_eq_0 a : forall b, zlen a = zlen b -> memcmp a b = 0 <-> a = b.
Proof.
  induction a as [|x a IH]; intros [|y b] Hl; rewrite ?zlen_cons in Hl;
    try (pose proof (zlen_nonneg a)); try (pose proof (zlen_nonneg b));
    try (change (zlen []) with 0 in Hl; lia); [done|].
  simpl. destruct (x =? y) eqn:E; bool_hyps.
  - subst. rewrite IH by lia. split; [by intros ->|by intros [= ->]].
  - split; [lia|]. intros [= -> ->]. done.
Qed.

Lemma splice_all b d : zlen b = zlen d -> splice b 0 d = d.
Proof.
  intros H. unfold splice. simpl. rewrite drop_ge, app_nil_r; [done|]. unfold zlen in *. lia.
Qed.

Lemma nl_data_alloc_done l rest :
  nl_data_alloc true true (Some (l ++ rest)) (zlen l) =
  Done (Some {| d_size := zlen l; d_data := l |}).
Proof.
  pose proof (zlen_nonneg l). pose proof (zlen_nonneg rest).
  unfold nl_data_alloc. cbn [negb]. rewrite load_done by (rewrite ?zlen_app; lia).
  rewrite sub_app_l, sub_all by lia. exec_simpl.
  rewrite store_done by (rewrite ?zlen_zeros; lia). exec_simpl.
  by rewrite splice_all by (rewrite zlen_zeros; lia).
Qed.

(** ** Properties *)

(** Data objects implement byte strings: allocation and cloning copy
    exactly the given bytes, appending concatenates (zeros for a NULL source), a
    failed allocation leaves the object as it was, and size and content are those
    of the string. *)
Theorem nl_data_refines d l k :
  data_is d l ->
  nl_data_alloc true true (Some l) (zlen l) = Done (Some d) /\
  (exists d', nl_data_clone true true d = Done (Some d') /\ data_is d' l) /\
  (exists d', nl_data_append true d (Some k) (zlen k) = Done (0, d') /\ data_is d' (l ++ k)) /\
  (exists d', nl_data_append true d None (zlen k) = Done (0, d') /\
              data_is d' (l ++ zeros (zlen k))) /\
  (k <> [] -> nl_data_append false d (Some k) (zlen k) = Done (- NLE_NOMEM, d)) /\
  nl_data_get_size d = zlen l /\
  nl_data_get d = (if decide (l = []) then None else Some l).
Proof.
  destruct d as [n b]. intros [Hd Hn]. simpl in *. subst.
  pose proof (nl_data_alloc_done l []) as Ha. rewrite app_nil_r in Ha.
  pose proof (zlen_nonneg k). pose proof (zlen_nonneg l).
  assert (forall x : list Z, x <> [] -> 0 < zlen x) as Hpos.
  { intros [|? ?] ?; [done|]. rewrite zlen_cons. match goal with |- context [zlen ?y] => pose proof (zlen_nonneg y) end. lia. }
  assert (forall x : list Z, zlen x <= 0 -> x = []) as Hnil.
  { intros [|? ?] Hx; [done|]. specialize (Hpos (z :: l0)). by assert (0 < zlen (z :: l0)) by (by apply Hpos); lia. }
  split_and!; [done|eexists; split; [done|done]| | | |done|].
  - unfold nl_data_append. destruct (0 <? zlen k) eqn:E; bool_hyps; simpl d_data; simpl d_size.
    + exec_run. rewrite !sub_all. eexists. split; [done|]. split; [done|].
      simpl. by rewrite zlen_app.
    + rewrite (Hnil k), app_nil_r by lia. by eexists.
  - unfold nl_data_append. destruct (0 <? zlen k) eqn:E; bool_hyps; simpl d_data; simpl d_size.
    + exec_run. rewrite !sub_all. eexists. split; [done|]. split; [done|].
      simpl. by rewrite zlen_app, zlen_zeros by lia.
    + rewrite (Hnil k), app_nil_r by lia. by eexists.
  - intros Hk. unfold nl_data_append. by rewrite (proj2 (Z.ltb_lt _ _)) by auto.
  - unfold nl_data_get. simpl. destruct (decide (l = [])) as [->|Hl]; [done|].
    by rewrite (proj2 (Z.ltb_lt _ _)) by auto.
Qed.

(** Comparison: for non-empty objects of the same size the result is 0
    exactly when the bytes are equal; an empty object compares as different from
    everything, itself included; and when the second object is the shorter one
    the comparison reads past its end, since only the size of the first is used. *)
Theorem nl_data_cmp_spec a b x y :
  data_is a x -> data_is b y ->
  (x <> [] -> zlen x = zlen y -> exists r, nl_data_cmp a b = Done r /\ (r = 0 <-> x = y)) /\
  (x = [] \/ y = [] -> nl_data_cmp a b = Done (-1)) /\
  (y <> [] -> zlen y < zlen x -> nl_data_cmp a b = Fault).
Proof.
  destruct a as [n ?], b as [m ?]. intros [H1 H2] [H3 H4]. simpl in *. subst.
  pose proof (zlen_nonneg x). pose proof (zlen_nonneg y).
  assert (forall l : list Z, l <> [] -> 0 < zlen l) as Hpos.
  { intros [|? l] ?; [done|]. rewrite zlen_cons. pose proof (zlen_nonneg l). lia. }
  unfold nl_data_cmp, nl_data_get, nl_data_get_size. simpl. split_and!.
  - intros Hx Hl. apply Hpos in Hx. rewrite !(proj2 (Z.ltb_lt _ _)) by lia.
    rewrite !load_done by lia. eexists. split; [done|].
    rewrite Hl at 2. rewrite !sub_all. by apply memcmp_eq_0.
  - intros [->| ->]; [done|]. change (0 <? zlen []) with false. by destruct (0 <? zlen x).
  - intros Hy Hl. apply Hpos in Hy. rewrite !(proj2 (Z.ltb_lt _ _)) by lia.
    rewrite (load_done x) by lia. exec_simpl. unfold load, in_bounds.
    by rewrite (proj2 (Z.leb_gt _ (zlen y))), andb_false_r by lia.
Qed.

(** Data objects survive the wire: a data object put as an attribute and
    allocated again from that attribute has the same bytes. *)
Theorem data_attr_roundtrip m t d l :
  msg_wf m -> data_is d l -> bytes_ok l -> l <> [] -> zlen l <= 65531 ->
  msg_tail m + align4 (4 + zlen l) <= nm_size m ->
  exists m' d', nla_put_data m t d = Done (0, m') /\
    nl_data_alloc_attr true true (nm_nlh m') (msg_tail m) = Done (Some d') /\ data_is d' l.
Proof.
  intros Hw [Hd Hs] Hb Hne Hl Hfit. pose proof (zlen_nonneg l). pose proof Hw as (Hz & _).
  pose proof (msg_tail_bounds m Hw). pose proof (align4_bounds (4 + zlen l)).
  destruct (nla_put_ok m t l) as (b' & Hput & Hz' & _ & _ & Hlen & _ & Hdat & _); [done..|].
  exists (set_buf m b'), {| d_size := zlen l; d_data := l |}. split_and!; [| |done].
  - unfold nla_put_data, nl_data_get, nl_data_get_size. rewrite Hs, Hd.
    destruct (0 <? zlen l) eqn:E; [done|]. bool_hyps.
    destruct l as [|c l]; [done|]. rewrite zlen_cons in *. pose proof (zlen_nonneg l). lia.
  - unfold nl_data_alloc_attr, nla_len, nlattr_len. simpl.
    rewrite get_u16_done by lia. exec_simpl. rewrite Hlen. unfold nla_data, NLA_HDRLEN.
    rewrite (drop_sub _ _ (zlen l)), Hdat by lia.
    replace (4 + zlen l - 4) with (zlen l) by lia. apply nl_data_alloc_done.
Qed.

(** ** The properties at concrete inputs *)

Lemma nl_data_refines_witness :
  nl_data_append true {| d_size := 2; d_data := [1; 2] |} (Some [3]) 1 =
  Done (0, {| d_size := 3; d_data := [1; 2; 3] |}).
Proof.
  destruct (nl_data_refines {| d_size := 2; d_data := [1; 2] |} [1; 2] [3])
    as (_ & _ & (d' & H & Hd & Hn) & _); [done|].
  change (zlen [3]) with 1 in H. rewrite H. destruct d'. simpl in *. by subst.
Defined.

Lemma nl_data_cmp_spec_witness :
  nl_data_cmp {| d_size := 2; d_data := [1; 2] |} {| d_size := 1; d_data := [1] |} = Fault.
Proof.
  by apply (nl_data_cmp_spec {| d_size := 2; d_data := [1; 2] |} {| d_size := 1; d_data := [1] |}
           [1; 2] [1]).
Defined.

Lemma data_attr_roundtrip_witness :
  exists m' d', nla_put_data ex_msg 3 {| d_size := 2; d_data := [1; 2] |} = Done (0, m') /\
    nl_data_alloc_attr true true (nm_nlh m') 16 = Done (Some d') /\ data_is d' [1; 2].
Proof.
  apply (data_attr_roundtrip ex_msg 3 {| d_size := 2; d_data := [1; 2] |} [1; 2]);
    [apply ex_msg_wf|done|by apply bytes_ok_dec|done|done|by vm_compute].
Defined.
