(* ===== verification/Hash.v ===== *)
(** The hash function (lib/hash.c, Jenkins' lookup3) as it is compiled on a
    little endian host: three reading strategies chosen by the alignment of the
    key, with the same result.

    The key is a byte list, its address modulo 4 an argument; words of the state
    are integers modulo 2^32. *)
From S2P Require Import Prelude.

Definition HASH_LITTLE_ENDIAN := true.
Definition HASH_BIG_ENDIAN := false.

(** The state [(a, b, c)]. *)
Definition hstate : Type := Z * Z * Z.

Definition rot (x k : Z) : Z := Z.lor (u32 (Z.shiftl x k)) (Z.shiftr x (32 - k)).

Definition add32 (x y : Z) : Z := u32 (x + y).
Definition sub32 (x y : Z) : Z := u32 (x - y).

Definition mix (s : hstate) : hstate :=
  let '(a, b, c) := s in
  let a := sub32 a c in let a := Z.lxor a (rot c 4) in let c := add32 c b in
  let b := sub32 b a in let b := Z.lxor b (rot a 6) in let a := add32 a c in
  let c := sub32 c b in let c := Z.lxor c (rot b 8) in let b := add32 b a in
  let a := sub32 a c in let a := Z.lxor a (rot c 16) in let c := add32 c b in
  let b := sub32 b a in let b := Z.lxor b (rot a 19) in let a := add32 a c in
  let c := sub32 c b in let c := Z.lxor c (rot b 4) in let b := add32 b a in
  (a, b, c).

Definition final (s : hstate) : hstate :=
  let '(a, b, c) := s in
  let c := Z.lxor c b in let c := sub32 c (rot b 14) in
  let a := Z.lxor a c in let a := sub32 a (rot c 11) in
  let b := Z.lxor b a in let b := sub32 b (rot a 25) in
  let c := Z.lxor c b in let c := sub32 c (rot b 16) in
  let a := Z.lxor a c in let a := sub32 a (rot c 4) in
  let b := Z.lxor b a in let b := sub32 b (rot a 14) in
  let c := Z.lxor c b in let c := sub32 c (rot b 24) in
  (a, b, c).

(** [x += e << sh] for a value [e] read from the key. *)
Definition acc (x : Z) (rd : exec Z) (sh : Z) : exec Z :=
  e ← rd; mret (add32 x (u32 (Z.shiftl e sh))).
Definition acc_if (c : bool) (x : Z) (rd : exec Z) (sh : Z) : exec Z :=
  if c then acc x rd sh else mret x.

(** *** Aligned to 4: 32-bit reads, single bytes at the end *)

Definition block4 (key : list Z) (k : Z) (s : hstate) : exec hstate :=
  let '(a, b, c) := s in
  a ← acc a (get_u32 key k) 0;
  b ← acc b (get_u32 key (k + 4)) 0;
  c ← acc c (get_u32 key (k + 8)) 0;
  mret (a, b, c).

(** The switch on the last 0 to 12 bytes; [None]: case 0, which returns. *)
Definition tail4 (key : list Z) (k length : Z) (s : hstate) : exec (option hstate) :=
  let '(a, b, c) := s in
  if length =? 12 then
    c ← acc c (get_u32 key (k + 8)) 0;
    b ← acc b (get_u32 key (k + 4)) 0;
    a ← acc a (get_u32 key k) 0;
    mret (Some (a, b, c))
  else if 8 <=? length then
    c ← acc_if (11 <=? length) c (get_u8 key (k + 10)) 16;
    c ← acc_if (10 <=? length) c (get_u8 key (k + 9)) 8;
    c ← acc_if (9 <=? length) c (get_u8 key (k + 8)) 0;
    b ← acc b (get_u32 key (k + 4)) 0;
    a ← acc a (get_u32 key k) 0;
    mret (Some (a, b, c))
  else if 4 <=? length then
    b ← acc_if (7 <=? length) b (get_u8 key (k + 6)) 16;
    b ← acc_if (6 <=? length) b (get_u8 key (k + 5)) 8;
    b ← acc_if (5 <=? length) b (get_u8 key (k + 4)) 0;
    a ← acc a (get_u32 key k) 0;
    mret (Some (a, b, c))
  else if 1 <=? length then
    a ← acc_if (3 <=? length) a (get_u8 key (k + 2)) 16;
    a ← acc_if (2 <=? length) a (get_u8 key (k + 1)) 8;
    a ← acc a (get_u8 key k) 0;
    mret (Some (a, b, c))
  else mret None.

(** *** Aligned to 2: pairs of 16-bit reads *)

(** [k[i] + (((uint32_t)k[i+1])<<16)] at byte offset [o]. *)
Definition pair16 (key : list Z) (o : Z) : exec Z :=
  lo ← get_u16 key o;
  hi ← get_u16 key (o + 2);
  mret (u32 (lo + u32 (Z.shiftl hi 16))).

Definition block2 (key : list Z) (k : Z) (s : hstate) : exec hstate :=
  let '(a, b, c) := s in
  a ← acc a (pair16 key k) 0;
  b ← acc b (pair16 key (k + 4)) 0;
  c ← acc c (pair16 key (k + 8)) 0;
  mret (a, b, c).

Definition tail2 (key : list Z) (k length : Z) (s : hstate) : exec (option hstate) :=
  let '(a, b, c) := s in
  if length =? 12 then
    c ← acc c (pair16 key (k + 8)) 0;
    b ← acc b (pair16 key (k + 4)) 0;
    a ← acc a (pair16 key k) 0;
    mret (Some (a, b, c))
  else if 10 <=? length then
    c ← acc_if (11 <=? length) c (get_u8 key (k + 10)) 16;
    c ← acc c (get_u16 key (k + 8)) 0;
    b ← acc b (pair16 key (k + 4)) 0;
    a ← acc a (pair16 key k) 0;
    mret (Some (a, b, c))
  else if 8 <=? length then
    c ← acc_if (9 <=? length) c (get_u8 key (k + 8)) 0;
    b ← acc b (pair16 key (k + 4)) 0;
    a ← acc a (pair16 key k) 0;
    mret (Some (a, b, c))
  else if 6 <=? length then
    b ← acc_if (7 <=? length) b (get_u8 key (k + 6)) 16;
    b ← acc b (get_u16 key (k + 4)) 0;
    a ← acc a (pair16 key k) 0;
    mret (Some (a, b, c))
  else if 4 <=? length then
    b ← acc_if (5 <=? length) b (get_u8 key (k + 4)) 0;
    a ← acc a (pair16 key k) 0;
    mret (Some (a, b, c))
  else if 2 <=? length then
    a ← acc_if (3 <=? length) a (get_u8 key (k + 2)) 16;
    a ← acc a (get_u16 key k) 0;
    mret (Some (a, b, c))
  else if 1 <=? length then
    a ← acc a (get_u8 key k) 0;
    mret (Some (a, b, c))
  else mret None.

(** *** Any alignment: single bytes *)

Definition bytes4 (key : list Z) (x o : Z) : exec Z :=
  x ← acc x (get_u8 key o) 0;
  x ← acc x (get_u8 key (o + 1)) 8;
  x ← acc x (get_u8 key (o + 2)) 16;
  acc x (get_u8 key (o + 3)) 24.

Definition block1 (key : list Z) (k : Z) (s : hstate) : exec hstate :=
  let '(a, b, c) := s in
  a ← bytes4 key a k;
  b ← bytes4 key b (k + 4);
  c ← bytes4 key c (k + 8);
  mret (a, b, c).

(** One word of the tail: the cases [n], ..., 1 above [base] fall through. *)
Definition tail_word (key : list Z) (x o length base : Z) : exec Z :=
  x ← acc_if (base + 4 <=? length) x (get_u8 key (o + 3)) 24;
  x ← acc_if (base + 3 <=? length) x (get_u8 key (o + 2)) 16;
  x ← acc_if (base + 2 <=? length) x (get_u8 key (o + 1)) 8;
  acc_if (base + 1 <=? length) x (get_u8 key o) 0.

Definition tail1 (key : list Z) (k length : Z) (s : hstate) : exec (option hstate) :=
  let '(a, b, c) := s in
  if length =? 0 then mret None
  else
    c ← tail_word key c (k + 8) length 8;
    b ← tail_word key b (k + 4) length 4;
    a ← tail_word key a k length 0;
    mret (Some (a, b, c)).

(** *** The loop and the function *)

(** [while (length > 12)]; [length] rounds are more than enough. *)
Fixpoint blocks (fuel : nat) (block : Z -> hstate -> exec hstate) (k length : Z) (s : hstate)
    : exec (Z * Z * hstate) :=
  if 12 <? length then
    match fuel with
    | O => NoFuel
    | S fuel => s ← block k s; blocks fuel block (k + 12) (length - 12) (mix s)
    end
  else mret (k, length, s).

Definition hash_init (length val2 : Z) : hstate :=
  let a := u32 (3735928559 + u32 length + val2) in (a, a, a).

(** The result and the new [*val2]. *)
Definition hashlittle (addr : Z) (key : list Z) (length val2 : Z) : exec (Z * Z) :=
  let run block tail :=
    '(k, r, s) ← blocks (Z.to_nat length) block 0 length (hash_init length val2);
    t ← tail k r s;
    match t with
    | None => mret (s.2, val2)
    | Some s => let '(_, b, c) := final s in mret (c, b)
    end in
  if HASH_LITTLE_ENDIAN && (Z.land addr 3 =? 0) then run (block4 key) (tail4 key)
  else if HASH_LITTLE_ENDIAN && (Z.land addr 1 =? 0) then run (block2 key) (tail2 key)
  else run (block1 key) (tail1 key).

Definition nl_hash_any (addr : Z) (key : list Z) (length base : Z) : exec Z :=
  fst <$> hashlittle addr key length base.

(** nl_hash on bytes that start at a word's address. *)
Definition nl_hash (k : list Z) (length initval : Z) : exec Z := nl_hash_any 0 k length initval.

(** ** The specification: words are added, short words zero padded *)

Definition word_at (key : list Z) (o n : Z) : Z := le_decode (sub key o n).

Definition block_ref (key : list Z) (k length : Z) (s : hstate) : hstate :=
  let '(a, b, c) := s in
  (add32 a (word_at key k (Z.min 4 length)),
   add32 b (word_at key (k + 4) (Z.max 0 (Z.min 4 (length - 4)))),
   add32 c (word_at key (k + 8) (Z.max 0 (Z.min 4 (length - 8))))).

Fixpoint blocks_ref (fuel : nat) (key : list Z) (k length : Z) (s : hstate) : Z * Z * hstate :=
  match fuel with
  | O => (k, length, s)
  | S fuel =>
      if 12 <? length then
        blocks_ref fuel key (k + 12) (length - 12) (mix (block_ref key k 12 s))
      else (k, length, s)
  end.

Definition hash_ref (key : list Z) (length base : Z) : Z :=
  let '(k, r, s) := blocks_ref (Z.to_nat length) key 0 length (hash_init length base) in
  if r =? 0 then s.2 else (final (block_ref key k r s)).2.

(** ** Lemmas *)

Definition word (x : Z) : Prop := 0 <= x < 4294967296.
Definition state_ok (s : hstate) : Prop := word s.1.1 /\ word s.1.2 /\ word s.2.

Lemma u32_word x : word (u32 x).
Proof. apply u32_range. Qed.

Lemma add32_u32 x y : add32 x (u32 y) = add32 x y.
Proof. unfold add32, u32. by rewrite Zplus_mod_idemp_r. Qed.

Lemma add32_add32 x y z : add32 (add32 x y) z = add32 x (y + z).
Proof. unfold add32, u32. rewrite Zplus_mod_idemp_l. f_equal. lia. Qed.

Lemma le_decode_app x y : le_decode (x ++ y) = le_decode x + 256 ^ zlen x * le_decode y.
Proof.
  induction x as [|c x IH]; [by rewrite Z.mul_1_l|]. simpl app. cbn [le_decode].
  rewrite IH, zlen_cons. pose proof (zlen_nonneg x). rewrite Z.pow_add_r by lia. lia.
Qed.

Lemma le_at_split key o n m :
  0 <= o -> 0 <= n -> 0 <= m -> o + n + m <= zlen key ->
  le_at (n + m) key o = le_at n key o + 256 ^ n * le_at m key (o + n).
Proof.
  intros. unfold le_at. rewrite sub_split by lia. rewrite le_decode_app.
  by rewrite zlen_sub by lia.
Qed.

Lemma le_at_1_2 key o :
  0 <= o -> o + 2 <= zlen key -> le_at 2 key o = le_at 1 key o + 256 * le_at 1 key (o + 1).
Proof. intros. apply (le_at_split key o 1 1); lia. Qed.

Lemma le_at_1_3 key o :
  0 <= o -> o + 3 <= zlen key ->
  le_at 3 key o = le_at 1 key o + 256 * le_at 1 key (o + 1) + 65536 * le_at 1 key (o + 2).
Proof.
  intros. change 3 with (2 + 1) at 1. rewrite le_at_split, le_at_1_2 by lia.
  by change (256 ^ 2) with 65536.
Qed.

Lemma le_at_1_4 key o :
  0 <= o -> o + 4 <= zlen key ->
  le_at 4 key o = le_at 1 key o + 256 * le_at 1 key (o + 1) + 65536 * le_at 1 key (o + 2) +
                  16777216 * le_at 1 key (o + 3).
Proof.
  intros. change 4 with (3 + 1) at 1. rewrite le_at_split, le_at_1_3 by lia.
  by change (256 ^ 3) with 16777216.
Qed.

Lemma acc_done x e sh : 0 <= sh -> acc x (Done e) sh = Done (add32 x (e * 2 ^ sh)).
Proof.
  intros. unfold acc. exec_simpl. by rewrite add32_u32, Z.shiftl_mul_pow2 by done.
Qed.

Lemma add32_word_0 x : word x -> add32 x 0 = x.
Proof. intros. unfold add32. rewrite Z.add_0_r. by apply u32_id. Qed.

Lemma pair16_done key o :
  bytes_ok key -> 0 <= o -> o + 4 <= zlen key -> pair16 key o = Done (le_at 4 key o).
Proof.
  intros Hb ??. unfold pair16. do 2 exec_step. rewrite Z.shiftl_mul_pow2 by lia.
  pose proof (le_at_range 2 key o Hb). pose proof (le_at_range 2 key (o + 2) Hb).
  change (256 ^ 2) with 65536 in *. change (2 ^ 16) with 65536.
  rewrite (u32_id (_ * _)), u32_id by lia. change 4 with (2 + 2). rewrite le_at_split by lia.
  f_equal. change (256 ^ 2) with 65536. lia.
Qed.

(** Runs the reads of a block or tail and normalises the offsets of bytes. *)
Ltac hash_reads :=
  repeat first [ rewrite pair16_done by (done || lia)
               | rewrite get_u8_done by lia | rewrite get_u16_done by lia
               | rewrite get_u32_done by lia | rewrite acc_done by lia ; exec_simpl ].

Lemma block4_done key k s :
  0 <= k -> k + 12 <= zlen key -> block4 key k s = Done (block_ref key k 12 s).
Proof.
  intros. destruct s as [[a b] c]. unfold block4, block_ref. hash_reads.
  change (2 ^ 0) with 1. by rewrite !Z.mul_1_r.
Qed.

Lemma block2_done key k s :
  bytes_ok key -> 0 <= k -> k + 12 <= zlen key -> block2 key k s = Done (block_ref key k 12 s).
Proof.
  intros. destruct s as [[a b] c]. unfold block2, block_ref. hash_reads.
  change (2 ^ 0) with 1. by rewrite !Z.mul_1_r.
Qed.

Lemma bytes4_done key x o :
  0 <= o -> o + 4 <= zlen key -> bytes4 key x o = Done (add32 x (le_at 4 key o)).
Proof.
  intros. unfold bytes4. hash_reads. rewrite !add32_add32, le_at_1_4 by lia.
  change (2 ^ 0) with 1. change (2 ^ 8) with 256. change (2 ^ 16) with 65536.
  change (2 ^ 24) with 16777216. do 2 f_equal. lia.
Qed.

Lemma block1_done key k s :
  0 <= k -> k + 12 <= zlen key -> block1 key k s = Done (block_ref key k 12 s).
Proof.
  intros. destruct s as [[a b] c]. unfold block1, block_ref.
  rewrite !bytes4_done by lia. exec_simpl. done.
Qed.

Lemma tail_word_done key x o length base :
  word x -> 0 <= o -> o + Z.max 0 (Z.min 4 (length - base)) <= zlen key \/ length <= base ->
  tail_word key x o length base =
  Done (add32 x (word_at key o (Z.max 0 (Z.min 4 (length - base))))).
Proof.
  intros Hx Ho Hk. set (n := Z.max 0 (Z.min 4 (length - base))) in *.
  assert (n = 0 \/ n = 1 \/ n = 2 \/ n = 3 \/ n = 4) as Hn by lia.
  unfold tail_word.
  assert (forall i, 0 < i <= 4 -> (base + i <=? length) = (i <=? n)) as Hc.
  { intros i Hi. apply Bool.eq_iff_eq_true. rewrite !Z.leb_le. lia. }
  rewrite !Hc by lia. clear Hc. unfold word_at. fold (le_at n key o).
  assert (n = 0 \/ o + n <= zlen key) as Hk' by lia. clearbody n. clear Hk.
  destruct Hn as [-> |[-> |[-> |[-> | ->]]]]; simpl; rewrite ?Z.add_0_r in *.
  - by rewrite add32_word_0.
  - hash_reads. change (2 ^ 0) with 1. by rewrite Z.mul_1_r.
  - hash_reads. rewrite add32_add32, le_at_1_2 by lia. do 2 f_equal. lia.
  - hash_reads. rewrite !add32_add32, le_at_1_3 by lia. do 2 f_equal. lia.
  - hash_reads. rewrite !add32_add32, le_at_1_4 by lia. do 2 f_equal. lia.
Qed.

(** The [length] that is left after the loop: 13 cases. *)
Ltac tail_cases r :=
  let H := fresh in
  assert (r = 0 \/ r = 1 \/ r = 2 \/ r = 3 \/ r = 4 \/ r = 5 \/ r = 6 \/ r = 7 \/ r = 8 \/
          r = 9 \/ r = 10 \/ r = 11 \/ r = 12) as H by lia;
  repeat (destruct H as [H|H]); subst r.

(** Evaluates the comparisons and minima on numerals. *)
Ltac z_consts :=
  repeat match goal with
  | |- context [?x <=? ?y] =>
      let v := eval compute in (x <=? y) in change (x <=? y) with v
  | |- context [?x =? ?y] =>
      let v := eval compute in (x =? y) in change (x =? y) with v
  | |- context [Z.max 0 (Z.min 4 (?x - ?y))] =>
      let v := eval compute in (Z.max 0 (Z.min 4 (x - y))) in
      change (Z.max 0 (Z.min 4 (x - y))) with v
  | |- context [Z.min 4 ?x] => let v := eval compute in (Z.min 4 x) in change (Z.min 4 x) with v
  | |- context [2 ^ ?x] => let v := eval compute in (2 ^ x) in change (2 ^ x) with v
  end; cbv iota.

(** One word of a tail against its specification. *)
Ltac tail_word_eq :=
  first [ by rewrite add32_word_0
        | rewrite ?add32_add32, ?Z.mul_1_r; try reflexivity;
          rewrite ?le_at_1_4, ?le_at_1_3, ?le_at_1_2 by lia;
          repeat match goal with
          | |- context [le_at 1 ?key (?k + ?x + ?y)] =>
              let v := eval compute in (x + y) in replace (k + x + y) with (k + v) by lia
          end; f_equal; lia ].

Ltac tail_close :=
  unfold acc_if; z_consts; exec_simpl; hash_reads; unfold block_ref, word_at;
  repeat match goal with
  | |- context [le_decode (sub ?k ?o ?n)] => change (le_decode (sub k o n)) with (le_at n k o)
  end; z_consts; apply f_equal, f_equal; f_equal; [f_equal|]; tail_word_eq.

Lemma tail1_done key k r s :
  0 <= k -> 0 <= r <= 12 -> k + r <= zlen key -> state_ok s ->
  tail1 key k r s = Done (if r =? 0 then None else Some (block_ref key k r s)).
Proof.
  intros Hk Hr Hl Hs. destruct s as [[a b] c], Hs as (Ha & Hb & Hc). simpl in *.
  unfold tail1. destruct (r =? 0) eqn:E; bool_hyps; [done|].
  rewrite (tail_word_done key c) by (done || lia). exec_simpl.
  rewrite (tail_word_done key b) by (done || lia). exec_simpl.
  rewrite (tail_word_done key a) by (done || lia). exec_simpl.
  unfold block_ref. rewrite Z.sub_0_r. by rewrite (Z.max_r 0 (Z.min 4 r)) by lia.
Qed.

Lemma tail4_done key k r s :
  0 <= k -> 0 <= r <= 12 -> k + r <= zlen key -> state_ok s ->
  tail4 key k r s = Done (if r =? 0 then None else Some (block_ref key k r s)).
Proof.
  intros Hk Hr Hl Hs. destruct s as [[a b] c], Hs as (Ha & Hb & Hc). simpl in *.
  unfold tail4. tail_cases r; [done|tail_close..].
Qed.

Lemma tail2_done key k r s :
  bytes_ok key -> 0 <= k -> 0 <= r <= 12 -> k + r <= zlen key -> state_ok s ->
  tail2 key k r s = Done (if r =? 0 then None else Some (block_ref key k r s)).
Proof.
  intros Hbs Hk Hr Hl Hs. destruct s as [[a b] c], Hs as (Ha & Hb & Hc). simpl in *.
  unfold tail2. tail_cases r; [done|tail_close..].
Qed.

Lemma word_bits x : 0 <= x -> (word x <-> forall i, 32 <= i -> Z.testbit x i = false).
Proof.
  intros Hx. unfold word. change 4294967296 with (2 ^ 32). split.
  - intros Hw i Hi. rewrite <- (Z.mod_small x (2 ^ 32)) by done. by apply Z.mod_pow2_bits_high.
  - intros Hb. assert (x = x mod 2 ^ 32) as ->; [|apply Z.mod_pos_bound; lia].
    apply Z.bits_inj'. intros i Hi. destruct (decide (i < 32)).
    + by rewrite Z.mod_pow2_bits_low.
    + rewrite Z.mod_pow2_bits_high by lia. apply Hb. lia.
Qed.

Lemma word_nonneg x : word x -> 0 <= x.
Proof. intros [? ?]. done. Qed.

Lemma word_high x i : word x -> 32 <= i -> Z.testbit x i = false.
Proof. intros Hx. apply word_bits; [by apply word_nonneg|done]. Qed.

Lemma word_lxor x y : word x -> word y -> word (Z.lxor x y).
Proof.
  intros Hx Hy. pose proof (word_nonneg x Hx). pose proof (word_nonneg y Hy).
  apply word_bits; [by apply Z.lxor_nonneg|]. intros i Hi.
  by rewrite Z.lxor_spec, !word_high.
Qed.

Lemma word_rot x k : word x -> 0 <= k <= 32 -> word (rot x k).
Proof.
  intros Hx Hk. pose proof (word_nonneg x Hx). pose proof (u32_word (Z.shiftl x k)) as Hw.
  unfold rot. pose proof (word_nonneg _ Hw).
  assert (0 <= Z.shiftr x (32 - k)) by (by apply Z.shiftr_nonneg).
  apply word_bits; [by apply Z.lor_nonneg|]. intros i Hi.
  rewrite Z.lor_spec, Z.shiftr_spec by lia. by rewrite !word_high by (done || lia).
Qed.

Lemma word_add32 x y : word (add32 x y).
Proof. apply u32_word. Qed.
Lemma word_sub32 x y : word (sub32 x y).
Proof. apply u32_word. Qed.

#[local] Hint Resolve word_lxor word_rot word_add32 word_sub32 : nl.
#[local] Hint Extern 4 (_ <= _ <= _) => lia : nl.

Lemma mix_ok s : state_ok s -> state_ok (mix s).
Proof.
  destruct s as [[a b] c]. intros (_ & _ & Hc). unfold mix, state_ok in *. cbn [fst snd] in *.
  split_and!; auto 40 with nl.
Qed.

Lemma block_ref_ok key k r s : state_ok (block_ref key k r s).
Proof. destruct s as [[a b] c]. unfold block_ref, state_ok. cbn [fst snd]. auto with nl. Qed.

Lemma final_ok s : word (final s).2.
Proof. destruct s as [[a b] c]. unfold final. cbn [snd]. auto with nl. Qed.

(** The loop with any of the three block readers is the loop of the
    specification, and leaves 0 to 12 bytes. *)
Lemma blocks_done key block fuel : forall k length s,
  (forall k s, 0 <= k -> k + 12 <= zlen key -> block k s = Done (block_ref key k 12 s)) ->
  (Z.to_nat length <= fuel)%nat -> 0 <= k -> 0 <= length -> k + length <= zlen key -> state_ok s ->
  exists k' r s', blocks fuel block k length s = Done (k', r, s') /\
    blocks_ref fuel key k length s = (k', r, s') /\
    0 <= k' /\ 0 <= r <= 12 /\ k' + r = k + length /\ state_ok s'.
Proof.
  induction fuel as [|fuel IH]; intros k length s Hb Hf Hk Hl Hz Hs; simpl.
  - rewrite (proj2 (Z.ltb_ge 12 length)) by lia. exists k, length, s. split_and!; (done || lia).
  - destruct (12 <? length) eqn:E; bool_hyps.
    + rewrite Hb by lia. exec_simpl.
      destruct (IH (k + 12) (length - 12) (mix (block_ref key k 12 s))) as
        (k' & r & s' & ? & ? & ? & ? & ? & ?); [done|lia|lia|lia|lia|apply mix_ok, block_ref_ok|].
      exists k', r, s'. split_and!; (done || lia).
    + exists k, length, s. split_and!; (done || lia).
Qed.

Lemma hash_run_done key length base block tail :
  (forall k s, 0 <= k -> k + 12 <= zlen key -> block k s = Done (block_ref key k 12 s)) ->
  (forall k r s, 0 <= k -> 0 <= r <= 12 -> k + r <= zlen key -> state_ok s ->
     tail k r s = Done (if r =? 0 then None else Some (block_ref key k r s))) ->
  0 <= length <= zlen key ->
  exists v, ('(k, r, s) ← blocks (Z.to_nat length) block 0 length (hash_init length base);
    t ← tail k r s;
    match t with
    | None => mret (s.2, base)
    | Some s => let '(_, b, c) := final s in mret (c, b)
    end) = Done (hash_ref key length base, v).
Proof.
  intros Hb Ht Hl.
  destruct (blocks_done key block (Z.to_nat length) 0 length (hash_init length base))
    as (k & r & s & Hd & Href & Hk & Hr & Hsum & Hs); [done|lia|lia|lia|lia| |].
  { unfold hash_init, state_ok. cbv zeta. simpl. auto using u32_word. }
  rewrite Hd. exec_simpl. rewrite Ht by (done || lia). unfold hash_ref. rewrite Href.
  exec_simpl. destruct (r =? 0); [by exists base|].
  destruct (final (block_ref key k r s)) as [[a b] c]. by exists b.
Qed.

(** ** Properties *)

(** C39. Hashing never reads outside the key, always terminates, and gives the
    same 32-bit value whatever the alignment of the key in memory: the three
    reading strategies compute the function that adds the key word by word,
    the last word zero padded. *)
Theorem nl_hash_any_spec addr key length base :
  bytes_ok key -> 0 <= length <= zlen key ->
  nl_hash_any addr key length base = Done (hash_ref key length base) /\
  0 <= hash_ref key length base < 4294967296.
Proof.
  intros Hb Hl. split.
  - unfold nl_hash_any, hashlittle. cbv zeta. cbn [HASH_LITTLE_ENDIAN andb].
    destruct (Z.land addr 3 =? 0); [|destruct (Z.land addr 1 =? 0)].
    + edestruct (hash_run_done key length base (block4 key) (tail4 key)) as (v & ->);
        auto using block4_done, tail4_done.
    + edestruct (hash_run_done key length base (block2 key) (tail2 key)) as (v & ->);
        auto using block2_done, tail2_done.
    + edestruct (hash_run_done key length base (block1 key) (tail1 key)) as (v & ->);
        auto using block1_done, tail1_done.
  - unfold hash_ref.
    destruct (blocks_done key (fun k s => Done (block_ref key k 12 s)) (Z.to_nat length) 0 length
      (hash_init length base)) as (k & r & s & _ & -> & _ & _ & _ & Hs); [done|lia|lia|lia|lia| |].
    { unfold hash_init, state_ok. cbv zeta. simpl. auto using u32_word. }
    destruct (r =? 0); [apply Hs|apply final_ok].
Qed.

Lemma nl_hash_any_spec_witness :
  nl_hash_any 4 (map Z.of_nat (seq 1 25)) 25 0 = nl_hash_any 7 (map Z.of_nat (seq 1 25)) 25 0.
Proof.
  destruct (nl_hash_any_spec 4 (map Z.of_nat (seq 1 25)) 25 0) as [-> _];
    [by apply bytes_ok_dec|by vm_compute|].
  destruct (nl_hash_any_spec 7 (map Z.of_nat (seq 1 25)) 25 0) as [-> _];
    [by apply bytes_ok_dec|by vm_compute|]. done.
Defined.
