(* ===== verification/Handlers.v ===== *)
(** Callback handlers (lib/handlers.c): the table of default handlers, the
    callback set of a socket with its reference count, and the call of a
    callback (nl_cb_call of include/netlink-private/netlink.h).

    A function pointer is the name of a library handler or the code of an
    application's function, which the section variables interpret. *)
From S2P Require Import Prelude Errors Msg.

(** Actions, kinds and types of callbacks, in the order of the enums. *)
Definition NL_OK := 0.
Definition NL_SKIP := 1.
Definition NL_STOP := 2.

Definition NL_CB_DEFAULT := 0.
Definition NL_CB_VERBOSE := 1.
Definition NL_CB_DEBUG := 2.
Definition NL_CB_CUSTOM := 3.
Definition NL_CB_KIND_MAX := 3.

Definition NL_CB_VALID := 0.
Definition NL_CB_FINISH := 1.
Definition NL_CB_OVERRUN := 2.
Definition NL_CB_SKIPPED := 3.
Definition NL_CB_ACK := 4.
Definition NL_CB_MSG_IN := 5.
Definition NL_CB_MSG_OUT := 6.
Definition NL_CB_INVALID := 7.
Definition NL_CB_SEQ_CHECK := 8.
Definition NL_CB_SEND_ACK := 9.
Definition NL_CB_DUMP_INTR := 10.
Definition __NL_CB_TYPE_MAX := 11.
Definition NL_CB_TYPE_MAX := 10.

(** Message callbacks: the handlers of lib/handlers.c, the two of lib/nl.c and
    lib/socket.c, and application functions. *)
Inductive nl_recvmsg_msg_cb_t :=
| nl_valid_handler_verbose
| nl_invalid_handler_verbose
| nl_overrun_handler_verbose
| nl_valid_handler_debug
| nl_finish_handler_debug
| nl_msg_in_handler_debug
| nl_msg_out_handler_debug
| nl_skipped_handler_debug
| nl_ack_handler_debug
| noop_seq_check
| ack_wait_handler
| msg_cb_user (f : Z).

Inductive nl_recvmsg_err_cb_t :=
| nl_error_handler_verbose
| err_cb_user (f : Z).

#[export] Instance msg_cb_dec : EqDecision nl_recvmsg_msg_cb_t.
Proof. solve_decision. Defined.

Record nl_cb := {
  cb_set : list (option nl_recvmsg_msg_cb_t);
  cb_args : list Z;
  cb_err : option nl_recvmsg_err_cb_t;
  cb_err_arg : Z;
  cb_recvmsgs_ow : option Z;
  cb_recv_ow : option Z;
  cb_send_ow : option Z;
  cb_refcnt : Z;
  cb_active : Z
}.

(** What a handler of the library returns (besides, it prints). *)
Definition handler_result (h : nl_recvmsg_msg_cb_t) : option Z :=
  match h with
  | nl_valid_handler_verbose => Some NL_OK
  | nl_invalid_handler_verbose => Some NL_STOP
  | nl_overrun_handler_verbose => Some NL_STOP
  | nl_valid_handler_debug => Some NL_OK
  | nl_finish_handler_debug => Some NL_STOP
  | nl_msg_in_handler_debug => Some NL_OK
  | nl_msg_out_handler_debug => Some NL_OK
  | nl_skipped_handler_debug => Some NL_SKIP
  | nl_ack_handler_debug => Some NL_STOP
  | noop_seq_check => Some NL_OK
  | ack_wait_handler => Some NL_STOP
  | msg_cb_user _ => None
  end.

(** The tables, indexed by type and kind; kinds that have no entry are NULL. *)
Definition cb_def : list (list (option nl_recvmsg_msg_cb_t)) :=
  [ (* VALID *)     [None; Some nl_valid_handler_verbose; Some nl_valid_handler_debug; None];
    (* FINISH *)    [None; None; Some nl_finish_handler_debug; None];
    (* OVERRUN *)   [None; Some nl_overrun_handler_verbose; Some nl_overrun_handler_verbose; None];
    (* SKIPPED *)   [None; None; Some nl_skipped_handler_debug; None];
    (* ACK *)       [None; None; Some nl_ack_handler_debug; None];
    (* MSG_IN *)    [None; None; Some nl_msg_in_handler_debug; None];
    (* MSG_OUT *)   [None; None; Some nl_msg_out_handler_debug; None];
    (* INVALID *)   [None; Some nl_invalid_handler_verbose; Some nl_invalid_handler_verbose; None];
    (* SEQ_CHECK *) [None; None; None; None];
    (* SEND_ACK *)  [None; None; None; None];
    (* DUMP_INTR *) [None; None; None; None] ].

Definition cb_err_def : list (option nl_recvmsg_err_cb_t) :=
  [None; Some nl_error_handler_verbose; Some nl_error_handler_verbose; None].

(** ** Operations *)

Definition with_set (cb : nl_cb) (set : list (option nl_recvmsg_msg_cb_t)) (args : list Z) : nl_cb :=
  {| cb_set := set; cb_args := args; cb_err := cb_err cb; cb_err_arg := cb_err_arg cb;
     cb_recvmsgs_ow := cb_recvmsgs_ow cb; cb_recv_ow := cb_recv_ow cb;
     cb_send_ow := cb_send_ow cb; cb_refcnt := cb_refcnt cb; cb_active := cb_active cb |}.

Definition with_err (cb : nl_cb) (e : option nl_recvmsg_err_cb_t) (arg : Z) : nl_cb :=
  {| cb_set := cb_set cb; cb_args := cb_args cb; cb_err := e; cb_err_arg := arg;
     cb_recvmsgs_ow := cb_recvmsgs_ow cb; cb_recv_ow := cb_recv_ow cb;
     cb_send_ow := cb_send_ow cb; cb_refcnt := cb_refcnt cb; cb_active := cb_active cb |}.

Definition with_ow (cb : nl_cb) (recvmsgs recv send : option Z) : nl_cb :=
  {| cb_set := cb_set cb; cb_args := cb_args cb; cb_err := cb_err cb; cb_err_arg := cb_err_arg cb;
     cb_recvmsgs_ow := recvmsgs; cb_recv_ow := recv; cb_send_ow := send;
     cb_refcnt := cb_refcnt cb; cb_active := cb_active cb |}.

Definition with_cb_refcnt (cb : nl_cb) (n : Z) : nl_cb :=
  {| cb_set := cb_set cb; cb_args := cb_args cb; cb_err := cb_err cb; cb_err_arg := cb_err_arg cb;
     cb_recvmsgs_ow := cb_recvmsgs_ow cb; cb_recv_ow := cb_recv_ow cb;
     cb_send_ow := cb_send_ow cb; cb_refcnt := n; cb_active := cb_active cb |}.

Definition with_active (cb : nl_cb) (t : Z) : nl_cb :=
  {| cb_set := cb_set cb; cb_args := cb_args cb; cb_err := cb_err cb; cb_err_arg := cb_err_arg cb;
     cb_recvmsgs_ow := cb_recvmsgs_ow cb; cb_recv_ow := cb_recv_ow cb;
     cb_send_ow := cb_send_ow cb; cb_refcnt := cb_refcnt cb; cb_active := t |}.

Definition nl_cb_set (cb : nl_cb) (type kind : Z) (func : option nl_recvmsg_msg_cb_t) (arg : Z)
    : Z * nl_cb :=
  if NL_CB_TYPE_MAX <? u32 type then (- NLE_RANGE, cb)
  else if NL_CB_KIND_MAX <? u32 kind then (- NLE_RANGE, cb)
  else
    let t := Z.to_nat type in
    if kind =? NL_CB_CUSTOM then
      (0, with_set cb (<[t := func]> (cb_set cb)) (<[t := arg]> (cb_args cb)))
    else
      let f := nth (Z.to_nat kind) (nth t cb_def []) None in
      (0, with_set cb (<[t := f]> (cb_set cb)) (<[t := arg]> (cb_args cb))).

Definition nl_cb_err (cb : nl_cb) (kind : Z) (func : option nl_recvmsg_err_cb_t) (arg : Z)
    : Z * nl_cb :=
  if NL_CB_KIND_MAX <? u32 kind then (- NLE_RANGE, cb)
  else if kind =? NL_CB_CUSTOM then (0, with_err cb func arg)
  else (0, with_err cb (nth (Z.to_nat kind) cb_err_def None) arg).

(** [for (i = 0; i <= NL_CB_TYPE_MAX; i++)]: the types from [i] on. *)
Fixpoint set_types (n : nat) (i : Z) (cb : nl_cb) (kind : Z)
    (func : option nl_recvmsg_msg_cb_t) (arg : Z) : Z * nl_cb :=
  match n with
  | O => (0, cb)
  | S n =>
      let '(err, cb) := nl_cb_set cb i kind func arg in
      if err <? 0 then (err, cb) else set_types n (i + 1) cb kind func arg
  end.

Definition nl_cb_set_all (cb : nl_cb) (kind : Z) (func : option nl_recvmsg_msg_cb_t) (arg : Z)
    : Z * nl_cb := set_types 11 0 cb kind func arg.

(** Zeroed storage. *)
Definition cb_0 : nl_cb :=
  {| cb_set := replicate 11 None; cb_args := replicate 11 0; cb_err := None; cb_err_arg := 0;
     cb_recvmsgs_ow := None; cb_recv_ow := None; cb_send_ow := None; cb_refcnt := 0;
     cb_active := 0 |}.

(** The loop of [nl_cb_alloc] ignores the result of [nl_cb_set]. *)
Fixpoint alloc_types (n : nat) (i : Z) (cb : nl_cb) (kind : Z) : nl_cb :=
  match n with
  | O => cb
  | S n => alloc_types n (i + 1) (nl_cb_set cb i kind None 0).2 kind
  end.

(** [c]: whether calloc succeeds. *)
Definition nl_cb_alloc (c : bool) (kind : Z) : option nl_cb :=
  if NL_CB_KIND_MAX <? u32 kind then None
  else if negb c then None
  else
    let cb := with_active (with_cb_refcnt cb_0 1) (NL_CB_TYPE_MAX + 1) in
    let cb := alloc_types 11 0 cb kind in
    Some (nl_cb_err cb kind None 0).2.

Definition nl_cb_clone (c : bool) (orig : nl_cb) : option nl_cb :=
  match nl_cb_alloc c NL_CB_DEFAULT with
  | None => None
  | Some _ => Some (with_cb_refcnt orig 1)
  end.

Definition nl_cb_get (cb : nl_cb) : nl_cb := with_cb_refcnt cb (cb_refcnt cb + 1).

(** [None]: freed (or NULL). *)
Definition nl_cb_put (cb : option nl_cb) : exec (option nl_cb) :=
  match cb with
  | None => mret None
  | Some cb =>
      let cb := with_cb_refcnt cb (cb_refcnt cb - 1) in
      if cb_refcnt cb <? 0 then Bug
      else if cb_refcnt cb <=? 0 then mret None
      else mret (Some cb)
  end.

Definition nl_cb_active_type (cb : nl_cb) : Z := cb_active cb.

Definition nl_cb_overwrite_recvmsgs (cb : nl_cb) (func : option Z) : nl_cb :=
  with_ow cb func (cb_recv_ow cb) (cb_send_ow cb).
Definition nl_cb_overwrite_recv (cb : nl_cb) (func : option Z) : nl_cb :=
  with_ow cb (cb_recvmsgs_ow cb) func (cb_send_ow cb).
Definition nl_cb_overwrite_send (cb : nl_cb) (func : option Z) : nl_cb :=
  with_ow cb (cb_recvmsgs_ow cb) (cb_recv_ow cb) func.

(** ** Calls

    [W]: the state of the application and of the outside world; application
    functions get their argument, the active callback type and the message. *)
Section Calls.
Context {W : Type}.
Variable user : Z -> Z -> Z -> nl_msg -> W -> Z * W.
Variable user_err : Z -> Z -> sockaddr_nl -> list Z -> W -> Z * W.

Definition run_msg_cb (h : nl_recvmsg_msg_cb_t) (arg active : Z) (msg : nl_msg) (w : W) : Z * W :=
  match h with
  | msg_cb_user f => user f arg active msg w
  | _ => (default NL_OK (handler_result h), w)
  end.

(** [e]: the bytes of [struct nlmsgerr]; its first 4 are the error. *)
Definition run_err_cb (h : nl_recvmsg_err_cb_t) (arg : Z) (who : sockaddr_nl) (e : list Z) (w : W)
    : Z * W :=
  match h with
  | nl_error_handler_verbose => (- nl_syserr2nlerr (s32 (le_at 4 e 0)), w)
  | err_cb_user f => user_err f arg who e w
  end.

Definition cb_is_set (cb : nl_cb) (type : Z) : bool :=
  match nth (Z.to_nat type) (cb_set cb) None with Some _ => true | None => false end.

(** A call through a NULL pointer is a fault. *)
Definition nl_cb_call (cb : nl_cb) (type : Z) (msg : nl_msg) (w : W) : exec (Z * nl_cb * W) :=
  let cb := with_active cb type in
  match nth (Z.to_nat type) (cb_set cb) None with
  | None => Fault
  | Some h =>
      let '(ret, w) := run_msg_cb h (nth (Z.to_nat type) (cb_args cb) 0) (cb_active cb) msg w in
      mret (ret, with_active cb __NL_CB_TYPE_MAX, w)
  end.
End Calls.

(** ** Invariant and lemmas *)

Definition cb_wf (cb : nl_cb) : Prop :=
  length (cb_set cb) = 11%nat /\ length (cb_args cb) = 11%nat.

Definition valid_type (t : Z) : Prop := 0 <= t <= NL_CB_TYPE_MAX.
Definition valid_kind (k : Z) : Prop := 0 <= k <= NL_CB_KIND_MAX.

(** The handler a type gets from a kind. *)
Definition handler_for (type kind : Z) (func : option nl_recvmsg_msg_cb_t)
    : option nl_recvmsg_msg_cb_t :=
  if kind =? NL_CB_CUSTOM then func
  else nth (Z.to_nat kind) (nth (Z.to_nat type) cb_def []) None.

Lemma nl_cb_set_done cb t k f arg :
  valid_type t -> valid_kind k ->
  nl_cb_set cb t k f arg =
  (0, with_set cb (<[Z.to_nat t := handler_for t k f]> (cb_set cb))
                  (<[Z.to_nat t := arg]> (cb_args cb))).
Proof.
  unfold valid_type, valid_kind, NL_CB_TYPE_MAX, NL_CB_KIND_MAX. intros Ht Hk.
  unfold nl_cb_set, handler_for, NL_CB_TYPE_MAX, NL_CB_KIND_MAX.
  rewrite !u32_id by lia. rewrite !(proj2 (Z.ltb_ge _ _)) by lia.
  by destruct (k =? NL_CB_CUSTOM).
Qed.

Lemma nl_cb_set_wf cb t k f arg : cb_wf cb -> cb_wf (nl_cb_set cb t k f arg).2.
Proof.
  intros [Hs Ha]. unfold nl_cb_set. repeat case_test; unfold cb_wf; simpl;
    rewrite ?length_insert; done.
Qed.

Lemma alloc_types_set n : forall i cb kind t,
  valid_kind kind -> 0 <= i -> i + Z.of_nat n <= 11 -> cb_wf cb -> valid_type t ->
  nth (Z.to_nat t) (cb_set (alloc_types n i cb kind)) None =
  if decide (i <= t < i + Z.of_nat n) then handler_for t kind None
  else nth (Z.to_nat t) (cb_set cb) None.
Proof.
  induction n as [|n IH]; intros i cb kind t Hk Hi Hn Hw Ht; simpl.
  { by rewrite decide_False by lia. }
  rewrite IH by (try apply nl_cb_set_wf; (done || lia)).
  rewrite nl_cb_set_done by (unfold valid_type, NL_CB_TYPE_MAX; (done || lia)).
  simpl. destruct Hw as [Hs _]. unfold valid_type, NL_CB_TYPE_MAX in Ht.
  destruct (decide (i = t)) as [->|Hne].
  - rewrite decide_False, decide_True by lia. rewrite nth_lookup.
    by rewrite list_lookup_insert_eq by lia.
  - rewrite !nth_lookup. rewrite list_lookup_insert_ne by lia. repeat case_decide; (done || lia).
Qed.

Lemma alloc_types_keeps n : forall i cb kind,
  cb_wf cb -> cb_wf (alloc_types n i cb kind) /\
  cb_refcnt (alloc_types n i cb kind) = cb_refcnt cb /\
  cb_active (alloc_types n i cb kind) = cb_active cb.
Proof.
  induction n as [|n IH]; intros i cb kind Hw; simpl; [done|].
  destruct (IH (i + 1) (nl_cb_set cb i kind None 0).2 kind) as (? & -> & ->);
    [by apply nl_cb_set_wf|].
  split; [done|]. unfold nl_cb_set. by repeat case_test.
Qed.

(** ** Properties *)

Definition cb_slot (cb : nl_cb) (t : Z) : option nl_recvmsg_msg_cb_t :=
  nth (Z.to_nat t) (cb_set cb) None.

(** Callback sets: a new set of any kind has one reference and, in every
    slot, the handler the table gives for its type and kind; setting a callback
    changes exactly its own slot (to the application's function for the custom
    kind, to the table's handler otherwise); a type or kind out of range is
    refused with [-NLE_RANGE] and changes nothing. *)
Theorem cb_table_spec :
  (forall kind, valid_kind kind -> exists cb,
     nl_cb_alloc true kind = Some cb /\ cb_wf cb /\ cb_refcnt cb = 1 /\
     cb_active cb = __NL_CB_TYPE_MAX /\
     forall t, valid_type t -> cb_slot cb t = handler_for t kind None) /\
  (forall cb t k f arg, cb_wf cb -> valid_type t -> valid_kind k ->
     exists cb', nl_cb_set cb t k f arg = (0, cb') /\ cb_wf cb' /\
       cb_slot cb' t = handler_for t k f /\
       forall t', valid_type t' -> t' <> t -> cb_slot cb' t' = cb_slot cb t') /\
  (forall cb t k f arg, -2147483648 <= t < 2147483648 -> -2147483648 <= k < 2147483648 ->
     ~ (valid_type t /\ valid_kind k) -> nl_cb_set cb t k f arg = (- NLE_RANGE, cb)).
Proof.
  split_and!.
  - intros kind Hk. unfold nl_cb_alloc. pose proof Hk as Hk'.
    unfold valid_kind, NL_CB_KIND_MAX in Hk'. rewrite u32_id by lia. unfold NL_CB_KIND_MAX at 1.
    rewrite (proj2 (Z.ltb_ge 3 kind)) by lia. cbn [negb]. cbv zeta.
    set (cb0 := with_active _ _). assert (cb_wf cb0) as Hw by done.
    destruct (alloc_types_keeps 11 0 cb0 kind Hw) as ([Hs Ha] & Hr & Hact).
    eexists. split; [done|]. unfold nl_cb_err, NL_CB_KIND_MAX.
    rewrite u32_id, (proj2 (Z.ltb_ge 3 kind)) by lia.
    assert (forall t, valid_type t ->
      nth (Z.to_nat t) (cb_set (alloc_types 11 0 cb0 kind)) None = handler_for t kind None) as Hsl.
    { intros t Ht. rewrite alloc_types_set by (done || lia).
      unfold valid_type, NL_CB_TYPE_MAX in Ht. by rewrite decide_True by lia. }
    case_test; simpl; split_and!; done.
  - intros cb t k f arg Hw Ht Hk. pose proof (nl_cb_set_wf cb t k f arg Hw) as Hw'.
    rewrite nl_cb_set_done in * by done. eexists. split; [done|]. split; [done|].
    destruct Hw as [Hs _]. unfold cb_slot, valid_type, NL_CB_TYPE_MAX in *. simpl.
    split; [|intros t' ??]; rewrite !nth_lookup.
    + by rewrite list_lookup_insert_eq by lia.
    + by rewrite list_lookup_insert_ne by lia.
  - unfold valid_type, valid_kind, NL_CB_TYPE_MAX, NL_CB_KIND_MAX. intros cb t k f arg Ht Hk Hn.
    unfold nl_cb_set, NL_CB_TYPE_MAX, NL_CB_KIND_MAX.
    destruct (10 <? u32 t) eqn:E1; [done|]. destruct (3 <? u32 k) eqn:E2; [done|]. bool_hyps.
    exfalso. apply Hn. unfold u32 in *. change (2 ^ 32) with 4294967296 in *. zdiv_lia.
Qed.

Lemma cb_table_spec_witness :
  exists cb, nl_cb_alloc true NL_CB_VERBOSE = Some cb /\
    cb_slot cb NL_CB_INVALID = Some nl_invalid_handler_verbose /\ cb_slot cb NL_CB_ACK = None.
Proof.
  destruct cb_table_spec as (H & _ & _).
  destruct (H NL_CB_VERBOSE) as (cb & Ha & _ & _ & _ & Hs); [split; by vm_compute|].
  exists cb. split; [exact Ha|]. split; rewrite Hs by (split; by vm_compute); reflexivity.
Defined.
