(* ===== verification/Socket.v ===== *)
(** Netlink sockets (lib/socket.c): the process-wide map of local ports, and
    the socket object with its configuration.

    The port map is state shared by all sockets of the process and threaded
    through the operations that use it.  Results of system calls are arguments:
    [None] for success, [Some errno] for a failure. *)
From S2P Require Import Prelude Errors Msg Handlers.

(** ** The map of local ports *)

(** 32 words of 32 bits, and the state of the generator. *)
Record port_map := { used_ports_map : list Z; idx_state : Z }.

Definition word_of (l : list Z) (i : Z) : Z := nth (Z.to_nat i) l 0.
Definition set_word (l : list Z) (i v : Z) : list Z := <[Z.to_nat i := v]> l.

(** The inner loop over the bits of a word: the [m] rounds that are left; the
    result says whether a clear bit was found, and the last [n]. *)
Fixpoint scan_bits (m : nat) (w n : Z) : bool * Z :=
  match m with
  | O => (false, n)
  | S m =>
      let n := (n + 13) mod 32 in
      if Z.testbit w n then scan_bits m w n else (true, n)
  end.

(** The outer loop over the words: [r] rounds are left, the last one looks at
    word 0. *)
Fixpoint scan_blocks (r : nat) (map : list Z) (i n : Z) : option (Z * Z) :=
  match r with
  | O => None
  | S r =>
      let i := if (r =? 0)%nat then 0 else (((i - 1) + 7) mod 31) + 1 in
      if word_of map i =? 4294967295 then scan_blocks r map i n
      else
        let '(found, n) := scan_bits 32 (word_of map i) n in
        if found : bool then Some (i, n) else scan_blocks r map i n
  end.

Definition generate_local_port (p : port_map) (getpid time : Z) : Z * port_map :=
  let pid := Z.land getpid 4194303 in
  let idx :=
    if idx_state p =? 0 then
      let t := u32 time in u16 (Z.lxor (Z.lxor t (Z.shiftr t 16)) 12359)
    else u16 (idx_state p + 20011) in
  match scan_blocks 32 (used_ports_map p) (Z.shiftr idx 5) idx with
  | Some (i, n) =>
      let map := set_word (used_ports_map p) i
                   (Z.lor (word_of (used_ports_map p) i) (Z.shiftl 1 n)) in
      let n := n + i * 32 in
      let pid := u32 (pid + u32 (Z.shiftl n 22)) in
      (if pid =? 0 then 1024 else pid, {| used_ports_map := map; idx_state := idx |})
  | None => (0, {| used_ports_map := used_ports_map p; idx_state := idx |})
  end.

Definition release_local_port (p : port_map) (port : Z) : exec port_map :=
  if port =? 0 then Bug
  else
    let nr := Z.shiftr port 22 in
    let mask := Z.shiftl 1 (nr mod 32) in
    let nr := nr / 32 in
    let w := word_of (used_ports_map p) nr in
    if negb (Z.land w mask =? mask) then Bug
    else mret {| used_ports_map := set_word (used_ports_map p) nr (Z.land w (Z.lnot mask));
                 idx_state := idx_state p |}.

(** The loop from word [i] on, under the lock. *)
Fixpoint release_words (n : nat) (i : Z) (map used : list Z) : exec (list Z) :=
  match n with
  | O => mret map
  | S n =>
      let w := word_of map i in
      let u := word_of used i in
      if negb (Z.land w u =? u) then Bug
      else release_words n (i + 1) (set_word map i (Z.land w (Z.lnot u))) used
  end.

Fixpoint release_from (n : nat) (i : Z) (map used : list Z) : exec (list Z) :=
  match n with
  | O => mret map
  | S n' =>
      if negb (word_of used i =? 0) then release_words n i map used
      else release_from n' (i + 1) map used
  end.

Definition _nl_socket_used_ports_release_all (p : port_map) (used_ports : list Z)
    : exec port_map :=
  map ← release_from 32 0 (used_ports_map p) used_ports;
  mret {| used_ports_map := map; idx_state := idx_state p |}.

Definition _nl_socket_used_ports_set (used_ports : list Z) (port : Z) : list Z :=
  let nr := Z.shiftr port 22 in
  let mask := Z.shiftl 1 (nr mod 32) in
  let nr := nr / 32 in
  set_word used_ports nr (Z.lor (word_of used_ports nr) mask).

(** ** Sockets *)

Definition NL_SOCK_PASSCRED := 2.
Definition NL_OWN_PORT := 4.
Definition NL_MSG_PEEK := 8.
Definition NL_MSG_PEEK_EXPLICIT := 16.
Definition NL_NO_AUTO_ACK := 32.
Definition AF_NETLINK := 16.
Definition SOCK_RAW := 3.
Definition sizeof_sockaddr_nl := 12.

Record nl_sock := {
  s_local : sockaddr_nl;
  s_peer : sockaddr_nl;
  s_fd : Z;
  s_proto : Z;
  s_seq_next : Z;
  s_seq_expect : Z;
  s_flags : Z;
  s_cb : nl_cb;
  s_bufsize : Z
}.

Definition with_local (sk : nl_sock) (a : sockaddr_nl) : nl_sock :=
  {| s_local := a; s_peer := s_peer sk; s_fd := s_fd sk; s_proto := s_proto sk;
     s_seq_next := s_seq_next sk; s_seq_expect := s_seq_expect sk; s_flags := s_flags sk;
     s_cb := s_cb sk; s_bufsize := s_bufsize sk |}.
Definition with_peer (sk : nl_sock) (a : sockaddr_nl) : nl_sock :=
  {| s_local := s_local sk; s_peer := a; s_fd := s_fd sk; s_proto := s_proto sk;
     s_seq_next := s_seq_next sk; s_seq_expect := s_seq_expect sk; s_flags := s_flags sk;
     s_cb := s_cb sk; s_bufsize := s_bufsize sk |}.
Definition with_fd (sk : nl_sock) (fd proto : Z) : nl_sock :=
  {| s_local := s_local sk; s_peer := s_peer sk; s_fd := fd; s_proto := proto;
     s_seq_next := s_seq_next sk; s_seq_expect := s_seq_expect sk; s_flags := s_flags sk;
     s_cb := s_cb sk; s_bufsize := s_bufsize sk |}.
Definition with_seq (sk : nl_sock) (next expect : Z) : nl_sock :=
  {| s_local := s_local sk; s_peer := s_peer sk; s_fd := s_fd sk; s_proto := s_proto sk;
     s_seq_next := next; s_seq_expect := expect; s_flags := s_flags sk;
     s_cb := s_cb sk; s_bufsize := s_bufsize sk |}.
Definition with_flags (sk : nl_sock) (f : Z) : nl_sock :=
  {| s_local := s_local sk; s_peer := s_peer sk; s_fd := s_fd sk; s_proto := s_proto sk;
     s_seq_next := s_seq_next sk; s_seq_expect := s_seq_expect sk; s_flags := f;
     s_cb := s_cb sk; s_bufsize := s_bufsize sk |}.
Definition with_cb (sk : nl_sock) (cb : nl_cb) : nl_sock :=
  {| s_local := s_local sk; s_peer := s_peer sk; s_fd := s_fd sk; s_proto := s_proto sk;
     s_seq_next := s_seq_next sk; s_seq_expect := s_seq_expect sk; s_flags := s_flags sk;
     s_cb := cb; s_bufsize := s_bufsize sk |}.
Definition with_bufsize (sk : nl_sock) (n : Z) : nl_sock :=
  {| s_local := s_local sk; s_peer := s_peer sk; s_fd := s_fd sk; s_proto := s_proto sk;
     s_seq_next := s_seq_next sk; s_seq_expect := s_seq_expect sk; s_flags := s_flags sk;
     s_cb := s_cb sk; s_bufsize := n |}.

Definition set_pid (a : sockaddr_nl) (pid : Z) : sockaddr_nl :=
  {| nl_family := nl_family a; nl_pid := pid; nl_groups := nl_groups a |}.
Definition set_groups (a : sockaddr_nl) (groups : Z) : sockaddr_nl :=
  {| nl_family := nl_family a; nl_pid := nl_pid a; nl_groups := groups |}.

Definition nl_sockaddr : sockaddr_nl := {| nl_family := AF_NETLINK; nl_pid := 0; nl_groups := 0 |}.

(** [c]: whether calloc succeeds. *)
Definition __alloc_socket (c : bool) (cb : nl_cb) (time : Z) : option nl_sock :=
  if negb c then None
  else Some {| s_local := nl_sockaddr; s_peer := nl_sockaddr; s_fd := -1; s_proto := 0;
               s_seq_next := u32 time; s_seq_expect := u32 time; s_flags := NL_OWN_PORT;
               s_cb := nl_cb_get cb; s_bufsize := 0 |}.

(** The allocating function's reference to the callback set goes to the socket. *)
Definition nl_socket_alloc (c1 c2 : bool) (default_cb time : Z) : exec (option nl_sock) :=
  match nl_cb_alloc c1 default_cb with
  | None => mret None
  | Some cb =>
      match __alloc_socket c2 cb time with
      | None => _ ← nl_cb_put (Some cb); mret None
      | Some sk =>
          cb ← nl_cb_put (Some (s_cb sk));
          match cb with
          | None => Fault
          | Some cb => mret (Some (with_cb sk cb))
          end
      end
  end.

Definition nl_socket_alloc_cb (c : bool) (cb : option nl_cb) (time : Z) : exec (option nl_sock) :=
  match cb with
  | None => Bug
  | Some cb => mret (__alloc_socket c cb time)
  end.

(** Whether the descriptor was closed, and what is left of the callback set. *)
Definition nl_socket_free (p : port_map) (sk : option nl_sock)
    : exec (bool * option nl_cb * port_map) :=
  match sk with
  | None => mret (false, None, p)
  | Some sk =>
      p ← (if negb (has_flag (s_flags sk) NL_OWN_PORT)
           then release_local_port p (nl_pid (s_local sk)) else mret p);
      cb ← nl_cb_put (Some (s_cb sk));
      mret (0 <=? s_fd sk, cb, p)
  end.

(** *** Sequence numbers and acknowledgements *)

Definition nl_socket_disable_seq_check (sk : nl_sock) : nl_sock :=
  with_cb sk (nl_cb_set (s_cb sk) NL_CB_SEQ_CHECK NL_CB_CUSTOM (Some noop_seq_check) 0).2.

Definition nl_socket_use_seq (sk : nl_sock) : Z * nl_sock :=
  (s_seq_next sk, with_seq sk (u32 (s_seq_next sk + 1)) (s_seq_expect sk)).

Definition nl_socket_disable_auto_ack (sk : nl_sock) : nl_sock :=
  with_flags sk (set_flag (s_flags sk) NL_NO_AUTO_ACK).
Definition nl_socket_enable_auto_ack (sk : nl_sock) : nl_sock :=
  with_flags sk (clear_flag (s_flags sk) NL_NO_AUTO_ACK).

(** *** Local port *)

Definition _nl_socket_is_local_port_unspecified (sk : nl_sock) : bool :=
  nl_pid (s_local sk) =? 0.

(** [getpid], [time]: what the system reports while the port is generated. *)
Definition _nl_socket_set_local_port_no_release (p : port_map) (sk : nl_sock)
    (generate_other : bool) (getpid time : Z) : Z * nl_sock * port_map :=
  let '(port, p) := if generate_other then generate_local_port p getpid time else (0, p) in
  let sk := with_local sk (set_pid (s_local sk) port) in
  let sk := if port =? 0 then with_flags sk (set_flag (s_flags sk) NL_OWN_PORT)
            else with_flags sk (clear_flag (s_flags sk) NL_OWN_PORT) in
  (port, sk, p).

Definition nl_socket_get_local_port (p : port_map) (sk : nl_sock) (getpid time : Z)
    : Z * nl_sock * port_map :=
  if nl_pid (s_local sk) =? 0 then
    let '(port, p) := generate_local_port p getpid time in
    let sk := with_local sk (set_pid (s_local sk) port) in
    let sk :=
      if port =? 0 then
        with_flags (with_local sk (set_pid (s_local sk) UINT32_MAX))
                   (set_flag (s_flags sk) NL_OWN_PORT)
      else with_flags sk (clear_flag (s_flags sk) NL_OWN_PORT) in
    (nl_pid (s_local sk), sk, p)
  else (nl_pid (s_local sk), sk, p).

Definition nl_socket_set_local_port (p : port_map) (sk : nl_sock) (port : Z)
    : exec (nl_sock * port_map) :=
  p ← (if negb (has_flag (s_flags sk) NL_OWN_PORT)
       then release_local_port p (nl_pid (s_local sk)) else mret p);
  let sk := with_flags sk (set_flag (s_flags sk) NL_OWN_PORT) in
  mret (with_local sk (set_pid (s_local sk) port), p).

(** *** Group memberships: the groups of the argument list up to its 0 *)

Fixpoint memberships (setsockopt : Z -> option Z) (groups : list Z) : Z :=
  match groups with
  | [] => 0
  | group :: groups =>
      if group =? 0 then 0
      else if group <? 0 then - NLE_INVAL
      else match setsockopt group with
           | Some errno => - nl_syserr2nlerr errno
           | None => memberships setsockopt groups
           end
  end.

Definition nl_socket_add_memberships (sk : nl_sock) (setsockopt : Z -> option Z)
    (groups : list Z) : Z :=
  if s_fd sk =? -1 then - NLE_BAD_SOCK else memberships setsockopt groups.
Definition nl_socket_add_membership (sk : nl_sock) (setsockopt : Z -> option Z) (group : Z) : Z :=
  nl_socket_add_memberships sk setsockopt [group; 0].
Definition nl_socket_drop_memberships (sk : nl_sock) (setsockopt : Z -> option Z)
    (groups : list Z) : Z :=
  if s_fd sk =? -1 then - NLE_BAD_SOCK else memberships setsockopt groups.
Definition nl_socket_drop_membership (sk : nl_sock) (setsockopt : Z -> option Z) (group : Z) : Z :=
  nl_socket_drop_memberships sk setsockopt [group; 0].

Definition nl_join_groups (sk : nl_sock) (groups : Z) : nl_sock :=
  with_local sk (set_groups (s_local sk) (set_flag (nl_groups (s_local sk)) (u32 groups))).

(** *** Peer, descriptor, flags *)

Definition nl_socket_get_peer_port (sk : nl_sock) : Z := nl_pid (s_peer sk).
Definition nl_socket_set_peer_port (sk : nl_sock) (port : Z) : nl_sock :=
  with_peer sk (set_pid (s_peer sk) port).
Definition nl_socket_get_peer_groups (sk : nl_sock) : Z := nl_groups (s_peer sk).
Definition nl_socket_set_peer_groups (sk : nl_sock) (groups : Z) : nl_sock :=
  with_peer sk (set_groups (s_peer sk) groups).
Definition nl_socket_get_fd (sk : nl_sock) : Z := s_fd sk.

(** A system call that yields a value with its length, or an errno. *)
Definition sysval (A : Type) : Type := Z + (Z * A).

Definition nl_socket_set_fd (p : port_map) (sk : nl_sock) (protocol fd : Z)
    (getsockname : sysval sockaddr_nl) (so_type so_protocol : sysval Z)
    : exec (Z * nl_sock * port_map) :=
  if negb (s_fd sk =? -1) then mret (- NLE_BAD_SOCK, sk, p)
  else if fd <? 0 then mret (- NLE_INVAL, sk, p)
  else match getsockname with
  | inl errno => mret (- nl_syserr2nlerr errno, sk, p)
  | inr (addrlen, local) =>
      if negb (addrlen =? sizeof_sockaddr_nl) then mret (- NLE_INVAL, sk, p)
      else if negb (nl_family local =? AF_NETLINK) then mret (- NLE_INVAL, sk, p)
      else match so_type with
      | inl errno => mret (- nl_syserr2nlerr errno, sk, p)
      | inr (len, t) =>
          if negb (len =? 4) then mret (- NLE_INVAL, sk, p)
          else if negb (t =? SOCK_RAW) then mret (- NLE_INVAL, sk, p)
          else
            let proto :=
              match so_protocol with
              | inl errno =>
                  if errno =? ENOPROTOOPT then
                    if protocol <? 0 then inl (- NLE_INVAL) else inr protocol
                  else inl (- nl_syserr2nlerr errno)
              | inr (len, pr) =>
                  if negb (len =? 4) then inl (- NLE_INVAL)
                  else if (0 <=? protocol) && negb (protocol =? pr) then inl (- NLE_INVAL)
                  else inr pr
              end in
            match proto with
            | inl err => mret (err, sk, p)
            | inr pr =>
                '(sk, p) ← nl_socket_set_local_port p sk (nl_pid local);
                mret (0, with_fd (with_local sk local) fd pr, p)
            end
      end
  end.

Definition nl_socket_set_nonblocking (sk : nl_sock) (fcntl : option Z) : Z :=
  if s_fd sk =? -1 then - NLE_BAD_SOCK
  else match fcntl with Some errno => - nl_syserr2nlerr errno | None => 0 end.

Definition nl_socket_enable_msg_peek (sk : nl_sock) : nl_sock :=
  with_flags sk (set_flag (s_flags sk) (Z.lor NL_MSG_PEEK NL_MSG_PEEK_EXPLICIT)).
Definition nl_socket_disable_msg_peek (sk : nl_sock) : nl_sock :=
  with_flags sk (clear_flag (set_flag (s_flags sk) NL_MSG_PEEK_EXPLICIT) NL_MSG_PEEK).

(** *** Callbacks *)

Definition nl_socket_get_cb (sk : nl_sock) : nl_sock := with_cb sk (nl_cb_get (s_cb sk)).

(** The old set, if it lives on, and the socket with the new one. *)
Definition nl_socket_set_cb (sk : nl_sock) (cb : option nl_cb) : exec (option nl_cb * nl_sock) :=
  match cb with
  | None => Bug
  | Some cb => old ← nl_cb_put (Some (s_cb sk)); mret (old, with_cb sk (nl_cb_get cb))
  end.

Definition nl_socket_modify_cb (sk : nl_sock) (type kind : Z)
    (func : option nl_recvmsg_msg_cb_t) (arg : Z) : Z * nl_sock :=
  let '(err, cb) := nl_cb_set (s_cb sk) type kind func arg in (err, with_cb sk cb).
Definition nl_socket_modify_err_cb (sk : nl_sock) (kind : Z)
    (func : option nl_recvmsg_err_cb_t) (arg : Z) : Z * nl_sock :=
  let '(err, cb) := nl_cb_err (s_cb sk) kind func arg in (err, with_cb sk cb).

(** *** Buffers and options *)

(** The result and the sizes asked of the kernel, in the order of the calls. *)
Definition nl_socket_set_buffer_size (sk : nl_sock) (rxbuf txbuf : Z) (snd rcv : option Z)
    : Z * list Z :=
  let rxbuf := if rxbuf <=? 0 then 32768 else rxbuf in
  let txbuf := if txbuf <=? 0 then 32768 else txbuf in
  if s_fd sk =? -1 then (- NLE_BAD_SOCK, [])
  else match snd with
  | Some errno => (- nl_syserr2nlerr errno, [txbuf])
  | None =>
      match rcv with
      | Some errno => (- nl_syserr2nlerr errno, [txbuf; rxbuf])
      | None => (0, [txbuf; rxbuf])
      end
  end.

Definition nl_socket_set_msg_buf_size (sk : nl_sock) (bufsize : Z) : Z * nl_sock :=
  (0, with_bufsize sk bufsize).
Definition nl_socket_get_msg_buf_size (sk : nl_sock) : Z := s_bufsize sk.

Definition nl_socket_set_passcred (sk : nl_sock) (state : Z) (setsockopt : option Z)
    : Z * nl_sock :=
  if s_fd sk =? -1 then (- NLE_BAD_SOCK, sk)
  else match setsockopt with
  | Some errno => (- nl_syserr2nlerr errno, sk)
  | None =>
      (0, with_flags sk (if negb (state =? 0) then set_flag (s_flags sk) NL_SOCK_PASSCRED
                         else clear_flag (s_flags sk) NL_SOCK_PASSCRED))
  end.

Definition nl_socket_recv_pktinfo (sk : nl_sock) (setsockopt : option Z) : Z :=
  if s_fd sk =? -1 then - NLE_BAD_SOCK
  else match setsockopt with Some errno => - nl_syserr2nlerr errno | None => 0 end.

(** ** Connecting (nl_connect and nl_close of lib/nl.c) *)

(** What the system calls of one connection attempt give: the descriptor of
    socket(2), the buffer size options, the results of bind(2) by round (round
    6 is the last one, outside the loop), getsockname(2), and what getpid(2)
    and time(2) say in a round. *)
Record connect_sys := {
  sys_socket : Z + Z;
  sys_snd : option Z;
  sys_rcv : option Z;
  sys_bind : nat -> sockaddr_nl -> option Z;
  sys_getsockname : sysval sockaddr_nl;
  sys_getpid : nat -> Z;
  sys_time : nat -> Z
}.

(** The loop over generated ports; [r] more tries are allowed.  [inl err]: it
    left with an error; [inr b]: it broke with [try_bind = b]. *)
Fixpoint bind_loop (sys : connect_sys) (r : nat) (p : port_map) (sk : nl_sock) (used_ports : list Z)
    : exec ((Z + bool) * nl_sock * port_map) :=
  match r with
  | O =>
      let '(_, sk, p) := _nl_socket_set_local_port_no_release p sk false 0 0 in
      p ← _nl_socket_used_ports_release_all p used_ports;
      mret (inr true, sk, p)
  | S r =>
      let '(port, sk, p) :=
        _nl_socket_set_local_port_no_release p sk true (sys_getpid sys r) (sys_time sys r) in
      if port =? 0 then
        p ← _nl_socket_used_ports_release_all p used_ports;
        mret (inr true, sk, p)
      else match sys_bind sys r (s_local sk) with
      | None =>
          p ← _nl_socket_used_ports_release_all p used_ports;
          mret (inr false, sk, p)
      | Some errsv =>
          if errsv =? EADDRINUSE then
            bind_loop sys r p sk (_nl_socket_used_ports_set used_ports port)
          else
            p ← _nl_socket_used_ports_release_all p used_ports;
            mret (inl (- nl_syserr2nlerr errsv), sk, p)
      end
  end.

(** The part behind the label errout. *)
Definition connect_errout (err : Z) (sk : nl_sock) (p : port_map) : Z * nl_sock * port_map :=
  (err, with_fd sk (-1) (s_proto sk), p).

Definition connect_finish (p : port_map) (sk : nl_sock) (protocol : Z) (sys : connect_sys)
    : exec (Z * nl_sock * port_map) :=
  match sys_getsockname sys with
  | inl errno => mret (connect_errout (- nl_syserr2nlerr errno) sk p)
  | inr (addrlen, local) =>
      if negb (addrlen =? sizeof_sockaddr_nl) then mret (connect_errout (- NLE_NOADDR) sk p)
      else if negb (nl_family local =? AF_NETLINK) then
        mret (connect_errout (- NLE_AF_NOSUPPORT) sk p)
      else
        '(sk, p) ← (if negb (nl_pid (s_local sk) =? nl_pid local)
                    then nl_socket_set_local_port p sk (nl_pid local) else mret (sk, p));
        mret (0, with_fd (with_local sk local) (s_fd sk) protocol, p)
  end.

Definition nl_connect (p : port_map) (sk : nl_sock) (protocol : Z) (sys : connect_sys)
    : exec (Z * nl_sock * port_map) :=
  if negb (s_fd sk =? -1) then mret (- NLE_BAD_SOCK, sk, p)
  else match sys_socket sys with
  | inl errsv => mret (connect_errout (- nl_syserr2nlerr errsv) sk p)
  | inr fd =>
      let sk := with_fd sk fd (s_proto sk) in
      let '(err, _) := nl_socket_set_buffer_size sk 0 0 (sys_snd sys) (sys_rcv sys) in
      if err <? 0 then mret (connect_errout err sk p)
      else
        '(r, sk, p) ← (if _nl_socket_is_local_port_unspecified sk
                       then bind_loop sys 6 p sk (replicate 32 0)
                       else mret (inr true, sk, p));
        match r with
        | inl err => mret (connect_errout err sk p)
        | inr try_bind =>
            match (if try_bind : bool then sys_bind sys 6 (s_local sk) else None) with
            | Some errsv => mret (connect_errout (- nl_syserr2nlerr errsv) sk p)
            | None => connect_finish p sk protocol sys
            end
        end
  end.

(** Whether the descriptor was closed. *)
Definition nl_close (sk : nl_sock) : bool * nl_sock :=
  (0 <=? s_fd sk, with_fd sk (if 0 <=? s_fd sk then -1 else s_fd sk) 0).

(** ** Lemmas on the port map *)

Definition map_ok (l : list Z) : Prop :=
  length l = 32%nat /\ Forall (fun w => 0 <= w < 4294967296) l.

(** Slot [k] of the 1024, and the slot of a port. *)
Definition slot_used (l : list Z) (k : Z) : bool := Z.testbit (word_of l (k / 32)) (k mod 32).
Definition slot_of (port : Z) : Z := Z.shiftr port 22.
Definition full_map (l : list Z) : Prop := forall k, 0 <= k < 1024 -> slot_used l k = true.

Lemma word_of_range l i : map_ok l -> 0 <= word_of l i < 4294967296.
Proof.
  intros [_ Hf]. unfold word_of. rewrite nth_lookup.
  destruct (l !! Z.to_nat i) eqn:E; simpl; [|lia]. by apply (Forall_lookup_1 _ _ _ _ Hf E).
Qed.

Lemma word_of_set l i j v :
  map_ok l -> 0 <= i < 32 -> 0 <= j < 32 ->
  word_of (set_word l i v) j = if decide (i = j) then v else word_of l j.
Proof.
  intros [Hl _] ??. unfold word_of, set_word. rewrite !nth_lookup. case_decide as Hd.
  - subst. by rewrite list_lookup_insert_eq by lia.
  - by rewrite list_lookup_insert_ne by lia.
Qed.

Lemma set_word_ok l i v : map_ok l -> 0 <= v < 4294967296 -> map_ok (set_word l i v).
Proof.
  intros [Hl Hf] Hv. split; [by unfold set_word; rewrite length_insert|].
  by apply Forall_insert.
Qed.

Lemma word_full w : 0 <= w < 4294967296 ->
  (forall b, 0 <= b < 32 -> Z.testbit w b = true) -> w = 4294967295.
Proof.
  intros Hw Hb. change 4294967295 with (Z.ones 32). apply Z.bits_inj'. intros b Hb0.
  rewrite Z.testbit_ones_nonneg by lia. destruct (b <? 32) eqn:E; bool_hyps; [by apply Hb|].
  rewrite <- (Z.mod_small w (2 ^ 32)) by done. by apply Z.mod_pow2_bits_high.
Qed.

Lemma scan_bits_found m : forall w n n',
  scan_bits m w n = (true, n') -> 0 <= n' < 32 /\ Z.testbit w n' = false.
Proof.
  induction m as [|m IH]; intros w n n'; simpl; [done|].
  destruct (Z.testbit w ((n + 13) mod 32)) eqn:E; [by apply IH|].
  intros [= <-]. split; [|done]. apply Z.mod_pos_bound. lia.
Qed.

Lemma scan_bits_none m : forall w n n' j,
  scan_bits m w n = (false, n') -> 0 <= j < Z.of_nat m ->
  Z.testbit w ((n + 13 * (j + 1)) mod 32) = true.
Proof.
  induction m as [|m IH]; intros w n n' j; simpl; [lia|].
  destruct (Z.testbit w ((n + 13) mod 32)) eqn:E; [|done]. intros Hs Hj.
  destruct (decide (j = 0)) as [->|]; [by rewrite Z.mul_1_r|].
  specialize (IH _ _ _ (j - 1) Hs ltac:(lia)). rewrite Zplus_mod_idemp_l in IH.
  by replace (n + 13 + 13 * (j - 1 + 1)) with (n + 13 * (j + 1)) in IH by lia.
Qed.

(** 13 and 32 are coprime: the rounds see every bit. *)
Lemma scan_bits_complete w n n' :
  0 <= w < 4294967296 -> scan_bits 32 w n = (false, n') -> w = 4294967295.
Proof.
  intros Hw Hs. apply word_full; [done|]. intros b Hb.
  set (j := (5 * (b - n) - 1) mod 32).
  assert (0 <= j < 32) by (apply Z.mod_pos_bound; lia).
  rewrite <- (scan_bits_none 32 w n n' j Hs) by lia. f_equal. unfold j. zdiv_lia.
Qed.

Lemma scan_blocks_found r : forall l i n i' n',
  scan_blocks r l i n = Some (i', n') ->
  0 <= i' < 32 /\ 0 <= n' < 32 /\ Z.testbit (word_of l i') n' = false.
Proof.
  induction r as [|r IH]; intros l i n i' n'; cbn [scan_blocks]; [done|].
  set (i1 := if (r =? 0)%nat then 0 else _).
  destruct (word_of l i1 =? 4294967295); [by apply IH|].
  destruct (scan_bits 32 (word_of l i1) n) as [[] n1] eqn:E; [|by apply IH].
  intros [= <- <-]. apply scan_bits_found in E. split; [|done]. unfold i1.
  destruct (r =? 0)%nat; [lia|]. zdiv_lia.
Qed.

Lemma scan_blocks_none r : forall l i n,
  map_ok l -> scan_blocks r l i n = None ->
  (forall k, 1 <= k < Z.of_nat r -> word_of l ((i - 1 + 7 * k) mod 31 + 1) = 4294967295) /\
  ((0 < r)%nat -> word_of l 0 = 4294967295).
Proof.
  induction r as [|r IH]; intros l i n Hok; cbn [scan_blocks]; [split; lia|].
  set (i1 := if (r =? 0)%nat then 0 else _). intros Hs.
  assert (word_of l i1 = 4294967295 /\ exists n1, scan_blocks r l i1 n1 = None) as [Hf (n1 & Hn)].
  { destruct (word_of l i1 =? 4294967295) eqn:E; bool_hyps; [by eauto|].
    destruct (scan_bits 32 (word_of l i1) n) as [[] n1] eqn:E2; [done|].
    split; [|by eauto]. eapply scan_bits_complete; [by apply word_of_range|done]. }
  destruct (IH _ _ _ Hok Hn) as [Hk H0]. split.
  - intros k ?. unfold i1 in *. destruct (Nat.eqb_spec r 0); [lia|].
    destruct (decide (k = 1)) as [->|]; [by rewrite Z.mul_1_r|].
    rewrite <- (Hk (k - 1)) by lia. f_equal. f_equal.
    replace (((i - 1 + 7) mod 31 + 1 - 1) + 7 * (k - 1)) with ((i - 1 + 7) mod 31 + 7 * (k - 1)) by lia.
    rewrite Zplus_mod_idemp_l. f_equal. lia.
  - intros _. destruct r; [done|]. apply H0. lia.
Qed.

(** 7 and 31 are coprime: the rounds see every word, word 0 last. *)
Lemma scan_blocks_complete l i n : map_ok l -> scan_blocks 32 l i n = None -> full_map l.
Proof.
  intros Hok Hs. destruct (scan_blocks_none 32 l i n Hok Hs) as [Hk H0].
  assert (forall j, 0 <= j < 32 -> word_of l j = 4294967295) as Hall.
  { intros j Hj. destruct (decide (j = 0)) as [->|]; [apply H0; lia|].
    set (k := (9 * (j - i) - 1) mod 31 + 1).
    assert (1 <= k < 32) by (unfold k; zdiv_lia).
    rewrite <- (Hk k) by lia. f_equal. unfold k. zdiv_lia. }
  intros k Hk1. unfold slot_used. rewrite Hall by zdiv_lia.
  change 4294967295 with (Z.ones 32). rewrite Z.testbit_ones_nonneg by zdiv_lia.
  apply Z.ltb_lt. zdiv_lia.
Qed.

Lemma word_setbit w n : 0 <= w < 4294967296 -> 0 <= n < 32 ->
  0 <= Z.lor w (Z.shiftl 1 n) < 4294967296.
Proof.
  intros Hw Hn. assert (0 <= Z.lor w (Z.shiftl 1 n)) as H0.
  { apply Z.lor_nonneg. split; [lia|]. apply Z.shiftl_nonneg. lia. }
  split; [done|]. change 4294967296 with (2 ^ 32).
  destruct (decide (Z.lor w (Z.shiftl 1 n) = 0)) as [->|Hne]; [lia|].
  apply Z.log2_lt_pow2; [lia|]. rewrite Z.log2_lor by (try apply Z.shiftl_nonneg; lia).
  apply Z.max_lub_lt.
  - destruct (decide (w = 0)) as [->|]; [done|]. apply Z.log2_lt_pow2; lia.
  - rewrite Z.shiftl_1_l, Z.log2_pow2; lia.
Qed.

Lemma word_land w m : 0 <= w < 4294967296 -> 0 <= Z.land w m < 4294967296.
Proof.
  intros Hw. assert (0 <= Z.land w m) by (apply Z.land_nonneg; lia). split; [done|].
  assert (Z.land w m = Z.land w m mod 2 ^ 32) as ->; [|apply Z.mod_pos_bound; lia].
  rewrite <- Z.land_ones, <- Z.land_assoc, (Z.land_comm m), Z.land_assoc by lia.
  rewrite (Z.land_ones w) by lia. by rewrite (Z.mod_small w) by done.
Qed.

Lemma bit_mask w n : 0 <= n ->
  (Z.land w (Z.shiftl 1 n) =? Z.shiftl 1 n) = Z.testbit w n.
Proof.
  intros Hn. destruct (Z.testbit w n) eqn:E; [apply Z.eqb_eq|apply Z.eqb_neq].
  - apply Z.bits_inj'. intros i Hi. rewrite Z.land_spec, Z.shiftl_1_l, Z.pow2_bits_eqb by done.
    destruct (Z.eqb_spec n i); [subst; by rewrite E|by rewrite andb_false_r].
  - intros H. assert (Z.testbit (Z.land w (Z.shiftl 1 n)) n = Z.testbit (Z.shiftl 1 n) n) as H'
      by by rewrite H.
    rewrite Z.land_spec, E, Z.shiftl_1_l, Z.pow2_bits_eqb, Z.eqb_refl in H' by done. done.
Qed.

Lemma slot_div k : 0 <= k < 1024 -> 0 <= k / 32 < 32 /\ 0 <= k mod 32 < 32.
Proof. intros. zdiv_lia. Qed.

Lemma slot_eq k k' : k / 32 = k' / 32 -> k mod 32 = k' mod 32 -> k = k'.
Proof. intros. zdiv_lia. Qed.

(** The map with slot [k] taken, and with slot [k] given back. *)
Definition mark (l : list Z) (k : Z) : list Z :=
  set_word l (k / 32) (Z.lor (word_of l (k / 32)) (Z.shiftl 1 (k mod 32))).
Definition unmark (l : list Z) (k : Z) : list Z :=
  set_word l (k / 32) (Z.land (word_of l (k / 32)) (Z.lnot (Z.shiftl 1 (k mod 32)))).

Lemma mark_ok l k : map_ok l -> 0 <= k < 1024 -> map_ok (mark l k).
Proof.
  intros Hok Hk. apply slot_div in Hk as [? ?]. apply set_word_ok; [done|].
  apply word_setbit; [by apply word_of_range|done].
Qed.

Lemma unmark_ok l k : map_ok l -> map_ok (unmark l k).
Proof. intros. apply set_word_ok; [done|]. by apply word_land, word_of_range. Qed.

Lemma slot_used_mark l k k' : map_ok l -> 0 <= k < 1024 -> 0 <= k' < 1024 ->
  slot_used (mark l k) k' = (k =? k') || slot_used l k'.
Proof.
  intros Hok Hk Hk'. pose proof (slot_div k Hk). pose proof (slot_div k' Hk').
  unfold slot_used, mark. rewrite word_of_set by (done || lia). case_decide as Hd.
  - rewrite Z.lor_spec, Z.shiftl_1_l, Z.pow2_bits_eqb, Hd by lia. rewrite orb_comm. f_equal.
    apply Bool.eq_iff_eq_true. rewrite !Z.eqb_eq. split; [by apply slot_eq|by intros ->].
  - destruct (Z.eqb_spec k k'); [congruence|done].
Qed.

Lemma slot_used_unmark l k k' : map_ok l -> 0 <= k < 1024 -> 0 <= k' < 1024 ->
  slot_used (unmark l k) k' = negb (k =? k') && slot_used l k'.
Proof.
  intros Hok Hk Hk'. pose proof (slot_div k Hk). pose proof (slot_div k' Hk').
  unfold slot_used, unmark. rewrite word_of_set by (done || lia). case_decide as Hd.
  - rewrite Z.land_spec, Z.lnot_spec, Z.shiftl_1_l, Z.pow2_bits_eqb, Hd by lia.
    rewrite andb_comm. f_equal. f_equal.
    apply Bool.eq_iff_eq_true. rewrite !Z.eqb_eq. split; [by apply slot_eq|by intros ->].
  - destruct (Z.eqb_spec k k'); [congruence|done].
Qed.

(** A map is determined by its slots. *)
Lemma map_ext l l' : map_ok l -> map_ok l' ->
  (forall k, 0 <= k < 1024 -> slot_used l k = slot_used l' k) -> l = l'.
Proof.
  intros Hok Hok' Hs. pose proof Hok as [Hl _]. pose proof Hok' as [Hl' _].
  apply (list_eq_same_length _ _ 32); [done..|]. intros i x y Hi Hx Hy.
  assert (x = word_of l (Z.of_nat i)) as ->.
  { unfold word_of. by rewrite Nat2Z.id, nth_lookup, Hx. }
  assert (y = word_of l' (Z.of_nat i)) as ->.
  { unfold word_of. by rewrite Nat2Z.id, nth_lookup, Hy. }
  pose proof (word_of_range l (Z.of_nat i) Hok). pose proof (word_of_range l' (Z.of_nat i) Hok').
  apply Z.bits_inj'. intros b Hb. destruct (decide (b < 32)).
  - specialize (Hs (32 * Z.of_nat i + b) ltac:(lia)). unfold slot_used in Hs.
    replace ((32 * Z.of_nat i + b) / 32) with (Z.of_nat i) in Hs by zdiv_lia.
    by replace ((32 * Z.of_nat i + b) mod 32) with b in Hs by zdiv_lia.
  - rewrite <- (Z.mod_small (word_of l _) (2 ^ 32)), <- (Z.mod_small (word_of l' _) (2 ^ 32)) by done.
    by rewrite !Z.mod_pow2_bits_high by lia.
Qed.

Lemma mark_unmark l k : map_ok l -> 0 <= k < 1024 -> slot_used l k = false ->
  unmark (mark l k) k = l.
Proof.
  intros Hok Hk Hf. apply map_ext; [by apply unmark_ok, mark_ok|done|].
  intros k' Hk'. rewrite slot_used_unmark, slot_used_mark by (try apply mark_ok; done).
  destruct (Z.eqb_spec k k'); [by subst|done].
Qed.

(** [slot_of] of the port a process gets for slot [k]. *)
Lemma slot_of_port pid k : 0 <= pid < 4194304 -> 0 <= k < 1024 ->
  u32 (pid + u32 (Z.shiftl k 22)) = pid + k * 4194304 /\
  slot_of (pid + k * 4194304) = k.
Proof.
  intros Hp Hk. rewrite Z.shiftl_mul_pow2 by lia. change (2 ^ 22) with 4194304.
  rewrite (u32_id (k * _)), u32_id by lia. split; [done|].
  unfold slot_of. rewrite Z.shiftr_div_pow2 by lia. change (2 ^ 22) with 4194304. zdiv_lia.
Qed.

Definition generated (p p' : port_map) (port : Z) : Prop :=
  0 < port < 4294967296 /\ 0 <= slot_of port < 1024 /\
  slot_used (used_ports_map p) (slot_of port) = false /\
  used_ports_map p' = mark (used_ports_map p) (slot_of port).

Lemma generate_cases p getpid time :
  map_ok (used_ports_map p) -> 
  let '(port, p') := generate_local_port p getpid time in
  (port = 0 /\ full_map (used_ports_map p) /\ used_ports_map p' = used_ports_map p) \/
  generated p p' port.
Proof.
  intros Hok. unfold generate_local_port.
  set (pid := Z.land getpid 4194303). set (idx := if idx_state p =? 0 then _ else _).
  assert (0 <= pid < 4194304) as Hpid.
  { unfold pid. change 4194303 with (Z.ones 22). rewrite Z.land_ones by lia.
    apply Z.mod_pos_bound. lia. }
  destruct (scan_blocks _ _ _ _) as [[i n]|] eqn:E.
  2: { left. split_and!; [done|by eapply scan_blocks_complete|done]. }
  right. apply scan_blocks_found in E as (Hi & Hn & Hbit).
  set (k := n + i * 32). assert (0 <= k < 1024) as Hk by (unfold k; lia).
  assert (k / 32 = i) as Hd by (unfold k; zdiv_lia).
  assert (k mod 32 = n) as Hm by (unfold k; zdiv_lia).
  destruct (slot_of_port pid k Hpid Hk) as [-> Hslot].
  assert (slot_of (if pid + k * 4194304 =? 0 then 1024 else pid + k * 4194304) = k) as Hs.
  { destruct (pid + k * 4194304 =? 0) eqn:E0; [|done]. bool_hyps.
    assert (k = 0) as -> by lia. done. }
  unfold generated. rewrite Hs. split_and!; try lia.
  - destruct (pid + k * 4194304 =? 0) eqn:E0; bool_hyps; lia.
  - destruct (pid + k * 4194304 =? 0) eqn:E0; bool_hyps; lia.
  - unfold slot_used. by rewrite Hd, Hm.
  - simpl. unfold mark. by rewrite Hd, Hm.
Qed.

Lemma release_done p port :
  map_ok (used_ports_map p) -> port <> 0 -> 0 <= slot_of port < 1024 ->
  release_local_port p port =
  if slot_used (used_ports_map p) (slot_of port) then
    Done {| used_ports_map := unmark (used_ports_map p) (slot_of port); idx_state := idx_state p |}
  else Bug.
Proof.
  intros Hok Hp Hs. pose proof (slot_div _ Hs). unfold release_local_port.
  rewrite (proj2 (Z.eqb_neq port 0)) by done. cbv zeta. fold (slot_of port).
  rewrite bit_mask by lia. fold (slot_used (used_ports_map p) (slot_of port)).
  by destruct (slot_used _ _).
Qed.

(** ** Lemmas on the retry loop of connect *)

Lemma release_words_done n : forall i l used,
  map_ok l -> map_ok used -> 0 <= i -> i + Z.of_nat n = 32 ->
  (forall k, 32 * i <= k < 1024 -> slot_used used k = true -> slot_used l k = true) ->
  exists l', release_words n i l used = Done l' /\ map_ok l' /\
    forall k, 0 <= k < 1024 ->
      slot_used l' k = slot_used l k && negb ((32 * i <=? k) && slot_used used k).
Proof.
  induction n as [|n IH]; intros i l used Hl Hu Hi Hn Hsub; simpl.
  { exists l. split_and!; [done..|]. intros k Hk.
    rewrite (proj2 (Z.leb_gt (32 * i) k)) by lia. by rewrite andb_true_r. }
  assert (Z.land (word_of l i) (word_of used i) = word_of used i) as Hmask.
  { apply Z.bits_inj'. intros b Hb. rewrite Z.land_spec.
    destruct (Z.testbit (word_of used i) b) eqn:E; [|by rewrite andb_false_r].
    destruct (decide (b < 32)).
    - specialize (Hsub (32 * i + b) ltac:(lia)). unfold slot_used in Hsub.
      replace ((32 * i + b) / 32) with i in Hsub by zdiv_lia.
      replace ((32 * i + b) mod 32) with b in Hsub by zdiv_lia. by rewrite Hsub.
    - pose proof (word_of_range used i Hu).
      rewrite <- (Z.mod_small (word_of used i) (2 ^ 32)), Z.mod_pow2_bits_high in E by (done || lia). done. }
  rewrite Hmask, Z.eqb_refl. cbn [negb].
  set (l1 := set_word l i _). assert (map_ok l1) as Hl1.
  { apply set_word_ok; [done|]. by apply word_land, word_of_range. }
  assert (forall k, 0 <= k < 1024 -> slot_used l1 k =
    if k / 32 =? i then slot_used l k && negb (slot_used used k) else slot_used l k) as H1.
  { intros k Hk. pose proof (slot_div k Hk). unfold slot_used, l1.
    rewrite word_of_set by (done || lia). destruct (Z.eqb_spec (k / 32) i) as [<-|].
    - rewrite decide_True by done. by rewrite Z.land_spec, Z.lnot_spec by lia.
    - by rewrite decide_False by congruence. }
  destruct (IH (i + 1) l1 used) as (l' & Hr & Hl' & Hs); [done|done|lia|lia| |].
  { intros k Hk Hu'. rewrite H1 by lia. destruct (Z.eqb_spec (k / 32) i); [zdiv_lia|].
    apply Hsub; [lia|done]. }
  exists l'. split_and!; [done..|]. intros k Hk. rewrite Hs, H1 by done.
  destruct (Z.eqb_spec (k / 32) i).
  - rewrite (proj2 (Z.leb_gt (32 * (i + 1)) k)), (proj2 (Z.leb_le (32 * i) k)) by zdiv_lia.
    by rewrite andb_true_r.
  - do 3 f_equal. apply Bool.eq_iff_eq_true. rewrite !Z.leb_le. zdiv_lia.
Qed.

Lemma release_from_done n : forall i l used,
  map_ok l -> map_ok used -> 0 <= i -> i + Z.of_nat n = 32 ->
  (forall k, 0 <= k < 1024 -> slot_used used k = true -> slot_used l k = true) ->
  (forall k, 0 <= k < 32 * i -> slot_used used k = false) ->
  exists l', release_from n i l used = Done l' /\ map_ok l' /\
    forall k, 0 <= k < 1024 -> slot_used l' k = slot_used l k && negb (slot_used used k).
Proof.
  induction n as [|n IH]; intros i l used Hl Hu Hi Hn Hsub Hz; cbn [release_from].
  { exists l. split_and!; [done..|]. intros k Hk. rewrite Hz by lia. by rewrite andb_true_r. }
  destruct (word_of used i =? 0) eqn:E; bool_hyps; cbn [negb].
  - destruct (IH (i + 1) l used) as (l' & ?); [done|done|lia|lia|done| |by exists l'].
    intros k Hk. destruct (decide (k < 32 * i)); [apply Hz; lia|].
    unfold slot_used. replace (k / 32) with i by zdiv_lia. rewrite E. apply Z.bits_0.
  - destruct (release_words_done (S n) i l used) as (l' & ? & ? & Hs); [done|done|lia|lia| |].
    { intros k Hk. apply Hsub. lia. }
    exists l'. split_and!; [done..|]. intros k Hk. rewrite Hs by done. do 2 f_equal.
    destruct (Z.leb_spec (32 * i) k); [done|]. by rewrite Hz by lia.
Qed.

Lemma release_all_done p used :
  map_ok (used_ports_map p) -> map_ok used ->
  (forall k, 0 <= k < 1024 -> slot_used used k = true -> slot_used (used_ports_map p) k = true) ->
  exists p', _nl_socket_used_ports_release_all p used = Done p' /\ map_ok (used_ports_map p') /\
    forall k, 0 <= k < 1024 ->
      slot_used (used_ports_map p') k = slot_used (used_ports_map p) k && negb (slot_used used k).
Proof.
  intros Hl Hu Hs. unfold _nl_socket_used_ports_release_all.
  destruct (release_from_done 32 0 (used_ports_map p) used) as (l' & -> & Hl' & Hk);
    [done|done|lia|done|done|intros; lia|].
  eexists. split; [done|]. done.
Qed.

Lemma used_ports_set_mark used port : _nl_socket_used_ports_set used port = mark used (slot_of port).
Proof. done. Qed.

(** A socket with [port] as its generated port, and one without. *)
Definition holds_port (sk : nl_sock) (port : Z) : Prop :=
  nl_pid (s_local sk) = port /\ has_flag (s_flags sk) NL_OWN_PORT = false.
Definition no_port (sk : nl_sock) : Prop :=
  nl_pid (s_local sk) = 0 /\ has_flag (s_flags sk) NL_OWN_PORT = true.

Definition same_rest (sk sk' : nl_sock) : Prop := s_cb sk' = s_cb sk /\ s_fd sk' = s_fd sk.

(** [port] is a port generated when the map was [l0]; the map is now [l]. *)
Definition took (l0 l : list Z) (port : Z) : Prop :=
  0 < port < 4294967296 /\ 0 <= slot_of port < 1024 /\
  slot_used l0 (slot_of port) = false /\ l = mark l0 (slot_of port).

(** The ports of [used] are the tried ones: the map is [l0] and those. *)
Definition tried (l0 l used : list Z) : Prop :=
  map_ok l0 /\ map_ok l /\ map_ok used /\
  (forall k, 0 <= k < 1024 -> slot_used l k = slot_used l0 k || slot_used used k) /\
  (forall k, 0 <= k < 1024 -> slot_used used k = true -> slot_used l0 k = false).

Lemma tried_release l0 p used :
  tried l0 (used_ports_map p) used ->
  exists p', _nl_socket_used_ports_release_all p used = Done p' /\ used_ports_map p' = l0.
Proof.
  intros (H0 & Hl & Hu & Hk & Hd).
  destruct (release_all_done p used) as (p' & Hr & Hok & Hs); [done|done| |].
  { intros k ? Hx. by rewrite Hk, Hx, orb_true_r. }
  exists p'. split; [done|]. apply map_ext; [done..|]. intros k ?. rewrite Hs, Hk by done.
  specialize (Hd k). destruct (slot_used l0 k), (slot_used used k); try done. by rewrite Hd.
Qed.

Lemma tried_release_took l0 p p1 used port :
  tried l0 (used_ports_map p) used -> generated p p1 port ->
  (exists p', _nl_socket_used_ports_release_all p1 used = Done p' /\
    took l0 (used_ports_map p') port) /\
  tried l0 (used_ports_map p1) (mark used (slot_of port)).
Proof.
  intros (H0 & Hl & Hu & Hk & Hd) (Hp & Hs & Hf & Hm).
  assert (slot_used l0 (slot_of port) = false /\ slot_used used (slot_of port) = false) as [Hf0 Hfu].
  { rewrite Hk in Hf by done. by apply orb_false_iff in Hf. }
  assert (map_ok (used_ports_map p1)) as Hok1 by (rewrite Hm; by apply mark_ok).
  assert (forall k, 0 <= k < 1024 -> slot_used (used_ports_map p1) k =
    (slot_of port =? k) || (slot_used l0 k || slot_used used k)) as Hk1.
  { intros k ?. by rewrite Hm, slot_used_mark, Hk by done. }
  split.
  - destruct (release_all_done p1 used) as (p' & Hr & Hok & Hs'); [done|done| |].
    { intros k ? Hx. by rewrite Hk1, Hx, !orb_true_r. }
    exists p'. split; [done|]. split_and!; [lia..|done|].
    apply map_ext; [done|by apply mark_ok|]. intros k Hk'.
    rewrite Hs', Hk1, slot_used_mark by done. specialize (Hd k Hk').
    destruct (Z.eqb_spec (slot_of port) k) as [<-|]; [by rewrite Hfu|].
    destruct (slot_used l0 k), (slot_used used k); try done. by rewrite Hd.
  - split_and!; [done|done|by apply mark_ok| |].
    + intros k ?. rewrite Hk1, slot_used_mark by done.
      destruct (slot_of port =? k), (slot_used l0 k), (slot_used used k); done.
    + intros k ?. rewrite slot_used_mark by done.
      destruct (Z.eqb_spec (slot_of port) k) as [<-|]; [done|]. simpl. auto.
Qed.

Lemma no_release_generated p sk getpid time :
  map_ok (used_ports_map p) ->
  let '(port, sk', p') := _nl_socket_set_local_port_no_release p sk true getpid time in
  same_rest sk sk' /\
  ((port = 0 /\ no_port sk' /\ used_ports_map p' = used_ports_map p) \/
   (port <> 0 /\ generated p p' port /\ holds_port sk' port)).
Proof.
  intros Hok. unfold _nl_socket_set_local_port_no_release.
  pose proof (generate_cases p getpid time Hok) as Hc.
  destruct (generate_local_port p getpid time) as [port p'].
  destruct Hc as [(-> & _ & Hm)|Hg].
  - split; [done|]. left. split_and!; [done|split; [done|]|done]. by apply has_flag_set.
  - pose proof Hg as (Hp & _). rewrite (proj2 (Z.eqb_neq port 0)) by lia.
    split; [done|]. right. split_and!; [lia|done|split; [done|]]. apply has_flag_clear.
Qed.

Lemma bind_loop_spec sys r : forall l0 p sk used,
  tried l0 (used_ports_map p) used ->
  exists res sk' p', bind_loop sys r p sk used = Done (res, sk', p') /\ same_rest sk sk' /\
    match res with
    | inr true => no_port sk' /\ used_ports_map p' = l0
    | _ => exists port, holds_port sk' port /\ took l0 (used_ports_map p') port
    end.
Proof.
  induction r as [|r IH]; intros l0 p sk used Ht; cbn [bind_loop].
  { cbn [_nl_socket_set_local_port_no_release]. cbv zeta. destruct (tried_release _ _ _ Ht) as (p' & -> & Hm).
    exec_simpl. eexists _, _, _. split; [done|]. split; [done|]. split; [|done].
    split; [done|]. by apply has_flag_set. }
  pose proof Ht as (H0 & Hl & Hu & Hk & Hd).
  pose proof (no_release_generated p sk (sys_getpid sys r) (sys_time sys r) Hl) as Hg.
  destruct (_nl_socket_set_local_port_no_release p sk true _ _) as [[port sk1] p1].
  destruct Hg as [Hrest [(-> & Hno & Hm)|(Hne & Hg & Hh)]].
  { rewrite Z.eqb_refl. rewrite <- Hm in Ht. destruct (tried_release _ _ _ Ht) as (p' & -> & Hm').
    exec_simpl. by eexists _, _, _. }
  rewrite (proj2 (Z.eqb_neq port 0)) by done.
  destruct (tried_release_took _ _ _ _ _ Ht Hg) as [(p' & Hrel & Htook) Htried].
  destruct (sys_bind sys r (s_local sk1)) as [errsv|].
  - destruct (errsv =? EADDRINUSE).
    + rewrite used_ports_set_mark. destruct (IH l0 p1 sk1 _ Htried) as (res & sk' & p2 & -> & Hr & Hres).
      exists res, sk', p2. split; [done|]. split; [|done].
      destruct Hrest, Hr. split; congruence.
    + rewrite Hrel. exec_simpl. eexists _, _, _. split; [done|]. split; [done|]. by exists port.
  - rewrite Hrel. exec_simpl. eexists _, _, _. split; [done|]. split; [done|]. by exists port.
Qed.

(** ** All sockets of a process

    The process: the port map and its sockets, by handle. *)
Record process := { pr_ports : port_map; pr_socks : gmap nat nl_sock }.

Inductive sock_op :=
| SockAlloc (cb : nl_cb) (time : Z)
| SockFree
| SockGetPort (getpid time : Z)
| SockSetPort (port : Z)
| SockConnect (protocol : Z) (sys : connect_sys)
| SockClose
| SockSetFd (protocol fd : Z) (gsn : sysval sockaddr_nl) (so_type so_protocol : sysval Z)
| SockAutoAck (enable : bool)
| SockPeek (enable : bool)
| SockPasscred (state : Z) (r : option Z)
| SockUseSeq.

(** One operation on the socket of a handle ([None]: there is none). *)
Definition run_sock_op (p : port_map) (o : option nl_sock) (op : sock_op)
    : exec (option nl_sock * port_map) :=
  match op, o with
  | SockAlloc cb time, _ => mret (__alloc_socket true cb time, p)
  | SockFree, o => '(_, _, p) ← nl_socket_free p o; mret (None, p)
  | SockGetPort getpid time, Some sk =>
      let '(_, sk, p) := nl_socket_get_local_port p sk getpid time in mret (Some sk, p)
  | SockSetPort port, Some sk =>
      '(sk, p) ← nl_socket_set_local_port p sk port; mret (Some sk, p)
  | SockConnect protocol sys, Some sk =>
      '(_, sk, p) ← nl_connect p sk protocol sys; mret (Some sk, p)
  | SockClose, Some sk => mret (Some (nl_close sk).2, p)
  | SockSetFd protocol fd gsn st sp, Some sk =>
      '(_, sk, p) ← nl_socket_set_fd p sk protocol fd gsn st sp; mret (Some sk, p)
  | SockAutoAck b, Some sk =>
      mret (Some (if b : bool then nl_socket_enable_auto_ack sk
                  else nl_socket_disable_auto_ack sk), p)
  | SockPeek b, Some sk =>
      mret (Some (if b : bool then nl_socket_enable_msg_peek sk
                  else nl_socket_disable_msg_peek sk), p)
  | SockPasscred state r, Some sk => mret (Some (nl_socket_set_passcred sk state r).2, p)
  | SockUseSeq, Some sk => mret (Some (nl_socket_use_seq sk).2, p)
  | _, None => Fault
  end.

Definition run_process_op (w : process) (id : nat) (op : sock_op) : exec process :=
  '(o, p) ← run_sock_op (pr_ports w) (pr_socks w !! id) op;
  mret {| pr_ports := p; pr_socks := partial_alter (fun _ => o) id (pr_socks w) |}.

(** Operations need their socket to exist, an allocation a fresh handle. *)
Definition sock_op_ok (o : option nl_sock) (op : sock_op) : Prop :=
  match op with
  | SockAlloc cb _ => o = None /\ 0 <= cb_refcnt cb
  | _ => o <> None
  end.

Definition process_step (w w' : process) : Prop :=
  exists id op, sock_op_ok (pr_socks w !! id) op /\ run_process_op w id op = Done w'.

Definition process_0 : process :=
  {| pr_ports := {| used_ports_map := replicate 32 0; idx_state := 0 |}; pr_socks := ∅ |}.

(** The slot of a generated port that the socket must give back. *)
Definition held (o : option nl_sock) : option Z :=
  match o with
  | Some sk => if has_flag (s_flags sk) NL_OWN_PORT then None
               else Some (slot_of (nl_pid (s_local sk)))
  | None => None
  end.

Definition sock_ok (o : option nl_sock) : Prop :=
  match o with
  | Some sk =>
      1 <= cb_refcnt (s_cb sk) /\
      (has_flag (s_flags sk) NL_OWN_PORT = false ->
       nl_pid (s_local sk) <> 0 /\ 0 <= slot_of (nl_pid (s_local sk)) < 1024)
  | None => True
  end.

(** The slots in use are exactly the held ones, and no two sockets hold one. *)
Definition process_inv (w : process) : Prop :=
  map_ok (used_ports_map (pr_ports w)) /\
  (forall id, sock_ok (pr_socks w !! id)) /\
  (forall k, 0 <= k < 1024 ->
     slot_used (used_ports_map (pr_ports w)) k = true <->
     exists id, held (pr_socks w !! id) = Some k) /\
  (forall id1 id2 k, held (pr_socks w !! id1) = Some k -> held (pr_socks w !! id2) = Some k ->
     id1 = id2).

(** The map goes from [l] to [l'] while a socket goes from holding [h] to [h']. *)
Definition transfer (l : list Z) (h : option Z) (l' : list Z) (h' : option Z) : Prop :=
  map_ok l' /\
  (forall k, 0 <= k < 1024 ->
     slot_used l' k = bool_decide (h' = Some k) || slot_used l k && negb (bool_decide (h = Some k))) /\
  (forall k, h' = Some k -> 0 <= k < 1024 /\ (slot_used l k = false \/ h = Some k)).

Lemma transfer_same l h : map_ok l -> (forall k, h = Some k -> 0 <= k < 1024 /\ slot_used l k = true) ->
  transfer l h l h.
Proof.
  intros Hl Hh. split_and!; [done| |].
  - intros k Hk. case_bool_decide as E; simpl; [by apply Hh|by rewrite andb_true_r].
  - intros k E. split; [by apply Hh|by right].
Qed.

Lemma transfer_drop l k : map_ok l -> 0 <= k < 1024 -> transfer l (Some k) (unmark l k) None.
Proof.
  intros Hl Hk. split_and!; [by apply unmark_ok| |done]. intros k' Hk'.
  rewrite slot_used_unmark by done. simpl. rewrite andb_comm. do 2 f_equal.
  destruct (Z.eqb_spec k k'); case_bool_decide; simplify_eq; done.
Qed.

Lemma transfer_take l k : map_ok l -> 0 <= k < 1024 -> slot_used l k = false ->
  transfer l None (mark l k) (Some k).
Proof.
  intros Hl Hk Hf. split_and!; [by apply mark_ok| |].
  - intros k' Hk'. rewrite slot_used_mark by done. simpl. rewrite andb_true_r. f_equal.
    destruct (Z.eqb_spec k k'); case_bool_decide; simplify_eq; done.
  - intros k' [= <-]. split; [done|by left].
Qed.

Lemma transfer_trans l h l1 h1 l2 h2 :
  transfer l h l1 h1 -> transfer l1 h1 l2 h2 -> transfer l h l2 h2.
Proof.
  intros (Hl1 & Hk1 & Hr1) (Hl2 & Hk2 & Hr2). split_and!; [done| |].
  - intros k Hk. rewrite Hk2, Hk1 by done.
    case_bool_decide as E2; [done|]. simpl.
    case_bool_decide as E1; simpl; [|by rewrite andb_true_r].
    specialize (Hr1 k E1). destruct Hr1 as (_ & [->| ->]); [done|].
    by rewrite bool_decide_true, andb_false_r.
  - intros k E2. destruct (Hr2 k E2) as (? & [Hf|E1]); [|by apply Hr1].
    split; [done|]. rewrite Hk1 in Hf by done. apply orb_false_iff in Hf as [_ Hf].
    apply andb_false_iff in Hf as [|Hf]; [by left|]. right.
    apply negb_false_iff in Hf. by apply bool_decide_eq_true_1 in Hf.
Qed.

Lemma process_inv_alter w id p o :
  process_inv w -> sock_ok o ->
  transfer (used_ports_map (pr_ports w)) (held (pr_socks w !! id)) (used_ports_map p) (held o) ->
  process_inv {| pr_ports := p; pr_socks := partial_alter (fun _ => o) id (pr_socks w) |}.
Proof.
  intros (Hl & Hs & Hk & Hinj) Ho (Hl' & Ht & Hr).
  assert (forall id', partial_alter (fun _ => o) id (pr_socks w) !! id' =
    if decide (id = id') then o else pr_socks w !! id') as Hlk.
  { intros id'. case_decide; [by subst; rewrite lookup_partial_alter_eq|].
    by rewrite lookup_partial_alter_ne. }
  unfold process_inv. cbn [pr_ports pr_socks]. split_and!; [done| | |].
  - intros id'. rewrite Hlk. by case_decide.
  - intros k Hk0. rewrite Ht by done. setoid_rewrite Hlk.
    rewrite orb_true_iff, andb_true_iff, negb_true_iff, bool_decide_eq_true, bool_decide_eq_false, Hk by done.
    split.
    + intros [E|[(id' & E) Hne]]; [exists id; by rewrite decide_True|].
      exists id'. rewrite decide_False; [done|]. by intros ->.
    + intros (id' & E). case_decide as Hd; [by left|]. right. split; [by exists id'|].
      intros E'. by apply Hd, (Hinj id id' k).
  - intros id1 id2 k. rewrite !Hlk.
    assert (forall id', id <> id' -> held o = Some k -> held (pr_socks w !! id') = Some k -> False) as Hx.
    { intros id' Hne E E'. destruct (Hr k E) as (Hk0 & [Hf|E2]).
      - assert (slot_used (used_ports_map (pr_ports w)) k = true) by (apply Hk; [done|by exists id']).
        congruence.
      - by apply Hne, (Hinj id id' k). }
    repeat case_decide; subst; intros; try done; [by edestruct Hx|by edestruct Hx|by eapply Hinj].
Qed.

(** ** Each operation on one socket *)

(** The socket and the map before an operation. *)
Definition sock_in (l : list Z) (o : option nl_sock) : Prop :=
  map_ok l /\ sock_ok o /\ forall k, held o = Some k -> slot_used l k = true.

Definition op_result (l : list Z) (o o' : option nl_sock) (p' : port_map) : Prop :=
  sock_ok o' /\ transfer l (held o) (used_ports_map p') (held o').

Lemma held_own sk : has_flag (s_flags sk) NL_OWN_PORT = true -> held (Some sk) = None.
Proof. intros H. simpl. by rewrite H. Qed.

Lemma held_not_own sk : has_flag (s_flags sk) NL_OWN_PORT = false ->
  held (Some sk) = Some (slot_of (nl_pid (s_local sk))).
Proof. intros H. simpl. by rewrite H. Qed.

(** Operations that keep port, ownership and callbacks. *)
Lemma op_keep p sk sk' :
  sock_in (used_ports_map p) (Some sk) -> s_local sk' = s_local sk -> s_cb sk' = s_cb sk ->
  has_flag (s_flags sk') NL_OWN_PORT = has_flag (s_flags sk) NL_OWN_PORT ->
  op_result (used_ports_map p) (Some sk) (Some sk') p.
Proof.
  intros (Hl & Hs & Hh) Hloc Hcb Hf.
  assert (held (Some sk') = held (Some sk)) as He by (simpl; by rewrite Hf, Hloc).
  split; [simpl in *; by rewrite Hf, Hloc, Hcb|]. rewrite He. apply transfer_same; [done|].
  intros k Hk. split; [|by apply Hh]. destruct Hs as [_ Hs]. simpl in Hk.
  destruct (has_flag (s_flags sk) NL_OWN_PORT); simplify_eq. by apply Hs.
Qed.

(** Giving a generated port back, as free and set_local_port do. *)
Lemma release_held p sk :
  sock_in (used_ports_map p) (Some sk) ->
  exists p', (if negb (has_flag (s_flags sk) NL_OWN_PORT)
              then release_local_port p (nl_pid (s_local sk)) else mret p) = Done p' /\
    transfer (used_ports_map p) (held (Some sk)) (used_ports_map p') None.
Proof.
  intros (Hl & (_ & Hs) & Hh). destruct (has_flag (s_flags sk) NL_OWN_PORT) eqn:E; cbn [negb].
  - exists p. split; [done|]. rewrite held_own by done. by apply transfer_same.
  - rewrite held_not_own in * by done. destruct (Hs eq_refl) as [Hp Hslot].
    rewrite release_done by done. rewrite Hh by done. eexists. split; [done|].
    by apply transfer_drop.
Qed.

Lemma set_local_port_result p sk port :
  sock_in (used_ports_map p) (Some sk) ->
  exists sk' p', nl_socket_set_local_port p sk port = Done (sk', p') /\ same_rest sk sk' /\
    has_flag (s_flags sk') NL_OWN_PORT = true /\ s_proto sk' = s_proto sk /\
    op_result (used_ports_map p) (Some sk) (Some sk') p'.
Proof.
  intros Hin. destruct (release_held p sk Hin) as (p' & Hr & Ht).
  unfold nl_socket_set_local_port. rewrite Hr. exec_simpl. eexists _, p'. split; [done|].
  assert (has_flag (set_flag (s_flags sk) NL_OWN_PORT) NL_OWN_PORT = true) as Hf
    by by apply has_flag_set.
  do 3 (split; [done|]). split; [|by rewrite (held_own (with_local _ _))].
  destruct Hin as (_ & [Hc _] & _). simpl. rewrite Hf. split; [done|done].
Qed.

(** Replacing the descriptor, the protocol or the address (with the same port). *)
Lemma op_result_ext l o sk sk' p :
  op_result l o (Some sk) p -> s_cb sk' = s_cb sk -> s_flags sk' = s_flags sk ->
  (nl_pid (s_local sk') = nl_pid (s_local sk) \/ has_flag (s_flags sk) NL_OWN_PORT = true) ->
  op_result l o (Some sk') p.
Proof.
  intros [[Hc Ho] Ht] Hcb Hf Hp. unfold op_result. simpl in *. rewrite Hcb, Hf.
  destruct (has_flag (s_flags sk) NL_OWN_PORT) eqn:E; [done|].
  destruct Hp as [->|]; done.
Qed.

(** A socket that just generated a port while holding none. *)
Lemma op_take p sk sk' l' port :
  sock_in (used_ports_map p) (Some sk) -> held (Some sk) = None -> s_cb sk' = s_cb sk ->
  holds_port sk' port -> took (used_ports_map p) (used_ports_map l') port ->
  op_result (used_ports_map p) (Some sk) (Some sk') l'.
Proof.
  intros (Hl & [Hc _] & _) Hn Hcb (Hp & Hf) (Hr & Hs & Hu & Hm). split.
  - simpl. rewrite Hcb, Hf, Hp. split; [done|]. intros _. split; [lia|done].
  - rewrite Hn, (held_not_own sk'), Hp, Hm by done. by apply transfer_take.
Qed.

Lemma op_none p sk sk' :
  sock_in (used_ports_map p) (Some sk) -> held (Some sk) = None -> s_cb sk' = s_cb sk ->
  has_flag (s_flags sk') NL_OWN_PORT = true ->
  op_result (used_ports_map p) (Some sk) (Some sk') p.
Proof.
  intros (Hl & [Hc _] & _) Hn Hcb Hf. split.
  - simpl. rewrite Hcb, Hf. done.
  - rewrite Hn, held_own by done. by apply transfer_same.
Qed.

Lemma get_local_port_result p sk getpid time :
  sock_in (used_ports_map p) (Some sk) ->
  let '(_, sk', p') := nl_socket_get_local_port p sk getpid time in
  op_result (used_ports_map p) (Some sk) (Some sk') p'.
Proof.
  intros Hin. unfold nl_socket_get_local_port.
  destruct (nl_pid (s_local sk) =? 0) eqn:E; bool_hyps; [|by apply op_keep].
  pose proof Hin as (Hl & (Hc & Hs) & Hh).
  assert (has_flag (s_flags sk) NL_OWN_PORT = true) as Hown.
  { destruct (has_flag (s_flags sk) NL_OWN_PORT); [done|]. destruct Hs; done. }
  pose proof (generate_cases p getpid time Hl) as Hg.
  destruct (generate_local_port p getpid time) as [port p'].
  destruct Hg as [(-> & _ & Hm)|Hg].
  - rewrite Z.eqb_refl. unfold op_result. rewrite Hm. apply op_none; [done|by apply held_own|done|].
    by apply has_flag_set.
  - pose proof Hg as (Hp & Hr). rewrite (proj2 (Z.eqb_neq port 0)) by lia.
    eapply op_take; [done|by apply held_own|done| |done]. split; [done|]. apply has_flag_clear.
Qed.

Lemma op_result_in p sk sk' p' :
  sock_in (used_ports_map p) (Some sk) -> op_result (used_ports_map p) (Some sk) (Some sk') p' ->
  sock_in (used_ports_map p') (Some sk').
Proof.
  intros (Hl & Hs & Hh) (Hs' & (Hl' & Ht & Hr)). split_and!; [done|done|].
  intros k Hk. destruct (Hr k Hk) as [Hk0 _]. rewrite Ht by done. by rewrite bool_decide_true.
Qed.

Lemma op_result_trans p sk sk1 p1 o p2 :
  op_result (used_ports_map p) (Some sk) (Some sk1) p1 ->
  op_result (used_ports_map p1) (Some sk1) o p2 ->
  op_result (used_ports_map p) (Some sk) o p2.
Proof. intros [_ H1] [H2 H3]. split; [done|]. by eapply transfer_trans. Qed.

Lemma fd_result p sk fd proto :
  sock_in (used_ports_map p) (Some sk) ->
  op_result (used_ports_map p) (Some sk) (Some (with_fd sk fd proto)) p.
Proof. intros. by apply op_keep. Qed.

(** The end of [nl_connect] and of [nl_socket_set_fd]: the kernel's address. *)
Lemma adopt_address p sk local fd proto :
  sock_in (used_ports_map p) (Some sk) ->
  exists sk' p', (if negb (nl_pid (s_local sk) =? nl_pid local)
      then nl_socket_set_local_port p sk (nl_pid local) else mret (sk, p)) = Done (sk', p') /\
    s_fd sk' = s_fd sk /\
    op_result (used_ports_map p) (Some sk) (Some (with_fd (with_local sk' local) fd proto)) p'.
Proof.
  intros Hin. destruct (nl_pid (s_local sk) =? nl_pid local) eqn:E; cbn [negb]; bool_hyps.
  - exists sk, p. do 2 (split; [done|]).
    apply (op_result_ext _ _ sk); [by apply op_keep|done|done|by left].
  - destruct (set_local_port_result p sk (nl_pid local) Hin) as (sk' & p' & -> & [_ Hfd] & Hown & _ & Hr).
    exists sk', p'. do 2 (split; [done|]).
    apply (op_result_ext _ _ sk'); [done|done|done|by right].
Qed.

Lemma connect_finish_result p sk protocol sys :
  sock_in (used_ports_map p) (Some sk) ->
  exists err sk' p', connect_finish p sk protocol sys = Done (err, sk', p') /\
    op_result (used_ports_map p) (Some sk) (Some sk') p' /\ (err < 0 <-> s_fd sk' = -1 /\ err <> 0).
Proof.
  intros Hin. unfold connect_finish, connect_errout.
  pose proof (fd_result p sk (-1) (s_proto sk) Hin) as Hfd.
  destruct (sys_getsockname sys) as [errno|[addrlen local]].
  { eexists _, _, _. split_and!; [done| |]; [apply Hfd|]. pose proof (nl_syserr2nlerr_neg errno).
    simpl. lia. }
  destruct (negb (addrlen =? sizeof_sockaddr_nl)); [by eexists _, _, _|].
  destruct (negb (nl_family local =? AF_NETLINK)); [by eexists _, _, _|].
  destruct (adopt_address p sk local (s_fd sk) protocol Hin) as (sk' & p' & -> & Hf & Hr).
  exec_simpl. rewrite Hf. eexists _, _, _. split; [done|]. split; [done|]. simpl. lia.
Qed.

Lemma unspecified_none sk : sock_ok (Some sk) -> nl_pid (s_local sk) = 0 -> held (Some sk) = None.
Proof.
  intros [_ Hs] Hp. simpl. destruct (has_flag (s_flags sk) NL_OWN_PORT); [done|].
  by destruct Hs.
Qed.

Lemma zero_used l : map_ok l -> tried l l (replicate 32 0).
Proof.
  intros Hl. assert (forall k, slot_used (replicate 32 0) k = false) as Hz.
  { intros k. unfold slot_used, word_of. rewrite nth_lookup.
    destruct (replicate 32 0 !! Z.to_nat (k / 32)) eqn:E; simpl; [|apply Z.bits_0].
    apply lookup_replicate in E as [-> _]. apply Z.bits_0. }
  split_and!; [done|done| | |].
  - split; [done|]. by apply Forall_replicate.
  - intros k _. by rewrite Hz, orb_false_r.
  - intros k _. by rewrite Hz.
Qed.

(** The choice of a port in [nl_connect], in both cases. *)
Lemma connect_port p sk sys :
  sock_in (used_ports_map p) (Some sk) ->
  exists res sk' p', (if _nl_socket_is_local_port_unspecified sk
      then bind_loop sys 6 p sk (replicate 32 0) else mret (inr true, sk, p)) = Done (res, sk', p') /\
    op_result (used_ports_map p) (Some sk) (Some sk') p'.
Proof.
  intros Hin. pose proof Hin as (Hl & Hs & _).
  unfold _nl_socket_is_local_port_unspecified.
  destruct (nl_pid (s_local sk) =? 0) eqn:E; bool_hyps.
  2: { eexists _, _, _. split; [done|]. by apply op_keep. }
  destruct (bind_loop_spec sys 6 (used_ports_map p) p sk (replicate 32 0))
    as (res & sk' & p' & -> & [Hcb _] & Hres); [by apply zero_used|].
  eexists _, _, _. split; [done|].
  assert ((exists port, holds_port sk' port /\ took (used_ports_map p) (used_ports_map p') port) ->
    op_result (used_ports_map p) (Some sk) (Some sk') p') as Htake.
  { intros (port & Hh & Ht). by eapply op_take; [|apply unspecified_none| | |]. }
  destruct res as [err|[]]; [by apply Htake| |by apply Htake].
  destruct Hres as [[_ Hf] Hm]. unfold op_result. rewrite Hm.
  apply op_none; [done|by apply unspecified_none|done|done].
Qed.

Lemma nl_connect_result p sk protocol sys :
  sock_in (used_ports_map p) (Some sk) ->
  exists err sk' p', nl_connect p sk protocol sys = Done (err, sk', p') /\
    op_result (used_ports_map p) (Some sk) (Some sk') p'.
Proof.
  intros Hin. unfold nl_connect, connect_errout.
  destruct (negb (s_fd sk =? -1)).
  { eexists _, _, _. split; [done|]. by apply op_keep. }
  destruct (sys_socket sys) as [errsv|fd].
  { eexists _, _, _. split; [done|]. by apply fd_result. }
  cbv zeta. pose proof (fd_result p sk fd (s_proto sk) Hin) as H1.
  pose proof (op_result_in _ _ _ _ Hin H1) as Hin1. set (sk1 := with_fd sk fd (s_proto sk)) in *.
  destruct (nl_socket_set_buffer_size _ _ _ _ _) as [err0 asked].
  destruct (err0 <? 0).
  { eexists _, _, _. split; [done|]. eapply op_result_trans; [done|]. by apply fd_result. }
  destruct (connect_port p sk1 sys Hin1) as (res & sk2 & p2 & -> & H2). exec_simpl.
  pose proof (op_result_trans _ _ _ _ _ _ H1 H2) as H12.
  pose proof (op_result_in _ _ _ _ Hin1 H2) as Hin2.
  assert (forall err : Z, exists (err' : Z) sk' p',
      @Done (Z * nl_sock * port_map) (err, with_fd sk2 (-1) (s_proto sk2), p2) =
      Done (err', sk', p') /\ op_result (used_ports_map p) (Some sk) (Some sk') p') as Hout.
  { intros err. eexists _, _, _. split; [done|]. eapply op_result_trans; [exact H12|].
    by apply fd_result. }
  destruct res as [err|b]; [apply Hout|].
  destruct (if b : bool then sys_bind sys 6 (s_local sk2) else None) as [errsv|]; [apply Hout|].
  destruct (connect_finish_result p2 sk2 protocol sys Hin2) as (err & sk3 & p3 & -> & H3 & _).
  eexists _, _, _. split; [done|]. by eapply op_result_trans.
Qed.

Lemma nl_socket_set_fd_result p sk protocol fd gsn st sp :
  sock_in (used_ports_map p) (Some sk) ->
  exists err sk' p', nl_socket_set_fd p sk protocol fd gsn st sp = Done (err, sk', p') /\
    op_result (used_ports_map p) (Some sk) (Some sk') p'.
Proof.
  intros Hin. unfold nl_socket_set_fd. cbv zeta. pose proof (op_keep p sk sk Hin) as Hsame.
  assert (forall local pr, exists err sk' p',
    ('(sk, p) ← nl_socket_set_local_port p sk (nl_pid local);
     mret (0, with_fd (with_local sk local) fd pr, p)) = Done (err, sk', p') /\
    op_result (used_ports_map p) (Some sk) (Some sk') p') as Hset.
  { intros local pr.
    destruct (set_local_port_result p sk (nl_pid local) Hin) as (sk' & p' & -> & _ & Hown & _ & Hr).
    exec_simpl. eexists _, _, _. split; [done|].
    by apply (op_result_ext _ _ sk'); [|done|done|right]. }
  repeat match goal with
  | |- exists _ _ _, mret _ = _ /\ _ => eexists _, _, _; split; [done|by apply Hsame]
  | |- context [if ?b then _ else _] => destruct b
  | |- context [match ?x with inl _ => _ | inr _ => _ end] => is_var x; destruct x as [?|[? ?]]
  end; apply Hset.
Qed.

Lemma nl_socket_free_result p sk :
  sock_in (used_ports_map p) (Some sk) ->
  exists closed cb p', nl_socket_free p (Some sk) = Done (closed, cb, p') /\
    op_result (used_ports_map p) (Some sk) None p'.
Proof.
  intros Hin. destruct (release_held p sk Hin) as (p' & Hr & Ht). unfold nl_socket_free.
  rewrite Hr. exec_simpl. destruct Hin as (_ & [Hc _] & _). unfold nl_cb_put. simpl.
  rewrite (proj2 (Z.ltb_ge _ 0)) by lia.
  case_test; eexists _, _, p'; (split; [done|]); split; done.
Qed.

Lemma run_sock_op_result p o op :
  sock_in (used_ports_map p) o -> sock_op_ok o op ->
  exists o' p', run_sock_op p o op = Done (o', p') /\ op_result (used_ports_map p) o o' p'.
Proof.
  intros Hin Hok. destruct op as [cb time| |getpid time|port|protocol sys| |protocol fd gsn st sp|b|b|state r|].
  1: { destruct Hok as [-> Hcb]. eexists _, p. split; [done|]. destruct Hin as (Hl & _ & _).
       split; [by split; [simpl; lia|]|]. by apply transfer_same. }
  all: destruct o as [sk|]; [|by destruct Hok]; clear Hok; cbn [run_sock_op].
  - destruct (nl_socket_free_result p sk Hin) as (? & ? & p' & -> & ?). by eexists _, p'.
  - pose proof (get_local_port_result p sk getpid time Hin) as H.
    destruct (nl_socket_get_local_port p sk getpid time) as [[? sk'] p']. by eexists _, p'.
  - destruct (set_local_port_result p sk port Hin) as (sk' & p' & -> & _ & _ & _ & ?).
    by eexists _, p'.
  - destruct (nl_connect_result p sk protocol sys Hin) as (? & sk' & p' & -> & ?). by eexists _, p'.
  - eexists _, p. split; [done|]. by apply op_keep.
  - destruct (nl_socket_set_fd_result p sk protocol fd gsn st sp Hin) as (? & sk' & p' & -> & ?).
    by eexists _, p'.
  - eexists _, p. split; [done|]. apply op_keep; [done| | |]; destruct b; try done;
      [by apply has_flag_clear_other|by apply has_flag_set_other].
  - eexists _, p. split; [done|]. apply op_keep; [done| | |]; destruct b; try done;
      [by apply has_flag_set_other|].
    simpl. rewrite has_flag_clear_other by done. by apply has_flag_set_other.
  - eexists _, p. split; [done|]. unfold nl_socket_set_passcred.
    destruct (s_fd sk =? -1); [by apply op_keep|]. destruct r; [by apply op_keep|].
    apply op_keep; [done|done|done|]. simpl.
    case_test; [by apply has_flag_set_other|by apply has_flag_clear_other].
  - eexists _, p. split; [done|]. by apply op_keep.
Qed.

Lemma process_step_inv w w' : process_inv w -> process_step w w' -> process_inv w'.
Proof.
  intros Hinv (id & op & Hok & Hrun). pose proof Hinv as (Hl & Hs & Hk & _).
  destruct (run_sock_op_result (pr_ports w) (pr_socks w !! id) op) as (o' & p' & Hr & [Ho Ht]).
  { split_and!; [done|done|]. intros k Hh. apply Hk; [|by exists id].
    specialize (Hs id). unfold held in Hh. destruct (pr_socks w !! id) as [sk|]; [|done].
    destruct (has_flag (s_flags sk) NL_OWN_PORT) eqn:E; [done|]. simplify_eq.
    destruct Hs as [_ Hs]. by apply Hs. }
  { done. }
  unfold run_process_op in Hrun. rewrite Hr in Hrun.
  injection Hrun as <-.
  by apply process_inv_alter.
Qed.

Lemma process_0_inv : process_inv process_0.
Proof.
  unfold process_0, process_inv. cbn [pr_ports pr_socks used_ports_map].
  assert (forall k, slot_used (replicate 32 0) k = false) as Hz.
  { intros k. unfold slot_used, word_of. rewrite nth_lookup.
    destruct (replicate 32 0 !! Z.to_nat (k / 32)) eqn:E; simpl; [|apply Z.bits_0].
    apply lookup_replicate in E as [-> _]. apply Z.bits_0. }
  split_and!; [split; [done|by apply Forall_replicate]| | |].
  - intros id. by rewrite lookup_empty.
  - intros k _. rewrite Hz. split; [done|]. intros (id & H). by rewrite lookup_empty in H.
  - intros id1 id2 k H. by rewrite lookup_empty in H.
Qed.

Lemma process_reach_inv w : rtc process_step process_0 w -> process_inv w.
Proof.
  intros H. remember process_0 as w0 eqn:E. assert (process_inv w0) as Hi by (subst; apply process_0_inv).
  clear E. induction H; [done|]. eauto using process_step_inv.
Qed.

(** ** Properties *)

(** Port allocation is fresh and complete: with any free slot in the map, a
    port is generated whose slot was free, only that slot is taken, and the
    port is a non-zero 32-bit number; 0 is returned only when all 1024 slots are
    taken; and releasing the port restores the map exactly. *)
Theorem local_port_spec p getpid time :
  map_ok (used_ports_map p) ->
  let '(port, p') := generate_local_port p getpid time in
  map_ok (used_ports_map p') /\
  if port =? 0 then full_map (used_ports_map p) /\ used_ports_map p' = used_ports_map p
  else
    0 < port < 4294967296 /\ 0 <= slot_of port < 1024 /\
    slot_used (used_ports_map p) (slot_of port) = false /\
    (forall k, 0 <= k < 1024 ->
       slot_used (used_ports_map p') k = (slot_of port =? k) || slot_used (used_ports_map p) k) /\
    exists p'', release_local_port p' port = Done p'' /\ used_ports_map p'' = used_ports_map p.
Proof.
  intros Hok. pose proof (generate_cases p getpid time Hok) as Hc.
  destruct (generate_local_port p getpid time) as [port p'].
  destruct Hc as [(-> & Hfull & Hm)|(Hp & Hs & Hf & Hm)]; [by rewrite Hm|].
  rewrite (proj2 (Z.eqb_neq port 0)) by lia. rewrite Hm.
  split; [by apply mark_ok|]. split_and!; [lia..|done| |].
  - intros. by apply slot_used_mark.
  - rewrite release_done, Hm by (rewrite ?Hm; (by apply mark_ok) || lia).
    rewrite slot_used_mark, Z.eqb_refl by done. eexists. split; [done|]. simpl.
    by apply mark_unmark.
Qed.

(** C7. Local ports are owned linearly: whatever sequence of allocations,
    connections (with all their bind retries and failures), port changes,
    adoptions of descriptors, configuration changes, closes and frees a process
    makes, the slots taken in the port map are exactly the ones its sockets
    hold, no two sockets hold the same one, and every next operation runs to its
    end, without reaching a BUG() of the release functions. *)
Theorem ports_owned w :
  rtc process_step process_0 w ->
  process_inv w /\
  forall id op, sock_op_ok (pr_socks w !! id) op -> exists w', run_process_op w id op = Done w'.
Proof.
  intros H. pose proof (process_reach_inv w H) as Hinv. split; [done|]. intros id op Hok.
  destruct Hinv as (Hl & Hs & Hk & _).
  destruct (run_sock_op_result (pr_ports w) (pr_socks w !! id) op) as (o' & p' & Hr & _); [|done|].
  - split_and!; [done|done|]. intros k Hh. apply Hk; [|by exists id].
    specialize (Hs id). unfold held in Hh. destruct (pr_socks w !! id) as [sk|]; [|done].
    destruct (has_flag (s_flags sk) NL_OWN_PORT) eqn:E; [done|]. simplify_eq.
    destruct Hs as [_ Hs]. by apply Hs.
  - unfold run_process_op. rewrite Hr. eexists. reflexivity.
Qed.

(** ** The properties at concrete inputs *)

Lemma local_port_spec_witness :
  let p := {| used_ports_map := replicate 32 0; idx_state := 0 |} in
  let '(port, p') := generate_local_port p 4242 1500000000 in
  port <> 0 /\ exists p'', release_local_port p' port = Done p'' /\
                           used_ports_map p'' = replicate 32 0.
Proof.
  pose proof (local_port_spec {| used_ports_map := replicate 32 0; idx_state := 0 |} 4242 1500000000)
    as H.
  cbv zeta. destruct (generate_local_port _ _ _) as [port p'] eqn:E.
  assert (port = 1459622034) as -> by (vm_compute in E; congruence).
  destruct H as (_ & _ & _ & _ & _ & H); [split; [done|by apply Forall_replicate]|].
  split; [done|exact H].
Defined.

Definition ex_cb : nl_cb := default cb_0 (nl_cb_alloc true NL_CB_DEFAULT).
Definition ex_sys : connect_sys :=
  {| sys_socket := inr 3; sys_snd := None; sys_rcv := None;
     sys_bind := fun i _ => if (3 <? i)%nat then Some EADDRINUSE else None;
     sys_getsockname := inr (12, {| nl_family := 16; nl_pid := 77; nl_groups := 0 |});
     sys_getpid := fun _ => 4242; sys_time := fun _ => 1500000000 |}.

Definition ex_process : process :=
  match run_process_op process_0 0%nat (SockAlloc ex_cb 5) with
  | Done w => match run_process_op w 0%nat (SockConnect 0 ex_sys) with Done w => w | _ => w end
  | _ => process_0
  end.

Lemma ports_owned_witness : rtc process_step process_0 ex_process /\ process_inv ex_process.
Proof.
  assert (rtc process_step process_0 ex_process) as H.
  { eapply rtc_l; [exists 0%nat, (SockAlloc ex_cb 5); split; [by vm_compute|reflexivity]|].
    eapply rtc_l; [exists 0%nat, (SockConnect 0 ex_sys); split; [by vm_compute|vm_compute; reflexivity]|].
    apply rtc_refl. }
  split; [exact H|]. apply (ports_owned ex_process H).
Defined.
