(* ===== verification/Nl.v ===== *)
(** Sending and receiving (lib/nl.c): completing and sending messages, reading
    a datagram with peeking and truncation handling, and the receive state
    machine that walks over the messages of the datagrams and dispatches to the
    callbacks.

    [W] is the state of everything outside the library: the application behind
    the callbacks and the kernel behind the system calls. *)
From S2P Require Import Prelude Errors Msg Attr Handlers Socket.

Definition MSG_PEEK := 2.
Definition MSG_CTRUNC := 8.
Definition MSG_TRUNC := 32.
Definition sizeof_nlmsgerr := 20.
Definition CMSG_SPACE_ucred := 32.

(** ** What recvmsg(2) gives *)

Record rcv := {
  rv_n : Z;                      (* the return value, positive or 0 *)
  rv_data : list Z;              (* what it put into the buffer *)
  rv_name : sockaddr_nl;
  rv_namelen : Z;
  rv_flags : Z;
  rv_controllen : Z;
  rv_creds : option ucred        (* an SCM_CREDENTIALS control message *)
}.

(** Which of the allocations of [nl_recv] succeed: the buffer, the control
    buffer, their reallocations, the credentials. *)
Record recv_mem := {
  mem_buf : bool; mem_ctl : bool; mem_ctl_re : bool; mem_buf_re : bool; mem_creds : bool
}.

(** What [nl_recv] gives its caller: result, buffer, sender, credentials. *)
Record recv_out := {
  ro_n : Z; ro_buf : list Z; ro_src : sockaddr_nl; ro_creds : option ucred
}.

Definition recv_fail (err : Z) (src : sockaddr_nl) : recv_out :=
  {| ro_n := err; ro_buf := []; ro_src := src; ro_creds := None |}.

(** Where the processing of one message goes next. *)
Inductive flow := Skip | Stop | Out (err : Z).

Section Nl.
Context {W : Type}.
Variable user : Z -> Z -> Z -> nl_msg -> W -> Z * W.
Variable user_err : Z -> Z -> sockaddr_nl -> list Z -> W -> Z * W.

(** ** Sending *)

Definition nl_sendto (sk : nl_sock) (buf : option (list Z)) (sendto : Z + Z) : Z :=
  match buf with
  | None => - NLE_INVAL
  | Some _ =>
      if s_fd sk <? 0 then - NLE_BAD_SOCK
      else match sendto with
      | inl errno => - nl_syserr2nlerr errno
      | inr ret => ret
      end
  end.

(** sendmsg(2): destination, credentials, bytes. *)
Variable sendmsg : sockaddr_nl -> option ucred -> list Z -> W -> (Z + Z) * W.

(** The argument [hdr] of type struct msghdr: destination, credentials, bytes. *)
Definition msghdr : Type := sockaddr_nl * option ucred * list Z.

Definition nl_sendmsg (sk : nl_sock) (msg : nl_msg) (hdr : msghdr) (w : W)
    : exec (Z * nl_sock * nl_msg * W) :=
  if s_fd sk <? 0 then mret (- NLE_BAD_SOCK, sk, msg, w)
  else
    let msg := nlmsg_set_src msg (s_local sk) in
    let cb := s_cb sk in
    '(ret, cb, w) ← (if cb_is_set cb NL_CB_MSG_OUT then nl_cb_call user cb NL_CB_MSG_OUT msg w
                     else mret (NL_OK, cb, w));
    let sk := with_cb sk cb in
    if negb (ret =? NL_OK) then mret (ret, sk, msg, w)
    else
      let '(dst, creds, bytes) := hdr in
      let '(r, w) := sendmsg dst creds bytes w in
      match r with
      | inl errno => mret (- nl_syserr2nlerr errno, sk, msg, w)
      | inr ret => mret (ret, sk, msg, w)
      end.

Definition nl_send_iovec (sk : nl_sock) (msg : nl_msg) (iov : list Z) (w : W)
    : exec (Z * nl_sock * nl_msg * W) :=
  let dst := nlmsg_get_dst msg in
  let name := if nl_family dst =? AF_NETLINK then dst else s_peer sk in
  let creds := nlmsg_get_creds msg in
  nl_sendmsg sk msg (name, creds, iov) w.

(** The overwritten send function of a callback set. *)
Variable send_ow : Z -> nl_sock -> nl_msg -> W -> exec (Z * nl_sock * nl_msg * W).

Definition nl_send (sk : nl_sock) (msg : nl_msg) (w : W) : exec (Z * nl_sock * nl_msg * W) :=
  match cb_send_ow (s_cb sk) with
  | Some f => send_ow f sk msg w
  | None =>
      len ← nlmsg_len (nm_nlh msg) 0;
      iov ← load (nm_nlh msg) 0 len;
      nl_send_iovec sk msg iov w
  end.

Definition nl_complete_msg (p : port_map) (sk : nl_sock) (msg : nl_msg) (getpid time : Z)
    : exec (nl_sock * nl_msg * port_map) :=
  let b := nm_nlh msg in
  pid ← nlmsg_pid b 0;
  '(b, sk, p) ← (if pid =? NL_AUTO_PORT then
                   let '(port, sk, p) := nl_socket_get_local_port p sk getpid time in
                   b ← set_nlmsg_pid b 0 port; mret (b, sk, p)
                 else mret (b, sk, p));
  seq ← nlmsg_seq b 0;
  '(b, sk) ← (if seq =? NL_AUTO_SEQ then
                b ← set_nlmsg_seq b 0 (s_seq_next sk);
                mret (b, with_seq sk (u32 (s_seq_next sk + 1)) (s_seq_expect sk))
              else mret (b, sk));
  let msg := if nm_protocol msg =? -1 then nlmsg_set_proto msg (s_proto sk) else msg in
  flags ← nlmsg_flags b 0;
  b ← set_nlmsg_flags b 0 (set_flag flags NLM_F_REQUEST);
  b ← (if negb (has_flag (s_flags sk) NL_NO_AUTO_ACK) then
         flags ← nlmsg_flags b 0;
         set_nlmsg_flags b 0 (set_flag flags NLM_F_ACK)
       else mret b);
  mret (sk, set_buf msg b, p).

Definition nl_send_auto (p : port_map) (sk : nl_sock) (msg : nl_msg) (getpid time : Z) (w : W)
    : exec (Z * nl_sock * nl_msg * port_map * W) :=
  '(sk, msg, p) ← nl_complete_msg p sk msg getpid time;
  '(ret, sk, msg, w) ← nl_send sk msg w;
  mret (ret, sk, msg, p, w).

(** [buf]: the memory of the payload, [None] for NULL. *)
Definition nl_send_simple (c1 c2 : bool) (default_msg_size : Z) (p : port_map) (sk : nl_sock)
    (type flags : Z) (buf : option (list Z)) (size getpid time : Z) (w : W)
    : exec (Z * nl_sock * port_map * W) :=
  m ← nlmsg_alloc_simple c1 c2 default_msg_size type flags;
  match m with
  | None => mret (- NLE_NOMEM, sk, p, w)
  | Some msg =>
      '(err, msg) ← (match buf with
                     | Some d => if negb (size =? 0) then nlmsg_append msg d size NLMSG_ALIGNTO
                                 else mret (0, msg)
                     | None => mret (0, msg)
                     end);
      if err <? 0 then
        _ ← nlmsg_free (Some msg); mret (err, sk, p, w)
      else
        '(err, sk, msg, p, w) ← nl_send_auto p sk msg getpid time w;
        _ ← nlmsg_free (Some msg);
        mret (err, sk, p, w)
  end.

Definition nl_auto_complete := nl_complete_msg.
Definition nl_send_auto_complete := nl_send_auto.

(** ** Receiving a datagram *)

(** recvmsg(2): flags, size of the buffer, size of the control buffer; an errno
    or a datagram. *)
Variable recvmsg : Z -> Z -> Z -> W -> (Z + rcv) * W.

(** The part of [nl_recv] from the label retry on. *)
Fixpoint recv_loop (fuel : nat) (mem : recv_mem) (want_creds : bool)
    (flags iov_len controllen : Z) (nla : sockaddr_nl) (w : W) : exec (recv_out * W) :=
  match fuel with
  | O => NoFuel
  | S fuel =>
      let '(r, w) := recvmsg flags iov_len controllen w in
      match r with
      | inl errno =>
          if errno =? EINTR then
            recv_loop fuel mem want_creds flags iov_len controllen nla w
          else mret (recv_fail (- nl_syserr2nlerr errno) nla, w)
      | inr v =>
          let nla := rv_name v in
          let controllen := rv_controllen v in
          if rv_n v =? 0 then mret (recv_fail 0 nla, w)
          else if has_flag (rv_flags v) MSG_CTRUNC then
            if controllen =? 0 then mret (recv_fail (- NLE_MSG_TRUNC) nla, w)
            else if negb (mem_ctl_re mem) then mret (recv_fail (- NLE_NOMEM) nla, w)
            else recv_loop fuel mem want_creds flags iov_len (controllen * 2) nla w
          else if (iov_len <? rv_n v) || has_flag (rv_flags v) MSG_TRUNC then
            if flags =? 0 then mret (recv_fail (- NLE_MSG_TRUNC) nla, w)
            else if negb (mem_buf_re mem) then mret (recv_fail (- NLE_NOMEM) nla, w)
            else recv_loop fuel mem want_creds 0 (rv_n v) controllen nla w
          else if negb (flags =? 0) then
            recv_loop fuel mem want_creds 0 iov_len controllen nla w
          else if negb (rv_namelen v =? sizeof_sockaddr_nl) then
            mret (recv_fail (- NLE_NOADDR) nla, w)
          else
            match (if want_creds then rv_creds v else None) with
            | Some c =>
                if negb (mem_creds mem) then mret (recv_fail (- NLE_NOMEM) nla, w)
                else mret ({| ro_n := rv_n v; ro_buf := rv_data v; ro_src := nla;
                              ro_creds := Some c |}, w)
            | None => mret ({| ro_n := rv_n v; ro_buf := rv_data v; ro_src := nla;
                               ro_creds := None |}, w)
            end
      end
  end.

(** The arguments [nla], [buf] and [creds] are given, as the receive loop does;
    [page_size]: the static variable, 4 pages. *)
Definition nl_recv (fuel : nat) (mem : recv_mem) (page_size : Z) (sk : nl_sock)
    (nla : sockaddr_nl) (w : W) : exec (recv_out * W) :=
  let flags :=
    if has_flag (s_flags sk) NL_MSG_PEEK ||
       (negb (has_flag (s_flags sk) NL_MSG_PEEK_EXPLICIT) && (s_bufsize sk =? 0))
    then Z.lor MSG_PEEK MSG_TRUNC else 0 in
  let iov_len := if negb (s_bufsize sk =? 0) then s_bufsize sk else page_size in
  if negb (mem_buf mem) then mret (recv_fail (- NLE_NOMEM) nla, w)
  else
    let passcred := has_flag (s_flags sk) NL_SOCK_PASSCRED in
    if passcred && negb (mem_ctl mem) then mret (recv_fail (- NLE_NOMEM) nla, w)
    else recv_loop fuel mem passcred flags iov_len
           (if passcred then CMSG_SPACE_ucred else 0) nla w.

(** ** The receive state machine *)

(** The variables of [recvmsgs] that outlive a message. *)
Record rstate := {
  r_sk : nl_sock;
  r_cb : nl_cb;
  r_w : W;
  r_multipart : bool;
  r_interrupted : bool;
  r_nrecv : Z
}.

Definition set_cbw (st : rstate) (cb : nl_cb) (w : W) : rstate :=
  {| r_sk := r_sk st; r_cb := cb; r_w := w; r_multipart := r_multipart st;
     r_interrupted := r_interrupted st; r_nrecv := r_nrecv st |}.
Definition set_sk (st : rstate) (sk : nl_sock) : rstate :=
  {| r_sk := sk; r_cb := r_cb st; r_w := r_w st; r_multipart := r_multipart st;
     r_interrupted := r_interrupted st; r_nrecv := r_nrecv st |}.
Definition set_multipart (st : rstate) (b : bool) : rstate :=
  {| r_sk := r_sk st; r_cb := r_cb st; r_w := r_w st; r_multipart := b;
     r_interrupted := r_interrupted st; r_nrecv := r_nrecv st |}.
Definition set_interrupted (st : rstate) : rstate :=
  {| r_sk := r_sk st; r_cb := r_cb st; r_w := r_w st; r_multipart := r_multipart st;
     r_interrupted := true; r_nrecv := r_nrecv st |}.
Definition count_recv (st : rstate) : rstate :=
  {| r_sk := r_sk st; r_cb := r_cb st; r_w := r_w st; r_multipart := r_multipart st;
     r_interrupted := r_interrupted st; r_nrecv := r_nrecv st + 1 |}.

(** The macro NL_CB_CALL, and what follows it. *)
Definition NL_CB_CALL (type : Z) (msg : nl_msg) (st : rstate)
    (k : rstate -> exec (flow * rstate)) : exec (flow * rstate) :=
  '(err, cb, w) ← nl_cb_call user (r_cb st) type msg (r_w st);
  let st := set_cbw st cb w in
  if err =? NL_OK then k st
  else if err =? NL_SKIP then mret (Skip, st)
  else if err =? NL_STOP then mret (Stop, st)
  else mret (Out err, st).

(** [if (cb->cb_set[type]) NL_CB_CALL(...); else ...]. *)
Definition call_or (type : Z) (msg : nl_msg) (st : rstate)
    (k : rstate -> exec (flow * rstate)) (e : rstate -> exec (flow * rstate))
    : exec (flow * rstate) :=
  if cb_is_set (r_cb st) type then NL_CB_CALL type msg st k else e st.

Definition is_control (type : Z) : bool :=
  (type =? NLMSG_DONE) || (type =? NLMSG_ERROR) || (type =? NLMSG_NOOP) ||
  (type =? NLMSG_OVERRUN).

(** The branch for NLMSG_ERROR: [len] the message's length, [e] the bytes from
    its payload on. *)
Definition handle_error (msg : nl_msg) (nla : sockaddr_nl) (len : Z) (e : list Z) (st : rstate)
    : exec (flow * rstate) :=
  let next st := mret (Skip, st) in
  if len <? nlmsg_size sizeof_nlmsgerr then
    call_or NL_CB_INVALID msg st next (fun st => mret (Out (- NLE_MSG_TRUNC), st))
  else
    error ← (s32 <$> get_u32 e 0);
    if negb (error =? 0) then
      match cb_err (r_cb st) with
      | Some h =>
          let '(err, w) := run_err_cb user_err h (cb_err_arg (r_cb st)) nla e (r_w st) in
          let st := set_cbw st (r_cb st) w in
          if err <? 0 then mret (Out err, st)
          else if err =? NL_SKIP then mret (Skip, st)
          else if err =? NL_STOP then mret (Out (- nl_syserr2nlerr error), st)
          else next st
      | None => mret (Out (- nl_syserr2nlerr error), st)
      end
    else call_or NL_CB_ACK msg st next next.

(** The switch on the message type, after the header checks. *)
Definition dispatch (msg : nl_msg) (nla : sockaddr_nl) (type len : Z) (e : list Z) (st : rstate)
    : exec (flow * rstate) :=
  let next st := mret (Skip, st) in
  if type =? NLMSG_DONE then
    call_or NL_CB_FINISH msg (set_multipart st false) next next
  else if type =? NLMSG_NOOP then call_or NL_CB_SKIPPED msg st next next
  else if type =? NLMSG_OVERRUN then
    call_or NL_CB_OVERRUN msg st next (fun st => mret (Out (- NLE_MSG_OVERFLOW), st))
  else if type =? NLMSG_ERROR then handle_error msg nla len e st
  else call_or NL_CB_VALID msg st next next.

(** Sequence number and flags of the header. *)
Definition after_seq (msg : nl_msg) (nla : sockaddr_nl) (type flags len : Z) (e : list Z)
    (st : rstate) : exec (flow * rstate) :=
  let st := if is_control type
            then set_sk st (with_seq (r_sk st) (s_seq_next (r_sk st))
                              (u32 (s_seq_expect (r_sk st) + 1)))
            else st in
  let st := if has_flag flags NLM_F_MULTI then set_multipart st true else st in
  let ack st :=
    if has_flag flags NLM_F_ACK then
      call_or NL_CB_SEND_ACK msg st (dispatch msg nla type len e) (dispatch msg nla type len e)
    else dispatch msg nla type len e st in
  if has_flag flags NLM_F_DUMP_INTR then
    call_or NL_CB_DUMP_INTR msg st ack (fun st => ack (set_interrupted st))
  else ack st.

Definition check_seq (msg : nl_msg) (nla : sockaddr_nl) (type flags seq len : Z) (e : list Z)
    (st : rstate) : exec (flow * rstate) :=
  let k := after_seq msg nla type flags len e in
  if cb_is_set (r_cb st) NL_CB_SEQ_CHECK then NL_CB_CALL NL_CB_SEQ_CHECK msg st k
  else if negb (has_flag (s_flags (r_sk st)) NL_NO_AUTO_ACK) then
    if negb (seq =? s_seq_expect (r_sk st)) then
      call_or NL_CB_INVALID msg st k (fun st => mret (Out (- NLE_SEQ_MISMATCH), st))
    else k st
  else k st.

(** One message: [hdr] its offset in the buffer [b] of a datagram from [nla].
    [c1], [c2]: whether the allocations of [nlmsg_convert] succeed. *)
Definition process_msg (c1 c2 : bool) (b : list Z) (nla : sockaddr_nl) (creds : option ucred)
    (hdr : Z) (st : rstate) : exec (flow * rstate) :=
  m ← nlmsg_convert c1 c2 b hdr;
  match m with
  | None => mret (Out (- NLE_NOMEM), st)
  | Some msg =>
      let msg := nlmsg_set_proto msg (s_proto (r_sk st)) in
      let msg := nlmsg_set_src msg nla in
      let msg := match creds with Some c => nlmsg_set_creds msg c | None => msg end in
      let st := count_recv st in
      type ← nlmsg_type b hdr;
      flags ← nlmsg_flags b hdr;
      seq ← nlmsg_seq b hdr;
      len ← nlmsg_len b hdr;
      let e := drop (Z.to_nat (nlmsg_data hdr)) b in
      let k := check_seq msg nla type flags seq len e in
      call_or NL_CB_MSG_IN msg st k k
  end.

(** [while (nlmsg_ok(hdr, n))]; every round takes at least 16 of the [n] bytes. *)
Fixpoint msg_loop (fuel : nat) (c1 c2 : bool) (b : list Z) (nla : sockaddr_nl)
    (creds : option ucred) (hdr n : Z) (st : rstate) : exec (flow * rstate) :=
  ok ← nlmsg_ok b hdr n;
  if ok : bool then
    match fuel with
    | O => NoFuel
    | S fuel =>
        '(f, st) ← process_msg c1 c2 b nla creds hdr st;
        match f with
        | Skip =>
            '(hdr, n) ← nlmsg_next b hdr n;
            msg_loop fuel c1 c2 b nla creds hdr n st
        | _ => mret (f, st)
        end
    end
  else mret (Skip, st).

(** The overwritten receive function of a callback set, and the arguments of
    [nl_recv] that stand for its environment. *)
Variable recv_ow : Z -> nl_sock -> W -> exec (recv_out * W).
Variable rfuel : nat.
Variable mem : recv_mem.
Variable page_size : Z.

Definition read_datagram (cb : nl_cb) (sk : nl_sock) (w : W) : exec (recv_out * W) :=
  match cb_recv_ow cb with
  | Some f => recv_ow f sk w
  | None => nl_recv rfuel mem page_size sk sockaddr_0 w
  end.

(** The end of [recvmsgs]. *)
Definition recv_result (err : Z) (st : rstate) : Z * rstate :=
  let err := if r_interrupted st then - NLE_DUMP_INTR else err in
  let err := if err =? 0 then r_nrecv st else err in
  (err, st).

(** From the label continue_reading: one round per datagram. *)
Fixpoint read_loop (fuel : nat) (c1 c2 : bool) (st : rstate) : exec (Z * rstate) :=
  match fuel with
  | O => NoFuel
  | S fuel =>
      '(out, w) ← read_datagram (r_cb st) (r_sk st) (r_w st);
      let st := set_cbw st (r_cb st) w in
      if ro_n out <=? 0 then mret (ro_n out, st)
      else
        '(f, st) ← msg_loop (Z.to_nat (ro_n out)) c1 c2 (ro_buf out) (ro_src out)
                     (ro_creds out) 0 (ro_n out) st;
        match f with
        | Skip => if r_multipart st then read_loop fuel c1 c2 st else mret (recv_result 0 st)
        | Stop => mret (recv_result 0 st)
        | Out err => mret (recv_result err st)
        end
  end.

Definition recvmsgs (fuel : nat) (c1 c2 : bool) (sk : nl_sock) (cb : nl_cb) (w : W)
    : exec (Z * rstate) :=
  read_loop fuel c1 c2
    {| r_sk := sk; r_cb := cb; r_w := w; r_multipart := false; r_interrupted := false;
       r_nrecv := 0 |}.

(** The overwritten receive loop of a callback set. *)
Variable recvmsgs_ow : Z -> nl_sock -> nl_cb -> W -> exec (Z * rstate).

Definition nl_recvmsgs_report (fuel : nat) (c1 c2 : bool) (sk : nl_sock) (cb : nl_cb) (w : W)
    : exec (Z * rstate) :=
  match cb_recvmsgs_ow cb with
  | Some f => recvmsgs_ow f sk cb w
  | None => recvmsgs fuel c1 c2 sk cb w
  end.

Definition nl_recvmsgs (fuel : nat) (c1 c2 : bool) (sk : nl_sock) (cb : nl_cb) (w : W)
    : exec (Z * rstate) :=
  '(err, st) ← nl_recvmsgs_report fuel c1 c2 sk cb w;
  mret (if 0 <? err then 0 else err, st).

Definition nl_recvmsgs_default (fuel : nat) (c1 c2 : bool) (sk : nl_sock) (w : W)
    : exec (Z * rstate) := nl_recvmsgs fuel c1 c2 sk (s_cb sk) w.

(** [c]: whether the callback set can be cloned. *)
Definition nl_wait_for_ack (fuel : nat) (c c1 c2 : bool) (sk : nl_sock) (w : W)
    : exec (Z * nl_sock * W) :=
  match nl_cb_clone c (s_cb sk) with
  | None => mret (- NLE_NOMEM, sk, w)
  | Some cb =>
      let cb := (nl_cb_set cb NL_CB_ACK NL_CB_CUSTOM (Some ack_wait_handler) 0).2 in
      '(err, st) ← nl_recvmsgs fuel c1 c2 sk cb w;
      _ ← nl_cb_put (Some (r_cb st));
      mret (err, r_sk st, r_w st)
  end.

Definition wait_for_ack (fuel : nat) (c c1 c2 : bool) (sk : nl_sock) (w : W)
    : exec (Z * nl_sock * W) :=
  if has_flag (s_flags sk) NL_NO_AUTO_ACK then mret (0, sk, w)
  else nl_wait_for_ack fuel c c1 c2 sk w.

Definition nl_send_sync (fuel : nat) (c c1 c2 : bool) (p : port_map) (sk : nl_sock) (msg : nl_msg)
    (getpid time : Z) (w : W) : exec (Z * nl_sock * port_map * W) :=
  '(err, sk, msg, p, w) ← nl_send_auto p sk msg getpid time w;
  _ ← nlmsg_free (Some msg);
  if err <? 0 then mret (err, sk, p, w)
  else
    '(err, sk, w) ← wait_for_ack fuel c c1 c2 sk w;
    mret (err, sk, p, w).

(** ** Safety of the receive loop *)

Definition finishes {A} (m : exec A) : Prop := exists a, m = Done a.

Lemma done_ret {A} (a : A) : finishes (mret a).
Proof. by exists a. Qed.

(** [left]: how much the kernel has still to deliver. The callbacks do not add to
    it. *)
Record quiet (left : W -> nat) : Prop := {
  quiet_user f a t m w : (left (user f a t m w).2 <= left w)%nat;
  quiet_err f a nla e w : (left (user_err f a nla e w).2 <= left w)%nat
}.

Section Left.
Variable left : W -> nat.
Hypothesis Hquiet : quiet left.

(** What no message changes: which callbacks are set, and what is left does not
    grow. *)
Definition keeps (st st' : rstate) : Prop :=
  cb_set (r_cb st') = cb_set (r_cb st) /\ cb_recv_ow (r_cb st') = cb_recv_ow (r_cb st) /\
  (left (r_w st') <= left (r_w st))%nat.

Definition runs (st : rstate) (m : exec (flow * rstate)) : Prop :=
  exists f st', m = Done (f, st') /\ keeps st st'.

Lemma keeps_refl st : keeps st st.
Proof. done. Qed.

Lemma runs_ret st f st' : keeps st st' -> runs st (mret (f, st')).
Proof. intros. by exists f, st'. Qed.

Lemma run_msg_quiet h arg active msg w : (left (run_msg_cb user h arg active msg w).2 <= left w)%nat.
Proof. destruct h; simpl; try lia. apply (quiet_user _ Hquiet). Qed.

Lemma run_err_quiet h arg nla e w : (left (run_err_cb user_err h arg nla e w).2 <= left w)%nat.
Proof. destruct h; simpl; try lia. apply (quiet_err _ Hquiet). Qed.

Lemma call_done cb type msg w :
  cb_is_set cb type = true ->
  exists ret w' cb', nl_cb_call user cb type msg w = Done (ret, cb', w') /\
    cb_set cb' = cb_set cb /\ cb_recv_ow cb' = cb_recv_ow cb /\ (left w' <= left w)%nat.
Proof.
  unfold cb_is_set, nl_cb_call. simpl. intros H.
  destruct (nth (Z.to_nat type) (cb_set cb) None) as [h|]; [|done].
  pose proof (run_msg_quiet h (nth (Z.to_nat type) (cb_args cb) 0%Z) type msg w) as Hl.
  destruct (run_msg_cb user h _ _ msg w) as [ret w']. by eexists ret, w', _.
Qed.

Lemma NL_CB_CALL_runs st0 type msg st k :
  cb_is_set (r_cb st) type = true -> keeps st0 st ->
  (forall st, keeps st0 st -> runs st0 (k st)) -> runs st0 (NL_CB_CALL type msg st k).
Proof.
  intros Hset (H1 & H2 & H3) Hk. unfold NL_CB_CALL.
  destruct (call_done (r_cb st) type msg (r_w st) Hset) as (ret & w' & cb' & -> & Hs & Ho & Hl).
  exec_simpl.
  assert (keeps st0 (set_cbw st cb' w')) by (split_and!; simpl; [congruence..|lia]).
  repeat case_test; auto using runs_ret.
Qed.

Lemma call_or_runs st0 type msg st k e :
  keeps st0 st -> (forall st, keeps st0 st -> runs st0 (k st)) ->
  (forall st, keeps st0 st -> runs st0 (e st)) -> runs st0 (call_or type msg st k e).
Proof.
  intros Hst Hk He. unfold call_or.
  destruct (cb_is_set _ _) eqn:E; [by apply NL_CB_CALL_runs|by apply He].
Qed.

Lemma handle_error_runs st0 msg nla len e st :
  len - 16 <= zlen e -> keeps st0 st -> runs st0 (handle_error msg nla len e st).
Proof.
  intros He Hst. unfold handle_error. change (nlmsg_size sizeof_nlmsgerr) with 36.
  destruct (len <? 36) eqn:E; bool_hyps; [apply call_or_runs; auto using runs_ret|].
  rewrite get_u32_done by lia. exec_simpl.
  destruct (negb _); [|apply call_or_runs; auto using runs_ret].
  destruct (cb_err (r_cb st)) as [h|]; [|by apply runs_ret].
  pose proof (run_err_quiet h (cb_err_arg (r_cb st)) nla e (r_w st)) as Hl.
  destruct (run_err_cb user_err h _ nla e (r_w st)) as [err w]. destruct Hst as (H1 & H2 & H3).
  repeat case_test; apply runs_ret; split_and!; simpl in *; (done || lia).
Qed.

Lemma dispatch_runs st0 msg nla type len e st :
  len - 16 <= zlen e -> keeps st0 st -> runs st0 (dispatch msg nla type len e st).
Proof.
  intros He Hst. unfold dispatch. repeat case_test;
    first [by apply handle_error_runs | apply call_or_runs; auto using runs_ret].
Qed.

Lemma after_seq_runs st0 msg nla type flags len e st :
  len - 16 <= zlen e -> keeps st0 st -> runs st0 (after_seq msg nla type flags len e st).
Proof.
  intros He Hst. unfold after_seq. cbv zeta.
  set (st1 := if is_control type then _ else st).
  set (st2 := if has_flag flags NLM_F_MULTI then _ else st1).
  assert (keeps st0 st2) as H2 by (unfold st2, st1; repeat case_test; done).
  assert (forall st, keeps st0 st -> runs st0 (
    if has_flag flags NLM_F_ACK then
      call_or NL_CB_SEND_ACK msg st (dispatch msg nla type len e) (dispatch msg nla type len e)
    else dispatch msg nla type len e st)) as Hack.
  { intros st' Hst'. case_test; [|by apply dispatch_runs].
    apply call_or_runs; [done|..]; intros; by apply dispatch_runs. }
  case_test; [|by apply Hack]. apply call_or_runs; [done|done|]. intros st' ?. by apply Hack.
Qed.

Lemma check_seq_runs st0 msg nla type flags seq len e st :
  len - 16 <= zlen e -> keeps st0 st -> runs st0 (check_seq msg nla type flags seq len e st).
Proof.
  intros He Hst. unfold check_seq. cbv zeta.
  assert (forall st, keeps st0 st -> runs st0 (after_seq msg nla type flags len e st)) as Ha
    by (intros; by apply after_seq_runs).
  destruct (cb_is_set (r_cb st) NL_CB_SEQ_CHECK) eqn:E; [by apply NL_CB_CALL_runs|].
  repeat case_test; try by apply Ha. apply call_or_runs; auto using runs_ret.
Qed.

Definition msg_at (b : list Z) (pos rem : Z) : bool :=
  (16 <=? rem) && (16 <=? le_at 4 b pos) && (le_at 4 b pos <=? rem).

Lemma nlmsg_convert_done c1 c2 b hdr rem :
  0 <= hdr -> hdr + rem <= zlen b -> zlen b < 2147483640 -> msg_at b hdr rem = true ->
  finishes (nlmsg_convert c1 c2 b hdr).
Proof.
  intros Hh Hr Hz Hm. unfold msg_at in Hm. bool_hyps.
  unfold nlmsg_convert, nlmsg_len. rewrite get_u32_done by lia. exec_simpl.
  pose proof (align4_bounds (le_at 4 b hdr)). rewrite NLMSG_ALIGN_small by lia.
  destruct (nlmsg_alloc_done c1 c2 (align4 (le_at 4 b hdr))) as (r & -> & Hres); [lia|].
  exec_simpl. destruct r as [m|]; [|apply done_ret].
  destruct Hres as (_ & (Hzm & _) & Hsize & _).
  rewrite load_done by lia. exec_simpl.
  rewrite store_done by (rewrite ?zlen_sub; lia). apply done_ret.
Qed.

Lemma process_msg_runs c1 c2 b nla creds hdr rem st :
  0 <= hdr -> hdr + rem <= zlen b -> zlen b < 2147483640 -> msg_at b hdr rem = true ->
  runs st (process_msg c1 c2 b nla creds hdr st).
Proof.
  intros Hh Hr Hz Hm. unfold process_msg.
  destruct (nlmsg_convert_done c1 c2 b hdr rem) as (r & ->); [done..|]. exec_simpl.
  unfold msg_at in Hm. bool_hyps. destruct r as [m|]; [|by apply runs_ret].
  unfold nlmsg_type, nlmsg_flags, nlmsg_seq, nlmsg_len. exec_run.
  apply call_or_runs; [done|..]; intros; apply check_seq_runs; try done;
    unfold zlen, nlmsg_data, NLMSG_HDRLEN in *; rewrite length_drop; lia.
Qed.

Lemma nlmsg_ok_done b pos rem :
  0 <= pos -> pos + rem <= zlen b -> rem < 4294967296 -> nlmsg_ok b pos rem = Done (msg_at b pos rem).
Proof.
  intros. unfold nlmsg_ok, msg_at, sizeof_nlmsghdr.
  destruct (16 <=? rem) eqn:E; [|done]. bool_hyps.
  unfold nlmsg_len. rewrite get_u32_done by lia. exec_simpl. by rewrite u32_id by lia.
Qed.

Lemma nlmsg_next_done b pos rem :
  0 <= pos -> pos + rem <= zlen b -> zlen b < 2147483640 -> msg_at b pos rem = true ->
  nlmsg_next b pos rem = Done (pos + align4 (le_at 4 b pos), rem - align4 (le_at 4 b pos)).
Proof.
  intros Hp Hr Hz Hm. unfold msg_at in Hm. bool_hyps.
  pose proof (align4_bounds (le_at 4 b pos)).
  unfold nlmsg_next, nlmsg_len. rewrite get_u32_done by lia. exec_simpl.
  rewrite NLMSG_ALIGN_small by lia. rewrite !s32_id; rewrite ?s32_id; (done || lia).
Qed.

Lemma msg_loop_runs c1 c2 b nla creds fuel : forall hdr n st,
  0 <= hdr -> hdr + n <= zlen b -> zlen b < 2147483640 -> (Z.to_nat n <= fuel)%nat ->
  runs st (msg_loop fuel c1 c2 b nla creds hdr n st).
Proof.
  induction fuel as [|fuel IH]; intros hdr n st Hh Hr Hz Hf; cbn [msg_loop];
    rewrite nlmsg_ok_done by lia; exec_simpl;
    destruct (msg_at b hdr n) eqn:E; try by apply runs_ret.
  - unfold msg_at in E. bool_hyps. lia.
  - destruct (process_msg_runs c1 c2 b nla creds hdr n st) as (f & st' & -> & (Hk1 & Hk2 & Hk3)); [done..|].
    exec_simpl. destruct f; try by apply runs_ret.
    rewrite nlmsg_next_done by done. exec_simpl. unfold msg_at in E. bool_hyps.
    pose proof (align4_bounds (le_at 4 b hdr)).
    destruct (decide (0 <= n - align4 (le_at 4 b hdr))).
    + destruct (IH (hdr + align4 (le_at 4 b hdr)) (n - align4 (le_at 4 b hdr)) st')
        as (f & st2 & -> & (? & ? & ?)); [lia..|].
      exists f, st2. split; [done|]. split_and!; [congruence..|lia].
    + exists Skip, st'. split; [|done].
      destruct fuel; cbn [msg_loop]; unfold nlmsg_ok;
        by rewrite (proj2 (Z.leb_gt sizeof_nlmsghdr _)) by (unfold sizeof_nlmsghdr; lia).
Qed.

End Left.

Lemma quiet_0 : quiet (fun _ => O).
Proof. by split. Qed.

(** What the manual of recvmsg(2) says about the buffer: the data is the
    datagram's first bytes, as many as fit. *)
Definition recvmsg_ok : Prop :=
  forall flags len ctl w v w', recvmsg flags len ctl w = (inr v, w') ->
    0 <= rv_n v < 2147483640 /\ zlen (rv_data v) = Z.min (rv_n v) len.

Definition out_ok (out : recv_out) : Prop :=
  0 < ro_n out -> zlen (ro_buf out) = ro_n out /\ ro_n out < 2147483640.

Lemma recv_fail_ok err nla : err <= 0 -> out_ok (recv_fail err nla).
Proof. unfold out_ok. simpl. lia. Qed.

Lemma syserr_nonpos e : - nl_syserr2nlerr e <= 0.
Proof. pose proof (nl_syserr2nlerr_range e). lia. Qed.

Lemma recv_loop_ok m c fuel : forall flags iov ctl nla w,
  recvmsg_ok ->
  recv_loop fuel m c flags iov ctl nla w = NoFuel \/
  exists out w', recv_loop fuel m c flags iov ctl nla w = Done (out, w') /\ out_ok out.
Proof.
  intros flags iov ctl nla w Hok. revert flags iov ctl nla w.
  induction fuel as [|fuel IH]; intros flags iov ctl nla w; cbn [recv_loop]; [by left|].
  destruct (recvmsg flags iov ctl w) as [[errno|v] w'] eqn:E.
  { case_test; [done|]. right. eexists _, _. split; [done|]. apply recv_fail_ok, syserr_nonpos. }
  destruct (Hok _ _ _ _ _ _ E) as [Hn Hd].
  assert (forall err nla w, err <= 0 ->
    @Done (recv_out * W) (recv_fail err nla, w) = NoFuel \/
    exists out w', @Done (recv_out * W) (recv_fail err nla, w) = Done (out, w') /\ out_ok out) as Hf.
  { intros err nla' w0 He. right. eexists _, _. split; [done|]. by apply recv_fail_ok. }
  destruct (rv_n v =? 0); [by apply Hf|].
  destruct (has_flag (rv_flags v) MSG_CTRUNC).
  { repeat case_test; first [by apply Hf | by apply IH]. }
  destruct ((iov <? rv_n v) || has_flag (rv_flags v) MSG_TRUNC) eqn:Et.
  { repeat case_test; first [by apply Hf | by apply IH]. }
  bool_hyps.
  assert (forall cr, out_ok {| ro_n := rv_n v; ro_buf := rv_data v; ro_src := rv_name v;
                               ro_creds := cr |}) as Hout.
  { intros cr _. simpl. lia. }
  repeat case_test; try (by apply IH); try (by apply Hf);
    destruct (rv_creds v); repeat case_test; try (by apply Hf); right; eexists _, _;
    (split; [done|]); apply Hout.
Qed.

Lemma nl_recv_ok m sk nla w :
  recvmsg_ok ->
  nl_recv rfuel m page_size sk nla w = NoFuel \/
  exists out w', nl_recv rfuel m page_size sk nla w = Done (out, w') /\ out_ok out.
Proof.
  intros Hok. unfold nl_recv. cbv zeta.
  repeat match goal with |- context [if negb (mem_buf m) then _ else _] => case_test end.
  { right. eexists _, _. split; [done|]. by apply recv_fail_ok. }
  destruct (has_flag (s_flags sk) NL_SOCK_PASSCRED && negb (mem_ctl m)).
  { right. eexists _, _. split; [done|]. by apply recv_fail_ok. }
  by apply recv_loop_ok.
Qed.

(** A kernel that has [left] to deliver: every interruption, every datagram that
    is taken and every control message that is cut takes something of it, and
    looking at a datagram does not add to it. *)
Record supply (left : W -> nat) : Prop := {
  supply_intr flags len ctl w w' :
    recvmsg flags len ctl w = (inl EINTR, w') -> (left w' < left w)%nat;
  supply_take len ctl w v w' :
    recvmsg 0 len ctl w = (inr v, w') -> rv_n v <> 0 -> (left w' < left w)%nat;
  supply_peek flags len ctl w v w' :
    recvmsg flags len ctl w = (inr v, w') -> (left w' <= left w)%nat;
  supply_ctrunc flags len ctl w v w' :
    recvmsg flags len ctl w = (inr v, w') -> has_flag (rv_flags v) MSG_CTRUNC = true ->
    rv_controllen v <> 0 -> (left w' < left w)%nat
}.

(** What [nl_recv] does while there is something left: it returns, and a datagram
    it returns was taken. *)
Definition reads (left : W -> nat) (w : W) (m : exec (recv_out * W)) : Prop :=
  exists out w', m = Done (out, w') /\ out_ok out /\ (0 < ro_n out -> (left w' < left w)%nat).

Lemma reads_fail left w err nla w' : err <= 0 -> reads left w (mret (recv_fail err nla, w')).
Proof. intros. eexists _, _. split; [done|]. split; [by apply recv_fail_ok|simpl; lia]. Qed.

Lemma reads_le left w w' m : (left w' <= left w)%nat -> reads left w' m -> reads left w m.
Proof. intros H (out & w2 & -> & Ho & Hl). exists out, w2. split_and!; [done..|]. intros ?%Hl. lia. Qed.

Lemma recv_loop_reads left m c fuel : recvmsg_ok -> supply left -> forall flags iov ctl nla w,
  (left w + (if (flags =? 0)%Z then 0 else 1) < fuel)%nat ->
  reads left w (recv_loop fuel m c flags iov ctl nla w).
Proof.
  intros Hok Hs. induction fuel as [|fuel IH]; intros flags iov ctl nla w Hf; cbn [recv_loop]; [lia|].
  destruct (recvmsg flags iov ctl w) as [[errno|v] w'] eqn:E.
  { destruct (errno =? EINTR) eqn:Ei; bool_hyps; [|apply reads_fail, syserr_nonpos].
    subst errno. pose proof (supply_intr _ Hs _ _ _ _ _ E).
    apply (reads_le _ _ w'); [lia|]. apply IH. lia. }
  destruct (Hok _ _ _ _ _ _ E) as [Hn Hd]. pose proof (supply_peek _ Hs _ _ _ _ _ _ E) as Hp.
  assert (forall err nla w', err <= 0 -> reads left w (Done (recv_fail err nla, w'))) as Hfail
    by (intros; by apply reads_fail).
  destruct (rv_n v =? 0) eqn:Ez; bool_hyps; [by apply Hfail|].
  destruct (has_flag (rv_flags v) MSG_CTRUNC) eqn:Ec.
  { destruct (rv_controllen v =? 0) eqn:Ectl; bool_hyps; [by apply Hfail|].
    pose proof (supply_ctrunc _ Hs _ _ _ _ _ _ E Ec Ectl).
    case_test; [by apply Hfail|]. apply (reads_le _ _ w'); [lia|]. apply IH. lia. }
  assert (flags <> 0 -> forall iov ctl nla, reads left w (recv_loop fuel m c 0 iov ctl nla w')) as Hre.
  { intros Hfl iov' ctl' nla'. apply (reads_le _ _ w'); [lia|]. apply IH.
    rewrite (proj2 (Z.eqb_neq flags 0) Hfl) in Hf. simpl. lia. }
  destruct ((iov <? rv_n v) || has_flag (rv_flags v) MSG_TRUNC) eqn:Et.
  { destruct (flags =? 0) eqn:Efl; bool_hyps; [by apply Hfail|]. case_test; [by apply Hfail|by apply Hre]. }
  destruct (flags =? 0) eqn:Efl; bool_hyps; cbn [negb]; [|by apply Hre]. subst flags.
  pose proof (supply_take _ Hs _ _ _ _ _ E Ez) as Htake.
  case_test; [by apply Hfail|].
  assert (forall cr, reads left w (Done ({| ro_n := rv_n v; ro_buf := rv_data v; ro_src := rv_name v;
                               ro_creds := cr |}, w'))) as Hout.
  { intros cr. eexists _, _. split; [done|]. split; [intros _; simpl; lia|done]. }
  destruct (if c then _ else _); [|by apply Hout]. case_test; [by apply Hfail|by apply Hout].
Qed.

Lemma nl_recv_reads left m sk nla w : recvmsg_ok -> supply left -> (S (left w) < rfuel)%nat ->
  reads left w (nl_recv rfuel m page_size sk nla w).
Proof.
  intros Hok Hs Hf. unfold nl_recv. cbv zeta. case_test; [by apply reads_fail|].
  destruct (has_flag (s_flags sk) NL_SOCK_PASSCRED && negb (mem_ctl m)); [by apply reads_fail|].
  apply recv_loop_reads; [done..|]. repeat case_test; lia.
Qed.

Lemma read_loop_ends left fuel c1 c2 : recvmsg_ok -> quiet left -> supply left -> forall st,
  cb_recv_ow (r_cb st) = None -> (left (r_w st) < fuel)%nat -> (S (left (r_w st)) < rfuel)%nat ->
  finishes (read_loop fuel c1 c2 st).
Proof.
  intros Hok Hq Hs. induction fuel as [|fuel IH]; intros st How Hf Hr; cbn [read_loop]; [lia|].
  unfold read_datagram. rewrite How.
  destruct (nl_recv_reads left mem (r_sk st) sockaddr_0 (r_w st) Hok Hs Hr) as (out & w' & -> & Ho & Hl).
  exec_simpl. destruct (ro_n out <=? 0) eqn:E; bool_hyps; [apply done_ret|].
  destruct (Ho E) as [Hz Hn]. specialize (Hl E).
  destruct (msg_loop_runs left Hq c1 c2 (ro_buf out) (ro_src out) (ro_creds out) (Z.to_nat (ro_n out)) 0
    (ro_n out) (set_cbw st (r_cb st) w')) as (f & st' & -> & (_ & Hk & Hle)); [lia..|].
  simpl in Hle. exec_simpl. destruct f; try apply done_ret. case_test; [|apply done_ret].
  apply IH; [by rewrite Hk|lia..].
Qed.

Lemma read_loop_safe fuel c1 c2 : forall st,
  recvmsg_ok -> cb_recv_ow (r_cb st) = None ->
  read_loop fuel c1 c2 st = NoFuel \/ finishes (read_loop fuel c1 c2 st).
Proof.
  induction fuel as [|fuel IH]; intros st Hok How; cbn [read_loop]; [by left|].
  unfold read_datagram. rewrite How.
  destruct (nl_recv_ok mem (r_sk st) sockaddr_0 (r_w st) Hok) as [->|(out & w' & -> & Ho)];
    [by left|]. exec_simpl.
  destruct (ro_n out <=? 0) eqn:E; bool_hyps; [right; apply done_ret|].
  destruct (Ho E) as [Hz Hn].
  destruct (msg_loop_runs _ quiet_0 c1 c2 (ro_buf out) (ro_src out) (ro_creds out) (Z.to_nat (ro_n out)) 0
    (ro_n out) (set_cbw st (r_cb st) w')) as (f & st' & -> & (_ & Hk & _)); [lia..|].
  exec_simpl. destruct f; try (right; apply done_ret).
  case_test; [|right; apply done_ret]. apply IH; [done|]. rewrite Hk. exact How.
Qed.

(** ** Properties of the loop for any application and any kernel *)

(** C4. No peer can crash the receiver: for every kernel that fills the buffer
    as recvmsg(2) documents, whatever bytes arrive and whatever the callbacks
    return, [recvmsgs] never reads outside the buffers, never calls an unset
    callback and never reaches BUG(). And it keeps reading only while the kernel
    keeps delivering: when the kernel has [left w] to deliver (datagrams,
    interruptions and cut control messages, and the callbacks do not add to it),
    [left w] + 1 datagrams and [left w] + 2 calls of recvmsg(2) per datagram are
    enough for it to return, whatever the messages in a datagram claim as their
    length. The receive function is the library's own. *)
Theorem recvmsgs_safe fuel c1 c2 sk cb w :
  recvmsg_ok -> cb_recv_ow cb = None ->
  (recvmsgs fuel c1 c2 sk cb w = NoFuel \/ finishes (recvmsgs fuel c1 c2 sk cb w)) /\
  forall left, quiet left -> supply left -> (left w < fuel)%nat -> (S (left w) < rfuel)%nat ->
    finishes (recvmsgs fuel c1 c2 sk cb w).
Proof. intros. split; [by apply read_loop_safe|]. intros. by apply (read_loop_ends left). Qed.

End Nl.

(** ** Completing and sending *)

(** The header flags a completed message has. *)
Definition completed_flags (sk : nl_sock) (flags : Z) : Z :=
  let f := set_flag flags NLM_F_REQUEST in
  if has_flag (s_flags sk) NL_NO_AUTO_ACK then f else set_flag f NLM_F_ACK.

Lemma completed_flags_range sk f : 0 <= f < 65536 -> 0 <= completed_flags sk f < 65536.
Proof.
  intros Hf. unfold completed_flags, set_flag. change 65536 with (2 ^ 16) in *.
  case_test; repeat apply (lor_range 16); (done || lia).
Qed.

(** Replacing header fields of a buffer of at least 16 bytes, one by one. *)
Lemma get_local_port_keeps p sk getpid time :
  let '(port, sk', p') := nl_socket_get_local_port p sk getpid time in
  port = nl_pid (s_local sk') /\ s_seq_next sk' = s_seq_next sk /\ s_proto sk' = s_proto sk /\
  has_flag (s_flags sk') NL_NO_AUTO_ACK = has_flag (s_flags sk) NL_NO_AUTO_ACK.
Proof.
  unfold nl_socket_get_local_port. destruct (nl_pid (s_local sk) =? 0); [|done].
  destruct (generate_local_port p getpid time) as [port p']. destruct (port =? 0); simpl;
    split_and!; try done; [by apply has_flag_set_other|by apply has_flag_clear_other].
Qed.

(** Completing a message fills in what the caller left open and nothing
    else: the local port and the next sequence number where the header has 0 (the
    sequence counter advances exactly then), the socket's protocol where none was
    set, and the flags NLM_F_REQUEST and, unless disabled, NLM_F_ACK; type, length
    and payload stay as they are. *)
Theorem nl_complete_msg_spec p sk msg getpid time :
  msg_wf msg ->
  let b := nm_nlh msg in
  exists sk' msg' p', nl_complete_msg p sk msg getpid time = Done (sk', msg', p') /\
    let b' := nm_nlh msg' in
    msg_wf msg' /\ msg_len msg' = msg_len msg /\ le_at 2 b' 4 = le_at 2 b 4 /\
    le_at 2 b' 6 = completed_flags sk (le_at 2 b 6) /\
    le_at 4 b' 8 = (if le_at 4 b 8 =? 0 then u32 (s_seq_next sk) else le_at 4 b 8) /\
    le_at 4 b' 12 = (if le_at 4 b 12 =? 0 then u32 (nl_pid (s_local sk')) else le_at 4 b 12) /\
    s_seq_next sk' = (if le_at 4 b 8 =? 0 then u32 (s_seq_next sk + 1) else s_seq_next sk) /\
    nm_protocol msg' = (if nm_protocol msg =? -1 then s_proto sk else nm_protocol msg) /\
    (forall i k, 16 <= i -> 0 <= k -> sub b' i k = sub b i k).
Proof.
  intros Hw b. pose proof Hw as (Hz & Hb & Hl & Hs). unfold sizeof_nlmsghdr in Hl.
  unfold nl_complete_msg, nlmsg_pid. fold b. fold b in Hz, Hb. rewrite get_u32_done by lia. exec_simpl.
  change (0 + 12) with 12. unfold NL_AUTO_PORT.
  (* the port *)
  assert (exists b1 sk1 p1, (if le_at 4 b 12 =? 0 then
      let '(port, sk, p) := nl_socket_get_local_port p sk getpid time in
      b ← set_nlmsg_pid b 0 port; mret (b, sk, p) else mret (b, sk, p)) = Done (b1, sk1, p1) /\
    zlen b1 = zlen b /\ bytes_ok b1 /\
    le_at 4 b1 12 = (if le_at 4 b 12 =? 0 then u32 (nl_pid (s_local sk1)) else le_at 4 b 12) /\
    (forall i k, 0 <= i -> 0 <= k -> i + k <= 12 \/ 16 <= i -> sub b1 i k = sub b i k) /\
    s_seq_next sk1 = s_seq_next sk /\ s_proto sk1 = s_proto sk /\
    has_flag (s_flags sk1) NL_NO_AUTO_ACK = has_flag (s_flags sk) NL_NO_AUTO_ACK)
    as (b1 & sk1 & p1 & -> & Hz1 & Hb1 & Hpid & Hsub1 & Hseq1 & Hpr1 & Hfl1).
  { destruct (le_at 4 b 12 =? 0); [|by eexists _, _, _].
    pose proof (get_local_port_keeps p sk getpid time) as Hk.
    destruct (nl_socket_get_local_port p sk getpid time) as [[port sk1] p1].
    destruct Hk as (-> & ? & ? & ?). unfold set_nlmsg_pid. change (0 + 12) with 12. exec_step.
    eexists _, sk1, p1. split; [done|]. split_and!; try done; [zl|auto with nl|apply le_at_put4; lia|].
    intros i k ?? [?|?]; by sub_simpl. }
  exec_simpl. unfold nlmsg_seq. rewrite get_u32_done by lia. exec_simpl. change (0 + 8) with 8.
  assert (le_at 4 b1 8 = le_at 4 b 8) as -> by (unfold le_at; rewrite Hsub1; (done || lia)).
  unfold NL_AUTO_SEQ.
  (* the sequence number *)
  assert (exists b2 sk2, (if le_at 4 b 8 =? 0 then
      b ← set_nlmsg_seq b1 0 (s_seq_next sk1);
      mret (b, with_seq sk1 (u32 (s_seq_next sk1 + 1)) (s_seq_expect sk1)) else mret (b1, sk1))
      = Done (b2, sk2) /\ zlen b2 = zlen b /\ bytes_ok b2 /\
    le_at 4 b2 8 = (if le_at 4 b 8 =? 0 then u32 (s_seq_next sk) else le_at 4 b 8) /\
    (forall i k, 0 <= i -> 0 <= k -> i + k <= 8 \/ 12 <= i -> sub b2 i k = sub b1 i k) /\
    s_seq_next sk2 = (if le_at 4 b 8 =? 0 then u32 (s_seq_next sk + 1) else s_seq_next sk) /\
    s_proto sk2 = s_proto sk /\ s_local sk2 = s_local sk1 /\
    has_flag (s_flags sk2) NL_NO_AUTO_ACK = has_flag (s_flags sk) NL_NO_AUTO_ACK)
    as (b2 & sk2 & -> & Hz2 & Hb2 & Hseq & Hsub2 & Hseq2 & Hpr2 & Hloc2 & Hfl2).
  { rewrite <- Hseq1. destruct (le_at 4 b 8 =? 0) eqn:E.
    - unfold set_nlmsg_seq. change (0 + 8) with 8. exec_step. eexists _, _. split; [done|].
      split_and!; try done; [zl|auto with nl|apply le_at_put4; lia|].
      intros i k ?? [?|?]; by sub_simpl.
    - eexists _, _. split; [done|]. split_and!; try done.
      unfold le_at. by rewrite Hsub1 by lia. }
  exec_simpl. unfold nlmsg_flags. rewrite get_u16_done by lia. exec_simpl. change (0 + 6) with 6.
  assert (le_at 2 b2 6 = le_at 2 b 6) as -> by (unfold le_at; rewrite Hsub2, Hsub1; (done || lia)).
  unfold set_nlmsg_flags. change (0 + 6) with 6. exec_step.
  set (f := set_flag (le_at 2 b 6) NLM_F_REQUEST). set (b3 := splice b2 6 (le_encode 2 f)).
  pose proof (le_at_range 2 b 6 Hb ltac:(lia)) as Hfr. change (256 ^ 2) with (2 ^ 16) in Hfr.
  assert (0 <= f < 2 ^ 16) as Hf by (apply lor_range; (done || lia)).
  assert (zlen b3 = zlen b) as Hz3 by (unfold b3; zl).
  assert (le_at 2 b3 6 = f) as Hf3.
  { unfold b3. rewrite le_at_put2 by lia. apply u16_id. lia. }
  assert (forall i k, 0 <= i -> 0 <= k -> i + k <= 6 \/ 8 <= i -> sub b3 i k = sub b2 i k) as Hsub3
    by (intros i k ?? [?|?]; unfold b3; by sub_simpl).
  (* the flags *)
  assert (exists b4, (if negb (has_flag (s_flags sk2) NL_NO_AUTO_ACK) then
      flags ← get_u16 b3 6; put_u16 b3 6 (set_flag flags NLM_F_ACK) else mret b3) = Done b4 /\
    zlen b4 = zlen b /\ bytes_ok b4 /\ le_at 2 b4 6 = completed_flags sk (le_at 2 b 6) /\
    (forall i k, 0 <= i -> 0 <= k -> i + k <= 6 \/ 8 <= i -> sub b4 i k = sub b2 i k))
    as (b4 & -> & Hz4 & Hb4 & Hf4 & Hsub4).
  { unfold completed_flags. fold f. rewrite Hfl2.
    assert (bytes_ok b3) by (unfold b3; auto with nl).
    destruct (has_flag (s_flags sk) NL_NO_AUTO_ACK); cbn [negb]; [by exists b3|].
    rewrite get_u16_done by lia. exec_simpl. rewrite Hf3, put_u16_done by lia. eexists. split; [done|].
    split_and!; [zl|auto with nl| |].
    - rewrite le_at_put2 by lia. apply u16_id. change 65536 with (2 ^ 16). apply lor_range; (done || lia).
    - intros i k ?? [?|?]; sub_simpl; apply Hsub3; lia. }
  exec_simpl. eexists sk2, _, p1. split; [done|]. cbn [nm_nlh set_buf nm_protocol].
  unfold msg_wf, msg_len. cbn [nm_nlh set_buf nm_size].
  assert (forall k i, 0 <= i -> 0 <= k -> i + k <= 6 \/ 8 <= i -> le_at k b4 i = le_at k b2 i) as H42
    by (intros; unfold le_at; by rewrite Hsub4).
  assert (forall k i, 0 <= i -> 0 <= k -> i + k <= 8 \/ 12 <= i -> le_at k b2 i = le_at k b1 i) as H21
    by (intros; unfold le_at; by rewrite Hsub2).
  assert (forall k i, 0 <= i -> 0 <= k -> i + k <= 12 \/ 16 <= i -> le_at k b1 i = le_at k b i) as H10
    by (intros; unfold le_at; by rewrite Hsub1).
  assert (le_at 4 b4 0 = le_at 4 b 0) as Hlen by (rewrite H42, H21, H10; (done || lia)).
  assert (nm_size (if nm_protocol msg =? -1 then nlmsg_set_proto msg (s_proto sk2) else msg) = nm_size msg)
    as -> by by case_test.
  rewrite Hlen. fold (msg_len msg). unfold sizeof_nlmsghdr. unfold msg_len in Hl. destruct Hl as [Hl1 Hl2].
  fold b in Hl1, Hl2. split_and!; try (done || lia).
  - rewrite H42, H21, H10; (done || lia).
  - rewrite H42 by lia. done.
  - rewrite H42, H21 by lia. by rewrite Hloc2.
  - rewrite Hpr2. by case_test.
  - intros i k ??. rewrite Hsub4, Hsub2, Hsub1 by lia. done.
Qed.

(** ** Messages as data *)

Record wire_msg := { wm_type : Z; wm_flags : Z; wm_seq : Z; wm_pid : Z; wm_payload : list Z }.

(** The length field, and the bytes of a message with its padding. *)
Definition wm_len (m : wire_msg) : Z := 16 + zlen (wm_payload m).
Definition wm_bytes (m : wire_msg) : list Z :=
  le_encode 4 (wm_len m) ++ le_encode 2 (wm_type m) ++ le_encode 2 (wm_flags m) ++
  le_encode 4 (wm_seq m) ++ le_encode 4 (wm_pid m) ++ wm_payload m ++
  zeros (align4 (wm_len m) - wm_len m).

#[global] Arguments wm_bytes : simpl never.

Definition wm_ok (m : wire_msg) : Prop :=
  0 <= wm_type m < 65536 /\ 0 <= wm_flags m < 65536 /\ 0 <= wm_seq m < 4294967296 /\
  0 <= wm_pid m < 4294967296 /\ bytes_ok (wm_payload m) /\ zlen (wm_payload m) < 1000000000.

Definition datagram (l : list wire_msg) : list Z := flat_map wm_bytes l.

(** The message object a callback gets for a message from [src]. *)
Definition delivered (proto : Z) (src : sockaddr_nl) (m : wire_msg) : nl_msg :=
  {| nm_protocol := proto; nm_flags := 0; nm_src := src; nm_dst := sockaddr_0;
     nm_creds := ucred_0; nm_nlh := wm_bytes m; nm_size := align4 (wm_len m); nm_refcnt := 1 |}.

Lemma wm_len_bounds m : wm_ok m -> 16 <= wm_len m < 1000000016.
Proof. intros (_ & _ & _ & _ & _ & H). unfold wm_len. pose proof (zlen_nonneg (wm_payload m)). lia. Qed.

Lemma zlen_wm_bytes m : wm_ok m -> zlen (wm_bytes m) = align4 (wm_len m).
Proof.
  intros Hm. pose proof (wm_len_bounds m Hm). pose proof (align4_bounds (wm_len m)).
  unfold wm_bytes. rewrite !zlen_app, !zlen_le_encode, zlen_zeros by lia. unfold wm_len in *. lia.
Qed.

Lemma le_at_here pre x post k v :
  zlen x = k -> le_decode x = v -> le_at k (pre ++ x ++ post) (zlen pre) = v.
Proof.
  intros Hx Hv. pose proof (zlen_nonneg x). unfold le_at. rewrite sub_app_r by lia.
  rewrite Z.sub_diag, sub_app_l by lia. rewrite <- Hx. by rewrite sub_all, Hv.
Qed.

(** The header fields of a message inside a buffer. *)
Lemma wm_fields pre m post :
  wm_ok m ->
  let b := pre ++ wm_bytes m ++ post in
  let o := zlen pre in
  le_at 4 b o = wm_len m /\ le_at 2 b (o + 4) = wm_type m /\ le_at 2 b (o + 6) = wm_flags m /\
  le_at 4 b (o + 8) = wm_seq m /\ le_at 4 b (o + 12) = wm_pid m.
Proof.
  intros Hm b o. pose proof (wm_len_bounds m Hm) as Hl. destruct Hm as (H1 & H2 & H3 & H4 & _).
  assert (forall k v, 0 <= v < 256 ^ Z.of_nat k -> le_decode (le_encode k v) = v) as Hd.
  { intros. rewrite le_decode_encode. by apply Z.mod_small. }
  unfold b, o, wm_bytes. rewrite <- !app_assoc. split_and!.
  - apply le_at_here; [done|]. apply (Hd 4%nat). simpl. lia.
  - rewrite app_assoc. set (pre1 := pre ++ le_encode 4 _).
    replace (zlen pre + 4) with (zlen pre1) by (unfold pre1; rewrite zlen_app; done).
    apply le_at_here; [done|]. apply (Hd 2%nat). simpl. lia.
  - rewrite app_assoc, app_assoc. set (pre1 := (pre ++ le_encode 4 _) ++ le_encode 2 _).
    replace (zlen pre + 6) with (zlen pre1) by (unfold pre1; rewrite !zlen_app, !zlen_le_encode; lia).
    apply le_at_here; [done|]. apply (Hd 2%nat). simpl. lia.
  - rewrite app_assoc, app_assoc, app_assoc.
    set (pre1 := ((pre ++ le_encode 4 _) ++ le_encode 2 _) ++ le_encode 2 _).
    replace (zlen pre + 8) with (zlen pre1) by (unfold pre1; rewrite !zlen_app, !zlen_le_encode; lia).
    apply le_at_here; [done|]. apply (Hd 4%nat). simpl. lia.
  - rewrite app_assoc, app_assoc, app_assoc, app_assoc.
    set (pre1 := (((pre ++ le_encode 4 _) ++ le_encode 2 _) ++ le_encode 2 _) ++ le_encode 4 _).
    replace (zlen pre + 12) with (zlen pre1) by (unfold pre1; rewrite !zlen_app, !zlen_le_encode; lia).
    apply le_at_here; [done|]. apply (Hd 4%nat). simpl. lia.
Qed.

Lemma sub_wm pre m post :
  wm_ok m -> sub (pre ++ wm_bytes m ++ post) (zlen pre) (wm_len m) = sub (wm_bytes m) 0 (wm_len m).
Proof.
  intros Hm. pose proof (wm_len_bounds m Hm). pose proof (zlen_wm_bytes m Hm) as Hz.
  pose proof (align4_bounds (wm_len m)).
  rewrite sub_app_r, Z.sub_diag by lia. apply sub_app_l; lia.
Qed.

Lemma wm_bytes_split m : wm_ok m ->
  wm_bytes m = sub (wm_bytes m) 0 (wm_len m) ++ zeros (align4 (wm_len m) - wm_len m).
Proof.
  intros Hm. pose proof (wm_len_bounds m Hm). pose proof (align4_bounds (wm_len m)).
  unfold wm_bytes. rewrite !app_assoc.
  set (x := ((((le_encode 4 _ ++ _) ++ _) ++ _) ++ _) ++ _).
  assert (zlen x = wm_len m) as Hx.
  { unfold x, wm_len. rewrite !zlen_app, !zlen_le_encode. lia. }
  rewrite sub_app_l by lia. replace (sub x 0 (wm_len m)) with x; [done|].
  rewrite <- Hx. by rewrite sub_all.
Qed.

Lemma drop_splice_0 b d n : (length d <= n)%nat -> drop n (splice b 0 d) = drop n b.
Proof.
  intros. unfold splice. simpl. rewrite drop_app_ge by done. rewrite drop_drop. f_equal. lia.
Qed.

Lemma convert_wm pre m post :
  wm_ok m ->
  nlmsg_convert true true (pre ++ wm_bytes m ++ post) (zlen pre) =
  Done (Some (delivered (-1) sockaddr_0 m)).
Proof.
  intros Hm. pose proof (wm_len_bounds m Hm) as Hl. pose proof (zlen_wm_bytes m Hm) as Hz.
  pose proof (align4_bounds (wm_len m)) as Ha. pose proof (zlen_nonneg pre). pose proof (zlen_nonneg post).
  destruct (wm_fields pre m post Hm) as (Hlen & _).
  assert (zlen (pre ++ wm_bytes m ++ post) = zlen pre + align4 (wm_len m) + zlen post) as Hb
    by (rewrite !zlen_app, Hz; lia).
  unfold nlmsg_convert, nlmsg_len. rewrite get_u32_done by lia. exec_simpl. rewrite Hlen.
  rewrite NLMSG_ALIGN_small by lia. unfold __nlmsg_alloc, sizeof_nlmsghdr. cbn [negb].
  rewrite (proj2 (Z.ltb_ge _ 16)) by lia. unfold set_nlmsg_len.
  rewrite put_u32_done by (rewrite ?zlen_zeros; lia). exec_simpl. cbn [nm_nlh].
  rewrite load_done by lia. exec_simpl. rewrite sub_wm by done.
  assert (zlen (sub (wm_bytes m) 0 (wm_len m)) = wm_len m) as Hs by (rewrite zlen_sub; lia).
  rewrite store_done by (rewrite ?Hs; zl). exec_simpl. unfold delivered, set_buf. simpl.
  do 3 f_equal. rewrite (wm_bytes_split m Hm) at 2. unfold zlen in Hs.
  unfold splice at 1. simpl. f_equal. rewrite drop_splice_0 by (simpl; lia).
  unfold zeros. rewrite drop_replicate. f_equal. lia.
Qed.

(** ** A kernel with a queue of datagrams

    [queue] and [appst] are the two parts of the outside world the hypotheses
    speak of: the datagrams that wait on the socket, and the application. *)
Section Queue.
Context {W A : Type}.
Variable queue : W -> list (list Z).
Variable appst : W -> A.
Variable src : sockaddr_nl.
Variable recvmsg : Z -> Z -> Z -> W -> (Z + rcv) * W.
Variable user : Z -> Z -> Z -> nl_msg -> W -> Z * W.
Variable user_err : Z -> Z -> sockaddr_nl -> list Z -> W -> Z * W.
Variable recv_ow : Z -> nl_sock -> W -> exec (recv_out * W).
Variable act : nl_msg -> A -> A.
Variable good : nl_msg -> A -> Prop.

(** recvmsg(2) on a queue, as its manual page has it: the first datagram, cut
    to the buffer and flagged when cut, its full length with MSG_TRUNC, and left
    in the queue with MSG_PEEK. *)
Definition kernel_ok : Prop :=
  forall flags len ctl w d q, queue w = d :: q -> 0 <= len ->
  exists v w', recvmsg flags len ctl w = (inr v, w') /\
    rv_data v = sub d 0 (Z.min (zlen d) len) /\
    rv_n v = (if has_flag flags MSG_TRUNC then zlen d else Z.min (zlen d) len) /\
    rv_name v = src /\ rv_namelen v = sizeof_sockaddr_nl /\
    rv_flags v = (if len <? zlen d then MSG_TRUNC else 0) /\
    queue w' = (if has_flag flags MSG_PEEK then d :: q else q) /\ appst w' = appst w.

(** The message callback [f] of the application: on a message that is [good] for the
    state the application is in it proceeds or skips the message, keeps off the
    queue, and acts on the application by [act]. *)
Definition callbacks_ok (f : Z) : Prop :=
  forall arg t m w, good m (appst w) ->
    ((user f arg t m w).1 = NL_OK \/ (user f arg t m w).1 = NL_SKIP) /\
    queue (user f arg t m w).2 = queue w /\ appst (user f arg t m w).2 = act m (appst w).

Definition all_mem : recv_mem :=
  {| mem_buf := true; mem_ctl := true; mem_ctl_re := true; mem_buf_re := true; mem_creds := true |}.

(** Whether a socket peeks before it reads. *)
Definition peeks (sk : nl_sock) : bool :=
  has_flag (s_flags sk) NL_MSG_PEEK ||
  (negb (has_flag (s_flags sk) NL_MSG_PEEK_EXPLICIT) && (s_bufsize sk =? 0)).

Definition plain_out (d : list Z) : recv_out :=
  {| ro_n := zlen d; ro_buf := d; ro_src := src; ro_creds := None |}.

(** The second call, with a buffer that is large enough. *)
Lemma recv_loop_read fuel ctl len nla w d q :
  kernel_ok -> queue w = d :: q -> 0 < zlen d <= len ->
  exists w', recv_loop recvmsg (S fuel) all_mem false 0 len ctl nla w = Done (plain_out d, w') /\
    queue w' = q /\ appst w' = appst w.
Proof.
  intros Hk Hq Hd. cbn [recv_loop].
  destruct (Hk 0 len ctl w d q Hq) as (v & w' & -> & Hdata & Hn & Hname & Hnl & Hfl & Hq' & Ha); [lia|].
  change (has_flag 0 MSG_TRUNC) with false in Hn. change (has_flag 0 MSG_PEEK) with false in Hq'.
  cbv iota in Hn, Hq'. rewrite Z.min_l in Hn, Hdata by lia. rewrite sub_all in Hdata.
  rewrite (proj2 (Z.ltb_ge len _)) in Hfl by lia.
  rewrite Hn, Hfl, Hnl, Hname, Hdata. rewrite (proj2 (Z.eqb_neq (zlen d) 0)) by lia.
  change (has_flag 0 MSG_CTRUNC) with false. change (has_flag 0 MSG_TRUNC) with false.
  rewrite (proj2 (Z.ltb_ge len _)) by lia. by exists w'.
Qed.

Lemma nl_recv_queue fuel page sk nla w d q :
  kernel_ok -> queue w = d :: q -> 0 < zlen d -> 0 < page -> 0 <= s_bufsize sk ->
  has_flag (s_flags sk) NL_SOCK_PASSCRED = false -> (2 <= fuel)%nat ->
  exists w', nl_recv recvmsg fuel all_mem page sk nla w =
      Done (if peeks sk || (zlen d <=? (if s_bufsize sk =? 0 then page else s_bufsize sk))
            then plain_out d else recv_fail (- NLE_MSG_TRUNC) src, w') /\
    queue w' = q /\ appst w' = appst w.
Proof.
  intros Hk Hq Hd Hp Hbs Hcred Hf. unfold nl_recv. fold (peeks sk). rewrite Hcred.
  set (len := if negb (s_bufsize sk =? 0) then s_bufsize sk else page).
  assert ((if s_bufsize sk =? 0 then page else s_bufsize sk) = len) as ->
    by (unfold len; by destruct (s_bufsize sk =? 0)).
  assert (0 < len) by (unfold len; case_test; bool_hyps; lia). cbn [all_mem mem_buf mem_ctl negb andb].
  destruct fuel as [|[|fuel]]; [lia..|]. destruct (peeks sk) eqn:Epk; cbn [orb].
  - cbn [recv_loop].
    destruct (Hk (Z.lor MSG_PEEK MSG_TRUNC) len 0 w d q Hq)
      as (v & w1 & -> & Hdata & Hn & Hname & Hnl & Hfl & Hq1 & Ha1); [lia|].
    change (has_flag _ MSG_TRUNC) with true in Hn. change (has_flag _ MSG_PEEK) with true in Hq1.
    cbv iota in Hn, Hq1. rewrite Hn, Hfl, Hname. rewrite (proj2 (Z.eqb_neq (zlen d) 0)) by lia.
    assert (has_flag (if len <? zlen d then MSG_TRUNC else 0) MSG_CTRUNC = false) as ->
      by by destruct (len <? zlen d).
    change (Z.lor MSG_PEEK MSG_TRUNC =? 0) with false. cbn [all_mem mem_buf_re negb].
    rewrite <- Ha1.
    destruct (len <? zlen d) eqn:E; bool_hyps; cbn [orb].
    + by apply recv_loop_read; [|done|lia].
    + change (has_flag 0 MSG_TRUNC) with false. cbv iota.
      by apply recv_loop_read; [|done|lia].
  - destruct (zlen d <=? len) eqn:E; bool_hyps.
    + by apply recv_loop_read.
    + cbn [recv_loop].
      destruct (Hk 0 len 0 w d q Hq) as (v & w1 & -> & Hdata & Hn & Hname & Hnl & Hfl & Hq1 & Ha1);
        [lia|].
      change (has_flag 0 MSG_TRUNC) with false in Hn. change (has_flag 0 MSG_PEEK) with false in Hq1.
      cbv iota in Hn, Hq1. rewrite Z.min_r in Hn by lia. rewrite Hn, Hfl, Hname.
      rewrite (proj2 (Z.ltb_lt len (zlen d))) by lia.
      rewrite (proj2 (Z.eqb_neq len 0)), Z.ltb_irrefl by lia.
      change (has_flag MSG_TRUNC MSG_CTRUNC) with false.
      change (has_flag MSG_TRUNC MSG_TRUNC) with true. cbn [orb]. cbv iota. by exists w1.
Qed.

(** C29. Reading a datagram: when the socket peeks (the default) or its buffer is
    large enough, [nl_recv] returns the next datagram of the kernel's queue
    completely and with its sender, and takes exactly that one from the queue;
    with a buffer that is too small and no peeking it is refused with
    [-NLE_MSG_TRUNC], never returned cut short. *)
Theorem nl_recv_spec fuel page sk nla w d q :
  kernel_ok -> queue w = d :: q -> 0 < zlen d -> 0 < page -> 0 <= s_bufsize sk ->
  has_flag (s_flags sk) NL_SOCK_PASSCRED = false -> (2 <= fuel)%nat ->
  exists out w', nl_recv recvmsg fuel all_mem page sk nla w = Done (out, w') /\
    queue w' = q /\ appst w' = appst w /\
    if peeks sk || (zlen d <=? (if s_bufsize sk =? 0 then page else s_bufsize sk))
    then ro_n out = zlen d /\ ro_buf out = d /\ ro_src out = src
    else ro_n out = - NLE_MSG_TRUNC /\ ro_buf out = [].
Proof.
  intros. destruct (nl_recv_queue fuel page sk nla w d q) as (w' & -> & ? & ?); [done..|].
  eexists _, w'. split; [done|]. split; [done|]. split; [done|]. by case_test.
Qed.

(** *** Dumps: multipart answers to a request *)

(** A callback set with an application function for valid messages only. *)
Definition valid_only (cb : nl_cb) (f : Z) : Prop :=
  nth 0 (cb_set cb) None = Some (msg_cb_user f) /\
  (forall t, 0 < t -> cb_is_set cb t = false) /\ cb_recv_ow cb = None.

Definition data_msg (seq : Z) (m : wire_msg) : Prop :=
  wm_ok m /\ is_control (wm_type m) = false /\ wm_seq m = seq /\
  has_flag (wm_flags m) NLM_F_MULTI = true.
Definition done_msg (seq : Z) (m : wire_msg) : Prop :=
  wm_ok m /\ wm_type m = NLMSG_DONE /\ wm_seq m = seq.
Definition inconsistent (l : list wire_msg) : bool :=
  existsb (fun m => has_flag (wm_flags m) NLM_F_DUMP_INTR) l.

(** The application after the messages [l] of the socket [sk]. *)
Definition consume (sk : nl_sock) (l : list wire_msg) (a : A) : A :=
  fold_left (fun a m => act (delivered (s_proto sk) src m) a) l a.

(** Each of the messages [l] is good when its turn comes. *)
Fixpoint all_good (proto : Z) (l : list wire_msg) (a : A) : Prop :=
  match l with
  | [] => True
  | m :: l => good (delivered proto src m) a /\ all_good proto l (act (delivered proto src m) a)
  end.

Lemma all_good_app proto l1 l2 a :
  all_good proto (l1 ++ l2) a <->
  all_good proto l1 a /\
  all_good proto l2 (fold_left (fun a m => act (delivered proto src m) a) l1 a).
Proof. revert a. induction l1 as [|m l1 IH]; intros a; simpl; [tauto|]. rewrite IH. tauto. Qed.

(** The socket checks sequence numbers itself, takes no credentials. *)
Definition plain_sock (sk : nl_sock) (seq : Z) : Prop :=
  has_flag (s_flags sk) NL_NO_AUTO_ACK = false /\ s_seq_expect sk = seq /\
  has_flag (s_flags sk) NL_SOCK_PASSCRED = false /\ peeks sk = true /\ 0 <= s_bufsize sk.

(** [st'] is [st] after the data messages [l]. *)
Definition progress (f : Z) (st : rstate) (l : list wire_msg) (st' : rstate (W := W)) : Prop :=
  r_sk st' = r_sk st /\ (valid_only (r_cb st') f /\ cb_refcnt (r_cb st') = cb_refcnt (r_cb st)) /\
  queue (r_w st') = queue (r_w st) /\
  appst (r_w st') = consume (r_sk st) l (appst (r_w st)) /\
  r_multipart st' = r_multipart st || negb (bool_decide (l = [])) /\
  r_interrupted st' = r_interrupted st || inconsistent l /\
  r_nrecv st' = r_nrecv st + zlen l.

Lemma call_or_unset f type msg (st : rstate) k e :
  valid_only (r_cb st) f -> 0 < type -> call_or user type msg st k e = e st.
Proof. intros (_ & H & _) Ht. unfold call_or. by rewrite H. Qed.

Lemma convert_fields pre m post :
  wm_ok m ->
  let b := pre ++ wm_bytes m ++ post in
  nlmsg_convert true true b (zlen pre) = Done (Some (delivered (-1) sockaddr_0 m)) /\
  nlmsg_type b (zlen pre) = Done (wm_type m) /\ nlmsg_flags b (zlen pre) = Done (wm_flags m) /\
  nlmsg_seq b (zlen pre) = Done (wm_seq m) /\ nlmsg_len b (zlen pre) = Done (wm_len m).
Proof.
  intros Hm b. pose proof (wm_len_bounds m Hm). pose proof (zlen_wm_bytes m Hm) as Hz.
  pose proof (align4_bounds (wm_len m)). pose proof (zlen_nonneg pre). pose proof (zlen_nonneg post).
  assert (zlen b = zlen pre + align4 (wm_len m) + zlen post) as Hb
    by (unfold b; rewrite !zlen_app, Hz; lia).
  destruct (wm_fields pre m post Hm) as (F1 & F2 & F3 & F4 & _). fold b in F1, F2, F3, F4.
  split; [by apply convert_wm|]. unfold nlmsg_type, nlmsg_flags, nlmsg_seq, nlmsg_len.
  rewrite !get_u16_done, !get_u32_done by lia. by rewrite F1, F2, F3, F4.
Qed.

Lemma process_data f seq pre m post (st : rstate) :
  callbacks_ok f -> valid_only (r_cb st) f -> plain_sock (r_sk st) seq -> data_msg seq m ->
  good (delivered (s_proto (r_sk st)) src m) (appst (r_w st)) ->
  exists st', process_msg user user_err true true (pre ++ wm_bytes m ++ post) src None (zlen pre) st =
      Done (Skip, st') /\ progress f st [m] st'.
Proof.
  intros Hcb Hv (Hack & Hseq & _) (Hm & Hctl & Hms & Hmulti) Hgood.
  destruct (convert_fields pre m post Hm) as (Hc & Ht & Hf & Hsq & Hl).
  unfold process_msg. rewrite Hc. exec_simpl. rewrite Ht, Hf, Hsq, Hl. exec_simpl.
  set (msg := nlmsg_set_src _ src).
  assert (msg = delivered (s_proto (r_sk st)) src m) as -> by done.
  rewrite (call_or_unset f) by done. unfold check_seq.
  change (r_cb (count_recv st)) with (r_cb st). change (r_sk (count_recv st)) with (r_sk st).
  rewrite (proj1 (proj2 Hv)) by done. rewrite Hack, Hms, Hseq, Z.eqb_refl. cbn [negb].
  unfold after_seq. rewrite Hctl, Hmulti. cbv zeta.
  set (st1 := set_multipart (count_recv st) true).
  set (st2 := if has_flag (wm_flags m) NLM_F_DUMP_INTR then set_interrupted st1 else st1).
  assert (valid_only (r_cb st2) f) as Hv2 by (unfold st2; by case_test).
  match goal with |- exists st', ?x = _ /\ _ =>
    assert (x = dispatch user user_err (delivered (s_proto (r_sk st)) src m) src (wm_type m) (wm_len m)
      (drop (Z.to_nat (nlmsg_data (zlen pre))) (pre ++ wm_bytes m ++ post)) st2) as -> end.
  { unfold st2. destruct (has_flag (wm_flags m) NLM_F_DUMP_INTR);
      rewrite ?(call_or_unset f NL_CB_DUMP_INTR) by done;
      destruct (has_flag (wm_flags m) NLM_F_ACK); rewrite ?(call_or_unset f NL_CB_SEND_ACK) by done; done. }
  unfold is_control in Hctl. bool_hyps. unfold dispatch.
  rewrite !(proj2 (Z.eqb_neq (wm_type m) _)) by done.
  unfold call_or, cb_is_set, NL_CB_CALL, nl_cb_call. change (Z.to_nat NL_CB_VALID) with 0%nat.
  destruct Hv2 as (Hs & Hu & Ho). cbn [with_active cb_set cb_args cb_active].
  rewrite Hs. cbn [run_msg_cb].
  assert (appst (r_w st2) = appst (r_w st)) as Hw2 by (unfold st2, st1; by case_test).
  match goal with |- context [user f ?a ?t ?mm ?w] =>
    destruct (Hcb a t mm w) as (Hr & Hq & Ha); [by rewrite Hw2|];
    destruct (user f a t mm w) as [ret w'] end.
  cbn [fst snd] in *. exec_simpl.
  destruct Hr as [-> | ->]; exec_simpl; cbn [Z.eqb NL_OK NL_SKIP Pos.eqb];
    (eexists; split; [done|]; unfold progress, valid_only, st2, st1; simpl;
     destruct (has_flag (wm_flags m) NLM_F_DUMP_INTR); simpl; rewrite ?orb_true_r, ?orb_false_r;
     split_and!; done).
Qed.

Lemma process_done f seq pre m post (st : rstate) :
  valid_only (r_cb st) f -> plain_sock (r_sk st) seq -> done_msg seq m ->
  process_msg user user_err true true (pre ++ wm_bytes m ++ post) src None (zlen pre) st =
  Done (Skip,
    {| r_sk := with_seq (r_sk st) (s_seq_next (r_sk st)) (u32 (seq + 1)); r_cb := r_cb st;
       r_w := r_w st; r_multipart := false;
       r_interrupted := r_interrupted st || inconsistent [m]; r_nrecv := r_nrecv st + 1 |}).
Proof.
  intros Hv (Hack & Hseq & _) (Hm & Hty & Hms).
  destruct (convert_fields pre m post Hm) as (Hc & Ht & Hf & Hsq & Hl).
  unfold process_msg. rewrite Hc. exec_simpl. rewrite Ht, Hf, Hsq, Hl. exec_simpl.
  rewrite (call_or_unset f) by done. unfold check_seq.
  change (r_cb (count_recv st)) with (r_cb st). change (r_sk (count_recv st)) with (r_sk st).
  rewrite (proj1 (proj2 Hv)) by done. rewrite Hack, Hms, Hseq, Z.eqb_refl, Hty. cbn [negb].
  unfold after_seq. change (is_control NLMSG_DONE) with true. cbv zeta. cbv iota.
  unfold dispatch. change (NLMSG_DONE =? NLMSG_DONE) with true. cbv iota.
  unfold inconsistent. cbn [existsb].
  destruct (has_flag (wm_flags m) NLM_F_MULTI), (has_flag (wm_flags m) NLM_F_DUMP_INTR),
    (has_flag (wm_flags m) NLM_F_ACK);
    rewrite ?(call_or_unset f NL_CB_DUMP_INTR) by done;
    rewrite ?(call_or_unset f NL_CB_SEND_ACK) by done;
    rewrite ?(call_or_unset f NL_CB_FINISH) by done;
    rewrite ?orb_true_r, ?orb_false_r; unfold set_multipart, set_sk, set_interrupted, count_recv;
    simpl; rewrite ?Hseq; done.
Qed.

Lemma progress_trans f st l st1 l2 st2 :
  progress f st l st1 -> progress f st1 l2 st2 -> progress f st (l ++ l2) st2.
Proof.
  intros (Hs & [_ Hc] & Hq & Ha & Hm & Hi & Hn) (Hs2 & [Hv2 Hc2] & Hq2 & Ha2 & Hm2 & Hi2 & Hn2).
  unfold progress, consume, inconsistent in *.
  rewrite Hs2, Hc2, Hq2, Ha2, Hm2, Hi2, Hn2, Hs, Hc, Hq, Ha, Hm, Hi, Hn, fold_left_app, existsb_app, zlen_app.
  split_and!; try done; [|by rewrite orb_assoc|lia].
  rewrite <- orb_assoc. f_equal. by destruct l.
Qed.

Lemma progress_nil f st : valid_only (r_cb st) f -> progress f st [] st.
Proof.
  intros Hv. unfold progress. split_and!; try done; simpl.
  - by destruct (r_multipart st).
  - by destruct (r_interrupted st).
  - change (zlen []) with 0. lia.
Qed.

Lemma msg_at_wm pre m post rem :
  wm_ok m -> align4 (wm_len m) <= rem -> msg_at (pre ++ wm_bytes m ++ post) (zlen pre) rem = true.
Proof.
  intros Hm Hr. destruct (wm_fields pre m post Hm) as (Hl & _). pose proof (wm_len_bounds m Hm).
  pose proof (align4_bounds (wm_len m)).
  unfold msg_at. rewrite Hl, !andb_true_iff, !Z.leb_le. lia.
Qed.

(** One round of the loop on a message the processing skips on from. *)
Lemma msg_loop_step pre m post n fuel (st st' : rstate) :
  wm_ok m -> zlen (pre ++ wm_bytes m ++ post) < 2147483640 -> n = zlen (wm_bytes m ++ post) ->
  (Z.to_nat n <= fuel)%nat ->
  process_msg user user_err true true (pre ++ wm_bytes m ++ post) src None (zlen pre) st =
    Done (Skip, st') ->
  exists fuel', (Z.to_nat (zlen post) <= fuel')%nat /\
    msg_loop user user_err fuel true true (pre ++ wm_bytes m ++ post) src None (zlen pre) n st =
    msg_loop user user_err fuel' true true (pre ++ wm_bytes m ++ post) src None
      (zlen (pre ++ wm_bytes m)) (zlen post) st'.
Proof.
  intros Hm Hz -> Hf Hp. pose proof (wm_len_bounds m Hm). pose proof (zlen_wm_bytes m Hm) as Hzm.
  pose proof (align4_bounds (wm_len m)). pose proof (zlen_nonneg pre). pose proof (zlen_nonneg post).
  destruct (wm_fields pre m post Hm) as (Hl & _).
  rewrite !zlen_app, Hzm in *. destruct fuel as [|fuel]; [lia|]. exists fuel. split; [lia|].
  cbn [msg_loop]. rewrite nlmsg_ok_done by (rewrite ?zlen_app, ?Hzm; lia).
  rewrite msg_at_wm by (done || lia). exec_simpl. rewrite Hp. exec_simpl.
  rewrite nlmsg_next_done by (rewrite ?zlen_app, ?Hzm; try lia; apply msg_at_wm; (done || lia)).
  exec_simpl. rewrite Hl. f_equal. lia.
Qed.

Lemma msg_loop_data f seq l : forall pre rest n fuel (st : rstate),
  callbacks_ok f -> Forall (data_msg seq) l -> all_good (s_proto (r_sk st)) l (appst (r_w st)) ->
  valid_only (r_cb st) f -> plain_sock (r_sk st) seq ->
  zlen (pre ++ datagram l ++ rest) < 2147483640 -> n = zlen (datagram l ++ rest) ->
  (Z.to_nat n <= fuel)%nat ->
  exists fuel' st', (Z.to_nat (zlen rest) <= fuel')%nat /\ progress f st l st' /\
    msg_loop user user_err fuel true true (pre ++ datagram l ++ rest) src None (zlen pre) n st =
    msg_loop user user_err fuel' true true (pre ++ datagram l ++ rest) src None
      (zlen (pre ++ datagram l)) (zlen rest) st'.
Proof.
  induction l as [|m l IH]; intros pre rest n fuel st Hcb Hd Hg Hv Hs Hz -> Hf.
  { exists fuel, st. simpl in *. rewrite app_nil_r. split_and!; [done|by apply progress_nil|done]. }
  apply Forall_cons in Hd as [Hm Hd]. destruct Hg as [Hgm Hg].
  change (datagram (m :: l)) with (wm_bytes m ++ datagram l) in *. rewrite <- !app_assoc in *.
  destruct (process_data f seq pre m (datagram l ++ rest) st) as (st1 & Hp & Hg1); [done..|].
  destruct (msg_loop_step pre m (datagram l ++ rest) _ fuel st st1 (proj1 Hm) Hz eq_refl Hf Hp)
    as (fuel1 & Hf1 & ->).
  pose proof Hg1 as (Hsk & [Hv1 _] & _ & Ha1 & _). rewrite (app_assoc pre (wm_bytes m)) in *.
  destruct (IH (pre ++ wm_bytes m) rest (zlen (datagram l ++ rest)) fuel1 st1 Hcb Hd)
    as (fuel2 & st2 & Hf2 & Hg2 & ->); [by rewrite Hsk, Ha1|done|by rewrite Hsk|done|done|done|].
  exists fuel2, st2. split_and!; [done|by apply (progress_trans f st [m] st1)|].
  by rewrite <- !app_assoc.
Qed.

Lemma msg_loop_end fuel (st : rstate) b hdr :
  msg_loop user user_err fuel true true b src None hdr 0 st = Done (Skip, st).
Proof. by destruct fuel. Qed.

Lemma datagram_app l k : datagram (l ++ k) = datagram l ++ datagram k.
Proof. apply flat_map_app. Qed.

Lemma wm_bytes_pos m : wm_ok m -> 0 < zlen (wm_bytes m).
Proof.
  intros Hm. rewrite zlen_wm_bytes by done. pose proof (wm_len_bounds m Hm).
  pose proof (align4_bounds (wm_len m)). lia.
Qed.

(** A datagram of data messages. *)
Lemma loop_datagram f seq l fuel (st : rstate) :
  callbacks_ok f -> Forall (data_msg seq) l -> all_good (s_proto (r_sk st)) l (appst (r_w st)) ->
  valid_only (r_cb st) f -> plain_sock (r_sk st) seq ->
  zlen (datagram l) < 2147483640 -> (Z.to_nat (zlen (datagram l)) <= fuel)%nat ->
  exists st', msg_loop user user_err fuel true true (datagram l) src None 0 (zlen (datagram l)) st =
    Done (Skip, st') /\ progress f st l st'.
Proof.
  intros Hcb Hd Hg Hv Hs Hz Hf.
  destruct (msg_loop_data f seq l [] [] (zlen (datagram l)) fuel st)
    as (fuel' & st' & _ & Hg' & Hl); rewrite ?app_nil_r; try done.
  simpl in Hl. rewrite app_nil_r in Hl. exists st'. split; [|done].
  change (zlen []) with 0 in Hl. rewrite Hl. apply msg_loop_end.
Qed.

(** The last datagram of a dump. *)
Lemma loop_last_datagram f seq l dn fuel (st : rstate) :
  callbacks_ok f -> Forall (data_msg seq) l -> all_good (s_proto (r_sk st)) l (appst (r_w st)) ->
  done_msg seq dn -> valid_only (r_cb st) f ->
  plain_sock (r_sk st) seq -> zlen (datagram (l ++ [dn])) < 2147483640 ->
  (Z.to_nat (zlen (datagram (l ++ [dn]))) <= fuel)%nat ->
  exists st', msg_loop user user_err fuel true true (datagram (l ++ [dn])) src None 0
      (zlen (datagram (l ++ [dn]))) st = Done (Skip, st') /\
    r_multipart st' = false /\ queue (r_w st') = queue (r_w st) /\
    appst (r_w st') = consume (r_sk st) l (appst (r_w st)) /\
    r_interrupted st' = r_interrupted st || inconsistent (l ++ [dn]) /\
    r_nrecv st' = r_nrecv st + zlen (l ++ [dn]) /\ cb_refcnt (r_cb st') = cb_refcnt (r_cb st) /\
    r_sk st' = with_seq (r_sk st) (s_seq_next (r_sk st)) (u32 (seq + 1)).
Proof.
  intros Hcb Hd Hgd Hdn Hv Hs. rewrite datagram_app. change (datagram [dn]) with (wm_bytes dn ++ []). rewrite app_nil_r.
  intros Hz Hf.
  destruct (msg_loop_data f seq l [] (wm_bytes dn) _ fuel st Hcb Hd Hgd Hv Hs Hz eq_refl Hf)
    as (fuel1 & st1 & Hf1 & Hg & Hl). simpl in Hl. change (zlen []) with 0 in Hl. rewrite Hl.
  destruct Hg as (Hsk & [Hv1 Hcr] & Hq & Ha & _ & Hi & Hn).
  pose proof (process_done f seq (datagram l) dn [] st1 Hv1) as Hp. rewrite Hsk in Hp.
  specialize (Hp Hs Hdn). rewrite app_nil_r in Hp.
  match type of Hp with _ = Done (_, ?s) => set (st2 := s) in * end.
  destruct (msg_loop_step (datagram l) dn [] (zlen (wm_bytes dn ++ [])) fuel1 st1 st2 (proj1 Hdn))
    as (fuel2 & _ & Hl2); [by rewrite app_nil_r|done|by rewrite app_nil_r|rewrite app_nil_r; exact Hp|].
  rewrite !app_nil_r in Hl2. rewrite Hl2. change (zlen []) with 0. rewrite msg_loop_end.
  exists st2. split; [done|]. unfold st2. simpl. split_and!; try done.
  - rewrite Hi. unfold inconsistent. rewrite existsb_app. by rewrite <- !orb_assoc.
  - rewrite Hn, zlen_app. change (zlen [dn]) with 1. lia.
Qed.

Variable rfuel : nat.
Variable page : Z.
Abbreviation loop := (read_loop user user_err recvmsg recv_ow rfuel all_mem page).

(** Reading one datagram in the loop. *)
Lemma read_one (st : rstate) f seq d q :
  kernel_ok -> valid_only (r_cb st) f -> plain_sock (r_sk st) seq -> (2 <= rfuel)%nat -> 0 < page ->
  queue (r_w st) = d :: q -> 0 < zlen d ->
  exists w', read_datagram recvmsg recv_ow rfuel all_mem page (r_cb st) (r_sk st) (r_w st) =
      Done (plain_out d, w') /\ queue w' = q /\ appst w' = appst (r_w st).
Proof.
  intros Hk (_ & _ & Ho) (_ & _ & Hc & Hp & Hb) Hf Hpg Hq Hd. unfold read_datagram. rewrite Ho.
  destruct (nl_recv_queue rfuel page (r_sk st) sockaddr_0 (r_w st) d q) as (w' & -> & ?);
    [done..|]. rewrite Hp. by exists w'.
Qed.

Lemma read_dump f seq lst dn ds : forall fuel (st : rstate) rest,
  kernel_ok -> callbacks_ok f -> valid_only (r_cb st) f -> plain_sock (r_sk st) seq ->
  (2 <= rfuel)%nat -> 0 < page ->
  Forall (fun l => l <> [] /\ Forall (data_msg seq) l /\ zlen (datagram l) < 2147483640) ds ->
  Forall (data_msg seq) lst -> done_msg seq dn -> zlen (datagram (lst ++ [dn])) < 2147483640 ->
  all_good (s_proto (r_sk st)) (concat ds ++ lst) (appst (r_w st)) ->
  queue (r_w st) = map datagram ds ++ datagram (lst ++ [dn]) :: rest -> (length ds < fuel)%nat ->
  exists st', loop fuel true true st = Done (recv_result 0 st') /\
    queue (r_w st') = rest /\ appst (r_w st') = consume (r_sk st) (concat ds ++ lst) (appst (r_w st)) /\
    r_interrupted st' = r_interrupted st || inconsistent (concat ds ++ lst ++ [dn]) /\
    r_nrecv st' = r_nrecv st + zlen (concat ds ++ lst ++ [dn]) /\
    cb_refcnt (r_cb st') = cb_refcnt (r_cb st) /\
    r_sk st' = with_seq (r_sk st) (s_seq_next (r_sk st)) (u32 (seq + 1)).
Proof.
  induction ds as [|l ds IH]; intros fuel st rest Hk Hcb Hv Hs Hrf Hpg Hds Hl Hdn Hz Hg Hq Hf;
    (destruct fuel as [|fuel]; [simpl in Hf; lia|]); cbn [read_loop].
  - simpl in Hq.
    assert (0 < zlen (datagram (lst ++ [dn]))) as Hpos.
    { rewrite datagram_app. change (datagram [dn]) with (wm_bytes dn ++ []).
      rewrite app_nil_r, zlen_app. pose proof (zlen_nonneg (datagram lst)).
      pose proof (wm_bytes_pos dn (proj1 Hdn)). lia. }
    destruct (read_one st f seq _ _ Hk Hv Hs Hrf Hpg Hq Hpos) as (w1 & -> & Hq1 & Ha1).
    exec_simpl. cbn [plain_out ro_n ro_buf ro_src ro_creds]. rewrite (proj2 (Z.leb_gt _ 0)) by lia.
    destruct (loop_last_datagram f seq lst dn (Z.to_nat (zlen (datagram (lst ++ [dn]))))
      (set_cbw st (r_cb st) w1)) as (st' & -> & Hm & Hq' & Ha' & Hi' & Hn' & Hcr' & Hs');
      try done; [simpl; by rewrite Ha1|].
    exec_simpl. rewrite Hm. exists st'. simpl in *. rewrite Hq', Ha', Hi', Hn', Hcr', Hs', Hq1, Ha1. done.
  - apply Forall_cons in Hds as [(Hne & Hd & Hzl) Hds]. simpl in Hq.
    assert (0 < zlen (datagram l)) as Hpos.
    { destruct l as [|m l]; [done|]. apply Forall_cons in Hd as [[Hm _] _].
      change (datagram (m :: l)) with (wm_bytes m ++ datagram l). rewrite zlen_app.
      pose proof (wm_bytes_pos m Hm). pose proof (zlen_nonneg (datagram l)). lia. }
    simpl in Hg. rewrite <- app_assoc in Hg. apply all_good_app in Hg as [Hg Hg2].
    destruct (read_one st f seq _ _ Hk Hv Hs Hrf Hpg Hq Hpos) as (w1 & -> & Hq1 & Ha1).
    exec_simpl. cbn [plain_out ro_n ro_buf ro_src ro_creds]. rewrite (proj2 (Z.leb_gt _ 0)) by lia.
    destruct (loop_datagram f seq l (Z.to_nat (zlen (datagram l))) (set_cbw st (r_cb st) w1))
      as (st1 & -> & (Hsk & [Hv1 Hcr1] & Hq1' & Ha1' & Hm & Hi1 & Hn1)); try done; [simpl; rewrite Ha1; apply Hg|].
    exec_simpl. rewrite Hm, (bool_decide_false _ Hne), orb_true_r.
    simpl in Hsk, Hcr1, Hq1', Ha1', Hi1, Hn1, Hf.
    destruct (IH fuel st1 rest) as (st' & -> & Hq' & Ha' & Hi' & Hn' & Hcr' & Hs'); try done;
      [by rewrite Hsk|by rewrite Hsk, Ha1', Ha1|by rewrite Hq1', Hq1|lia|].
    exists st'. split; [done|]. rewrite Hq', Ha', Hi', Hn', Hcr', Hs', Ha1', Hi1, Hn1, Hcr1, Ha1, Hsk.
    simpl. rewrite <- app_assoc. unfold consume, inconsistent.
    rewrite !fold_left_app, !existsb_app, !orb_assoc, !zlen_app. split_and!; (done || lia).
Qed.

(** C1. A dump is received completely and in order: when the kernel's queue
    holds the datagrams of a multipart answer with the expected sequence number,
    the last one ending in NLMSG_DONE, then the receive loop hands every data
    message to the callback for valid messages, once and in the order sent, takes
    exactly these datagrams from the queue, expects the next sequence number
    afterwards, and returns the number of messages, or [-NLE_DUMP_INTR] when any
    of them carries the flag of an inconsistent dump.  Nothing else of the
    socket changes. *)
Theorem recvmsgs_dump f seq ds lst dn rest fuel sk cb w :
  kernel_ok -> callbacks_ok f -> valid_only cb f -> plain_sock sk seq ->
  (2 <= rfuel)%nat -> 0 < page -> (length ds < fuel)%nat ->
  Forall (fun l => l <> [] /\ Forall (data_msg seq) l /\ zlen (datagram l) < 2147483640) ds ->
  Forall (data_msg seq) lst -> done_msg seq dn -> zlen (datagram (lst ++ [dn])) < 2147483640 ->
  all_good (s_proto sk) (concat ds ++ lst) (appst w) ->
  queue w = map datagram ds ++ datagram (lst ++ [dn]) :: rest ->
  let all := concat ds ++ lst ++ [dn] in
  exists st, recvmsgs user user_err recvmsg recv_ow rfuel all_mem page fuel true true sk cb w =
      Done (if inconsistent all then - NLE_DUMP_INTR else zlen all, st) /\
    queue (r_w st) = rest /\ appst (r_w st) = consume sk (concat ds ++ lst) (appst w) /\
    r_sk st = with_seq sk (s_seq_next sk) (u32 (seq + 1)) /\ cb_refcnt (r_cb st) = cb_refcnt cb.
Proof.
  intros Hk Hcb Hv Hs Hrf Hpg Hf Hds Hl Hdn Hz Hg Hq all. unfold recvmsgs.
  destruct (read_dump f seq lst dn ds fuel
    {| r_sk := sk; r_cb := cb; r_w := w; r_multipart := false; r_interrupted := false; r_nrecv := 0 |}
    rest) as (st & -> & Hq' & Ha & Hi & Hn & Hcr & Hse); [done..|].
  simpl in *. exists st. split; [|by split_and!]. unfold recv_result. rewrite Hi, Hn. fold all.
  by destruct (inconsistent all).
Qed.

(** *** Acknowledgements and errors *)

Variable recvmsgs_ow : Z -> nl_sock -> nl_cb -> W -> exec (Z * rstate (W := W)).

(** No callback that would come before or instead of the acknowledgement. *)
Definition no_hooks (cb : nl_cb) : Prop :=
  (forall t, 0 < t -> t <> NL_CB_ACK -> cb_is_set cb t = false) /\
  cb_err cb = None /\ cb_recv_ow cb = None /\ cb_recvmsgs_ow cb = None /\ cb_wf cb.

Definition error_msg (m : wire_msg) : Prop :=
  wm_ok m /\ wm_type m = NLMSG_ERROR /\ 20 <= zlen (wm_payload m) /\
  has_flag (wm_flags m) NLM_F_DUMP_INTR = false.

(** The error code an NLMSG_ERROR message carries. *)
Definition wm_error (m : wire_msg) : Z := s32 (le_at 4 (wm_payload m) 0).

Lemma wm_payload_at m :
  wm_ok m -> drop 16 (wm_bytes m) = wm_payload m ++ zeros (align4 (wm_len m) - wm_len m).
Proof. done. Qed.

Lemma call_or_hook cb type msg (st : rstate) k e :
  no_hooks cb -> r_cb st = cb -> 0 < type -> type <> NL_CB_ACK ->
  call_or user type msg st k e = e st.
Proof. intros (H & _) <- Ht Hne. unfold call_or. by rewrite H. Qed.

Lemma process_error m cb (st : rstate) :
  error_msg m -> no_hooks cb -> r_cb st = cb ->
  nth (Z.to_nat NL_CB_ACK) (cb_set cb) None = Some ack_wait_handler ->
  has_flag (s_flags (r_sk st)) NL_NO_AUTO_ACK = false ->
  exists st', process_msg user user_err true true (wm_bytes m) src None 0 st =
    Done (if wm_seq m =? s_seq_expect (r_sk st) then
            if wm_error m =? 0 then Stop else Out (- nl_syserr2nlerr (wm_error m))
          else Out (- NLE_SEQ_MISMATCH), st') /\
    r_w st' = r_w st /\ r_interrupted st' = r_interrupted st /\ r_nrecv st' = r_nrecv st + 1 /\
    cb_refcnt (r_cb st') = cb_refcnt cb /\
    s_seq_expect (r_sk st') = (if wm_seq m =? s_seq_expect (r_sk st)
                               then u32 (s_seq_expect (r_sk st) + 1) else s_seq_expect (r_sk st)).
Proof.
  intros (Hm & Hty & Hpl & Hin) Hn Hcb Hackh Hauto.
  destruct (convert_fields [] m [] Hm) as (Hc & Ht & Hf & Hsq & Hl).
  change ([] ++ wm_bytes m ++ []) with (wm_bytes m ++ []) in *.
  rewrite app_nil_r in *. change (zlen []) with 0 in *.
  unfold process_msg. rewrite Hc. exec_simpl. rewrite Ht, Hf, Hsq, Hl, Hty. exec_simpl.
  change (Z.to_nat (nlmsg_data 0)) with 16%nat. rewrite (wm_payload_at m Hm).
  rewrite (call_or_hook cb) by done. unfold check_seq.
  change (r_cb (count_recv st)) with (r_cb st). change (r_sk (count_recv st)) with (r_sk st).
  rewrite Hcb, (proj1 Hn), Hauto by done. cbn [negb].
  destruct (wm_seq m =? s_seq_expect (r_sk st)) eqn:Es; cbn [negb].
  2: { rewrite (call_or_hook cb) by done. eexists. split; [done|]. simpl. by rewrite Hcb. }
  unfold after_seq. change (is_control NLMSG_ERROR) with true. rewrite Hin. cbv zeta. cbv iota.
  match goal with |- context [dispatch _ _ ?a _ _ _ ?e] => set (ee := e); set (msg := a) end.
  set (st1 := set_sk (count_recv st) _).
  set (st2 := if has_flag (wm_flags m) NLM_F_MULTI then set_multipart st1 true else st1).
  assert (r_cb st2 = cb /\ r_w st2 = r_w st /\ r_interrupted st2 = r_interrupted st /\
    r_nrecv st2 = r_nrecv st + 1 /\ s_seq_expect (r_sk st2) = u32 (s_seq_expect (r_sk st) + 1))
    as (Hcb2 & Hw2 & Hi2 & Hn2 & Hse2) by (unfold st2; case_test; done).
  rewrite (call_or_hook cb NL_CB_SEND_ACK) by done.
  assert (forall x : exec (flow * rstate), (if has_flag (wm_flags m) NLM_F_ACK then x else x) = x)
    as -> by (intros; by case_test).
  unfold dispatch. cbv zeta. change (NLMSG_ERROR =? NLMSG_DONE) with false.
  change (NLMSG_ERROR =? NLMSG_NOOP) with false. change (NLMSG_ERROR =? NLMSG_OVERRUN) with false.
  change (NLMSG_ERROR =? NLMSG_ERROR) with true. cbv iota. unfold handle_error.
  change (nlmsg_size sizeof_nlmsgerr) with 36.
  rewrite (proj2 (Z.ltb_ge (wm_len m) 36)) by (unfold wm_len; lia).
  assert (0 <= zlen (zeros (align4 (wm_len m) - wm_len m))) by apply zlen_nonneg.
  rewrite get_u32_done by (unfold ee; rewrite ?zlen_app; lia). exec_simpl.
  assert (s32 (le_at 4 ee 0) = wm_error m) as ->.
  { unfold wm_error, ee, le_at. by rewrite sub_app_l by lia. }
  destruct (wm_error m =? 0) eqn:Ee; cbn [negb].
  - unfold call_or, cb_is_set, NL_CB_CALL, nl_cb_call. rewrite Hcb2. cbn [with_active cb_set cb_args].
    rewrite Hackh. cbn [run_msg_cb handler_result default]. exec_simpl.
    eexists. split; [done|]. simpl. by split_and!.
  - rewrite Hcb2. destruct Hn as (_ & -> & _). eexists. split; [done|].
    rewrite Hcb2. by split_and!.
Qed.

(** C28. Waiting for an acknowledgement: when the next datagram is an NLMSG_ERROR
    message with the expected sequence number, [nl_wait_for_ack] returns 0 if it
    is an acknowledgement (error 0) and the translated error otherwise, and the
    socket expects the next number; a message with another number gives
    [-NLE_SEQ_MISMATCH] and leaves the expected number as it is. *)
Theorem nl_wait_for_ack_spec m rest fuel sk w :
  kernel_ok -> plain_sock sk (s_seq_expect sk) -> no_hooks (s_cb sk) -> error_msg m ->
  (2 <= rfuel)%nat -> 0 < page -> (0 < fuel)%nat -> zlen (wm_bytes m) < 2147483640 ->
  queue w = wm_bytes m :: rest ->
  exists sk' w',
    nl_wait_for_ack user user_err recvmsg recv_ow rfuel all_mem page recvmsgs_ow fuel
      true true true sk w =
    Done (if wm_seq m =? s_seq_expect sk then
            if wm_error m =? 0 then 0 else - nl_syserr2nlerr (wm_error m)
          else - NLE_SEQ_MISMATCH, sk', w') /\
    queue w' = rest /\ appst w' = appst w /\
    s_seq_expect sk' = (if wm_seq m =? s_seq_expect sk then u32 (s_seq_expect sk + 1)
                        else s_seq_expect sk).
Proof.
  intros Hk Hs Hn Hm Hrf Hpg Hf Hz Hq. pose proof (zlen_wm_bytes m (proj1 Hm)) as Hzm.
  pose proof (wm_bytes_pos m (proj1 Hm)) as Hpos.
  unfold nl_wait_for_ack. change (nl_cb_clone true (s_cb sk)) with (Some (with_cb_refcnt (s_cb sk) 1)).
  cbv beta iota zeta. rewrite nl_cb_set_done by done. cbn [snd].
  set (cb := with_set _ _ _). destruct Hn as (Hun & Herr & Hro & Hrm & [Hls Hla]).
  assert (no_hooks cb) as Hn.
  { split_and!; try done; [|split; simpl; by rewrite length_insert].
    intros t Ht Hne. unfold cb_is_set, cb. simpl. rewrite nth_lookup.
    rewrite list_lookup_insert_ne by (unfold NL_CB_ACK in *; lia).
    specialize (Hun t Ht Hne). unfold cb_is_set in Hun. by rewrite nth_lookup in Hun. }
  assert (nth (Z.to_nat NL_CB_ACK) (cb_set cb) None = Some ack_wait_handler) as Hack.
  { unfold cb. simpl. rewrite nth_lookup, list_lookup_insert_eq; [done|].
    rewrite Hls. unfold NL_CB_ACK. lia. }
  unfold nl_recvmsgs, nl_recvmsgs_report, recvmsgs.
  assert (cb_recvmsgs_ow cb = None) as -> by apply Hn.
  destruct fuel as [|fuel]; [lia|]. cbn [read_loop]. unfold read_datagram. cbn [r_cb r_sk r_w].
  assert (cb_recv_ow cb = None) as -> by apply Hn.
  destruct Hs as (Hauto & _ & Hc & Hp & Hb).
  destruct (nl_recv_queue rfuel page sk sockaddr_0 w _ _ Hk Hq Hpos Hpg Hb Hc Hrf)
    as (w1 & -> & Hq1 & Ha1). rewrite Hp. exec_simpl.
  cbn [orb plain_out ro_n ro_buf ro_src ro_creds]. rewrite (proj2 (Z.leb_gt _ 0)) by lia.
  pose proof (wm_len_bounds m (proj1 Hm)). pose proof (align4_bounds (wm_len m)).
  remember (Z.to_nat (zlen (wm_bytes m))) as k eqn:Hkk. destruct k as [|k]; [lia|]. cbn [msg_loop].
  rewrite nlmsg_ok_done by lia.
  pose proof (msg_at_wm [] m [] (zlen (wm_bytes m)) (proj1 Hm)) as Hat.
  change ([] ++ wm_bytes m ++ []) with (wm_bytes m ++ []) in Hat. rewrite app_nil_r in Hat. change (zlen []) with 0 in Hat. rewrite Hat by lia.
  exec_simpl.
  match goal with |- context [process_msg user user_err true true _ src None 0 ?s] =>
    destruct (process_error m cb s Hm Hn eq_refl Hack Hauto) as (st' & -> & Hw' & Hi' & Hn' & Hr' & Hse') end.
  cbn [set_cbw r_sk r_w r_interrupted r_nrecv] in *. exec_simpl.
  assert (exists x, nl_cb_put (Some (r_cb st')) = Done x) as (x & Hput).
  { unfold nl_cb_put. simpl. rewrite Hr'. by eexists. }
  pose proof (nl_syserr2nlerr_range (wm_error m)). unfold NLE_MAX, NLE_ATTRSIZE in *.
  exists (r_sk st'), (r_w st'). rewrite Hw', Hq1, Ha1, Hse'.
  destruct (wm_seq m =? s_seq_expect sk); [destruct (wm_error m =? 0)|];
    exec_simpl; unfold recv_result; rewrite Hi'; exec_simpl; rewrite ?Hn'; cbn [Z.eqb Z.add];
    rewrite ?Hput; exec_simpl; rewrite ?Hw'; try done.
  rewrite (proj2 (Z.eqb_neq (- nl_syserr2nlerr _) 0)) by lia.
  by rewrite (proj2 (Z.ltb_ge 0 _)) by lia.
Qed.
End Queue.

(** ** The properties at concrete inputs

    A kernel whose state is the queue of datagrams of the socket, next to an
    application that keeps the messages it got. *)

Definition ex_world : Type := list (list Z) * list nl_msg.
Definition ex_src : sockaddr_nl := {| nl_family := 16; nl_pid := 0; nl_groups := 0 |}.

Definition ex_recvmsg (flags len ctl : Z) (w : ex_world) : (Z + rcv) * ex_world :=
  match w.1 with
  | [] => (inl EAGAIN, w)
  | d :: q =>
      if len <? 0 then (inl EINVAL, w)
      else (inr {| rv_n := if has_flag flags MSG_TRUNC then zlen d else Z.min (zlen d) len;
                   rv_data := sub d 0 (Z.min (zlen d) len); rv_name := ex_src;
                   rv_namelen := sizeof_sockaddr_nl;
                   rv_flags := if len <? zlen d then MSG_TRUNC else 0;
                   rv_controllen := ctl; rv_creds := None |},
            (if has_flag flags MSG_PEEK then d :: q else q, w.2))
  end.

(** The same with a limit on the size of a datagram. *)
Definition ex_recvmsg_max (flags len ctl : Z) (w : ex_world) : (Z + rcv) * ex_world :=
  match ex_recvmsg flags len ctl w with
  | (inr v, w') => if rv_n v <? 2147483640 then (inr v, w') else (inl EINVAL, w)
  | r => r
  end.

Definition ex_act (m : nl_msg) (l : list nl_msg) : list nl_msg := l ++ [m].
Definition ex_user (f arg t : Z) (m : nl_msg) (w : ex_world) : Z * ex_world :=
  (NL_OK, (w.1, ex_act m w.2)).
Definition ex_user_err (f arg : Z) (nla : sockaddr_nl) (e : list Z) (w : ex_world) : Z * ex_world :=
  (NL_STOP, w).
Definition ex_recv_ow (f : Z) (sk : nl_sock) (w : ex_world) : exec (recv_out * ex_world) := Fault.
Definition ex_recvmsgs_ow (f : Z) (sk : nl_sock) (cb : nl_cb) (w : ex_world)
    : exec (Z * rstate (W := ex_world)) := Fault.

Lemma ex_kernel_ok : kernel_ok fst snd ex_src ex_recvmsg.
Proof.
  intros flags len ctl [q a] d q' Hq Hlen. simpl in Hq. subst q. unfold ex_recvmsg. simpl.
  rewrite (proj2 (Z.ltb_ge len 0)) by lia. by eexists _, _.
Qed.

Lemma ex_recvmsg_ok : recvmsg_ok ex_recvmsg_max.
Proof.
  intros flags len ctl [q a] v w'. unfold ex_recvmsg_max, ex_recvmsg. simpl.
  destruct q as [|d q]; [done|]. case_test; [done|].
  pose proof (zlen_nonneg d). cbn [rv_n].
  case_test; [|done]. bool_hyps. intros [= <- <-]. cbn [rv_n rv_data] in *.
  rewrite zlen_sub by lia. destruct (has_flag flags MSG_TRUNC); lia.
Qed.

(** What such a kernel has left are the datagrams of its queue. *)
Definition ex_left (w : ex_world) : nat := length w.1.

Lemma ex_quiet : quiet ex_user ex_user_err ex_left.
Proof. done. Qed.

Lemma ex_max_cases flags len ctl w r w' : ex_recvmsg_max flags len ctl w = (r, w') ->
  r <> inl EINTR /\ (ex_left w' <= ex_left w)%nat /\
  forall v, r = inr v -> (flags = 0 -> (ex_left w' < ex_left w)%nat) /\ has_flag (rv_flags v) MSG_CTRUNC = false.
Proof.
  destruct w as [[|d q] a]; unfold ex_recvmsg_max, ex_recvmsg, ex_left; cbn -[has_flag Z.ltb zlen Z.min sub];
    [by intros [= <- <-]|].
  destruct (len <? 0); [by intros [= <- <-]|]. cbn -[has_flag Z.ltb zlen Z.min sub].
  case_test; [|by intros [= <- <-]]. intros [= <- <-]. split_and!; [done|..].
  - destruct (has_flag flags MSG_PEEK); simpl; lia.
  - intros v [= <-]. cbn [rv_flags]. split; [intros ->; simpl; lia|by case_test].
Qed.

Lemma ex_supply : supply ex_recvmsg_max ex_left.
Proof.
  split; intros *; intros H; destruct (ex_max_cases _ _ _ _ _ _ H) as (Hi & Hle & Hv); try done.
  - by destruct (Hv v eq_refl) as [? _]; auto.
  - destruct (Hv v eq_refl) as [_ ?]; congruence.
Qed.

Definition ex_good (m : nl_msg) (l : list nl_msg) : Prop := True.

Lemma ex_callbacks_ok : callbacks_ok fst snd ex_user ex_act ex_good 1.
Proof. split; [by left|done]. Qed.

Definition ex_valid_cb : nl_cb := (nl_cb_set (with_cb_refcnt cb_0 1) NL_CB_VALID NL_CB_CUSTOM
                                     (Some (msg_cb_user 1)) 0).2.
Definition ex_sock (cb : nl_cb) : nl_sock := default
  {| s_local := sockaddr_0; s_peer := sockaddr_0; s_fd := 0; s_proto := 0; s_seq_next := 0;
     s_seq_expect := 0; s_flags := 0; s_cb := cb; s_bufsize := 0 |} (__alloc_socket true cb 7).

Definition ex_data (flags payload : Z) : wire_msg :=
  {| wm_type := 20; wm_flags := flags; wm_seq := 7; wm_pid := 4242; wm_payload := [payload; 1] |}.
Definition ex_done : wire_msg :=
  {| wm_type := NLMSG_DONE; wm_flags := 2; wm_seq := 7; wm_pid := 4242; wm_payload := [] |}.
Definition ex_ack (seq : Z) : wire_msg :=
  {| wm_type := NLMSG_ERROR; wm_flags := 0; wm_seq := seq; wm_pid := 4242;
     wm_payload := zeros 20 |}.

#[global] Instance wm_ok_dec m : Decision (wm_ok m).
Proof. unfold wm_ok. apply _. Defined.
#[global] Instance data_msg_dec seq m : Decision (data_msg seq m).
Proof. unfold data_msg. apply _. Defined.
#[global] Instance done_msg_dec seq m : Decision (done_msg seq m).
Proof. unfold done_msg. apply _. Defined.

Lemma ex_valid_only : valid_only ex_valid_cb 1.
Proof.
  split_and!; [done| |done]. intros t Ht. unfold cb_is_set, ex_valid_cb. simpl.
  destruct (Z.to_nat t) as [|k] eqn:E; [lia|]. by do 11 (destruct k as [|k]; [done|]).
Qed.

Definition ex_ports : port_map := {| used_ports_map := replicate 32 0; idx_state := 0 |}.
Definition ex_msg : nl_msg := delivered (-1) sockaddr_0 (ex_data 0 5).

Lemma nl_complete_msg_spec_witness :
  exists sk' msg' p', nl_complete_msg ex_ports (ex_sock cb_0) ex_msg 4242 9 = Done (sk', msg', p') /\
    msg_len msg' = 18 /\ le_at 2 (nm_nlh msg') 6 = 5 /\ le_at 4 (nm_nlh msg') 8 = 7.
Proof.
  destruct (nl_complete_msg_spec ex_ports (ex_sock cb_0) ex_msg 4242 9)
    as (sk' & msg' & p' & Hc & _ & Hl & _ & Hf & Hs & _).
  { split_and!; try (by vm_compute). apply (bool_decide_unpack _). by vm_compute. }
  exists sk', msg', p'. split; [exact Hc|]. rewrite Hl, Hf, Hs. by vm_compute.
Defined.

Lemma recvmsgs_safe_witness :
  finishes (recvmsgs ex_user ex_user_err ex_recvmsg_max ex_recv_ow 4 all_mem 16384 3 true true
    (ex_sock ex_valid_cb) ex_valid_cb ([datagram [ex_data 2 5]; zeros 17], [])).
Proof.
  destruct (recvmsgs_safe ex_user ex_user_err ex_recvmsg_max ex_recv_ow 4 all_mem 16384 3 true true
    (ex_sock ex_valid_cb) ex_valid_cb ([datagram [ex_data 2 5]; zeros 17], [])) as [_ H];
    [exact ex_recvmsg_ok|reflexivity|].
  apply (H ex_left); [exact ex_quiet|exact ex_supply|simpl; vm_compute; lia..].
Defined.

Lemma nl_recv_spec_witness :
  let d := datagram [ex_data 2 5] in
  exists out w', nl_recv ex_recvmsg 2 all_mem 8 (ex_sock cb_0) sockaddr_0 ([d; zeros 3], []) =
    Done (out, w') /\ w'.1 = [zeros 3] /\ ro_buf out = d.
Proof.
  intros d. destruct (nl_recv_spec fst snd ex_src ex_recvmsg 2 8 (ex_sock cb_0) sockaddr_0
    ([d; zeros 3], []) d [zeros 3]) as (out & w' & Hr & Hq & _ & Hp);
    [exact ex_kernel_ok|reflexivity|by vm_compute|lia|by vm_compute|reflexivity|lia|].
  exists out, w'. split; [exact Hr|]. split; [exact Hq|]. apply Hp.
Defined.

Lemma recvmsgs_dump_witness :
  exists st, recvmsgs ex_user ex_user_err ex_recvmsg ex_recv_ow 2 all_mem 16384 3 true true
      (ex_sock ex_valid_cb) ex_valid_cb
      ([datagram [ex_data 2 5; ex_data 2 6]; datagram ([ex_data 2 7] ++ [ex_done]); zeros 20], []) =
    Done (4, st) /\ (r_w st).1 = [zeros 20] /\ zlen (r_w st).2 = 3 /\ s_seq_expect (r_sk st) = 8.
Proof.
  destruct (recvmsgs_dump fst snd ex_src ex_recvmsg ex_user ex_user_err ex_recv_ow ex_act ex_good 2 16384
    1 7 [[ex_data 2 5; ex_data 2 6]] [ex_data 2 7] ex_done [zeros 20] 3
    (ex_sock ex_valid_cb) ex_valid_cb
    ([datagram [ex_data 2 5; ex_data 2 6]; datagram ([ex_data 2 7] ++ [ex_done]); zeros 20], []))
    as (st & Hr & Hq & Ha & Hs & _).
  - exact ex_kernel_ok.
  - exact ex_callbacks_ok.
  - exact ex_valid_only.
  - by vm_compute.
  - lia.
  - lia.
  - simpl. lia.
  - repeat constructor; try done; try (by vm_compute); apply (bool_decide_unpack _); by vm_compute.
  - repeat constructor; apply (bool_decide_unpack _); by vm_compute.
  - apply (bool_decide_unpack _); by vm_compute.
  - by vm_compute.
  - by repeat split.
  - reflexivity.
  - exists st. split; [exact Hr|]. split; [exact Hq|]. split; [exact (eq_trans (f_equal zlen Ha) eq_refl)|exact (f_equal s_seq_expect Hs)].
Defined.

Lemma nl_wait_for_ack_spec_witness :
  exists sk' w', nl_wait_for_ack ex_user ex_user_err ex_recvmsg ex_recv_ow 2 all_mem 16384
      ex_recvmsgs_ow 1 true true true (ex_sock cb_0) ([wm_bytes (ex_ack 7)], []) =
    Done (0, sk', w') /\ w'.1 = [] /\ s_seq_expect sk' = 8.
Proof.
  destruct (nl_wait_for_ack_spec fst snd ex_src ex_recvmsg ex_user ex_user_err ex_recv_ow 2 16384
    ex_recvmsgs_ow (ex_ack 7) [] 1 (ex_sock cb_0) ([wm_bytes (ex_ack 7)], []))
    as (sk' & w' & Hr & Hq & _ & Hs).
  - exact ex_kernel_ok.
  - by vm_compute.
  - split_and!; try done. intros t Ht _. unfold cb_is_set. simpl.
    destruct (Z.to_nat t) as [|k] eqn:E; [lia|]. by do 11 (destruct k as [|k]; [done|]).
  - split_and!; try done. apply (bool_decide_unpack _); by vm_compute.
  - lia.
  - lia.
  - lia.
  - by vm_compute.
  - reflexivity.
  - exists sk', w'. split; [exact Hr|]. split; [exact Hq|exact Hs].
Defined.
