(* ===== verification/NlList.v ===== *)
(** Intrusive doubly linked lists (include/netlink/list.h): the list heads as a
    store of next and previous pointers, the insertion and removal functions as
    pointer writes, the iteration macros as walks along the pointers, and the
    sequences the heads stand for. *)
From S2P Require Import Prelude.

Section NlList.
Context {K : Type} `{Countable K}.

(** The struct nl_list_head of every address: [(next, prev)]. *)
#[local] Abbreviation links := (gmap K (K * K)).
Implicit Types (m : links) (h x p q : K) (l : list K).

(** ** Operations *)

Definition get_next m x : exec K :=
  match m !! x with Some v => Done v.1 | None => Fault end.
Definition get_prev m x : exec K :=
  match m !! x with Some v => Done v.2 | None => Fault end.
Definition set_next m x p : exec links :=
  match m !! x with Some v => Done (<[x := (p, v.2)]> m) | None => Fault end.
Definition set_prev m x p : exec links :=
  match m !! x with Some v => Done (<[x := (v.1, p)]> m) | None => Fault end.

(** The head lies in storage that may be fresh. *)
Definition NL_INIT_LIST_HEAD m x : links := <[x := (x, x)]> m.
Definition nl_init_list_head := NL_INIT_LIST_HEAD.

Definition __nl_list_add m (obj prev next : K) : exec links :=
  m ← set_next m prev obj;
  m ← set_prev m obj prev;
  m ← set_prev m next obj;
  set_next m obj next.

Definition nl_list_add_tail m (obj head : K) : exec links :=
  p ← get_prev m head; __nl_list_add m obj p head.

Definition nl_list_add_head m (obj head : K) : exec links :=
  n ← get_next m head; __nl_list_add m obj head n.

Definition nl_list_del m (obj : K) : exec links :=
  n ← get_next m obj; p ← get_prev m obj;
  m ← set_prev m n p;
  p ← get_prev m obj; n ← get_next m obj;
  set_next m p n.

Definition nl_list_empty m (head : K) : exec bool :=
  n ← get_next m head; mret (bool_decide (n = head)).
Definition nl_list_at_tail m (pos head : K) : exec bool :=
  n ← get_next m pos; mret (bool_decide (n = head)).
Definition nl_list_at_head m (pos head : K) : exec bool :=
  p ← get_prev m pos; mret (bool_decide (p = head)).
Definition nl_list_first_entry m (head : K) : exec K := get_next m head.

(** The iteration macros: the body may change the state [S] that holds the
    links and may leave the loop with a result of type [R]. *)
Fixpoint for_each_entry {S R} (lk : S -> links) (body : K -> S -> exec (R + S)) (fuel : nat)
    (pos head : K) (s : S) : exec (R + S) :=
  if bool_decide (pos = head) then mret (inr s)
  else match fuel with
  | O => NoFuel
  | Datatypes.S fuel =>
      r ← body pos s;
      match r with
      | inl r => mret (inl r)
      | inr s => n ← get_next (lk s) pos; for_each_entry lk body fuel n head s
      end
  end.

Definition nl_list_for_each_entry {S R} (lk : S -> links) (body : K -> S -> exec (R + S))
    (fuel : nat) (head : K) (s : S) : exec (R + S) :=
  pos ← get_next (lk s) head; for_each_entry lk body fuel pos head s.

Fixpoint for_each_entry_safe {S R} (lk : S -> links) (body : K -> S -> exec (R + S)) (fuel : nat)
    (pos n head : K) (s : S) : exec (R + S) :=
  if bool_decide (pos = head) then mret (inr s)
  else match fuel with
  | O => NoFuel
  | Datatypes.S fuel =>
      r ← body pos s;
      match r with
      | inl r => mret (inl r)
      | inr s => n' ← get_next (lk s) n; for_each_entry_safe lk body fuel n n' head s
      end
  end.

Definition nl_list_for_each_entry_safe {S R} (lk : S -> links) (body : K -> S -> exec (R + S))
    (fuel : nat) (head : K) (s : S) : exec (R + S) :=
  pos ← get_next (lk s) head;
  n ← get_next (lk s) pos;
  for_each_entry_safe lk body fuel pos n head s.

(** ** The sequence behind a head *)

Definition nxt m x : option K := fst <$> m !! x.
Definition prv m x : option K := snd <$> m !! x.

(** The pointers from [p] through the entries [l] to [q], both ways. *)
Fixpoint seg m p l q : Prop :=
  match l with
  | [] => nxt m p = Some q /\ prv m q = Some p
  | x :: l => nxt m p = Some x /\ prv m x = Some p /\ seg m x l q
  end.

Definition is_list m h l : Prop := NoDup (h :: l) /\ seg m h l h.

Lemma nxt_prv m x a b : nxt m x = Some a -> prv m x = Some b -> m !! x = Some (a, b).
Proof. unfold nxt, prv. destruct (m !! x) as [[? ?]|]; simpl; congruence. Qed.

Lemma get_next_done m x a : nxt m x = Some a -> get_next m x = Done a.
Proof. unfold nxt, get_next. destruct (m !! x); simpl; congruence. Qed.
Lemma get_prev_done m x a : prv m x = Some a -> get_prev m x = Done a.
Proof. unfold prv, get_prev. destruct (m !! x); simpl; congruence. Qed.

(** A write of one pointer, by what can be read afterwards. *)
Lemma set_next_done m x p :
  is_Some (m !! x) -> exists m', set_next m x p = Done m' /\
    (forall y, nxt m' y = if decide (y = x) then Some p else nxt m y) /\
    (forall y, prv m' y = prv m y) /\ (forall y, y <> x -> m' !! y = m !! y) /\ is_Some (m' !! x).
Proof.
  intros [v Hv]. unfold set_next. rewrite Hv. eexists. split; [done|]. unfold nxt, prv.
  split; [|split; [|split]]; [..|by rewrite lookup_insert_eq]; intros y;
    (destruct (decide (y = x)) as [->|Hne];
      [rewrite ?lookup_insert_eq, ?Hv|rewrite ?lookup_insert_ne by done]; done).
Qed.

Lemma set_prev_done m x p :
  is_Some (m !! x) -> exists m', set_prev m x p = Done m' /\
    (forall y, prv m' y = if decide (y = x) then Some p else prv m y) /\
    (forall y, nxt m' y = nxt m y) /\ (forall y, y <> x -> m' !! y = m !! y) /\ is_Some (m' !! x).
Proof.
  intros [v Hv]. unfold set_prev. rewrite Hv. eexists. split; [done|]. unfold nxt, prv.
  split; [|split; [|split]]; [..|by rewrite lookup_insert_eq]; intros y;
    (destruct (decide (y = x)) as [->|Hne];
      [rewrite ?lookup_insert_eq, ?Hv|rewrite ?lookup_insert_ne by done]; done).
Qed.

Lemma nxt_some m x a : nxt m x = Some a -> is_Some (m !! x).
Proof. unfold nxt. destruct (m !! x); [by eexists|done]. Qed.
Lemma prv_some m x a : prv m x = Some a -> is_Some (m !! x).
Proof. unfold prv. destruct (m !! x); [by eexists|done]. Qed.

Lemma seg_app m p l1 x l2 q : seg m p (l1 ++ x :: l2) q <-> seg m p l1 x /\ seg m x l2 q.
Proof.
  revert p. induction l1 as [|y l1 IH]; intros p; simpl; [tauto|]. rewrite IH. tauto.
Qed.

(** What a segment reads. *)
Lemma seg_ext m m' p l q :
  (forall x, x ∈ p :: l -> nxt m' x = nxt m x) ->
  (forall x, x ∈ l ++ [q] -> prv m' x = prv m x) -> seg m p l q -> seg m' p l q.
Proof.
  revert p. induction l as [|y l IH]; intros p Hn Hp; simpl.
  - rewrite Hn, Hp by set_solver. done.
  - intros (H1 & H2 & H3). rewrite Hn, Hp by set_solver. split_and!; [done..|].
    apply IH; [|intros x Hx; apply Hp; set_solver|done]. intros x Hx. apply Hn. set_solver.
Qed.

Lemma is_list_frame m m' h l :
  is_list m h l -> (forall x, x ∈ h :: l -> m' !! x = m !! x) -> is_list m' h l.
Proof.
  intros [Hnd Hs] He. split; [done|]. eapply seg_ext; [| |exact Hs];
    intros x Hx; unfold nxt, prv; rewrite He; set_solver.
Qed.

Lemma seg_some m p l q x : seg m p l q -> x ∈ p :: l -> is_Some (m !! x).
Proof.
  revert p. induction l as [|y l IH]; intros p; simpl.
  - intros [H1 _] Hx. apply list_elem_of_singleton in Hx as ->. by eapply nxt_some.
  - intros (H1 & _ & H3) Hx. apply elem_of_cons in Hx as [->|Hx]; [by eapply nxt_some|].
    by apply (IH y).
Qed.

Lemma is_list_some m h l x : is_list m h l -> x ∈ h :: l -> is_Some (m !! x).
Proof. intros [_ Hs]. by apply seg_some with h. Qed.

(** The last entry, seen from the end, and what lies before it. *)
Lemma seg_prev m p l q : seg m p l q -> exists x, prv m q = Some x /\ x ∈ p :: l.
Proof.
  revert p. induction l as [|y l IH]; intros p; simpl.
  - intros [_ H2]. exists p. split; [done|set_solver].
  - intros (_ & _ & Hs). destruct (IH y Hs) as (x & ? & ?). exists x. split; [done|set_solver].
Qed.

Lemma last_cons p y l : List.last (y :: l) p = List.last l y.
Proof.
  revert p y. induction l as [|z l IH]; intros p y; [done|].
  change (List.last (y :: z :: l) p) with (List.last (z :: l) p).
  by rewrite (IH p z), (IH y z).
Qed.

Lemma last_in p l : List.last l p ∈ p :: l.
Proof.
  revert p. induction l as [|y l IH]; intros p; [set_solver|].
  rewrite last_cons. pose proof (IH y) as Hi. set_solver.
Qed.

(** Cutting a segment, and moving its ends. *)
Lemma seg_split m p l1 l2 q :
  seg m p (l1 ++ l2) q -> seg m p l1 (List.hd q l2) /\ seg m (List.last l1 p) l2 q.
Proof.
  revert p. induction l1 as [|y l1 IH]; intros p.
  - destruct l2; simpl; tauto.
  - intros (H1 & H2 & Hs). apply IH in Hs as [Ha Hb]. split; [done|]. by rewrite last_cons.
Qed.

Lemma seg_end m m' p l q q' :
  NoDup (p :: l) -> seg m p l q ->
  nxt m' (List.last l p) = Some q' -> prv m' q' = Some (List.last l p) ->
  (forall x, x ∈ p :: l -> x <> List.last l p -> nxt m' x = nxt m x) ->
  (forall x, x ∈ l -> prv m' x = prv m x) -> seg m' p l q'.
Proof.
  revert p. induction l as [|y l IH]; intros p Hnd; [done|].
  rewrite last_cons. intros (H1 & H2 & Hs) Hn Hp Hn' Hp'. apply NoDup_cons in Hnd as [Hni Hnd].
  split; [|split].
  - rewrite Hn'; [done|set_solver|]. intros ->. apply Hni, last_in.
  - rewrite Hp' by set_solver. done.
  - apply IH; [done|done|done|done| |]; intros x Hx; intros; [apply Hn'|apply Hp']; set_solver.
Qed.

Lemma seg_start m m' p p' l q :
  NoDup (l ++ [q]) -> seg m p l q ->
  nxt m' p' = Some (List.hd q l) -> prv m' (List.hd q l) = Some p' ->
  (forall x, x ∈ l -> nxt m' x = nxt m x) ->
  (forall x, x ∈ l ++ [q] -> x <> List.hd q l -> prv m' x = prv m x) -> seg m' p' l q.
Proof.
  destruct l as [|y l]; [done|]. simpl. intros Hnd (H1 & H2 & Hs) Hn Hp Hn' Hp'.
  split; [done|]. split; [done|]. apply NoDup_cons in Hnd as [Hni _].
  eapply seg_ext; [| |exact Hs]; intros x Hx; [by apply Hn'|]. apply Hp'; set_solver.
Qed.

Lemma seg_join m p l1 l2 q :
  seg m p l1 (List.hd q l2) -> seg m (List.last l1 p) l2 q -> seg m p (l1 ++ l2) q.
Proof.
  destruct l2 as [|y l2]; simpl; [by rewrite app_nil_r|]. intros H1 (_ & _ & H2).
  by apply seg_app.
Qed.

Lemma hd_in q l : List.hd q l ∈ l ++ [q].
Proof. destruct l; simpl; set_solver. Qed.

Lemma nodup_snoc h l : NoDup (h :: l) -> NoDup (l ++ [h]).
Proof. intros Hnd. by rewrite <- (Permutation_cons_append l h). Qed.

(** ** What the operations do to the sequences *)

(** A fresh head is an empty list. *)
Lemma init_list m h : is_list (NL_INIT_LIST_HEAD m h) h [].
Proof.
  split; [apply NoDup_singleton|]. unfold NL_INIT_LIST_HEAD, nxt, prv. simpl.
  unfold nxt, prv. by rewrite lookup_insert_eq.
Qed.

(** The parts around a place of a list without duplicates. *)
Lemma nodup_parts h l1 l2 :
  NoDup (h :: l1 ++ l2) ->
  NoDup (h :: l1) /\ NoDup (l2 ++ [h]) /\
  (forall x, x ∈ l2 -> x <> List.last l1 h) /\ (forall x, x ∈ l1 -> x <> List.hd h l2).
Proof.
  intros Hnd. apply NoDup_cons in Hnd as [Hh Hnd]. apply NoDup_app in Hnd as (Ha & Hb & Hc).
  rewrite elem_of_app in Hh.
  assert (NoDup (h :: l1)) by (constructor; tauto).
  assert (NoDup (h :: l2)) by (constructor; tauto).
  split; [done|]. split; [by apply nodup_snoc|]. split.
  - intros x Hx ->. pose proof (last_in h l1) as Hl. apply elem_of_cons in Hl as [E|E].
    + rewrite E in Hx. tauto.
    + by apply (Hb _ E).
  - intros x Hx ->. pose proof (hd_in h l2) as Hl. apply elem_of_app in Hl as [E|E].
    + by apply (Hb _ Hx).
    + apply list_elem_of_singleton in E. rewrite E in Hx. tauto.
Qed.

Lemma not_in_parts h l1 l2 obj :
  obj ∉ h :: l1 ++ l2 ->
  (forall x, x ∈ h :: l1 -> x <> obj) /\ (forall x, x ∈ l2 ++ [h] -> x <> obj) /\
  (forall x, x ∈ l2 -> x <> obj).
Proof. intros Hn. split_and!; intros x Hx ->; apply Hn; set_solver. Qed.

Lemma __nl_list_add_spec m h l1 l2 obj :
  is_list m h (l1 ++ l2) -> obj ∉ h :: l1 ++ l2 -> is_Some (m !! obj) ->
  exists m', __nl_list_add m obj (List.last l1 h) (List.hd h l2) = Done m' /\
    is_list m' h (l1 ++ obj :: l2) /\
    (forall x, x ∉ h :: obj :: l1 ++ l2 -> m' !! x = m !! x) /\ dom m' = dom m.
Proof.
  intros Hl Hni Hobj. pose proof Hl as [Hnd Hs].
  set (p := List.last l1 h). set (n := List.hd h l2).
  assert (p ∈ h :: l1) as Hp by apply last_in.
  assert (n ∈ l2 ++ [h]) as Hn by apply hd_in.
  assert (is_Some (m !! p)) as Hps by (apply (is_list_some m h _ p Hl); set_solver).
  assert (is_Some (m !! n)) as Hns by (apply (is_list_some m h _ n Hl); set_solver).
  assert (obj <> p) by set_solver. assert (obj <> n) by set_solver.
  unfold __nl_list_add.
  destruct (set_next_done m p obj Hps) as (m1 & -> & N1 & P1 & E1 & S1). exec_simpl.
  assert (is_Some (m1 !! obj)) as So by (by rewrite E1).
  destruct (set_prev_done m1 obj p So) as (m2 & -> & P2 & N2 & E2 & S2). exec_simpl.
  assert (is_Some (m2 !! n)) as Sn.
  { destruct (decide (n = p)) as [->|]; [by rewrite E2|]. rewrite E2, E1 by done. done. }
  destruct (set_prev_done m2 n obj Sn) as (m3 & -> & P3 & N3 & E3 & S3). exec_simpl.
  assert (is_Some (m3 !! obj)) as So3 by (by rewrite E3).
  destruct (set_next_done m3 obj n So3) as (m4 & -> & N4 & P4 & E4 & S4).
  assert (forall y, nxt m4 y = if decide (y = obj) then Some n else
            if decide (y = p) then Some obj else nxt m y) as HN.
  { intros y. rewrite N4. case_decide; [done|]. by rewrite N3, N2, N1. }
  assert (forall y, prv m4 y = if decide (y = n) then Some obj else
            if decide (y = obj) then Some p else prv m y) as HP.
  { intros y. rewrite P4, P3. case_decide; [done|]. by rewrite P2, P1. }
  exists m4. split; [done|]. apply seg_split in Hs as [Hs1 Hs2]. fold n in Hs1. fold p in Hs2.
  destruct (nodup_parts h l1 l2 Hnd) as (Hnd1 & Hnd2 & Hp2 & Hn1). fold p in Hp2. fold n in Hn1.
  destruct (not_in_parts h l1 l2 obj Hni) as (Ho1 & Ho2 & Ho3).
  split; [split|split].
  - rewrite app_comm_cons, <- Permutation_middle. by constructor.
  - apply seg_app. split.
    + apply (seg_end m m4 h l1 n obj); fold p; [done|done| | | |].
      * rewrite HN. by rewrite decide_False, decide_True by done.
      * rewrite HP, decide_False by done. by rewrite decide_True.
      * intros x Hx Hne. rewrite HN, !decide_False by auto. done.
      * intros x Hx. rewrite HP, !decide_False; [done|apply Ho1; by right|by apply Hn1].
    + apply (seg_start m m4 p obj l2 h); fold n; [done|done| | | |].
      * rewrite HN. by rewrite decide_True.
      * rewrite HP. by rewrite decide_True.
      * intros x Hx. rewrite HN, !decide_False by auto. done.
      * intros x Hx Hne. rewrite HP, !decide_False by auto. done.
  - intros x Hx. assert (x <> obj) by set_solver. assert (x ∉ h :: l1 ++ l2) as Hx' by set_solver.
    destruct (not_in_parts h l1 l2 x Hx') as (Hx1 & Hx2 & _).
    rewrite E4, E3, E2, E1 by (try apply not_eq_sym; auto). done.
  - apply set_eq. intros y. rewrite !elem_of_dom.
    destruct (decide (y = obj)) as [->|]; [tauto|]. rewrite E4 by done.
    destruct (decide (y = n)) as [->|]; [tauto|]. rewrite E3, E2 by done.
    destruct (decide (y = p)) as [->|]; [tauto|]. by rewrite E1.
Qed.

Lemma nl_list_add_tail_spec m h l obj :
  is_list m h l -> obj ∉ h :: l -> is_Some (m !! obj) ->
  exists m', nl_list_add_tail m obj h = Done m' /\ is_list m' h (l ++ [obj]) /\
    (forall x, x ∉ h :: obj :: l -> m' !! x = m !! x) /\ dom m' = dom m.
Proof.
  intros Hl Hni Hobj. pose proof Hl as [_ Hs]. unfold nl_list_add_tail.
  rewrite <- (app_nil_r l) in Hl, Hni, Hs.
  apply seg_split in Hs as [_ [_ Hp]]. rewrite (get_prev_done _ _ _ Hp). exec_simpl.
  destruct (__nl_list_add_spec m h l [] obj Hl Hni Hobj) as (m' & He & ? & Hf & ?).
  rewrite app_nil_r in Hf. exists m'. split; [exact He|done].
Qed.

Lemma nl_list_add_head_spec m h l obj :
  is_list m h l -> obj ∉ h :: l -> is_Some (m !! obj) ->
  exists m', nl_list_add_head m obj h = Done m' /\ is_list m' h (obj :: l) /\
    (forall x, x ∉ h :: obj :: l -> m' !! x = m !! x) /\ dom m' = dom m.
Proof.
  intros Hl Hni Hobj. pose proof Hl as [_ Hs]. unfold nl_list_add_head.
  assert (nxt m h = Some (List.hd h l)) as Hn by (destruct l; simpl in *; tauto).
  rewrite (get_next_done _ _ _ Hn). exec_simpl.
  by apply (__nl_list_add_spec m h [] l obj).
Qed.

(** The removed entry keeps its pointers. *)
Lemma nl_list_del_spec m h l1 l2 obj :
  is_list m h (l1 ++ obj :: l2) ->
  exists m', nl_list_del m obj = Done m' /\ is_list m' h (l1 ++ l2) /\
    (forall x, x ∉ h :: l1 ++ l2 -> m' !! x = m !! x) /\ dom m' = dom m.
Proof.
  intros Hl. pose proof Hl as [Hnd Hs]. apply seg_app in Hs as [Hs1 Hs2].
  set (p := List.last l1 h). set (n := List.hd h l2).
  assert (p ∈ h :: l1) as Hp by apply last_in.
  assert (n ∈ l2 ++ [h]) as Hn by apply hd_in.
  rewrite <- (Permutation_middle l1 l2) in Hnd.
  rewrite (Permutation_swap obj h) in Hnd. apply NoDup_cons in Hnd as [Hni Hnd'].
  assert (nxt m obj = Some n) as Hnx by (unfold n; destruct l2; simpl in *; tauto).
  assert (prv m obj = Some p) as Hpx.
  { rewrite <- (app_nil_r l1) in Hs1. apply seg_split in Hs1 as [_ [_ H1]]. exact H1. }
  assert (is_Some (m !! p)) as Hps by (apply (is_list_some m h _ p Hl); set_solver).
  assert (is_Some (m !! n)) as Hns by (apply (is_list_some m h _ n Hl); set_solver).
  assert (obj <> p) by set_solver. assert (obj <> n) by set_solver.
  unfold nl_list_del. rewrite (get_next_done _ _ _ Hnx). exec_simpl.
  rewrite (get_prev_done _ _ _ Hpx). exec_simpl.
  destruct (set_prev_done m n p Hns) as (m1 & -> & P1 & N1 & E1 & S1). exec_simpl.
  rewrite (get_prev_done m1 obj p) by (rewrite P1, decide_False by done; done). exec_simpl.
  rewrite (get_next_done m1 obj n) by (by rewrite N1). exec_simpl.
  assert (is_Some (m1 !! p)) as Sp.
  { destruct (decide (p = n)) as [->|]; [done|]. by rewrite E1. }
  destruct (set_next_done m1 p n Sp) as (m2 & -> & N2 & P2 & E2 & S2).
  exists m2. split; [done|].
  destruct (nodup_parts h l1 l2 Hnd') as (Hnd1 & Hnd2 & Hp2 & Hn1). fold p in Hp2. fold n in Hn1.
  split; [split; [done|]|split].
  - apply seg_join; fold n p.
    + apply (seg_end m m2 h l1 obj n); fold p; [done|done| | | |].
      * by rewrite N2, decide_True.
      * rewrite P2, P1. by rewrite decide_True.
      * intros x Hx Hne. by rewrite N2, decide_False, N1 by done.
      * intros x Hx. by rewrite P2, P1, decide_False by auto.
    + apply (seg_start m m2 obj p l2 h); fold n; [done|done| | | |].
      * by rewrite N2, decide_True.
      * rewrite P2, P1. by rewrite decide_True.
      * intros x Hx. by rewrite N2, decide_False, N1 by auto.
      * intros x Hx Hne. by rewrite P2, P1, decide_False by done.
  - intros x Hx. destruct (not_in_parts h l1 l2 x Hx) as (Hx1 & Hx2 & _).
    rewrite E2, E1 by (apply not_eq_sym; auto). done.
  - apply set_eq. intros y. rewrite !elem_of_dom.
    destruct (decide (y = p)) as [->|]; [tauto|]. rewrite E2 by done.
    destruct (decide (y = n)) as [->|]; [tauto|]. by rewrite E1.
Qed.

(** ** Iteration

    The walk the macros take: every entry of [l] leads to the next one, the
    last one to the head. *)
Fixpoint walk m l h : Prop :=
  match l with
  | [] => is_Some (m !! h)
  | x :: l => x <> h /\ nxt m x = Some (List.hd h l) /\ walk m l h
  end.

Lemma seg_walk m p l h : h ∉ l -> is_Some (m !! h) -> seg m p l h -> walk m l h.
Proof.
  revert p. induction l as [|x l IH]; intros p Hn Hh; [done|]. intros (_ & _ & Hs).
  apply not_elem_of_cons in Hn as [Hx Hn]. split; [done|]. split; [|by apply (IH x)].
  destruct l; simpl in *; tauto.
Qed.

Lemma is_list_walk m h l : is_list m h l -> nxt m h = Some (List.hd h l) /\ walk m l h.
Proof.
  intros Hl. pose proof Hl as [Hnd Hs]. apply NoDup_cons in Hnd as [Hn _]. split.
  - destruct l; simpl in *; tauto.
  - apply (seg_walk m h); [done| |done]. apply (is_list_some m h l h Hl). by left.
Qed.

(** The loop over a sequence. *)
Fixpoint loop_list {S R} (body : K -> S -> exec (R + S)) l (s : S) : exec (R + S) :=
  match l with
  | [] => mret (inr s)
  | x :: l =>
      r ← body x s;
      match r with inl r => mret (inl r) | inr s => loop_list body l s end
  end.

Section Loops.
Context {S R : Type} (lk : S -> links) (body : K -> S -> exec (R + S)) (head : K).

(** A loop invariant, by the entries that are left. *)
Variable Inv : list K -> S -> Prop.
Hypothesis Inv_walk : forall l s, Inv l s -> walk (lk s) l head.

Lemma for_each_entry_eq fuel l s :
  (forall x l s s', Inv (x :: l) s -> body x s = Done (inr s') ->
    Inv l s' /\ nxt (lk s') x = Some (List.hd head l)) ->
  Inv l s -> (length l <= fuel)%nat ->
  for_each_entry lk body fuel (List.hd head l) head s = loop_list body l s.
Proof.
  intros Hb. revert fuel s. induction l as [|x l IH]; intros fuel s Hi Hf.
  - simpl. destruct fuel; cbn [for_each_entry]; by rewrite bool_decide_true.
  - destruct (Inv_walk _ _ Hi) as (Hne & _ & _). simpl in Hf. destruct fuel as [|fuel]; [lia|].
    cbn [for_each_entry List.hd loop_list]. rewrite bool_decide_false by done.
    destruct (body x s) as [[r|s']| | |] eqn:E; exec_simpl; [done| |done..].
    destruct (Hb x l s s' Hi E) as [Hi' Hx]. rewrite (get_next_done _ _ _ Hx). exec_simpl.
    apply IH; [done|lia].
Qed.

Lemma nl_list_for_each_entry_eq fuel l s :
  (forall x l s s', Inv (x :: l) s -> body x s = Done (inr s') ->
    Inv l s' /\ nxt (lk s') x = Some (List.hd head l)) ->
  Inv l s -> is_list (lk s) head l -> (length l <= fuel)%nat ->
  nl_list_for_each_entry lk body fuel head s = loop_list body l s.
Proof.
  intros Hb Hi Hl Hf. unfold nl_list_for_each_entry. destruct (is_list_walk _ _ _ Hl) as [Hn _].
  rewrite (get_next_done _ _ _ Hn). exec_simpl. by apply for_each_entry_eq.
Qed.

(** The safe variant reads the pointer of the current entry before the body. *)
Lemma for_each_entry_safe_eq fuel l s n :
  (forall x l s s', Inv (x :: l) s -> body x s = Done (inr s') -> Inv l s') ->
  Inv l s -> (length l <= fuel)%nat -> (l <> [] -> nxt (lk s) (List.hd head l) = Some n) ->
  for_each_entry_safe lk body fuel (List.hd head l) n head s = loop_list body l s.
Proof.
  intros Hb. revert fuel s n. induction l as [|x l IH]; intros fuel s n Hi Hf Hn.
  - simpl. destruct fuel; cbn [for_each_entry_safe]; by rewrite bool_decide_true.
  - destruct (Inv_walk _ _ Hi) as (Hne & Hx & Hw). simpl in Hf. destruct fuel as [|fuel]; [lia|].
    cbn [for_each_entry_safe List.hd loop_list]. rewrite bool_decide_false by done.
    cbn [List.hd] in Hn. rewrite Hx in Hn. specialize (Hn ltac:(done)). simplify_eq.
    destruct (body x s) as [[r|s']| | |] eqn:E; exec_simpl; [done| |done..].
    pose proof (Hb x l s s' Hi E) as Hi'.
    assert (exists n', nxt (lk s') (List.hd head l) = Some n') as (n' & Hn').
    { pose proof (Inv_walk _ _ Hi') as Hw'. destruct l as [|y l]; simpl in *; [|by eexists; apply Hw'].
      unfold nxt. destruct Hw' as [v ->]. by eexists. }
    rewrite (get_next_done _ _ _ Hn'). exec_simpl. by apply IH; [|lia|].
Qed.

Lemma nl_list_for_each_entry_safe_eq fuel l s :
  (forall x l s s', Inv (x :: l) s -> body x s = Done (inr s') -> Inv l s') ->
  Inv l s -> is_list (lk s) head l -> (length l <= fuel)%nat ->
  nl_list_for_each_entry_safe lk body fuel head s = loop_list body l s.
Proof.
  intros Hb Hi Hl Hf. unfold nl_list_for_each_entry_safe.
  destruct (is_list_walk _ _ _ Hl) as [Hn Hw]. rewrite (get_next_done _ _ _ Hn). exec_simpl.
  assert (exists n, nxt (lk s) (List.hd head l) = Some n) as (n & Hn').
  { destruct l as [|x l]; simpl in *; [by eexists|]. by eexists; apply Hw. }
  rewrite (get_next_done _ _ _ Hn'). exec_simpl. by apply for_each_entry_safe_eq.
Qed.
End Loops.

Lemma nl_list_empty_spec m h l :
  is_list m h l -> nl_list_empty m h = Done (bool_decide (l = [])).
Proof.
  intros Hl. pose proof Hl as [Hnd _]. destruct (is_list_walk _ _ _ Hl) as [Hn _].
  unfold nl_list_empty. rewrite (get_next_done _ _ _ Hn). exec_simpl. f_equal.
  apply bool_decide_ext. destruct l as [|x l]; simpl; [done|].
  split; [|done]. intros ->. apply NoDup_cons in Hnd as [Hx _]. set_solver.
Qed.

Lemma is_list_del_head m h x l : is_list m h (x :: l) ->
  exists m', nl_list_del m x = Done m' /\ is_list m' h l.
Proof.
  intros Hl. destruct (nl_list_del_spec m h [] l x Hl) as (m' & ? & ? & _). by exists m'.
Qed.

(** Visiting and removing every entry. *)
Definition del_all_body (x : K) (s : list K * links) : exec (unit + (list K * links)) :=
  m ← nl_list_del s.2 x; mret (inr (s.1 ++ [x], m)).

(** C36. List heads behave as sequences: for the sequence [l] behind a head,
    adding at the tail and at the head and removing any entry never touch memory
    that is not a list head, give exactly the expected sequence, leave every list
    that shares no entry as it was, and a removal leaves the removed entry's own
    pointers as they were; the test for emptiness is right; and a safe iteration
    visits every entry once in order although its body unlinks the entry. *)
Theorem nl_list_refines m h l :
  is_list m h l ->
  (forall obj, obj ∉ h :: l -> is_Some (m !! obj) ->
    exists m1 m2, nl_list_add_tail m obj h = Done m1 /\ is_list m1 h (l ++ [obj]) /\
      nl_list_add_head m obj h = Done m2 /\ is_list m2 h (obj :: l) /\
      forall h' l', is_list m h' l' -> (forall x, x ∈ h' :: l' -> x ∉ h :: obj :: l) ->
        is_list m1 h' l' /\ is_list m2 h' l') /\
  (forall l1 x l2, l = l1 ++ x :: l2 ->
    exists m', nl_list_del m x = Done m' /\ is_list m' h (l1 ++ l2) /\ m' !! x = m !! x /\
      forall h' l', is_list m h' l' -> (forall y, y ∈ h' :: l' -> y ∉ h :: l) -> is_list m' h' l') /\
  nl_list_empty m h = Done (bool_decide (l = [])) /\
  (forall fuel, (length l <= fuel)%nat ->
    exists m', nl_list_for_each_entry_safe snd del_all_body fuel h ([], m) = Done (inr (l, m')) /\
      is_list m' h []).
Proof.
  intros Hl. split; [|split; [|split]].
  - intros obj Hn Ho. destruct (nl_list_add_tail_spec m h l obj Hl Hn Ho) as (m1 & ? & ? & Hf1 & _).
    destruct (nl_list_add_head_spec m h l obj Hl Hn Ho) as (m2 & ? & ? & Hf2 & _).
    exists m1, m2. do 4 (split; [done|]). intros h' l' Hl' Hd.
    split; eapply is_list_frame; [done| |done|]; intros x Hx; [apply Hf1|apply Hf2]; by apply Hd.
  - intros l1 x l2 ->. destruct (nl_list_del_spec m h l1 l2 x Hl) as (m' & ? & ? & Hf & _).
    exists m'. split; [done|]. split; [done|]. split.
    + apply Hf. destruct Hl as [Hnd _]. rewrite <- (Permutation_middle l1 l2) in Hnd.
      rewrite (Permutation_swap x h) in Hnd. by apply NoDup_cons in Hnd as [? _].
    + intros h' l' Hl' Hd. eapply is_list_frame; [done|]. intros y Hy. apply Hf.
      specialize (Hd y Hy). set_solver.
  - by apply nl_list_empty_spec.
  - intros fuel Hf.
    rewrite (nl_list_for_each_entry_safe_eq snd del_all_body h (fun l s => is_list s.2 h l)
      (fun l s H => proj2 (is_list_walk _ _ _ H)) fuel l ([], m)); [|clear|done..].
    + assert (forall l pre m, is_list m h l -> exists m',
        loop_list del_all_body l (pre, m) = Done (inr (pre ++ l, m')) /\ is_list m' h []) as Hg.
      { clear. induction l as [|x l IH]; intros pre m Hl; simpl.
        - rewrite app_nil_r. by exists m.
        - unfold del_all_body. simpl. destruct (is_list_del_head _ _ _ _ Hl) as (m' & -> & Hl').
          exec_simpl. destruct (IH (pre ++ [x]) m' Hl') as (m2 & He & Hl2).
          exists m2. rewrite <- app_assoc in He. by split. }
      by apply Hg.
    + intros x l [pre m] s' Hl. unfold del_all_body. cbn [fst snd] in *.
      destruct (is_list_del_head _ _ _ _ Hl) as (m' & -> & Hl'). exec_simpl. by intros [= <-].
Qed.
End NlList.

(** ** The property at a concrete input *)

Lemma nl_list_refines_witness :
  let m := <[3 := (0, 0)]> (NL_INIT_LIST_HEAD ∅ 0) in
  exists m1 m2, nl_list_add_tail m 3 0 = Done m1 /\ is_list m1 0 [3] /\
    nl_list_del m1 3 = Done m2 /\ nl_list_empty m2 0 = Done true.
Proof.
  intros m.
  assert (is_list m 0 []) as Hl.
  { apply (is_list_frame (NL_INIT_LIST_HEAD ∅ 0)); [apply init_list|].
    intros x Hx. apply list_elem_of_singleton in Hx as ->. reflexivity. }
  destruct (nl_list_refines m 0 [] Hl) as (Ha & _).
  destruct (Ha 3) as (m1 & _ & H1 & Hl1 & _); [set_solver|by eexists|].
  destruct (nl_list_refines m1 0 [3] Hl1) as (_ & Hd & _).
  destruct (Hd [] 3 [] eq_refl) as (m2 & H2 & Hl2 & _).
  destruct (nl_list_refines m2 0 [] Hl2) as (_ & _ & He & _).
  by exists m1, m2.
Defined.
