(* ===== verification/Object.v ===== *)
(** Objects (lib/object.c) and the tables caches index them with
    (lib/hashtable.c): reference counts, cloning, comparison, and the heap in
    which objects, caches and their list heads live.

    A kind of object is known by its [nl_object_ops], functions on what is
    specific to the kind: the attribute mask and the private data, of type [D].
    Objects, caches and operation tables are known by their addresses, 0 being
    NULL. *)
From S2P Require Import Prelude Errors NlList.

(** ** Data *)

Record body (D : Type) := Body { ce_mask : Z; ce_data : D }.
Arguments Body {D} _ _.
Arguments ce_mask {D} _.
Arguments ce_data {D} _.

(** struct nl_object_ops without its printing functions; [oo_free_data]: whether
    the kind has one. *)
Record nl_object_ops (D : Type) := {
  oo_name : string;
  oo_size : Z;
  oo_id_attrs : Z;
  oo_constructor : option (D -> D);
  oo_free_data : bool;
  oo_clone : option (D -> body D -> Z * D);
  oo_compare : option (body D -> body D -> Z -> Z -> Z);
  oo_update : option (body D -> body D -> Z * body D);
  oo_keygen : option (body D -> Z -> Z);
  oo_id_attrs_get : option (body D -> Z)
}.
Arguments oo_name {D} _.
Arguments oo_size {D} _.
Arguments oo_id_attrs {D} _.
Arguments oo_constructor {D} _.
Arguments oo_free_data {D} _.
Arguments oo_clone {D} _.
Arguments oo_compare {D} _.
Arguments oo_update {D} _.
Arguments oo_keygen {D} _.
Arguments oo_id_attrs_get {D} _.

(** NLHDR_COMMON, with the private data; the list head [ce_list] is in the store
    of list heads, and [ce_cache] is 0 for an object in no cache. *)
Record nl_object (D : Type) := {
  ce_refcnt : Z;
  ce_ops : Z;
  ce_cache : Z;
  ce_msgtype : Z;
  ce_flags : Z;
  ce_body : body D
}.
Arguments ce_refcnt {D} _.
Arguments ce_ops {D} _.
Arguments ce_cache {D} _.
Arguments ce_msgtype {D} _.
Arguments ce_flags {D} _.
Arguments ce_body {D} _.

(** nl_hash_table_t: per slot the nodes, first the newest, as pairs of key and
    object. *)
Record nl_hash_table := { ht_size : Z; ht_nodes : list (list (Z * Z)) }.

Record nl_cache := {
  c_nitems : Z;
  c_iarg1 : Z;
  c_iarg2 : Z;
  c_refcnt : Z;
  c_flags : Z;
  c_hashtable : option nl_hash_table;
  c_ops : Z
}.

(** Where list heads live: in objects ([ce_list]) and in caches ([c_items]). *)
Inductive node := NObj (o : Z) | NCache (c : Z).

#[export] Instance node_eq_dec : EqDecision node.
Proof. solve_decision. Defined.
#[export] Instance node_countable : Countable node :=
  inj_countable' (fun n => match n with NObj o => inl o | NCache c => inr c end)
    (fun s => match s with inl o => NObj o | inr c => NCache c end)
    (fun n => match n with NObj _ => eq_refl | NCache _ => eq_refl end).

Record heap (D : Type) := {
  h_objs : gmap Z (nl_object D);
  h_caches : gmap Z nl_cache;
  h_links : gmap node (node * node);
  h_next : Z
}.
Arguments h_objs {D} _.
Arguments h_caches {D} _.
Arguments h_links {D} _.
Arguments h_next {D} _.

Definition NL_OBJ_MARK := 1.
Definition LOOSE_COMPARISON := 1.
Definition ID_COMPARISON := 2.
Definition sizeof_nl_object := 56.

Section Object.
Context {D : Type}.
Implicit Types (h : heap D) (o : Z) (obj : nl_object D).

(** ** Field updates *)

Definition with_refcnt obj n : nl_object D :=
  {| ce_refcnt := n; ce_ops := ce_ops obj; ce_cache := ce_cache obj;
     ce_msgtype := ce_msgtype obj; ce_flags := ce_flags obj; ce_body := ce_body obj |}.
Definition with_cache obj c : nl_object D :=
  {| ce_refcnt := ce_refcnt obj; ce_ops := ce_ops obj; ce_cache := c;
     ce_msgtype := ce_msgtype obj; ce_flags := ce_flags obj; ce_body := ce_body obj |}.
Definition with_flags obj f : nl_object D :=
  {| ce_refcnt := ce_refcnt obj; ce_ops := ce_ops obj; ce_cache := ce_cache obj;
     ce_msgtype := ce_msgtype obj; ce_flags := f; ce_body := ce_body obj |}.
Definition with_body obj b : nl_object D :=
  {| ce_refcnt := ce_refcnt obj; ce_ops := ce_ops obj; ce_cache := ce_cache obj;
     ce_msgtype := ce_msgtype obj; ce_flags := ce_flags obj; ce_body := b |}.

Definition with_nitems (c : nl_cache) n : nl_cache :=
  {| c_nitems := n; c_iarg1 := c_iarg1 c; c_iarg2 := c_iarg2 c; c_refcnt := c_refcnt c;
     c_flags := c_flags c; c_hashtable := c_hashtable c; c_ops := c_ops c |}.
Definition with_crefcnt (c : nl_cache) n : nl_cache :=
  {| c_nitems := c_nitems c; c_iarg1 := c_iarg1 c; c_iarg2 := c_iarg2 c; c_refcnt := n;
     c_flags := c_flags c; c_hashtable := c_hashtable c; c_ops := c_ops c |}.
Definition with_table (c : nl_cache) t : nl_cache :=
  {| c_nitems := c_nitems c; c_iarg1 := c_iarg1 c; c_iarg2 := c_iarg2 c; c_refcnt := c_refcnt c;
     c_flags := c_flags c; c_hashtable := t; c_ops := c_ops c |}.

Definition with_objs h m : heap D :=
  {| h_objs := m; h_caches := h_caches h; h_links := h_links h; h_next := h_next h |}.
Definition with_caches h m : heap D :=
  {| h_objs := h_objs h; h_caches := m; h_links := h_links h; h_next := h_next h |}.
Definition with_links h m : heap D :=
  {| h_objs := h_objs h; h_caches := h_caches h; h_links := m; h_next := h_next h |}.

(** Memory accesses. *)
Definition get_obj h o : exec (nl_object D) :=
  match h_objs h !! o with Some obj => Done obj | None => Fault end.
Definition get_cache h (c : Z) : exec nl_cache :=
  match h_caches h !! c with Some x => Done x | None => Fault end.
Definition put_obj h o obj : heap D := with_objs h (<[o := obj]> (h_objs h)).
Definition put_cache h (c : Z) (x : nl_cache) : heap D := with_caches h (<[c := x]> (h_caches h)).

(** ** Operations on objects (lib/object.c) *)

(** The operation table behind an address other than 0. *)
Variable ops_at : Z -> nl_object_ops D.

Definition obj_ops obj : exec (nl_object_ops D) :=
  if ce_ops obj =? 0 then Bug else Done (ops_at (ce_ops obj)).

(** [c]: whether calloc succeeds; [zero]: private data of zero bytes. *)
Definition nl_object_alloc (c : bool) (zero : D) h (ops : Z) : exec (option Z * heap D) :=
  let p := ops_at ops in
  if oo_size p <? sizeof_nl_object then Bug
  else if negb c then mret (None, h)
  else
    let o := h_next h in
    let d := match oo_constructor p with Some f => f zero | None => zero end in
    let obj := {| ce_refcnt := 1; ce_ops := ops; ce_cache := 0; ce_msgtype := 0; ce_flags := 0;
                  ce_body := Body 0 d |} in
    mret (Some o, {| h_objs := <[o := obj]> (h_objs h); h_caches := h_caches h;
                     h_links := nl_init_list_head (h_links h) (NObj o); h_next := o + 1 |}).

Definition nl_object_get h o : exec (heap D) :=
  obj ← get_obj h o;
  mret (put_obj h o (with_refcnt obj (ce_refcnt obj + 1))).

Definition nl_object_shared obj : bool := 1 <? ce_refcnt obj.
Definition nl_object_mark obj : nl_object D := with_flags obj (set_flag (ce_flags obj) NL_OBJ_MARK).
Definition nl_object_unmark obj : nl_object D :=
  with_flags obj (clear_flag (ce_flags obj) NL_OBJ_MARK).
Definition nl_object_is_marked obj : bool := has_flag (ce_flags obj) NL_OBJ_MARK.

Definition nl_object_update (dst src : nl_object D) : exec (Z * nl_object D) :=
  ops ← obj_ops dst;
  match oo_update ops with
  | Some f => let '(err, b) := f (ce_body dst) (ce_body src) in mret (err, with_body dst b)
  | None => mret (- NLE_OPNOTSUPP, dst)
  end.

(** The part of [nl_object_identical] between objects of one kind. *)
Definition identical_by (ops : nl_object_ops D) (a b : body D) : bool :=
  let compare req :=
    let req := if req =? UINT32_MAX then u32 (Z.land (ce_mask a) (ce_mask b)) else req in
    if negb (Z.land (ce_mask a) req =? req) || negb (Z.land (ce_mask b) req =? req) then false
    else match oo_compare ops with
         | None => false
         | Some f => f a b req ID_COMPARISON =? 0
         end in
  match oo_id_attrs_get ops with
  | Some g => if negb (g a =? g b) then false else compare (u32 (g a))
  | None => compare (if negb (oo_id_attrs ops =? 0) then oo_id_attrs ops else UINT32_MAX)
  end.

Definition nl_object_identical (a b : nl_object D) : exec bool :=
  ops ← obj_ops a;
  _ ← obj_ops b;
  if negb (ce_ops a =? ce_ops b) then mret false
  else mret (identical_by ops (ce_body a) (ce_body b)).

Definition nl_object_diff64 (a b : nl_object D) : exec Z :=
  ops ← obj_ops a;
  _ ← obj_ops b;
  if negb (ce_ops a =? ce_ops b) then mret UINT64_MAX
  else match oo_compare ops with
       | None => mret UINT64_MAX
       | Some f => mret (u64 (f (ce_body a) (ce_body b) UINT64_MAX 0))
       end.

Definition nl_object_diff (a b : nl_object D) : exec Z :=
  diff ← nl_object_diff64 a b;
  mret (if negb (Z.land diff (Z.land (Z.lnot UINT32_MAX) UINT64_MAX) =? 0)
        then Z.lor (u32 diff) (2 ^ 31) else u32 diff).

Definition nl_object_match_filter (obj filter : nl_object D) : exec bool :=
  ops ← obj_ops obj;
  _ ← obj_ops filter;
  if negb (ce_ops obj =? ce_ops filter) then mret false
  else match oo_compare ops with
       | None => mret false
       | Some f =>
           mret (f (ce_body obj) (ce_body filter) (ce_mask (ce_body filter)) LOOSE_COMPARISON =? 0)
       end.

Definition nl_object_keygen obj (hashtbl_sz : Z) : exec Z :=
  ops ← obj_ops obj;
  mret (match oo_keygen ops with Some f => f (ce_body obj) hashtbl_sz | None => 0 end).

Definition nl_object_get_id_attrs obj : exec Z :=
  ops ← obj_ops obj;
  mret (match oo_id_attrs_get ops with Some g => u32 (g (ce_body obj)) | None => oo_id_attrs ops end).

Definition nl_object_get_refcnt obj : Z := ce_refcnt obj.
Definition nl_object_get_cache obj : Z := ce_cache obj.
Definition nl_object_get_msgtype obj : Z := ce_msgtype obj.
Definition nl_object_get_ops obj : Z := ce_ops obj.
Definition nl_object_get_type obj : exec string :=
  if ce_ops obj =? 0 then Bug else mret (oo_name (ops_at (ce_ops obj))).

(** ** Tables (lib/hashtable.c) *)

(** [c1], [c2]: whether the two callocs succeed. *)
Definition nl_hash_table_alloc (c1 c2 : bool) (size : Z) : option nl_hash_table :=
  if negb c1 then None
  else if negb c2 then None
  else Some {| ht_size := size; ht_nodes := replicate (Z.to_nat size) [] |}.

Definition ht_slot (t : nl_hash_table) (k : Z) : exec (list (Z * Z)) :=
  if k <? 0 then Fault
  else match ht_nodes t !! Z.to_nat k with Some l => Done l | None => Fault end.
Definition set_slot (t : nl_hash_table) (k : Z) (l : list (Z * Z)) : nl_hash_table :=
  {| ht_size := ht_size t; ht_nodes := <[Z.to_nat k := l]> (ht_nodes t) |}.

(** The walk along the nodes of a slot: the nodes before the first one whose
    object is identical to [obj], that one, and the rest. *)
Fixpoint find_node h (l : list (Z * Z)) obj : exec (option (list (Z * Z) * Z * list (Z * Z))) :=
  match l with
  | [] => mret None
  | nd :: l =>
      x ← get_obj h nd.2;
      same ← nl_object_identical x obj;
      if same : bool then mret (Some ([], nd.2, l))
      else
        r ← find_node h l obj;
        mret (match r with
              | Some (pre, x, rest) => Some (nd :: pre, x, rest)
              | None => None
              end)
  end.

Definition nl_hash_table_lookup h (t : nl_hash_table) obj : exec (option Z) :=
  key_hash ← nl_object_keygen obj (ht_size t);
  l ← ht_slot t key_hash;
  r ← find_node h l obj;
  mret (match r with Some (_, x, _) => Some x | None => None end).

(** [c]: whether malloc succeeds. *)
Definition nl_hash_table_add (c : bool) h (t : nl_hash_table) o
    : exec (Z * nl_hash_table * heap D) :=
  obj ← get_obj h o;
  key_hash ← nl_object_keygen obj (ht_size t);
  l ← ht_slot t key_hash;
  r ← find_node h l obj;
  match r with
  | Some _ => mret (- NLE_EXIST, t, h)
  | None =>
      if negb c then mret (- NLE_NOMEM, t, h)
      else
        h ← nl_object_get h o;
        mret (0, set_slot t key_hash ((key_hash, o) :: l), h)
  end.

(** ** Giving references back

    nl_object_put, nl_object_free, nl_cache_remove and nl_hash_table_del call
    each other; [put] stands for the inner nl_object_put. *)

Section Put.
Variable put : heap D -> Z -> exec (heap D).

(** The table is the one of the cache [c]. *)
Definition hash_table_del (h : heap D) (c : Z) (t : nl_hash_table) o : exec (Z * heap D) :=
  obj ← get_obj h o;
  key_hash ← nl_object_keygen obj (ht_size t);
  l ← ht_slot t key_hash;
  r ← find_node h l obj;
  match r with
  | Some (pre, _, rest) =>
      h ← put h o;
      x ← get_cache h c;
      mret (0, put_cache h c (with_table x (Some (set_slot t key_hash (pre ++ rest)))))
  | None => mret (- NLE_OBJ_NOTFOUND, h)
  end.

Definition cache_remove (h : heap D) o : exec (heap D) :=
  obj ← get_obj h o;
  let cache := ce_cache obj in
  if cache =? 0 then mret h
  else
    x ← get_cache h cache;
    '(_, h) ← (match c_hashtable x with
               | Some t => hash_table_del h cache t o
               | None => mret (0, h)
               end);
    links ← nl_list_del (h_links h) (NObj o);
    let h := with_links h links in
    obj ← get_obj h o;
    h ← put (put_obj h o (with_cache obj 0)) o;
    x ← get_cache h cache;
    mret (put_cache h cache (with_nitems x (c_nitems x - 1))).

Definition object_free (h : heap D) o : exec (heap D) :=
  obj ← get_obj h o;
  _ ← obj_ops obj;
  h ← (if negb (ce_cache obj =? 0) then cache_remove h o else mret h);
  mret {| h_objs := delete o (h_objs h); h_caches := h_caches h;
          h_links := delete (NObj o) (h_links h); h_next := h_next h |}.

Definition object_put (h : heap D) o : exec (heap D) :=
  obj ← get_obj h o;
  let n := ce_refcnt obj - 1 in
  let h := put_obj h o (with_refcnt obj n) in
  if n <? 0 then Bug
  else if n <=? 0 then object_free h o
  else mret h.
End Put.

Fixpoint put_at (n : nat) (h : heap D) o : exec (heap D) :=
  match n with
  | O => NoFuel
  | S n => object_put (put_at n) h o
  end.

(** A put inside a put finds the count at 0 and stops in BUG(): two levels are
    all there are. *)
Definition nl_object_put (h : heap D) (o : option Z) : exec (heap D) :=
  match o with None => mret h | Some o => put_at 3 h o end.
Definition nl_object_free (h : heap D) (o : option Z) : exec (heap D) :=
  match o with None => mret h | Some o => object_free (put_at 3) h o end.
Definition nl_cache_remove (h : heap D) o : exec (heap D) := cache_remove (put_at 3) h o.
Definition nl_hash_table_del (h : heap D) (c : Z) (t : nl_hash_table) o : exec (Z * heap D) :=
  hash_table_del (put_at 3) h c t o.

(** [c]: whether the allocation succeeds. *)
Definition nl_object_clone (c : bool) (zero : D) h (o : option Z) : exec (option Z * heap D) :=
  match o with
  | None => mret (None, h)
  | Some o =>
      obj ← get_obj h o;
      ops ← obj_ops obj;
      '(r, h) ← nl_object_alloc c zero h (ce_ops obj);
      match r with
      | None => mret (None, h)
      | Some new =>
          let size := oo_size ops - sizeof_nl_object in
          if size <? 0 then Bug
          else
            nobj ← get_obj h new;
            let d := if size =? 0 then ce_data (ce_body nobj) else ce_data (ce_body obj) in
            let nobj := {| ce_refcnt := ce_refcnt nobj; ce_ops := ce_ops obj;
                           ce_cache := ce_cache nobj; ce_msgtype := ce_msgtype obj;
                           ce_flags := ce_flags nobj;
                           ce_body := Body (ce_mask (ce_body obj)) d |} in
            match oo_clone ops with
            | Some f =>
                let '(err, d) := f d (ce_body obj) in
                let h := put_obj h new (with_body nobj (Body (ce_mask (ce_body nobj)) d)) in
                if err <? 0 then
                  h ← nl_object_free h (Some new);
                  mret (None, h)
                else mret (Some new, h)
            | None =>
                if negb (size =? 0) && oo_free_data ops then Bug
                else mret (Some new, put_obj h new nobj)
            end
      end
  end.

(** The loops of nl_hash_table_free; the nodes go with the table. *)
Definition nl_hash_table_free (h : heap D) (t : nl_hash_table) : exec (heap D) :=
  foldl (fun m nd => h ← m; nl_object_put h (Some nd.2)) (mret h) (concat (ht_nodes t)).
End Object.
