(* ===== verification/Cache.v ===== *)
(** Caches (lib/cache.c): the collection of objects of one kind with its list,
    its hash table and the references it holds; adding, moving, removing and
    looking up; and the processing of change notifications.

    Change callbacks are recorded as events.  Arguments of type [bool] say
    whether an allocation succeeds, [zero] is private data of zero bytes. *)
From S2P Require Import Prelude Errors NlList Object.

Definition NL_ACT_UNSPEC := 0.
Definition NL_ACT_NEW := 1.
Definition NL_ACT_DEL := 2.
Definition NL_ACT_GET := 3.
Definition NL_ACT_SET := 4.
Definition NL_ACT_CHANGE := 5.
Definition NL_CACHE_AF_ITER := 1.
Definition NL_MAX_HASH_ENTRIES := 1024.

Record nl_af_group := { ag_family : Z; ag_group : Z }.
Record nl_msgtype := { mt_id : Z; mt_act : Z; mt_name : list Z }.

(** struct nl_cache_ops: what the cache itself reads.  [co_msgtypes] is the array
    up to its end marker. *)
Record nl_cache_ops := {
  co_name : option (list Z);
  co_hdrsize : Z;
  co_protocol : Z;
  co_hash_size : Z;
  co_flags : Z;
  co_groups : option (list nl_af_group);
  co_obj_ops : Z;
  co_msgtypes : list nl_msgtype
}.

(** What a change callback is told: the callbacks of both interfaces, and none. *)
Inductive change_cb := NoChange | ChangeV1 | ChangeV2.
Inductive change :=
| Changed (cache obj act : Z)
| Changed2 (cache : Z) (old new : option Z) (diff act : Z).

Section Cache.
Context {D : Type}.
Variable ops_at : Z -> nl_object_ops D.
Variable cops_at : Z -> nl_cache_ops.
Variable zero : D.
Implicit Types (h : heap D) (o c : Z).

(** ** Reading a cache *)

(** A bound for the loops over the items of a cache. *)
Definition loop_bound h : nat := S (size (h_objs h)).

Definition entry (n : node) : exec Z :=
  match n with NObj o => Done o | NCache _ => Fault end.

Definition nl_cache_nitems h c : exec Z := x ← get_cache h c; mret (c_nitems x).
Definition nl_cache_is_empty h c : exec bool :=
  _ ← get_cache h c; nl_list_empty (h_links h) (NCache c).
Definition nl_cache_get_ops h c : exec Z := x ← get_cache h c; mret (c_ops x).

(** A loop over the items that neither changes nor leaves the heap it runs in. *)
Definition for_items {S} h c (body : Z -> S -> exec (unit + S)) (s : S) : exec S :=
  r ← nl_list_for_each_entry (fun _ => h_links h)
        (fun n s => o ← entry n; body o s) (loop_bound h) (NCache c) s;
  match r with inl _ => Fault | inr s => mret s end.

Definition nl_cache_nitems_filter h c (filter : option (nl_object D)) : exec Z :=
  x ← get_cache h c;
  if c_ops x =? 0 then Bug
  else for_items h c (fun o n =>
    match filter with
    | None => mret (inr (n + 1))
    | Some f =>
        obj ← get_obj h o;
        m ← nl_object_match_filter ops_at obj f;
        mret (inr (if m : bool then n + 1 else n))
    end) 0.

Definition nl_cache_get_first h c : exec (option Z) :=
  e ← nl_list_empty (h_links h) (NCache c);
  if e : bool then mret None
  else n ← get_next (h_links h) (NCache c); o ← entry n; mret (Some o).
Definition nl_cache_get_last h c : exec (option Z) :=
  e ← nl_list_empty (h_links h) (NCache c);
  if e : bool then mret None
  else n ← get_prev (h_links h) (NCache c); o ← entry n; mret (Some o).
Definition nl_cache_get_next h o : exec (option Z) :=
  obj ← get_obj h o;
  t ← nl_list_at_tail (h_links h) (NObj o) (NCache (ce_cache obj));
  if t : bool then mret None
  else n ← get_next (h_links h) (NObj o); o ← entry n; mret (Some o).
Definition nl_cache_get_prev h o : exec (option Z) :=
  obj ← get_obj h o;
  t ← nl_list_at_head (h_links h) (NObj o) (NCache (ce_cache obj));
  if t : bool then mret None
  else n ← get_prev (h_links h) (NObj o); o ← entry n; mret (Some o).

(** ** Looking up *)

Definition __cache_fast_lookup h (t : nl_hash_table) (needle : nl_object D)
    : exec (option Z * heap D) :=
  r ← nl_hash_table_lookup ops_at h t needle;
  match r with
  | Some o => h ← nl_object_get h o; mret (Some o, h)
  | None => mret (None, h)
  end.

(** The first item [test] holds for, with a new reference. *)
Definition find_item h c (test : nl_object D -> exec bool) : exec (option Z * heap D) :=
  r ← nl_list_for_each_entry (fun _ => h_links h)
        (fun n (_ : unit) => o ← entry n; obj ← get_obj h o; t ← test obj;
                             mret (if t : bool then inl o else inr tt))
        (loop_bound h) (NCache c) tt;
  match r with
  | inl o => h ← nl_object_get h o; mret (Some o, h)
  | inr _ => mret (None, h)
  end.

Definition nl_cache_search h c (needle : nl_object D) : exec (option Z * heap D) :=
  x ← get_cache h c;
  match c_hashtable x with
  | Some t => __cache_fast_lookup h t needle
  | None => find_item h c (fun obj => nl_object_identical ops_at obj needle)
  end.

Definition nl_cache_find h c (filter : nl_object D) : exec (option Z * heap D) :=
  x ← get_cache h c;
  if c_ops x =? 0 then Bug
  else
    ids ← nl_object_get_id_attrs ops_at filter;
    match c_hashtable x, ids =? ce_mask (ce_body filter) with
    | Some t, true => __cache_fast_lookup h t filter
    | _, _ => find_item h c (fun obj => nl_object_match_filter ops_at obj filter)
    end.

(** ** Adding and moving *)

Definition __cache_add (c1 : bool) h c o : exec (Z * heap D) :=
  obj ← get_obj h o;
  let h := put_obj h o (with_cache obj c) in
  x ← get_cache h c;
  '(ret, h) ← (match c_hashtable x with
               | Some t =>
                   '(ret, t, h) ← nl_hash_table_add ops_at c1 h t o;
                   mret (ret, put_cache h c (with_table x (Some t)))
               | None => mret (0, h)
               end);
  if ret <? 0 then
    obj ← get_obj h o;
    mret (ret, put_obj h o (with_cache obj 0))
  else
    links ← nl_list_add_tail (h_links h) (NObj o) (NCache c);
    x ← get_cache h c;
    mret (0, put_cache (with_links h links) c (with_nitems x (c_nitems x + 1))).

Definition nl_cache_add (c1 c2 : bool) h c o : exec (Z * heap D) :=
  x ← get_cache h c;
  obj ← get_obj h o;
  if negb (co_obj_ops (cops_at (c_ops x)) =? ce_ops obj) then mret (- NLE_OBJ_MISMATCH, h)
  else
    e ← nl_list_empty (h_links h) (NObj o);
    '(new, h) ← (if negb e then nl_object_clone ops_at c1 zero h (Some o)
                 else h ← nl_object_get h o; mret (Some o, h));
    match new with
    | None => mret (- NLE_NOMEM, h)
    | Some new =>
        '(ret, h) ← __cache_add c2 h c new;
        h ← (if ret <? 0 then nl_object_put ops_at h (Some new) else mret h);
        mret (ret, h)
    end.

Definition nl_cache_move (c1 : bool) h c o : exec (Z * heap D) :=
  x ← get_cache h c;
  obj ← get_obj h o;
  if negb (co_obj_ops (cops_at (c_ops x)) =? ce_ops obj) then mret (- NLE_OBJ_MISMATCH, h)
  else
    h ← nl_object_get h o;
    e ← nl_list_empty (h_links h) (NObj o);
    h ← (if negb e then nl_cache_remove ops_at h o else mret h);
    __cache_add c1 h c o.

(** ** Creating, filling from another cache, clearing, freeing *)

Definition nl_cache_alloc (c1 c2 c3 : bool) h (ops : Z) : option Z * heap D :=
  if negb c1 then (None, h)
  else
    let c := h_next h in
    let p := cops_at ops in
    let t := match oo_keygen (ops_at (co_obj_ops p)) with
             | Some _ => nl_hash_table_alloc c2 c3
                 (if negb (co_hash_size p =? 0) then co_hash_size p else NL_MAX_HASH_ENTRIES)
             | None => None
             end in
    let x := {| c_nitems := 0; c_iarg1 := 0; c_iarg2 := 0; c_refcnt := 1;
                c_flags := set_flag 0 (co_flags p); c_hashtable := t; c_ops := ops |} in
    (Some c, {| h_objs := h_objs h; h_caches := <[c := x]> (h_caches h);
                h_links := nl_init_list_head (h_links h) (NCache c); h_next := c + 1 |}).

(** The items of [orig] that [test] holds for, added to the cache [c]; the loop
    ignores the results of nl_cache_add. *)
Definition add_items (c1 c2 : bool) h (orig c : Z) (test : nl_object D -> exec bool)
    : exec (heap D) :=
  r ← nl_list_for_each_entry (@h_links D)
        (fun n h =>
           o ← entry n;
           obj ← get_obj h o;
           t ← test obj;
           if t : bool then '(_, h) ← nl_cache_add c1 c2 h c o; mret (inr h : unit + heap D)
           else mret (inr h))
        (loop_bound h) (NCache orig) h;
  match r with inl _ => Fault | inr h => mret h end.

Definition nl_cache_subset (a1 a2 a3 c1 c2 : bool) h (orig : Z) (filter : option (nl_object D))
    : exec (option Z * heap D) :=
  match filter with
  | None => Bug
  | Some f =>
      x ← get_cache h orig;
      let '(c, h) := nl_cache_alloc a1 a2 a3 h (c_ops x) in
      match c with
      | None => mret (None, h)
      | Some c =>
          h ← add_items c1 c2 h orig c (fun obj => nl_object_match_filter ops_at obj f);
          mret (Some c, h)
      end
  end.

Definition nl_cache_clone (a1 a2 a3 c1 c2 : bool) h (orig : Z) : exec (option Z * heap D) :=
  ops ← nl_cache_get_ops h orig;
  let '(c, h) := nl_cache_alloc a1 a2 a3 h ops in
  match c with
  | None => mret (None, h)
  | Some c => h ← add_items c1 c2 h orig c (fun _ => mret true); mret (Some c, h)
  end.

Definition nl_cache_clear h c : exec (heap D) :=
  r ← nl_list_for_each_entry_safe (@h_links D)
        (fun n h => o ← entry n; h ← nl_cache_remove ops_at h o; mret (inr h : unit + heap D))
        (loop_bound h) (NCache c) h;
  match r with inl _ => Fault | inr h => mret h end.

Definition __nl_cache_free h c : exec (heap D) :=
  h ← nl_cache_clear h c;
  x ← get_cache h c;
  h ← (match c_hashtable x with
       | Some t => nl_hash_table_free ops_at h t
       | None => mret h
       end);
  mret {| h_objs := h_objs h; h_caches := delete c (h_caches h);
          h_links := delete (NCache c) (h_links h); h_next := h_next h |}.

Definition nl_cache_get h c : exec (heap D) :=
  x ← get_cache h c; mret (put_cache h c (with_crefcnt x (c_refcnt x + 1))).

Definition nl_cache_free h (c : option Z) : exec (heap D) :=
  match c with
  | None => mret h
  | Some c =>
      x ← get_cache h c;
      let n := c_refcnt x - 1 in
      let h := put_cache h c (with_crefcnt x n) in
      if n <=? 0 then __nl_cache_free h c else mret h
  end.
Definition nl_cache_put := nl_cache_free.

Definition nl_cache_set_arg1 (x : nl_cache) (arg : Z) : nl_cache :=
  {| c_nitems := c_nitems x; c_iarg1 := arg; c_iarg2 := c_iarg2 x; c_refcnt := c_refcnt x;
     c_flags := c_flags x; c_hashtable := c_hashtable x; c_ops := c_ops x |}.
Definition nl_cache_set_arg2 (x : nl_cache) (arg : Z) : nl_cache :=
  {| c_nitems := c_nitems x; c_iarg1 := c_iarg1 x; c_iarg2 := arg; c_refcnt := c_refcnt x;
     c_flags := c_flags x; c_hashtable := c_hashtable x; c_ops := c_ops x |}.
Definition nl_cache_set_flags (x : nl_cache) (flags : Z) : nl_cache :=
  {| c_nitems := c_nitems x; c_iarg1 := c_iarg1 x; c_iarg2 := c_iarg2 x; c_refcnt := c_refcnt x;
     c_flags := set_flag (c_flags x) flags; c_hashtable := c_hashtable x; c_ops := c_ops x |}.

Definition nl_cache_mark_all h c : exec (heap D) :=
  r ← nl_list_for_each_entry (@h_links D)
        (fun n h => o ← entry n; obj ← get_obj h o;
                    mret (inr (put_obj h o (nl_object_mark obj)) : unit + heap D))
        (loop_bound h) (NCache c) h;
  match r with inl _ => Fault | inr h => mret h end.

(** ** Change notifications *)

(** [c1]: the allocation for the clone of the old object, [c2]: the one for the
    table. *)
Definition cache_include (c1 c2 : bool) h c o (act : Z) (cb : change_cb)
    : exec (Z * list change * heap D) :=
  if (act =? NL_ACT_NEW) || (act =? NL_ACT_DEL) then
    obj ← get_obj h o;
    '(old, h) ← nl_cache_search h c obj;
    '(done, events, h) ← (match old with
      | None => mret (false, [], h)
      | Some od =>
          oldobj ← get_obj h od;
          ops ← obj_ops ops_at oldobj;
          '(clone, diff, h) ← (match cb, oo_update ops with
            | ChangeV2, Some _ =>
                '(clone, h) ← nl_object_clone ops_at c1 zero h (Some od);
                diff ← nl_object_diff64 ops_at oldobj obj;
                mret (clone, diff, h)
            | _, _ => mret (None, 0, h)
            end);
          '(err, oldobj) ← nl_object_update ops_at oldobj obj;
          let h := put_obj h od oldobj in
          if err =? 0 then
            '(events, h) ← (match cb with
              | ChangeV2 =>
                  h ← nl_object_put ops_at h clone;
                  mret ([Changed2 c clone (Some o) diff NL_ACT_CHANGE], h)
              | ChangeV1 => mret ([Changed c od NL_ACT_CHANGE], h)
              | NoChange => mret ([], h)
              end);
            h ← nl_object_put ops_at h (Some od);
            mret (true, events, h)
          else
            h ← nl_object_put ops_at h clone;
            h ← nl_cache_remove ops_at h od;
            if act =? NL_ACT_DEL then
              let events := match cb with
                            | ChangeV2 => [Changed2 c (Some od) None 0 NL_ACT_DEL]
                            | ChangeV1 => [Changed c od NL_ACT_DEL]
                            | NoChange => []
                            end in
              h ← nl_object_put ops_at h (Some od);
              mret (false, events, h)
            else mret (false, [], h)
      end);
    if done : bool then mret (0, events, h)
    else if act =? NL_ACT_NEW then
      '(_, h) ← nl_cache_move c2 h c o;
      match old with
      | None =>
          mret (0, match cb with
                   | ChangeV2 => [Changed2 c None (Some o) 0 NL_ACT_NEW]
                   | ChangeV1 => [Changed c o NL_ACT_NEW]
                   | NoChange => []
                   end, h)
      | Some od =>
          diff ← (match cb with
                  | NoChange => mret 0
                  | _ => a ← get_obj h od; b ← get_obj h o; nl_object_diff64 ops_at a b
                  end);
          let events := if diff =? 0 then []
                        else match cb with
                             | ChangeV2 => [Changed2 c (Some od) (Some o) diff NL_ACT_CHANGE]
                             | ChangeV1 => [Changed c o NL_ACT_CHANGE]
                             | NoChange => []
                             end in
          h ← nl_object_put ops_at h (Some od);
          mret (0, events, h)
      end
    else mret (0, events, h)
  else mret (0, [], h).

(** The loop over the message types of the cache. *)
Fixpoint find_msgtype (l : list nl_msgtype) (id : Z) : option nl_msgtype :=
  match l with
  | [] => None
  | t :: l => if mt_id t =? id then Some t else find_msgtype l id
  end.

Definition include_with (cb : change_cb) (c1 c2 : bool) h c o : exec (Z * list change * heap D) :=
  x ← get_cache h c;
  obj ← get_obj h o;
  let ops := cops_at (c_ops x) in
  if negb (co_obj_ops ops =? ce_ops obj) then mret (- NLE_OBJ_MISMATCH, [], h)
  else match find_msgtype (co_msgtypes ops) (ce_msgtype obj) with
       | Some t => cache_include c1 c2 h c o (mt_act t) cb
       | None => mret (- NLE_MSGTYPE_NOSUPPORT, [], h)
       end.

(** [change_cb]: whether a callback is given. *)
Definition nl_cache_include (c1 c2 : bool) h c o (change_cb : bool) :=
  include_with (if change_cb then ChangeV1 else NoChange) c1 c2 h c o.
Definition nl_cache_include_v2 (c1 c2 : bool) h c o (change_cb : bool) :=
  include_with (if change_cb then ChangeV2 else NoChange) c1 c2 h c o.

(** The receiving side of a dump. *)
Definition pickup_checkdup_cb (c1 c2 : bool) h c o : exec (Z * heap D) :=
  obj ← get_obj h o;
  '(old, h) ← nl_cache_search h c obj;
  match old with
  | None => nl_cache_add c1 c2 h c o
  | Some od =>
      oldobj ← get_obj h od;
      '(err, oldobj) ← nl_object_update ops_at oldobj obj;
      let h := put_obj h od oldobj in
      if err =? 0 then
        h ← nl_object_put ops_at h (Some od); mret (0, h)
      else
        h ← nl_cache_remove ops_at h od;
        h ← nl_object_put ops_at h (Some od);
        nl_cache_add c1 c2 h c o
  end.

Definition pickup_cb (c1 c2 : bool) h c o : exec (Z * heap D) := nl_cache_add c1 c2 h c o.

(** The loop at the end of nl_cache_resync: marked objects go. *)
Definition sweep_marked h c (cb : bool) : exec (list change * heap D) :=
  r ← nl_list_for_each_entry_safe (fun s => h_links s.2)
        (fun n '(ev, h) =>
           o ← entry n;
           obj ← get_obj h o;
           if nl_object_is_marked obj then
             h ← nl_object_get h o;
             h ← nl_cache_remove ops_at h o;
             let ev := if cb then ev ++ [Changed c o NL_ACT_DEL] else ev in
             h ← nl_object_put ops_at h (Some o);
             mret (inr (ev, h) : unit + (list change * heap D))
           else mret (inr (ev, h)))
        (loop_bound h) (NCache c) ([], h);
  match r with inl _ => Fault | inr s => mret s end.
End Cache.
