(* ===== verification/CacheInv.v ===== *)
(** Ownership of objects and caches: the invariant that ties reference counts,
    cache lists, hash tables and list pointers together, and the proof that the
    operations of lib/object.c, lib/hashtable.c and lib/cache.c keep it. *)
From S2P Require Import Prelude Errors NlList Object Cache.

(** ** The environment: the operation tables at their addresses *)

Class Env (D : Type) := {
  ops_at : Z -> nl_object_ops D;
  cops_at : Z -> nl_cache_ops
}.

(** What a kind of object has to provide: sizes, keys within the table, a
    comparison that is an equivalence where it says yes, keys that agree on
    identical objects, and updates that change neither key nor identity. *)
Record kind_ok {D : Type} (p : nl_object_ops D) : Prop := {
  ko_size : sizeof_nl_object <= oo_size p;
  ko_clone : oo_clone p = None -> oo_size p = sizeof_nl_object \/ oo_free_data p = false;
  ko_key : forall f b n, oo_keygen p = Some f -> 0 < n -> 0 <= f b n < n;
  ko_sym : forall a b, oo_keygen p <> None -> identical_by p a b = identical_by p b a;
  ko_trans : forall a b d, oo_keygen p <> None ->
    identical_by p a b = true -> identical_by p b d = true -> identical_by p a d = true;
  ko_key_ident : forall f a b n, oo_keygen p = Some f -> identical_by p a b = true -> f a n = f b n;
  ko_update : forall f g a b d n, oo_update p = Some f -> oo_keygen p = Some g ->
    identical_by p (f a b).2 d = identical_by p a d /\ g (f a b).2 n = g a n
}.

(** The contract of the tables the caches are used with. *)
Class EnvOk {D : Type} (EV : Env D) : Prop := {
  kinds_ok : forall p, p <> 0 -> kind_ok (ops_at p);
  caches_ok : forall p, p <> 0 -> co_obj_ops (cops_at p) <> 0 /\ 0 <= co_hash_size (cops_at p)
}.

Section CacheInv.
Context {D : Type} {EV : Env D} {EK : EnvOk EV}.
Implicit Types (h : heap D) (o c : Z) (obj : nl_object D).

(** ** References held by tables *)

Definition table_nodes (x : nl_cache) : list (Z * Z) :=
  match c_hashtable x with Some t => concat (ht_nodes t) | None => [] end.
Definition count_obj (l : list (Z * Z)) o : Z := zlen (filter (fun nd => nd.2 = o) l).
Definition table_refs (m : gmap Z nl_cache) o : Z :=
  foldr (fun p n => count_obj (table_nodes p.2) o + n) 0 (map_to_list m).

Lemma count_obj_app l l' o : count_obj (l ++ l') o = count_obj l o + count_obj l' o.
Proof. unfold count_obj. by rewrite filter_app, zlen_app. Qed.

Lemma count_obj_cons nd l o :
  count_obj (nd :: l) o = (if decide (nd.2 = o) then 1 else 0) + count_obj l o.
Proof.
  unfold count_obj. rewrite filter_cons. case_decide; [by rewrite zlen_cons|lia].
Qed.

Lemma count_obj_nonneg l o : 0 <= count_obj l o.
Proof. apply zlen_nonneg. Qed.

Lemma count_obj_pos l nd : nd ∈ l -> 0 < count_obj l nd.2.
Proof.
  intros Hin. apply list_elem_of_split in Hin as (l1 & l2 & ->).
  rewrite count_obj_app, count_obj_cons, decide_True by done.
  pose proof (count_obj_nonneg l1 nd.2). pose proof (count_obj_nonneg l2 nd.2). lia.
Qed.

Lemma table_refs_insert m c x o :
  m !! c = None -> table_refs (<[c := x]> m) o = count_obj (table_nodes x) o + table_refs m o.
Proof.
  intros Hm. unfold table_refs.
  rewrite (foldr_permutation eq (fun p n => count_obj (table_nodes p.2) o + n) 0
    (map_to_list (<[c := x]> m)) ((c, x) :: map_to_list m)); [done|..].
  - intros; lia.
  - by apply map_to_list_insert.
Qed.

Lemma table_refs_delete m c x o :
  m !! c = Some x -> table_refs m o = count_obj (table_nodes x) o + table_refs (delete c m) o.
Proof.
  intros Hm. rewrite <- (insert_delete_id m c x Hm) at 1.
  apply table_refs_insert. by rewrite lookup_delete_eq.
Qed.

Lemma table_refs_update m c x y o :
  m !! c = Some x ->
  table_refs (<[c := y]> m) o + count_obj (table_nodes x) o =
  table_refs m o + count_obj (table_nodes y) o.
Proof.
  intros Hm. rewrite (table_refs_delete m c x o Hm).
  rewrite <- insert_delete_eq, table_refs_insert by (by rewrite lookup_delete_eq). lia.
Qed.

Lemma table_refs_same m c x y o :
  m !! c = Some x -> table_nodes y = table_nodes x -> table_refs (<[c := y]> m) o = table_refs m o.
Proof. intros Hm He. pose proof (table_refs_update m c x y o Hm) as H. rewrite He in H. lia. Qed.

Lemma table_refs_nonneg m o : 0 <= table_refs m o.
Proof.
  unfold table_refs. induction (map_to_list m) as [|p l IH]; simpl; [lia|].
  pose proof (count_obj_nonneg (table_nodes p.2) o). lia.
Qed.

Lemma table_refs_ge m c x o : m !! c = Some x -> count_obj (table_nodes x) o <= table_refs m o.
Proof.
  intros Hm. rewrite (table_refs_delete m c x o Hm).
  pose proof (table_refs_nonneg (delete c m) o). lia.
Qed.

(** ** The invariant *)

(** What identity and keys of an object depend on. *)
Definition kv h o : option (Z * body D) :=
  (fun obj => (ce_ops obj, ce_body obj)) <$> h_objs h !! o.

Definition key_of (ops : Z) (b : body D) (n : Z) : Z :=
  match oo_keygen (ops_at ops) with Some f => f b n | None => 0 end.

Definition ident (h : heap D) o o' : Prop :=
  exists p b b', kv h o = Some (p, b) /\ kv h o' = Some (p, b') /\
    identical_by (ops_at p) b b' = true.

(** No two objects of a slot are identical. *)
Fixpoint distinct h (l : list (Z * Z)) : Prop :=
  match l with
  | [] => True
  | nd :: l => (forall nd', nd' ∈ l -> ~ ident h nd.2 nd'.2) /\ distinct h l
  end.

Definition slot_ok h (ops n k : Z) (l : list (Z * Z)) : Prop :=
  (forall nd, nd ∈ l -> exists b, kv h nd.2 = Some (ops, b) /\ key_of ops b n = k) /\ distinct h l.

Definition table_ok h (ops : Z) (t : nl_hash_table) : Prop :=
  0 < ht_size t /\ zlen (ht_nodes t) = ht_size t /\ oo_keygen (ops_at ops) <> None /\
  forall k l, ht_nodes t !! k = Some l -> slot_ok h ops (ht_size t) (Z.of_nat k) l.

(** [items]: the sequence of every cache; [ext]: the references to every object
    that are neither a list's nor a table's. *)
Record wf h (items : Z -> list Z) (ext : Z -> Z) : Prop := {
  wf_cache : forall c x, h_caches h !! c = Some x ->
    0 < c < h_next h /\ c_ops x <> 0 /\ is_list (h_links h) (NCache c) (NObj <$> items c) /\
    (forall o, o ∈ items c -> exists b, kv h o = Some (co_obj_ops (cops_at (c_ops x)), b)) /\
    (forall t, c_hashtable x = Some t -> table_ok h (co_obj_ops (cops_at (c_ops x))) t);
  wf_nocache : forall c, h_caches h !! c = None -> items c = [];
  wf_in : forall c o, o ∈ items c -> exists obj, h_objs h !! o = Some obj /\ ce_cache obj = c;
  wf_obj : forall o obj, h_objs h !! o = Some obj ->
    0 < o < h_next h /\ ce_ops obj <> 0 /\ is_Some (h_links h !! NObj o) /\
    (ce_cache obj <> 0 -> o ∈ items (ce_cache obj)) /\
    ce_refcnt obj = ext o + (if ce_cache obj =? 0 then 0 else 1) + table_refs (h_caches h) o /\
    0 <= ext o /\ 0 < ce_refcnt obj;
  wf_noobj : forall o, h_objs h !! o = None -> ext o = 0 /\ table_refs (h_caches h) o = 0;
  wf_next : 0 < h_next h
}.

(** Whether an object has all the attributes that identify it. *)
Definition self_ident h o : Prop := ident h o o.

(** The table of a cache finds every item, and nothing else that can be found:
    a node that outlived its item is of an object that identifies nothing. *)
Definition indexed h (items : Z -> list Z) : Prop :=
  forall c x, h_caches h !! c = Some x ->
    (is_Some (c_hashtable x) -> forall o, o ∈ items c -> exists k, (k, o) ∈ table_nodes x) /\
    (forall k o, (k, o) ∈ table_nodes x -> self_ident h o -> o ∈ items c).

Lemma indexed_mono h h' items :
  h_caches h' = h_caches h -> (forall o v, kv h' o = Some v -> kv h o = Some v) ->
  indexed h items -> indexed h' items.
Proof.
  intros Hc Hk Hi c x. rewrite Hc. intros Hx. destruct (Hi c x Hx) as [I1 I2]. split; [done|].
  intros k o Hn Hs. apply (I2 k o Hn). destruct Hs as (p & b & b' & K1 & K2 & K3).
  exists p, b, b'. auto.
Qed.

Definition nitems_ok h (items : Z -> list Z) : Prop :=
  forall c x, h_caches h !! c = Some x -> c_nitems x = zlen (items c).

(** Changing the number of references at one object, the items of one cache. *)
Definition ext_add (ext : Z -> Z) o d : Z -> Z :=
  fun x => if decide (x = o) then ext x + d else ext x.
Definition set_items (items : Z -> list Z) c l : Z -> list Z :=
  fun x => if decide (x = c) then l else items x.

Lemma ext_add_eq ext o d : ext_add ext o d o = ext o + d.
Proof. unfold ext_add. by rewrite decide_True. Qed.
Lemma ext_add_ne ext o d x : x <> o -> ext_add ext o d x = ext x.
Proof. intros. unfold ext_add. by rewrite decide_False. Qed.
Lemma set_items_eq items c l : set_items items c l c = l.
Proof. unfold set_items. by rewrite decide_True. Qed.
Lemma set_items_ne items c l x : x <> c -> set_items items c l x = items x.
Proof. intros. unfold set_items. by rewrite decide_False. Qed.

Lemma kv_some h o obj : h_objs h !! o = Some obj -> kv h o = Some (ce_ops obj, ce_body obj).
Proof. unfold kv. by intros ->. Qed.

Lemma kv_inv h o p b : kv h o = Some (p, b) ->
  exists obj, h_objs h !! o = Some obj /\ ce_ops obj = p /\ ce_body obj = b.
Proof. unfold kv. destruct (h_objs h !! o) as [obj|]; [|done]. intros [= <- <-]. by exists obj. Qed.

(** The table conditions only look at kinds, masks and private data. *)
Lemma ident_mono h h' o o' :
  (forall o p b, kv h' o = Some (p, b) -> kv h o = Some (p, b)) -> ident h' o o' -> ident h o o'.
Proof. intros Hm (p & b & b' & H1 & H2 & H3). exists p, b, b'. auto. Qed.

Lemma slot_ok_ext h h' ops n k l :
  (forall nd, nd ∈ l -> kv h' nd.2 = kv h nd.2) -> slot_ok h ops n k l -> slot_ok h' ops n k l.
Proof.
  intros He [H1 H2]. split.
  - intros nd Hnd. rewrite He by done. by apply H1.
  - clear H1. induction l as [|nd l IH]; [done|]. destruct H2 as [Ha Hb]. split.
    + intros nd' Hin (p & b & b' & K1 & K2 & K3). apply (Ha nd' Hin).
      rewrite He in K1 by (by left). rewrite He in K2 by (by right). by exists p, b, b'.
    + apply IH; [|done]. intros nd' Hin. apply He. by right.
Qed.

Lemma table_ok_ext h h' ops t :
  (forall nd, nd ∈ concat (ht_nodes t) -> kv h' nd.2 = kv h nd.2) ->
  table_ok h ops t -> table_ok h' ops t.
Proof.
  intros He (H1 & H2 & H3 & H4). split_and!; [done..|]. intros k l Hk.
  apply (slot_ok_ext h); [|by apply H4]. intros nd Hnd. apply He.
  apply list_elem_of_In, in_concat. exists l. split; apply list_elem_of_In; [|done].
  by apply list_elem_of_lookup_2 with k.
Qed.

(** ** Reading objects *)

Lemma get_obj_done h o obj : h_objs h !! o = Some obj -> get_obj h o = Done obj.
Proof. unfold get_obj. by intros ->. Qed.
Lemma get_cache_done h c x : h_caches h !! c = Some x -> get_cache h c = Done x.
Proof. unfold get_cache. by intros ->. Qed.

Lemma obj_ops_done obj : ce_ops obj <> 0 -> obj_ops ops_at obj = Done (ops_at (ce_ops obj)).
Proof. intros. unfold obj_ops. by rewrite (proj2 (Z.eqb_neq _ 0)). Qed.

Lemma identical_done a b :
  ce_ops a <> 0 -> ce_ops b <> 0 ->
  nl_object_identical ops_at a b = Done ((ce_ops a =? ce_ops b) &&
    identical_by (ops_at (ce_ops a)) (ce_body a) (ce_body b)).
Proof.
  intros. unfold nl_object_identical. rewrite !obj_ops_done by done. exec_simpl.
  by destruct (ce_ops a =? ce_ops b).
Qed.

Lemma keygen_done obj n :
  ce_ops obj <> 0 -> nl_object_keygen ops_at obj n = Done (key_of (ce_ops obj) (ce_body obj) n).
Proof. intros. unfold nl_object_keygen. by rewrite obj_ops_done. Qed.

(** Whether the object at [o] is identical to [obj]. *)
Definition same h o obj : bool :=
  match h_objs h !! o with
  | Some x => (ce_ops x =? ce_ops obj) && identical_by (ops_at (ce_ops x)) (ce_body x) (ce_body obj)
  | None => false
  end.

Lemma find_node_done h l obj :
  ce_ops obj <> 0 ->
  (forall nd, nd ∈ l -> exists x, h_objs h !! nd.2 = Some x /\ ce_ops x <> 0) ->
  exists r, find_node ops_at h l obj = Done r /\
    match r with
    | None => forall nd, nd ∈ l -> same h nd.2 obj = false
    | Some (pre, x, rest) => exists k, l = pre ++ (k, x) :: rest /\ same h x obj = true /\
        forall nd, nd ∈ pre -> same h nd.2 obj = false
    end.
Proof.
  intros Ho. induction l as [|nd l IH]; intros Hl.
  - exists None. split; [done|]. intros nd Hin. by apply elem_of_nil in Hin.
  - destruct (Hl nd) as (x & Hx & Hxo); [by left|]. cbn [find_node].
    rewrite (get_obj_done _ _ _ Hx). exec_simpl. rewrite identical_done by done. exec_simpl.
    assert (same h nd.2 obj = (ce_ops x =? ce_ops obj) &&
      identical_by (ops_at (ce_ops x)) (ce_body x) (ce_body obj)) as Hs by (unfold same; by rewrite Hx).
    rewrite <- Hs. destruct (same h nd.2 obj) eqn:E.
    + eexists. split; [done|]. exists nd.1. destruct nd. split_and!; [done..|].
      intros nd' Hin. by apply elem_of_nil in Hin.
    + destruct IH as (r & -> & Hr); [intros nd' Hin; apply Hl; by right|]. exec_simpl.
      destruct r as [[[pre y] rest]|]; eexists; (split; [done|]).
      * destruct Hr as (k & -> & ? & Hp). exists k. split_and!; [done..|].
        intros nd' Hin. apply elem_of_cons in Hin as [->|Hin]; [done|by apply Hp].
      * intros nd' Hin. apply elem_of_cons in Hin as [->|Hin]; [done|by apply Hr].
Qed.

Lemma ht_slot_done h ops t b :
  ops <> 0 -> table_ok h ops t ->
  forall p, p <> 0 -> exists l, ht_slot t (key_of p b (ht_size t)) = Done l /\
    ht_nodes t !! Z.to_nat (key_of p b (ht_size t)) = Some l /\
    0 <= key_of p b (ht_size t) < ht_size t.
Proof.
  intros Hops (H1 & H2 & _) p Hp.
  assert (0 <= key_of p b (ht_size t) < ht_size t) as Hr.
  { unfold key_of. destruct (oo_keygen (ops_at p)) as [f|] eqn:E; [|lia].
    by apply (ko_key _ (kinds_ok p Hp)). }
  unfold ht_slot. rewrite (proj2 (Z.ltb_ge _ 0)) by lia.
  destruct (lookup_lt_is_Some_2 (ht_nodes t) (Z.to_nat (key_of p b (ht_size t)))) as [l Hl].
  { unfold zlen in H2. lia. }
  rewrite Hl. by exists l.
Qed.

Lemma table_nodes_some h items ext c x t nd :
  wf h items ext -> h_caches h !! c = Some x -> c_hashtable x = Some t ->
  nd ∈ concat (ht_nodes t) -> exists obj, h_objs h !! nd.2 = Some obj /\
    ce_ops obj = co_obj_ops (cops_at (c_ops x)).
Proof.
  intros Hw Hc Ht Hnd. destruct (wf_cache _ _ _ Hw c x Hc) as (_ & _ & _ & _ & Htb).
  destruct (Htb t Ht) as (_ & _ & _ & Hs).
  apply list_elem_of_In, in_concat in Hnd as (l & Hl & Hin).
  apply list_elem_of_In, list_elem_of_lookup in Hl as [k Hk].
  destruct (Hs k l Hk) as [Hn _]. destruct (Hn nd) as (b & Hb & _); [by apply list_elem_of_In|].
  apply kv_inv in Hb as (obj & ? & ? & _). by exists obj.
Qed.

Lemma slot_in_table t k l nd : ht_nodes t !! k = Some l -> nd ∈ l -> nd ∈ concat (ht_nodes t).
Proof.
  intros Hl Hn. apply list_elem_of_In, in_concat. exists l.
  split; apply list_elem_of_In; [by apply list_elem_of_lookup_2 with k|done].
Qed.

(** ** Reference counts *)

(** The counts of other objects and everything else. *)
Definition same_but h h' o : Prop :=
  h_caches h' = h_caches h /\ h_next h' = h_next h /\
  (forall o', o' <> o -> h_objs h' !! o' = h_objs h !! o') /\
  (forall n, n <> NObj o -> h_links h' !! n = h_links h !! n).

Lemma wf_refcnt h items ext o obj d :
  wf h items ext -> h_objs h !! o = Some obj -> 0 <= ext o + d -> 0 < ce_refcnt obj + d ->
  wf (put_obj h o (with_refcnt obj (ce_refcnt obj + d))) items (ext_add ext o d).
Proof.
  intros Hw Ho Hd Hr. set (h' := put_obj _ _ _).
  assert (forall o', kv h' o' = kv h o') as Hkv.
  { intros o'. unfold kv, h'. simpl. destruct (decide (o' = o)) as [->|].
    - by rewrite lookup_insert_eq, Ho.
    - by rewrite lookup_insert_ne. }
  destruct Hw as [W1 W2 W3 W4 W5 W6]. split; [..|exact W6].
  - intros c x Hc. destruct (W1 c x Hc) as (? & ? & ? & ? & Ht). do 3 (split; [done|]). split.
    + intros o' Hin. rewrite Hkv. auto.
    + intros t Htt. apply (table_ok_ext h); [intros; apply Hkv|by apply Ht].
  - done.
  - intros c o' Hin. simpl. destruct (decide (o' = o)) as [->|].
    + rewrite lookup_insert_eq. destruct (W3 c o Hin) as (obj' & Ho' & <-). simplify_eq. by eexists.
    + rewrite lookup_insert_ne by done. auto.
  - intros o' obj' Ho'. simpl in *. destruct (decide (o' = o)) as [->|].
    + rewrite lookup_insert_eq in Ho'. simplify_eq. destruct (W4 o obj Ho) as (?&?&?&?&?&?&?).
      simpl. rewrite ext_add_eq. split_and!; try done; lia.
    + rewrite lookup_insert_ne in Ho' by done. rewrite ext_add_ne by done. auto.
  - intros o' Ho'. simpl in *. destruct (decide (o' = o)) as [->|].
    + by rewrite lookup_insert_eq in Ho'.
    + rewrite lookup_insert_ne in Ho' by done. rewrite ext_add_ne by done. auto.
Qed.

Lemma get_spec h items ext o obj :
  wf h items ext -> h_objs h !! o = Some obj ->
  nl_object_get h o = Done (put_obj h o (with_refcnt obj (ce_refcnt obj + 1))) /\
  wf (put_obj h o (with_refcnt obj (ce_refcnt obj + 1))) items (ext_add ext o 1).
Proof.
  intros Hw Ho. unfold nl_object_get. rewrite (get_obj_done _ _ _ Ho). split; [done|].
  destruct (wf_obj _ _ _ Hw o obj Ho) as (_ & _ & _ & _ & _ & ? & ?). apply wf_refcnt; done || lia.
Qed.

(** Removing an object nobody refers to. *)
Lemma wf_free h items ext o obj :
  wf h items ext -> h_objs h !! o = Some obj -> ce_cache obj = 0 -> table_refs (h_caches h) o = 0 ->
  ext o = 1 ->
  wf {| h_objs := delete o (h_objs h); h_caches := h_caches h;
        h_links := delete (NObj o) (h_links h); h_next := h_next h |} items (ext_add ext o (-1)).
Proof.
  intros Hw Ho Hc Hr He. set (h' := Build_heap _ _ _ _ _).
  assert (forall c, o ∉ items c) as Hni.
  { intros c Hin. destruct (wf_in _ _ _ Hw c o Hin) as (obj' & Ho' & Hc').
    assert (c = 0) as -> by congruence.
    assert (h_caches h !! 0 = None) as Hn.
    { destruct (h_caches h !! 0) as [x|] eqn:E; [|done].
      destruct (wf_cache _ _ _ Hw _ x E) as (? & _). lia. }
    rewrite (wf_nocache _ _ _ Hw _ Hn) in Hin. by apply elem_of_nil in Hin. }
  assert (forall o', o' <> o -> kv h' o' = kv h o') as Hkv.
  { intros o' Hne. unfold kv, h'. simpl. by rewrite lookup_delete_ne. }
  assert (forall c x nd, h_caches h !! c = Some x -> nd ∈ table_nodes x -> nd.2 <> o) as Htn.
  { intros c x nd Hx Hnd <-. pose proof (count_obj_pos _ _ Hnd).
    pose proof (table_refs_ge _ c x nd.2 Hx). lia. }
  destruct Hw as [W1 W2 W3 W4 W5 W6]. split; [..|exact W6].
  - intros c x Hx. destruct (W1 c x Hx) as (? & ? & Hl & Hk & Ht). do 2 (split; [done|]). split; [|split].
    + apply (is_list_frame _ _ _ _ Hl). intros n Hn. simpl. rewrite lookup_delete_ne; [done|].
      intros <-. apply elem_of_cons in Hn as [?|Hn]; [done|].
      apply list_elem_of_fmap in Hn as (o' & ? & Hn). simplify_eq. by apply (Hni c).
    + intros o' Hin. rewrite Hkv by (intros ->; by apply (Hni c)). auto.
    + intros t Htt. apply (table_ok_ext h); [|by apply Ht]. intros nd Hnd. apply Hkv. apply (Htn c x nd Hx).
      unfold table_nodes. by rewrite Htt.
  - done.
  - intros c o' Hin. simpl. rewrite lookup_delete_ne by (intros ->; by apply (Hni c)). auto.
  - intros o' obj' Ho'. simpl in *. apply lookup_delete_Some in Ho' as [Hne Ho'].
    rewrite ext_add_ne by done. rewrite lookup_delete_ne by congruence. auto.
  - intros o' Ho'. simpl in *. destruct (decide (o' = o)) as [->|].
    + rewrite ext_add_eq. lia.
    + rewrite ext_add_ne by done. rewrite lookup_delete_ne in Ho' by done. auto.
Qed.

Lemma put_dec n h o obj :
  h_objs h !! o = Some obj -> 1 < ce_refcnt obj ->
  put_at ops_at (S n) h o = Done (put_obj h o (with_refcnt obj (ce_refcnt obj - 1))).
Proof.
  intros Ho Hr. cbn [put_at]. unfold object_put. rewrite (get_obj_done _ _ _ Ho). exec_simpl.
  rewrite (proj2 (Z.ltb_ge _ 0)), (proj2 (Z.leb_gt _ 0)) by lia. done.
Qed.

Lemma put_spec n h items ext o obj :
  wf h items ext -> h_objs h !! o = Some obj -> 0 < ext o ->
  exists h', put_at ops_at (S n) h o = Done h' /\ wf h' items (ext_add ext o (-1)) /\
    same_but h h' o /\
    h_objs h' !! o = if ce_refcnt obj =? 1 then None
                     else Some (with_refcnt obj (ce_refcnt obj - 1)).
Proof.
  intros Hw Ho He. destruct (wf_obj _ _ _ Hw o obj Ho) as (_ & Hops & _ & _ & Hr & _ & Hpos).
  pose proof (table_refs_nonneg (h_caches h) o).
  destruct (ce_refcnt obj =? 1) eqn:E; bool_hyps.
  - assert (ce_cache obj = 0 /\ table_refs (h_caches h) o = 0 /\ ext o = 1) as (Hc & Ht & He1).
    { destruct (ce_cache obj =? 0) eqn:E0; bool_hyps; split_and!; lia. }
    cbn [put_at]. unfold object_put. rewrite (get_obj_done _ _ _ Ho). exec_simpl.
    rewrite E. cbn [Z.sub Z.add Z.opp Z.ltb Z.leb Z.compare Z.pos_sub].
    set (h1 := put_obj h o _). unfold object_free.
    rewrite (get_obj_done h1 o (with_refcnt obj 0)) by (unfold h1; simpl; by rewrite lookup_insert_eq).
    exec_simpl. rewrite obj_ops_done by done. exec_simpl.
    cbn [with_refcnt ce_cache]. rewrite Hc. exec_simpl. eexists. split; [done|].
    assert (delete o (h_objs h1) = delete o (h_objs h)) as ->
      by (unfold h1; simpl; by rewrite delete_insert_eq).
    split; [by apply (wf_free h items ext o obj)|]. split; [|simpl; by rewrite lookup_delete_eq].
    split_and!; [done..| |]; intros; simpl; by rewrite lookup_delete_ne.
  - rewrite (put_dec n h o obj Ho) by lia. eexists. split; [done|].
    split; [|split; [|simpl; by rewrite lookup_insert_eq]].
    + replace (ce_refcnt obj - 1) with (ce_refcnt obj + -1) by lia. apply wf_refcnt; done || lia.
    + split_and!; [done..| |done]. intros o' ?. simpl. by rewrite lookup_insert_ne.
Qed.

Lemma wf_ext h items ext ext' :
  (forall o, ext' o = ext o) -> wf h items ext -> wf h items ext'.
Proof.
  intros He [W1 W2 W3 W4 W5 W6]. split; [done..| | |done].
  - intros o obj Ho. rewrite He. auto.
  - intros o Ho. rewrite He. auto.
Qed.

Lemma ext_add_back ext o d d' x : d + d' = 0 -> ext_add (ext_add ext o d) o d' x = ext x.
Proof. intros. unfold ext_add. case_decide; lia. Qed.

(** ** Tables *)

Lemma nodes_of_with_table x t : table_nodes (with_table x (Some t)) = concat (ht_nodes t).
Proof. done. Qed.

(** A new table in place of the old one, the references to be accounted for. *)
Lemma wf_set_table h items ext ext' c x t' :
  wf h items ext -> h_caches h !! c = Some x ->
  (forall t, t' = Some t -> table_ok h (co_obj_ops (cops_at (c_ops x))) t) ->
  let nodes' := table_nodes (with_table x t') in
  (forall o, ext' o + count_obj nodes' o = ext o + count_obj (table_nodes x) o) ->
  (forall o, 0 <= ext' o) ->
  wf (put_cache h c (with_table x t')) items ext'.
Proof.
  intros Hw Hc Htb nodes' He Hp. set (h' := put_cache _ _ _).
  assert (forall o, table_refs (h_caches h') o + ext' o = table_refs (h_caches h) o + ext o) as Hr.
  { intros o. pose proof (table_refs_update (h_caches h) c x (with_table x t') o Hc) as Hu.
    specialize (He o). fold nodes' in Hu. unfold h'. simpl. lia. }
  assert (forall nd, nd ∈ nodes' -> is_Some (h_objs h !! nd.2)) as Hin.
  { intros nd Hnd. unfold nodes', table_nodes in Hnd. simpl in Hnd.
    destruct t' as [t|]; [|by apply elem_of_nil in Hnd].
    apply list_elem_of_In, in_concat in Hnd as (l & Hl & Hnd).
    apply list_elem_of_In, list_elem_of_lookup in Hl as [k Hk].
    destruct (Htb t eq_refl) as (_ & _ & _ & Hs). destruct (Hs k l Hk) as [Hn _].
    destruct (Hn nd) as (b & Hb & _); [by apply list_elem_of_In|].
    apply kv_inv in Hb as (obj & ? & _). by exists obj. }
  destruct Hw as [W1 W2 W3 W4 W5 W6]. split; [..|exact W6].
  - intros c' x' Hc'. simpl in Hc'. destruct (decide (c' = c)) as [->|].
    + rewrite lookup_insert_eq in Hc'. simplify_eq. destruct (W1 c x Hc) as (? & ? & ? & ? & _).
      do 4 (split; [done|]). intros t2 Ht2. apply (table_ok_ext h); [done|]. by apply Htb.
    + rewrite lookup_insert_ne in Hc' by done. destruct (W1 c' x' Hc') as (? & ? & ? & ? & Ht').
      do 4 (split; [done|]). intros t2 Ht2. apply (table_ok_ext h); [done|by apply Ht'].
  - intros c' Hc'. simpl in Hc'. apply lookup_insert_None in Hc' as [Hc' _]. by apply W2.
  - exact W3.
  - intros o obj Ho. destruct (W4 o obj Ho) as (? & ? & ? & ? & Hrc & ? & ?).
    do 4 (split; [done|]). specialize (Hr o). split; [lia|]. by split.
  - intros o Ho. destruct (W5 o Ho) as [H1 H2]. specialize (Hr o). specialize (He o).
    assert (count_obj (nodes') o = 0) as Hz.
    { destruct (decide (count_obj (nodes') o = 0)) as [|Hne]; [done|].
      unfold count_obj in Hne. destruct (filter (fun nd => nd.2 = o) (nodes')) as [|nd l] eqn:E; [done|].
      assert (nd ∈ filter (fun nd => nd.2 = o) (nodes')) as Hnd by (rewrite E; by left).
      apply list_elem_of_filter in Hnd as [Hndo Hnd].
      destruct (Hin nd Hnd) as [y Hy]. cbv beta in Hndo. rewrite Hndo in Hy. change (h_objs h') with (h_objs h) in Ho. congruence. }
    pose proof (table_refs_ge (h_caches h) c x o Hc) as Hge.
    pose proof (count_obj_nonneg (table_nodes x) o). pose proof (Hp o). lia.
Qed.

Lemma wf_table h items ext ext' c x t t' :
  wf h items ext -> h_caches h !! c = Some x -> c_hashtable x = Some t ->
  table_ok h (co_obj_ops (cops_at (c_ops x))) t' ->
  (forall o, ext' o + count_obj (concat (ht_nodes t')) o = ext o + count_obj (concat (ht_nodes t)) o) ->
  (forall o, 0 <= ext' o) ->
  wf (put_cache h c (with_table x (Some t'))) items ext'.
Proof.
  intros Hw Hc Ht Htb He Hp. apply (wf_set_table h items ext); [done|done| | |done].
  - by intros t2 [= <-].
  - intros o. rewrite nodes_of_with_table. unfold table_nodes. rewrite Ht. apply He.
Qed.

(** The nodes of a table with another slot. *)
Lemma count_set_slot t k l l' o :
  0 <= k -> ht_nodes t !! Z.to_nat k = Some l ->
  count_obj (concat (ht_nodes (set_slot t k l'))) o + count_obj l o =
  count_obj (concat (ht_nodes t)) o + count_obj l' o.
Proof.
  intros Hk Hl. unfold set_slot. simpl.
  rewrite <- (list_insert_id (ht_nodes t) (Z.to_nat k) l Hl) at 2.
  pose proof (lookup_lt_Some _ _ _ Hl). rewrite !insert_take_drop by done.
  rewrite !concat_app. cbn [concat]. rewrite !count_obj_app. lia.
Qed.

Lemma table_ok_set_slot h ops t k l :
  table_ok h ops t -> 0 <= k < ht_size t -> slot_ok h ops (ht_size t) k l ->
  table_ok h ops (set_slot t k l).
Proof.
  intros (H1 & H2 & H3 & H4) Hk Hs. unfold set_slot. split; [done|]. simpl.
  split; [unfold zlen in *; by rewrite length_insert|]. split; [done|].
  intros k' l' Hl'. apply list_lookup_insert_Some in Hl' as [(<- & <- & _)|[_ Hl']].
  - by rewrite Z2Nat.id by lia.
  - by apply H4.
Qed.

Lemma same_ident h o o' obj :
  h_objs h !! o' = Some obj -> same h o obj = true <-> ident h o o'.
Proof.
  intros Ho'. unfold same, ident. split.
  - destruct (h_objs h !! o) as [x|] eqn:Ho; [|done]. intros H. bool_hyps.
    exists (ce_ops x), (ce_body x), (ce_body obj). rewrite (kv_some _ _ _ Ho), (kv_some _ _ _ Ho').
    split_and!; [done|congruence|done].
  - intros (p & b & b' & H1 & H2 & H3). apply kv_inv in H1 as (x & -> & <- & <-).
    apply kv_inv in H2 as (y & Hy & Hp & <-). rewrite Ho' in Hy. injection Hy as <-.
    rewrite Hp, Z.eqb_refl. done.
Qed.

Lemma ident_sym h o o' p b :
  kv h o = Some (p, b) -> p <> 0 -> oo_keygen (ops_at p) <> None -> ident h o o' -> ident h o' o.
Proof.
  intros Ho Hp Hk (p' & a & b' & H1 & H2 & H3). assert (p' = p) as -> by congruence.
  exists p, b', a. split_and!; [done..|]. by rewrite (ko_sym _ (kinds_ok p Hp)).
Qed.

Lemma kv_put_same h o obj obj' o' :
  h_objs h !! o = Some obj -> ce_ops obj' = ce_ops obj -> ce_body obj' = ce_body obj ->
  kv (put_obj h o obj') o' = kv h o'.
Proof.
  intros Ho H1 H2. unfold kv. simpl. destruct (decide (o' = o)) as [->|].
  - rewrite lookup_insert_eq, Ho. simpl. by rewrite H1, H2.
  - by rewrite lookup_insert_ne.
Qed.

Lemma table_nodes_exist h ops t :
  table_ok h ops t -> forall k l nd, ht_nodes t !! k = Some l -> nd ∈ l ->
  exists x, h_objs h !! nd.2 = Some x /\ ce_ops x = ops.
Proof.
  intros (_ & _ & _ & Hs) k l nd Hk Hnd. destruct (Hs k l Hk) as [Hn _].
  destruct (Hn nd Hnd) as (b & Hb & _). apply kv_inv in Hb as (x & ? & ? & _). by exists x.
Qed.

(** What adding to a table does, on any heap. *)
Definition in_slot h (l : list (Z * Z)) obj : bool := existsb (fun nd => same h nd.2 obj) l.

Lemma hash_add_done (c1 : bool) h ops t o obj :
  h_objs h !! o = Some obj -> ce_ops obj = ops -> ops <> 0 -> table_ok h ops t ->
  let k := key_of ops (ce_body obj) (ht_size t) in
  exists l, ht_nodes t !! Z.to_nat k = Some l /\ 0 <= k < ht_size t /\
    nl_hash_table_add ops_at c1 h t o =
    Done (if in_slot h l obj then (- NLE_EXIST, t, h)
          else if c1 then (0, set_slot t k ((k, o) :: l),
                           put_obj h o (with_refcnt obj (ce_refcnt obj + 1)))
          else (- NLE_NOMEM, t, h)).
Proof.
  intros Ho Hk Hops Ht k. destruct (ht_slot_done h ops t (ce_body obj) Hops Ht ops Hops) as (l & Hl & Hn & Hr).
  fold k in Hl, Hn, Hr. exists l. split; [done|]. split; [done|].
  unfold nl_hash_table_add. rewrite (get_obj_done _ _ _ Ho). exec_simpl.
  rewrite keygen_done by congruence. exec_simpl. rewrite Hk. fold k. rewrite Hl. exec_simpl.
  destruct (find_node_done h l obj) as (r & -> & Hr'); [congruence| |].
  { intros nd Hnd. destruct (table_nodes_exist h ops t Ht _ l nd Hn Hnd) as (x & ? & ?).
    exists x. split; [done|congruence]. }
  exec_simpl. unfold in_slot. destruct r as [[[pre x] rest]|].
  - destruct Hr' as (kk & -> & Hs & _). rewrite existsb_app. simpl. by rewrite Hs, orb_true_r.
  - replace (existsb _ l) with false.
    + destruct c1; simpl; [|done]. unfold nl_object_get. by rewrite (get_obj_done _ _ _ Ho).
    + symmetry. clear -Hr'. induction l as [|nd l IH]; [done|]. simpl. rewrite Hr' by (by left).
      apply IH. intros. apply Hr'. by right.
Qed.

Lemma in_slot_none h l obj : in_slot h l obj = false -> forall nd, nd ∈ l -> same h nd.2 obj = false.
Proof.
  intros He nd Hnd. destruct (same h nd.2 obj) eqn:E; [|done].
  unfold in_slot in He. rewrite <- He. symmetry. apply existsb_exists. exists nd.
  split; [by apply list_elem_of_In|done].
Qed.

Lemma table_ok_add h ops t o obj l :
  h_objs h !! o = Some obj -> ce_ops obj = ops -> ops <> 0 -> table_ok h ops t ->
  let k := key_of ops (ce_body obj) (ht_size t) in
  0 <= k < ht_size t -> ht_nodes t !! Z.to_nat k = Some l -> in_slot h l obj = false ->
  table_ok h ops (set_slot t k ((k, o) :: l)).
Proof.
  intros Ho Hk Hops Ht k Hr Hl Hn. apply table_ok_set_slot; [done|done|].
  pose proof Ht as (_ & _ & Hkg & Hs). destruct (Hs _ l Hl) as [H1 H2].
  rewrite Z2Nat.id in H1 by lia. split.
  - intros nd Hnd. apply elem_of_cons in Hnd as [->|Hnd].
    + exists (ce_body obj). simpl. rewrite (kv_some _ _ _ Ho). split; [congruence|done].
    + destruct (H1 nd Hnd) as (b & ? & ?). by exists b.
  - split; [|done]. intros nd Hnd Hi. simpl in Hi.
    apply (ident_sym h o nd.2 ops (ce_body obj)) in Hi; [|by rewrite (kv_some _ _ _ Ho), Hk|done|done].
    apply (same_ident h nd.2 o obj Ho) in Hi. rewrite (in_slot_none h l obj Hn nd Hnd) in Hi. done.
Qed.

(** What removing from a table does: of the objects in a table only the one
    asked for can be identical to it. *)
Lemma distinct_find h pre k x rest k' o :
  distinct h (pre ++ (k, x) :: rest) -> (k', o) ∈ pre ++ (k, x) :: rest ->
  ident h x o -> (forall nd, nd ∈ pre -> ~ ident h nd.2 o) -> ident h o o -> x = o.
Proof.
  intros Hd Hin Hi Hpre Hoo. apply elem_of_app in Hin as [Hin|Hin].
  - exfalso. exact (Hpre _ Hin Hoo).
  - apply elem_of_cons in Hin as [Heq|Hin]; [congruence|]. exfalso.
    assert (distinct h ((k, x) :: rest)) as [Hx _].
    { clear -Hd. induction pre as [|nd pre IH]; [done|]. apply IH, Hd. }
    exact (Hx _ Hin Hi).
Qed.

Lemma distinct_remove h pre nd rest : distinct h (pre ++ nd :: rest) -> distinct h (pre ++ rest).
Proof.
  induction pre as [|nd' pre IH]; [by intros [_ ?]|]. intros [H1 H2]. split; [|by apply IH].
  intros nd2 Hin. apply H1. apply elem_of_app in Hin as [?|?]; apply elem_of_app; [by left|].
  right. by right.
Qed.

Lemma ident_trans h o1 o2 o3 p b :
  kv h o2 = Some (p, b) -> p <> 0 -> oo_keygen (ops_at p) <> None ->
  ident h o1 o2 -> ident h o2 o3 -> ident h o1 o3.
Proof.
  intros H2 Hp Hk (p1 & a1 & b1 & A1 & A2 & A3) (p2 & a2 & b2 & B1 & B2 & B3).
  assert (p1 = p /\ b1 = b /\ p2 = p /\ a2 = b) as (-> & -> & -> & ->) by (split_and!; congruence).
  exists p, a1, b2. split_and!; [done..|]. by apply (ko_trans _ (kinds_ok p Hp) _ b).
Qed.

(** The slot of an object in a table, and its node there. *)
Lemma node_slot h ops t o obj k' :
  table_ok h ops t -> h_objs h !! o = Some obj -> ce_ops obj = ops -> (k', o) ∈ concat (ht_nodes t) ->
  exists l, ht_nodes t !! Z.to_nat (key_of ops (ce_body obj) (ht_size t)) = Some l /\ (k', o) ∈ l.
Proof.
  intros Ht Ho Hk Hin. apply list_elem_of_In, in_concat in Hin as (l & Hl & Hin).
  apply list_elem_of_In in Hin. apply list_elem_of_In, list_elem_of_lookup in Hl as [j Hj].
  exists l. split; [|done]. destruct Ht as (_ & _ & _ & Hs). destruct (Hs j l Hj) as [Hn _].
  destruct (Hn _ Hin) as (b & Hb & Hkey). simpl in Hb, Hkey. rewrite (kv_some _ _ _ Ho) in Hb. simplify_eq.
  by rewrite Hkey, Nat2Z.id.
Qed.

(** What the removal of a node leaves in the table. *)
Definition removed (t t' : nl_hash_table) o : Prop :=
  (forall o', count_obj (concat (ht_nodes t')) o' + (if decide (o' = o) then 1 else 0) =
              count_obj (concat (ht_nodes t)) o') /\
  (forall k o', o' <> o -> (k, o') ∈ concat (ht_nodes t) -> (k, o') ∈ concat (ht_nodes t')) /\
  (forall k o', (k, o') ∈ concat (ht_nodes t') -> o' <> o /\ (k, o') ∈ concat (ht_nodes t)).

Lemma in_set_slot t k l nd :
  nd ∈ concat (ht_nodes (set_slot t k l)) ->
  nd ∈ l \/ exists j l', j <> Z.to_nat k /\ ht_nodes t !! j = Some l' /\ nd ∈ l'.
Proof.
  intros Hin. apply list_elem_of_In, in_concat in Hin as (l' & Hl' & Hin).
  apply list_elem_of_In in Hin. apply list_elem_of_In, list_elem_of_lookup in Hl' as [j Hj].
  simpl in Hj. apply list_lookup_insert_Some in Hj as [(<- & <- & _)|[Hne Hj]]; [by left|].
  right. exists j, l'. by split.
Qed.

Lemma removed_slot t k pre kk o rest :
  0 <= k -> ht_nodes t !! Z.to_nat k = Some (pre ++ (kk, o) :: rest) ->
  (forall k', (k', o) ∉ pre ++ rest) ->
  (forall j l' k', j <> Z.to_nat k -> ht_nodes t !! j = Some l' -> (k', o) ∉ l') ->
  removed t (set_slot t k (pre ++ rest)) o.
Proof.
  intros Hk Hl Hni Hoth. split; [|split].
  - intros o'. pose proof (count_set_slot t k _ (pre ++ rest) o' Hk Hl) as Hc.
    rewrite !count_obj_app, count_obj_cons in Hc. cbn [snd] in Hc.
    destruct (decide (o' = o)) as [->|Hne]; [rewrite decide_True in Hc by done; lia|].
    rewrite decide_False in Hc by congruence. lia.
  - intros k' o' Hne Hin. apply list_elem_of_In, in_concat in Hin as (l & Hl' & Hin).
    apply list_elem_of_In in Hin. apply list_elem_of_In, list_elem_of_lookup in Hl' as [j Hj].
    destruct (decide (j = Z.to_nat k)) as [->|Hjk].
    + apply (slot_in_table _ (Z.to_nat k) (pre ++ rest)).
      * simpl. apply list_lookup_insert_eq. by apply lookup_lt_Some in Hl.
      * rewrite Hl in Hj. simplify_eq. apply elem_of_app in Hin as [?|Hin]; apply elem_of_app; [by left|].
        apply elem_of_cons in Hin as [?|?]; [congruence|by right].
    + apply (slot_in_table _ j l); [|done]. simpl. by rewrite list_lookup_insert_ne.
  - intros k' o' Hin. apply in_set_slot in Hin as [Hin|(j & l' & Hj & Hl' & Hin)].
    + split; [intros ->; by apply (Hni k')|]. apply (slot_in_table t _ _ _ Hl).
      apply elem_of_app in Hin as [?|?]; apply elem_of_app; [by left|]. right. by right.
    + split; [intros ->; by apply (Hoth j l' k')|]. by apply (slot_in_table t j l').
Qed.

(** No slot of a table has a second node of an object that identifies itself. *)
Lemma distinct_once h pre nd rest o :
  distinct h (pre ++ nd :: rest) -> nd.2 = o -> self_ident h o ->
  forall k', (k', o) ∉ pre ++ rest.
Proof.
  intros Hd <- Hs k' Hin. induction pre as [|nd' pre IH]; simpl in *.
  - destruct Hd as [Hd _]. by apply (Hd _ Hin).
  - destruct Hd as [Hd1 Hd2]. apply elem_of_cons in Hin as [<-|Hin]; [|by apply IH].
    apply (Hd1 nd); [|done]. apply elem_of_app. right. by left.
Qed.

Lemma other_slots h ops t o obj k' j l :
  table_ok h ops t -> h_objs h !! o = Some obj -> ce_ops obj = ops ->
  j <> Z.to_nat (key_of ops (ce_body obj) (ht_size t)) -> ht_nodes t !! j = Some l -> (k', o) ∉ l.
Proof.
  intros (_ & _ & _ & Hs) Ho Hk Hj Hl Hin. destruct (Hs j l Hl) as [Hn _].
  destruct (Hn _ Hin) as (b & Hb & Hkey). simpl in Hb, Hkey. rewrite (kv_some _ _ _ Ho) in Hb.
  simplify_eq. apply Hj. by rewrite Hkey, Nat2Z.id.
Qed.

Lemma hash_del_done put h ops c t o obj :
  h_objs h !! o = Some obj -> ce_ops obj = ops -> ops <> 0 -> table_ok h ops t ->
  (exists k, (k, o) ∈ concat (ht_nodes t)) ->
  (self_ident h o /\ exists t', table_ok h ops t' /\ removed t t' o /\
     hash_table_del ops_at put h c t o =
       (h ← put h o; x ← get_cache h c; mret (0, put_cache h c (with_table x (Some t'))))) \/
  (~ self_ident h o /\ hash_table_del ops_at put h c t o = Done (- NLE_OBJ_NOTFOUND, h)).
Proof.
  intros Ho Hk Hops Ht (k' & Hin).
  destruct (ht_slot_done h ops t (ce_body obj) Hops Ht ops Hops) as (l & Hl & Hn & Hr).
  destruct (node_slot h ops t o obj k' Ht Ho Hk Hin) as (l' & Hl' & Hin'). rewrite Hn in Hl'. simplify_eq.
  set (ops := ce_ops obj) in *. set (k := key_of ops (ce_body obj) (ht_size t)) in *. rename l' into l.
  assert (kv h o = Some (ops, ce_body obj)) as Hkv by (by apply kv_some).
  pose proof Ht as (_ & _ & Hkg & Hsl). destruct (Hsl _ _ Hn) as [Hnodes Hdist].
  unfold hash_table_del. rewrite (get_obj_done _ _ _ Ho). exec_simpl. rewrite keygen_done by done.
  exec_simpl. fold ops. fold k. rewrite Hl. exec_simpl.
  destruct (find_node_done h l obj) as (r & -> & Hr'); [done| |].
  { intros nd Hnd. destruct (table_nodes_exist h ops t Ht _ l nd Hn Hnd) as (x & ? & ?).
    exists x. split; [done|congruence]. }
  exec_simpl. destruct r as [[[pre x] rest]|].
  - left. destruct Hr' as (kk & -> & Hs & Hpre). apply (same_ident h x o obj Ho) in Hs.
    destruct (table_nodes_exist h ops t Ht _ _ (kk, x) Hn) as (xo & Hxo & Hxk);
      [apply elem_of_app; right; by left|]. simpl in Hxo.
    assert (kv h x = Some (ops, ce_body xo)) as Hkx by (rewrite (kv_some _ _ _ Hxo); congruence).
    assert (ident h o x) as Hox by (by apply (ident_sym h x o ops (ce_body xo))).
    assert (self_ident h o) as Hself by (by apply (ident_trans h o x o ops (ce_body xo))).
    assert (x = o) as ->.
    { apply (distinct_find h pre kk x rest k' o); try done.
      intros nd Hnd Hi. apply (same_ident h nd.2 o obj Ho) in Hi. by rewrite (Hpre nd Hnd) in Hi. }
    split; [done|]. exists (set_slot t k (pre ++ rest)). split; [|split; [|done]].
    + apply table_ok_set_slot; [done|done|]. rewrite Z2Nat.id in Hnodes by lia. split.
      * intros nd Hnd. apply Hnodes. apply elem_of_app in Hnd as [?|?]; apply elem_of_app; [by left|].
        right. by right.
      * by apply distinct_remove with (kk, o).
    + apply (removed_slot t k pre kk o rest); [lia|done| |].
      * by apply (distinct_once h pre (kk, o) rest o).
      * intros j l' k2 Hj Hl'. by apply (other_slots h ops t o obj k2 j l').
  - right. split; [|done]. intros Hself. apply (same_ident h o o obj Ho) in Hself.
    pose proof (Hr' _ Hin') as Hf. simpl in Hf. congruence.
Qed.

Lemma put_obj_id h o obj : h_objs h !! o = Some obj -> put_obj h o obj = h.
Proof. intros Ho. unfold put_obj, with_objs. rewrite insert_id by done. by destruct h. Qed.
Lemma put_cache_id h c x : h_caches h !! c = Some x -> put_cache h c x = h.
Proof. intros Hc. unfold put_cache, with_caches. rewrite insert_id by done. by destruct h. Qed.
Lemma with_refcnt_id obj : with_refcnt obj (ce_refcnt obj) = obj.
Proof. by destruct obj. Qed.

(** The cache with its new table: [x'] is [x] but for the table, whose nodes are
    those of [x] but perhaps for one of [o]. *)
Definition untabled (x x' : nl_cache) o : Prop :=
  c_ops x' = c_ops x /\ c_nitems x' = c_nitems x /\ c_refcnt x' = c_refcnt x /\
  c_flags x' = c_flags x /\ is_Some (c_hashtable x') /\
  (forall k o', o' <> o -> (k, o') ∈ table_nodes x -> (k, o') ∈ table_nodes x').

(** The nodes of [x'] are nodes of [x], of [o] only if it identifies nothing. *)
Definition only_old h (x x' : nl_cache) o : Prop :=
  forall k o', (k, o') ∈ table_nodes x' -> (k, o') ∈ table_nodes x /\ (o' = o -> ~ self_ident h o).

Lemma wf_hash_del n h items ext c x t o obj :
  wf h items ext -> h_caches h !! c = Some x -> c_hashtable x = Some t ->
  h_objs h !! o = Some obj -> ce_ops obj = co_obj_ops (cops_at (c_ops x)) ->
  (exists k, (k, o) ∈ concat (ht_nodes t)) -> 1 < ce_refcnt obj ->
  exists ret r x', hash_table_del ops_at (put_at ops_at (S n)) h c t o =
      Done (ret, put_cache (put_obj h o (with_refcnt obj r)) c x') /\
    wf (put_cache (put_obj h o (with_refcnt obj r)) c x') items ext /\
    untabled x x' o /\ only_old h x x' o.
Proof.
  intros Hw Hc Ht Ho Hk Hin Hr. pose proof (wf_obj _ _ _ Hw o obj Ho) as (_ & Hops & _ & _ & _ & He & _).
  pose proof (wf_cache _ _ _ Hw c x Hc) as (_ & _ & _ & _ & Htb). specialize (Htb t Ht).
  destruct (hash_del_done (put_at ops_at (S n)) h _ c t o obj Ho Hk ltac:(congruence) Htb Hin)
    as [(_ & t' & Htb' & (Hcnt & Hoth & Hsub) & ->)|(Hns & ->)].
  - rewrite (put_dec n h o obj Ho Hr). exec_simpl.
    rewrite (get_cache_done _ c x) by done. exec_simpl.
    eexists 0, (ce_refcnt obj - 1), (with_table x (Some t')). split; [done|]. split.
    + assert (wf (put_cache h c (with_table x (Some t'))) items (ext_add ext o 1)) as Hw1.
      { apply (wf_table h items ext _ c x t t'); try done.
        - intros o'. specialize (Hcnt o'). unfold ext_add. case_decide; lia.
        - intros o'. destruct (h_objs h !! o') as [obj'|] eqn:E.
          + pose proof (wf_obj _ _ _ Hw o' obj' E) as (_ & _ & _ & _ & _ & ? & _).
            unfold ext_add. case_decide; lia.
          + destruct (wf_noobj _ _ _ Hw o' E). unfold ext_add. case_decide; lia. }
      assert (ce_refcnt obj - 1 = ce_refcnt obj + -1) as -> by lia.
      apply (wf_ext _ _ (ext_add (ext_add ext o 1) o (-1))).
      { intros o'. by rewrite ext_add_back. }
      apply (wf_refcnt (put_cache h c (with_table x (Some t'))) items _ o obj); [done|done| |lia].
      rewrite ext_add_eq. lia.
    + unfold only_old, table_nodes. simpl. rewrite Ht. split.
      * split_and!; try done. intros k o' Hne Hk'. unfold table_nodes in *. simpl. rewrite Ht in Hk'.
        by apply Hoth.
      * intros k o' Hk'. destruct (Hsub k o' Hk'). done.
  - eexists _, (ce_refcnt obj), x. rewrite with_refcnt_id, put_obj_id, put_cache_id by done.
    split; [done|]. split; [done|]. split; [by split_and!|]. intros k o' Hk'. split; [done|]. by intros _.
Qed.

(** Lists of caches share no entries. *)
Lemma items_disjoint h items ext c c' o : wf h items ext -> o ∈ items c -> o ∈ items c' -> c = c'.
Proof.
  intros Hw H1 H2. destruct (wf_in _ _ _ Hw c o H1) as (x & Hx & <-).
  destruct (wf_in _ _ _ Hw c' o H2) as (y & Hy & <-). congruence.
Qed.

Lemma nodes_in (l : list Z) o : NObj o ∈ (NObj <$> l) <-> o ∈ l.
Proof.
  rewrite list_elem_of_fmap. split; [by intros (o' & [= ->] & ?)|]. intros. by exists o.
Qed.

(** The state between the unlinking of an object and the return of the list's
    reference. *)
Lemma wf_unlink h items ext o obj c l1 l2 :
  wf h items ext -> h_objs h !! o = Some obj -> ce_cache obj = c -> c <> 0 ->
  items c = l1 ++ o :: l2 ->
  exists links, nl_list_del (h_links h) (NObj o) = Done links /\
    wf (put_obj (with_links h links) o (with_cache obj 0)) (set_items items c (l1 ++ l2))
       (ext_add ext o 1).
Proof.
  intros Hw Ho Hco Hc0 Hit.
  assert (exists x, h_caches h !! c = Some x) as [x Hc].
  { destruct (h_caches h !! c) as [x|] eqn:E; [by exists x|].
    rewrite (wf_nocache _ _ _ Hw c E) in Hit. by destruct l1. }
  destruct (wf_cache _ _ _ Hw c x Hc) as (_ & _ & Hl & _). rewrite Hit, fmap_app, fmap_cons in Hl.
  pose proof Hl as [Hnd _].
  destruct (nl_list_del_spec _ _ _ _ _ Hl) as (links & Hdel & Hl' & Hfr & Hdom).
  exists links. split; [done|]. set (h' := put_obj _ _ _).
  assert (forall o', kv h' o' = kv h o') as Hkv by (intros; by apply (kv_put_same (with_links h links) o obj)).
  assert (o ∉ l1 ++ l2) as Hni.
  { rewrite <- (Permutation_middle (NObj <$> l1) (NObj <$> l2)) in Hnd.
    apply NoDup_cons in Hnd as [_ Hnd]. apply NoDup_cons in Hnd as [Hx _].
    intros Hin. apply Hx. rewrite <- fmap_app. by apply nodes_in. }
  assert (forall c' o', o' ∈ set_items items c (l1 ++ l2) c' -> o' ∈ items c' /\ o' <> o) as Hsub.
  { intros c' o' Hin. destruct (decide (c' = c)) as [->|].
    - rewrite set_items_eq in Hin. split; [rewrite Hit; set_solver|]. by intros ->.
    - rewrite set_items_ne in Hin by done. split; [done|]. intros ->.
      assert (c' = c); [|done]. apply (items_disjoint h items ext _ _ o); [done|done|].
      rewrite Hit. set_solver. }
  assert (forall n, is_Some (links !! n) <-> is_Some (h_links h !! n)) as Hsome.
  { intros n. rewrite <- !elem_of_dom. by rewrite Hdom. }
  destruct Hw as [W1 W2 W3 W4 W5 W6]. split; [..|exact W6].
  - intros c' x' Hc'. destruct (W1 c' x' Hc') as (? & ? & Hl2 & Hk & Ht). do 2 (split; [done|]).
    split; [|split].
    + destruct (decide (c' = c)) as [->|Hne]; [by rewrite set_items_eq, fmap_app|].
      rewrite set_items_ne by done. apply (is_list_frame (h_links h)); [done|].
      intros n Hn. apply Hfr. intros Hn'. rewrite <- fmap_app in Hn'.
      apply elem_of_cons in Hn as [->|Hn].
      * apply elem_of_cons in Hn' as [?|Hn']; [congruence|].
        apply list_elem_of_fmap in Hn' as (? & ? & _). done.
      * apply list_elem_of_fmap in Hn as (o' & -> & Hn).
        apply elem_of_cons in Hn' as [?|Hn']; [done|]. apply nodes_in in Hn'.
        destruct (W3 c' o' Hn) as (y & Hy & Hyc). destruct (W3 c o') as (z & Hz & Hzc).
        { rewrite Hit. set_solver. }
        congruence.
    + intros o' Hin. rewrite Hkv. apply Hk. by apply Hsub.
    + intros t Htt. apply (table_ok_ext h); [intros; apply Hkv|by apply Ht].
  - intros c' Hc'. pose proof (W2 c' Hc') as Hn. unfold set_items. case_decide as E; [|done].
    rewrite E, Hit in Hn. by destruct l1.
  - intros c' o' Hin. destruct (Hsub _ _ Hin) as [Hin' Hne]. simpl. rewrite lookup_insert_ne by done.
    by apply W3.
  - intros o' obj' Ho'. simpl in Ho'. simpl. rewrite Hsome. destruct (decide (o' = o)) as [->|Hne].
    + rewrite lookup_insert_eq in Ho'. simplify_eq. destruct (W4 o obj Ho) as (? & ? & ? & _ & Hr & ? & ?).
      rewrite ext_add_eq. simpl. rewrite (proj2 (Z.eqb_neq _ _) Hc0) in Hr.
      do 3 (split; [done|]). split; [done|]. split; [|split]; lia.
    + rewrite lookup_insert_ne in Ho' by done. rewrite ext_add_ne by done.
      destruct (W4 o' obj' Ho') as (? & ? & ? & Hi & ? & ? & ?). do 3 (split; [done|]).
      split; [|by split_and!]. intros Hcc. specialize (Hi Hcc).
      destruct (decide (ce_cache obj' = c)) as [E|]; [|by rewrite set_items_ne].
      rewrite E in *. rewrite set_items_eq. rewrite Hit in Hi. set_solver.
  - intros o' Ho'. simpl in Ho'. apply lookup_insert_None in Ho' as [Ho' Hne].
    rewrite ext_add_ne by done. by apply W5.
Qed.

(** ** Removal from a cache *)

Lemma wf_cache_fields h items ext c x x' :
  wf h items ext -> h_caches h !! c = Some x -> c_ops x' = c_ops x ->
  c_hashtable x' = c_hashtable x -> wf (put_cache h c x') items ext.
Proof.
  intros Hw Hc Ho Ht. set (h' := put_cache h c x').
  assert (forall o, table_refs (h_caches h') o = table_refs (h_caches h) o) as Hr.
  { intros o. unfold h'. simpl. apply (table_refs_same _ c x); [done|]. unfold table_nodes. by rewrite Ht. }
  destruct Hw as [W1 W2 W3 W4 W5 W6]. split; [..|exact W6].
  - intros c' y Hy. unfold h' in Hy. simpl in Hy. destruct (decide (c' = c)) as [->|].
    + rewrite lookup_insert_eq in Hy. simplify_eq. rewrite Ho, Ht.
      destruct (W1 c x Hc) as (? & ? & ? & ? & Htb). do 4 (split; [done|]). intros t Htt.
      apply (table_ok_ext h); [done|by apply Htb].
    + rewrite lookup_insert_ne in Hy by done. destruct (W1 c' y Hy) as (? & ? & ? & ? & Htb).
      do 4 (split; [done|]). intros t Htt. apply (table_ok_ext h); [done|by apply Htb].
  - intros c' Hc'. unfold h' in Hc'. simpl in Hc'. apply lookup_insert_None in Hc' as [? _]. by apply W2.
  - exact W3.
  - intros o obj Hobj. rewrite Hr. by apply W4.
  - intros o Hobj. rewrite Hr. by apply W5.
Qed.

(** What the caches are for, apart from their items and counts. *)
Definition cview (x : nl_cache) : Z * Z * Z * bool :=
  (c_ops x, c_refcnt x, c_flags x, bool_decide (is_Some (c_hashtable x))).
Lemma cview_table x x' : cview x' = cview x -> is_Some (c_hashtable x') -> is_Some (c_hashtable x).
Proof.
  intros Hx Ht. apply (f_equal snd) in Hx. cbn [cview snd] in Hx. apply (bool_decide_unpack _).
  rewrite <- Hx. by apply bool_decide_pack.
Qed.

Definition cviews h c := cview <$> h_caches h !! c.

Definition kept (obj obj' : nl_object D) : Prop :=
  ce_ops obj' = ce_ops obj /\ ce_msgtype obj' = ce_msgtype obj /\ ce_flags obj' = ce_flags obj /\
  ce_body obj' = ce_body obj.

(** The removal of [o] from the cache [c]. *)
Definition removal h h' o obj : Prop :=
  (forall c', cviews h' c' = cviews h c') /\ h_next h' = h_next h /\
  (forall o', o' <> o -> h_objs h' !! o' = h_objs h !! o') /\
  (forall obj', h_objs h' !! o = Some obj' -> kept obj obj' /\ ce_cache obj' = 0).

Lemma remove_spec n h items ext o obj c l1 l2 :
  wf h items ext -> indexed h items -> nitems_ok h items ->
  h_objs h !! o = Some obj -> ce_cache obj = c -> c <> 0 -> items c = l1 ++ o :: l2 ->
  exists h', cache_remove ops_at (put_at ops_at (S n)) h o = Done h' /\
    wf h' (set_items items c (l1 ++ l2)) ext /\ indexed h' (set_items items c (l1 ++ l2)) /\
    nitems_ok h' (set_items items c (l1 ++ l2)) /\ removal h h' o obj /\
    (0 < ext o -> is_Some (h_objs h' !! o)).
Proof.
  intros Hw Hix Hni Ho Hco Hc0 Hit.
  assert (o ∈ items c) as Hin by (rewrite Hit; set_solver).
  assert (exists x, h_caches h !! c = Some x) as [x Hc].
  { destruct (h_caches h !! c) as [x|] eqn:E; [by exists x|].
    by rewrite (wf_nocache _ _ _ Hw c E) in Hin; apply elem_of_nil in Hin. }
  pose proof (wf_cache _ _ _ Hw c x Hc) as (_ & _ & _ & Hkinds & _).
  assert (ce_ops obj = co_obj_ops (cops_at (c_ops x))) as Hk.
  { destruct (Hkinds o Hin) as (b & Hb). rewrite (kv_some _ _ _ Ho) in Hb. congruence. }
  unfold cache_remove. rewrite (get_obj_done _ _ _ Ho). exec_simpl. cbv zeta. rewrite Hco.
  rewrite (proj2 (Z.eqb_neq c 0) Hc0). rewrite (get_cache_done _ _ _ Hc). exec_simpl.
  assert (exists ret r x', match c_hashtable x with
      | Some t => hash_table_del ops_at (put_at ops_at (S n)) h c t o
      | None => mret (0, h) end = Done (ret, put_cache (put_obj h o (with_refcnt obj r)) c x') /\
    wf (put_cache (put_obj h o (with_refcnt obj r)) c x') items ext /\
    c_ops x' = c_ops x /\ c_nitems x' = c_nitems x /\ cview x' = cview x /\
    (forall k o', o' <> o -> (k, o') ∈ table_nodes x -> (k, o') ∈ table_nodes x') /\
    only_old h x x' o)
    as (ret & r & x' & -> & Hw1 & Hxo & Hxn & Hxv & Hxt & Hold).
  { destruct (c_hashtable x) as [t|] eqn:Ht.
    - destruct (wf_hash_del n h items ext c x t o obj Hw Hc Ht Ho Hk) as (ret & r & x' & He & Hw1 & Hu & Hold).
      + destruct (proj1 (Hix c x Hc) ltac:(rewrite Ht; by eexists) o Hin) as (k & Hkn).
        unfold table_nodes in Hkn. rewrite Ht in Hkn. by exists k.
      + pose proof (wf_obj _ _ _ Hw o obj Ho) as (_ & _ & _ & _ & Hr & ? & _).
        rewrite Hco, (proj2 (Z.eqb_neq c 0) Hc0) in Hr.
        destruct (proj1 (Hix c x Hc) ltac:(rewrite Ht; by eexists) o Hin) as (k & Hkn).
        pose proof (count_obj_pos _ _ Hkn) as Hp.
        pose proof (table_refs_ge (h_caches h) c x o Hc) as Hge. simpl in Hp. lia.
      + exists ret, r, x'. split; [done|]. split; [done|].
        destruct Hu as (U1 & U2 & U3 & U4 & U5 & U6). split_and!; try done.
        unfold cview. rewrite U1, U3, U4, Ht. by rewrite !bool_decide_true by (done || by eexists).
    - exists 0, (ce_refcnt obj), x. rewrite with_refcnt_id, put_obj_id, put_cache_id by done.
      split_and!; try done. intros k o' Hk'. unfold table_nodes in Hk'. rewrite Ht in Hk'.
      by apply elem_of_nil in Hk'. }
  exec_simpl. set (obj1 := with_refcnt obj r) in *. set (h1 := put_cache (put_obj h o obj1) c x') in *.
  assert (h_objs h1 !! o = Some obj1) as Ho1 by (unfold h1; simpl; by rewrite lookup_insert_eq).
  destruct (wf_unlink h1 items ext o obj1 c l1 l2 Hw1 Ho1 Hco Hc0 Hit) as (links & -> & Hw2).
  exec_simpl. rewrite (get_obj_done (with_links h1 links) o obj1 Ho1). exec_simpl.
  set (obj2 := with_cache obj1 0) in *. set (h2 := put_obj (with_links h1 links) o obj2) in *.
  assert (h_objs h2 !! o = Some obj2) as Ho2 by (unfold h2; simpl; by rewrite lookup_insert_eq).
  destruct (put_spec n h2 _ (ext_add ext o 1) o obj2 Hw2 Ho2) as (h3 & -> & Hw3 & (S1 & S2 & S3 & S4) & Ho3).
  { rewrite ext_add_eq. pose proof (wf_obj _ _ _ Hw o obj Ho) as (_ & _ & _ & _ & _ & ? & _). lia. }
  exec_simpl.
  assert (h_caches h3 !! c = Some x') as Hc3 by (rewrite S1; simpl; by rewrite lookup_insert_eq).
  rewrite (get_cache_done _ _ _ Hc3). exec_simpl. set (y := with_nitems x' _).
  pose proof (cview_table _ _ Hxv) as Hxb.
  eexists. split; [done|]. split; [|split; [|split; [|split]]].
  - apply (wf_cache_fields _ _ _ c x'); [|done..].
    eapply wf_ext; [|exact Hw3]. intros o'. symmetry. by apply ext_add_back.
  - assert (forall o', self_ident (put_cache h3 c y) o' -> self_ident h o') as Hsi.
    { intros o' (p & b1 & b2 & K1 & K2 & K3). exists p, b1, b2. unfold kv in *. simpl in K1, K2.
      destruct (decide (o' = o)) as [->|Hne].
      - rewrite Ho3 in K1, K2. rewrite Ho. destruct (ce_refcnt obj2 =? 1); [done|]. by split_and!.
      - rewrite S3 in K1, K2 by done. simpl in K1, K2. rewrite !lookup_insert_ne in K1, K2 by done.
        by split_and!. }
    intros c' z Hz. simpl in Hz. rewrite S1 in Hz. simpl in Hz.
    rewrite insert_insert_eq in Hz. destruct (decide (c' = c)) as [->|Hne].
    + rewrite lookup_insert_eq in Hz. injection Hz as <-. rewrite set_items_eq.
      change (table_nodes y) with (table_nodes x'). destruct (Hix _ x Hc) as [I1 I2]. split.
      * intros Hst o' Hin'. assert (o' ∈ items c) as Hin2 by (rewrite Hit; set_solver).
        destruct (I1 (Hxb Hst) o' Hin2) as (k & Hkn). exists k. apply Hxt; [|done]. intros ->.
        pose proof (wf_cache _ _ _ Hw _ x Hc) as (_ & _ & [Hnd _] & _).
        apply NoDup_cons in Hnd as [_ Hnd]. rewrite Hit in Hnd. apply (NoDup_fmap_1 NObj) in Hnd.
        rewrite <- (Permutation_middle l1 l2) in Hnd. apply NoDup_cons in Hnd as [? _]. done.
      * intros k o' Hk' Hs. apply Hsi in Hs. destruct (Hold k o' Hk') as [Hk2 Hno].
        specialize (I2 k o' Hk2 Hs). rewrite Hit in I2. apply elem_of_app in I2 as [?|I2];
          [apply elem_of_app; by left|]. apply elem_of_cons in I2 as [->|?]; [by destruct Hno|].
        apply elem_of_app; by right.
    + rewrite lookup_insert_ne in Hz by done. rewrite set_items_ne by done.
      destruct (Hix c' z Hz) as [I1 I2]. split; [done|]. intros k o' Hk' Hs. apply (I2 k o' Hk').
      by apply Hsi.
  - intros c' z Hz. simpl in Hz. rewrite S1 in Hz. simpl in Hz. rewrite insert_insert_eq in Hz.
    destruct (decide (c' = c)) as [->|Hne].
    + rewrite lookup_insert_eq in Hz. simplify_eq. rewrite set_items_eq. simpl.
      rewrite Hxn, (Hni _ x Hc), Hit, !zlen_app, zlen_cons. lia.
    + rewrite lookup_insert_ne in Hz by done. rewrite set_items_ne by done. by apply Hni.
  - split; [|split; [|split]].
    + intros c'. unfold cviews. simpl. rewrite S1. simpl. rewrite insert_insert_eq.
      destruct (decide (c' = c)) as [->|Hne].
      * rewrite lookup_insert_eq, Hc. simpl. f_equal. exact Hxv.
      * by rewrite lookup_insert_ne.
    + simpl. by rewrite S2.
    + intros o' Hne. simpl. rewrite S3 by done. simpl. by rewrite !lookup_insert_ne.
    + intros obj' Hobj'. simpl in Hobj'. rewrite Ho3 in Hobj'.
      destruct (ce_refcnt obj2 =? 1); [done|]. by simplify_eq.
  - intros He. simpl. rewrite Ho3. destruct (ce_refcnt obj2 =? 1) eqn:E; [|by eexists].
    bool_hyps. pose proof (wf_obj _ _ _ Hw2 o obj2 Ho2) as (_ & _ & _ & _ & Hr & _).
    rewrite ext_add_eq in Hr. pose proof (table_refs_nonneg (h_caches h2) o).
    change (ce_cache obj2 =? 0) with true in Hr. cbv iota in Hr. lia.
Qed.

End CacheInv.
