(* ===== verification/CacheOps.v ===== *)
(** The operations of lib/cache.c keep the ownership invariant: insertion,
    moving, lookup, creation and destruction of caches. *)
From S2P Require Import Prelude Errors NlList Object Cache CacheInv.

Section CacheOps.
Context {D : Type} {EV : Env D} {EK : EnvOk EV}.
Implicit Types (h : heap D) (o c : Z) (obj : nl_object D).

(** ** Insertion into a cache *)

Lemma not_in_items h items ext o obj :
  wf h items ext -> h_objs h !! o = Some obj -> ce_cache obj = 0 -> forall c, o ∉ items c.
Proof.
  intros Hw Ho Hc c Hin. destruct (wf_in _ _ _ Hw c o Hin) as (obj' & Ho' & Hc').
  assert (c = 0) as -> by congruence.
  destruct (h_caches h !! 0) as [x|] eqn:E.
  - destruct (wf_cache _ _ _ Hw _ x E) as (? & _). lia.
  - rewrite (wf_nocache _ _ _ Hw _ E) in Hin. by apply elem_of_nil in Hin.
Qed.

(** The list takes over a reference. *)
Lemma wf_link h items ext o obj c x :
  wf h items ext -> h_objs h !! o = Some obj -> ce_cache obj = 0 -> h_caches h !! c = Some x ->
  ce_ops obj = co_obj_ops (cops_at (c_ops x)) -> 0 < ext o ->
  exists links, nl_list_add_tail (h_links h) (NObj o) (NCache c) = Done links /\
    wf (put_obj (with_links h links) o (with_cache obj c)) (set_items items c (items c ++ [o]))
       (ext_add ext o (-1)).
Proof.
  intros Hw Ho Hco Hc Hk He. pose proof (not_in_items _ _ _ _ _ Hw Ho Hco) as Hni.
  destruct (wf_cache _ _ _ Hw c x Hc) as (Hc0 & _ & Hl & _).
  destruct (wf_obj _ _ _ Hw o obj Ho) as (_ & _ & Hsl & _).
  destruct (nl_list_add_tail_spec _ _ _ (NObj o) Hl) as (links & Hadd & Hl' & Hfr & Hdom);
    [|done|].
  { intros Hin. apply elem_of_cons in Hin as [?|Hin]; [done|]. apply nodes_in in Hin.
    by apply (Hni c). }
  exists links. split; [done|]. set (h' := put_obj _ _ _).
  assert (forall o', kv h' o' = kv h o') as Hkv by (intros; by apply (kv_put_same (with_links h links) o obj)).
  assert (forall n, is_Some (links !! n) <-> is_Some (h_links h !! n)) as Hsome.
  { intros n. rewrite <- !elem_of_dom. by rewrite Hdom. }
  assert (forall c' o', o' ∈ set_items items c (items c ++ [o]) c' -> o' ∈ items c' \/ o' = o /\ c' = c) as Hsub.
  { intros c' o' Hin. destruct (decide (c' = c)) as [->|].
    - rewrite set_items_eq in Hin. apply elem_of_app in Hin as [?|Hin]; [by left|].
      apply list_elem_of_singleton in Hin. by right.
    - rewrite set_items_ne in Hin by done. by left. }
  assert (forall c' o', o' ∈ items c' -> o' ∈ set_items items c (items c ++ [o]) c') as Hsup.
  { intros c' o' Hin. destruct (decide (c' = c)) as [->|].
    - rewrite set_items_eq. apply elem_of_app. by left.
    - by rewrite set_items_ne. }
  destruct Hw as [W1 W2 W3 W4 W5 W6]. split; [..|exact W6].
  - intros c' x' Hc'. destruct (W1 c' x' Hc') as (? & ? & Hl2 & Hkk & Ht). do 2 (split; [done|]).
    split; [|split].
    + destruct (decide (c' = c)) as [->|Hne]; [by rewrite set_items_eq, fmap_app|].
      rewrite set_items_ne by done. apply (is_list_frame (h_links h)); [done|].
      intros n Hn. apply Hfr. intros Hn'.
      apply elem_of_cons in Hn as [->|Hn].
      * apply elem_of_cons in Hn' as [?|Hn']; [congruence|].
        apply elem_of_cons in Hn' as [?|Hn']; [congruence|].
        apply list_elem_of_fmap in Hn' as (? & ? & _). done.
      * apply list_elem_of_fmap in Hn as (o' & -> & Hn).
        apply elem_of_cons in Hn' as [?|Hn']; [done|].
        apply elem_of_cons in Hn' as [?|Hn']; [simplify_eq; by apply (Hni c')|].
        apply nodes_in in Hn'. destruct (W3 c' o' Hn) as (y & Hy & Hyc).
        destruct (W3 c o' Hn') as (z & Hz & Hzc). congruence.
    + intros o' Hin. rewrite Hkv. apply Hsub in Hin as [Hin|[-> ->]]; [by apply Hkk|].
      change (h_caches h') with (h_caches h) in Hc'. rewrite (kv_some _ _ _ Ho). exists (ce_body obj). congruence.
    + intros t Htt. apply (table_ok_ext h); [intros; apply Hkv|by apply Ht].
  - intros c' Hc'. change (h_caches h') with (h_caches h) in Hc'. pose proof (W2 c' Hc') as Hn.
    rewrite set_items_ne by congruence. done.
  - intros c' o' Hin. simpl. apply Hsub in Hin as [Hin|[-> ->]].
    + rewrite lookup_insert_ne; [by apply W3|]. intros ->. by apply (Hni c').
    + rewrite lookup_insert_eq. by exists (with_cache obj c).
  - intros o' obj' Ho'. simpl in Ho'. simpl. rewrite Hsome. destruct (decide (o' = o)) as [->|Hne].
    + rewrite lookup_insert_eq in Ho'. simplify_eq. destruct (W4 o obj Ho) as (? & ? & ? & _ & Hr & ? & ?).
      rewrite ext_add_eq. simpl. rewrite Hco in Hr. rewrite (proj2 (Z.eqb_neq c 0)) by lia.
      change (0 =? 0) with true in Hr. cbv iota in Hr.
      do 3 (split; [done|]). split; [|split; [|split]]; [|lia..].
      intros _. rewrite set_items_eq. set_solver.
    + rewrite lookup_insert_ne in Ho' by done. rewrite ext_add_ne by done.
      destruct (W4 o' obj' Ho') as (? & ? & ? & Hi & ? & ? & ?). do 3 (split; [done|]).
      split; [|by split_and!]. intros Hcc. apply Hsup. by apply Hi.
  - intros o' Ho'. simpl in Ho'. apply lookup_insert_None in Ho' as [Ho' Hne].
    rewrite ext_add_ne by done. by apply W5.
Qed.

(** Whether the table of a cache has an object identical to [obj]. *)
Definition table_has h x obj : bool := existsb (fun nd => same h nd.2 obj) (table_nodes x).

Lemma in_slot_table h x t obj l :
  c_hashtable x = Some t -> table_ok h (ce_ops obj) t -> ce_ops obj <> 0 ->
  ht_nodes t !! Z.to_nat (key_of (ce_ops obj) (ce_body obj) (ht_size t)) = Some l ->
  in_slot h l obj = table_has h x obj.
Proof.
  intros Ht Htb Hops Hl. apply Bool.eq_true_iff_eq. unfold in_slot, table_has, table_nodes. rewrite Ht.
  rewrite !existsb_exists. split.
  - intros (nd & Hin & Hs). exists nd. split; [|done]. apply list_elem_of_In.
    apply (slot_in_table t _ l nd Hl). by apply list_elem_of_In.
  - intros (nd & Hin & Hs). exists nd. split; [|done]. apply list_elem_of_In in Hin.
    pose proof Hs as Hs'. unfold same in Hs'. destruct (h_objs h !! nd.2) as [y|] eqn:Hy; [|done].
    bool_hyps. destruct nd as [k o]. simpl in Hy.
    destruct (node_slot h _ t o y k Htb Hy) as (l' & Hl' & Hin'); [congruence|done|].
    assert (key_of (ce_ops obj) (ce_body y) (ht_size t) = key_of (ce_ops obj) (ce_body obj) (ht_size t)) as Hkey.
    { destruct Htb as (_ & _ & Hkg & _). unfold key_of.
      destruct (oo_keygen (ops_at (ce_ops obj))) as [f|] eqn:Hf; [|done].
      apply (ko_key_ident _ (kinds_ok _ Hops)); [done|]. congruence. }
    rewrite Hkey, Hl in Hl'. simplify_eq. by apply list_elem_of_In.
Qed.

Lemma is_some_or {A} (m : option A) : m = None \/ is_Some m.
Proof. destruct m; [right; by eexists|by left]. Qed.

(** The table half of an insertion: [h1] is [h] with the table's node and its
    reference. *)
Lemma wf_hash_add h items ext c x t o obj (c1 : bool) l :
  wf h items ext -> h_caches h !! c = Some x -> c_hashtable x = Some t ->
  h_objs h !! o = Some obj -> ce_ops obj = co_obj_ops (cops_at (c_ops x)) ->
  let k := key_of (ce_ops obj) (ce_body obj) (ht_size t) in
  0 <= k < ht_size t -> ht_nodes t !! Z.to_nat k = Some l -> in_slot h l obj = false ->
  wf (put_cache (put_obj h o (with_refcnt obj (ce_refcnt obj + 1))) c
        (with_table x (Some (set_slot t k ((k, o) :: l))))) items ext.
Proof.
  intros Hw Hc Ht Ho Hk k Hr Hl Hn.
  pose proof (wf_cache _ _ _ Hw c x Hc) as (_ & _ & _ & _ & Htb). specialize (Htb t Ht).
  pose proof (wf_obj _ _ _ Hw o obj Ho) as (_ & Hops & _ & _ & _ & He & Hpos).
  destruct (get_spec h items ext o obj Hw Ho) as [_ Hw1].
  eapply (wf_table _ items (ext_add ext o 1) ext c x t); try done.
  - apply (table_ok_ext h).
    + intros nd _. by apply (kv_put_same h o obj).
    + rewrite <- Hk in *. by apply table_ok_add.
  - intros o'. pose proof (count_set_slot t k l ((k, o) :: l) o' ltac:(lia) Hl) as Hcnt.
    rewrite count_obj_cons in Hcnt. cbn [snd] in Hcnt. unfold ext_add.
    destruct (decide (o' = o)) as [->|Hne].
    + rewrite decide_True in Hcnt by done. lia.
    + rewrite decide_False in Hcnt by congruence. lia.
  - intros o'. destruct (h_objs h !! o') as [obj'|] eqn:E.
    + by pose proof (wf_obj _ _ _ Hw o' obj' E) as (_ & _ & _ & _ & _ & ? & _).
    + destruct (wf_noobj _ _ _ Hw o' E). lia.
Qed.

Lemma table_nodes_add t k o l nd :
  0 <= k -> ht_nodes t !! Z.to_nat k = Some l ->
  nd ∈ concat (ht_nodes t) \/ nd = (k, o) -> nd ∈ concat (ht_nodes (set_slot t k ((k, o) :: l))).
Proof.
  intros Hk Hl [Hin| ->].
  - apply list_elem_of_In, in_concat in Hin as (l' & Hl' & Hin).
    apply list_elem_of_In in Hin. apply list_elem_of_In, list_elem_of_lookup in Hl' as [j Hj].
    destruct (decide (j = Z.to_nat k)) as [->|Hne].
    + apply (slot_in_table _ (Z.to_nat k) ((k, o) :: l)); simpl.
      * apply list_lookup_insert_eq. by apply lookup_lt_Some in Hl.
      * rewrite Hl in Hj. simplify_eq. by right.
    + apply (slot_in_table _ j l'); [|done]. simpl. by rewrite list_lookup_insert_ne.
  - apply (slot_in_table _ (Z.to_nat k) ((k, o) :: l)); simpl; [|by left].
    apply list_lookup_insert_eq. by apply lookup_lt_Some in Hl.
Qed.

(** The addition of [o] to the cache [c]. *)
Definition addition h h' c o obj : Prop :=
  (forall c', cviews h' c' = cviews h c') /\ h_next h' = h_next h /\
  (forall o', o' <> o -> h_objs h' !! o' = h_objs h !! o') /\
  exists obj', h_objs h' !! o = Some obj' /\ kept obj obj' /\ ce_cache obj' = c.

(** The result of [__cache_add]. *)
Definition add_result (c1 : bool) h x obj : Z :=
  if table_has h x obj then - NLE_EXIST
  else if bool_decide (is_Some (c_hashtable x)) && negb c1 then - NLE_NOMEM else 0.

Lemma add_result_nonpos (c1 : bool) h x obj : add_result c1 h x obj <= 0.
Proof. unfold add_result. repeat case_test; done. Qed.

Lemma add_result_not_mismatch (c1 : bool) h x obj : add_result c1 h x obj <> - NLE_OBJ_MISMATCH.
Proof. unfold add_result. repeat case_test; done. Qed.

Lemma with_table_id x t : c_hashtable x = Some t -> with_table x (Some t) = x.
Proof. destruct x. simpl. by intros ->. Qed.

Lemma with_cache_back obj c : ce_cache obj = 0 -> with_cache (with_cache obj c) 0 = obj.
Proof. destruct obj. simpl. by intros ->. Qed.

(** The table half of [__cache_add], in the state where [o] is already marked as
    belonging to the cache. *)
Lemma table_nodes_new t k o l nd :
  0 <= k -> ht_nodes t !! Z.to_nat k = Some l ->
  nd ∈ concat (ht_nodes (set_slot t k ((k, o) :: l))) -> nd ∈ concat (ht_nodes t) \/ nd.2 = o.
Proof.
  intros Hk Hl Hin. apply in_set_slot in Hin as [Hin|(j & l' & _ & Hl' & Hin)].
  - apply elem_of_cons in Hin as [->|Hin]; [by right|]. left. by apply (slot_in_table t (Z.to_nat k) l).
  - left. by apply (slot_in_table t j l').
Qed.

Lemma cache_add_table (c1 : bool) h items ext c x o obj :
  wf h items ext -> h_caches h !! c = Some x -> h_objs h !! o = Some obj ->
  ce_ops obj = co_obj_ops (cops_at (c_ops x)) ->
  let h0 := put_obj h o (with_cache obj c) in
  exists x' r, c_ops x' = c_ops x /\ c_nitems x' = c_nitems x /\ cview x' = cview x /\
    (forall k o', (k, o') ∈ table_nodes x -> (k, o') ∈ table_nodes x') /\
    (is_Some (c_hashtable x') -> add_result c1 h x obj = 0 -> exists k, (k, o) ∈ table_nodes x') /\
    (forall k o', (k, o') ∈ table_nodes x' -> (k, o') ∈ table_nodes x \/ o' = o) /\
    (add_result c1 h x obj = 0 -> wf (put_cache (put_obj h o (with_refcnt obj r)) c x') items ext) /\
    (add_result c1 h x obj <> 0 -> x' = x /\ r = ce_refcnt obj) /\
    match c_hashtable x with
    | Some t => '(ret, t, h) ← nl_hash_table_add ops_at c1 h0 t o;
                mret (ret, put_cache h c (with_table x (Some t)))
    | None => mret (0, h0)
    end = Done (add_result c1 h x obj, put_cache (put_obj h0 o (with_refcnt (with_cache obj c) r)) c x').
Proof.
  intros Hw Hc Ho Hk h0.
  assert (forall o', kv h0 o' = kv h o') as Hkv by (intros; by apply (kv_put_same h o obj)).
  pose proof (wf_obj _ _ _ Hw o obj Ho) as (_ & Hops & _ & _ & _ & _ & _).
  assert (h_objs h0 !! o = Some (with_cache obj c)) as Ho0 by (unfold h0; simpl; by rewrite lookup_insert_eq).
  assert (forall nd obj', same h0 nd obj' = same h nd obj') as Hsame.
  { intros nd obj'. unfold same. unfold h0. simpl. destruct (decide (nd = o)) as [->|].
    - by rewrite lookup_insert_eq, Ho.
    - by rewrite lookup_insert_ne. }
  destruct (c_hashtable x) as [t|] eqn:Ht.
    - pose proof (wf_cache _ _ _ Hw c x Hc) as (_ & _ & _ & _ & Htb). specialize (Htb t Ht).
      rewrite <- Hk in Htb.
      destruct (hash_add_done c1 h0 (ce_ops obj) t o (with_cache obj c) Ho0 eq_refl Hops)
        as (l & Hl & Hr & ->); [by apply (table_ok_ext h)|].
      cbn [with_cache ce_body ce_refcnt] in *.
      assert (in_slot h0 l (with_cache obj c) = table_has h x obj) as ->.
      { rewrite <- (in_slot_table h x t obj l Ht Htb Hops Hl). unfold in_slot. clear -Hsame.
        induction l as [|nd l IH]; [done|]. simpl. by rewrite Hsame, IH. }
      unfold add_result. rewrite Ht.
      destruct (table_has h x obj) eqn:Hth; [|destruct c1]; exec_simpl.
      + exists x, (ce_refcnt obj). split_and!; try done; [by left|].
        rewrite (put_obj_id h0) by (rewrite Ho0; by destruct obj).
        by rewrite with_table_id, !put_cache_id.
      + exists (with_table x (Some (set_slot t (key_of (ce_ops obj) (ce_body obj) (ht_size t))
          ((key_of (ce_ops obj) (ce_body obj) (ht_size t), o) :: l)))), (ce_refcnt obj + 1).
        split_and!; try done.
        * unfold cview. simpl. rewrite Ht. by rewrite !bool_decide_true by by eexists.
        * intros k o' Hin. unfold table_nodes in *. simpl. rewrite Ht in Hin.
          apply table_nodes_add; [lia|done|by left].
        * intros _ _. eexists. apply table_nodes_add; [lia|done|by right].
        * intros k o' Hin. unfold table_nodes in *. simpl in Hin. rewrite Ht.
          by apply table_nodes_new in Hin; [|lia|].
        * intros _. apply (wf_hash_add h items ext c x t o obj true l); try done.
          rewrite (in_slot_table h x t obj l Ht Htb Hops Hl). done.
      + exists x, (ce_refcnt obj). split_and!; try done; [by left|].
        rewrite (put_obj_id h0) by (rewrite Ho0; by destruct obj).
        by rewrite with_table_id, !put_cache_id.
    - assert (add_result c1 h x obj = 0) as Hres by (unfold add_result, table_has, table_nodes; by rewrite Ht).
      rewrite Hres. exists x, (ce_refcnt obj). split_and!; try done.
      + rewrite Ht. by intros [? ?].
      + by left.
      + intros _. rewrite with_refcnt_id, put_obj_id, put_cache_id; done.
      + rewrite (put_obj_id h0) by (rewrite Ho0; by destruct obj). by rewrite put_cache_id.
Qed.

Lemma cache_add_spec (c1 : bool) h items ext c x o obj :
  wf h items ext -> indexed h items -> nitems_ok h items ->
  h_caches h !! c = Some x -> h_objs h !! o = Some obj -> ce_cache obj = 0 ->
  ce_ops obj = co_obj_ops (cops_at (c_ops x)) -> 0 < ext o ->
  exists h', __cache_add ops_at c1 h c o = Done (add_result c1 h x obj, h') /\
    if add_result c1 h x obj =? 0 then
      let items' := set_items items c (items c ++ [o]) in
      wf h' items' (ext_add ext o (-1)) /\ indexed h' items' /\ nitems_ok h' items' /\
      addition h h' c o obj
    else h' = h.
Proof.
  intros Hw Hix Hni Hc Ho Hco Hk He. unfold __cache_add.
  rewrite (get_obj_done _ _ _ Ho). exec_simpl. set (h0 := put_obj h o (with_cache obj c)).
  rewrite (get_cache_done h0 c x) by done. exec_simpl.
  destruct (cache_add_table c1 h items ext c x o obj Hw Hc Ho Hk)
    as (x' & r & X1 & X2 & X3 & X4 & X5 & X6 & Hw1 & Hfail & Htab).
  pose proof (cview_table _ _ X3) as Xs. fold h0 in Htab. rewrite Htab. exec_simpl. pose proof (add_result_nonpos c1 h x obj) as Hle.
  destruct (add_result c1 h x obj =? 0) eqn:E; bool_hyps.
  - rewrite E. cbn [Z.ltb Z.compare]. specialize (Hw1 E).
    set (hA := put_cache (put_obj h o (with_refcnt obj r)) c x') in *.
    destruct (wf_link hA items ext o (with_refcnt obj r) c x' Hw1) as (links & Hadd & Hw2);
      [unfold hA; simpl; by rewrite lookup_insert_eq|done| |by rewrite X1|done|].
    { unfold hA. simpl. by rewrite lookup_insert_eq. }
    change (h_links hA) with (h_links h) in Hadd. cbn [h_links put_cache put_obj with_caches with_objs].
    change (h_links h0) with (h_links h). rewrite Hadd. exec_simpl.
    set (h1 := put_cache _ c x').
    rewrite (get_cache_done h1 c x') by (unfold h1; simpl; by rewrite lookup_insert_eq). exec_simpl.
    set (y := with_nitems x' (c_nitems x' + 1)).
    assert (put_cache (with_links h1 links) c y =
      put_cache (put_obj (with_links hA links) o (with_cache (with_refcnt obj r) c)) c y) as ->.
    { unfold h1, hA, h0, put_cache, put_obj, with_links, with_caches, with_objs. simpl.
      by rewrite !insert_insert_eq. }
    eexists. split; [done|]. split; [|split; [|split]].
    + apply (wf_cache_fields _ _ _ c x'); [done| |done..]. simpl. by rewrite lookup_insert_eq.
    + assert (forall o', self_ident (put_cache (put_obj (with_links hA links) o
          (with_cache (with_refcnt obj r) c)) c y) o' -> self_ident h o') as Hsi.
      { intros o' (p & b1 & b2 & K1 & K2 & K3). exists p, b1, b2. unfold kv in *. simpl in K1, K2.
        destruct (decide (o' = o)) as [->|Hne].
        - rewrite lookup_insert_eq in K1, K2. rewrite Ho. by split_and!.
        - rewrite !lookup_insert_ne in K1, K2 by done. by split_and!. }
      intros c' z Hz. simpl in Hz. rewrite insert_insert_eq in Hz.
      destruct (decide (c' = c)) as [->|Hne].
      * rewrite lookup_insert_eq in Hz. injection Hz as <-. rewrite set_items_eq.
        change (table_nodes y) with (table_nodes x'). destruct (Hix c x Hc) as [I1 I2]. split.
        -- intros Hst o' Hin. apply elem_of_app in Hin as [Hin|Hin].
           ++ destruct (I1 (Xs Hst) o' Hin) as (k & Hkn). exists k. by apply X4.
           ++ apply list_elem_of_singleton in Hin as ->. by apply X5.
        -- intros k o' Hk' Hs. apply Hsi in Hs. apply elem_of_app.
           destruct (X6 k o' Hk') as [Hk2| ->]; [|right; by left]. left. by apply (I2 k o').
      * rewrite lookup_insert_ne in Hz by done. rewrite set_items_ne by done.
        destruct (Hix c' z Hz) as [I1 I2]. split; [done|]. intros k o' Hk' Hs. apply (I2 k o' Hk').
        by apply Hsi.
    + intros c' z Hz. simpl in Hz. rewrite insert_insert_eq in Hz.
      destruct (decide (c' = c)) as [->|Hne].
      * rewrite lookup_insert_eq in Hz. simplify_eq. rewrite set_items_eq. simpl.
        rewrite X2, (Hni c x Hc), zlen_app. unfold zlen. simpl. lia.
      * rewrite lookup_insert_ne in Hz by done. rewrite set_items_ne by done. by apply Hni.
    + split; [|split; [done|split]].
      * intros c'. unfold cviews. simpl. rewrite insert_insert_eq.
        destruct (decide (c' = c)) as [->|Hne]; [|by rewrite lookup_insert_ne].
        rewrite lookup_insert_eq, Hc. simpl. f_equal. exact X3.
      * intros o' Hne. simpl. by rewrite !lookup_insert_ne.
      * eexists. simpl. rewrite lookup_insert_eq. split; [done|]. by split.
  - destruct (Hfail E) as [-> ->]. rewrite (proj2 (Z.ltb_lt _ 0)) by lia.
    set (h1 := put_cache _ c x).
    rewrite (get_obj_done h1 o (with_refcnt (with_cache obj c) (ce_refcnt obj)))
      by (unfold h1; simpl; by rewrite lookup_insert_eq).
    exec_simpl. eexists. split; [done|].
    assert (with_cache (with_refcnt (with_cache obj c) (ce_refcnt obj)) 0 = obj) as ->
      by (destruct obj; simpl in *; by subst).
    unfold h1, h0, put_cache, put_obj, with_caches, with_objs. simpl.
    rewrite !insert_insert_eq, !insert_id by done. by destruct h.
Qed.

(** ** New objects *)

Lemma fresh_obj h items ext : wf h items ext -> h_objs h !! h_next h = None.
Proof.
  intros Hw. destruct (h_objs h !! h_next h) as [obj|] eqn:E; [|done].
  destruct (wf_obj _ _ _ Hw _ _ E). lia.
Qed.

Lemma fresh_cache h items ext : wf h items ext -> h_caches h !! h_next h = None.
Proof.
  intros Hw. destruct (h_caches h !! h_next h) as [x|] eqn:E; [|done].
  destruct (wf_cache _ _ _ Hw _ _ E). lia.
Qed.

Lemma items_exist h items ext c o : wf h items ext -> o ∈ items c -> is_Some (h_objs h !! o).
Proof. intros Hw Hin. destruct (wf_in _ _ _ Hw c o Hin) as (obj & ? & _). by exists obj. Qed.

(** A new object at the next address, its only reference the caller's. *)
Definition new_obj h obj : heap D :=
  {| h_objs := <[h_next h := obj]> (h_objs h); h_caches := h_caches h;
     h_links := nl_init_list_head (h_links h) (NObj (h_next h)); h_next := h_next h + 1 |}.

Lemma wf_new_obj h items ext obj :
  wf h items ext -> ce_refcnt obj = 1 -> ce_ops obj <> 0 -> ce_cache obj = 0 ->
  wf (new_obj h obj) items (ext_add ext (h_next h) 1).
Proof.
  intros Hw Hr Hops Hc. pose proof (fresh_obj _ _ _ Hw) as Hf.
  assert (forall c o, o ∈ items c -> o <> h_next h) as Hne.
  { intros c o Hin ->. apply (items_exist _ _ _ _ _ Hw) in Hin as [? ?]. congruence. }
  assert (forall o, o <> h_next h -> kv (new_obj h obj) o = kv h o) as Hkv.
  { intros o Ho. unfold kv. simpl. by rewrite lookup_insert_ne. }
  destruct (wf_noobj _ _ _ Hw _ Hf) as [He0 Hr0].
  pose proof (fun c x t => table_nodes_some h items ext c x t) as Hnodes.
  pose proof Hw as [W1 W2 W3 W4 W5 W6]. split; [..|simpl; lia].
  - intros c x Hx. destruct (W1 c x Hx) as (? & ? & Hl & Hk & Ht). simpl.
    split; [lia|]. split; [done|]. split; [|split].
    + apply (is_list_frame _ _ _ _ Hl). intros n Hn. unfold nl_init_list_head, NL_INIT_LIST_HEAD.
      rewrite lookup_insert_ne; [done|]. intros <-. apply elem_of_cons in Hn as [?|Hn]; [done|].
      apply nodes_in in Hn. by apply (Hne c _ Hn).
    + intros o Hin. rewrite Hkv by (by apply (Hne c)). auto.
    + intros t Htt. apply (table_ok_ext h); [|by apply Ht]. intros nd Hnd. apply Hkv.
      intros Heq. destruct (Hnodes c x t nd Hw Hx Htt Hnd) as (y & Hy & _). congruence.
  - done.
  - intros c o Hin. simpl. rewrite lookup_insert_ne by (apply not_eq_sym; by apply (Hne c)). auto.
  - intros o obj' Ho. simpl in *. destruct (decide (o = h_next h)) as [->|Hneq].
    + rewrite lookup_insert_eq in Ho. simplify_eq. rewrite Hc, ext_add_eq.
      split; [lia|]. split; [done|]. split; [unfold nl_init_list_head, NL_INIT_LIST_HEAD;
        rewrite lookup_insert_eq; by eexists|]. split; [done|].
      change (0 =? 0) with true. cbv iota. lia.
    + rewrite lookup_insert_ne in Ho by done. rewrite ext_add_ne by done.
      destruct (W4 o obj' Ho) as (? & ? & ? & ? & ? & ? & ?). split; [lia|]. split; [done|].
      split; [|by split_and!]. unfold nl_init_list_head, NL_INIT_LIST_HEAD.
      rewrite lookup_insert_ne by congruence. done.
  - intros o Ho. simpl in Ho. apply lookup_insert_None in Ho as [Ho Hneq].
    rewrite ext_add_ne by done. by apply W5.
Qed.

Lemma alloc_done (c : bool) zero h p :
  p <> 0 -> exists d, nl_object_alloc ops_at c zero h p =
    Done (if c then (Some (h_next h), new_obj h
            {| ce_refcnt := 1; ce_ops := p; ce_cache := 0; ce_msgtype := 0; ce_flags := 0;
               ce_body := Body 0 d |})
          else (None, h)).
Proof.
  intros Hp. unfold nl_object_alloc. pose proof (ko_size _ (kinds_ok p Hp)) as Hs.
  rewrite (proj2 (Z.ltb_ge _ _)) by lia. destruct c; simpl; [|by exists zero].
  by eexists.
Qed.

(** The clone of an object, with the private data its kind's clone function made. *)
Definition clone_obj obj (d : D) : nl_object D :=
  {| ce_refcnt := 1; ce_ops := ce_ops obj; ce_cache := 0; ce_msgtype := ce_msgtype obj;
     ce_flags := 0; ce_body := Body (ce_mask (ce_body obj)) d |}.

(** The data a clone gets: [d0] is what the constructor left. *)
Definition clone_data (p : nl_object_ops D) (b : body D) (d0 : D) : Z * D :=
  let d := if oo_size p - sizeof_nl_object =? 0 then d0 else ce_data b in
  match oo_clone p with Some f => f d b | None => (0, d) end.

Lemma put_new_obj h obj obj' : put_obj (new_obj h obj) (h_next h) obj' = new_obj h obj'.
Proof. unfold new_obj, put_obj, with_objs. simpl. by rewrite insert_insert_eq. Qed.

Lemma new_obj_lookup h obj : h_objs (new_obj h obj) !! h_next h = Some obj.
Proof. simpl. by rewrite lookup_insert_eq. Qed.

Lemma free_done put h o obj :
  h_objs h !! o = Some obj -> ce_ops obj <> 0 -> ce_cache obj = 0 ->
  object_free ops_at put h o = Done
    {| h_objs := delete o (h_objs h); h_caches := h_caches h;
       h_links := delete (NObj o) (h_links h); h_next := h_next h |}.
Proof.
  intros Ho Hp Hc. unfold object_free. rewrite (get_obj_done _ _ _ Ho). exec_simpl.
  rewrite obj_ops_done by done. exec_simpl. by rewrite Hc.
Qed.

(** The clone, or nothing: the heap then only lost an address. *)
Lemma clone_done (c : bool) zero h o obj :
  h_objs h !! o = Some obj -> o <> h_next h -> ce_ops obj <> 0 ->
  exists d0 d, let ok := c && (0 <=? (clone_data (ops_at (ce_ops obj)) (ce_body obj) d0).1) in
    (ok = true -> d = (clone_data (ops_at (ce_ops obj)) (ce_body obj) d0).2) /\
    nl_object_clone ops_at c zero h (Some o) =
    Done (if ok then (Some (h_next h), new_obj h (clone_obj obj d))
          else if c then
            (None, {| h_objs := delete (h_next h) (h_objs (new_obj h (clone_obj obj d)));
                      h_caches := h_caches h;
                      h_links := delete (NObj (h_next h)) (h_links (new_obj h (clone_obj obj d)));
                      h_next := h_next h + 1 |})
          else (None, h)).
Proof.
  intros Ho Hne Hp. destruct (alloc_done c zero h (ce_ops obj) Hp) as (d0 & Ha).
  exists d0, (clone_data (ops_at (ce_ops obj)) (ce_body obj) d0).2. split; [done|].
  unfold nl_object_clone. rewrite (get_obj_done _ _ _ Ho). exec_simpl.
  rewrite obj_ops_done by done. exec_simpl. rewrite Ha. destruct c; exec_simpl; [|done].
  pose proof (ko_size _ (kinds_ok _ Hp)) as Hs. cbv zeta. rewrite (proj2 (Z.ltb_ge _ 0)) by lia.
  rewrite (get_obj_done _ _ _ (new_obj_lookup _ _)). exec_simpl. cbn [andb].
  unfold clone_data. cbn [ce_body ce_data]. destruct (oo_clone (ops_at (ce_ops obj))) as [f|] eqn:Hf.
  - destruct (f _ (ce_body obj)) as [err d]. rewrite put_new_obj. cbn [fst snd].
    destruct (err <? 0) eqn:E; bool_hyps.
    + rewrite (proj2 (Z.leb_gt 0 err)) by lia. cbn [nl_object_free].
      rewrite (free_done _ _ _ _ (new_obj_lookup _ _)) by done. done.
    + by rewrite (proj2 (Z.leb_le 0 err)) by lia.
  - rewrite put_new_obj. cbn [fst snd]. destruct (ko_clone _ (kinds_ok _ Hp) Hf) as [Hsz|Hfd].
    + rewrite Hsz. rewrite Z.sub_diag. done.
    + rewrite Hfd, andb_false_r. done.
Qed.

(** ** The operations of the interface *)

Record inv h (items : Z -> list Z) (ext : Z -> Z) : Prop := {
  inv_wf : wf h items ext;
  inv_indexed : indexed h items;
  inv_nitems : nitems_ok h items
}.

(** Nothing that existed is gone or has another kind, mask or data. *)
Definition preserves h h' : Prop :=
  (forall c, cviews h' c = cviews h c) /\ forall o, is_Some (h_objs h !! o) -> kv h' o = kv h o.

Lemma preserves_refl h : preserves h h.
Proof. done. Qed.

Lemma kv_is_some h o : is_Some (kv h o) <-> is_Some (h_objs h !! o).
Proof. unfold kv. apply fmap_is_Some. Qed.

Lemma preserves_trans h1 h2 h3 : preserves h1 h2 -> preserves h2 h3 -> preserves h1 h3.
Proof.
  intros [A1 A2] [B1 B2]. split; intros; [by rewrite B1|]. rewrite B2; [by apply A2|].
  apply kv_is_some. rewrite A2 by done. by apply kv_is_some.
Qed.

Lemma preserves_refcnt h o obj n :
  h_objs h !! o = Some obj -> preserves h (put_obj h o (with_refcnt obj n)).
Proof. intros Ho. split; [done|]. intros o' _. by apply (kv_put_same h o obj). Qed.

Lemma inv_new_obj h items ext obj :
  inv h items ext -> ce_refcnt obj = 1 -> ce_ops obj <> 0 -> ce_cache obj = 0 ->
  inv (new_obj h obj) items (ext_add ext (h_next h) 1) /\ preserves h (new_obj h obj).
Proof.
  intros [Hw Hi Hn] ???. split; [split; [by apply wf_new_obj| |done]|].
  { intros c x Hx. destruct (Hi c x Hx) as [I1 I2]. split; [done|]. intros k o Hk Hs.
    apply (I2 k o Hk). unfold table_nodes in Hk. destruct (c_hashtable x) as [t|] eqn:Ht;
      [|by apply elem_of_nil in Hk].
    destruct (table_nodes_some h items ext c x t (k, o) Hw Hx Ht Hk) as (z & Hz & _). simpl in Hz.
    assert (o <> h_next h) as Hne by (pose proof (fresh_obj _ _ _ Hw); congruence).
    destruct Hs as (p & b1 & b2 & K1 & K2 & K3). exists p, b1, b2. unfold kv in *. simpl in K1, K2.
    rewrite lookup_insert_ne in K1, K2 by done. by split_and!. }
  split; [done|]. intros o [y Hy]. unfold kv. simpl. rewrite lookup_insert_ne; [done|].
  intros <-. rewrite (fresh_obj _ _ _ Hw) in Hy. done.
Qed.

Lemma inv_refcnt h items ext o obj d :
  inv h items ext -> h_objs h !! o = Some obj -> 0 <= ext o + d -> 0 < ce_refcnt obj + d ->
  inv (put_obj h o (with_refcnt obj (ce_refcnt obj + d))) items (ext_add ext o d).
Proof.
  intros [Hw Hi Hn] ???. split; [by apply wf_refcnt| |done].
  apply (indexed_mono h); [done| |done]. intros o' v. by rewrite (kv_put_same h o obj).
Qed.

Lemma inv_ext h items ext ext' : (forall o, ext' o = ext o) -> inv h items ext -> inv h items ext'.
Proof. intros He [Hw Hi Hn]. split; [by apply (wf_ext _ _ ext)|done|done]. Qed.

Lemma inv_put h items ext o obj :
  inv h items ext -> h_objs h !! o = Some obj -> 0 < ext o ->
  exists h', nl_object_put ops_at h (Some o) = Done h' /\ inv h' items (ext_add ext o (-1)) /\
    same_but h h' o /\
    h_objs h' !! o = if ce_refcnt obj =? 1 then None
                     else Some (with_refcnt obj (ce_refcnt obj - 1)).
Proof.
  intros [Hw Hi Hn] Ho He. destruct (put_spec 2 h items ext o obj Hw Ho He) as (h' & Hp & Hw' & Hs & Ho').
  exists h'. split; [exact Hp|]. split; [|done]. destruct Hs as (Hc & _ & Hoth & _).
  split; [done| |unfold nitems_ok; by rewrite Hc]. apply (indexed_mono h); [done| |done].
  intros o' v. unfold kv. destruct (decide (o' = o)) as [->|Hne]; [|by rewrite Hoth].
  rewrite Ho', Ho. by destruct (ce_refcnt obj =? 1).
Qed.
End CacheOps.
