(* ===== verification/CacheSpec.v ===== *)
(** What the operations of a cache do: their results on every branch, next to
    the invariant. *)
From S2P Require Import Prelude Errors NlList Object Cache CacheInv CacheOps.

Section CacheSpec.
Context {D : Type} {EV : Env D} {EK : EnvOk EV} (zero : D).
Implicit Types (h : heap D) (o c : Z) (obj : nl_object D).

Lemma addition_preserves h h' c o obj :
  addition h h' c o obj -> h_objs h !! o = Some obj -> preserves h h'.
Proof.
  intros (Hv & _ & Hoth & obj' & Ho' & (K1 & _ & _ & K4) & _) Ho. split; [done|].
  intros o2 _. unfold kv. destruct (decide (o2 = o)) as [->|Hne]; [|by rewrite Hoth].
  rewrite Ho, Ho'. simpl. by rewrite K1, K4.
Qed.

Lemma put_preserves h h' o obj :
  same_but h h' o -> h_objs h !! o = Some obj ->
  h_objs h' !! o = Some (with_refcnt obj (ce_refcnt obj - 1)) -> preserves h h'.
Proof.
  intros (Hc & _ & Hoth & _) Ho Ho'. split; [intros c; unfold cviews; by rewrite Hc|].
  intros o2 _. unfold kv. destruct (decide (o2 = o)) as [->|Hne]; [by rewrite Ho, Ho'|by rewrite Hoth].
Qed.

(** An object in a list does not point to itself. *)
Lemma in_list_not_empty {K} `{Countable K} (m : gmap K (K * K)) hd l x :
  is_list m hd l -> x ∈ l -> exists y, nxt m x = Some y /\ y <> x.
Proof.
  intros [Hnd Hs] Hin. apply list_elem_of_split in Hin as (l1 & l2 & ->).
  apply seg_app in Hs as [_ Hs]. rewrite app_comm_cons in Hnd.
  apply NoDup_app in Hnd as (_ & Hd & Hx). apply NoDup_cons in Hx as [Hx _].
  destruct l2 as [|y l2]; simpl in Hs.
  - exists hd. split; [apply Hs|]. intros ->. apply (Hd x); [by left|by left].
  - exists y. split; [apply Hs|]. intros ->. apply Hx. by left.
Qed.

Lemma list_empty_test h items ext o obj :
  wf h items ext -> h_objs h !! o = Some obj ->
  exists e, nl_list_empty (h_links h) (NObj o) = Done e /\ (e = true -> ce_cache obj = 0).
Proof.
  intros Hw Ho. destruct (wf_obj _ _ _ Hw o obj Ho) as (_ & _ & [[n p] Hl] & Hin & _).
  unfold nl_list_empty, get_next. rewrite Hl. exec_simpl. eexists. split; [done|].
  intros He. apply bool_decide_eq_true in He. simpl in He. subst n.
  destruct (decide (ce_cache obj = 0)) as [|Hne]; [done|]. specialize (Hin Hne). exfalso.
  destruct (h_caches h !! ce_cache obj) as [x|] eqn:Hx.
  - destruct (wf_cache _ _ _ Hw _ x Hx) as (_ & _ & Hli & _).
    destruct (in_list_not_empty _ _ _ (NObj o) Hli) as (y & Hy & Hyn); [by apply nodes_in|].
    unfold nxt in Hy. rewrite Hl in Hy. simpl in Hy. congruence.
  - rewrite (wf_nocache _ _ _ Hw _ Hx) in Hin. by apply elem_of_nil in Hin.
Qed.

(** The state a failed clone leaves. *)
Lemma inv_no_clone h items ext obj d :
  inv h items ext -> ce_ops obj <> 0 ->
  let h1 := new_obj h (clone_obj obj d) in
  let h' := {| h_objs := delete (h_next h) (h_objs h1); h_caches := h_caches h;
               h_links := delete (NObj (h_next h)) (h_links h1); h_next := h_next h + 1 |} in
  inv h' items ext /\ preserves h h'.
Proof.
  intros Hi Hp h1 h'. destruct (inv_new_obj h items ext (clone_obj obj d) Hi) as [[Hw1 Hx1 Hn1] _]; [done..|].
  pose proof (inv_wf _ _ _ Hi) as Hw. pose proof (fresh_obj _ _ _ Hw) as Hf.
  destruct (wf_noobj _ _ _ Hw _ Hf) as [He0 Hr0].
  pose proof (wf_free _ items _ (h_next h) (clone_obj obj d) Hw1 (new_obj_lookup _ _) eq_refl Hr0) as Hw2.
  split.
  - apply (inv_ext _ _ (ext_add (ext_add ext (h_next h) 1) (h_next h) (-1))).
    { intros o. by rewrite ext_add_back. }
    split; [apply Hw2; rewrite ext_add_eq; lia| |done].
    apply (indexed_mono h); [done| |by destruct Hi]. intros o v. unfold kv. simpl.
    destruct (decide (o = h_next h)) as [->|Hne]; [by rewrite lookup_delete_eq|].
    by rewrite lookup_delete_ne, lookup_insert_ne.
  - split; [done|]. intros o [y Hy]. unfold kv, h', h1. simpl.
    assert (o <> h_next h) by congruence. by rewrite lookup_delete_ne, lookup_insert_ne.
Qed.

(** Adding what the caller holds an extra reference to, giving it back on
    failure. *)
Lemma add_or_put (c2 : bool) h items ext c x o obj :
  inv h items (ext_add ext o 1) -> h_caches h !! c = Some x -> h_objs h !! o = Some obj ->
  ce_cache obj = 0 -> ce_ops obj = co_obj_ops (cops_at (c_ops x)) -> 0 <= ext o ->
  let ret := add_result c2 h x obj in
  exists h' items', ('(ret, h) ← __cache_add ops_at c2 h c o;
      h ← (if ret <? 0 then nl_object_put ops_at h (Some o) else mret h); mret (ret, h)) = Done (ret, h') /\
    inv h' items' ext /\
    (if ret =? 0 then items' = set_items items c (items c ++ [o]) /\ addition h h' c o obj
     else items' = items /\ same_but h h' o /\
       h_objs h' !! o = if ce_refcnt obj =? 1 then None
                        else Some (with_refcnt obj (ce_refcnt obj - 1))).
Proof.
  intros Hi Hc Ho Hco Hk He ret. destruct Hi as [Hw Hx Hn].
  destruct (cache_add_spec c2 h items (ext_add ext o 1) c x o obj Hw Hx Hn Hc Ho Hco Hk)
    as (h' & -> & Hres); [rewrite ext_add_eq; lia|].
  exec_simpl. fold ret in Hres |- *. pose proof (add_result_nonpos c2 h x obj) as Hle. fold ret in Hle.
  destruct (ret =? 0) eqn:E; bool_hyps.
  - rewrite E. simpl. destruct Hres as (Hw' & Hx' & Hn' & Hadd). eexists _, _. split; [done|].
    split; [|by split]. apply (inv_ext _ _ (ext_add (ext_add ext o 1) o (-1))); [|by split].
    intros o'. by rewrite ext_add_back.
  - rewrite (proj2 (Z.ltb_lt ret 0)) by lia. rewrite Hres.
    destruct (inv_put h items (ext_add ext o 1) o obj) as (h2 & Hp & Hi2 & Hs & Ho2); [by split|done| |].
    { rewrite ext_add_eq. lia. }
    rewrite Hp. exec_simpl. eexists _, items. split; [done|]. split; [|by split_and!].
    apply (inv_ext _ _ (ext_add (ext_add ext o 1) o (-1))); [|done].
    intros o'. by rewrite ext_add_back.
Qed.

(** The object a cache got for [o]: [o] itself, or a new clone. *)
Definition stands_for h h' c o n : Prop :=
  exists obj obj', h_objs h !! o = Some obj /\ h_objs h' !! n = Some obj' /\ ce_cache obj' = c /\
    ce_ops obj' = ce_ops obj /\ ce_msgtype obj' = ce_msgtype obj /\
    ce_mask (ce_body obj') = ce_mask (ce_body obj) /\
    (n = o /\ ce_body obj' = ce_body obj \/
     h_objs h !! n = None /\
     exists d0, let r := clone_data (ops_at (ce_ops obj)) (ce_body obj) d0 in
       0 <= r.1 /\ ce_data (ce_body obj') = r.2).

Lemma add_own (c2 : bool) h items ext c x o obj :
  inv h items ext -> h_caches h !! c = Some x -> h_objs h !! o = Some obj ->
  ce_cache obj = 0 -> ce_ops obj = co_obj_ops (cops_at (c_ops x)) ->
  exists h' items', (h ← nl_object_get h o; '(ret, h) ← __cache_add ops_at c2 h c o;
      h ← (if ret <? 0 then nl_object_put ops_at h (Some o) else mret h); mret (ret, h)) =
      Done (add_result c2 h x obj, h') /\
    inv h' items' ext /\ preserves h h' /\
    (if add_result c2 h x obj =? 0 then
       items' = set_items items c (items c ++ [o]) /\ stands_for h h' c o o
     else items' = items).
Proof.
  intros Hi Hc Ho Hco Hk. pose proof (inv_wf _ _ _ Hi) as Hw.
  pose proof (wf_obj _ _ _ Hw o obj Ho) as (_ & _ & _ & _ & _ & He & Hpos).
  destruct (get_spec h items ext o obj Hw Ho) as [-> _]. exec_simpl.
  set (h1 := put_obj h o _). set (obj1 := with_refcnt obj (ce_refcnt obj + 1)) in *.
  assert (inv h1 items (ext_add ext o 1)) as Hi1 by (apply inv_refcnt; [done|done|lia|lia]).
  assert (h_objs h1 !! o = Some obj1) as Ho1 by (unfold h1; simpl; by rewrite lookup_insert_eq).
  assert (preserves h h1) as Hp1 by (by apply preserves_refcnt).
  assert (add_result c2 h1 x obj1 = add_result c2 h x obj) as Hres.
  { unfold add_result. assert (table_has h1 x obj1 = table_has h x obj) as ->; [|done].
    unfold table_has. induction (table_nodes x) as [|nd l IH]; [done|]. simpl. rewrite IH. f_equal.
    unfold same, h1. simpl. destruct (decide (nd.2 = o)) as [->|];
      [by rewrite lookup_insert_eq, Ho|by rewrite lookup_insert_ne]. }
  destruct (add_or_put c2 h1 items ext c x o obj1 Hi1 Hc Ho1 Hco Hk He) as (h' & items' & He' & Hi' & Hr).
  rewrite Hres in He', Hr. exists h', items'. split; [exact He'|]. split; [done|].
  destruct (add_result c2 h x obj =? 0).
  - destruct Hr as [-> Hadd]. pose proof (addition_preserves _ _ _ _ _ Hadd Ho1) as Hp2.
    split; [by apply (preserves_trans h h1)|]. split; [done|].
    destruct Hadd as (_ & _ & _ & obj' & Ho' & (K1 & K2 & _ & K4) & Hcc).
    exists obj, obj'. rewrite K4. split_and!; try done. by left.
  - destruct Hr as (-> & Hs & Ho'). split; [|done]. apply (preserves_trans h h1); [done|].
    apply (put_preserves h1 h' o obj1); [done|done|].
    rewrite Ho'. change (ce_refcnt obj1) with (ce_refcnt obj + 1).
    by rewrite (proj2 (Z.eqb_neq _ 1)) by lia.
Qed.

Lemma add_clone (c1 c2 : bool) h items ext c x o obj :
  inv h items ext -> h_caches h !! c = Some x -> h_objs h !! o = Some obj ->
  ce_ops obj = co_obj_ops (cops_at (c_ops x)) ->
  exists ret h' items', ('(new, h) ← nl_object_clone ops_at c1 zero h (Some o);
      match new with
      | None => mret (- NLE_NOMEM, h)
      | Some new =>
          '(ret, h) ← __cache_add ops_at c2 h c new;
          h ← (if ret <? 0 then nl_object_put ops_at h (Some new) else mret h);
          mret (ret, h)
      end) = Done (ret, h') /\
    inv h' items' ext /\ preserves h h' /\ ret <= 0 /\
    (if ret =? 0 then
       exists n, items' = set_items items c (items c ++ [n]) /\ stands_for h h' c o n
     else items' = items).
Proof.
  intros Hi Hc Ho Hk. pose proof (inv_wf _ _ _ Hi) as Hw.
  pose proof (wf_obj _ _ _ Hw o obj Ho) as (Hlt & Hp & _).
  assert (o <> h_next h) as Hne by lia.
  destruct (clone_done c1 zero h o obj Ho Hne Hp) as (d0 & d & Hd & ->). exec_simpl.
  set (r := clone_data _ _ _) in *. destruct c1; simpl; [destruct (0 <=? r.1) eqn:E|].
  - destruct (inv_new_obj h items ext (clone_obj obj d) Hi) as [Hi1 Hp1]; [done..|].
    destruct (wf_noobj _ _ _ Hw _ (fresh_obj _ _ _ Hw)) as [He0 _].
    destruct (add_or_put c2 _ items ext c x (h_next h) (clone_obj obj d) Hi1 Hc (new_obj_lookup _ _)
      eq_refl Hk) as (h' & items' & He' & Hi' & Hr); [lia|].
    eexists _, h', items'. split; [exact He'|]. split; [done|].
    pose proof (add_result_nonpos c2 (new_obj h (clone_obj obj d)) x (clone_obj obj d)) as Hle.
    destruct (add_result _ _ _ _ =? 0).
    + destruct Hr as [-> Hadd].
      pose proof (addition_preserves _ _ _ _ _ Hadd (new_obj_lookup _ _)) as Hp2.
      split; [by apply (preserves_trans h (new_obj h (clone_obj obj d)) h')|]. split; [done|]. exists (h_next h). split; [done|].
      destruct Hadd as (_ & _ & _ & obj' & Ho' & (K1 & K2 & _ & K4) & Hcc).
      exists obj, obj'. rewrite K1, K2, K4. split_and!; try done. right.
      split; [by apply (fresh_obj _ items ext Hw)|]. exists d0. cbv zeta. fold r. bool_hyps.
      split; [done|]. by apply Hd.
    + destruct Hr as (-> & (S1 & S2 & S3 & S4) & _). split; [|by split].
      split; [intros c'; unfold cviews; by rewrite S1|]. intros o' [y Hy].
      assert (o' <> h_next h) as Hne' by (pose proof (fresh_obj _ _ _ Hw); congruence).
      unfold kv. rewrite S3 by done. simpl. by rewrite lookup_insert_ne.
  - exec_simpl. destruct (inv_no_clone h items ext obj d Hi Hp) as [Hi1 Hp1].
    eexists _, _, items. split; [done|]. split; [exact Hi1|]. split; [exact Hp1|]. done.
  - exec_simpl. eexists _, h, items. split; [done|]. done.
Qed.

Lemma cache_add_full (c1 c2 : bool) h items ext c x o obj :
  inv h items ext -> h_caches h !! c = Some x -> h_objs h !! o = Some obj ->
  exists ret h' items', nl_cache_add ops_at cops_at zero c1 c2 h c o = Done (ret, h') /\
    inv h' items' ext /\ preserves h h' /\ ret <= 0 /\
    (if ret =? 0 then
       exists n, items' = set_items items c (items c ++ [n]) /\ stands_for h h' c o n
     else items' = items).
Proof.
  intros Hi Hc Ho. unfold nl_cache_add. rewrite (get_cache_done _ _ _ Hc). exec_simpl.
  rewrite (get_obj_done _ _ _ Ho). exec_simpl.
  destruct (co_obj_ops (cops_at (c_ops x)) =? ce_ops obj) eqn:Hk; cbn [negb]; bool_hyps.
  - destruct (list_empty_test h items ext o obj (inv_wf _ _ _ Hi) Ho) as (e & -> & He). exec_simpl.
    destruct e; cbn [negb].
    + destruct (add_own c2 h items ext c x o obj Hi Hc Ho (He eq_refl)) as (h' & items' & Heq & H1 & H2 & H3);
        [done|].
      pose proof (add_result_nonpos c2 h x obj).
      eexists _, h', items'. split; [|split; [done|split; [done|split; [done|]]]].
      * rewrite <- Heq. by destruct (nl_object_get h o).
      * destruct (add_result c2 h x obj =? 0); [|done]. destruct H3 as [-> H3]. by exists o.
    + apply (add_clone c1 c2 h items ext c x o obj); done.
  - eexists _, h, items. split; [done|]. done.
Qed.

(** ** Removing and moving *)

Definition without (items : Z -> list Z) o : Z -> list Z :=
  fun c => filter (fun x => x <> o) (items c).

Lemma filter_ne_id (l : list Z) o : o ∉ l -> filter (fun x => x <> o) l = l.
Proof.
  intros Hn. induction l as [|y l IH]; [done|]. apply not_elem_of_cons in Hn as [Hy Hn].
  rewrite filter_cons_True by congruence. by rewrite IH.
Qed.

Lemma filter_ne_split (l1 l2 : list Z) o :
  o ∉ l1 ++ l2 -> filter (fun x => x <> o) (l1 ++ o :: l2) = l1 ++ l2.
Proof.
  intros Hn. rewrite not_elem_of_app in Hn. destruct Hn.
  rewrite filter_app, filter_cons_False by congruence.
  by rewrite (filter_ne_id l1), (filter_ne_id l2).
Qed.

Lemma wf_items_ext h items items' ext :
  (forall c, items' c = items c) -> wf h items ext -> wf h items' ext.
Proof.
  intros He [W1 W2 W3 W4 W5 W6]. split; [| | | |done|done].
  - intros c x Hx. rewrite !He. by apply W1.
  - intros c Hc. rewrite He. by apply W2.
  - intros c o. rewrite He. apply W3.
  - intros o obj Ho. rewrite He. exact (W4 o obj Ho).
Qed.

Lemma inv_items_ext h items items' ext :
  (forall c, items' c = items c) -> inv h items ext -> inv h items' ext.
Proof.
  intros He [Hw Hx Hn]. split; [by apply (wf_items_ext _ items)| |].
  - intros c x Hc. rewrite He. exact (Hx c x Hc).
  - intros c x Hc. rewrite He. exact (Hn c x Hc).
Qed.

Lemma items_nodup h items ext c : wf h items ext -> NoDup (items c).
Proof.
  intros Hw. destruct (h_caches h !! c) as [x|] eqn:Hc.
  - destruct (wf_cache _ _ _ Hw c x Hc) as (_ & _ & [Hnd _] & _).
    apply NoDup_cons in Hnd as [_ Hnd]. by apply (NoDup_fmap_1 NObj) in Hnd.
  - rewrite (wf_nocache _ _ _ Hw c Hc). apply NoDup_nil_2.
Qed.

(** [h'] has everything [h] has but perhaps [o]. *)
Definition loses h h' o : Prop :=
  (forall c, cviews h' c = cviews h c) /\ h_next h' = h_next h /\
  forall o', o' <> o -> h_objs h' !! o' = h_objs h !! o'.

Lemma remove_full h items ext o obj :
  inv h items ext -> h_objs h !! o = Some obj ->
  exists h', nl_cache_remove ops_at h o = Done h' /\ inv h' (without items o) ext /\ loses h h' o /\
    (forall obj', h_objs h' !! o = Some obj' -> kept obj obj' /\ ce_cache obj' = 0) /\
    (0 < ext o -> is_Some (h_objs h' !! o)).
Proof.
  intros Hi Ho. pose proof Hi as [Hw Hx Hn]. destruct (decide (ce_cache obj = 0)) as [Hc|Hc].
  - exists h. split.
    { unfold nl_cache_remove, cache_remove. rewrite (get_obj_done _ _ _ Ho). exec_simpl. by rewrite Hc. }
    split; [|split; [done|split]].
    + apply (inv_items_ext _ items); [|done]. intros c. unfold without.
      rewrite filter_ne_id; [done|]. by apply (not_in_items _ _ _ _ _ Hw Ho).
    + intros obj' Ho'. assert (obj' = obj) as -> by congruence. by split.
    + by eexists.
  - pose proof (wf_obj _ _ _ Hw o obj Ho) as (_ & _ & _ & Hin & _). specialize (Hin Hc).
    apply list_elem_of_split in Hin as (l1 & l2 & Hit).
    destruct (remove_spec 2 h items ext o obj (ce_cache obj) l1 l2 Hw Hx Hn Ho eq_refl Hc Hit)
      as (h' & Hr & Hw' & Hx' & Hn' & (R1 & R2 & R3 & R4) & Hs).
    exists h'. split; [exact Hr|]. split; [|by split].
    apply (inv_items_ext _ (set_items items (ce_cache obj) (l1 ++ l2))); [|by split].
    pose proof (items_nodup _ _ _ (ce_cache obj) Hw) as Hnd. rewrite Hit in Hnd.
    rewrite <- (Permutation_middle l1 l2) in Hnd. apply NoDup_cons in Hnd as [Hni _].
    intros c. unfold without. destruct (decide (c = ce_cache obj)) as [->|Hne].
    + rewrite set_items_eq, Hit. by apply filter_ne_split.
    + rewrite set_items_ne by done. apply filter_ne_id. intros Hin.
      destruct (wf_in _ _ _ Hw c o Hin) as (y & Hy & Hyc). congruence.
Qed.

(** Whether a node for a table is needed and cannot be allocated. *)
Definition node_missing (c1 : bool) (x : nl_cache) : bool :=
  bool_decide (is_Some (c_hashtable x)) && negb c1.

(** A table that finds nothing identical takes the object, if there is a node. *)
Lemma add_result_new (c1 : bool) h items ext c x obj :
  inv h items ext -> h_caches h !! c = Some x -> ce_ops obj = co_obj_ops (cops_at (c_ops x)) ->
  (is_Some (c_hashtable x) -> forall y, y ∈ items c -> same h y obj = false) ->
  add_result c1 h x obj = if node_missing c1 x then - NLE_NOMEM else 0.
Proof.
  intros [Hw Hix Hn] Hc Hk Hno. unfold add_result, node_missing.
  destruct (table_has h x obj) eqn:Hth; [|done]. exfalso. unfold table_has in Hth.
  apply existsb_exists in Hth as ([k y] & Hin & Hs). apply list_elem_of_In in Hin. simpl in Hs.
  assert (is_Some (c_hashtable x)) as Hst.
  { unfold table_nodes in Hin. destruct (c_hashtable x); [by eexists|]. by apply elem_of_nil in Hin. }
  destruct (wf_cache _ _ _ Hw c x Hc) as (_ & Hco & _ & _ & Htb).
  destruct (caches_ok _ Hco) as [Hcops _]. destruct Hst as [t Ht].
  destruct (Htb t Ht) as (_ & _ & Hkg & _).
  assert (y ∈ items c) as Hyin; [|by rewrite (Hno ltac:(by eexists) y Hyin) in Hs].
  destruct (Hix c x Hc) as [_ I2]. apply (I2 k y Hin).
  unfold same in Hs. destruct (h_objs h !! y) as [z|] eqn:Hz; [|done]. bool_hyps.
  rewrite Hk in *. exists (ce_ops z), (ce_body z), (ce_body z). rewrite (kv_some _ _ _ Hz).
  split_and!; try done.
  assert (ce_ops z = co_obj_ops (cops_at (c_ops x))) as Hzk by done. rewrite Hzk in *.
  apply (ko_trans _ (kinds_ok _ Hcops) _ (ce_body obj)); [done|done|].
  by rewrite (ko_sym _ (kinds_ok _ Hcops)).
Qed.

Lemma add_result_ok h items ext c x obj :
  inv h items ext -> h_caches h !! c = Some x -> ce_ops obj = co_obj_ops (cops_at (c_ops x)) ->
  (is_Some (c_hashtable x) -> forall y, y ∈ items c -> same h y obj = false) ->
  add_result true h x obj = 0.
Proof. intros. rewrite (add_result_new true h items ext c) by done. unfold node_missing. by rewrite andb_false_r. Qed.

(** Moving: on success the sequence of [c] ends in [o]; when the table of [c]
    refuses it, [o] is in no cache, and the reference taken for the list stays
    with nobody. *)
Lemma move_full (c1 : bool) h items ext c x o obj :
  inv h items ext -> h_caches h !! c = Some x -> h_objs h !! o = Some obj ->
  exists ret h', nl_cache_move ops_at cops_at c1 h c o = Done (ret, h') /\ ret <= 0 /\
    if negb (co_obj_ops (cops_at (c_ops x)) =? ce_ops obj) then ret = - NLE_OBJ_MISMATCH /\ h' = h
    else
      (if ret =? 0 then
         inv h' (set_items (without items o) c (without items o c ++ [o])) ext
       else inv h' (without items o) (ext_add ext o 1)) /\
      loses h h' o /\
      (exists obj', h_objs h' !! o = Some obj' /\ kept obj obj' /\
        ce_cache obj' = if ret =? 0 then c else 0) /\
      ((is_Some (c_hashtable x) -> forall y, y ∈ items c -> y <> o -> same h y obj = false) ->
       ret = if node_missing c1 x then - NLE_NOMEM else 0) /\
      ret <> - NLE_OBJ_MISMATCH.
Proof.
  intros Hi Hc Ho. unfold nl_cache_move. rewrite (get_cache_done _ _ _ Hc). exec_simpl.
  rewrite (get_obj_done _ _ _ Ho). exec_simpl.
  destruct (co_obj_ops (cops_at (c_ops x)) =? ce_ops obj) eqn:Hk; cbn [negb]; bool_hyps;
    [|by eexists _, h].
  pose proof (inv_wf _ _ _ Hi) as Hw.
  pose proof (wf_obj _ _ _ Hw o obj Ho) as (_ & _ & _ & _ & _ & He & Hpos).
  destruct (get_spec h items ext o obj Hw Ho) as [-> _]. exec_simpl.
  set (obj1 := with_refcnt obj (ce_refcnt obj + 1)). set (h1 := put_obj h o obj1).
  assert (inv h1 items (ext_add ext o 1)) as Hi1 by (apply inv_refcnt; [done|done|lia|lia]).
  assert (h_objs h1 !! o = Some obj1) as Ho1 by (unfold h1; simpl; by rewrite lookup_insert_eq).
  assert (loses h h1 o) as Hl1.
  { split; [done|]. split; [done|]. intros o' Hne. unfold h1. simpl. by rewrite lookup_insert_ne. }
  destruct (list_empty_test h1 items _ o obj1 (inv_wf _ _ _ Hi1) Ho1) as (e & -> & Hee). exec_simpl.
  (* out of the old cache *)
  assert (exists h2, (if negb e then nl_cache_remove ops_at h1 o else mret h1) = Done h2 /\
    inv h2 (without items o) (ext_add ext o 1) /\ loses h h2 o /\
    exists obj2, h_objs h2 !! o = Some obj2 /\ kept obj obj2 /\ ce_cache obj2 = 0)
    as (h2 & -> & Hi2 & (L1 & L2 & L3) & obj2 & Ho2 & (K1 & K2 & K3 & K4) & Hcc).
  { destruct e; cbn [negb].
    - exists h1. split; [done|]. specialize (Hee eq_refl). split; [|split; [done|]].
      + apply (inv_items_ext _ items); [|done]. intros c'. unfold without.
        rewrite filter_ne_id; [done|]. by apply (not_in_items _ _ _ _ _ Hw Ho).
      + by exists obj1.
    - destruct (remove_full h1 items _ o obj1 Hi1 Ho1) as (h2 & -> & Hi2 & Hl2 & Hk2 & Hs2).
      exists h2. split; [done|]. split; [done|]. destruct Hl1 as (A1 & A2 & A3), Hl2 as (B1 & B2 & B3).
      split; [split; [|split]|].
      + intros c'. by rewrite B1.
      + by rewrite B2.
      + intros o' Hne. by rewrite B3, A3.
      + destruct Hs2 as [obj2 Ho2]; [rewrite ext_add_eq; lia|]. exists obj2.
        destruct (Hk2 obj2 Ho2) as [Hkk ?]. done. }
  exec_simpl.
  assert (exists x2, h_caches h2 !! c = Some x2 /\ c_ops x2 = c_ops x /\
    (is_Some (c_hashtable x2) <-> is_Some (c_hashtable x))) as (x2 & Hc2 & Hx2 & Hx2t).
  { pose proof (L1 c) as Hv. unfold cviews in Hv. rewrite Hc in Hv.
    destruct (h_caches h2 !! c) as [x2|]; [|done]. exists x2. split; [done|].
    injection Hv as Hv1 Hv2 Hv3 Hv4. split; [done|]. split; apply cview_table; unfold cview; congruence. }
  pose proof Hi2 as [Hw2 Hix2 Hn2].
  assert ((is_Some (c_hashtable x) -> forall y, y ∈ items c -> y <> o -> same h y obj = false) ->
    add_result c1 h2 x2 obj2 = if node_missing c1 x then - NLE_NOMEM else 0) as Hok.
  { intros Hno. assert (node_missing c1 x = node_missing c1 x2) as ->
      by (unfold node_missing; by rewrite (bool_decide_ext _ _ Hx2t)).
    apply (add_result_new c1 h2 (without items o) (ext_add ext o 1) c x2 obj2); try done.
    - congruence.
    - intros Hst y Hin. apply list_elem_of_filter in Hin as [Hne Hin].
      rewrite <- (Hno (proj1 Hx2t Hst) y Hin Hne). unfold same. rewrite L3 by done. by rewrite K1, K4. }
  destruct (cache_add_spec c1 h2 (without items o) (ext_add ext o 1) c x2 o obj2 Hw2 Hix2 Hn2 Hc2 Ho2 Hcc)
    as (h' & -> & Hres); [congruence|rewrite ext_add_eq; lia|].
  eexists _, h'. split; [done|]. split; [by apply add_result_nonpos|].
  pose proof (add_result_not_mismatch c1 h2 x2 obj2) as Hnm.
  destruct (add_result c1 h2 x2 obj2 =? 0).
  - destruct Hres as (Hw3 & Hx3 & Hn3 & (A1 & A2 & A3 & obj3 & Ho3 & (M1 & M2 & M3 & M4) & Hc3)).
    split; [|split; [split; [|split]|split; [|by split]]].
    + apply (inv_ext _ _ (ext_add (ext_add ext o 1) o (-1))); [|by split].
      intros o'. by rewrite ext_add_back.
    + intros c'. by rewrite A1.
    + by rewrite A2.
    + intros o' Hne. by rewrite A3, L3.
    + exists obj3. split; [done|]. split; [|done]. split_and!; congruence.
  - rewrite Hres. split; [by split|]. split; [by split|]. split; [exists obj2; by split|by split].
Qed.

(** ** Looking up *)

Lemma items_bound h items ext c : wf h items ext -> (length (items c) <= size (h_objs h))%nat.
Proof.
  intros Hw. pose proof (items_nodup _ _ _ c Hw) as Hnd.
  rewrite <- (size_dom (h_objs h)). rewrite <- (size_list_to_set (C := gset Z) (items c) Hnd).
  apply subseteq_size. intros o Ho. apply elem_of_list_to_set in Ho. apply elem_of_dom.
  by apply (items_exist _ _ _ _ _ Hw Ho).
Qed.

Lemma items_list h items ext c x :
  wf h items ext -> h_caches h !! c = Some x -> is_list (h_links h) (NCache c) (NObj <$> items c).
Proof. intros Hw Hc. by destruct (wf_cache _ _ _ Hw c x Hc) as (_ & _ & ? & _). Qed.

(** A loop over the items that leaves the links alone, as a loop over the
    sequence. *)
Lemma items_loop {S R} h items ext c x (body : node -> S -> exec (R + S)) (s : S) :
  wf h items ext -> h_caches h !! c = Some x ->
  nl_list_for_each_entry (fun _ => h_links h) body (loop_bound h) (NCache c) s =
  loop_list body (NObj <$> items c) s.
Proof.
  intros Hw Hc. pose proof (items_list _ _ _ _ _ Hw Hc) as Hl.
  apply (nl_list_for_each_entry_eq (fun _ => h_links h) body (NCache c)
    (fun l _ => walk (h_links h) l (NCache c))); [done| | |done|].
  - intros n l s1 s2 (Hne & Hn & Hwalk) _. by split.
  - by apply is_list_walk.
  - rewrite length_fmap. unfold loop_bound. pose proof (items_bound _ _ _ c Hw). lia.
Qed.

Lemma find_item_done h items ext c x test (f : nl_object D -> bool) :
  inv h items ext -> h_caches h !! c = Some x ->
  (forall o obj, o ∈ items c -> h_objs h !! o = Some obj -> test obj = Done (f obj)) ->
  exists r h', find_item h c test = Done (r, h') /\
    match r with
    | None => h' = h /\ forall o obj, o ∈ items c -> h_objs h !! o = Some obj -> f obj = false
    | Some o => exists l1 l2 obj, items c = l1 ++ o :: l2 /\ h_objs h !! o = Some obj /\ f obj = true /\
        (forall o' obj', o' ∈ l1 -> h_objs h !! o' = Some obj' -> f obj' = false) /\
        h' = put_obj h o (with_refcnt obj (ce_refcnt obj + 1)) /\ inv h' items (ext_add ext o 1)
    end.
Proof.
  intros Hi Hc Ht. pose proof (inv_wf _ _ _ Hi) as Hw. unfold find_item.
  rewrite (items_loop h items ext c x) by done.
  set (body := fun (n : node) (_ : unit) => _).
  assert (forall l, (forall o, o ∈ l -> o ∈ items c) -> exists r,
    loop_list body (NObj <$> l) tt = Done r /\
    match r with
    | inr _ => forall o obj, o ∈ l -> h_objs h !! o = Some obj -> f obj = false
    | inl o => exists l1 l2 obj, l = l1 ++ o :: l2 /\ h_objs h !! o = Some obj /\ f obj = true /\
        (forall o' obj', o' ∈ l1 -> h_objs h !! o' = Some obj' -> f obj' = false)
    end) as Hloop.
  { induction l as [|o l IH]; intros Hsub.
    - exists (inr tt). split; [done|]. intros o obj Hin. by apply elem_of_nil in Hin.
    - destruct (items_exist _ _ _ c o Hw) as [obj Ho]; [apply Hsub; by left|].
      assert (body (NObj o) tt = Done (if f obj then inl o else inr tt)) as Hb.
      { unfold body. cbn [entry]. exec_simpl. rewrite (get_obj_done _ _ _ Ho). exec_simpl.
        by rewrite (Ht o obj) by (done || apply Hsub; by left). }
      cbn [fmap list_fmap loop_list]. rewrite Hb. exec_simpl. destruct (f obj) eqn:Hf.
      + exists (inl o). split; [done|]. exists [], l, obj. split_and!; try done.
        intros o' obj' Hin. by apply elem_of_nil in Hin.
      + destruct IH as (r & Hr & Hres); [intros; apply Hsub; by right|]. exists r. split; [exact Hr|].
        destruct r as [o2|].
        * destruct Hres as (l1 & l2 & obj2 & -> & ? & ? & Hp). exists (o :: l1), l2, obj2.
          split_and!; try done. intros o' obj' Hin Ho'. apply elem_of_cons in Hin as [->|Hin];
            [congruence|by apply (Hp o')].
        * intros o' obj' Hin Ho'. apply elem_of_cons in Hin as [->|Hin]; [congruence|].
          by apply (Hres o'). }
  destruct (Hloop (items c)) as (r & -> & Hr); [done|]. exec_simpl. destruct r as [o|].
  - destruct Hr as (l1 & l2 & obj & Hit & Ho & Hf & Hp).
    destruct (get_spec h items ext o obj Hw Ho) as [-> _]. exec_simpl.
    eexists (Some o), _. split; [done|]. exists l1, l2, obj. split_and!; try done.
    pose proof (wf_obj _ _ _ Hw o obj Ho) as (_ & _ & _ & _ & _ & ? & ?).
    apply inv_refcnt; [done|done|lia|lia].
  - by exists None, h.
Qed.

(** Looking up in the table of a cache. *)
Lemma lookup_done h items ext c x t needle :
  inv h items ext -> h_caches h !! c = Some x -> c_hashtable x = Some t -> ce_ops needle <> 0 ->
  exists r, nl_hash_table_lookup ops_at h t needle = Done r /\
    match r with
    | None => forall o, o ∈ items c -> same h o needle = false
    | Some o => o ∈ items c /\ same h o needle = true
    end.
Proof.
  intros Hi Hc Ht Hp. destruct Hi as [Hw Hix Hn].
  pose proof (wf_cache _ _ _ Hw c x Hc) as (_ & Hco & _ & _ & Htb). specialize (Htb t Ht).
  destruct (caches_ok _ Hco) as [Hcops _]. set (kind := co_obj_ops _) in *.
  unfold nl_hash_table_lookup. rewrite keygen_done by done. exec_simpl.
  destruct (ht_slot_done h kind t (ce_body needle) Hcops Htb _ Hp) as (l & -> & Hl & Hr). exec_simpl.
  destruct (find_node_done h l needle Hp) as (r & -> & Hres).
  { intros nd Hnd. destruct (table_nodes_exist h kind t Htb _ l nd Hl Hnd) as (y & ? & ?).
    exists y. split; [done|congruence]. }
  exec_simpl. destruct (Hix c x Hc) as [I1 I2]. pose proof Htb as (_ & _ & Hkg & _).
  destruct r as [[[pre o] rest]|]; eexists; (split; [done|]).
  - destruct Hres as (k & -> & Hs & _). split; [|done].
    apply (I2 k o).
    + unfold table_nodes. rewrite Ht. apply (slot_in_table t _ _ (k, o) Hl).
      apply elem_of_app. right. by left.
    + unfold same in Hs. destruct (h_objs h !! o) as [y|] eqn:Hy; [|done].
      destruct (table_nodes_exist h kind t Htb _ _ (k, o) Hl) as (z & Hz & Hzk);
        [apply elem_of_app; right; by left|]. simpl in Hz. assert (z = y) as -> by congruence.
      bool_hyps. rewrite Hzk in *. exists kind, (ce_body y), (ce_body y).
      rewrite (kv_some _ _ _ Hy), Hzk. split_and!; try done.
      apply (ko_trans _ (kinds_ok _ Hcops) _ (ce_body needle)); [done|done|].
      by rewrite (ko_sym _ (kinds_ok _ Hcops)).
  - intros o Hin. destruct (same h o needle) eqn:Hs; [|done]. exfalso.
    destruct (I1 ltac:(rewrite Ht; by eexists) o Hin) as (k & Hkn).
    assert (table_has h x needle = true) as Hth.
    { unfold table_has. apply existsb_exists. exists (k, o). split; [by apply list_elem_of_In|done]. }
    assert (ce_ops needle = kind) as Hnk.
    { unfold table_nodes in Hkn. rewrite Ht in Hkn.
      destruct (table_nodes_some h items ext c x t (k, o) Hw Hc Ht Hkn) as (y & Hy & Hyk).
      simpl in Hy. unfold same in Hs. rewrite Hy in Hs. bool_hyps. unfold kind. congruence. }
    rewrite <- (in_slot_table h x t needle l Ht) in Hth; [|by rewrite Hnk|done|done].
    unfold in_slot in Hth. apply existsb_exists in Hth as (nd & Hnd & Hs2).
    apply list_elem_of_In in Hnd. rewrite (Hres nd Hnd) in Hs2. done.
Qed.

Lemma search_full h items ext c x needle :
  inv h items ext -> h_caches h !! c = Some x -> ce_ops needle <> 0 ->
  exists r h', nl_cache_search ops_at h c needle = Done (r, h') /\
    match r with
    | None => h' = h /\ forall o, o ∈ items c -> same h o needle = false
    | Some o => o ∈ items c /\ same h o needle = true /\ exists obj, h_objs h !! o = Some obj /\
        h' = put_obj h o (with_refcnt obj (ce_refcnt obj + 1)) /\ inv h' items (ext_add ext o 1)
    end.
Proof.
  intros Hi Hc Hp. pose proof (inv_wf _ _ _ Hi) as Hw. unfold nl_cache_search.
  rewrite (get_cache_done _ _ _ Hc). exec_simpl. destruct (c_hashtable x) as [t|] eqn:Ht.
  - unfold __cache_fast_lookup. destruct (lookup_done h items ext c x t needle Hi Hc Ht Hp) as (r & -> & Hr).
    exec_simpl. destruct r as [o|]; [|by eexists None, h].
    destruct Hr as [Hin Hs]. destruct (items_exist _ _ _ _ _ Hw Hin) as [obj Ho].
    destruct (get_spec h items ext o obj Hw Ho) as [-> _]. exec_simpl.
    eexists (Some o), _. split; [done|]. split; [done|]. split; [done|]. exists obj. split; [done|].
    split; [done|]. pose proof (wf_obj _ _ _ Hw o obj Ho) as (_ & _ & _ & _ & _ & ? & ?).
    apply inv_refcnt; [done|done|lia|lia].
  - destruct (find_item_done h items ext c x (fun obj => nl_object_identical ops_at obj needle)
      (fun obj => (ce_ops obj =? ce_ops needle) && identical_by (ops_at (ce_ops obj)) (ce_body obj) (ce_body needle))
      Hi Hc) as (r & h' & -> & Hr).
    { intros o obj Hin Ho. apply identical_done; [|done].
      by destruct (wf_obj _ _ _ Hw o obj Ho) as (_ & ? & _). }
    exists r, h'. split; [done|]. destruct r as [o|].
    + destruct Hr as (l1 & l2 & obj & Hit & Ho & Hf & _ & Hh & Hi'). split; [rewrite Hit; set_solver|].
      split; [unfold same; by rewrite Ho|]. by exists obj.
    + destruct Hr as [-> Hr]. split; [done|]. intros o Hin. unfold same.
      destruct (h_objs h !! o) as [obj|] eqn:Ho; [|done]. by apply (Hr o).
Qed.

(** A table tells its items apart. *)
Lemma items_distinct h items ext c x y z :
  inv h items ext -> h_caches h !! c = Some x -> is_Some (c_hashtable x) ->
  y ∈ items c -> z ∈ items c -> ident h y z -> y = z.
Proof.
  intros [Hw Hix Hn] Hc [t Ht] Hy Hz Hi. destruct (decide (y = z)) as [|Hne]; [done|]. exfalso.
  destruct (wf_cache _ _ _ Hw c x Hc) as (_ & Hco & _ & Hkinds & Htb). specialize (Htb t Ht).
  destruct (caches_ok _ Hco) as [Hcops _]. set (kind := co_obj_ops _) in *.
  destruct (Hix c x Hc) as [I1 _]. unfold table_nodes in I1. rewrite Ht in I1.
  destruct (I1 ltac:(by eexists) y Hy) as (ky & Hky). destruct (I1 ltac:(by eexists) z Hz) as (kz & Hkz).
  destruct (items_exist _ _ _ c y Hw Hy) as [yo Hyo]. destruct (items_exist _ _ _ c z Hw Hz) as [zo Hzo].
  destruct (Hkinds y Hy) as (by' & Hby). rewrite (kv_some _ _ _ Hyo) in Hby.
  destruct (Hkinds z Hz) as (bz' & Hbz). rewrite (kv_some _ _ _ Hzo) in Hbz.
  destruct (node_slot h kind t y yo ky Htb Hyo ltac:(congruence) Hky) as (l & Hl & Hyl).
  destruct (node_slot h kind t z zo kz Htb Hzo ltac:(congruence) Hkz) as (l' & Hl' & Hzl).
  pose proof Htb as (_ & _ & Hkg & Hslots).
  assert (key_of kind (ce_body yo) (ht_size t) = key_of kind (ce_body zo) (ht_size t)) as Hkey.
  { unfold key_of. destruct (oo_keygen (ops_at kind)) as [f|] eqn:Hf; [|done].
    apply (ko_key_ident _ (kinds_ok _ Hcops)); [done|].
    destruct Hi as (p & b1 & b2 & K1 & K2 & K3). rewrite (kv_some _ _ _ Hyo) in K1.
    rewrite (kv_some _ _ _ Hzo) in K2. assert (p = kind) as -> by congruence.
    by assert (b1 = ce_body yo /\ b2 = ce_body zo) as [-> ->] by (split; congruence). }
  rewrite Hkey, Hl' in Hl. injection Hl as ->. destruct (Hslots _ _ Hl') as [_ Hd].
  assert (ident h z y) as Hi'.
  { apply (ident_sym h y z kind (ce_body yo)); [by rewrite (kv_some _ _ _ Hyo); congruence|done..]. }
  clear -Hd Hyl Hzl Hi Hi' Hne. induction l as [|nd l IH]; [by apply elem_of_nil in Hyl|].
  destruct Hd as [Ha Hb]. apply elem_of_cons in Hyl as [Ey|Hyl]; apply elem_of_cons in Hzl as [Ez|Hzl].
  - congruence.
  - subst nd. by apply (Ha _ Hzl).
  - subst nd. by apply (Ha _ Hyl).
  - by apply IH.
Qed.

(** ** Clones held by the caller *)

Definition ext_opt (ext : Z -> Z) (r : option Z) : Z -> Z :=
  match r with None => ext | Some n => ext_add ext n 1 end.

Lemma clone_full (c1 : bool) h items ext o obj :
  inv h items ext -> h_objs h !! o = Some obj ->
  exists r h', nl_object_clone ops_at c1 zero h (Some o) = Done (r, h') /\ inv h' items (ext_opt ext r) /\
    h_caches h' = h_caches h /\
    (forall o', is_Some (h_objs h !! o') -> h_objs h' !! o' = h_objs h !! o') /\
    (forall n, r = Some n -> h_objs h !! n = None /\ is_Some (h_objs h' !! n)).
Proof.
  intros Hi Ho. pose proof (inv_wf _ _ _ Hi) as Hw.
  pose proof (wf_obj _ _ _ Hw o obj Ho) as (Hlt & Hp & _).
  assert (o <> h_next h) as Hne by lia. pose proof (fresh_obj _ _ _ Hw) as Hf.
  destruct (clone_done c1 zero h o obj Ho Hne Hp) as (d0 & d & _ & ->).
  set (r := clone_data _ _ _) in *. destruct c1; simpl; [destruct (0 <=? r.1)|].
  - destruct (inv_new_obj h items ext (clone_obj obj d) Hi) as [Hi1 _]; [done..|].
    eexists (Some _), _. split; [done|]. split; [done|]. split; [done|]. split.
    + intros o' [y Hy]. simpl. rewrite lookup_insert_ne; [done|]. congruence.
    + intros n [= <-]. split; [done|]. simpl. rewrite lookup_insert_eq. by eexists.
  - destruct (inv_no_clone h items ext obj d Hi Hp) as [Hi1 _].
    eexists None, _. split; [done|]. split; [exact Hi1|]. split; [done|]. split; [|done].
    intros o' [y Hy]. simpl. assert (o' <> h_next h) by congruence.
    by rewrite lookup_delete_ne, lookup_insert_ne.
  - by exists None, h.
Qed.

Lemma put_opt h items ext r :
  inv h items (ext_opt ext r) -> (forall n, r = Some n -> ext n = 0 /\ is_Some (h_objs h !! n)) ->
  exists h', nl_object_put ops_at h r = Done h' /\ inv h' items ext /\ h_caches h' = h_caches h /\
    (forall o, Some o <> r -> h_objs h' !! o = h_objs h !! o).
Proof.
  intros Hi Hr. destruct r as [n|]; [|by exists h]. destruct (Hr n eq_refl) as [He [obj Ho]].
  destruct (inv_put h items (ext_add ext n 1) n obj Hi Ho) as (h' & Hp & Hi' & (S1 & S2 & S3 & S4) & _).
  { rewrite ext_add_eq. lia. }
  exists h'. split; [done|]. split; [|split; [done|]].
  - apply (inv_ext _ _ (ext_add (ext_add ext n 1) n (-1))); [|done]. intros o. by rewrite ext_add_back.
  - intros o Hne. apply S3. congruence.
Qed.
End CacheSpec.
