(* ===== verification/CacheLife.v ===== *)
(** The life of caches: creation, clearing, destruction, copies; and the
    ownership theorem over every sequence of operations. *)
From S2P Require Import Prelude Errors NlList Object Cache CacheInv CacheOps CacheSpec.

Section CacheLife.
Context {D : Type} {EV : Env D} {EK : EnvOk EV} (zero : D).
Implicit Types (h : heap D) (o c : Z) (obj : nl_object D).

(** ** A new cache *)

Definition new_cache h x : heap D :=
  {| h_objs := h_objs h; h_caches := <[h_next h := x]> (h_caches h);
     h_links := nl_init_list_head (h_links h) (NCache (h_next h)); h_next := h_next h + 1 |}.

Lemma empty_table_ok h ops n :
  0 < n -> oo_keygen (ops_at ops) <> None ->
  table_ok h ops {| ht_size := n; ht_nodes := replicate (Z.to_nat n) [] |}.
Proof.
  intros Hn Hk. split; [done|]. simpl. split; [unfold zlen; rewrite length_replicate; lia|].
  split; [done|]. intros k l Hl. apply lookup_replicate in Hl as [-> _]. split; [|done].
  intros nd Hin. by apply elem_of_nil in Hin.
Qed.

Lemma concat_nils {A} n : concat (replicate n (@nil A)) = [].
Proof. by induction n. Qed.

Lemma alloc_cache_spec (c1 c2 c3 : bool) h items ext p :
  inv h items ext -> p <> 0 ->
  exists x, nl_cache_alloc ops_at cops_at c1 c2 c3 h p =
      (if c1 then (Some (h_next h), new_cache h x) else (None, h)) /\
    inv (new_cache h x) items ext /\ items (h_next h) = [] /\ c_ops x = p /\ c_refcnt x = 1 /\
    c_nitems x = 0 /\ c_flags x = set_flag 0 (co_flags (cops_at p)) /\
    (c2 = true -> c3 = true -> is_Some (c_hashtable x) <-> oo_keygen (ops_at (co_obj_ops (cops_at p))) <> None).
Proof.
  intros [Hw Hx Hn] Hp. pose proof (fresh_cache _ _ _ Hw) as Hf.
  pose proof (wf_nocache _ _ _ Hw _ Hf) as Hit. destruct (caches_ok p Hp) as [Hk Hs].
  unfold nl_cache_alloc. cbv zeta. set (kg := oo_keygen _). set (t := match kg with Some _ => _ | None => None end).
  set (x := Build_nl_cache _ _ _ _ _ _ _). exists x.
  assert (forall t', t = Some t' -> table_ok h (co_obj_ops (cops_at p)) t' /\ concat (ht_nodes t') = []) as Ht.
  { unfold t, nl_hash_table_alloc. intros t'. destruct kg as [f|] eqn:Hf2; [|done].
    destruct c2; [|done]. destruct c3; [|done]. intros [= <-]. split; [|apply concat_nils].
    apply empty_table_ok; [|unfold kg in Hf2; by rewrite Hf2].
    unfold NL_MAX_HASH_ENTRIES. destruct (co_hash_size (cops_at p) =? 0) eqn:E; bool_hyps; simpl; lia. }
  assert (table_nodes x = []) as Htn.
  { unfold table_nodes. simpl. destruct t as [t'|] eqn:E; [|done]. by apply Ht. }
  split; [by destruct c1|]. split; [|split_and!; try done].
  2:{ intros -> ->. change (c_hashtable x) with t. unfold t, nl_hash_table_alloc. simpl.
      by destruct kg; split. }
  assert (forall o, table_refs (h_caches (new_cache h x)) o = table_refs (h_caches h) o) as Hr.
  { intros o. simpl. rewrite table_refs_insert by done. by rewrite Htn. }
  split.
  - destruct Hw as [W1 W2 W3 W4 W5 W6]. split; [..|simpl; lia].
    + intros c y Hy. simpl in Hy. destruct (decide (c = h_next h)) as [->|Hne].
      * rewrite lookup_insert_eq in Hy. injection Hy as <-. simpl. rewrite Hit.
        split; [lia|]. split; [done|]. split; [apply init_list|]. split.
        -- intros o Hin. by apply elem_of_nil in Hin.
        -- intros t' Ht'. apply (table_ok_ext h); [done|]. by apply Ht.
      * rewrite lookup_insert_ne in Hy by done. destruct (W1 c y Hy) as (? & ? & Hl & Hkk & Htt).
        simpl. split; [lia|]. split; [done|]. split; [|split].
        -- apply (is_list_frame _ _ _ _ Hl). intros n Hin. unfold nl_init_list_head, NL_INIT_LIST_HEAD.
           rewrite lookup_insert_ne; [done|]. intros <-. apply elem_of_cons in Hin as [?|Hin];
             [congruence|]. apply list_elem_of_fmap in Hin as (? & ? & _). done.
        -- exact Hkk.
        -- intros t' Ht'. apply (table_ok_ext h); [done|by apply Htt].
    + intros c Hc. simpl in Hc. apply lookup_insert_None in Hc as [Hc _]. by apply W2.
    + exact W3.
    + intros o obj Ho. rewrite Hr. destruct (W4 o obj Ho) as (? & ? & Hl & ? & ? & ? & ?). simpl.
      split; [lia|]. split; [done|]. split; [|by split_and!].
      unfold nl_init_list_head, NL_INIT_LIST_HEAD. by rewrite lookup_insert_ne.
    + intros o Ho. rewrite Hr. by apply W5.
  - intros c y Hy. simpl in Hy. destruct (decide (c = h_next h)) as [->|Hne].
    + rewrite lookup_insert_eq in Hy. injection Hy as <-. rewrite Hit, Htn. split.
      * intros _ o Hin. by apply elem_of_nil in Hin.
      * intros k o Hin. by apply elem_of_nil in Hin.
    + rewrite lookup_insert_ne in Hy by done. exact (Hx c y Hy).
  - intros c y Hy. simpl in Hy. destruct (decide (c = h_next h)) as [->|Hne].
    + rewrite lookup_insert_eq in Hy. injection Hy as <-. by rewrite Hit.
    + rewrite lookup_insert_ne in Hy by done. exact (Hn c y Hy).
Qed.

(** ** Clearing *)

(** Removals of objects of [l] only. *)
Definition loses_all h h' (l : list Z) : Prop :=
  (forall c, cviews h' c = cviews h c) /\ h_next h' = h_next h /\
  forall o, o ∉ l -> h_objs h' !! o = h_objs h !! o.

Definition clear_body (n : node) h : exec (unit + heap D) :=
  o ← entry n; h ← nl_cache_remove ops_at h o; mret (inr h).

Lemma cache_exists_view h h' c : cviews h' c = cviews h c -> is_Some (h_caches h !! c) -> is_Some (h_caches h' !! c).
Proof. intros Hv [x Hx]. unfold cviews in Hv. rewrite Hx in Hv. destruct (h_caches h' !! c); [by eexists|done]. Qed.

(** The state of the loop with the entries [l] left. *)
Definition clear_inv c ext (l : list node) h : Prop :=
  exists items lz, l = NObj <$> lz /\ items c = lz /\ inv h items ext /\ is_Some (h_caches h !! c).

Lemma clear_step c ext n l h h' :
  clear_inv c ext (n :: l) h -> clear_body n h = Done (inr h') -> clear_inv c ext l h'.
Proof.
  intros (items & lz & Hl & Hit & Hi & Hc) Hb. destruct lz as [|o lz]; [done|].
  injection Hl as -> ->. pose proof (inv_wf _ _ _ Hi) as Hw.
  destruct (items_exist _ _ _ c o Hw) as [obj Ho]; [rewrite Hit; by left|].
  destruct (remove_full h items ext o obj Hi Ho) as (h2 & Hr & Hi2 & (L1 & _) & _).
  unfold clear_body in Hb. cbn [entry] in Hb. unfold mbind, exec_bind in Hb. rewrite Hr in Hb.
  injection Hb as <-. exists (without items o), lz. split; [done|]. split; [|split; [done|]].
  - unfold without. rewrite Hit. rewrite filter_cons_False by congruence. apply filter_ne_id.
    pose proof (items_nodup _ _ _ c Hw) as Hnd. rewrite Hit in Hnd. by apply NoDup_cons in Hnd as [? _].
  - by apply (cache_exists_view h).
Qed.

Lemma clear_inv_walk c ext l h : clear_inv c ext l h -> walk (h_links h) l (NCache c).
Proof.
  intros (items & lz & -> & <- & Hi & [x Hc]). apply is_list_walk.
  by apply (items_list h items ext c x); [apply Hi|].
Qed.

Lemma clear_list c l h items ext :
  inv h items ext -> items c = l -> is_Some (h_caches h !! c) ->
  exists h', loop_list clear_body (NObj <$> l) h = Done (inr h') /\
    inv h' (set_items items c []) ext /\ loses_all h h' l /\
    (forall o obj, h_objs h !! o = Some obj -> 0 < ext o ->
      exists obj', h_objs h' !! o = Some obj' /\ kept obj obj').
Proof.
  revert h items. induction l as [|o l IH]; intros h items Hi Hit Hc.
  - exists h. split; [done|]. split; [|split; [done|by intros o obj Ho _; exists obj]].
    apply (inv_items_ext _ items); [|done]. intros c'. unfold set_items. case_decide; congruence.
  - pose proof (inv_wf _ _ _ Hi) as Hw.
    destruct (items_exist _ _ _ c o Hw) as [obj Ho]; [rewrite Hit; by left|].
    destruct (remove_full h items ext o obj Hi Ho) as (h2 & Hr & Hi2 & (L1 & L2 & L3) & Hk & He).
    destruct (IH h2 (without items o)) as (h3 & Hl3 & Hi3 & (M1 & M2 & M3) & Hk3).
    + done.
    + unfold without. rewrite Hit. rewrite filter_cons_False by congruence. apply filter_ne_id.
      pose proof (items_nodup _ _ _ c Hw) as Hnd. rewrite Hit in Hnd. by apply NoDup_cons in Hnd as [? _].
    + by apply (cache_exists_view h).
    + exists h3. cbn [fmap list_fmap loop_list].
      assert (clear_body (NObj o) h = Done (inr h2)) as ->
        by (unfold clear_body; cbn [entry]; exec_simpl; by rewrite Hr).
      exec_simpl. split; [exact Hl3|]. split; [|split; [split; [|split]|]].
      * apply (inv_items_ext _ (set_items (without items o) c [])); [|done]. intros c'.
        unfold set_items. case_decide as E; [done|]. unfold without. rewrite filter_ne_id; [done|].
        intros Hin. apply E. apply (items_disjoint h items ext _ _ o); [done|done|].
        rewrite Hit. by left.
      * intros c'. by rewrite M1.
      * by rewrite M2.
      * intros o' Hin. apply not_elem_of_cons in Hin as [? ?]. by rewrite M3, L3.
      * intros o' obj' Ho' Hpos. destruct (decide (o' = o)) as [->|Hne].
        -- destruct (He Hpos) as [obj2 Ho2]. destruct (Hk obj2 Ho2) as [(K1 & K2 & K3 & K4) _].
           destruct (Hk3 o obj2 Ho2 Hpos) as (obj3 & Ho3 & (N1 & N2 & N3 & N4)).
           exists obj3. split; [done|]. assert (obj' = obj) as -> by congruence.
           split_and!; congruence.
        -- apply Hk3; [|done]. by rewrite L3.
Qed.

Lemma clear_full h items ext c x :
  inv h items ext -> h_caches h !! c = Some x ->
  exists h', nl_cache_clear ops_at h c = Done h' /\ inv h' (set_items items c []) ext /\
    loses_all h h' (items c) /\
    (forall o obj, h_objs h !! o = Some obj -> 0 < ext o ->
      exists obj', h_objs h' !! o = Some obj' /\ kept obj obj').
Proof.
  intros Hi Hc. destruct (clear_list c (items c) h items ext Hi eq_refl) as (h' & Hl & Hi' & Hls & Hk);
    [by eexists|].
  exists h'. split; [|done]. unfold nl_cache_clear. fold clear_body.
  rewrite (nl_list_for_each_entry_safe_eq (@h_links D) clear_body (NCache c) (clear_inv c ext)
    (clear_inv_walk c ext) _ (NObj <$> items c)).
  - by rewrite Hl.
  - intros n l s s'. apply clear_step.
  - exists items, (items c). split; [done|]. split; [done|]. split; [done|by eexists].
  - by apply (items_list h items ext c x); [apply Hi|].
  - rewrite length_fmap. unfold loop_bound. pose proof (items_bound _ _ _ c (inv_wf _ _ _ Hi)). lia.
Qed.

(** ** Destruction *)

Definition drop_obj h o : heap D :=
  {| h_objs := delete o (h_objs h); h_caches := h_caches h;
     h_links := delete (NObj o) (h_links h); h_next := h_next h |}.
Definition put_result h o obj : heap D :=
  if ce_refcnt obj =? 1 then drop_obj h o else put_obj h o (with_refcnt obj (ce_refcnt obj - 1)).

Lemma put_result_done n h o obj :
  h_objs h !! o = Some obj -> ce_ops obj <> 0 -> 0 < ce_refcnt obj ->
  (ce_refcnt obj = 1 -> ce_cache obj = 0) ->
  put_at ops_at (S n) h o = Done (put_result h o obj).
Proof.
  intros Ho Hp Hr Hc. unfold put_result. destruct (ce_refcnt obj =? 1) eqn:E; bool_hyps.
  - cbn [put_at]. unfold object_put. rewrite (get_obj_done _ _ _ Ho). exec_simpl.
    rewrite E. change (1 - 1) with 0. cbn [Z.ltb Z.leb Z.compare].
    rewrite (free_done _ _ o (with_refcnt obj 0)); [|simpl; by rewrite lookup_insert_eq|done|by apply Hc].
    unfold drop_obj. simpl. by rewrite delete_insert_eq.
  - apply put_dec; [done|lia].
Qed.

Definition ext_plus (ext : Z -> Z) (l : list (Z * Z)) : Z -> Z := fun o => ext o + count_obj l o.

(** Giving back the references of a list of nodes, in a heap where the cache's
    table is already accounted for as gone. *)
Lemma put_result_cache h o obj c x : put_result (put_cache h c x) o obj = put_cache (put_result h o obj) c x.
Proof. unfold put_result. by destruct (ce_refcnt obj =? 1). Qed.

Lemma put_nodes c x0 items ext l h :
  (forall o, 0 <= ext o) -> inv (put_cache h c x0) items (ext_plus ext l) ->
  exists h', foldl (fun m nd => h ← m; nl_object_put ops_at h (Some nd.2)) (mret h) l = Done h' /\
    inv (put_cache h' c x0) items ext /\ h_caches h' = h_caches h /\ h_next h' = h_next h /\
    (forall o obj, h_objs h !! o = Some obj -> 0 < ext o ->
      exists obj', h_objs h' !! o = Some obj' /\ kept obj obj').
Proof.
  intros Hpos. revert h. induction l as [|nd l IH]; intros h Hi.
  - exists h. split; [done|]. split; [|split_and!; try done; by intros o obj Ho _; exists obj].
    apply (inv_ext _ _ (ext_plus ext [])); [|done]. intros o. unfold ext_plus.
    change (count_obj [] o) with 0. lia.
  - pose proof (inv_wf _ _ _ Hi) as Hw. set (hc := put_cache h c x0) in *. set (o := nd.2).
    assert (ext_plus ext (nd :: l) o = ext o + 1 + count_obj l o) as Hext.
    { unfold ext_plus. rewrite count_obj_cons, decide_True by done. lia. }
    pose proof (count_obj_nonneg l o) as Hcn. pose proof (Hpos o) as Hpo.
    destruct (h_objs hc !! o) as [obj|] eqn:Ho; [|destruct (wf_noobj _ _ _ Hw o Ho); lia].
    destruct (wf_obj _ _ _ Hw o obj Ho) as (_ & Hp & _ & _ & Hr & _ & Hrp).
    pose proof (table_refs_nonneg (h_caches hc) o) as Htr.
    assert (ce_refcnt obj = 1 -> ce_cache obj = 0) as Hc1.
    { intros E. destruct (decide (ce_cache obj = 0)) as [|Hne]; [done|].
      rewrite (proj2 (Z.eqb_neq _ 0) Hne) in Hr. lia. }
    destruct (inv_put hc items _ o obj Hi Ho) as (h2 & Hput & Hi2 & _); [lia|].
    cbn [nl_object_put] in Hput. rewrite (put_result_done 2 hc o obj Ho Hp Hrp Hc1) in Hput.
    injection Hput as <-. unfold hc in Hi2. rewrite put_result_cache in Hi2.
    cbn [foldl]. assert ((mret h ≫= fun h => nl_object_put ops_at h (Some nd.2)) =
      mret (put_result h o obj)) as ->.
    { exec_simpl. cbn [nl_object_put]. by apply put_result_done. }
    destruct (IH (put_result h o obj)) as (h' & Hf & Hi' & Hcc & Hn & Hk).
    { apply (inv_ext _ _ (ext_add (ext_plus ext (nd :: l)) o (-1))); [|exact Hi2].
      intros o'. unfold ext_add, ext_plus. rewrite count_obj_cons. fold o.
      destruct (decide (o' = o)) as [->|Hne]; [rewrite decide_True by done; lia|].
      rewrite decide_False by congruence. lia. }
    exists h'. split; [exact Hf|]. split; [done|].
    split; [rewrite Hcc; unfold put_result; by destruct (ce_refcnt obj =? 1)|].
    split; [rewrite Hn; unfold put_result; by destruct (ce_refcnt obj =? 1)|].
    intros o' obj' Ho' He. destruct (decide (o' = o)) as [->|Hne].
    + assert (obj' = obj) as -> by (unfold hc in Ho; simpl in Ho; congruence).
      destruct (Hk o (with_refcnt obj (ce_refcnt obj - 1))) as (obj2 & ? & (? & ? & ? & ?)); [|done|by exists obj2].
      unfold put_result. rewrite (proj2 (Z.eqb_neq _ 1)) by (destruct (ce_cache obj =? 0); lia).
      simpl. by rewrite lookup_insert_eq.
    + apply Hk; [|done]. unfold put_result. destruct (ce_refcnt obj =? 1); simpl.
      * by rewrite lookup_delete_ne.
      * by rewrite lookup_insert_ne.
Qed.

(** Taking an empty cache without a table off the heap. *)
Definition drop_cache h c : heap D :=
  {| h_objs := h_objs h; h_caches := delete c (h_caches h);
     h_links := delete (NCache c) (h_links h); h_next := h_next h |}.

Lemma inv_drop_cache h items ext c x :
  inv h items ext -> h_caches h !! c = Some x -> items c = [] -> c_hashtable x = None ->
  inv (drop_cache h c) items ext.
Proof.
  intros [Hw Hix Hn] Hc Hit Ht.
  assert (forall o, table_refs (h_caches (drop_cache h c)) o = table_refs (h_caches h) o) as Hr.
  { intros o. rewrite (table_refs_delete (h_caches h) c x o Hc). unfold table_nodes. by rewrite Ht. }
  split.
  - destruct Hw as [W1 W2 W3 W4 W5 W6]. split; [..|exact W6].
    + intros c' y Hy. simpl in Hy. apply lookup_delete_Some in Hy as [Hne Hy].
      destruct (W1 c' y Hy) as (? & ? & Hl & Hk & Htb). do 2 (split; [done|]). split; [|split; [done|]].
      * apply (is_list_frame _ _ _ _ Hl). intros n Hin. simpl. rewrite lookup_delete_ne; [done|].
        intros <-. apply elem_of_cons in Hin as [?|Hin]; [congruence|].
        apply list_elem_of_fmap in Hin as (? & ? & _). done.
      * intros t Htt. apply (table_ok_ext h); [done|by apply Htb].
    + intros c' Hc'. simpl in Hc'. destruct (decide (c' = c)) as [->|Hne]; [done|].
      rewrite lookup_delete_ne in Hc' by done. by apply W2.
    + exact W3.
    + intros o obj Ho. rewrite Hr. destruct (W4 o obj Ho) as (? & ? & ? & ? & ?).
      do 2 (split; [done|]). split; [simpl; by rewrite lookup_delete_ne|by split].
    + intros o Ho. rewrite Hr. by apply W5.
  - intros c' y Hy. simpl in Hy. apply lookup_delete_Some in Hy as [_ Hy]. exact (Hix c' y Hy).
  - intros c' y Hy. simpl in Hy. apply lookup_delete_Some in Hy as [_ Hy]. exact (Hn c' y Hy).
Qed.

Lemma inv_no_table h items ext c x :
  inv h items ext -> h_caches h !! c = Some x -> items c = [] ->
  inv (put_cache h c (with_table x None)) items (ext_plus ext (table_nodes x)).
Proof.
  intros [Hw Hix Hn] Hc Hit. split.
  - apply (wf_set_table h items ext); [done|done|done| |].
    + intros o. unfold ext_plus. change (table_nodes (with_table x None)) with (@nil (Z * Z)).
      change (count_obj [] o) with 0. lia.
    + intros o. unfold ext_plus. pose proof (count_obj_nonneg (table_nodes x) o).
      destruct (h_objs h !! o) as [obj|] eqn:E.
      * destruct (wf_obj _ _ _ Hw o obj E) as (_ & _ & _ & _ & _ & ? & _). lia.
      * destruct (wf_noobj _ _ _ Hw o E). lia.
  - intros c' y Hy. simpl in Hy. destruct (decide (c' = c)) as [->|Hne].
    + rewrite lookup_insert_eq in Hy. injection Hy as <-. split; [by intros [? ?]|].
      intros k o Hin. by apply elem_of_nil in Hin.
    + rewrite lookup_insert_ne in Hy by done. exact (Hix c' y Hy).
  - intros c' y Hy. simpl in Hy. destruct (decide (c' = c)) as [->|Hne].
    + rewrite lookup_insert_eq in Hy. injection Hy as <-. simpl. exact (Hn c x Hc).
    + rewrite lookup_insert_ne in Hy by done. exact (Hn c' y Hy).
Qed.

Lemma ext_nonneg h items ext : wf h items ext -> forall o, 0 <= ext o.
Proof.
  intros Hw o. destruct (h_objs h !! o) as [obj|] eqn:E.
  - by destruct (wf_obj _ _ _ Hw o obj E) as (_ & _ & _ & _ & _ & ? & _).
  - destruct (wf_noobj _ _ _ Hw o E). lia.
Qed.

Lemma destroy_full h items ext c x :
  inv h items ext -> h_caches h !! c = Some x ->
  exists h', __nl_cache_free ops_at h c = Done h' /\ inv h' (set_items items c []) ext /\
    h_next h' = h_next h /\ h_caches h' !! c = None /\
    (forall c', c' <> c -> cviews h' c' = cviews h c') /\
    (forall o obj, h_objs h !! o = Some obj -> 0 < ext o ->
      exists obj', h_objs h' !! o = Some obj' /\ kept obj obj').
Proof.
  intros Hi Hc. unfold __nl_cache_free.
  destruct (clear_full h items ext c x Hi Hc) as (h2 & -> & Hi2 & (L1 & L2 & _) & Hk2). exec_simpl.
  destruct (cache_exists_view h h2 c (L1 c)) as [x2 Hc2]; [by eexists|].
  rewrite (get_cache_done _ _ _ Hc2). exec_simpl.
  pose proof (set_items_eq items c []) as Hit.
  pose proof (inv_no_table h2 _ ext c x2 Hi2 Hc2 Hit) as Hi3.
  pose proof (ext_nonneg _ _ _ (inv_wf _ _ _ Hi)) as Hpos.
  destruct (put_nodes c (with_table x2 None) _ ext (table_nodes x2) h2 Hpos Hi3)
    as (h3 & Hf & Hi4 & Hcc & Hn & Hk3).
  assert (match c_hashtable x2 with Some t => nl_hash_table_free ops_at h2 t | None => mret h2 end
    = Done h3) as ->.
  { unfold table_nodes in Hf. destruct (c_hashtable x2) as [t|]; [exact Hf|exact Hf]. }
  exec_simpl. fold (drop_cache h3 c). exists (drop_cache h3 c). split; [done|].
  split; [|split; [|split; [|split]]].
  - assert (drop_cache h3 c = drop_cache (put_cache h3 c (with_table x2 None)) c) as ->.
    { unfold drop_cache, put_cache, with_caches. simpl. by rewrite delete_insert_eq. }
    apply (inv_drop_cache _ _ _ c (with_table x2 None)); [done| |done|done].
    simpl. by rewrite lookup_insert_eq.
  - simpl. by rewrite Hn.
  - simpl. by rewrite lookup_delete_eq.
  - intros c' Hne. unfold cviews. simpl. rewrite lookup_delete_ne by done. rewrite Hcc.
    exact (L1 c').
  - intros o obj Ho He. destruct (Hk2 o obj Ho He) as (o2 & Ho2 & (? & ? & ? & ?)).
    destruct (Hk3 o o2 Ho2 He) as (o3 & Ho3 & (? & ? & ? & ?)). exists o3. split; [done|].
    split_and!; congruence.
Qed.

(** ** Marks *)

(** A change of flags is no change to the invariant. *)
Lemma inv_flags h items ext o obj f :
  inv h items ext -> h_objs h !! o = Some obj -> inv (put_obj h o (with_flags obj f)) items ext.
Proof.
  intros [Hw Hix Hn] Ho. set (h' := put_obj _ _ _).
  assert (forall o', kv h' o' = kv h o') as Hkv by (intros; by apply (kv_put_same h o obj)).
  split; [|apply (indexed_mono h); [done|intros o' v; by rewrite Hkv|done]|done].
  destruct Hw as [W1 W2 W3 W4 W5 W6]. split; [| exact W2| | | |exact W6].
  - intros c x Hc. destruct (W1 c x Hc) as (? & ? & ? & Hk & Ht). do 3 (split; [done|]). split.
    + intros o' Hin. rewrite Hkv. by apply Hk.
    + intros t Htt. apply (table_ok_ext h); [intros; apply Hkv|by apply Ht].
  - intros c o' Hin. destruct (W3 c o' Hin) as (y & Hy & Hyc). simpl.
    destruct (decide (o' = o)) as [->|]; [|rewrite lookup_insert_ne by done; by exists y].
    rewrite lookup_insert_eq. exists (with_flags obj f). split; [done|]. simpl. congruence.
  - intros o' y Hy. simpl in Hy. destruct (decide (o' = o)) as [->|].
    + rewrite lookup_insert_eq in Hy. injection Hy as <-. exact (W4 o obj Ho).
    + rewrite lookup_insert_ne in Hy by done. exact (W4 o' y Hy).
  - intros o' Hy. simpl in Hy. apply lookup_insert_None in Hy as [Hy _]. exact (W5 o' Hy).
Qed.

Lemma walk_suffix {K} `{Countable K} (m : gmap K (K * K)) l1 l2 hd : walk m (l1 ++ l2) hd -> walk m l2 hd.
Proof. induction l1 as [|x l1 IH]; [done|]. intros (_ & _ & Hw). by apply IH. Qed.

(** ** Loops that change other lists or no list *)

(** The state of such a loop over the items of [c]: [l] is what is left. *)
Definition over c (R : heap D -> (Z -> list Z) -> Prop) (l : list node) h : Prop :=
  exists items pre lz, l = NObj <$> lz /\ items c = pre ++ lz /\ R h items /\
    is_list (h_links h) (NCache c) (NObj <$> items c).

Lemma over_walk c R l h : over c R l h -> walk (h_links h) l (NCache c).
Proof.
  intros (items & pre & lz & -> & Hit & _ & Hl). destruct (is_list_walk _ _ _ Hl) as [_ Hw].
  rewrite Hit, fmap_app in Hw. by apply walk_suffix in Hw.
Qed.

(** A loop whose body keeps [R] and the items of the cache it runs over. *)
Lemma over_loop c (R : heap D -> (Z -> list Z) -> Prop) (body : node -> heap D -> exec (unit + heap D)) h items fuel :
  (forall h items, R h items -> is_list (h_links h) (NCache c) (NObj <$> items c)) ->
  (forall o h items, R h items -> o ∈ items c ->
    exists h' items', body (NObj o) h = Done (inr h') /\ R h' items' /\ items' c = items c) ->
  R h items -> (length (items c) <= fuel)%nat ->
  exists h' items', nl_list_for_each_entry (@h_links D) body fuel (NCache c) h = Done (inr h') /\
    R h' items' /\ items' c = items c.
Proof.
  intros HR Hb H0 Hf.
  rewrite (nl_list_for_each_entry_eq (@h_links D) body (NCache c) (over c R)
    (over_walk c R) fuel (NObj <$> items c)).
  - clear Hf. assert (forall l pre h items, R h items -> items c = pre ++ l -> exists h' items',
      loop_list body (NObj <$> l) h = Done (inr h') /\ R h' items' /\ items' c = items c) as Hg.
    { clear h items H0. induction l as [|o l IH]; intros pre h items HRh Hit; [by exists h, items|].
      destruct (Hb o h items HRh) as (h' & items' & He & HR' & Hi'); [rewrite Hit; set_solver|].
      destruct (IH (pre ++ [o]) h' items' HR') as (h2 & items2 & He2 & HR2 & Hi2).
      { rewrite <- app_assoc. by rewrite Hi'. }
      exists h2, items2. cbn [fmap list_fmap loop_list]. rewrite He. exec_simpl.
      split; [exact He2|]. split; [done|]. congruence. }
    by apply (Hg _ []).
  - intros n l s s' (it & pre & lz & Hl & Hit & HRs & Hli) He. destruct lz as [|o lz]; [done|].
    injection Hl as -> ->. destruct (Hb o s it HRs) as (h' & it' & He' & HR' & Hi'); [rewrite Hit; set_solver|].
    rewrite He' in He. injection He as <-. pose proof (HR _ _ HR') as Hl'.
    assert (over c R (NObj <$> lz) h') as Hov.
    { exists it', (pre ++ [o]), lz. split; [done|]. split; [by rewrite <- app_assoc, Hi'|]. by split. }
    split; [exact Hov|]. destruct (is_list_walk _ _ _ Hl') as [_ Hw].
    rewrite Hi', Hit, fmap_app in Hw. apply walk_suffix in Hw. by destruct Hw as (_ & Hn & _).
  - exists items, [], (items c). split; [done|]. split; [done|]. split; [done|by apply HR].
  - by apply HR.
  - by rewrite length_fmap.
Qed.

(** ** Copies *)

Lemma add_items_full (c1 c2 : bool) h items ext orig c test (f : nl_object D -> bool) :
  inv h items ext -> orig <> c -> is_Some (h_caches h !! orig) -> is_Some (h_caches h !! c) ->
  (forall obj, ce_ops obj <> 0 -> test obj = Done (f obj)) ->
  exists h' items', add_items ops_at cops_at zero c1 c2 h orig c test = Done h' /\ inv h' items' ext /\
    preserves h h' /\ (forall c', c' <> c -> items' c' = items c').
Proof.
  intros Hi Hne Ho Hc Ht. unfold add_items.
  set (body := fun (n : node) (h : heap D) => _).
  set (R := fun h' items' => inv h' items' ext /\ preserves h h' /\
              (forall c', c' <> c -> items' c' = items c')).
  assert (forall h' items', R h' items' -> is_Some (h_caches h' !! orig) /\ is_Some (h_caches h' !! c)) as Hex.
  { intros h' items' (_ & (Hv & _) & _). split; by apply (cache_exists_view h). }
  destruct (over_loop orig R body h items (loop_bound h)) as (h' & items' & -> & (H1 & H2 & H3) & _).
  - intros h' items' HR. destruct (Hex h' items' HR) as [[x Hx] _].
    apply (items_list h' items' ext orig x); [|done]. apply HR.
  - intros o h1 it1 HR Hin. destruct (Hex h1 it1 HR) as [_ [x Hx]]. destruct HR as (Hi1 & Hp1 & Hit1).
    pose proof (inv_wf _ _ _ Hi1) as Hw1. destruct (items_exist _ _ _ _ _ Hw1 Hin) as [obj Hobj].
    destruct (wf_obj _ _ _ Hw1 o obj Hobj) as (_ & Hp & _).
    unfold body. cbn [entry]. exec_simpl. rewrite (get_obj_done _ _ _ Hobj). exec_simpl.
    rewrite Ht by done. exec_simpl. destruct (f obj); [|by exists h1, it1].
    destruct (cache_add_full zero c1 c2 h1 it1 ext c x o obj Hi1 Hx Hobj)
      as (ret & h2 & it2 & -> & Hi2 & Hp2 & _ & Hr). exec_simpl.
    assert (forall c', c' <> c -> it2 c' = it1 c') as Hit2.
    { intros c' Hnc. destruct (ret =? 0); [|by subst]. destruct Hr as (n & -> & _).
      by apply set_items_ne. }
    exists h2, it2. split; [done|]. split; [|by apply Hit2]. split; [done|]. split.
    + by apply (preserves_trans h h1).
    + intros c' Hnc. rewrite Hit2 by done. by apply Hit1.
  - split; [done|]. by split.
  - unfold loop_bound. pose proof (items_bound _ _ _ orig (inv_wf _ _ _ Hi)). lia.
  - exec_simpl. by exists h', items'.
Qed.

Lemma mark_all_full h items ext c x :
  inv h items ext -> h_caches h !! c = Some x ->
  exists h', nl_cache_mark_all h c = Done h' /\ inv h' items ext /\ preserves h h' /\
    h_caches h' = h_caches h /\ dom (h_objs h') = dom (h_objs h).
Proof.
  intros Hi Hc. unfold nl_cache_mark_all. set (body := fun (n : node) (h : heap D) => _).
  set (R := fun h' items' => inv h' items ext /\ items' = items /\ preserves h h' /\
     h_caches h' = h_caches h /\ dom (h_objs h') = dom (h_objs h)).
  destruct (over_loop c R body h items (loop_bound h)) as (h' & items' & -> & (H1 & H2 & H3 & H4 & H5) & _).
  - intros h' items' (Hi' & -> & _ & Hcc & _). apply (items_list h' items ext c x); [apply Hi'|].
    by rewrite Hcc.
  - intros o h1 it1 (Hi1 & -> & Hp1 & Hcc & Hd) Hin.
    destruct (items_exist _ _ _ _ _ (inv_wf _ _ _ Hi1) Hin) as [obj Hobj].
    unfold body. cbn [entry]. exec_simpl. rewrite (get_obj_done _ _ _ Hobj). exec_simpl.
    eexists _, items. split; [done|]. split; [|done]. split; [by apply inv_flags|]. split; [done|].
    split; [|split; [done|]].
    + apply (preserves_trans h h1); [done|]. split; [done|]. intros o' _.
      by apply (kv_put_same h1 o obj).
    + simpl. rewrite dom_insert_L, <- Hd. assert (o ∈ dom (h_objs h1)) by (apply elem_of_dom; by eexists).
      set_solver.
  - split; [done|]. split; [done|]. by split.
  - unfold loop_bound. pose proof (items_bound _ _ _ c (inv_wf _ _ _ Hi)). lia.
  - exec_simpl. by exists h'.
Qed.
End CacheLife.
