(* ===== verification/CacheSync.v ===== *)
(** Keeping a cache in step with the kernel (cache_include, nl_cache_include and
    the pick-up callbacks of lib/cache.c): updating objects in place, and what a
    change notification does to a cache. *)
From S2P Require Import Prelude Errors NlList Object Cache CacheInv CacheOps CacheSpec.

Section CacheSync.
Context {D : Type} {EV : Env D} {EK : EnvOk EV} (zero : D).
Implicit Types (h : heap D) (o c : Z) (obj : nl_object D).

(** ** Updating an object in place *)

(** Private data that identifies the same object. *)
Definition body_equiv (p : Z) (b b' : body D) : Prop :=
  oo_keygen (ops_at p) <> None ->
  (forall d, identical_by (ops_at p) b' d = identical_by (ops_at p) b d) /\
  forall n, key_of p b' n = key_of p b n.

Lemma body_equiv_refl p b : body_equiv p b b.
Proof. done. Qed.

Lemma ident_update h o obj b' x y p bx :
  h_objs h !! o = Some obj -> body_equiv (ce_ops obj) (ce_body obj) b' ->
  let h' := put_obj h o (with_body obj b') in
  kv h x = Some (p, bx) -> p <> 0 -> oo_keygen (ops_at p) <> None -> ident h' x y -> ident h x y.
Proof.
  intros Ho He h' Hx Hp Hk (p' & a & d & K1 & K2 & K3).
  assert (forall z, kv h' z = if decide (z = o) then Some (ce_ops obj, b') else kv h z) as Hkv.
  { intros z. unfold kv, h'. simpl. case_decide as E; [subst; by rewrite lookup_insert_eq|].
    by rewrite lookup_insert_ne. }
  rewrite Hkv in K1, K2.
  assert (p' = p) as ->.
  { destruct (decide (x = o)) as [->|]; [|congruence]. rewrite (kv_some _ _ _ Ho) in Hx. congruence. }
  pose proof (ko_sym _ (kinds_ok p Hp)) as Hsym.
  (* replace the new data by the old one, on either side *)
  assert (exists a0, kv h x = Some (p, a0) /\ identical_by (ops_at p) a0 d = true) as (a0 & Ka & Ia).
  { destruct (decide (x = o)) as [->|]; [|by exists a]. exists (ce_body obj).
    injection K1 as Hpo Hb. rewrite (kv_some _ _ _ Ho), Hpo. split; [done|]. rewrite Hpo in He.
    destruct (He Hk) as [Hi _]. by rewrite <- Hi, Hb. }
  destruct (decide (y = o)) as [->|]; [|by exists p, a0, d].
  exists p, a0, (ce_body obj). injection K2 as Hpo Hb. rewrite (kv_some _ _ _ Ho), Hpo.
  split; [done|]. split; [done|]. rewrite Hpo in He. destruct (He Hk) as [Hi _].
  rewrite Hsym by done. rewrite <- Hi, Hb. by rewrite Hsym.
Qed.

Lemma inv_body h items ext o obj b' :
  inv h items ext -> h_objs h !! o = Some obj -> body_equiv (ce_ops obj) (ce_body obj) b' ->
  inv (put_obj h o (with_body obj b')) items ext.
Proof.
  intros [Hw Hix Hn] Ho He. set (h' := put_obj _ _ _).
  assert (forall z, kv h' z = if decide (z = o) then Some (ce_ops obj, b') else kv h z) as Hkv.
  { intros z. unfold kv, h'. simpl. case_decide as E; [subst; by rewrite lookup_insert_eq|].
    by rewrite lookup_insert_ne. }
  assert (forall kind t, kind <> 0 -> table_ok h kind t -> table_ok h' kind t) as Htab.
  { intros kind t Hkind (T1 & T2 & T3 & T4). do 3 (split; [done|]). intros k l Hl.
    destruct (T4 k l Hl) as [N1 N2]. split.
    - intros nd Hnd. destruct (N1 nd Hnd) as (b & Hb & Hkey). rewrite Hkv.
      destruct (decide (nd.2 = o)) as [E|]; [|by exists b].
      rewrite E, (kv_some _ _ _ Ho) in Hb. injection Hb as Hb1 Hb2. exists b'. rewrite Hb1.
      split; [done|]. rewrite Hb1 in He. destruct (He T3) as [_ Hke]. rewrite Hke. congruence.
    - clear Hl. assert (forall nd, nd ∈ l -> exists b, kv h nd.2 = Some (kind, b)) as Hkd.
      { intros nd Hnd. destruct (N1 nd Hnd) as (b & ? & _). by exists b. }
      clear N1. induction l as [|nd l IH]; [done|]. destruct N2 as [Na Nb]. split.
      + intros nd' Hin Hi. apply (Na nd' Hin). destruct (Hkd nd) as (b & Hb); [by left|].
        by apply (ident_update h o obj b' nd.2 nd'.2 kind b).
      + apply IH; [done|]. intros nd' Hin. apply Hkd. by right. }
  assert (forall c x, h_caches h !! c = Some x -> co_obj_ops (cops_at (c_ops x)) <> 0) as Hkinds.
  { intros c x Hc. destruct (wf_cache _ _ _ Hw c x Hc) as (_ & Hco & _).
    by destruct (caches_ok _ Hco). }
  split.
  - pose proof Hw as [W1 W2 W3 W4 W5 W6]. split; [| exact W2| | | |exact W6].
    + intros c x Hc. destruct (W1 c x Hc) as (? & ? & ? & Hk & Ht). do 3 (split; [done|]). split.
      * intros o' Hin. destruct (Hk o' Hin) as (b & Hb). rewrite Hkv.
        destruct (decide (o' = o)) as [->|]; [|by exists b]. rewrite (kv_some _ _ _ Ho) in Hb.
        exists b'. congruence.
      * intros t Htt. apply Htab; [by apply (Hkinds c x)|by apply Ht].
    + intros c o' Hin. destruct (W3 c o' Hin) as (y & Hy & Hyc). simpl.
      destruct (decide (o' = o)) as [->|]; [|rewrite lookup_insert_ne by done; by exists y].
      rewrite lookup_insert_eq. exists (with_body obj b'). split; [done|]. simpl. congruence.
    + intros o' y Hy. simpl in Hy. destruct (decide (o' = o)) as [->|].
      * rewrite lookup_insert_eq in Hy. injection Hy as <-. exact (W4 o obj Ho).
      * rewrite lookup_insert_ne in Hy by done. exact (W4 o' y Hy).
    + intros o' Hy. simpl in Hy. apply lookup_insert_None in Hy as [Hy _]. exact (W5 o' Hy).
  - intros c x Hc. destruct (Hix c x Hc) as [I1 I2]. split; [done|]. intros k o' Hin Hs.
    apply (I2 k o' Hin). unfold table_nodes in Hin. destruct (c_hashtable x) as [t|] eqn:Ht;
      [|by apply elem_of_nil in Hin].
    destruct (table_nodes_some h items ext c x t (k, o') Hw Hc Ht Hin) as (y & Hy & Hyk). simpl in Hy.
    destruct (wf_cache _ _ _ Hw c x Hc) as (_ & _ & _ & _ & Htb).
    destruct (Htb t Ht) as (_ & _ & Hkg & _).
    apply (ident_update h o obj b' o' o' (ce_ops y) (ce_body y)); try done.
    + by apply kv_some.
    + rewrite Hyk. by apply (Hkinds c x).
    + by rewrite Hyk.
  - exact Hn.
Qed.

(** nl_object_update keeps the identity whatever it returns. *)
Lemma update_done dst src :
  ce_ops dst <> 0 ->
  exists err b', nl_object_update ops_at dst src = Done (err, with_body dst b') /\
    body_equiv (ce_ops dst) (ce_body dst) b' /\
    (err, b') = match oo_update (ops_at (ce_ops dst)) with
                | Some f => f (ce_body dst) (ce_body src)
                | None => (- NLE_OPNOTSUPP, ce_body dst)
                end.
Proof.
  intros Hp. unfold nl_object_update. rewrite obj_ops_done by done. exec_simpl.
  destruct (oo_update (ops_at (ce_ops dst))) as [f|] eqn:Hf.
  - destruct (f (ce_body dst) (ce_body src)) as [err b'] eqn:E. exists err, b'. split; [done|].
    split; [|done]. intros Hk. unfold key_of.
    destruct (oo_keygen (ops_at (ce_ops dst))) as [g|] eqn:Hg; [|done].
    pose proof (ko_update _ (kinds_ok _ Hp) f g (ce_body dst) (ce_body src)) as Hu.
    rewrite E in Hu. simpl in Hu. split; intros; [by apply (Hu _ 0)|by apply (Hu (ce_body dst))].
  - exists (- NLE_OPNOTSUPP), (ce_body dst). split; [by destruct dst|]. by split.
Qed.

(** ** Change notifications *)

Definition update_of (dst src : nl_object D) : Z * body D :=
  match oo_update (ops_at (ce_ops dst)) with
  | Some f => f (ce_body dst) (ce_body src)
  | None => (- NLE_OPNOTSUPP, ce_body dst)
  end.

Definition diff_of (a b : nl_object D) : Z :=
  match oo_compare (ops_at (ce_ops a)) with
  | Some f => u64 (f (ce_body a) (ce_body b) UINT64_MAX 0)
  | None => UINT64_MAX
  end.

Lemma diff64_done a b :
  ce_ops a <> 0 -> ce_ops b = ce_ops a -> nl_object_diff64 ops_at a b = Done (diff_of a b).
Proof.
  intros Ha Hb. unfold nl_object_diff64. rewrite !obj_ops_done by congruence. exec_simpl.
  rewrite Hb, Z.eqb_refl. simpl. unfold diff_of. by destruct (oo_compare _).
Qed.

Definition moved (items : Z -> list Z) c o : Z -> list Z :=
  set_items (without items o) c (without items o c ++ [o]).

(** The clone of the old object for the second kind of callback. *)
Lemma include_clone (c1 : bool) h items ext od oldobj obj cb :
  inv h items ext -> h_objs h !! od = Some oldobj -> ce_ops obj = ce_ops oldobj ->
  exists clone diff h', (match cb, oo_update (ops_at (ce_ops oldobj)) with
      | ChangeV2, Some _ =>
          '(clone, h) ← nl_object_clone ops_at c1 zero h (Some od);
          diff ← nl_object_diff64 ops_at oldobj obj;
          mret (clone, diff, h)
      | _, _ => mret (None, 0, h)
      end) = Done (clone, diff, h') /\
    inv h' items (ext_opt ext clone) /\ h_caches h' = h_caches h /\
    (forall o', is_Some (h_objs h !! o') -> h_objs h' !! o' = h_objs h !! o') /\
    (forall n, clone = Some n -> h_objs h !! n = None /\ is_Some (h_objs h' !! n)) /\
    (cb <> ChangeV2 -> clone = None) /\
    (cb = ChangeV2 -> is_Some (oo_update (ops_at (ce_ops oldobj))) -> diff = diff_of oldobj obj).
Proof.
  intros Hi Ho Hk. pose proof (wf_obj _ _ _ (inv_wf _ _ _ Hi) od oldobj Ho) as (_ & Hp & _).
  assert (exists clone diff h', mret (None, 0, h) = Done (clone, diff, h') /\
    inv h' items (ext_opt ext clone) /\ h_caches h' = h_caches h /\
    (forall o', is_Some (h_objs h !! o') -> h_objs h' !! o' = h_objs h !! o') /\
    (forall n, clone = Some n -> h_objs h !! n = None /\ is_Some (h_objs h' !! n)) /\
    clone = None) as (cl & df & h' & Hr & H1 & H2 & H3 & H4 & H5) by (by exists None, 0, h).
  destruct cb; [by exists cl, df, h'|by exists cl, df, h'|].
  destruct (oo_update (ops_at (ce_ops oldobj))) as [f|].
  - destruct (clone_full zero c1 h items ext od oldobj Hi Ho) as (r & h2 & -> & Hi2 & Hc2 & Ho2 & Hn2).
    exec_simpl. rewrite diff64_done by (done || congruence). exec_simpl.
    by exists r, (diff_of oldobj obj), h2.
  - exists cl, df, h'. do 5 (split; [done|]). split; [done|]. by intros _ [? ?].
Qed.

(** What the callback is told when the old object was updated in place. *)
Definition updated_events (cb : change_cb) c od o (diff : Z) (evs : list change) : Prop :=
  match cb with
  | NoChange => evs = []
  | ChangeV1 => evs = [Changed c od NL_ACT_CHANGE]
  | ChangeV2 => exists clone, evs = [Changed2 c clone (Some o) diff NL_ACT_CHANGE]
  end.
Definition deleted_events (cb : change_cb) c od : list change :=
  match cb with
  | NoChange => []
  | ChangeV1 => [Changed c od NL_ACT_DEL]
  | ChangeV2 => [Changed2 c (Some od) None 0 NL_ACT_DEL]
  end.
Definition new_events (cb : change_cb) c o : list change :=
  match cb with
  | NoChange => []
  | ChangeV1 => [Changed c o NL_ACT_NEW]
  | ChangeV2 => [Changed2 c None (Some o) 0 NL_ACT_NEW]
  end.
Definition replaced_events (cb : change_cb) c od o (diff : Z) : list change :=
  match cb with
  | NoChange => []
  | ChangeV1 => if diff =? 0 then [] else [Changed c o NL_ACT_CHANGE]
  | ChangeV2 => if diff =? 0 then [] else [Changed2 c (Some od) (Some o) diff NL_ACT_CHANGE]
  end.

(** The old object is updated in place: everything after the search. *)
Lemma include_update h items ext c od oldobj obj o cb clone diff b' :
  inv h items (ext_opt (ext_add ext od 1) clone) -> h_objs h !! od = Some oldobj ->
  body_equiv (ce_ops oldobj) (ce_body oldobj) b' ->
  (forall n, clone = Some n -> n <> od /\ ext n = 0 /\ is_Some (h_objs h !! n)) ->
  (cb <> ChangeV2 -> clone = None) -> 0 <= ext od ->
  let h1 := put_obj h od (with_body oldobj b') in
  exists evs h', ('(events, h) ← (match cb with
      | ChangeV2 =>
          h ← nl_object_put ops_at h1 clone;
          mret ([Changed2 c clone (Some o) diff NL_ACT_CHANGE], h)
      | ChangeV1 => mret ([Changed c od NL_ACT_CHANGE], h1)
      | NoChange => mret ([], h1)
      end);
    h ← nl_object_put ops_at h (Some od);
    mret (true, events, h)) = Done (true, evs, h') /\
    inv h' items ext /\ h_caches h' = h_caches h /\ updated_events cb c od o diff evs /\
    (forall o', o' <> od -> Some o' <> clone -> h_objs h' !! o' = h_objs h !! o') /\
    (forall obj', h_objs h' !! od = Some obj' -> ce_body obj' = b').
Proof.
  intros Hi Ho Hb Hcl Hnv Hpos h1. pose proof (inv_body h items _ od oldobj b' Hi Ho Hb) as Hi1. fold h1 in Hi1.
  assert (forall n, clone = Some n -> ext_add ext od 1 n = 0 /\ is_Some (h_objs h1 !! n)) as Hcl1.
  { intros n Hn. destruct (Hcl n Hn) as (Hne & He & Hs). rewrite ext_add_ne by done. split; [done|].
    unfold h1. simpl. by rewrite lookup_insert_ne. }
  destruct (put_opt h1 items (ext_add ext od 1) clone Hi1 Hcl1) as (h2 & Hp2 & Hi2 & Hc2 & Ho2).
  assert (exists evs, (match cb with
      | ChangeV2 =>
          h ← nl_object_put ops_at h1 clone;
          mret ([Changed2 c clone (Some o) diff NL_ACT_CHANGE], h)
      | ChangeV1 => mret ([Changed c od NL_ACT_CHANGE], h1)
      | NoChange => mret ([], h1)
      end) = Done (evs, h2) /\ updated_events cb c od o diff evs) as (evs & -> & Hevs).
  { destruct cb; simpl.
    - rewrite (Hnv ltac:(done)) in Hp2. injection Hp2 as <-. by eexists.
    - rewrite (Hnv ltac:(done)) in Hp2. injection Hp2 as <-. by eexists.
    - rewrite Hp2. exec_simpl. eexists. split; [done|]. by eexists. }
  exec_simpl.
  assert (h_objs h2 !! od = Some (with_body oldobj b')) as Hod2.
  { rewrite Ho2; [unfold h1; simpl; by rewrite lookup_insert_eq|].
    intros Heq. by destruct (Hcl od (eq_sym Heq)) as (? & _). }
  destruct (inv_put h2 items (ext_add ext od 1) od _ Hi2 Hod2) as (h3 & -> & Hi3 & (S1 & S2 & S3 & S4) & Ho3).
  { rewrite ext_add_eq. lia. }
  exec_simpl. exists evs, h3. split; [done|]. split; [|split; [by rewrite S1, Hc2|split; [done|split]]].
  - apply (inv_ext _ _ (ext_add (ext_add ext od 1) od (-1))); [|done]. intros o'. by rewrite ext_add_back.
  - intros o' Hne Hnc. rewrite S3, Ho2 by done. unfold h1. simpl. by rewrite lookup_insert_ne.
  - intros obj' Hobj'. rewrite Ho3 in Hobj'. destruct (ce_refcnt _ =? 1); [done|]. by injection Hobj' as <-.
Qed.

(** What is known of an object that is still there. *)
Definition survives h h' o : Prop :=
  forall obj, h_objs h !! o = Some obj -> exists obj', h_objs h' !! o = Some obj' /\ kept obj obj'.

(** The outcome of [cache_include] for an object [o], by what the cache had. *)
Definition include_outcome h items c o obj act cb h' items' evs : Prop :=
  (exists od oldobj err b',
     od ∈ items c /\ h_objs h !! od = Some oldobj /\ same h od obj = true /\
     update_of oldobj obj = (err, b') /\
     if err =? 0 then
       items' = items /\ updated_events cb c od o (diff_of oldobj obj) evs /\
       exists od', h_objs h' !! od = Some od' /\ ce_body od' = b'
     else if act =? NL_ACT_DEL then
       (forall c', items' c' = without items od c') /\ evs = deleted_events cb c od
     else
       (forall c', items' c' = moved (without items od) c o c') /\
       evs = replaced_events cb c od o (diff_of (with_body oldobj b')
               (if decide (od = o) then with_body obj b' else obj)))
  \/
  ((forall y, y ∈ items c -> same h y obj = false) /\
   if act =? NL_ACT_DEL then items' = items /\ evs = []
   else (forall c', items' c' = moved items c o c') /\ evs = new_events cb c o).

(** Whether [cache_include] loses a reference: a new object is to be put into a
    table (nothing identical, or something identical that cannot be updated) and
    there is no node for it; the failure of [nl_cache_move] is ignored. *)
Definition include_keeps (c2 : bool) h c o (act : Z) : exec bool :=
  x ← get_cache h c;
  if (act =? NL_ACT_NEW) && node_missing c2 x then
    obj ← get_obj h o;
    '(old, _) ← nl_cache_search ops_at h c obj;
    match old with
    | None => mret true
    | Some od =>
        oldobj ← get_obj h od;
        '(err, _) ← nl_object_update ops_at oldobj obj;
        mret (negb (err =? 0))
    end
  else mret false.

(** The old object, already out of the cache, makes room for the new one. *)
Lemma include_replace (c2 : bool) h items ext c x od o a b cb :
  inv h items (ext_add ext od 1) -> 0 <= ext od -> h_caches h !! c = Some x ->
  h_objs h !! od = Some a -> h_objs h !! o = Some b ->
  ce_ops a = co_obj_ops (cops_at (c_ops x)) -> ce_ops b = co_obj_ops (cops_at (c_ops x)) ->
  (is_Some (c_hashtable x) -> forall y, y ∈ items c -> y <> o -> same h y b = false) ->
  exists h', ('(_, h) ← nl_cache_move ops_at cops_at c2 h c o;
      diff ← (match cb with
              | NoChange => mret 0
              | _ => a ← get_obj h od; b ← get_obj h o; nl_object_diff64 ops_at a b
              end);
      let events := if diff =? 0 then []
                    else match cb with
                         | ChangeV2 => [Changed2 c (Some od) (Some o) diff NL_ACT_CHANGE]
                         | ChangeV1 => [Changed c o NL_ACT_CHANGE]
                         | NoChange => []
                         end in
      h ← nl_object_put ops_at h (Some od);
      mret (0, events, h)) = Done (0, replaced_events cb c od o (diff_of a b), h') /\
    (if node_missing c2 x then inv h' (without items o) (ext_add ext o 1) else inv h' (moved items c o) ext) /\
    (forall c', cviews h' c' = cviews h c').
Proof.
  intros Hi Hpos Hc Ha Hb Hka Hkb Hno. pose proof (inv_wf _ _ _ Hi) as Hw.
  pose proof (wf_obj _ _ _ Hw od a Ha) as (_ & Hpa & _).
  destruct (move_full c2 h items _ c x o b Hi Hc Hb) as (ret & h1 & -> & _ & Hm).
  rewrite (proj2 (Z.eqb_eq _ _) (eq_sym Hkb)) in Hm. cbn [negb] in Hm.
  destruct Hm as (Hm & (L1 & L2 & L3) & (b1 & Hb1 & (B1 & B2 & B3 & B4) & _) & Hok & _).
  rewrite (Hok Hno) in Hm. exec_simpl.
  set (items1 := if node_missing c2 x then without items o else moved items c o).
  set (ext1 := if node_missing c2 x then ext_add ext o 1 else ext).
  assert (inv h1 items1 (ext_add ext1 od 1)) as Hm1.
  { unfold items1, ext1. destruct (node_missing c2 x); cbn [Z.eqb Z.opp] in Hm; [|exact Hm].
    apply (inv_ext _ _ (ext_add (ext_add ext od 1) o 1)); [|exact Hm]. intros z. unfold ext_add. repeat case_decide; lia. }
  assert (exists a1, h_objs h1 !! od = Some a1 /\ ce_ops a1 = ce_ops a /\ ce_body a1 = ce_body a)
    as (a1 & Ha1 & A1 & A2).
  { destruct (decide (od = o)) as [->|Hne].
    - assert (a = b) as -> by congruence. by exists b1.
    - rewrite <- L3 in Ha by done. by exists a. }
  assert (exists d, (match cb with
      | NoChange => mret 0
      | _ => a ← get_obj h1 od; b ← get_obj h1 o; nl_object_diff64 ops_at a b
      end) = Done d /\ (cb <> NoChange -> d = diff_of a b)) as (d & -> & Hd).
  { assert (diff_of a1 b1 = diff_of a b) as Hdd by (unfold diff_of; by rewrite A1, A2, B4).
    destruct cb; [by exists 0|..]; exists (diff_of a b); (split; [|done]);
      rewrite (get_obj_done _ _ _ Ha1); exec_simpl; rewrite (get_obj_done _ _ _ Hb1); exec_simpl;
      rewrite diff64_done by congruence; by rewrite Hdd. }
  exec_simpl.
  destruct (inv_put h1 _ (ext_add ext1 od 1) od a1 Hm1 Ha1) as (h2 & -> & Hi2 & (S1 & S2 & S3 & S4) & _).
  { rewrite ext_add_eq. unfold ext1. destruct (node_missing c2 x); unfold ext_add; repeat case_decide; lia. }
  exec_simpl. exists h2. split; [|split].
  - f_equal. f_equal. f_equal. destruct cb; simpl.
    + by destruct (d =? 0).
    + by rewrite Hd.
    + by rewrite Hd.
  - assert (inv h2 items1 ext1) as Hi3.
    { apply (inv_ext _ _ (ext_add (ext_add ext1 od 1) od (-1))); [|done]. intros o'. by rewrite ext_add_back. }
    unfold items1, ext1 in Hi3. by destruct (node_missing c2 x).
  - intros c'. unfold cviews. rewrite S1. exact (L1 c').
Qed.

(** The old object leaves the cache: the reference of the search stays. *)
Lemma include_remove h items ext c od oldobj clone b' :
  inv h items (ext_opt (ext_add ext od 1) clone) -> h_objs h !! od = Some oldobj ->
  body_equiv (ce_ops oldobj) (ce_body oldobj) b' ->
  (forall n, clone = Some n -> n <> od /\ ext n = 0 /\ is_Some (h_objs h !! n)) -> 0 <= ext od ->
  exists h', (h ← nl_object_put ops_at (put_obj h od (with_body oldobj b')) clone;
              nl_cache_remove ops_at h od) = Done h' /\
    inv h' (without items od) (ext_add ext od 1) /\ (forall c', cviews h' c' = cviews h c') /\
    (forall o', o' <> od -> Some o' <> clone -> h_objs h' !! o' = h_objs h !! o') /\
    exists od', h_objs h' !! od = Some od' /\ ce_ops od' = ce_ops oldobj /\ ce_body od' = b'.
Proof.
  intros Hi Ho Hb Hcl Hpos. set (h1 := put_obj h od _).
  pose proof (inv_body h items _ od oldobj b' Hi Ho Hb) as Hi1. fold h1 in Hi1.
  assert (forall n, clone = Some n -> ext_add ext od 1 n = 0 /\ is_Some (h_objs h1 !! n)) as Hcl1.
  { intros n Hn. destruct (Hcl n Hn) as (Hne & He & Hs). rewrite ext_add_ne by done. split; [done|].
    unfold h1. simpl. by rewrite lookup_insert_ne. }
  destruct (put_opt h1 items (ext_add ext od 1) clone Hi1 Hcl1) as (h2 & -> & Hi2 & Hc2 & Ho2). exec_simpl.
  assert (h_objs h2 !! od = Some (with_body oldobj b')) as Hod2.
  { rewrite Ho2; [unfold h1; simpl; by rewrite lookup_insert_eq|].
    intros Heq. by destruct (Hcl od (eq_sym Heq)) as (? & _). }
  destruct (remove_full h2 items _ od _ Hi2 Hod2) as (h3 & -> & Hi3 & (L1 & L2 & L3) & Hk & Hs).
  exists h3. split; [done|]. split; [done|]. split; [|split].
  - intros c'. rewrite L1. unfold cviews. by rewrite Hc2.
  - intros o' Hne Hnc. rewrite L3, Ho2 by done. unfold h1. simpl. by rewrite lookup_insert_ne.
  - destruct Hs as [od' Hod']; [rewrite ext_add_eq; lia|]. exists od'. split; [done|].
    destruct (Hk od' Hod') as [(K1 & K2 & K3 & K4) _]. by rewrite K1, K4.
Qed.

(** An item identical to what takes the old object's place is identical to the
    old object. *)
Lemma replaced_ident h y od z oldobj obj b' bb p :
  p <> 0 -> oo_keygen (ops_at p) <> None ->
  h_objs h !! y = Some z -> h_objs h !! od = Some oldobj -> ce_ops z = p -> ce_ops oldobj = p ->
  identical_by (ops_at p) (ce_body oldobj) (ce_body obj) = true ->
  body_equiv p (ce_body oldobj) b' -> bb = b' \/ bb = ce_body obj ->
  identical_by (ops_at p) (ce_body z) bb = true -> ident h y od.
Proof.
  intros Hp Hk Hz Ho Hzk Hok Hs He Hbb Hi. exists p, (ce_body z), (ce_body oldobj).
  rewrite (kv_some _ _ _ Hz), (kv_some _ _ _ Ho), Hzk, Hok. split; [done|]. split; [done|].
  pose proof (ko_sym _ (kinds_ok p Hp)) as Hsym. destruct Hbb as [-> | ->].
  - rewrite Hsym by done. destruct (He Hk) as [He1 _]. rewrite <- He1. by rewrite Hsym.
  - apply (ko_trans _ (kinds_ok p Hp) _ (ce_body obj)); [done|done|]. by rewrite Hsym.
Qed.

Lemma include_any (c1 c2 : bool) h items ext c x o obj act cb :
  inv h items ext -> h_caches h !! c = Some x -> h_objs h !! o = Some obj ->
  ce_ops obj = co_obj_ops (cops_at (c_ops x)) -> act = NL_ACT_NEW \/ act = NL_ACT_DEL ->
  exists evs h' items' keeps, cache_include ops_at cops_at zero c1 c2 h c o act cb = Done (0, evs, h') /\
    include_keeps c2 h c o act = Done keeps /\
    inv h' items' (if keeps then ext_add ext o 1 else ext) /\ (forall c', cviews h' c' = cviews h c') /\
    (node_missing c2 x = false -> include_outcome h items c o obj act cb h' items' evs).
Proof.
  intros Hi Hc Ho Hk Hact. pose proof (inv_wf _ _ _ Hi) as Hw.
  pose proof (wf_obj _ _ _ Hw o obj Ho) as (_ & Hp & _ & _ & _ & Heo & _).
  unfold cache_include.
  assert ((act =? NL_ACT_NEW) || (act =? NL_ACT_DEL) = true) as -> by (by destruct Hact as [-> | ->]).
  unfold include_keeps. rewrite (get_cache_done _ _ _ Hc).
  rewrite (get_obj_done _ _ _ Ho). exec_simpl.
  destruct (search_full h items ext c x obj Hi Hc Hp) as (r & h1 & -> & Hr). exec_simpl.
  destruct r as [od|].
  - destruct Hr as (Hod & Hsame & oldobj & Hold & -> & Hi1).
    pose proof (wf_obj _ _ _ Hw od oldobj Hold) as (_ & Hpo & _ & _ & _ & Hpos & _).
    set (old1 := with_refcnt oldobj _) in *. set (h1 := put_obj h od old1) in *.
    assert (h_objs h1 !! od = Some old1) as Hold1 by (unfold h1; simpl; by rewrite lookup_insert_eq).
    assert (forall o', o' <> od -> h_objs h1 !! o' = h_objs h !! o') as Hh1
      by (intros; unfold h1; simpl; by rewrite lookup_insert_ne).
    assert (ce_ops obj = ce_ops oldobj) as Hkk.
    { unfold same in Hsame. rewrite Hold in Hsame. by bool_hyps. }
    rewrite (get_obj_done _ _ _ Hold1). exec_simpl. rewrite obj_ops_done by done. exec_simpl.
    destruct (include_clone c1 h1 items _ od old1 obj cb Hi1 Hold1 Hkk)
      as (clone & diff & h2 & -> & Hi2 & Hc2 & Ho2 & Hn2 & Hnv & Hdiff). exec_simpl.
    destruct (update_done old1 obj Hpo) as (err & b' & -> & Hbe & Hup). exec_simpl.
    rewrite (get_obj_done _ _ _ Hold). exec_simpl.
    assert (exists x', nl_object_update ops_at oldobj obj = Done (err, x')) as (x' & ->).
    { destruct (update_done oldobj obj Hpo) as (err0 & b0 & -> & _ & Hup0). eexists.
      assert (err0 = err) as -> by (change (ce_ops oldobj) with (ce_ops old1) in Hup0;
        change (ce_body oldobj) with (ce_body old1) in Hup0; congruence). reflexivity. }
    exec_simpl.
    assert (h_objs h2 !! od = Some old1) as Hold2 by (by rewrite Ho2, Hold1 by by eexists).
    assert (forall n, clone = Some n -> n <> od /\ ext n = 0 /\ is_Some (h_objs h2 !! n)) as Hcl.
    { intros n Hn. destruct (Hn2 n Hn) as [Hf Hs]. assert (n <> od) as Hne by congruence.
      split; [done|]. split; [|done]. unfold h1 in Hf. simpl in Hf.
      rewrite lookup_insert_ne in Hf by done. by apply (wf_noobj _ _ _ Hw). }
    destruct (err =? 0) eqn:Herr.
    + destruct (include_update h2 items ext c od old1 obj o cb clone diff b' Hi2 Hold2 Hbe Hcl Hnv Hpos)
        as (evs & h3 & -> & Hi3 & Hc3 & Hev & _ & Hb3).
      exec_simpl. exists evs, h3, items, false. split; [done|]. split; [by destruct (_ && _)|]. split; [done|].
      split; [intros c'; unfold cviews; by rewrite Hc3, Hc2|]. intros _. left.
      exists od, oldobj, err, b'. split_and!; try done.
      rewrite Herr. split; [done|]. split.
      * destruct cb; simpl in *; [done..|]. destruct Hev as (cl & ->). exists cl.
        rewrite (Hdiff eq_refl); [done|]. change (ce_ops old1) with (ce_ops oldobj) in *.
        destruct (oo_update (ops_at (ce_ops oldobj))); [by eexists|].
        bool_hyps. injection Hup as Hup _. by rewrite Herr in Hup.
      * destruct (items_exist h3 items ext c od (inv_wf _ _ _ Hi3) Hod) as [od' Hod'].
        exists od'. split; [done|]. by apply Hb3.
    + destruct (include_remove h2 items ext c od old1 clone b' Hi2 Hold2 Hbe Hcl Hpos)
        as (h4 & Hrem & Hi4 & Hv4 & Ho4 & (od' & Hod' & Hko & Hbo)).
      destruct (nl_object_put ops_at (put_obj h2 od (with_body old1 b')) clone) as [h3| | |];
        try discriminate Hrem. exec_simpl. unfold mbind, exec_bind in Hrem. rewrite Hrem.
      exec_simpl. assert (forall c', cviews h4 c' = cviews h c') as Hv.
      { intros c'. rewrite Hv4. unfold cviews. by rewrite Hc2. }
      assert (update_of oldobj obj = (err, b')) as Hupd by (by rewrite Hup).
      destruct Hact as [-> | ->]; cbn [Z.eqb NL_ACT_NEW NL_ACT_DEL Pos.eqb].
      * exec_simpl.
        assert (exists x4, h_caches h4 !! c = Some x4 /\ c_ops x4 = c_ops x /\
          (is_Some (c_hashtable x4) <-> is_Some (c_hashtable x))) as (x4 & Hc4 & Hx4 & Hx4t).
        { pose proof (Hv c) as Hvc. unfold cviews in Hvc. rewrite Hc in Hvc.
          destruct (h_caches h4 !! c) as [x4|]; [|done]. exists x4. split; [done|].
          injection Hvc as V1 V2 V3 V4. split; [done|]. split; apply cview_table; unfold cview; congruence. }
        assert (ce_ops od' = ce_ops obj) as Hkd by (rewrite Hko; symmetry; exact Hkk).
        set (b := if decide (od = o) then with_body obj b' else obj).
        assert (exists b4, h_objs h4 !! o = Some b4 /\ ce_ops b4 = ce_ops obj /\ ce_body b4 = ce_body b)
          as (b4 & Hb4 & Hb4k & Hb4b).
        { unfold b. destruct (decide (od = o)) as [E|Hne].
          - subst o. exists od'. by split_and!.
          - exists obj. split; [|done]. rewrite Ho4; [|congruence|].
            + assert (o <> od) by congruence.
              rewrite (Ho2 o) by (rewrite Hh1 by done; by eexists). by rewrite Hh1.
            + intros Heq. destruct (Hn2 o (eq_sym Heq)) as [Hf _]. unfold h1 in Hf. simpl in Hf.
              rewrite lookup_insert_ne in Hf by done. congruence. }
        destruct (include_replace c2 h4 (without items od) ext c x4 od o od' b4 cb Hi4 Hpos Hc4 Hod' Hb4)
          as (h5 & Heq & Hi5 & Hv5); [congruence|congruence| |].
        { intros Hst y Hy _. apply list_elem_of_filter in Hy as [Hyn Hy].
          destruct (same h4 y b4) eqn:Hsy; [|done]. exfalso. apply Hyn.
          apply (items_distinct h items ext c x y od Hi Hc (proj1 Hx4t Hst) Hy Hod).
          destruct (items_exist _ _ _ c y Hw Hy) as [z Hz].
          assert (h_objs h4 !! y = Some z) as Hz4.
          { rewrite <- Hz, Ho4; [|done|].
            - rewrite (Ho2 y) by (rewrite Hh1 by done; by eexists). by rewrite Hh1.
            - intros Hq. destruct (Hn2 y (eq_sym Hq)) as [Hf _]. unfold h1 in Hf. simpl in Hf.
              rewrite lookup_insert_ne in Hf by done. congruence. }
          unfold same in Hsy. rewrite Hz4, Hb4k, Hb4b in Hsy. bool_hyps.
          assert (ce_ops z = ce_ops obj) as Hzk by done. rewrite Hzk in *.
          unfold same in Hsame. rewrite Hold in Hsame. bool_hyps. rewrite <- Hkk in *.
          destruct (wf_cache _ _ _ Hw c x Hc) as (_ & _ & _ & _ & Htb).
          destruct (proj1 Hx4t Hst) as [t Ht]. destruct (Htb t Ht) as (_ & _ & Hkg & _). rewrite <- Hk in Hkg.
          apply (replaced_ident h y od z oldobj obj b' (ce_body b) (ce_ops obj)); try done.
          - intros Hkg2. change (ce_ops old1) with (ce_ops oldobj) in Hbe. rewrite <- Hkk in Hbe.
            exact (Hbe Hkg2).
          - unfold b. destruct (decide (od = o)); [by left|by right]. }
        assert (node_missing c2 x4 = node_missing c2 x) as Hnm
          by (unfold node_missing; by rewrite (bool_decide_ext _ _ Hx4t)).
        cbv zeta in Heq. rewrite Heq. rewrite Hnm in Hi5.
        exists (replaced_events cb c od o (diff_of od' b4)), h5,
          (if node_missing c2 x then without (without items od) o else moved (without items od) c o), (node_missing c2 x).
        split; [done|]. split; [by destruct (node_missing c2 x)|]. split; [by destruct (node_missing c2 x)|].
        split; [intros c'; by rewrite Hv5, Hv|]. intros ->. left. exists od, oldobj, err, b'.
        split_and!; try done. rewrite Herr. split; [done|].
        f_equal. unfold diff_of. rewrite Hko, Hbo, Hb4b. done.
      * destruct (inv_put h4 _ (ext_add ext od 1) od od' Hi4 Hod') as (h5 & -> & Hi5 & (S1 & _) & _).
        { rewrite ext_add_eq. lia. }
        exec_simpl. exists (deleted_events cb c od), h5, (without items od), false.
        split; [by destruct cb|]. split; [done|]. split; [|split].
        -- apply (inv_ext _ _ (ext_add (ext_add ext od 1) od (-1))); [|done]. intros o'. by rewrite ext_add_back.
        -- intros c'. unfold cviews. rewrite S1. exact (Hv c').
        -- intros _. left. exists od, oldobj, err, b'. split_and!; try done. by rewrite Herr.
  - destruct Hr as [-> Hno]. exec_simpl. destruct Hact as [-> | ->]; cbn [Z.eqb NL_ACT_NEW NL_ACT_DEL Pos.eqb].
    + destruct (move_full c2 h items ext c x o obj Hi Hc Ho) as (ret & h' & -> & _ & Hm).
      rewrite (proj2 (Z.eqb_eq _ _) (eq_sym Hk)) in Hm. cbn [negb] in Hm.
      destruct Hm as (Hm & (L1 & L2 & L3) & _ & Hok & _).
      rewrite Hok in Hm by (intros _ y Hy _; by apply Hno).
      exec_simpl. exists (new_events cb c o), h',
        (if node_missing c2 x then without items o else moved items c o), (node_missing c2 x).
      split; [by destruct cb|]. split; [by destruct (node_missing c2 x)|].
      split; [by destruct (node_missing c2 x)|]. split; [done|]. intros ->. right. split; [done|]. done.
    + exists [], h, items, false. split_and!; try done. intros _. right. by split.
Qed.

Lemma include_full (c1 : bool) h items ext c x o obj act cb :
  inv h items ext -> h_caches h !! c = Some x -> h_objs h !! o = Some obj ->
  ce_ops obj = co_obj_ops (cops_at (c_ops x)) -> act = NL_ACT_NEW \/ act = NL_ACT_DEL ->
  exists evs h' items', cache_include ops_at cops_at zero c1 true h c o act cb = Done (0, evs, h') /\
    inv h' items' ext /\ (forall c', cviews h' c' = cviews h c') /\
    include_outcome h items c o obj act cb h' items' evs.
Proof.
  intros Hi Hc Ho Hk Ha. assert (node_missing true x = false) as Hn by (unfold node_missing; apply andb_false_r).
  destruct (include_any c1 true h items ext c x o obj act cb Hi Hc Ho Hk Ha)
    as (evs & h' & items' & keeps & H1 & H2 & H3 & H4 & H5).
  exists evs, h', items'. split; [done|]. split; [|split; [done|by apply H5]].
  unfold include_keeps in H2. rewrite (get_cache_done _ _ _ Hc) in H2. revert H2. exec_simpl.
  rewrite Hn, andb_false_r. by intros [= <-].
Qed.
End CacheSync.
