(* ===== verification/CacheOwn.v ===== *)
(** Ownership over every sequence of operations on objects and caches: what a
    client of lib/object.c and lib/cache.c may do, and that doing it never
    touches freed memory, never stops in BUG() and keeps every count exact. *)
From S2P Require Import Prelude Errors NlList Object Cache CacheInv CacheOps CacheSpec CacheLife CacheSync.

Section CacheOwn.
Context {D : Type} {EV : Env D} {EK : EnvOk EV} (zero : D).
Implicit Types (h : heap D) (o c : Z) (obj : nl_object D).

Lemma match_filter_done obj f :
  ce_ops obj <> 0 -> ce_ops f <> 0 -> exists b, nl_object_match_filter ops_at obj f = Done b.
Proof.
  intros H1 H2. unfold nl_object_match_filter. rewrite !obj_ops_done by done. exec_simpl.
  destruct (negb _); [by eexists|]. destruct (oo_compare _); by eexists.
Qed.

Lemma match_filter_fun f :
  ce_ops f <> 0 -> exists g : nl_object D -> bool, forall obj, ce_ops obj <> 0 ->
    nl_object_match_filter ops_at obj f = Done (g obj).
Proof.
  intros Hf. exists (fun obj => match nl_object_match_filter ops_at obj f with Done b => b | _ => false end).
  intros obj Ho. by destruct (match_filter_done obj f Ho Hf) as [b ->].
Qed.

Lemma find_full h items ext c x filter :
  inv h items ext -> h_caches h !! c = Some x -> ce_ops filter <> 0 ->
  exists r h', nl_cache_find ops_at h c filter = Done (r, h') /\ inv h' items (ext_opt ext r) /\
    h_caches h' = h_caches h /\ forall o, r = Some o -> o ∈ items c.
Proof.
  intros Hi Hc Hp. pose proof (inv_wf _ _ _ Hi) as Hw. unfold nl_cache_find.
  rewrite (get_cache_done _ _ _ Hc). exec_simpl.
  destruct (wf_cache _ _ _ Hw c x Hc) as (_ & Hco & _). rewrite (proj2 (Z.eqb_neq _ 0) Hco).
  unfold nl_object_get_id_attrs. rewrite obj_ops_done by done. exec_simpl.
  set (ids := match oo_id_attrs_get _ with Some g => _ | None => _ end).
  assert (exists r h', find_item h c (fun obj => nl_object_match_filter ops_at obj filter) = Done (r, h') /\
    inv h' items (ext_opt ext r) /\ h_caches h' = h_caches h /\ forall o, r = Some o -> o ∈ items c)
    as Hlist.
  { destruct (match_filter_fun filter Hp) as [g Hg].
    destruct (find_item_done h items ext c x (fun obj => nl_object_match_filter ops_at obj filter) g Hi Hc)
      as (r & h' & -> & Hr).
    { intros o obj Hin Ho. apply Hg. by destruct (wf_obj _ _ _ Hw o obj Ho) as (_ & ? & _). }
    exists r, h'. split; [done|]. destruct r as [o|].
    - destruct Hr as (l1 & l2 & obj & Hit & _ & _ & _ & -> & Hi'). split; [done|]. split; [done|].
      intros o' [= ->]. rewrite Hit. set_solver.
    - destruct Hr as [-> _]. done. }
  destruct (c_hashtable x) as [t|] eqn:Ht; [|done].
  destruct (ids =? ce_mask (ce_body filter)); [|done]. unfold __cache_fast_lookup.
  destruct (lookup_done h items ext c x t filter Hi Hc Ht Hp) as (r & -> & Hr). exec_simpl.
  destruct r as [o|]; [|by exists None, h]. destruct Hr as [Hin _].
  destruct (items_exist _ _ _ _ _ Hw Hin) as [obj Ho].
  destruct (get_spec h items ext o obj Hw Ho) as [-> _]. exec_simpl.
  eexists (Some o), _. split; [done|]. split; [|split; [done|by intros o' [= ->]]].
  pose proof (wf_obj _ _ _ Hw o obj Ho) as (_ & _ & _ & _ & _ & ? & ?).
  apply inv_refcnt; [done|done|lia|lia].
Qed.

(** The attributes of an object that no list and no table refers to. *)
Lemma inv_own_body h items ext o obj b :
  inv h items ext -> h_objs h !! o = Some obj -> ce_refcnt obj = ext o ->
  inv (put_obj h o (with_body obj b)) items ext.
Proof.
  intros [Hw Hix Hn] Ho Hr. set (h' := put_obj _ _ _).
  destruct (wf_obj _ _ _ Hw o obj Ho) as (_ & _ & _ & _ & Hcnt & _).
  pose proof (table_refs_nonneg (h_caches h) o) as Hnn.
  assert (table_refs (h_caches h) o = 0) as Ht0 by (destruct (ce_cache obj =? 0); lia).
  assert (forall z, z <> o -> kv h' z = kv h z) as Hkv.
  { intros z Hne. unfold kv, h'. simpl. by rewrite lookup_insert_ne. }
  assert (forall c x nd, h_caches h !! c = Some x -> nd ∈ table_nodes x -> nd.2 <> o) as Hnd.
  { intros c x nd Hc Hin <-. pose proof (table_refs_ge _ c x nd.2 Hc).
    pose proof (count_obj_pos _ _ Hin). lia. }
  split.
  - pose proof Hw as [W1 W2 W3 W4 W5 W6]. split; [| exact W2| | | |exact W6].
    + intros c x Hc. destruct (W1 c x Hc) as (? & ? & ? & Hk & Ht). do 3 (split; [done|]). split.
      * intros o' Hin. destruct (Hk o' Hin) as (b0 & Hb). destruct (decide (o' = o)) as [->|];
          [|exists b0; by rewrite Hkv]. rewrite (kv_some _ _ _ Ho) in Hb. exists b. unfold kv, h'. simpl.
        rewrite lookup_insert_eq. simpl. congruence.
      * intros t Htt. apply (table_ok_ext h); [|by apply Ht]. intros nd Hin. apply Hkv.
        apply (Hnd c x nd Hc). unfold table_nodes. by rewrite Htt.
    + intros c o' Hin. destruct (W3 c o' Hin) as (y & Hy & Hyc). simpl.
      destruct (decide (o' = o)) as [->|]; [|rewrite lookup_insert_ne by done; by exists y].
      rewrite lookup_insert_eq. exists (with_body obj b). split; [done|]. simpl. congruence.
    + intros o' y Hy. simpl in Hy. destruct (decide (o' = o)) as [->|].
      * rewrite lookup_insert_eq in Hy. injection Hy as <-. exact (W4 o obj Ho).
      * rewrite lookup_insert_ne in Hy by done. exact (W4 o' y Hy).
    + intros o' Hy. simpl in Hy. apply lookup_insert_None in Hy as [Hy _]. exact (W5 o' Hy).
  - intros c x Hc. destruct (Hix c x Hc) as [I1 I2]. split; [done|]. intros k o' Hin Hs.
    apply (I2 k o' Hin). pose proof (Hnd c x (k, o') Hc Hin) as Hne. simpl in Hne.
    destruct Hs as (p & b1 & b2 & K1 & K2 & K3). rewrite Hkv in K1, K2 by done. by exists p, b1, b2.
  - exact Hn.
Qed.

(** ** Clients *)

(** A client: the heap, and how many references to each object and to each cache
    are out, in no list and in no table: those the client was given and has not
    given back, and those that calls took and left with nobody (below). *)
Record client := Client { cl_heap : heap D; cl_objs : Z -> Z; cl_caches : Z -> Z }.

(** The calls; booleans are the outcomes of the allocations they make.  [ObjSet]
    stands for the setters of a kind of object, which write its mask and data. *)
Inductive call :=
| ObjAlloc (c1 : bool) (kind : Z)
| ObjClone (c1 : bool) (o : Z)
| ObjGet (o : Z)
| ObjPut (o : Z)
| ObjMark (o : Z)
| ObjUnmark (o : Z)
| ObjUpdate (dst src : Z)
| CacheAlloc (c1 c2 c3 : bool) (kind : Z)
| CacheGet (c : Z)
| CacheFree (c : Z)
| CacheAdd (c1 c2 : bool) (c o : Z)
| CacheMove (c1 : bool) (c o : Z)
| CacheRemove (o : Z)
| CacheClear (c : Z)
| CacheSearch (c o : Z)
| CacheFind (c o : Z)
| CacheSubset (a1 a2 a3 c1 c2 : bool) (c o : Z)
| CacheClone (a1 a2 a3 c1 c2 : bool) (c : Z)
| CacheMarkAll (c : Z)
| CacheInclude (c1 c2 : bool) (c o act : Z) (cb : change_cb)
| ObjSet (o : Z) (b : body D).

(** A move that fails for another reason than the kind of object keeps the
    reference it took for the list. *)
Definition move_keeps (ret : Z) : bool := negb ((ret =? 0) || (ret =? - NLE_OBJ_MISMATCH)).

(** The library's part of a call, and the references it gives to the client or
    takes from it.  A reference that a failed move keeps (the result of
    nl_cache_move, or that cache_include ignores) stays out; [lost_by] below tells
    which those are. *)
Definition run_call (w : client) (x : call) : exec client :=
  let h := cl_heap w in
  let objs := cl_objs w in
  let caches := cl_caches w in
  let with_h h := Client h objs caches in
  match x with
  | ObjAlloc c1 kind =>
      '(r, h) ← nl_object_alloc ops_at c1 zero h kind; mret (Client h (ext_opt objs r) caches)
  | ObjClone c1 o =>
      '(r, h) ← nl_object_clone ops_at c1 zero h (Some o); mret (Client h (ext_opt objs r) caches)
  | ObjGet o => h ← nl_object_get h o; mret (Client h (ext_add objs o 1) caches)
  | ObjPut o => h ← nl_object_put ops_at h (Some o); mret (Client h (ext_add objs o (-1)) caches)
  | ObjMark o => obj ← get_obj h o; mret (with_h (put_obj h o (nl_object_mark obj)))
  | ObjUnmark o => obj ← get_obj h o; mret (with_h (put_obj h o (nl_object_unmark obj)))
  | ObjUpdate dst src =>
      a ← get_obj h dst; b ← get_obj h src;
      '(_, a) ← nl_object_update ops_at a b; mret (with_h (put_obj h dst a))
  | CacheAlloc c1 c2 c3 kind =>
      let '(r, h) := nl_cache_alloc ops_at cops_at c1 c2 c3 h kind in
      mret (Client h objs (ext_opt caches r))
  | CacheGet c => h ← nl_cache_get h c; mret (Client h objs (ext_add caches c 1))
  | CacheFree c => h ← nl_cache_free ops_at h (Some c); mret (Client h objs (ext_add caches c (-1)))
  | CacheAdd c1 c2 c o => '(_, h) ← nl_cache_add ops_at cops_at zero c1 c2 h c o; mret (with_h h)
  | CacheMove c1 c o =>
      '(ret, h) ← nl_cache_move ops_at cops_at c1 h c o;
      mret (Client h (if move_keeps ret then ext_add objs o 1 else objs) caches)
  | CacheRemove o => h ← nl_cache_remove ops_at h o; mret (with_h h)
  | CacheClear c => h ← nl_cache_clear ops_at h c; mret (with_h h)
  | CacheSearch c o =>
      obj ← get_obj h o;
      '(r, h) ← nl_cache_search ops_at h c obj; mret (Client h (ext_opt objs r) caches)
  | CacheFind c o =>
      obj ← get_obj h o;
      '(r, h) ← nl_cache_find ops_at h c obj; mret (Client h (ext_opt objs r) caches)
  | CacheSubset a1 a2 a3 c1 c2 c o =>
      obj ← get_obj h o;
      '(r, h) ← nl_cache_subset ops_at cops_at zero a1 a2 a3 c1 c2 h c (Some obj);
      mret (Client h objs (ext_opt caches r))
  | CacheClone a1 a2 a3 c1 c2 c =>
      '(r, h) ← nl_cache_clone ops_at cops_at zero a1 a2 a3 c1 c2 h c;
      mret (Client h objs (ext_opt caches r))
  | CacheMarkAll c => h ← nl_cache_mark_all h c; mret (with_h h)
  | CacheInclude c1 c2 c o act cb =>
      keeps ← include_keeps c2 h c o act;
      '(_, _, h) ← cache_include ops_at cops_at zero c1 c2 h c o act cb;
      mret (Client h (if keeps : bool then ext_add objs o 1 else objs) caches)
  | ObjSet o b => obj ← get_obj h o; mret (with_h (put_obj h o (with_body obj b)))
  end.

(** The objects of which a call leaves a reference that nobody has: the library
    took it for a list the object never got into, and gives no one the means to
    put it back. *)
Definition lost_by (w : client) (x : call) : list Z :=
  let h := cl_heap w in
  match x with
  | CacheMove c1 c o =>
      match nl_cache_move ops_at cops_at c1 h c o with
      | Done (ret, _) => if move_keeps ret then [o] else []
      | _ => []
      end
  | CacheInclude _ c2 c o act _ =>
      match include_keeps c2 h c o act with Done true => [o] | _ => [] end
  | _ => []
  end.

(** The objects and caches a call names: those the client holds a reference to,
    and for objects also those in a list.  Attributes are set only on objects
    that the client alone holds. *)
Definition known (w : client) o : Prop :=
  0 < cl_objs w o \/ exists obj, h_objs (cl_heap w) !! o = Some obj /\ ce_cache obj <> 0.
Definition has_cache (w : client) c : Prop := 0 < cl_caches w c.

Definition same_kind (w : client) c o : Prop :=
  forall x obj, h_caches (cl_heap w) !! c = Some x -> h_objs (cl_heap w) !! o = Some obj ->
  ce_ops obj = co_obj_ops (cops_at (c_ops x)).

Definition call_ok (w : client) (x : call) : Prop :=
  match x with
  | ObjAlloc _ kind | CacheAlloc _ _ _ kind => kind <> 0
  | ObjClone _ o | ObjGet o | ObjMark o | ObjUnmark o | CacheRemove o => known w o
  | ObjPut o => 0 < cl_objs w o
  | ObjUpdate dst src => known w dst /\ known w src
  | CacheGet c | CacheFree c | CacheClear c | CacheMarkAll c | CacheClone _ _ _ _ _ c => has_cache w c
  | CacheAdd _ _ c o | CacheMove _ c o | CacheSearch c o | CacheFind c o
  | CacheSubset _ _ _ _ _ c o => has_cache w c /\ known w o
  | CacheInclude _ _ c o act _ => has_cache w c /\ known w o /\ same_kind w c o /\
      (act = NL_ACT_NEW \/ act = NL_ACT_DEL)
  | ObjSet o _ => exists obj, h_objs (cl_heap w) !! o = Some obj /\ ce_refcnt obj = cl_objs w o
  end.

(** The counts of caches. *)
Definition crefs_ok h (caches : Z -> Z) : Prop :=
  forall c, match h_caches h !! c with
            | Some x => c_refcnt x = caches c /\ 0 < caches c
            | None => caches c = 0
            end.

Definition client_inv (w : client) : Prop :=
  (exists items, inv (cl_heap w) items (cl_objs w)) /\ crefs_ok (cl_heap w) (cl_caches w).

Definition client_0 : client :=
  Client {| h_objs := ∅; h_caches := ∅; h_links := ∅; h_next := 1 |} (fun _ => 0) (fun _ => 0).

Lemma client_0_inv : client_inv client_0.
Proof.
  split; [|intros c; simpl; by rewrite lookup_empty]. exists (fun _ => []). split.
  - split; simpl.
    + intros c x Hc. by rewrite lookup_empty in Hc.
    + done.
    + intros c o Hin. by apply elem_of_nil in Hin.
    + intros o obj Ho. by rewrite lookup_empty in Ho.
    + intros o _. split; [done|]. unfold table_refs. by rewrite map_to_list_empty.
    + done.
  - intros c x Hc. simpl in Hc. by rewrite lookup_empty in Hc.
  - intros c x Hc. simpl in Hc. by rewrite lookup_empty in Hc.
Qed.

Lemma crefs_view h h' caches :
  (forall c, cviews h' c = cviews h c) -> crefs_ok h caches -> crefs_ok h' caches.
Proof.
  intros Hv Hc c. specialize (Hc c). specialize (Hv c). unfold cviews in Hv.
  destruct (h_caches h !! c) as [x|], (h_caches h' !! c) as [x'|]; try done.
  injection Hv as _ Hr _ _. by rewrite Hr.
Qed.

Lemma crefs_same h h' caches : h_caches h' = h_caches h -> crefs_ok h caches -> crefs_ok h' caches.
Proof. intros He Hc c. rewrite He. apply Hc. Qed.

Lemma known_exists w items o :
  inv (cl_heap w) items (cl_objs w) -> known w o -> exists obj, h_objs (cl_heap w) !! o = Some obj.
Proof.
  intros Hi [He|(obj & Ho & _)]; [|by exists obj].
  destruct (h_objs (cl_heap w) !! o) as [obj|] eqn:Ho; [by exists obj|].
  destruct (wf_noobj _ _ _ (inv_wf _ _ _ Hi) o Ho). lia.
Qed.

Lemma has_cache_exists w c :
  crefs_ok (cl_heap w) (cl_caches w) -> has_cache w c -> exists x, h_caches (cl_heap w) !! c = Some x.
Proof.
  intros Hc Hh. specialize (Hc c). unfold has_cache in Hh.
  destruct (h_caches (cl_heap w) !! c) as [x|]; [by exists x|lia].
Qed.

(** ** Every call keeps the invariant *)

Definition call_result (r : exec client) : Prop := exists w, r = Done w /\ client_inv w.

Lemma result_intro h objs caches items :
  inv h items objs -> crefs_ok h caches -> call_result (Done (Client h objs caches)).
Proof. intros Hi Hc. eexists. split; [done|]. split; [by exists items|done]. Qed.

Lemma cache_fields h items ext c x x' :
  inv h items ext -> h_caches h !! c = Some x -> c_ops x' = c_ops x ->
  c_hashtable x' = c_hashtable x -> c_nitems x' = c_nitems x -> inv (put_cache h c x') items ext.
Proof.
  intros [Hw Hix Hn] Hc Ho Ht Hni. split; [by apply (wf_cache_fields _ _ _ c x)| |].
  - intros c' y Hy. simpl in Hy. destruct (decide (c' = c)) as [->|Hne].
    + rewrite lookup_insert_eq in Hy. injection Hy as <-. destruct (Hix c x Hc) as [I1 I2].
      unfold table_nodes in *. rewrite Ht. by split.
    + rewrite lookup_insert_ne in Hy by done. exact (Hix c' y Hy).
  - intros c' y Hy. simpl in Hy. destruct (decide (c' = c)) as [->|Hne].
    + rewrite lookup_insert_eq in Hy. injection Hy as <-. rewrite Hni. exact (Hn c x Hc).
    + rewrite lookup_insert_ne in Hy by done. exact (Hn c' y Hy).
Qed.

Lemma obj_call_ok w x :
  match x with
  | ObjAlloc _ _ | ObjClone _ _ | ObjGet _ | ObjPut _ | ObjMark _ | ObjUnmark _ | ObjUpdate _ _
  | CacheRemove _ | ObjSet _ _ => True
  | _ => False
  end -> client_inv w -> call_ok w x -> call_result (run_call w x).
Proof.
  intros Hx [[items Hi] Hcr] Hok. pose proof (inv_wf _ _ _ Hi) as Hw. destruct w as [h objs caches].
  simpl in *. destruct x as [c1 kind|c1 o|o|o|o|o|dst src| | | | | |o| | | | | | | |o b]; try done; clear Hx;
    unfold run_call; cbn [cl_heap cl_objs cl_caches call_ok] in *.
  - destruct (alloc_done c1 zero h kind Hok) as (d & ->). destruct c1; exec_simpl.
    + destruct (inv_new_obj h items objs {| ce_refcnt := 1; ce_ops := kind; ce_cache := 0;
        ce_msgtype := 0; ce_flags := 0; ce_body := Body 0 d |} Hi) as [Hi1 _]; [done..|].
      by apply (result_intro _ _ _ items).
    + by apply (result_intro _ _ _ items).
  - destruct (known_exists (Client h objs caches) items o Hi Hok) as [obj Ho].
    destruct (clone_full zero c1 h items objs o obj Hi Ho) as (r & h' & -> & Hi' & Hc & _). exec_simpl.
    apply (result_intro _ _ _ items); [done|]. by apply (crefs_same h).
  - destruct (known_exists (Client h objs caches) items o Hi Hok) as [obj Ho]. simpl in Ho.
    destruct (get_spec h items objs o obj Hw Ho) as [-> _]. exec_simpl.
    pose proof (wf_obj _ _ _ Hw o obj Ho) as (_ & _ & _ & _ & _ & ? & ?).
    apply (result_intro _ _ _ items); [|done]. apply inv_refcnt; [done|done|lia|lia].
  - destruct (h_objs h !! o) as [obj|] eqn:Ho; [|destruct (wf_noobj _ _ _ Hw o Ho); lia].
    destruct (inv_put h items objs o obj Hi Ho Hok) as (h' & -> & Hi' & (Hc & _) & _). exec_simpl.
    apply (result_intro _ _ _ items); [done|]. by apply (crefs_same h).
  - destruct (known_exists (Client h objs caches) items o Hi Hok) as [obj Ho]. simpl in Ho.
    rewrite (get_obj_done _ _ _ Ho). exec_simpl.
    apply (result_intro _ _ _ items); [by apply inv_flags|done].
  - destruct (known_exists (Client h objs caches) items o Hi Hok) as [obj Ho]. simpl in Ho.
    rewrite (get_obj_done _ _ _ Ho). exec_simpl.
    apply (result_intro _ _ _ items); [by apply inv_flags|done].
  - destruct Hok as [Hd Hs]. destruct (known_exists (Client h objs caches) items dst Hi Hd) as [a Ha].
    destruct (known_exists (Client h objs caches) items src Hi Hs) as [b Hb]. simpl in Ha, Hb.
    rewrite (get_obj_done _ _ _ Ha). exec_simpl. rewrite (get_obj_done _ _ _ Hb). exec_simpl.
    destruct (wf_obj _ _ _ Hw dst a Ha) as (_ & Hp & _).
    destruct (update_done a b Hp) as (err & b' & -> & He & _). exec_simpl.
    apply (result_intro _ _ _ items); [by apply inv_body|done].
  - destruct (known_exists (Client h objs caches) items o Hi Hok) as [obj Ho]. simpl in Ho.
    destruct (remove_full h items objs o obj Hi Ho) as (h' & -> & Hi' & (Hv & _) & _). exec_simpl.
    apply (result_intro _ _ _ (without items o)); [done|]. by apply (crefs_view h).
  - destruct Hok as (obj & Ho & Hr). rewrite (get_obj_done _ _ _ Ho). exec_simpl.
    apply (result_intro _ _ _ items); [by apply (inv_own_body h items objs)|done].
Qed.

Lemma crefs_new h items ext x caches :
  wf h items ext -> crefs_ok h caches -> c_refcnt x = 1 ->
  crefs_ok (new_cache h x) (ext_add caches (h_next h) 1).
Proof.
  intros Hw Hc Hr c. simpl. pose proof (Hc (h_next h)) as Hn. rewrite (fresh_cache _ _ _ Hw) in Hn.
  destruct (decide (c = h_next h)) as [->|Hne].
  - rewrite lookup_insert_eq, ext_add_eq. lia.
  - rewrite lookup_insert_ne, ext_add_ne by done. apply Hc.
Qed.

Lemma free_call h items objs caches c x :
  inv h items objs -> crefs_ok h caches -> h_caches h !! c = Some x ->
  exists h', nl_cache_free ops_at h (Some c) = Done h' /\
    call_result (Done (Client h' objs (ext_add caches c (-1)))).
Proof.
  intros Hi Hcr Hc. pose proof (Hcr c) as Hcc. rewrite Hc in Hcc. destruct Hcc as [Hr Hp].
  unfold nl_cache_free. rewrite (get_cache_done _ _ _ Hc). exec_simpl. cbv zeta.
  set (h1 := put_cache h c (with_crefcnt x (c_refcnt x - 1))).
  assert (inv h1 items objs) as Hi1 by (by apply (cache_fields _ _ _ _ x)).
  destruct (c_refcnt x - 1 <=? 0) eqn:E; bool_hyps.
  - destruct (destroy_full h1 items objs c (with_crefcnt x (c_refcnt x - 1)) Hi1)
      as (h' & -> & Hi' & _ & Hnone & Hv & _); [unfold h1; simpl; by rewrite lookup_insert_eq|].
    exists h'. split; [done|]. apply (result_intro _ _ _ (set_items items c [])); [done|].
    intros c'. destruct (decide (c' = c)) as [->|Hne].
    + rewrite Hnone, ext_add_eq. lia.
    + rewrite ext_add_ne by done. specialize (Hv c' Hne). specialize (Hcr c'). unfold cviews in Hv.
      unfold h1 in Hv. simpl in Hv. rewrite lookup_insert_ne in Hv by done.
      destruct (h_caches h !! c') as [y|], (h_caches h' !! c') as [y'|]; try done.
      injection Hv as _ Hry _ _. by rewrite Hry.
  - exists h1. split; [done|]. apply (result_intro _ _ _ items); [done|]. intros c'. unfold h1. simpl.
    destruct (decide (c' = c)) as [->|Hne].
    + rewrite lookup_insert_eq, ext_add_eq. simpl. lia.
    + rewrite lookup_insert_ne, ext_add_ne by done. apply Hcr.
Qed.

Lemma subset_call (a1 a2 a3 c1 c2 : bool) h items objs caches c x test (f : nl_object D -> bool) :
  inv h items objs -> crefs_ok h caches -> h_caches h !! c = Some x ->
  (forall obj, ce_ops obj <> 0 -> test obj = Done (f obj)) ->
  call_result ('(r, h) ← (let '(c', h) := nl_cache_alloc ops_at cops_at a1 a2 a3 h (c_ops x) in
      match c' with
      | None => mret (None, h)
      | Some c' => h ← add_items ops_at cops_at zero c1 c2 h c c' test; mret (Some c', h)
      end); mret (Client h objs (ext_opt caches r))).
Proof.
  intros Hi Hcr Hc Ht. pose proof (inv_wf _ _ _ Hi) as Hw.
  destruct (wf_cache _ _ _ Hw c x Hc) as (Hlt & Hco & _).
  destruct (alloc_cache_spec a1 a2 a3 h items objs (c_ops x) Hi Hco) as (y & -> & Hi1 & _ & _ & Hr1 & _).
  destruct a1; exec_simpl; [|by apply (result_intro _ _ _ items)].
  destruct (add_items_full zero c1 c2 (new_cache h y) items objs c (h_next h) test f Hi1)
    as (h' & items' & -> & Hi' & (Hv & _) & _).
  - lia.
  - simpl. rewrite lookup_insert_ne by lia. by eexists.
  - simpl. rewrite lookup_insert_eq. by eexists.
  - done.
  - exec_simpl. apply (result_intro _ _ _ items'); [done|].
    apply (crefs_view (new_cache h y)); [done|]. by apply (crefs_new h items objs).
Qed.

Lemma cache_call_ok w x :
  match x with
  | CacheAlloc _ _ _ _ | CacheGet _ | CacheFree _ | CacheClear _ | CacheMarkAll _
  | CacheClone _ _ _ _ _ _ | CacheSubset _ _ _ _ _ _ _ => True
  | _ => False
  end -> client_inv w -> call_ok w x -> call_result (run_call w x).
Proof.
  intros Hx [[items Hi] Hcr] Hok. pose proof (inv_wf _ _ _ Hi) as Hw. destruct w as [h objs caches].
  destruct x as [| | | | | | |c1 c2 c3 kind|c|c| | | |c| | |a1 a2 a3 c1 c2 c o|a1 a2 a3 c1 c2 c|c| |];
    try done; clear Hx; unfold run_call; cbn [cl_heap cl_objs cl_caches call_ok] in *.
  - destruct (alloc_cache_spec c1 c2 c3 h items objs kind Hi Hok) as (y & -> & Hi1 & _ & _ & Hr1 & _).
    destruct c1; exec_simpl; apply (result_intro _ _ _ items); try done.
    by apply (crefs_new h items objs).
  - destruct (has_cache_exists (Client h objs caches) c Hcr Hok) as [x Hc]. simpl in Hc. unfold nl_cache_get.
    rewrite (get_cache_done _ _ _ Hc). exec_simpl.
    apply (result_intro _ _ _ items); [by apply (cache_fields _ _ _ _ x)|].
    intros c'. simpl. pose proof (Hcr c') as Hcc. simpl in Hcc. destruct (decide (c' = c)) as [->|Hne].
    + rewrite lookup_insert_eq, ext_add_eq. rewrite Hc in Hcc. simpl. lia.
    + by rewrite lookup_insert_ne, ext_add_ne by done.
  - destruct (has_cache_exists (Client h objs caches) c Hcr Hok) as [x Hc].
    destruct (free_call h items objs caches c x Hi Hcr Hc) as (h' & -> & Hr). exact Hr.
  - destruct (has_cache_exists (Client h objs caches) c Hcr Hok) as [x Hc].
    destruct (clear_full h items objs c x Hi Hc) as (h' & -> & Hi' & (Hv & _) & _). exec_simpl.
    apply (result_intro _ _ _ (set_items items c [])); [done|]. by apply (crefs_view h).
  - destruct Hok as [Hok Hko]. destruct (has_cache_exists (Client h objs caches) c Hcr Hok) as [x Hc].
    destruct (known_exists (Client h objs caches) items o Hi Hko) as [obj Ho]. simpl in Hc, Ho.
    rewrite (get_obj_done _ _ _ Ho). exec_simpl. unfold nl_cache_subset.
    rewrite (get_cache_done _ _ _ Hc). exec_simpl.
    destruct (wf_obj _ _ _ Hw o obj Ho) as (_ & Hp & _). destruct (match_filter_fun obj Hp) as [g Hg].
    by apply (subset_call a1 a2 a3 c1 c2 h items objs caches c x _ g).
  - destruct (has_cache_exists (Client h objs caches) c Hcr Hok) as [x Hc]. simpl in Hc.
    unfold nl_cache_clone, nl_cache_get_ops. rewrite (get_cache_done _ _ _ Hc). exec_simpl.
    by apply (subset_call a1 a2 a3 c1 c2 h items objs caches c x _ (fun _ => true)).
  - destruct (has_cache_exists (Client h objs caches) c Hcr Hok) as [x Hc].
    destruct (mark_all_full h items objs c x Hi Hc) as (h' & -> & Hi' & (Hv & _) & _). exec_simpl.
    apply (result_intro _ _ _ items); [done|]. by apply (crefs_view h).
Qed.

Lemma item_call_ok w x :
  match x with
  | CacheAdd _ _ _ _ | CacheMove _ _ _ | CacheSearch _ _ | CacheFind _ _ | CacheInclude _ _ _ _ _ _ => True
  | _ => False
  end -> client_inv w -> call_ok w x -> call_result (run_call w x).
Proof.
  intros Hx [[items Hi] Hcr] Hok. pose proof (inv_wf _ _ _ Hi) as Hw. destruct w as [h objs caches].
  assert (exists c o, has_cache (Client h objs caches) c /\ known (Client h objs caches) o /\
    match x with
    | CacheAdd _ _ c' o' | CacheMove _ c' o' | CacheSearch c' o' | CacheFind c' o'
    | CacheInclude _ _ c' o' _ _ => c' = c /\ o' = o
    | _ => False end) as (c & o & Hhc & Hko & Hco).
  { destruct x; try done; simpl in Hok; destruct Hok as (? & Hk); try destruct Hk as (? & _);
      by eexists _, _. }
  destruct (has_cache_exists (Client h objs caches) c Hcr Hhc) as [y Hc]. destruct (known_exists (Client h objs caches) items o Hi Hko) as [obj Ho].
  simpl in Hc, Ho. destruct (wf_obj _ _ _ Hw o obj Ho) as (_ & Hp & _).
  destruct x as [| | | | | | | | | |c1 c2 c' o'|c1 c' o'| | |c' o'|c' o'| | | |c1 c2 c' o' act cb|];
    try done; clear Hx; destruct Hco as [-> ->]; unfold run_call; cbn [cl_heap cl_objs cl_caches] in *.
  - destruct (cache_add_full zero c1 c2 h items objs c y o obj Hi Hc Ho)
      as (ret & h' & items' & -> & Hi' & (Hv & _) & _). exec_simpl.
    apply (result_intro _ _ _ items'); [done|]. by apply (crefs_view h).
  - destruct (move_full c1 h items objs c y o obj Hi Hc Ho) as (ret & h' & -> & Hle & Hm). exec_simpl.
    destruct (negb _).
    + destruct Hm as [-> ->]. by apply (result_intro _ _ _ items).
    + destruct Hm as (Hm & (Hv & _) & _ & _ & Hnm). pose proof (crefs_view h h' caches Hv Hcr) as Hcr'.
      unfold move_keeps. rewrite (proj2 (Z.eqb_neq ret (- NLE_OBJ_MISMATCH)) Hnm), orb_false_r.
      destruct (ret =? 0); by apply (result_intro _ _ _ _ Hm).
  - rewrite (get_obj_done _ _ _ Ho). exec_simpl.
    destruct (search_full h items objs c y obj Hi Hc Hp) as (r & h' & -> & Hr). exec_simpl.
    destruct r as [o'|].
    + destruct Hr as (_ & _ & z & Hz & -> & Hi'). by apply (result_intro _ _ _ items).
    + destruct Hr as [-> _]. by apply (result_intro _ _ _ items).
  - rewrite (get_obj_done _ _ _ Ho). exec_simpl.
    destruct (find_full h items objs c y obj Hi Hc Hp) as (r & h' & -> & Hi' & Hcc & _). exec_simpl.
    apply (result_intro _ _ _ items); [done|]. by apply (crefs_same h).
  - destruct Hok as (_ & _ & Hk & Hact).
    destruct (include_any zero c1 c2 h items objs c y o obj act cb Hi Hc Ho (Hk y obj Hc Ho) Hact)
      as (evs & h' & items' & keeps & -> & -> & Hi' & Hv & _). exec_simpl.
    apply (result_intro _ _ _ items'); [done|]. by apply (crefs_view h).
Qed.
End CacheOwn.
