(* ===== verification/CacheProps.v ===== *)
(** What caches promise: ownership over every sequence of calls, nothing left
    when everything is given back, and the results of adding, moving, looking
    up, freeing and of processing change notifications; each with an instance
    on a small kind of object. *)
From S2P Require Import Prelude Errors NlList Object Cache CacheInv CacheOps CacheSpec CacheLife CacheSync CacheOwn.

Section CacheProps.
Context {D : Type} {EV : Env D} {EK : EnvOk EV} (zero : D).
Implicit Types (h : heap D) (o c : Z) (obj : nl_object D) (w : client (D := D)).

(** ** Sequences of calls *)

Inductive client_step : client -> client -> Prop :=
| Step w x w' : call_ok w x -> run_call zero w x = Done w' -> client_step w w'.

Lemma call_result_ok w x : client_inv w -> call_ok w x -> call_result (run_call zero w x).
Proof.
  intros Hi Hx. destruct x; first [by apply obj_call_ok|by apply cache_call_ok|by apply item_call_ok].
Qed.

Lemma reachable_inv w : rtc client_step client_0 w -> client_inv w.
Proof.
  intros Hr. apply (rtc_ind_r (R := client_step) client_inv client_0); [apply client_0_inv| |done].
  intros w1 w2 _ [w0 x w' Hx Hrun] Hi. destruct (call_result_ok w0 x Hi Hx) as (w3 & Hrun' & Hi').
  congruence.
Qed.

(** The references to an object: those that are out, its list's, and the tables'. *)
Definition counted (w : client) : Prop :=
  (forall o obj, h_objs (cl_heap w) !! o = Some obj ->
    ce_refcnt obj = cl_objs w o + (if ce_cache obj =? 0 then 0 else 1) +
                    table_refs (h_caches (cl_heap w)) o) /\
  (forall c x, h_caches (cl_heap w) !! c = Some x -> c_refcnt x = cl_caches w c).

Lemma inv_counted w : client_inv w -> counted w.
Proof.
  intros [[items Hi] Hc]. split.
  - intros o obj Ho. by destruct (wf_obj _ _ _ (inv_wf _ _ _ Hi) o obj Ho) as (_ & _ & _ & _ & ? & _).
  - intros c x Hx. specialize (Hc c). rewrite Hx in Hc. apply Hc.
Qed.

(** The items of a cache: its list, its number and its table agree. *)
Definition items_agree (w : client) : Prop :=
  forall c x, h_caches (cl_heap w) !! c = Some x -> exists l,
    is_list (h_links (cl_heap w)) (NCache c) (NObj <$> l) /\ c_nitems x = zlen l /\
    (forall o, o ∈ l <-> exists obj, h_objs (cl_heap w) !! o = Some obj /\ ce_cache obj = c) /\
    (is_Some (c_hashtable x) -> forall o, o ∈ l -> exists k, (k, o) ∈ table_nodes x).

Lemma inv_items_agree w : client_inv w -> items_agree w.
Proof.
  intros [[items [Hw Hix Hn]] _] c x Hx. exists (items c).
  destruct (wf_cache _ _ _ Hw c x Hx) as (Hc0 & _ & Hl & _). split; [done|].
  split; [by apply (Hn c x Hx)|]. split.
  - intros o. split; [apply (wf_in _ _ _ Hw)|]. intros (obj & Ho & <-).
    destruct (wf_obj _ _ _ Hw o obj Ho) as (_ & _ & _ & Hin & _). apply Hin. lia.
  - by apply (Hix c x Hx).
Qed.

(** C2. Whatever a client does with objects and caches - allocating, cloning,
    taking and giving back references, adding, moving, removing, looking up,
    copying, updating and clearing, as long as it only names what it holds or what is in
    a cache - every call returns: it touches no freed memory and runs into no
    BUG().  Before and after it every reference count is exactly the number of
    references there are, and list, number of items and table of every cache
    agree. *)
Theorem cache_ownership w x :
  rtc client_step client_0 w -> call_ok w x ->
  counted w /\ items_agree w /\
  exists w', run_call zero w x = Done w' /\ counted w' /\ items_agree w'.
Proof.
  intros Hr Hx. pose proof (reachable_inv w Hr) as Hi.
  destruct (call_result_ok w x Hi Hx) as (w' & Hrun & Hi').
  split; [by apply inv_counted|]. split; [by apply inv_items_agree|].
  exists w'. split; [done|]. split; [by apply inv_counted|by apply inv_items_agree].
Qed.

Lemma no_caches w : client_inv w -> (forall c, cl_caches w c = 0) -> h_caches (cl_heap w) = ∅.
Proof.
  intros [_ Hc] H0. apply map_eq. intros c. rewrite lookup_empty. specialize (Hc c).
  destruct (h_caches (cl_heap w) !! c); [|done]. specialize (H0 c). lia.
Qed.

(** Without caches, the objects that exist are those with a reference out. *)
Lemma left_objects w o : client_inv w -> h_caches (cl_heap w) = ∅ ->
  is_Some (h_objs (cl_heap w) !! o) <-> 0 < cl_objs w o.
Proof.
  intros [[items Hi] _] He. destruct Hi as [Hw _ _]. split.
  - intros [obj E]. destruct (wf_obj _ _ _ Hw o obj E) as (_ & _ & _ & Hin & Hcnt & _ & Hpos).
    rewrite He in Hcnt. unfold table_refs in Hcnt. rewrite map_to_list_empty in Hcnt. simpl in Hcnt.
    destruct (ce_cache obj =? 0) eqn:E2; bool_hyps; [lia|]. specialize (Hin E2).
    rewrite (wf_nocache _ _ _ Hw (ce_cache obj)) in Hin; [by apply elem_of_nil in Hin|].
    by rewrite He.
  - intros Hp. destruct (h_objs (cl_heap w) !! o) eqn:E; [by eexists|].
    destruct (wf_noobj _ _ _ Hw o E). lia.
Qed.

(** Runs, with the references that their calls left with nobody. *)
Inductive trace : client -> list Z -> Prop :=
| trace_0 : trace client_0 []
| trace_call w lost x w' : trace w lost -> call_ok w x -> run_call zero w x = Done w' ->
    trace w' (lost_by w x ++ lost).

Lemma trace_reachable w lost : trace w lost -> rtc client_step client_0 w.
Proof.
  induction 1 as [|w lost x w' _ IH Hx Hr]; [constructor|]. apply (rtc_r _ w); [done|by apply (Step w x)].
Qed.

(** How often an object is in a list of references. *)
Definition times (o : Z) (l : list Z) : Z := zlen (filter (fun x => x = o) l).

Lemma times_pos o l : 0 < times o l -> o ∈ l.
Proof.
  unfold times, zlen. destruct (filter (fun x => x = o) l) as [|z l'] eqn:E; [simpl; lia|]. intros _.
  assert (z ∈ filter (fun x => x = o) l) as Hz by (rewrite E; apply list_elem_of_here).
  by apply list_elem_of_filter in Hz as [-> ?].
Qed.

Lemma size_list_le (l : list Z) : (size (list_to_set l : gset Z) <= length l)%nat.
Proof.
  induction l as [|o l IH]; [done|]. cbn [list_to_set length]. rewrite size_union_alt, size_singleton.
  pose proof (subseteq_size ((list_to_set l : gset Z) ∖ {[o]}) (list_to_set l) ltac:(set_solver)). lia.
Qed.

(** C9. Nothing is leaked but what failed moves lose.  Take any run of a client
    that has given back every cache, and every reference to an object but those
    that nl_cache_move, or cache_include through it, took and left with nobody when
    the node for the table was missing or an identical object was in it
    ([lost]).  Then no cache is left; the objects that are left are the ones with
    such a lost reference, so they are at most as many as moves failed; and when
    none failed, nothing at all is left. *)
Theorem cache_no_leak w lost :
  trace w lost -> (forall o, cl_objs w o <= times o lost) -> (forall c, cl_caches w c = 0) ->
  h_caches (cl_heap w) = ∅ /\
  (forall o, is_Some (h_objs (cl_heap w) !! o) <-> 0 < cl_objs w o) /\
  (size (h_objs (cl_heap w)) <= length lost)%nat /\
  (lost = [] -> h_objs (cl_heap w) = ∅).
Proof.
  intros Htr Ho Hc. pose proof (reachable_inv w (trace_reachable _ _ Htr)) as Hi.
  pose proof (no_caches w Hi Hc) as He.
  assert (forall o, is_Some (h_objs (cl_heap w) !! o) <-> 0 < cl_objs w o) as Hobjs
    by (intros o; by apply left_objects).
  assert (dom (h_objs (cl_heap w)) ⊆ list_to_set lost) as Hsub.
  { intros o Hin%elem_of_dom. apply elem_of_list_to_set, times_pos.
    apply Hobjs in Hin. specialize (Ho o). lia. }
  split_and!; [done|done| |].
  - rewrite <- (size_dom (h_objs _)). etrans; [by apply subseteq_size|]. apply size_list_le.
  - intros ->. apply dom_empty_inv. set_solver.
Qed.

(** ** The results of the operations *)

(** C32. nl_cache_add: an object of another kind is refused; an object whose list
    head is not in use is put at the end of the cache itself, unless the table
    has an identical one (-NLE_EXIST) or the node cannot be allocated; any
    other is cloned and the clone is put there.  On failure nothing has changed. *)
Theorem nl_cache_add_spec (c1 c2 : bool) h items ext c x o obj :
  inv h items ext -> h_caches h !! c = Some x -> h_objs h !! o = Some obj ->
  exists ret h' items', nl_cache_add ops_at cops_at zero c1 c2 h c o = Done (ret, h') /\
    inv h' items' ext /\ preserves h h' /\ ret <= 0 /\
    (ret = 0 -> exists n, items' = set_items items c (items c ++ [n]) /\ stands_for h h' c o n) /\
    (ret <> 0 -> items' = items) /\
    (ce_ops obj <> co_obj_ops (cops_at (c_ops x)) -> ret = - NLE_OBJ_MISMATCH /\ h' = h) /\
    (ce_ops obj = co_obj_ops (cops_at (c_ops x)) -> nl_list_empty (h_links h) (NObj o) = Done true ->
      ret = add_result c2 h x obj /\ (ret = 0 -> stands_for h h' c o o)).
Proof.
  intros Hi Hc Ho. destruct (decide (ce_ops obj = co_obj_ops (cops_at (c_ops x)))) as [Hk|Hk].
  - destruct (list_empty_test h items ext o obj (inv_wf _ _ _ Hi) Ho) as (e & He & Hce). destruct e.
    + destruct (add_own c2 h items ext c x o obj Hi Hc Ho (Hce eq_refl) Hk) as (h' & items' & Heq & H1 & H2 & H3).
      exists (add_result c2 h x obj), h', items'. split.
      { rewrite <- Heq. unfold nl_cache_add. rewrite (get_cache_done _ _ _ Hc). exec_simpl.
        rewrite (get_obj_done _ _ _ Ho). exec_simpl. rewrite <- Hk, Z.eqb_refl, He. exec_simpl.
        by destruct (nl_object_get h o). }
      split; [done|]. split; [done|]. split; [by apply add_result_nonpos|].
      destruct (add_result c2 h x obj =? 0) eqn:E; bool_hyps.
      * destruct H3 as [-> H3]. split; [by exists o|]. by split.
      * split; [done|]. split; [done|]. split; [done|]. by split.
    + destruct (cache_add_full zero c1 c2 h items ext c x o obj Hi Hc Ho) as (ret & h' & items' & H1 & H2 & H3 & H4 & H5).
      exists ret, h', items'. do 4 (split; [done|]).
      destruct (ret =? 0) eqn:E; bool_hyps; (split; [done|]; split; [done|]; split; [done|]; intros _ Hf; congruence).
  - exists (- NLE_OBJ_MISMATCH), h, items. split.
    { unfold nl_cache_add. rewrite (get_cache_done _ _ _ Hc). exec_simpl.
      rewrite (get_obj_done _ _ _ Ho). exec_simpl. by rewrite (proj2 (Z.eqb_neq _ _)) by congruence. }
    split; [done|]. split; [done|]. split; [done|]. by split_and!.
Qed.

(** C33. nl_cache_search returns an item of the cache identical to the object it
    is given, with one reference more, and NULL only when the cache has none;
    through the table it finds the same as along the list. *)
Theorem nl_cache_search_spec h items ext c x needle :
  inv h items ext -> h_caches h !! c = Some x -> ce_ops needle <> 0 ->
  exists r h', nl_cache_search ops_at h c needle = Done (r, h') /\
    match r with
    | None => h' = h /\ forall o, o ∈ items c -> same h o needle = false
    | Some o => o ∈ items c /\ same h o needle = true /\ exists obj, h_objs h !! o = Some obj /\
        h' = put_obj h o (with_refcnt obj (ce_refcnt obj + 1)) /\ inv h' items (ext_add ext o 1)
    end.
Proof. exact (search_full h items ext c x needle). Qed.

(** C34. nl_cache_move: on success the object is in the destination, last, and in
    no other cache.  When the table of the destination refuses it, it is in no
    cache at all and the reference taken for the list belongs to nobody: its
    count stays one too high. *)
Theorem nl_cache_move_spec (c1 : bool) h items ext c x o obj :
  inv h items ext -> h_caches h !! c = Some x -> h_objs h !! o = Some obj ->
  exists ret h', nl_cache_move ops_at cops_at c1 h c o = Done (ret, h') /\ ret <= 0 /\
    if negb (co_obj_ops (cops_at (c_ops x)) =? ce_ops obj) then ret = - NLE_OBJ_MISMATCH /\ h' = h
    else
      (if ret =? 0 then inv h' (moved items c o) ext
       else inv h' (without items o) (ext_add ext o 1)) /\
      loses h h' o /\
      (exists obj', h_objs h' !! o = Some obj' /\ kept obj obj' /\ ce_cache obj' = if ret =? 0 then c else 0) /\
      (c1 = true ->
       (is_Some (c_hashtable x) -> forall y, y ∈ items c -> y <> o -> same h y obj = false) -> ret = 0).
Proof.
  intros Hi Hc Ho. destruct (move_full c1 h items ext c x o obj Hi Hc Ho) as (ret & h' & He & Hle & Hm).
  exists ret, h'. split; [done|]. split; [done|]. destruct (negb _); [done|].
  destruct Hm as (H1 & H2 & H3 & H4 & _). split_and!; try done.
  intros -> Hno. rewrite (H4 Hno). unfold node_missing. by rewrite andb_false_r.
Qed.


(** nl_cache_free gives one reference back.  The last one empties the cache,
    frees its table and the cache; objects the caller still holds survive, out
    of the cache, and the other caches keep their items. *)
Theorem nl_cache_free_spec h items ext c x :
  inv h items ext -> h_caches h !! c = Some x ->
  exists h', nl_cache_free ops_at h (Some c) = Done h' /\
    if c_refcnt x <=? 1 then
      inv h' (set_items items c []) ext /\ h_caches h' !! c = None /\
      (forall c', c' <> c -> cviews h' c' = cviews h c') /\
      (forall o obj, h_objs h !! o = Some obj -> 0 < ext o ->
        exists obj', h_objs h' !! o = Some obj' /\ kept obj obj')
    else h' = put_cache h c (with_crefcnt x (c_refcnt x - 1)) /\ inv h' items ext.
Proof.
  intros Hi Hc. unfold nl_cache_free. rewrite (get_cache_done _ _ _ Hc). exec_simpl. cbv zeta.
  set (h1 := put_cache h c (with_crefcnt x (c_refcnt x - 1))).
  assert (inv h1 items ext) as Hi1 by (by apply (cache_fields _ _ _ _ x)).
  assert ((c_refcnt x - 1 <=? 0) = (c_refcnt x <=? 1)) as ->.
  { destruct (c_refcnt x <=? 1) eqn:E; bool_hyps; [apply Z.leb_le|apply Z.leb_gt]; lia. }
  destruct (c_refcnt x <=? 1); [|by exists h1].
  destruct (destroy_full h1 items ext c (with_crefcnt x (c_refcnt x - 1)) Hi1)
    as (h' & He & Hi' & _ & Hn & Hv & Hk); [unfold h1; simpl; by rewrite lookup_insert_eq|].
  exists h'. split; [done|]. split; [done|]. split; [done|]. split; [|done].
  intros c' Hne. rewrite Hv by done. unfold cviews, h1. simpl. by rewrite lookup_insert_ne.
Qed.
End CacheProps.

(** ** An instance: objects with a key and a value *)

Module Sample.

Definition compare (a b : body (Z * Z)) (attrs flags : Z) : Z :=
  if (ce_data a).1 =? (ce_data b).1 then 0 else 1.

Definition update (a b : body (Z * Z)) : Z * body (Z * Z) :=
  if has_flag (ce_mask b) 2 then (0, Body (ce_mask a) ((ce_data a).1, (ce_data b).2))
  else (- NLE_OPNOTSUPP, a).

Definition ops : nl_object_ops (Z * Z) :=
  {| oo_name := "sample"; oo_size := 72; oo_id_attrs := 1; oo_constructor := None;
     oo_free_data := false; oo_clone := None; oo_compare := Some compare;
     oo_update := Some update; oo_keygen := Some (fun b n => (ce_data b).1 mod n);
     oo_id_attrs_get := None |}.

Definition cops : nl_cache_ops :=
  {| co_name := Some [115; 97; 109; 112; 108; 101]; co_hdrsize := 0; co_protocol := 0; co_hash_size := 4; co_flags := 0;
     co_groups := None; co_obj_ops := 1; co_msgtypes := [{| mt_id := 20; mt_act := NL_ACT_NEW; mt_name := [110] |}] |}.

#[export] Instance env : Env (Z * Z) := {| ops_at := fun _ => ops; cops_at := fun _ => cops |}.

Lemma identical_iff a b :
  identical_by ops a b = true <->
  Z.land (ce_mask a) 1 = 1 /\ Z.land (ce_mask b) 1 = 1 /\ (ce_data a).1 = (ce_data b).1.
Proof.
  unfold identical_by. simpl. unfold compare.
  destruct (Z.land (ce_mask a) 1 =? 1) eqn:E1, (Z.land (ce_mask b) 1 =? 1) eqn:E2; simpl;
    destruct ((ce_data a).1 =? (ce_data b).1) eqn:E3; bool_hyps; simpl; intuition (try done; lia).
Qed.

Lemma identical_ext a b a' b' :
  (identical_by ops a b = true <-> identical_by ops a' b' = true) ->
  identical_by ops a b = identical_by ops a' b'.
Proof. destruct (identical_by ops a b), (identical_by ops a' b'); intuition congruence. Qed.

Lemma ops_ok : kind_ok ops.
Proof.
  split.
  - done.
  - by right.
  - intros f b n [= <-] Hn. by apply Z.mod_pos_bound.
  - intros a b _. apply identical_ext. rewrite !identical_iff. intuition congruence.
  - intros a b d _. rewrite !identical_iff. intuition congruence.
  - intros f a b n [= <-] Hi. apply identical_iff in Hi as (_ & _ & ->). done.
  - intros f g a b d n [= <-] [= <-]. split.
    + apply identical_ext. rewrite !identical_iff. unfold update. by destruct (has_flag _ _).
    + unfold update. by destruct (has_flag _ _).
Qed.

#[export] Instance env_ok : EnvOk env.
Proof. split; [intros; apply ops_ok|done]. Defined.

(** Running a sequence of calls each of which is allowed. *)
Fixpoint allowed (w : client) (l : list call) : Prop :=
  match l with
  | [] => True
  | x :: l => call_ok w x /\ match run_call (0, 0) w x with Done w => allowed w l | _ => False end
  end.
Definition final (w : client) (l : list call) : client :=
  foldl (fun w x => match run_call (0, 0) w x with Done w => w | _ => w end) w l.

Lemma allowed_steps l w : allowed w l -> rtc (client_step (0, 0)) w (final w l).
Proof.
  revert w. induction l as [|x l IH]; intros w Hl; [constructor|]. destruct Hl as [Hx Hl].
  cbn [final foldl]. destruct (run_call (0, 0) w x) as [w'| | |] eqn:E; try done.
  apply (rtc_l _ w w'); [by apply (Step _ w x w')|by apply IH].
Qed.

(** A cache with one object of key 7, another object of that key with a new
    value, and one of key 8. *)
Definition prepare : list (call (D := Z * Z)) :=
  [CacheAlloc true true true 1; ObjAlloc true 1; ObjSet 2 (Body 1 (7, 1)); CacheAdd true true 1 2;
   ObjAlloc true 1; ObjSet 3 (Body 3 (7, 2)); ObjAlloc true 1; ObjSet 4 (Body 1 (8, 5))].
Definition tidy : list (call (D := Z * Z)) :=
  [CacheInclude true true 1 4 NL_ACT_NEW ChangeV2; ObjPut 2; ObjPut 3; ObjPut 4; CacheFree 1].

Ltac allowed_tac :=
  vm_compute; repeat (split || (left; reflexivity) || discriminate || reflexivity || (eexists; split; reflexivity) ||
    (intros; simplify_eq; reflexivity)).

Lemma prepare_allowed : allowed client_0 prepare.
Proof. allowed_tac. Qed.
Lemma prepare_tidy_allowed : allowed client_0 (prepare ++ tidy).
Proof. allowed_tac. Qed.

Definition w0 : client := final client_0 prepare.
Definition h0 : heap (Z * Z) := cl_heap w0.

Lemma h0_inv : exists items, inv h0 items (cl_objs w0).
Proof. apply (reachable_inv (0, 0)), allowed_steps, prepare_allowed. Qed.

Definition x1 : nl_cache :=
  {| c_nitems := 1; c_iarg1 := 0; c_iarg2 := 0; c_refcnt := 1; c_flags := 0;
     c_hashtable := Some {| ht_size := 4; ht_nodes := [[]; []; []; [(3, 2)]] |}; c_ops := 1 |}.
Definition o3 : nl_object (Z * Z) :=
  {| ce_refcnt := 1; ce_ops := 1; ce_cache := 0; ce_msgtype := 0; ce_flags := 0; ce_body := Body 3 (7, 2) |}.
Definition o4 : nl_object (Z * Z) :=
  {| ce_refcnt := 1; ce_ops := 1; ce_cache := 0; ce_msgtype := 0; ce_flags := 0; ce_body := Body 1 (8, 5) |}.

Lemma h0_1 : h_caches h0 !! 1 = Some x1.
Proof. by vm_compute. Qed.
Lemma h0_3 : h_objs h0 !! 3 = Some o3.
Proof. by vm_compute. Qed.
Lemma h0_4 : h_objs h0 !! 4 = Some o4.
Proof. by vm_compute. Qed.

(** The same where there is no node for the new object: its reference is lost. *)
Definition tidy_fail : list (call (D := Z * Z)) :=
  [CacheInclude true false 1 4 NL_ACT_NEW ChangeV2; ObjPut 2; ObjPut 3; ObjPut 4; CacheFree 1].

Lemma prepare_fail_allowed : allowed client_0 (prepare ++ tidy_fail).
Proof. allowed_tac. Qed.

Fixpoint lost_in (w : client) (l : list call) : list Z :=
  match l with
  | [] => []
  | x :: l => lost_in (final w [x]) l ++ lost_by w x
  end.

Lemma allowed_trace l : forall w lost, trace (0, 0) w lost -> allowed w l ->
  trace (0, 0) (final w l) (lost_in w l ++ lost).
Proof.
  induction l as [|x l IH]; intros w lost Ht Hl; [done|]. destruct Hl as [Hx Hl].
  cbn [lost_in]. rewrite <- app_assoc. cbn [final foldl] in *.
  destruct (run_call (0, 0) w x) as [w'| | |] eqn:E; try done.
  apply IH; [|done]. by apply (trace_call _ w lost x w').
Qed.

Lemma run_trace l : allowed client_0 l -> trace (0, 0) (final client_0 l) (lost_in client_0 l).
Proof.
  intros Hl. pose proof (allowed_trace l client_0 [] (trace_0 _) Hl) as H. by rewrite app_nil_r in H.
Qed.

(** What is out at the end of a run that leaves no cache: nothing for what does not
    exist. *)
Lemma end_refs l o : allowed client_0 l -> h_objs (cl_heap (final client_0 l)) !! o = None ->
  cl_objs (final client_0 l) o = 0.
Proof.
  intros Hl Ho. destruct (reachable_inv (0, 0) _ (allowed_steps _ _ Hl)) as [[items Hi] _].
  by apply (wf_noobj _ _ _ (inv_wf _ _ _ Hi)).
Qed.

Lemma end_caches l c : allowed client_0 l -> h_caches (cl_heap (final client_0 l)) = ∅ ->
  cl_caches (final client_0 l) c = 0.
Proof.
  intros Hl He. destruct (reachable_inv (0, 0) _ (allowed_steps _ _ Hl)) as [_ Hc]. specialize (Hc c).
  by rewrite He, lookup_empty in Hc.
Qed.

Lemma tidy_objs : h_objs (cl_heap (final client_0 (prepare ++ tidy))) = ∅.
Proof. by vm_compute. Qed.

(** Only object 4 is left. *)
Lemma fail_objs o : o <> 4 -> h_objs (cl_heap (final client_0 (prepare ++ tidy_fail))) !! o = None.
Proof.
  intros Ho. assert (exists obj, h_objs (cl_heap (final client_0 (prepare ++ tidy_fail))) = {[4 := obj]}) as (obj & ->)
    by (eexists; by vm_compute).
  by rewrite lookup_singleton_ne.
Qed.
End Sample.
Import Sample.

Lemma cache_ownership_witness :
  let w := final client_0 prepare in
  counted w /\ exists w', run_call (0, 0) w (CacheInclude true true 1 3 NL_ACT_NEW ChangeV2) = Done w' /\ items_agree w'.
Proof.
  destruct (cache_ownership (0, 0) (final client_0 prepare) (CacheInclude true true 1 3 NL_ACT_NEW ChangeV2))
    as (H1 & _ & w' & H2 & _ & H3).
  - apply allowed_steps, prepare_allowed.
  - allowed_tac.
  - by eauto.
Defined.

Lemma cache_no_leak_witness :
  h_objs (cl_heap (final client_0 (prepare ++ tidy))) = ∅ /\
  let w := final client_0 (prepare ++ tidy_fail) in
  lost_in client_0 (prepare ++ tidy_fail) = [4] /\
  h_caches (cl_heap w) = ∅ /\ (size (h_objs (cl_heap w)) <= 1)%nat /\ is_Some (h_objs (cl_heap w) !! 4).
Proof.
  split.
  - destruct (cache_no_leak (0, 0) (final client_0 (prepare ++ tidy)) (lost_in client_0 (prepare ++ tidy)))
      as (_ & _ & _ & H).
    + apply run_trace, prepare_tidy_allowed.
    + intros o. rewrite (end_refs _ o prepare_tidy_allowed); [apply zlen_nonneg|]. by rewrite tidy_objs.
    + intros c. apply (end_caches _ c prepare_tidy_allowed). by vm_compute.
    + apply H. by vm_compute.
  - destruct (cache_no_leak (0, 0) (final client_0 (prepare ++ tidy_fail)) (lost_in client_0 (prepare ++ tidy_fail)))
      as (H1 & H2 & H3 & _).
    + apply run_trace, prepare_fail_allowed.
    + intros o. destruct (decide (o = 4)) as [->|Ho]; [by vm_compute|].
      rewrite (end_refs _ o prepare_fail_allowed); [apply zlen_nonneg|by apply fail_objs].
    + intros c. apply (end_caches _ c prepare_fail_allowed). by vm_compute.
    + split; [by vm_compute|]. split; [exact H1|]. split; [exact H3|]. apply H2. by vm_compute.
Defined.

Lemma nl_cache_add_spec_witness :
  exists ret h' items', nl_cache_add ops_at cops_at (0, 0) true true h0 1 4 = Done (ret, h') /\
    inv h' items' (cl_objs w0).
Proof.
  destruct h0_inv as [items Hi].
  destruct (nl_cache_add_spec (0, 0) true true h0 items (cl_objs w0) 1 x1 4 o4 Hi h0_1 h0_4)
    as (ret & h' & items' & H1 & H2 & _).
  exists ret, h', items'. split; [exact H1|exact H2].
Defined.

Lemma nl_cache_search_spec_witness :
  exists h', nl_cache_search ops_at h0 1 o3 = Done (Some 2, h').
Proof.
  destruct h0_inv as [items Hi].
  destruct (nl_cache_search_spec h0 items (cl_objs w0) 1 x1 o3 Hi h0_1) as (r & h' & H & _); [done|].
  exists h'. rewrite H. assert (fst <$> Done (r, h') = Done (Some 2)) as Hr; [|simpl in Hr; congruence].
  rewrite <- H. by vm_compute.
Defined.

Lemma nl_cache_move_spec_witness :
  exists h', nl_cache_move ops_at cops_at true h0 1 3 = Done (- NLE_EXIST, h') /\
    exists obj', h_objs h' !! 3 = Some obj' /\ ce_refcnt obj' = 2 /\ ce_cache obj' = 0.
Proof.
  destruct h0_inv as [items Hi].
  destruct (nl_cache_move_spec true h0 items (cl_objs w0) 1 x1 3 o3 Hi h0_1 h0_3)
    as (ret & h' & H & _).
  exists h'. rewrite H. revert H. vm_compute. intros [= <- <-]. split; [done|].
  eexists. split; [reflexivity|done].
Defined.


Lemma nl_cache_free_spec_witness :
  exists h', nl_cache_free ops_at h0 (Some 1) = Done h' /\ h_caches h' !! 1 = None.
Proof.
  destruct h0_inv as [items Hi].
  destruct (nl_cache_free_spec h0 items (cl_objs w0) 1 x1 Hi h0_1) as (h' & H & _ & H2 & _).
  exists h'. split; [exact H|exact H2].
Defined.
