(* ===== verification/ObjAttr.v ===== *)
(** Attributes of objects (the macros of include/netlink-private/object-api.h):
    which attributes of an object are set is a mask, and a kind compares two
    objects attribute by attribute.  With the facts that make a comparison of this
    form fit for the caches. *)
From S2P Require Import Prelude Errors NlList Object Cache CacheInv.

(** Functions that may fail with an error code: [x ←! m; k] goes on with [k] when
    [m] gives [inr x] and ends with the code otherwise. *)
Definition run_or {A B} (m : exec (Z + A)) (k : A -> exec (Z + B)) : exec (Z + B) :=
  r ← m; match r with inl err => mret (inl err) | inr x => k x end.
Notation "x ←! m ; k" := (run_or m (fun x => k))
  (at level 20, m at level 100, k at level 200, right associativity) : stdpp_scope.
Notation "' x ←! m ; k" := (run_or m (fun x => k))
  (at level 20, x pattern, m at level 100, k at level 200, right associativity) : stdpp_scope.
Definition ok {A} (x : A) : exec (Z + A) := mret (inr x).
Definition err {A} (e : Z) : exec (Z + A) := mret (inl (- e)).

(** [tb[i]], and what a parser does with an attribute that may be missing. *)
Definition tb_at (tb : list (option Z)) (i : Z) : exec (option Z) :=
  match tb !! Z.to_nat i with Some a => mret a | None => Fault end.
Definition if_attr {A} (tb : list (option Z)) (i : Z) (f : Z -> A -> exec A) (a : A) : exec A :=
  o ← tb_at tb i; match o with Some nla => f nla a | None => mret a end.

Section ObjAttr.
Context {D : Type}.
Implicit Types (a b : body D).

(** ** The macros *)

Definition AVAILABLE a b (attr : Z) : bool := has_flag (Z.land (ce_mask a) (ce_mask b)) attr.
Definition AVAILABLE_MISMATCH a b (attr : Z) : bool :=
  has_flag (Z.lxor (ce_mask a) (ce_mask b)) attr.
Definition ATTR_MISMATCH a b (attr : Z) (expr : bool) : bool :=
  AVAILABLE_MISMATCH a b attr || (AVAILABLE a b attr && expr).
Definition ATTR_DIFF (list attr : Z) a b (expr : bool) : Z :=
  if has_flag list attr && ATTR_MISMATCH a b attr expr then attr else 0.

(** [diff |= ATTR_DIFF(attrs, attr, a, b, expr)] for one attribute after the
    other. *)
Definition attr_diffs (attrs : Z) a b (l : list (Z * bool)) : Z :=
  fold_left (fun diff x => Z.lor diff (ATTR_DIFF attrs x.1 a b x.2)) l 0.

(** [x->field = v; x->ce_mask |= attr]: what a setter does. *)
Definition set_attr b (attr : Z) (d : D) : body D := Body (set_flag (ce_mask b) attr) d.
(** The same with a function of the data. *)
Definition fill_attr b (attr : Z) (f : D -> D) : body D := Body (set_flag (ce_mask b) attr) (f (ce_data b)).
Definition has_attr b (attr : Z) : bool := has_flag (ce_mask b) attr.

Lemma has_fill_other b attr f attr' :
  Z.land attr attr' = 0 -> has_attr (fill_attr b attr f) attr' = has_attr b attr'.
Proof. intros H. by apply has_flag_set_other. Qed.
Lemma has_fill b attr f : attr <> 0 -> has_attr (fill_attr b attr f) attr = true.
Proof. intros H. by apply has_flag_set. Qed.

(** A value for an attribute, when there is one. *)
Definition opt {T} (c : bool) (v : T) : option T := if c then Some v else None.
Definition opt_fill {T} (o : option T) b (attr : Z) (f : T -> D -> D) : body D :=
  match o with Some v => fill_attr b attr (f v) | None => b end.

Lemma has_opt_fill_other {T} (o : option T) b attr f attr' :
  Z.land attr attr' = 0 -> has_attr (opt_fill o b attr f) attr' = has_attr b attr'.
Proof. destruct o; [apply has_fill_other|done]. Qed.
Lemma has_opt_fill {T} (o : option T) b attr f :
  attr <> 0 -> has_attr (opt_fill o b attr f) attr = is_some o || has_attr b attr.
Proof. intros H. destruct o; [by apply has_fill|done]. Qed.
Lemma data_opt_fill_other {T A} (p : D -> A) (o : option T) b attr f :
  (forall v d, p (f v d) = p d) -> p (ce_data (opt_fill o b attr f)) = p (ce_data b).
Proof. intros H. destruct o; [apply H|done]. Qed.
Lemma data_opt_fill {T A} (p : D -> A) (c : bool) (v : T) b attr f w :
  (forall d, p (f v d) = w) -> c = true -> p (ce_data (opt_fill (opt c v) b attr f)) = w.
Proof. intros H ->. apply H. Qed.
Lemma is_some_opt {T} (c : bool) (v : T) : is_some (opt c v) = c.
Proof. by destruct c. Qed.

(** ** What a comparison says *)

Lemma attr_diffs_acc attrs a b l d :
  fold_left (fun diff x => Z.lor diff (ATTR_DIFF attrs x.1 a b x.2)) l d =
  Z.lor d (attr_diffs attrs a b l).
Proof.
  unfold attr_diffs. revert d. induction l as [|x l IH]; intros d; simpl; [by rewrite Z.lor_0_r|].
  rewrite IH, (IH (Z.lor 0 _)), Z.lor_0_l, Z.lor_assoc. done.
Qed.

Lemma attr_diffs_cons attrs a b x l :
  attr_diffs attrs a b (x :: l) = Z.lor (ATTR_DIFF attrs x.1 a b x.2) (attr_diffs attrs a b l).
Proof. unfold attr_diffs at 1. simpl. by rewrite Z.lor_0_l, attr_diffs_acc. Qed.

Lemma has_flag_nonzero f m : has_flag f m = true -> m <> 0.
Proof. unfold has_flag. intros H ->. by rewrite Z.land_0_r in H. Qed.

(** No difference: every attribute asked for is in both and the same, or in
    neither. *)
Lemma attr_diffs_zero attrs a b l :
  attr_diffs attrs a b l = 0 <->
  Forall (fun x => has_flag attrs x.1 = true -> ATTR_MISMATCH a b x.1 x.2 = false) l.
Proof.
  induction l as [|x l IH]; [split; [constructor|done]|].
  rewrite attr_diffs_cons, Z.lor_eq_0_iff, IH, Forall_cons. f_equiv. unfold ATTR_DIFF.
  destruct (has_flag attrs x.1) eqn:E; simpl; [|naive_solver].
  apply has_flag_nonzero in E. destruct (ATTR_MISMATCH _ _ _ _); naive_solver.
Qed.

(** No difference, and both objects have all attributes asked for: each of them is
    the same. *)
Lemma diff_none attrs a b l attr e :
  attr_diffs attrs a b l = 0 -> Z.land (ce_mask a) attrs = attrs -> Z.land (ce_mask b) attrs = attrs ->
  (attr, e) ∈ l -> has_flag attrs attr = true -> e = false.
Proof.
  intros Hd Ha Hb Hin Hf. rewrite attr_diffs_zero, Forall_forall in Hd. specialize (Hd _ Hin Hf).
  simpl in Hd. unfold ATTR_MISMATCH in Hd. apply orb_false_iff in Hd as [_ Hd].
  assert (AVAILABLE a b attr = true) as Hav; [|by rewrite Hav in Hd].
  unfold AVAILABLE, has_flag in *. apply negb_true_iff, Z.eqb_neq. apply negb_true_iff, Z.eqb_neq in Hf.
  intros H0. apply Hf. rewrite <- Ha, <- Z.land_assoc, (Z.land_comm attrs attr), Z.land_assoc.
  rewrite <- Hb, Z.land_assoc, <- (Z.land_assoc _ attr), (Z.land_comm attr (ce_mask b)), Z.land_assoc, H0.
  apply Z.land_0_l.
Qed.

Lemma has_flag_bit f i : 0 <= i -> has_flag f (2 ^ i) = Z.testbit f i.
Proof.
  intros Hi. unfold has_flag. destruct (Z.testbit f i) eqn:E.
  - apply negb_true_iff, Z.eqb_neq. intros H0. pose proof (f_equal (fun z => Z.testbit z i) H0) as H.
    simpl in H. by rewrite Z.land_spec, E, Z.pow2_bits_true, Z.bits_0 in H by done.
  - apply negb_false_iff, Z.eqb_eq, Z.bits_inj'. intros j Hj. rewrite Z.land_spec, Z.bits_0.
    destruct (Z.eqb_spec j i) as [->|Hne]; [by rewrite E|]. rewrite (Z.pow2_bits_false i j) by lia. apply andb_false_r.
Qed.

(** Attributes that both objects have, each of them the same. *)
Lemma diffs_shared k a b l :
  Forall (fun x : Z * bool => (exists i, 0 <= i /\ x.1 = 2 ^ i) /\
    (has_flag (ce_mask a) x.1 = true -> has_flag (ce_mask b) x.1 = true -> has_flag k x.1 = true -> x.2 = false)) l ->
  attr_diffs (Z.land (Z.land (ce_mask a) (ce_mask b)) k) a b l = 0.
Proof.
  intros Hl. apply attr_diffs_zero. eapply Forall_impl; [exact Hl|]. intros [x e] ([i [Hi Hx]] & He).
  simpl in *. subst x. rewrite !has_flag_bit in * by done. rewrite !Z.land_spec. intros Hf.
  apply andb_prop in Hf as [Hf Hk]. apply andb_prop in Hf as [Ha Hb].
  unfold ATTR_MISMATCH, AVAILABLE_MISMATCH. rewrite has_flag_bit, Z.lxor_spec, Ha, Hb by done.
  rewrite He by done. apply andb_false_r.
Qed.

(** The bit of an attribute in the difference. *)
Lemma attr_diffs_bit attrs a b l i :
  0 <= i ->
  Z.testbit (attr_diffs attrs a b l) i =
  existsb (fun x => Z.testbit (ATTR_DIFF attrs x.1 a b x.2) i) l.
Proof.
  intros Hi. induction l as [|x l IH]; [apply Z.bits_0|].
  by rewrite attr_diffs_cons, Z.lor_spec, IH.
Qed.
End ObjAttr.
