(* ===== verification/CacheMngt.v ===== *)
(** Cache management (lib/cache_mngt.c): the registry of cache types, a chain
    through [co_next], its look-ups, registration, references to types, and the
    caches provided for global use.

    Each function holds the registry's lock for its whole run, so it is one
    step. *)
From S2P Require Import Prelude Errors NlList Object Cache.

(** ** Data *)

(** struct nl_cache_ops: the part a cache reads and the part the registry
    keeps. *)
Record cache_type := {
  ct_ops : nl_cache_ops;
  co_refcnt : Z;
  co_next : Z;
  co_major_cache : Z
}.

(** The static variable [cache_ops] and the cache types at their addresses. *)
Record mngt := { cache_ops : Z; types : gmap Z cache_type }.

Definition with_ct_ops (t : cache_type) (o : nl_cache_ops) : cache_type :=
  {| ct_ops := o; co_refcnt := co_refcnt t; co_next := co_next t;
     co_major_cache := co_major_cache t |}.
Definition with_ct_refcnt (t : cache_type) (n : Z) : cache_type :=
  {| ct_ops := ct_ops t; co_refcnt := n; co_next := co_next t;
     co_major_cache := co_major_cache t |}.
Definition with_next (t : cache_type) (a : Z) : cache_type :=
  {| ct_ops := ct_ops t; co_refcnt := co_refcnt t; co_next := a;
     co_major_cache := co_major_cache t |}.
Definition with_major (t : cache_type) (c : Z) : cache_type :=
  {| ct_ops := ct_ops t; co_refcnt := co_refcnt t; co_next := co_next t; co_major_cache := c |}.

Definition get_type (m : mngt) (a : Z) : exec cache_type :=
  match types m !! a with Some t => Done t | None => Fault end.
Definition set_type (m : mngt) (a : Z) (t : cache_type) : mngt :=
  {| cache_ops := cache_ops m; types := <[a := t]> (types m) |}.
Definition set_first (m : mngt) (a : Z) : mngt := {| cache_ops := a; types := types m |}.

(** ** Looking up *)

(** [for (ops = cache_ops; ops; ops = ops->co_next)], up to the first type the
    test holds for; 0 at the end of the chain. *)
Fixpoint walk (fuel : nat) (m : mngt) (test : cache_type -> exec bool) (ops : Z) : exec Z :=
  if ops =? 0 then mret 0
  else match fuel with
  | O => NoFuel
  | S fuel =>
      t ← get_type m ops;
      b ← test t;
      if b : bool then mret ops else walk fuel m test (co_next t)
  end.
Definition walk_all (m : mngt) (test : cache_type -> exec bool) : exec Z :=
  walk (S (size (types m))) m test (cache_ops m).

(** [!strcmp(ops->co_name, name)]. *)
Definition has_name (name : list Z) (t : cache_type) : exec bool :=
  match co_name (ct_ops t) with
  | Some n => mret (bool_decide (n = name))
  | None => Fault
  end.

Definition __nl_cache_ops_lookup (m : mngt) (name : list Z) : exec Z := walk_all m (has_name name).
Definition nl_cache_ops_get (m : mngt) (a : Z) : exec mngt :=
  t ← get_type m a; mret (set_type m a (with_ct_refcnt t (u32 (co_refcnt t + 1)))).
Definition nl_cache_ops_put (m : mngt) (a : Z) : exec mngt :=
  t ← get_type m a; mret (set_type m a (with_ct_refcnt t (u32 (co_refcnt t - 1)))).
Definition nl_cache_ops_lookup (m : mngt) (name : list Z) : exec Z := __nl_cache_ops_lookup m name.

(** A look-up that takes a reference to what it finds. *)
Definition get_found (m : mngt) (a : Z) : exec (Z * mngt) :=
  if a =? 0 then mret (0, m) else m ← nl_cache_ops_get m a; mret (a, m).
Definition nl_cache_ops_lookup_safe (m : mngt) (name : list Z) : exec (Z * mngt) :=
  a ← __nl_cache_ops_lookup m name; get_found m a.

Definition nl_msgtype_lookup (ops : nl_cache_ops) (msgtype : Z) : option nl_msgtype :=
  find_msgtype (co_msgtypes ops) msgtype.

Definition __cache_ops_associate (m : mngt) (protocol msgtype : Z) : exec Z :=
  walk_all m (fun t =>
    if negb (co_protocol (ct_ops t) =? protocol) then mret false
    else match find_msgtype (co_msgtypes (ct_ops t)) msgtype with
         | Some _ => mret true
         | None => mret false
         end).
Definition nl_cache_ops_associate (m : mngt) (protocol msgtype : Z) : exec Z :=
  __cache_ops_associate m protocol msgtype.
Definition nl_cache_ops_associate_safe (m : mngt) (protocol msgtype : Z) : exec (Z * mngt) :=
  a ← __cache_ops_associate m protocol msgtype; get_found m a.

Definition cache_ops_lookup_for_obj (m : mngt) (obj_ops : Z) : exec Z :=
  walk_all m (fun t => mret (co_obj_ops (ct_ops t) =? obj_ops)).

(** [cb] with its argument maps a state of the caller. *)
Fixpoint foreach_type {S} (fuel : nat) (m : mngt) (cb : Z -> S -> S) (ops : Z) (s : S) : exec S :=
  if ops =? 0 then mret s
  else match fuel with
  | O => NoFuel
  | Datatypes.S fuel => t ← get_type m ops; foreach_type fuel m cb (co_next t) (cb ops s)
  end.
Definition nl_cache_ops_foreach {S} (m : mngt) (cb : Z -> S -> S) (s : S) : exec S :=
  foreach_type (Datatypes.S (size (types m))) m cb (cache_ops m) s.

Definition nl_cache_ops_set_flags (m : mngt) (a flags : Z) : exec mngt :=
  t ← get_type m a;
  let o := ct_ops t in
  mret (set_type m a (with_ct_ops t
    {| co_name := co_name o; co_hdrsize := co_hdrsize o; co_protocol := co_protocol o;
       co_hash_size := co_hash_size o; co_flags := set_flag (co_flags o) flags;
       co_groups := co_groups o; co_obj_ops := co_obj_ops o; co_msgtypes := co_msgtypes o |})).

(** ** Registration *)

Section Mngt.
Context {D : Type}.
Variable ops_at : Z -> nl_object_ops D.

Definition nl_cache_mngt_register (m : mngt) (a : Z) : exec (Z * mngt) :=
  t ← get_type m a;
  match co_name (ct_ops t) with
  | None => mret (- NLE_INVAL, m)
  | Some name =>
      if co_obj_ops (ct_ops t) =? 0 then mret (- NLE_INVAL, m)
      else
        let p := ops_at (co_obj_ops (ct_ops t)) in
        if is_some (oo_keygen p) && negb (is_some (oo_compare p)) then Bug
        else
          found ← __nl_cache_ops_lookup m name;
          if negb (found =? 0) then mret (- NLE_EXIST, m)
          else mret (0, set_first (set_type m a (with_next (with_ct_refcnt t 0) (cache_ops m))) a)
  end.

(** The loop over the links [tp]: what comes before [a] and the rest, by changing
    the link that leads to [a]. *)
Fixpoint unlink (fuel : nat) (m : mngt) (prev pos a : Z) : exec (option mngt) :=
  if pos =? 0 then mret None
  else match fuel with
  | O => NoFuel
  | S fuel =>
      t ← get_type m pos;
      if pos =? a then
        if prev =? 0 then mret (Some (set_first m (co_next t)))
        else p ← get_type m prev; mret (Some (set_type m prev (with_next p (co_next t))))
      else unlink fuel m pos (co_next t) a
  end.

Definition nl_cache_mngt_unregister (m : mngt) (a : Z) : exec (Z * mngt) :=
  t ← get_type m a;
  if 0 <? co_refcnt t then mret (- NLE_BUSY, m)
  else
    r ← unlink (S (size (types m))) m 0 (cache_ops m) a;
    match r with
    | None => mret (- NLE_NOCACHE, m)
    | Some m => mret (0, m)
    end.

(** ** Caches for global use *)

Definition type_of_cache (m : mngt) (h : heap D) (c : Z) : exec Z :=
  x ← get_cache h c;
  t ← get_type m (c_ops x);
  a ← cache_ops_lookup_for_obj m (co_obj_ops (ct_ops t));
  if a =? 0 then Bug else mret a.

Definition nl_cache_mngt_provide (m : mngt) (h : heap D) (c : Z) : exec (mngt * heap D) :=
  a ← type_of_cache m h c;
  h ← nl_cache_get h c;
  t ← get_type m a;
  m ← (if co_major_cache t =? 0 then nl_cache_ops_get m a else mret m);
  t ← get_type m a;
  mret (set_type m a (with_major t c), h).

Definition nl_cache_mngt_unprovide (m : mngt) (h : heap D) (c : Z) : exec (mngt * heap D) :=
  a ← type_of_cache m h c;
  t ← get_type m a;
  if co_major_cache t =? c then
    h ← nl_cache_free ops_at h (Some (co_major_cache t));
    m ← nl_cache_ops_put m a;
    t ← get_type m a;
    mret (set_type m a (with_major t 0), h)
  else mret (m, h).

(** The address of the cache, 0 when there is none. *)
Definition __nl_cache_mngt_require (m : mngt) (name : list Z) : exec (Z * mngt) :=
  '(a, m) ← nl_cache_ops_lookup_safe m name;
  if a =? 0 then mret (0, m)
  else
    t ← get_type m a;
    m ← nl_cache_ops_put m a;
    mret (co_major_cache t, m).
Definition nl_cache_mngt_require := __nl_cache_mngt_require.
Definition nl_cache_mngt_require_safe (m : mngt) (h : heap D) (name : list Z)
    : exec (Z * mngt * heap D) :=
  '(c, m) ← nl_cache_mngt_require m name;
  if c =? 0 then mret (0, m, h) else h ← nl_cache_get h c; mret (c, m, h).

(** nl_cache_alloc_name of lib/cache.c: [None] for an error. *)
Definition nl_cache_alloc_name (c1 c2 c3 : bool) (m : mngt) (h : heap D) (kind : list Z)
    : exec (Z * option Z * mngt * heap D) :=
  '(a, m) ← nl_cache_ops_lookup_safe m kind;
  if a =? 0 then mret (- NLE_NOCACHE, None, m, h)
  else
    t ← get_type m a;
    let '(cache, h) := nl_cache_alloc ops_at (fun _ => ct_ops t) c1 c2 c3 h a in
    m ← nl_cache_ops_put m a;
    match cache with
    | None => mret (- NLE_NOMEM, None, m, h)
    | Some c => mret (0, Some c, m, h)
    end.
End Mngt.

(** ** The chain as a list *)

(** The types from [p] on are those at the addresses [l]. *)
Fixpoint chain (ts : gmap Z cache_type) (p : Z) (l : list Z) : Prop :=
  match l with
  | [] => p = 0
  | a :: l => p = a /\ a <> 0 /\ exists t, ts !! a = Some t /\ chain ts (co_next t) l
  end.

Definition name_at (ts : gmap Z cache_type) (a : Z) : option (list Z) :=
  t ← ts !! a; co_name (ct_ops t).

(** The registry holds the types [l]: each once, with a name no other has. *)
Definition registered (m : mngt) (l : list Z) : Prop :=
  chain (types m) (cache_ops m) l /\ NoDup l /\ NoDup (map (name_at (types m)) l) /\
  Forall (fun a => is_Some (name_at (types m) a)) l.

(** The first type [f] holds for, 0 when there is none. *)
Fixpoint first_with (ts : gmap Z cache_type) (f : cache_type -> bool) (l : list Z) : Z :=
  match l with
  | [] => 0
  | a :: l =>
      match ts !! a with
      | Some t => if f t then a else first_with ts f l
      | None => 0
      end
  end.

Lemma chain_in ts p l a : chain ts p l -> a ∈ l -> a <> 0 /\ is_Some (ts !! a).
Proof.
  revert p. induction l as [|b l IH]; intros p; [set_solver|].
  intros (-> & Hb & t & Ht & Hc) [->|Hin]%elem_of_cons; [by split; [|exists t]|]. by eapply IH.
Qed.

Lemma chain_ext ts ts' p l :
  chain ts p l -> (forall a, a ∈ l -> co_next <$> ts' !! a = co_next <$> ts !! a) -> chain ts' p l.
Proof.
  revert p. induction l as [|b l IH]; intros p; [done|].
  intros (-> & Hb & t & Ht & Hc) He. split_and!; [done..|].
  pose proof (He b (list_elem_of_here _ _)) as Hx. rewrite Ht in Hx.
  destruct (ts' !! b) as [t'|] eqn:E; [|done]. simpl in Hx. exists t'. split; [done|].
  injection Hx as ->. apply IH; [done|]. intros a Ha. apply He. by right.
Qed.

Lemma chain_length ts p l : chain ts p l -> NoDup l -> (length l <= size ts)%nat.
Proof.
  intros Hc Hd. rewrite <- size_dom, <- (size_list_to_set (C := gset Z) l) by done.
  apply subseteq_size. intros a Ha. apply elem_of_list_to_set in Ha.
  apply elem_of_dom. by eapply chain_in.
Qed.

Lemma walk_done ts first p l f test fuel :
  chain ts p l -> (length l < fuel)%nat ->
  (forall a t, a ∈ l -> ts !! a = Some t -> test t = Done (f t)) ->
  walk fuel {| cache_ops := first; types := ts |} test p = Done (first_with ts f l).
Proof.
  revert p fuel. induction l as [|b l IH]; intros p fuel; simpl.
  { intros -> ? _. by destruct fuel. }
  intros (-> & Hb & t & Ht & Hc) Hf Htest. destruct fuel as [|fuel]; [lia|]. simpl.
  rewrite (proj2 (Z.eqb_neq b 0)) by done. unfold get_type. simpl. rewrite Ht. exec_simpl.
  rewrite (Htest b) by (done || left). exec_simpl. destruct (f t); [done|].
  apply IH; [done|lia|]. intros a t' Ha. apply Htest. by right.
Qed.

Lemma walk_all_done m l f test :
  registered m l -> (forall a t, a ∈ l -> types m !! a = Some t -> test t = Done (f t)) ->
  walk_all m test = Done (first_with (types m) f l).
Proof.
  intros (Hc & Hd & _) Ht. destruct m as [p ts]. apply walk_done; [done| |done].
  simpl in *. pose proof (chain_length _ _ _ Hc Hd). lia.
Qed.

Lemma first_with_spec m l f :
  registered m l ->
  let r := first_with (types m) f l in
  (r <> 0 -> r ∈ l /\ exists t, types m !! r = Some t /\ f t = true) /\
  (r = 0 -> forall a t, a ∈ l -> types m !! a = Some t -> f t = false).
Proof.
  intros (Hc & _). simpl. revert Hc. generalize (cache_ops m). induction l as [|b l IH]; intros p; simpl.
  { intros _. split; [done|]. intros _ a t Ha. set_solver. }
  intros (-> & Hb & t & Ht & Hc). rewrite Ht. destruct (f t) eqn:E.
  { split; [|done]. intros _. split; [left|by exists t]. }
  destruct (IH _ Hc) as [H1 H2]. split.
  - intros Hr. destruct (H1 Hr) as [? ?]. split; [by right|done].
  - intros Hr a t' [->|Ha]%elem_of_cons; [congruence|]. by apply H2.
Qed.

(** Changes to a type that leave its name and its place in the chain. *)
Lemma registered_set m l a t t' :
  registered m l -> types m !! a = Some t -> co_next t' = co_next t ->
  co_name (ct_ops t') = co_name (ct_ops t) -> registered (set_type m a t') l.
Proof.
  intros (Hc & Hd & Hn & Hs) Ht Hx Hname.
  assert (forall b, name_at (<[a := t']> (types m)) b = name_at (types m) b) as He.
  { intros b. unfold name_at. destruct (decide (b = a)) as [->|];
      [by rewrite lookup_insert_eq, Ht|by rewrite lookup_insert_ne]. }
  unfold registered, set_type. simpl. split_and!; [|done| |].
  - eapply chain_ext; [done|]. intros b _. destruct (decide (b = a)) as [->|];
      [by rewrite lookup_insert_eq, Ht; simpl; rewrite Hx|by rewrite lookup_insert_ne].
  - erewrite map_ext; done.
  - eapply Forall_impl; [done|]. intros b. by rewrite He.
Qed.

Lemma lookup_name m l name :
  registered m l ->
  __nl_cache_ops_lookup m name =
  Done (first_with (types m) (fun t => bool_decide (co_name (ct_ops t) = Some name)) l).
Proof.
  intros Hm. apply walk_all_done; [done|]. intros a t Ha Ht. pose proof Hm as (_ & _ & _ & Hs).
  rewrite Forall_forall in Hs. destruct (Hs a Ha) as [n Hn].
  unfold name_at in Hn. rewrite Ht in Hn. simpl in Hn. unfold has_name. rewrite Hn.
  f_equal. apply bool_decide_ext. naive_solver.
Qed.

(** Where [unlink] finds the type, and what it leaves. *)
Lemma unlink_chain ts first l1 : forall prev pos a l2 fuel,
  chain ts pos (l1 ++ a :: l2) -> NoDup (prev :: l1 ++ a :: l2) ->
  (if prev =? 0 then first = pos else exists p, ts !! prev = Some p /\ co_next p = pos) ->
  (length l1 < fuel)%nat ->
  exists m', unlink fuel {| cache_ops := first; types := ts |} prev pos a = Done (Some m') /\
    (forall b, name_at (types m') b = name_at ts b) /\
    (forall b, b ∉ prev :: l1 -> types m' !! b = ts !! b) /\
    if prev =? 0 then chain (types m') (cache_ops m') (l1 ++ l2)
    else cache_ops m' = first /\
         exists p, types m' !! prev = Some p /\ chain (types m') (co_next p) (l1 ++ l2).
Proof.
  induction l1 as [|b l1 IH]; intros prev pos a l2 fuel; simpl.
  - intros (-> & Ha & t & Ht & Hc) Hd Hp Hf. destruct fuel as [|fuel]; [lia|]. simpl.
    rewrite (proj2 (Z.eqb_neq a 0)), Z.eqb_refl by done. unfold get_type. simpl. rewrite Ht. exec_simpl.
    destruct (Z.eqb_spec prev 0) as [->|Hne].
    + eexists. split; [done|]. by split_and!.
    + destruct Hp as (p & Hp1 & Hp2). rewrite Hp1. exec_simpl. eexists. split; [done|].
      unfold set_type. simpl. split_and!; [| |done|].
      * intros b. unfold name_at. destruct (decide (b = prev)) as [->|];
          [by rewrite lookup_insert_eq, Hp1|by rewrite lookup_insert_ne].
      * intros b Hb. apply lookup_insert_ne. set_solver.
      * eexists. rewrite lookup_insert_eq. split; [done|]. simpl. eapply chain_ext; [done|].
        intros b Hb. rewrite lookup_insert_ne; [done|]. intros <-.
        apply NoDup_cons in Hd as [Hd _]. set_solver.
  - intros (-> & Hb & t & Ht & Hc) [Hdp Hd]%NoDup_cons Hp Hf. destruct fuel as [|fuel]; [lia|]. simpl.
    rewrite (proj2 (Z.eqb_neq b 0)) by done. unfold get_type. simpl. rewrite Ht. exec_simpl.
    assert (b <> a) as Hba by (apply NoDup_cons in Hd as [Hd _]; set_solver).
    rewrite (proj2 (Z.eqb_neq b a)) by done.
    destruct (IH b (co_next t) a l2 fuel) as (m' & Hu & Hn & Ho & Hr); [done..| |lia|].
    { rewrite (proj2 (Z.eqb_neq b 0)) by done. by exists t. }
    rewrite (proj2 (Z.eqb_neq b 0)) in Hr by done. destruct Hr as (Hfirst & p' & Hp' & Hc').
    exists m'. split_and!; [done..| |].
    { intros c Hx. apply Ho. set_solver. }
    destruct (Z.eqb_spec prev 0) as [->|Hne].
    + rewrite Hfirst. split_and!; [done..|]. by exists p'.
    + destruct Hp as (p & Hp1 & Hp2). split; [done|]. exists p. split.
      * rewrite Ho, Hp1; [done|]. set_solver.
      * split_and!; [done..|]. by exists p'.
Qed.

Lemma unlink_absent ts first l : forall prev pos a fuel,
  chain ts pos l -> a ∉ l -> (length l < fuel)%nat ->
  unlink fuel {| cache_ops := first; types := ts |} prev pos a = Done None.
Proof.
  induction l as [|b l IH]; intros prev pos a fuel; simpl.
  { intros -> _ ?. by destruct fuel. }
  intros (-> & Hb & t & Ht & Hc) Ha Hf. destruct fuel as [|fuel]; [lia|]. simpl.
  rewrite (proj2 (Z.eqb_neq b 0)) by done. unfold get_type. simpl. rewrite Ht. exec_simpl.
  rewrite (proj2 (Z.eqb_neq b a)) by set_solver. apply IH; [done|set_solver|lia].
Qed.

Lemma registered_bound m l : registered m l -> (length l < S (size (types m)))%nat.
Proof. intros (Hc & Hd & _). pose proof (chain_length _ _ _ Hc Hd). lia. Qed.

(** A name as an answer of the registry. *)
Definition named (ts : gmap Z cache_type) (name : list Z) (l : list Z) : Z :=
  first_with ts (fun t => bool_decide (co_name (ct_ops t) = Some name)) l.

Lemma named_absent m l name :
  registered m l -> named (types m) name l = 0 <-> Some name ∉ map (name_at (types m)) l.
Proof.
  intros Hm. destruct (first_with_spec m l (fun t => bool_decide (co_name (ct_ops t) = Some name)) Hm) as [H1 H2].
  fold (named (types m) name l) in *. pose proof Hm as (Hc & _). split.
  - intros H0 (a & Ha & Hin)%list_elem_of_fmap.
    destruct (chain_in _ _ _ _ Hc Hin) as [_ [t Ht]]. unfold name_at in Ha. rewrite Ht in Ha.
    specialize (H2 H0 a t Hin Ht). by apply bool_decide_eq_false in H2.
  - intros Hn. destruct (decide (named (types m) name l = 0)) as [|Hne]; [done|].
    destruct (H1 Hne) as (Hin & t & Ht & Hb). apply bool_decide_eq_true in Hb. destruct Hn.
    apply list_elem_of_fmap. exists (named (types m) name l). split; [|done].
    unfold name_at. by rewrite Ht.
Qed.

Lemma register_ok m l a t name :
  registered m l -> types m !! a = Some t -> a <> 0 -> co_name (ct_ops t) = Some name ->
  Some name ∉ map (name_at (types m)) l ->
  registered (set_first (set_type m a (with_next (with_ct_refcnt t 0) (cache_ops m))) a) (a :: l).
Proof.
  intros (Hc & Hd & Hn & Hs) Ht Ha Hname Habs. unfold registered, set_first, set_type. simpl.
  set (t' := with_next _ _).
  assert (name_at (types m) a = Some name) as Hna by (unfold name_at; by rewrite Ht).
  assert (forall b, name_at (<[a := t']> (types m)) b = name_at (types m) b) as He.
  { intros b. unfold name_at. destruct (decide (b = a)) as [->|];
      [by rewrite lookup_insert_eq, Ht|by rewrite lookup_insert_ne]. }
  assert (a ∉ l) as Hal.
  { intros Hin. apply Habs. rewrite <- Hna. by apply list_elem_of_fmap_2. }
  rewrite (map_ext _ _ He), (He a), Hna. split_and!.
  - done.
  - done.
  - exists t'. rewrite lookup_insert_eq. split; [done|]. simpl. eapply chain_ext; [done|].
    intros b Hb. rewrite lookup_insert_ne; [done|]. by intros <-.
  - by apply NoDup_cons.
  - by apply NoDup_cons.
  - apply Forall_cons_2; [by rewrite He, Hna|]. eapply Forall_impl; [done|]. intros b. by rewrite He.
Qed.

Lemma unregister_ok m l1 a l2 :
  registered m (l1 ++ a :: l2) ->
  exists m', unlink (S (size (types m))) m 0 (cache_ops m) a = Done (Some m') /\
    registered m' (l1 ++ l2) /\ (forall b, name_at (types m') b = name_at (types m) b).
Proof.
  intros Hm. pose proof (registered_bound _ _ Hm) as Hb. destruct Hm as (Hc & Hd & Hn & Hs).
  assert (0 ∉ l1 ++ a :: l2) as H0 by (intros Hin; by destruct (chain_in _ _ _ _ Hc Hin)).
  destruct m as [first ts]. simpl in *.
  destruct (unlink_chain ts first l1 0 first a l2 (S (size ts))) as (m' & Hu & Hn' & _ & Hc');
    [done|by apply NoDup_cons|done|rewrite length_app in Hb; simpl in Hb; lia|].
  exists m'. split_and!; [done| |done]. simpl in Hc'. unfold registered.
  rewrite !(map_ext _ _ Hn'). rewrite map_app in *. simpl in *.
  split_and!; [done| | |].
  - apply NoDup_app in Hd as (? & Hx & [? ?]%NoDup_cons). apply NoDup_app. split_and!; [done| |done].
    intros b Hb1 Hb2. apply (Hx b Hb1). by right.
  - apply NoDup_app in Hn as (? & Hx & [? ?]%NoDup_cons). apply NoDup_app. split_and!; [done| |done].
    intros b Hb1 Hb2. apply (Hx b Hb1). by right.
  - apply Forall_app in Hs as [? [_ ?]%Forall_cons].
    apply Forall_app. split; (eapply Forall_impl; [done|]); intros b; by rewrite Hn'.
Qed.

Section Properties.
Context {D : Type}.
Variable ops_at : Z -> nl_object_ops D.

(** The type [nl_cache_mngt_provide] provides a cache under, whose own type is [t0]:
    the first registered one of the same kind of objects; 0 when there is none. *)
Definition provider (m : mngt) (l : list Z) (t0 : cache_type) : Z :=
  first_with (types m) (fun t => co_obj_ops (ct_ops t) =? co_obj_ops (ct_ops t0)) l.
(** The registry with the cache [c] provided under the type [t] at [a]: a reference to
    the type is taken with the first cache. *)
Definition with_provided (m : mngt) (a : Z) (t : cache_type) (c : Z) : mngt :=
  set_type m a (with_major (if co_major_cache t =? 0 then with_ct_refcnt t (u32 (co_refcnt t + 1)) else t) c).

Lemma provide_done m l (h : heap D) c x t0 :
  registered m l -> h_caches h !! c = Some x -> types m !! c_ops x = Some t0 ->
  let a := provider m l t0 in
  if a =? 0 then nl_cache_mngt_provide m h c = Bug
  else exists t, types m !! a = Some t /\
    nl_cache_mngt_provide m h c = Done (with_provided m a t c, put_cache h c (with_crefcnt x (c_refcnt x + 1))).
Proof.
  intros Hm Hx Ht0. cbv zeta. unfold nl_cache_mngt_provide, type_of_cache, get_cache, get_type. rewrite Hx. exec_simpl.
  rewrite Ht0. exec_simpl. unfold cache_ops_lookup_for_obj.
  rewrite (walk_all_done m l (fun t => co_obj_ops (ct_ops t) =? co_obj_ops (ct_ops t0))) by done.
  exec_simpl. fold (provider m l t0). destruct (Z.eqb_spec (provider m l t0) 0) as [E|E]; [done|].
  destruct (first_with_spec m l (fun t => co_obj_ops (ct_ops t) =? co_obj_ops (ct_ops t0)) Hm) as [H1 _].
  destruct (H1 E) as (_ & t & Ht & _). fold (provider m l t0) in Ht. exists t. split; [done|]. exec_simpl.
  unfold nl_cache_get, get_cache. rewrite Hx. exec_simpl. unfold nl_cache_ops_get, get_type. rewrite ?Ht. exec_simpl.
  unfold with_provided. destruct (co_major_cache t =? 0); rewrite ?Ht; exec_simpl.
  - unfold set_type. cbn [types cache_ops]. rewrite lookup_insert_eq. exec_simpl. by rewrite insert_insert_eq.
  - by rewrite Ht.
Qed.

(** C35. The registry of cache types, a chain of pointers, implements a set of
    types with distinct names: a look-up by name terminates and answers with the
    one registered type of that name; registration adds a type, with its
    reference count at 0, unless it is incomplete ([-NLE_INVAL]) or its name is
    taken ([-NLE_EXIST]); unregistration removes exactly the type given, unless
    references to it are left ([-NLE_BUSY]) or it is not registered
    ([-NLE_NOCACHE]); errors change nothing. *)
Theorem mngt_refines m l a t :
  registered m l -> types m !! a = Some t -> a <> 0 ->
  (let p := ops_at (co_obj_ops (ct_ops t)) in
   is_some (oo_keygen p) = true -> is_some (oo_compare p) = true) ->
  (forall name, exists r, nl_cache_ops_lookup m name = Done r /\
     (r = 0 <-> Some name ∉ map (name_at (types m)) l) /\
     (r <> 0 -> r ∈ l /\ name_at (types m) r = Some name)) /\
  (exists err m', nl_cache_mngt_register ops_at m a = Done (err, m') /\
     match co_name (ct_ops t) with
     | Some name =>
         if co_obj_ops (ct_ops t) =? 0 then err = - NLE_INVAL /\ m' = m
         else if decide (Some name ∈ map (name_at (types m)) l) then err = - NLE_EXIST /\ m' = m
         else err = 0 /\ registered m' (a :: l) /\ (co_refcnt <$> types m' !! a) = Some 0
     | None => err = - NLE_INVAL /\ m' = m
     end) /\
  (exists err m', nl_cache_mngt_unregister m a = Done (err, m') /\
     if 0 <? co_refcnt t then err = - NLE_BUSY /\ m' = m
     else if decide (a ∈ l) then
       err = 0 /\ exists l1 l2, l = l1 ++ a :: l2 /\ registered m' (l1 ++ l2)
     else err = - NLE_NOCACHE /\ m' = m).
Proof.
  intros Hm Ht Ha Hk. split_and!.
  - intros name. exists (named (types m) name l). split; [by apply lookup_name|].
    split; [by apply named_absent|].
    destruct (first_with_spec m l (fun t => bool_decide (co_name (ct_ops t) = Some name)) Hm) as [H1 _].
    intros Hne. destruct (H1 Hne) as (Hin & t' & Ht' & Hb). split; [done|].
    apply bool_decide_eq_true in Hb. unfold name_at, named. by rewrite Ht'.
  - unfold nl_cache_mngt_register, get_type. rewrite Ht. exec_simpl.
    destruct (co_name (ct_ops t)) as [name|] eqn:En; [|by eexists _, _].
    destruct (co_obj_ops (ct_ops t) =? 0) eqn:E; [by eexists _, _|].
    simpl in Hk. destruct (is_some (oo_keygen _) && negb _) eqn:Eb.
    { apply andb_prop in Eb as [E1 E2]. by rewrite Hk in E2. }
    rewrite (lookup_name m l) by done. exec_simpl. fold (named (types m) name l).
    case_decide as Hin; destruct (Z.eqb_spec (named (types m) name l) 0) as [E0|E0]; simpl negb; cbv iota.
    + by apply named_absent in E0.
    + by eexists _, _.
    + eexists _, _. split; [done|]. split_and!; [done|by eapply register_ok|].
      simpl. by rewrite lookup_insert_eq.
    + destruct E0. by apply named_absent.
  - unfold nl_cache_mngt_unregister, get_type. rewrite Ht. exec_simpl.
    destruct (0 <? co_refcnt t); [by eexists _, _|]. case_decide as Hin.
    + apply list_elem_of_split in Hin as (l1 & l2 & ->).
      destruct (unregister_ok m l1 a l2 Hm) as (m' & -> & Hr & _). eexists _, _. split; [done|].
      split; [done|]. by eexists _, _.
    + destruct m as [first ts]. pose proof (registered_bound _ _ Hm). destruct Hm as (Hc & _).
      rewrite (unlink_absent ts first l) by done. by eexists _, _.
Qed.
End Properties.

(** ** Concrete registries *)

Definition ex_type (name : list Z) (obj_ops : Z) : cache_type :=
  {| ct_ops := {| co_name := Some name; co_hdrsize := 0; co_protocol := 0; co_hash_size := 0;
                  co_flags := 0; co_groups := None; co_obj_ops := obj_ops;
                  co_msgtypes := [{| mt_id := 28; mt_act := NL_ACT_NEW; mt_name := [110] |}] |};
     co_refcnt := 7; co_next := 99; co_major_cache := 0 |}.
Definition ex_ops (a : Z) : nl_object_ops unit :=
  {| oo_name := "ex"; oo_size := 56; oo_id_attrs := 0; oo_constructor := None; oo_free_data := false;
     oo_clone := None; oo_compare := None; oo_update := None; oo_keygen := None;
     oo_id_attrs_get := None |}.
Definition ex_mngt : mngt :=
  {| cache_ops := 0; types := <[4 := ex_type [97] 1]> (<[5 := ex_type [98] 2]> ∅) |}.
Definition ex_cache : nl_cache :=
  {| c_nitems := 0; c_iarg1 := 0; c_iarg2 := 0; c_refcnt := 1; c_flags := 0; c_hashtable := None;
     c_ops := 4 |}.
Definition ex_heap : heap unit :=
  {| h_objs := ∅; h_caches := <[10 := ex_cache]> (<[11 := ex_cache]> ∅);
     h_links := <[NCache 10 := (NCache 10, NCache 10)]> (<[NCache 11 := (NCache 11, NCache 11)]> ∅);
     h_next := 12 |}.

Definition ex_mngt1 : mngt :=
  {| cache_ops := 4;
     types := <[4 := with_next (ex_type [97] 1) 0]> (<[5 := ex_type [98] 2]> ∅) |}.

Lemma mngt_refines_witness :
  registered ex_mngt1 [4] /\
  exists err m, nl_cache_mngt_register ex_ops ex_mngt1 5 = Done (err, m) /\ err = 0 /\
    registered m [5; 4].
Proof.
  assert (registered ex_mngt1 [4]) as H0.
  { split; [|split; [|split]].
    - split; [done|]. split; [done|]. eexists. by split.
    - apply NoDup_singleton.
    - apply NoDup_singleton.
    - apply Forall_cons_2; [by eexists|constructor]. }
  split; [exact H0|].
  destruct (mngt_refines ex_ops ex_mngt1 [4] 5 (ex_type [98] 2) H0) as (_ & (err & m & Hr & Hm) & _);
    [reflexivity|done|done|].
  exists err, m. split; [exact Hr|]. cbn [co_name ct_ops ex_type co_obj_ops] in Hm.
  change (2 =? 0) with false in Hm. cbv iota in Hm.
  destruct (decide (Some [98] ∈ map (name_at (types ex_mngt1)) [4])) as [Hin|_].
  - exfalso. revert Hin. change (map _ _) with [Some [97]]. by intros ?%list_elem_of_singleton.
  - destruct Hm as (He & Hm & _). by split.
Defined.

(** The reference the registry holds to a provided cache is lost when another
    cache takes its place: the counts end as if one reader of the first cache
    were left. *)
Lemma provide_twice_leaks :
  exists m m' h', nl_cache_mngt_register ex_ops ex_mngt 4 = Done (0, m) /\
    ('(m, h) ← nl_cache_mngt_provide m ex_heap 10;
     '(m, h) ← nl_cache_mngt_provide m h 11;
     '(m, h) ← nl_cache_mngt_unprovide ex_ops m h 11;
     nl_cache_mngt_unprovide ex_ops m h 10) = Done (m', h') /\
    (co_major_cache <$> types m' !! 4) = Some 0 /\ (co_refcnt <$> types m' !! 4) = Some 0 /\
    (c_refcnt <$> h_caches h' !! 11) = Some 1 /\ (c_refcnt <$> h_caches h' !! 10) = Some 2.
Proof. eexists _, _, _. repeat split; vm_compute; reflexivity. Qed.
