(* ===== verification/CacheDump.v ===== *)
(** Caches and sockets (lib/cache.c and the pickup functions of lib/nl.c):
    requesting a dump, parsing the messages of the answer into objects, and the
    drivers that fill, refill and resynchronise a cache.

    The callbacks that parse are functions of the library, run by the receive
    loop as callbacks for valid messages.  They work on the part [L] of the
    state that belongs to the library; [V] is the rest, the application and the
    kernel. *)
From S2P Require Import Prelude Errors Msg Attr Handlers Socket Nl NlList Object Cache CacheInv CacheOps CacheSpec CacheLife CacheProps.

Record world (L V : Type) := World { w_lib : exec L; w_out : V }.
Arguments World {L V} _ _.
Arguments w_lib {L V} _.
Arguments w_out {L V} _.

(** The number that stands for the callback the library sets itself; those of
    the application have others. *)
Definition own_cb : Z := -1.

Section Callbacks.
Context {L V : Type}.

(** A run of the library's own callback; a fault in it is kept for the driver,
    which ends in it. *)
Definition run_own (f : L -> exec (Z * L)) (w : world L V) : Z * world L V :=
  let r := (l ← w_lib w; f l) in
  (match r with Done (ret, _) => ret | _ => NL_STOP end, World (snd <$> r) (w_out w)).

Definition lib_user (own : nl_msg -> L -> exec (Z * L)) (app : Z -> Z -> Z -> nl_msg -> V -> Z * V)
    (f arg t : Z) (m : nl_msg) (w : world L V) : Z * world L V :=
  if f =? own_cb then run_own (own m) w
  else let '(ret, v) := app f arg t m (w_out w) in (ret, World (w_lib w) v).

Definition lib_user_err (own : list Z -> L -> exec (Z * L))
    (app : Z -> Z -> sockaddr_nl -> list Z -> V -> Z * V)
    (f arg : Z) (who : sockaddr_nl) (e : list Z) (w : world L V) : Z * world L V :=
  if f =? own_cb then run_own (own e) w
  else let '(ret, v) := app f arg who e (w_out w) in (ret, World (w_lib w) v).
End Callbacks.

Section CacheDump.
Context {D V : Type}.
Variable ops_at : Z -> nl_object_ops D.
Variable cops_at : Z -> nl_cache_ops.
Variable zero : D.
Implicit Types (h : heap D) (o c : Z).

(** pp_cb of struct nl_parser_param, with its argument. *)
Definition pp_cb_t : Type := heap D -> Z -> exec (Z * list change * heap D).

(** co_msg_parser: the sender, the message, the callback. *)
Definition parser_t : Type :=
  option sockaddr_nl -> list Z -> pp_cb_t -> heap D -> exec (Z * list change * heap D).

(** ** Parsing *)

(** The loop over the message types: a parser that does not support the message
    leaves it to the next entry. *)
Fixpoint parse_types (parse : parser_t) (types : list nl_msgtype) (type : Z)
    (who : option sockaddr_nl) (b : list Z) (cb : pp_cb_t) (ev : list change) h
    : exec (Z * list change * heap D) :=
  match types with
  | [] => mret (- NLE_MSGTYPE_NOSUPPORT, ev, h)
  | t :: types =>
      if mt_id t =? type then
        '(err, ev', h) ← parse who b cb h;
        if negb (err =? - NLE_OPNOTSUPP) then mret (err, ev ++ ev', h)
        else parse_types parse types type who b cb (ev ++ ev') h
      else parse_types parse types type who b cb ev h
  end.

Definition nl_cache_parse (ops : nl_cache_ops) (parse : parser_t) (who : option sockaddr_nl)
    (b : list Z) (cb : pp_cb_t) h : exec (Z * list change * heap D) :=
  valid ← nlmsg_valid_hdr b 0 (co_hdrsize ops);
  if negb valid then mret (- NLE_MSG_TOOSHORT, [], h)
  else
    type ← nlmsg_type b 0;
    parse_types parse (co_msgtypes ops) type who b cb [] h.

(** Callbacks for parsed objects. *)
Definition quiet (r : exec (Z * heap D)) : exec (Z * list change * heap D) :=
  '(ret, h) ← r; mret (ret, [], h).
Definition pickup (c1 c2 : bool) c : pp_cb_t := fun h o =>
  quiet (pickup_cb ops_at cops_at zero c1 c2 h c o).
Definition pickup_checkdup (c1 c2 : bool) c : pp_cb_t := fun h o =>
  quiet (pickup_checkdup_cb ops_at cops_at zero c1 c2 h c o).
Definition resync_cb (c1 c2 : bool) c (change_cb : change_cb) : pp_cb_t := fun h o =>
  match change_cb with
  | ChangeV2 => nl_cache_include_v2 ops_at cops_at zero c1 c2 h c o true
  | ChangeV1 => nl_cache_include ops_at cops_at zero c1 c2 h c o true
  | NoChange => nl_cache_include ops_at cops_at zero c1 c2 h c o false
  end.

Definition nl_cache_parse_and_add (parse : parser_t) (c1 c2 : bool) h c (msg : nl_msg)
    : exec (Z * heap D) :=
  x ← get_cache h c;
  '(ret, _, h) ← nl_cache_parse (cops_at (c_ops x)) parse None (nm_nlh msg) (pickup c1 c2 c) h;
  mret (ret, h).

(** What a parser of one kind of object is: it allocates the object, fills it in
    from the message, hands it to the callback and gives its reference back.
    [decode]: an error, or what the message says. *)
Definition object_parser (c0 : bool) (kind : Z) (decode : list Z -> exec (Z + body D)) : parser_t :=
  fun who b cb h =>
    '(r, h) ← nl_object_alloc ops_at c0 zero h kind;
    match r with
    | None => mret (- NLE_NOMEM, [], h)
    | Some o =>
        d ← decode b;
        match d with
        | inl err => h ← nl_object_put ops_at h (Some o); mret (err, [], h)
        | inr bd =>
            type ← nlmsg_type b 0;
            obj ← get_obj h o;
            let h := put_obj h o {| ce_refcnt := ce_refcnt obj; ce_ops := ce_ops obj;
                                    ce_cache := ce_cache obj; ce_msgtype := type;
                                    ce_flags := ce_flags obj; ce_body := bd |} in
            '(err, ev, h) ← cb h o;
            h ← nl_object_put ops_at h (Some o);
            mret (err, ev, h)
        end
    end.

(** ** Receiving into a cache *)

(** The part of the state the callbacks work on: the heap, and what the change
    callbacks have been told. *)
Abbreviation state := (list change * heap D)%type.
Abbreviation W := (world (list change * heap D) V).

Definition update_msg_parser (ops : nl_cache_ops) (parse : parser_t) (cb : pp_cb_t)
    (msg : nl_msg) (s : state) : exec (Z * state) :=
  '(ret, ev, h) ← nl_cache_parse ops parse (Some (nm_src msg)) (nm_nlh msg) cb s.2;
  mret (if ret =? - NLE_EXIST then NL_SKIP else ret, (s.1 ++ ev, h)).

(** The application's callbacks, the system, and the functions that replace the
    library's. *)
Variable app : Z -> Z -> Z -> nl_msg -> V -> Z * V.
Variable app_err : Z -> Z -> sockaddr_nl -> list Z -> V -> Z * V.
Variable recvmsg : Z -> Z -> Z -> W -> (Z + rcv) * W.
Variable recv_ow : Z -> nl_sock -> W -> exec (recv_out * W).
Variable recvmsgs_ow : Z -> nl_sock -> nl_cb -> W -> exec (Z * rstate (W := W)).
Variable rfuel : nat.
Variable mem : recv_mem.
Variable page_size : Z.
Variable fuel : nat.
Variable c1 c2 : bool.       (* the allocations while receiving and while adding *)

Definition no_own (_ : list Z) (s : state) : exec (Z * state) := mret (NL_STOP, s).

(** [c]: whether the callback set can be cloned. *)
Definition __cache_pickup (c : bool) (sk : nl_sock) (ops : nl_cache_ops) (parse : parser_t)
    (cb : pp_cb_t) (w : W) : exec (Z * nl_sock * W) :=
  match nl_cb_clone c (s_cb sk) with
  | None => mret (- NLE_NOMEM, sk, w)
  | Some cbs =>
      let cbs := (nl_cb_set cbs NL_CB_VALID NL_CB_CUSTOM (Some (msg_cb_user own_cb)) 0).2 in
      '(err, st) ← nl_recvmsgs (lib_user (update_msg_parser ops parse cb) app)
                     (lib_user_err no_own app_err) recvmsg recv_ow rfuel mem page_size
                     recvmsgs_ow fuel c1 c2 sk cbs w;
      _ ← nl_cb_put (Some (r_cb st));
      _ ← w_lib (r_w st);
      mret (err, r_sk st, r_w st)
  end.

(** co_request_update and co_msg_parser of the types of caches. *)
Definition request_t : Type :=
  nl_cache -> nl_sock -> port_map -> W -> exec (Z * nl_sock * port_map * W).
Variable co_request_update : Z -> option request_t.
Variable co_msg_parser : Z -> parser_t.

(** The heap as it is when no callback runs. *)
Definition cache_of (w : W) c : exec nl_cache := s ← w_lib w; get_cache s.2 c.
Definition update_cache (w : W) c (f : nl_cache -> nl_cache) : exec W :=
  s ← w_lib w; x ← get_cache s.2 c;
  mret (World (Done (s.1, put_cache s.2 c (f x))) (w_out w)).

Definition nl_cache_request_full_dump (sk : nl_sock) (p : port_map) c (w : W)
    : exec (Z * nl_sock * port_map * W) :=
  x ← cache_of w c;
  if negb (s_proto sk =? co_protocol (cops_at (c_ops x))) then mret (- NLE_PROTO_MISMATCH, sk, p, w)
  else match co_request_update (c_ops x) with
  | None => mret (- NLE_OPNOTSUPP, sk, p, w)
  | Some request => request x sk p w
  end.

Definition cache_pickup (c0 : bool) (sk : nl_sock) c (cb : pp_cb_t) (w : W)
    : exec (Z * nl_sock * W) :=
  x ← cache_of w c;
  __cache_pickup c0 sk (cops_at (c_ops x)) (co_msg_parser (c_ops x)) cb w.

Definition __nl_cache_pickup (c0 : bool) (sk : nl_sock) c (checkdup : bool) (w : W)
    : exec (Z * nl_sock * W) :=
  let cb := if checkdup then pickup_checkdup c1 c2 c else pickup c1 c2 c in
  x ← cache_of w c;
  if negb (s_proto sk =? co_protocol (cops_at (c_ops x))) then mret (- NLE_PROTO_MISMATCH, sk, w)
  else cache_pickup c0 sk c cb w.
Definition nl_cache_pickup_checkdup (c0 : bool) (sk : nl_sock) c (w : W) :=
  __nl_cache_pickup c0 sk c true w.
Definition nl_cache_pickup (c0 : bool) (sk : nl_sock) c (w : W) := __nl_cache_pickup c0 sk c false w.

(** From the label restart to the result of the dump that was not interrupted;
    the kernel decides how often. *)
Fixpoint request_and_pickup (tries : nat) (receive : nl_sock -> W -> exec (Z * nl_sock * W))
    (sk : nl_sock) (p : port_map) c (w : W) : exec (Z * nl_sock * port_map * W) :=
  match tries with
  | O => NoFuel
  | S tries =>
      '(err, sk, p, w) ← nl_cache_request_full_dump sk p c w;
      if err <? 0 then mret (err, sk, p, w)
      else
        '(err, sk, w) ← receive sk w;
        if err =? - NLE_DUMP_INTR then request_and_pickup tries receive sk p c w
        else mret (err, sk, p, w)
  end.

(** The do loop over the groups [grp] still to come; the array ends with a group
    0.  [None]: a kind of cache without groups. *)
Fixpoint group_loop (tries : nat) (receive : nl_sock -> W -> exec (Z * nl_sock * W))
    (iter : bool) (grp : list nl_af_group) (sk : nl_sock) (p : port_map) c (w : W)
    : exec (Z * nl_sock * port_map * W) :=
  match grp with
  | [] => request_and_pickup tries receive sk p c w
  | g :: rest =>
      w ← (if iter then update_cache w c (fun x => nl_cache_set_arg1 x (ag_family g)) else mret w);
      '(err, sk, p, w) ← request_and_pickup tries receive sk p c w;
      if err <? 0 then mret (err, sk, p, w)
      else match rest, iter with
      | _ :: _, true => group_loop tries receive iter rest sk p c w
      | _, _ => mret (err, sk, p, w)
      end
  end.

Definition all_groups (tries : nat) (receive : nl_sock -> W -> exec (Z * nl_sock * W))
    (sk : nl_sock) (p : port_map) c (w : W) : exec (Z * nl_sock * port_map * W) :=
  x ← cache_of w c;
  group_loop tries receive (has_flag (c_flags x) NL_CACHE_AF_ITER)
    (default [] (co_groups (cops_at (c_ops x)))) sk p c w.

Definition nl_cache_refill (tries : nat) (c0 : bool) (sk : nl_sock) (p : port_map) c (w : W)
    : exec (Z * nl_sock * port_map * W) :=
  x ← cache_of w c;
  if negb (s_proto sk =? co_protocol (cops_at (c_ops x))) then mret (- NLE_PROTO_MISMATCH, sk, p, w)
  else
    s ← w_lib w;
    h ← nl_cache_clear ops_at s.2 c;
    all_groups tries (fun sk w => nl_cache_pickup c0 sk c w) sk p c (World (Done (s.1, h)) (w_out w)).

(** [change_cb]: whether there is a change callback, of the first kind. *)
Definition nl_cache_resync (tries : nat) (c0 : bool) (sk : nl_sock) (p : port_map) c
    (change_cb : bool) (w : W) : exec (Z * nl_sock * port_map * W) :=
  x ← cache_of w c;
  if negb (s_proto sk =? co_protocol (cops_at (c_ops x))) then mret (- NLE_PROTO_MISMATCH, sk, p, w)
  else
    s ← w_lib w;
    h ← nl_cache_mark_all s.2 c;
    let cb := resync_cb c1 c2 c (if change_cb then ChangeV1 else NoChange) in
    '(err, sk, p, w) ← all_groups tries (fun sk w => cache_pickup c0 sk c cb w) sk p c
                         (World (Done (s.1, h)) (w_out w));
    if err <? 0 then mret (err, sk, p, w)
    else
      s ← w_lib w;
      '(ev, h) ← sweep_marked ops_at s.2 c change_cb;
      mret (0, sk, p, World (Done (s.1 ++ ev, h)) (w_out w)).

(** [a1] to [a3]: the allocations of the cache; [None] for the result on error. *)
Definition nl_cache_alloc_and_fill (tries : nat) (a1 a2 a3 c0 : bool) (ops : Z)
    (sock : option nl_sock) (p : port_map) (w : W)
    : exec (Z * option Z * option nl_sock * port_map * W) :=
  s ← w_lib w;
  let '(cache, h) := nl_cache_alloc ops_at cops_at a1 a2 a3 s.2 ops in
  let w := World (Done (s.1, h)) (w_out w) in
  match cache with
  | None => mret (- NLE_NOMEM, None, sock, p, w)
  | Some c =>
      match sock with
      | None => mret (0, Some c, sock, p, w)
      | Some sk =>
          '(err, sk, p, w) ← nl_cache_refill tries c0 sk p c w;
          if err <? 0 then
            s ← w_lib w;
            h ← nl_cache_free ops_at s.2 (Some c);
            mret (err, None, Some sk, p, World (Done (s.1, h)) (w_out w))
          else mret (0, Some c, Some sk, p, w)
      end
  end.

(** ** Walking over a cache with a function of the application

    The function does not change the heap. *)
Definition nl_cache_foreach_filter {S} h c (filter : option (nl_object D)) (cb : Z -> S -> S) (s : S)
    : exec (heap D * S) :=
  x ← get_cache h c;
  if c_ops x =? 0 then Bug
  else
    r ← nl_list_for_each_entry_safe (fun st => h_links st.1)
          (fun n '(h, s) =>
             o ← entry n;
             obj ← get_obj h o;
             m ← (match filter with
                  | Some f => nl_object_match_filter ops_at obj f
                  | None => mret true
                  end);
             if m : bool then
               h ← nl_object_get h o;
               let s := cb o s in
               h ← nl_object_put ops_at h (Some o);
               mret (inr (h, s) : unit + (heap D * S))
             else mret (inr (h, s)))
          (loop_bound h) (NCache c) (h, s);
    match r with inl _ => Fault | inr s => mret s end.
Definition nl_cache_foreach {S} h c (cb : Z -> S -> S) (s : S) : exec (heap D * S) :=
  nl_cache_foreach_filter h c None cb s.
End CacheDump.

(** ** Picking up a single answer (lib/nl.c) *)

Section Pickup.
Context {D V : Type}.
Variable ops_at : Z -> nl_object_ops D.

(** The heap, and the result and the error of the kernel in struct pickup_param. *)
Record pickup_param := { pk_heap : heap D; pk_result : option Z; pk_syserror : Z }.
Abbreviation W := (world pickup_param V).

Definition __store_answer (s : pickup_param) (h : heap D) (o : Z) : exec pickup_param :=
  h ← nl_object_get h o;
  mret {| pk_heap := h; pk_result := Some o; pk_syserror := pk_syserror s |}.

(** A parser as the pickup functions take it: the callback stores the object. *)
Definition pickup_parser : Type :=
  option sockaddr_nl -> list Z -> (pickup_param -> heap D -> Z -> exec pickup_param) ->
  pickup_param -> exec (Z * pickup_param).

Definition __pickup_answer (parse : pickup_parser) (msg : nl_msg) (s : pickup_param)
    : exec (Z * pickup_param) :=
  parse (Some (nm_src msg)) (nm_nlh msg) __store_answer s.

(** [e]: the bytes of struct nlmsgerr. *)
Definition __pickup_answer_syserr (e : list Z) (s : pickup_param) : exec (Z * pickup_param) :=
  error ← (s32 <$> get_u32 e 0);
  mret (- nl_syserr2nlerr error,
        {| pk_heap := pk_heap s; pk_result := pk_result s; pk_syserror := error |}).

Variable app : Z -> Z -> Z -> nl_msg -> V -> Z * V.
Variable app_err : Z -> Z -> sockaddr_nl -> list Z -> V -> Z * V.
Variable recvmsg : Z -> Z -> Z -> W -> (Z + rcv) * W.
Variable recv_ow : Z -> nl_sock -> W -> exec (recv_out * W).
Variable recvmsgs_ow : Z -> nl_sock -> nl_cb -> W -> exec (Z * rstate (W := W)).
Variable rfuel : nat.
Variable mem : recv_mem.
Variable page_size : Z.

(** [syserror]: whether the caller wants the error of the kernel; the object is
    stored for the caller when the result is not negative. *)
Definition nl_pickup_keep_syserr (fuel : nat) (c c1 c2 : bool) (sk : nl_sock)
    (parse : pickup_parser) (h : heap D) (v : V) (syserror : bool)
    : exec (Z * option Z * Z * heap D * nl_sock * V) :=
  match nl_cb_clone c (s_cb sk) with
  | None => mret (- NLE_NOMEM, None, 0, h, sk, v)
  | Some cb =>
      let cb := (nl_cb_set cb NL_CB_VALID NL_CB_CUSTOM (Some (msg_cb_user own_cb)) 0).2 in
      let cb := if syserror then (nl_cb_err cb NL_CB_CUSTOM (Some (err_cb_user own_cb)) 0).2 else cb in
      let s := {| pk_heap := h; pk_result := None; pk_syserror := 0 |} in
      '(err, st) ← nl_recvmsgs (lib_user (__pickup_answer parse) app)
                     (lib_user_err __pickup_answer_syserr app_err) recvmsg recv_ow rfuel mem
                     page_size recvmsgs_ow fuel c1 c2 sk cb (World (Done s) v);
      _ ← nl_cb_put (Some (r_cb st));
      s ← w_lib (r_w st);
      mret (err, if err <? 0 then None else pk_result s, pk_syserror s, pk_heap s, r_sk st,
            w_out (r_w st))
  end.

Definition nl_pickup (fuel : nat) (c c1 c2 : bool) (sk : nl_sock) (parse : pickup_parser)
    (h : heap D) (v : V) : exec (Z * option Z * heap D * nl_sock * V) :=
  '(err, result, _, h, sk, v) ← nl_pickup_keep_syserr fuel c c1 c2 sk parse h v false;
  mret (err, result, h, sk, v).
End Pickup.

(** ** What a dump leaves in a cache *)

Section Refill.
Context {D : Type} {EV : Env D} {EK : EnvOk EV} (zero : D).
Implicit Types (h : heap D) (o c : Z).

(** Whether an object with the attributes [b] is identical to one of the items. *)
Definition clashes h (kind : Z) (l : list Z) (b : body D) : Prop :=
  exists y, y ∈ l /\ exists by_, kv h y = Some (kind, by_) /\ identical_by (ops_at kind) by_ b = true.

Lemma kv_lookup h o p b : kv h o = Some (p, b) -> exists obj, h_objs h !! o = Some obj /\ ce_ops obj = p /\ ce_body obj = b.
Proof. apply kv_inv. Qed.

(** A freshly parsed object goes into the cache. *)
Lemma fresh_add h items ext c x o obj :
  inv h items ext -> h_caches h !! c = Some x -> h_objs h !! o = Some obj -> ce_cache obj = 0 ->
  0 < ext o -> ce_ops obj = co_obj_ops (cops_at (c_ops x)) ->
  (is_Some (c_hashtable x) -> ~ clashes h (ce_ops obj) (items c) (ce_body obj)) ->
  nl_list_empty (h_links h) (NObj o) = Done true ->
  exists h', (
      '(err, h) ← nl_cache_add ops_at cops_at zero true true h c o;
      h ← nl_object_put ops_at h (Some o); mret (err, h)) = Done (0, h') /\
    inv h' (set_items items c (items c ++ [o])) (ext_add ext o (-1)) /\ preserves h h'.
Proof.
  intros Hi Hc Ho Hco He Hk Hno Hle.
  destruct (add_own true h items ext c x o obj Hi Hc Ho Hco Hk) as (h1 & items1 & Ha & Hi1 & Hp1 & Hr).
  assert (add_result true h x obj = 0) as Hz.
  { apply (add_result_ok h items ext c x obj Hi Hc Hk). intros Ht y Hy.
    destruct (same h y obj) eqn:Es; [|done]. exfalso. apply (Hno Ht). exists y. split; [done|].
    unfold same in Es. destruct (h_objs h !! y) as [z|] eqn:Hz; [|done]. bool_hyps.
    exists (ce_body z). rewrite (kv_some _ _ _ Hz). split; [congruence|]. congruence. }
  rewrite Hz in *. change (0 =? 0) with true in Hr. cbv iota in Hr. destruct Hr as [-> Hst].
  destruct Hst as (obj0 & obj1 & Ho0 & Ho1 & Hc1 & _).
  destruct (inv_put h1 _ ext o obj1 Hi1 Ho1 He) as (h2 & Hput & Hi2 & Hs2 & Ho2).
  pose proof (wf_obj _ _ _ (inv_wf _ _ _ Hi1) o obj1 Ho1) as (_ & _ & _ & _ & Hcnt & _ & _).
  pose proof (wf_cache _ _ _ (inv_wf _ _ _ Hi) c x Hc) as (Hc0 & _).
  pose proof (table_refs_nonneg (h_caches h1) o).
  rewrite Hc1, (proj2 (Z.eqb_neq c 0)) in Hcnt by lia.
  rewrite (proj2 (Z.eqb_neq (ce_refcnt obj1) 1)) in Ho2 by lia.
  exists h2. split; [|split; [done|]].
  - unfold nl_cache_add. rewrite (get_cache_done _ _ _ Hc). exec_simpl.
    rewrite (get_obj_done _ _ _ Ho). exec_simpl. rewrite <- Hk, Z.eqb_refl, Hle. exec_simpl. cbn [negb].
    revert Ha. destruct (nl_object_get h o) as [hg| | |]; [|done..]. exec_simpl.
    destruct (__cache_add ops_at true hg c o) as [[ret hh]| | |]; [|done..]. exec_simpl.
    intros Ha. destruct (if ret <? 0 then _ else _) as [hh2| | |]; [|done..]. revert Ha. exec_simpl.
    intros [= -> ->]. by rewrite Hput.
  - apply (preserves_trans h h1); [done|]. by apply (put_preserves h1 h2 o obj1).
Qed.

(** The parser makes an object with the attributes [bd] of the message [b]. *)
Definition parses (parse : parser_t (D := D)) (kind : Z) (b : list Z) (bd : body D) : Prop :=
  forall who cb h, parse who b cb h =
    object_parser ops_at zero true kind (fun _ => Done (inr bd)) who b cb h.

(** One message of a dump: parsed, added, and released. *)
Lemma pickup_message h items ext c x b parse bd who :
  inv h items ext -> h_caches h !! c = Some x -> 16 <= zlen b ->
  let kind := co_obj_ops (cops_at (c_ops x)) in
  parses parse kind b bd ->
  (is_Some (c_hashtable x) -> ~ clashes h kind (items c) bd) ->
  exists h', parse who b (pickup ops_at cops_at zero true true c) h =
      Done (0, [], h') /\
    inv h' (set_items items c (items c ++ [h_next h])) ext /\ preserves h h' /\
    kv h' (h_next h) = Some (kind, bd).
Proof.
  intros Hi Hc Hb kind Hd Hno.
  destruct (wf_cache _ _ _ (inv_wf _ _ _ Hi) c x Hc) as (Hc0 & Hops & _).
  destruct (caches_ok _ Hops) as [Hk0 _]. fold kind in Hk0.
  rewrite Hd. unfold object_parser. destruct (alloc_done true zero h kind Hk0) as (d & Hal).
  rewrite Hal. exec_simpl. unfold nlmsg_type. rewrite get_u16_done by lia. exec_simpl.
  set (o := h_next h). set (t := le_at 2 b (0 + 4)).
  match goal with |- context [new_obj h ?ob] => set (obj0 := ob) end.
  rewrite (get_obj_done _ o _ (new_obj_lookup h obj0)). exec_simpl. cbv zeta. cbn [ce_refcnt ce_ops ce_cache ce_flags obj0].
  unfold o. rewrite put_new_obj. fold o.
  set (obj1 := {| ce_refcnt := 1; ce_ops := kind; ce_cache := 0; ce_msgtype := t; ce_flags := 0; ce_body := bd |}).
  destruct (inv_new_obj h items ext obj1 Hi) as [Hi1 Hp1]; [done..|].
  pose proof (new_obj_lookup h obj1) as Ho1. fold o in Ho1, Hi1.
  assert (h_objs h !! o = None) as Hfresh by (by apply (fresh_obj _ _ _ (inv_wf _ _ _ Hi))).
  destruct (inv_wf _ _ _ Hi) as [_ _ _ _ Hnob _]. destruct (Hnob o Hfresh) as [Hext _].
  destruct (fresh_add (new_obj h obj1) items (ext_add ext o 1) c x o obj1 Hi1) as (h' & Hrun & Hi' & Hp');
    [done|done|done|rewrite ext_add_eq; lia|done| | |].
  - cbn [ce_ops ce_body obj1]. intros Ht (y & Hy & by_ & Hkv & Hid). apply (Hno Ht). exists y. split; [done|].
    exists by_. split; [|done]. rewrite <- Hkv. symmetry. apply Hp1.
    by apply (items_exist _ _ _ c y (inv_wf _ _ _ Hi)).
  - unfold nl_list_empty, get_next, new_obj. simpl. unfold nl_init_list_head, NL_INIT_LIST_HEAD.
    rewrite lookup_insert_eq. exec_simpl. simpl. by rewrite bool_decide_true.
  - exists h'. unfold pickup, quiet, pickup_cb. revert Hrun.
    destruct (nl_cache_add _ _ _ _ _ (new_obj h obj1) c o) as [[e hh]| | |]; [|done..]. exec_simpl.
    destruct (nl_object_put ops_at hh (Some o)) as [hh2| | |]; [|done..]. exec_simpl. intros [= -> ->].
    split; [done|]. split; [|split].
    + apply (inv_ext _ _ (ext_add (ext_add ext o 1) o (-1))); [|done]. intros o'. symmetry.
      by apply ext_add_back.
    + by apply (preserves_trans h (new_obj h obj1)).
    + destruct Hp' as [_ Hp']. rewrite Hp' by (by eexists). by rewrite (kv_some _ _ _ Ho1).
Qed.

(** *** The messages of a dump *)

Section Messages.
Context {V : Type}.
Variable parse : parser_t (D := D).
Variable c : Z.
Variable ops : nl_cache_ops.
Abbreviation kind := (co_obj_ops ops).
Abbreviation state := (list change * heap D)%type.

(** A message the cache takes, and what it says. *)
Definition accepts (b : list Z) (bd : body D) : Prop :=
  16 <= zlen b /\ nlmsg_valid_hdr b 0 (co_hdrsize ops) = Done true /\
  (exists ty t, nlmsg_type b 0 = Done ty /\ find_msgtype (co_msgtypes ops) ty = Some t) /\
  parses parse kind b bd.

(** No two of the objects would be identical; only a cache with a table minds. *)
Fixpoint no_clash (table : bool) (l : list (body D)) : Prop :=
  match l with
  | [] => True
  | b :: l => (table = true -> Forall (fun b' => identical_by (ops_at kind) b b' = false) l) /\
              no_clash table l
  end.

Lemma no_clash_snoc table l b :
  no_clash table (l ++ [b]) -> table = true ->
  Forall (fun b' => identical_by (ops_at kind) b' b = false) l.
Proof.
  induction l as [|b1 l IH]; simpl; intros H Ht; [constructor|]. destruct H as [H1 H2].
  constructor; [|by apply IH]. specialize (H1 Ht). apply Forall_app in H1 as [_ H1].
  by apply Forall_cons in H1 as [? _].
Qed.

Lemma no_clash_app table l k : no_clash table (l ++ k) -> no_clash table l.
Proof.
  induction l as [|b l IH]; simpl; [done|]. intros [H1 H2]. split; [|by apply IH].
  intros Ht. by apply Forall_app in H1 as [? _].
Qed.

(** The cache [c], whose kind has the operations [ops], was empty and has got the
    objects [bds]; [w0] is the state before. *)
Definition filled (w0 : heap D) (items : Z -> list Z) ext (ev : list change) (table : bool)
    (bds : list (body D)) (a : exec state) : Prop :=
  exists h news x, a = Done (ev, h) /\ inv h (set_items items c news) ext /\ preserves w0 h /\
    h_caches h !! c = Some x /\ cops_at (c_ops x) = ops /\
    table = bool_decide (is_Some (c_hashtable x)) /\
    map (kv h) news = map (fun bd => Some (kind, bd)) bds.

Lemma parse_types_first types ty t who b cb ev h err ev' h' :
  find_msgtype types ty = Some t -> parse who b cb h = Done (err, ev', h') -> err <> - NLE_OPNOTSUPP ->
  parse_types parse types ty who b cb ev h = Done (err, ev ++ ev', h').
Proof.
  intros Hf Hp He. induction types as [|t' types IH]; simpl in *; [done|].
  destruct (mt_id t' =? ty); [|by apply IH]. rewrite Hp. exec_simpl.
  by rewrite (proj2 (Z.eqb_neq err _)) by done.
Qed.

Definition act (m : nl_msg) (a : exec state) : exec state :=
  snd <$> (s ← a; update_msg_parser ops parse (pickup ops_at cops_at zero true true c) m s).

Definition good (w0 : heap D) items ext ev table (m : nl_msg) (a : exec state) : Prop :=
  exists bds bd, filled w0 items ext ev table bds a /\ accepts (nm_nlh m) bd /\
    no_clash table (bds ++ [bd]).

Lemma filled_step w0 items ext ev table bds bd m a :
  filled w0 items ext ev table bds a -> accepts (nm_nlh m) bd -> no_clash table (bds ++ [bd]) ->
  exists h', (s ← a; update_msg_parser ops parse (pickup ops_at cops_at zero true true c) m s) =
      Done (0, (ev, h')) /\ filled w0 items ext ev table (bds ++ [bd]) (Done (ev, h')).
Proof.
  intros (h & news & x & -> & Hi & Hp & Hc & Hx & -> & Hkv) (Hb & Hv & (ty & t & Hty & Hf) & Hd) Hn.
  assert (forall y, y ∈ news -> exists b, kv h y = Some (kind, b) /\ b ∈ bds) as Hin.
  { intros y Hy. apply list_elem_of_lookup in Hy as [i Hi'].
    assert (map (kv h) news !! i = Some (kv h y)) as He by (by rewrite list_lookup_fmap, Hi').
    rewrite Hkv, list_lookup_fmap in He. destruct (bds !! i) as [b|] eqn:Eb; [|done].
    injection He as He. exists b. split; [done|]. by eapply list_elem_of_lookup_2. }
  destruct (pickup_message h (set_items items c news) ext c x (nm_nlh m) parse bd
    (Some (nm_src m)) Hi Hc Hb) as (h' & Hrun & Hi' & Hp' & Hkv'); [by rewrite Hx| |].
  { rewrite Hx, set_items_eq. intros Ht (y & Hy & b & Hyb & Hid).
    destruct (Hin y Hy) as (b' & Hyb' & Hb'). assert (b = b') as -> by congruence.
    apply no_clash_snoc in Hn; [|by apply bool_decide_eq_true].
    rewrite Forall_forall in Hn. by rewrite (Hn b' Hb') in Hid. }
  rewrite Hx, set_items_eq in *. exists h'. split.
  - exec_simpl. unfold update_msg_parser, nl_cache_parse. cbn [snd fst]. rewrite Hv. exec_simpl. cbn [negb].
    rewrite Hty. exec_simpl.
    rewrite (parse_types_first _ _ _ _ _ _ _ _ _ _ _ Hf Hrun) by done. exec_simpl.
    change (0 =? - NLE_EXIST) with false. cbv iota. by rewrite !app_nil_r.
  - exists h', (news ++ [h_next h]).
    assert (is_Some (cviews h' c)) as [v Hv'].
    { destruct Hp' as [Hv' _]. rewrite Hv'. unfold cviews. rewrite Hc. by eexists. }
    unfold cviews in Hv'. destruct (h_caches h' !! c) as [x'|] eqn:Hc'; [|done].
    assert (cview x' = cview x) as Hcv.
    { destruct Hp' as [Hcv _]. specialize (Hcv c). unfold cviews in Hcv. rewrite Hc, Hc' in Hcv.
      simpl in Hcv. congruence. }
    exists x'. split; [done|]. split; [|split; [|split; [|split; [|split]]]].
    + apply (inv_items_ext _ (set_items (set_items items c news) c (news ++ [h_next h]))); [|done].
      intros c'. unfold set_items. by case_decide.
    + by apply (preserves_trans w0 h).
    + done.
    + apply (f_equal (fun v => v.1.1.1)) in Hcv. simpl in Hcv. by rewrite Hcv.
    + apply (f_equal snd) in Hcv. simpl in Hcv. done.
    + rewrite !map_app. simpl. rewrite Hkv', <- Hkv. f_equal. apply map_ext_in. intros y Hy.
      apply list_elem_of_In in Hy. apply Hp'. destruct (Hin y Hy) as (b & Hyb & _).
      apply kv_is_some. by eexists.
Qed.

(** The states along a dump. *)
Lemma filled_all src proto w0 items ext ev table l : forall bds0 bds a,
  filled w0 items ext ev table bds0 a ->
  Forall2 (fun m bd => accepts (wm_bytes m) bd) l bds -> no_clash table (bds0 ++ bds) ->
  all_good src act (good w0 items ext ev table) proto l a /\
  filled w0 items ext ev table (bds0 ++ bds)
    (fold_left (fun a m => act (delivered proto src m) a) l a).
Proof.
  induction l as [|m l IH]; intros bds0 bds a Hf H2 Hn; inversion H2 as [|m' bd l' bds' Hm Hl]; simplify_eq; simpl.
  { by rewrite app_nil_r. }
  assert (bds0 ++ bd :: bds' = (bds0 ++ [bd]) ++ bds') as Heq by (by rewrite <- app_assoc).
  rewrite Heq in *. pose proof (no_clash_app _ _ _ Hn) as Hn1.
  destruct (filled_step w0 items ext ev table bds0 bd (delivered proto src m) a Hf Hm Hn1) as (h' & Hr & Hf').
  assert (act (delivered proto src m) a = Done (ev, h')) as Ha by (unfold act; by rewrite Hr).
  rewrite Ha. destruct (IH (bds0 ++ [bd]) bds' _ Hf' Hl Hn) as [Hg Hf'']. split; [|done].
  split; [|done]. by exists bds0, bd.
Qed.

(** *** The receive loop on a dump *)

Variable app : Z -> Z -> Z -> nl_msg -> V -> Z * V.
Variable app_err : Z -> Z -> sockaddr_nl -> list Z -> V -> Z * V.
Variable queue : V -> list (list Z).
Variable src : sockaddr_nl.
Abbreviation W := (world (list change * heap D) V).
Variable recvmsg : Z -> Z -> Z -> W -> (Z + rcv) * W.
Variable recv_ow : Z -> nl_sock -> W -> exec (recv_out * W).
Variable recvmsgs_ow : Z -> nl_sock -> nl_cb -> W -> exec (Z * rstate (W := W)).
Variable rfuel : nat.
Variable page : Z.
Variable fuel : nat.

Abbreviation wqueue := (fun w : W => queue (w_out w)).
Abbreviation user := (lib_user (update_msg_parser ops parse (pickup ops_at cops_at zero true true c)) app).

Lemma callbacks_good w0 items ext ev table :
  callbacks_ok wqueue (@w_lib state V) user act (good w0 items ext ev table) own_cb.
Proof.
  intros arg t m [l v] (bds & bd & Hf & Ha & Hn). simpl in Hf.
  destruct (filled_step w0 items ext ev table bds bd m l Hf Ha Hn) as (h' & Hr & _).
  unfold lib_user. rewrite Z.eqb_refl. unfold run_own. cbn [w_lib w_out]. rewrite Hr.
  split; [by left|]. split; [done|]. unfold act. cbn [w_lib]. by rewrite Hr.
Qed.

(** A socket of an application that has set no callbacks but, perhaps, one for
    valid messages. *)
Definition plain_cb (cb : nl_cb) : Prop :=
  (forall t, 0 < t -> cb_is_set cb t = false) /\ cb_recv_ow cb = None /\ cb_recvmsgs_ow cb = None /\
  cb_wf cb.

Lemma own_valid_only cb :
  plain_cb cb ->
  let cb' := (nl_cb_set (with_cb_refcnt cb 1) NL_CB_VALID NL_CB_CUSTOM (Some (msg_cb_user own_cb)) 0).2 in
  valid_only cb' own_cb /\ cb_recvmsgs_ow cb' = None /\ cb_refcnt cb' = 1.
Proof.
  intros (Hun & Hro & Hrm & [Hls Hla]). rewrite nl_cb_set_done by done. cbn [snd].
  split; [|done]. split; [|split; [|done]].
  - simpl. rewrite nth_lookup, list_lookup_insert_eq; [done|]. rewrite Hls. unfold NL_CB_VALID. lia.
  - intros t Ht. unfold cb_is_set. simpl. rewrite nth_lookup.
    rewrite list_lookup_insert_ne by (unfold NL_CB_VALID; lia).
    specialize (Hun t Ht). unfold cb_is_set in Hun. by rewrite nth_lookup in Hun.
Qed.

(** What the kernel has queued: a dump with the number [seq]. *)
Record dump_queued (seq : Z) (ds : list (list wire_msg)) (lst : list wire_msg) (dn : wire_msg)
    (rest q : list (list Z)) : Prop := {
  dq_full : Forall (fun l => l <> [] /\ Forall (data_msg seq) l /\ zlen (datagram l) < 2147483640) ds;
  dq_last : Forall (data_msg seq) lst;
  dq_done : done_msg seq dn;
  dq_size : zlen (datagram (lst ++ [dn])) < 2147483640;
  dq_queue : q = map datagram ds ++ datagram (lst ++ [dn]) :: rest
}.

Lemma pickup_dump w0 items ext ev table seq ds lst dn rest bds sk w :
  kernel_ok wqueue w_lib src recvmsg -> plain_cb (s_cb sk) -> plain_sock sk seq ->
  (2 <= rfuel)%nat -> 0 < page -> (length ds < fuel)%nat ->
  dump_queued seq ds lst dn rest (queue (w_out w)) ->
  filled w0 items ext ev table [] (w_lib w) ->
  Forall2 (fun m bd => accepts (wm_bytes m) bd) (concat ds ++ lst) bds -> no_clash table bds ->
  exists w', __cache_pickup app app_err recvmsg recv_ow recvmsgs_ow rfuel all_mem page fuel true true
      true sk ops parse (pickup ops_at cops_at zero true true c) w =
    Done (if inconsistent (concat ds ++ lst ++ [dn]) then - NLE_DUMP_INTR else 0,
          with_seq sk (s_seq_next sk) (u32 (seq + 1)), w') /\
    queue (w_out w') = rest /\ filled w0 items ext ev table bds (w_lib w').
Proof.
  intros Hk Hcb Hs Hrf Hpg Hfu [Q1 Q2 Q3 Q4 Q5] Hf H2 Hn.
  unfold __cache_pickup. change (nl_cb_clone true (s_cb sk)) with (Some (with_cb_refcnt (s_cb sk) 1)).
  cbv beta iota zeta. destruct (own_valid_only (s_cb sk) Hcb) as (Hv & Hro & Hrc). cbv zeta in Hv, Hro, Hrc.
  set (cbs := (nl_cb_set _ _ _ _ _).2) in *.
  destruct (filled_all src (s_proto sk) w0 items ext ev table (concat ds ++ lst) [] bds (w_lib w) Hf H2 Hn)
    as [Hg Hf'].
  destruct (recvmsgs_dump wqueue w_lib src recvmsg user (lib_user_err no_own app_err) recv_ow act
    (good w0 items ext ev table) rfuel page own_cb seq ds lst dn rest fuel sk cbs w)
    as (st & Hr & Hq & Ha & Hsk & Hcr); try done; [apply callbacks_good|].
  unfold nl_recvmsgs, nl_recvmsgs_report. rewrite Hro, Hr. exec_simpl.
  unfold nl_cb_put. cbn [with_cb_refcnt cb_refcnt]. rewrite Hcr, Hrc. exec_simpl.
  change (1 - 1 <? 0) with false. change (1 - 1 <=? 0) with true. cbv iota. exec_simpl.
  rewrite Ha. fold (consume src act sk (concat ds ++ lst) (w_lib w)) in Hf'.
  pose proof Hf' as (h & news & x & Hd & _). rewrite Hd. exec_simpl. exists (r_w st). rewrite Ha, Hsk.
  split; [|done]. do 2 f_equal. f_equal. destruct (inconsistent _); [done|].
  rewrite (proj2 (Z.ltb_lt 0 _)); [done|]. rewrite !zlen_app. change (zlen [dn]) with 1.
  pose proof (zlen_nonneg (concat ds)). pose proof (zlen_nonneg lst). lia.
Qed.
End Messages.

(** ** Refilling a cache *)

Section RefillSpec.
Context {V : Type}.
Variable app : Z -> Z -> Z -> nl_msg -> V -> Z * V.
Variable app_err : Z -> Z -> sockaddr_nl -> list Z -> V -> Z * V.
Variable queue : V -> list (list Z).
Variable src : sockaddr_nl.
Abbreviation W := (world (list change * heap D) V).
Variable recvmsg : Z -> Z -> Z -> W -> (Z + rcv) * W.
Variable recv_ow : Z -> nl_sock -> W -> exec (recv_out * W).
Variable recvmsgs_ow : Z -> nl_sock -> nl_cb -> W -> exec (Z * rstate (W := W)).
Variable rfuel : nat.
Variable page : Z.
Variable fuel : nat.
Variable co_request_update : Z -> option (request_t (D := D) (V := V)).
Variable co_msg_parser : Z -> parser_t (D := D).

(** The request is sent, and the kernel answers with a dump that has the number
    the socket expects next. *)
Definition answered (request : request_t) c (sk : nl_sock) (p : port_map) (v : V)
    (sk' : nl_sock) (p' : port_map) (v' : V) : Prop :=
  forall ev h x, h_caches h !! c = Some x ->
    exists n, 0 <= n /\
      request x sk p (World (Done (ev, h)) v) = Done (n, sk', p', World (Done (ev, h)) v').

Lemma one_group tries receive grp sk p c w :
  group_loop cops_at co_request_update tries receive false grp sk p c w =
  request_and_pickup cops_at co_request_update tries receive sk p c w.
Proof.
  destruct grp as [|g grp]; [done|]. cbn [group_loop]. exec_simpl.
  destruct (request_and_pickup _ _ _ _ _ _ _ _) as [[[[e s] q] w']| | |]; [|done..]. exec_simpl.
  case_test; [done|]. by destruct grp.
Qed.

End RefillSpec.
End Refill.

(** ** The drivers on small dumps

    Messages of type 20 carry a key, a value and the attribute mask; the kernel
    has one answer ready for every request. *)

Module SampleDump.
#[local] Existing Instance Sample.env.
#[local] Existing Instance Sample.env_ok.

Definition decode (b : list Z) : exec (Z + body (Z * Z)) :=
  k ← get_u8 b 16; v ← get_u8 b 17; m ← get_u8 b 18; mret (inr (Body m (k, v))).

(** The datagrams on the socket, the answers to come. *)
Definition V : Type := list (list Z) * list (list (list Z)).
Abbreviation W := (world (list change * heap (Z * Z)) V).

Definition recvmsg (flags len ctl : Z) (w : W) : (Z + rcv) * W :=
  let '(r, (q, _)) := ex_recvmsg flags len ctl ((w_out w).1, []) in
  (r, World (w_lib w) (q, (w_out w).2)).
Definition request (x : nl_cache) (sk : nl_sock) (p : port_map) (w : W)
    : exec (Z * nl_sock * port_map * W) :=
  match (w_out w).2 with
  | [] => mret (- NLE_AGAIN, sk, p, w)
  | a :: l => mret (20, sk, p, World (w_lib w) ((w_out w).1 ++ a, l))
  end.
Definition app (f arg t : Z) (m : nl_msg) (v : V) : Z * V := (NL_OK, v).
Definition app_err (f arg : Z) (who : sockaddr_nl) (e : list Z) (v : V) : Z * V := (NL_STOP, v).
Definition recv_ow (f : Z) (sk : nl_sock) (w : W) : exec (recv_out * W) := Fault.
Definition recvmsgs_ow (f : Z) (sk : nl_sock) (cb : nl_cb) (w : W) : exec (Z * rstate (W := W)) := Fault.

Definition msg (flags seq k v m : Z) : wire_msg :=
  {| wm_type := 20; wm_flags := flags; wm_seq := seq; wm_pid := 4242; wm_payload := [k; v; m] |}.
Definition fin (seq : Z) : wire_msg :=
  {| wm_type := NLMSG_DONE; wm_flags := 2; wm_seq := seq; wm_pid := 4242; wm_payload := [] |}.

Lemma kernel : kernel_ok (fun w : W => (w_out w).1) w_lib ex_src recvmsg.
Proof.
  intros flags len ctl [l [q a]] d q' Hq Hlen. simpl in Hq. subst q.
  destruct (ex_kernel_ok flags len ctl (d :: q', []) d q' eq_refl Hlen) as
    (r & [q2 l2] & He & H1 & H2 & H3 & H4 & H5 & H6 & _).
  unfold recvmsg. cbn [w_out w_lib fst]. rewrite He. exists r. eexists. split; [reflexivity|]. by split_and!.
Qed.

Lemma plain : plain_cb cb_0.
Proof.
  split; [|by split_and!]. intros t Ht. unfold cb_is_set. simpl.
  destruct (Z.to_nat t) as [|k] eqn:E; [lia|]. by do 11 (destruct k as [|k]; [done|]).
Qed.

(** The cache with the object of key 7 (see [Sample.prepare]) is refilled from a
    dump of two datagrams. *)
Definition dump1 : list (list wire_msg) := [[msg 2 7 9 1 1; msg 2 7 7 5 1]].

Definition refill tries (v : V) :=
  nl_cache_refill ops_at cops_at (0, 0) app app_err recvmsg recv_ow recvmsgs_ow 2 all_mem 16384 3
    true true (fun _ => Some request) (fun _ => object_parser ops_at (0, 0) true 1 decode)
    tries true (ex_sock cb_0) ex_ports 1 (World (Done ([], Sample.h0)) v).

Lemma parses_decode b bd :
  decode b = Done (inr bd) -> parses (0, 0) (object_parser ops_at (0, 0) true 1 decode) 1 b bd.
Proof. intros Hd who cb h. unfold object_parser. by rewrite Hd. Qed.


(** The keys and values in the cache, in order. *)
Definition contents (r : exec (Z * nl_sock * port_map * W)) : option (Z * list change * list (Z * Z)) :=
  match r with
  | Done (err, _, _, w) =>
      match w_lib w with
      | Done (ev, h) =>
          match nl_cache_foreach ops_at h 1 (fun o l => l ++ [o]) [] with
          | Done (_, l) => Some (err, ev, omap (fun o => ce_data ∘ ce_body <$> h_objs h !! o) l)
          | _ => None
          end
      | _ => None
      end
  | _ => None
  end.

(** An interrupted dump is requested again without clearing the cache: an object
    that was in the first answer and is gone in the second stays. *)
Lemma refill_keeps_stale :
  contents (refill 2 ([], [[datagram [msg 18 7 7 5 1; msg 2 7 8 2 1; fin 7]]; [datagram [msg 2 8 7 5 1; fin 8]]])) =
  Some (0, [], [(7, 5); (8, 2)]).
Proof. by vm_compute. Qed.

(** Resynchronising marks every object and only replaces marked objects; one that
    is updated in place stays marked and is taken out at the end, although the
    kernel has just reported it. *)
Definition resync tries (v : V) :=
  nl_cache_resync ops_at cops_at (0, 0) app app_err recvmsg recv_ow recvmsgs_ow 2 all_mem 16384 3
    true true (fun _ => Some request) (fun _ => object_parser ops_at (0, 0) true 1 decode)
    tries true (ex_sock cb_0) ex_ports 1 true (World (Done ([], Sample.h0)) v).

Lemma resync_drops_updated :
  contents (resync 1 ([], [[datagram [msg 2 7 7 6 3; fin 7]]])) =
  Some (0, [Changed 1 2 NL_ACT_CHANGE; Changed 1 2 NL_ACT_DEL], []).
Proof. by vm_compute. Qed.

(** An answer of two objects: the reference to the first one is lost. *)
Definition answer_parser : pickup_parser (D := Z * Z) := fun who b cb s =>
  '(r, h) ← nl_object_alloc ops_at true (0, 0) (pk_heap s) 1;
  match r with
  | None => mret (- NLE_NOMEM, s)
  | Some o =>
      s ← cb s h o;
      h ← nl_object_put ops_at (pk_heap s) (Some o);
      mret (0, {| pk_heap := h; pk_result := pk_result s; pk_syserror := pk_syserror s |})
  end.
Definition precvmsg (flags len ctl : Z) (w : world (pickup_param (D := Z * Z)) V)
    : (Z + rcv) * world pickup_param V :=
  let '(r, (q, _)) := ex_recvmsg flags len ctl ((w_out w).1, []) in
  (r, World (w_lib w) (q, (w_out w).2)).
Definition answer (v : V) :=
  '(err, result, h, _, _) ← nl_pickup (D := Z * Z) app app_err precvmsg (fun _ _ _ => Fault) (fun _ _ _ _ => Fault)
     2 all_mem 16384 3 true true true (ex_sock cb_0) answer_parser
     {| h_objs := ∅; h_caches := ∅; h_links := ∅; h_next := 1 |} v;
  mret (err, result, ce_refcnt <$> h_objs h !! 1, ce_refcnt <$> h_objs h !! 2).

Lemma pickup_loses_first :
  answer ([datagram [msg 2 7 7 6 3; msg 2 7 8 6 3; fin 7]], []) = Done (0, Some 2, Some 1, Some 1).
Proof. by vm_compute. Qed.
End SampleDump.
