(* ===== verification/CString.v ===== *)
(** Character strings: the part of <string.h>, <stdlib.h> and <stdio.h> the
    library uses, in the C locale.

    A string is the list of its characters as values of unsigned char, without
    the terminating zero; a pointer into a string is the rest of the string
    from there.  The content of a character buffer is the string it holds. *)
From S2P Require Import Prelude.

(** ** Literals *)

Definition chr (c : Ascii.ascii) : Z := Z.of_N (Ascii.N_of_ascii c).
Fixpoint str (s : string) : list Z :=
  match s with
  | EmptyString => []
  | String c s => chr c :: str s
  end.

(** ** Characters *)

Definition isspace (c : Z) : bool := (c =? 32) || ((9 <=? c) && (c <=? 13)).
Definition tolower (c : Z) : Z := if (65 <=? c) && (c <=? 90) then c + 32 else c.

(** The value of a digit in a base up to 36. *)
Definition digit (c : Z) : Z :=
  if (48 <=? c) && (c <=? 57) then c - 48
  else if (97 <=? c) && (c <=? 122) then c - 87
  else if (65 <=? c) && (c <=? 90) then c - 55
  else 36.
Definition dchar (d : Z) : Z := if d <? 10 then 48 + d else 87 + d.

(** ** Comparing and searching *)

(** Whether [strcasecmp] and [strncasecmp] return 0. *)
Fixpoint strcaseeq (a b : list Z) : bool :=
  match a, b with
  | [], [] => true
  | x :: a, y :: b => (tolower x =? tolower y) && strcaseeq a b
  | _, _ => false
  end.
Fixpoint strncaseeq (n : nat) (a b : list Z) : bool :=
  match n, a, b with
  | O, _, _ => true
  | S n, x :: a, y :: b => (tolower x =? tolower y) && strncaseeq n a b
  | S _, [], [] => true
  | _, _, _ => false
  end.

(** [strchr]: the rest of the string from the first [c]. *)
Fixpoint strchr (l : list Z) (c : Z) : option (list Z) :=
  match l with
  | [] => None
  | x :: r => if x =? c then Some l else strchr r c
  end.

(** [strcspn]: the length of the part before the first of the characters [cs]. *)
Fixpoint strcspn (l cs : list Z) : Z :=
  match l with
  | [] => 0
  | x :: r => if bool_decide (x ∈ cs) then 0 else 1 + strcspn r cs
  end.

(** The part of a string before the first [c]. *)
Definition before (l : list Z) (c : Z) : list Z := take (Z.to_nat (strcspn l [c])) l.

(** ** Reading numbers *)

Definition LONG_MAX : Z := 2 ^ 63 - 1.
Definition LONG_MIN : Z := - 2 ^ 63.
Definition ULONG_MAX : Z := 2 ^ 64 - 1.

Fixpoint skip_spaces (l : list Z) : list Z :=
  match l with
  | c :: r => if isspace c then skip_spaces r else l
  | [] => []
  end.

(** The digits at the start of [l] after a number of value [acc]. *)
Fixpoint digits (base acc : Z) (l : list Z) : Z * list Z :=
  match l with
  | c :: r => if digit c <? base then digits base (acc * base + digit c) r else (acc, l)
  | [] => (acc, l)
  end.

Definition starts_digit (base : Z) (l : list Z) : bool :=
  match l with c :: _ => digit c <? base | [] => false end.

(** The sign and the base prefix. *)
Definition sign_of (l : list Z) : bool * list Z :=
  match l with
  | c :: r => if c =? 45 then (true, r) else if c =? 43 then (false, r) else (false, l)
  | [] => (false, l)
  end.
Definition base_of (base : Z) (l : list Z) : Z * list Z :=
  match l with
  | 48 :: c :: r =>
      if ((base =? 0) || (base =? 16)) && (tolower c =? 120) && starts_digit 16 r then (16, r)
      else (if base =? 0 then 8 else base, l)
  | 48 :: _ => (if base =? 0 then 8 else base, l)
  | _ => (if base =? 0 then 10 else base, l)
  end.

(** Sign, value and rest of the number at the start of a string, if there is one. *)
Definition number (base : Z) (l : list Z) : option (bool * Z * list Z) :=
  let '(neg, l) := sign_of (skip_spaces l) in
  let '(base, l) := base_of base l in
  if starts_digit base l then let '(v, r) := digits base 0 l in Some (neg, v, r) else None.

(** The result of [strtol] and [strtoul]; [None] when there is no number: the
    value is 0 then and the end pointer is the start of the string. *)
Definition strtol (base : Z) (l : list Z) : option (Z * list Z) :=
  match number base l with
  | Some (neg, v, r) =>
      let v := if neg : bool then - v else v in
      Some (if v <? LONG_MIN then LONG_MIN else if LONG_MAX <? v then LONG_MAX else v, r)
  | None => None
  end.
Definition strtoul (base : Z) (l : list Z) : option (Z * list Z) :=
  match number base l with
  | Some (neg, v, r) =>
      Some (if ULONG_MAX <? v then ULONG_MAX else if neg : bool then u64 (- v) else v, r)
  | None => None
  end.

(** ** Writing numbers *)

Fixpoint print_digits (fuel : nat) (base n : Z) : list Z :=
  match fuel with
  | O => []
  | S f => (if n <? base then [] else print_digits f base (n / base)) ++ [dchar (n mod base)]
  end.
(** The digits of a number that is not negative, lower case. *)
Definition print (base n : Z) : list Z := print_digits (S (Z.to_nat (Z.log2 n))) base n.

(** [%u], [%x] and [%02x] of an int, [PRIu64]. *)
Definition print_u (v : Z) : list Z := print 10 (u32 v).
Definition print_x (v : Z) : list Z := print 16 (u32 v).
Definition print_02x (v : Z) : list Z :=
  let l := print_x v in if (length l <? 2)%nat then 48 :: l else l.

(** ** Writing to buffers *)

(** [snprintf (buf, size, ...)] where the formatted text is [text] and the
    buffer held [old]: the content it leaves (it returns the length of
    [text]). *)
Definition snprintf (old : list Z) (size : Z) (text : list Z) : list Z :=
  if size <=? 0 then old else take (Z.to_nat (size - 1)) text.

(** [strncpy(buf, s, n)]: [s] up to its end or [n] characters, then zeros up to
    [n] in all. *)
Definition strncpy (buf : list Z) (s : option (list Z)) (n : Z) : exec (list Z) :=
  match s with
  | None => Fault
  | Some s => store buf 0 (take (Z.to_nat n) s ++ zeros (n - zlen (take (Z.to_nat n) s)))
  end.

(** [strncat (buf, s, n)]. *)
Definition strncat (buf s : list Z) (n : Z) : list Z := buf ++ take (Z.to_nat n) s.

(** [strncat (buf, s, size - strlen (buf) - 1)], the idiom of the library; with no
    room for the terminating zero the limit wraps around. *)
Definition strncat_room (buf s : list Z) (size : Z) : exec (list Z) :=
  if size <=? zlen buf then Fault else Done (strncat buf s (size - zlen buf - 1)).

(** ** Lemmas *)

Lemma dchar_digit d : 0 <= d < 36 -> digit (dchar d) = d.
Proof.
  intros. unfold digit, dchar. destruct (d <? 10) eqn:E; bool_hyps; repeat case_test; bool_hyps; try lia;
    destruct E0; bool_hyps; lia.
Qed.

Lemma digits_app base acc l r :
  Forall (fun c => digit c < base) l ->
  digits base acc (l ++ r) = digits base (foldl (fun a c => a * base + digit c) acc l) r.
Proof.
  intros Hl. revert acc. induction Hl as [|c l Hc Hl IH]; intros acc; [done|]. simpl.
  rewrite (proj2 (Z.ltb_lt _ _)) by done. apply IH.
Qed.

Lemma digits_stop base acc r : starts_digit base r = false -> digits base acc r = (acc, r).
Proof. destruct r as [|c r]; [done|]. simpl. by intros ->. Qed.

Lemma print_digits_ok fuel base n :
  2 <= base <= 36 -> 0 <= n -> n < 2 ^ Z.of_nat fuel ->
  Forall (fun c => 0 <= digit c < base) (print_digits fuel base n) /\
  foldl (fun a c => a * base + digit c) 0 (print_digits fuel base n) = n.
Proof.
  intros Hb. revert n. induction fuel as [|f IH]; intros n Hn Hf.
  { change (Z.of_nat 0) with 0 in Hf. rewrite Z.pow_0_r in Hf. split; [constructor|]. simpl. lia. }
  rewrite Nat2Z.inj_succ, Z.pow_succ_r in Hf by lia. cbn [print_digits].
  assert (0 <= n mod base < base) as Hm by (apply Z.mod_pos_bound; lia).
  assert (digit (dchar (n mod base)) = n mod base) as Hd by (apply dchar_digit; lia).
  assert (Forall (fun c => 0 <= digit c < base) [dchar (n mod base)]) as Hl.
  { constructor; [by rewrite Hd|constructor]. }
  destruct (n <? base) eqn:E; bool_hyps.
  - split; [done|]. simpl. rewrite Hd, Z.mod_small by lia. lia.
  - assert (n / base < 2 ^ Z.of_nat f).
    { apply Z.div_lt_upper_bound; [lia|]. apply Z.lt_le_trans with (2 * 2 ^ Z.of_nat f); [done|].
      apply Z.mul_le_mono_nonneg_r; [apply Z.pow_nonneg; lia|lia]. }
    destruct (IH (n / base)) as [H1 H2]; [apply Z.div_pos; lia|done|]. split.
    + by apply Forall_app.
    + rewrite foldl_app, H2. simpl. rewrite Hd. pose proof (Z.div_mod n base). lia.
Qed.

Lemma print_ok base n :
  2 <= base <= 36 -> 0 <= n ->
  Forall (fun c => 0 <= digit c < base) (print base n) /\
  foldl (fun a c => a * base + digit c) 0 (print base n) = n.
Proof.
  intros Hb Hn. apply print_digits_ok; [done|done|]. rewrite Nat2Z.inj_succ.
  rewrite Z2Nat.id by apply Z.log2_nonneg. destruct (decide (n = 0)) as [->|]; [done|].
  apply Z.log2_spec. lia.
Qed.

(** Reading back what was written. *)
Lemma digits_print base n r :
  2 <= base <= 36 -> 0 <= n -> starts_digit base r = false ->
  digits base 0 (print base n ++ r) = (n, r).
Proof.
  intros Hb Hn Hr. destruct (print_ok base n Hb Hn) as [H1 H2].
  rewrite digits_app; [by rewrite H2, digits_stop|].
  apply (Forall_impl _ _ _ H1). simpl. lia.
Qed.

Lemma print_ne base n : 2 <= base <= 36 -> 0 <= n -> print base n <> [].
Proof. unfold print. simpl. intros _ _. by destruct (if n <? base then _ else _). Qed.

(** A printed number starts with no zero unless it is zero. *)
Lemma print_digits_lead fuel base n :
  2 <= base <= 36 -> 0 < n -> n < 2 ^ Z.of_nat fuel ->
  exists c r, print_digits fuel base n = c :: r /\ 0 < digit c < base /\ c <> 48.
Proof.
  intros Hb. revert n. induction fuel as [|f IH]; intros n Hn Hf.
  { change (Z.of_nat 0) with 0 in Hf. rewrite Z.pow_0_r in Hf. lia. }
  rewrite Nat2Z.inj_succ, Z.pow_succ_r in Hf by lia. cbn [print_digits].
  destruct (n <? base) eqn:E; bool_hyps.
  - rewrite Z.mod_small by lia. exists (dchar n), []. rewrite dchar_digit by lia. split; [done|].
    split; [lia|]. unfold dchar. case_test; bool_hyps; lia.
  - destruct (IH (n / base)) as (c & r & -> & H).
    + apply Z.div_str_pos. lia.
    + apply Z.div_lt_upper_bound; [lia|]. apply Z.lt_le_trans with (2 * 2 ^ Z.of_nat f); [done|].
      apply Z.mul_le_mono_nonneg_r; [apply Z.pow_nonneg; lia|lia].
    + by eexists c, _.
Qed.

Lemma print_lead base n :
  2 <= base <= 36 -> 0 < n -> exists c r, print base n = c :: r /\ 0 < digit c < base /\ c <> 48.
Proof.
  intros Hb Hn. apply print_digits_lead; [done|done|]. rewrite Nat2Z.inj_succ.
  rewrite Z2Nat.id by apply Z.log2_nonneg. apply Z.log2_spec. lia.
Qed.

Lemma digit_char c : 0 <= digit c < 36 -> 48 <= c <= 122 /\ isspace c = false /\ c <> 43 /\ c <> 45.
Proof.
  unfold digit. intros H. assert (48 <= c <= 122) by (revert H; repeat case_test; bool_hyps; lia).
  split; [done|]. unfold isspace. split; [|lia].
  rewrite (proj2 (Z.eqb_neq c 32)), (proj2 (Z.leb_gt c 13)) by lia. by rewrite andb_false_r.
Qed.

Lemma number_digit base c r :
  0 <= digit c < 36 -> number base (c :: r) =
    let '(base, l) := base_of base (c :: r) in
    if starts_digit base l then let '(v, r) := digits base 0 l in Some (false, v, r) else None.
Proof.
  intros Hc. destruct (digit_char c Hc) as (_ & Hs & H1 & H2). unfold number. cbn [skip_spaces].
  rewrite Hs. cbn [sign_of]. by rewrite !(proj2 (Z.eqb_neq _ _)) by done.
Qed.

Lemma base_of_fixed base l :
  base <> 0 -> base <> 16 -> base_of base l = (base, l).
Proof.
  intros H0 H16. unfold base_of. rewrite (proj2 (Z.eqb_neq base 0)), (proj2 (Z.eqb_neq base 16)) by done.
  repeat (case_match; subst; try done).
Qed.

Lemma base_of_lead base c r : c <> 48 -> base_of base (c :: r) = (if base =? 0 then 10 else base, c :: r).
Proof. intros Hc. unfold base_of. repeat (case_match; subst; try done). Qed.

(** Reading a decimal number back, in base 0 or 10. *)
Lemma number_print base n r :
  base = 0 \/ base = 10 -> 0 <= n -> starts_digit 10 r = false ->
  (n = 0 -> forall c r', r = c :: r' -> tolower c <> 120) ->
  number base (print 10 n ++ r) = Some (false, n, r).
Proof.
  intros Hb Hn Hr Hx. pose proof (digits_print 10 n r ltac:(lia) Hn Hr) as Hd.
  destruct (decide (n = 0)) as [->|Hnz].
  - change (print 10 0) with [48] in *. cbn [app] in *. rewrite number_digit by done.
    assert (exists b, base_of base (48 :: r) = (b, 48 :: r) /\ (b = 8 \/ b = 10)) as (b & -> & Hb8).
    { unfold base_of. destruct r as [|c r'].
      - exists (if base =? 0 then 8 else base). split; [done|]. destruct Hb as [-> | ->]; auto.
      - exists (if base =? 0 then 8 else base). rewrite (proj2 (Z.eqb_neq (tolower c) 120)).
        + rewrite andb_false_r, andb_false_l. split; [done|]. destruct Hb as [-> | ->]; auto.
        + by apply (Hx eq_refl c r'). }
    cbn [starts_digit digits]. rewrite (proj2 (Z.ltb_lt (digit 48) b)) by (change (digit 48) with 0; lia).
    change (digit 48) with 0. rewrite Z.mul_0_l, Z.add_0_l, digits_stop; [done|].
    destruct r as [|c r']; [done|]. simpl in *. bool_hyps. apply Z.ltb_ge. lia.
  - destruct (print_lead 10 n) as (c & l & Hl & Hc & H48); [lia..|]. rewrite Hl in *. cbn [app] in *.
    rewrite number_digit by lia. rewrite base_of_lead by done.
    assert ((if base =? 0 then 10 else base) = 10) as -> by (by destruct Hb as [-> | ->]).
    cbn [starts_digit]. rewrite (proj2 (Z.ltb_lt _ _)) by lia. by rewrite Hd.
Qed.

(** Reading a hexadecimal number with its prefix back. *)
Lemma number_print_0x base n r :
  base = 0 \/ base = 16 -> 0 <= n -> starts_digit 16 r = false ->
  number base (48 :: 120 :: print 16 n ++ r) = Some (false, n, r).
Proof.
  intros Hb Hn Hr. pose proof (digits_print 16 n r ltac:(lia) Hn Hr) as Hd.
  rewrite number_digit by done.
  assert (starts_digit 16 (print 16 n ++ r) = true) as Hs.
  { pose proof (print_ne 16 n ltac:(lia) Hn). destruct (print_ok 16 n) as [Hf _]; [lia..|].
    destruct (print 16 n) as [|c l]; [done|]. apply Forall_cons in Hf as [Hc _]. simpl. apply Z.ltb_lt. lia. }
  unfold base_of. rewrite Hs. assert ((base =? 0) || (base =? 16) = true) as -> by (by destruct Hb as [-> | ->]).
  cbn [andb tolower]. change (tolower 120 =? 120) with true. cbn [andb]. by rewrite Hs, Hd.
Qed.

Lemma strcaseeq_refl l : strcaseeq l l = true.
Proof. induction l as [|c l IH]; [done|]. simpl. by rewrite Z.eqb_refl. Qed.

Lemma strcspn_app l cs r :
  Forall (fun c => c ∉ cs) l -> (forall c r', r = c :: r' -> c ∈ cs) -> strcspn (l ++ r) cs = zlen l.
Proof.
  intros Hl Hr. induction Hl as [|c l Hc Hl IH].
  - destruct r as [|c r]; [done|]. simpl. by rewrite bool_decide_true by by apply (Hr c r).
  - simpl. rewrite bool_decide_false by done. by rewrite IH, zlen_cons.
Qed.

Lemma strcspn_nonneg l cs : 0 <= strcspn l cs <= zlen l.
Proof.
  induction l as [|c l IH]; [done|]. simpl. rewrite zlen_cons. pose proof (zlen_nonneg l). case_match; lia.
Qed.

Lemma snprintf_fits old size text : zlen text < size -> snprintf old size text = text.
Proof.
  intros H. pose proof (zlen_nonneg text). unfold snprintf. rewrite (proj2 (Z.leb_gt _ _)) by lia.
  apply take_ge. unfold zlen in *. lia.
Qed.

Lemma strncat_room_fits buf s size :
  zlen buf + zlen s < size -> strncat_room buf s size = Done (buf ++ s).
Proof.
  intros H. pose proof (zlen_nonneg s). unfold strncat_room, strncat. rewrite (proj2 (Z.leb_gt _ _)) by lia.
  rewrite take_ge; [done|]. unfold zlen in *. lia.
Qed.

Lemma print_len base n k :
  2 <= base <= 36 -> 0 <= n < base ^ Z.of_nat k -> (0 < k)%nat -> zlen (print base n) <= Z.of_nat k.
Proof.
  intros Hb. unfold print. generalize (S (Z.to_nat (Z.log2 n))). intros fuel. revert n k.
  induction fuel as [|f IH]; intros n k Hn Hk; [unfold zlen; simpl; lia|]. cbn [print_digits].
  rewrite zlen_app. change (zlen [dchar (n mod base)]) with 1. destruct (n <? base) eqn:E; bool_hyps.
  - change (zlen []) with 0. lia.
  - destruct k as [|[|k]]; [lia|change (Z.of_nat 1) with 1 in Hn; rewrite Z.pow_1_r in Hn; lia|].
    rewrite (Nat2Z.inj_succ (S k)), Z.pow_succ_r in Hn by lia.
    assert (zlen (print_digits f base (n / base)) <= Z.of_nat (S k)); [|lia].
    apply IH; [|lia]. split; [apply Z.div_pos; lia|]. apply Z.div_lt_upper_bound; lia.
Qed.

Lemma strchr_app l r c : c ∉ l -> strchr (l ++ r) c = strchr r c.
Proof.
  induction l as [|x l IH]; [done|]. intros Hn. apply not_elem_of_cons in Hn as [Hx Hl]. simpl.
  rewrite (proj2 (Z.eqb_neq x c)) by congruence. by apply IH.
Qed.

Lemma strchr_found l r c : c ∉ l -> strchr (l ++ c :: r) c = Some (c :: r).
Proof. intros Hl. rewrite strchr_app by done. simpl. by rewrite Z.eqb_refl. Qed.

Lemma strchr_none l c : c ∉ l -> strchr l c = None.
Proof. intros Hl. rewrite <- (app_nil_r l), strchr_app by done. done. Qed.

Lemma strchr_in l c : c ∈ l -> exists r, strchr l c = Some r.
Proof.
  intros Hl. induction l as [|x l IH]; [by apply elem_of_nil in Hl|]. simpl.
  destruct (x =? c) eqn:E; [by eexists|]. bool_hyps. apply elem_of_cons in Hl as [?|Hl]; [congruence|by apply IH].
Qed.

Lemma before_found l r c : c ∉ l -> before (l ++ c :: r) c = l.
Proof.
  intros Hl. unfold before. rewrite strcspn_app.
  - unfold zlen. by rewrite Nat2Z.id, take_app_length.
  - apply Forall_forall. intros x Hx. rewrite list_elem_of_singleton. intros ->. done.
  - intros x r' [= <- _]. by left.
Qed.

Lemma before_none l c : c ∉ l -> before l c = l.
Proof.
  intros Hl. unfold before. rewrite <- (app_nil_r l) at 1. rewrite strcspn_app; [|..|done].
  - unfold zlen. by rewrite Nat2Z.id, take_ge.
  - apply Forall_forall. intros x Hx. rewrite list_elem_of_singleton. by intros ->.
Qed.

Lemma strcaseeq_length a b : strcaseeq a b = true -> length a = length b.
Proof.
  revert b. induction a as [|x a IH]; intros [|y b]; try done. simpl. intros H. bool_hyps. f_equal. by apply IH.
Qed.

Lemma strcaseeq_in a b y :
  strcaseeq a b = true -> y ∈ b -> exists x, x ∈ a /\ tolower x = tolower y.
Proof.
  revert b. induction a as [|x a IH]; intros [|z b] H Hy; try done; [by apply elem_of_nil in Hy|].
  simpl in H. bool_hyps. apply elem_of_cons in Hy as [->|Hy]; [exists x; split; [by left|done]|].
  destruct (IH b) as (w & Hw & ?); [done|done|]. exists w. split; [by right|done].
Qed.

Lemma strtol_print base n : base = 0 \/ base = 10 -> 0 <= n <= LONG_MAX -> strtol base (print 10 n) = Some (n, []).
Proof.
  intros Hb Hn. unfold strtol. rewrite <- (app_nil_r (print 10 n)). rewrite number_print by (done || lia).
  rewrite (proj2 (Z.ltb_ge n LONG_MIN)) by (unfold LONG_MIN; lia). by rewrite (proj2 (Z.ltb_ge _ _)) by lia.
Qed.
