(* ===== verification/Utils.v ===== *)
(** Translations between values and their text (lib/utils.c): name tables, flag
    lists, sizes, times, protocols, the files of numbers with names, and the
    capabilities of the library.

    [old] is what a buffer held before, [size] its size. *)
From S2P Require Import Prelude Errors CString.

(** ** Data *)

(** struct trans_tbl and struct trans_list; [tl_a] is [None] when strdup failed. *)
Record trans_tbl := Tr { tt_i : Z; tt_name : string }.
Definition tt_a (t : trans_tbl) : list Z := str (tt_name t).
Record trans_list := { tl_i : Z; tl_a : option (list Z) }.

(** Netlink families. *)
Definition nlfamilies : list trans_tbl :=
  [Tr 0 "route"; Tr 2 "usersock"; Tr 3 "firewall"; Tr 4 "inetdiag"; Tr 5 "nflog"; Tr 6 "xfrm";
   Tr 7 "selinux"; Tr 8 "iscsi"; Tr 9 "audit"; Tr 10 "fib_lookup"; Tr 11 "connector";
   Tr 12 "netfilter"; Tr 13 "ip6_fw"; Tr 14 "dnrtmsg"; Tr 15 "kobject_uevent"; Tr 16 "generic";
   Tr 18 "scsitransport"; Tr 19 "ecryptfs"; Tr 20 "rdma"; Tr 21 "crypto"].

(** Link layer protocols. *)
Definition llprotos : list trans_tbl :=
  [Tr 0 "generic"; Tr 0 "netrom"; Tr 1 "ether"; Tr 2 "eether"; Tr 3 "ax25"; Tr 4 "pronet";
   Tr 5 "chaos"; Tr 6 "ieee802"; Tr 7 "arcnet"; Tr 8 "atalk"; Tr 15 "dlci"; Tr 19 "atm";
   Tr 23 "metricom"; Tr 24 "ieee1394"; Tr 27 "eui64"; Tr 32 "infiniband"; Tr 256 "slip";
   Tr 257 "cslip"; Tr 258 "slip6"; Tr 259 "cslip6"; Tr 260 "rsrvd"; Tr 264 "adapt";
   Tr 270 "rose"; Tr 271 "x25"; Tr 272 "hwx25"; Tr 280 "can"; Tr 512 "ppp"; Tr 513 "cisco";
   Tr 513 "hdlc"; Tr 516 "lapb"; Tr 517 "ddcmp"; Tr 518 "rawhdlc"; Tr 768 "ipip";
   Tr 769 "tunnel6"; Tr 770 "frad"; Tr 771 "skip"; Tr 772 "loopback"; Tr 773 "localtlk";
   Tr 774 "fddi"; Tr 775 "bif"; Tr 776 "sit"; Tr 777 "ip/ddp"; Tr 778 "gre"; Tr 779 "pimreg";
   Tr 780 "hippi"; Tr 781 "ash"; Tr 782 "econet"; Tr 783 "irda"; Tr 784 "fcpp"; Tr 785 "fcal";
   Tr 786 "fcpl"; Tr 787 "fcfb_0"; Tr 788 "fcfb_1"; Tr 789 "fcfb_2"; Tr 790 "fcfb_3";
   Tr 791 "fcfb_4"; Tr 792 "fcfb_5"; Tr 793 "fcfb_6"; Tr 794 "fcfb_7"; Tr 795 "fcfb_8";
   Tr 796 "fcfb_9"; Tr 797 "fcfb_10"; Tr 798 "fcfb_11"; Tr 799 "fcfb_12"; Tr 800 "tr";
   Tr 801 "ieee802.11"; Tr 802 "ieee802.11_prism"; Tr 803 "ieee802.11_radiotap";
   Tr 804 "ieee802.15.4"; Tr 805 "ieee802.15.4_monitor"; Tr 820 "phonet"; Tr 821 "phonet_pipe";
   Tr 822 "caif"; Tr 823 "ip6gre"; Tr 824 "netlink"; Tr 825 "6lowpan"; Tr 65535 "void";
   Tr 65534 "nohdr"].

(** Ethernet protocols. *)
Definition ether_protos : list trans_tbl :=
  [Tr 96 "loop"; Tr 512 "pup"; Tr 513 "pupat"; Tr 2048 "ip"; Tr 2053 "x25"; Tr 2054 "arp";
   Tr 2303 "bpq"; Tr 2560 "ieeepup"; Tr 2561 "ieeepupat"; Tr 24576 "dec"; Tr 24577 "dna_dl";
   Tr 24578 "dna_rc"; Tr 24579 "dna_rt"; Tr 24580 "lat"; Tr 24581 "diag"; Tr 24582 "cust";
   Tr 24583 "sca"; Tr 25944 "teb"; Tr 32821 "rarp"; Tr 32923 "atalk"; Tr 33011 "aarp";
   Tr 33024 "802.1q"; Tr 33079 "ipx"; Tr 34525 "ipv6"; Tr 34824 "pause"; Tr 34825 "slow";
   Tr 34878 "wccp"; Tr 34915 "ppp_disc"; Tr 34916 "ppp_ses"; Tr 34887 "mpls_uc";
   Tr 34888 "mpls_mc"; Tr 34892 "atmmpoa"; Tr 34924 "link_ctl"; Tr 34948 "atmfate";
   Tr 34958 "pae"; Tr 34978 "aoe"; Tr 35018 "tipc"; Tr 35063 "ieee1588"; Tr 35078 "fcoe";
   Tr 35092 "fip"; Tr 56026 "edsa"; Tr 34978 "edp2"; Tr 1 "802.3"; Tr 2 "ax25"; Tr 3 "all";
   Tr 4 "802.2"; Tr 5 "snap"; Tr 6 "ddcmp"; Tr 7 "wan_ppp"; Tr 8 "ppp_mp"; Tr 9 "localtalk";
   Tr 12 "can"; Tr 16 "ppptalk"; Tr 17 "tr_802.2"; Tr 21 "mobitex"; Tr 22 "control";
   Tr 23 "irda"; Tr 24 "econet"; Tr 25 "hdlc"; Tr 26 "arcnet"; Tr 27 "dsa"; Tr 28 "trailer";
   Tr 245 "phonet"; Tr 246 "ieee802154"; Tr 247 "caif"].

(** Address families (lib/addr.c). *)
Definition afs : list trans_tbl :=
  [Tr 0 "unspec"; Tr 1 "unix"; Tr 2 "inet"; Tr 3 "ax25"; Tr 4 "ipx"; Tr 5 "appletalk";
   Tr 6 "netrom"; Tr 7 "bridge"; Tr 8 "atmpvc"; Tr 9 "x25"; Tr 10 "inet6"; Tr 11 "rose";
   Tr 12 "decnet"; Tr 13 "netbeui"; Tr 14 "security"; Tr 15 "key"; Tr 16 "netlink";
   Tr 17 "packet"; Tr 18 "ash"; Tr 19 "econet"; Tr 20 "atmsvc"; Tr 21 "rds"; Tr 22 "sna";
   Tr 23 "irda"; Tr 24 "pppox"; Tr 25 "wanpipe"; Tr 26 "llc"; Tr 29 "can"; Tr 30 "tipc";
   Tr 31 "bluetooth"; Tr 32 "iucv"; Tr 33 "rxrpc"; Tr 34 "isdn"; Tr 35 "phonet";
   Tr 36 "ieee802154"; Tr 37 "caif"; Tr 38 "alg"; Tr 39 "nfc"; Tr 40 "vsock"; Tr 28 "mpls"].

(** ** Names and values *)

(** The text of a value no table has. *)
Definition hex_text (type : Z) : list Z := str "0x" ++ print_x type.

Definition __type2str (type : Z) (old : list Z) (size : Z) (tbl : list trans_tbl) : list Z :=
  match list_find (fun t => tt_i t = u64 type) tbl with
  | Some (_, t) => snprintf old size (tt_a t)
  | None => snprintf old size (hex_text type)
  end.

(** A number, where no name fits. *)
Definition str2num (buf : list Z) : Z :=
  match strtoul 0 buf with
  | None => - NLE_OBJ_NOTFOUND
  | Some (l, e) => if (l =? ULONG_MAX) || negb (bool_decide (e = [])) then - NLE_OBJ_NOTFOUND else s32 l
  end.

Definition __str2type (buf : list Z) (tbl : list trans_tbl) : Z :=
  if bool_decide (buf = []) then - NLE_INVAL
  else match list_find (fun t => strcaseeq (tt_a t) buf = true) tbl with
       | Some (_, t) => s32 (tt_i t)
       | None => str2num buf
       end.

Definition nl_nlfamily2str family old size := __type2str family old size nlfamilies.
Definition nl_str2nlfamily name := __str2type name nlfamilies.
Definition nl_llproto2str llproto old size := __type2str llproto old size llprotos.
Definition nl_str2llproto name := __str2type name llprotos.
Definition nl_ether_proto2str eproto old size := __type2str eproto old size ether_protos.
Definition nl_str2ether_proto name := __str2type name ether_protos.
Definition nl_af2str family old size := __type2str family old size afs.
Definition nl_str2af (name : list Z) : Z :=
  let fam := __str2type name afs in if 0 <=? fam then fam else - EINVAL.

(** Lists of names read at run time; [c1], [c2]: whether calloc and strdup
    succeed. *)
Definition __trans_list_add (c1 c2 : bool) (i : Z) (a : list Z) (head : list trans_list)
    : Z * list trans_list :=
  if negb c1 then (- NLE_NOMEM, head)
  else (0, head ++ [{| tl_i := i; tl_a := if c2 then Some a else None |}]).
Definition __trans_list_clear (head : list trans_list) : list trans_list := [].

Fixpoint __list_type2str (type : Z) (old : list Z) (size : Z) (head : list trans_list) : exec (list Z) :=
  match head with
  | [] => mret (snprintf old size (hex_text type))
  | tl :: head =>
      if tl_i tl =? type
      then match tl_a tl with Some a => mret (snprintf old size a) | None => Fault end
      else __list_type2str type old size head
  end.
Fixpoint list_str2type (buf : list Z) (head : list trans_list) : exec Z :=
  match head with
  | [] => mret (str2num buf)
  | tl :: head =>
      match tl_a tl with
      | Some a => if strcaseeq a buf then mret (tl_i tl) else list_str2type buf head
      | None => Fault
      end
  end.
Definition __list_str2type (buf : list Z) (head : list trans_list) : exec Z :=
  if bool_decide (buf = []) then mret (- NLE_INVAL) else list_str2type buf head.

(** ** Flags *)

Fixpoint flags2str_loop (flags size : Z) (tbl : list trans_tbl) (tmp : Z) (buf : list Z) : exec (list Z) :=
  match tbl with
  | [] => mret buf
  | t :: tbl =>
      if Z.land (tt_i t) (u64 tmp) =? 0 then flags2str_loop flags size tbl tmp buf
      else
        let tmp := s32 (Z.land (u64 tmp) (Z.lnot (tt_i t))) in
        buf ← strncat_room buf (tt_a t) size;
        buf ← (if Z.land tmp flags =? 0 then mret buf else strncat_room buf (str ",") size);
        flags2str_loop flags size tbl tmp buf
  end.
Definition __flags2str (flags size : Z) (tbl : list trans_tbl) : exec (list Z) :=
  flags2str_loop flags size tbl flags [].

(** The flags of the rows whose name is the first [len] characters of [p]. *)
Definition add_flags (tbl : list trans_tbl) (p : list Z) (len flags : Z) : Z :=
  foldl (fun flags t =>
    if (len =? zlen (tt_a t)) && strncaseeq (Z.to_nat len) (tt_a t) p
    then s32 (Z.lor flags (tt_i t)) else flags) flags tbl.
Fixpoint str2flags_loop (fuel : nat) (p : list Z) (tbl : list trans_tbl) (flags : Z) : exec Z :=
  match fuel with
  | O => NoFuel
  | S f =>
      let p := match p with 32 :: r => r | _ => p end in
      match strchr p 44 with
      | None => mret (add_flags tbl p (zlen p) flags)
      | Some t => str2flags_loop f (tail t) tbl (add_flags tbl p (zlen p - zlen t) flags)
      end
  end.
Definition __str2flags (buf : list Z) (tbl : list trans_tbl) : exec Z :=
  str2flags_loop (S (length buf)) buf tbl 0.

(** ** Sizes and times *)

(** [long] multiplication: overflow is undefined. *)
Definition mul_long (a b : Z) : exec Z :=
  let r := a * b in if (LONG_MIN <=? r) && (r <=? LONG_MAX) then Done r else Fault.

Definition nl_size2int (s : list Z) : exec Z :=
  match strtol 0 s with
  | None => mret (- NLE_INVAL)
  | Some (l, p) =>
      if bool_decide (p = []) then mret l
      else if strcaseeq p (str "kb") || strcaseeq p (str "k") then mul_long l 1024
      else if strcaseeq p (str "gb") || strcaseeq p (str "g") then mul_long l (1024 * 1024 * 1024)
      else if strcaseeq p (str "gbit") then mul_long l (Z.quot 1000000000 8)
      else if strcaseeq p (str "mb") || strcaseeq p (str "m") then mul_long l (1024 * 1024)
      else if strcaseeq p (str "mbit") then mul_long l (Z.quot 1000000 8)
      else if strcaseeq p (str "kbit") then mul_long l (Z.quot 1000 8)
      else if strcaseeq p (str "bit") then mret (Z.quot l 8)
      else if negb (strcaseeq p (str "b")) then mret (- NLE_INVAL)
      else mret l
  end.

(** The milliseconds of the unit at the start of [p], [plen] characters long. *)
Definition time_unit (p : list Z) (plen : Z) : option Z :=
  if plen =? 0 then Some 1
  else if strncaseeq (Z.to_nat plen) p (str "sec") then Some 1000
  else if strncaseeq (Z.to_nat plen) p (str "min") then Some (1000 * 60)
  else if strncaseeq (Z.to_nat plen) p (str "hour") then Some (1000 * 60 * 60)
  else if strncaseeq (Z.to_nat plen) p (str "day") then Some (1000 * 60 * 60 * 24)
  else None.
Fixpoint str2msec_loop (fuel : nat) (s : list Z) (total : Z) : exec (Z + Z) :=
  match fuel with
  | O => NoFuel
  | S f =>
      match strtoul 0 s with
      | None => mret (inl (- NLE_INVAL))
      | Some (l, p) =>
          if bool_decide (p = []) then mret (inr (u64 (total + l)))
          else
            let plen := strcspn p [32; 9] in
            match time_unit p plen with
            | None => mret (inl (- NLE_INVAL))
            | Some k =>
                let total := u64 (total + u64 (l * k)) in
                let s := drop (Z.to_nat plen) p in
                if bool_decide (s = []) then mret (inr total) else str2msec_loop f s total
            end
      end
  end.
(** [inr]: 0 is returned and the value stored; [inl]: the error. *)
Definition nl_str2msec (s : list Z) : exec (Z + Z) := str2msec_loop (S (length s)) s 0.

Definition msec_split (msec : Z) : list (Z * list Z) :=
  let d := msec / 86400000 in
  let msec := if d =? 0 then msec else msec mod 86400000 in
  let h := msec / 3600000 in
  let msec := if h =? 0 then msec else msec mod 3600000 in
  let m := msec / 60000 in
  let msec := if m =? 0 then msec else msec mod 60000 in
  let s := msec / 1000 in
  let msec := if s =? 0 then msec else msec mod 1000 in
  [(d, str "d"); (h, str "h"); (m, str "m"); (s, str "s"); (msec, str "msec")].

(** [off]: where [buf] points to in the buffer of [size] bytes; [len]: the
    variable, which wraps around below 0. *)
Fixpoint msec_loop (l : list (Z * list Z)) (size off len : Z) (out : list Z) : exec (list Z) :=
  match l with
  | [] => mret out
  | (split, unit) :: l =>
      if len =? 0 then mret out
      else if split =? 0 then msec_loop l size off len out
      else
        let text := (if off =? 0 then [] else [32]) ++ print 10 split ++ unit in
        if size <? off + Z.min len (zlen text + 1) then Fault
        else msec_loop l size (off + zlen text) (u64 (len - zlen text))
               (take (Z.to_nat off) out ++ take (Z.to_nat (len - 1)) text)
  end.
Definition nl_msec2str (msec : Z) (old : list Z) (size : Z) : exec (list Z) :=
  if msec =? 0 then mret (snprintf old size (str "0msec"))
  else msec_loop (msec_split msec) size 0 size old.

(** ** Protocols

    The protocol database is a service of the C library: [byname] and [bynumber]
    stand for its two lookups. *)
Definition nl_ip_proto2str (bynumber : Z -> option (list Z)) (proto : Z) (old : list Z) (size : Z) : list Z :=
  match bynumber proto with
  | Some name => snprintf old size name
  | None => snprintf old size (hex_text proto)
  end.
Definition nl_str2ip_proto (byname : list Z -> option Z) (name : list Z) : Z :=
  match byname name with
  | Some p => p
  | None =>
      match strtoul 0 name with
      | None => if bool_decide (name = []) then 0 else - NLE_OBJ_NOTFOUND
      | Some (l, e) =>
          if (l =? ULONG_MAX) || negb (bool_decide (e = [])) then - NLE_OBJ_NOTFOUND else s32 l
      end
  end.

(** ** Files of numbers with names *)

(** [fgets (buf, 128, fd)]: up to a newline or 127 characters. *)
Fixpoint fgets (n : nat) (l : list Z) : list Z * list Z :=
  match n, l with
  | S n, c :: r => if c =? 10 then ([c], r) else let '(a, b) := fgets n r in (c :: a, b)
  | _, _ => ([], l)
  end.
Fixpoint skip_blanks (l : list Z) : list Z :=
  match l with
  | c :: r => if (c =? 32) || (c =? 9) then skip_blanks r else l
  | [] => []
  end.

(** One line: skipped, an error, or a number and a name for the callback. *)
Definition num_str_line (buf : list Z) : option (Z + Z * list Z) :=
  match buf with
  | c :: _ =>
      if (c =? 35) || (c =? 10) || (c =? 13) then None
      else match strtol 0 buf with
           | None => Some (inl (- NLE_INVAL))
           | Some (num, e) =>
               if (num =? LONG_MIN) || (num =? LONG_MAX) then Some (inl (- NLE_RANGE))
               else
                 let e := skip_blanks e in
                 let goodlen := strcspn e [35; 13; 10; 9; 32] in
                 if goodlen =? 0 then Some (inl (- NLE_INVAL))
                 else Some (inr (num, take (Z.to_nat goodlen) e))
           end
  | [] => None
  end.
Fixpoint num_str_loop {S} (fuel : nat) (cb : S -> Z -> list Z -> Z * S) (s : S) (content : list Z)
    : exec (Z * S) :=
  match fuel with
  | O => NoFuel
  | Datatypes.S f =>
      if bool_decide (content = []) then mret (0, s)
      else
        let '(buf, rest) := fgets 127 content in
        match num_str_line buf with
        | None => num_str_loop f cb s rest
        | Some (inl err) => mret (err, s)
        | Some (inr (num, name)) =>
            let '(err, s) := cb s num name in
            if err <? 0 then mret (err, s) else num_str_loop f cb s rest
        end
  end.
(** [file]: the content of the file, or the error number of fopen. *)
Definition __nl_read_num_str_file {S} (file : Z + list Z) (cb : S -> Z -> list Z -> Z * S) (s : S)
    : exec (Z * S) :=
  match file with
  | inl errno => mret (- nl_syserr2nlerr errno, s)
  | inr content => num_str_loop (Datatypes.S (length content)) cb s content
  end.

(** ** Capabilities *)

Definition NL_CAPABILITY_MAX : Z := 30.
Definition nl_set8 (i : Z) (v : list Z) : Z :=
  foldr Z.lor 0 (imap (fun r v => if v =? 0 then 0 else 2 ^ Z.of_nat r) v).
Definition caps : list Z :=
  [nl_set8 0 [1; 2; 3; 4; 5; 6; 7; 8]; nl_set8 1 [9; 10; 11; 12; 13; 14; 15; 16];
   nl_set8 2 [17; 18; 19; 20; 21; 22; 23; 24]; nl_set8 3 [25; 26; 27; 28; 29; 30; 0; 0]].
Definition nl_has_capability (capability : Z) : bool :=
  if (capability <=? 0) || (NL_CAPABILITY_MAX <? capability) then false
  else
    let c := capability - 1 in
    match caps !! Z.to_nat (c / 8) with
    | Some b => negb (Z.land b (Z.shiftl 1 (c mod 8)) =? 0)
    | None => false
    end.

(** ** Names and values: round trips *)

(** What a table needs: every name is there to be read (not empty, no number,
    short) and reads back as the value of its row. *)
Definition row_ok (max : Z) (tbl : list trans_tbl) (t : trans_tbl) : bool :=
  match tt_a t with
  | [] => false
  | c :: _ => negb (c =? 48)
  end && (zlen (tt_a t) <? max) && (0 <=? tt_i t) && (tt_i t <? 2 ^ 31) &&
  match list_find (fun t' => strcaseeq (tt_a t') (tt_a t) = true) tbl with
  | Some (_, t') => tt_i t' =? tt_i t
  | None => false
  end.
Definition tbl_ok (max : Z) (tbl : list trans_tbl) : bool := forallb (row_ok max tbl) tbl.

Lemma strcaseeq_head a b : strcaseeq a b = true -> tolower <$> head a = tolower <$> head b.
Proof. destruct a, b; try done. simpl. intros H. bool_hyps. congruence. Qed.

Lemma tolower_48 c : tolower c = 48 -> c = 48.
Proof. unfold tolower. case_test; bool_hyps; lia. Qed.

Lemma str2num_hex type : -2 ^ 31 <= type < 2 ^ 31 -> str2num (hex_text type) = type.
Proof.
  intros Ht. pose proof (u32_range type) as Hu. unfold str2num, strtoul, hex_text, print_x.
  change (str "0x") with [48; 120]. cbn [app]. rewrite <- (app_nil_r (print 16 (u32 type))).
  rewrite number_print_0x by (auto; lia). cbv zeta.
  rewrite (proj2 (Z.ltb_ge _ _)) by (unfold ULONG_MAX; lia).
  rewrite (proj2 (Z.eqb_neq _ _)) by (unfold ULONG_MAX; lia). rewrite bool_decide_true by done. cbn [orb negb].
  unfold s32, u32. zdiv_lia.
Qed.

Lemma print_x_len type : zlen (print_x type) <= 8.
Proof. apply (print_len 16 _ 8); [lia| |lia]. apply u32_range. Qed.

Lemma str2type_type2str max tbl type old size :
  tbl_ok max tbl = true -> 10 < max -> max <= size -> -2 ^ 31 <= type < 2 ^ 31 ->
  __str2type (__type2str type old size tbl) tbl = type.
Proof.
  intros Hok Hm Hs Ht. unfold tbl_ok in Hok. rewrite forallb_forall in Hok.
  unfold __type2str. destruct (list_find _ tbl) as [[k t]|] eqn:Hf.
  - apply list_find_Some in Hf as (Hk & Hi & _).
    assert (row_ok max tbl t = true) as Hr.
    { apply Hok, list_elem_of_In. by apply list_elem_of_lookup_2 with k. }
    unfold row_ok in Hr. bool_hyps. rewrite snprintf_fits by lia. unfold __str2type.
    rewrite bool_decide_false by (intros E; by rewrite E in *).
    destruct (list_find _ tbl) as [[k' t']|] eqn:Hf'; [|done]. bool_hyps.
    unfold u64, s32 in *. zdiv_lia.
  - apply list_find_None in Hf. rewrite snprintf_fits.
    2:{ unfold hex_text. rewrite zlen_app. pose proof (print_x_len type). change (zlen (str "0x")) with 2. lia. }
    unfold __str2type. rewrite bool_decide_false by done.
    destruct (list_find _ tbl) as [[k' t']|] eqn:Hf'; [|by apply str2num_hex]. exfalso.
    apply list_find_Some in Hf' as (Hk & Hc & _).
    assert (row_ok max tbl t' = true) as Hr.
    { apply Hok, list_elem_of_In. by apply list_elem_of_lookup_2 with k'. }
    unfold row_ok in Hr. bool_hyps. destruct (tt_a t') as [|c a]; [done|]. bool_hyps.
    apply strcaseeq_head in Hc. injection Hc as Hc. change (tolower 48) with 48 in Hc.
    by apply tolower_48 in Hc.
Qed.

Lemma tables_ok : forallb (tbl_ok 32) [nlfamilies; llprotos; ether_protos; afs] = true.
Proof. by vm_compute. Qed.

(** For netlink families, link layer protocols and ethernet protocols the
    value read from the text of a value is that value, for every int, in the
    table or not; for address families for every one that is not negative. *)
Theorem names_roundtrip type old size :
  -2 ^ 31 <= type < 2 ^ 31 -> 32 <= size ->
  nl_str2nlfamily (nl_nlfamily2str type old size) = type /\
  nl_str2llproto (nl_llproto2str type old size) = type /\
  nl_str2ether_proto (nl_ether_proto2str type old size) = type /\
  nl_str2af (nl_af2str type old size) = if 0 <=? type then type else - EINVAL.
Proof.
  intros Ht Hs. pose proof tables_ok as Hok. rewrite forallb_forall in Hok.
  assert (forall tbl, tbl ∈ [nlfamilies; llprotos; ether_protos; afs] ->
    __str2type (__type2str type old size tbl) tbl = type) as Hall.
  { intros tbl Hin. apply (str2type_type2str 32); [by apply Hok, list_elem_of_In|lia..]. }
  split; [|split; [|split]]; [apply Hall; set_solver..|].
  unfold nl_str2af, nl_af2str. rewrite Hall by set_solver. done.
Qed.

Lemma names_roundtrip_witness : nl_str2llproto (nl_llproto2str 801 [] 32) = 801.
Proof. destruct (names_roundtrip 801 [] 32) as (_ & H & _); [lia|lia|exact H]. Defined.

(** ** Times *)

(** A printed part: its number, its unit, the milliseconds of the unit. *)
Definition time_part (first : bool) (p : Z * list Z) : list Z :=
  (if first then [] else [32]) ++ print 10 p.1 ++ p.2.
Fixpoint time_parts (first : bool) (l : list (Z * list Z)) : list Z :=
  match l with
  | [] => []
  | p :: l => if p.1 =? 0 then time_parts first l else time_part first p ++ time_parts false l
  end.

(** The loop writes the parts one after the other when there is room. *)
Lemma msec_loop_fits l size off len out :
  0 <= off -> zlen out = off -> len = size - off -> 0 <= size < 2 ^ 64 ->
  zlen (time_parts (off =? 0) l) + off < size ->
  msec_loop l size off len out = Done (out ++ time_parts (off =? 0) l).
Proof.
  revert off len out. induction l as [|[v u] l IH]; intros off len out Ho Hz -> Hs Hl.
  { by rewrite app_nil_r. }
  cbn [msec_loop time_parts] in *. cbn [fst] in *. pose proof (zlen_nonneg (time_parts (off =? 0) l)).
  pose proof (zlen_nonneg (time_parts false l)).
  destruct (v =? 0) eqn:Ev.
  - destruct (size - off =? 0) eqn:E; bool_hyps; [lia|]. by apply IH.
  - unfold time_part in *. cbn [fst snd] in *. set (text := (if off =? 0 then [] else [32]) ++ print 10 v ++ u) in *.
    pose proof (zlen_nonneg text). rewrite zlen_app in Hl.
    destruct (size - off =? 0) eqn:E; bool_hyps; [lia|].
    assert (0 < zlen text).
    { unfold text. rewrite !zlen_app. unfold print. simpl. rewrite zlen_app.
      change (zlen [_]) with 1. pose proof (zlen_nonneg (if off =? 0 then [] else [32])).
      pose proof (zlen_nonneg u). pose proof (zlen_nonneg (if v <? 10 then [] else print_digits (Z.to_nat (Z.log2 v)) 10 (v / 10))). lia. }
    rewrite (proj2 (Z.ltb_ge _ _)) by lia.
    assert (take (Z.to_nat off) out = out) as -> by (apply take_ge; unfold zlen in *; lia).
    assert (take (Z.to_nat (size - off - 1)) text = text) as -> by (apply take_ge; unfold zlen in *; lia).
    assert ((off + zlen text =? 0) = false) as Hoff by (apply Z.eqb_neq; lia).
    assert (u64 (size - off - zlen text) = size - (off + zlen text)) as -> by (rewrite u64_id; lia).
    rewrite IH; rewrite ?Hoff, ?zlen_app; try lia. by rewrite app_assoc.
Qed.

(** The first part overwrites what the buffer held. *)
Lemma msec_loop_old l size len old :
  time_parts true l <> [] -> len <> 0 -> msec_loop l size 0 len old = msec_loop l size 0 len [].
Proof.
  intros Hne Hl. induction l as [|[v u] l IH]; [done|]. cbn [msec_loop time_parts fst] in *.
  rewrite (proj2 (Z.eqb_neq len 0)) by done. destruct (v =? 0); [by apply IH|done].
Qed.

Definition time_units : list (list Z * Z) :=
  [(str "d", 86400000); (str "h", 3600000); (str "m", 60000); (str "s", 1000)].

Lemma time_unit_app u k r : (u, k) ∈ time_units -> time_unit (u ++ r) (zlen u) = Some k.
Proof.
  intros Hu. repeat (apply elem_of_cons in Hu as [[= -> ->]|Hu]; [reflexivity|]). by apply elem_of_nil in Hu.
Qed.

Definition space_or_end (r : list Z) : Prop := forall c r', r = c :: r' -> c = 32.

Lemma number_part first v u r :
  0 <= v < 2 ^ 64 -> v <> 0 -> starts_digit 10 (u ++ r) = false ->
  strtoul 0 (time_part first (v, u) ++ r) = Some (v, u ++ r).
Proof.
  intros Hv Hn Hd. unfold time_part. cbn [fst snd]. rewrite <- !app_assoc.
  assert (number 0 ((if first then [] else [32]) ++ print 10 v ++ u ++ r) = Some (false, v, u ++ r)) as H.
  { transitivity (number 0 (print 10 v ++ u ++ r)); [by destruct first|]. apply number_print; auto; lia. }
  unfold strtoul. rewrite H. rewrite (proj2 (Z.ltb_ge _ _)) by (unfold ULONG_MAX; lia). done.
Qed.

Lemma str2msec_part fuel first v u k r total :
  (u, k) ∈ time_units -> 0 < v -> 0 <= total -> total + v * k < 2 ^ 64 -> space_or_end r ->
  str2msec_loop (S fuel) (time_part first (v, u) ++ r) total =
  if bool_decide (r = []) then Done (inr (total + v * k)) else str2msec_loop fuel r (total + v * k).
Proof.
  intros Hu Hv Ht Hb Hr. cbn [str2msec_loop].
  assert (1000 <= k /\ starts_digit 10 (u ++ r) = false /\ u <> [] /\ Forall (fun c => c ∉ [32; 9]) u) as (Hk & Hd & Hne & Hf).
  { repeat (apply elem_of_cons in Hu as [[= -> ->]|Hu];
      [repeat split; [lia|done|repeat constructor; by (rewrite elem_of_cons, elem_of_cons, elem_of_nil; intros [?|[?|?]])]|]).
    by apply elem_of_nil in Hu. }
  assert (v <= v * k) by nia. rewrite number_part by (done || lia). rewrite bool_decide_false by (by destruct u).
  rewrite strcspn_app; [|done|intros c r' E; rewrite (Hr c r' E); by left].
  rewrite (time_unit_app u k r Hu). cbv zeta. rewrite !u64_id by (rewrite ?u64_id; lia).
  unfold zlen. rewrite Nat2Z.id, drop_app_length. done.
Qed.

Lemma time_parts_space l : space_or_end (time_parts false l).
Proof.
  induction l as [|[v u] l IH]; intros c r; [done|]. simpl. destruct (v =? 0); [apply IH|].
  unfold time_part. simpl. congruence.
Qed.

(** The milliseconds of numbers with their units. *)
Definition total_ms (vs : list Z) (us : list (list Z * Z)) : Z :=
  foldr Z.add 0 (zip_with (fun v u => v * u.2) vs us).

Lemma time_units_pos us u : us ⊆ time_units -> u ∈ us -> 1000 <= u.2.
Proof.
  intros Hus Hu. apply Hus in Hu. destruct u as [u k].
  repeat (apply elem_of_cons in Hu as [[= -> ->]|Hu]; [simpl; lia|]). by apply elem_of_nil in Hu.
Qed.

Lemma total_ms_nonneg vs us : Forall (fun v => 0 <= v) vs -> us ⊆ time_units -> 0 <= total_ms vs us.
Proof.
  intros Hvs. revert us. induction Hvs as [|v vs Hv Hvs IH]; intros us Hus; [done|].
  destruct us as [|u us]; [done|]. change (total_ms (v :: vs) (u :: us)) with (v * u.2 + total_ms vs us).
  pose proof (time_units_pos _ u Hus ltac:(by left)).
  assert (0 <= total_ms vs us) by (apply IH; intros x Hx; apply Hus; by right). nia.
Qed.

Lemma total_ms_empty first vs us :
  length vs = length us -> time_parts first (zip vs (fst <$> us)) = [] -> total_ms vs us = 0.
Proof.
  revert first us. induction vs as [|v vs IH]; intros first [|u us] Hlen Hp; try done.
  injection Hlen as Hlen. cbn [fmap list_fmap zip_with time_parts fst] in Hp.
  change (total_ms (v :: vs) (u :: us)) with (v * u.2 + total_ms vs us).
  destruct (v =? 0) eqn:E; bool_hyps.
  - subst v. rewrite (IH first us Hlen Hp). lia.
  - apply app_nil in Hp as [Hp _]. unfold time_part in Hp. apply app_nil in Hp as [_ Hp].
    apply app_nil in Hp as [Hp _]. simpl in Hp. unfold print in Hp. simpl in Hp.
    by destruct (if v <? 10 then _ else _).
Qed.

Lemma time_part_len first v u : 0 <= v -> (1 <= length (time_part first (v, u)))%nat.
Proof.
  intros Hv. unfold time_part. rewrite !length_app. simpl. pose proof (print_ne 10 v ltac:(lia) Hv).
  destruct (print 10 v); [done|simpl; lia].
Qed.

(** Reading parts with known units, up to the rest. *)
Lemma str2msec_parts us fuel first vs r total :
  length vs = length us -> us ⊆ time_units -> Forall (fun v => 0 <= v) vs -> 0 <= total ->
  total + total_ms vs us < 2 ^ 64 -> space_or_end r ->
  let text := time_parts first (zip vs (fst <$> us)) in
  text <> [] -> (length text < fuel)%nat ->
  exists fuel', (fuel <= fuel' + length text)%nat /\
    str2msec_loop fuel (text ++ r) total =
      if bool_decide (r = []) then Done (inr (total + total_ms vs us))
      else str2msec_loop fuel' r (total + total_ms vs us).
Proof.
  revert us fuel first total. induction vs as [|v vs IH]; intros us fuel first total Hlen Hus Hvs Ht Hb Hr text Hne Hf.
  { done. }
  destruct us as [|[u k] us]; [done|]. injection Hlen as Hlen. apply Forall_cons in Hvs as [Hv Hvs].
  pose proof (time_units_pos _ (u, k) Hus ltac:(by left)) as Hk. cbn [snd] in Hk.
  assert ((u, k) ∈ time_units) as Hu by (apply Hus; by left).
  assert (us ⊆ time_units) as Hus' by (intros x Hx; apply Hus; by right).
  pose proof (total_ms_nonneg vs us Hvs Hus') as Hrest.
  change (total_ms (v :: vs) ((u, k) :: us)) with (v * k + total_ms vs us) in *.
  unfold text in *. clear text. cbn [fmap list_fmap zip_with time_parts fst] in *.
  destruct (v =? 0) eqn:Ev; bool_hyps.
  { subst v. rewrite Z.mul_0_l, Z.add_0_l in *. by apply IH. }
  destruct fuel as [|fuel]; [lia|]. rewrite <- app_assoc.
  set (tl := time_parts false (zip vs (fst <$> us))) in *. rewrite length_app in Hf.
  pose proof (time_part_len first v u Hv) as Hpl.
  rewrite (str2msec_part fuel first v u k); [|done|lia|done|lia|].
  2:{ intros c r'. destruct tl as [|c' tl'] eqn:Etl; [apply Hr|]. intros [= <- _].
      by apply (time_parts_space (zip vs (fst <$> us)) c' tl'). }
  rewrite length_app, Z.add_assoc. destruct (decide (tl = [])) as [Etl|Etl].
  - rewrite (total_ms_empty false vs us Hlen Etl), Etl. cbn [app]. rewrite Z.add_0_r. exists fuel.
    split; [lia|done].
  - rewrite bool_decide_false by (intros E; by apply app_nil in E as [? _]).
    destruct (IH us fuel false (total + v * k) Hlen Hus' Hvs) as (fuel' & Hf' & He); [nia|lia|done|done|fold tl; lia|].
    fold tl in He, Hf'. exists fuel'. split; [lia|]. exact He.
Qed.

Lemma msec_split_eq msec :
  0 <= msec -> let d := msec / 86400000 in let h := msec mod 86400000 / 3600000 in
  let m := msec mod 3600000 / 60000 in let s := msec mod 60000 / 1000 in
  msec_split msec = [(d, str "d"); (h, str "h"); (m, str "m"); (s, str "s"); (msec mod 1000, str "msec")].
Proof.
  intros Hm. unfold msec_split. cbv zeta.
  assert (forall x u, (if x / u =? 0 then x else x mod u) = if x / u =? 0 then x else x mod u) as _ by done.
  assert (forall x u, 0 <= x -> 0 < u -> (if x / u =? 0 then x else x mod u) = x mod u) as Hs.
  { intros x u Hx Hu. destruct (x / u =? 0) eqn:E; [|done]. bool_hyps. apply Z.div_small_iff in E; [|lia].
    rewrite Z.mod_small; lia. }
  pose proof (Z.mod_pos_bound msec 86400000 ltac:(lia)). pose proof (Z.mod_pos_bound msec 3600000 ltac:(lia)).
  pose proof (Z.mod_pos_bound msec 60000 ltac:(lia)).
  rewrite (Hs msec 86400000) by lia. rewrite (Hs _ 3600000) by lia.
  rewrite (Z.mod_mod_divide msec 86400000 3600000) by (by exists 24).
  rewrite (Hs _ 60000) by lia. rewrite (Z.mod_mod_divide msec 3600000 60000) by (by exists 60).
  rewrite (Hs _ 1000) by lia. by rewrite (Z.mod_mod_divide msec 60000 1000) by (by exists 60).
Qed.

Lemma time_parts_app first l1 l2 :
  time_parts first (l1 ++ l2) =
  time_parts first l1 ++ time_parts (if bool_decide (time_parts first l1 = []) then first else false) l2.
Proof.
  revert first. induction l1 as [|[v u] l1 IH]; intros first; [done|]. cbn [app time_parts fst].
  destruct (v =? 0) eqn:E; [apply IH|]. rewrite IH, app_assoc. f_equal.
  assert (time_part first (v, u) <> []) as Hne.
  { unfold time_part. intros Hp. apply app_nil in Hp as [_ Hp]. apply app_nil in Hp as [Hp _].
    simpl in Hp. unfold print in Hp. simpl in Hp. by destruct (if v <? 10 then _ else _). }
  rewrite (bool_decide_false (time_part first (v, u) ++ _ = [])) by (intros Hp; by apply app_nil in Hp as [? _]).
  by destruct (bool_decide _).
Qed.

(** Milliseconds are written with a unit that is not read. *)
Lemma str2msec_msec fuel first n total :
  0 < n < 1000 -> str2msec_loop (S fuel) (time_part first (n, str "msec")) total = Done (inl (- NLE_INVAL)).
Proof.
  intros Hn. rewrite <- (app_nil_r (time_part _ _)). cbn [str2msec_loop].
  rewrite number_part by (done || lia). by vm_compute.
Qed.

Lemma time_parts_len l first :
  Forall (fun p => 0 <= p.1 < 10 ^ 3 /\ zlen p.2 <= 4) l -> zlen (time_parts first l) <= 8 * zlen l.
Proof.
  intros Hl. revert first. induction Hl as [|[v u] l [Hv Hu] Hl IH]; intros first; [done|].
  cbn [time_parts fst snd] in *. rewrite zlen_cons. destruct (v =? 0); [specialize (IH first); lia|].
  unfold time_part. cbn [fst snd]. rewrite !zlen_app. specialize (IH false).
  pose proof (print_len 10 v 3 ltac:(lia) Hv ltac:(lia)). change (Z.of_nat 3) with 3 in *.
  assert (zlen (if first then [] else [32]) <= 1) by (by destruct first). lia.
Qed.

(** A time of any number of milliseconds is written in full to a buffer of 64
    bytes.  Read back, it is the same number when it is a positive number of whole seconds;
    the unit of the milliseconds themselves, "msec", is one that nl_str2msec
    refuses. *)
Theorem msec_roundtrip msec old size :
  0 <= msec < 2 ^ 64 -> 64 <= size < 2 ^ 64 ->
  exists text, nl_msec2str msec old size = Done text /\
    nl_str2msec text =
      Done (if (0 <? msec) && (msec mod 1000 =? 0) then inr msec else inl (- NLE_INVAL)).
Proof.
  intros Hm Hs. unfold nl_msec2str. destruct (msec =? 0) eqn:E0; bool_hyps.
  { subst msec. eexists. split; [done|]. rewrite snprintf_fits by (change (zlen (str "0msec")) with 5; lia). by vm_compute. }
  rewrite msec_split_eq by lia. cbv zeta.
  set (d := msec / 86400000). set (h := msec mod 86400000 / 3600000).
  set (m := msec mod 3600000 / 60000). set (s := msec mod 60000 / 1000). set (ms := msec mod 1000).
  set (us := time_units). set (vs := [d; h; m; s]).
  assert (0 <= d < 213503982335 /\ 0 <= h < 24 /\ 0 <= m < 60 /\ 0 <= s < 60 /\ 0 <= ms < 1000 /\
    d * 86400000 + (h * 3600000 + (m * 60000 + (s * 1000 + 0))) + ms = msec) as (Hd & Hh & Hmm & Hss & Hms & Hsum).
  { unfold d, h, m, s, ms. clear -Hm. change (2 ^ 64) with 18446744073709551616 in Hm. zdiv_lia. }
  change [(d, str "d"); (h, str "h"); (m, str "m"); (s, str "s"); (ms, str "msec")]
    with (zip vs (fst <$> us) ++ [(ms, str "msec")]).
  set (l := zip vs (fst <$> us)).
  assert (total_ms vs us = d * 86400000 + (h * 3600000 + (m * 60000 + (s * 1000 + 0)))) as Htot by done.
  assert (zlen (time_parts true (l ++ [(ms, str "msec")])) < 64) as Hlen.
  { change (l ++ [(ms, str "msec")]) with ((d, str "d") :: [(h, str "h"); (m, str "m"); (s, str "s"); (ms, str "msec")]).
    assert (forall b, zlen (time_parts b [(h, str "h"); (m, str "m"); (s, str "s"); (ms, str "msec")]) <= 32) as Hl.
    { intros b. apply time_parts_len. repeat apply Forall_cons_2; [..|by apply Forall_nil_2];
        (split; [cbn [fst]; lia|by vm_compute]). }
    cbn [time_parts fst]. destruct (d =? 0); [specialize (Hl true); cbn [time_parts fst] in Hl; lia|].
    specialize (Hl false). cbn [time_parts fst] in Hl. rewrite zlen_app. unfold time_part at 1. cbn [fst snd app].
    rewrite zlen_app. pose proof (print_len 10 d 12 ltac:(lia)) as Hp. change (10 ^ Z.of_nat 12) with 1000000000000 in Hp.
    change (zlen (str "d")) with 1. lia. }
  exists (time_parts true (l ++ [(ms, str "msec")])). split.
  { rewrite msec_loop_old; [|intros E|lia].
    - rewrite (msec_loop_fits _ size 0 size []); [done|lia|done|lia|lia|change (0 =? 0) with true; lia].
    - rewrite time_parts_app in E. apply app_nil in E as [E1 E2]. pose proof (total_ms_empty true vs us eq_refl E1).
      destruct (ms =? 0) eqn:Ems; bool_hyps; [lia|]. cbn [time_parts fst] in E2.
      rewrite (proj2 (Z.eqb_neq ms 0)) in E2 by done. rewrite app_nil_r in E2.
      pose proof (time_part_len (if bool_decide (time_parts true l = []) then true else false) ms (str "msec")) as Hp.
      rewrite E2 in Hp. simpl in Hp. lia. }
  rewrite time_parts_app in *. set (tx := time_parts true l) in *. unfold nl_str2msec.
  rewrite (proj2 (Z.ltb_lt 0 msec)) by lia. cbn [andb time_parts fst].
  assert (us ⊆ time_units /\ Forall (fun v => 0 <= v) vs) as [Hus Hvs] by (split; [done|repeat constructor; lia]).
  destruct (ms =? 0) eqn:Ems; bool_hyps.
  - rewrite app_nil_r. destruct (decide (tx = [])) as [Htx|Htx].
    + pose proof (total_ms_empty true vs us eq_refl Htx). lia.
    + destruct (str2msec_parts us (S (length tx)) true vs [] 0) as (f' & _ & He); try done.
      { rewrite Htot. lia. } { fold l tx. lia. } fold l tx in He. rewrite app_nil_r in He. rewrite He, Htot. cbn. do 2 f_equal. lia.
  - rewrite app_nil_r. destruct (decide (tx = [])) as [Htx|Htx].
    + rewrite Htx. cbn [app]. rewrite str2msec_msec by lia. done.
    + rewrite (bool_decide_false (tx = [])) by done.
      set (r := time_part false (ms, str "msec")).
      destruct (str2msec_parts us (S (length (tx ++ r))) true vs r 0) as (f' & Hf' & He); try done.
      { rewrite Htot. lia. } { intros c r'. unfold r, time_part. simpl. congruence. }
      { fold l tx. rewrite length_app. lia. }
      fold l tx in He, Hf'. rewrite He. rewrite bool_decide_false by done.
      destruct f' as [|f']; [rewrite length_app in Hf'; pose proof (time_part_len false ms (str "msec")); fold r in H; lia|].
      unfold r. rewrite str2msec_msec by lia. done.
Qed.

Lemma msec_roundtrip_witness : exists text, nl_msec2str 93784000 [] 64 = Done text /\
  nl_str2msec text = Done (inr 93784000).
Proof. destruct (msec_roundtrip 93784000 [] 64) as (t & H1 & H2); [lia|lia|]. exists t. split; [exact H1|exact H2]. Defined.

(** In a small buffer the loop goes on behind its end. *)
Lemma nl_msec2str_overflow : nl_msec2str 93784000 [] 4 = Fault.
Proof. by vm_compute. Qed.

(** ** Flags *)

(** Tables whose rows are single flags with names that can be told apart. *)
Definition flag_row_ok (tbl : list trans_tbl) (t : trans_tbl) : bool :=
  match tt_a t with
  | [] => false
  | c :: _ => negb (c =? 32)
  end && negb (bool_decide (44 ∈ tt_a t)) && (0 <? tt_i t) && (tt_i t <? 2 ^ 31) &&
  (tt_i t =? 2 ^ Z.log2 (tt_i t)) &&
  forallb (fun t' => negb ((zlen (tt_a t') =? zlen (tt_a t)) && strncaseeq (length (tt_a t)) (tt_a t') (tt_a t))
                     || (tt_i t' =? tt_i t)) tbl.
Definition flag_tbl_ok (tbl : list trans_tbl) : bool := forallb (flag_row_ok tbl) tbl.

Definition all_flags (tbl : list trans_tbl) : Z := foldr (fun t f => Z.lor (tt_i t) f) 0 tbl.

(** The text of the flags [tmp] by the rows of [tbl]. *)
Fixpoint flags_text (tbl : list trans_tbl) (tmp : Z) : list Z :=
  match tbl with
  | [] => []
  | t :: tbl =>
      if Z.land (tt_i t) tmp =? 0 then flags_text tbl tmp
      else
        let tmp := Z.ldiff tmp (tt_i t) in
        tt_a t ++ (if tmp =? 0 then [] else [44]) ++ flags_text tbl tmp
  end.

Lemma ldiff_range k a b : 0 <= k -> 0 <= a < 2 ^ k -> 0 <= b -> 0 <= Z.ldiff a b < 2 ^ k.
Proof.
  intros Hk Ha Hb. assert (0 <= Z.ldiff a b) as Hp by (apply Z.ldiff_nonneg; lia). split; [done|].
  apply Z.bounded_iff_bits_nonneg; [done|done|]. intros l Hl. rewrite Z.ldiff_spec.
  rewrite (proj1 (Z.bounded_iff_bits_nonneg k a Hk (proj1 Ha)) (proj2 Ha) l Hl). done.
Qed.

Lemma flags2str_text flags size tbl tmp buf :
  0 <= flags < 2 ^ 31 -> 0 <= tmp < 2 ^ 31 -> Z.land tmp flags = tmp ->
  Forall (fun t => 0 <= tt_i t < 2 ^ 31) tbl ->
  zlen buf + zlen (flags_text tbl tmp) < size ->
  flags2str_loop flags size tbl tmp buf = Done (buf ++ flags_text tbl tmp).
Proof.
  intros Hf Ht Hs Hr. revert tmp buf Ht Hs. induction Hr as [|t tbl Hi Hr IH]; intros tmp buf Ht Hs Hsz.
  { simpl. by rewrite app_nil_r. }
  cbn [flags2str_loop flags_text] in *. rewrite u64_id by lia. destruct (Z.land (tt_i t) tmp =? 0) eqn:E; [by apply IH|].
  change (Z.land tmp (Z.lnot (tt_i t))) with (Z.land tmp (Z.lnot (tt_i t))). rewrite <- Z.ldiff_land.
  pose proof (ldiff_range 31 tmp (tt_i t) ltac:(lia) Ht ltac:(lia)) as Hd.
  rewrite s32_id by lia. set (tmp' := Z.ldiff tmp (tt_i t)) in *.
  assert (Z.land tmp' flags = tmp') as Hs'.
  { unfold tmp'. apply Z.bits_inj'. intros i Hi'. rewrite Z.land_spec, !Z.ldiff_spec.
    rewrite <- Hs at 2. rewrite Z.land_spec. by destruct (Z.testbit tmp i), (Z.testbit flags i), (Z.testbit (tt_i t) i). }
  rewrite Hs'. cbv zeta in Hsz. rewrite !zlen_app in Hsz. pose proof (zlen_nonneg (flags_text tbl tmp')).
  pose proof (zlen_nonneg (if tmp' =? 0 then [] else [44])).
  rewrite strncat_room_fits by lia. exec_simpl. destruct (tmp' =? 0) eqn:E2; exec_simpl.
  - rewrite IH; [by rewrite <- app_assoc|done|done|rewrite zlen_app; change (zlen []) with 0 in *; lia].
  - change (zlen [44]) with 1 in *. change (str ",") with [44].
    rewrite strncat_room_fits by (rewrite zlen_app; change (zlen [44]) with 1; lia). exec_simpl.
    rewrite IH; [by rewrite <- !app_assoc|done|done|rewrite !zlen_app; change (zlen [44]) with 1; lia].
Qed.

Lemma strncaseeq_app n a b r : (n <= length b)%nat -> strncaseeq n a (b ++ r) = strncaseeq n a b.
Proof.
  revert a b. induction n as [|n IH]; intros a b Hn; [done|]. destruct b as [|y b]; simpl in Hn; [lia|].
  destruct a as [|x a]; [done|]. cbn [app strncaseeq]. rewrite IH by lia. done.
Qed.

Lemma strncaseeq_refl n a : strncaseeq n a a = true.
Proof. revert a. induction n as [|n IH]; intros [|x a]; try done. simpl. by rewrite Z.eqb_refl, IH. Qed.


Definition names (p : list Z) (len : Z) (t : trans_tbl) : bool :=
  (len =? zlen (tt_a t)) && strncaseeq (Z.to_nat len) (tt_a t) p.

Lemma lor_id f v : Z.lor (Z.lor f v) v = Z.lor f v.
Proof. by rewrite <- Z.lor_assoc, Z.lor_diag. Qed.

(** One token, when all rows it names have the value [v]. *)
Lemma add_flags_value tbl p len v flags :
  (forall t, t ∈ tbl -> names p len t = true -> tt_i t = v) -> 0 <= v < 2 ^ 31 -> 0 <= flags < 2 ^ 31 ->
  add_flags tbl p len flags = if existsb (names p len) tbl then Z.lor flags v else flags.
Proof.
  intros Hall Hv. unfold add_flags. fold (names p len). revert flags.
  induction tbl as [|t tbl IH]; intros flags Hf; [done|]. cbn [foldl existsb].
  assert (forall t, t ∈ tbl -> names p len t = true -> tt_i t = v) as Hall' by (intros; apply Hall; [by right|done]).
  change ((len =? zlen (tt_a t)) && strncaseeq (Z.to_nat len) (tt_a t) p) with (names p len t).
  destruct (names p len t) eqn:E; cbn [orb].
  - rewrite (Hall t) by (done || by left). pose proof (lor_range 31 flags v ltac:(lia) Hf Hv).
    rewrite s32_id by lia. rewrite IH by done. destruct (existsb _ tbl); [apply lor_id|done].
  - by apply IH.
Qed.

Lemma flag_row tbl t :
  flag_tbl_ok tbl = true -> t ∈ tbl ->
  (exists c a, tt_a t = c :: a /\ c <> 32) /\ (44 ∉ tt_a t) /\ 0 < tt_i t < 2 ^ 31 /\
  tt_i t = 2 ^ Z.log2 (tt_i t) /\
  forall t', t' ∈ tbl -> names (tt_a t) (zlen (tt_a t)) t' = true -> tt_i t' = tt_i t.
Proof.
  intros Hok Hin. assert (flag_row_ok tbl t = true) as Hr.
  { unfold flag_tbl_ok in Hok. rewrite forallb_forall in Hok. by apply Hok, list_elem_of_In. }
  unfold flag_row_ok in Hr. repeat (apply andb_prop in Hr as [Hr ?]). bool_hyps.
  split; [destruct (tt_a t) as [|c a]; [done|]; bool_hyps; by eexists _, _|].
  split; [by apply bool_decide_eq_false in H3|]. split; [lia|]. split; [done|].
  intros t' Hin' Hn. rewrite forallb_forall in H. specialize (H t'). rewrite list_elem_of_In in Hin'.
  specialize (H Hin'). unfold names in Hn. bool_hyps. destruct H as [H|H]; bool_hyps; [|done].
  destruct H as [H|H]; bool_hyps; [congruence|]. unfold zlen in H5. rewrite Nat2Z.id in H5. congruence.
Qed.

Lemma add_flags_row tbl t r flags :
  flag_tbl_ok tbl = true -> t ∈ tbl -> 0 <= flags < 2 ^ 31 ->
  add_flags tbl (tt_a t ++ r) (zlen (tt_a t)) flags = Z.lor flags (tt_i t).
Proof.
  intros Hok Hin Hf. destruct (flag_row tbl t Hok Hin) as (_ & _ & Hi & _ & Hu).
  assert (forall t', names (tt_a t ++ r) (zlen (tt_a t)) t' = names (tt_a t) (zlen (tt_a t)) t') as Hn.
  { intros t'. unfold names. f_equal. apply strncaseeq_app. unfold zlen. lia. }
  rewrite (add_flags_value tbl _ _ (tt_i t)); [|intros t' Ht'; rewrite Hn; by apply Hu|lia|done].
  assert (existsb (names (tt_a t ++ r) (zlen (tt_a t))) tbl = true) as ->; [|done].
  apply existsb_exists. exists t. split; [by apply list_elem_of_In|]. rewrite Hn. unfold names.
  by rewrite Z.eqb_refl, strncaseeq_refl.
Qed.

Lemma add_flags_none tbl flags :
  flag_tbl_ok tbl = true -> 0 <= flags < 2 ^ 31 -> add_flags tbl [] 0 flags = flags.
Proof.
  intros Hok Hf. assert (existsb (names [] 0) tbl = false) as He.
  { apply not_true_is_false. intros He. apply existsb_exists in He as (t & Hin & Hn).
    apply list_elem_of_In in Hin. destruct (flag_row tbl t Hok Hin) as ((c & a & Ha & _) & _).
    unfold names in Hn. rewrite Ha, zlen_cons in Hn. bool_hyps. pose proof (zlen_nonneg a). lia. }
  rewrite (add_flags_value tbl [] 0 0); [by rewrite He| |lia|done]. intros t Hin Hn. exfalso.
  assert (existsb (names [] 0) tbl = true) as Ht; [|congruence].
  apply existsb_exists. exists t. by rewrite <- list_elem_of_In.
Qed.

(** A single flag is in a word or not. *)
Lemma land_flag i f : 0 < i -> i = 2 ^ Z.log2 i -> Z.land i f = if Z.testbit f (Z.log2 i) then i else 0.
Proof.
  intros _ Hi. pose proof (Z.log2_nonneg i) as Hk. set (k := Z.log2 i) in *. rewrite Hi. clearbody k. clear i Hi.
  apply Z.bits_inj'. intros n Hn. rewrite Z.land_spec, Z.pow2_bits_eqb by done.
  destruct (Z.testbit f k) eqn:E; [rewrite Z.pow2_bits_eqb by done|rewrite Z.bits_0];
    destruct (k =? n) eqn:E2; bool_hyps; subst; rewrite ?andb_false_l; try done; by rewrite E.
Qed.

(** Reading the text of flags adds the flags the table knows. *)
Lemma str2flags_text tbl l fuel tmp flags :
  flag_tbl_ok tbl = true -> (forall t, t ∈ l -> t ∈ tbl) -> 0 <= tmp < 2 ^ 31 -> 0 <= flags < 2 ^ 31 ->
  (length (flags_text l tmp) < fuel)%nat ->
  str2flags_loop fuel (flags_text l tmp) tbl flags = Done (Z.lor flags (Z.land tmp (all_flags l))).
Proof.
  intros Hok. revert fuel tmp flags. induction l as [|t l IH]; intros fuel tmp flags Hsub Ht Hf Hfu.
  { destruct fuel as [|fuel]; [simpl in Hfu; lia|]. cbn [str2flags_loop flags_text strchr].
    change (zlen []) with 0. rewrite add_flags_none by done. simpl. by rewrite Z.land_0_r, Z.lor_0_r. }
  assert (t ∈ tbl) as Hin by (apply Hsub; by left).
  assert (forall t, t ∈ l -> t ∈ tbl) as Hsub' by (intros; apply Hsub; by right).
  destruct (flag_row tbl t Hok Hin) as ((c & a & Ha & Hc) & Hcm & Hi & Hp2 & _).
  cbn [flags_text all_flags foldr] in *. fold (all_flags l). rewrite Z.land_lor_distr_r, (Z.land_comm tmp (tt_i t)).
  destruct (Z.land (tt_i t) tmp =? 0) eqn:E; bool_hyps.
  { rewrite E, Z.lor_0_l. by apply IH. }
  pose proof (land_flag (tt_i t) tmp ltac:(lia) Hp2) as Hl. destruct (Z.testbit tmp (Z.log2 (tt_i t))); [|done].
  rewrite Hl. pose proof (ldiff_range 31 tmp (tt_i t) ltac:(lia) Ht ltac:(lia)) as Hd.
  set (tmp' := Z.ldiff tmp (tt_i t)) in *.
  assert (Z.lor (tt_i t) (Z.land tmp (all_flags l)) = Z.lor (tt_i t) (Z.land tmp' (all_flags l))) as ->.
  { unfold tmp'. apply Z.bits_inj'. intros i Hi'. rewrite !Z.lor_spec, !Z.land_spec, Z.ldiff_spec.
    by destruct (Z.testbit (tt_i t) i), (Z.testbit tmp i), (Z.testbit (all_flags l) i). }
  rewrite Z.lor_assoc. pose proof (lor_range 31 flags (tt_i t) ltac:(lia) Hf ltac:(lia)) as Hlr.
  rewrite length_app in Hfu. assert (0 < length (tt_a t))%nat by (rewrite Ha; simpl; lia).
  destruct fuel as [|fuel]; [lia|]. cbn [str2flags_loop].
  assert (forall r, match tt_a t ++ r with 32 :: r' => r' | _ => tt_a t ++ r end = tt_a t ++ r) as Hsp.
  { intros r. rewrite Ha. cbn [app]. repeat (case_match; try done; subst). }
  rewrite Hsp, strchr_app by done. destruct (tmp' =? 0) eqn:E2; bool_hyps.
  - cbn [app] in *. assert (flags_text l tmp' = []) as ->.
    { rewrite E2. clear. induction l as [|t l IH]; [done|]. cbn [flags_text]. by rewrite Z.land_0_r. }
    cbn [strchr]. rewrite app_nil_r. rewrite <- (app_nil_r (tt_a t)) at 1. rewrite add_flags_row by done.
    rewrite E2. simpl. by rewrite Z.lor_0_r.
  - cbn [app strchr Z.eqb Pos.eqb]. cbn [tail]. rewrite zlen_app.
    replace (zlen (tt_a t) + zlen (44 :: flags_text l tmp') - zlen (44 :: flags_text l tmp')) with (zlen (tt_a t)) by lia.
    rewrite add_flags_row by done. apply IH; try done. rewrite length_app in Hfu. simpl in Hfu. lia.
Qed.

(** Flags written by __flags2str into a buffer that has room and read back by
    __str2flags are the flags that the table has names for: the others are lost.
    Any table of single flags whose names differ and have no comma will do. *)
Theorem flags_roundtrip tbl flags size :
  flag_tbl_ok tbl = true -> 0 <= flags < 2 ^ 31 -> zlen (flags_text tbl flags) < size ->
  exists text, __flags2str flags size tbl = Done text /\
    __str2flags text tbl = Done (Z.land flags (all_flags tbl)).
Proof.
  intros Hok Hf Hs. exists (flags_text tbl flags). split.
  - unfold __flags2str. rewrite flags2str_text; [done|done|done|by rewrite Z.land_diag| |done].
    apply Forall_forall. intros t Ht. destruct (flag_row tbl t Hok Ht) as (_ & _ & ? & _). lia.
  - unfold __str2flags. rewrite str2flags_text; [by rewrite Z.lor_0_l|done|done|done|lia|lia].
Qed.

(** The flags of interfaces, say. *)
Definition ex_flags : list trans_tbl := [Tr 1 "up"; Tr 2 "broadcast"; Tr 4 "debug"; Tr 8 "loopback"].
Lemma flags_roundtrip_witness :
  flag_tbl_ok ex_flags = true /\
  exists text, __flags2str 41 64 ex_flags = Done text /\ __str2flags text ex_flags = Done 9.
Proof.
  split; [by vm_compute|]. destruct (flags_roundtrip ex_flags 41 64) as (text & H1 & H2);
    [by vm_compute|lia|by vm_compute|]. exists text. split; [exact H1|exact H2].
Defined.
