(* ===== verification/Addr.v ===== *)
(** Abstract addresses (lib/addr.c) and MPLS label stacks as text (lib/mpls.c):
    construction, references, comparison, and conversion from and to text.

    inet_pton and inet_ntop belong to the C library's network functions and are
    parameters: the bytes of an address text, if it is one, and the text of
    address bytes. *)
From S2P Require Import Prelude Errors CString Utils.

Definition AF_UNSPEC := 0.
Definition AF_INET := 2.
Definition AF_INET6 := 10.
Definition AF_DECnet := 12.
Definition AF_LLC := 26.
Definition AF_MPLS := 28.

(** ** MPLS label stacks (lib/mpls.c) *)

Definition MPLS_LS_LABEL_MASK := 4294963200.
Definition MPLS_LS_S_MASK := 256.

(** Entries are in network byte order. *)
Definition be32 (a b c d : Z) : Z := ((a * 256 + b) * 256 + c) * 256 + d.
Definition be32_bytes (v : Z) : list Z := [v / 16777216 mod 256; v / 65536 mod 256; v / 256 mod 256; v mod 256].

(** Writes labels behind [dest]; the result is whether it returned the buffer, and
    what the buffer holds: [None] when no zero ends it. *)
Fixpoint mpls_ntop1 (addr : list Z) (dest : list Z) (destlen : Z) : exec (bool * option (list Z)) :=
  match addr with
  | a :: b :: c :: d :: rest =>
      let entry := be32 a b c d in
      let label := Z.shiftr (Z.land entry MPLS_LS_LABEL_MASK) 12 in
      let text := print_u label in
      let len := zlen text in
      if destlen <=? len then
        mret (false, if destlen =? 0 then None else Some (dest ++ take (Z.to_nat (destlen - 1)) text))
      else if has_flag entry MPLS_LS_S_MASK then mret (true, Some (dest ++ text))
      else mpls_ntop1 rest (dest ++ text ++ [47]) (destlen - len - 1)
  | _ => Fault
  end.
Definition mpls_ntop (af : Z) (addr old : list Z) (buflen : Z) : exec (bool * option (list Z)) :=
  if af =? AF_MPLS then mpls_ntop1 addr [] buflen else mret (false, Some old).

(** The number of bytes of the stack, 0 when there is none, and the bytes
    written. *)
Fixpoint mpls_pton1 (maxlabels : nat) (name : list Z) (acc : list Z) : Z * list Z :=
  match maxlabels with
  | O => (0, acc)
  | S n =>
      match strtoul 0 name with
      | None => (0, acc)
      | Some (label, endp) =>
          if 2 ^ 20 <=? label then (0, acc)
          else match endp with
               | [] => let acc := acc ++ be32_bytes (Z.lor (u32 (Z.shiftl label 12)) (Z.shiftl 1 8)) in
                       (zlen acc, acc)
               | c :: r => let acc := acc ++ be32_bytes (u32 (Z.shiftl label 12)) in
                           if negb (c =? 47) then (0, acc) else mpls_pton1 n r acc
               end
      end
  end.
Definition mpls_pton (af : Z) (src : list Z) (alen : Z) : Z * list Z :=
  if af =? AF_MPLS then mpls_pton1 (Z.to_nat (alen / 4)) src [] else (-1, []).

(** ** DECnet addresses: the host is little endian, dn_ntohs is the identity *)

Definition dn_ntohs (addr : Z) : Z := Z.lor (addr mod 256) (u16 (Z.shiftl (addr / 256) 8)).

(** [out]: what has been written; [None]: the buffer of [len] bytes is full. *)
Definition do_digit (st : Z * list Z * bool) (scale len : Z) : option (Z * list Z * bool) :=
  let '(addr, out, started) := st in
  let tmp := addr / scale in
  if zlen out =? len then None
  else if (0 <? tmp) || started || (scale =? 1)
       then Some (u16 (addr - tmp * scale), out ++ [tmp + 48], true)
       else Some (addr, out, started).
Fixpoint do_digits (scales : list Z) (len : Z) (st : Z * list Z * bool) : option (Z * list Z * bool) :=
  match scales with
  | [] => Some st
  | s :: scales => match do_digit st s len with Some st => do_digits scales len st | None => None end
  end.

(** What the buffer holds afterwards; [None]: no zero ends it. *)
Definition dnet_ntop (addrbuf : list Z) (addrlen : Z) (old : list Z) (len : Z) : exec (option (list Z)) :=
  addr ← get_u16 addrbuf 0;
  let addr := dn_ntohs addr in
  let area := Z.shiftr addr 10 in
  if negb (addrlen =? 2) then mret (Some old)
  else
    let addr := Z.land addr 1023 in
    if len =? 0 then mret None
    else match do_digits [10; 1] len (area, [], false) with
         | None => mret None
         | Some (_, out, _) =>
             if zlen out =? len then mret None
             else match do_digits [1000; 100; 10; 1] len (addr, out ++ [46], false) with
                  | None => mret None
                  | Some (_, out, _) => mret (if zlen out =? len then None else Some out)
                  end
         end.

(** The number of digits, and their value in 16 bits. *)
Fixpoint dnet_num (src : list Z) (rv dst : Z) : Z * Z :=
  match src with
  | [] => (rv, dst)
  | c :: src =>
      let tmp := c - 48 in
      if (tmp <? 0) || (9 <? tmp) then (rv, dst)
      else dnet_num src (rv + 1) (u16 (u16 (dst * 10) + tmp))
  end.
Definition dnet_pton (src : list Z) : Z * list Z :=
  let '(pos, area) := dnet_num src 0 0 in
  let sep := drop (Z.to_nat pos) src in
  match sep with
  | c :: r =>
      if (pos =? 0) || (63 <? area) || negb ((c =? 46) || (c =? 44)) then (- NLE_INVAL, [])
      else
        let '(pos, node) := dnet_num r 0 0 in
        if (pos =? 0) || (1023 <? node) then (- NLE_INVAL, [])
        else (1, le_encode 2 (dn_ntohs (Z.lor (Z.shiftl area 10) node)))
  | [] => (- NLE_INVAL, [])
  end.

(** ** Addresses *)

Record nl_addr := {
  a_family : Z;
  a_maxsize : Z;
  a_len : Z;
  a_prefixlen : Z;
  a_refcnt : Z;
  a_addr : list Z
}.

Definition with_prefixlen (a : nl_addr) n : nl_addr :=
  {| a_family := a_family a; a_maxsize := a_maxsize a; a_len := a_len a; a_prefixlen := n;
     a_refcnt := a_refcnt a; a_addr := a_addr a |}.
Definition with_refcnt (a : nl_addr) n : nl_addr :=
  {| a_family := a_family a; a_maxsize := a_maxsize a; a_len := a_len a;
     a_prefixlen := a_prefixlen a; a_refcnt := n; a_addr := a_addr a |}.

(** [None]: freed. *)
Definition addr_destroy (addr : option nl_addr) : exec (option nl_addr) :=
  match addr with
  | None => mret None
  | Some a => if negb (a_refcnt a =? 1) then Bug else mret None
  end.

(** [c]: whether calloc succeeds. *)
Definition nl_addr_alloc (c : bool) (maxsize : Z) : option nl_addr :=
  if negb c then None
  else Some {| a_family := 0; a_maxsize := u32 maxsize; a_len := 0; a_prefixlen := 0; a_refcnt := 1;
               a_addr := zeros maxsize |}.

Definition nl_addr_build (c : bool) (family : Z) (buf : list Z) (size : Z) : exec (option nl_addr) :=
  match nl_addr_alloc c size with
  | None => mret None
  | Some a =>
      d ← load buf 0 size;
      mret (Some {| a_family := family; a_maxsize := a_maxsize a; a_len := u32 size;
                    a_prefixlen := if family =? AF_MPLS then 20 else s32 (size * 8);
                    a_refcnt := a_refcnt a; a_addr := d |})
  end.

(** The attribute's payload. *)
Definition nl_addr_alloc_attr (c : bool) (payload : list Z) (family : Z) : exec (option nl_addr) :=
  nl_addr_build c family payload (zlen payload).

Definition nl_addr_clone (c : bool) (a : nl_addr) : exec (option nl_addr) :=
  new ← nl_addr_build c (a_family a) (a_addr a) (a_len a);
  mret (match new with Some n => Some (with_prefixlen n (a_prefixlen a)) | None => None end).

Definition nl_addr_get (a : nl_addr) : nl_addr := with_refcnt a (a_refcnt a + 1).
Definition nl_addr_put (a : option nl_addr) : exec (option nl_addr) :=
  match a with
  | None => mret None
  | Some a => if a_refcnt a =? 1 then addr_destroy (Some a)
              else mret (Some (with_refcnt a (a_refcnt a - 1)))
  end.
Definition nl_addr_shared (a : nl_addr) : bool := 1 <? a_refcnt a.

(** The test for equal pointers is the case of equal values. *)
Definition nl_addr_cmp (a b : option nl_addr) : exec Z :=
  match a, b with
  | None, None => mret 0
  | None, _ => mret (-1)
  | _, None => mret 1
  | Some a, Some b =>
      let d := a_family a - a_family b in
      if d =? 0 then
        let d := s32 (a_len a - a_len b) in
        if negb (a_len a =? 0) && (d =? 0) then
          x ← load (a_addr a) 0 (a_len a); y ← load (a_addr b) 0 (a_len a);
          let d := memcmp x y in
          mret (if d =? 0 then a_prefixlen a - a_prefixlen b else d)
        else mret d
      else mret d
  end.

Definition nl_addr_cmp_prefix (a b : nl_addr) : exec Z :=
  let d := a_family a - a_family b in
  if d =? 0 then
    let len := Z.min (a_prefixlen a) (a_prefixlen b) in
    let bytes := Z.quot len 8 in
    x ← load (a_addr a) 0 bytes; y ← load (a_addr b) 0 bytes;
    let d := memcmp x y in
    if (d =? 0) && negb (Z.rem len 8 =? 0) then
      let mask := Z.land (Z.shiftr 65280 (Z.rem len 8)) 255 in
      x ← get_u8 (a_addr a) bytes; y ← get_u8 (a_addr b) bytes;
      mret (Z.land x mask - Z.land y mask)
    else mret d
  else mret d.

Fixpoint all_zero (l : list Z) : bool :=
  match l with [] => true | x :: l => if negb (x =? 0) then false else all_zero l end.
Definition nl_addr_iszero (a : nl_addr) : exec bool :=
  d ← load (a_addr a) 0 (a_len a); mret (all_zero d).

Definition nl_addr_guess_family (a : nl_addr) : Z :=
  if a_len a =? 4 then AF_INET
  else if a_len a =? 6 then AF_LLC
  else if a_len a =? 16 then AF_INET6
  else AF_UNSPEC.

(** A filled socket address: family, address bytes, size. *)
Definition nl_addr_fill_sockaddr (a : nl_addr) (salen : Z) : exec (Z * option (Z * list Z * Z)) :=
  let fill n size :=
    if salen <? size then mret (- NLE_INVAL, None)
    else if a_len a =? n then d ← load (a_addr a) 0 n; mret (0, Some (a_family a, d, size))
    else if negb (a_len a =? 0) then mret (- NLE_INVAL, None)
    else mret (0, Some (a_family a, zeros n, size)) in
  if a_family a =? AF_INET then fill 4 16
  else if a_family a =? AF_INET6 then fill 16 28
  else mret (- NLE_INVAL, None).

Definition nl_addr_set_family (a : nl_addr) (family : Z) : nl_addr :=
  {| a_family := family; a_maxsize := a_maxsize a; a_len := a_len a; a_prefixlen := a_prefixlen a;
     a_refcnt := a_refcnt a; a_addr := a_addr a |}.
Definition nl_addr_get_family (a : nl_addr) : Z := a_family a.
Definition nl_addr_set_binary_addr (a : nl_addr) (buf : list Z) (len : Z) : exec (Z * nl_addr) :=
  if a_maxsize a <? len then mret (- NLE_RANGE, a)
  else
    let z := zeros (a_maxsize a) in
    d ← load buf 0 len;
    x ← store z 0 d;
    mret (0, {| a_family := a_family a; a_maxsize := a_maxsize a; a_len := len;
                a_prefixlen := a_prefixlen a; a_refcnt := a_refcnt a; a_addr := x |}).
Definition nl_addr_get_binary_addr (a : nl_addr) : list Z := a_addr a.
Definition nl_addr_get_len (a : nl_addr) : Z := a_len a.
Definition nl_addr_set_prefixlen (a : nl_addr) (prefixlen : Z) : nl_addr := with_prefixlen a prefixlen.
Definition nl_addr_get_prefixlen (a : nl_addr) : Z := u32 (a_prefixlen a).

(** ** From and to text *)

(** The item [%02x] of sscanf reads: blanks, then at most two characters that
    make up a number in base 16. *)
Definition scan_02x (l : list Z) : option (Z * list Z) :=
  match skip_spaces l with
  | c :: r =>
      if (c =? 45) || (c =? 43) then
        match r with
        | d :: r => if digit d <? 16 then Some (if c =? 45 then - digit d else digit d, r) else None
        | [] => None
        end
      else if digit c <? 16 then
        match r with
        | d :: r' => if digit d <? 16 then Some (digit c * 16 + digit d, r')
                     else if (c =? 48) && (tolower d =? 120) then None
                     else Some (digit c, r)
        | [] => Some (digit c, r)
        end
      else None
  | [] => None
  end.

(** The conversions of "%02x:%02x:..." with [n] of them that succeed. *)
Fixpoint scan_colon_bytes (n : nat) (l : list Z) : list Z :=
  match n with
  | O => []
  | S n =>
      match scan_02x l with
      | None => []
      | Some (v, r) =>
          u8 v :: match r with 58 :: r => scan_colon_bytes n r | _ => [] end
      end
  end.

Section Text.
Variable inet_pton : Z -> list Z -> option (list Z).
Variable inet_ntop : Z -> list Z -> list Z.

(** "%*02x:...": suppressed conversions are not counted. *)
Definition sscanf_suppressed : Z := 0.

Definition nl_addr_valid (addr : list Z) (family : Z) : bool :=
  if (family =? AF_INET) || (family =? AF_INET6) then
    match inet_pton family addr with Some _ => true | None => false end
  else if family =? AF_MPLS then 0 <? (mpls_pton family addr 256).1
  else if family =? AF_DECnet then 0 <? (dnet_pton addr).1
  else if family =? AF_LLC then sscanf_suppressed =? 6
  else true.

(** Bytes in base 16 with a character between them. *)
Fixpoint parse_hex_bytes (fuel : nat) (s : list Z) (buf : list Z) : Z + list Z :=
  match fuel with
  | O => inl (- NLE_INVAL)
  | S f =>
      match strtol 16 s with
      | None => inl (- NLE_INVAL)
      | Some (l, p) =>
          if (255 <? l) || (256 <=? zlen buf) then inl (- NLE_INVAL)
          else
            let buf := buf ++ [u8 l] in
            match p with [] => inr buf | _ :: s => parse_hex_bytes f s buf end
      end
  end.

(** The part of [nl_addr_parse] up to the label [prefix]: an error, or the
    family, the bytes ([None]: no copy) and the prefix length of labels. *)
Definition parse_addr (s : list Z) (hint : Z) : Z + Z * option (list Z) * Z :=
  let fits f := (hint =? f) || (hint =? AF_UNSPEC) in
  if strcaseeq s (str "none") then inr (hint, None, 0)
  else if strcaseeq s (str "default") || strcaseeq s (str "all") || strcaseeq s (str "any") then
    if fits AF_INET then inr (AF_INET, None, 0)
    else if hint =? AF_INET6 then inr (AF_INET6, None, 0)
    else if hint =? AF_LLC then inr (AF_LLC, None, 0)
    else inl (- NLE_AF_NOSUPPORT)
  else
    let has c := match strchr s c with Some _ => true | None => false end in
    let rest4 (_ : unit) :=
      if (hint =? AF_UNSPEC) && has 58 then
        match parse_hex_bytes (S (length s)) s [] with
        | inl err => inl err
        | inr buf => inr (AF_UNSPEC, Some buf, 0)
        end
      else inl (- NLE_NOADDR) in
    let rest3 (_ : unit) :=
      if hint =? AF_MPLS then
        let '(len, buf) := mpls_pton AF_MPLS s 256 in
        if len <=? 0 then inl (- NLE_INVAL) else inr (AF_MPLS, Some buf, 20)
      else rest4 tt in
    let rest2 (_ : unit) :=
      if fits AF_DECnet && (has 46 || has 44) then
        let '(ret, buf) := dnet_pton s in
        if 0 <? ret then inr (AF_DECnet, Some buf, 0)
        else if hint =? AF_DECnet then inl (- NLE_NOADDR) else rest3 tt
      else rest3 tt in
    let rest1 (_ : unit) :=
      if fits AF_LLC && has 58 then
        let buf := scan_colon_bytes 6 s in
        if zlen buf =? 6 then inr (AF_LLC, Some buf, 0)
        else if hint =? AF_LLC then inl (- NLE_NOADDR) else rest2 tt
      else rest2 tt in
    let rest0 (_ : unit) :=
      if fits AF_INET6 then
        match inet_pton AF_INET6 s with
        | Some buf => inr (AF_INET6, Some buf, 0)
        | None => if hint =? AF_INET6 then inl (- NLE_NOADDR) else rest1 tt
        end
      else rest1 tt in
    if fits AF_INET then
      match inet_pton AF_INET s with
      | Some buf => inr (AF_INET, Some buf, 0)
      | None => if hint =? AF_INET then inl (- NLE_NOADDR) else rest0 tt
      end
    else rest0 tt.

(** [c1], [c2]: whether strdup and the allocation succeed. *)
Definition nl_addr_parse (c1 c2 : bool) (addrstr : list Z) (hint : Z) : exec (Z * option nl_addr) :=
  if negb c1 then mret (- NLE_NOMEM, None)
  else
    let prefix := if hint =? AF_MPLS then None
                  else match strchr addrstr 47 with Some (_ :: r) => Some r | _ => None end in
    let s := if hint =? AF_MPLS then addrstr else before addrstr 47 in
    match parse_addr s hint with
    | inl err => mret (err, None)
    | inr (family, copy, plen) =>
        let len := match copy with Some buf => zlen buf | None => 0 end in
        match nl_addr_alloc c2 len with
        | None => mret (- NLE_NOMEM, None)
        | Some a =>
            let a := nl_addr_set_family a family in
            '(_, a) ← (match copy with
                       | Some buf => nl_addr_set_binary_addr a buf len
                       | None => mret (0, a)
                       end);
            match prefix with
            | Some p =>
                match strtol 0 p with
                | None => _ ← addr_destroy (Some a); mret (- NLE_INVAL, None)
                | Some (pl, _) => mret (0, Some (nl_addr_set_prefixlen a (s32 pl)))
                end
            | None => mret (0, Some (nl_addr_set_prefixlen a (if plen =? 0 then len * 8 else plen)))
            end
        end
    end.

(** inet_ntop writes the text when it fits and leaves the buffer alone otherwise. *)
Definition ntop_buf (af : Z) (bytes old : list Z) (size : Z) : list Z :=
  let text := inet_ntop af bytes in if zlen text <? size then text else old.

(** The "%02x:%02x..." of the bytes behind the first. *)
Fixpoint cat_bytes (l : list Z) (buf : list Z) (size : Z) : exec (list Z) :=
  match l with
  | [] => mret buf
  | b :: l => buf ← strncat_room buf (58 :: print_02x b) size; cat_bytes l buf size
  end.
Definition hex_bytes (a : nl_addr) (old : list Z) (size : Z) : exec (list Z) :=
  d ← load (a_addr a) 0 (a_len a);
  match d with
  | [] => Fault
  | b :: l => cat_bytes l (snprintf old size (print_02x b)) size
  end.

(** Whoever reads a buffer without an end runs over it: the strlen that follows
    in [nl_addr2str], the caller otherwise. *)
Definition terminated (r : option (list Z)) : exec (list Z) :=
  match r with Some buf => mret buf | None => Fault end.

Definition addr_text (a : nl_addr) (old : list Z) (size : Z) : exec (list Z) :=
  if a_family a =? AF_INET then d ← load (a_addr a) 0 4; mret (ntop_buf AF_INET d old size)
  else if a_family a =? AF_INET6 then d ← load (a_addr a) 0 16; mret (ntop_buf AF_INET6 d old size)
  else if a_family a =? AF_MPLS then
    '(_, r) ← mpls_ntop AF_MPLS (a_addr a) old size; terminated r
  else r ← dnet_ntop (a_addr a) (a_len a) old size; terminated r.

Definition nl_addr2str (addr : option nl_addr) (old : list Z) (size : Z) : exec (list Z) :=
  match addr with
  | None => mret (snprintf old size (str "none"))
  | Some a =>
      let prefix buf := strncat_room buf (47 :: print_u (a_prefixlen a)) size in
      if a_len a =? 0 then prefix (snprintf old size (str "none"))
      else if (a_family a =? AF_INET) || (a_family a =? AF_INET6) || (a_family a =? AF_MPLS) ||
              (a_family a =? AF_DECnet)
      then buf ← addr_text a old size; prefix buf
      else hex_bytes a old size
  end.

(** Labels are written as bytes here. *)
Definition nl_addr2str_nopref (addr : option nl_addr) (old : list Z) (size : Z) : exec (list Z) :=
  match addr with
  | None => mret (snprintf old size (str "none"))
  | Some a =>
      if a_len a =? 0 then mret (snprintf old size (str "none"))
      else if (a_family a =? AF_INET) || (a_family a =? AF_INET6) || (a_family a =? AF_DECnet)
      then addr_text a old size
      else hex_bytes a old size
  end.
End Text.

(** ** Comparison *)

Definition addr_wf (a : nl_addr) : Prop := 0 <= a_len a < 2 ^ 31 /\ a_len a <= zlen (a_addr a).

Lemma memcmp_refl l : memcmp l l = 0.
Proof. induction l as [|x l IH]; [done|]. simpl. by rewrite Z.eqb_refl. Qed.

Lemma memcmp_zero a b : length a = length b -> memcmp a b = 0 <-> a = b.
Proof.
  revert b. induction a as [|x a IH]; intros [|y b] Hl; try done. injection Hl as Hl. simpl.
  destruct (x =? y) eqn:E; bool_hyps.
  - subst y. rewrite IH by done. split; congruence.
  - split; [lia|]. intros [= -> _]. done.
Qed.

Lemma memcmp_opp a b : memcmp b a = - memcmp a b.
Proof.
  revert b. induction a as [|x a IH]; intros [|y b]; try done. simpl. rewrite (Z.eqb_sym y x).
  destruct (x =? y); [apply IH|lia].
Qed.

Lemma memcmp_trans a b c :
  length a = length b -> length b = length c -> memcmp a b <= 0 -> memcmp b c <= 0 ->
  memcmp a c <= 0 /\ (memcmp a c = 0 -> memcmp a b = 0 /\ memcmp b c = 0).
Proof.
  revert b c. induction a as [|x a IH]; intros [|y b] [|z c] H1 H2; try done.
  injection H1 as H1. injection H2 as H2. simpl. specialize (IH b c H1 H2).
  destruct (x =? y) eqn:E1, (y =? z) eqn:E2, (x =? z) eqn:E3; bool_hyps; subst; try lia; try by apply IH.
Qed.

(** The difference [nl_addr_cmp] computes of two addresses. *)
Definition addr_diff (a b : nl_addr) : Z :=
  if negb (a_family a =? a_family b) then a_family a - a_family b
  else if negb (a_len a =? a_len b) then a_len a - a_len b
  else if a_len a =? 0 then 0
  else let d := memcmp (sub (a_addr a) 0 (a_len a)) (sub (a_addr b) 0 (a_len b)) in
       if d =? 0 then a_prefixlen a - a_prefixlen b else d.

Lemma nl_addr_cmp_done a b :
  addr_wf a -> addr_wf b -> nl_addr_cmp (Some a) (Some b) = Done (addr_diff a b).
Proof.
  intros (Ha & Hla) (Hb & Hlb). unfold nl_addr_cmp, addr_diff.
  destruct (a_family a =? a_family b) eqn:E1; bool_hyps.
  - rewrite (proj2 (Z.eqb_eq _ 0)) by lia. cbn [negb]. rewrite s32_id by lia.
    destruct (a_len a =? a_len b) eqn:E2; bool_hyps; cbn [negb].
    + rewrite (proj2 (Z.eqb_eq (a_len a - a_len b) 0)) by lia. rewrite andb_true_r.
      destruct (a_len a =? 0) eqn:E3; cbn [negb]; [by rewrite (proj2 (Z.sub_move_0_r _ _)) by done|].
      rewrite !load_done by lia. exec_simpl. rewrite E2. by destruct (memcmp _ _ =? 0).
    + rewrite (proj2 (Z.eqb_neq (a_len a - a_len b) 0)) by lia. by rewrite andb_false_r.
  - by rewrite (proj2 (Z.eqb_neq _ 0)) by lia.
Qed.

(** Two addresses are the same: only the prefix lengths of addresses without
    bytes may differ. *)
Definition addr_same (a b : nl_addr) : Prop :=
  a_family a = a_family b /\ a_len a = a_len b /\
  sub (a_addr a) 0 (a_len a) = sub (a_addr b) 0 (a_len b) /\
  (a_len a <> 0 -> a_prefixlen a = a_prefixlen b).

Lemma addr_sub_len a : addr_wf a -> length (sub (a_addr a) 0 (a_len a)) = Z.to_nat (a_len a).
Proof.
  intros (Hx & Hlx). pose proof (zlen_sub (a_addr a) 0 (a_len a) ltac:(lia) ltac:(lia) ltac:(lia)) as Hz.
  unfold zlen in Hz. lia.
Qed.

Lemma addr_diff_zero a b : addr_wf a -> addr_wf b -> addr_diff a b = 0 <-> addr_same a b.
Proof.
  intros Ha Hb. pose proof (addr_sub_len a Ha). pose proof (addr_sub_len b Hb).
  unfold addr_diff, addr_same. destruct (a_family a =? a_family b) eqn:E1; bool_hyps; cbn [negb]; [|lia].
  destruct (a_len a =? a_len b) eqn:E2; bool_hyps; cbn [negb]; [|lia].
  destruct (a_len a =? 0) eqn:E3; bool_hyps.
  - split; [|done]. intros _. split_and!; try done. by rewrite <- E2, E3.
  - rewrite <- (memcmp_zero (sub (a_addr a) 0 (a_len a))) by lia.
    destruct (memcmp _ _ =? 0) eqn:E4; bool_hyps; [|lia].
    split; [intros; split_and!; try done; lia|]. intros (_ & _ & _ & Hp). specialize (Hp E3). lia.
Qed.

(** nl_addr_cmp is a total order on addresses: it gives 0 exactly for the same
    family, length, bytes and prefix length - of which the last is not looked at
    for addresses without bytes - swapping the addresses changes the sign, and
    it is transitive. *)
Theorem nl_addr_cmp_spec a b c :
  addr_wf a -> addr_wf b -> addr_wf c ->
  exists ab bc ac,
    nl_addr_cmp (Some a) (Some b) = Done ab /\ nl_addr_cmp (Some b) (Some a) = Done (- ab) /\
    nl_addr_cmp (Some b) (Some c) = Done bc /\ nl_addr_cmp (Some a) (Some c) = Done ac /\
    (ab = 0 <-> addr_same a b) /\ (ab <= 0 -> bc <= 0 -> ac <= 0).
Proof.
  intros Ha Hb Hc. exists (addr_diff a b), (addr_diff b c), (addr_diff a c).
  rewrite !nl_addr_cmp_done by done.
  pose proof (addr_sub_len a Ha) as Hla. pose proof (addr_sub_len b Hb) as Hlb. pose proof (addr_sub_len c Hc) as Hlc.
  assert (addr_diff b a = - addr_diff a b) as Hopp.
  { unfold addr_diff. rewrite (Z.eqb_sym (a_family b)), (Z.eqb_sym (a_len b) (a_len a)), (memcmp_opp (sub (a_addr a) _ _)).
    destruct (a_family a =? a_family b); cbn [negb]; [|lia].
    destruct (a_len a =? a_len b) eqn:E; cbn [negb]; [|lia]. bool_hyps. rewrite <- E.
    destruct (a_len a =? 0); [done|]. set (d := memcmp _ _). destruct (d =? 0) eqn:E0; bool_hyps.
    - rewrite (proj2 (Z.eqb_eq (- d) 0)) by lia. lia.
    - rewrite (proj2 (Z.eqb_neq (- d) 0)) by lia. lia. }
  rewrite Hopp. split; [done|]. split; [done|]. split; [done|]. split; [done|]. split.
  - by apply addr_diff_zero.
  - clear Hopp. unfold addr_diff.
    pose proof (memcmp_trans (sub (a_addr a) 0 (a_len a)) (sub (a_addr b) 0 (a_len b)) (sub (a_addr c) 0 (a_len c))) as Htr.
    destruct (a_family a =? a_family b) eqn:E1, (a_family b =? a_family c) eqn:E2, (a_family a =? a_family c) eqn:E3;
      bool_hyps; cbn [negb]; try lia.
    destruct (a_len a =? a_len b) eqn:E4, (a_len b =? a_len c) eqn:E5, (a_len a =? a_len c) eqn:E6;
      bool_hyps; cbn [negb]; try lia.
    specialize (Htr ltac:(lia) ltac:(lia)).
    destruct (a_len a =? 0) eqn:E7, (a_len b =? 0) eqn:E8; bool_hyps; try lia.
    revert Htr. set (p := memcmp _ (sub (a_addr b) _ _)). set (q := memcmp (sub (a_addr b) _ _) _).
    set (r := memcmp _ (sub (a_addr c) _ _)). intros Htr.
    destruct (p =? 0) eqn:F1, (q =? 0) eqn:F2, (r =? 0) eqn:F3; bool_hyps; lia.
Qed.

Definition ex_addr (family : Z) (bytes : list Z) (plen : Z) : nl_addr :=
  {| a_family := family; a_maxsize := zlen bytes; a_len := zlen bytes; a_prefixlen := plen;
     a_refcnt := 1; a_addr := bytes |}.

Lemma nl_addr_cmp_spec_witness :
  nl_addr_cmp (Some (ex_addr AF_INET [10; 0; 0; 1] 32)) (Some (ex_addr AF_INET [10; 0; 0; 2] 32)) = Done (-1).
Proof.
  destruct (nl_addr_cmp_spec (ex_addr AF_INET [10; 0; 0; 1] 32) (ex_addr AF_INET [10; 0; 0; 2] 32)
    (ex_addr AF_INET [10; 0; 0; 2] 32)) as (ab & bc & ac & H & _); [done|done|done|].
  rewrite H. revert H. vm_compute. intros [= <-]. reflexivity.
Defined.

(** ** Prefixes *)

(** Bit [i] of an address, counted from its start. *)
Definition addr_bit (l : list Z) (i : Z) : bool :=
  match l !! Z.to_nat (i / 8) with Some x => Z.testbit x (7 - i mod 8) | None => false end.

Lemma byte_bits x y : 0 <= x < 256 -> 0 <= y < 256 ->
  (forall j, 0 <= j < 8 -> Z.testbit x j = Z.testbit y j) -> x = y.
Proof.
  intros Hx Hy Hj. apply Z.bits_inj'. intros n Hn. destruct (decide (n < 8)); [by apply Hj|].
  change 256 with (2 ^ 8) in *.
  rewrite (proj1 (Z.bounded_iff_bits_nonneg 8 x ltac:(lia) ltac:(lia))) by lia.
  by rewrite (proj1 (Z.bounded_iff_bits_nonneg 8 y ltac:(lia) ltac:(lia))) by lia.
Qed.

Lemma mask_bits r j : 0 < r < 8 -> 0 <= j ->
  Z.testbit (Z.land (Z.shiftr 65280 r) 255) j = bool_decide (8 - r <= j < 8).
Proof.
  intros Hr Hj. rewrite Z.land_spec, Z.shiftr_spec by lia. change 255 with (Z.ones 8).
  rewrite Z.testbit_ones_nonneg by lia. change 65280 with (Z.shiftl (Z.ones 8) 8).
  destruct (decide (8 <= j + r)) as [Hd|Hd].
  - rewrite Z.shiftl_spec by lia. rewrite Z.testbit_ones_nonneg by lia.
    destruct (j <? 8) eqn:E; bool_hyps.
    + rewrite bool_decide_true by lia. rewrite (proj2 (Z.ltb_lt _ _)) by lia. done.
    + rewrite bool_decide_false by lia. by rewrite andb_false_r.
  - rewrite Z.shiftl_spec_low by lia. by rewrite bool_decide_false by lia.
Qed.

Lemma mask_eq r x y : 0 < r < 8 -> 0 <= x < 256 -> 0 <= y < 256 ->
  let mask := Z.land (Z.shiftr 65280 r) 255 in
  Z.land x mask = Z.land y mask <-> forall i, 0 <= i < r -> Z.testbit x (7 - i) = Z.testbit y (7 - i).
Proof.
  intros Hr Hx Hy mask. split.
  - intros He i Hi. assert (Z.testbit (Z.land x mask) (7 - i) = Z.testbit (Z.land y mask) (7 - i)) as Hb by (by rewrite He).
    rewrite !Z.land_spec in Hb. unfold mask in Hb. rewrite mask_bits in Hb by lia.
    rewrite bool_decide_true, !andb_true_r in Hb by lia. done.
  - intros Hi. apply Z.bits_inj'. intros n Hn. rewrite !Z.land_spec. unfold mask. rewrite mask_bits by lia.
    case_bool_decide as Hd; [|by rewrite !andb_false_r]. rewrite !andb_true_r.
    specialize (Hi (7 - n) ltac:(lia)). by replace (7 - (7 - n)) with n in Hi by lia.
Qed.

Lemma addr_bit_byte l k i x :
  l !! Z.to_nat k = Some x -> 0 <= k -> 0 <= i < 8 -> addr_bit l (8 * k + i) = Z.testbit x (7 - i).
Proof.
  intros Hl Hk Hi. unfold addr_bit. replace ((8 * k + i) / 8) with k by zdiv_lia. rewrite Hl.
  by replace ((8 * k + i) mod 8) with i by zdiv_lia.
Qed.

Lemma bytes_lookup l i x : bytes_ok l -> l !! i = Some x -> 0 <= x < 256.
Proof. intros Hl Hx. exact (proj1 (Forall_lookup _ _) Hl i x Hx). Qed.

Lemma bytes_eq_bits a b k :
  bytes_ok a -> bytes_ok b -> 0 <= k <= zlen a -> k <= zlen b ->
  sub a 0 k = sub b 0 k <-> forall i, 0 <= i < 8 * k -> addr_bit a i = addr_bit b i.
Proof.
  intros Ha Hb Hka Hkb. unfold sub, zlen in *. rewrite !drop_0. split.
  - intros He i Hi. unfold addr_bit.
    assert ((Z.to_nat (i / 8) < Z.to_nat k)%nat) as Hlt by (apply Z2Nat.inj_lt; zdiv_lia).
    rewrite <- (lookup_take_lt a (Z.to_nat k)), <- (lookup_take_lt b (Z.to_nat k)) by done. by rewrite He.
  - intros Hi. apply list_eq. intros n. destruct (decide (n < Z.to_nat k)%nat) as [Hn|Hn].
    2:{ rewrite !lookup_ge_None_2; [done|rewrite length_take; lia..]. }
    rewrite !lookup_take_lt by done. destruct (a !! n) as [x|] eqn:Hx.
    2:{ apply lookup_ge_None in Hx. lia. }
    destruct (b !! n) as [y|] eqn:Hy; [|apply lookup_ge_None in Hy; lia].
    f_equal. apply byte_bits; [by apply (bytes_lookup a n)|by apply (bytes_lookup b n)|].
    intros j Hj. specialize (Hi (8 * Z.of_nat n + (7 - j)) ltac:(lia)).
    rewrite (addr_bit_byte a (Z.of_nat n) (7 - j) x), (addr_bit_byte b (Z.of_nat n) (7 - j) y) in Hi
      by (rewrite ?Nat2Z.id; (done || lia)).
    by replace (7 - (7 - j)) with j in Hi by lia.
Qed.

(** C37. nl_addr_cmp_prefix finds two addresses of one family equal exactly when
    their bits agree up to the shorter prefix; the bytes must be there: the
    function does not look at the lengths of the addresses. *)
Theorem nl_addr_cmp_prefix_spec a b :
  bytes_ok (a_addr a) -> bytes_ok (a_addr b) -> a_family a = a_family b ->
  let len := Z.min (a_prefixlen a) (a_prefixlen b) in
  0 <= len <= 8 * zlen (a_addr a) -> len <= 8 * zlen (a_addr b) ->
  exists d, nl_addr_cmp_prefix a b = Done d /\
    (d = 0 <-> forall i, 0 <= i < len -> addr_bit (a_addr a) i = addr_bit (a_addr b) i).
Proof.
  intros Ha Hb Hf len Hla Hlb. unfold nl_addr_cmp_prefix. rewrite (proj2 (Z.eqb_eq _ 0)) by lia. fold len.
  rewrite Z.quot_div_nonneg, Z.rem_mod_nonneg by lia. cbv zeta.
  set (k := len / 8). set (r := len mod 8).
  assert (len = 8 * k + r /\ 0 <= r < 8 /\ 0 <= k) as (Hlen & Hr & Hk) by (unfold k, r; zdiv_lia).
  rewrite !load_done by lia. exec_simpl.
  pose proof (memcmp_zero (sub (a_addr a) 0 k) (sub (a_addr b) 0 k)) as Hm.
  assert (length (sub (a_addr a) 0 k) = length (sub (a_addr b) 0 k)) as Hl.
  { pose proof (zlen_sub (a_addr a) 0 k ltac:(lia) Hk ltac:(lia)). pose proof (zlen_sub (a_addr b) 0 k ltac:(lia) Hk ltac:(lia)).
    unfold zlen in *. lia. }
  specialize (Hm Hl). rewrite (bytes_eq_bits (a_addr a) (a_addr b) k) in Hm by (done || lia).
  set (d := memcmp _ _) in *. destruct (d =? 0) eqn:Ed, (r =? 0) eqn:Er; bool_hyps; cbn [andb negb].
  - exists d. split; [done|]. rewrite Hm. rewrite Hlen, Er, Z.add_0_r. done.
  - destruct (a_addr a !! Z.to_nat k) as [x|] eqn:Hx; [|apply lookup_ge_None in Hx; unfold zlen in *; lia].
    destruct (a_addr b !! Z.to_nat k) as [y|] eqn:Hy; [|apply lookup_ge_None in Hy; unfold zlen in *; lia].
    assert (forall l z, l !! Z.to_nat k = Some z -> get_u8 l k = Done z) as Hg.
    { intros l z Hz. pose proof (lookup_lt_Some _ _ _ Hz). rewrite get_u8_done by (unfold zlen; lia).
      f_equal. unfold le_at, sub. erewrite drop_S by done. simpl. lia. }
    rewrite (Hg _ _ Hx), (Hg _ _ Hy). exec_simpl. eexists. split; [done|].
    pose proof (mask_eq r x y ltac:(lia) (bytes_lookup _ _ _ Ha Hx) (bytes_lookup _ _ _ Hb Hy)) as He. cbv zeta in He.
    rewrite Z.sub_move_0_r, He. pose proof (proj1 Hm Ed) as Ed2. split.
    + intros Hi i Hil. destruct (decide (i < 8 * k)); [apply Ed2; lia|].
      replace i with (8 * k + (i - 8 * k)) by lia.
      rewrite (addr_bit_byte _ k _ x), (addr_bit_byte _ k _ y) by (done || lia). apply Hi. lia.
    + intros Hi i Hil. rewrite <- (addr_bit_byte (a_addr a) k i x), <- (addr_bit_byte (a_addr b) k i y) by (done || lia).
      apply Hi. lia.
  - exists d. split; [done|]. rewrite Hm, Hlen, Er, Z.add_0_r. done.
  - exists d. split; [done|]. split; [done|]. intros Hi. exfalso. apply Ed, Hm. intros i Hil. apply Hi. lia.
Qed.

Lemma nl_addr_cmp_prefix_spec_witness :
  exists d, nl_addr_cmp_prefix (ex_addr AF_INET [10; 1; 128; 0] 17) (ex_addr AF_INET [10; 1; 192; 7] 24) = Done d /\ d = 0.
Proof.
  destruct (nl_addr_cmp_prefix_spec (ex_addr AF_INET [10; 1; 128; 0] 17) (ex_addr AF_INET [10; 1; 192; 7] 24)) as (d & H & _);
    [by apply bytes_ok_dec|by apply bytes_ok_dec|done|by vm_compute|by vm_compute|].
  exists d. split; [exact H|]. revert H. vm_compute. intros [= <-]. reflexivity.
Defined.

(** The bytes are not there when the prefix length is that of no address. *)
Lemma nl_addr_cmp_prefix_overread :
  nl_addr_cmp_prefix (ex_addr AF_INET [] 24) (ex_addr AF_INET [10; 0; 0; 1] 32) = Fault.
Proof. done. Qed.

(** ** Text and back *)

(** The characters of numeric addresses. *)
Definition inet_char (c : Z) : bool :=
  ((48 <=? c) && (c <=? 58)) || (c =? 46) || ((97 <=? c) && (c <=? 102)) || ((65 <=? c) && (c <=? 70)).

(** What the library relies on: inet_pton reads what inet_ntop writes, which is
    made of digits, dots and colons and fits in INET6_ADDRSTRLEN. *)
Definition inet_ok (pton : Z -> list Z -> option (list Z)) (ntop : Z -> list Z -> list Z) : Prop :=
  forall af b, bytes_ok b -> af = AF_INET /\ zlen b = 4 \/ af = AF_INET6 /\ zlen b = 16 ->
    pton af (ntop af b) = Some b /\ Forall (fun c => inet_char c = true) (ntop af b) /\ zlen (ntop af b) < 46.

Lemma inet_char_range c : inet_char c = true -> c <> 47 /\ tolower c <> 110 /\ tolower c <> 117 /\ tolower c <> 108.
Proof.
  unfold inet_char, tolower. intros H.
  repeat (apply orb_prop in H as [H|H]); bool_hyps; case_test; bool_hyps; try destruct E; bool_hyps; lia.
Qed.

Lemma no_slash t : Forall (fun c => inet_char c = true) t -> 47 ∉ t.
Proof. intros Ht Hin. rewrite Forall_forall in Ht. by destruct (inet_char_range 47 (Ht 47 Hin)). Qed.

Lemma no_keyword t w y :
  Forall (fun c => inet_char c = true) t -> y ∈ str w -> tolower y = 110 \/ tolower y = 117 \/ tolower y = 108 ->
  strcaseeq t (str w) = false.
Proof.
  intros Ht Hy Hw. apply not_true_is_false. intros He.
  destruct (strcaseeq_in _ _ y He Hy) as (x & Hx & Hxy). rewrite Forall_forall in Ht.
  destruct (inet_char_range x (Ht x Hx)) as (_ & ? & ? & ?). lia.
Qed.

Lemma no_keywords t :
  Forall (fun c => inet_char c = true) t ->
  strcaseeq t (str "none") = false /\ strcaseeq t (str "default") = false /\
  strcaseeq t (str "all") = false /\ strcaseeq t (str "any") = false.
Proof.
  intros Ht. split_and!; [apply (no_keyword t _ 110)|apply (no_keyword t _ 117)|apply (no_keyword t _ 108)|
    apply (no_keyword t _ 110)]; try done; try (by vm_compute; auto);
    by apply (bool_decide_eq_true_1 _); vm_compute.
Qed.

(** Digits behind what is already there, when there is room. *)
Lemma do_digits_app scales len pre addr out started :
  (length pre + length out + length scales < 16)%nat -> 16 <= len ->
  do_digits scales len (addr, pre ++ out, started) =
  (fun st => (st.1.1, pre ++ st.1.2, st.2)) <$> do_digits scales 16 (addr, out, started).
Proof.
  intros Hl Hn. revert addr out started Hl. induction scales as [|s scales IH]; intros addr out started Hl; [done|].
  cbn [do_digits do_digit length] in *.
  rewrite (proj2 (Z.eqb_neq (zlen (pre ++ out)) len)), (proj2 (Z.eqb_neq (zlen out) 16))
    by (unfold zlen; rewrite ?length_app; lia).
  destruct (_ || _); [rewrite <- app_assoc|]; apply IH; rewrite ?length_app; simpl; lia.
Qed.

(** The digits of a number below [10 ^ length scales] are read back. *)
Definition digits_check (scales : list Z) (v : Z) : bool :=
  match do_digits scales 16 (v, [], false) with
  | Some (_, out, _) =>
      forallb (fun c => (48 <=? c) && (c <=? 57)) out && (0 <? zlen out) && (zlen out <=? zlen scales) &&
      bool_decide (dnet_num out 0 0 = (zlen out, v))
  | None => false
  end.
Lemma area_digits : forallb (digits_check [10; 1]) (seqZ 0 64) = true.
Proof. by vm_compute. Qed.
Lemma node_digits : forallb (digits_check [1000; 100; 10; 1]) (seqZ 0 1024) = true.
Proof. by vm_compute. Qed.

Lemma dnet_num_app out r rv dst :
  Forall (fun c => 48 <= c <= 57) out -> (forall c r', r = c :: r' -> c < 48 \/ 57 < c) ->
  dnet_num (out ++ r) rv dst = dnet_num out rv dst.
Proof.
  intros Ho Hr. revert rv dst. induction Ho as [|c out Hc Ho IH]; intros rv dst.
  - destruct r as [|c r]; [done|]. simpl. destruct (Hr c r eq_refl).
    + by rewrite (proj2 (Z.ltb_lt (c - 48) 0)) by lia.
    + rewrite (proj2 (Z.ltb_lt 9 (c - 48))) by lia. by rewrite orb_true_r.
  - simpl. case_test; [done|]. apply IH.
Qed.

Lemma digits_ok scales n v :
  forallb (digits_check scales) (seqZ 0 n) = true -> 0 <= v < n ->
  exists a st out, do_digits scales 16 (v, [], false) = Some (a, out, st) /\
    Forall (fun c => 48 <= c <= 57) out /\ 0 < zlen out <= zlen scales /\
    forall r, (forall c r', r = c :: r' -> c < 48 \/ 57 < c) -> dnet_num (out ++ r) 0 0 = (zlen out, v).
Proof.
  intros Hall Hv. rewrite forallb_forall in Hall. specialize (Hall v).
  rewrite <- list_elem_of_In, elem_of_seqZ in Hall. specialize (Hall ltac:(lia)). unfold digits_check in Hall.
  destruct (do_digits _ _ _) as [[[a out] st]|]; [|done]. bool_hyps. apply bool_decide_eq_true in H0.
  exists a, st, out. split; [done|]. rewrite forallb_forall in H.
  assert (Forall (fun c => 48 <= c <= 57) out) as Hf.
  { apply Forall_forall. intros c Hc. apply list_elem_of_In, H in Hc. bool_hyps. lia. }
  split; [done|]. split; [lia|]. intros r Hr. by rewrite dnet_num_app.
Qed.

Lemma digit_chars out : Forall (fun c => 48 <= c <= 57) out -> Forall (fun c => inet_char c = true) out.
Proof.
  intros Ho. apply (Forall_impl _ _ _ Ho). intros c Hc. unfold inet_char.
  by rewrite (proj2 (Z.leb_le 48 c)), (proj2 (Z.leb_le c 58)) by lia.
Qed.

Lemma lor_div_mod k v : 0 <= k -> Z.lor (Z.shiftl (v / 2 ^ k) k) (v mod 2 ^ k) = v.
Proof.
  intros Hk. apply Z.bits_inj'. intros n Hn. rewrite Z.lor_spec, Z.shiftl_spec, Z.testbit_mod_pow2 by lia.
  destruct (decide (n < k)).
  - rewrite (Z.testbit_neg_r _ (n - k)) by lia. by rewrite (proj2 (Z.ltb_lt n k)) by lia.
  - rewrite (proj2 (Z.ltb_ge n k)) by lia. rewrite Z.div_pow2_bits by lia.
    rewrite andb_false_l, orb_false_r. f_equal. lia.
Qed.

Lemma u16_word v : 0 <= v < 65536 ->
  dn_ntohs v = v /\ 0 <= Z.shiftr v 10 < 64 /\ 0 <= Z.land v 1023 < 1024 /\
  Z.lor (Z.shiftl (Z.shiftr v 10) 10) (Z.land v 1023) = v.
Proof.
  intros Hv. change 1023 with (Z.ones 10). rewrite Z.land_ones, Z.shiftr_div_pow2 by lia. split_and!.
  - unfold dn_ntohs. rewrite Z.lor_comm, u16_id.
    + apply (lor_div_mod 8). lia.
    + rewrite Z.shiftl_mul_pow2 by lia. change (2 ^ 8) with 256. zdiv_lia.
  - change (2 ^ 10) with 1024. zdiv_lia.
  - change (2 ^ 10) with 1024. zdiv_lia.
  - apply Z.mod_pos_bound. lia.
  - apply Z.mod_pos_bound. lia.
  - apply lor_div_mod. lia.
Qed.

(** Every DECnet address is written as it is read. *)
Lemma dnet_roundtrip b old size :
  bytes_ok b -> zlen b = 2 -> 16 <= size ->
  exists t, dnet_ntop b 2 old size = Done (Some t) /\ Forall (fun c => inet_char c = true) t /\
    46 ∈ t /\ zlen t < 10 /\ dnet_pton t = (1, b).
Proof.
  intros Hb Hl Hs. pose proof (le_decode_range b Hb) as Hv. rewrite Hl in Hv. change (256 ^ 2) with 65536 in Hv.
  pose proof (le_encode_decode b Hb) as He. assert (length b = 2%nat) as Hlb by (unfold zlen in Hl; lia).
  rewrite Hlb in He. unfold dnet_ntop. rewrite get_u16_done by lia. exec_simpl.
  assert (le_at 2 b 0 = le_decode b) as -> by (unfold le_at; rewrite <- Hl, sub_all; done).
  destruct (u16_word _ Hv) as (-> & Ha & Hn & Hw). cbn [Z.eqb Pos.eqb negb].
  rewrite (proj2 (Z.eqb_neq size 0)) by lia.
  destruct (digits_ok _ 64 _ area_digits Ha) as (a1 & s1 & out1 & Hd1 & Hf1 & Hl1 & Hp1).
  destruct (digits_ok _ 1024 _ node_digits Hn) as (a2 & s2 & out2 & Hd2 & Hf2 & Hl2 & Hp2).
  change (zlen [10; 1]) with 2 in Hl1. change (zlen [1000; 100; 10; 1]) with 4 in Hl2.
  pose proof (do_digits_app [10; 1] size [] (Z.shiftr (le_decode b) 10) [] false ltac:(simpl; lia) Hs) as Happ.
  cbn [app] in Happ. rewrite Happ, Hd1. cbn [fmap option_fmap option_map app fst snd].
  rewrite (proj2 (Z.eqb_neq (zlen out1) size)) by lia. rewrite <- (app_nil_r (out1 ++ [46])).
  rewrite do_digits_app by (rewrite ?length_app; unfold zlen in *; simpl; lia). rewrite Hd2.
  cbn [fmap option_fmap option_map app fst snd].
  rewrite (proj2 (Z.eqb_neq (zlen ((out1 ++ [46]) ++ out2)) size)) by (rewrite !zlen_app; change (zlen [46]) with 1; lia).
  eexists. split; [done|]. rewrite <- app_assoc. cbn [app]. split; [|split; [|split]].
  - apply Forall_app. split; [by apply digit_chars|]. constructor; [done|by apply digit_chars].
  - apply elem_of_app. right. by left.
  - rewrite zlen_app, zlen_cons. lia.
  - unfold dnet_pton. rewrite Hp1 by (intros c r' [= <- _]; lia). unfold zlen at 1. rewrite Nat2Z.id, drop_app_length.
    rewrite (proj2 (Z.eqb_neq (zlen out1) 0)), (proj2 (Z.ltb_ge 63 _)) by lia. cbn [orb Z.eqb Pos.eqb negb].
    rewrite <- (app_nil_r out2), Hp2 by done.
    rewrite (proj2 (Z.eqb_neq (zlen out2) 0)), (proj2 (Z.ltb_ge 1023 _)) by lia. cbn [orb].
    rewrite Hw. destruct (u16_word _ Hv) as (-> & _). by rewrite He.
Qed.

(** ** Hexadecimal bytes *)

Lemma byte_digits b : 0 <= b < 256 -> exists c d, print_02x b = [c; d] /\ inet_char c = true /\ inet_char d = true /\
  c <> 58 /\ d <> 58 /\ scan_02x [c; d] = Some (b, []).
Proof.
  intros Hb. assert (forallb (fun b => match print_02x b with
    | [c; d] => inet_char c && inet_char d && negb (c =? 58) && negb (d =? 58) && bool_decide (scan_02x [c; d] = Some (b, []))
    | _ => false end) (seqZ 0 256) = true) as Hall by (by vm_compute).
  rewrite forallb_forall in Hall. specialize (Hall b). rewrite <- list_elem_of_In, elem_of_seqZ in Hall.
  specialize (Hall ltac:(lia)). cbv beta in Hall. destruct (print_02x b) as [|c [|d [|]]]; try done. bool_hyps.
  apply bool_decide_eq_true in H0. exists c, d. by split_and!.
Qed.

Lemma scan_two c d b r :
  inet_char c = true -> c <> 58 -> scan_02x [c; d] = Some (b, []) -> scan_02x (c :: d :: r) = Some (b, r).
Proof.
  intros Hc H58 H. assert (46 <= c) as H46.
  { unfold inet_char in Hc. repeat (apply orb_prop in Hc as [Hc|Hc]); bool_hyps; lia. }
  unfold scan_02x in *. cbn [skip_spaces] in *. assert (isspace c = false) as Es.
  { unfold isspace. by rewrite (proj2 (Z.eqb_neq c 32)), (proj2 (Z.leb_gt c 13)), andb_false_r by lia. }
  rewrite Es in *.
  destruct ((c =? 45) || (c =? 43)).
  - destruct (digit d <? 16); [|done]. by injection H as <-.
  - destruct (digit c <? 16); [|done]. destruct (digit d <? 16); [by injection H as <-|].
    destruct (_ && _); [done|]. done.
Qed.

(** The text of bytes: [f] on the first, a colon before each other one. *)
Fixpoint colon_text (l : list Z) : list Z :=
  match l with [] => [] | b :: l => 58 :: print_02x b ++ colon_text l end.

Lemma cat_bytes_fits l buf size :
  bytes_ok l -> zlen buf + 3 * zlen l < size -> cat_bytes l buf size = Done (buf ++ colon_text l).
Proof.
  intros Hl. revert buf. induction Hl as [|b l Hb Hl IH]; intros buf Hs; [by rewrite app_nil_r|].
  cbn [cat_bytes colon_text]. rewrite zlen_cons in Hs. pose proof (zlen_nonneg l).
  destruct (byte_digits b Hb) as (c & d & -> & _).
  rewrite strncat_room_fits by (change (zlen [58; c; d]) with 3; lia). exec_simpl.
  rewrite IH by (rewrite zlen_app; change (zlen [58; c; d]) with 3; lia). by rewrite <- app_assoc.
Qed.

Lemma colon_text_chars l : bytes_ok l -> Forall (fun c => inet_char c = true) (colon_text l).
Proof.
  induction 1 as [|b l Hb Hl IH]; [constructor|]. cbn [colon_text].
  destruct (byte_digits b Hb) as (c & d & -> & Hc & Hd & _). repeat (constructor; [done|]). done.
Qed.

Lemma scan_colon_text l b :
  bytes_ok (b :: l) -> scan_colon_bytes (length (b :: l)) (print_02x b ++ colon_text l) = b :: l.
Proof.
  revert b. induction l as [|x l IH]; intros b Hl; apply Forall_cons in Hl as [Hb Hl];
    destruct (byte_digits b Hb) as (c & d & Hp & Hc & Hd & H1 & H2 & Hs); rewrite Hp; cbn [app colon_text length scan_colon_bytes].
  - rewrite Hs. unfold u8. by rewrite Z.mod_small.
  - rewrite (scan_two c d b _ Hc H1 Hs). unfold u8. rewrite Z.mod_small by done. f_equal. by apply IH.
Qed.

(** The addresses with a text of their own. *)
Definition printable (a : nl_addr) : Prop :=
  bytes_ok (a_addr a) /\ zlen (a_addr a) = a_len a /\ a_maxsize a = a_len a /\ 0 <= a_prefixlen a < 2 ^ 31 /\
  (a_family a = AF_INET /\ a_len a = 4 \/ a_family a = AF_INET6 /\ a_len a = 16 \/
   a_family a = AF_DECnet /\ a_len a = 2 \/ a_family a = AF_LLC /\ a_len a = 6 /\ a_prefixlen a = 48).

Lemma splice_whole z d : zlen z = zlen d -> splice z 0 d = d.
Proof.
  intros H. unfold splice, zlen in *. simpl. rewrite drop_ge by lia. by rewrite app_nil_r.
Qed.

Lemma set_binary_done a buf :
  a_maxsize a = zlen buf -> nl_addr_set_binary_addr a buf (zlen buf) =
  Done (0, {| a_family := a_family a; a_maxsize := a_maxsize a; a_len := zlen buf;
              a_prefixlen := a_prefixlen a; a_refcnt := a_refcnt a; a_addr := buf |}).
Proof.
  intros Hm. pose proof (zlen_nonneg buf). unfold nl_addr_set_binary_addr. rewrite Hm, Z.ltb_irrefl.
  rewrite load_done by lia. exec_simpl. rewrite sub_all, store_done by (rewrite ?zlen_zeros; lia). exec_simpl.
  rewrite splice_whole by (by rewrite zlen_zeros). done.
Qed.

(** The end of parsing, once the text is recognised. *)
Lemma parse_finish pton t hint family buf plen suffix p :
  47 ∉ t -> hint <> AF_MPLS -> parse_addr pton t hint = inr (family, Some buf, plen) -> zlen buf < 2 ^ 32 ->
  suffix = [] /\ p = (if plen =? 0 then zlen buf * 8 else plen) \/
  suffix = 47 :: print 10 p /\ 0 <= p < 2 ^ 31 ->
  nl_addr_parse pton true true (t ++ suffix) hint =
  Done (0, Some {| a_family := family; a_maxsize := zlen buf; a_len := zlen buf; a_prefixlen := p;
                   a_refcnt := 1; a_addr := buf |}).
Proof.
  intros Ht Hh Hp Hl Hs. pose proof (zlen_nonneg buf). unfold nl_addr_parse.
  rewrite (proj2 (Z.eqb_neq hint AF_MPLS)) by done. cbn [negb].
  assert (before (t ++ suffix) 47 = t) as ->.
  { destruct Hs as [[-> _]|[-> _]]; [rewrite app_nil_r; by apply before_none|by apply before_found]. }
  rewrite Hp. cbn [negb nl_addr_alloc]. rewrite set_binary_done by (simpl; apply u32_id; lia). exec_simpl.
  cbn [a_family a_maxsize a_prefixlen a_refcnt nl_addr_set_family]. rewrite u32_id by lia.
  destruct Hs as [[-> ->]|[-> Hpl]].
  - rewrite app_nil_r, strchr_none by done. done.
  - rewrite strchr_found by done. rewrite strtol_print by (auto; unfold LONG_MAX; lia).
    unfold nl_addr_set_prefixlen, with_prefixlen. by rewrite s32_id by lia.
Qed.

Section Roundtrip.
Context (pton : Z -> list Z -> option (list Z)) (ntop : Z -> list Z -> list Z) (Hinet : inet_ok pton ntop).

Lemma parse_numeric t hint :
  Forall (fun c => inet_char c = true) t ->
  match hint with
  | 2 => forall b, pton AF_INET t = Some b -> parse_addr pton t AF_INET = inr (AF_INET, Some b, 0)
  | 10 => forall b, pton AF_INET6 t = Some b -> parse_addr pton t AF_INET6 = inr (AF_INET6, Some b, 0)
  | 12 => forall b, 46 ∈ t -> dnet_pton t = (1, b) -> parse_addr pton t AF_DECnet = inr (AF_DECnet, Some b, 0)
  | 26 => 58 ∈ t -> zlen (scan_colon_bytes 6 t) = 6 ->
      parse_addr pton t AF_LLC = inr (AF_LLC, Some (scan_colon_bytes 6 t), 0)
  | _ => True
  end.
Proof.
  intros Ht. destruct (no_keywords t Ht) as (K1 & K2 & K3 & K4).
  assert (hint = 2 \/ hint = 10 \/ hint = 12 \/ hint = 26 \/ (hint <> 2 /\ hint <> 10 /\ hint <> 12 /\ hint <> 26)) as Hc by lia.
  destruct Hc as [-> |[-> |[-> |[-> |Hc]]]].
  - intros b Hb. unfold parse_addr. rewrite K1, K2, K3, K4. cbn [orb]. change (AF_INET =? AF_INET) with true. cbn [orb].
    by rewrite Hb.
  - intros b Hb. unfold parse_addr. rewrite K1, K2, K3, K4. cbn [orb].
    change ((AF_INET6 =? AF_INET) || (AF_INET6 =? AF_UNSPEC)) with false.
    change ((AF_INET6 =? AF_INET6) || (AF_INET6 =? AF_UNSPEC)) with true. cbv iota. by rewrite Hb.
  - intros b Hin Hb. unfold parse_addr. rewrite K1, K2, K3, K4. cbn [orb].
    change ((AF_DECnet =? AF_INET) || (AF_DECnet =? AF_UNSPEC)) with false.
    change ((AF_DECnet =? AF_INET6) || (AF_DECnet =? AF_UNSPEC)) with false.
    change ((AF_DECnet =? AF_LLC) || (AF_DECnet =? AF_UNSPEC)) with false.
    change ((AF_DECnet =? AF_DECnet) || (AF_DECnet =? AF_UNSPEC)) with true. cbn [andb]. cbv iota.
    destruct (strchr_in t 46 Hin) as [r ->]. cbn [orb]. by rewrite Hb.
  - intros Hin Hz. unfold parse_addr. rewrite K1, K2, K3, K4. cbn [orb].
    change ((AF_LLC =? AF_INET) || (AF_LLC =? AF_UNSPEC)) with false.
    change ((AF_LLC =? AF_INET6) || (AF_LLC =? AF_UNSPEC)) with false.
    change ((AF_LLC =? AF_LLC) || (AF_LLC =? AF_UNSPEC)) with true. cbn [andb]. cbv iota.
    destruct (strchr_in t 58 Hin) as [r ->]. by rewrite (proj2 (Z.eqb_eq _ _) Hz).
  - repeat (case_match; try done); lia.
Qed.

Lemma print_u_len p : zlen (print_u p) <= 10.
Proof. apply (print_len 10 _ 10); [lia| |lia]. pose proof (u32_range p). lia. Qed.

(** The text of a printable address, and what it is read as. *)
Lemma addr2str_text a old size :
  printable a -> 64 <= size ->
  exists t suffix, nl_addr2str ntop (Some a) old size = Done (t ++ suffix) /\ (47 ∉ t) /\
    parse_addr pton t (a_family a) = inr (a_family a, Some (a_addr a), 0) /\
    (suffix = [] /\ a_prefixlen a = a_len a * 8 \/ suffix = 47 :: print 10 (a_prefixlen a)).
Proof.
  intros (Hb & Hl & Hm & Hp & Hf) Hs. unfold nl_addr2str.
  rewrite (proj2 (Z.eqb_neq (a_len a) 0)) by lia.
  assert (print_u (a_prefixlen a) = print 10 (a_prefixlen a)) as Hpu by (unfold print_u; by rewrite u32_id by lia).
  pose proof (print_u_len (a_prefixlen a)) as Hpl. rewrite <- Hpu.
  assert (forall t, zlen t < 46 -> strncat_room t (47 :: print_u (a_prefixlen a)) size =
    Done (t ++ 47 :: print_u (a_prefixlen a))) as Hcat.
  { intros t Ht. apply strncat_room_fits. rewrite zlen_cons. lia. }
  destruct Hf as [[Hf Hn]|[[Hf Hn]|[[Hf Hn]|(Hf & Hn & Hpre)]]]; rewrite Hf.
  - destruct (Hinet AF_INET (a_addr a) Hb) as (H1 & H2 & H3); [left; lia|].
    exists (ntop AF_INET (a_addr a)), (47 :: print_u (a_prefixlen a)). split; [|split; [by apply no_slash|split]].
    + cbn [orb AF_INET AF_INET6 AF_MPLS AF_DECnet Z.eqb Pos.eqb]. unfold addr_text. rewrite Hf. cbn [AF_INET Z.eqb Pos.eqb].
      rewrite load_done by lia. exec_simpl. rewrite <- Hn, <- Hl, sub_all. unfold ntop_buf.
      rewrite (proj2 (Z.ltb_lt _ _)) by lia. by apply Hcat.
    + exact (parse_numeric _ 2 H2 _ H1).
    + by right.
  - destruct (Hinet AF_INET6 (a_addr a) Hb) as (H1 & H2 & H3); [right; lia|].
    exists (ntop AF_INET6 (a_addr a)), (47 :: print_u (a_prefixlen a)). split; [|split; [by apply no_slash|split]].
    + cbn [orb AF_INET AF_INET6 AF_MPLS AF_DECnet Z.eqb Pos.eqb]. unfold addr_text. rewrite Hf. cbn [AF_INET AF_INET6 Z.eqb Pos.eqb].
      rewrite load_done by lia. exec_simpl. rewrite <- Hn, <- Hl, sub_all. unfold ntop_buf.
      rewrite (proj2 (Z.ltb_lt _ _)) by lia. by apply Hcat.
    + exact (parse_numeric _ 10 H2 _ H1).
    + by right.
  - destruct (dnet_roundtrip (a_addr a) old size Hb) as (t & H1 & H2 & H3 & H4 & H5); [lia|lia|].
    exists t, (47 :: print_u (a_prefixlen a)). split; [|split; [by apply no_slash|split]].
    + cbn [orb AF_INET AF_INET6 AF_MPLS AF_DECnet Z.eqb Pos.eqb]. unfold addr_text. rewrite Hf.
      cbn [AF_INET AF_INET6 AF_MPLS AF_DECnet Z.eqb Pos.eqb]. rewrite Hn, H1. exec_simpl. cbn [terminated]. exec_simpl.
      apply Hcat. lia.
    + exact (parse_numeric _ 12 H2 _ H3 H5).
    + by right.
  - destruct (a_addr a) as [|b l] eqn:Ea; [change (zlen []) with 0 in Hl; lia|].
    exists (print_02x b ++ colon_text l), []. rewrite app_nil_r.
    assert (Forall (fun c => inet_char c = true) (print_02x b ++ colon_text l)) as Hch.
    { apply Forall_cons in Hb as [Hb Hb']. destruct (byte_digits b Hb) as (c & d & -> & Hc & Hd & _).
      repeat (constructor; [done|]). by apply colon_text_chars. }
    pose proof (scan_colon_text l b Hb) as Hsc. assert (length (b :: l) = 6%nat) as H6 by (unfold zlen in Hl; lia).
    rewrite H6 in Hsc. split; [|split; [by apply no_slash|split]].
    + cbn [orb AF_INET AF_INET6 AF_MPLS AF_DECnet AF_LLC Z.eqb Pos.eqb]. unfold hex_bytes. rewrite Ea.
      rewrite load_done by lia. exec_simpl. rewrite <- Hl, sub_all. rewrite zlen_cons in Hl.
      apply Forall_cons in Hb as [Hb Hb'].
      destruct (byte_digits b Hb) as (c & d & Hpr & _). rewrite snprintf_fits by (rewrite Hpr; change (zlen [c; d]) with 2; lia).
      apply cat_bytes_fits; [done|]. rewrite Hpr. change (zlen [c; d]) with 2. lia.
    + pose proof (parse_numeric _ 26 Hch) as Hpn. cbv beta iota in Hpn. rewrite Hsc in Hpn. apply Hpn; [|lia].
      destruct l as [|x l]; [simpl in H6; lia|]. apply elem_of_app. right. by left.
    + left. split; [done|lia].
Qed.
End Roundtrip.

(** C31. An IPv4, IPv6 or DECnet address of its family's length with any prefix
    length, or a link layer address of 6 bytes with a prefix of all 48 bits - each
    with no room beyond its bytes (maxsize = len, as nl_addr_build makes it) - that
    nl_addr2str writes into a buffer of at least 64 bytes and nl_addr_parse reads
    with the address's family as hint is the same address, with one reference;
    inet_pton and inet_ntop are taken to be inverse to each other.  (Link layer
    addresses of another length or prefix are not covered: the text has no prefix
    and the parser reads 6 bytes.) *)
Theorem addr_text_roundtrip pton ntop a old size :
  inet_ok pton ntop -> printable a -> 64 <= size ->
  exists text, nl_addr2str ntop (Some a) old size = Done text /\
    nl_addr_parse pton true true text (a_family a) = Done (0, Some (with_refcnt a 1)).
Proof.
  intros Hi Ha Hs. destruct (addr2str_text pton ntop Hi a old size Ha Hs) as (t & suffix & H1 & H2 & H3 & H4).
  exists (t ++ suffix). split; [done|]. destruct Ha as (Hb & Hl & Hm & Hp & Hf).
  rewrite (parse_finish pton t (a_family a) (a_family a) (a_addr a) 0 suffix (a_prefixlen a)); [|done| |done| |].
  - unfold with_refcnt. by rewrite Hl, Hm.
  - unfold AF_MPLS, AF_INET, AF_INET6, AF_DECnet, AF_LLC in *. lia.
  - lia.
  - destruct H4 as [[-> H4]|H4]; [left; split; [done|simpl; lia]|by right].
Qed.

(** A pair of functions that satisfies the assumption: all bytes in base 16. *)
Definition ex_ntop (af : Z) (b : list Z) : list Z := concat (print_02x <$> b).
Fixpoint ex_pairs (t : list Z) : list Z :=
  match t with
  | c :: d :: r => match scan_02x [c; d] with Some (v, _) => v :: ex_pairs r | None => [] end
  | _ => []
  end.
Definition ex_pton (af : Z) (t : list Z) : option (list Z) := Some (ex_pairs t).

Lemma ex_inet_ok : inet_ok ex_pton ex_ntop.
Proof.
  intros af b Hb Hf. unfold ex_pton, ex_ntop.
  assert (ex_pairs (concat (print_02x <$> b)) = b /\ Forall (fun c => inet_char c = true) (concat (print_02x <$> b)) /\
    zlen (concat (print_02x <$> b)) = 2 * zlen b) as (H1 & H2 & H3).
  { clear Hf. induction Hb as [|x l Hx Hl (IH1 & IH2 & IH3)]; [done|]. cbn [fmap list_fmap concat].
    destruct (byte_digits x Hx) as (c & d & -> & Hc & Hd & _ & _ & Hs). cbn [app ex_pairs]. rewrite Hs, !zlen_cons, IH1.
    split; [done|]. split; [by repeat constructor|]. unfold fmap in *. lia. }
  rewrite H1. split; [done|]. split; [done|]. lia.
Qed.

Lemma addr_text_roundtrip_witness :
  exists text, nl_addr2str ex_ntop (Some (ex_addr AF_DECnet [1; 4] 12)) [] 64 = Done text /\
    nl_addr_parse ex_pton true true text AF_DECnet = Done (0, Some (ex_addr AF_DECnet [1; 4] 12)).
Proof.
  destruct (addr_text_roundtrip ex_pton ex_ntop (ex_addr AF_DECnet [1; 4] 12) [] 64) as (text & H1 & H2).
  - apply ex_inet_ok.
  - split; [by apply bytes_ok_dec|]. split; [done|]. split; [done|]. split; [simpl; lia|]. right. right. left. by split.
  - lia.
  - exists text. split; [exact H1|exact H2].
Defined.

(** ** Label stacks *)

(** The entries of a stack: labels in the upper 20 bits, the last one marked. *)
Fixpoint stack_bytes (l : list Z) : list Z :=
  match l with
  | [] => []
  | [x] => be32_bytes (x * 4096 + 256)
  | x :: l => be32_bytes (x * 4096) ++ stack_bytes l
  end.
Fixpoint stack_text (l : list Z) : list Z :=
  match l with
  | [] => []
  | [x] => print 10 x
  | x :: l => print 10 x ++ 47 :: stack_text l
  end.
Definition label_ok (x : Z) : Prop := 0 <= x < 2 ^ 20.

Lemma be32_of_bytes v : 0 <= v < 2 ^ 32 ->
  exists a b c d, be32_bytes v = [a; b; c; d] /\ be32 a b c d = v.
Proof.
  intros Hv. unfold be32_bytes. eexists _, _, _, _. split; [done|]. unfold be32.
  change (2 ^ 32) with 4294967296 in Hv. zdiv_lia.
Qed.

Lemma label_of_entry x s : label_ok x -> 0 <= s < 4096 ->
  Z.shiftr (Z.land (x * 4096 + s) MPLS_LS_LABEL_MASK) 12 = x /\
  has_flag (x * 4096 + s) MPLS_LS_S_MASK = has_flag s 256.
Proof.
  intros Hx Hs. unfold label_ok in Hx. split.
  - rewrite Z.shiftr_land. change (Z.shiftr MPLS_LS_LABEL_MASK 12) with (Z.ones 20).
    rewrite Z.land_ones, Z.shiftr_div_pow2 by lia. change (2 ^ 12) with 4096.
    replace ((x * 4096 + s) / 4096) with x by zdiv_lia. by apply Z.mod_small.
  - unfold has_flag, MPLS_LS_S_MASK. do 2 f_equal. change 256 with (2 ^ 8). apply Z.bits_inj'. intros n Hn.
    rewrite !Z.land_spec, Z.pow2_bits_eqb by lia. destruct (8 =? n) eqn:E; bool_hyps; [|by rewrite !andb_false_r].
    rewrite !andb_true_r. rewrite !Z.testbit_eqb by lia. subst n. change (2 ^ 8) with 256. f_equal. zdiv_lia.
Qed.

Lemma stack_bytes_cons x y l : stack_bytes (x :: y :: l) = be32_bytes (x * 4096) ++ stack_bytes (y :: l).
Proof. done. Qed.
Lemma stack_text_cons x y l : stack_text (x :: y :: l) = print 10 x ++ 47 :: stack_text (y :: l).
Proof. done. Qed.

Lemma print_u_label x : label_ok x -> print_u x = print 10 x.
Proof. unfold label_ok. intros Hx. unfold print_u. by rewrite u32_id by lia. Qed.

Lemma mpls_ntop_text l dest destlen :
  Forall label_ok l -> l <> [] -> zlen (stack_text l) < destlen ->
  mpls_ntop1 (stack_bytes l) dest destlen = Done (true, Some (dest ++ stack_text l)).
Proof.
  intros Hl. revert dest destlen. induction Hl as [|x l Hx Hl IH]; intros dest destlen Hne Hs; [done|].
  destruct l as [|y l].
  - cbn [stack_bytes stack_text] in *. unfold label_ok in Hx. destruct (be32_of_bytes (x * 4096 + 256)) as (a & b & c & d & -> & He); [lia|].
    cbn [mpls_ntop1]. rewrite He. destruct (label_of_entry x 256 Hx) as [-> ->]; [lia|]. rewrite print_u_label by done.
    by rewrite (proj2 (Z.leb_gt _ _)) by lia.
  - rewrite stack_bytes_cons, stack_text_cons in *. rewrite zlen_app, zlen_cons in Hs.
    pose proof (zlen_nonneg (stack_text (y :: l))). unfold label_ok in Hx.
    destruct (be32_of_bytes (x * 4096)) as (a & b & c & d & -> & He); [lia|].
    cbn [app mpls_ntop1]. rewrite He. rewrite <- (Z.add_0_r (x * 4096)).
    destruct (label_of_entry x 0 Hx) as [-> ->]; [lia|]. rewrite print_u_label by done.
    rewrite (proj2 (Z.leb_gt _ _)) by lia. change (has_flag 0 256) with false. cbv iota.
    rewrite IH by (done || lia). by rewrite <- !app_assoc.
Qed.

Lemma strtoul_label x r :
  label_ok x -> (forall c r', r = c :: r' -> c = 47) -> strtoul 0 (print 10 x ++ r) = Some (x, r).
Proof.
  unfold label_ok. intros Hx Hr. unfold strtoul. rewrite number_print; [|by left|lia|..].
  - by rewrite (proj2 (Z.ltb_ge _ _)) by (unfold ULONG_MAX; lia).
  - destruct r as [|c r]; [done|]. by rewrite (Hr c r eq_refl).
  - intros _ c r' E. by rewrite (Hr c r' E).
Qed.

Lemma entry_bits x : label_ok x -> u32 (Z.shiftl x 12) = x * 4096 /\ Z.lor (x * 4096) (Z.shiftl 1 8) = x * 4096 + 256.
Proof.
  unfold label_ok. intros Hx. rewrite Z.shiftl_mul_pow2 by lia. change (2 ^ 12) with 4096.
  rewrite u32_id by lia. split; [done|]. symmetry. apply Z.add_nocarry_lor. apply Z.bits_inj'. intros n Hn.
  change (Z.shiftl 1 8) with (2 ^ 8). rewrite Z.land_spec, Z.pow2_bits_eqb, Z.bits_0 by lia.
  destruct (8 =? n) eqn:E; bool_hyps; [|by rewrite andb_false_r]. subst n. rewrite Z.testbit_eqb by lia.
  change (2 ^ 8) with 256. rewrite andb_true_r. apply Z.eqb_neq. zdiv_lia.
Qed.

Lemma mpls_pton_text l n acc :
  Forall label_ok l -> l <> [] -> (length l <= n)%nat ->
  mpls_pton1 n (stack_text l) acc = (zlen (acc ++ stack_bytes l), acc ++ stack_bytes l).
Proof.
  intros Hl. revert n acc. induction Hl as [|x l Hx Hl IH]; intros n acc Hne Hn; [done|].
  destruct n as [|n]; [simpl in Hn; lia|]. destruct (entry_bits x Hx) as [He1 He2].
  destruct l as [|y l]; cbn [mpls_pton1].
  - cbn [stack_text stack_bytes]. rewrite <- (app_nil_r (print 10 x)), strtoul_label by done.
    unfold label_ok in Hx. rewrite (proj2 (Z.leb_gt _ _)) by lia. by rewrite He1, He2.
  - rewrite stack_text_cons, stack_bytes_cons. rewrite strtoul_label by (done || by intros c r' [= <- _]).
    unfold label_ok in Hx. rewrite (proj2 (Z.leb_gt _ _)) by lia. rewrite He1. cbn [Z.eqb Pos.eqb negb].
    rewrite IH by (done || simpl in *; lia). by rewrite <- app_assoc.
Qed.

(** A stack of up to 64 labels is written by mpls_ntop, when the buffer has
    room, so that mpls_pton reads the same bytes. *)
Theorem mpls_roundtrip l old buflen :
  Forall label_ok l -> (0 < length l <= 64)%nat -> zlen (stack_text l) < buflen ->
  exists text, mpls_ntop AF_MPLS (stack_bytes l) old buflen = Done (true, Some text) /\
    mpls_pton AF_MPLS text 256 = (4 * zlen l, stack_bytes l).
Proof.
  intros Hl Hn Hs. exists (stack_text l). unfold mpls_ntop, mpls_pton. change (AF_MPLS =? AF_MPLS) with true. cbv iota.
  assert (l <> []) as Hne by (by intros ->; simpl in Hn; lia). split; [by apply mpls_ntop_text|].
  change (Z.to_nat (256 / 4)) with 64%nat. rewrite mpls_pton_text by (done || lia). cbn [app]. f_equal.
  clear -Hne. induction l as [|x l IH]; [done|]. destruct l as [|y l]; [done|].
  rewrite stack_bytes_cons, zlen_app, zlen_cons, IH by done. change (zlen (be32_bytes (x * 4096))) with 4. lia.
Qed.

Lemma mpls_roundtrip_witness :
  exists text, mpls_ntop AF_MPLS (stack_bytes [100; 200]) [] 64 = Done (true, Some text) /\
    mpls_pton AF_MPLS text 256 = (8, stack_bytes [100; 200]).
Proof.
  destruct (mpls_roundtrip [100; 200] [] 64) as (text & H1 & H2);
    [by repeat constructor|simpl; lia|by vm_compute|]. exists text. split; [exact H1|exact H2].
Defined.

(** ** What the text of some addresses is not *)

(** The prefix length nl_addr2str appends to labels is read as one more label. *)
Lemma mpls_addr_text :
  nl_addr2str ex_ntop (Some (ex_addr AF_MPLS (stack_bytes [100]) 20)) [] 64 = Done (str "100/20") /\
  nl_addr_parse ex_pton true true (str "100/20") AF_MPLS = Done (0, Some (ex_addr AF_MPLS (stack_bytes [100; 20]) 20)).
Proof. split; by vm_compute. Qed.

(** No link layer address is valid: the conversions are suppressed and nothing is
    counted. *)
Lemma nl_addr_valid_llc pton addr : nl_addr_valid pton addr AF_LLC = false.
Proof. done. Qed.

(** The area wraps around before its range is checked. *)
Lemma dnet_pton_wraps : dnet_pton (str "65537.1") = dnet_pton (str "1.1").
Proof. by vm_compute. Qed.
