(* ===== verification/Wire.v ===== *)
(** What a region of attributes means: a sequence of types and payloads.  Parsing
    a region gives a table of what it carries, the accessors give the values
    back, and the functions that compose a message give a region; the parsers and
    builders of the kinds of objects are verified against these facts. *)
From S2P Require Import Prelude Errors Msg Attr Socket Nl NlList Object Cache CacheInv ObjAttr.

#[global] Arguments le_encode : simpl never.

(** ** Regions *)

(** The [n] bytes of [b] from [pos] are exactly the attributes [l]. *)
Definition carries (b : list Z) (pos n : Z) (l : list (Z * list Z)) : Prop :=
  bytes_ok b /\ 0 <= pos /\ pos + n <= zlen b /\
  exists offs, attr_exact b pos n offs /\ map (attr_content b) offs = l.

(** The attribute at [nla] has the payload [d]. *)
Definition attr_at (b : list Z) (nla : Z) (d : list Z) : Prop :=
  bytes_ok b /\ 0 <= nla /\ nla + 4 + zlen d <= zlen b /\ attr_len b nla = 4 + zlen d /\
  sub b (nla + 4) (zlen d) = d.

(** The last attribute of a type. *)
Definition attr_of (l : list (Z * list Z)) (t : Z) : option (list Z) :=
  snd <$> last (filter (fun a => a.1 = t) l).

(** What parsing leaves in the table. *)
Definition table (b : list Z) (l : list (Z * list Z)) (maxtype : Z) (tb : list (option Z)) : Prop :=
  forall t, 0 <= t <= maxtype ->
    match attr_of l t with
    | None => tb_at tb t = Done None
    | Some d => exists nla, tb_at tb t = Done (Some nla) /\ attr_at b nla d
    end.

(** What a policy asks of an attribute. *)
Definition entry_ok (pt : nla_policy) (d : list Z) : Prop :=
  policy_min pt <= zlen d /\ (pol_maxlen pt <> 0 -> zlen d <= pol_maxlen pt) /\
  (pol_type pt = NLA_STRING -> last d = Some 0).
Definition content_ok (maxtype : Z) (policy : option (list nla_policy)) (a : Z * list Z) : Prop :=
  match policy with
  | None => True
  | Some p => a.1 <= maxtype -> exists pt, p !! Z.to_nat a.1 = Some pt /\ entry_ok pt a.2
  end.

Lemma attr_of_nil t : attr_of [] t = None.
Proof. done. Qed.

Lemma attr_of_app l k t :
  attr_of (l ++ k) t = match attr_of k t with Some d => Some d | None => attr_of l t end.
Proof.
  unfold attr_of. rewrite filter_app, last_app. by destruct (last (filter _ k)).
Qed.

Lemma attr_of_snoc l a t : attr_of (l ++ [a]) t = if a.1 =? t then Some a.2 else attr_of l t.
Proof.
  rewrite attr_of_app. unfold attr_of at 1. rewrite filter_cons, filter_nil.
  destruct (Z.eqb_spec a.1 t); [by rewrite decide_True|by rewrite decide_False].
Qed.

Lemma attr_of_cons l a t :
  attr_of (a :: l) t = match attr_of l t with Some d => Some d | None => if a.1 =? t then Some a.2 else None end.
Proof. rewrite (attr_of_app [a] l). destruct (attr_of l t); [done|]. by rewrite (attr_of_snoc [] a). Qed.

(** ** Parsing *)

(** A check for policies that are given. *)
Definition policy_okb (maxtype : Z) (p : list nla_policy) : bool :=
  (zlen p =? maxtype + 1) &&
  forallb (fun pt => (0 <=? pol_type pt) && (pol_type pt <=? NLA_TYPE_MAX) && (0 <=? pol_minlen pt) &&
    (pol_minlen pt <? 65536) && (0 <=? pol_maxlen pt) && (pol_maxlen pt <? 65536)) p.
Lemma policy_okb_ok maxtype p : policy_okb maxtype p = true -> policy_opt_ok maxtype (Some p).
Proof.
  intros H. apply andb_prop in H as [H1 H2]. split; [by apply Z.eqb_eq|]. apply Forall_forall. intros pt Hpt.
  rewrite forallb_forall in H2. apply list_elem_of_In, H2 in Hpt. bool_hyps. lia.
Qed.

(** An entry of a policy that asks for nothing. *)
Lemma entry_ok_any type d :
  nth (Z.to_nat type) nla_attr_minlen 0 = 0 -> type <> NLA_STRING ->
  entry_ok {| pol_type := type; pol_minlen := 0; pol_maxlen := 0 |} d.
Proof.
  intros Hm Ht. pose proof (zlen_nonneg d). unfold entry_ok, policy_min.
  cbn [pol_type pol_minlen pol_maxlen]. change (0 =? 0) with true. cbv iota. rewrite Hm. by split.
Qed.

Lemma last_byte d : 0 < zlen d -> last d = Some (le_at 1 d (zlen d - 1)).
Proof.
  intros Hd. destruct d as [|x d _] using rev_ind; [done|]. rewrite last_snoc, zlen_app.
  unfold le_at. rewrite sub_app_r by (unfold zlen; simpl; lia).
  unfold zlen at 1 2 3. simpl length. replace (_ - _) with 0 by lia. unfold sub. simpl.
  f_equal. lia.
Qed.

Lemma attr_at_content b head len nla :
  bytes_ok b -> 0 <= head -> head + len <= zlen b -> attr_in b head len nla ->
  attr_at b nla (attr_payload b nla).
Proof.
  intros Hb Hh Hl (H1 & H2 & H3). unfold attr_at, attr_payload, NLA_HDRLEN.
  rewrite !zlen_sub by lia. split_and!; (done || lia).
Qed.

Lemma attr_at_last b nla d :
  attr_at b nla d -> 0 < zlen d -> last d = Some (le_at 1 b (nla + 4 + (attr_len b nla - 4 - 1))).
Proof.
  intros (_ & H0 & _ & Hlen & Hd) Hpos. rewrite last_byte by done. f_equal.
  rewrite <- Hd at 1. unfold le_at. rewrite sub_sub by lia. rewrite Hlen. do 2 f_equal. lia.
Qed.

Lemma complies_content b head len maxtype policy nla :
  bytes_ok b -> 0 <= head -> head + len <= zlen b -> attr_in b head len nla ->
  policy_opt_ok maxtype policy ->
  content_ok maxtype policy (attr_content b nla) -> accepts b maxtype policy nla.
Proof.
  intros Hb Hh Hl Hin Hp. destruct policy as [p|]; [|done]. simpl. unfold complies.
  intros Hc Ht. destruct (Hc Ht) as (pt & Hpt & Hmin & Hmax & Hstr). exists pt. split; [done|].
  pose proof (attr_at_content b head len nla Hb Hh Hl Hin) as Hat.
  simpl in Hmin, Hmax, Hstr. destruct (Hat) as (_ & _ & _ & Hlen & _).
  unfold complies_entry. replace (attr_len b nla - 4) with (zlen (attr_payload b nla)) by lia.
  split_and!; [done..|].
  intros Hs. specialize (Hstr Hs). destruct Hp as [_ Hp].
  pose proof (Forall_lookup_1 _ _ _ _ Hp Hpt) as (_ & Hm & _).
  pose proof (policy_min_string pt Hs ltac:(lia)).
  rewrite (attr_at_last b nla _ Hat) in Hstr by lia. injection Hstr as Hstr.
  by replace (zlen (attr_payload b nla) - 1) with (attr_len b nla - 4 - 1) by lia.
Qed.

(** A region that complies with the policy is parsed into the table of what it
    carries. *)
Lemma carries_parse b pos n l maxtype policy :
  carries b pos n l -> policy_opt_ok maxtype policy -> Forall (content_ok maxtype policy) l ->
  exists tb, nla_parse b maxtype pos n policy = Done (0, tb) /\ table b l maxtype tb.
Proof.
  intros (Hb & Hp & Hz & offs & Hex & Hl) Hpol Hok.
  pose proof (attr_exact_stream _ _ _ _ Hex) as Hst. pose proof (attr_stream_in _ _ _ _ Hst) as Hin.
  unfold nla_parse. rewrite nla_for_each_attr_foldx by done. rewrite (attrs_eq _ _ _ _ Hst).
  destruct (parse_fold b maxtype pos n policy offs [] (replicate (Z.to_nat (maxtype + 1)) None))
    as (err & tb & pre & Hf & Hr & Hi); [done..|constructor|apply index_of_nil|].
  rewrite Hf. simpl in Hr, Hi. destruct Hr as (_ & [[-> <-]|(_ & nla & post & Hoffs & Hbad)]).
  - exists tb. split; [done|]. intros t Ht. destruct Hi as [_ Hi]. unfold tb_at. rewrite (Hi t Ht).
    pose proof (last_of_type_content b t offs l Hl) as Hlast. fold (attr_of l t) in Hlast.
    rewrite <- Hlast. unfold last_of_type in *.
    destruct (last (filter (fun nla => attr_type b nla = t) offs)) as [nla|] eqn:E; simpl; [|done].
    exists nla. split; [done|]. apply (attr_at_content b pos n); [done..|].
    apply last_Some_elem_of, list_elem_of_filter in E as [_ E]. rewrite Forall_forall in Hin. by apply Hin.
  - destruct Hbad. rewrite <- Hl, Hoffs in Hok. rewrite Hoffs in Hin.
    rewrite map_app in Hok. apply Forall_app in Hok as [_ Hok]. simpl in Hok. apply Forall_cons in Hok as [Hok _].
    apply Forall_app in Hin as [_ Hin]. apply Forall_cons in Hin as [Hin _].
    by eapply complies_content.
Qed.

(** ** Accessors *)

Lemma attr_at_get k b nla d :
  attr_at b nla d -> zlen d = Z.of_nat k -> load b (nla_data nla) (Z.of_nat k) = Done d.
Proof.
  intros (_ & H0 & Hz & _ & Hd) Hk. unfold nla_data, NLA_HDRLEN. rewrite load_done by lia.
  by rewrite <- Hk, Hd.
Qed.

Lemma attr_at_u8 b nla v : attr_at b nla (le_encode 1 v) -> nla_get_u8 b nla = Done (u8 v).
Proof.
  intros Ha. unfold nla_get_u8, get_u8. change 1 with (Z.of_nat 1).
  rewrite (attr_at_get 1 b nla _ Ha) by done. exec_simpl.
  by rewrite le_decode_encode.
Qed.
Lemma attr_at_u16 b nla v : attr_at b nla (le_encode 2 v) -> nla_get_u16 b nla = Done (u16 v).
Proof.
  intros Ha. unfold nla_get_u16, get_u16. change 2 with (Z.of_nat 2).
  rewrite (attr_at_get 2 b nla _ Ha) by done. exec_simpl.
  by rewrite le_decode_encode.
Qed.
Lemma attr_at_u32 b nla v : attr_at b nla (le_encode 4 v) -> nla_get_u32 b nla = Done (u32 v).
Proof.
  intros Ha. unfold nla_get_u32, get_u32. change 4 with (Z.of_nat 4).
  rewrite (attr_at_get 4 b nla _ Ha) by done. exec_simpl.
  by rewrite le_decode_encode.
Qed.

(** The same for any payload of the right size. *)
Lemma attr_get_u8 b nla d : attr_at b nla d -> zlen d = 1 -> nla_get_u8 b nla = Done (le_decode d).
Proof. intros Ha Hz. unfold nla_get_u8, get_u8. change 1 with (Z.of_nat 1) in *. by rewrite (attr_at_get 1 b nla d Ha). Qed.
Lemma attr_get_u16 b nla d : attr_at b nla d -> zlen d = 2 -> nla_get_u16 b nla = Done (le_decode d).
Proof. intros Ha Hz. unfold nla_get_u16, get_u16. change 2 with (Z.of_nat 2) in *. by rewrite (attr_at_get 2 b nla d Ha). Qed.
Lemma attr_get_u32 b nla d : attr_at b nla d -> zlen d = 4 -> nla_get_u32 b nla = Done (le_decode d).
Proof. intros Ha Hz. unfold nla_get_u32, get_u32. change 4 with (Z.of_nat 4) in *. by rewrite (attr_at_get 4 b nla d Ha). Qed.

Lemma attr_at_len b nla d : attr_at b nla d -> nla_len b nla = Done (zlen d).
Proof.
  intros (_ & H0 & Hz & Hlen & _). pose proof (zlen_nonneg d). unfold nla_len, nlattr_len.
  rewrite get_u16_done by lia. unfold attr_len in Hlen. exec_simpl. rewrite Hlen. f_equal. unfold NLA_HDRLEN. lia.
Qed.

Lemma attr_at_bytes b nla d : attr_at b nla d -> bytes_ok d.
Proof. intros (Hb & _ & _ & _ & <-). by apply bytes_ok_sub. Qed.

Lemma attr_at_string b nla s :
  attr_at b nla (s ++ [0]) -> Forall (fun c => c <> 0) s ->
  c_string (drop (Z.to_nat (nla_get_string nla)) b) = Done s.
Proof.
  intros (_ & H0 & Hz & _ & Hd) Hs. unfold nla_get_string, nla_data, NLA_HDRLEN.
  pose proof (zlen_nonneg (s ++ [0])). rewrite (drop_sub b (nla + 4) (zlen (s ++ [0]))) by lia.
  rewrite Hd, <- app_assoc. by apply c_string_app.
Qed.

(** ** Nested regions *)

Lemma region_le_at b pos d k i :
  sub b pos (zlen d) = d -> 0 <= pos -> 0 <= i -> 0 <= k -> i + k <= zlen d ->
  le_at k b (pos + i) = le_at k d i.
Proof. intros Hd ????. unfold le_at. rewrite <- Hd. by rewrite sub_sub by lia. Qed.

Lemma attr_exact_shift b pos d i n offs :
  sub b pos (zlen d) = d -> 0 <= pos -> 0 <= i -> i + n <= zlen d ->
  attr_exact d i n offs ->
  attr_exact b (pos + i) n (map (Z.add pos) offs) /\
  map (attr_content b) (map (Z.add pos) offs) = map (attr_content d) offs.
Proof.
  intros Hd Hp Hi Hn Hex. induction Hex as [i|i n offs Hok Hex IH]; [split; [constructor|done]|].
  pose proof Hok as Hok'. apply attr_ok_true in Hok' as [H4 Hl].
  pose proof (attr_exact_nonneg _ _ _ _ Hex). pose proof (align4_bounds (attr_len d i)).
  destruct IH as [IH1 IH2]; [lia..|].
  assert (attr_len b (pos + i) = attr_len d i) as Hlen by (apply region_le_at; (done || lia)).
  split.
  - simpl. constructor; [by rewrite attr_ok_true, Hlen|]. rewrite Hlen.
    by replace (pos + i + align4 (attr_len d i)) with (pos + (i + align4 (attr_len d i))) by lia.
  - simpl. f_equal; [|done]. unfold attr_content, attr_payload, attr_type. rewrite Hlen.
    replace (pos + i + 2) with (pos + (i + 2)) by lia. rewrite (region_le_at b pos d) by (done || lia).
    f_equal. unfold NLA_HDRLEN. replace (pos + i + 4) with (pos + (i + 4)) by lia.
    rewrite <- (sub_sub b pos (zlen d)) by lia. by rewrite Hd.
Qed.

Lemma carries_shift b pos d l :
  bytes_ok b -> 0 <= pos -> pos + zlen d <= zlen b -> sub b pos (zlen d) = d ->
  carries d 0 (zlen d) l -> carries b pos (zlen d) l.
Proof.
  intros Hb Hp Hz Hd (_ & _ & _ & offs & Hex & Hc).
  destruct (attr_exact_shift b pos d 0 (zlen d) offs) as [H1 H2]; [done|done|lia|lia|done|].
  rewrite Z.add_0_r in H1. split_and!; [done..|]. exists (map (Z.add pos) offs). split; [done|].
  by rewrite H2.
Qed.

Lemma attr_at_nested b nla d l :
  attr_at b nla d -> carries d 0 (zlen d) l -> carries b (nla_data nla) (zlen d) l.
Proof.
  intros (Hb & H0 & Hz & _ & Hd) Hc. unfold nla_data, NLA_HDRLEN. apply carries_shift; (done || lia).
Qed.

Lemma nested_parse b nla d l maxtype policy :
  attr_at b nla d -> carries d 0 (zlen d) l -> policy_opt_ok maxtype policy ->
  Forall (content_ok maxtype policy) l ->
  exists tb, nla_parse_nested b maxtype nla policy = Done (0, tb) /\ table b l maxtype tb.
Proof.
  intros Ha Hc Hp Hl. unfold nla_parse_nested. rewrite (attr_at_len _ _ _ Ha). exec_simpl.
  apply carries_parse; [by eapply attr_at_nested|done..].
Qed.

(** A loop over nested attributes that stand for the elements [xs]. *)
Lemma nested_loop {S R X} b nla d (xs : list X) (e : X -> Z * list Z) (body : S -> Z -> exec (S + R))
    (step : S -> X -> S) s :
  attr_at b nla d -> carries d 0 (zlen d) (map e xs) ->
  (forall s x nla, x ∈ xs -> attr_at b nla (e x).2 -> body s nla = Done (inl (step s x))) ->
  nla_for_each_nested b body nla s = Done (inl (fold_left step xs s)).
Proof.
  intros Ha Hc Hstep. unfold nla_for_each_nested. rewrite (attr_at_len _ _ _ Ha). exec_simpl.
  destruct (attr_at_nested _ _ _ _ Ha Hc) as (Hb & Hp & Hz & offs & Hex & Hl).
  rewrite nla_for_each_attr_foldx by done. pose proof (attr_exact_stream _ _ _ _ Hex) as Hst.
  rewrite (attrs_eq _ _ _ _ Hst). pose proof (attr_stream_in _ _ _ _ Hst) as Hin. clear Hex Hst Hc.
  revert xs Hl Hstep s. induction offs as [|y offs IH]; intros [|x xs] Hl Hstep s; try done.
  injection Hl as He Hl.
  apply Forall_cons in Hin as [Hy Hin]. simpl.
  pose proof (attr_at_content b (nla_data nla) (zlen d) y Hb Hp Hz Hy) as Hat.
  rewrite (Hstep s x y); [|left|by rewrite <- He]. exec_simpl. apply IH; [done|done|].
  intros s' x' nla' Hx'. apply Hstep. by right.
Qed.

(** ** Writing a region *)

(** The bytes of attributes as [nla_put] lays them out. *)
Definition attr_bytes (a : Z * list Z) : list Z :=
  le_encode 2 (4 + zlen a.2) ++ le_encode 2 a.1 ++ a.2 ++ zeros (align4 (4 + zlen a.2) - (4 + zlen a.2)).
Definition attrs_bytes (l : list (Z * list Z)) : list Z := flat_map attr_bytes l.

Lemma zlen_attr_bytes a : zlen (attr_bytes a) = align4 (4 + zlen a.2).
Proof.
  pose proof (align4_bounds (4 + zlen a.2)). unfold attr_bytes.
  rewrite !zlen_app, !zlen_le_encode, zlen_zeros by lia. lia.
Qed.

Lemma attrs_bytes_cons a l : attrs_bytes (a :: l) = attr_bytes a ++ attrs_bytes l.
Proof. done. Qed.

Lemma zlen_attrs_bytes l : zlen (attrs_bytes l) = total_room l.
Proof.
  induction l as [|a l IH]; [done|]. by rewrite attrs_bytes_cons, zlen_app, zlen_attr_bytes, IH.
Qed.

Lemma bytes_ok_attrs l : Forall attr_fits l -> bytes_ok (attrs_bytes l).
Proof.
  induction 1 as [|a l (_ & Ha & _) _ IH]; [constructor|].
  rewrite attrs_bytes_cons. apply bytes_ok_app. split; [|done].
  unfold attr_bytes. rewrite !bytes_ok_app. split_and!; eauto with nl.
Qed.

Lemma attr_bytes_at a rest :
  attr_fits a ->
  attr_len (attr_bytes a ++ rest) 0 = 4 + zlen a.2 /\
  attr_content (attr_bytes a ++ rest) 0 = a.
Proof.
  destruct a as [t d]. intros (Ht & Hd & Hl). cbn [fst snd] in *. pose proof (zlen_nonneg d).
  pose proof (align4_bounds (4 + zlen d)).
  assert (attr_len (attr_bytes (t, d) ++ rest) 0 = 4 + zlen d) as Hlen.
  { change (attr_len _ 0) with (le_decode (le_encode 2 (4 + zlen d))).
    rewrite le_decode_encode. apply Z.mod_small. change (256 ^ Z.of_nat 2) with 65536. lia. }
  split; [done|]. unfold attr_content, attr_payload, NLA_HDRLEN. rewrite Hlen. f_equal.
  - change (attr_type _ 0) with (Z.land (le_decode (le_encode 2 t)) NLA_TYPE_MASK).
    rewrite le_decode_encode. by apply u16_type.
  - change (sub _ (0 + 4) (4 + zlen d - 4))
      with (sub ((d ++ zeros (align4 (4 + zlen d) - (4 + zlen d))) ++ rest) 0 (4 + zlen d - 4)).
    rewrite <- app_assoc. replace (4 + zlen d - 4) with (zlen d) by lia.
    rewrite sub_app_l by lia. apply sub_all.
Qed.

Lemma carries_attrs l : Forall attr_fits l -> carries (attrs_bytes l) 0 (zlen (attrs_bytes l)) l.
Proof.
  intros Hf. split_and!; [by apply bytes_ok_attrs|done|lia|].
  induction Hf as [|a l Ha Hf (offs & Hex & Hc)]; [exists []; by split; [constructor|]|].
  destruct (attr_bytes_at a (attrs_bytes l) Ha) as [Hlen Hcont].
  pose proof Ha as (_ & _ & Hl). pose proof (zlen_nonneg a.2). pose proof (align4_bounds (4 + zlen a.2)).
  pose proof (zlen_nonneg (attrs_bytes l)).
  assert (zlen (attrs_bytes (a :: l)) = align4 (4 + zlen a.2) + zlen (attrs_bytes l)) as Hz.
  { by rewrite attrs_bytes_cons, zlen_app, zlen_attr_bytes. }
  rewrite Hz. rewrite attrs_bytes_cons in *.
  destruct (attr_exact_shift (attr_bytes a ++ attrs_bytes l) (align4 (4 + zlen a.2)) (attrs_bytes l)
    0 (zlen (attrs_bytes l)) offs) as [Hx1 Hx2]; [|lia|lia|lia|done|].
  { rewrite sub_app_r by (rewrite zlen_attr_bytes; lia). rewrite zlen_attr_bytes, Z.sub_diag. apply sub_all. }
  exists (0 :: map (Z.add (align4 (4 + zlen a.2))) offs). split.
  - constructor; [rewrite attr_ok_true, Hlen; lia|]. rewrite Hlen.
    rewrite Z.add_0_r in Hx1. rewrite Z.add_0_l. by replace (_ + _ - _) with (zlen (attrs_bytes l)) by lia.
  - rewrite map_cons, Hcont, Hx2. by f_equal.
Qed.

(** ** Fields

    What a message may say: for each type the payload, or nothing. *)

Definition enc (fields : list (Z * option (list Z))) : list (Z * list Z) :=
  omap (fun x => pair x.1 <$> x.2) fields.
#[global] Arguments enc : simpl never.
Fixpoint field (fields : list (Z * option (list Z))) (t : Z) : option (list Z) :=
  match fields with
  | [] => None
  | x :: fields => if x.1 =? t then x.2 else field fields t
  end.

Lemma enc_cons x fields : enc (x :: fields) = enc [x] ++ enc fields.
Proof. unfold enc. simpl. by destruct (x.2). Qed.

Lemma field_absent fields t : t ∉ map fst fields -> attr_of (enc fields) t = None.
Proof.
  induction fields as [|[t' o] fields IH]; [done|]. simpl. intros [Hn Hi]%not_elem_of_cons.
  rewrite enc_cons, attr_of_app, IH by done. destruct o as [d|]; [|done]. unfold enc. simpl.
  rewrite attr_of_cons. simpl. by rewrite (proj2 (Z.eqb_neq t' t)) by done.
Qed.

Lemma attr_of_enc fields t :
  NoDup (map fst fields) -> attr_of (enc fields) t = field fields t.
Proof.
  induction fields as [|[t' o] fields IH]; [done|]. simpl. intros [Hn Hd]%NoDup_cons.
  rewrite enc_cons, attr_of_app. destruct (Z.eqb_spec t' t) as [->|Hne].
  - rewrite field_absent by done. by destruct o as [d|]; unfold enc; simpl; [rewrite attr_of_cons; simpl; rewrite Z.eqb_refl|].
  - rewrite IH by done. destruct (field fields t); [done|]. destruct o as [d|]; [|done]. unfold enc. simpl.
    rewrite attr_of_cons. simpl. by rewrite (proj2 (Z.eqb_neq t' t)) by done.
Qed.

(** Reading a field from the table of a message that has it or not. *)
Lemma table_none b l maxtype tb t :
  table b l maxtype tb -> 0 <= t <= maxtype -> attr_of l t = None -> tb_at tb t = Done None.
Proof. intros Htb Ht Hn. specialize (Htb t Ht). by rewrite Hn in Htb. Qed.
Lemma table_some b l maxtype tb t d :
  table b l maxtype tb -> 0 <= t <= maxtype -> attr_of l t = Some d ->
  exists nla, tb_at tb t = Done (Some nla) /\ attr_at b nla d.
Proof. intros Htb Ht Hn. specialize (Htb t Ht). by rewrite Hn in Htb. Qed.

Lemma table_if {A} b l maxtype tb t (f : Z -> A -> exec A) (g : list Z -> A -> A) a :
  table b l maxtype tb -> 0 <= t <= maxtype ->
  (forall nla d, attr_of l t = Some d -> attr_at b nla d -> f nla a = Done (g d a)) ->
  if_attr tb t f a = Done (match attr_of l t with Some d => g d a | None => a end).
Proof.
  intros Htb Ht Hf. unfold if_attr. specialize (Htb t Ht). destruct (attr_of l t) as [d|].
  - destruct Htb as (nla & -> & Ha). exec_simpl. by apply Hf.
  - by rewrite Htb.
Qed.

Lemma table_skip {A} b l maxtype tb t (f : Z -> A -> exec A) a :
  table b l maxtype tb -> 0 <= t <= maxtype -> attr_of l t = None -> if_attr tb t f a = Done a.
Proof. intros Htb Ht Hn. unfold if_attr. by rewrite (table_none _ _ _ _ t Htb). Qed.

Lemma Forall_enc (P : Z * list Z -> Prop) fields :
  Forall (fun x => from_option (fun d => P (x.1, d)) True x.2) fields -> Forall P (enc fields).
Proof.
  induction 1 as [|[t o] fields Ho _ IH]; [constructor|]. rewrite enc_cons. apply Forall_app. split; [|done].
  destruct o as [d|]; [|constructor]. by apply Forall_cons_2.
Qed.

Lemma fields_fit fields :
  Forall (fun x => 0 <= x.1 < 16384 /\ from_option (fun d => bytes_ok d /\ zlen d <= 65531) True x.2) fields ->
  Forall attr_fits (enc fields).
Proof.
  intros Hf. apply Forall_enc. eapply Forall_impl; [exact Hf|]. intros [t [d|]]; simpl; [|done].
  intros (? & ? & ?). split; [done|by split].
Qed.

(** ** Messages *)

Lemma holds_carries m head l :
  holds m head l -> carries (nm_nlh m) head (msg_len m - head) l.
Proof.
  intros (Hw & _ & Hh & offs & Hex & Hl). pose proof Hw as (Hz & Hb & Hlen & _).
  pose proof (attr_exact_nonneg _ _ _ _ Hex). split_and!; [done|lia|lia|]. by exists offs.
Qed.

Lemma holds_nil m hdrlen :
  msg_wf m -> msg_len m = 16 + align4 hdrlen -> 0 <= hdrlen -> holds m (16 + align4 hdrlen) [].
Proof.
  intros Hw Hl Hh. pose proof (align4_bounds hdrlen). split_and!; [done| |lia|].
  - rewrite Hl, Zplus_mod, align4_mod. done.
  - exists []. rewrite Hl, Z.sub_diag. by split; [constructor|].
Qed.

(** A message composed by the library is parsed into the table of what was put. *)
Lemma holds_parse m hdrlen l maxtype policy :
  holds m (16 + align4 hdrlen) l -> 0 <= hdrlen < 1073741824 ->
  policy_opt_ok maxtype policy -> Forall (content_ok maxtype policy) l ->
  exists tb, nlmsg_parse (nm_nlh m) 0 hdrlen maxtype policy = Done (0, tb) /\
    table (nm_nlh m) l maxtype tb.
Proof.
  intros Hh Hd Hp Hl. pose proof Hh as (Hw & _ & _ & offs & Hex & _).
  pose proof (attr_exact_nonneg _ _ _ _ Hex). rewrite nlmsg_parse_done by (done || lia).
  apply carries_parse; [|done..]. by apply holds_carries.
Qed.

(** ** Messages received *)

Lemma bytes_ok_wm m : wm_ok m -> bytes_ok (wm_bytes m).
Proof.
  intros (_ & _ & _ & _ & Hp & _). unfold wm_bytes. rewrite !bytes_ok_app. split_and!; eauto with nl.
Qed.

Lemma wm_msg_len m proto src : wm_ok m -> msg_len (delivered proto src m) = wm_len m.
Proof.
  intros Hm. destruct (wm_fields [] m [] Hm) as (H & _). rewrite app_nil_l, app_nil_r in H. exact H.
Qed.

Lemma wm_wf m proto src : wm_ok m -> msg_wf (delivered proto src m).
Proof.
  intros Hm. pose proof (wm_len_bounds m Hm). pose proof (align4_bounds (wm_len m)).
  unfold msg_wf. rewrite wm_msg_len by done. cbn [nm_nlh nm_size delivered].
  rewrite zlen_wm_bytes by done. unfold sizeof_nlmsghdr.
  split_and!; try (done || lia). by apply bytes_ok_wm.
Qed.

Lemma wm_payload_sub m i n :
  wm_ok m -> 0 <= i -> 0 <= n -> i + n <= zlen (wm_payload m) ->
  sub (wm_bytes m) (16 + i) n = sub (wm_payload m) i n.
Proof.
  intros Hm ???. unfold wm_bytes. rewrite !app_assoc. set (pre := _ ++ le_encode 4 (wm_pid m)).
  assert (zlen pre = 16) as Hp by (unfold pre; rewrite !zlen_app, !zlen_le_encode; lia).
  rewrite <- (app_assoc pre). rewrite sub_app_r by lia. rewrite Hp.
  replace (16 + i - 16) with i by lia. by apply sub_app_l.
Qed.

Lemma wm_header m hdr rest : wm_ok m -> wm_payload m = hdr ++ rest -> sub (wm_bytes m) 16 (zlen hdr) = hdr.
Proof.
  intros Hm Hp. pose proof (zlen_nonneg hdr). pose proof (zlen_nonneg rest).
  rewrite (wm_payload_sub m 0) by (try done; rewrite ?Hp, ?zlen_app; lia).
  rewrite Hp, sub_app_l by lia. apply sub_all.
Qed.

(** A message whose payload is a family header and attributes. *)
Lemma wm_parse m hdr l hdrlen maxtype policy :
  wm_ok m -> wm_payload m = hdr ++ attrs_bytes l -> zlen hdr = align4 hdrlen -> 0 <= hdrlen < 1073741824 ->
  Forall attr_fits l -> policy_opt_ok maxtype policy -> Forall (content_ok maxtype policy) l ->
  exists tb, nlmsg_parse (wm_bytes m) 0 hdrlen maxtype policy = Done (0, tb) /\ table (wm_bytes m) l maxtype tb.
Proof.
  intros Hm Hp Hh Hhl Hl Hpol Hok. pose proof (zlen_nonneg (attrs_bytes l)).
  pose proof (align4_bounds hdrlen). pose proof (wm_len_bounds m Hm). pose proof (align4_bounds (wm_len m)).
  assert (wm_len m = 16 + align4 hdrlen + zlen (attrs_bytes l)) as Hlen.
  { unfold wm_len. rewrite Hp, zlen_app. lia. }
  pose proof (nlmsg_parse_done (delivered 0 sockaddr_0 m) hdrlen maxtype policy (wm_wf m _ _ Hm)) as Hparse.
  rewrite wm_msg_len in Hparse by done. cbn [nm_nlh delivered] in Hparse.
  rewrite Hparse by lia. apply carries_parse; [|done..].
  replace (wm_len m - (16 + align4 hdrlen)) with (zlen (attrs_bytes l)) by lia.
  apply carries_shift; [by apply bytes_ok_wm|lia|rewrite zlen_wm_bytes by done; lia| |by apply carries_attrs].
  rewrite wm_payload_sub by (try done; rewrite ?Hp, ?zlen_app; lia). rewrite Hp.
  rewrite sub_app_r by lia. rewrite Hh, Z.sub_diag. apply sub_all.
Qed.
