(* ===== verification/Build.v ===== *)
(** Composing a message: allocation, the header of the family, and the macros of
    include/netlink/attr.h with which the builders of the kinds of objects put
    one attribute after the other.  A builder is verified by showing that it puts
    a list of fields, each with a payload or left out. *)
From S2P Require Import Prelude Errors Msg Attr Addr Handlers Socket Nl Object ObjAttr Wire.

(** ** The macros

    A builder either goes on with the message or leaves with an error code; at the
    label nla_put_failure the message is given back. *)

Definition nla_put_failure (msg : nl_msg) : exec (Z + nl_msg) :=
  _ ← nlmsg_free (Some msg); err NLE_MSGSIZE.

Definition NLA_PUT (attrtype attrlen : Z) (data : list Z) (msg : nl_msg) : exec (Z + nl_msg) :=
  '(e, msg) ← nla_put msg attrtype attrlen data;
  if e <? 0 then nla_put_failure msg else ok msg.
Definition NLA_PUT_U8 (attrtype value : Z) := NLA_PUT attrtype 1 (le_encode 1 value).
Definition NLA_PUT_U16 (attrtype value : Z) := NLA_PUT attrtype 2 (le_encode 2 value).
Definition NLA_PUT_U32 (attrtype value : Z) := NLA_PUT attrtype 4 (le_encode 4 value).
Definition NLA_PUT_U64 (attrtype value : Z) := NLA_PUT attrtype 8 (le_encode 8 value).
Definition NLA_PUT_STRING (attrtype : Z) (value : list Z) :=
  NLA_PUT attrtype (s32 (s32 (zlen value) + 1)) (value ++ [0]).
Definition NLA_PUT_FLAG (attrtype : Z) := NLA_PUT attrtype 0 [].
(** [None]: the null pointer. *)
Definition NLA_PUT_ADDR (attrtype : Z) (addr : option nl_addr) (msg : nl_msg) : exec (Z + nl_msg) :=
  match addr with
  | None => Fault
  | Some a => NLA_PUT attrtype (s32 (nl_addr_get_len a)) (nl_addr_get_binary_addr a) msg
  end.

(** [if (c) put;] *)
Definition put_if (c : bool) (put : nl_msg -> exec (Z + nl_msg)) (msg : nl_msg)
    : exec (Z + nl_msg) := if c then put msg else ok msg.

(** What every builder starts with: a message of the default size, and the header
    of the family appended to it. *)
Definition append_hdr (hdr : list Z) (msg : nl_msg) : exec (Z + nl_msg) :=
  '(e, msg) ← nlmsg_append msg hdr (zlen hdr) NLMSG_ALIGNTO;
  if e <? 0 then nla_put_failure msg else ok msg.
Definition start_msg (c1 c2 : bool) (default_msg_size type flags : Z) (hdr : list Z)
    : exec (Z + nl_msg) :=
  m ← nlmsg_alloc_simple c1 c2 default_msg_size type flags;
  match m with
  | None => err NLE_NOMEM
  | Some msg => append_hdr hdr msg
  end.

(** ** Lists of fields *)

Definition put_field (x : Z * option (list Z)) (msg : nl_msg) : exec (Z + nl_msg) :=
  match x.2 with Some d => NLA_PUT x.1 (zlen d) d msg | None => ok msg end.
Fixpoint put_fields (fields : list (Z * option (list Z))) (msg : nl_msg) : exec (Z + nl_msg) :=
  match fields with
  | [] => ok msg
  | x :: fields => msg ←! put_field x msg; put_fields fields msg
  end.

(** The bytes of an address. *)
Definition addr_bytes (a : nl_addr) : list Z := sub (a_addr a) 0 (a_len a).

(** A message with a header and attributes. *)
Record built (m : nl_msg) (size type flags : Z) (hdr : list Z) (l : list (Z * list Z)) : Prop := {
  b_holds : holds m (16 + align4 (zlen hdr)) l;
  b_hdr : sub (nm_nlh m) 16 (zlen hdr) = hdr;
  b_nlh : hdr_is (nm_nlh m) type flags NL_AUTO_SEQ NL_AUTO_PORT;
  b_len : msg_len m = 16 + align4 (zlen hdr) + total_room l;
  b_size : nm_size m = size;
  b_refcnt : nm_refcnt m = 1
}.

(** What a builder returns: without memory there is no message, and without room
    for everything there is none either. *)
Definition build_result (c1 c2 : bool) (default_msg_size type flags : Z) (hdr : list Z)
    (l : list (Z * list Z)) (r : Z + nl_msg) : Prop :=
  let size := Z.max default_msg_size 16 in
  let room := 16 + align4 (zlen hdr) + total_room l in
  match r with
  | inl e => (c1 && c2 = false /\ e = - NLE_NOMEM) \/
             (c1 && c2 = true /\ size < room /\ e = - NLE_MSGSIZE)
  | inr m => c1 && c2 = true /\ room <= size /\ built m size type flags hdr l
  end.

Lemma run_or_assoc {A B C} (m : exec (Z + A)) (k : A -> exec (Z + B)) (l : B -> exec (Z + C)) :
  run_or (run_or m k) l = run_or m (fun x => run_or (k x) l).
Proof. unfold run_or. by destruct m as [[e|x]| | |]. Qed.
Lemma run_or_ok {A B} (a : A) (k : A -> exec (Z + B)) : run_or (ok a) k = k a.
Proof. done. Qed.
Lemma run_or_ok_r {A} (m : exec (Z + A)) : run_or m ok = m.
Proof. by destruct m as [[e|x]| | |]. Qed.
Lemma run_or_ext {A B} (m : exec (Z + A)) (k l : A -> exec (Z + B)) :
  (forall x, k x = l x) -> run_or m k = run_or m l.
Proof. intros H. destruct m as [[e|x]| | |]; [done|apply H|done..]. Qed.

(** Putting when a condition holds is putting a field. *)
Lemma put_if_field (c : bool) t n d msg :
  zlen d = n -> put_if c (NLA_PUT t n d) msg = put_field (t, if c then Some d else None) msg.
Proof. intros <-. by destruct c. Qed.
Lemma put_always t n d msg : zlen d = n -> NLA_PUT t n d msg = put_field (t, Some d) msg.
Proof. by intros <-. Qed.

Lemma nla_put_sub m t n d : 0 <= n <= zlen d -> nla_put m t n d = nla_put m t n (sub d 0 n).
Proof.
  intros Hn. unfold nla_put. destruct (nla_reserve m t n) as [[[nla|] m']| | |]; try done. exec_simpl.
  case_test; [|done]. rewrite !load_done by (rewrite ?zlen_sub by lia; lia). exec_simpl.
  by rewrite sub_sub by lia.
Qed.

Lemma put_addr_field (c : bool) t a msg :
  addr_wf a -> put_if c (NLA_PUT_ADDR t (Some a)) msg =
    put_field (t, if c then Some (addr_bytes a) else None) msg.
Proof.
  intros [Hl Hz]. destruct c; [|done]. unfold put_if, NLA_PUT_ADDR, put_field, NLA_PUT, addr_bytes,
    nl_addr_get_len, nl_addr_get_binary_addr. simpl. rewrite s32_id, zlen_sub by lia.
  by rewrite nla_put_sub by lia.
Qed.

Lemma put_addr_opt (c : bool) t o msg :
  (c = true -> is_Some o) -> (forall a, o = Some a -> addr_wf a) ->
  put_if c (NLA_PUT_ADDR t o) msg = put_field (t, if c then addr_bytes <$> o else None) msg.
Proof.
  intros Hc Ho. destruct o as [a|].
  - rewrite put_addr_field by (by apply Ho). by destruct c.
  - destruct c; [|done]. by destruct Hc.
Qed.

Lemma put_string_field (c : bool) t s msg :
  zlen s < 2147483647 -> put_if c (NLA_PUT_STRING t s) msg =
    put_field (t, if c then Some (s ++ [0]) else None) msg.
Proof.
  intros Hs. pose proof (zlen_nonneg s). apply put_if_field. rewrite zlen_app, !s32_id; [done|lia|].
  rewrite s32_id; lia.
Qed.

(** ** What is built *)

Lemma nlmsg_free_last m : nm_refcnt m = 1 -> nlmsg_free (Some m) = Done None.
Proof. intros Hr. unfold nlmsg_free. simpl. by rewrite Hr. Qed.

Lemma alloc_simple_done c1 c2 size type flags :
  size < 2147483648 ->
  exists r, nlmsg_alloc_simple c1 c2 size type flags = Done r /\
    match r with
    | None => c1 && c2 = false
    | Some m => c1 && c2 = true /\ msg_wf m /\ nm_size m = Z.max size 16 /\ msg_len m = 16 /\
                nm_refcnt m = 1 /\ hdr_is (nm_nlh m) type flags NL_AUTO_SEQ NL_AUTO_PORT
    end.
Proof.
  intros Hs. unfold nlmsg_alloc_simple, nlmsg_inherit, nlmsg_alloc.
  destruct (nlmsg_alloc_done c1 c2 size Hs) as ([m|] & Ha & Hr); rewrite Ha; exec_simpl; [|by exists None].
  destruct Hr as (Hc & Hw & Hsz & Hl & Href & _). pose proof Hw as (Hz & Hb & Hlen & _). unfold sizeof_nlmsghdr in *.
  unfold set_nlmsg_type, set_nlmsg_flags, set_nlmsg_seq, set_nlmsg_pid. cbn [ht_type ht_flags ht_seq ht_pid].
  do 4 exec_step. eexists. split; [done|].
  set (b := splice (splice (splice (splice _ _ _) _ _) _ _) _ _).
  assert (le_at 4 b 0 = 16) as Hb0.
  { unfold b. repeat (rewrite le_at_splice_other by zl). done. }
  split; [done|]. split; [|split; [done|split; [done|split; [done|]]]].
  - unfold msg_wf, msg_len, sizeof_nlmsghdr. cbn [nm_nlh nm_size set_buf]. rewrite Hb0. unfold b.
    split_and!; [zl|auto 10 with nl|lia..].
  - cbn [nm_nlh set_buf]. unfold hdr_is, b.
    split_and!; repeat (rewrite le_at_splice_other by zl); first [apply le_at_put2 | apply le_at_put4]; zl.
Qed.

Lemma done_pair {A B} (a a' : A) (b b' : B) : Done (a, b) = Done (a', b') -> b = b'.
Proof. congruence. Qed.

Lemma nlmsg_reserve_refcnt n len pad p n' : nlmsg_reserve n len pad = Done (p, n') -> nm_refcnt n' = nm_refcnt n.
Proof.
  unfold nlmsg_reserve. destruct (nlmsg_len _ _); try done. exec_simpl. case_test; [by intros <-%done_pair|].
  case_test; [by intros <-%done_pair|]. destruct (set_nlmsg_len _ _ _); try done. exec_simpl.
  match goal with |- mbind _ ?x = _ -> _ => destruct x end; try done. exec_simpl. by intros <-%done_pair.
Qed.

Lemma nlmsg_append_refcnt n d len pad e n' : nlmsg_append n d len pad = Done (e, n') -> nm_refcnt n' = nm_refcnt n.
Proof.
  unfold nlmsg_append. destruct (nlmsg_reserve n len pad) as [[p n1]| | |] eqn:E; try done. exec_simpl.
  apply nlmsg_reserve_refcnt in E. destruct p; [|by intros <-%done_pair].
  destruct (load _ _ _); try done. exec_simpl. destruct (store _ _ _); try done. exec_simpl. by intros <-%done_pair.
Qed.

(** A message that was started: nothing but its headers. *)
Lemma start_msg_done c1 c2 size type flags hdr :
  size < 2147483648 -> bytes_ok hdr -> zlen hdr < 1073741824 ->
  exists r, start_msg c1 c2 size type flags hdr = Done r /\ build_result c1 c2 size type flags hdr [] r.
Proof.
  intros Hs Hd Hn. unfold start_msg, append_hdr. destruct (alloc_simple_done c1 c2 size type flags Hs) as ([m|] & Ha & Hr); rewrite Ha; exec_simpl.
  2: { exists (inl (- NLE_NOMEM)). split; [done|]. by left. }
  destruct Hr as (Hc & Hw & Hsz & Hl & Href & Hh). pose proof (zlen_nonneg hdr). pose proof (align4_bounds (zlen hdr)).
  assert (pad_ok NLMSG_ALIGNTO) as Hp by (right; by exists 2).
  assert (pad_len (zlen hdr) NLMSG_ALIGNTO = align4 (zlen hdr)) as Hpl by (apply pad_len_4; lia).
  unfold build_result. cbn [total_room].
  destruct (Z_le_gt_dec (16 + align4 (zlen hdr)) (Z.max size 16)) as [Hfit|Hfull].
  - destruct (nlmsg_append_ok m hdr NLMSG_ALIGNTO) as (m' & Happ & Hw' & Hsz' & Hl' & Hd' & Hlo); [done|done|lia|done|lia|].
    rewrite Happ. exec_simpl. change (0 <? 0) with false. cbv iota. eexists. split; [done|]. split; [done|split; [lia|]].
    rewrite Hpl in *. split.
    + apply holds_nil; [done|lia|lia].
    + rewrite Hl in Hd'. replace (align4 (zlen hdr)) with (zlen hdr + (align4 (zlen hdr) - zlen hdr)) in Hd' at 1 by lia.
      rewrite sub_split in Hd' by lia. apply (app_inj_1 _ _ _ _) in Hd' as [-> _]; [done|].
      apply Nat2Z.inj. destruct Hw' as (Hz' & _). fold (zlen hdr). apply zlen_sub; [lia..|]. rewrite Hz'. lia.
    + unfold hdr_is, le_at in *. by rewrite !Hlo by lia.
    + simpl. lia.
    + lia.
    + by rewrite (nlmsg_append_refcnt _ _ _ _ _ _ Happ).
  - rewrite (nlmsg_append_full m hdr) by (done || lia). exec_simpl. change (- NLE_NOMEM <? 0) with true. cbv iota.
    unfold nla_put_failure. rewrite nlmsg_free_last by done. exec_simpl.
    eexists. split; [done|]. right. split; [done|]. split; [lia|done].
Qed.

Lemma nla_put_refcnt m t n d e m' : nla_put m t n d = Done (e, m') -> nm_refcnt m' = nm_refcnt m.
Proof.
  unfold nla_put, nla_reserve. destruct (n <? 0); exec_simpl; [by intros <-%done_pair|].
  destruct (nlmsg_len _ _); try done. exec_simpl. destruct (nm_size m <? _); exec_simpl; [by intros <-%done_pair|].
  destruct (nlmsg_tail _ _); try done. exec_simpl. destruct (put_u16 _ _ _); try done. exec_simpl.
  destruct (put_u16 _ _ _); try done. exec_simpl.
  match goal with |- mbind _ (mbind _ ?x) = _ -> _ => destruct x end; try done. exec_simpl.
  destruct (set_nlmsg_len _ _ _); try done. exec_simpl. destruct (0 <? n); [|by intros <-%done_pair].
  destruct (load _ _ _); try done. exec_simpl. destruct (store _ _ _); try done. exec_simpl. by intros <-%done_pair.
Qed.

Lemma total_room_app l k : total_room (l ++ k) = total_room l + total_room k.
Proof. induction l as [|a l IH]; simpl; [done|lia]. Qed.

Lemma put_done m size type flags hdr l t d :
  built m size type flags hdr l -> attr_fits (t, d) ->
  exists r, NLA_PUT t (zlen d) d m = Done r /\
    match r with
    | inl e => size < msg_len m + attr_room (t, d) /\ e = - NLE_MSGSIZE
    | inr m' => msg_len m + attr_room (t, d) <= size /\ built m' size type flags hdr (l ++ [(t, d)])
    end.
Proof.
  intros Hb Hf. pose proof Hb as [Hh Hhd Hnh Hl Hs Hr]. pose proof Hf as (_ & _ & Hdl). cbn [fst snd] in *.
  pose proof (zlen_nonneg d). pose proof (align4_bounds (zlen hdr)). pose proof (zlen_nonneg hdr). pose proof (total_room_nonneg l).
  unfold NLA_PUT. destruct (Z_le_gt_dec (msg_len m + attr_room (t, d)) size) as [Hfit|Hfull].
  - destruct (holds_put m _ l (t, d) Hh Hf) as (m' & Hput & Hh' & Hl' & Hs' & Hlo); [lia|].
    cbn [fst snd] in Hput. rewrite Hput. exec_simpl. change (0 <? 0) with false. cbv iota. eexists. split; [done|].
    split; [done|]. split.
    + done.
    + rewrite <- Hhd at 2. apply Hlo; lia.
    + unfold hdr_is in *. rewrite !(same_bytes_le_at _ _ _ _ _ _ Hlo) by lia. done.
    + rewrite Hl', Hl, total_room_app. simpl. lia.
    + lia.
    + by rewrite (nla_put_refcnt _ _ _ _ _ _ Hput).
  - rewrite nla_put_full.
    + exec_simpl. change (- NLE_NOMEM <? 0) with true. cbv iota.
      unfold nla_put_failure. rewrite nlmsg_free_last by done. exec_simpl.
      eexists. split; [done|]. split; [lia|done].
    + by destruct Hh.
    + lia.
    + unfold msg_tail. rewrite align4_id by (by destruct Hh as (_ & ? & _)). unfold attr_room in Hfull. simpl in Hfull. lia.
Qed.

Lemma put_fields_done fields : forall m size type flags hdr l,
  built m size type flags hdr l -> Forall attr_fits (enc fields) ->
  exists r, put_fields fields m = Done r /\
    match r with
    | inl e => size < msg_len m + total_room (enc fields) /\ e = - NLE_MSGSIZE
    | inr m' => msg_len m + total_room (enc fields) <= size /\ built m' size type flags hdr (l ++ enc fields)
    end.
Proof.
  induction fields as [|[t [d|]] fields IH]; intros m size type flags hdr l Hb Hf.
  - exists (inr m). split; [done|]. rewrite app_nil_r. split; [|done]. simpl. destruct Hb as [(Hw & _) _ _ _ Hs _].
    by pose proof (proj1 (proj2 (proj2 Hw))); lia.
  - change (enc ((t, Some d) :: fields)) with ((t, d) :: enc fields) in *.
    apply Forall_cons in Hf as [Ha Hf]. pose proof (total_room_nonneg (enc fields)).
    cbn [put_fields]. unfold put_field at 1. cbn [fst snd]. unfold run_or.
    destruct (put_done m size type flags hdr l t d Hb Ha) as ([e|m'] & Hput & Hr); rewrite Hput; exec_simpl.
    + exists (inl e). split; [done|]. destruct Hr as [Hr ->]. split; [simpl; lia|done].
    + destruct Hr as [Hr Hb']. destruct (IH m' size type flags hdr _ Hb' Hf) as (r & Hrun & Hr').
      exists r. split; [done|]. rewrite <- app_assoc in Hr'. simpl in Hr'. simpl.
      rewrite (b_len _ _ _ _ _ _ Hb'), total_room_app in Hr'. simpl in Hr'.
      pose proof (b_len _ _ _ _ _ _ Hb) as Hbl.
      destruct r; destruct Hr' as [? ?]; (split; [lia|done]).
  - change (enc ((t, None) :: fields)) with (enc fields) in *. by apply IH.
Qed.

(** A builder that puts a list of fields. *)
Lemma build_done c1 c2 size type flags hdr fields :
  size < 2147483648 -> bytes_ok hdr -> zlen hdr < 1073741824 -> Forall attr_fits (enc fields) ->
  exists r, (m ←! start_msg c1 c2 size type flags hdr; put_fields fields m) = Done r /\
    build_result c1 c2 size type flags hdr (enc fields) r.
Proof.
  intros Hs Hd Hn Hf. destruct (start_msg_done c1 c2 size type flags hdr Hs Hd Hn) as ([e|m] & Hst & Hr);
    rewrite Hst; unfold run_or; exec_simpl; unfold build_result in *; cbn [total_room] in Hr.
  - exists (inl e). split; [done|]. pose proof (total_room_nonneg (enc fields)).
    destruct Hr as [?|(? & ? & ?)]; [by left|right]. split; [done|split; [lia|done]].
  - destruct Hr as (Hc & Hfit & Hb). destruct (put_fields_done fields m _ _ _ _ _ Hb Hf) as (r & Hrun & Hr).
    exists r. split; [done|]. pose proof (b_len _ _ _ _ _ _ Hb) as Hl. simpl in Hl.
    destruct r; destruct Hr as [? ?]; [right|]; (split; [done|split; [lia|done]]).
Qed.

(** ** Reading back what was built *)

Lemma built_field m size type flags hdr l k i :
  built m size type flags hdr l -> 0 <= i -> 0 <= k -> i + k <= zlen hdr ->
  le_at k (nm_nlh m) (16 + i) = le_at k hdr i.
Proof. intros Hb ???. apply region_le_at; [by apply (b_hdr _ _ _ _ _ _ Hb)|lia..]. Qed.

(** A field of the header. *)
Lemma built_get m size type flags hdr l i :
  built m size type flags hdr l -> 0 <= i ->
  (i + 1 <= zlen hdr -> get_u8 (nm_nlh m) (16 + i) = Done (le_at 1 hdr i)) /\
  (i + 2 <= zlen hdr -> get_u16 (nm_nlh m) (16 + i) = Done (le_at 2 hdr i)) /\
  (i + 4 <= zlen hdr -> get_u32 (nm_nlh m) (16 + i) = Done (le_at 4 hdr i)).
Proof.
  intros Hb Hi. pose proof Hb as [(Hw & _) _ _ Hl _ _]. destruct Hw as (Hz & _ & Hlm & _).
  pose proof (align4_bounds (zlen hdr)). pose proof (total_room_nonneg l).
  split_and!; intros ?; [rewrite get_u8_done by lia|rewrite get_u16_done by lia|rewrite get_u32_done by lia];
    f_equal; apply (built_field _ _ _ _ _ _ _ _ Hb); lia.
Qed.

(** Reads the header field at [i], which has the value [H] says. *)
Ltac hdr_get Hb i H :=
  let G1 := fresh in let G2 := fresh in let G3 := fresh in
  destruct (built_get _ _ _ _ _ _ i Hb) as (G1 & G2 & G3); [lia|];
  first [rewrite G1 by lia | rewrite G2 by lia | rewrite G3 by lia]; clear G1 G2 G3; rewrite H; exec_simpl.

Lemma built_parse m size type flags hdr l maxtype policy :
  built m size type flags hdr l -> zlen hdr < 1073741824 ->
  policy_opt_ok maxtype policy -> Forall (content_ok maxtype policy) l ->
  exists tb, nlmsg_parse (nm_nlh m) 0 (zlen hdr) maxtype policy = Done (0, tb) /\
    table (nm_nlh m) l maxtype tb.
Proof.
  intros Hb Hn Hp Hl. pose proof (zlen_nonneg hdr).
  by apply holds_parse; [apply Hb|lia|..].
Qed.

(** Entries of policies. *)
Definition pol_min (minlen : Z) : nla_policy := {| pol_type := 0; pol_minlen := minlen; pol_maxlen := 0 |}.
Definition pol_of (type : Z) : nla_policy := {| pol_type := type; pol_minlen := 0; pol_maxlen := 0 |}.

(** An attribute that may be missing, read by code that may fail. *)
Definition if_attr_or {A} (tb : list (option Z)) (i : Z) (f : Z -> A -> exec (Z + A)) (a : A)
    : exec (Z + A) :=
  o ← tb_at tb i; match o with Some nla => f nla a | None => ok a end.

Lemma table_or {A} b l maxtype tb t (f : Z -> A -> exec (Z + A)) (g : list Z -> A -> A) a :
  table b l maxtype tb -> 0 <= t <= maxtype ->
  (forall nla d, attr_of l t = Some d -> attr_at b nla d -> f nla a = ok (g d a)) ->
  if_attr_or tb t f a = ok (match attr_of l t with Some d => g d a | None => a end).
Proof.
  intros Htb Ht Hf. unfold if_attr_or. specialize (Htb t Ht). destruct (attr_of l t) as [d|].
  - destruct Htb as (nla & -> & Ha). exec_simpl. by apply Hf.
  - by rewrite Htb.
Qed.

Lemma table_or_skip {A} b l maxtype tb t (f : Z -> A -> exec (Z + A)) a :
  table b l maxtype tb -> 0 <= t <= maxtype -> attr_of l t = None -> if_attr_or tb t f a = ok a.
Proof. intros Htb Ht Hn. unfold if_attr_or. by rewrite (table_none _ _ _ _ t Htb). Qed.

(** Attributes that fill one member: [o] is the value sent, if any, encoded by
    [e]. *)
Section Fill.
Context {D T : Type}.
Variables (b : list Z) (l : list (Z * list Z)) (maxtype : Z) (tb : list (option Z)) (t : Z).
Variables (o : option T) (e : T -> list Z) (attr : Z) (f : T -> D -> D) (n : body D).
Hypothesis Htb : table b l maxtype tb.
Hypothesis Ht : 0 <= t <= maxtype.
Hypothesis Ho : attr_of l t = e <$> o.

Lemma table_fill (read : Z -> exec T) :
  (forall nla v, o = Some v -> attr_at b nla (e v) -> read nla = Done v) ->
  if_attr tb t (fun nla r => v ← read nla; mret (fill_attr r attr (f v))) n = Done (opt_fill o n attr f).
Proof.
  intros Hread. unfold if_attr. pose proof (Htb t Ht) as H. rewrite Ho in H. destruct o as [v|]; simpl in H.
  - destruct H as (nla & -> & Ha). exec_simpl. by rewrite (Hread nla v).
  - by rewrite H.
Qed.
Lemma table_or_fill (read : Z -> exec (Z + T)) :
  (forall nla v, o = Some v -> attr_at b nla (e v) -> read nla = ok v) ->
  if_attr_or tb t (fun nla r => v ←! read nla; ok (fill_attr r attr (f v))) n = ok (opt_fill o n attr f).
Proof.
  intros Hread. unfold if_attr_or. pose proof (Htb t Ht) as H. rewrite Ho in H. destruct o as [v|]; simpl in H.
  - destruct H as (nla & -> & Ha). exec_simpl. by rewrite (Hread nla v).
  - by rewrite H.
Qed.
End Fill.

(** Reading the members of a structure in an attribute. *)
Lemma attr_word b nla d i :
  attr_at b nla d -> 0 <= i -> i + 4 <= zlen d -> get_u32 b (nla_data nla + i) = Done (le_at 4 d i).
Proof.
  intros (_ & H0 & Hz & _ & Hd) Hi Hl. unfold nla_data, NLA_HDRLEN. rewrite get_u32_done by lia.
  by rewrite (region_le_at b (nla + 4) d) by (done || lia).
Qed.

(** nl_addr_alloc_attr: the address an attribute carries; [c]: whether calloc
    succeeds. *)
Definition addr_of_attr (b : list Z) (c : bool) (nla family : Z) : exec (Z + nl_addr) :=
  len ← nla_len b nla;
  d ← load b (nla_data nla) len;
  a ← nl_addr_alloc_attr c d family;
  match a with Some a => ok a | None => err NLE_NOMEM end.

(** The address made of bytes. *)
Definition addr_made (family : Z) (d : list Z) : nl_addr :=
  {| a_family := family; a_maxsize := u32 (zlen d); a_len := u32 (zlen d);
     a_prefixlen := if family =? AF_MPLS then 20 else s32 (zlen d * 8); a_refcnt := 1; a_addr := d |}.

Lemma addr_of_attr_done b nla d family :
  attr_at b nla d -> addr_of_attr b true nla family = ok (addr_made family d).
Proof.
  intros Ha. pose proof Ha as (_ & H0 & Hz & _ & Hd). pose proof (zlen_nonneg d). unfold addr_of_attr, nla_data, NLA_HDRLEN.
  rewrite (attr_at_len _ _ _ Ha). exec_simpl. rewrite load_done by lia. exec_simpl. rewrite Hd.
  unfold nl_addr_alloc_attr, nl_addr_build, nl_addr_alloc. cbn [negb]. rewrite load_done, sub_all by lia. done.
Qed.

Lemma addr_made_wf family d : zlen d < 2147483648 -> addr_wf (addr_made family d).
Proof. intros Hd. pose proof (zlen_nonneg d). split; simpl; rewrite u32_id by lia; lia. Qed.

Lemma addr_bytes_made family d : zlen d < 2147483648 -> addr_bytes (addr_made family d) = d.
Proof. intros Hd. pose proof (zlen_nonneg d). unfold addr_bytes. simpl. rewrite u32_id by lia. apply sub_all. Qed.

(** The string nla_strlcpy leaves in an array of [size] characters. *)
Definition attr_strlcpy (b : list Z) (nla size : Z) : exec (list Z) :=
  '(_, dst) ← nla_strlcpy b (zeros size) nla size;
  c_string dst.

Lemma attr_at_in b nla d : attr_at b nla d -> exists head len, 0 <= head /\ head + len <= zlen b /\ attr_in b head len nla.
Proof.
  intros (Hb & H0 & Hz & Hlen & _). pose proof (zlen_nonneg d). exists nla, (4 + zlen d).
  split; [lia|]. split; [lia|]. unfold attr_in. rewrite Hlen. lia.
Qed.

Lemma attr_strlcpy_done b nla s size :
  attr_at b nla (s ++ [0]) -> Forall (fun c => c <> 0) s -> zlen s < size ->
  attr_strlcpy b nla size = Done s.
Proof.
  intros Ha Hs Hl. pose proof (zlen_nonneg s). unfold attr_strlcpy.
  destruct (attr_at_in _ _ _ Ha) as (head & len & Hh & Hhl & Hin).
  pose proof Ha as (Hb & H0 & Hz & Hlen & Hd). rewrite zlen_app in *. change (zlen [0]) with 1 in *.
  rewrite (nla_strlcpy_done b (zeros size) nla head len size) by (try done; rewrite ?zlen_zeros by lia; lia).
  assert (str_len b nla = zlen s) as ->.
  { unfold str_len. rewrite Hlen. replace (4 + (zlen s + 1) - 4) with (zlen s + 1) by lia.
    rewrite (proj2 (Z.ltb_lt 0 _)) by lia. cbn [andb].
    assert (le_at 1 b (nla + 4 + (zlen s + 1 - 1)) = 0) as ->; [|simpl; lia].
    rewrite (region_le_at b (nla + 4) (s ++ [0])) by (rewrite ?zlen_app; change (zlen [0]) with 1; (done || lia)).
    unfold le_at. rewrite sub_app_r by lia. by replace (zlen s + 1 - 1 - zlen s) with 0 by lia. }
  exec_simpl. rewrite Z.min_l by lia.
  assert (sub b (nla + 4) (zlen s) = s) as ->.
  { rewrite <- (Z.add_0_r (nla + 4)), <- (sub_sub b (nla + 4) (zlen s + 1)) by lia. rewrite Hd.
    rewrite sub_app_l by lia. apply sub_all. }
  replace (zeros (size - zlen s)) with (0 :: zeros (size - zlen s - 1)).
  - by apply c_string_app.
  - unfold zeros. replace (Z.to_nat (size - zlen s)) with (S (Z.to_nat (size - zlen s - 1))) by lia. done.
Qed.

(** [nl_addr_cmp(a, b) != 0] where the addresses are what the library made. *)
Definition addr_differs (a b : option nl_addr) : bool :=
  match nl_addr_cmp a b with Done d => negb (d =? 0) | _ => true end.

Definition addr_opt_wf (o : option nl_addr) : Prop := from_option addr_wf True o.

Lemma addr_differs_same x y :
  addr_opt_wf x -> addr_opt_wf y -> addr_differs x y = false ->
  match x, y with None, None => True | Some a, Some b => addr_same a b | _, _ => False end.
Proof.
  intros Hx Hy. unfold addr_differs. destruct x as [a|], y as [b|]; try done.
  rewrite nl_addr_cmp_done by done. intros H. apply addr_diff_zero; [done..|]. bool_hyps. done.
Qed.

(** ** What parsers keep *)

Lemma if_attr_keeps {A} (P : A -> Prop) tb i f a a' :
  (forall nla a a', P a -> f nla a = Done a' -> P a') -> P a -> if_attr tb i f a = Done a' -> P a'.
Proof.
  intros Hf Ha. unfold if_attr. destruct (tb_at tb i) as [[nla|]| | |]; try done; exec_simpl; [by apply Hf|].
  by intros [= <-].
Qed.
Lemma if_attr_or_keeps {A} (P : A -> Prop) tb i f a a' :
  (forall nla a a', P a -> f nla a = Done (inr a') -> P a') -> P a ->
  if_attr_or tb i f a = Done (inr a') -> P a'.
Proof.
  intros Hf Ha. unfold if_attr_or. destruct (tb_at tb i) as [[nla|]| | |]; try done; exec_simpl; [by apply Hf|].
  by intros [= <-].
Qed.
Lemma bind_inv {A B} (m : exec A) (k : A -> exec B) b : (x ← m; k x) = Done b -> exists x, m = Done x /\ k x = Done b.
Proof. destruct m as [x| | |]; try done. by exists x. Qed.
Lemma run_or_inv {A B} (m : exec (Z + A)) (k : A -> exec (Z + B)) b :
  (x ←! m; k x) = Done (inr b) -> exists x, m = Done (inr x) /\ k x = Done (inr b).
Proof. unfold run_or. destruct m as [[e|x]| | |]; try done. by exists x. Qed.

Lemma load_inv b off n d : bytes_ok b -> load b off n = Done d -> bytes_ok d /\ zlen d = n.
Proof.
  unfold load, in_bounds. intros Hb. case_test; [|done]. bool_hyps. intros [= <-].
  split; [by apply bytes_ok_sub|by apply zlen_sub].
Qed.
Lemma get_u8_range b off v : bytes_ok b -> get_u8 b off = Done v -> 0 <= v < 2 ^ 8.
Proof.
  intros Hb. unfold get_u8. destruct (load b off 1) as [d| | |] eqn:E; try done. intros [= <-].
  apply load_inv in E as [Hd Hz]; [|done]. pose proof (le_decode_range d Hd) as H. by rewrite Hz in H.
Qed.
Lemma get_u16_range b off v : bytes_ok b -> get_u16 b off = Done v -> 0 <= v < 2 ^ 16.
Proof.
  intros Hb. unfold get_u16. destruct (load b off 2) as [d| | |] eqn:E; try done. intros [= <-].
  apply load_inv in E as [Hd Hz]; [|done]. pose proof (le_decode_range d Hd) as H. by rewrite Hz in H.
Qed.
Lemma get_u32_range b off v : bytes_ok b -> get_u32 b off = Done v -> 0 <= v < 2 ^ 32.
Proof.
  intros Hb. unfold get_u32. destruct (load b off 4) as [d| | |] eqn:E; try done. intros [= <-].
  apply load_inv in E as [Hd Hz]; [|done]. pose proof (le_decode_range d Hd) as H. by rewrite Hz in H.
Qed.

(** ** Addresses that fit into an attribute *)

Definition addr_ok (a : nl_addr) : Prop :=
  addr_wf a /\ bytes_ok (addr_bytes a) /\ a_len a <= 65531.
Definition addr_opt_ok (o : option nl_addr) : Prop := from_option addr_ok True o.

Lemma addr_opt_ok_wf o : addr_opt_ok o -> addr_opt_wf o.
Proof. destruct o; [|done]. by intros (? & _). Qed.

Lemma addr_opt_some o a : addr_opt_ok o -> o = Some a -> addr_wf a.
Proof. intros Ho ->. by destruct Ho. Qed.

Lemma addr_made_ok family d : bytes_ok d -> zlen d <= 65531 -> addr_ok (addr_made family d).
Proof.
  intros Hd Hl. pose proof (zlen_nonneg d). split; [apply addr_made_wf; lia|].
  rewrite addr_bytes_made by lia. split; [done|]. simpl. rewrite u32_id by lia. lia.
Qed.

Lemma addr_of_attr_ok b c nla family a :
  bytes_ok b -> addr_of_attr b c nla family = Done (inr a) -> addr_ok a.
Proof.
  intros Hb. unfold addr_of_attr. intros (len & Hlen & H)%bind_inv. apply bind_inv in H as (d & Hd & H).
  apply load_inv in Hd as [Hd Hz]; [|done].
  unfold nla_len in Hlen. apply bind_inv in Hlen as (v & Hv & Hlen). apply get_u16_range in Hv; [|done].
  change (2 ^ 16) with 65536 in Hv. injection Hlen as <-.
  unfold NLA_HDRLEN in Hz.
  unfold nl_addr_alloc_attr, nl_addr_build, nl_addr_alloc in H. destruct c; [|done]. cbn [negb] in H.
  pose proof (zlen_nonneg d). rewrite load_done, sub_all in H by lia. injection H as <-. apply addr_made_ok; [done|lia].
Qed.

Lemma addr_family_ok a family : addr_ok a -> addr_ok (nl_addr_set_family a family).
Proof. done. Qed.

Lemma addr_field_fits (c : bool) o :
  addr_opt_ok o ->
  from_option (fun d => bytes_ok d /\ zlen d <= 65531) True (if c then addr_bytes <$> o else None).
Proof.
  intros Ho. destruct c; [|done]. destruct o as [a|]; [|done]. destruct Ho as ((Hl & Hz) & Hb & H2).
  simpl. split; [done|]. unfold addr_bytes. rewrite zlen_sub; lia.
Qed.

Lemma ex_addr_ok family bytes plen :
  forallb (fun x => (0 <=? x) && (x <? 256)) bytes = true -> zlen bytes <= 65531 -> addr_ok (ex_addr family bytes plen).
Proof.
  intros Hb Hl. pose proof (zlen_nonneg bytes). split; [split; simpl; lia|]. split; [|done].
  unfold addr_bytes. simpl. rewrite sub_all. by apply bytes_ok_dec.
Qed.

Lemma put_opt_field t o msg :
  addr_opt_ok o -> put_if (is_some o) (NLA_PUT_ADDR t o) msg = put_field (t, addr_bytes <$> o) msg.
Proof. intros Ho. rewrite put_addr_opt; [by destruct o|by destruct o|intros a; by apply addr_opt_some]. Qed.

Lemma opt_fits o : addr_opt_ok o -> from_option (fun d => bytes_ok d /\ zlen d <= 65531) True (addr_bytes <$> o).
Proof. apply (addr_field_fits true). Qed.

(** The address read back is the one sent. *)
Lemma addr_made_same family plen a :
  addr_ok a -> Addr.a_family a = family -> Addr.a_prefixlen a = plen ->
  addr_differs (Some a) (Some (nl_addr_set_prefixlen (addr_made family (addr_bytes a)) plen)) = false.
Proof.
  intros ((Hl & Hz) & Hb & H2) <- <-. unfold addr_differs.
  assert (zlen (addr_bytes a) = a_len a) as Hlen by (apply zlen_sub; lia).
  assert (addr_wf (nl_addr_set_prefixlen (addr_made (Addr.a_family a) (addr_bytes a)) (Addr.a_prefixlen a))) as Hw.
  { pose proof (addr_made_wf (Addr.a_family a) (addr_bytes a)) as H. apply H. lia. }
  rewrite nl_addr_cmp_done by done. apply negb_false_iff, Z.eqb_eq, addr_diff_zero; [done|done|].
  unfold addr_same. cbn. rewrite !Hlen, !u32_id by lia. split_and!; try done.
  rewrite <- Hlen at 2. by rewrite sub_all.
Qed.

Lemma set_made_prefixlen family d :
  zlen d <= 65531 -> family <> AF_MPLS ->
  nl_addr_set_prefixlen (addr_made family d) (8 * zlen d) = addr_made family d.
Proof.
  intros Hd Hf. pose proof (zlen_nonneg d). unfold nl_addr_set_prefixlen, addr_made. cbn.
  rewrite (proj2 (Z.eqb_neq _ _)) by done. rewrite s32_id by lia. by replace (8 * zlen d) with (zlen d * 8) by lia.
Qed.

(** The clone of an address, where there is one; [c]: whether calloc succeeds. *)
Definition clone_addr (c : bool) (a : option nl_addr) : option (option nl_addr) :=
  match a with
  | None => Some None
  | Some a => match nl_addr_clone c a with Done (Some a) => Some (Some a) | _ => None end
  end.

(** Storing the clone; without an address the member is left as it is. *)
Definition store_clone {D} (set : option nl_addr -> D -> D) (a : option nl_addr) (dst : D) : D :=
  match a with Some _ => set a dst | None => dst end.

Lemma clone_addr_ok c o o' : addr_opt_ok o -> clone_addr c o = Some o' -> addr_opt_ok o' /\ is_some o' = is_some o.
Proof.
  destruct o as [a|]; [|by intros _ [= <-]]. intros ((Hl & Hz) & Hb & H2). unfold clone_addr, nl_addr_clone, nl_addr_build, nl_addr_alloc.
  destruct c; [|done]. cbn [negb]. rewrite load_done by lia. exec_simpl. intros [= <-]. simpl.
  assert (zlen (sub (a_addr a) 0 (a_len a)) = a_len a) as Hs by (apply zlen_sub; lia).
  split; [|done]. unfold addr_ok, addr_wf, addr_bytes. simpl. rewrite u32_id by lia. unfold addr_bytes in Hb.
  split_and!; try lia. by rewrite sub_sub by lia.
Qed.

(** ** Sending a request

    The callbacks and system calls a socket works with, and which allocations
    succeed (see Nl): the copy of the callback set, received messages and their
    buffers. *)
Record net (W : Type) := {
  n_user : Z -> Z -> Z -> nl_msg -> W -> Z * W;
  n_user_err : Z -> Z -> sockaddr_nl -> list Z -> W -> Z * W;
  n_sendmsg : sockaddr_nl -> option ucred -> list Z -> W -> (Z + Z) * W;
  n_send_ow : Z -> nl_sock -> nl_msg -> W -> exec (Z * nl_sock * nl_msg * W);
  n_recvmsg : Z -> Z -> Z -> W -> (Z + rcv) * W;
  n_recv_ow : Z -> nl_sock -> W -> exec (recv_out * W);
  n_recvmsgs_ow : Z -> nl_sock -> nl_cb -> W -> exec (Z * rstate (W := W));
  n_rfuel : nat; n_fuel : nat; n_mem : recv_mem; n_page_size : Z;
  n_cb : bool; n_msg : bool; n_buf : bool;
  n_size : Z; n_getpid : Z; n_time : Z
}.
Arguments n_user {W} _.
Arguments n_user_err {W} _.
Arguments n_sendmsg {W} _.
Arguments n_send_ow {W} _.
Arguments n_recvmsg {W} _.
Arguments n_recv_ow {W} _.
Arguments n_recvmsgs_ow {W} _.
Arguments n_rfuel {W} _.
Arguments n_fuel {W} _.
Arguments n_mem {W} _.
Arguments n_page_size {W} _.
Arguments n_cb {W} _.
Arguments n_msg {W} _.
Arguments n_buf {W} _.
Arguments n_size {W} _.
Arguments n_getpid {W} _.
Arguments n_time {W} _.

Section Net.
Context {W : Type}.
Variable net_ : net W.

Definition net_send_auto (p : port_map) (sk : nl_sock) (msg : nl_msg) (w : W) :=
  nl_send_auto_complete (n_user net_) (n_sendmsg net_) (n_send_ow net_) p sk msg (n_getpid net_)
    (n_time net_) w.
Definition net_wait_for_ack (sk : nl_sock) (w : W) :=
  wait_for_ack (n_user net_) (n_user_err net_) (n_recvmsg net_) (n_recv_ow net_) (n_rfuel net_)
    (n_mem net_) (n_page_size net_) (n_recvmsgs_ow net_) (n_fuel net_) (n_cb net_) (n_msg net_)
    (n_buf net_) sk w.
Definition net_send_simple (p : port_map) (sk : nl_sock) (type flags : Z) (hdr : list Z) (w : W) :=
  nl_send_simple (n_user net_) (n_sendmsg net_) (n_send_ow net_) (n_msg net_) (n_buf net_)
    (n_size net_) p sk type flags (Some hdr) (zlen hdr) (n_getpid net_) (n_time net_) w.

Definition net_send_sync (p : port_map) (sk : nl_sock) (msg : nl_msg) (w : W) :=
  nl_send_sync (n_user net_) (n_user_err net_) (n_sendmsg net_) (n_send_ow net_) (n_recvmsg net_)
    (n_recv_ow net_) (n_rfuel net_) (n_mem net_) (n_page_size net_) (n_recvmsgs_ow net_) (n_fuel net_)
    (n_cb net_) (n_msg net_) (n_buf net_) p sk msg (n_getpid net_) (n_time net_) w.

(** A message is built, sent and given back, and its acknowledgement awaited. *)
Definition request_and_ack (build : exec (Z + nl_msg)) (p : port_map) (sk : nl_sock) (w : W)
    : exec (Z * nl_sock * port_map * W) :=
  r ← build;
  match r with
  | inl e => mret (e, sk, p, w)
  | inr msg =>
      '(e, sk, msg, p, w) ← net_send_auto p sk msg w;
      _ ← nlmsg_free (Some msg);
      if e <? 0 then mret (e, sk, p, w)
      else '(e, sk, w) ← net_wait_for_ack sk w; mret (e, sk, p, w)
  end.
End Net.
