(* ===== verification/Rtnl.v ===== *)
(** What the routing modules share: the generic request (lib/route/rtnl.c), the
    names of route types, scopes, tables, protocols and metrics (rtnl.c and
    lib/route/route_utils.c), and realms (include/netlink/route/rtnl.h). *)
From S2P Require Import Prelude Errors Msg CString Utils Addr Handlers Socket Nl Object Cache CacheDump Build.

Definition NETLINK_ROUTE := 0.
Definition AF_BRIDGE := 7.
Definition IFNAMSIZ := 16.
Definition RT_SCOPE_UNIVERSE := 0.
Definition RT_SCOPE_HOST := 254.
Definition RT_SCOPE_NOWHERE := 255.
Definition RT_SCOPE_LINK := 253.
Definition NLM_F_CREATE := 1024.
Definition NLM_F_REPLACE := 256.

(** struct rtgenmsg is one byte. *)
Definition nl_rtgen_request {W} (n : net W) (p : port_map) (sk : nl_sock) (type family flags : Z) (w : W)
    : exec (Z * nl_sock * port_map * W) :=
  '(e, sk, p, w) ← net_send_simple n p sk type flags [u8 family] w;
  mret (if 0 <=? e then 0 else e, sk, p, w).

(** ** Names *)

Definition rtntypes : list trans_tbl :=
  [Tr 0 "unspec"; Tr 1 "unicast"; Tr 2 "local"; Tr 3 "broadcast"; Tr 4 "anycast";
   Tr 5 "multicast"; Tr 6 "blackhole"; Tr 7 "unreachable"; Tr 8 "prohibit"; Tr 9 "throw";
   Tr 10 "nat"; Tr 11 "xresolve"].
Definition nl_rtntype2str type old size := __type2str type old size rtntypes.
Definition nl_str2rtntype name := __str2type name rtntypes.

Definition scopes : list trans_tbl :=
  [Tr 255 "nowhere"; Tr 254 "host"; Tr 253 "link"; Tr 200 "site"; Tr 0 "global"].
Definition rtnl_scope2str scope old size := __type2str scope old size scopes.
Definition rtnl_str2scope name := __str2type name scopes.

Definition route_metrices : list trans_tbl :=
  [Tr 0 "unspec"; Tr 1 "lock"; Tr 2 "mtu"; Tr 3 "window"; Tr 4 "rtt"; Tr 5 "rttvar";
   Tr 6 "ssthresh"; Tr 7 "cwnd"; Tr 8 "advmss"; Tr 9 "reordering"; Tr 10 "hoplimit";
   Tr 11 "initcwnd"; Tr 12 "features"].
Definition rtnl_route_metric2str metric old size := __type2str metric old size route_metrices.
Definition rtnl_route_str2metric name := __str2type name route_metrices.

Definition RTNL_REALM_FROM (realm : Z) : Z := Z.shiftr realm 16.
Definition RTNL_REALM_TO (realm : Z) : Z := Z.land realm 65535.
Definition RTNL_MAKE_REALM (from to : Z) : Z :=
  Z.land (Z.shiftl (RTNL_REALM_TO from) 16) (RTNL_REALM_TO to).
Definition rtnl_realms2str (realms : Z) (old : list Z) (size : Z) : list Z :=
  snprintf old size (print_u (RTNL_REALM_FROM realms) ++ str "/" ++ print_u (RTNL_REALM_TO realms)).

(** The lists of table and protocol names; [c]: whether the allocations
    succeed. *)
Definition add_routing_table_name (c : bool) (l : list trans_list) (id : Z) (name : list Z) :=
  __trans_list_add c c id name l.
Definition init_routing_table_names (c : bool) : list trans_list :=
  fold_left (fun l x => (add_routing_table_name c l x.1 x.2).2)
    [(0, str "unspec"); (252, str "compat"); (253, str "default"); (254, str "main");
     (255, str "local")] [].
Definition release_routing_table_names (l : list trans_list) : list trans_list := __trans_list_clear l.
Definition rtnl_route_read_table_names (c : bool) (file : Z + list Z) (l : list trans_list)
    : exec (Z * list trans_list) :=
  __nl_read_num_str_file file (add_routing_table_name c) (__trans_list_clear l).
Definition rtnl_route_table2str table old size (l : list trans_list) := __list_type2str table old size l.
Definition rtnl_route_str2table name (l : list trans_list) := __list_str2type name l.

Definition add_proto_name (c : bool) (l : list trans_list) (id : Z) (name : list Z) :=
  __trans_list_add c c id name l.
Definition init_proto_names (c : bool) : list trans_list :=
  fold_left (fun l x => (add_proto_name c l x.1 x.2).2)
    [(0, str "unspec"); (1, str "redirect"); (2, str "kernel"); (3, str "boot"); (4, str "static")] [].
Definition release_proto_names (l : list trans_list) : list trans_list := __trans_list_clear l.
Definition rtnl_route_read_protocol_names (c : bool) (file : Z + list Z) (l : list trans_list)
    : exec (Z * list trans_list) :=
  __nl_read_num_str_file file (add_proto_name c) (__trans_list_clear l).
Definition rtnl_route_proto2str proto old size (l : list trans_list) := __list_type2str proto old size l.
Definition rtnl_route_str2proto name (l : list trans_list) := __list_str2type name l.

(** ** Facts *)

Lemma route_tables_ok : forallb (tbl_ok 32) [rtntypes; scopes; route_metrices] = true.
Proof. by vm_compute. Qed.

(** Types, scopes and metrics read back. *)
Lemma route_names_roundtrip type old size :
  -2 ^ 31 <= type < 2 ^ 31 -> 32 <= size ->
  nl_str2rtntype (nl_rtntype2str type old size) = type /\
  rtnl_str2scope (rtnl_scope2str type old size) = type /\
  rtnl_route_str2metric (rtnl_route_metric2str type old size) = type.
Proof.
  intros Ht Hs. pose proof route_tables_ok as Hok. rewrite forallb_forall in Hok.
  split; [|split]; apply (str2type_type2str 32); try lia; apply Hok; simpl; tauto.
Qed.

(** The macro that makes realms joins the halves with "and". *)
Lemma make_realm_zero from to : RTNL_MAKE_REALM from to = 0.
Proof.
  unfold RTNL_MAKE_REALM, RTNL_REALM_TO. apply Z.bits_inj'. intros i Hi.
  rewrite Z.land_spec, Z.shiftl_spec, !Z.land_spec, Z.bits_0 by done.
  change 65535 with (Z.ones 16). rewrite !Z.testbit_ones by done.
  destruct (Z.ltb_spec i 16); [|by rewrite !andb_false_r].
  by rewrite Z.testbit_neg_r by lia.
Qed.

(** Names registered in a list are found again, the first of each number and of
    each name. *)
Lemma default_tables : forall t old size, t ∈ [0; 252; 253; 254; 255] -> 32 <= size ->
  (text ← rtnl_route_table2str t old size (init_routing_table_names true);
   rtnl_route_str2table text (init_routing_table_names true)) = Done t.
Proof.
  intros t old size Ht Hs. rewrite !elem_of_cons, elem_of_nil in Ht.
  destruct Ht as [->|[->|[->|[->|[->|[]]]]]]; cbn -[snprintf zlen]; (rewrite snprintf_fits; [done|]); vm_compute zlen; lia.
Qed.

(** ** Fields of requests *)

(** The name of an interface. *)
Definition byte_string (s : list Z) : Prop := Forall (fun c => 0 < c < 256) s /\ zlen s < IFNAMSIZ.

Lemma byte_string_nonzero s : byte_string s -> Forall (fun c => c <> 0) s.
Proof. intros [Hs _]. eapply Forall_impl; [exact Hs|]. simpl. lia. Qed.

Lemma put_string_ok c t s msg :
  byte_string s -> put_if c (NLA_PUT_STRING t s) msg = put_field (t, if c then Some (s ++ [0]) else None) msg.
Proof. intros [_ Hs]. apply put_string_field. unfold IFNAMSIZ in Hs. lia. Qed.

Lemma string_fits (c : bool) s :
  byte_string s -> from_option (fun d => bytes_ok d /\ zlen d <= 65531) True (if c then Some (s ++ [0]) else None).
Proof.
  intros [Hb Hl]. destruct c; [|done]. simpl. rewrite bytes_ok_app, zlen_app. unfold IFNAMSIZ in Hl.
  change (zlen [0]) with 1. split; [|lia]. split; [|apply Forall_cons_2; [lia|apply Forall_nil_2]].
  eapply Forall_impl; [exact Hb|]. simpl. lia.
Qed.

(** ** Caches of the routing modules

    What filling a cache of objects works with: callbacks and system calls, the
    callbacks of the application, how often an interrupted dump is repeated, and
    the three allocations of the cache. *)
Record filling (D V : Type) := {
  f_net : net (world (list change * heap D) V);
  f_app : Z -> Z -> Z -> nl_msg -> V -> Z * V;
  f_app_err : Z -> Z -> sockaddr_nl -> list Z -> V -> Z * V;
  f_tries : nat; f_a1 : bool; f_a2 : bool; f_a3 : bool
}.
Arguments f_net {D V} _.
Arguments f_app {D V} _.
Arguments f_app_err {D V} _.
Arguments f_tries {D V} _.
Arguments f_a1 {D V} _.
Arguments f_a2 {D V} _.
Arguments f_a3 {D V} _.

Section Filling.
Context {D V : Type}.
Variable f : filling D V.
Variable ops_at : Z -> nl_object_ops D.
Variable cops_at : Z -> nl_cache_ops.
Variable zero : D.
Variable request : Z -> option (request_t (D := D) (V := V)).
Variable parser : Z -> parser_t (D := D).
Abbreviation W := (world (list change * heap D) V).

Definition cache_fill (ops : Z) (sk : option nl_sock) (p : port_map) (w : W)
    : exec (Z * option Z * option nl_sock * port_map * W) :=
  let n := f_net f in
  nl_cache_alloc_and_fill ops_at cops_at zero (f_app f) (f_app_err f) (n_recvmsg n) (n_recv_ow n)
    (n_recvmsgs_ow n) (n_rfuel n) (n_mem n) (n_page_size n) (n_fuel n) (n_msg n) (n_buf n) request parser
    (f_tries f) (f_a1 f) (f_a2 f) (f_a3 f) (n_cb n) ops sk p w.

Definition cache_refill (sk : nl_sock) (p : port_map) (c : Z) (w : W)
    : exec (Z * nl_sock * port_map * W) :=
  let n := f_net f in
  nl_cache_refill ops_at cops_at zero (f_app f) (f_app_err f) (n_recvmsg n) (n_recv_ow n)
    (n_recvmsgs_ow n) (n_rfuel n) (n_mem n) (n_page_size n) (n_fuel n) (n_msg n) (n_buf n) request parser
    (f_tries f) (n_cb n) sk p c w.

(** A cache with [init] done to it, then filled when there is a socket; [free]:
    what becomes of it when that fails. *)
Definition cache_init_fill (init : nl_cache -> nl_cache) (free : heap D -> Z -> exec (heap D)) (ops : Z)
    (sk : option nl_sock) (p : port_map) (w : W)
    : exec (Z * option Z * option nl_sock * port_map * W) :=
  s ← w_lib w;
  let '(cache, h) := nl_cache_alloc ops_at cops_at (f_a1 f) (f_a2 f) (f_a3 f) s.2 ops in
  match cache with
  | None => mret (- NLE_NOMEM, None, sk, p, World (Done (s.1, h)) (w_out w))
  | Some c =>
      x ← get_cache h c;
      let w := World (Done (s.1, put_cache h c (init x))) (w_out w) in
      match sk with
      | None => mret (0, Some c, None, p, w)
      | Some sk =>
          '(e, sk, p, w) ← cache_refill sk p c w;
          if e <? 0 then
            s ← w_lib w;
            h ← free s.2 c;
            mret (e, None, Some sk, p, World (Done (s.1, h)) (w_out w))
          else mret (0, Some c, Some sk, p, w)
      end
  end.
End Filling.
