(* ===== verification/CacheMngr.v ===== *)
(** The cache manager (lib/cache_mngr.c): caches kept up to date by the
    notifications of the kernel. *)
From S2P Require Import Prelude Errors Msg Attr Handlers Socket Nl NlList Object Cache CacheInv CacheOps CacheSpec CacheLife CacheSync CacheOwn CacheProps CacheMngt CacheDump Build Rtnl.

Definition NASSOC_INIT := 16.
Definition NASSOC_EXPAND := 8.
Definition NL_AUTO_PROVIDE := 1.
Definition NL_ALLOCATED_SOCK := 2.

(** ** Data

    Change functions are numbers, 0 where there is none. *)
Record nl_cache_assoc := {
  ca_cache : option Z;
  ca_change : Z;
  ca_change_v2 : Z;
  ca_change_data : Z
}.
#[export] Instance eta_assoc : Eta nl_cache_assoc := fun a =>
  {| ca_cache := ca_cache a; ca_change := ca_change a; ca_change_v2 := ca_change_v2 a;
     ca_change_data := ca_change_data a |}.
Definition assoc_0 : nl_cache_assoc := {| ca_cache := None; ca_change := 0; ca_change_v2 := 0; ca_change_data := 0 |}.

(** A pointer to a socket of the manager. *)
Inductive sock_ptr := NoSock | Sock (sk : nl_sock) | Freed.

(** [cm_assocs]: the array; [None] the null pointer. *)
Record nl_cache_mngr := {
  cm_protocol : Z;
  cm_flags : Z;
  cm_nassocs : Z;
  cm_sock : sock_ptr;
  cm_sync_sock : sock_ptr;
  cm_assocs : option (list nl_cache_assoc)
}.
#[export] Instance eta_mngr : Eta nl_cache_mngr := fun m =>
  {| cm_protocol := cm_protocol m; cm_flags := cm_flags m; cm_nassocs := cm_nassocs m; cm_sock := cm_sock m;
     cm_sync_sock := cm_sync_sock m; cm_assocs := cm_assocs m |}.

Definition live (s : sock_ptr) : exec nl_sock := match s with Sock sk => mret sk | _ => Fault end.
(** The entries up to [cm_nassocs]. *)
Definition assocs (m : nl_cache_mngr) : exec (list nl_cache_assoc) :=
  match cm_assocs m with
  | Some l => if cm_nassocs m <=? zlen l then mret (take (Z.to_nat (cm_nassocs m)) l) else Fault
  | None => if 0 <? cm_nassocs m then Fault else mret []
  end.
Definition set_assoc (m : nl_cache_mngr) (i : nat) (a : nl_cache_assoc) : nl_cache_mngr :=
  m <| cm_assocs := <[i := a]> <$> cm_assocs m |>.

(** The index of the first entry that [f] holds for. *)
Fixpoint first_assoc (f : nl_cache_assoc -> exec bool) (l : list nl_cache_assoc) (i : nat) : exec (option nat) :=
  match l with
  | [] => mret None
  | a :: l => b ← f a; if b : bool then mret (Some i) else first_assoc f l (S i)
  end.
Definition free_assoc (a : nl_cache_assoc) : exec bool := mret (negb (is_some (ca_cache a))).
Definition assoc_is (c : Z) (a : nl_cache_assoc) : exec bool := mret (bool_decide (ca_cache a = Some c)).

Section CacheMngr.
Context {D V : Type}.
Variable ops_at : Z -> nl_object_ops D.
Variable cops_at : Z -> nl_cache_ops.
Variable zero : D.
Implicit Types (h : heap D) (c o : Z).

(** ** Notifications *)

(** co_event_filter and co_include_event of the types of caches. *)
Variable co_event_filter : Z -> option (nl_cache -> nl_object D -> Z).
Variable co_include_event : Z -> option (Z -> nl_cache_assoc -> pp_cb_t (D := D)).
Variable co_msg_parser : Z -> parser_t (D := D).
(** The allocations while an object is included. *)
Variable c1 c2 : bool.

Definition include_cb (ca : nl_cache_assoc) : pp_cb_t := fun h o =>
  match ca_cache ca with
  | None => Fault
  | Some c =>
      x ← get_cache h c;
      obj ← get_obj h o;
      let include :=
        match co_include_event (c_ops x) with
        | Some f => f c ca h o
        | None =>
            if negb (ca_change_v2 ca =? 0) then nl_cache_include_v2 ops_at cops_at zero c1 c2 h c o true
            else nl_cache_include ops_at cops_at zero c1 c2 h c o (negb (ca_change ca =? 0))
        end in
      match co_event_filter (c_ops x) with
      | Some f => if negb (f x obj =? NL_OK) then mret (0, [], h) else include
      | None => include
      end
  end.

(** Whether the cache of an entry takes messages of a type. *)
Definition takes (h : heap D) (type : Z) (a : nl_cache_assoc) : exec bool :=
  match ca_cache a with
  | None => mret false
  | Some c => x ← get_cache h c; mret (is_some (find_msgtype (co_msgtypes (cops_at (c_ops x))) type))
  end.

(** The state: what the change functions have been told, by which entry, and the
    heap. *)
Abbreviation state := (list (nl_cache_assoc * change) * heap D)%type.
Definition event_input (m : nl_cache_mngr) (msg : nl_msg) (s : state) : exec (Z * state) :=
  type ← nlmsg_type (nm_nlh msg) 0;
  if negb (cm_protocol m =? nm_protocol msg) then Bug
  else
    l ← assocs m;
    i ← first_assoc (takes s.2 type) l 0;
    match i with
    | None => mret (NL_SKIP, s)
    | Some i =>
        let ca := nth i l assoc_0 in
        match ca_cache ca with
        | None => Fault
        | Some c =>
            x ← get_cache s.2 c;
            '(err, ev, h) ← nl_cache_parse (cops_at (c_ops x)) (co_msg_parser (c_ops x)) None (nm_nlh msg)
                              (include_cb ca) s.2;
            mret (err, (s.1 ++ map (pair ca) ev, h))
        end
    end.

(** What is registered for valid messages while the socket is read. *)
Variable app : Z -> Z -> Z -> nl_msg -> V -> Z * V.
Variable app_err : Z -> Z -> sockaddr_nl -> list Z -> V -> Z * V.
Abbreviation EW := (world (list (nl_cache_assoc * change) * heap D) V).
Variable recvmsg : Z -> Z -> Z -> EW -> (Z + rcv) * EW.
Variable recv_ow : Z -> nl_sock -> EW -> exec (recv_out * EW).
Variable recvmsgs_ow : Z -> nl_sock -> nl_cb -> EW -> exec (Z * rstate (W := EW)).
Variable rfuel : nat.
Variable mem : recv_mem.
Variable page_size : Z.
Variable fuel : nat.
Variable m1 m2 : bool.     (* the allocations for a message *)

Definition no_err (_ : list Z) (s : state) : exec (Z * state) := mret (NL_STOP, s).

(** [while ((err = nl_recvmsgs_report(...)) > 0) nread += err;].  Every round takes
    a datagram; how many there are is up to the kernel. *)
Fixpoint read_events (rounds : nat) (m : nl_cache_mngr) (sk : nl_sock) (cb : nl_cb) (nread : Z) (w : EW)
    : exec (Z * Z * nl_sock * nl_cb * EW) :=
  match rounds with
  | O => NoFuel
  | S rounds =>
      '(err, st) ← nl_recvmsgs_report (lib_user (event_input m) app) (lib_user_err no_err app_err) recvmsg
                     recv_ow rfuel mem page_size recvmsgs_ow fuel m1 m2 sk cb w;
      if 0 <? err then read_events rounds m (r_sk st) (r_cb st) (s32 (nread + err)) (r_w st)
      else mret (err, nread, r_sk st, r_cb st, r_w st)
  end.

(** [c]: whether the callback set can be cloned. *)
Definition nl_cache_mngr_data_ready (c : bool) (rounds : nat) (m : nl_cache_mngr) (w : EW)
    : exec (Z * nl_cache_mngr * EW) :=
  sk ← live (cm_sock m);
  match nl_cb_clone c (s_cb sk) with
  | None => mret (- NLE_NOMEM, m, w)
  | Some cb =>
      let cb := (nl_cb_set cb NL_CB_VALID NL_CB_CUSTOM (Some (msg_cb_user own_cb)) 0).2 in
      '(err, nread, sk, cb, w) ← read_events rounds m sk cb 0 w;
      _ ← nl_cb_put (Some cb);
      _ ← w_lib w;
      let m := m <| cm_sock := Sock sk |> in
      mret (if (err <? 0) && negb (err =? - NLE_AGAIN) then err else nread, m, w)
  end.

Definition nl_cache_mngr_get_fd (m : nl_cache_mngr) : exec Z := sk ← live (cm_sock m); mret (nl_socket_get_fd sk).

(** [poll]: poll(2), an error or the number of sockets that are ready. *)
Definition nl_cache_mngr_poll (c : bool) (rounds : nat) (poll : Z -> Z -> EW -> (Z + Z) * EW) (m : nl_cache_mngr)
    (timeout : Z) (w : EW) : exec (Z * nl_cache_mngr * EW) :=
  fd ← nl_cache_mngr_get_fd m;
  match poll fd timeout w with
  | (inl errno, w) => mret (- nl_syserr2nlerr errno, m, w)
  | (inr ret, w) => if ret =? 0 then mret (0, m, w) else nl_cache_mngr_data_ready c rounds m w
  end.
End CacheMngr.

(** ** Setting up *)

(** The allocations and system calls of [nl_cache_mngr_alloc]: the manager, its
    array, the sockets (and the time), connecting them, and fcntl. *)
Record mngr_sys := {
  ms_mngr : bool;
  ms_assocs : bool;
  ms_sock : bool * bool * Z;
  ms_sync : bool * bool * Z;
  ms_connect : connect_sys;
  ms_connect_sync : connect_sys;
  ms_fcntl : option Z
}.

Section Setup.
Context {D : Type}.
Variable ops_at : Z -> nl_object_ops D.

(** Releasing a socket: [fst] of the result of nl_close is the system call. *)
Definition free_sock (p : port_map) (sk : nl_sock) : exec port_map :=
  '(_, _, p) ← nl_socket_free p (Some sk); mret p.

Fixpoint free_caches (l : list nl_cache_assoc) (g : mngt) (h : heap D) : exec (mngt * heap D) :=
  match l with
  | [] => mret (g, h)
  | a :: l =>
      '(g, h) ← (match ca_cache a with
                 | None => mret (g, h)
                 | Some c =>
                     '(g, h) ← nl_cache_mngt_unprovide ops_at g h c;
                     h ← nl_cache_free ops_at h (Some c);
                     mret (g, h)
                 end);
      free_caches l g h
  end.

(** The socket of the application, closed, where it has one. *)
Definition nl_cache_mngr_free (m : nl_cache_mngr) (p : port_map) (g : mngt) (h : heap D)
    : exec (option nl_sock * port_map * mngt * heap D) :=
  sock ← (match cm_sock m with
          | NoSock => mret None
          | s => sk ← live s; mret (Some (nl_close sk).2)
          end);
  p ← (match cm_sync_sock m with
       | NoSock => mret p
       | s => sk ← live s; free_sock p (nl_close sk).2
       end);
  '(sock, p) ← (if has_flag (cm_flags m) NL_ALLOCATED_SOCK
                then match sock with
                     | Some sk => p ← free_sock p sk; mret (None, p)
                     | None => mret (None, p)
                     end
                else mret (sock, p));
  l ← assocs m;
  '(g, h) ← free_caches l g h;
  mret (sock, p, g, h).

(** The error, with what is left of the application's socket; or the manager. *)
Definition nl_cache_mngr_alloc (sys : mngr_sys) (default_cb : Z) (sk : option nl_sock) (protocol flags : Z)
    (p : port_map) (g : mngt) (h : heap D)
    : exec (Z * option nl_sock * option nl_cache_mngr * port_map * mngt * heap D) :=
  let errout err m p :=
    '(sock, p, g, h) ← nl_cache_mngr_free m p g h; mret (err, sock, None, p, g, h) in
  if has_flag flags NL_ALLOCATED_SOCK then Bug
  else if negb (ms_mngr sys) then mret (- NLE_NOMEM, sk, None, p, g, h)
  else
    let m := {| cm_protocol := 0; cm_flags := 0; cm_nassocs := 0; cm_sock := NoSock; cm_sync_sock := NoSock;
                cm_assocs := None |} in
    '(sk, flags) ← (match sk with
                    | Some sk => mret (Some sk, flags)
                    | None => let '(a1, a2, t) := ms_sock sys in
                              sk ← nl_socket_alloc a1 a2 default_cb t; mret (sk, set_flag flags NL_ALLOCATED_SOCK)
                    end);
    match sk with
    | None => errout (- NLE_NOMEM) m p
    | Some sk =>
        let m := m <| cm_sock := Sock sk |> <| cm_nassocs := NASSOC_INIT |> <| cm_protocol := protocol |>
                   <| cm_flags := flags |>
                   <| cm_assocs := if ms_assocs sys then Some (repeat assoc_0 16) else @None (list nl_cache_assoc) |> in
        if negb (ms_assocs sys) then errout (- NLE_NOMEM) m p
        else
          '(err, sk, p) ← nl_connect p (nl_socket_disable_seq_check sk) protocol (ms_connect sys);
          let m := m <| cm_sock := Sock sk |> in
          if err <? 0 then errout err m p
          else
            let err := nl_socket_set_nonblocking sk (ms_fcntl sys) in
            if err <? 0 then errout err m p
            else
              let '(a1, a2, t) := ms_sync sys in
              sync ← nl_socket_alloc a1 a2 default_cb t;
              match sync with
              | None => errout (- NLE_NOMEM) m p
              | Some sync =>
                  '(err, sync, p) ← nl_connect p sync protocol (ms_connect_sync sys);
                  if err <? 0 then
                    p ← free_sock p sync;
                    errout err (m <| cm_sync_sock := Freed |>) p
                  else mret (0, None, Some (m <| cm_sync_sock := Sock sync |>), p, g, h)
              end
    end.
End Setup.

(** ** Adding caches *)

Section Adding.
Context {D V : Type}.
Variable f : filling D V.
Variable ops_at : Z -> nl_object_ops D.
Variable cops_at : Z -> nl_cache_ops.
Variable zero : D.
Variable request : Z -> option (request_t (D := D) (V := V)).
Variable parser : Z -> parser_t (D := D).
Abbreviation W := (world (list change * heap D) V).
Implicit Types (c : Z).

Definition lib_of (w : W) : exec (list change * heap D) := w_lib w.
Definition heap_of (w : W) : exec (heap D) := s ← lib_of w; mret s.2.

Definition nl_cache_mngr_set_change_func_v2 (m : nl_cache_mngr) (h : heap D) c (cb data : Z)
    : exec (Z * nl_cache_mngr) :=
  x ← get_cache h c;
  if c_ops x =? 0 then mret (- NLE_INVAL, m)
  else if negb (co_protocol (cops_at (c_ops x)) =? cm_protocol m) then mret (- NLE_PROTO_MISMATCH, m)
  else if negb (is_some (co_groups (cops_at (c_ops x)))) then mret (- NLE_OPNOTSUPP, m)
  else
    l ← assocs m;
    i ← first_assoc (assoc_is c) l 0;
    match i with
    | None => mret (- NLE_RANGE, m)
    | Some i => mret (0, set_assoc m i (nth i l assoc_0 <| ca_change_v2 := cb |> <| ca_change_data := data |>))
    end.

(** Joining the groups up to the first that fails. *)
Fixpoint join_groups (sk : nl_sock) (setsockopt : Z -> option Z) (groups : list nl_af_group) : Z :=
  match groups with
  | [] => 0
  | grp :: groups =>
      let err := nl_socket_add_membership sk setsockopt (ag_group grp) in
      if err <? 0 then err else join_groups sk setsockopt groups
  end.

(** Whether an entry has a cache of the kind [ops]. *)
Definition same_ops (h : heap D) (ops : Z) (a : nl_cache_assoc) : exec bool :=
  match ca_cache a with
  | None => mret false
  | Some c => x ← get_cache h c; mret (c_ops x =? ops)
  end.

Definition assoc_with (a : nl_cache_assoc) c (cb data : Z) : nl_cache_assoc :=
  a <| ca_cache := Some c |> <| ca_change := cb |> <| ca_change_data := data |>.

(** The cache goes into entry [i] once it has been filled.  Where that fails the groups
    are left again, whatever that gives. *)
Definition fill_entry (m : nl_cache_mngr) (g : mngt) (i : nat) c (cb data : Z) (p : port_map) (w : W)
    : exec (Z * nl_cache_mngr * mngt * port_map * W) :=
  sync ← live (cm_sync_sock m);
  '(err, sync, p, w) ← cache_refill f ops_at cops_at zero request parser sync p c w;
  let m := m <| cm_sync_sock := Sock sync |> in
  if (err : Z) <? 0 then mret (err, m, g, p, w)
  else
    let a := nth i (default [] (cm_assocs m)) assoc_0 in
    let m := set_assoc m i (assoc_with a c cb data) in
    if has_flag (cm_flags m) NL_AUTO_PROVIDE then
      s ← lib_of w;
      '(g, h) ← nl_cache_mngt_provide g s.2 c;
      mret (0, m, g, p, World (Done (s.1, h)) (w_out w))
    else mret (0, m, g, p, w).

(** The table, larger where no entry is free; [r]: whether realloc succeeds. *)
Definition make_room (r : bool) (m : nl_cache_mngr) (l : list nl_cache_assoc) (free : option nat) : option nl_cache_mngr :=
  match free with
  | Some _ => Some m
  | None => if r then Some (m <| cm_assocs := Some (l ++ repeat assoc_0 8) |>
                              <| cm_nassocs := cm_nassocs m + NASSOC_EXPAND |>)
            else None
  end.

(** [join]: setsockopt. *)
Definition nl_cache_mngr_add_cache (r : bool) (join : Z -> option Z) (m : nl_cache_mngr) (g : mngt) c (cb data : Z)
    (p : port_map) (w : W) : exec (Z * nl_cache_mngr * mngt * port_map * W) :=
  h ← heap_of w;
  x ← get_cache h c;
  let ops := cops_at (c_ops x) in
  if c_ops x =? 0 then mret (- NLE_INVAL, m, g, p, w)
  else if negb (co_protocol ops =? cm_protocol m) then mret (- NLE_PROTO_MISMATCH, m, g, p, w)
  else match co_groups ops with
  | None => mret (- NLE_OPNOTSUPP, m, g, p, w)
  | Some groups =>
      l ← assocs m;
      known ← first_assoc (same_ops h (c_ops x)) l 0;
      if is_some (known : option nat) then mret (- NLE_EXIST, m, g, p, w)
      else
        free ← first_assoc free_assoc l 0;
        match make_room r m l free with
        | None => mret (- NLE_NOMEM, m, g, p, w)
        | Some m =>
            sk ← live (cm_sock m);
            let err := join_groups sk join groups in
            if err <? 0 then mret (err, m, g, p, w)
            else fill_entry m g (default (length l) free) c cb data p w
        end
  end.

Definition nl_cache_mngr_add_cache_v2 (r : bool) (join : Z -> option Z) (m : nl_cache_mngr) (g : mngt) c (cb data : Z)
    (p : port_map) (w : W) : exec (Z * nl_cache_mngr * mngt * port_map * W) :=
  '(err, m, g, p, w) ← nl_cache_mngr_add_cache r join m g c 0 0 p w;
  if err <? 0 then mret (err, m, g, p, w)
  else
    s ← lib_of w;
    '(err, m) ← nl_cache_mngr_set_change_func_v2 m s.2 c cb data;
    mret (err, m, g, p, w).

(** [name]: the kind of cache.  The operations of a kind are found under the number
    its registration has. *)
Definition nl_cache_mngr_add (r : bool) (join : Z -> option Z) (m : nl_cache_mngr) (g : mngt) (name : list Z)
    (cb data : Z) (p : port_map) (w : W) : exec (Z * option Z * nl_cache_mngr * mngt * port_map * W) :=
  '(a, g) ← nl_cache_ops_lookup_safe g name;
  if a =? 0 then mret (- NLE_NOCACHE, None, m, g, p, w)
  else
    s ← lib_of w;
    let '(cache, h) := nl_cache_alloc ops_at cops_at (f_a1 f) (f_a2 f) (f_a3 f) s.2 a in
    g ← nl_cache_ops_put g a;
    let w := World (Done (s.1, h)) (w_out w) in
    match cache with
    | None => mret (- NLE_NOMEM, None, m, g, p, w)
    | Some c =>
        '(err, m, g, p, w) ← nl_cache_mngr_add_cache r join m g c cb data p w;
        if err <? 0 then
          s ← lib_of w;
          h ← nl_cache_free ops_at s.2 (Some c);
          mret (err, None, m, g, p, World (Done (s.1, h)) (w_out w))
        else mret (0, Some c, m, g, p, w)
    end.
End Adding.
