(* ===== verification/CacheMngrProps.v ===== *)
(** What the cache manager guarantees: notifications are read to the end and
    included one by one, and the table of caches stays sound. *)
From S2P Require Import Prelude Errors Msg Attr Handlers Socket Nl NlList Object Cache CacheInv CacheOps CacheSpec CacheLife CacheSync CacheOwn CacheProps CacheMngt CacheDump Build Rtnl CacheMngr.

(** ** What a notification does *)

Section EventProps.
Context {D : Type} {EV : Env D} {EK : EnvOk EV} (zero : D).
Variable parser : Z -> parser_t (D := D).
Variable c1 : bool.
Implicit Types (h : heap D) (c o : Z).

Abbreviation state := (list (nl_cache_assoc * change) * heap D)%type.
Abbreviation step := (event_input ops_at cops_at zero (fun _ => None) (fun _ => None) parser c1 true).

(** How the owner of an entry wants to hear of changes. *)
Definition wants (ca : nl_cache_assoc) : change_cb :=
  if negb (ca_change_v2 ca =? 0) then ChangeV2 else if negb (ca_change ca =? 0) then ChangeV1 else NoChange.

Lemma takes_views h h0 ty a : (forall c', cviews h c' = cviews h0 c') ->
  takes cops_at h ty a = takes cops_at h0 ty a.
Proof.
  intros Hv. unfold takes. destruct (ca_cache a) as [c|]; [|done]. specialize (Hv c). unfold cviews in Hv.
  unfold get_cache. destruct (h_caches h !! c) as [x|], (h_caches h0 !! c) as [x0|]; try done. exec_simpl.
  simpl in Hv. unfold cview in Hv. assert (c_ops x = c_ops x0) as -> by congruence. done.
Qed.

Lemma first_takes_views h h0 ty l : (forall c', cviews h c' = cviews h0 c') ->
  forall i, first_assoc (takes cops_at h ty) l i = first_assoc (takes cops_at h0 ty) l i.
Proof.
  intros Hv. induction l as [|a l IH]; intros i; [done|]. cbn [first_assoc].
  rewrite (takes_views h h0) by done. destruct (takes cops_at h0 ty a) as [[]| | |]; [done|apply IH|done..].
Qed.

(** A notification for the entries [l] of caches as in [h]: a message none of them
    takes, or one the first that does can read. *)
Definition notification (l : list nl_cache_assoc) h (b : list Z) : Prop :=
  16 <= zlen b /\ exists ty r, nlmsg_type b 0 = Done ty /\ first_assoc (takes cops_at h ty) l 0 = Done r /\
  match r with
  | None => True
  | Some i => exists c x t bd, ca_cache (nth i l assoc_0) = Some c /\ h_caches h !! c = Some x /\
      nlmsg_valid_hdr b 0 (co_hdrsize (cops_at (c_ops x))) = Done true /\
      find_msgtype (co_msgtypes (cops_at (c_ops x))) ty = Some t /\ (mt_act t = NL_ACT_NEW \/ mt_act t = NL_ACT_DEL) /\
      parses zero (parser (c_ops x)) (co_obj_ops (cops_at (c_ops x))) b bd
  end.

Lemma notification_views l h h0 b : (forall c', cviews h c' = cviews h0 c') ->
  notification l h0 b -> notification l h b.
Proof.
  intros Hv (Hb & ty & r & Hty & Hf & Hr). split; [done|]. exists ty, r. split; [done|].
  rewrite (first_takes_views h h0) by done. split; [done|].
  destruct r as [i|]; [|done]. destruct Hr as (c & x & t & bd & Hc & Hx & Hr).
  pose proof (Hv c) as Hvc. unfold cviews in Hvc. rewrite Hx in Hvc.
  destruct (h_caches h !! c) as [x'|] eqn:Hx'; [|done].
  simpl in Hvc. unfold cview in Hvc. assert (c_ops x' = c_ops x) as He by congruence.
  exists c, x', t, bd. by rewrite He.
Qed.

(** Including a freshly parsed object, through to the release by the parser. *)
Lemma parse_include h items ext c x ty t ca b bd :
  inv h items ext -> h_caches h !! c = Some x -> 16 <= zlen b -> nlmsg_type b 0 = Done ty ->
  ca_cache ca = Some c -> find_msgtype (co_msgtypes (cops_at (c_ops x))) ty = Some t ->
  mt_act t = NL_ACT_NEW \/ mt_act t = NL_ACT_DEL ->
  let kind := co_obj_ops (cops_at (c_ops x)) in
  parses zero (parser (c_ops x)) kind b bd ->
  let o := h_next h in
  let obj := {| ce_refcnt := 1; ce_ops := kind; ce_cache := 0; ce_msgtype := ty; ce_flags := 0; ce_body := bd |} in
  exists evs h1 h' items',
    parser (c_ops x) None b (include_cb ops_at cops_at zero (fun _ => None) (fun _ => None) c1 true ca) h =
      Done (0, evs, h') /\
    include_outcome (new_obj h obj) items c o obj (mt_act t) (wants ca) h1 items' evs /\
    inv h' items' ext /\ (forall c', cviews h' c' = cviews h c') /\
    (forall o', o' <> o -> h_objs h' !! o' = h_objs h1 !! o').
Proof.
  intros Hi Hc Hb Hty Hca Hf Hact kind Hd o obj.
  destruct (wf_cache _ _ _ (inv_wf _ _ _ Hi) c x Hc) as (Hc0 & Hops & _).
  destruct (caches_ok _ Hops) as [Hk0 _]. fold kind in Hk0.
  rewrite Hd. unfold object_parser. destruct (alloc_done true zero h kind Hk0) as (d & Hal).
  rewrite Hal. exec_simpl. fold o. rewrite Hty. exec_simpl.
  rewrite (get_obj_done _ o _ (new_obj_lookup h _)). exec_simpl. cbv zeta. cbn [ce_refcnt ce_ops ce_cache ce_flags].
  unfold o. rewrite put_new_obj. fold o. fold obj.
  destruct (inv_new_obj h items ext obj Hi) as [Hi1 Hp1]; [done..|].
  pose proof (new_obj_lookup h obj) as Ho1. fold o in Ho1, Hi1.
  assert (h_objs h !! o = None) as Hfresh by (by apply (fresh_obj _ _ _ (inv_wf _ _ _ Hi))).
  destruct (inv_wf _ _ _ Hi) as [_ _ _ _ Hnob _]. destruct (Hnob o Hfresh) as [Hext _].
  destruct (include_full zero c1 (new_obj h obj) items (ext_add ext o 1) c x o obj (mt_act t) (wants ca) Hi1 Hc Ho1
    eq_refl Hact) as (evs & h1 & items' & Hrun & Hi2 & Hv & Hout).
  assert (exists obj1, h_objs h1 !! o = Some obj1) as (obj1 & Hobj1).
  { destruct (h_objs h1 !! o) as [z|] eqn:Hz; [by exists z|].
    destruct (inv_wf _ _ _ Hi2) as [_ _ _ _ Hnob2 _]. destruct (Hnob2 o Hz) as [He _].
    rewrite ext_add_eq in He. lia. }
  destruct (inv_put h1 items' (ext_add ext o 1) o obj1 Hi2 Hobj1) as (h2 & Hput & Hi3 & (S1 & _ & S3 & _) & _);
    [rewrite ext_add_eq; lia|].
  exists evs, h1, h2, items'. split; [|split; [done|split; [|split]]].
  - assert (include_cb ops_at cops_at zero (fun _ => None) (fun _ => None) c1 true ca (new_obj h obj) o =
      Done (0, evs, h1)) as ->; [|exec_simpl; by rewrite Hput].
    unfold include_cb. rewrite Hca, (get_cache_done (new_obj h obj) c x Hc), (get_obj_done _ _ _ Ho1). exec_simpl.
    unfold nl_cache_include, nl_cache_include_v2, include_with.
    rewrite (get_cache_done (new_obj h obj) c x Hc), (get_obj_done _ _ _ Ho1). exec_simpl. fold kind. cbn [ce_ops obj ce_msgtype].
    rewrite Z.eqb_refl, Hf. cbn [negb]. rewrite <- Hrun. unfold wants.
    by destruct (ca_change_v2 ca =? 0), (ca_change ca =? 0).
  - apply (inv_ext _ _ (ext_add (ext_add ext o 1) o (-1))); [|done]. intros o'. symmetry. by apply ext_add_back.
  - intros c'. unfold cviews. rewrite S1. exact (Hv c').
  - exact S3.
Qed.
End EventProps.

(** ** Reading notifications *)

Section Receiving.
Context {W A : Type}.
Variable queue : W -> list (list Z).
Variable appst : W -> A.
Variable src : sockaddr_nl.
Variable recvmsg : Z -> Z -> Z -> W -> (Z + rcv) * W.
Variable user : Z -> Z -> Z -> nl_msg -> W -> Z * W.
Variable user_err : Z -> Z -> sockaddr_nl -> list Z -> W -> Z * W.
Variable recv_ow : Z -> nl_sock -> W -> exec (recv_out * W).
Variable act : nl_msg -> A -> A.
Variable good : nl_msg -> A -> Prop.
Variable f : Z.

(** The callback set of [nl_cache_mngr_data_ready]: sequence numbers are not
    checked, the function [f] gets the valid messages. *)
Definition event_set (cb : nl_cb) : Prop :=
  nth 0 (cb_set cb) None = Some (msg_cb_user f) /\ nth 8 (cb_set cb) None = Some noop_seq_check /\
  (forall t, 0 < t -> t <> NL_CB_SEQ_CHECK -> cb_is_set cb t = false) /\ cb_recv_ow cb = None /\
  cb_recvmsgs_ow cb = None.

Definition event_msg (m : wire_msg) : Prop :=
  wm_ok m /\ is_control (wm_type m) = false /\ has_flag (wm_flags m) NLM_F_MULTI = false /\
  has_flag (wm_flags m) NLM_F_DUMP_INTR = false.

Definition event_sock (sk : nl_sock) : Prop :=
  has_flag (s_flags sk) NL_SOCK_PASSCRED = false /\ peeks sk = true /\ 0 <= s_bufsize sk.

(** [st'] is [st] after the messages [l]. *)
Definition advanced (st : rstate) (l : list wire_msg) (st' : rstate (W := W)) : Prop :=
  r_sk st' = r_sk st /\ (event_set (r_cb st') /\ cb_refcnt (r_cb st') = cb_refcnt (r_cb st)) /\
  queue (r_w st') = queue (r_w st) /\ appst (r_w st') = consume src act (r_sk st) l (appst (r_w st)) /\
  r_multipart st' = r_multipart st /\ r_interrupted st' = r_interrupted st /\ r_nrecv st' = r_nrecv st + zlen l.

Lemma advanced_trans st l st1 l2 st2 : advanced st l st1 -> advanced st1 l2 st2 -> advanced st (l ++ l2) st2.
Proof.
  intros (Hs & [_ Hc] & Hq & Ha & Hm & Hi & Hn) (Hs2 & [Hv2 Hc2] & Hq2 & Ha2 & Hm2 & Hi2 & Hn2).
  unfold advanced, consume in *.
  rewrite Hs2, Hc2, Hq2, Ha2, Hm2, Hi2, Hn2, Hs, Hc, Hq, Ha, Hm, Hi, Hn, fold_left_app, zlen_app.
  split_and!; try done; lia.
Qed.

Lemma call_or_quiet type msg (st : rstate) k e :
  event_set (r_cb st) -> 0 < type -> type <> NL_CB_SEQ_CHECK -> call_or user type msg st k e = e st.
Proof. intros (_ & _ & H & _) Ht Hne. unfold call_or. by rewrite H. Qed.

Lemma process_event pre m post (st : rstate) :
  callbacks_ok queue appst user act good f -> event_set (r_cb st) -> event_msg m ->
  good (delivered (s_proto (r_sk st)) src m) (appst (r_w st)) ->
  exists st', process_msg user user_err true true (pre ++ wm_bytes m ++ post) src None (zlen pre) st =
      Done (Skip, st') /\ advanced st [m] st'.
Proof.
  intros Hcb Hv (Hm & Hctl & Hmu & Hint) Hgood.
  destruct (convert_fields pre m post Hm) as (Hc & Ht & Hf & Hsq & Hl).
  unfold process_msg. rewrite Hc. exec_simpl. rewrite Ht, Hf, Hsq, Hl. exec_simpl.
  set (msg := nlmsg_set_src _ src).
  assert (msg = delivered (s_proto (r_sk st)) src m) as -> by done.
  rewrite call_or_quiet by done. unfold check_seq.
  destruct Hv as (H0 & H8 & Hu & Ho & How).
  change (r_cb (count_recv st)) with (r_cb st).
  assert (cb_is_set (r_cb st) NL_CB_SEQ_CHECK = true) as ->
    by (unfold cb_is_set; change (Z.to_nat NL_CB_SEQ_CHECK) with 8%nat; by rewrite H8).
  unfold NL_CB_CALL at 1. unfold nl_cb_call. change (Z.to_nat NL_CB_SEQ_CHECK) with 8%nat.
  cbn [with_active cb_set r_cb count_recv]. rewrite H8. cbn [run_msg_cb handler_result default]. exec_simpl.
  change (NL_OK =? NL_OK) with true. cbv iota.
  unfold after_seq. rewrite Hctl, Hmu, Hint. cbv zeta.
  match goal with |- context [has_flag (wm_flags m) NLM_F_ACK] =>
    destruct (has_flag (wm_flags m) NLM_F_ACK); [rewrite call_or_quiet by done|] end;
  (unfold is_control in Hctl; bool_hyps; unfold dispatch;
   rewrite !(proj2 (Z.eqb_neq (wm_type m) _)) by done;
   unfold call_or, cb_is_set, NL_CB_CALL, nl_cb_call; change (Z.to_nat NL_CB_VALID) with 0%nat;
   cbn [with_active cb_set cb_args cb_active r_cb set_cbw r_w count_recv]; rewrite H0; cbn [run_msg_cb];
   match goal with |- context [user f ?a ?t ?mm ?w] =>
     destruct (Hcb a t mm w) as (Hr & Hq & Ha); [done|]; destruct (user f a t mm w) as [ret w'] end;
   cbn [fst snd] in *; exec_simpl;
   destruct Hr as [-> | ->]; exec_simpl; cbn [Z.eqb NL_OK NL_SKIP Pos.eqb];
     (eexists; split; [done|]; unfold advanced, event_set; simpl; split_and!; done)).
Qed.

Lemma advanced_nil st : event_set (r_cb st) -> advanced st [] st.
Proof. intros Hv. unfold advanced. change (zlen []) with 0. split_and!; try done. lia. Qed.

Lemma loop_events l : forall pre n fuel (st : rstate),
  callbacks_ok queue appst user act good f -> Forall event_msg l ->
  all_good src act good (s_proto (r_sk st)) l (appst (r_w st)) -> event_set (r_cb st) ->
  zlen (pre ++ datagram l) < 2147483640 -> n = zlen (datagram l) -> (Z.to_nat n <= fuel)%nat ->
  exists st', msg_loop user user_err fuel true true (pre ++ datagram l) src None (zlen pre) n st = Done (Skip, st') /\
    advanced st l st'.
Proof.
  induction l as [|m l IH]; intros pre n fuel st Hcb Hd Hg Hv Hz -> Hf.
  { exists st. split; [apply msg_loop_end|by apply advanced_nil]. }
  apply Forall_cons in Hd as [Hm Hd]. destruct Hg as [Hgm Hg].
  change (datagram (m :: l)) with (wm_bytes m ++ datagram l) in *.
  destruct (process_event pre m (datagram l) st) as (st1 & Hp & Hg1); [done..|].
  destruct (msg_loop_step src user user_err pre m (datagram l) _ fuel st st1 (proj1 Hm) Hz eq_refl Hf Hp)
    as (fuel1 & Hf1 & ->).
  pose proof Hg1 as (Hsk & [Hv1 _] & _ & Ha1 & _). rewrite (app_assoc pre (wm_bytes m)) in *.
  destruct (IH (pre ++ wm_bytes m) (zlen (datagram l)) fuel1 st1 Hcb Hd) as (st2 & -> & Hg2);
    [by rewrite Hsk, Ha1|done..|].
  exists st2. split; [done|]. by apply (advanced_trans st [m] st1).
Qed.

Variable rfuel : nat.
Variable page : Z.
Variable fuel : nat.

(** A datagram of notifications is one round of the receive loop. *)
Lemma recv_events l q sk cb (w : W) :
  kernel_ok queue appst src recvmsg -> callbacks_ok queue appst user act good f -> event_set cb -> event_sock sk ->
  (2 <= rfuel)%nat -> 0 < page -> (0 < fuel)%nat -> l <> [] -> Forall event_msg l ->
  all_good src act good (s_proto sk) l (appst w) -> zlen (datagram l) < 2147483640 -> queue w = datagram l :: q ->
  exists st, recvmsgs user user_err recvmsg recv_ow rfuel all_mem page fuel true true sk cb w = Done (zlen l, st) /\
    r_sk st = sk /\ event_set (r_cb st) /\ cb_refcnt (r_cb st) = cb_refcnt cb /\ queue (r_w st) = q /\
    appst (r_w st) = consume src act sk l (appst w).
Proof.
  intros Hk Hcb Hv (Hcr & Hpk & Hbs) Hrf Hpg Hfu Hne Hd Hg Hz Hq.
  assert (0 < zlen (datagram l)) as Hpos.
  { destruct l as [|m l]; [done|]. apply Forall_cons in Hd as [[Hm _] _].
    change (datagram (m :: l)) with (wm_bytes m ++ datagram l). rewrite zlen_app.
    pose proof (wm_bytes_pos m Hm). pose proof (zlen_nonneg (datagram l)). lia. }
  unfold recvmsgs. destruct fuel as [|fuel']; [lia|]. cbn [read_loop r_cb r_sk r_w].
  unfold read_datagram. pose proof Hv as (_ & _ & _ & Ho & _). rewrite Ho.
  destruct (nl_recv_queue queue appst src recvmsg rfuel page sk sockaddr_0 w _ q Hk Hq Hpos Hpg Hbs Hcr Hrf)
    as (w1 & -> & Hq1 & Ha1). rewrite Hpk. cbn [orb]. exec_simpl.
  cbn [plain_out ro_n ro_buf ro_src ro_creds]. rewrite (proj2 (Z.leb_gt _ 0)) by lia.
  set (st0 := set_cbw _ cb w1).
  destruct (loop_events l [] (zlen (datagram l)) (Z.to_nat (zlen (datagram l))) st0 Hcb Hd)
    as (st' & Hl & Hsk & [Hv' Hc'] & Hq' & Ha' & Hm & Hi & Hn); try done; [unfold st0; cbn; by rewrite Ha1|].
  change (zlen []) with 0 in Hl. change ([] ++ datagram l) with (datagram l) in Hl. rewrite Hl. exec_simpl.
  rewrite Hm. cbn [r_multipart st0 set_cbw]. unfold recv_result. rewrite Hi, Hn. cbn [r_interrupted st0 set_cbw r_nrecv].
  exists st'. cbn [r_sk r_cb r_w st0 set_cbw] in *. rewrite Hsk, Hc', Hq', Ha', Ha1, Hq1.
  change (0 =? 0) with true. cbv iota. split_and!; done.
Qed.

(** A socket that does not block, with nothing on it. *)
Definition kernel_idle : Prop :=
  forall flags len ctl w, queue w = [] -> exists w', recvmsg flags len ctl w = (inl EAGAIN, w') /\
    queue w' = [] /\ appst w' = appst w.

Lemma recv_idle sk cb (w : W) :
  kernel_idle -> event_set cb -> event_sock sk -> (0 < rfuel)%nat -> (0 < fuel)%nat -> queue w = [] ->
  exists st, recvmsgs user user_err recvmsg recv_ow rfuel all_mem page fuel true true sk cb w =
      Done (- NLE_AGAIN, st) /\
    r_sk st = sk /\ r_cb st = cb /\ queue (r_w st) = [] /\ appst (r_w st) = appst w.
Proof.
  intros Hk (_ & _ & _ & Ho & _) (Hcr & _) Hrf Hfu Hq. unfold recvmsgs. destruct fuel as [|fuel']; [lia|].
  cbn [read_loop r_cb r_sk r_w]. unfold read_datagram, nl_recv. rewrite Ho, Hcr.
  cbn [all_mem mem_buf mem_ctl negb andb]. destruct rfuel as [|rf]; [lia|]. cbn [recv_loop].
  match goal with |- context [recvmsg ?a ?b ?c w] => destruct (Hk a b c w Hq) as (w' & -> & Hq' & Ha') end.
  change (EAGAIN =? EINTR) with false. exec_simpl. cbn [recv_fail ro_n].
  change (- nl_syserr2nlerr EAGAIN <=? 0) with true. cbv iota.
  eexists. split; [reflexivity|]. by split_and!.
Qed.
End Receiving.

(** ** Draining the socket *)

Section Drain.
Context {D : Type} {EV : Env D} {EK : EnvOk EV} (zero : D).
Context {V : Type}.
Variable parser : Z -> parser_t (D := D).
Variable c1 : bool.
Variable app : Z -> Z -> Z -> nl_msg -> V -> Z * V.
Variable app_err : Z -> Z -> sockaddr_nl -> list Z -> V -> Z * V.
Variable queue : V -> list (list Z).
Variable src : sockaddr_nl.
Abbreviation state := (list (nl_cache_assoc * change) * heap D)%type.
Abbreviation W := (world state V).
Abbreviation wqueue := (fun w : W => queue (w_out w)).
Variable recvmsg : Z -> Z -> Z -> W -> (Z + rcv) * W.
Variable recv_ow : Z -> nl_sock -> W -> exec (recv_out * W).
Variable recvmsgs_ow : Z -> nl_sock -> nl_cb -> W -> exec (Z * rstate (W := W)).
Variable rfuel : nat.
Variable page : Z.
Variable fuel : nat.
Variable m : nl_cache_mngr.
Variable l : list nl_cache_assoc.
Variable h0 : heap D.
Variable ext : Z -> Z.
Hypothesis Hl : assocs m = Done l.

Abbreviation step := (event_input ops_at cops_at zero (fun _ => None) (fun _ => None) parser c1 true m).

(** The heap is sound and the caches are those of [h0]. *)
Definition steady (a : exec state) : Prop :=
  exists log h items, a = Done (log, h) /\ inv h items ext /\ forall c', cviews h c' = cviews h0 c'.
Definition handle (msg : nl_msg) (a : exec state) : exec state := snd <$> (s ← a; step msg s).
Definition expected (msg : nl_msg) (a : exec state) : Prop :=
  steady a /\ nm_protocol msg = cm_protocol m /\ notification zero parser l h0 (nm_nlh msg).

Lemma event_step msg a :
  expected msg a -> exists r s, (s ← a; step msg s) = Done (r, s) /\ (r = NL_OK \/ r = NL_SKIP) /\ steady (Done s).
Proof.
  intros ((log & h & items & -> & Hi & Hv) & Hp & Hn). exec_simpl.
  apply (notification_views _ _ _ h) in Hn; [|done].
  destruct Hn as (Hb & ty & r & Hty & Hf & Hr).
  unfold event_input. rewrite Hty, Hp, Z.eqb_refl, Hl. exec_simpl. cbn [snd fst negb].
  rewrite Hf. exec_simpl. destruct r as [i|].
  - destruct Hr as (c & x & t & bd & Hc & Hx & Hvh & Ht & Hact & Hpar). rewrite Hc, (get_cache_done _ _ _ Hx). exec_simpl.
    destruct (parse_include zero parser c1 h items ext c x ty t (nth i l assoc_0) (nm_nlh msg) bd Hi Hx Hb Hty Hc Ht
      Hact Hpar) as (evs & h1 & h' & items' & Hrun & _ & Hi' & Hv' & _).
    unfold nl_cache_parse. rewrite Hvh, Hty. exec_simpl. cbn [negb].
    erewrite parse_types_first by (exact Ht || exact Hrun || done). exec_simpl.
    eexists _, _. split; [done|]. split; [by left|]. eexists _, _, _. split; [done|]. split; [done|].
    intros c'. by rewrite Hv', Hv.
  - eexists _, _. split; [done|]. split; [by right|]. by exists log, h, items.
Qed.

Lemma handle_good : callbacks_ok wqueue w_lib (lib_user step app) handle expected own_cb.
Proof.
  intros arg t msg [a v] He. cbn [w_lib] in He. destruct (event_step msg a He) as (r & s & Hr & Hor & _).
  unfold lib_user. rewrite Z.eqb_refl. unfold run_own. cbn [w_lib w_out]. rewrite Hr.
  split; [done|]. split; [done|]. unfold handle. cbn [w_lib]. by rewrite Hr.
Qed.

Definition event_ok (msg : wire_msg) : Prop := event_msg msg /\ notification zero parser l h0 (wm_bytes msg).

Lemma handle_all sk lw : forall a, s_proto sk = cm_protocol m -> Forall event_ok lw -> steady a ->
  all_good src handle expected (s_proto sk) lw a /\ steady (consume src handle sk lw a).
Proof.
  induction lw as [|w lw IH]; intros a Hp Hf Ha; [done|]. apply Forall_cons in Hf as [[_ Hw] Hf].
  assert (expected (delivered (s_proto sk) src w) a) as He by done.
  destruct (event_step _ _ He) as (r & s & Hr & _ & Hs).
  assert (handle (delivered (s_proto sk) src w) a = Done s) as Hh by (unfold handle; by rewrite Hr).
  destruct (IH (Done s) Hp Hf Hs) as [Hg Hc]. cbn [all_good]. rewrite Hh.
  split; [done|]. unfold consume. cbn [fold_left]. by rewrite Hh.
Qed.

Abbreviation reads := (read_events ops_at cops_at zero (fun _ => None) (fun _ => None) parser c1 true app app_err
  recvmsg recv_ow recvmsgs_ow rfuel all_mem page fuel true true).

Lemma drain sk ds : forall rounds cb nread (w : W),
  kernel_ok wqueue w_lib src recvmsg -> kernel_idle wqueue w_lib recvmsg ->
  event_set own_cb cb -> event_sock sk -> s_proto sk = cm_protocol m ->
  (2 <= rfuel)%nat -> 0 < page -> (0 < fuel)%nat -> (length ds < rounds)%nat ->
  Forall (fun d => d <> [] /\ Forall event_ok d /\ zlen (datagram d) < 2147483640) ds ->
  queue (w_out w) = map datagram ds -> steady (w_lib w) -> 0 <= nread -> nread + zlen (concat ds) < 2 ^ 31 ->
  exists cb' w', reads rounds m sk cb nread w = Done (- NLE_AGAIN, nread + zlen (concat ds), sk, cb', w') /\
    cb_refcnt cb' = cb_refcnt cb /\ queue (w_out w') = [] /\ steady (w_lib w') /\
    w_lib w' = consume src handle sk (concat ds) (w_lib w).
Proof.
  induction ds as [|d ds IH]; intros rounds cb nread w Hk Hid Hev Hs Hp Hrf Hpg Hfu Hro Hds Hq Ha Hn0 Hn1;
    (destruct rounds as [|rounds]; [simpl in Hro; lia|]); cbn [read_events]; unfold nl_recvmsgs_report;
    rewrite (proj2 (proj2 (proj2 (proj2 Hev)))).
  - destruct (recv_idle wqueue w_lib recvmsg (lib_user step app) (lib_user_err no_err app_err) recv_ow own_cb rfuel page fuel
      sk cb w Hid Hev Hs) as (st & -> & Hsk & Hcb & Hq' & Ha'); [lia|done|done|].
    exec_simpl. change (0 <? - NLE_AGAIN) with false. cbv iota. rewrite Hsk, Hcb. simpl.
    eexists _, _. change (zlen []) with 0. rewrite Z.add_0_r. split; [done|]. by rewrite Ha'.
  - apply Forall_cons in Hds as [(Hne & Hd & Hz) Hds].
    destruct (handle_all sk d (w_lib w) Hp Hd Ha) as [Hg Hst].
    destruct (recv_events wqueue w_lib src recvmsg (lib_user step app) (lib_user_err no_err app_err) recv_ow handle expected
      own_cb rfuel page fuel d (map datagram ds) sk cb w) as (st & -> & Hsk & Hev' & Hcb & Hq' & Ha'); try done.
    { apply handle_good. }
    { eapply Forall_impl; [exact Hd|]. by intros ? [? _]. }
    exec_simpl. simpl in Hn1. rewrite zlen_app in Hn1. pose proof (zlen_nonneg (concat ds)).
    assert (0 < zlen d) by (destruct d; [done|]; rewrite zlen_cons; pose proof (zlen_nonneg d); lia).
    rewrite (proj2 (Z.ltb_lt 0 _)) by lia. rewrite s32_id by lia. rewrite Hsk.
    destruct (IH rounds (r_cb st) (nread + zlen d) (r_w st)) as (cb' & w' & -> & Hc' & Hq2 & Hst2 & Ha2); try done;
      [simpl in Hro; lia|by rewrite Ha'|lia|lia|].
    exists cb', w'. simpl. rewrite zlen_app, Z.add_assoc. split; [done|]. rewrite Hc', Hcb. do 3 (split; [done|]).
    rewrite Ha2, Ha'. unfold consume. by rewrite fold_left_app.
Qed.

(** The callbacks of a manager's socket: none but the one that turns the check of
    sequence numbers off. *)
Definition mngr_cb (cb : nl_cb) : Prop :=
  nth 8 (cb_set cb) None = Some noop_seq_check /\
  (forall t, 0 < t -> t <> NL_CB_SEQ_CHECK -> cb_is_set cb t = false) /\ cb_recv_ow cb = None /\
  cb_recvmsgs_ow cb = None /\ cb_wf cb.

Lemma mngr_cb_set cb :
  mngr_cb cb ->
  let cb' := (nl_cb_set (with_cb_refcnt cb 1) NL_CB_VALID NL_CB_CUSTOM (Some (msg_cb_user own_cb)) 0).2 in
  event_set own_cb cb' /\ cb_refcnt cb' = 1.
Proof.
  intros (H8 & Hun & Hro & Hrm & [Hls Hla]). rewrite nl_cb_set_done by done. cbn [snd].
  split; [|done]. split; [|split; [|split; [|done]]].
  - simpl. rewrite nth_lookup, list_lookup_insert_eq; [done|]. rewrite Hls. unfold NL_CB_VALID. lia.
  - simpl. rewrite nth_lookup in H8 |- *. by rewrite list_lookup_insert_ne by done.
  - intros t Ht Hne. unfold cb_is_set. simpl. rewrite nth_lookup.
    rewrite list_lookup_insert_ne by (unfold NL_CB_VALID; lia).
    specialize (Hun t Ht Hne). unfold cb_is_set in Hun. by rewrite nth_lookup in Hun.
Qed.

(** C40. Reading notifications that the caches can read.  On the socket of a manager
    datagrams are queued whose messages are events (well formed, neither control
    messages nor marked as part of a dump or as interrupted), each of which either no
    entry takes, or the first entry that takes its type can read: its header is
    complete and the parser of the kind makes an object of it.  Then
    [nl_cache_mngr_data_ready] ends, having read them all: the queue is empty, every
    message has been handed once and in order to the first cache that takes its
    type, the result is their number, and the state of the caches is the one that
    including the messages one by one gives, references and tables sound.  The
    socket peeks, does not ask for credentials and does not block, has the manager's
    protocol and no callbacks but the one that turns the check of sequence numbers
    off; no kind has an event filter or an include function of its own; memory is
    there.  (A message its cache cannot read makes the function stop with that error;
    what is queued behind it stays.) *)
Theorem data_ready_drains sk ds rounds log items v :
  cm_sock m = Sock sk -> mngr_cb (s_cb sk) -> event_sock sk -> s_proto sk = cm_protocol m ->
  kernel_ok wqueue w_lib src recvmsg -> kernel_idle wqueue w_lib recvmsg -> inv h0 items ext ->
  (2 <= rfuel)%nat -> 0 < page -> (0 < fuel)%nat -> (length ds < rounds)%nat ->
  Forall (fun d => d <> [] /\ Forall event_ok d /\ zlen (datagram d) < 2147483640) ds ->
  queue v = map datagram ds -> zlen (concat ds) < 2 ^ 31 ->
  exists log' h' items' v',
    nl_cache_mngr_data_ready ops_at cops_at zero (fun _ => None) (fun _ => None) parser c1 true app app_err recvmsg
      recv_ow recvmsgs_ow rfuel all_mem page fuel true true true rounds m (World (Done (log, h0)) v) =
    Done (zlen (concat ds), m, World (Done (log', h')) v') /\
    queue v' = [] /\ inv h' items' ext /\ (forall c', cviews h' c' = cviews h0 c') /\
    Done (log', h') = fold_left (fun a wm => handle (delivered (s_proto sk) src wm) a) (concat ds) (Done (log, h0)).
Proof.
  intros Hsk Hcb Hs Hp Hk Hid Hi Hrf Hpg Hfu Hro Hds Hq Hn. unfold nl_cache_mngr_data_ready.
  rewrite Hsk. unfold live. exec_simpl. change (nl_cb_clone true (s_cb sk)) with (Some (with_cb_refcnt (s_cb sk) 1)).
  cbv beta iota zeta. destruct (mngr_cb_set (s_cb sk) Hcb) as [Hev Hrc]. cbv zeta in Hev, Hrc.
  set (cbs := (nl_cb_set _ _ _ _ _).2) in *.
  destruct (drain sk ds rounds cbs 0 (World (Done (log, h0)) v) Hk Hid Hev Hs Hp Hrf Hpg Hfu Hro Hds Hq)
    as (cb' & w' & -> & Hrc' & Hq' & (log' & h' & items' & Hw & Hi' & Hv') & Ha); [by exists log, h0, items|lia|lia|].
  exec_simpl. unfold nl_cb_put. rewrite Hrc', Hrc. change (1 - 1 <? 0) with false. cbv iota. exec_simpl.
  change (1 - 1 <=? 0) with true. cbv iota. rewrite Hw. exec_simpl.
  change ((- NLE_AGAIN <? 0) && negb (- NLE_AGAIN =? - NLE_AGAIN)) with false. cbv iota.
  destruct w' as [lw v']. simpl in *. subst lw. exists log', h', items', v'.
  rewrite Z.add_0_l. split; [by destruct m; simpl in *; subst|]. split; [done|]. split; [done|]. split; [done|]. done.
Qed.
End Drain.

(** ** The entries of a manager *)

Section Entries.
Context {D V : Type}.
Variable f : filling D V.
Variable ops_at : Z -> nl_object_ops D.
Variable cops_at : Z -> nl_cache_ops.
Variable zero : D.
Variable request : Z -> option (request_t (D := D) (V := V)).
Variable parser : Z -> parser_t (D := D).
Abbreviation W := (world (list change * heap D) V).
Implicit Types (h : heap D) (c : Z).

Lemma first_assoc_spec (t : nl_cache_assoc -> exec bool) l : forall i,
  (forall a, a ∈ l -> exists b, t a = Done b) ->
  exists r, first_assoc t l i = Done r /\
  match r with
  | None => forall a, a ∈ l -> t a = Done false
  | Some n => (i <= n < i + length l)%nat /\ (exists a, l !! (n - i)%nat = Some a /\ t a = Done true) /\
      forall j a, (j < n - i)%nat -> l !! j = Some a -> t a = Done false
  end.
Proof.
  induction l as [|a l IH]; intros i Ht; cbn [first_assoc].
  { exists None. split; [done|]. intros a Ha. by apply elem_of_nil in Ha. }
  destruct (Ht a) as ([] & Ha); [apply elem_of_cons; by left|..]; rewrite Ha; exec_simpl.
  - exists (Some i). split; [done|]. rewrite Nat.sub_diag. simpl. split; [lia|]. split; [by exists a|]. intros; lia.
  - destruct (IH (S i)) as (r & -> & Hr); [intros b Hb; apply Ht, elem_of_cons; by right|]. exists r. split; [done|].
    destruct r as [n|].
    + destruct Hr as (Hn & (b & Hb & Hbt) & Hlt). simpl. split; [lia|].
      assert ((n - i)%nat = S (n - S i)) as -> by lia. split; [by exists b|].
      intros [|j] d Hj Hd; simpl in Hd; [by simplify_eq|]. apply (Hlt j); [lia|done].
    + intros b Hb. apply elem_of_cons in Hb as [->|Hb]; [done|by apply Hr].
Qed.

(** The kind of the cache of an entry. *)
Definition kind_of h (a : nl_cache_assoc) : option Z :=
  match ca_cache a with Some c => c_ops <$> h_caches h !! c | None => None end.

(** Both sockets are there, every entry that is used has a cache of the manager's
    protocol, and no kind of cache has two entries. *)
Record mngr_ok h (m : nl_cache_mngr) (l : list nl_cache_assoc) (sk sync : nl_sock) : Prop := {
  mo_sock : cm_sock m = Sock sk;
  mo_sync : cm_sync_sock m = Sock sync;
  mo_assocs : cm_assocs m = Some l;
  mo_nassocs : cm_nassocs m = zlen l;
  mo_live : forall a c, a ∈ l -> ca_cache a = Some c ->
    exists k, kind_of h a = Some k /\ k <> 0 /\ co_protocol (cops_at k) = cm_protocol m;
  mo_kinds : forall i j a b k, l !! i = Some a -> l !! j = Some b ->
    kind_of h a = Some k -> kind_of h b = Some k -> i = j
}.

Lemma assocs_ok h m l sk sync : mngr_ok h m l sk sync -> assocs m = Done l.
Proof.
  intros [_ _ Ha Hn _ _]. unfold assocs. rewrite Ha, Hn, Z.leb_refl. f_equal.
  apply take_ge. unfold zlen. lia.
Qed.

Definition grown (l : list nl_cache_assoc) : list nl_cache_assoc := l ++ repeat assoc_0 8.
Definition in_use (a : nl_cache_assoc) : bool := is_some (ca_cache a).
(** The array a new cache goes into, and where. *)
Definition room (l : list nl_cache_assoc) : list nl_cache_assoc := if forallb in_use l then grown l else l.

Definition with_room (m : nl_cache_mngr) (l : list nl_cache_assoc) : nl_cache_mngr :=
  m <| cm_assocs := Some (room l) |> <| cm_nassocs := zlen (room l) |>.

Lemma room_ok h m l sk sync : mngr_ok h m l sk sync -> mngr_ok h (with_room m l) (room l) sk sync.
Proof.
  intros [Hs Hy Ha Hn Hlv Hk]. split; try done.
  - intros a c Hin Hc. apply (Hlv a c); [|done]. unfold room in Hin. destruct (forallb in_use l); [|done].
    apply elem_of_app in Hin as [?|Hin]; [done|]. exfalso.
    repeat (apply elem_of_cons in Hin as [->|Hin]; [done|]). by apply elem_of_nil in Hin.
  - assert (forall i a k, room l !! i = Some a -> kind_of h a = Some k -> l !! i = Some a) as Hr.
    { intros i a k Hi Hka. unfold room in Hi. destruct (forallb in_use l); [|done].
      apply lookup_app_Some in Hi as [?|[_ Hi]]; [done|]. exfalso. apply list_elem_of_lookup_2 in Hi.
      repeat (apply elem_of_cons in Hi as [->|Hi]; [done|]). by apply elem_of_nil in Hi. }
    intros i j a b k Hi Hj Hka Hkb. by apply (Hk i j a b k); [eapply Hr|eapply Hr|..].
Qed.

(** What adding a cache of the kind [k] comes to: [e] what refilling gives. *)
Definition add_error h (m : nl_cache_mngr) (l : list nl_cache_assoc) (sk : nl_sock) (r : bool) (join : Z -> option Z) (k e : Z) : Z :=
  let ops := cops_at k in
  if k =? 0 then - NLE_INVAL
  else if negb (co_protocol ops =? cm_protocol m) then - NLE_PROTO_MISMATCH
  else match co_groups ops with
       | None => - NLE_OPNOTSUPP
       | Some groups =>
           if existsb (fun a => bool_decide (kind_of h a = Some k)) l then - NLE_EXIST
           else if forallb in_use l && negb r then - NLE_NOMEM
           else let j := join_groups sk join groups in
                if j <? 0 then j else if e <? 0 then e else 0
       end.

Definition same_kinds h h' : Prop := forall c, c_ops <$> h_caches h' !! c = c_ops <$> h_caches h !! c.

Lemma mngr_ok_kinds h h' m l sk sync :
  same_kinds h h' -> mngr_ok h m l sk sync -> mngr_ok h' m l sk sync.
Proof.
  intros Hk [H1 H2 H3 H4 H5 H6].
  assert (forall a, kind_of h' a = kind_of h a) as He
    by (intros a; unfold kind_of; destruct (ca_cache a); [apply Hk|done]).
  split; try done.
  - intros a c Ha Hc. rewrite He. by apply (H5 a c).
  - intros i j a b k Hi Hj. rewrite !He. by apply (H6 i j a b k).
Qed.

Lemma kind_known h m l sk sync k :
  mngr_ok h m l sk sync ->
  exists r, first_assoc (same_ops h k) l 0 = Done r /\
    is_some r = existsb (fun a => bool_decide (kind_of h a = Some k)) l.
Proof.
  intros Hm.
  assert (forall a, a ∈ l -> same_ops h k a = Done (bool_decide (kind_of h a = Some k))) as Hso.
  { intros a Ha. unfold same_ops, kind_of. destruct (ca_cache a) as [c|] eqn:Hc; [|done].
    destruct (mo_live _ _ _ _ _ Hm a c Ha Hc) as (k' & Hk' & _). unfold kind_of in Hk'. rewrite Hc in Hk'.
    unfold get_cache. destruct (h_caches h !! c) as [x|] eqn:Hx; [|done]. exec_simpl. cbn [fmap option_fmap option_map].
    destruct (Z.eqb_spec (c_ops x) k) as [->|Hne]; [by rewrite bool_decide_true|].
    rewrite bool_decide_false; [done|]. congruence. }
  destruct (first_assoc_spec (same_ops h k) l 0) as (r & Hr & Hs); [intros a Ha; eexists; by apply Hso|].
  exists r. split; [done|]. destruct r as [n|]; symmetry.
  - destruct Hs as (_ & (a & Ha & Ht) & _). apply existsb_exists. exists a. apply list_elem_of_lookup_2 in Ha.
    rewrite Hso in Ht by done. split; [by apply list_elem_of_In|]. congruence.
  - apply not_true_is_false. intros He. apply existsb_exists in He as (a & Ha & Hb). apply list_elem_of_In in Ha.
    specialize (Hs a Ha). rewrite Hso in Hs by done. congruence.
Qed.

(** The first free entry. *)
Fixpoint first_free (l : list nl_cache_assoc) : nat :=
  match l with [] => 0%nat | a :: l => if in_use a then S (first_free l) else 0%nat end.

Lemma free_found l : forall i,
  first_assoc free_assoc l i = Done (if forallb in_use l then None else Some (i + first_free l)%nat).
Proof.
  induction l as [|a l IH]; intros i; [done|]. cbn [first_assoc forallb first_free].
  assert (free_assoc a = Done (negb (in_use a))) as -> by done. exec_simpl.
  destruct (in_use a); cbn [negb andb]; [|by rewrite Nat.add_0_r].
  rewrite IH. by destruct (forallb in_use l); [|rewrite Nat.add_succ_r].
Qed.

Lemma first_free_full l k : forallb in_use l = true -> first_free (l ++ k) = (length l + first_free k)%nat.
Proof.
  induction l as [|a l IH]; [done|]. cbn [forallb first_free app length]. intros H. apply andb_true_iff in H as [-> H].
  by rewrite IH.
Qed.

Lemma room_free l : exists a : nl_cache_assoc, room l !! first_free (room l) = Some a /\ ca_cache a = None.
Proof.
  assert (forall k, forallb in_use k = false -> exists a, k !! first_free k = Some a /\ ca_cache a = None) as H.
  { induction k as [|a k IH]; [done|]. cbn [forallb first_free]. unfold in_use at 1 3.
    destruct (ca_cache a) as [c|] eqn:E; [exact IH|]. intros _. by exists a. }
  apply H. unfold room. destruct (forallb in_use l) eqn:E; [|done]. unfold grown. rewrite forallb_app, E. done.
Qed.

Lemma room_kinds h h' l k :
  same_kinds h h' ->
  existsb (fun a => bool_decide (kind_of h' a = Some k)) (room l) = existsb (fun a => bool_decide (kind_of h a = Some k)) l.
Proof.
  intros Hk.
  assert (forall l, existsb (fun a => bool_decide (kind_of h' a = Some k)) l =
    existsb (fun a => bool_decide (kind_of h a = Some k)) l) as He.
  { intros l'. induction l' as [|a l' IH]; [done|]. cbn [existsb]. rewrite IH.
    assert (kind_of h' a = kind_of h a) as -> by (unfold kind_of; destruct (ca_cache a); [apply Hk|done]). done. }
  unfold room. destruct (forallb in_use l); [|apply He]. unfold grown. rewrite existsb_app, He. simpl.
  by rewrite !orb_false_r.
Qed.

(** The new entry does not disturb the others. *)
Lemma entry_ok h m l sk sync i a c x :
  mngr_ok h m l sk sync -> l !! i = Some a -> ca_cache a = None -> h_caches h !! c = Some x -> c_ops x <> 0 ->
  co_protocol (cops_at (c_ops x)) = cm_protocol m ->
  existsb (fun a => bool_decide (kind_of h a = Some (c_ops x))) l = false ->
  forall cb data sync',
  let e := assoc_with a c cb data in
  mngr_ok h (set_assoc (m <| cm_sync_sock := Sock sync' |>) i e) (<[i := e]> l) sk sync'.
Proof.
  intros [H1 H2 H3 H4 H5 H6] Hi Ha Hx Hk Hp Hex cb data sync' e.
  assert (kind_of h e = Some (c_ops x)) as He by (unfold kind_of; simpl; by rewrite Hx).
  assert (forall b, b ∈ l -> kind_of h b <> Some (c_ops x)) as Hno.
  { intros b Hb E. assert (existsb (fun a => bool_decide (kind_of h a = Some (c_ops x))) l = true) as Ht;
      [|congruence]. apply existsb_exists. exists b. split; [by apply list_elem_of_In|by apply bool_decide_true]. }
  split; try done.
  - simpl. by rewrite H3.
  - simpl. unfold zlen in *. by rewrite length_insert.
  - intros b d Hb Hd. apply list_elem_of_lookup in Hb as [j Hj]. destruct (decide (j = i)) as [->|Hne].
    + rewrite list_lookup_insert_eq in Hj by (by eapply lookup_lt_Some). injection Hj as <-. by exists (c_ops x).
    + rewrite list_lookup_insert_ne in Hj by done. apply (H5 b d); [by eapply list_elem_of_lookup_2|done].
  - intros j1 j2 b1 b2 k Hj1 Hj2 Hk1 Hk2.
    destruct (decide (j1 = i)) as [->|N1], (decide (j2 = i)) as [->|N2]; [done| | |];
      rewrite ?(list_lookup_insert_eq l i) in * by (by eapply lookup_lt_Some);
      rewrite ?(list_lookup_insert_ne l i) in * by done.
    + injection Hj1 as <-. exfalso. apply (Hno b2); [by eapply list_elem_of_lookup_2|congruence].
    + injection Hj2 as <-. exfalso. apply (Hno b1); [by eapply list_elem_of_lookup_2|congruence].
    + by apply (H6 j1 j2 b1 b2 k).
Qed.

(** C38. Adding a cache to a manager, when the refill of the cache returns, its
    result [e], and leaves every cache its kind.  The result is an error for a cache
    without operations, of another protocol, of a kind without groups or of a kind
    the manager already has, for memory that runs out, a group that cannot be joined
    or a refill that fails, in this order, and then the entries are as before, but
    for eight free ones where the table was full; otherwise the first free entry has
    the cache, its callback and its data.  A manager made with NL_AUTO_PROVIDE then
    also provides the cache: the first registered type of its kind of objects has
    it, with a reference to the type unless it had a cache already, and the cache has
    one reference more; where no such type is registered the call stops in BUG(),
    the only case in which it does.  The registry is not changed otherwise.  In every
    case no kind has two entries and the length of the table is the recorded one. *)
Theorem nl_cache_mngr_add_cache_spec (r : bool) join m l sk sync (g : mngt) lt t0 c x cb data p ev h v e sync1 p1 ev1 h1 v1 :
  mngr_ok h m l sk sync -> h_caches h !! c = Some x ->
  registered g lt -> types g !! c_ops x = Some t0 ->
  cache_refill f ops_at cops_at zero request parser sync p c (World (Done (ev, h)) v) =
    Done (e, sync1, p1, World (Done (ev1, h1)) v1) -> same_kinds h h1 ->
  let err := add_error h m l sk r join (c_ops x) e in
  let auto := has_flag (cm_flags m) NL_AUTO_PROVIDE in
  let a := provider g lt t0 in
  let run := nl_cache_mngr_add_cache f ops_at cops_at zero request parser r join m g c cb data p (World (Done (ev, h)) v) in
  if (err =? 0) && auto && (a =? 0) then run = Bug
  else exists m' g' p' ev' h' v' l' sync',
    run = Done (err, m', g', p', World (Done (ev', h')) v') /\
    mngr_ok h' m' l' sk sync' /\
    (if err =? 0 then
       exists b : nl_cache_assoc, room l !! first_free (room l) = Some b /\
       l' = <[first_free (room l) := assoc_with b c cb data]> (room l)
     else l' = l \/ l' = room l) /\
    if (err =? 0) && auto then
      exists t x1, types g !! a = Some t /\ h_caches h1 !! c = Some x1 /\
        g' = with_provided g a t c /\ h' = put_cache h1 c (with_crefcnt x1 (c_refcnt x1 + 1))
    else g' = g.
Proof.
  intros Hm Hx Hg Ht0 Hre Hsk. cbv zeta. pose proof (assocs_ok _ _ _ _ _ Hm) as Has.
  unfold nl_cache_mngr_add_cache, heap_of, lib_of. cbn [w_lib]. exec_simpl. cbn [snd].
  rewrite (get_cache_done _ _ _ Hx). exec_simpl. unfold add_error. set (k := c_ops x) in *. set (ops := cops_at k).
  assert (forall err, err <> 0 -> if (err =? 0) && has_flag (cm_flags m) NL_AUTO_PROVIDE && (provider g lt t0 =? 0) then
      mret (err, m, g, p, World (Done (ev, h)) v) = Bug
    else exists m' g' p' ev' h' v' l' sync',
    mret (err, m, g, p, World (Done (ev, h)) v) = Done (err, m', g', p', World (Done (ev', h')) v') /\
    mngr_ok h' m' l' sk sync' /\ (if err =? 0 then exists b : nl_cache_assoc, room l !! first_free (room l) = Some b /\
      l' = <[first_free (room l) := assoc_with b c cb data]> (room l)
    else l' = l \/ l' = room l) /\
    if (err =? 0) && has_flag (cm_flags m) NL_AUTO_PROVIDE then
      exists t x1, types g !! provider g lt t0 = Some t /\ h_caches h1 !! c = Some x1 /\
        g' = with_provided g (provider g lt t0) t c /\ h' = put_cache h1 c (with_crefcnt x1 (c_refcnt x1 + 1))
    else g' = g) as Hsame.
  { intros err He. rewrite (proj2 (Z.eqb_neq err 0)) by done. cbn [andb].
    exists m, g, p, ev, h, v, l, sync. split; [done|]. split; [done|]. split; [by left|done]. }
  destruct (k =? 0) eqn:Ek; [by apply Hsame|].
  destruct (co_protocol ops =? cm_protocol m) eqn:Ep; cbn [negb]; [|by apply Hsame].
  destruct (co_groups ops) as [groups|]; [|by apply Hsame].
  rewrite Has. exec_simpl. destruct (kind_known h m l sk sync k Hm) as (known & -> & Hkn). exec_simpl.
  rewrite <- Hkn. destruct (is_some known) eqn:Eknown; [by apply Hsame|].
  rewrite free_found. exec_simpl.
  pose proof (room_ok h m l sk sync Hm) as Hroom. set (m1 := with_room m l) in *.
  destruct (forallb in_use l && negb r) eqn:Efull.
  { apply andb_true_iff in Efull as [-> Hr]. destruct r; [done|]. cbn [make_room]. by apply Hsame. }
  assert (make_room r m l (if forallb in_use l then None else Some (0 + first_free l)%nat) = Some m1 /\
    default (length l) (if forallb in_use l then None else Some (0 + first_free l)%nat) = first_free (room l))
    as [-> ->].
  { unfold make_room, m1, with_room, room. destruct (forallb in_use l) eqn:Ef.
    - destruct r; [|done]. rewrite (mo_nassocs _ _ _ _ _ Hm). unfold grown. rewrite zlen_app.
      split; [done|]. rewrite first_free_full by done. simpl. lia.
    - destruct Hm as [_ _ H3 H4 _ _]. destruct m; simpl in *. subst. done. }
  rewrite (mo_sock _ _ _ _ _ Hroom). unfold live. exec_simpl.
  destruct (join_groups sk join groups <? 0) eqn:Ej.
  { bool_hyps. rewrite (proj2 (Z.eqb_neq _ 0)) by lia. cbn [andb].
    exists m1, g, p, ev, h, v, (room l), sync. split; [done|]. split; [done|]. split; [by right|done]. }
  unfold fill_entry. rewrite (mo_sync _ _ _ _ _ Hroom). unfold live. exec_simpl. rewrite Hre. exec_simpl.
  pose proof (mngr_ok_kinds _ _ _ _ _ _ Hsk Hroom) as Hroom1.
  destruct (e <? 0) eqn:Ee.
  { bool_hyps. rewrite (proj2 (Z.eqb_neq _ 0)) by lia. cbn [andb].
    eexists _, g, p1, ev1, h1, v1, (room l), sync1. split; [done|].
    split; [destruct Hroom1; by split|]. split; [by right|done]. }
  destruct (room_free l) as (b & Hb & Hnb).
  assert (nth (first_free (room l)) (default [] (cm_assocs (m1 <| cm_sync_sock := Sock sync1 |>))) assoc_0 = b) as ->.
  { cbn [cm_assocs m1 with_room default]. by apply nth_lookup_Some. }
  specialize (Hsk c) as Hxc. rewrite Hx in Hxc. destruct (h_caches h1 !! c) as [x1|] eqn:Hx1; [|done].
  assert (c_ops x1 = k) as Hk1 by (unfold k; simpl in Hxc; congruence).
  set (m2 := set_assoc (m1 <| cm_sync_sock := Sock sync1 |>) (first_free (room l)) (assoc_with b c cb data)).
  assert (mngr_ok h1 m2 (<[first_free (room l) := assoc_with b c cb data]> (room l)) sk sync1) as Hm2.
  { bool_hyps. eapply entry_ok; try done; rewrite ?Hk1; try done. by rewrite (room_kinds h h1 l k Hsk), <- Hkn. }
  change (has_flag (cm_flags m2) NL_AUTO_PROVIDE) with (has_flag (cm_flags m) NL_AUTO_PROVIDE). change (0 =? 0) with true. cbn [andb].
  destruct (has_flag (cm_flags m) NL_AUTO_PROVIDE) eqn:Eauto; cbn [andb].
  2: { eexists m2, g, p1, ev1, h1, v1, _, sync1. split; [done|]. split; [exact Hm2|]. split; [by exists b|done]. }
  unfold lib_of. cbn [w_lib]. exec_simpl. cbn [snd fst].
  pose proof (provide_done g lt h1 c x1 t0 Hg Hx1) as Hprov. rewrite Hk1 in Hprov. specialize (Hprov Ht0). cbv zeta in Hprov.
  destruct (provider g lt t0 =? 0); [by rewrite Hprov|]. destruct Hprov as (t & Ht & ->). exec_simpl.
  eexists m2, _, p1, ev1, _, v1, _, sync1. split; [done|]. split.
  - apply (mngr_ok_kinds h1); [|exact Hm2]. intros c'. simpl. destruct (decide (c' = c)) as [->|Hne].
    + by rewrite lookup_insert_eq, Hx1.
    + by rewrite lookup_insert_ne.
  - split; [by exists b|]. by exists t, x1.
Qed.
End Entries.

(** ** Small managers *)

Module SampleMngr.
Import CacheProps.Sample CacheDump.SampleDump.
#[local] Existing Instance Sample.env.
#[local] Existing Instance Sample.env_ok.

Definition entry (c v2 : Z) : nl_cache_assoc :=
  {| ca_cache := Some c; ca_change := 0; ca_change_v2 := v2; ca_change_data := 0 |}.
Definition msock : nl_sock := with_fd (nl_socket_disable_seq_check (ex_sock cb_0)) 3 0.
Definition mngr (l : list nl_cache_assoc) : nl_cache_mngr :=
  {| cm_protocol := s_proto msock; cm_flags := 0; cm_nassocs := zlen l; cm_sock := Sock msock;
     cm_sync_sock := Sock (ex_sock cb_0); cm_assocs := Some l |}.

(** The kernel of [SampleDump], for the manager's state. *)
Abbreviation EW := (world (list (nl_cache_assoc * change) * heap (Z * Z)) V).
Definition erecvmsg (flags len ctl : Z) (w : EW) : (Z + rcv) * EW :=
  let '(r, (q, _)) := ex_recvmsg flags len ctl ((w_out w).1, []) in
  (r, World (w_lib w) (q, (w_out w).2)).
Definition erecv_ow (f : Z) (sk : nl_sock) (w : EW) : exec (recv_out * EW) := Fault.
Definition erecvmsgs_ow (f : Z) (sk : nl_sock) (cb : nl_cb) (w : EW) : exec (Z * rstate (W := EW)) := Fault.

Lemma ekernel : kernel_ok (fun w : EW => (w_out w).1) w_lib ex_src erecvmsg.
Proof.
  intros flags len ctl [l [q a]] d q' Hq Hlen. simpl in Hq. subst q.
  destruct (ex_kernel_ok flags len ctl (d :: q', []) d q' eq_refl Hlen) as
    (r & [q2 l2] & He & H1 & H2 & H3 & H4 & H5 & H6 & _).
  unfold erecvmsg. cbn [w_out w_lib fst]. rewrite He. exists r. eexists. split; [reflexivity|]. by split_and!.
Qed.
Lemma eidle : kernel_idle (fun w : EW => (w_out w).1) w_lib erecvmsg.
Proof. intros flags len ctl [l [q a]] Hq. simpl in Hq. subst q. by eexists. Qed.

(** The callbacks of a socket whose sequence numbers are not checked. *)
Lemma msock_cb : mngr_cb (s_cb msock).
Proof.
  split; [reflexivity|]. split; [|by split_and!]. intros t Ht Hne. unfold cb_is_set.
  destruct (Z.to_nat t) as [|k] eqn:E; [lia|]. unfold NL_CB_SEQ_CHECK in Hne.
  assert (k <> 7%nat) by lia. clear E Ht Hne. by do 11 (destruct k as [|k]; [done|]).
Qed.

(** An object replaced, an object added, and a message no cache takes. *)
Definition events : list (list wire_msg) :=
  [[msg 0 5 7 6 1; msg 0 9 8 2 1];
   [{| wm_type := 21; wm_flags := 0; wm_seq := 0; wm_pid := 0; wm_payload := [] |}]].
Definition table : list nl_cache_assoc := [entry 1 5; assoc_0].
Abbreviation decoder := (fun _ => object_parser ops_at (0, 0) true 1 decode).

Lemma takes_1 b bd :
  16 <= zlen b -> nlmsg_valid_hdr b 0 0 = Done true -> nlmsg_type b 0 = Done 20 -> decode b = Done (inr bd) ->
  notification (0, 0) decoder table h0 b.
Proof.
  intros Hb Hv Ht Hd. split; [done|]. exists 20, (Some 0%nat). split; [done|]. split; [by vm_compute|].
  exists 1, x1. eexists _, bd. split; [done|]. split; [exact h0_1|]. split; [done|]. split; [reflexivity|].
  split; [by left|]. by apply parses_decode.
Qed.

Lemma data_ready_drains_witness :
  exists log h v,
    nl_cache_mngr_data_ready ops_at cops_at (0, 0) (fun _ => None) (fun _ => None) decoder true true app app_err
      erecvmsg erecv_ow erecvmsgs_ow 2 all_mem 16384 1 true true true 3 (mngr table)
      (World (Done ([], h0)) (map datagram events, [])) = Done (3, mngr table, World (Done (log, h)) v) /\ v.1 = [].
Proof.
  destruct h0_inv as [items Hi].
  destruct (data_ready_drains (0, 0) decoder true app app_err fst ex_src erecvmsg erecv_ow erecvmsgs_ow 2 16384 1
    (mngr table) table h0 (cl_objs w0) eq_refl msock events 3 [] items (map datagram events, []))
    as (log & h & items' & v & Hr & Hq & _).
  - reflexivity.
  - exact msock_cb.
  - by vm_compute.
  - reflexivity.
  - exact ekernel.
  - exact eidle.
  - exact Hi.
  - lia.
  - lia.
  - lia.
  - simpl. lia.
  - apply Forall_cons_2; [|apply Forall_cons_2; [|apply Forall_nil_2]].
    + split; [done|]. split; [|by vm_compute].
      apply Forall_cons_2; [|apply Forall_cons_2; [|apply Forall_nil_2]];
        (split; [split; [apply (bool_decide_unpack _); by vm_compute|by vm_compute]|]);
        (eapply takes_1; [by vm_compute|by vm_compute|by vm_compute|by vm_compute]).
    + split; [done|]. split; [|by vm_compute]. apply Forall_cons_2; [|apply Forall_nil_2].
      split; [split; [apply (bool_decide_unpack _); by vm_compute|by vm_compute]|].
      split; [by vm_compute|]. exists 21, None. split; [by vm_compute|]. split; [by vm_compute|done].
  - reflexivity.
  - by vm_compute.
  - exists log, h, v. split; [exact Hr|exact Hq].
Defined.

(** What the callback of the entry was told. *)
Lemma events_told :
  match nl_cache_mngr_data_ready ops_at cops_at (0, 0) (fun _ => None) (fun _ => None) decoder true true app app_err
      erecvmsg erecv_ow erecvmsgs_ow 2 all_mem 16384 1 true true true 3 (mngr table)
      (World (Done ([], h0)) (map datagram events, [])) with
  | Done (_, _, w) =>
      match w_lib w with
      | Done (log, _) => map (fun e => (ca_change_v2 e.1, match e.2 with Changed2 _ _ _ _ a => a | _ => 0 end)) log
      | _ => []
      end
  | _ => []
  end = [(5, NL_ACT_NEW)].
Proof. by vm_compute. Qed.

(** Adding the cache of [Sample] to a new manager. *)
Definition gcops (_ : Z) : nl_cache_ops :=
  {| co_name := co_name cops; co_hdrsize := 0; co_protocol := 0; co_hash_size := 4; co_flags := 0;
     co_groups := Some [{| ag_family := 2; ag_group := 5 |}; {| ag_family := 10; ag_group := 9 |}];
     co_obj_ops := 1; co_msgtypes := co_msgtypes cops |}.
Definition fill1 : filling (Z * Z) V :=
  {| f_net := {| n_user := fun _ _ _ _ w => (NL_OK, w); n_user_err := fun _ _ _ _ w => (NL_STOP, w);
                 n_sendmsg := fun _ _ _ w => (inl EINVAL, w); n_send_ow := fun _ _ _ _ => Fault;
                 n_recvmsg := recvmsg; n_recv_ow := recv_ow; n_recvmsgs_ow := recvmsgs_ow;
                 n_rfuel := 2; n_fuel := 3; n_mem := all_mem; n_page_size := 16384;
                 n_cb := true; n_msg := true; n_buf := true; n_size := 4096; n_getpid := 1; n_time := 1 |};
     f_app := app; f_app_err := app_err; f_tries := 1; f_a1 := true; f_a2 := true; f_a3 := true |}.
Definition new_table : list nl_cache_assoc := repeat assoc_0 16.

Lemma new_table_ok : mngr_ok gcops h0 (mngr new_table) new_table msock (ex_sock cb_0).
Proof.
  assert (forall a, a ∈ new_table -> a = assoc_0) as H by (intros a Ha; by apply list_elem_of_In, repeat_spec in Ha).
  split; try reflexivity.
  - intros a c Ha. by rewrite (H a Ha).
  - intros i j a b k Ha _ Hk _. apply list_elem_of_lookup_2 in Ha. by rewrite (H a Ha) in Hk.
Qed.

(** A setsockopt that knows the groups in [l]. *)
Definition joins (l : list Z) (g : Z) : option Z := if decide (g ∈ l) then None else Some EINVAL.
Definition add_1 (l : list Z) (q : list (list (list Z))) :=
  nl_cache_mngr_add_cache fill1 ops_at gcops (0, 0) (fun _ => Some request) (fun _ => object_parser ops_at (0, 0) true 1 decode)
    true (joins l) (mngr new_table) {| cache_ops := 0; types := ∅ |} 1 7 8 ex_ports (World (Done ([], h0)) ([], q)).

(** The same for a manager that provides its caches, and a registry that has the type. *)
Definition ty : cache_type := {| ct_ops := gcops 1; co_refcnt := 0; co_next := 0; co_major_cache := 0 |}.
Definition reg1 : mngt := {| cache_ops := 1; types := {[1 := ty]} |}.
Definition auto_mngr : nl_cache_mngr := (mngr new_table) <| cm_flags := NL_AUTO_PROVIDE |>.
Definition add_auto (q : list (list (list Z))) :=
  nl_cache_mngr_add_cache fill1 ops_at gcops (0, 0) (fun _ => Some request) (fun _ => object_parser ops_at (0, 0) true 1 decode)
    true (joins [5; 9]) auto_mngr reg1 1 7 8 ex_ports (World (Done ([], h0)) ([], q)).

Lemma auto_ok : mngr_ok gcops h0 auto_mngr new_table msock (ex_sock cb_0).
Proof. destruct new_table_ok. by split. Qed.
Lemma reg1_registered : registered reg1 [1].
Proof.
  split; [split; [done|split; [done|by exists ty]]|]. split; [repeat constructor; by intros ?%elem_of_nil|].
  split; [repeat constructor; by intros ?%elem_of_nil|]. repeat constructor. by eexists.
Qed.

Lemma nl_cache_mngr_add_cache_spec_witness :
  exists m' g' p' w' x', add_auto [[datagram [msg 2 7 8 2 1; fin 7]]] = Done (0, m', g', p', w') /\
    cm_assocs m' = Some ({| ca_cache := Some 1; ca_change := 7; ca_change_v2 := 0; ca_change_data := 8 |} :: repeat assoc_0 15) /\
    types g' !! 1 = Some (with_major (with_ct_refcnt ty 1) 1) /\
    (h ← heap_of w'; get_cache h 1) = Done x' /\ c_refcnt x' = 2.
Proof.
  opose proof* (nl_cache_mngr_add_cache_spec fill1 ops_at gcops (0, 0) (fun _ => Some request)
    (fun _ => object_parser ops_at (0, 0) true 1 decode) true (joins [5; 9]) auto_mngr new_table msock
    (ex_sock cb_0) reg1 [1] ty 1 x1 7 8 ex_ports [] h0 ([], [[datagram [msg 2 7 8 2 1; fin 7]]])) as H.
  - exact auto_ok.
  - exact h0_1.
  - exact reg1_registered.
  - reflexivity.
  - vm_compute. reflexivity.
  - intros c. rewrite <- !lookup_fmap. apply (f_equal (fun k : gmap Z Z => k !! c)). by vm_compute.
  - destruct H as (m' & g' & p' & ev' & h' & v' & l' & sync' & Hr & Hm & (a & Ha & Hl) & (t & y & Ht & Hy & Hg & Hh)).
    exists m', g', p', (World (Done (ev', h')) v'), (with_crefcnt y (c_refcnt y + 1)). split; [exact Hr|].
    split; [|split; [|split]].
    + rewrite (mo_assocs _ _ _ _ _ _ Hm), Hl. f_equal. injection Ha as <-. reflexivity.
    + rewrite Hg. injection Ht as <-. by vm_compute.
    + rewrite Hh. unfold heap_of, lib_of. cbn [w_lib]. exec_simpl. cbn [snd]. apply get_cache_done, lookup_insert_eq.
    + revert Hy. vm_compute. by intros [= <-].
Defined.

(** Groups that were joined before one cannot be are not left again: the socket
    goes on receiving their notifications. *)
Lemma join_not_undone :
  match add_1 [5] [] with Done (err, m, _, _, _) => err =? - NLE_INVAL | _ => false end = true.
Proof. by vm_compute. Qed.

(** *** Making a manager *)

Definition conn (fd : Z + Z) : connect_sys :=
  {| sys_socket := fd; sys_snd := None; sys_rcv := None; sys_bind := fun _ _ => None;
     sys_getsockname := inr (12, {| nl_family := 16; nl_pid := 4242; nl_groups := 0 |}); sys_getpid := fun _ => 4242; sys_time := fun _ => 9 |}.
Definition mk_sys (sync : Z + Z) (assocs : bool) : mngr_sys :=
  {| ms_mngr := true; ms_assocs := assocs; ms_sock := (true, true, 7); ms_sync := (true, true, 7);
     ms_connect := conn (inr 3); ms_connect_sync := conn sync; ms_fcntl := None |}.
Definition mk (sys : mngr_sys) := nl_cache_mngr_alloc (D := Z * Z) ops_at sys 0 None 0 0 ex_ports
  {| cache_ops := 0; types := ∅ |} h0.

Lemma new_mngr : match mk (mk_sys (inr 4) true) with Done (0, None, Some m, _, _, _) => cm_nassocs m =? 16 | _ => false end = true.
Proof. by vm_compute. Qed.
(** A second socket that cannot be connected is freed twice. *)
Lemma sync_freed_twice : mk (mk_sys (inl EINVAL) true) = Fault.
Proof. by vm_compute. Qed.
(** Without memory for the array, the release walks over 16 entries that are not
    there. *)
Lemma no_array_faults : mk (mk_sys (inr 4) false) = Fault.
Proof. by vm_compute. Qed.
End SampleMngr.
