(* ===== verification/Neigh.v ===== *)
(** Neighbours (lib/route/neigh.c): entries of the ARP and NDP tables and of
    bridges' forwarding tables, as objects.  The addresses of an object are values
    here; their reference counts are not followed. *)
From S2P Require Import Prelude Errors Msg Attr CString Utils Addr Hash Handlers Socket Nl NlList Object Cache CacheInv ObjAttr CacheMngt CacheDump Wire Build Rtnl.

(** ** Data *)

Definition NEIGH_ATTR_FLAGS := 1.
Definition NEIGH_ATTR_STATE := 2.
Definition NEIGH_ATTR_LLADDR := 4.
Definition NEIGH_ATTR_DST := 8.
Definition NEIGH_ATTR_CACHEINFO := 16.
Definition NEIGH_ATTR_IFINDEX := 32.
Definition NEIGH_ATTR_FAMILY := 64.
Definition NEIGH_ATTR_TYPE := 128.
Definition NEIGH_ATTR_PROBES := 256.
Definition NEIGH_ATTR_MASTER := 512.
Definition NEIGH_ATTR_VLAN := 1024.
Definition NEIGH_ATTR_ENTRY_STATE := 2048.

Definition NDA_DST := 1.
Definition NDA_LLADDR := 2.
Definition NDA_CACHEINFO := 3.
Definition NDA_PROBES := 4.
Definition NDA_VLAN := 5.
Definition NDA_MASTER := 9.
Definition NDA_ENTRY_STATE := 12.
Definition NDA_MAX := 12.
Definition NTF_SELF := 2.
Definition NUD_PERMANENT := 128.
Definition RTM_NEWNEIGH := 28.
Definition RTM_DELNEIGH := 29.
Definition RTM_GETNEIGH := 30.
Definition RTM_LCKNEIGH := 31.
Definition RTNLGRP_NEIGH := 3.

(** The four numbers of struct rtnl_ncacheinfo. *)
Record rtnl_ncacheinfo := {
  nci_confirmed : Z; nci_used : Z; nci_updated : Z; nci_refcnt : Z
}.

Record rtnl_neigh := {
  n_family : Z;
  n_ifindex : Z;
  n_state : Z;
  n_flags : Z;
  n_type : Z;
  n_lladdr : option nl_addr;
  n_dst : option nl_addr;
  n_probes : Z;
  n_cacheinfo : rtnl_ncacheinfo;
  n_state_mask : Z;
  n_flag_mask : Z;
  n_master : Z;
  n_vlan : Z;
  entry_state : Z
}.
#[export] Instance eta_neigh : Eta rtnl_neigh := fun n =>
  {| n_family := n_family n; n_ifindex := n_ifindex n; n_state := n_state n; n_flags := n_flags n;
     n_type := n_type n; n_lladdr := n_lladdr n; n_dst := n_dst n; n_probes := n_probes n;
     n_cacheinfo := n_cacheinfo n; n_state_mask := n_state_mask n; n_flag_mask := n_flag_mask n;
     n_master := n_master n; n_vlan := n_vlan n; entry_state := entry_state n |}.

(** Zeroed storage. *)
Definition neigh_0 : rtnl_neigh :=
  {| n_family := 0; n_ifindex := 0; n_state := 0; n_flags := 0; n_type := 0; n_lladdr := None;
     n_dst := None; n_probes := 0;
     n_cacheinfo := {| nci_confirmed := 0; nci_used := 0; nci_updated := 0; nci_refcnt := 0 |};
     n_state_mask := 0; n_flag_mask := 0; n_master := 0; n_vlan := 0; entry_state := 0 |}.

Abbreviation neigh := (body rtnl_neigh).

(** ** Getting and setting *)

Definition rtnl_neigh_set_state (n : neigh) (state : Z) : neigh :=
  fill_attr n NEIGH_ATTR_STATE (fun d => d <| n_state_mask := Z.lor (n_state_mask d) (u32 state) |>
       <| n_state := u16 (Z.lor (n_state d) (u32 state)) |>).
Definition rtnl_neigh_get_state (n : neigh) : Z :=
  if has_attr n NEIGH_ATTR_STATE then n_state (ce_data n) else -1.
Definition rtnl_neigh_get_entry_state (n : neigh) : Z :=
  if has_attr n NEIGH_ATTR_ENTRY_STATE then entry_state (ce_data n) else -1.
Definition rtnl_neigh_get_updated (n : neigh) : Z :=
  if has_attr n NEIGH_ATTR_CACHEINFO then s32 (nci_updated (n_cacheinfo (ce_data n))) else -1.
Definition rtnl_neigh_unset_state (n : neigh) (state : Z) : neigh :=
  fill_attr n NEIGH_ATTR_STATE (fun d => d <| n_state_mask := Z.lor (n_state_mask d) (u32 state) |>
       <| n_state := u16 (Z.land (n_state d) (Z.lnot state)) |>).
Definition rtnl_neigh_set_flags (n : neigh) (flags : Z) : neigh :=
  fill_attr n NEIGH_ATTR_FLAGS (fun d => d <| n_flag_mask := Z.lor (n_flag_mask d) (u32 flags) |>
       <| n_flags := u8 (Z.lor (n_flags d) (u32 flags)) |>).
Definition rtnl_neigh_get_flags (n : neigh) : Z := n_flags (ce_data n).
Definition rtnl_neigh_unset_flags (n : neigh) (flags : Z) : neigh :=
  fill_attr n NEIGH_ATTR_FLAGS (fun d => d <| n_flag_mask := Z.lor (n_flag_mask d) (u32 flags) |>
       <| n_flags := u8 (Z.land (n_flags d) (Z.lnot flags)) |>).
Definition rtnl_neigh_set_ifindex (n : neigh) (ifindex : Z) : neigh :=
  fill_attr n NEIGH_ATTR_IFINDEX (fun d => d <| n_ifindex := u32 ifindex |>).
Definition rtnl_neigh_get_ifindex (n : neigh) : Z := s32 (n_ifindex (ce_data n)).

(** [set]: storing the address in the member [pos] points to. *)
Definition __assign_addr (n : neigh) (set : rtnl_neigh -> rtnl_neigh) (new : nl_addr) (flag : Z)
    (nocheck : bool) : Z * neigh :=
  let assign n := fill_attr n flag set in
  if negb nocheck then
    if has_attr n NEIGH_ATTR_FAMILY then
      if negb (u32 (a_family new) =? n_family (ce_data n)) then (- NLE_AF_MISMATCH, n)
      else (0, assign n)
    else
      (0, assign (fill_attr n NEIGH_ATTR_FAMILY (fun d => d <| n_family := u32 (a_family new) |>)))
  else (0, assign n).

Definition rtnl_neigh_set_lladdr (n : neigh) (addr : nl_addr) : neigh :=
  (__assign_addr n (fun d => d <| n_lladdr := Some addr |>) addr NEIGH_ATTR_LLADDR true).2.
Definition rtnl_neigh_get_lladdr (n : neigh) : option nl_addr :=
  if has_attr n NEIGH_ATTR_LLADDR then n_lladdr (ce_data n) else None.
Definition rtnl_neigh_set_dst (n : neigh) (addr : nl_addr) : Z * neigh :=
  __assign_addr n (fun d => d <| n_dst := Some addr |>) addr NEIGH_ATTR_DST false.
Definition rtnl_neigh_get_dst (n : neigh) : option nl_addr :=
  if has_attr n NEIGH_ATTR_DST then n_dst (ce_data n) else None.
Definition rtnl_neigh_set_family (n : neigh) (family : Z) : neigh :=
  fill_attr n NEIGH_ATTR_FAMILY (fun d => d <| n_family := u32 family |>).
Definition rtnl_neigh_get_family (n : neigh) : Z := s32 (n_family (ce_data n)).
Definition rtnl_neigh_set_type (n : neigh) (type : Z) : neigh :=
  let d := ce_data n in Body NEIGH_ATTR_TYPE (d <| n_type := u8 type |>).
Definition rtnl_neigh_get_type (n : neigh) : Z :=
  if has_attr n NEIGH_ATTR_TYPE then n_type (ce_data n) else -1.
Definition rtnl_neigh_set_vlan (n : neigh) (vlan : Z) : neigh :=
  fill_attr n NEIGH_ATTR_VLAN (fun d => d <| n_vlan := u16 vlan |>).
Definition rtnl_neigh_get_vlan (n : neigh) : Z :=
  if has_attr n NEIGH_ATTR_VLAN then n_vlan (ce_data n) else -1.
Definition rtnl_neigh_set_master (n : neigh) (ifindex : Z) : neigh :=
  fill_attr n NEIGH_ATTR_MASTER (fun d => d <| n_master := u32 ifindex |>).
Definition rtnl_neigh_get_master (n : neigh) : Z := s32 (n_master (ce_data n)).

(** ** Neighbours as objects *)

Definition neigh_clone (c : bool) (dst : rtnl_neigh) (src : neigh) : Z * rtnl_neigh :=
  match clone_addr c (n_lladdr (ce_data src)) with
  | None => (- NLE_NOMEM, dst <| n_lladdr := @None nl_addr |>)
  | Some a =>
      let dst := store_clone (fun a (d : rtnl_neigh) => d <| n_lladdr := a |>) a dst in
      match clone_addr c (n_dst (ce_data src)) with
      | None => (- NLE_NOMEM, dst <| n_dst := @None nl_addr |>)
      | Some a => (0, store_clone (fun a (d : rtnl_neigh) => d <| n_dst := a |>) a dst)
      end
  end.

(** struct neigh_hash_key. *)
Definition neigh_hash_key (family ifindex vlan : Z) (addr : list Z) : list Z :=
  le_encode 4 family ++ le_encode 4 ifindex ++ le_encode 2 vlan ++ addr.

Definition neigh_keygen (c : bool) (n : neigh) (table_sz : Z) : Z :=
  let d := ce_data n in
  let addr := if n_family d =? AF_BRIDGE then n_lladdr d else n_dst d in
  if negb c then 0
  else
    let bytes := match addr with Some a => sub (a_addr a) 0 (a_len a) | None => [] end in
    let key :=
      if n_family d =? AF_BRIDGE
      then neigh_hash_key (n_family d) (if has_flag (n_flags d) NTF_SELF then n_ifindex d else n_master d)
             (n_vlan d) bytes
      else neigh_hash_key (n_family d) (n_ifindex d) 0 bytes in
    match nl_hash key (zlen key) 0 with Done h => h mod table_sz | _ => 0 end.

Definition neigh_compare (a b : neigh) (attrs flags : Z) : Z :=
  let x := ce_data a in let y := ce_data b in
  attr_diffs attrs a b
    ([(NEIGH_ATTR_IFINDEX, negb (n_ifindex x =? n_ifindex y));
      (NEIGH_ATTR_FAMILY, negb (n_family x =? n_family y));
      (NEIGH_ATTR_TYPE, negb (n_type x =? n_type y));
      (NEIGH_ATTR_LLADDR, addr_differs (n_lladdr x) (n_lladdr y));
      (NEIGH_ATTR_DST, addr_differs (n_dst x) (n_dst y));
      (NEIGH_ATTR_MASTER, negb (n_master x =? n_master y));
      (NEIGH_ATTR_VLAN, negb (n_vlan x =? n_vlan y))] ++
     if has_flag flags LOOSE_COMPARISON then
       [(NEIGH_ATTR_STATE, negb (Z.land (Z.lxor (n_state x) (n_state y)) (n_state_mask y) =? 0));
        (NEIGH_ATTR_FLAGS, negb (Z.land (Z.lxor (n_flags x) (n_flags y)) (n_flag_mask y) =? 0))]
     else
       [(NEIGH_ATTR_STATE, negb (n_state x =? n_state y));
        (NEIGH_ATTR_FLAGS, negb (n_flags x =? n_flags y))]).

Definition neigh_attrs : list trans_tbl :=
  [Tr 1 "flags"; Tr 2 "state"; Tr 4 "lladdr"; Tr 8 "dst"; Tr 16 "cacheinfo"; Tr 32 "ifindex";
   Tr 64 "family"; Tr 128 "type"; Tr 256 "probes"; Tr 512 "master"; Tr 1024 "vlan";
   Tr 2048 "entry_state"].
Definition neigh_attrs2str (attrs len : Z) : exec (list Z) := __flags2str attrs len neigh_attrs.

Definition neigh_id_attrs : Z := 104.   (* IFINDEX, DST, FAMILY *)
Definition neigh_id_attrs_get (n : neigh) : Z :=
  let d := ce_data n in
  if n_family d =? AF_BRIDGE then
    if has_flag (n_flags d) NTF_SELF then
      Z.lor (Z.lor (Z.lor (Z.lor NEIGH_ATTR_LLADDR NEIGH_ATTR_FAMILY) NEIGH_ATTR_IFINDEX)
        (if has_attr n NEIGH_ATTR_DST then NEIGH_ATTR_DST else 0))
        (if has_attr n NEIGH_ATTR_VLAN then NEIGH_ATTR_VLAN else 0)
    else Z.lor (Z.lor (Z.lor NEIGH_ATTR_LLADDR NEIGH_ATTR_FAMILY) NEIGH_ATTR_MASTER) NEIGH_ATTR_VLAN
  else neigh_id_attrs.

Definition neigh_obj_ops (c : bool) : nl_object_ops rtnl_neigh :=
  {| oo_name := "route/neigh"; oo_size := 128; oo_id_attrs := neigh_id_attrs; oo_constructor := None;
     oo_free_data := true; oo_clone := Some (neigh_clone c); oo_compare := Some neigh_compare;
     oo_update := None; oo_keygen := Some (neigh_keygen c); oo_id_attrs_get := Some neigh_id_attrs_get |}.

(** *** Text *)

Definition neigh_states : list trans_tbl :=
  [Tr 1 "incomplete"; Tr 2 "reachable"; Tr 4 "stale"; Tr 8 "delay"; Tr 16 "probe";
   Tr 32 "failed"; Tr 64 "noarp"; Tr 128 "permanent"; Tr 64 "norarp"].
Definition rtnl_neigh_state2str (state len : Z) : exec (list Z) :=
  __flags2str state len (take (length neigh_states - 1) neigh_states).
Definition rtnl_neigh_str2state (name : list Z) : Z := __str2type name neigh_states.
Definition neigh_flags : list trans_tbl :=
  [Tr 1 "use"; Tr 8 "proxy"; Tr 128 "router"; Tr 2 "self"; Tr 4 "master"; Tr 16 "ext_learned";
   Tr 32 "offloaded"].
Definition rtnl_neigh_flags2str (flags len : Z) : exec (list Z) := __flags2str flags len neigh_flags.
Definition rtnl_neigh_str2flag (name : list Z) : Z := __str2type name neigh_flags.

(** ** Parsing *)

Definition neigh_policy : list nla_policy :=
  [pol_of 0; pol_of 0; pol_of 0; pol_min 16; pol_of NLA_U32] ++ replicate 8 (pol_of 0).

(** An address attribute whose family is guessed from its length. *)
Definition guessed_addr (b : list Z) (c : bool) (nla : Z) : exec (Z + nl_addr) :=
  a ←! addr_of_attr b c nla AF_UNSPEC;
  ok (nl_addr_set_family a (nl_addr_guess_family a)).

(** [c t]: whether the address of attribute [t] can be allocated; [link_master]:
    the l_master of the link of an index in the cache of links, if there is such
    a cache and link. *)
Section Parse.
Variable c : Z -> bool.
Variable link_master : Z -> option Z.

Definition neigh_hdr_data (family ifindex state flags type : Z) : rtnl_neigh :=
  {| n_family := family; n_ifindex := ifindex; n_state := state; n_flags := flags; n_type := type;
     n_lladdr := None; n_dst := None; n_probes := 0; n_cacheinfo := n_cacheinfo neigh_0;
     n_state_mask := 0; n_flag_mask := 0; n_master := 0; n_vlan := 0; entry_state := 0 |}.
Definition neigh_hdr_attrs : Z :=
  Z.lor (Z.lor (Z.lor (Z.lor NEIGH_ATTR_FAMILY NEIGH_ATTR_IFINDEX) NEIGH_ATTR_STATE) NEIGH_ATTR_FLAGS)
    NEIGH_ATTR_TYPE.
Definition rtnl_neigh_parse (b : list Z) : exec (Z + neigh) :=
  let nm := nlmsg_data 0 in
  '(e, tb) ← nlmsg_parse b 0 12 NDA_MAX (Some neigh_policy);
  if e <? 0 then mret (inl e)
  else
    family ← get_u8 b nm;
    ifindex ← get_u32 b (nm + 4);
    state ← get_u16 b (nm + 8);
    flags ← get_u8 b (nm + 10);
    type ← get_u8 b (nm + 11);
    let n := Body neigh_hdr_attrs (neigh_hdr_data family ifindex state flags type) in
    n ←! if_attr_or tb NDA_LLADDR (fun nla n =>
           a ←! guessed_addr b (c NDA_LLADDR) nla;
           ok (fill_attr n NEIGH_ATTR_LLADDR (fun d => d <| n_lladdr := Some a |>))) n;
    n ←! if_attr_or tb NDA_DST (fun nla n =>
           a ←! guessed_addr b (c NDA_DST) nla;
           ok (fill_attr n NEIGH_ATTR_DST (fun d => d <| n_dst := Some a |>))) n;
    n ← if_attr tb NDA_CACHEINFO (fun nla n =>
          confirmed ← get_u32 b (nla_data nla);
          used ← get_u32 b (nla_data nla + 4);
          updated ← get_u32 b (nla_data nla + 8);
          refcnt ← get_u32 b (nla_data nla + 12);
          mret (fill_attr n NEIGH_ATTR_CACHEINFO (fun d => d <| n_cacheinfo := {| nci_confirmed := confirmed; nci_used := used;
                                    nci_updated := updated; nci_refcnt := refcnt |} |>))) n;
    n ← if_attr tb NDA_PROBES (fun nla n =>
          v ← nla_get_u32 b nla;
          mret (fill_attr n NEIGH_ATTR_PROBES (fun d => d <| n_probes := v |>))) n;
    n ← if_attr tb NDA_VLAN (fun nla n =>
          v ← nla_get_u16 b nla;
          mret (fill_attr n NEIGH_ATTR_VLAN (fun d => d <| n_vlan := v |>))) n;
    n ← if_attr tb NDA_ENTRY_STATE (fun nla n =>
          v ← nla_get_u16 b nla;
          mret (fill_attr n NEIGH_ATTR_ENTRY_STATE (fun d => d <| entry_state := v |>))) n;
    if n_family (ce_data n) =? AF_BRIDGE then
      master ← tb_at tb NDA_MASTER;
      match master with
      | Some nla =>
          v ← nla_get_u32 b nla;
          ok (fill_attr n NEIGH_ATTR_MASTER (fun d => d <| n_master := v |>))
      | None =>
          match link_master (s32 (n_ifindex (ce_data n))) with
          | Some m =>
              ok (fill_attr n NEIGH_ATTR_MASTER (fun d => d <| n_master := u32 m |>))
          | None => ok n
          end
      end
    else ok n.

(** The address of [neigh_obj_ops]. *)
Definition NEIGH_OPS : Z := 1.
Definition neigh_ops_at (_ : Z) : nl_object_ops rtnl_neigh := neigh_obj_ops true.

Definition neigh_msg_parser (c0 : bool) : parser_t (D := rtnl_neigh) :=
  object_parser neigh_ops_at neigh_0 c0 NEIGH_OPS rtnl_neigh_parse.
End Parse.

Definition rtnl_neigh_alloc (c : bool) (h : heap rtnl_neigh) :=
  nl_object_alloc neigh_ops_at c neigh_0 h NEIGH_OPS.
Definition rtnl_neigh_put (h : heap rtnl_neigh) (o : Z) := nl_object_put neigh_ops_at h (Some o).

(** ** Composing requests *)

(** struct ndmsg. *)
Definition ndmsg (family ifindex state flags type : Z) : list Z :=
  [u8 family; 0; 0; 0] ++ le_encode 4 ifindex ++ le_encode 2 state ++ [u8 flags; u8 type].

(** [c1], [c2]: the allocations of the message. *)
Definition build_neigh_msg (c1 c2 : bool) (default_msg_size : Z) (tmpl : neigh) (cmd flags : Z)
    : exec (Z + nl_msg) :=
  let d := ce_data tmpl in
  let bridge := n_family d =? AF_BRIDGE in
  if negb bridge && negb (has_attr tmpl NEIGH_ATTR_DST) then err NLE_MISSING_ATTR
  else
    family ← (if bridge then mret AF_BRIDGE
              else match n_dst d with Some a => mret (nl_addr_get_family a) | None => Fault end);
    let nhdr := ndmsg family (n_ifindex d)
                  (if has_attr tmpl NEIGH_ATTR_STATE then n_state d else NUD_PERMANENT)
                  (if has_attr tmpl NEIGH_ATTR_FLAGS then n_flags d else 0) 0 in
    msg ←! start_msg c1 c2 default_msg_size cmd flags nhdr;
    msg ←! put_if (negb bridge) (NLA_PUT_ADDR NDA_DST (n_dst d)) msg;
    msg ←! put_if (has_attr tmpl NEIGH_ATTR_LLADDR) (NLA_PUT_ADDR NDA_LLADDR (n_lladdr d)) msg;
    put_if (has_attr tmpl NEIGH_ATTR_VLAN) (NLA_PUT_U16 NDA_VLAN (n_vlan d)) msg.

Definition rtnl_neigh_build_add_request c1 c2 default_msg_size (tmpl : neigh) (flags : Z) :=
  build_neigh_msg c1 c2 default_msg_size tmpl RTM_NEWNEIGH flags.
Definition rtnl_neigh_build_delete_request c1 c2 default_msg_size (n : neigh) (flags : Z) :=
  build_neigh_msg c1 c2 default_msg_size n RTM_DELNEIGH flags.

Section Requests.
Context {W : Type}.
Variable n : net W.
Definition rtnl_neigh_add (p : port_map) (sk : nl_sock) (tmpl : neigh) (flags : Z) (w : W) :=
  request_and_ack n (rtnl_neigh_build_add_request (n_msg n) (n_buf n) (n_size n) tmpl flags) p sk w.
Definition rtnl_neigh_delete (p : port_map) (sk : nl_sock) (tmpl : neigh) (flags : Z) (w : W) :=
  request_and_ack n (rtnl_neigh_build_delete_request (n_msg n) (n_buf n) (n_size n) tmpl flags) p sk w.

(** struct ifinfomsg with nothing but a family. *)
Definition ifinfomsg_family (family : Z) : list Z := u8 family :: zeros 15.

Definition neigh_request_update (c : nl_cache) (h : nl_sock) (p : port_map) (w : W)
    : exec (Z * nl_sock * port_map * W) :=
  let family := c_iarg1 c in
  let hdr := ifinfomsg_family family in
  if family =? AF_UNSPEC then net_send_simple n p h RTM_GETNEIGH NLM_F_DUMP hdr w
  else if family =? AF_BRIDGE then
    m ← start_msg (n_msg n) (n_buf n) (n_size n) RTM_GETNEIGH (Z.lor NLM_F_REQUEST NLM_F_DUMP) hdr;
    match m with
    | inl e => mret (e, h, p, w)
    | inr msg =>
        '(e, h, msg, p, w) ← net_send_auto n p h msg w;
        _ ← nlmsg_free (Some msg);
        mret (if 0 <? e then 0 else e, h, p, w)
    end
  else mret (- NLE_INVAL, h, p, w).
End Requests.

(** ** The cache *)

Definition neigh_groups : list nl_af_group :=
  [{| ag_family := AF_UNSPEC; ag_group := RTNLGRP_NEIGH |};
   {| ag_family := AF_BRIDGE; ag_group := RTNLGRP_NEIGH |}].
Definition rtnl_neigh_ops : nl_cache_ops :=
  {| co_name := Some (str "route/neigh"); co_hdrsize := 12; co_protocol := NETLINK_ROUTE;
     co_hash_size := 0; co_flags := 0; co_groups := Some neigh_groups; co_obj_ops := NEIGH_OPS;
     co_msgtypes := [{| mt_id := RTM_NEWNEIGH; mt_act := NL_ACT_NEW; mt_name := str "new" |};
                     {| mt_id := RTM_DELNEIGH; mt_act := NL_ACT_DEL; mt_name := str "del" |};
                     {| mt_id := RTM_GETNEIGH; mt_act := NL_ACT_GET; mt_name := str "get" |};
                     {| mt_id := RTM_LCKNEIGH; mt_act := NL_ACT_GET; mt_name := str "lck" |}] |}.

Definition rtnl_neigh_get (h : heap rtnl_neigh) (cache ifindex : Z) (dst : nl_addr)
    : exec (option Z * heap rtnl_neigh) :=
  find_item h cache (fun x =>
    let n := ce_data (ce_body x) in
    if (n_ifindex n =? u32 ifindex) && (n_family n =? u32 (a_family dst))
    then d ← nl_addr_cmp (n_dst n) (Some dst); mret (d =? 0) else mret false).
Definition rtnl_neigh_get_by_vlan (h : heap rtnl_neigh) (cache ifindex : Z) (lladdr : nl_addr) (vlan : Z)
    : exec (option Z * heap rtnl_neigh) :=
  find_item h cache (fun x =>
    let n := ce_data (ce_body x) in
    if (n_ifindex n =? u32 ifindex) && (n_vlan n =? vlan) && is_some (n_lladdr n)
    then d ← nl_addr_cmp (n_lladdr n) (Some lladdr); mret (d =? 0) else mret false).

(** [type]: the address of [rtnl_neigh_ops]; [c0]: whether objects can be
    allocated. *)
Section NeighCache.
Context {V : Type}.
Variable f : filling rtnl_neigh V.
Variable type : Z.
Variable c0 : bool.
Variable c : Z -> bool.
Variable link_master : Z -> option Z.
Abbreviation cops := (fun _ : Z => rtnl_neigh_ops).
Abbreviation request := (fun _ : Z => Some (neigh_request_update (f_net f))).
Abbreviation parser := (fun _ : Z => neigh_msg_parser c link_master c0).

Definition rtnl_neigh_alloc_cache := cache_fill f neigh_ops_at cops neigh_0 request parser type.
Definition rtnl_neigh_alloc_cache_flags (flags : Z) :=
  cache_init_fill f neigh_ops_at cops neigh_0 request parser (fun x => nl_cache_set_flags x flags)
    (fun h c => nl_cache_free neigh_ops_at h (Some c)) type.
End NeighCache.

(** ** Well-formed neighbours *)

Record neigh_wf (n : neigh) : Prop := {
  nw_family : 0 <= n_family (ce_data n) < 2 ^ 32;
  nw_ifindex : 0 <= n_ifindex (ce_data n) < 2 ^ 32;
  nw_state : 0 <= n_state (ce_data n) < 2 ^ 16;
  nw_flags : 0 <= n_flags (ce_data n) < 2 ^ 8;
  nw_vlan : 0 <= n_vlan (ce_data n) < 2 ^ 16;
  nw_lladdr : addr_opt_ok (n_lladdr (ce_data n));
  nw_dst : addr_opt_ok (n_dst (ce_data n));
  nw_has_lladdr : has_attr n NEIGH_ATTR_LLADDR = true -> is_Some (n_lladdr (ce_data n));
  nw_has_dst : has_attr n NEIGH_ATTR_DST = true -> is_Some (n_dst (ce_data n))
}.

(** ** What is sent *)

Definition sent_bridge (n : neigh) : bool := n_family (ce_data n) =? AF_BRIDGE.
Definition sent_family (n : neigh) : Z :=
  if sent_bridge n then AF_BRIDGE else from_option a_family 0 (n_dst (ce_data n)).
Definition neigh_hdr (n : neigh) : list Z :=
  ndmsg (sent_family n) (n_ifindex (ce_data n))
    (if has_attr n NEIGH_ATTR_STATE then n_state (ce_data n) else NUD_PERMANENT)
    (if has_attr n NEIGH_ATTR_FLAGS then n_flags (ce_data n) else 0) 0.
Definition neigh_fields (n : neigh) : list (Z * option (list Z)) :=
  [(NDA_DST, if negb (sent_bridge n) then addr_bytes <$> n_dst (ce_data n) else None);
   (NDA_LLADDR, if has_attr n NEIGH_ATTR_LLADDR then addr_bytes <$> n_lladdr (ce_data n) else None);
   (NDA_VLAN, if has_attr n NEIGH_ATTR_VLAN then Some (le_encode 2 (n_vlan (ce_data n))) else None)].

(** Whether a request can be made at all. *)
Definition sendable (n : neigh) : bool := sent_bridge n || has_attr n NEIGH_ATTR_DST.

Lemma build_neigh_fields c1 c2 size n cmd flags :
  neigh_wf n ->
  build_neigh_msg c1 c2 size n cmd flags =
    if sendable n
    then (m ←! start_msg c1 c2 size cmd flags (neigh_hdr n); put_fields (neigh_fields n) m)
    else Done (inl (- NLE_MISSING_ATTR)).
Proof.
  intros Hw. unfold build_neigh_msg, sendable, neigh_hdr, sent_family, neigh_fields. cbv zeta.
  fold (sent_bridge n). pose proof (nw_has_dst n Hw) as Hdst.
  destruct (sent_bridge n || has_attr n NEIGH_ATTR_DST) eqn:Hs.
  2: { apply orb_false_iff in Hs as [-> ->]. done. }
  assert (negb (sent_bridge n) = true -> is_Some (n_dst (ce_data n))) as Hd.
  { intros Hb. apply Hdst. apply orb_true_iff in Hs as [Hs|Hs]; [by rewrite Hs in Hb|done]. }
  replace (negb (sent_bridge n) && negb (has_attr n NEIGH_ATTR_DST)) with false
    by (apply orb_true_iff in Hs as [->| ->]; [done|by destruct (sent_bridge n)]).
  match goal with |- mbind _ ?x = _ => replace x with (Done (sent_family n)) end.
  2: { unfold sent_family. destruct (sent_bridge n); [done|]. by destruct Hd as [a ->]. }
  exec_simpl. unfold sent_family. apply run_or_ext. intros m. cbn [put_fields].
  rewrite put_addr_opt; [|done|intros a; apply addr_opt_some, Hw]. apply run_or_ext. intros m2.
  rewrite put_addr_opt; [|apply Hw|intros a; apply addr_opt_some, Hw]. apply run_or_ext. intros m3.
  rewrite run_or_ok_r. by apply put_if_field.
Qed.

Lemma neigh_fields_fit n : neigh_wf n -> Forall attr_fits (enc (neigh_fields n)).
Proof.
  intros Hw. apply fields_fit. unfold neigh_fields.
  repeat apply Forall_cons_2; [..|apply Forall_nil_2]; cbn [fst snd].
  - split; [done|]. apply addr_field_fits, Hw.
  - split; [done|]. apply addr_field_fits, Hw.
  - split; [done|]. destruct (has_attr n NEIGH_ATTR_VLAN); simpl; [|done]. split; [auto with nl|].
    by rewrite zlen_le_encode.
Qed.

Lemma ndmsg_ok family ifindex state flags type :
  bytes_ok (ndmsg family ifindex state flags type) /\ zlen (ndmsg family ifindex state flags type) = 12.
Proof.
  split; [|unfold ndmsg; rewrite !zlen_app, !zlen_le_encode; done].
  unfold ndmsg. rewrite !bytes_ok_app. split_and!; auto with nl;
    repeat (apply Forall_cons_2; [unfold u8; zdiv_lia|]); apply Forall_nil_2.
Qed.

(** Building a request from a well-formed neighbour: never a fault. *)
Lemma build_neigh_done c1 c2 size n cmd flags :
  neigh_wf n -> size < 2147483648 ->
  exists r, build_neigh_msg c1 c2 size n cmd flags = Done r /\
    if sendable n then build_result c1 c2 size cmd flags (neigh_hdr n) (enc (neigh_fields n)) r
    else r = inl (- NLE_MISSING_ATTR).
Proof.
  intros Hw Hs. rewrite build_neigh_fields by done. destruct (sendable n); [|by eexists].
  destruct (ndmsg_ok (sent_family n) (n_ifindex (ce_data n))
    (if has_attr n NEIGH_ATTR_STATE then n_state (ce_data n) else NUD_PERMANENT)
    (if has_attr n NEIGH_ATTR_FLAGS then n_flags (ce_data n) else 0) 0) as [H1 H2].
  apply build_done; [done|done|unfold neigh_hdr; lia|by apply neigh_fields_fit].
Qed.

(** ** Reading back a request *)

Lemma ndmsg_fields family ifindex state flags type :
  let h := ndmsg family ifindex state flags type in
  le_at 1 h 0 = u8 family /\ le_at 4 h 4 = u32 ifindex /\ le_at 2 h 8 = u16 state /\
  le_at 1 h 10 = u8 flags /\ le_at 1 h 11 = u8 type.
Proof.
  intros h. split_and!.
  - change (le_at 1 h 0) with (u8 family + 256 * 0). lia.
  - change (le_at 4 h 4) with (le_decode (le_encode 4 ifindex)). apply le_decode_encode.
  - change (le_at 2 h 8) with (le_decode (le_encode 2 state)). apply le_decode_encode.
  - change (le_at 1 h 10) with (u8 flags + 256 * 0). lia.
  - change (le_at 1 h 11) with (u8 type + 256 * 0). lia.
Qed.

(** The address read from an attribute with the bytes [d]. *)
Definition addr_read (d : list Z) : nl_addr :=
  let a := addr_made AF_UNSPEC d in nl_addr_set_family a (nl_addr_guess_family a).

Lemma guessed_addr_done b nla d : attr_at b nla d -> guessed_addr b true nla = ok (addr_read d).
Proof. intros Ha. unfold guessed_addr. by rewrite (addr_of_attr_done b nla d). Qed.

(** What the parser makes of the request for [n]. *)
Definition neigh_sent (link_master : Z -> option Z) (n : neigh) : neigh :=
  let d := ce_data n in
  let field t := field (neigh_fields n) t in
  let bit t attr := if is_some (field t) then attr else 0 in
  let master := if u8 (sent_family n) =? AF_BRIDGE then link_master (s32 (n_ifindex d)) else None in
  Body (Z.lor (Z.lor (Z.lor (Z.lor neigh_hdr_attrs (bit NDA_LLADDR NEIGH_ATTR_LLADDR))
                (bit NDA_DST NEIGH_ATTR_DST)) (bit NDA_VLAN NEIGH_ATTR_VLAN))
          (if is_some master then NEIGH_ATTR_MASTER else 0))
    {| n_family := u8 (sent_family n);
       n_ifindex := n_ifindex d;
       n_state := if has_attr n NEIGH_ATTR_STATE then n_state d else NUD_PERMANENT;
       n_flags := if has_attr n NEIGH_ATTR_FLAGS then n_flags d else 0;
       n_type := 0;
       n_lladdr := addr_read <$> field NDA_LLADDR;
       n_dst := addr_read <$> field NDA_DST;
       n_probes := 0; n_cacheinfo := n_cacheinfo neigh_0; n_state_mask := 0; n_flag_mask := 0;
       n_master := from_option u32 0 master;
       n_vlan := if has_attr n NEIGH_ATTR_VLAN then n_vlan d else 0;
       entry_state := 0 |}.

Lemma neigh_policy_ok : policy_opt_ok NDA_MAX (Some neigh_policy).
Proof. by apply policy_okb_ok. Qed.

Lemma neigh_content_ok n : Forall (content_ok NDA_MAX (Some neigh_policy)) (enc (neigh_fields n)).
Proof.
  apply Forall_enc. unfold neigh_fields.
  repeat apply Forall_cons_2; [..|apply Forall_nil_2]; cbn [fst snd];
    match goal with |- from_option _ _ ?o => destruct o as [d|]; [|done] end;
    intros _; (eexists; split; [reflexivity|by apply entry_ok_any]).
Qed.

Lemma u8_family n : sent_bridge n = true -> u8 (sent_family n) = AF_BRIDGE.
Proof. intros H. unfold sent_family. by rewrite H. Qed.

(** A message built from a neighbour is parsed into what [neigh_sent] says. *)
Lemma neigh_parse_built lm m size type flags n :
  neigh_wf n -> built m size type flags (neigh_hdr n) (enc (neigh_fields n)) ->
  rtnl_neigh_parse (fun _ => true) lm (nm_nlh m) = ok (neigh_sent lm n).
Proof.
  intros Hw Hb. unfold rtnl_neigh_parse.
  set (st := if has_attr n NEIGH_ATTR_STATE then n_state (ce_data n) else NUD_PERMANENT).
  set (fl := if has_attr n NEIGH_ATTR_FLAGS then n_flags (ce_data n) else 0).
  destruct (ndmsg_ok (sent_family n) (n_ifindex (ce_data n)) st fl 0) as [Hhb Hhl].
  destruct (ndmsg_fields (sent_family n) (n_ifindex (ce_data n)) st fl 0) as (F1 & F2 & F3 & F4 & F5).
  change (ndmsg (sent_family n) (n_ifindex (ce_data n)) st fl 0) with (neigh_hdr n) in *.
  destruct (built_parse m size type flags _ _ NDA_MAX (Some neigh_policy) Hb) as (tb & Hp & Ht);
    [lia|apply neigh_policy_ok|apply neigh_content_ok|].
  rewrite Hhl in Hp. rewrite Hp. exec_simpl. change (0 <? 0) with false. cbv iota. change (nlmsg_data 0) with 16.
  change (get_u8 (nm_nlh m) 16) with (get_u8 (nm_nlh m) (16 + 0)). hdr_get Hb 0 F1. hdr_get Hb 4 F2. hdr_get Hb 8 F3. hdr_get Hb 10 F4. hdr_get Hb 11 F5.
  set (n0 := Body _ _).
  assert (NoDup (map fst (neigh_fields n))) as Hnd by (apply (bool_decide_unpack _); reflexivity).
  rewrite (table_or _ _ _ _ NDA_LLADDR _ (fun d n =>
    fill_attr n NEIGH_ATTR_LLADDR (fun x => x <| n_lladdr := Some (addr_read d) |>)) _ Ht);
    [|done|intros nla d _ Hat; by rewrite (guessed_addr_done _ _ _ Hat)].
  rewrite attr_of_enc, run_or_ok by done.
  rewrite (table_or _ _ _ _ NDA_DST _ (fun d n =>
    fill_attr n NEIGH_ATTR_DST (fun x => x <| n_dst := Some (addr_read d) |>)) _ Ht);
    [|done|intros nla d _ Hat; by rewrite (guessed_addr_done _ _ _ Hat)].
  rewrite attr_of_enc, run_or_ok by done.
  rewrite (table_skip _ _ _ _ NDA_CACHEINFO _ _ Ht) by (by rewrite ?attr_of_enc). exec_simpl.
  rewrite (table_skip _ _ _ _ NDA_PROBES _ _ Ht) by (by rewrite ?attr_of_enc). exec_simpl.
  rewrite (table_if _ _ _ _ NDA_VLAN _ (fun d n =>
    fill_attr n NEIGH_ATTR_VLAN (fun x => x <| n_vlan := le_decode d |>)) _ Ht); [|done|].
  2: { intros nla d Hd Hat. rewrite attr_of_enc in Hd by done. simpl in Hd.
       destruct (has_attr n NEIGH_ATTR_VLAN); [|done]. injection Hd as <-. by rewrite (attr_get_u16 _ _ _ Hat). }
  rewrite attr_of_enc by done. exec_simpl.
  rewrite (table_skip _ _ _ _ NDA_ENTRY_STATE _ _ Ht) by (by rewrite ?attr_of_enc). exec_simpl.
  rewrite (table_none _ _ _ _ NDA_MASTER Ht) by (by rewrite ?attr_of_enc). exec_simpl.
  assert (u16 st = st) as Est by (apply u16_id; unfold st; destruct (has_attr n NEIGH_ATTR_STATE); [apply Hw|done]).
  assert (u8 fl = fl) as Efl by (apply Z.mod_small; unfold fl; destruct (has_attr n NEIGH_ATTR_FLAGS); [apply Hw|done]).
  unfold n0. rewrite Est, Efl, u32_id by apply Hw. unfold neigh_sent. cbv zeta. fold st fl.
  assert (field (neigh_fields n) NDA_VLAN =
    if has_attr n NEIGH_ATTR_VLAN then Some (le_encode 2 (n_vlan (ce_data n))) else None) as Fv by done.
  assert (le_decode (le_encode 2 (n_vlan (ce_data n))) = n_vlan (ce_data n)) as Hv
    by (rewrite le_decode_encode; apply Z.mod_small, Hw).
  rewrite Fv. revert Hv. generalize (n_vlan (ce_data n)) as v. intros v Hv.
  destruct (has_attr n NEIGH_ATTR_VLAN), (field (neigh_fields n) NDA_LLADDR), (field (neigh_fields n) NDA_DST);
    cbv beta iota zeta delta [fill_attr neigh_hdr_data ce_data ce_mask n_family n_ifindex n_state n_flags n_type
      n_lladdr n_dst n_probes n_cacheinfo n_state_mask n_flag_mask n_master n_vlan entry_state];
    (destruct (u8 (sent_family n) =? AF_BRIDGE); [destruct (lm _)|]); rewrite ?Hv; done.
Qed.

(** ** Keys *)

(** An object without a VLAN has none stored. *)
Definition vlan_known (n : neigh) : Prop := has_attr n NEIGH_ATTR_VLAN = false -> n_vlan (ce_data n) = 0.

Definition key_bytes (o : option nl_addr) : list Z :=
  match o with Some a => sub (a_addr a) 0 (a_len a) | None => [] end.

Lemma same_key_bytes x y : addr_opt_ok x -> addr_opt_ok y -> addr_differs x y = false -> key_bytes x = key_bytes y.
Proof.
  intros Hx Hy Hd. apply addr_differs_same in Hd.
  - destruct x, y; try done. by destruct Hd as (_ & _ & ? & _).
  - destruct x; [apply Hx|done].
  - destruct y; [apply Hy|done].
Qed.


(** Which attributes the identity has. *)
Lemma id_attrs_cases n :
  neigh_id_attrs_get n =
    if sent_bridge n then
      if has_flag (n_flags (ce_data n)) NTF_SELF then
        100 + (if has_attr n NEIGH_ATTR_DST then 8 else 0) + (if has_attr n NEIGH_ATTR_VLAN then 1024 else 0)
      else 1604
    else 104.
Proof.
  unfold neigh_id_attrs_get, sent_bridge. destruct (n_family _ =? AF_BRIDGE); [|done].
  destruct (has_flag _ NTF_SELF); [|done]. by destruct (has_attr n NEIGH_ATTR_DST), (has_attr n NEIGH_ATTR_VLAN).
Qed.

(** What makes the key. *)
Definition key_parts (n : neigh) : Z * Z * Z * list Z :=
  let d := ce_data n in
  if sent_bridge n
  then (n_family d, if has_flag (n_flags d) NTF_SELF then n_ifindex d else n_master d, n_vlan d,
        key_bytes (n_lladdr d))
  else (n_family d, n_ifindex d, 0, key_bytes (n_dst d)).

Lemma neigh_keygen_parts c a b n : key_parts a = key_parts b -> neigh_keygen c a n = neigh_keygen c b n.
Proof.
  assert (forall x, neigh_keygen c x n =
    if negb c then 0
    else let k := (let '(f, i, v, bytes) := key_parts x in neigh_hash_key f i v bytes) in
         match nl_hash k (zlen k) 0 with Done h => h mod n | _ => 0 end) as Hk.
  { intros x. unfold neigh_keygen, key_parts. fold (sent_bridge x). destruct c; [|done]. cbn [negb].
    by destruct (sent_bridge x). }
  intros Hp. rewrite !Hk. by rewrite Hp.
Qed.

Lemma identical_parts c a b :
  identical_by (neigh_obj_ops c) a b = true ->
  neigh_id_attrs_get a = neigh_id_attrs_get b /\
  let req := neigh_id_attrs_get a in
  Z.land (ce_mask a) req = req /\ Z.land (ce_mask b) req = req /\ neigh_compare a b req ID_COMPARISON = 0.
Proof.
  unfold identical_by. cbn [neigh_obj_ops oo_id_attrs_get oo_compare].
  destruct (Z.eqb_spec (neigh_id_attrs_get a) (neigh_id_attrs_get b)) as [Hid|]; [|intros ?; discriminate].
  cbn [negb]. split; [done|].
  assert (0 <= neigh_id_attrs_get a < 2000) as Hr by (rewrite id_attrs_cases; repeat case_match; lia).
  rewrite u32_id in H by lia. rewrite (proj2 (Z.eqb_neq _ UINT32_MAX)) in H by (unfold UINT32_MAX; lia).
  destruct (Z.eqb_spec (Z.land (ce_mask a) (neigh_id_attrs_get a)) (neigh_id_attrs_get a)); [|discriminate].
  destruct (Z.eqb_spec (Z.land (ce_mask b) (neigh_id_attrs_get a)) (neigh_id_attrs_get a)); [|discriminate].
  split; [done|]. split; [done|]. by apply Z.eqb_eq.
Qed.

(** The attributes that two identical neighbours were compared by. *)
Lemma identical_attr c a b attr :
  identical_by (neigh_obj_ops c) a b = true -> has_flag (neigh_id_attrs_get a) attr = true ->
  (attr = NEIGH_ATTR_IFINDEX -> n_ifindex (ce_data a) = n_ifindex (ce_data b)) /\
  (attr = NEIGH_ATTR_FAMILY -> n_family (ce_data a) = n_family (ce_data b)) /\
  (attr = NEIGH_ATTR_MASTER -> n_master (ce_data a) = n_master (ce_data b)) /\
  (attr = NEIGH_ATTR_VLAN -> n_vlan (ce_data a) = n_vlan (ce_data b)) /\
  (attr = NEIGH_ATTR_LLADDR -> addr_differs (n_lladdr (ce_data a)) (n_lladdr (ce_data b)) = false) /\
  (attr = NEIGH_ATTR_DST -> addr_differs (n_dst (ce_data a)) (n_dst (ce_data b)) = false).
Proof.
  intros (Hid & Hma & Hmb & Hcmp)%identical_parts Hf. unfold neigh_compare in Hcmp.
  match type of Hcmp with attr_diffs _ _ _ (?l ++ _) = _ =>
    assert (forall e, (attr, e) ∈ l -> e = false) as Heq
  end.
  { intros e Hin. apply (diff_none _ _ _ _ attr e Hcmp Hma Hmb); [|done]. apply elem_of_app. by left. }
  assert (forall x y, negb (x =? y) = false -> x = y) as Hz by (intros x y E; bool_hyps; done).
  split; [intros ->; apply Hz, Heq; left|]. split; [intros ->; apply Hz, Heq; by do 1 right; left|].
  split; [intros ->; apply Hz, Heq; do 5 right; left|]. split; [intros ->; apply Hz, Heq; do 6 right; left|].
  split; intros ->; apply Heq; [do 3 right; left|do 4 right; left].
Qed.

(** Neighbours that are identical have the same key. *)
Lemma neigh_key_agrees c a b n :
  neigh_wf a -> neigh_wf b -> vlan_known a -> vlan_known b ->
  identical_by (neigh_obj_ops c) a b = true -> neigh_keygen c a n = neigh_keygen c b n.
Proof.
  intros Ha Hb Hva Hvb Hi. apply neigh_keygen_parts.
  pose proof (fun attr => identical_attr c a b attr Hi) as Hattr.
  pose proof (proj1 (identical_parts c a b Hi)) as Hid. rewrite !id_attrs_cases in Hid.
  rewrite id_attrs_cases in Hattr. unfold key_parts, vlan_known in *.
  destruct (sent_bridge a) eqn:Ba, (sent_bridge b) eqn:Bb;
    [|repeat case_match; lia|repeat case_match; lia|].
  - assert (n_family (ce_data a) = n_family (ce_data b)) as -> by (unfold sent_bridge in *; bool_hyps; congruence).
    assert (key_bytes (n_lladdr (ce_data a)) = key_bytes (n_lladdr (ce_data b))) as Hll.
    { apply same_key_bytes; [apply Ha|apply Hb|]. apply (Hattr NEIGH_ATTR_LLADDR); [|done]. by repeat case_match. }
    rewrite Hll. destruct (has_flag (n_flags (ce_data a)) NTF_SELF), (has_flag (n_flags (ce_data b)) NTF_SELF);
      [|repeat case_match; lia|repeat case_match; lia|].
    + assert (n_ifindex (ce_data a) = n_ifindex (ce_data b)) as ->
        by (apply (Hattr NEIGH_ATTR_IFINDEX); [by repeat case_match|done]).
      destruct (has_attr a NEIGH_ATTR_VLAN), (has_attr b NEIGH_ATTR_VLAN); try (repeat case_match; lia).
      * do 2 f_equal. apply (Hattr NEIGH_ATTR_VLAN); [by repeat case_match|done].
      * by rewrite Hva, Hvb.
    + assert (n_master (ce_data a) = n_master (ce_data b)) as -> by (by apply (Hattr NEIGH_ATTR_MASTER)).
      do 2 f_equal. by apply (Hattr NEIGH_ATTR_VLAN).
  - f_equal; [f_equal; f_equal|].
    + by apply (Hattr NEIGH_ATTR_FAMILY).
    + by apply (Hattr NEIGH_ATTR_IFINDEX).
    + apply same_key_bytes; [apply Ha|apply Hb|]. by apply (Hattr NEIGH_ATTR_DST).
Qed.

(** ** What keeps neighbours well formed *)

(** A member changes to a value of its width. *)
Lemma neigh_wf_fill n attr f :
  neigh_wf n ->
  (let d := f (ce_data n) in
   0 <= n_family d < 2 ^ 32 /\ 0 <= n_ifindex d < 2 ^ 32 /\ 0 <= n_state d < 2 ^ 16 /\
   0 <= n_flags d < 2 ^ 8 /\ 0 <= n_vlan d < 2 ^ 16 /\ addr_opt_ok (n_lladdr d) /\ addr_opt_ok (n_dst d) /\
   (Z.land attr NEIGH_ATTR_LLADDR = 0 /\ n_lladdr d = n_lladdr (ce_data n) \/ is_Some (n_lladdr d)) /\
   (Z.land attr NEIGH_ATTR_DST = 0 /\ n_dst d = n_dst (ce_data n) \/ is_Some (n_dst d))) ->
  neigh_wf (fill_attr n attr f).
Proof.
  intros Hw (H1 & H2 & H3 & H4 & H5 & H6 & H7 & H8 & H9). split; try done.
  - destruct H8 as [[Hz He]|?]; [|done]. rewrite has_fill_other by done. cbn [fill_attr ce_data] in *. rewrite He. apply Hw.
  - destruct H9 as [[Hz He]|?]; [|done]. rewrite has_fill_other by done. cbn [fill_attr ce_data] in *. rewrite He. apply Hw.
Qed.

(** Solves the conditions for a member that is a number or an address. *)
Ltac neigh_fill Hw :=
  apply neigh_wf_fill; [exact Hw|]; destruct Hw; cbv zeta;
  cbn [n_family n_ifindex n_state n_flags n_vlan n_lladdr n_dst];
  do 8 (split;
    [first [done | unfold u32, u16, u8; apply Z.mod_pos_bound; lia | left; split; reflexivity | right; by eexists]|]);
  first [left; split; reflexivity | right; by eexists].

Lemma neigh_0_wf : neigh_wf (Body 0 neigh_0).
Proof. split; by try done. Qed.

(** What an application does to a neighbour. *)
Inductive neigh_op :=
| SetState (v : Z) | UnsetState (v : Z) | SetFlags (v : Z) | UnsetFlags (v : Z) | SetIfindex (v : Z)
| SetLladdr (a : nl_addr) | SetDst (a : nl_addr) | SetFamily (v : Z) | SetType (v : Z) | SetVlan (v : Z)
| SetMaster (v : Z).
Definition run_neigh_op (n : neigh) (op : neigh_op) : neigh :=
  match op with
  | SetState v => rtnl_neigh_set_state n v
  | UnsetState v => rtnl_neigh_unset_state n v
  | SetFlags v => rtnl_neigh_set_flags n v
  | UnsetFlags v => rtnl_neigh_unset_flags n v
  | SetIfindex v => rtnl_neigh_set_ifindex n v
  | SetLladdr a => rtnl_neigh_set_lladdr n a
  | SetDst a => (rtnl_neigh_set_dst n a).2
  | SetFamily v => rtnl_neigh_set_family n v
  | SetType v => rtnl_neigh_set_type n v
  | SetVlan v => rtnl_neigh_set_vlan n v
  | SetMaster v => rtnl_neigh_set_master n v
  end.
Definition neigh_op_ok (op : neigh_op) : Prop :=
  match op with SetLladdr a | SetDst a => addr_ok a | _ => True end.

Lemma assign_addr_wf n a :
  neigh_wf n -> addr_ok a -> neigh_wf (rtnl_neigh_set_dst n a).2.
Proof.
  intros Hw Ha. unfold rtnl_neigh_set_dst, __assign_addr. cbn [negb].
  assert (forall n, neigh_wf n -> neigh_wf (fill_attr n NEIGH_ATTR_DST (fun d => d <| n_dst := Some a |>))) as Hf
    by (intros n' Hw'; neigh_fill Hw').
  destruct (has_attr n NEIGH_ATTR_FAMILY); [destruct (negb _)|]; cbn [snd]; [done|by apply Hf|].
  apply Hf. neigh_fill Hw.
Qed.

Lemma neigh_op_wf n op : neigh_wf n -> neigh_op_ok op -> neigh_wf (run_neigh_op n op).
Proof.
  intros Hw Hop. destruct op; cbn [run_neigh_op neigh_op_ok] in *.
  1-5: neigh_fill Hw.
  - unfold rtnl_neigh_set_lladdr, __assign_addr. cbn [negb snd]. neigh_fill Hw.
  - by apply assign_addr_wf.
  - neigh_fill Hw.
  - destruct Hw. by split.
  - neigh_fill Hw.
  - neigh_fill Hw.
Qed.

Lemma neigh_clone_wf c n d :
  neigh_wf n -> neigh_clone c (ce_data n) n = (0, d) -> neigh_wf (Body (ce_mask n) d).
Proof.
  intros Hw. unfold neigh_clone. destruct (clone_addr c (n_lladdr (ce_data n))) as [a|] eqn:E1; [|done].
  destruct (clone_addr c (n_dst (ce_data n))) as [a'|] eqn:E2; [|done]. intros [= <-].
  apply clone_addr_ok in E1 as [H1 H1']; [|apply Hw]. apply clone_addr_ok in E2 as [H2 H2']; [|apply Hw].
  destruct Hw as [? ? ? ? ? Hol Hod Hl Hd].
  destruct a as [a|], a' as [a'|]; (destruct (n_lladdr (ce_data n)) eqn:El; [|try done]);
    (destruct (n_dst (ce_data n)) eqn:Ed; [|try done]); cbn [store_clone];
    (split; cbn [ce_data n_family n_ifindex n_state n_flags n_vlan n_lladdr n_dst]; rewrite ?El, ?Ed; try done;
     first [by (intros; eexists) | exact Hl | exact Hd]).
Qed.

Lemma guessed_addr_ok b c nla a : bytes_ok b -> guessed_addr b c nla = Done (inr a) -> addr_ok a.
Proof.
  intros Hb. unfold guessed_addr. intros (x & Hx & H)%run_or_inv. injection H as <-.
  apply addr_family_ok. by eapply addr_of_attr_ok.
Qed.

Lemma neigh_parse_wf c lm b n :
  bytes_ok b -> rtnl_neigh_parse c lm b = Done (inr n) -> neigh_wf n.
Proof.
  intros Hb. unfold rtnl_neigh_parse. cbv zeta. intros ([e tb] & _ & H)%bind_inv.
  destruct (e <? 0); [done|].
  apply bind_inv in H as (family & Hfam & H). apply get_u8_range in Hfam; [|done].
  apply bind_inv in H as (ifindex & Hif & H). apply get_u32_range in Hif; [|done].
  apply bind_inv in H as (state & Hst & H). apply get_u16_range in Hst; [|done].
  apply bind_inv in H as (flags & Hfl & H). apply get_u8_range in Hfl; [|done].
  apply bind_inv in H as (type & _ & H).
  apply run_or_inv in H as (n1 & H1 & H). apply run_or_inv in H as (n2 & H2 & H).
  apply bind_inv in H as (n3 & H3 & H). apply bind_inv in H as (n4 & H4 & H).
  apply bind_inv in H as (n5 & H5 & H). apply bind_inv in H as (n6 & H6 & H).
  assert (neigh_wf n1) as Hw1.
  { revert H1. apply if_attr_or_keeps.
    - intros nla x y Hx. intros (a & Ha & [= <-])%run_or_inv. apply guessed_addr_ok in Ha; [|done]. neigh_fill Hx.
    - split; try done; cbn; lia. }
  assert (neigh_wf n2) as Hw2.
  { revert H2. apply if_attr_or_keeps; [|done].
    intros nla x y Hx. intros (a & Ha & [= <-])%run_or_inv. apply guessed_addr_ok in Ha; [|done]. neigh_fill Hx. }
  assert (neigh_wf n3) as Hw3.
  { revert H3. apply if_attr_keeps; [|done]. intros nla x y Hx (v1 & _ & E)%bind_inv.
    apply bind_inv in E as (v2 & _ & E). apply bind_inv in E as (v3 & _ & E). apply bind_inv in E as (v4 & _ & [= <-]).
    neigh_fill Hx. }
  assert (neigh_wf n4) as Hw4.
  { revert H4. apply if_attr_keeps; [|done]. intros nla x y Hx (v & _ & [= <-])%bind_inv. neigh_fill Hx. }
  assert (neigh_wf n5) as Hw5.
  { revert H5. apply if_attr_keeps; [|done]. intros nla x y Hx (v & Hv & [= <-])%bind_inv.
    apply get_u16_range in Hv; [|done]. neigh_fill Hx. }
  assert (neigh_wf n6) as Hw6.
  { revert H6. apply if_attr_keeps; [|done]. intros nla x y Hx (v & _ & [= <-])%bind_inv. neigh_fill Hx. }
  revert H. destruct (_ =? AF_BRIDGE); [|by intros [= <-]].
  intros ([nla|] & _ & H)%bind_inv.
  - apply bind_inv in H as (v & _ & [= <-]). neigh_fill Hw6.
  - destruct (lm _); injection H as <-; [neigh_fill Hw6|done].
Qed.

(** Where neighbours come from. *)
Inductive neigh_made : neigh -> Prop :=
| made_alloc : neigh_made (Body 0 neigh_0)
| made_parsed c lm b n :
    bytes_ok b -> rtnl_neigh_parse c lm b = Done (inr n) -> neigh_made n
| made_op n op : neigh_made n -> neigh_op_ok op -> neigh_made (run_neigh_op n op)
| made_clone c n d :
    neigh_made n -> neigh_clone c (ce_data n) n = (0, d) -> neigh_made (Body (ce_mask n) d).

Lemma neigh_made_wf n : neigh_made n -> neigh_wf n.
Proof.
  induction 1; [apply neigh_0_wf|by eapply neigh_parse_wf|by apply neigh_op_wf|by eapply neigh_clone_wf].
Qed.

(** ** Properties *)

(** An address as the parser makes it: the family that its length says, and a
    prefix of all its bits. *)
Definition addr_natural (a : nl_addr) : Prop :=
  a_family a = nl_addr_guess_family a /\ a_prefixlen a = 8 * a_len a.

(** Nothing in the neighbour that a request does not carry: natural addresses, of
    which the destination has the family of the neighbour. *)
Definition neigh_natural (n : neigh) : Prop :=
  let d := ce_data n in
  from_option addr_natural True (n_lladdr d) /\
  (sent_bridge n = false -> exists a, n_dst d = Some a /\ addr_natural a /\ n_family d = a_family a).

Definition neigh_carried : Z := 32 + 64 + 1 + 2 + 4 + 8 + 1024.   (* all but the type and the master *)

Lemma addr_read_same a : addr_ok a -> addr_natural a -> addr_differs (Some a) (Some (addr_read (addr_bytes a))) = false.
Proof.
  intros ((Hl & Hz) & Hb & H2) (Hf & Hp). unfold addr_differs.
  assert (zlen (addr_bytes a) = a_len a) as Hlen by (apply zlen_sub; lia).
  assert (addr_wf (addr_read (addr_bytes a))) as Hw.
  { pose proof (addr_made_wf AF_UNSPEC (addr_bytes a)) as H. apply H. lia. }
  rewrite nl_addr_cmp_done by done. apply negb_false_iff, Z.eqb_eq, addr_diff_zero; [done|done|].
  assert (a_len (addr_read (addr_bytes a)) = a_len a) as Hl' by (cbn; rewrite Hlen; apply u32_id; lia).
  unfold addr_same. rewrite Hl'. split_and!.
  - rewrite Hf. unfold nl_addr_guess_family. by rewrite <- Hl'.
  - done.
  - cbn [a_addr addr_read nl_addr_set_family addr_made]. rewrite <- Hlen at 2. by rewrite sub_all.
  - intros _. rewrite Hp. cbn. rewrite Hlen, s32_id; lia.
Qed.

Lemma guess_range a : 0 <= nl_addr_guess_family a < 256.
Proof. unfold nl_addr_guess_family, AF_INET, AF_LLC, AF_INET6, AF_UNSPEC. repeat case_match; lia. Qed.

(** What a request carries is what the neighbour has. *)
Lemma neigh_sent_same lm n :
  neigh_wf n -> neigh_natural n ->
  neigh_compare n (neigh_sent lm n)
    (Z.land (Z.land (ce_mask n) (ce_mask (neigh_sent lm n))) neigh_carried) 0 = 0.
Proof.
  intros Hw (Hll & Hdst). unfold neigh_compare. apply diffs_shared.
  change (has_flag 0 LOOSE_COMPARISON) with false. cbv iota. cbn [app].
  assert (forall v, negb (v =? v) = false) as Hz by (intros v; by rewrite Z.eqb_refl).
  repeat apply Forall_cons_2; [..|apply Forall_nil_2]; cbn [fst snd].
  - split; [by exists 5|]. intros _ _ _. apply Hz.
  - split; [by exists 6|]. intros _ _ _. cbn. unfold sent_family. destruct (sent_bridge n) eqn:E.
    + unfold sent_bridge in E. apply Z.eqb_eq in E. rewrite E. done.
    + destruct (Hdst eq_refl) as (a & -> & (Hg & _) & ->). cbn. unfold u8. rewrite Hg.
      rewrite Z.mod_small by apply guess_range. apply Hz.
  - split; [by exists 7|]. intros _ _ ?. done.
  - split; [by exists 2|]. intros Ha _ _. cbn. fold (has_attr n NEIGH_ATTR_LLADDR). 
    change (has_flag (ce_mask n) NEIGH_ATTR_LLADDR) with (has_attr n NEIGH_ATTR_LLADDR) in Ha. rewrite Ha.
    destruct (nw_has_lladdr n Hw Ha) as [a Hla]. pose proof (nw_lladdr n Hw) as Hok. rewrite Hla in *.
    by apply addr_read_same.
  - split; [by exists 3|]. intros Ha Hb _. cbn. destruct (sent_bridge n) eqn:E; cbn [negb].
    + exfalso. revert Hb. unfold neigh_sent. cbn. rewrite E. cbn. repeat case_match; done.
    + destruct (Hdst eq_refl) as (a & Hd & Hn & _). pose proof (nw_dst n Hw) as Hok. rewrite Hd in *.
      by apply addr_read_same.
  - split; [by exists 9|]. done.
  - split; [by exists 10|]. intros Ha _ _. cbn.
    change (has_flag (ce_mask n) NEIGH_ATTR_VLAN) with (has_attr n NEIGH_ATTR_VLAN) in Ha. rewrite Ha. apply Hz.
  - split; [by exists 1|]. intros Ha _ _. cbn.
    change (has_flag (ce_mask n) NEIGH_ATTR_STATE) with (has_attr n NEIGH_ATTR_STATE) in Ha. rewrite Ha. apply Hz.
  - split; [by exists 0|]. intros Ha _ _. cbn.
    change (has_flag (ce_mask n) NEIGH_ATTR_FLAGS) with (has_attr n NEIGH_ATTR_FLAGS) in Ha. rewrite Ha. apply Hz.
Qed.

(** C14. Every neighbour that applications and the parser can make is well formed:
    its numbers fit their members, and an attribute that is marked as present has
    its address.  So composing a request for it never dereferences a null
    pointer, and the result is: an error when a destination is needed and
    missing; without memory no message; without room for everything no message;
    otherwise a message of exactly its header and attributes. *)
Theorem neigh_requests_safe c1 c2 size n cmd flags :
  neigh_made n -> size < 2147483648 ->
  neigh_wf n /\
  exists r, build_neigh_msg c1 c2 size n cmd flags = Done r /\
    if sendable n then build_result c1 c2 size cmd flags (neigh_hdr n) (enc (neigh_fields n)) r
    else r = inl (- NLE_MISSING_ATTR).
Proof. intros Hm Hs. apply neigh_made_wf in Hm. split; [done|]. by apply build_neigh_done. Qed.

(** C15. A request for a neighbour that fits into a message is read back by the
    parser as what [neigh_sent] describes: every attribute the request carries,
    with the bytes of the addresses (their family is the one their length suggests
    and their prefix that of all their bits, as messages carry neither), and the
    link's master.  When the addresses of the neighbour are natural - of that
    family and prefix, which a 20 byte link layer address is not, and but for
    bridge entries the destination is there and of the neighbour's family - then
    comparing the result with the original by the attributes requests carry
    shows no difference. *)
Theorem neigh_roundtrip lm size n cmd flags :
  neigh_made n -> sendable n = true -> size < 2147483648 ->
  28 + total_room (enc (neigh_fields n)) <= size ->
  exists m, build_neigh_msg true true size n cmd flags = Done (inr m) /\
    rtnl_neigh_parse (fun _ => true) lm (nm_nlh m) = Done (inr (neigh_sent lm n)) /\
    (neigh_natural n ->
     neigh_compare n (neigh_sent lm n)
       (Z.land (Z.land (ce_mask n) (ce_mask (neigh_sent lm n))) neigh_carried) 0 = 0).
Proof.
  intros Hm Hs Hsz Hfit. apply neigh_made_wf in Hm as Hw.
  destruct (build_neigh_done true true size n cmd flags Hw Hsz) as (r & Hr & Hres). rewrite Hs in Hres.
  assert (zlen (neigh_hdr n) = 12) as Hz by apply ndmsg_ok.
  unfold build_result in Hres. rewrite Hz in Hres. change (align4 12) with 12 in Hres.
  destruct r as [e|m]; [destruct Hres as [[? _]|(_ & ? & _)]; [done|lia]|]. destruct Hres as (_ & _ & Hb).
  exists m. split; [done|]. split; [by eapply neigh_parse_built|intros; by apply neigh_sent_same].
Qed.

(** Neighbours that the caches take for the same have the same key, so that
    looking one up in the hash table of a cache finds the other - as long as an
    object without a VLAN attribute has no VLAN stored. *)
Theorem neigh_keys_agree c a b n :
  neigh_made a -> neigh_made b -> vlan_known a -> vlan_known b ->
  identical_by (neigh_obj_ops c) a b = true -> neigh_keygen c a n = neigh_keygen c b n.
Proof. intros Ha%neigh_made_wf Hb%neigh_made_wf. by apply neigh_key_agrees. Qed.

(** ** Witnesses *)

Definition ex_ip : nl_addr := ex_addr AF_INET [192; 0; 2; 1] 32.
Definition ex_mac : nl_addr := ex_addr AF_LLC [2; 0; 94; 0; 83; 1] 48.

Definition ex_ops : list neigh_op := [SetIfindex 3; SetDst ex_ip; SetLladdr ex_mac; SetState 4].
Definition ex_neigh : neigh := fold_left run_neigh_op ex_ops (Body 0 neigh_0).

Lemma made_ops ops : forall n, neigh_made n -> Forall neigh_op_ok ops -> neigh_made (fold_left run_neigh_op ops n).
Proof.
  induction ops as [|op ops IH]; intros n Hn Hops; [done|]. apply Forall_cons in Hops as [Ho Hops].
  simpl. apply IH; [by apply made_op|done].
Qed.

Lemma ex_neigh_made : neigh_made ex_neigh.
Proof.
  apply made_ops; [constructor|]. repeat apply Forall_cons_2; try done; by apply ex_addr_ok.
Qed.

Lemma neigh_requests_safe_witness :
  exists m, build_neigh_msg true true 4096 ex_neigh RTM_NEWNEIGH 0 = Done (inr m) /\ msg_len m = 48.
Proof.
  destruct (neigh_requests_safe true true 4096 ex_neigh RTM_NEWNEIGH 0 ex_neigh_made ltac:(lia)) as (_ & r & Hr & Hres).
  change (sendable ex_neigh) with true in Hres. destruct r as [e|m].
  - destruct Hres as [[H _]|(_ & H & _)]; [discriminate H|]. exfalso. revert H.
    change (zlen (neigh_hdr ex_neigh)) with 12. change (total_room (enc (neigh_fields ex_neigh))) with 20. 
    change (align4 12) with 12. lia.
  - destruct Hres as (_ & _ & Hb). exists m. split; [exact Hr|]. rewrite (b_len _ _ _ _ _ _ Hb). reflexivity.
Defined.

Lemma neigh_roundtrip_witness :
  exists m, build_neigh_msg true true 4096 ex_neigh RTM_NEWNEIGH 0 = Done (inr m) /\
    rtnl_neigh_parse (fun _ => true) (fun _ => None) (nm_nlh m) = Done (inr (neigh_sent (fun _ => None) ex_neigh)) /\
    let r := neigh_sent (fun _ => None) ex_neigh in
    neigh_compare ex_neigh r (Z.land (Z.land (ce_mask ex_neigh) (ce_mask r)) neigh_carried) 0 = 0.
Proof.
  destruct (neigh_roundtrip (fun _ => None) 4096 ex_neigh RTM_NEWNEIGH 0 ex_neigh_made) as (m & H1 & H2 & H3).
  - reflexivity.
  - lia.
  - change (total_room (enc (neigh_fields ex_neigh))) with 20. lia.
  - exists m. split; [exact H1|]. split; [exact H2|]. apply H3.
    split; [by split|]. intros _. exists ex_ip. split; [done|]. split; [by split|done].
Defined.

Definition ex_neigh2 : neigh := run_neigh_op ex_neigh (SetState 2).
Lemma neigh_keys_agree_witness :
  neigh_keygen true ex_neigh 1024 = neigh_keygen true ex_neigh2 1024.
Proof.
  apply (neigh_keys_agree true ex_neigh ex_neigh2 1024 ex_neigh_made).
  - exact (made_op _ (SetState 2) ex_neigh_made I).
  - intros _. reflexivity.
  - intros _. reflexivity.
  - by vm_compute.
Defined.

(** ** What else modelling showed *)

(** Setting the type takes all other attributes away: the destination is still
    there, and the neighbour can no longer be sent. *)
Lemma set_type_loses_attributes :
  sendable ex_neigh = true /\ sendable (rtnl_neigh_set_type ex_neigh 1) = false /\
  rtnl_neigh_get_dst (rtnl_neigh_set_type ex_neigh 1) = None.
Proof. done. Qed.

(** So an object may have a VLAN stored that is no attribute of it; the key has it
    all the same, and two identical objects have different keys. *)
Definition ex_bridge (vlan : bool) : neigh :=
  fold_left run_neigh_op
    ((if vlan then [SetVlan 5] else []) ++ [SetType 1; SetFamily AF_BRIDGE; SetFlags NTF_SELF; SetIfindex 3;
      SetLladdr ex_mac]) (Body 0 neigh_0).
Lemma keys_with_unset_vlan :
  identical_by (neigh_obj_ops true) (ex_bridge true) (ex_bridge false) = true /\
  neigh_keygen true (ex_bridge true) 1024 <> neigh_keygen true (ex_bridge false) 1024.
Proof. split; [by vm_compute|]. intros H. vm_compute in H. discriminate H. Qed.

(** The policy says nothing of the VLAN: an attribute without payload at the end
    of the message makes the parser read behind it. *)
Lemma vlan_overread :
  rtnl_neigh_parse (fun _ => true) (fun _ => None)
    (le_encode 4 32 ++ le_encode 2 RTM_NEWNEIGH ++ zeros 10 ++ ndmsg AF_BRIDGE 3 0 0 0 ++
     le_encode 2 4 ++ le_encode 2 NDA_VLAN) = Fault.
Proof. by vm_compute. Qed.
