(* ===== verification/RtAddr.v ===== *)
(** Addresses of interfaces (lib/route/addr.c), as objects.  Abstract addresses are
    values here, links are known by their address and index; reference counts of
    both are not followed. *)
From S2P Require Import Prelude Errors Msg Attr CString Utils Addr Handlers Socket Nl NlList Object Cache CacheInv ObjAttr CacheMngt CacheDump Wire Build Rtnl.

(** ** Data *)

Definition ADDR_ATTR_FAMILY := 1.
Definition ADDR_ATTR_PREFIXLEN := 2.
Definition ADDR_ATTR_FLAGS := 4.
Definition ADDR_ATTR_SCOPE := 8.
Definition ADDR_ATTR_IFINDEX := 16.
Definition ADDR_ATTR_LABEL := 32.
Definition ADDR_ATTR_CACHEINFO := 64.
Definition ADDR_ATTR_PEER := 128.
Definition ADDR_ATTR_LOCAL := 256.
Definition ADDR_ATTR_BROADCAST := 512.
Definition ADDR_ATTR_MULTICAST := 1024.
Definition ADDR_ATTR_ANYCAST := 2048.
Definition ADDR_ATTR_ALIAS := 4096.

Definition IFA_ADDRESS := 1.
Definition IFA_LOCAL := 2.
Definition IFA_LABEL := 3.
Definition IFA_BROADCAST := 4.
Definition IFA_ANYCAST := 5.
Definition IFA_CACHEINFO := 6.
Definition IFA_MULTICAST := 7.
Definition IFA_FLAGS := 8.
Definition IFA_ALIAS := 10.
Definition IFA_MAX := 10.
Definition RTM_NEWADDR := 20.
Definition RTM_DELADDR := 21.
Definition RTM_GETADDR := 22.

(** struct rtnl_addr_cacheinfo. *)
Record rtnl_addr_cacheinfo := {
  aci_prefered : Z; aci_valid : Z; aci_cstamp : Z; aci_tstamp : Z
}.

(** [a_alias], [a_label]: the strings in the arrays; [a_link]: the address of the
    link. *)
Record rtnl_addr := {
  a_family : Z;
  a_prefixlen : Z;
  a_scope : Z;
  a_flags : Z;
  a_ifindex : Z;
  a_peer : option nl_addr;
  a_local : option nl_addr;
  a_bcast : option nl_addr;
  a_anycast : option nl_addr;
  a_multicast : option nl_addr;
  a_cacheinfo : rtnl_addr_cacheinfo;
  a_alias : list Z;
  a_label : list Z;
  a_flag_mask : Z;
  a_link : option Z
}.
#[export] Instance eta_addr : Eta rtnl_addr := fun a =>
  {| a_family := a_family a; a_prefixlen := a_prefixlen a; a_scope := a_scope a; a_flags := a_flags a;
     a_ifindex := a_ifindex a; a_peer := a_peer a; a_local := a_local a; a_bcast := a_bcast a;
     a_anycast := a_anycast a; a_multicast := a_multicast a; a_cacheinfo := a_cacheinfo a;
     a_alias := a_alias a; a_label := a_label a; a_flag_mask := a_flag_mask a; a_link := a_link a |}.
#[export] Instance eta_cacheinfo : Eta rtnl_addr_cacheinfo := fun c =>
  {| aci_prefered := aci_prefered c; aci_valid := aci_valid c; aci_cstamp := aci_cstamp c;
     aci_tstamp := aci_tstamp c |}.

Definition rtaddr_0 : rtnl_addr :=
  {| a_family := 0; a_prefixlen := 0; a_scope := 0; a_flags := 0; a_ifindex := 0; a_peer := None;
     a_local := None; a_bcast := None; a_anycast := None; a_multicast := None;
     a_cacheinfo := {| aci_prefered := 0; aci_valid := 0; aci_cstamp := 0; aci_tstamp := 0 |};
     a_alias := []; a_label := []; a_flag_mask := 0; a_link := None |}.
Definition addr_constructor (a : rtnl_addr) : rtnl_addr := a <| a_scope := RT_SCOPE_NOWHERE |>.

Abbreviation rtaddr := (body rtnl_addr).

(** ** Getting and setting *)

Definition set_string (a : rtaddr) (attr : Z) (set : list Z -> rtnl_addr -> rtnl_addr) (s : list Z) : Z * rtaddr :=
  if IFNAMSIZ - 1 <? zlen s then (- NLE_RANGE, a) else (0, fill_attr a attr (set s)).
Definition rtnl_addr_set_alias (a : rtaddr) (alias : list Z) : Z * rtaddr :=
  set_string a ADDR_ATTR_ALIAS (fun s d => d <| a_alias := s |>) alias.
Definition rtnl_addr_get_alias (a : rtaddr) : option (list Z) :=
  if has_attr a ADDR_ATTR_ALIAS then Some (a_alias (ce_data a)) else None.
Definition rtnl_addr_set_label (a : rtaddr) (label : list Z) : Z * rtaddr :=
  set_string a ADDR_ATTR_LABEL (fun s d => d <| a_label := s |>) label.
Definition rtnl_addr_get_label (a : rtaddr) : option (list Z) :=
  if has_attr a ADDR_ATTR_LABEL then Some (a_label (ce_data a)) else None.
Definition rtnl_addr_set_ifindex (a : rtaddr) (ifindex : Z) : rtaddr :=
  fill_attr a ADDR_ATTR_IFINDEX (fun d => d <| a_ifindex := u32 ifindex |>).
Definition rtnl_addr_get_ifindex (a : rtaddr) : Z := s32 (a_ifindex (ce_data a)).
(** [link]: the address of a link and its index. *)
Definition rtnl_addr_set_link (a : rtaddr) (link : option (Z * Z)) : rtaddr :=
  match link with
  | None => a
  | Some (l, index) =>
      fill_attr a ADDR_ATTR_IFINDEX (fun d => d <| a_link := Some l |> <| a_ifindex := index |>)
  end.
Definition rtnl_addr_get_link (a : rtaddr) : option Z := a_link (ce_data a).
Definition rtnl_addr_set_family (a : rtaddr) (family : Z) : rtaddr :=
  fill_attr a ADDR_ATTR_FAMILY (fun d => d <| a_family := u8 family |>).
Definition rtnl_addr_get_family (a : rtaddr) : Z := a_family (ce_data a).
Definition rtnl_addr_set_prefixlen (a : rtaddr) (prefixlen : Z) : rtaddr :=
  let d := ce_data a in
  let d := d <| a_prefixlen := u8 prefixlen |> in
  let mask := if negb (prefixlen =? 0) then set_flag (ce_mask a) ADDR_ATTR_PREFIXLEN
              else clear_flag (ce_mask a) ADDR_ATTR_PREFIXLEN in
  Body mask
    (match a_peer d, a_local d with
     | Some p, _ => d <| a_peer := Some (nl_addr_set_prefixlen p prefixlen) |>
     | None, Some l => d <| a_local := Some (nl_addr_set_prefixlen l prefixlen) |>
     | None, None => d
     end).
Definition rtnl_addr_get_prefixlen (a : rtaddr) : Z := a_prefixlen (ce_data a).
Definition rtnl_addr_set_scope (a : rtaddr) (scope : Z) : rtaddr :=
  fill_attr a ADDR_ATTR_SCOPE (fun d => d <| a_scope := u8 scope |>).
Definition rtnl_addr_get_scope (a : rtaddr) : Z := a_scope (ce_data a).
Definition rtnl_addr_set_flags (a : rtaddr) (flags : Z) : rtaddr :=
  fill_attr a ADDR_ATTR_FLAGS (fun d => d <| a_flag_mask := Z.lor (a_flag_mask d) (u32 flags) |>
                                          <| a_flags := Z.lor (a_flags d) (u32 flags) |>).
Definition rtnl_addr_unset_flags (a : rtaddr) (flags : Z) : rtaddr :=
  fill_attr a ADDR_ATTR_FLAGS (fun d => d <| a_flag_mask := Z.lor (a_flag_mask d) (u32 flags) |>
                                          <| a_flags := Z.land (a_flags d) (Z.lnot (u32 flags)) |>).
Definition rtnl_addr_get_flags (a : rtaddr) : Z := a_flags (ce_data a).

(** [set]: storing in the member [pos] points to. *)
Definition __assign_addr (a : rtaddr) (set : option nl_addr -> rtnl_addr -> rtnl_addr)
    (new : option nl_addr) (flag : Z) : Z * rtaddr :=
  match new with
  | Some x =>
      let assign d := fill_attr (Body (ce_mask a) d) (Z.lor flag ADDR_ATTR_FAMILY) (set (Some x)) in
      if has_attr a ADDR_ATTR_FAMILY then
        if negb (Addr.a_family x =? a_family (ce_data a)) then (- NLE_AF_MISMATCH, a)
        else (0, assign (ce_data a))
      else let d := ce_data a in (0, assign (d <| a_family := u8 (Addr.a_family x) |>))
  | None => (0, Body (clear_flag (ce_mask a) flag) (set None (ce_data a)))
  end.

Definition rtnl_addr_set_local (a : rtaddr) (local : option nl_addr) : Z * rtaddr :=
  let plen := match local with Some l => nl_addr_get_prefixlen l | None => 0 end in
  if has_attr a ADDR_ATTR_PEER && negb (plen =? 0) then (- NLE_INVAL, a)
  else
    let '(err, a) := __assign_addr a (fun x d => d <| a_local := x |>) local ADDR_ATTR_LOCAL in
    if err <? 0 then (err, a)
    else (0, if negb (has_attr a ADDR_ATTR_PEER) then rtnl_addr_set_prefixlen a (s32 plen) else a).
Definition rtnl_addr_get_local (a : rtaddr) : option nl_addr := a_local (ce_data a).

(** Only addresses of the family [family] are accepted. *)
Definition not_of (family : Z) (x : option nl_addr) : bool :=
  match x with Some x => negb (Addr.a_family x =? family) | None => false end.
Definition rtnl_addr_set_peer (a : rtaddr) (peer : option nl_addr) : Z * rtaddr :=
  if not_of AF_INET peer then (- NLE_AF_NOSUPPORT, a)
  else
    let '(err, a) := __assign_addr a (fun x d => d <| a_peer := x |>) peer ADDR_ATTR_PEER in
    if err <? 0 then (err, a)
    else (0, rtnl_addr_set_prefixlen a
               (s32 (match peer with Some p => nl_addr_get_prefixlen p | None => 0 end))).
Definition rtnl_addr_get_peer (a : rtaddr) : option nl_addr := a_peer (ce_data a).
Definition rtnl_addr_set_broadcast (a : rtaddr) (bcast : option nl_addr) : Z * rtaddr :=
  if not_of AF_INET bcast then (- NLE_AF_NOSUPPORT, a)
  else __assign_addr a (fun x d => d <| a_bcast := x |>) bcast ADDR_ATTR_BROADCAST.
Definition rtnl_addr_get_broadcast (a : rtaddr) : option nl_addr := a_bcast (ce_data a).
Definition rtnl_addr_set_multicast (a : rtaddr) (multicast : option nl_addr) : Z * rtaddr :=
  if not_of AF_INET6 multicast then (- NLE_AF_NOSUPPORT, a)
  else __assign_addr a (fun x d => d <| a_multicast := x |>) multicast ADDR_ATTR_MULTICAST.
Definition rtnl_addr_get_multicast (a : rtaddr) : option nl_addr := a_multicast (ce_data a).
Definition rtnl_addr_set_anycast (a : rtaddr) (anycast : option nl_addr) : Z * rtaddr :=
  if not_of AF_INET6 anycast then (- NLE_AF_NOSUPPORT, a)
  else __assign_addr a (fun x d => d <| a_anycast := x |>) anycast ADDR_ATTR_ANYCAST.
Definition rtnl_addr_get_anycast (a : rtaddr) : option nl_addr := a_anycast (ce_data a).

Definition rtnl_addr_get_valid_lifetime (a : rtaddr) : Z :=
  if has_attr a ADDR_ATTR_CACHEINFO then aci_valid (a_cacheinfo (ce_data a)) else UINT32_MAX.
Definition rtnl_addr_set_valid_lifetime (a : rtaddr) (lifetime : Z) : rtaddr :=
  fill_attr a ADDR_ATTR_CACHEINFO (fun d =>
    let c := a_cacheinfo d in d <| a_cacheinfo := c <| aci_valid := u32 lifetime |> |>).
Definition rtnl_addr_get_preferred_lifetime (a : rtaddr) : Z :=
  if has_attr a ADDR_ATTR_CACHEINFO then aci_prefered (a_cacheinfo (ce_data a)) else UINT32_MAX.
Definition rtnl_addr_set_preferred_lifetime (a : rtaddr) (lifetime : Z) : rtaddr :=
  fill_attr a ADDR_ATTR_CACHEINFO (fun d =>
    let c := a_cacheinfo d in d <| a_cacheinfo := c <| aci_prefered := u32 lifetime |> |>).
Definition rtnl_addr_get_create_time (a : rtaddr) : Z := aci_cstamp (a_cacheinfo (ce_data a)).
Definition rtnl_addr_get_last_update_time (a : rtaddr) : Z := aci_tstamp (a_cacheinfo (ce_data a)).

(** ** Addresses as objects *)

(** Copies member after member, stopping at the first that cannot be copied. *)
Fixpoint clone_members (c : bool) (src : rtnl_addr)
    (members : list ((rtnl_addr -> option nl_addr) * (option nl_addr -> rtnl_addr -> rtnl_addr)))
    (dst : rtnl_addr) : Z * rtnl_addr :=
  match members with
  | [] => (0, dst)
  | (get, set) :: members =>
      match clone_addr c (get src) with
      | None => (- NLE_NOMEM, set None dst)
      | Some x => clone_members c src members (store_clone set x dst)
      end
  end.
Definition addr_clone (c : bool) (dst : rtnl_addr) (src : rtaddr) : Z * rtnl_addr :=
  let s := ce_data src in
  clone_members c s
    [(a_peer, fun x (d : rtnl_addr) => d <| a_peer := x |>); (a_local, fun x (d : rtnl_addr) => d <| a_local := x |>);
     (a_bcast, fun x (d : rtnl_addr) => d <| a_bcast := x |>); (a_multicast, fun x (d : rtnl_addr) => d <| a_multicast := x |>);
     (a_anycast, fun x (d : rtnl_addr) => d <| a_anycast := x |>)]
    (match a_link s with Some l => dst <| a_link := Some l |> | None => dst end).

Definition addr_id_attrs : Z := 275.   (* FAMILY, IFINDEX, LOCAL, PREFIXLEN *)
Definition addr_id_attrs_get (a : rtaddr) : Z :=
  let d := ce_data a in
  if a_family d =? AF_INET then
    if is_some (a_peer d) then Z.lor addr_id_attrs ADDR_ATTR_PEER else addr_id_attrs
  else if a_family d =? AF_INET6 then
    Z.lor (Z.lor ADDR_ATTR_FAMILY ADDR_ATTR_IFINDEX) ADDR_ATTR_LOCAL
  else addr_id_attrs.

(** [nl_addr_cmp_prefix(a, b) != 0]. *)
Definition prefix_differs (a b : nl_addr) : bool :=
  match nl_addr_cmp_prefix a b with Done d => negb (d =? 0) | _ => true end.

Definition addr_compare (a b : rtaddr) (attrs flags : Z) : Z :=
  let x := ce_data a in let y := ce_data b in
  let cx := a_cacheinfo x in let cy := a_cacheinfo y in
  attr_diffs attrs a b
    [(ADDR_ATTR_IFINDEX, negb (a_ifindex x =? a_ifindex y));
     (ADDR_ATTR_FAMILY, negb (a_family x =? a_family y));
     (ADDR_ATTR_SCOPE, negb (a_scope x =? a_scope y));
     (ADDR_ATTR_LABEL, negb (bool_decide (a_label x = a_label y)));
     (ADDR_ATTR_PEER,
        match a_peer x, a_peer y with
        | Some p, Some q =>
            if has_flag flags ID_COMPARISON && (a_family x =? AF_INET) && (a_family y =? AF_INET) &&
               (a_prefixlen x =? a_prefixlen y)
            then prefix_differs p q else addr_differs (Some p) (Some q)
        | p, q => addr_differs p q
        end);
     (ADDR_ATTR_LOCAL, addr_differs (a_local x) (a_local y));
     (ADDR_ATTR_MULTICAST, addr_differs (a_multicast x) (a_multicast y));
     (ADDR_ATTR_BROADCAST, addr_differs (a_bcast x) (a_bcast y));
     (ADDR_ATTR_ANYCAST, addr_differs (a_anycast x) (a_anycast y));
     (ADDR_ATTR_CACHEINFO,
        negb ((aci_prefered cx =? aci_prefered cy) && (aci_valid cx =? aci_valid cy) &&
              (aci_cstamp cx =? aci_cstamp cy) && (aci_tstamp cx =? aci_tstamp cy)));
     (ADDR_ATTR_FLAGS,
        if has_flag flags LOOSE_COMPARISON
        then negb (Z.land (Z.lxor (a_flags x) (a_flags y)) (a_flag_mask y) =? 0)
        else negb (a_flags x =? a_flags y))].

Definition addr_attrs : list trans_tbl :=
  [Tr 1 "family"; Tr 2 "prefixlen"; Tr 4 "flags"; Tr 8 "scope"; Tr 16 "ifindex"; Tr 32 "label";
   Tr 64 "cacheinfo"; Tr 128 "peer"; Tr 256 "local"; Tr 512 "broadcast"; Tr 1024 "multicast"].
Definition addr_attrs2str (attrs len : Z) : exec (list Z) := __flags2str attrs len addr_attrs.

Definition addr_flags : list trans_tbl :=
  [Tr 1 "secondary"; Tr 2 "nodad"; Tr 4 "optimistic"; Tr 16 "homeaddress"; Tr 32 "deprecated";
   Tr 64 "tentative"; Tr 128 "permanent"; Tr 256 "mngtmpaddr"; Tr 512 "noprefixroute"].
Definition rtnl_addr_flags2str (flags size : Z) : exec (list Z) := __flags2str flags size addr_flags.
Definition rtnl_addr_str2flags (name : list Z) : exec Z := __str2flags name addr_flags.

Definition addr_obj_ops (c : bool) : nl_object_ops rtnl_addr :=
  {| oo_name := "route/addr"; oo_size := 176; oo_id_attrs := addr_id_attrs;
     oo_constructor := Some addr_constructor; oo_free_data := true; oo_clone := Some (addr_clone c);
     oo_compare := Some addr_compare; oo_update := None; oo_keygen := None;
     oo_id_attrs_get := Some addr_id_attrs_get |}.

(** ** Parsing *)

Definition addr_policy : list nla_policy :=
  [pol_of 0; pol_of 0; pol_of 0;
   {| pol_type := NLA_STRING; pol_minlen := 0; pol_maxlen := IFNAMSIZ |}; pol_of 0; pol_of 0;
   pol_min 16; pol_of 0; pol_of 0; pol_of 0;
   {| pol_type := NLA_STRING; pol_minlen := 0; pol_maxlen := IFNAMSIZ |}].

(** [c t]: whether the address of attribute [t] can be allocated; [link_of]: the
    link of an index in the cache of links, its address and its index. *)
Section Parse.
Variable c : Z -> bool.
Variable link_of : Z -> option (Z * Z).
Variable b : list Z.

(** The address of an attribute, 0.0.0.0 without it. *)
Definition addr_or_null (tb : list (option Z)) (t family : Z) : exec (Z + nl_addr) :=
  o ← tb_at tb t;
  match o with
  | Some nla => addr_of_attr b (c t) nla family
  | None =>
      a ← nl_addr_build (c t) family [0; 0; 0; 0] 4;
      match a with Some a => ok a | None => err NLE_NOMEM end
  end.

(** Local address and peer, one of them with the prefix length. *)
Definition inet_addrs (tb : list (option Z)) (family plen : Z)
    : exec (Z + option nl_addr * option nl_addr) :=
  local ←! addr_or_null tb IFA_LOCAL family;
  peer ←! addr_or_null tb IFA_ADDRESS family;
  d ← nl_addr_cmp (Some local) (Some peer);
  ok (Some (nl_addr_set_prefixlen local plen), if d =? 0 then None else Some peer).
Definition other_addrs (tb : list (option Z)) (family plen : Z)
    : exec (Z + option nl_addr * option nl_addr) :=
  local ←! if_attr_or tb IFA_LOCAL (fun nla _ =>
             a ←! addr_of_attr b (c IFA_LOCAL) nla family; ok (Some a)) None;
  o ← tb_at tb IFA_ADDRESS;
  match o with
  | None => ok ((fun l => nl_addr_set_prefixlen l plen) <$> local, None)
  | Some nla =>
      a ←! addr_of_attr b (c IFA_ADDRESS) nla family;
      same ← (match local with None => mret true | Some l => d ← nl_addr_cmp (Some a) (Some l); mret (d =? 0) end);
      let a := nl_addr_set_prefixlen a plen in
      ok (if same : bool then (Some a, None) else (local, Some a))
  end.

Definition set_addr (set : nl_addr -> rtnl_addr -> rtnl_addr) (attr t family : Z) (nla : Z) (a : rtaddr)
    : exec (Z + rtaddr) :=
  x ←! addr_of_attr b (c t) nla family; ok (fill_attr a attr (set x)).

Definition addr_hdr_data (family prefixlen scope flags ifindex : Z) : rtnl_addr :=
  {| a_family := family; a_prefixlen := prefixlen; a_scope := scope; a_flags := flags;
     a_ifindex := ifindex; a_peer := None; a_local := None; a_bcast := None; a_anycast := None;
     a_multicast := None; a_cacheinfo := a_cacheinfo rtaddr_0; a_alias := []; a_label := [];
     a_flag_mask := 0; a_link := None |}.
Definition addr_hdr_attrs : Z :=
  Z.lor (Z.lor (Z.lor (Z.lor ADDR_ATTR_FAMILY ADDR_ATTR_PREFIXLEN) ADDR_ATTR_FLAGS) ADDR_ATTR_SCOPE)
    ADDR_ATTR_IFINDEX.

(** What [addr_msg_parser] makes of a message. *)
Definition addr_decode : exec (Z + rtaddr) :=
  '(e, tb) ← nlmsg_parse b 0 8 IFA_MAX (Some addr_policy);
  if e <? 0 then mret (inl e)
  else
    let ifa := nlmsg_data 0 in
    family ← get_u8 b ifa;
    prefixlen ← get_u8 b (ifa + 1);
    scope ← get_u8 b (ifa + 3);
    flags ← (o ← tb_at tb IFA_FLAGS;
             match o with Some nla => nla_get_u32 b nla | None => get_u8 b (ifa + 2) end);
    ifindex ← get_u32 b (ifa + 4);
    let a := Body addr_hdr_attrs (addr_hdr_data family prefixlen scope flags ifindex) in
    a ← if_attr tb IFA_ALIAS (fun nla a =>
          s ← attr_strlcpy b nla IFNAMSIZ;
          mret (fill_attr a ADDR_ATTR_ALIAS (fun d : rtnl_addr => d <| a_alias := s |>))) a;
    a ← if_attr tb IFA_LABEL (fun nla a =>
          s ← attr_strlcpy b nla IFNAMSIZ;
          mret (fill_attr a ADDR_ATTR_LABEL (fun d : rtnl_addr => d <| a_label := s |>))) a;
    a ← if_attr tb IFA_CACHEINFO (fun nla a =>
          prefered ← get_u32 b (nla_data nla);
          valid ← get_u32 b (nla_data nla + 4);
          cstamp ← get_u32 b (nla_data nla + 8);
          tstamp ← get_u32 b (nla_data nla + 12);
          mret (fill_attr a ADDR_ATTR_CACHEINFO (fun d : rtnl_addr =>
            d <| a_cacheinfo := {| aci_prefered := prefered; aci_valid := valid; aci_cstamp := cstamp;
                                   aci_tstamp := tstamp |} |>))) a;
    '(local, peer) ←! (if family =? AF_INET then inet_addrs tb family prefixlen
                       else other_addrs tb family prefixlen);
    let a := match local with
             | Some l => fill_attr a ADDR_ATTR_LOCAL (fun d : rtnl_addr => d <| a_local := Some l |>) | None => a end in
    let a := match peer with
             | Some p => fill_attr a ADDR_ATTR_PEER (fun d : rtnl_addr => d <| a_peer := Some p |>) | None => a end in
    a ←! if_attr_or tb IFA_BROADCAST
           (set_addr (fun x (d : rtnl_addr) => d <| a_bcast := Some x |>) ADDR_ATTR_BROADCAST IFA_BROADCAST family) a;
    a ←! if_attr_or tb IFA_MULTICAST
           (set_addr (fun x (d : rtnl_addr) => d <| a_multicast := Some x |>) ADDR_ATTR_MULTICAST IFA_MULTICAST family) a;
    a ←! if_attr_or tb IFA_ANYCAST
           (set_addr (fun x (d : rtnl_addr) => d <| a_anycast := Some x |>) ADDR_ATTR_ANYCAST IFA_ANYCAST family) a;
    ok (match link_of (s32 ifindex) with Some l => rtnl_addr_set_link a (Some l) | None => a end).
End Parse.

(** The address of [addr_obj_ops]. *)
Definition ADDR_OPS : Z := 1.
Definition addr_ops_at (_ : Z) : nl_object_ops rtnl_addr := addr_obj_ops true.
Definition addr_msg_parser (c : Z -> bool) (link_of : Z -> option (Z * Z)) (c0 : bool)
    : parser_t (D := rtnl_addr) :=
  object_parser addr_ops_at rtaddr_0 c0 ADDR_OPS (addr_decode c link_of).

Definition rtnl_addr_alloc (c : bool) (h : heap rtnl_addr) :=
  nl_object_alloc addr_ops_at c rtaddr_0 h ADDR_OPS.
Definition rtnl_addr_put (h : heap rtnl_addr) (o : Z) := nl_object_put addr_ops_at h (Some o).

(** ** Composing requests *)

(** struct ifaddrmsg and struct ifa_cacheinfo. *)
Definition ifaddrmsg (family prefixlen flags scope ifindex : Z) : list Z :=
  [u8 family; u8 prefixlen; u8 flags; u8 scope] ++ le_encode 4 ifindex.
Definition ifa_cacheinfo (prefered valid cstamp tstamp : Z) : list Z :=
  le_encode 4 prefered ++ le_encode 4 valid ++ le_encode 4 cstamp ++ le_encode 4 tstamp.

(** The scope of a request: 127.0.0.0/8 has the scope of the host. *)
Definition request_scope (tmpl : rtaddr) : exec Z :=
  let d := ce_data tmpl in
  if has_attr tmpl ADDR_ATTR_SCOPE then mret (a_scope d)
  else if (a_family d =? AF_INET) && has_attr tmpl ADDR_ATTR_LOCAL then
    match a_local d with
    | None => Fault
    | Some l => x ← get_u8 (nl_addr_get_binary_addr l) 0;
                mret (if x =? 127 then RT_SCOPE_HOST else RT_SCOPE_UNIVERSE)
    end
  else mret RT_SCOPE_UNIVERSE.

Definition build_addr_msg (c1 c2 : bool) (default_msg_size : Z) (tmpl : rtaddr) (cmd flags : Z)
    : exec (Z + nl_msg) :=
  let d := ce_data tmpl in
  scope ← request_scope tmpl;
  msg ←! start_msg c1 c2 default_msg_size cmd flags
           (ifaddrmsg (a_family d) (a_prefixlen d) (a_flags d) scope (a_ifindex d));
  msg ←! put_if (has_attr tmpl ADDR_ATTR_LOCAL) (NLA_PUT_ADDR IFA_LOCAL (a_local d)) msg;
  msg ←! (if has_attr tmpl ADDR_ATTR_PEER then NLA_PUT_ADDR IFA_ADDRESS (a_peer d) msg
          else put_if (has_attr tmpl ADDR_ATTR_LOCAL) (NLA_PUT_ADDR IFA_ADDRESS (a_local d)) msg);
  msg ←! put_if (has_attr tmpl ADDR_ATTR_ALIAS) (NLA_PUT_STRING IFA_ALIAS (a_alias d)) msg;
  msg ←! put_if (has_attr tmpl ADDR_ATTR_LABEL) (NLA_PUT_STRING IFA_LABEL (a_label d)) msg;
  msg ←! put_if (has_attr tmpl ADDR_ATTR_BROADCAST) (NLA_PUT_ADDR IFA_BROADCAST (a_bcast d)) msg;
  msg ←! put_if (has_attr tmpl ADDR_ATTR_CACHEINFO)
           (NLA_PUT IFA_CACHEINFO 16
              (ifa_cacheinfo (aci_prefered (a_cacheinfo d)) (aci_valid (a_cacheinfo d)) 0 0)) msg;
  put_if (negb (Z.land (a_flags d) (Z.lnot 255) =? 0)) (NLA_PUT_U32 IFA_FLAGS (a_flags d)) msg.

Definition rtnl_addr_build_add_request (c1 c2 : bool) (default_msg_size : Z) (addr : rtaddr) (flags : Z)
    : exec (Z + nl_msg) :=
  let required := Z.lor (Z.lor (Z.lor ADDR_ATTR_IFINDEX ADDR_ATTR_FAMILY) ADDR_ATTR_PREFIXLEN) ADDR_ATTR_LOCAL in
  if negb (Z.land (ce_mask addr) required =? required) then err NLE_MISSING_ATTR
  else build_addr_msg c1 c2 default_msg_size addr RTM_NEWADDR (Z.lor NLM_F_CREATE flags).
Definition rtnl_addr_build_delete_request (c1 c2 : bool) (default_msg_size : Z) (addr : rtaddr) (flags : Z)
    : exec (Z + nl_msg) :=
  let required := Z.lor ADDR_ATTR_IFINDEX ADDR_ATTR_FAMILY in
  if negb (Z.land (ce_mask addr) required =? required) then err NLE_MISSING_ATTR
  else build_addr_msg c1 c2 default_msg_size addr RTM_DELADDR flags.

Section Requests.
Context {W : Type}.
Variable n : net W.
Definition rtnl_addr_add (p : port_map) (sk : nl_sock) (addr : rtaddr) (flags : Z) (w : W) :=
  request_and_ack n (rtnl_addr_build_add_request (n_msg n) (n_buf n) (n_size n) addr flags) p sk w.
Definition rtnl_addr_delete (p : port_map) (sk : nl_sock) (addr : rtaddr) (flags : Z) (w : W) :=
  request_and_ack n (rtnl_addr_build_delete_request (n_msg n) (n_buf n) (n_size n) addr flags) p sk w.
Definition addr_request_update (cache : nl_cache) (sk : nl_sock) (p : port_map) (w : W) :=
  nl_rtgen_request n p sk RTM_GETADDR AF_UNSPEC NLM_F_DUMP w.
End Requests.

(** ** The cache *)

Definition addr_groups : list nl_af_group :=
  [{| ag_family := AF_INET; ag_group := 5 |}; {| ag_family := AF_INET6; ag_group := 9 |}].
Definition rtnl_addr_ops : nl_cache_ops :=
  {| co_name := Some (str "route/addr"); co_hdrsize := 8; co_protocol := NETLINK_ROUTE;
     co_hash_size := 0; co_flags := 0; co_groups := Some addr_groups; co_obj_ops := ADDR_OPS;
     co_msgtypes := [{| mt_id := RTM_NEWADDR; mt_act := NL_ACT_NEW; mt_name := str "new" |};
                     {| mt_id := RTM_DELADDR; mt_act := NL_ACT_DEL; mt_name := str "del" |};
                     {| mt_id := RTM_GETADDR; mt_act := NL_ACT_GET; mt_name := str "get" |}] |}.

(** [type]: the address of [rtnl_addr_ops]. *)
Definition rtnl_addr_get (type : Z) (h : heap rtnl_addr) (cache ifindex : Z) (addr : nl_addr)
    : exec (option Z * heap rtnl_addr) :=
  x ← get_cache h cache;
  if negb (c_ops x =? type) then mret (None, h)
  else
    find_item h cache (fun o =>
      let a := ce_body o in
      if negb (ifindex =? 0) && negb (a_ifindex (ce_data a) =? u32 ifindex) then mret false
      else if has_attr a ADDR_ATTR_LOCAL
      then d ← nl_addr_cmp (a_local (ce_data a)) (Some addr); mret (d =? 0) else mret false).

Definition rtnl_addr_alloc_cache {V} (f : filling rtnl_addr V) (type : Z) (c0 : bool) (c : Z -> bool)
    (link_of : Z -> option (Z * Z)) :=
  cache_fill f addr_ops_at (fun _ => rtnl_addr_ops) rtaddr_0
    (fun _ => Some (addr_request_update (f_net f))) (fun _ => addr_msg_parser c link_of c0) type.

(** ** Well-formed addresses *)

Record rtaddr_wf (a : rtaddr) : Prop := {
  ra_family : 0 <= a_family (ce_data a) < 2 ^ 8;
  ra_prefixlen : 0 <= a_prefixlen (ce_data a) < 2 ^ 8;
  ra_scope : 0 <= a_scope (ce_data a) < 2 ^ 8;
  ra_flags : 0 <= a_flags (ce_data a) < 2 ^ 32;
  ra_ifindex : 0 <= a_ifindex (ce_data a) < 2 ^ 32;
  ra_prefered : 0 <= aci_prefered (a_cacheinfo (ce_data a)) < 2 ^ 32;
  ra_valid : 0 <= aci_valid (a_cacheinfo (ce_data a)) < 2 ^ 32;
  ra_alias : byte_string (a_alias (ce_data a));
  ra_label : byte_string (a_label (ce_data a));
  ra_local : addr_opt_ok (a_local (ce_data a));
  ra_peer : addr_opt_ok (a_peer (ce_data a));
  ra_bcast : addr_opt_ok (a_bcast (ce_data a));
  ra_has_local : has_attr a ADDR_ATTR_LOCAL = true -> is_Some (a_local (ce_data a));
  ra_has_peer : has_attr a ADDR_ATTR_PEER = true -> is_Some (a_peer (ce_data a));
  ra_has_bcast : has_attr a ADDR_ATTR_BROADCAST = true -> is_Some (a_bcast (ce_data a))
}.

(** The scope can be guessed from the first byte of the local address. *)
Definition scope_known (a : rtaddr) : Prop :=
  has_attr a ADDR_ATTR_SCOPE = true \/
  forall l, a_local (ce_data a) = Some l -> 0 < a_len l.

(** ** What is sent *)

Definition guessed_scope (d : rtnl_addr) : Z :=
  match a_local d with
  | Some l => if (a_family d =? AF_INET) && (le_at 1 (a_addr l) 0 =? 127) then RT_SCOPE_HOST else RT_SCOPE_UNIVERSE
  | None => RT_SCOPE_UNIVERSE
  end.
Definition sent_scope (a : rtaddr) : Z :=
  if has_attr a ADDR_ATTR_SCOPE then a_scope (ce_data a)
  else if has_attr a ADDR_ATTR_LOCAL then guessed_scope (ce_data a) else RT_SCOPE_UNIVERSE.

Lemma request_scope_done a : rtaddr_wf a -> scope_known a -> request_scope a = Done (sent_scope a).
Proof.
  intros Hw Hs. unfold request_scope, sent_scope, guessed_scope. pose proof (ra_has_local a Hw) as Hl.
  pose proof (ra_local a Hw) as Hok. destruct (has_attr a ADDR_ATTR_SCOPE) eqn:E; [done|].
  destruct (has_attr a ADDR_ATTR_LOCAL); [|by rewrite andb_false_r]. rewrite andb_true_r.
  destruct Hl as [l El]; [done|]. rewrite El in *. destruct Hs as [Hs|Hs]; [by rewrite Hs in E|].
  specialize (Hs l El). destruct Hok as ((Hlen & Hz) & _). destruct (a_family _ =? AF_INET); [|done].
  unfold nl_addr_get_binary_addr. rewrite get_u8_done by lia. done.
Qed.

Definition rtaddr_hdr (a : rtaddr) : list Z :=
  let d := ce_data a in ifaddrmsg (a_family d) (a_prefixlen d) (a_flags d) (sent_scope a) (a_ifindex d).
(** Without a peer the attribute of the peer has the local address. *)
Definition sent_peer (a : rtaddr) : option nl_addr :=
  if has_attr a ADDR_ATTR_PEER then a_peer (ce_data a)
  else if has_attr a ADDR_ATTR_LOCAL then a_local (ce_data a) else None.
Definition wide_flags (a : rtaddr) : bool := negb (Z.land (a_flags (ce_data a)) (Z.lnot 255) =? 0).
Definition rtaddr_fields (a : rtaddr) : list (Z * option (list Z)) :=
  let d := ce_data a in let c := a_cacheinfo d in
  [(IFA_LOCAL, if has_attr a ADDR_ATTR_LOCAL then addr_bytes <$> a_local d else None);
   (IFA_ADDRESS, addr_bytes <$> sent_peer a);
   (IFA_ALIAS, if has_attr a ADDR_ATTR_ALIAS then Some (a_alias d ++ [0]) else None);
   (IFA_LABEL, if has_attr a ADDR_ATTR_LABEL then Some (a_label d ++ [0]) else None);
   (IFA_BROADCAST, if has_attr a ADDR_ATTR_BROADCAST then addr_bytes <$> a_bcast d else None);
   (IFA_CACHEINFO, if has_attr a ADDR_ATTR_CACHEINFO
                   then Some (ifa_cacheinfo (aci_prefered c) (aci_valid c) 0 0) else None);
   (IFA_FLAGS, if wide_flags a then Some (le_encode 4 (a_flags d)) else None)].

Lemma sent_peer_ok a : rtaddr_wf a -> addr_opt_ok (sent_peer a).
Proof. intros Hw. unfold sent_peer. repeat case_match; [apply Hw|apply Hw|done]. Qed.

Lemma build_addr_fields c1 c2 size a cmd flags :
  rtaddr_wf a -> scope_known a ->
  build_addr_msg c1 c2 size a cmd flags =
    (m ←! start_msg c1 c2 size cmd flags (rtaddr_hdr a); put_fields (rtaddr_fields a) m).
Proof.
  intros Hw Hs. unfold build_addr_msg. cbv zeta. rewrite (request_scope_done a Hw Hs). exec_simpl.
  apply run_or_ext. intros m. unfold rtaddr_fields. cbv zeta. cbn [put_fields].
  rewrite put_addr_opt; [|apply Hw|intros x; apply addr_opt_some, Hw]. apply run_or_ext. intros m1.
  assert ((if has_attr a ADDR_ATTR_PEER then NLA_PUT_ADDR IFA_ADDRESS (a_peer (ce_data a)) m1
           else put_if (has_attr a ADDR_ATTR_LOCAL) (NLA_PUT_ADDR IFA_ADDRESS (a_local (ce_data a))) m1) =
          put_field (IFA_ADDRESS, addr_bytes <$> sent_peer a) m1) as ->.
  { rewrite <- put_opt_field by by apply sent_peer_ok. unfold sent_peer.
    destruct (has_attr a ADDR_ATTR_PEER) eqn:E1; [by destruct (ra_has_peer a Hw E1) as [x ->]|].
    destruct (has_attr a ADDR_ATTR_LOCAL) eqn:E2; [by destruct (ra_has_local a Hw E2) as [x ->]|done]. }
  apply run_or_ext. intros m2. rewrite put_string_ok by apply Hw. apply run_or_ext. intros m3.
  rewrite put_string_ok by apply Hw. apply run_or_ext. intros m4.
  rewrite put_addr_opt; [|apply Hw|intros x; apply addr_opt_some, Hw]. apply run_or_ext. intros m5.
  rewrite put_if_field by done. apply run_or_ext. intros m6.
  rewrite run_or_ok_r. unfold NLA_PUT_U32. by rewrite put_if_field.
Qed.

Lemma ifa_cacheinfo_ok p v c t : bytes_ok (ifa_cacheinfo p v c t) /\ zlen (ifa_cacheinfo p v c t) = 16.
Proof.
  unfold ifa_cacheinfo. split; [|rewrite !zlen_app, !zlen_le_encode; done].
  rewrite !bytes_ok_app. split_and!; auto with nl.
Qed.

Lemma rtaddr_fields_fit a : rtaddr_wf a -> Forall attr_fits (enc (rtaddr_fields a)).
Proof.
  intros Hw. apply fields_fit. unfold rtaddr_fields. cbv zeta.
  repeat apply Forall_cons_2; [..|apply Forall_nil_2]; cbn [fst snd]; (split; [done|]).
  - apply addr_field_fits, Hw.
  - apply opt_fits. by apply sent_peer_ok.
  - apply string_fits, Hw.
  - apply string_fits, Hw.
  - apply addr_field_fits, Hw.
  - destruct (has_attr a ADDR_ATTR_CACHEINFO); [|done]. split; [apply ifa_cacheinfo_ok|].
    by rewrite (proj2 (ifa_cacheinfo_ok _ _ _ _)).
  - destruct (wide_flags a); [|done]. split; [auto with nl|]. by rewrite zlen_le_encode.
Qed.

Lemma ifaddrmsg_ok f p fl s i : bytes_ok (ifaddrmsg f p fl s i) /\ zlen (ifaddrmsg f p fl s i) = 8.
Proof.
  split; [|unfold ifaddrmsg; rewrite !zlen_app, !zlen_le_encode; done].
  unfold ifaddrmsg. rewrite !bytes_ok_app. split; [|auto with nl].
  repeat (apply Forall_cons_2; [unfold u8; zdiv_lia|]); apply Forall_nil_2.
Qed.

(** Building a request from a well-formed address: never a fault. *)
Lemma build_addr_done c1 c2 size a cmd flags :
  rtaddr_wf a -> scope_known a -> size < 2147483648 ->
  exists r, build_addr_msg c1 c2 size a cmd flags = Done r /\
    build_result c1 c2 size cmd flags (rtaddr_hdr a) (enc (rtaddr_fields a)) r.
Proof.
  intros Hw Hs Hsz. rewrite build_addr_fields by done.
  destruct (ifaddrmsg_ok (a_family (ce_data a)) (a_prefixlen (ce_data a)) (a_flags (ce_data a)) (sent_scope a)
    (a_ifindex (ce_data a))) as [H1 H2].
  apply build_done; [done|done|unfold rtaddr_hdr; lia|by apply rtaddr_fields_fit].
Qed.

(** ** Reading back a request *)

Lemma ifaddrmsg_fields f p fl s i :
  let h := ifaddrmsg f p fl s i in
  le_at 1 h 0 = u8 f /\ le_at 1 h 1 = u8 p /\ le_at 1 h 2 = u8 fl /\ le_at 1 h 3 = u8 s /\ le_at 4 h 4 = u32 i.
Proof.
  intros h. split_and!.
  - change (le_at 1 h 0) with (u8 f + 256 * 0). lia.
  - change (le_at 1 h 1) with (u8 p + 256 * 0). lia.
  - change (le_at 1 h 2) with (u8 fl + 256 * 0). lia.
  - change (le_at 1 h 3) with (u8 s + 256 * 0). lia.
  - change (le_at 4 h 4) with (le_decode (le_encode 4 i)). apply le_decode_encode.
Qed.

Lemma ifa_cacheinfo_words p v :
  0 <= p < 2 ^ 32 -> 0 <= v < 2 ^ 32 ->
  let c := ifa_cacheinfo p v 0 0 in le_at 4 c 0 = p /\ le_at 4 c 4 = v /\ le_at 4 c 8 = 0 /\ le_at 4 c 12 = 0.
Proof.
  intros Hp Hv c. split_and!; [| |done..].
  - change (le_at 4 c 0) with (le_decode (le_encode 4 p)). rewrite le_decode_encode. by apply u32_id.
  - change (le_at 4 c 4) with (le_decode (le_encode 4 v)). rewrite le_decode_encode. by apply u32_id.
Qed.

(** The local address and the peer that are read from the bytes [l] and [p]: no peer
    where both are the same. *)
Definition addrs_read (family plen : Z) (l p : list Z) : option nl_addr * option nl_addr :=
  let made x := addr_made family x in
  if bool_decide (l = p) then (Some (nl_addr_set_prefixlen (made l) plen), None)
  else if family =? AF_INET then (Some (nl_addr_set_prefixlen (made l) plen), Some (made p))
  else (Some (made l), Some (nl_addr_set_prefixlen (made p) plen)).

Lemma made_cmp family l p :
  zlen l < 2147483648 -> zlen p < 2147483648 ->
  exists d, nl_addr_cmp (Some (addr_made family l)) (Some (addr_made family p)) = Done d /\ (d = 0 <-> l = p).
Proof.
  intros Hl Hp. pose proof (addr_made_wf family l Hl) as Wl. pose proof (addr_made_wf family p Hp) as Wp.
  rewrite nl_addr_cmp_done by done. eexists. split; [done|]. rewrite addr_diff_zero by done.
  pose proof (zlen_nonneg l). pose proof (zlen_nonneg p). unfold addr_same. simpl. rewrite !u32_id by lia.
  rewrite !sub_all. split; [by intros (_ & _ & ? & _)|by intros ->].
Qed.

Lemma addrs_read_done b l tb lb pb family plen :
  table b l IFA_MAX tb -> attr_of l IFA_LOCAL = Some lb -> attr_of l IFA_ADDRESS = Some pb ->
  zlen lb < 2147483648 -> zlen pb < 2147483648 ->
  (if family =? AF_INET then inet_addrs (fun _ => true) b tb family plen
   else other_addrs (fun _ => true) b tb family plen) = ok (addrs_read family plen lb pb).
Proof.
  intros Ht Hl Hp Hlz Hpz. unfold addrs_read.
  destruct (table_some _ _ _ _ IFA_LOCAL _ Ht ltac:(done) Hl) as (n1 & E1 & A1).
  destruct (table_some _ _ _ _ IFA_ADDRESS _ Ht ltac:(done) Hp) as (n2 & E2 & A2).
  destruct (family =? AF_INET).
  - unfold inet_addrs, addr_or_null. rewrite E1, E2. exec_simpl.
    rewrite (addr_of_attr_done _ _ _ _ A1), (addr_of_attr_done _ _ _ _ A2), !run_or_ok.
    destruct (made_cmp family lb pb Hlz Hpz) as (d & -> & Hd). exec_simpl.
    case_bool_decide as E; destruct (Z.eqb_spec d 0); naive_solver.
  - unfold other_addrs, if_attr_or. rewrite E1, E2. exec_simpl.
    rewrite (addr_of_attr_done _ _ _ _ A1), (addr_of_attr_done _ _ _ _ A2), !run_or_ok.
    destruct (made_cmp family pb lb Hpz Hlz) as (d & -> & Hd). exec_simpl.
    case_bool_decide as E; destruct (Z.eqb_spec d 0); naive_solver.
Qed.

(** What the parser makes of the request for [a], which has a local address. *)
Definition rtaddr_sent (a : rtaddr) : rtaddr :=
  let d := ce_data a in let c := a_cacheinfo d in
  let field t := field (rtaddr_fields a) t in
  let bit (o : bool) attr := if o then attr else 0 in
  let '(local, peer) := addrs_read (a_family d) (a_prefixlen d) (default [] (field IFA_LOCAL))
                          (default [] (field IFA_ADDRESS)) in
  let has attr := has_attr a attr in
  Body (Z.lor (Z.lor (Z.lor (Z.lor (Z.lor (Z.lor addr_hdr_attrs (bit (has ADDR_ATTR_ALIAS) ADDR_ATTR_ALIAS))
          (bit (has ADDR_ATTR_LABEL) ADDR_ATTR_LABEL)) (bit (has ADDR_ATTR_CACHEINFO) ADDR_ATTR_CACHEINFO))
          ADDR_ATTR_LOCAL) (bit (is_some peer) ADDR_ATTR_PEER))
          (bit (is_some (field IFA_BROADCAST)) ADDR_ATTR_BROADCAST))
    {| a_family := a_family d; a_prefixlen := a_prefixlen d; a_scope := sent_scope a; a_flags := a_flags d;
       a_ifindex := a_ifindex d; a_peer := peer; a_local := local;
       a_bcast := addr_made (a_family d) <$> field IFA_BROADCAST; a_anycast := None; a_multicast := None;
       a_cacheinfo := if has ADDR_ATTR_CACHEINFO
                      then {| aci_prefered := aci_prefered c; aci_valid := aci_valid c; aci_cstamp := 0; aci_tstamp := 0 |}
                      else a_cacheinfo rtaddr_0;
       a_alias := if has ADDR_ATTR_ALIAS then a_alias d else [];
       a_label := if has ADDR_ATTR_LABEL then a_label d else [];
       a_flag_mask := 0; a_link := None |}.
Definition rtaddr_linked (link_of : Z -> option (Z * Z)) (a : rtaddr) : rtaddr :=
  match link_of (s32 (a_ifindex (ce_data a))) with Some l => rtnl_addr_set_link a (Some l) | None => a end.

Lemma addr_policy_ok : policy_opt_ok IFA_MAX (Some addr_policy).
Proof. by apply policy_okb_ok. Qed.

Lemma rtaddr_content_ok a : rtaddr_wf a -> Forall (content_ok IFA_MAX (Some addr_policy)) (enc (rtaddr_fields a)).
Proof.
  intros Hw. apply Forall_enc. unfold rtaddr_fields. cbv zeta.
  assert (forall s, byte_string s -> entry_ok {| pol_type := NLA_STRING; pol_minlen := 0; pol_maxlen := IFNAMSIZ |} (s ++ [0])) as Hs.
  { intros s [_ Hs]. pose proof (zlen_nonneg s). unfold entry_ok, policy_min, IFNAMSIZ in *. cbn [pol_type pol_minlen pol_maxlen].
    rewrite zlen_app. change (zlen [0]) with 1. split_and!; [simpl; lia|lia|]. intros _. by rewrite last_snoc. }
  repeat apply Forall_cons_2; [..|apply Forall_nil_2]; cbn [fst snd].
  - match goal with |- from_option _ _ ?o => destruct o; [|done] end. intros _. eexists. split; [reflexivity|by apply entry_ok_any].
  - match goal with |- from_option _ _ ?o => destruct o; [|done] end. intros _. eexists. split; [reflexivity|by apply entry_ok_any].
  - destruct (has_attr a ADDR_ATTR_ALIAS); [|done]. intros _. eexists. split; [reflexivity|apply Hs, Hw].
  - destruct (has_attr a ADDR_ATTR_LABEL); [|done]. intros _. eexists. split; [reflexivity|apply Hs, Hw].
  - match goal with |- from_option _ _ ?o => destruct o; [|done] end. intros _. eexists. split; [reflexivity|by apply entry_ok_any].
  - destruct (has_attr a ADDR_ATTR_CACHEINFO); [|done]. intros _. eexists. split; [reflexivity|].
    unfold entry_ok, policy_min. cbn [pol_type pol_minlen pol_maxlen pol_min snd].
    rewrite (proj2 (ifa_cacheinfo_ok (aci_prefered (a_cacheinfo (ce_data a))) (aci_valid (a_cacheinfo (ce_data a))) 0 0)).
    split; [simpl; lia|done].
  - destruct (wide_flags a); [|done]. intros _. eexists. split; [reflexivity|by apply entry_ok_any].
Qed.

Lemma narrow_flags f : 0 <= f < 2 ^ 32 -> Z.land f (Z.lnot 255) = 0 -> u8 f = f.
Proof.
  intros Hf Hz. unfold u8. change 256 with (2 ^ 8). rewrite <- Z.land_ones by lia. apply Z.bits_inj'. intros i Hi.
  rewrite Z.land_spec. apply (f_equal (fun x => Z.testbit x i)) in Hz. rewrite Z.land_spec, Z.lnot_spec, Z.bits_0 in Hz by done.
  change 255 with (Z.ones 8) in Hz. destruct (Z.testbit (Z.ones 8) i); simpl in Hz; [by rewrite andb_true_r|].
  by rewrite andb_true_r in Hz; rewrite Hz.
Qed.

Lemma sent_scope_range a : rtaddr_wf a -> 0 <= sent_scope a < 2 ^ 8.
Proof.
  intros Hw. unfold sent_scope, guessed_scope, RT_SCOPE_HOST, RT_SCOPE_UNIVERSE. repeat case_match; try lia. apply Hw.
Qed.

(** Reading the flags: from the attribute where they are too wide for the header. *)
Lemma rtaddr_flags_read m size type flags a tb :
  rtaddr_wf a -> built m size type flags (rtaddr_hdr a) (enc (rtaddr_fields a)) ->
  table (nm_nlh m) (enc (rtaddr_fields a)) IFA_MAX tb ->
  (o ← tb_at tb IFA_FLAGS;
   match o with Some nla => nla_get_u32 (nm_nlh m) nla | None => get_u8 (nm_nlh m) (16 + 2) end) =
  Done (a_flags (ce_data a)).
Proof.
  intros Hw Hb Ht.
  assert (attr_of (enc (rtaddr_fields a)) IFA_FLAGS =
    if wide_flags a then Some (le_encode 4 (a_flags (ce_data a))) else None) as Hf
    by (rewrite attr_of_enc; [done|apply (bool_decide_unpack _); reflexivity]).
  pose proof (ra_flags a Hw) as Hr. destruct (wide_flags a) eqn:E.
  - destruct (table_some _ _ _ _ IFA_FLAGS _ Ht ltac:(done) Hf) as (nla & -> & Hat). exec_simpl.
    rewrite (attr_at_u32 _ _ _ Hat). by rewrite u32_id by apply Hr.
  - rewrite (table_none _ _ _ _ IFA_FLAGS Ht ltac:(done) Hf). exec_simpl.
    destruct (ifaddrmsg_ok (a_family (ce_data a)) (a_prefixlen (ce_data a)) (a_flags (ce_data a)) (sent_scope a)
      (a_ifindex (ce_data a))) as [_ Hz].
    destruct (ifaddrmsg_fields (a_family (ce_data a)) (a_prefixlen (ce_data a)) (a_flags (ce_data a)) (sent_scope a)
      (a_ifindex (ce_data a))) as (_ & _ & F3 & _).
    unfold rtaddr_hdr in Hb. hdr_get Hb 2 F3. f_equal. apply narrow_flags; [done|].
    unfold wide_flags in E. by bool_hyps.
Qed.

(** The peer has a payload where the local address has one. *)
Lemma rtaddr_payloads a :
  rtaddr_wf a -> has_attr a ADDR_ATTR_LOCAL = true ->
  exists lb pb, field (rtaddr_fields a) IFA_LOCAL = Some lb /\ field (rtaddr_fields a) IFA_ADDRESS = Some pb /\
    zlen lb < 2147483648 /\ zlen pb < 2147483648.
Proof.
  intros Hw Hl. pose proof (sent_peer_ok a Hw) as Hp. destruct (ra_has_local a Hw Hl) as [l El].
  assert (is_Some (sent_peer a)) as [p Ep].
  { unfold sent_peer. rewrite Hl, El. destruct (has_attr a ADDR_ATTR_PEER) eqn:E; [by apply Hw|by eexists]. }
  pose proof (ra_local a Hw) as Hlo. rewrite El in Hlo. rewrite Ep in Hp.
  exists (addr_bytes l), (addr_bytes p). unfold rtaddr_fields. cbv zeta.
  assert (forall x, addr_ok x -> zlen (addr_bytes x) < 2147483648) as Hz
    by (intros x ((? & ?) & _ & ?); unfold addr_bytes; rewrite zlen_sub; lia).
  split; [simpl; by rewrite Hl, El|]. split; [simpl; by rewrite Ep|]. split; by apply Hz.
Qed.

Lemma rtaddr_sent_index a : a_ifindex (ce_data (rtaddr_sent a)) = a_ifindex (ce_data a).
Proof. unfold rtaddr_sent. by destruct (addrs_read _ _ _ _). Qed.

(** A message built from an address with a local address is parsed into what
    [rtaddr_sent] says. *)
Lemma addr_decode_built link_of m size type flags a :
  rtaddr_wf a -> has_attr a ADDR_ATTR_LOCAL = true ->
  built m size type flags (rtaddr_hdr a) (enc (rtaddr_fields a)) ->
  addr_decode (fun _ => true) link_of (nm_nlh m) = ok (rtaddr_linked link_of (rtaddr_sent a)).
Proof.
  intros Hw Hloc Hb. unfold addr_decode.
  destruct (ifaddrmsg_ok (a_family (ce_data a)) (a_prefixlen (ce_data a)) (a_flags (ce_data a)) (sent_scope a)
    (a_ifindex (ce_data a))) as [_ Hhl].
  destruct (ifaddrmsg_fields (a_family (ce_data a)) (a_prefixlen (ce_data a)) (a_flags (ce_data a)) (sent_scope a)
    (a_ifindex (ce_data a))) as (F1 & F2 & _ & F4 & F5).
  change (ifaddrmsg (a_family (ce_data a)) (a_prefixlen (ce_data a)) (a_flags (ce_data a)) (sent_scope a)
    (a_ifindex (ce_data a))) with (rtaddr_hdr a) in *.
  destruct (built_parse m size type flags _ _ IFA_MAX (Some addr_policy) Hb) as (tb & Hp & Ht);
    [lia|apply addr_policy_ok|by apply rtaddr_content_ok|].
  rewrite Hhl in Hp. rewrite Hp. exec_simpl. change (0 <? 0) with false. cbv iota. change (nlmsg_data 0) with 16.
  change (get_u8 (nm_nlh m) 16) with (get_u8 (nm_nlh m) (16 + 0)).
  hdr_get Hb 0 F1. hdr_get Hb 1 F2. hdr_get Hb 3 F4.
  rewrite (rtaddr_flags_read m size type flags a tb Hw Hb Ht). exec_simpl. hdr_get Hb 4 F5.
  rewrite (u32_id (a_ifindex _)) by apply Hw.
  rewrite !u8_id by first [apply Hw | by apply sent_scope_range].
  set (n0 := Body _ _).
  assert (NoDup (map fst (rtaddr_fields a))) as Hnd by (apply (bool_decide_unpack _); reflexivity).
  rewrite (table_if _ _ _ _ IFA_ALIAS _ (fun d n =>
    fill_attr n ADDR_ATTR_ALIAS (fun x : rtnl_addr => x <| a_alias := a_alias (ce_data a) |>)) _ Ht); [|done|].
  2: { intros nla d Hd Hat. rewrite attr_of_enc in Hd by done. simpl in Hd.
       destruct (has_attr a ADDR_ATTR_ALIAS); [|done]. injection Hd as <-.
       rewrite (attr_strlcpy_done _ _ (a_alias (ce_data a))); [done|done|by apply byte_string_nonzero, Hw|apply (ra_alias a Hw)]. }
  rewrite attr_of_enc by done. exec_simpl.
  rewrite (table_if _ _ _ _ IFA_LABEL _ (fun d n =>
    fill_attr n ADDR_ATTR_LABEL (fun x : rtnl_addr => x <| a_label := a_label (ce_data a) |>)) _ Ht); [|done|].
  2: { intros nla d Hd Hat. rewrite attr_of_enc in Hd by done. simpl in Hd.
       destruct (has_attr a ADDR_ATTR_LABEL); [|done]. injection Hd as <-.
       rewrite (attr_strlcpy_done _ _ (a_label (ce_data a))); [done|done|by apply byte_string_nonzero, Hw|apply (ra_label a Hw)]. }
  rewrite attr_of_enc by done. exec_simpl.
  rewrite (table_if _ _ _ _ IFA_CACHEINFO _ (fun d n =>
    fill_attr n ADDR_ATTR_CACHEINFO (fun x : rtnl_addr => x <| a_cacheinfo :=
      {| aci_prefered := aci_prefered (a_cacheinfo (ce_data a)); aci_valid := aci_valid (a_cacheinfo (ce_data a));
         aci_cstamp := 0; aci_tstamp := 0 |} |>)) _ Ht); [|done|].
  2: { intros nla d Hd Hat. rewrite attr_of_enc in Hd by done. simpl in Hd.
       destruct (has_attr a ADDR_ATTR_CACHEINFO); [|done]. injection Hd as <-. 
       rewrite <- (Z.add_0_r (nla_data nla)) at 1.
       destruct (ifa_cacheinfo_ok (aci_prefered (a_cacheinfo (ce_data a))) (aci_valid (a_cacheinfo (ce_data a))) 0 0) as [_ Hcz].
       destruct (ifa_cacheinfo_words (aci_prefered (a_cacheinfo (ce_data a))) (aci_valid (a_cacheinfo (ce_data a))))
         as (C1 & C2 & C3 & C4); [apply Hw..|].
       rewrite !(attr_word _ _ _ _ Hat) by lia. exec_simpl. by rewrite C1, C2, C3, C4. }
  rewrite attr_of_enc by done. exec_simpl.
  destruct (rtaddr_payloads a Hw Hloc) as (lb & pb & Elb & Epb & Hlz & Hpz).
  rewrite (addrs_read_done _ _ _ lb pb _ _ Ht) by (rewrite ?attr_of_enc; done).
  destruct (addrs_read (a_family (ce_data a)) (a_prefixlen (ce_data a)) lb pb) as [local peer] eqn:Er.
  rewrite run_or_ok.
  assert (is_Some local) as [l ->] by (unfold addrs_read in Er; repeat case_match; injection Er as <- _; by eexists).
  rewrite (table_or _ _ _ _ IFA_BROADCAST _ (fun d n => fill_attr n ADDR_ATTR_BROADCAST (fun x : rtnl_addr => x <|
    a_bcast := Some (addr_made (a_family (ce_data a)) d) |>)) _ Ht);
    [|done|intros nla d _ Hat; unfold set_addr; by rewrite (addr_of_attr_done _ _ _ _ Hat)].
  rewrite attr_of_enc, run_or_ok by done.
  rewrite (table_or_skip _ _ _ _ IFA_MULTICAST _ _ Ht), run_or_ok by (by rewrite ?attr_of_enc).
  rewrite (table_or_skip _ _ _ _ IFA_ANYCAST _ _ Ht), run_or_ok by (by rewrite ?attr_of_enc).
  match goal with |- ok (match _ with Some _ => _ | None => ?x end) = _ => assert (x = rtaddr_sent a) as -> end;
    [|unfold rtaddr_linked; by rewrite rtaddr_sent_index].
  unfold rtaddr_sent. cbv zeta. rewrite Elb, Epb. cbn [from_option id]. unfold id. rewrite Er. subst n0.
  change (field (rtaddr_fields a) IFA_ALIAS) with
    (if has_attr a ADDR_ATTR_ALIAS then Some (a_alias (ce_data a) ++ [0]) else None).
  change (field (rtaddr_fields a) IFA_LABEL) with
    (if has_attr a ADDR_ATTR_LABEL then Some (a_label (ce_data a) ++ [0]) else None).
  change (field (rtaddr_fields a) IFA_CACHEINFO) with
    (if has_attr a ADDR_ATTR_CACHEINFO
     then Some (ifa_cacheinfo (aci_prefered (a_cacheinfo (ce_data a))) (aci_valid (a_cacheinfo (ce_data a))) 0 0) else None).
  change (field (rtaddr_fields a) IFA_BROADCAST) with
    (if has_attr a ADDR_ATTR_BROADCAST then addr_bytes <$> a_bcast (ce_data a) else None).
  generalize (a_family (ce_data a)) (a_prefixlen (ce_data a)) (a_flags (ce_data a)) (a_ifindex (ce_data a)) (sent_scope a).
  intros fam plen fl ifi scope. generalize (a_alias (ce_data a)) (a_label (ce_data a)) (a_cacheinfo (ce_data a)) (a_bcast (ce_data a)). intros al la ci bc; cbn [option_map fmap option_fmap].
  destruct (has_attr a ADDR_ATTR_ALIAS), (has_attr a ADDR_ATTR_LABEL), (has_attr a ADDR_ATTR_CACHEINFO), peer;
    (destruct (has_attr a ADDR_ATTR_BROADCAST); [destruct bc|]);
    cbv beta iota zeta delta [fill_attr addr_hdr_data ce_data ce_mask a_family a_prefixlen a_scope a_flags a_ifindex
      a_peer a_local a_bcast a_anycast a_multicast a_cacheinfo a_alias a_label a_flag_mask a_link]. all: done.
Qed.

(** ** Properties *)

(** The addresses are of the family of the object, the local one has its prefix
    length and the broadcast address all its bits. *)
Definition rtaddr_natural (a : rtaddr) : Prop :=
  let d := ce_data a in
  has_attr a ADDR_ATTR_PEER = false /\
  (forall l, a_local d = Some l -> Addr.a_family l = a_family d /\ Addr.a_prefixlen l = a_prefixlen d) /\
  (forall x, a_bcast d = Some x -> Addr.a_family x = a_family d /\ Addr.a_prefixlen x = 8 * a_len x /\ a_family d <> AF_MPLS).
(** The links found have the index asked for. *)
Definition links_indexed (link_of : Z -> option (Z * Z)) : Prop :=
  forall i l j, link_of i = Some (l, j) -> j = u32 i.
Definition rtaddr_carried : Z := 1 + 4 + 8 + 16 + 32 + 256 + 512.

Lemma linked_data link_of x :
  links_indexed link_of -> 0 <= a_ifindex (ce_data x) < 2 ^ 32 ->
  ce_data (rtaddr_linked link_of x) = (ce_data x) <| a_link := a_link (ce_data (rtaddr_linked link_of x)) |>.
Proof.
  intros Hl Hr. unfold rtaddr_linked. destruct (link_of _) as [[l j]|] eqn:E; [|by destruct x as [? []]].
  apply Hl in E as ->. rewrite u32_s32. destruct x as [mask d]. cbn in *. rewrite u32_id by done. by destruct d.
Qed.

Lemma rtaddr_sent_same link_of a :
  rtaddr_wf a -> rtaddr_natural a -> has_attr a ADDR_ATTR_LOCAL = true -> links_indexed link_of ->
  addr_compare a (rtaddr_linked link_of (rtaddr_sent a))
    (Z.land (Z.land (ce_mask a) (ce_mask (rtaddr_linked link_of (rtaddr_sent a)))) rtaddr_carried) 0 = 0.
Proof.
  intros Hw (Hpeer & Hlocal & Hbcast) Hl Hlinks.
  set (s := rtaddr_linked link_of (rtaddr_sent a)).
  destruct (ra_has_local a Hw Hl) as [l El]. pose proof (ra_local a Hw) as Hok. rewrite El in Hok.
  destruct (Hlocal l El) as [Hfam Hplen].
  assert (a_ifindex (ce_data s) = a_ifindex (ce_data a) /\ a_family (ce_data s) = a_family (ce_data a) /\
          a_label (ce_data s) = (if has_attr a ADDR_ATTR_LABEL then a_label (ce_data a) else []) /\
          (has_attr a ADDR_ATTR_SCOPE = true -> a_scope (ce_data s) = a_scope (ce_data a)) /\
          a_flags (ce_data s) = a_flags (ce_data a) /\
          a_local (ce_data s) = Some (nl_addr_set_prefixlen (addr_made (a_family (ce_data a)) (addr_bytes l)) (a_prefixlen (ce_data a))) /\
          a_bcast (ce_data s) = addr_made (a_family (ce_data a)) <$> field (rtaddr_fields a) IFA_BROADCAST)
    as (S1 & S2 & S3 & S4 & S5 & S6 & S7).
  { unfold s. rewrite linked_data by (done || rewrite rtaddr_sent_index; apply Hw). generalize (a_link (ce_data (rtaddr_linked link_of (rtaddr_sent a)))).
    intros lk. unfold rtaddr_sent. cbv zeta.
    unfold rtaddr_fields. cbn [field]. simpl. unfold sent_scope, sent_peer. rewrite Hl, Hpeer, El. simpl.
    unfold addrs_read. rewrite bool_decide_true by done. simpl. split_and!; try done. by intros ->. }
  unfold addr_compare. apply diffs_shared.
  change (has_flag 0 LOOSE_COMPARISON) with false. change (has_flag 0 ID_COMPARISON) with false. cbv iota zeta.
  assert (forall v, negb (v =? v) = false) as Hz by (intros v; by rewrite Z.eqb_refl).
  repeat apply Forall_cons_2; [..|apply Forall_nil_2]; cbn [fst snd].
  - split; [by exists 4|]. intros _ _ _. rewrite S1. apply Hz.
  - split; [by exists 0|]. intros _ _ _. rewrite S2. apply Hz.
  - split; [by exists 3|]. intros Hs _ _. rewrite S4 by done. apply Hz.
  - split; [by exists 5|]. intros Hs _ _. rewrite S3.
    change (has_flag (ce_mask a) ADDR_ATTR_LABEL) with (has_attr a ADDR_ATTR_LABEL) in Hs. rewrite Hs.
    by rewrite bool_decide_true.
  - split; [by exists 7|]. intros Hs. exfalso. change (has_attr a ADDR_ATTR_PEER = true) in Hs. congruence.
  - split; [by exists 8|]. intros _ _ _. rewrite S6, El. by apply addr_made_same.
  - split; [by exists 10|]. done.
  - split; [by exists 9|]. intros Hs _ _. rewrite S7.
    change (has_flag (ce_mask a) ADDR_ATTR_BROADCAST) with (has_attr a ADDR_ATTR_BROADCAST) in Hs.
    destruct (ra_has_bcast a Hw Hs) as [x Ex]. destruct (Hbcast x Ex) as (Hxf & Hxp & Hne).
    unfold rtaddr_fields. cbn [field]. simpl. rewrite Hs, Ex. simpl.
    pose proof (ra_bcast a Hw) as Hxo. rewrite Ex in Hxo. pose proof Hxo as ((Hxl & Hxz) & _ & Hx2).
    assert (zlen (addr_bytes x) = a_len x) as Hlen by (apply zlen_sub; lia).
    rewrite <- set_made_prefixlen by (done || lia). apply addr_made_same; [done|done|lia].
  - split; [by exists 11|]. done.
  - split; [by exists 6|]. done.
  - split; [by exists 2|]. intros _ _ _. rewrite S5. apply Hz.
Qed.


(** ** Witness *)

(** 127.0.0.1/8 with the label "lo" at the interface 1. *)
Definition ex_loop : rtaddr :=
  let a := Body 0 (addr_constructor rtaddr_0) in
  let a := rtnl_addr_set_ifindex a 1 in
  let a := (rtnl_addr_set_local a (Some (ex_addr AF_INET [127; 0; 0; 1] 8))).2 in
  let a := (rtnl_addr_set_label a [108; 111]).2 in
  rtnl_addr_set_flags a 640.


(** ** What modelling showed *)

(** The policy says nothing of the flags: an attribute without payload at the end of
    the message makes the parser read behind it. *)
Lemma flags_overread :
  addr_decode (fun _ => true) (fun _ => None)
    (le_encode 4 28 ++ le_encode 2 RTM_NEWADDR ++ zeros 10 ++ ifaddrmsg AF_INET 8 0 0 1 ++
     le_encode 2 4 ++ le_encode 2 IFA_FLAGS) = Fault.
Proof. by vm_compute. Qed.

(** An empty local address - "default" is one - is read all the same where the scope
    is guessed. *)
Lemma scope_of_nothing :
  request_scope (rtnl_addr_set_local (Body 0 (addr_constructor rtaddr_0)) (Some (ex_addr AF_INET [] 0))).2 = Fault.
Proof. by vm_compute. Qed.
