(* ===== verification/Rule.v ===== *)
(** Routing rules (lib/route/rule.c), as objects.  Abstract addresses are values
    here: their reference counts are not followed. *)
From S2P Require Import Prelude Errors Msg Attr CString Utils Addr Handlers Socket Nl NlList Object Cache CacheInv ObjAttr CacheMngt CacheDump Wire Build Rtnl.

(** ** Data *)

Definition RULE_ATTR_FAMILY := 1.
Definition RULE_ATTR_TABLE := 2.
Definition RULE_ATTR_ACTION := 4.
Definition RULE_ATTR_FLAGS := 8.
Definition RULE_ATTR_IIFNAME := 16.
Definition RULE_ATTR_OIFNAME := 32.
Definition RULE_ATTR_PRIO := 64.
Definition RULE_ATTR_MARK := 128.
Definition RULE_ATTR_MASK := 256.
Definition RULE_ATTR_GOTO := 512.
Definition RULE_ATTR_SRC := 1024.
Definition RULE_ATTR_DST := 2048.
Definition RULE_ATTR_DSFIELD := 4096.
Definition RULE_ATTR_FLOW := 8192.
Definition RULE_ATTR_L3MDEV := 16384.
Definition RULE_ATTR_PROTOCOL := 32768.
Definition RULE_ATTR_IP_PROTO := 65536.
Definition RULE_ATTR_SPORT := 131072.
Definition RULE_ATTR_DPORT := 262144.

Definition FRA_DST := 1.
Definition FRA_SRC := 2.
Definition FRA_IIFNAME := 3.
Definition FRA_GOTO := 4.
Definition FRA_PRIORITY := 6.
Definition FRA_FWMARK := 10.
Definition FRA_FLOW := 11.
Definition FRA_TABLE := 15.
Definition FRA_FWMASK := 16.
Definition FRA_OIFNAME := 17.
Definition FRA_L3MDEV := 19.
Definition FRA_PROTOCOL := 21.
Definition FRA_IP_PROTO := 22.
Definition FRA_SPORT_RANGE := 23.
Definition FRA_DPORT_RANGE := 24.
Definition FRA_MAX := 24.
Definition RTM_NEWRULE := 32.
Definition RTM_DELRULE := 33.
Definition RTM_GETRULE := 34.

Record fib_rule_port_range := { pr_start : Z; pr_end : Z }.

(** [r_iifname], [r_oifname]: the strings in the arrays. *)
Record rtnl_rule := {
  r_family : Z;
  r_action : Z;
  r_dsfield : Z;
  r_l3mdev : Z;
  r_protocol : Z;
  r_ip_proto : Z;
  r_table : Z;
  r_flags : Z;
  r_prio : Z;
  r_mark : Z;
  r_mask : Z;
  r_goto : Z;
  r_flow : Z;
  r_src : option nl_addr;
  r_dst : option nl_addr;
  r_iifname : list Z;
  r_oifname : list Z;
  r_sport : fib_rule_port_range;
  r_dport : fib_rule_port_range
}.
#[export] Instance eta_rule : Eta rtnl_rule := fun r =>
  {| r_family := r_family r; r_action := r_action r; r_dsfield := r_dsfield r; r_l3mdev := r_l3mdev r;
     r_protocol := r_protocol r; r_ip_proto := r_ip_proto r; r_table := r_table r; r_flags := r_flags r;
     r_prio := r_prio r; r_mark := r_mark r; r_mask := r_mask r; r_goto := r_goto r; r_flow := r_flow r;
     r_src := r_src r; r_dst := r_dst r; r_iifname := r_iifname r; r_oifname := r_oifname r;
     r_sport := r_sport r; r_dport := r_dport r |}.

Definition port_range_0 : fib_rule_port_range := {| pr_start := 0; pr_end := 0 |}.
Definition rule_0 : rtnl_rule :=
  {| r_family := 0; r_action := 0; r_dsfield := 0; r_l3mdev := 0; r_protocol := 0; r_ip_proto := 0;
     r_table := 0; r_flags := 0; r_prio := 0; r_mark := 0; r_mask := 0; r_goto := 0; r_flow := 0;
     r_src := None; r_dst := None; r_iifname := []; r_oifname := []; r_sport := port_range_0;
     r_dport := port_range_0 |}.

Abbreviation rule := (body rtnl_rule).

(** ** Getting and setting *)

Definition rtnl_rule_set_family (r : rule) (family : Z) : rule :=
  fill_attr r RULE_ATTR_FAMILY (fun d => d <| r_family := u8 family |>).
Definition rtnl_rule_get_family (r : rule) : Z :=
  if has_attr r RULE_ATTR_FAMILY then r_family (ce_data r) else AF_UNSPEC.
Definition rtnl_rule_set_prio (r : rule) (prio : Z) : rule :=
  fill_attr r RULE_ATTR_PRIO (fun d => d <| r_prio := u32 prio |>).
Definition rtnl_rule_get_prio (r : rule) : Z := r_prio (ce_data r).
Definition rtnl_rule_set_mark (r : rule) (mark : Z) : rule :=
  fill_attr r RULE_ATTR_MARK (fun d => d <| r_mark := u32 mark |>).
Definition rtnl_rule_get_mark (r : rule) : Z := r_mark (ce_data r).
Definition rtnl_rule_set_mask (r : rule) (mask : Z) : rule :=
  fill_attr r RULE_ATTR_MASK (fun d => d <| r_mask := u32 mask |>).
Definition rtnl_rule_get_mask (r : rule) : Z := r_mask (ce_data r).
Definition rtnl_rule_set_table (r : rule) (table : Z) : rule :=
  fill_attr r RULE_ATTR_TABLE (fun d => d <| r_table := u32 table |>).
Definition rtnl_rule_get_table (r : rule) : Z := r_table (ce_data r).
Definition rtnl_rule_set_dsfield (r : rule) (dsfield : Z) : rule :=
  fill_attr r RULE_ATTR_DSFIELD (fun d => d <| r_dsfield := u8 dsfield |>).
Definition rtnl_rule_get_dsfield (r : rule) : Z := r_dsfield (ce_data r).

(** [set]: storing in the member [pos] points to. *)
Definition __assign_addr (r : rule) (set : option nl_addr -> rtnl_rule -> rtnl_rule) (new : nl_addr)
    (flag : Z) : Z * rule :=
  let assign d := fill_attr (Body (ce_mask r) d) (Z.lor flag RULE_ATTR_FAMILY) (set (Some new)) in
  if has_attr r RULE_ATTR_FAMILY then
    if negb (a_family new =? r_family (ce_data r)) then (- NLE_AF_MISMATCH, r)
    else (0, assign (ce_data r))
  else let d := ce_data r in (0, assign (d <| r_family := u8 (a_family new) |>)).
Definition rtnl_rule_set_src (r : rule) (src : nl_addr) : Z * rule :=
  __assign_addr r (fun x d => d <| r_src := x |>) src RULE_ATTR_SRC.
Definition rtnl_rule_get_src (r : rule) : option nl_addr := r_src (ce_data r).
Definition rtnl_rule_set_dst (r : rule) (dst : nl_addr) : Z * rule :=
  __assign_addr r (fun x d => d <| r_dst := x |>) dst RULE_ATTR_DST.
Definition rtnl_rule_get_dst (r : rule) : option nl_addr := r_dst (ce_data r).

Definition rtnl_rule_set_iif (r : rule) (dev : list Z) : Z * rule :=
  if IFNAMSIZ - 1 <? zlen dev then (- NLE_RANGE, r)
  else (0, fill_attr r RULE_ATTR_IIFNAME (fun d => d <| r_iifname := dev |>)).
Definition rtnl_rule_get_iif (r : rule) : option (list Z) :=
  if has_attr r RULE_ATTR_IIFNAME then Some (r_iifname (ce_data r)) else None.
Definition rtnl_rule_set_oif (r : rule) (dev : list Z) : Z * rule :=
  if IFNAMSIZ - 1 <? zlen dev then (- NLE_RANGE, r)
  else (0, fill_attr r RULE_ATTR_OIFNAME (fun d => d <| r_oifname := dev |>)).
Definition rtnl_rule_get_oif (r : rule) : option (list Z) :=
  if has_attr r RULE_ATTR_OIFNAME then Some (r_oifname (ce_data r)) else None.
Definition rtnl_rule_set_action (r : rule) (action : Z) : rule :=
  fill_attr r RULE_ATTR_ACTION (fun d => d <| r_action := u8 action |>).
Definition rtnl_rule_get_action (r : rule) : Z := r_action (ce_data r).

(** Takes an attribute away and its value with it. *)
Definition unset_attr (r : rule) (attr : Z) (f : rtnl_rule -> rtnl_rule) : rule :=
  Body (clear_flag (ce_mask r) attr) (f (ce_data r)).
Definition rtnl_rule_set_l3mdev (r : rule) (value : Z) : rule :=
  if 0 <=? value then fill_attr r RULE_ATTR_L3MDEV (fun d => d <| r_l3mdev := u8 value |>)
  else unset_attr r RULE_ATTR_L3MDEV (fun d => d <| r_l3mdev := 0 |>).
(** [None]: the null pointer. *)
Definition rtnl_rule_get_l3mdev (r : option rule) : Z :=
  match r with
  | None => - NLE_INVAL
  | Some r => if negb (has_attr r RULE_ATTR_L3MDEV) then - NLE_MISSING_ATTR else r_l3mdev (ce_data r)
  end.
Definition rtnl_rule_set_protocol (r : rule) (protocol : Z) : Z * rule :=
  (0, if negb (protocol =? 0) then fill_attr r RULE_ATTR_PROTOCOL (fun d => d <| r_protocol := protocol |>)
      else unset_attr r RULE_ATTR_PROTOCOL (fun d => d <| r_protocol := 0 |>)).
(** The error, or what is stored. *)
Definition rtnl_rule_get_protocol (r : rule) : Z + Z :=
  if negb (has_attr r RULE_ATTR_PROTOCOL) then inl (- NLE_INVAL) else inr (r_protocol (ce_data r)).
Definition rtnl_rule_set_ipproto (r : rule) (ip_proto : Z) : Z * rule :=
  (0, if negb (ip_proto =? 0) then fill_attr r RULE_ATTR_IP_PROTO (fun d => d <| r_ip_proto := ip_proto |>)
      else unset_attr r RULE_ATTR_IP_PROTO (fun d => d <| r_ip_proto := 0 |>)).
Definition rtnl_rule_get_ipproto (r : rule) : Z + Z :=
  if negb (has_attr r RULE_ATTR_IP_PROTO) then inl (- NLE_INVAL) else inr (r_ip_proto (ce_data r)).

Definition __rtnl_rule_set_port (r : rule) (set : fib_rule_port_range -> rtnl_rule -> rtnl_rule)
    (start end_ attr : Z) : Z * rule :=
  if (negb (start =? 0) && (end_ <? start)) || (negb (end_ =? 0) && (start =? 0)) then (- NLE_INVAL, r)
  else if negb (start =? 0) then (0, fill_attr r attr (set {| pr_start := start; pr_end := end_ |}))
  else (0, unset_attr r attr (set port_range_0)).
Definition set_sport (p : fib_rule_port_range) (d : rtnl_rule) : rtnl_rule := d <| r_sport := p |>.
Definition set_dport (p : fib_rule_port_range) (d : rtnl_rule) : rtnl_rule := d <| r_dport := p |>.
Definition rtnl_rule_set_sport (r : rule) (sport : Z) : Z * rule :=
  __rtnl_rule_set_port r set_sport sport sport RULE_ATTR_SPORT.
Definition rtnl_rule_set_sport_range (r : rule) (start end_ : Z) : Z * rule :=
  __rtnl_rule_set_port r set_sport start end_ RULE_ATTR_SPORT.
Definition rtnl_rule_get_sport (r : rule) : Z + Z * Z :=
  if negb (has_attr r RULE_ATTR_SPORT) then inl (- NLE_INVAL)
  else inr (pr_start (r_sport (ce_data r)), pr_end (r_sport (ce_data r))).
Definition rtnl_rule_set_dport (r : rule) (dport : Z) : Z * rule :=
  __rtnl_rule_set_port r set_dport dport dport RULE_ATTR_DPORT.
Definition rtnl_rule_set_dport_range (r : rule) (start end_ : Z) : Z * rule :=
  __rtnl_rule_set_port r set_dport start end_ RULE_ATTR_DPORT.
Definition rtnl_rule_get_dport (r : rule) : Z + Z * Z :=
  if negb (has_attr r RULE_ATTR_DPORT) then inl (- NLE_INVAL)
  else inr (pr_start (r_dport (ce_data r)), pr_end (r_dport (ce_data r))).
Definition rtnl_rule_set_realms (r : rule) (realms : Z) : rule :=
  fill_attr r RULE_ATTR_FLOW (fun d => d <| r_flow := u32 realms |>).
Definition rtnl_rule_get_realms (r : rule) : Z := r_flow (ce_data r).
Definition rtnl_rule_set_goto (r : rule) (ref : Z) : rule :=
  fill_attr r RULE_ATTR_GOTO (fun d => d <| r_goto := u32 ref |>).
Definition rtnl_rule_get_goto (r : rule) : Z := r_goto (ce_data r).

(** ** Rules as objects *)

Definition rule_clone (c : bool) (dst : rtnl_rule) (src : rule) : Z * rtnl_rule :=
  match clone_addr c (r_src (ce_data src)) with
  | None => (- NLE_NOMEM, dst <| r_src := @None nl_addr |>)
  | Some a =>
      let dst := store_clone (fun a (d : rtnl_rule) => d <| r_src := a |>) a dst in
      match clone_addr c (r_dst (ce_data src)) with
      | None => (- NLE_NOMEM, dst <| r_dst := @None nl_addr |>)
      | Some a => (0, store_clone (fun a (d : rtnl_rule) => d <| r_dst := a |>) a dst)
      end
  end.

Definition rule_compare (a b : rule) (attrs flags : Z) : Z :=
  let x := ce_data a in let y := ce_data b in
  attr_diffs attrs a b
    [(RULE_ATTR_FAMILY, negb (r_family x =? r_family y));
     (RULE_ATTR_TABLE, negb (r_table x =? r_table y));
     (RULE_ATTR_ACTION, negb (r_action x =? r_action y));
     (RULE_ATTR_IIFNAME, negb (bool_decide (r_iifname x = r_iifname y)));
     (RULE_ATTR_OIFNAME, negb (bool_decide (r_oifname x = r_oifname y)));
     (RULE_ATTR_PRIO, negb (r_prio x =? r_prio y));
     (RULE_ATTR_MARK, negb (r_mark x =? r_mark y));
     (RULE_ATTR_MASK, negb (r_mask x =? r_mask y));
     (RULE_ATTR_GOTO, negb (r_goto x =? r_goto y));
     (RULE_ATTR_SRC, addr_differs (r_src x) (r_src y));
     (RULE_ATTR_DST, addr_differs (r_dst x) (r_dst y));
     (RULE_ATTR_DSFIELD, negb (r_dsfield x =? r_dsfield y));
     (RULE_ATTR_FLOW, negb (r_flow x =? r_flow y))].

Definition rule_attrs : list trans_tbl :=
  [Tr 1 "family"; Tr 2 "table"; Tr 4 "action"; Tr 16 "iifname"; Tr 32 "oifname"; Tr 64 "prio";
   Tr 128 "mark"; Tr 256 "mask"; Tr 512 "goto"; Tr 1024 "src"; Tr 2048 "dst"; Tr 4096 "dsfield";
   Tr 8192 "flow"].
Definition rule_attrs2str (attrs len : Z) : exec (list Z) := __flags2str attrs len rule_attrs.

(** All attributes together identify a rule. *)
Definition rule_obj_ops (c : bool) : nl_object_ops rtnl_rule :=
  {| oo_name := "route/rule"; oo_size := 152; oo_id_attrs := UINT32_MAX; oo_constructor := None;
     oo_free_data := true; oo_clone := Some (rule_clone c); oo_compare := Some rule_compare;
     oo_update := None; oo_keygen := None; oo_id_attrs_get := None |}.

(** ** Parsing *)

Definition ifname_policy : nla_policy := {| pol_type := NLA_STRING; pol_minlen := 0; pol_maxlen := IFNAMSIZ |}.
Definition port_policy : nla_policy := {| pol_type := 0; pol_minlen := 4; pol_maxlen := 4 |}.
Definition rule_policy : list nla_policy :=
  [pol_of 0; pol_of 0; pol_of 0; ifname_policy; pol_of NLA_U32; pol_of 0; pol_of NLA_U32; pol_of 0;
   pol_of 0; pol_of 0; pol_of NLA_U32; pol_of NLA_U32; pol_of 0; pol_of 0; pol_of 0; pol_of NLA_U32;
   pol_of NLA_U32; ifname_policy; pol_of 0; pol_of NLA_U8; pol_of 0; pol_of NLA_U8; pol_of NLA_U8;
   port_policy; port_policy].

(** [c t]: whether the address of attribute [t] can be allocated. *)
Section Parse.
Variable c : Z -> bool.
Variable b : list Z.

Definition port_range (nla : Z) : exec fib_rule_port_range :=
  start ← get_u16 b (nla_data nla);
  end_ ← get_u16 b (nla_data nla + 2);
  mret {| pr_start := start; pr_end := end_ |}.

(** [off]: where the header has the length of the prefix. *)
Definition rule_addr (t family off nla : Z) : exec (Z + nl_addr) :=
  a ←! addr_of_attr b (c t) nla family; len ← get_u8 b off; ok (nl_addr_set_prefixlen a len).

Definition rule_hdr_data (family table action flags tos : Z) : rtnl_rule :=
  {| r_family := family; r_action := action; r_dsfield := tos; r_l3mdev := 0; r_protocol := 0;
     r_ip_proto := 0; r_table := table; r_flags := flags; r_prio := 0; r_mark := 0; r_mask := 0;
     r_goto := 0; r_flow := 0; r_src := None; r_dst := None; r_iifname := []; r_oifname := [];
     r_sport := port_range_0; r_dport := port_range_0 |}.
Definition rule_hdr_attrs (table tos : Z) : Z :=
  let mask := Z.lor (Z.lor RULE_ATTR_FAMILY RULE_ATTR_ACTION) RULE_ATTR_FLAGS in
  let mask := if negb (table =? 0) then set_flag mask RULE_ATTR_TABLE else mask in
  if negb (tos =? 0) then set_flag mask RULE_ATTR_DSFIELD else mask.

(** What [rule_msg_parser] makes of a message. *)
Definition rule_decode : exec (Z + rule) :=
  '(e, tb) ← nlmsg_parse b 0 12 FRA_MAX (Some rule_policy);
  if e <? 0 then mret (inl e)
  else
    let frh := nlmsg_data 0 in
    family ← get_u8 b frh;
    table ← get_u8 b (frh + 4);
    action ← get_u8 b (frh + 7);
    flags ← get_u32 b (frh + 8);
    tos ← get_u8 b (frh + 3);
    let r := Body (rule_hdr_attrs table tos) (rule_hdr_data family table action flags tos) in
    r ← if_attr tb FRA_TABLE (fun nla r =>
          v ← nla_get_u32 b nla;
          let d := ce_data r in let d := d <| r_table := v |> in
          mret (Body (if negb (v =? 0) then set_flag (ce_mask r) RULE_ATTR_TABLE else ce_mask r) d)) r;
    r ← if_attr tb FRA_IIFNAME (fun nla r =>
          s ← attr_strlcpy b nla IFNAMSIZ;
          mret (fill_attr r RULE_ATTR_IIFNAME (fun d : rtnl_rule => d <| r_iifname := s |>))) r;
    r ← if_attr tb FRA_OIFNAME (fun nla r =>
          s ← attr_strlcpy b nla IFNAMSIZ;
          mret (fill_attr r RULE_ATTR_OIFNAME (fun d : rtnl_rule => d <| r_oifname := s |>))) r;
    r ← if_attr tb FRA_PRIORITY (fun nla r =>
          v ← nla_get_u32 b nla; mret (fill_attr r RULE_ATTR_PRIO (fun d : rtnl_rule => d <| r_prio := v |>))) r;
    r ← if_attr tb FRA_FWMARK (fun nla r =>
          v ← nla_get_u32 b nla; mret (fill_attr r RULE_ATTR_MARK (fun d : rtnl_rule => d <| r_mark := v |>))) r;
    r ← if_attr tb FRA_FWMASK (fun nla r =>
          v ← nla_get_u32 b nla; mret (fill_attr r RULE_ATTR_MASK (fun d : rtnl_rule => d <| r_mask := v |>))) r;
    r ← if_attr tb FRA_GOTO (fun nla r =>
          v ← nla_get_u32 b nla; mret (fill_attr r RULE_ATTR_GOTO (fun d : rtnl_rule => d <| r_goto := v |>))) r;
    r ←! if_attr_or tb FRA_SRC (fun nla r =>
           a ←! rule_addr FRA_SRC family (frh + 2) nla;
           ok (fill_attr r RULE_ATTR_SRC (fun d : rtnl_rule => d <| r_src := Some a |>))) r;
    r ←! if_attr_or tb FRA_DST (fun nla r =>
           a ←! rule_addr FRA_DST family (frh + 1) nla;
           ok (fill_attr r RULE_ATTR_DST (fun d : rtnl_rule => d <| r_dst := Some a |>))) r;
    r ← if_attr tb FRA_FLOW (fun nla r =>
          v ← nla_get_u32 b nla; mret (fill_attr r RULE_ATTR_FLOW (fun d : rtnl_rule => d <| r_flow := v |>))) r;
    r ← if_attr tb FRA_L3MDEV (fun nla r =>
          v ← nla_get_u8 b nla; mret (fill_attr r RULE_ATTR_L3MDEV (fun d : rtnl_rule => d <| r_l3mdev := v |>))) r;
    r ← if_attr tb FRA_PROTOCOL (fun nla r =>
          v ← nla_get_u8 b nla; mret (fill_attr r RULE_ATTR_PROTOCOL (fun d : rtnl_rule => d <| r_protocol := v |>))) r;
    r ← if_attr tb FRA_IP_PROTO (fun nla r =>
          v ← nla_get_u8 b nla; mret (fill_attr r RULE_ATTR_IP_PROTO (fun d : rtnl_rule => d <| r_ip_proto := v |>))) r;
    r ← if_attr tb FRA_SPORT_RANGE (fun nla r =>
          p ← port_range nla; mret (fill_attr r RULE_ATTR_SPORT (set_sport p))) r;
    r ← if_attr tb FRA_DPORT_RANGE (fun nla r =>
          p ← port_range nla; mret (fill_attr r RULE_ATTR_DPORT (set_dport p))) r;
    ok r.
End Parse.

(** The address of [rule_obj_ops]. *)
Definition RULE_OPS : Z := 1.
Definition rule_ops_at (_ : Z) : nl_object_ops rtnl_rule := rule_obj_ops true.
Definition rule_msg_parser (c : Z -> bool) (c0 : bool) : parser_t (D := rtnl_rule) :=
  object_parser rule_ops_at rule_0 c0 RULE_OPS (rule_decode c).

Definition rtnl_rule_alloc (c : bool) (h : heap rtnl_rule) :=
  nl_object_alloc rule_ops_at c rule_0 h RULE_OPS.
Definition rtnl_rule_put (h : heap rtnl_rule) (o : Z) := nl_object_put rule_ops_at h (Some o).

(** ** Composing requests *)

(** struct fib_rule_hdr, struct fib_rule_port_range. *)
Definition fib_rule_hdr (family dst_len src_len tos table action flags : Z) : list Z :=
  [u8 family; u8 dst_len; u8 src_len; u8 tos; u8 table; 0; 0; u8 action] ++ le_encode 4 flags.
Definition range_bytes (p : fib_rule_port_range) : list Z := le_encode 2 (pr_start p) ++ le_encode 2 (pr_end p).

(** The length of the prefix of an address that has to be there. *)
Definition prefix_of (has : bool) (a : option nl_addr) : exec Z :=
  if has then match a with Some a => mret (nl_addr_get_prefixlen a) | None => Fault end else mret 0.

Definition build_rule_msg (c1 c2 : bool) (default_msg_size : Z) (tmpl : rule) (cmd flags : Z)
    : exec (Z + nl_msg) :=
  let d := ce_data tmpl in
  if negb (has_attr tmpl RULE_ATTR_FAMILY) then err NLE_MISSING_ATTR
  else
    m ← nlmsg_alloc_simple c1 c2 default_msg_size cmd flags;
    match m with
    | None => err NLE_NOMEM
    | Some msg =>
        src_len ← prefix_of (has_attr tmpl RULE_ATTR_SRC) (r_src d);
        dst_len ← prefix_of (has_attr tmpl RULE_ATTR_DST) (r_dst d);
        msg ←! append_hdr (fib_rule_hdr (r_family d) dst_len src_len (r_dsfield d) (r_table d) (r_action d)
                             (r_flags d)) msg;
        msg ←! NLA_PUT_U32 FRA_TABLE (r_table d) msg;
        msg ←! put_if (has_attr tmpl RULE_ATTR_SRC) (NLA_PUT_ADDR FRA_SRC (r_src d)) msg;
        msg ←! put_if (has_attr tmpl RULE_ATTR_DST) (NLA_PUT_ADDR FRA_DST (r_dst d)) msg;
        msg ←! put_if (has_attr tmpl RULE_ATTR_IIFNAME) (NLA_PUT_STRING FRA_IIFNAME (r_iifname d)) msg;
        msg ←! put_if (has_attr tmpl RULE_ATTR_OIFNAME) (NLA_PUT_STRING FRA_OIFNAME (r_oifname d)) msg;
        msg ←! put_if (has_attr tmpl RULE_ATTR_PRIO) (NLA_PUT_U32 FRA_PRIORITY (r_prio d)) msg;
        msg ←! put_if (has_attr tmpl RULE_ATTR_MARK) (NLA_PUT_U32 FRA_FWMARK (r_mark d)) msg;
        msg ←! put_if (has_attr tmpl RULE_ATTR_MASK) (NLA_PUT_U32 FRA_FWMASK (r_mask d)) msg;
        msg ←! put_if (has_attr tmpl RULE_ATTR_GOTO) (NLA_PUT_U32 FRA_GOTO (r_goto d)) msg;
        msg ←! put_if (has_attr tmpl RULE_ATTR_FLOW) (NLA_PUT_U32 FRA_FLOW (r_flow d)) msg;
        msg ←! put_if (has_attr tmpl RULE_ATTR_L3MDEV) (NLA_PUT_U8 FRA_L3MDEV (r_l3mdev d)) msg;
        msg ←! put_if (has_attr tmpl RULE_ATTR_IP_PROTO) (NLA_PUT_U8 FRA_IP_PROTO (r_ip_proto d)) msg;
        msg ←! put_if (has_attr tmpl RULE_ATTR_SPORT) (NLA_PUT FRA_SPORT_RANGE 4 (range_bytes (r_sport d))) msg;
        msg ←! put_if (has_attr tmpl RULE_ATTR_DPORT) (NLA_PUT FRA_DPORT_RANGE 4 (range_bytes (r_dport d))) msg;
        put_if (has_attr tmpl RULE_ATTR_PROTOCOL) (NLA_PUT_U8 FRA_PROTOCOL (r_protocol d)) msg
    end.

Definition rtnl_rule_build_add_request c1 c2 default_msg_size (tmpl : rule) (flags : Z) :=
  build_rule_msg c1 c2 default_msg_size tmpl RTM_NEWRULE (Z.lor NLM_F_CREATE flags).
Definition rtnl_rule_build_delete_request c1 c2 default_msg_size (r : rule) (flags : Z) :=
  build_rule_msg c1 c2 default_msg_size r RTM_DELRULE flags.

Section Requests.
Context {W : Type}.
Variable n : net W.
Definition rtnl_rule_add (p : port_map) (sk : nl_sock) (tmpl : rule) (flags : Z) (w : W) :=
  request_and_ack n (rtnl_rule_build_add_request (n_msg n) (n_buf n) (n_size n) tmpl flags) p sk w.
Definition rtnl_rule_delete (p : port_map) (sk : nl_sock) (r : rule) (flags : Z) (w : W) :=
  request_and_ack n (rtnl_rule_build_delete_request (n_msg n) (n_buf n) (n_size n) r flags) p sk w.
Definition rule_request_update (c : nl_cache) (h : nl_sock) (p : port_map) (w : W) :=
  nl_rtgen_request n p h RTM_GETRULE AF_UNSPEC NLM_F_DUMP w.
End Requests.

(** ** The cache *)

Definition rule_groups : list nl_af_group :=
  [{| ag_family := AF_INET; ag_group := 8 |}; {| ag_family := AF_INET6; ag_group := 19 |}].
Definition rtnl_rule_ops : nl_cache_ops :=
  {| co_name := Some (str "route/rule"); co_hdrsize := 12; co_protocol := NETLINK_ROUTE;
     co_hash_size := 0; co_flags := 0; co_groups := Some rule_groups; co_obj_ops := RULE_OPS;
     co_msgtypes := [{| mt_id := RTM_NEWRULE; mt_act := NL_ACT_NEW; mt_name := str "new" |};
                     {| mt_id := RTM_DELRULE; mt_act := NL_ACT_DEL; mt_name := str "del" |};
                     {| mt_id := RTM_GETRULE; mt_act := NL_ACT_GET; mt_name := str "get" |}] |}.

(** free() of a cache: its memory, with the head of its list. *)
Definition free_cache {D} (h : heap D) (c : Z) : heap D :=
  {| h_objs := h_objs h; h_caches := delete c (h_caches h); h_links := delete (NCache c) (h_links h);
     h_next := h_next h |}.

(** Where the cache cannot be filled its memory is freed, and nothing else of it:
    [free], not nl_cache_free. *)
Definition rtnl_rule_alloc_cache {V} (f : filling rtnl_rule V) (type : Z) (c0 : bool) (c : Z -> bool)
    (family : Z) :=
  cache_init_fill f rule_ops_at (fun _ => rtnl_rule_ops) rule_0
    (fun _ => Some (rule_request_update (f_net f))) (fun _ => rule_msg_parser c c0)
    (fun x => nl_cache_set_arg1 x family)
    (fun h c => mret (free_cache h c)) type.

(** ** Well-formed rules *)

Definition range_ok (p : fib_rule_port_range) : Prop := 0 <= pr_start p < 2 ^ 16 /\ 0 <= pr_end p < 2 ^ 16.

(** An address of the family [family] whose prefix length fits the header. *)
Definition rule_addr_ok (family : Z) (o : option nl_addr) : Prop :=
  forall a, o = Some a -> addr_ok a /\ a_family a = family /\ 0 <= a_prefixlen a < 2 ^ 8.

Record rule_wf (r : rule) : Prop := {
  rw_family : 0 <= r_family (ce_data r) < 2 ^ 8;
  rw_action : 0 <= r_action (ce_data r) < 2 ^ 8;
  rw_dsfield : 0 <= r_dsfield (ce_data r) < 2 ^ 8;
  rw_l3mdev : 0 <= r_l3mdev (ce_data r) < 2 ^ 8;
  rw_protocol : 0 <= r_protocol (ce_data r) < 2 ^ 8;
  rw_ip_proto : 0 <= r_ip_proto (ce_data r) < 2 ^ 8;
  rw_table : 0 <= r_table (ce_data r) < 2 ^ 32;
  rw_flags : 0 <= r_flags (ce_data r) < 2 ^ 32;
  rw_prio : 0 <= r_prio (ce_data r) < 2 ^ 32;
  rw_mark : 0 <= r_mark (ce_data r) < 2 ^ 32;
  rw_mask : 0 <= r_mask (ce_data r) < 2 ^ 32;
  rw_goto : 0 <= r_goto (ce_data r) < 2 ^ 32;
  rw_flow : 0 <= r_flow (ce_data r) < 2 ^ 32;
  rw_iifname : byte_string (r_iifname (ce_data r));
  rw_oifname : byte_string (r_oifname (ce_data r));
  rw_sport : range_ok (r_sport (ce_data r));
  rw_dport : range_ok (r_dport (ce_data r));
  rw_src : rule_addr_ok (r_family (ce_data r)) (r_src (ce_data r));
  rw_dst : rule_addr_ok (r_family (ce_data r)) (r_dst (ce_data r));
  rw_has_src : has_attr r RULE_ATTR_SRC = true -> is_Some (r_src (ce_data r));
  rw_has_dst : has_attr r RULE_ATTR_DST = true -> is_Some (r_dst (ce_data r))
}.

Lemma rule_addr_opt_ok family o : rule_addr_ok family o -> addr_opt_ok o.
Proof. intros H. destruct o as [a|]; [|done]. by apply (H a). Qed.

(** ** What is sent *)

(** The value of an attribute of [r]. *)
Definition own {T} (r : rule) (attr : Z) (v : T) : option T := opt (has_attr r attr) v.
Definition own_addr (r : rule) (attr : Z) (o : option nl_addr) : option nl_addr :=
  if has_attr r attr then o else None.
Definition rule_fields (r : rule) : list (Z * option (list Z)) :=
  let d := ce_data r in
  [(FRA_TABLE, Some (le_encode 4 (r_table d)));
   (FRA_SRC, addr_bytes <$> own_addr r RULE_ATTR_SRC (r_src d));
   (FRA_DST, addr_bytes <$> own_addr r RULE_ATTR_DST (r_dst d));
   (FRA_IIFNAME, (fun s => s ++ [0]) <$> own r RULE_ATTR_IIFNAME (r_iifname d));
   (FRA_OIFNAME, (fun s => s ++ [0]) <$> own r RULE_ATTR_OIFNAME (r_oifname d));
   (FRA_PRIORITY, le_encode 4 <$> own r RULE_ATTR_PRIO (r_prio d));
   (FRA_FWMARK, le_encode 4 <$> own r RULE_ATTR_MARK (r_mark d));
   (FRA_FWMASK, le_encode 4 <$> own r RULE_ATTR_MASK (r_mask d));
   (FRA_GOTO, le_encode 4 <$> own r RULE_ATTR_GOTO (r_goto d));
   (FRA_FLOW, le_encode 4 <$> own r RULE_ATTR_FLOW (r_flow d));
   (FRA_L3MDEV, le_encode 1 <$> own r RULE_ATTR_L3MDEV (r_l3mdev d));
   (FRA_IP_PROTO, le_encode 1 <$> own r RULE_ATTR_IP_PROTO (r_ip_proto d));
   (FRA_SPORT_RANGE, range_bytes <$> own r RULE_ATTR_SPORT (r_sport d));
   (FRA_DPORT_RANGE, range_bytes <$> own r RULE_ATTR_DPORT (r_dport d));
   (FRA_PROTOCOL, le_encode 1 <$> own r RULE_ATTR_PROTOCOL (r_protocol d))].
Definition own_prefix (r : rule) (attr : Z) (o : option nl_addr) : Z :=
  from_option nl_addr_get_prefixlen 0 (own_addr r attr o).
Definition rule_hdr (r : rule) : list Z :=
  let d := ce_data r in
  fib_rule_hdr (r_family d) (own_prefix r RULE_ATTR_DST (r_dst d)) (own_prefix r RULE_ATTR_SRC (r_src d))
    (r_dsfield d) (r_table d) (r_action d) (r_flags d).

Lemma prefix_of_done r attr o :
  (has_attr r attr = true -> is_Some o) -> prefix_of (has_attr r attr) o = Done (own_prefix r attr o).
Proof. intros H. unfold prefix_of, own_prefix, own_addr. destruct (has_attr r attr) eqn:E; [|done]. by destruct (H eq_refl) as [a ->]. Qed.

Lemma put_own {T} r attr t n (e : T -> list Z) (v : T) msg :
  zlen (e v) = n -> put_if (has_attr r attr) (NLA_PUT t n (e v)) msg = put_field (t, e <$> own r attr v) msg.
Proof. intros H. rewrite put_if_field by done. unfold own, opt. by destruct (has_attr r attr). Qed.
Lemma put_own_addr r attr t o msg :
  (has_attr r attr = true -> is_Some o) -> addr_opt_ok o ->
  put_if (has_attr r attr) (NLA_PUT_ADDR t o) msg = put_field (t, addr_bytes <$> own_addr r attr o) msg.
Proof.
  intros Hs Ho. rewrite put_addr_opt; [|done|intros a; by apply addr_opt_some]. unfold own_addr. by destruct (has_attr r attr).
Qed.
Lemma put_own_string r attr t s msg :
  byte_string s ->
  put_if (has_attr r attr) (NLA_PUT_STRING t s) msg = put_field (t, (fun s => s ++ [0]) <$> own r attr s) msg.
Proof. intros Hs. rewrite put_string_ok by done. unfold own, opt. by destruct (has_attr r attr). Qed.

Lemma build_rule_fields c1 c2 size r cmd flags :
  rule_wf r ->
  build_rule_msg c1 c2 size r cmd flags =
    if has_attr r RULE_ATTR_FAMILY
    then (m ←! start_msg c1 c2 size cmd flags (rule_hdr r); put_fields (rule_fields r) m)
    else Done (inl (- NLE_MISSING_ATTR)).
Proof.
  intros Hw. unfold build_rule_msg. cbv zeta. destruct (has_attr r RULE_ATTR_FAMILY); [|done]. cbn [negb].
  unfold start_msg. destruct (nlmsg_alloc_simple c1 c2 size cmd flags) as [[msg|]| | |]; try done. exec_simpl.
  rewrite !prefix_of_done by apply Hw. exec_simpl. apply run_or_ext. intros m. unfold rule_fields. cbv zeta. cbn [put_fields].
  unfold NLA_PUT_U32, NLA_PUT_U8. rewrite (put_always FRA_TABLE) by done. apply run_or_ext. intros m1.
  rewrite put_own_addr; [|apply Hw|eapply rule_addr_opt_ok, Hw]. apply run_or_ext. intros m2.
  rewrite put_own_addr; [|apply Hw|eapply rule_addr_opt_ok, Hw]. apply run_or_ext. intros m3.
  rewrite put_own_string by apply Hw. apply run_or_ext. intros m4.
  rewrite put_own_string by apply Hw. apply run_or_ext. intros m5.
  do 9 (rewrite put_own by done; apply run_or_ext; intros ?).
  rewrite run_or_ok_r. by apply put_own.
Qed.

Definition fits (o : option (list Z)) : Prop := from_option (fun d => bytes_ok d /\ zlen d <= 65531) True o.

Lemma own_fits {T} r attr (e : T -> list Z) v : bytes_ok (e v) /\ zlen (e v) <= 65531 -> fits (e <$> own r attr v).
Proof. unfold own, opt. by destruct (has_attr r attr). Qed.
Lemma own_addr_fits r attr o : addr_opt_ok o -> fits (addr_bytes <$> own_addr r attr o).
Proof. intros H. unfold own_addr. destruct (has_attr r attr); [by apply opt_fits|done]. Qed.
Lemma own_string_fits r attr s : byte_string s -> fits ((fun s => s ++ [0]) <$> own r attr s).
Proof. intros H. unfold own, opt. destruct (has_attr r attr); [by apply (string_fits true)|done]. Qed.
Lemma le_encode_fits k v : (k <= 8)%nat -> bytes_ok (le_encode k v) /\ zlen (le_encode k v) <= 65531.
Proof. intros Hk. split; [auto with nl|]. rewrite zlen_le_encode. lia. Qed.
Lemma range_bytes_ok p : bytes_ok (range_bytes p) /\ zlen (range_bytes p) = 4.
Proof. split; [apply bytes_ok_app; split; auto with nl|done]. Qed.

Lemma rule_fields_fit r : rule_wf r -> Forall attr_fits (enc (rule_fields r)).
Proof.
  intros Hw. apply fields_fit. unfold rule_fields. cbv zeta.
  repeat apply Forall_cons_2; [..|apply Forall_nil_2]; cbn [fst snd]; (split; [done|]);
    first [ apply own_addr_fits; eapply rule_addr_opt_ok, Hw
          | apply own_string_fits, Hw
          | apply own_fits; (split; [apply range_bytes_ok|done])
          | apply own_fits; apply le_encode_fits; lia
          | apply (le_encode_fits 4); lia ].
Qed.

Lemma fib_rule_hdr_ok f dl sl tos t a fl :
  bytes_ok (fib_rule_hdr f dl sl tos t a fl) /\ zlen (fib_rule_hdr f dl sl tos t a fl) = 12.
Proof.
  split; [|done]. unfold fib_rule_hdr. rewrite bytes_ok_app. split; [|auto with nl].
  repeat (apply Forall_cons_2; [unfold u8; zdiv_lia|]); apply Forall_nil_2.
Qed.

(** Building a request from a well-formed rule: never a fault. *)
Lemma build_rule_done c1 c2 size r cmd flags :
  rule_wf r -> size < 2147483648 ->
  exists x, build_rule_msg c1 c2 size r cmd flags = Done x /\
    if has_attr r RULE_ATTR_FAMILY then build_result c1 c2 size cmd flags (rule_hdr r) (enc (rule_fields r)) x
    else x = inl (- NLE_MISSING_ATTR).
Proof.
  intros Hw Hs. rewrite build_rule_fields by done. destruct (has_attr r RULE_ATTR_FAMILY); [|by eexists].
  destruct (fib_rule_hdr_ok (r_family (ce_data r)) (own_prefix r RULE_ATTR_DST (r_dst (ce_data r)))
    (own_prefix r RULE_ATTR_SRC (r_src (ce_data r))) (r_dsfield (ce_data r)) (r_table (ce_data r))
    (r_action (ce_data r)) (r_flags (ce_data r))) as [H1 H2].
  apply build_done; [done|done|unfold rule_hdr; lia|by apply rule_fields_fit].
Qed.

(** ** Reading back a request *)

Lemma fib_rule_hdr_fields f dl sl tos t a fl :
  let h := fib_rule_hdr f dl sl tos t a fl in
  le_at 1 h 0 = u8 f /\ le_at 1 h 1 = u8 dl /\ le_at 1 h 2 = u8 sl /\ le_at 1 h 3 = u8 tos /\
  le_at 1 h 4 = u8 t /\ le_at 1 h 7 = u8 a /\ le_at 4 h 8 = u32 fl.
Proof.
  intros h. split_and!.
  1-6: match goal with |- _ = u8 ?x => change (u8 x + 256 * 0 = u8 x); lia end.
  change (le_at 4 h 8) with (le_decode (le_encode 4 fl)). apply le_decode_encode.
Qed.

Definition u8_fits (T : Z) : Prop := 0 <= T < 2 ^ 8.

Lemma read_u32 b nla v : attr_at b nla (le_encode 4 v) -> 0 <= v < 2 ^ 32 -> nla_get_u32 b nla = Done v.
Proof. intros Ha Hv. rewrite (attr_at_u32 _ _ _ Ha). by rewrite u32_id. Qed.
Lemma read_u8 b nla v : attr_at b nla (le_encode 1 v) -> 0 <= v < 2 ^ 8 -> nla_get_u8 b nla = Done v.
Proof. intros Ha Hv. rewrite (attr_at_u8 _ _ _ Ha). by rewrite u8_id. Qed.
Lemma read_range b nla p : attr_at b nla (range_bytes p) -> range_ok p -> port_range b nla = Done p.
Proof.
  intros Ha [Hs He]. pose proof (proj2 (range_bytes_ok p)) as Hz. destruct Ha as (_ & H0 & Hb & _ & Hd).
  unfold port_range, nla_data, NLA_HDRLEN. rewrite !get_u16_done by lia. exec_simpl.
  rewrite <- (Z.add_0_r (nla + 4)) at 1. rewrite !(region_le_at b (nla + 4) (range_bytes p)) by (done || lia).
  change (le_at 2 (range_bytes p) 0) with (le_decode (le_encode 2 (pr_start p))).
  change (le_at 2 (range_bytes p) 2) with (le_decode (le_encode 2 (pr_end p))).
  rewrite !le_decode_encode. change (256 ^ Z.of_nat 2) with 65536. rewrite !Z.mod_small by done. by destruct p.
Qed.
Lemma read_string b nla s : attr_at b nla (s ++ [0]) -> byte_string s -> attr_strlcpy b nla IFNAMSIZ = Done s.
Proof. intros Ha Hs. apply attr_strlcpy_done; [done|by apply byte_string_nonzero|apply Hs]. Qed.

(** The address that is read from the attribute of [a]. *)
Definition addr_again (a : nl_addr) : nl_addr :=
  nl_addr_set_prefixlen (addr_made (a_family a) (addr_bytes a)) (a_prefixlen a).

Lemma own_some {T} (r : rule) attr (v w : T) : own r attr v = Some w -> w = v.
Proof. unfold own, opt. destruct (has_attr r attr); [|done]. by intros [= ->]. Qed.

Lemma own_addr_some r attr o a : own_addr r attr o = Some a -> has_attr r attr = true /\ o = Some a.
Proof. unfold own_addr. by destruct (has_attr r attr). Qed.

Lemma read_rule_addr b t family off nla a :
  attr_at b nla (addr_bytes a) -> a_family a = family -> get_u8 b off = Done (a_prefixlen a) ->
  rule_addr (fun _ => true) b t family off nla = ok (addr_again a).
Proof.
  intros Ha <- Hoff. unfold rule_addr. rewrite (addr_of_attr_done _ _ _ _ Ha), run_or_ok, Hoff. done.
Qed.

Lemma rule_policy_ok : policy_opt_ok FRA_MAX (Some rule_policy).
Proof. by apply policy_okb_ok. Qed.

Lemma string_entry s : byte_string s -> entry_ok ifname_policy (s ++ [0]).
Proof.
  intros [_ Hs]. pose proof (zlen_nonneg s). unfold entry_ok, policy_min, ifname_policy, IFNAMSIZ in *.
  cbn [pol_type pol_minlen pol_maxlen]. rewrite zlen_app. change (zlen [0]) with 1.
  split_and!; [simpl; lia|lia|]. intros _. by rewrite last_snoc.
Qed.

Lemma own_content {T} r attr t (e : T -> list Z) v pt :
  rule_policy !! Z.to_nat t = Some pt -> entry_ok pt (e v) ->
  from_option (fun d => content_ok FRA_MAX (Some rule_policy) (t, d)) True (e <$> own r attr v).
Proof. intros Hp He. unfold own, opt. destruct (has_attr r attr); [|done]. intros _. by exists pt. Qed.

Lemma rule_content_ok r : rule_wf r -> Forall (content_ok FRA_MAX (Some rule_policy)) (enc (rule_fields r)).
Proof.
  intros Hw. apply Forall_enc. unfold rule_fields. cbv zeta.
  assert (forall n v, entry_ok (pol_of 0) (le_encode n v)) as H0 by (intros; by apply entry_ok_any).
  assert (forall v, entry_ok (pol_of NLA_U32) (le_encode 4 v)) as H32
    by (intros v; unfold entry_ok, policy_min; rewrite zlen_le_encode; by vm_compute).
  assert (forall v, entry_ok (pol_of NLA_U8) (le_encode 1 v)) as H8
    by (intros v; unfold entry_ok, policy_min; rewrite zlen_le_encode; by vm_compute).
  assert (forall p, entry_ok port_policy (range_bytes p)) as Hr
    by (intros v; unfold entry_ok, policy_min; rewrite (proj2 (range_bytes_ok v)); by vm_compute).
  repeat apply Forall_cons_2; [..|apply Forall_nil_2]; cbn [fst snd];
    try (eapply own_content; [reflexivity|]; first [apply H32|apply H8|apply Hr|apply string_entry, Hw]).
  - intros _. eexists. split; [reflexivity|apply H32].
  - destruct (own_addr _ _ _); [|done]. intros _. eexists. split; [reflexivity|by apply entry_ok_any].
  - destruct (own_addr _ _ _); [|done]. intros _. eexists. split; [reflexivity|by apply entry_ok_any].
Qed.

(** A rule [s] has the attribute exactly where [r] has it, with the same value. *)
Definition agrees {T} (r s : rule) (attr : Z) (p : rtnl_rule -> T) : Prop :=
  has_attr s attr = has_attr r attr /\ (has_attr r attr = true -> p (ce_data s) = p (ce_data r)).
Definition agrees_addr (r s : rule) (attr : Z) (p : rtnl_rule -> option nl_addr) : Prop :=
  has_attr s attr = has_attr r attr /\
  (has_attr r attr = true -> addr_differs (p (ce_data r)) (p (ce_data s)) = false).

(** The rule [s] says what [r] says: the members of the header are always sent, the
    others where they are attributes. *)
Record rule_same (r s : rule) : Prop := {
  rs_family : r_family (ce_data s) = r_family (ce_data r);
  rs_action : r_action (ce_data s) = r_action (ce_data r);
  rs_flags : r_flags (ce_data s) = r_flags (ce_data r);
  rs_dsfield : r_dsfield (ce_data s) = r_dsfield (ce_data r);
  rs_table : r_table (ce_data s) = r_table (ce_data r);
  rs_has_table : has_attr s RULE_ATTR_TABLE = negb (r_table (ce_data r) =? 0);
  rs_src : agrees_addr r s RULE_ATTR_SRC r_src;
  rs_dst : agrees_addr r s RULE_ATTR_DST r_dst;
  rs_iifname : agrees r s RULE_ATTR_IIFNAME r_iifname;
  rs_oifname : agrees r s RULE_ATTR_OIFNAME r_oifname;
  rs_prio : agrees r s RULE_ATTR_PRIO r_prio;
  rs_mark : agrees r s RULE_ATTR_MARK r_mark;
  rs_mask : agrees r s RULE_ATTR_MASK r_mask;
  rs_goto : agrees r s RULE_ATTR_GOTO r_goto;
  rs_flow : agrees r s RULE_ATTR_FLOW r_flow;
  rs_l3mdev : agrees r s RULE_ATTR_L3MDEV r_l3mdev;
  rs_protocol : agrees r s RULE_ATTR_PROTOCOL r_protocol;
  rs_ip_proto : agrees r s RULE_ATTR_IP_PROTO r_ip_proto;
  rs_sport : agrees r s RULE_ATTR_SPORT r_sport;
  rs_dport : agrees r s RULE_ATTR_DPORT r_dport
}.

(** What the parser makes of the request for [r]. *)
Definition rule_table (r n : rule) : rule :=
  let v := r_table (ce_data r) in let d := ce_data n in
  Body (if negb (v =? 0) then set_flag (ce_mask n) RULE_ATTR_TABLE else ce_mask n) (d <| r_table := v |>).
Definition rule_sent (r : rule) : rule :=
  let d := ce_data r in
  let n := Body (rule_hdr_attrs (u8 (r_table d)) (r_dsfield d))
             (rule_hdr_data (r_family d) (u8 (r_table d)) (r_action d) (r_flags d) (r_dsfield d)) in
  let n := rule_table r n in
  let n := opt_fill (own r RULE_ATTR_IIFNAME (r_iifname d)) n RULE_ATTR_IIFNAME (fun v (d : rtnl_rule) => d <| r_iifname := v |>) in
  let n := opt_fill (own r RULE_ATTR_OIFNAME (r_oifname d)) n RULE_ATTR_OIFNAME (fun v (d : rtnl_rule) => d <| r_oifname := v |>) in
  let n := opt_fill (own r RULE_ATTR_PRIO (r_prio d)) n RULE_ATTR_PRIO (fun v (d : rtnl_rule) => d <| r_prio := v |>) in
  let n := opt_fill (own r RULE_ATTR_MARK (r_mark d)) n RULE_ATTR_MARK (fun v (d : rtnl_rule) => d <| r_mark := v |>) in
  let n := opt_fill (own r RULE_ATTR_MASK (r_mask d)) n RULE_ATTR_MASK (fun v (d : rtnl_rule) => d <| r_mask := v |>) in
  let n := opt_fill (own r RULE_ATTR_GOTO (r_goto d)) n RULE_ATTR_GOTO (fun v (d : rtnl_rule) => d <| r_goto := v |>) in
  let n := opt_fill (addr_again <$> own_addr r RULE_ATTR_SRC (r_src d)) n RULE_ATTR_SRC
             (fun a (d : rtnl_rule) => d <| r_src := Some a |>) in
  let n := opt_fill (addr_again <$> own_addr r RULE_ATTR_DST (r_dst d)) n RULE_ATTR_DST
             (fun a (d : rtnl_rule) => d <| r_dst := Some a |>) in
  let n := opt_fill (own r RULE_ATTR_FLOW (r_flow d)) n RULE_ATTR_FLOW (fun v (d : rtnl_rule) => d <| r_flow := v |>) in
  let n := opt_fill (own r RULE_ATTR_L3MDEV (r_l3mdev d)) n RULE_ATTR_L3MDEV (fun v (d : rtnl_rule) => d <| r_l3mdev := v |>) in
  let n := opt_fill (own r RULE_ATTR_PROTOCOL (r_protocol d)) n RULE_ATTR_PROTOCOL (fun v (d : rtnl_rule) => d <| r_protocol := v |>) in
  let n := opt_fill (own r RULE_ATTR_IP_PROTO (r_ip_proto d)) n RULE_ATTR_IP_PROTO (fun v (d : rtnl_rule) => d <| r_ip_proto := v |>) in
  let n := opt_fill (own r RULE_ATTR_SPORT (r_sport d)) n RULE_ATTR_SPORT set_sport in
  opt_fill (own r RULE_ATTR_DPORT (r_dport d)) n RULE_ATTR_DPORT set_dport.

(** Steps over the attributes that do not touch what is asked for. *)
Ltac skip_fills p :=
  rewrite ?has_opt_fill_other by reflexivity;
  rewrite ?(data_opt_fill_other p) by (intros; reflexivity).

Lemma agrees_fill {T} r n attr (p : rtnl_rule -> T) (f : T -> rtnl_rule -> rtnl_rule) s :
  attr <> 0 -> has_attr n attr = false -> (forall v d, p (f v d) = v) ->
  let x := opt_fill (own r attr (p (ce_data r))) n attr f in
  has_attr s attr = has_attr x attr -> p (ce_data s) = p (ce_data x) -> agrees r s attr p.
Proof.
  intros Ha Hn Hf x Hh Hp. unfold agrees. rewrite Hh, Hp. unfold x. rewrite has_opt_fill, Hn, orb_false_r by done.
  unfold own. rewrite is_some_opt. split; [done|]. intros ->. apply Hf.
Qed.
Lemma agrees_addr_fill r n attr (p : rtnl_rule -> option nl_addr) (f : nl_addr -> rtnl_rule -> rtnl_rule) s :
  attr <> 0 -> has_attr n attr = false -> (forall a d, p (f a d) = Some a) ->
  addr_opt_ok (p (ce_data r)) -> (has_attr r attr = true -> is_Some (p (ce_data r))) ->
  let x := opt_fill (addr_again <$> own_addr r attr (p (ce_data r))) n attr f in
  has_attr s attr = has_attr x attr -> p (ce_data s) = p (ce_data x) -> agrees_addr r s attr p.
Proof.
  intros Ha Hn Hf Ho Hs x Hh Hp. unfold agrees_addr. rewrite Hh, Hp. unfold x.
  rewrite has_opt_fill, Hn, orb_false_r by done. unfold own_addr. destruct (has_attr r attr); [|done].
  destruct Hs as [a Ea]; [done|]. rewrite Ea in *. split; [done|]. intros _. cbn [opt_fill fill_attr ce_data fmap option_fmap option_map].
  rewrite Hf. by apply addr_made_same.
Qed.

Lemma hdr_attrs_has table tos attr :
  Z.land attr (RULE_ATTR_FAMILY + RULE_ATTR_TABLE + RULE_ATTR_ACTION + RULE_ATTR_FLAGS + RULE_ATTR_DSFIELD) = 0 ->
  has_flag (rule_hdr_attrs table tos) attr = false.
Proof.
  intros H. unfold rule_hdr_attrs, has_flag, set_flag. apply negb_false_iff, Z.eqb_eq.
  set (all := _ + _ + _ + _ + _) in H.
  assert (forall m, Z.land all m = m -> Z.land m attr = 0) as Hm.
  { intros m <-. rewrite <- Z.land_assoc, (Z.land_comm m), Z.land_assoc, (Z.land_comm all), H. done. }
  destruct (table =? 0), (tos =? 0); by apply Hm.
Qed.

Lemma rule_table_other r n attr : Z.land RULE_ATTR_TABLE attr = 0 -> has_attr (rule_table r n) attr = has_attr n attr.
Proof.
  intros H. unfold rule_table, has_attr. cbv zeta. cbn [ce_mask]. destruct (negb _); [by apply has_flag_set_other|done].
Qed.

(** The rule before its attribute is filled does not have it. *)
Ltac not_yet p := skip_fills p; rewrite rule_table_other by reflexivity; apply hdr_attrs_has; reflexivity.
Ltac same_value p :=
  unfold rule_sent; cbv zeta;
  eapply (agrees_fill _ _ _ p); [ | | |skip_fills p; reflexivity|skip_fills p; reflexivity];
  [discriminate|not_yet p|intros; reflexivity].
Ltac same_addr p Hw :=
  unfold rule_sent; cbv zeta;
  eapply (agrees_addr_fill _ _ _ p); [ | | | | |skip_fills p; reflexivity|skip_fills p; reflexivity];
  [discriminate|not_yet p|intros; reflexivity|eapply rule_addr_opt_ok, Hw|apply Hw].

Lemma rule_sent_same r : rule_wf r -> rule_same r (rule_sent r).
Proof.
  intros Hw.
  assert (forall n, ce_data (rule_table r n) = (ce_data n) <| r_table := r_table (ce_data r) |>) as Hd by done.
  split;
    [ unfold rule_sent; cbv zeta; skip_fills r_family; by rewrite Hd
    | unfold rule_sent; cbv zeta; skip_fills r_action; by rewrite Hd
    | unfold rule_sent; cbv zeta; skip_fills r_flags; by rewrite Hd
    | unfold rule_sent; cbv zeta; skip_fills r_dsfield; by rewrite Hd
    | unfold rule_sent; cbv zeta; skip_fills r_table; by rewrite Hd
    | | | | | | | | | | | | | | | ].
  - unfold rule_sent; cbv zeta; skip_fills r_table. unfold rule_table, has_attr. cbv zeta. cbn [ce_mask].
    pose proof (rw_table r Hw). destruct (Z.eqb_spec (r_table (ce_data r)) 0) as [E|E]; cbn [negb].
    + rewrite E. unfold rule_hdr_attrs. by destruct (r_dsfield (ce_data r) =? 0).
    + by apply has_flag_set.
  - same_addr r_src Hw.
  - same_addr r_dst Hw.
  - same_value r_iifname.
  - same_value r_oifname.
  - same_value r_prio.
  - same_value r_mark.
  - same_value r_mask.
  - same_value r_goto.
  - same_value r_flow.
  - same_value r_l3mdev.
  - same_value r_protocol.
  - same_value r_ip_proto.
  - same_value r_sport.
  - same_value r_dport.
Qed.

Lemma addr_bytes_again a : addr_ok a -> addr_bytes (addr_again a) = addr_bytes a.
Proof.
  intros ((Hl & Hz) & _ & H2). unfold addr_again. apply (addr_bytes_made (a_family a) (addr_bytes a)).
  unfold addr_bytes. rewrite zlen_sub; lia.
Qed.
Lemma again_bytes r attr family o :
  rule_addr_ok family o -> addr_bytes <$> own_addr r attr o = addr_bytes <$> (addr_again <$> own_addr r attr o).
Proof.
  intros Ho. destruct (own_addr r attr o) as [a|] eqn:E; [|done]. apply own_addr_some in E as [_ E].
  simpl. by rewrite addr_bytes_again by by apply (Ho a).
Qed.

(** A step of the parser that fills in the value [v] encoded by [e]. *)
Ltac fill_value Hw Ht Hf v e read :=
  rewrite (table_fill _ _ _ _ _ v e _ _ _ Ht) by
    first [ done | by rewrite Hf
          | let Hv := fresh in let Hat := fresh in
            intros ? ? Hv%own_some Hat; subst; apply read; [exact Hat|apply Hw] ];
  exec_simpl.

Lemma read_own_addr b r attr t family off o :
  rule_addr_ok family o -> get_u8 b off = Done (u8 (own_prefix r attr o)) ->
  forall nla a, addr_again <$> own_addr r attr o = Some a -> attr_at b nla (addr_bytes a) ->
    rule_addr (fun _ => true) b t family off nla = ok a.
Proof.
  intros Ho Hoff nla a Ha Hat. unfold own_prefix in Hoff.
  destruct (own_addr r attr o) as [x|] eqn:E; [|done]. injection Ha as <-.
  apply own_addr_some in E as [_ E]. destruct (Ho x E) as (Hok & Hfam & Hpl).
  rewrite addr_bytes_again in Hat by done. apply read_rule_addr; [done|done|].
  rewrite Hoff. cbn [from_option]. unfold nl_addr_get_prefixlen. by rewrite u32_id, u8_id by lia.
Qed.
Ltac fill_address Hw Ht Hf Hb v wf i H :=
  rewrite (table_or_fill _ _ _ _ _ v addr_bytes _ _ _ Ht);
  [rewrite run_or_ok|done|rewrite Hf; eapply again_bytes, (wf _ Hw)
  |apply (read_own_addr _ _ _ _ _ _ _ (wf _ Hw));
   let G := fresh in destruct (built_get _ _ _ _ _ _ i Hb) as (G & _); [lia|]; rewrite G by lia; by rewrite H].

(** The parser fills in, one after the other, what the fields carry. *)
Lemma rule_decode_built m size type flags r :
  rule_wf r -> built m size type flags (rule_hdr r) (enc (rule_fields r)) ->
  rule_decode (fun _ => true) (nm_nlh m) = ok (rule_sent r).
Proof.
  intros Hw Hb. unfold rule_decode.
  set (dl := own_prefix r RULE_ATTR_DST (r_dst (ce_data r))). set (sl := own_prefix r RULE_ATTR_SRC (r_src (ce_data r))).
  destruct (fib_rule_hdr_ok (r_family (ce_data r)) dl sl (r_dsfield (ce_data r)) (r_table (ce_data r))
    (r_action (ce_data r)) (r_flags (ce_data r))) as [_ Hhl].
  destruct (fib_rule_hdr_fields (r_family (ce_data r)) dl sl (r_dsfield (ce_data r)) (r_table (ce_data r))
    (r_action (ce_data r)) (r_flags (ce_data r))) as (F0 & F1 & F2 & F3 & F4 & F7 & F8).
  change (fib_rule_hdr (r_family (ce_data r)) dl sl (r_dsfield (ce_data r)) (r_table (ce_data r))
    (r_action (ce_data r)) (r_flags (ce_data r))) with (rule_hdr r) in *.
  destruct (built_parse m size type flags _ _ FRA_MAX (Some rule_policy) Hb) as (tb & Hp & Ht);
    [lia|apply rule_policy_ok|by apply rule_content_ok|].
  rewrite Hhl in Hp. rewrite Hp. exec_simpl. change (0 <? 0) with false. cbv iota. change (nlmsg_data 0) with 16.
  change (get_u8 (nm_nlh m) 16) with (get_u8 (nm_nlh m) (16 + 0)).
  hdr_get Hb 0 F0. hdr_get Hb 4 F4. hdr_get Hb 7 F7. hdr_get Hb 8 F8. hdr_get Hb 3 F3.
  rewrite (u32_id (r_flags _)), (u8_id (r_family _)), (u8_id (r_action _)), (u8_id (r_dsfield _)) by apply Hw.
  assert (NoDup (map fst (rule_fields r))) as Hnd by (apply (bool_decide_unpack _); reflexivity).
  assert (forall t, attr_of (enc (rule_fields r)) t = field (rule_fields r) t) as Hf by (intros; by apply attr_of_enc).
  rewrite (table_if _ _ _ _ FRA_TABLE _ (fun _ n => rule_table r n) _ Ht); [|done|].
  2: { intros nla d Hd Hat. rewrite Hf in Hd. injection Hd as <-. rewrite (read_u32 _ _ _ Hat) by apply Hw. done. }
  rewrite Hf. change (field (rule_fields r) FRA_TABLE) with (Some (le_encode 4 (r_table (ce_data r)))). cbv iota. exec_simpl.
  fill_value Hw Ht Hf (own r RULE_ATTR_IIFNAME (r_iifname (ce_data r))) (fun s => s ++ [0]) read_string.
  fill_value Hw Ht Hf (own r RULE_ATTR_OIFNAME (r_oifname (ce_data r))) (fun s => s ++ [0]) read_string.
  fill_value Hw Ht Hf (own r RULE_ATTR_PRIO (r_prio (ce_data r))) (le_encode 4) read_u32.
  fill_value Hw Ht Hf (own r RULE_ATTR_MARK (r_mark (ce_data r))) (le_encode 4) read_u32.
  fill_value Hw Ht Hf (own r RULE_ATTR_MASK (r_mask (ce_data r))) (le_encode 4) read_u32.
  fill_value Hw Ht Hf (own r RULE_ATTR_GOTO (r_goto (ce_data r))) (le_encode 4) read_u32.
  fill_address Hw Ht Hf Hb (addr_again <$> own_addr r RULE_ATTR_SRC (r_src (ce_data r))) rw_src 2 F2.
  fill_address Hw Ht Hf Hb (addr_again <$> own_addr r RULE_ATTR_DST (r_dst (ce_data r))) rw_dst 1 F1.
  fill_value Hw Ht Hf (own r RULE_ATTR_FLOW (r_flow (ce_data r))) (le_encode 4) read_u32.
  fill_value Hw Ht Hf (own r RULE_ATTR_L3MDEV (r_l3mdev (ce_data r))) (le_encode 1) read_u8.
  fill_value Hw Ht Hf (own r RULE_ATTR_PROTOCOL (r_protocol (ce_data r))) (le_encode 1) read_u8.
  fill_value Hw Ht Hf (own r RULE_ATTR_IP_PROTO (r_ip_proto (ce_data r))) (le_encode 1) read_u8.
  fill_value Hw Ht Hf (own r RULE_ATTR_SPORT (r_sport (ce_data r))) range_bytes read_range.
  fill_value Hw Ht Hf (own r RULE_ATTR_DPORT (r_dport (ce_data r))) range_bytes read_range.
  done.
Qed.

(** ** Properties *)

(** C17. A request for a rule that fits into a message is read back by the parser as
    the rule: the members of the header, and of the attributes exactly those the
    rule has, each with its value.  Without a family there is no request. *)
Theorem rule_roundtrip size r cmd flags :
  rule_wf r -> size < 2147483648 -> 28 + total_room (enc (rule_fields r)) <= size ->
  if has_attr r RULE_ATTR_FAMILY then
    exists m s, build_rule_msg true true size r cmd flags = Done (inr m) /\
      rule_decode (fun _ => true) (nm_nlh m) = Done (inr s) /\ rule_same r s
  else build_rule_msg true true size r cmd flags = Done (inl (- NLE_MISSING_ATTR)).
Proof.
  intros Hw Hs Hfit. destruct (build_rule_done true true size r cmd flags Hw Hs) as (x & Hx & Hres).
  destruct (has_attr r RULE_ATTR_FAMILY); [|by rewrite <- Hres].
  assert (zlen (rule_hdr r) = 12) as Hz by apply fib_rule_hdr_ok.
  unfold build_result in Hres. rewrite Hz in Hres. change (align4 12) with 12 in Hres.
  destruct x as [e|m]; [destruct Hres as [[? _]|(_ & ? & _)]; [done|lia]|]. destruct Hres as (_ & _ & Hb).
  exists m, (rule_sent r). split; [done|]. split; [by eapply rule_decode_built|by apply rule_sent_same].
Qed.

(** ** Witness *)

(** From 192.0.2.0/24 with the ports 1000 to 2000 look up table 300. *)
Definition ex_rule : rule :=
  let r := rtnl_rule_set_family (Body 0 rule_0) AF_INET in
  let r := (rtnl_rule_set_src r (ex_addr AF_INET [192; 0; 2; 0] 24)).2 in
  let r := (rtnl_rule_set_sport_range r 1000 2000).2 in
  rtnl_rule_set_table (rtnl_rule_set_action r 1) 300.

Lemma ex_rule_wf : rule_wf ex_rule.
Proof.
  split; try (split; done); try done; try (by eexists); try (split; [apply Forall_nil_2|done]).
  - intros a [= <-]. split; [by apply ex_addr_ok|]. split; [done|]. cbn. lia.
Qed.

Lemma rule_roundtrip_witness :
  exists m s, build_rule_msg true true 4096 ex_rule RTM_NEWRULE 0 = Done (inr m) /\
    rule_decode (fun _ => true) (nm_nlh m) = Done (inr s) /\ rtnl_rule_get_sport s = inr (1000, 2000) /\
    rtnl_rule_get_table s = 300.
Proof.
  pose proof (rule_roundtrip 4096 ex_rule RTM_NEWRULE 0 ex_rule_wf ltac:(lia)) as H.
  change (has_attr ex_rule RULE_ATTR_FAMILY) with true in H. change (total_room (enc (rule_fields ex_rule))) with 24 in H.
  destruct (H ltac:(lia)) as (m & s & H1 & H2 & Hs). exists m, s. split; [exact H1|]. split; [exact H2|].
  destruct (rs_sport _ _ Hs) as [Hp1 Hp2]. unfold rtnl_rule_get_sport. rewrite Hp1.
  change (has_attr ex_rule RULE_ATTR_SPORT) with true in *. cbn [negb]. rewrite (Hp2 eq_refl).
  split; [reflexivity|]. unfold rtnl_rule_get_table. rewrite (rs_table _ _ Hs). reflexivity.
Defined.

(** ** What modelling showed *)

(** Comparison knows nothing of ports and protocols, though all attributes
    identify a rule: in a cache one of two rules that differ only in them takes the
    place of the other. *)
Lemma ports_do_not_identify :
  let other := (rtnl_rule_set_sport_range ex_rule 3000 4000).2 in
  identical_by (rule_obj_ops true) ex_rule other = true /\
  rtnl_rule_get_sport ex_rule <> rtnl_rule_get_sport other.
Proof. split; [by vm_compute|]. vm_compute. intros H. discriminate H. Qed.

(** A cache of rules for one family asks for the rules of all. *)
Lemma family_of_cache_unused {W} (n : net W) c1 c2 h p w :
  rule_request_update n c1 h p w = rule_request_update n c2 h p w.
Proof. done. Qed.
