(* ===== verification/Ends.v ===== *)
(** Functions that end whatever they are given: those of the parsers and the loops
    over attributes, with automation that walks through code made of them. *)
From S2P Require Import Prelude Msg Attr Addr ObjAttr Build.

Definition ends {A} (m : exec A) : Prop := m <> NoFuel.

Lemma ends_bind {A B} (m : exec A) (k : A -> exec B) : ends m -> (forall x, ends (k x)) -> ends (x ← m; k x).
Proof. intros Hm Hk. destruct m; [apply Hk|done..]. Qed.
Lemma ends_run_or {A B} (m : exec (Z + A)) (k : A -> exec (Z + B)) :
  ends m -> (forall x, ends (k x)) -> ends (x ←! m; k x).
Proof. intros Hm Hk. destruct m as [[e|x]| | |]; [done|apply Hk|done..]. Qed.
Lemma ends_pair {A B C} (m : exec (A * B)) (k : A -> B -> exec C) :
  ends m -> (forall x y, ends (k x y)) -> ends ('(x, y) ← m; k x y).
Proof. intros Hm Hk. by apply ends_bind; [|intros []]. Qed.
Lemma ends_if {A} (c : bool) (m n : exec A) : ends m -> ends n -> ends (if c then m else n).
Proof. by destruct c. Qed.
Lemma ends_load b i n : ends (load b i n).
Proof. unfold load. by destruct (in_bounds b i n). Qed.
Lemma ends_store b i d : ends (store b i d).
Proof. unfold store. by destruct (in_bounds b i (zlen d)). Qed.
Lemma ends_u8 b i : ends (get_u8 b i).
Proof. apply ends_bind; [apply ends_load|done]. Qed.
Lemma ends_u16 b i : ends (get_u16 b i).
Proof. apply ends_bind; [apply ends_load|done]. Qed.
Lemma ends_u32 b i : ends (get_u32 b i).
Proof. apply ends_bind; [apply ends_load|done]. Qed.
Lemma ends_nla_len b nla : ends (nla_len b nla).
Proof. apply ends_bind; [apply ends_u16|done]. Qed.
Lemma ends_tb_at tb i : ends (tb_at tb i).
Proof. unfold tb_at. by destruct (tb !! Z.to_nat i). Qed.
Lemma ends_c_string l : ends (c_string l).
Proof. induction l as [|x l IH]; [done|]. simpl. destruct (x =? 0); [done|]. by apply ends_bind. Qed.

Create HintDb ends discriminated.
#[export] Hint Constants Opaque : ends.
#[export] Hint Resolve ends_load ends_store ends_u8 ends_u16 ends_u32 ends_nla_len ends_tb_at ends_c_string : ends.

(** Walks through the code until only other functions are left. *)
Ltac ends_step :=
  first
    [ progress intros
    | match goal with
      | |- ends (Done _) => discriminate
      | |- ends Fault => discriminate
      | |- ends Bug => discriminate
      | |- ends (mret _) => discriminate
      | |- ends (ok _) => discriminate
      | |- ends (err _) => discriminate
      | |- ends (run_or _ _) => apply ends_run_or
      | |- ends (mbind _ _) => apply ends_bind
      | |- ends (let '(_, _) := ?x in _) => destruct x
      | |- ends (match ?x with _ => _ end) => destruct x
      end
    | solve [eauto 2 with ends nocore] ].
Ltac ends_steps := repeat ends_step.

Lemma ends_validate b nla maxtype policy : ends (validate_nla b nla maxtype policy).
Proof. unfold validate_nla, nla_type, nlattr_type. ends_steps. Qed.

Lemma ends_attr_loop {S R} b (body : S -> Z -> exec (S + R)) (Hb : bytes_ok b)
    (Hbody : forall st nla, ends (body st nla)) fuel : forall pos rem st,
  rem <= Z.of_nat fuel -> ends (attr_loop fuel b body pos rem st).
Proof.
  induction fuel as [|fuel IH]; intros pos rem st Hr; cbn [attr_loop]; unfold nla_ok, sizeof_nlattr;
    (destruct (Z.leb_spec 4 rem); [try lia|done]).
  unfold nlattr_len. destruct (get_u16 b pos) as [l| | |] eqn:El; [|done|done|by destruct (ends_u16 b pos)].
  apply get_u16_range in El as Hl; [|done]. exec_simpl.
  destruct ((4 <=? l) && (l <=? rem)) eqn:Eok; [|done]. bool_hyps.
  apply ends_bind; [apply Hbody|]. intros [st'|x]; [|done].
  unfold nla_next, nlattr_len. rewrite El. exec_simpl. apply IH.
  unfold NLA_ALIGN. pose proof (align4_bounds l). rewrite s32_id by lia. lia.
Qed.

Lemma ends_nla_parse b maxtype head len policy : bytes_ok b -> ends (nla_parse b maxtype head len policy).
Proof.
  intros Hb. unfold nla_parse, nla_for_each_attr. apply ends_bind; [|by intros [?|?]].
  apply ends_attr_loop; [done| |lia]. intros tb nla. unfold nla_parse_body, nla_type, nlattr_type.
  ends_steps; apply ends_validate.
Qed.
Lemma ends_nested b maxtype nla policy : bytes_ok b -> ends (nla_parse_nested b maxtype nla policy).
Proof. intros Hb. apply ends_bind; [apply ends_nla_len|]. intros. by apply ends_nla_parse. Qed.
Lemma ends_nlmsg_parse b nlh hdrlen maxtype policy : bytes_ok b -> ends (nlmsg_parse b nlh hdrlen maxtype policy).
Proof.
  intros Hb. unfold nlmsg_parse, nlmsg_valid_hdr, nlmsg_attrlen, nlmsg_datalen, nlmsg_len. ends_steps; by apply ends_nla_parse.
Qed.

Lemma ends_if_attr {A} tb i (f : Z -> A -> exec A) a : (forall nla, ends (f nla a)) -> ends (if_attr tb i f a).
Proof. intros Hf. unfold if_attr. apply ends_bind; [apply ends_tb_at|]. by intros [nla|]. Qed.
Lemma ends_if_attr_or {A} tb i (f : Z -> A -> exec (Z + A)) a :
  (forall nla, tb_at tb i = Done (Some nla) -> ends (f nla a)) -> ends (if_attr_or tb i f a).
Proof.
  intros Hf. unfold if_attr_or. destruct (tb_at tb i) as [[nla|]| | |] eqn:E; try done; [by apply Hf|].
  by destruct (ends_tb_at tb i).
Qed.

Lemma ends_memcpy b d o count : ends (nla_memcpy b d o count).
Proof. unfold nla_memcpy. ends_steps. Qed.
Lemma ends_addr_of_attr b c nla family : ends (addr_of_attr b c nla family).
Proof. unfold addr_of_attr, nl_addr_alloc_attr, nl_addr_build. ends_steps. Qed.
