(* ===== verification/StepMsg.v ===== *)
(** Messages that the caller allocates and a sequence of steps fills (the pattern of
    the functions that compose routes, links and their parts around NLA_PUT and the
    label nla_put_failure), and that no sequence of such steps can leave the buffer
    or corrupt the message. *)
From S2P Require Import Prelude Errors Msg Attr Addr Wire Build.

(** ** Steps

    A step goes on with the message, or stops with an error code and the message
    as it is then. *)
Definition step_msg := exec (Z * nl_msg).
Definition next_msg (m : step_msg) (k : nl_msg -> step_msg) : step_msg :=
  '(e, msg) ← m; if e <? 0 then mret (e, msg) else k msg.
(** NLA_PUT with a label nla_put_failure that leaves the message alone. *)
Definition keep_put (attrtype attrlen : Z) (data : list Z) (msg : nl_msg) : step_msg :=
  '(e, msg) ← nla_put msg attrtype attrlen data;
  mret (if e <? 0 then - NLE_MSGSIZE else 0, msg).
Definition keep_put_addr (attrtype : Z) (addr : option nl_addr) (msg : nl_msg) : step_msg :=
  match addr with
  | None => Fault
  | Some a => keep_put attrtype (s32 (nl_addr_get_len a)) (nl_addr_get_binary_addr a) msg
  end.
Definition keep_if (c : bool) (put : nl_msg -> step_msg) (msg : nl_msg) : step_msg :=
  if c then put msg else mret (0, msg).

(** At the label nla_put_failure every error becomes this one. *)
Definition put_failure (m : step_msg) : step_msg :=
  '(e, msg) ← m; mret (if e <? 0 then - NLE_MSGSIZE else 0, msg).
Definition put_opt {A} (o : option A) (put : A -> nl_msg -> step_msg) (msg : nl_msg) : step_msg :=
  match o with Some a => put a msg | None => mret (0, msg) end.

(** [put] between nla_nest_start and nla_nest_end, the result of which is not
    looked at. *)
Definition nested (t : Z) (put : nl_msg -> step_msg) (msg : nl_msg) : step_msg :=
  '(start, msg) ← nla_nest_start msg t;
  match start with
  | None => mret (- NLE_MSGSIZE, msg)
  | Some start => next_msg (put msg) (fun msg => '(_, msg) ← nla_nest_end msg start; mret (0, msg))
  end.

(** ** What a step keeps

    The message is well formed and its length a multiple of four.  A step keeps the
    bytes below [lo] apart from the length in the header, the size of the buffer and
    the references. *)
Definition aligned (m : nl_msg) : Prop := msg_wf m /\ msg_len m mod 4 = 0.
Record extends (lo : Z) (m m' : nl_msg) : Prop := {
  ex_wf : aligned m';
  ex_len : msg_len m <= msg_len m';
  ex_size : nm_size m' = nm_size m;
  ex_ref : nm_refcnt m' = nm_refcnt m;
  ex_keep i k : 4 <= i -> 0 <= k -> i + k <= lo -> sub (nm_nlh m') i k = sub (nm_nlh m) i k
}.
(** A step that ends, whatever the message, and keeps all that is in it. *)
Definition safe_at (lo : Z) (m : nl_msg) (r : step_msg) : Prop :=
  exists e m', r = Done (e, m') /\ extends lo m m'.
Definition safe (put : nl_msg -> step_msg) : Prop := forall m, aligned m -> safe_at (msg_len m) m (put m).

Lemma extends_refl lo m : aligned m -> extends lo m m.
Proof. by split. Qed.
Lemma extends_weaken lo lo' m m' : lo' <= lo -> extends lo m m' -> extends lo' m m'.
Proof. intros Hl [? ? ? ? Hk]. split; try done. intros i k ???. apply Hk; lia. Qed.
Lemma extends_trans lo m1 m2 m3 : extends lo m1 m2 -> extends lo m2 m3 -> extends lo m1 m3.
Proof.
  intros [? ? ? ? Hk] [? ? ? ? Hk']. split; [done|lia|congruence..|]. intros i k ???. by rewrite Hk', Hk.
Qed.
Lemma safe_at_done lo m e : aligned m -> safe_at lo m (mret (e, m)).
Proof. intros Hm. exists e, m. split; [done|by apply extends_refl]. Qed.
Lemma safe_done e : safe (fun m => mret (e, m)).
Proof. intros m. apply safe_at_done. Qed.
Lemma safe_weaken lo lo' m r : lo' <= lo -> safe_at lo m r -> safe_at lo' m r.
Proof. intros Hl (e & m' & -> & Hx). exists e, m'. split; [done|by eapply extends_weaken]. Qed.
(** Going on after a step. *)
Lemma safe_at_bind lo m r (k : Z -> nl_msg -> step_msg) :
  safe_at lo m r -> (forall e m', extends lo m m' -> safe_at lo m' (k e m')) -> safe_at lo m ('(e, m') ← r; k e m').
Proof.
  intros (e & m' & -> & Hx) Hk. exec_simpl. destruct (Hk e m' Hx) as (e' & m2 & -> & Hx'). exists e', m2.
  split; [done|by eapply extends_trans].
Qed.
Lemma safe_next lo m r k : lo <= msg_len m -> safe_at lo m r -> safe k -> safe_at lo m (next_msg r k).
Proof.
  intros Hlo Hr Hk. unfold next_msg. apply safe_at_bind; [done|]. intros e m' [Hm' Hl _ _ _].
  destruct (e <? 0); [by apply safe_at_done|]. eapply safe_weaken; [|by apply Hk]. lia.
Qed.
Lemma safe_if (c : bool) put : (c = true -> safe put) -> safe (keep_if c put).
Proof. intros Hp m Hm. destruct c; [by apply Hp|by apply safe_at_done]. Qed.
Lemma safe_failure lo m r : safe_at lo m r -> safe_at lo m (put_failure r).
Proof. intros Hr. apply safe_at_bind; [done|]. intros e m' []. by apply safe_at_done. Qed.
Lemma safe_opt {A} (o : option A) put : (forall a, o = Some a -> safe (put a)) -> safe (put_opt o put).
Proof. intros Hp m Hm. destruct o; [by apply Hp|by apply safe_at_done]. Qed.

Lemma aligned_tail m : aligned m -> nlmsg_tail (nm_nlh m) 0 = Done (msg_len m) /\ msg_tail m = msg_len m.
Proof.
  intros [Hw Ha]. rewrite nlmsg_tail_done by done. unfold msg_tail. by rewrite align4_id.
Qed.

(** Reserving an attribute: its room is behind the message. *)
Lemma reserve_safe m t n :
  aligned m -> 0 <= n <= 65531 ->
  exists o m', nla_reserve m t n = Done (o, m') /\ extends (msg_len m) m m' /\
    match o with
    | None => m' = m
    | Some nla => nla = msg_len m /\ msg_len m' = msg_len m + align4 (4 + n)
    end.
Proof.
  intros Ha Hn. pose proof Ha as [Hw Hal]. destruct (aligned_tail m Ha) as [_ Ht].
  pose proof Hw as (Hz & Hb & Hl & Hs). unfold sizeof_nlmsghdr in Hl. pose proof (align4_bounds (4 + n)).
  destruct (decide (msg_len m + align4 (4 + n) <= nm_size m)).
  - destruct (nla_reserve_ok m t n Hw) as (b & -> & Hr); [done|lia|]. rewrite Ht in *.
    destruct Hr as (Hz' & Hb' & Hl' & _ & _ & _ & Hlo & _). set (m' := set_buf m b).
    assert (msg_len m' = msg_len m + align4 (4 + n)) as Hlen by exact Hl'.
    exists (Some (msg_len m)), m'. split; [done|]. split; [|done].
    split; [|lia|done|done|exact Hlo]. split; rewrite ?Hlen.
    + unfold msg_wf. rewrite Hlen. cbn [m' nm_nlh nm_size set_buf]. unfold sizeof_nlmsghdr. split_and!; (done || lia).
    + rewrite Z.add_mod by lia. by rewrite Hal, align4_mod.
  - exists None, m. split; [|split; [by apply extends_refl|done]]. unfold nla_reserve.
    rewrite (proj2 (Z.ltb_ge n 0)), nlmsg_len_done by (done || lia). exec_simpl.
    rewrite NLMSG_ALIGN_small, nla_total_size_small by lia. fold (msg_tail m). rewrite Ht.
    assert (nm_size m < u64 (s32 (msg_len m + align4 (4 + n)))) as Hlt.
    { unfold s32, u64. change (2 ^ 31) with 2147483648. change (2 ^ 32) with 4294967296.
      change (2 ^ 64) with 18446744073709551616. zdiv_lia. }
    by rewrite (proj2 (Z.ltb_lt _ _) Hlt).
Qed.

(** Writing inside the message. *)
Lemma store_safe lo m i d :
  aligned m -> bytes_ok d -> 4 <= i -> lo <= i -> i + zlen d <= msg_len m ->
  exists b, store (nm_nlh m) i d = Done b /\ extends lo m (set_buf m b) /\ msg_len (set_buf m b) = msg_len m.
Proof.
  intros [Hw Hal] Hd Hi Hlo Hf. pose proof Hw as (Hz & Hb & Hl & Hs). pose proof (zlen_nonneg d).
  exists (splice (nm_nlh m) i d). split; [apply store_done; lia|].
  set (m' := set_buf m (splice (nm_nlh m) i d)).
  assert (msg_len m' = msg_len m) as Hlen by (apply le_at_splice_other; lia).
  split; [|done]. split; [|lia|done..|intros i' k ???; cbn [m' nm_nlh set_buf]; by sub_simpl]. split; [|by rewrite Hlen].
  unfold msg_wf. rewrite Hlen. cbn [m' nm_nlh nm_size set_buf]. split_and!; [zl|auto with nl|lia..].
Qed.

Lemma put_safe m t n d : aligned m -> bytes_ok d -> 0 <= n <= 65531 -> n <= zlen d -> safe_at (msg_len m) m (nla_put m t n d).
Proof.
  intros Ha Hd Hn Hz. unfold nla_put.
  destruct (reserve_safe m t n Ha Hn) as (o & m' & -> & Hx & Ho). exec_simpl. destruct o as [nla|].
  - destruct Ho as [-> Hl]. destruct (Z.ltb_spec 0 n); [|by exists 0, m'].
    rewrite load_done by lia. exec_simpl. pose proof (align4_bounds (4 + n)).
    assert (zlen (sub d 0 n) = n) as Hs by (apply zlen_sub; lia).
    pose proof Ha as [[_ [_ [Hlen _]]] _]. unfold sizeof_nlmsghdr in Hlen.
    destruct (store_safe (msg_len m) m' (nla_data (msg_len m)) (sub d 0 n)) as (b & -> & Hx' & _);
      unfold nla_data, NLA_HDRLEN; [apply Hx|auto with nl|lia|lia|lia|]. exec_simpl. exists 0, (set_buf m' b). split; [done|]. by eapply extends_trans.
  - subst m'. destruct (n <? 0); by apply safe_at_done.
Qed.
Lemma keep_put_safe t n d : bytes_ok d -> 0 <= n <= 65531 -> n <= zlen d -> safe (keep_put t n d).
Proof. intros Hd Hn Hz m Ha. apply safe_at_bind; [by apply put_safe|]. intros e m' []. by apply safe_at_done. Qed.
Lemma keep_word_safe t k v : Z.of_nat k <= 65531 -> safe (keep_put t (Z.of_nat k) (le_encode k v)).
Proof. intros Hk. apply keep_put_safe; [auto with nl|lia|rewrite zlen_le_encode; lia]. Qed.
Lemma keep_addr_safe t a : addr_ok a -> safe (keep_put_addr t (Some a)).
Proof.
  intros ([Hl Hz] & Hb & H2) m Hm. unfold keep_put_addr, nl_addr_get_len, nl_addr_get_binary_addr, keep_put.
  rewrite s32_id by lia. rewrite nla_put_sub by lia. unfold addr_bytes in *.
  apply safe_at_bind; [|intros e m' []; by apply safe_at_done].
  apply put_safe; [done..|lia|]. rewrite zlen_sub; lia.
Qed.

(** Rolling back to where a nest started. *)
Lemma cancel_safe m start :
  aligned m -> 16 <= start <= msg_len m -> start mod 4 = 0 ->
  exists m', nla_nest_cancel m start = Done m' /\ aligned m' /\ msg_len m' = start /\
    nm_size m' = nm_size m /\ nm_refcnt m' = nm_refcnt m /\
    forall i k, 4 <= i -> 0 <= k -> i + k <= start -> sub (nm_nlh m') i k = sub (nm_nlh m) i k.
Proof.
  intros Ha Hst Hal. destruct (aligned_tail m Ha) as [Ht _]. unfold nla_nest_cancel. rewrite Ht. exec_simpl.
  pose proof Ha as [(Hz & Hb & Hl & Hs) _]. unfold sizeof_nlmsghdr in Hl.
  rewrite (proj2 (Z.ltb_ge _ 0)) by lia. destruct (Z.ltb_spec 0 (msg_len m - start)).
  - rewrite nlmsg_len_done by apply Ha. exec_simpl. unfold set_nlmsg_len.
    replace (msg_len m - (msg_len m - start)) with start by lia. exec_step.
    set (m1 := set_buf m (splice (nm_nlh m) 0 (le_encode 4 start))).
    assert (msg_len m1 = start) as Hl1 by (apply msg_len_set; lia).
    assert (aligned m1) as Ha1.
    { split; [|by rewrite Hl1]. unfold msg_wf. rewrite Hl1. cbn [m1 nm_nlh nm_size set_buf]. unfold sizeof_nlmsghdr.
      split_and!; [zl|auto with nl|lia..]. }
    change (splice (nm_nlh m) 0 (le_encode 4 start)) with (nm_nlh m1).
    rewrite (proj1 (aligned_tail m1 Ha1)), Hl1. exec_simpl.
    assert (zlen (nm_nlh m1) = nm_size m) as Hz1 by apply Ha1.
    rewrite store_done by (rewrite ?zlen_zeros; lia). exec_simpl.
    set (m2 := set_buf m _). assert (msg_len m2 = start) as Hl2.
    { rewrite <- Hl1. apply le_at_splice_other; rewrite ?zlen_zeros; lia. }
    exists m2. split; [done|]. split; [|split; [done|split; [done|split; [done|]]]]; cycle 1.
    { intros i k ???. cbn [m2 nm_nlh set_buf m1]. sub_simpl. by sub_simpl. }
    split; [|by rewrite Hl2]. unfold msg_wf. rewrite Hl2.
    cbn [m2 nm_nlh nm_size set_buf]. unfold sizeof_nlmsghdr. split_and!; [zl|apply bytes_ok_splice; [apply Ha1|auto with nl]|lia..].
  - exists m. split; [done|]. split; [done|]. split; [lia|done].
Qed.

(** Closing a nest. *)
Lemma nest_end_safe m start keep :
  aligned m -> 16 <= start -> start + 4 <= msg_len m -> start mod 4 = 0 ->
  exists e m', _nest_end m start keep = Done (e, m') /\ aligned m' /\ start <= msg_len m' /\
    nm_size m' = nm_size m /\ nm_refcnt m' = nm_refcnt m /\
    forall i k, 4 <= i -> 0 <= k -> i + k <= start -> sub (nm_nlh m') i k = sub (nm_nlh m) i k.
Proof.
  intros Ha H16 Hst Hal. unfold _nest_end. rewrite (proj1 (aligned_tail m Ha)). exec_simpl. case_test.
  - destruct (cancel_safe m start) as (m' & -> & Ha' & Hl' & ?); [done|lia|done|]. exec_simpl. eexists _, m'.
    split; [done|]. split; [done|]. split; [lia|done].
  - destruct (store_safe start m start (le_encode 2 (u64 (msg_len m - start)))) as (b & Hst' & [Hx _ Hsz Hr Hk] & Hl);
      [done|auto with nl|lia|lia|rewrite zlen_le_encode; lia|].
    unfold put_u16. rewrite Hst'. exec_simpl. rewrite nlmsg_len_done by apply Hx. exec_simpl.
    pose proof Hx as [(_ & _ & Hlx & Hsx) Hmx]. unfold sizeof_nlmsghdr in Hlx.
    rewrite NLMSG_ALIGN_small, align4_id, Z.sub_diag by (done || lia). exists 0, (set_buf m b). split; [done|].
    split; [done|]. split; [lia|done].
Qed.

Lemma nest_start_safe m t :
  aligned m ->
  exists o m1, nla_nest_start m t = Done (o, m1) /\ extends (msg_len m) m m1 /\
    match o with Some start => start = msg_len m /\ msg_len m1 = msg_len m + 4 | None => True end.
Proof.
  intros Ha. unfold nla_nest_start. rewrite (proj1 (aligned_tail m Ha)). exec_simpl. unfold nla_put.
  destruct (reserve_safe m (Z.lor NLA_F_NESTED t) 0 Ha) as (o & m1 & -> & Hx & Ho); [lia|]. exec_simpl.
  destruct o as [nla|]; [|by exists None, m1]. change (0 <? 0) with false. cbv iota. exec_simpl.
  destruct Ho as [_ Hl]. by exists (Some (msg_len m)), m1.
Qed.
(** After what was put into a nest that started at the end of [m]. *)
Lemma nest_close_safe m m2 :
  aligned m -> extends (msg_len m) m m2 -> msg_len m + 4 <= msg_len m2 ->
  exists e m3, nla_nest_end m2 (msg_len m) = Done (e, m3) /\ extends (msg_len m) m m3.
Proof.
  intros Ha [Ha2 _ Hs Hr Hk] Hl. pose proof Ha as [[_ [_ [Hlen _]]] Hmod]. unfold sizeof_nlmsghdr in Hlen.
  destruct (nest_end_safe m2 (msg_len m) false Ha2) as (e & m3 & H3 & Ha3 & Hl3 & Hs3 & Hr3 & Hk3); [lia|lia|done|].
  exists e, m3. split; [done|]. split; [done|lia|congruence..|]. intros i k ???. by rewrite Hk3, Hk.
Qed.
Lemma nested_safe t put : safe put -> safe (nested t put).
Proof.
  intros Hp m Ha. unfold nested. destruct (nest_start_safe m t Ha) as (o & m1 & -> & Hx & Ho). exec_simpl.
  destruct o as [start|]; [|by exists (- NLE_MSGSIZE), m1]. destruct Ho as [-> Hl]. unfold next_msg.
  destruct (Hp m1 (ex_wf _ _ _ Hx)) as (e & m2 & -> & Hx2). exec_simpl. pose proof (ex_len _ _ _ Hx2).
  assert (extends (msg_len m) m m2) as Hx'.
  { eapply extends_trans, extends_weaken; [exact Hx| |exact Hx2]. lia. }
  destruct (e <? 0); [by exists e, m2|].
  destruct (nest_close_safe m m2) as (e' & m3 & -> & Hx3); [done..|lia|]. exec_simpl. by exists 0, m3.
Qed.

(** The result of composing a request of the given type and flags: an error, or a
    message of one owner with the header given. *)
Definition request_result (size cmd flags : Z) (hdr : list Z) (r : Z + nl_msg) : Prop :=
  match r with
  | inl e => e < 0
  | inr m =>
      aligned m /\ 16 + zlen hdr <= msg_len m /\ nm_size m = Z.max size 16 /\ nm_refcnt m = 1 /\
      hdr_is (nm_nlh m) cmd flags NL_AUTO_SEQ NL_AUTO_PORT /\ sub (nm_nlh m) 16 (zlen hdr) = hdr
  end.
