(* ===== verification/Sriov.v ===== *)
(** Virtual functions of links (lib/route/link/sriov.c).  A virtual function is a
    value here, its address and its VLANs with it: their reference counts, and the
    arrays that copies share, are not followed. *)
From S2P Require Import Prelude Errors Msg Attr CString Utils Addr ObjAttr Object Wire Build Ends StepMsg Rtnl.

(** ** Data *)

Definition SRIOV_ATTR_INDEX := 1.
Definition SRIOV_ATTR_ADDR := 2.
Definition SRIOV_ATTR_VLAN := 4.
Definition SRIOV_ATTR_TX_RATE := 8.
Definition SRIOV_ATTR_SPOOFCHK := 16.
Definition SRIOV_ATTR_RATE_MAX := 32.
Definition SRIOV_ATTR_RATE_MIN := 64.
Definition SRIOV_ATTR_LINK_STATE := 128.
Definition SRIOV_ATTR_RSS_QUERY_EN := 256.
Definition SRIOV_ATTR_STATS := 512.
Definition SRIOV_ATTR_TRUST := 1024.
Definition SRIOV_ATTR_IB_NODE_GUID := 2048.
Definition SRIOV_ATTR_IB_PORT_GUID := 4096.

Definition IFLA_VFINFO_LIST := 22.
Definition IFLA_VF_INFO := 1.
Definition IFLA_VF_MAC := 1.
Definition IFLA_VF_VLAN := 2.
Definition IFLA_VF_TX_RATE := 3.
Definition IFLA_VF_SPOOFCHK := 4.
Definition IFLA_VF_LINK_STATE := 5.
Definition IFLA_VF_RATE := 6.
Definition IFLA_VF_RSS_QUERY_EN := 7.
Definition IFLA_VF_STATS := 8.
Definition IFLA_VF_TRUST := 9.
Definition IFLA_VF_IB_NODE_GUID := 10.
Definition IFLA_VF_IB_PORT_GUID := 11.
Definition IFLA_VF_VLAN_LIST := 12.
Definition IFLA_VF_MAX := 12.
Definition IFLA_VF_VLAN_INFO := 1.
Definition IFLA_VF_STATS_MAX := 8.
Definition RTNL_LINK_VF_STATS_MAX := 5.
Definition MAX_VLAN_LIST_LEN := 1.
Definition ETH_P_8021Q := 33024.
Definition ETH_P_8021AD := 34984.
Definition AF_LLC := 26.
Definition RTNL_LINK_VF_RATE_API_UNSPEC := 0.
Definition RTNL_LINK_VF_RATE_API_OLD := 1.
Definition RTNL_LINK_VF_RATE_API_NEW := 2.
Definition RTNL_VF_GUID_STR_LEN := 23.

Record nl_vf_vlan_info := { vf_vlan : Z; vf_vlan_qos : Z; vf_vlan_proto : Z }.
Definition vlan_info_0 : nl_vf_vlan_info := {| vf_vlan := 0; vf_vlan_qos := 0; vf_vlan_proto := 0 |}.
(** [v_vlans]: the array, which has room for one entry more than [v_size]. *)
Record nl_vf_vlans := { v_size : Z; v_vlans : list nl_vf_vlan_info }.
Record nl_vf_rate := { rate_api : Z; rate_rate : Z; rate_max_tx_rate : Z; rate_min_tx_rate : Z }.

Record rtnl_link_vf := {
  vf_index : Z;
  vf_guid_node : Z;
  vf_guid_port : Z;
  vf_linkstate : Z;
  vf_lladdr : option nl_addr;
  vf_max_tx_rate : Z;
  vf_min_tx_rate : Z;
  vf_rate : Z;
  vf_rss_query_en : Z;
  vf_spoofchk : Z;
  vf_stats : list Z;
  vf_trust : Z;
  vf_vlans : option nl_vf_vlans
}.
#[export] Instance eta_vf : Eta rtnl_link_vf := fun d =>
  {| vf_index := vf_index d; vf_guid_node := vf_guid_node d; vf_guid_port := vf_guid_port d;
     vf_linkstate := vf_linkstate d; vf_lladdr := vf_lladdr d; vf_max_tx_rate := vf_max_tx_rate d;
     vf_min_tx_rate := vf_min_tx_rate d; vf_rate := vf_rate d; vf_rss_query_en := vf_rss_query_en d;
     vf_spoofchk := vf_spoofchk d; vf_stats := vf_stats d; vf_trust := vf_trust d; vf_vlans := vf_vlans d |}.
Definition vf_0 : rtnl_link_vf :=
  {| vf_index := 0; vf_guid_node := 0; vf_guid_port := 0; vf_linkstate := 0; vf_lladdr := None; vf_max_tx_rate := 0;
     vf_min_tx_rate := 0; vf_rate := 0; vf_rss_query_en := 0; vf_spoofchk := 0; vf_stats := repeat 0 6; vf_trust := 0;
     vf_vlans := None |}.
Abbreviation vf := (body rtnl_link_vf).

(** [c]: whether the allocation succeeds. *)
Definition rtnl_link_vf_alloc (c : bool) : option vf := if c then Some (Body 0 vf_0) else None.

(** [c1], [c2]: the allocations of the record and of the array. *)
Definition rtnl_link_vf_vlan_alloc (c1 c2 : bool) (vlan_count : Z) : Z + nl_vf_vlans :=
  if MAX_VLAN_LIST_LEN <? vlan_count then inl (- NLE_INVAL)
  else if negb c1 then inl (- NLE_NOMEM)
  else if negb c2 then inl (- NLE_NOMEM)
  else inr {| v_size := vlan_count; v_vlans := repeat vlan_info_0 (Z.to_nat (vlan_count + 1)) |}.

(** ** Getting and setting

    A null virtual function is [None]; the getters give the error or the value. *)
Definition vf_get {T} (attr : Z) (f : rtnl_link_vf -> T) (v : option vf) : Z + T :=
  match v with
  | None => inl (- NLE_OBJ_NOTFOUND)
  | Some v => if has_attr v attr then inr (f (ce_data v)) else inl (- NLE_NOATTR)
  end.
Definition rtnl_link_vf_get_addr := vf_get SRIOV_ATTR_ADDR vf_lladdr.
Definition rtnl_link_vf_set_addr (v : vf) (addr : nl_addr) : vf :=
  fill_attr v SRIOV_ATTR_ADDR (fun d => d <| vf_lladdr := Some addr |>).
Definition rtnl_link_vf_set_ib_node_guid (v : vf) (guid : Z) : vf :=
  fill_attr v SRIOV_ATTR_IB_NODE_GUID (fun d => d <| vf_guid_node := guid |>).
Definition rtnl_link_vf_set_ib_port_guid (v : vf) (guid : Z) : vf :=
  fill_attr v SRIOV_ATTR_IB_PORT_GUID (fun d => d <| vf_guid_port := guid |>).
Definition rtnl_link_vf_get_index := vf_get SRIOV_ATTR_INDEX vf_index.
Definition rtnl_link_vf_set_index (v : vf) (i : Z) : vf :=
  fill_attr v SRIOV_ATTR_INDEX (fun d => d <| vf_index := i |>).
Definition rtnl_link_vf_get_linkstate := vf_get SRIOV_ATTR_LINK_STATE vf_linkstate.
Definition rtnl_link_vf_set_linkstate (v : vf) (s : Z) : vf :=
  fill_attr v SRIOV_ATTR_LINK_STATE (fun d => d <| vf_linkstate := s |>).

Definition rtnl_link_vf_get_rate (v : option vf) : Z + nl_vf_rate :=
  match v with
  | None => inl (- NLE_OBJ_NOTFOUND)
  | Some v =>
      let d := ce_data v in
      let max := has_attr v SRIOV_ATTR_RATE_MAX && negb (vf_max_tx_rate d =? 0) in
      let min := has_attr v SRIOV_ATTR_RATE_MIN && negb (vf_min_tx_rate d =? 0) in
      let old := negb (max || min) && has_attr v SRIOV_ATTR_TX_RATE && negb (vf_rate d =? 0) in
      if negb (max || min || old) then inl (- NLE_NOATTR)
      else inr {| rate_api := if max || min then RTNL_LINK_VF_RATE_API_NEW else RTNL_LINK_VF_RATE_API_OLD;
                  rate_rate := if old then vf_rate d else 0;
                  rate_max_tx_rate := if max then vf_max_tx_rate d else 0;
                  rate_min_tx_rate := if min then vf_min_tx_rate d else 0 |}
  end.
Definition rtnl_link_vf_set_rate (v : vf) (r : nl_vf_rate) : vf :=
  if rate_api r =? RTNL_LINK_VF_RATE_API_OLD then
    fill_attr v SRIOV_ATTR_TX_RATE (fun d => d <| vf_rate := rate_rate r |>)
  else if rate_api r =? RTNL_LINK_VF_RATE_API_NEW then
    let v := fill_attr v SRIOV_ATTR_RATE_MAX (fun d => d <| vf_max_tx_rate := rate_max_tx_rate r |>) in
    fill_attr v SRIOV_ATTR_RATE_MIN (fun d => d <| vf_min_tx_rate := rate_min_tx_rate r |>)
  else v.
Definition rtnl_link_vf_get_rss_query_en := vf_get SRIOV_ATTR_RSS_QUERY_EN vf_rss_query_en.
Definition rtnl_link_vf_set_rss_query_en (v : vf) (x : Z) : vf :=
  fill_attr v SRIOV_ATTR_RSS_QUERY_EN (fun d => d <| vf_rss_query_en := x |>).
Definition rtnl_link_vf_get_spoofchk := vf_get SRIOV_ATTR_SPOOFCHK vf_spoofchk.
Definition rtnl_link_vf_set_spoofchk (v : vf) (x : Z) : vf :=
  fill_attr v SRIOV_ATTR_SPOOFCHK (fun d => d <| vf_spoofchk := x |>).
(** The number of the statistic is not checked. *)
Definition rtnl_link_vf_get_stat (v : option vf) (stat : Z) : exec (Z + Z) :=
  match v with
  | None => mret (inl (- NLE_OBJ_NOTFOUND))
  | Some v =>
      if has_attr v SRIOV_ATTR_STATS then
        match (if 0 <=? stat then vf_stats (ce_data v) !! Z.to_nat stat else None) with
        | Some x => mret (inr x)
        | None => Fault
        end
      else mret (inl (- NLE_NOATTR))
  end.
Definition rtnl_link_vf_get_trust := vf_get SRIOV_ATTR_TRUST vf_trust.
Definition rtnl_link_vf_set_trust (v : vf) (x : Z) : vf :=
  fill_attr v SRIOV_ATTR_TRUST (fun d => d <| vf_trust := x |>).
Definition rtnl_link_vf_get_vlans := vf_get SRIOV_ATTR_VLAN vf_vlans.
Definition rtnl_link_vf_set_vlans (v : option vf) (vlans : option nl_vf_vlans) : option vf :=
  match v, vlans with
  | Some v, Some l => Some (fill_attr v SRIOV_ATTR_VLAN (fun d => d <| vf_vlans := Some l |>))
  | _, _ => v
  end.

(** *** The list of a link

    [None]: the null pointer; otherwise the functions behind the head of the list. *)
Abbreviation vf_list := (option (list vf)).

(** The function at the place is returned, by its place. *)
Fixpoint find_vf (l : list vf) (vf_num : Z) (i : nat) : option nat :=
  match l with
  | [] => None
  | v :: l => if vf_index (ce_data v) =? vf_num then Some i else find_vf l vf_num (S i)
  end.
Definition rtnl_link_vf_get (l : vf_list) (vf_num : Z) : exec (option nat) :=
  match l with None => Fault | Some l => mret (find_vf l vf_num 0) end.

(** ** Names *)

Definition vf_link_states : list trans_tbl := [Tr 0 "autodetect"; Tr 1 "up"; Tr 2 "down"].
Definition rtnl_link_vf_linkstate2str ls old size := __type2str ls old size vf_link_states.
Definition rtnl_link_vf_str2linkstate name := __str2type name vf_link_states.
Definition vf_vlan_proto_tbl : list trans_tbl := [Tr 33024 "8021Q"; Tr 34984 "8021AD"].
Definition rtnl_link_vf_vlanproto2str proto old size := __type2str proto old size vf_vlan_proto_tbl.
Definition rtnl_link_vf_str2vlanproto name := __str2type name vf_vlan_proto_tbl.

(** One of the eight numbers of a GUID, in the two characters from [3 * i]. *)
Definition guid_part (s : list Z) (i : nat) : option Z :=
  match strtoul 16 (drop (3 * i) s) with
  | Some (v, rest) => if (zlen rest =? zlen s - 3 * Z.of_nat i - 2) && (v <=? 255) then Some v else None
  | None => None
  end.
Fixpoint guid_parts (s : list Z) (places : list nat) (guid : Z) : Z + Z :=
  match places with
  | [] => inr guid
  | i :: places =>
      match guid_part s i with
      | None => inl (-1)
      | Some v => guid_parts s places (Z.lor guid (u64 (Z.shiftl v (56 - 8 * Z.of_nat i))))
      end
  end.
Definition rtnl_link_vf_str2guid (s : list Z) : Z + Z :=
  if negb (zlen s =? RTNL_VF_GUID_STR_LEN) then inl (-1)
  else if existsb (fun i => negb (nth (2 + 3 * i) s 0 =? 58)) (seq 0 7) then inl (-1)
  else guid_parts s (seq 0 8) 0.

(** ** Parsing *)

Definition sriov_info_policy : list nla_policy :=
  [pol_of 0; pol_min 36; pol_min 12; pol_min 8; pol_min 8; pol_min 8; pol_min 12; pol_min 8; pol_of NLA_NESTED;
   pol_min 8; pol_min 16; pol_min 16; pol_of NLA_NESTED].
Definition sriov_stats_policy : list nla_policy :=
  [pol_of NLA_U64; pol_of NLA_U64; pol_of NLA_U64; pol_of NLA_U64; pol_of NLA_U64; pol_of NLA_U64; pol_of 0; pol_of 0;
   pol_of 0].

(** The index of pointers [nla_parse] is given has [room] entries, which it clears
    and fills up to [maxtype]. *)
Definition parse_nested_into (room : Z) (b : list Z) (maxtype nla : Z) (policy : option (list nla_policy))
    : exec (Z * list (option Z)) :=
  if room <? maxtype + 1 then Fault else nla_parse_nested b maxtype nla policy.

(** The 16-bit number whose bytes are the other way round. *)
Definition ntohs (v : Z) : Z := Z.lor (Z.shiftl (v mod 256) 8) (v / 256).

(** Whether the allocations of functions, addresses and VLANs succeed. *)
Section Parse.
Variable ca cv cl1 cl2 : bool.
Variable b : list Z.

(** The payloads of the first entries of a list; reading one needs them whole. *)
Definition vlan_list (nla : Z) : exec (list Z) :=
  r ← nla_for_each_nested b (fun l nla =>
        if MAX_VLAN_LIST_LEN <=? zlen l then mret (inr l) else mret (inl (l ++ [nla_data nla]))) nla [];
  match r with inl l => mret l | inr l => mret l end.
Definition read_vlan (vi : Z) : exec nl_vf_vlan_info :=
  vlan ← get_u32 b (vi + 4);
  qos ← get_u32 b (vi + 8);
  proto ← get_u16 b (vi + 12);
  mret {| vf_vlan := vlan; vf_vlan_qos := qos;
          vf_vlan_proto := if negb (proto =? 0) then ntohs proto else ETH_P_8021Q |}.
Fixpoint read_vlans (l : list Z) : exec (list nl_vf_vlan_info) :=
  match l with
  | [] => mret []
  | vi :: l => x ← read_vlan vi; l ← read_vlans l; mret (x :: l)
  end.
(** [nvi]: what the pointer holds before; an empty list leaves it. *)
Definition rtnl_link_vf_vlan_info (l : list Z) (nvi : option nl_vf_vlans) : exec (Z + option nl_vf_vlans) :=
  if zlen l <=? 0 then ok nvi
  else match rtnl_link_vf_vlan_alloc cl1 cl2 (zlen l) with
       | inl e => mret (inl e)
       | inr v => x ← read_vlans l; ok (Some {| v_size := v_size v; v_vlans := x ++ drop (length x) (v_vlans v) |})
       end.

Definition vf_mac (nla : Z) (v : vf) : exec (Z + vf) :=
  i ← get_u32 b (nla_data nla);
  mac ← load b (nla_data nla + 4) 6;
  a ← nl_addr_build ca AF_LLC mac 6;
  match a with
  | None => err NLE_NOMEM
  | Some a =>
      let v := fill_attr v SRIOV_ATTR_INDEX (fun d : rtnl_link_vf => d <| vf_index := i |>) in
      ok (fill_attr v SRIOV_ATTR_ADDR (fun d : rtnl_link_vf => d <| vf_lladdr := Some (nl_addr_set_family a AF_LLC) |>))
  end.

(** The VLANs, with the pointer that outlives the round. *)
Definition fill_vlans (v : vf) (vlans : option nl_vf_vlans) : vf * option nl_vf_vlans :=
  (fill_attr v SRIOV_ATTR_VLAN (fun d : rtnl_link_vf => d <| vf_vlans := vlans |>), vlans).
Definition parse_vlans (t : list (option Z)) (s : vf * option nl_vf_vlans) : exec (Z + vf * option nl_vf_vlans) :=
  many ← tb_at t IFLA_VF_VLAN_LIST;
  match many with
  | Some nla => l ← vlan_list nla; vlans ←! rtnl_link_vf_vlan_info l s.2; ok (fill_vlans s.1 vlans)
  | None =>
      one ← tb_at t IFLA_VF_VLAN;
      match one with
      | None => ok s
      | Some nla =>
          vlan ← get_u32 b (nla_data nla + 4);
          if vlan =? 0 then ok s
          else match rtnl_link_vf_vlan_alloc cl1 cl2 1 with
               | inl e => mret (inl e)
               | inr v =>
                   qos ← get_u32 b (nla_data nla + 8);
                   ok (fill_vlans s.1 (Some {| v_size := v_size v;
                         v_vlans := {| vf_vlan := vlan; vf_vlan_qos := qos; vf_vlan_proto := ETH_P_8021Q |} ::
                                    drop 1 (v_vlans v) |}))
               end
      end
  end.

(** A switch: all ones mean that it is not set. *)
Definition vf_switch (attr : Z) (set : Z -> rtnl_link_vf -> rtnl_link_vf) (nla : Z) (v : vf) : exec vf :=
  s ← get_u32 b (nla_data nla + 4);
  mret (if s =? UINT32_MAX then v else fill_attr v attr (set (if negb (s =? 0) then 1 else 0))).
Definition vf_number (off attr : Z) (set : Z -> rtnl_link_vf -> rtnl_link_vf) (nla : Z) (v : vf) : exec vf :=
  x ← get_u32 b (nla_data nla + off);
  mret (if x =? 0 then v else fill_attr v attr (set x)).

Fixpoint read_stats (stb : list (option Z)) (l : list Z) : exec (list Z) :=
  match l with
  | [] => mret []
  | a :: l => nla ← tb_at stb a; x ← nla_get_u64 b nla; l ← read_stats stb l; mret (x :: l)
  end.
(** The number of the attribute gets into the mask, which is the bit of the rate. *)
Definition vf_parse_stats (nla : Z) (v : vf) : exec (Z + vf) :=
  '(err, stb) ← parse_nested_into (RTNL_LINK_VF_STATS_MAX + 1) b IFLA_VF_STATS_MAX nla (Some sriov_stats_policy);
  if err <? 0 then mret (inl err)
  else
    l ← read_stats stb [0; 1; 2; 3; 4; 5];
    ok (fill_attr v IFLA_VF_STATS (fun d : rtnl_link_vf => d <| vf_stats := l |>)).

(** One entry of the list. *)
Definition parse_vf (vlans : option nl_vf_vlans) (nla : Z) : exec (Z + vf * option nl_vf_vlans) :=
  len ← nla_len b nla;
  '(err, t) ← nla_parse b IFLA_VF_MAX (nla_data nla) len (Some sriov_info_policy);
  if err <? 0 then mret (inl err)
  else match rtnl_link_vf_alloc cv with
  | None => mret (inl (- NLE_NOMEM))
  | Some v =>
      v ←! if_attr_or t IFLA_VF_MAC vf_mac v;
      '(v, vlans) ←! parse_vlans t (v, vlans);
      v ← if_attr t IFLA_VF_TX_RATE (vf_number 4 SRIOV_ATTR_TX_RATE (fun x (d : rtnl_link_vf) => d <| vf_rate := x |>)) v;
      v ← if_attr t IFLA_VF_SPOOFCHK (vf_switch SRIOV_ATTR_SPOOFCHK (fun x (d : rtnl_link_vf) => d <| vf_spoofchk := x |>)) v;
      v ← if_attr t IFLA_VF_LINK_STATE (fun nla v =>
            s ← get_u32 b (nla_data nla + 4);
            mret (fill_attr v SRIOV_ATTR_LINK_STATE (fun d : rtnl_link_vf => d <| vf_linkstate := s |>))) v;
      v ← if_attr t IFLA_VF_RATE (fun nla v =>
            v ← vf_number 8 SRIOV_ATTR_RATE_MAX (fun x (d : rtnl_link_vf) => d <| vf_max_tx_rate := x |>) nla v;
            vf_number 4 SRIOV_ATTR_RATE_MIN (fun x (d : rtnl_link_vf) => d <| vf_min_tx_rate := x |>) nla v) v;
      v ← if_attr t IFLA_VF_RSS_QUERY_EN
            (vf_switch SRIOV_ATTR_RSS_QUERY_EN (fun x (d : rtnl_link_vf) => d <| vf_rss_query_en := x |>)) v;
      v ←! if_attr_or t IFLA_VF_STATS vf_parse_stats v;
      v ← if_attr t IFLA_VF_TRUST (vf_switch SRIOV_ATTR_TRUST (fun x (d : rtnl_link_vf) => d <| vf_trust := x |>)) v;
      ok (v, vlans)
  end.

(** [ch]: whether the head of the list can be allocated.  The error with the list
    as it is then; each function goes behind the one before. *)
Definition rtnl_link_sriov_parse_vflist (ch : bool) (nla : Z) : exec (Z * vf_list) :=
  if negb ch then mret (- NLE_NOMEM, None)
  else
    r ← nla_for_each_nested b (fun '(l, vlans) nla =>
          r ← parse_vf vlans nla;
          match r with
          | inl e => mret (inr (e, l))
          | inr (v, vlans) => mret (inl (l ++ [v], vlans))
          end) nla ([], None);
    match r with
    | inl (l, _) => mret (0, Some l)
    | inr (e, l) => mret (e, Some l)
    end.
End Parse.

(** ** Copying

    The array of a copy's VLANs is the original's. *)
Definition clone_vf (cv ca cl1 cl2 : bool) (s : vf) : Z + vf :=
  if negb cv then inl (- NLE_NOMEM)
  else
    match (if has_attr s SRIOV_ATTR_ADDR then clone_addr ca (vf_lladdr (ce_data s)) else Some (vf_lladdr (ce_data s))) with
    | None => inl (- NLE_NOMEM)
    | Some a =>
        let d := ce_data s in
        let v := Body (ce_mask s) (d <| vf_lladdr := a |>) in
        if has_attr s SRIOV_ATTR_VLAN then
          match rtnl_link_vf_vlan_alloc cl1 cl2 (from_option v_size 0 (vf_vlans d)) with
          | inl e => inl e
          | inr _ => inr v
          end
        else inr v
    end.
Fixpoint clone_vfs (cv ca cl1 cl2 : bool) (l : list vf) (dst : list vf) : Z * list vf :=
  match l with
  | [] => (0, dst)
  | s :: l =>
      match clone_vf cv ca cl1 cl2 s with
      | inl e => (e, dst)
      | inr v => clone_vfs cv ca cl1 cl2 l (dst ++ [v])
      end
  end.

(** ** Putting the functions into a message

    [pad]: the bytes a structure has between its members, which nobody sets. *)
Definition sriov_fill_vf_vlan (vlans : nl_vf_vlans) (index : Z) (msg : nl_msg) : step_msg :=
  match v_vlans vlans with
  | [] => Fault
  | x :: _ =>
      '(_, msg) ← nla_put msg IFLA_VF_VLAN 12 (le_encode 4 index ++ le_encode 4 (vf_vlan x) ++ le_encode 4 (vf_vlan_qos x));
      mret (0, msg)
  end.
Definition put_vlan (pad : list Z) (index : Z) (x : nl_vf_vlan_info) : nl_msg -> step_msg :=
  keep_put IFLA_VF_VLAN_INFO 16 (le_encode 4 index ++ le_encode 4 (vf_vlan x) ++ le_encode 4 (vf_vlan_qos x) ++
    le_encode 2 (vf_vlan_proto x) ++ pad).
Fixpoint put_vlans (pad : list Z) (index : Z) (l : list nl_vf_vlan_info) (msg : nl_msg) : step_msg :=
  match l with
  | [] => mret (0, msg)
  | x :: l => next_msg (put_vlan pad index x msg) (put_vlans pad index l)
  end.
(** The nest of what [put] puts is closed even when that fails. *)
Definition nested_always (t : Z) (put : nl_msg -> step_msg) (msg : nl_msg) : step_msg :=
  '(start, msg) ← nla_nest_start msg t;
  match start with
  | None => mret (- NLE_MSGSIZE, msg)
  | Some start => '(e, msg) ← put msg; '(_, msg) ← nla_nest_end msg start; mret (e, msg)
  end.
(** A step whose error is forgotten. *)
Definition ignore_error (put : nl_msg -> step_msg) (msg : nl_msg) : step_msg := '(_, msg) ← put msg; mret (0, msg).
Definition sriov_fill_vf_vlan_list (pad : list Z) (vlans : nl_vf_vlans) (index : Z) : nl_msg -> step_msg :=
  nested_always IFLA_VF_VLAN_LIST (ignore_error (fun msg =>
    if zlen (v_vlans vlans) <? v_size vlans then Fault
    else put_vlans pad index (take (Z.to_nat (v_size vlans)) (v_vlans vlans)) msg)).

(** The address is copied into an array of 32 bytes. *)
Definition put_vf_mac (v : vf) (msg : nl_msg) : step_msg :=
  match vf_lladdr (ce_data v) with
  | None => Fault
  | Some a =>
      if 32 <? a_len a then Fault
      else mac ← load (a_addr a) 0 (a_len a);
           keep_put IFLA_VF_MAC 36 (le_encode 4 (vf_index (ce_data v)) ++ mac ++ zeros (32 - a_len a)) msg
  end.
Definition put_vf_vlans (pad : list Z) (v : vf) (msg : nl_msg) : step_msg :=
  match vf_vlans (ce_data v) with
  | None => Fault
  | Some vlans =>
      match v_vlans vlans with
      | [] => Fault
      | x :: _ =>
          let proto := if vf_vlan_proto x =? 0 then ETH_P_8021Q else vf_vlan_proto x in
          if (v_size vlans =? 1) && (proto =? ETH_P_8021Q) then sriov_fill_vf_vlan vlans (vf_index (ce_data v)) msg
          else sriov_fill_vf_vlan_list pad vlans (vf_index (ce_data v)) msg
      end
  end.
Definition put_vf_pair (v : vf) (attr t : Z) (f : rtnl_link_vf -> Z) : nl_msg -> step_msg :=
  keep_if (has_attr v attr) (keep_put t 8 (le_encode 4 (vf_index (ce_data v)) ++ le_encode 4 (f (ce_data v)))).
Definition put_vf_guid (pad : list Z) (v : vf) (attr t : Z) (f : rtnl_link_vf -> Z) : nl_msg -> step_msg :=
  keep_if (has_attr v attr)
    (keep_put t 16 (le_encode 4 (vf_index (ce_data v)) ++ pad ++ le_encode 8 (f (ce_data v)))).

(** The members after the VLANs, up to the first that does not fit. *)
Definition put_vf_rest (pad : list Z) (v : vf) (msg : nl_msg) : step_msg :=
  let d := ce_data v in
  let min := has_attr v SRIOV_ATTR_RATE_MIN in
  let max := has_attr v SRIOV_ATTR_RATE_MAX in
  next_msg (put_vf_pair v SRIOV_ATTR_TX_RATE IFLA_VF_TX_RATE vf_rate msg) (fun msg =>
  next_msg (keep_if (min || max) (keep_put IFLA_VF_RATE 12
              (le_encode 4 (vf_index d) ++ le_encode 4 (if min then vf_min_tx_rate d else 0) ++
               le_encode 4 (if max then vf_max_tx_rate d else 0))) msg) (fun msg =>
  next_msg (put_vf_pair v SRIOV_ATTR_SPOOFCHK IFLA_VF_SPOOFCHK vf_spoofchk msg) (fun msg =>
  next_msg (put_vf_pair v SRIOV_ATTR_LINK_STATE IFLA_VF_LINK_STATE vf_linkstate msg) (fun msg =>
  next_msg (put_vf_pair v SRIOV_ATTR_RSS_QUERY_EN IFLA_VF_RSS_QUERY_EN vf_rss_query_en msg) (fun msg =>
  next_msg (put_vf_pair v SRIOV_ATTR_TRUST IFLA_VF_TRUST vf_trust msg) (fun msg =>
  next_msg (put_vf_guid pad v SRIOV_ATTR_IB_NODE_GUID IFLA_VF_IB_NODE_GUID vf_guid_node msg) (fun msg =>
  put_vf_guid pad v SRIOV_ATTR_IB_PORT_GUID IFLA_VF_IB_PORT_GUID vf_guid_port msg))))))).

(** Only the error of the list of VLANs is returned.  [pad2] and [pad4]: the
    padding. *)
Definition sriov_fill_vfinfo (pad2 pad4 : list Z) (v : vf) (msg : nl_msg) : step_msg :=
  if negb (has_attr v SRIOV_ATTR_INDEX) then mret (- NLE_MISSING_ATTR, msg)
  else nested_always IFLA_VF_INFO (fun msg =>
    '(e, msg) ← keep_if (has_attr v SRIOV_ATTR_ADDR) (put_vf_mac v) msg;
    if e <? 0 then mret (0, msg)
    else
      '(e, msg) ← keep_if (has_attr v SRIOV_ATTR_VLAN) (put_vf_vlans pad2 v) msg;
      '(_, msg) ← put_vf_rest pad4 v msg;
      mret (e, msg)) msg.
Fixpoint fill_vfs (pad2 pad4 : list Z) (l : list vf) (msg : nl_msg) : step_msg :=
  match l with
  | [] => mret (0, msg)
  | v :: l =>
      next_msg (keep_if (has_attr v SRIOV_ATTR_INDEX) (sriov_fill_vfinfo pad2 pad4 v) msg) (fill_vfs pad2 pad4 l)
  end.
Definition rtnl_link_sriov_fill_vflist (pad2 pad4 : list Z) (l : vf_list) : nl_msg -> step_msg :=
  nested_always IFLA_VFINFO_LIST (fun msg => match l with None => Fault | Some l => fill_vfs pad2 pad4 l msg end).

(** ** What putting them into a message keeps *)

Lemma nested_always_safe t put : safe put -> safe (nested_always t put).
Proof.
  intros Hp m Ha. unfold nested_always. destruct (nest_start_safe m t Ha) as (o & m1 & -> & Hx & Ho). exec_simpl.
  destruct o as [start|]; [|by exists (- NLE_MSGSIZE), m1]. destruct Ho as [-> Hl].
  destruct (Hp m1 (ex_wf _ _ _ Hx)) as (e & m2 & -> & Hx2). exec_simpl. pose proof (ex_len _ _ _ Hx2).
  assert (extends (msg_len m) m m2) as Hx' by (eapply extends_trans, extends_weaken; [exact Hx| |exact Hx2]; lia).
  destruct (nest_close_safe m m2) as (e' & m3 & -> & Hx3); [done..|lia|]. exec_simpl. by exists e, m3.
Qed.
Lemma ignore_error_safe put : safe put -> safe (ignore_error put).
Proof. intros Hp m Ha. apply safe_at_bind; [by apply Hp|]. intros e m' []. by apply safe_at_done. Qed.

(** A function the setters and the parser make. *)
Definition vlans_ok (l : nl_vf_vlans) : Prop := 0 <= v_size l /\ zlen (v_vlans l) = v_size l + 1.
Record vf_ok (v : vf) : Prop := {
  vo_addr a : vf_lladdr (ce_data v) = Some a -> addr_ok a /\ a_len a <= 32;
  vo_has_addr : has_attr v SRIOV_ATTR_ADDR = true -> is_Some (vf_lladdr (ce_data v));
  vo_vlans l : vf_vlans (ce_data v) = Some l -> vlans_ok l;
  vo_has_vlans : has_attr v SRIOV_ATTR_VLAN = true -> is_Some (vf_vlans (ce_data v))
}.
Definition pad_ok (n : Z) (pad : list Z) : Prop := bytes_ok pad /\ zlen pad = n.

Lemma vf_mac_safe v : vf_ok v -> is_Some (vf_lladdr (ce_data v)) -> safe (put_vf_mac v).
Proof.
  intros Hv [a Ha] m Hm. unfold put_vf_mac. rewrite Ha. destruct (vo_addr v Hv a Ha) as (((Hl & Hz) & Hb & H2) & H32).
  rewrite (proj2 (Z.ltb_ge 32 _)) by lia. rewrite load_done by lia. exec_simpl. unfold addr_bytes in *.
  assert (zlen (sub (a_addr a) 0 (a_len a)) = a_len a) by (apply zlen_sub; lia).
  apply keep_put_safe; [|lia| |done].
  - by repeat (apply bytes_ok_app; split); auto with nl.
  - rewrite !zlen_app, zlen_le_encode, zlen_zeros; lia.
Qed.

Lemma put_vlan_safe pad index x : pad_ok 2 pad -> safe (put_vlan pad index x).
Proof.
  intros [Hb Hz]. apply keep_put_safe; [|lia|].
  - by repeat (apply bytes_ok_app; split); auto with nl.
  - rewrite !zlen_app, !zlen_le_encode; lia.
Qed.
Lemma put_vlans_safe pad index l : pad_ok 2 pad -> safe (put_vlans pad index l).
Proof.
  intros Hp. induction l as [|x l IH]; intros m Hm; [by apply safe_at_done|].
  apply safe_next; [lia|by apply put_vlan_safe|done].
Qed.
Lemma vf_vlans_safe pad v : pad_ok 2 pad -> vf_ok v -> is_Some (vf_vlans (ce_data v)) -> safe (put_vf_vlans pad v).
Proof.
  intros Hp Hv [l Hl] m Hm. unfold put_vf_vlans. rewrite Hl. destruct (vo_vlans v Hv l Hl) as [H0 Hz].
  destruct (v_vlans l) as [|x r] eqn:El; [change (zlen []) with 0 in Hz; lia|].
  destruct (_ && _).
  - unfold sriov_fill_vf_vlan. rewrite El. apply safe_at_bind; [|intros e m' []; by apply safe_at_done].
    apply put_safe; [done| |lia|rewrite !zlen_app, !zlen_le_encode; lia].
    by repeat (apply bytes_ok_app; split); auto with nl.
  - apply nested_always_safe; [|done]. apply ignore_error_safe. intros m' Hm'. rewrite El.
    rewrite (proj2 (Z.ltb_ge _ _)) by lia. by apply put_vlans_safe.
Qed.

Lemma vf_pair_safe v attr t f : safe (put_vf_pair v attr t f).
Proof.
  apply safe_if. intros _. apply keep_put_safe; [|lia|rewrite zlen_app, !zlen_le_encode; lia].
  apply bytes_ok_app; split; auto with nl.
Qed.
Lemma vf_guid_safe pad v attr t f : pad_ok 4 pad -> safe (put_vf_guid pad v attr t f).
Proof.
  intros [Hb Hz]. apply safe_if. intros _. apply keep_put_safe; [|lia|rewrite !zlen_app, !zlen_le_encode; lia].
  by repeat (apply bytes_ok_app; split); auto with nl.
Qed.
Lemma vf_rest_safe pad v : pad_ok 4 pad -> safe (put_vf_rest pad v).
Proof.
  intros Hp m Hm. unfold put_vf_rest. cbv zeta.
  apply safe_next; [lia|by apply vf_pair_safe|]. intros m1 H1.
  apply safe_next; [lia| |].
  { apply safe_if; [|done]. intros _. apply keep_put_safe; [|lia|rewrite !zlen_app, !zlen_le_encode; lia].
    by repeat (apply bytes_ok_app; split); auto with nl. }
  intros m2 H2.
  do 4 (apply safe_next; [lia|by apply vf_pair_safe|]; intros ? ?).
  apply safe_next; [lia|by apply vf_guid_safe|]. intros m7 H7. by apply vf_guid_safe.
Qed.

(** Filling in the list ends, whatever the room there is, and keeps the rest of the
    message. *)
Lemma sriov_fill_safe pad2 pad4 l :
  pad_ok 2 pad2 -> pad_ok 4 pad4 -> Forall vf_ok l -> safe (rtnl_link_sriov_fill_vflist pad2 pad4 (Some l)).
Proof.
  intros H2 H4 Hl. apply nested_always_safe. induction Hl as [|v l Hv Hl IH]; intros m Hm; [by apply safe_at_done|].
  cbn [fill_vfs]. apply safe_next; [lia| |done]. apply safe_if; [|done]. intros Hi. unfold sriov_fill_vfinfo.
  rewrite Hi. cbn [negb]. intros m0 Hm0. apply nested_always_safe; [|done]. intros m1 Hm1.
  apply safe_at_bind; [apply safe_if; [|done]; intros Ha; apply vf_mac_safe; [done|by apply Hv]|].
  intros e m2 [Hm2 Hlen2 _ _ _]. destruct (e <? 0); [by apply safe_at_done|].
  apply safe_at_bind; [eapply safe_weaken; [exact Hlen2|]; apply safe_if; [|done]; intros Ha; apply vf_vlans_safe; [done..|by apply Hv]|].
  intros e3 m3 [Hm3 Hlen3 _ _ _].
  apply safe_at_bind; [eapply safe_weaken; [|by apply vf_rest_safe]; lia|]. intros e4 m4 []. by apply safe_at_done.
Qed.

(** ** What the parser makes *)

Definition vlans_opt_ok (o : option nl_vf_vlans) : Prop := from_option vlans_ok True o.
Record vf_made (v : vf) : Prop := {
  vm_addr a : vf_lladdr (ce_data v) = Some a -> addr_ok a /\ a_len a <= 32;
  vm_has_addr : has_attr v SRIOV_ATTR_ADDR = true -> is_Some (vf_lladdr (ce_data v));
  vm_vlans : vlans_opt_ok (vf_vlans (ce_data v))
}.
(** A function that was parsed can be put into a message, but for VLANs that are
    claimed and not there. *)
Lemma vf_made_ok v :
  vf_made v -> (has_attr v SRIOV_ATTR_VLAN = true -> is_Some (vf_vlans (ce_data v))) -> vf_ok v.
Proof.
  intros [H1 H2 H3] H4. split; try done. intros l Hl. by rewrite Hl in H3.
Qed.

Lemma vf_fill_made v attr (f : rtnl_link_vf -> rtnl_link_vf) :
  vf_made v -> Z.land attr SRIOV_ATTR_ADDR = 0 -> (forall d, vf_lladdr (f d) = vf_lladdr d) ->
  (forall d, vf_vlans (f d) = vf_vlans d) -> vf_made (fill_attr v attr f).
Proof.
  intros [H1 H2 H3] Ha Hf Hl. split; cbn [fill_attr ce_data]; rewrite ?Hf, ?Hl; try done.
  intros H. apply H2. by rewrite has_fill_other in H by done.
Qed.

Lemma bytes_read (b : list Z) off n d : bytes_ok b -> 0 <= n -> load b off n = Done d -> bytes_ok d /\ zlen d = n.
Proof. intros Hb Hn. by apply load_inv. Qed.

Section ParseProps.
Variable ca cv cl1 cl2 : bool.
Variable b : list Z.
Hypothesis Hb : bytes_ok b.

Lemma vf_mac_made nla v v' : vf_made v -> vf_mac ca b nla v = Done (inr v') -> vf_made v'.
Proof.
  intros Hv Hr. unfold vf_mac in Hr. apply bind_inv in Hr as (i & _ & Hr). apply bind_inv in Hr as (mac & Hm & Hr).
  apply (bytes_read _ _ _ _ Hb) in Hm as [Hmb Hmz]; [|lia].
  unfold nl_addr_build, nl_addr_alloc in Hr. destruct ca; cbn [negb] in Hr; [|done].
  rewrite load_done in Hr by lia. rewrite <- Hmz, sub_all, Hmz in Hr. revert Hr. exec_simpl. intros [= <-].
  assert (sub mac 0 6 = mac) as Hs by (by rewrite <- Hmz, sub_all).
  split; cbn [fill_attr ce_data vf_lladdr vf_vlans]; [|intros _; by eexists|apply Hv].
  intros a [= <-]. split; [|done]. unfold addr_ok, addr_wf, addr_bytes, nl_addr_set_family. simpl.
  rewrite u32_id by lia. rewrite Hs. split_and!; (done || lia).
Qed.

Lemma read_vlans_length l x : read_vlans b l = Done x -> length x = length l.
Proof.
  revert x. induction l as [|vi l IH]; intros x; cbn [read_vlans]; [by intros [= <-]|].
  intros (y & _ & Hr)%bind_inv. apply bind_inv in Hr as (k & Hk & Hr). injection Hr as <-. simpl. by rewrite (IH k).
Qed.

Lemma vlan_info_made l o o' :
  vlans_opt_ok o -> rtnl_link_vf_vlan_info cl1 cl2 b l o = Done (inr o') -> vlans_opt_ok o'.
Proof.
  intros Ho. unfold rtnl_link_vf_vlan_info. destruct (zlen l <=? 0); [by intros [= <-]|].
  unfold rtnl_link_vf_vlan_alloc. destruct (MAX_VLAN_LIST_LEN <? zlen l); [done|].
  destruct cl1; [|done]. destruct cl2; [|done]. cbn [negb]. intros (x & Hx & Hr)%bind_inv. injection Hr as <-.
  pose proof (zlen_nonneg l). split; cbn [v_size v_vlans]; [lia|]. apply read_vlans_length in Hx.
  unfold zlen in *. rewrite length_app, length_drop, repeat_length, Hx. lia.
Qed.

Lemma parse_vlans_made t v o v' o' :
  vf_made v -> vlans_opt_ok o -> parse_vlans cl1 cl2 b t (v, o) = Done (inr (v', o')) -> vf_made v' /\ vlans_opt_ok o'.
Proof.
  intros Hv Ho.
  assert (forall x, vlans_opt_ok x -> vf_made (fill_vlans v x).1 /\ vlans_opt_ok (fill_vlans v x).2) as Hfill.
  { intros x Hx. split; [|done]. split; cbn [fill_vlans fst fill_attr ce_data vf_lladdr vf_vlans]; [apply Hv| |done].
    intros H. apply Hv. by rewrite has_fill_other in H. }
  unfold parse_vlans. cbn [fst snd]. intros (many & _ & Hr)%bind_inv. destruct many as [nla|].
  - apply bind_inv in Hr as (l & _ & Hr). apply run_or_inv in Hr as (x & Hx & Hr). apply vlan_info_made in Hx; [|done].
    destruct (Hfill x Hx). by injection Hr as <- <-.
  - apply bind_inv in Hr as (one & _ & Hr). destruct one as [nla|]; [|by injection Hr as <- <-].
    apply bind_inv in Hr as (vlan & _ & Hr). destruct (vlan =? 0); [by injection Hr as <- <-|].
    unfold rtnl_link_vf_vlan_alloc in Hr. change (MAX_VLAN_LIST_LEN <? 1) with false in Hr.
    destruct cl1; [|done]. destruct cl2; [|done]. cbn [negb] in Hr. apply bind_inv in Hr as (qos & _ & Hr).
    match type of Hr with ok (fill_vlans v ?x) = _ => destruct (Hfill x); [by split|] end. by injection Hr as <- <-.
Qed.

Lemma vf_number_made off attr (set : Z -> rtnl_link_vf -> rtnl_link_vf) nla v v' :
  vf_made v -> Z.land attr SRIOV_ATTR_ADDR = 0 -> (forall x d, vf_lladdr (set x d) = vf_lladdr d) ->
  (forall x d, vf_vlans (set x d) = vf_vlans d) -> vf_number b off attr set nla v = Done v' -> vf_made v'.
Proof.
  intros Hv Ha H1 H2. unfold vf_number. intros (x & _ & Hr)%bind_inv. injection Hr as <-. destruct (x =? 0); [done|].
  by apply vf_fill_made.
Qed.
Lemma vf_switch_made attr (set : Z -> rtnl_link_vf -> rtnl_link_vf) nla v v' :
  vf_made v -> Z.land attr SRIOV_ATTR_ADDR = 0 -> (forall x d, vf_lladdr (set x d) = vf_lladdr d) ->
  (forall x d, vf_vlans (set x d) = vf_vlans d) -> vf_switch b attr set nla v = Done v' -> vf_made v'.
Proof.
  intros Hv Ha H1 H2. unfold vf_switch. intros (x & _ & Hr)%bind_inv. injection Hr as <-. destruct (x =? _); [done|].
  by apply vf_fill_made.
Qed.

(** Statistics never get past the index they are parsed into. *)
Lemma vf_stats_fault nla v : vf_parse_stats b nla v = Fault.
Proof. done. Qed.

Lemma vf_0_made : vf_made (Body 0 vf_0).
Proof. split; [intros a H; discriminate H|intros H; discriminate H|exact I]. Qed.
Ltac number_step := let Hx := fresh in let Hy := fresh in
  intros ? ? ? Hx Hy; eapply vf_number_made; [exact Hx| | | |exact Hy]; done.
Ltac switch_step := let Hx := fresh in let Hy := fresh in
  intros ? ? ? Hx Hy; eapply vf_switch_made; [exact Hx| | | |exact Hy]; done.

Lemma parse_vf_made o nla v o' :
  vlans_opt_ok o -> parse_vf ca cv cl1 cl2 b o nla = Done (inr (v, o')) -> vf_made v /\ vlans_opt_ok o'.
Proof.
  intros Ho. unfold parse_vf. intros (len & _ & Hr)%bind_inv. apply bind_inv in Hr as ([e t] & _ & Hr).
  destruct (e <? 0); [done|]. unfold rtnl_link_vf_alloc in Hr. destruct cv; [|done].
  apply run_or_inv in Hr as (v1 & H1 & Hr).
  assert (vf_made v1) as Hv1.
  { eapply (if_attr_or_keeps vf_made); [|apply vf_0_made|exact H1]. intros nla' v0 v0' Hv0. by apply vf_mac_made. }
  apply run_or_inv in Hr as ([v2 o2] & H2 & Hr). destruct (parse_vlans_made _ _ _ _ _ Hv1 Ho H2) as [Hv2 Ho2].
  apply bind_inv in Hr as (v3 & H3 & Hr). apply if_attr_keeps with (P := vf_made) in H3; [|number_step|done].
  apply bind_inv in Hr as (v4 & H4 & Hr). apply if_attr_keeps with (P := vf_made) in H4; [|switch_step|done].
  apply bind_inv in Hr as (v5 & H5 & Hr). apply if_attr_keeps with (P := vf_made) in H5; [| |done].
  2: { intros nla' x x' Hx. intros (s & _ & Hs)%bind_inv. injection Hs as <-. by apply vf_fill_made. }
  apply bind_inv in Hr as (v6 & H6 & Hr). apply if_attr_keeps with (P := vf_made) in H6; [| |done].
  2: { intros nla' x x' Hx. intros (y & Hy & Hs)%bind_inv.
    eapply (vf_number_made 4); [| | | |exact Hs]; [|done..]. eapply (vf_number_made 8); [exact Hx| | | |exact Hy]; done. }
  apply bind_inv in Hr as (v7 & H7 & Hr). apply if_attr_keeps with (P := vf_made) in H7; [|switch_step|done].
  apply run_or_inv in Hr as (v8 & H8 & Hr).
  apply if_attr_or_keeps with (P := vf_made) in H8; [| |done].
  2: { intros nla' x x' _ Hx. by rewrite vf_stats_fault in Hx. }
  apply bind_inv in Hr as (v9 & H9 & Hr). apply if_attr_keeps with (P := vf_made) in H9; [|switch_step|done].
  by injection Hr as <- <-.
Qed.
End ParseProps.

Lemma ends_addr_build c family buf n : ends (nl_addr_build c family buf n).
Proof. unfold nl_addr_build. ends_steps. Qed.
Lemma ends_for_each_nested {S R} b (body : S -> Z -> exec (S + R)) nla st :
  bytes_ok b -> (forall st nla, ends (body st nla)) -> ends (nla_for_each_nested b body nla st).
Proof. intros Hb Hbody. apply ends_bind; [apply ends_nla_len|]. intros len. apply ends_attr_loop; [done..|lia]. Qed.

Section ParseEnds.
Variable b : list Z.
Hypothesis Hb : bytes_ok b.

Lemma ends_read_vlans l : ends (read_vlans b l).
Proof. induction l as [|vi l IH]; [done|]. cbn [read_vlans]. unfold read_vlan. ends_steps. Qed.
Lemma ends_parse_vlans cl1 cl2 t s : ends (parse_vlans cl1 cl2 b t s).
Proof.
  unfold parse_vlans, vlan_list, rtnl_link_vf_vlan_info. ends_steps;
    first [apply ends_read_vlans|apply ends_for_each_nested; [done|]; intros; ends_steps].
Qed.
Lemma ends_vf_switch attr set nla v : ends (vf_switch b attr set nla v).
Proof. unfold vf_switch. ends_steps. Qed.
Lemma ends_vf_number off attr set nla v : ends (vf_number b off attr set nla v).
Proof. unfold vf_number. ends_steps. Qed.
Lemma ends_parse_vf ca cv cl1 cl2 o nla : ends (parse_vf ca cv cl1 cl2 b o nla).
Proof.
  unfold parse_vf. ends_steps;
    first [ by apply ends_nla_parse
          | apply ends_if_attr_or; intros ? _; unfold vf_mac; ends_steps; by apply ends_addr_build
          | apply ends_parse_vlans
          | apply ends_if_attr; intros ?; first [apply ends_vf_number|apply ends_vf_switch]
          | apply ends_if_attr; intros ?; ends_steps; apply ends_vf_number
          | apply ends_if_attr_or; intros ? _; by rewrite vf_stats_fault ].
Qed.
Lemma ends_parse_vflist ca cv cl1 cl2 ch nla : ends (rtnl_link_sriov_parse_vflist ca cv cl1 cl2 b ch nla).
Proof.
  unfold rtnl_link_sriov_parse_vflist. destruct ch; [|done]. cbn [negb].
  apply ends_bind; [|intros [[? ?]|[? ?]]; done].
  apply ends_for_each_nested; [done|]. intros [l vlans] nla'. apply ends_bind; [apply ends_parse_vf|].
  by intros [e|[v o]].
Qed.
End ParseEnds.

(** ** What modelling showed *)

Definition ex_room : nl_msg := {| nm_protocol := 0; nm_flags := 0; nm_src := sockaddr_0; nm_dst := sockaddr_0;
  nm_creds := ucred_0; nm_nlh := le_encode 4 16 ++ zeros 252; nm_size := 256; nm_refcnt := 1 |}.

(** A list of functions as the kernel sends it, in a buffer. *)
Definition vflist_bytes (l : list (list (Z * list Z))) : list Z :=
  attr_bytes (IFLA_VFINFO_LIST, flat_map (fun x => attr_bytes (IFLA_VF_INFO, attrs_bytes x)) l).
Definition parse_example (l : list (list (Z * list Z))) :=
  rtnl_link_sriov_parse_vflist true true true true (vflist_bytes l) true 0.
Definition mac_attr (i : Z) : Z * list Z := (IFLA_VF_MAC, le_encode 4 i ++ [2; 0; 0; 0; 0; i] ++ zeros 26).

(** Numbers and addresses are read. *)
Lemma vf_parsed :
  match parse_example [[mac_attr 0]; [mac_attr 1; (IFLA_VF_TX_RATE, le_encode 4 1 ++ le_encode 4 100)]] with
  | Done (0, Some [a; b]) =>
      rtnl_link_vf_get_index (Some a) = inr 0 /\ rtnl_link_vf_get_index (Some b) = inr 1 /\
      rtnl_link_vf_get_rate (Some b) =
        inr {| rate_api := 1; rate_rate := 100; rate_max_tx_rate := 0; rate_min_tx_rate := 0 |}
  | _ => False
  end.
Proof. vm_compute. by repeat split. Qed.

(** The index for statistics is too small: the parser clears nine entries of six. *)
Lemma stats_overflow : parse_example [[mac_attr 0; (IFLA_VF_STATS, [])]] = Fault.
Proof. by vm_compute. Qed.
(** What would be set then is the bit of another attribute. *)
Lemma stats_bit_wrong : IFLA_VF_STATS = SRIOV_ATTR_TX_RATE /\ IFLA_VF_STATS <> SRIOV_ATTR_STATS.
Proof. done. Qed.

(** An empty list of VLANs leaves the function with VLANs that are not there;
    putting it into a message reads through the null pointer. *)
Lemma empty_vlan_list :
  match parse_example [[mac_attr 0; (IFLA_VF_VLAN_LIST, [])]] with
  | Done (0, Some [v]) => rtnl_link_vf_get_vlans (Some v) = inr None /\
      sriov_fill_vfinfo [0; 0] [0; 0; 0; 0] v ex_room = Fault
  | _ => False
  end.
Proof. vm_compute. by split. Qed.

(** The protocol of a VLAN is sent in the byte order of the host and read in that
    of the network. *)
Definition ad_vlans : nl_vf_vlans :=
  {| v_size := 1; v_vlans := [{| vf_vlan := 5; vf_vlan_qos := 0; vf_vlan_proto := ETH_P_8021AD |}; vlan_info_0] |}.
Lemma vlan_proto_swapped :
  let v := default (Body 0 vf_0) (rtnl_link_vf_set_vlans (Some (rtnl_link_vf_set_index (Body 0 vf_0) 3)) (Some ad_vlans)) in
  match ('(_, m) ← put_vf_vlans [0; 0] v ex_room; read_vlan (nm_nlh m) (16 + 4 + 4)) with
  | Done x => vf_vlan x = 5 /\ vf_vlan_proto x <> ETH_P_8021AD
  | _ => False
  end.
Proof. vm_compute. by split. Qed.

(** An address of more than 32 bytes is copied behind the array. *)
Lemma long_mac_overflow :
  let v := rtnl_link_vf_set_addr (rtnl_link_vf_set_index (Body 0 vf_0) 3) (ex_addr AF_LLC (zeros 33) 264) in
  sriov_fill_vfinfo [0; 0] [0; 0; 0; 0] v ex_room = Fault.
Proof. by vm_compute. Qed.

(** A GUID is read. *)
Lemma guid_read : rtnl_link_vf_str2guid (str "00:11:22:33:44:55:66:77") = inr 4822678189205111 /\
  rtnl_link_vf_str2guid (str "00:11:22:33:44:55:66:7g") = inl (-1).
Proof. by vm_compute. Qed.
