(* ===== verification/LinkApi.v ===== *)
(** What kinds of links and address families add to links
    (lib/route/link/api.c, include/netlink-private/route/link/api.h): the
    structure of a link, the tables of functions of a kind and of a family, and
    the registries they are looked up in, with their counts of references.

    The data of a kind ([I]) and of a family ([A]) are values.  A table is at an
    address, which is what a link remembers of it. *)
From S2P Require Import Prelude Errors Msg Attr Data Addr Object ObjAttr Build StepMsg Sriov.

(** ** Links *)

(** AF_MAX of the C library. *)
Definition AF_MAX := 46.
Definition RTNL_LINK_STATS_MAX := 63.

(** Memory that is reached through a pointer and may have been freed. *)
Inductive link_string := NoString | Freed | Kind (s : list Z).

(** struct rtnl_link.  [l_info_ops], [l_af_ops]: addresses of tables, 0 for none.
    [l_map]: the bytes of the structure; [l_stats], [l_af_data]: the arrays. *)
#[local] Set Implicit Arguments.
Record rtnl_link (I A : Type) := {
  l_name : list Z;
  l_family : Z;
  l_arptype : Z;
  l_index : Z;
  l_flags : Z;
  l_change : Z;
  l_mtu : Z;
  l_link : Z;
  l_link_netnsid : Z;
  l_txqlen : Z;
  l_weight : Z;
  l_master : Z;
  l_addr : option nl_addr;
  l_bcast : option nl_addr;
  l_qdisc : list Z;
  l_map : list Z;
  l_stats : list Z;
  l_flag_mask : Z;
  l_num_vf : Z;
  l_operstate : Z;
  l_linkmode : Z;
  l_info_kind : link_string;
  l_info_slave_kind : option (list Z);
  l_info_ops : Z;
  l_af_data : list (option A);
  l_info : option I;
  l_ifalias : option (list Z);
  l_promiscuity : Z;
  l_num_tx_queues : Z;
  l_num_rx_queues : Z;
  l_gso_max_segs : Z;
  l_gso_max_size : Z;
  l_group : Z;
  l_carrier : Z;
  l_carrier_changes : Z;
  l_af_ops : Z;
  l_phys_port_id : option nl_data;
  l_phys_port_name : list Z;
  l_phys_switch_id : option nl_data;
  l_ns_fd : Z;
  l_ns_pid : Z;
  l_vf_list : vf_list
}.
#[local] Unset Implicit Arguments.
#[export] Instance eta_link {I A} : Eta (rtnl_link I A) := fun r =>
  {| l_name := l_name r; l_family := l_family r; l_arptype := l_arptype r; l_index := l_index r;
     l_flags := l_flags r; l_change := l_change r; l_mtu := l_mtu r; l_link := l_link r;
     l_link_netnsid := l_link_netnsid r; l_txqlen := l_txqlen r; l_weight := l_weight r;
     l_master := l_master r; l_addr := l_addr r; l_bcast := l_bcast r; l_qdisc := l_qdisc r;
     l_map := l_map r; l_stats := l_stats r; l_flag_mask := l_flag_mask r; l_num_vf := l_num_vf r;
     l_operstate := l_operstate r; l_linkmode := l_linkmode r; l_info_kind := l_info_kind r;
     l_info_slave_kind := l_info_slave_kind r; l_info_ops := l_info_ops r; l_af_data := l_af_data r;
     l_info := l_info r; l_ifalias := l_ifalias r; l_promiscuity := l_promiscuity r;
     l_num_tx_queues := l_num_tx_queues r; l_num_rx_queues := l_num_rx_queues r;
     l_gso_max_segs := l_gso_max_segs r; l_gso_max_size := l_gso_max_size r; l_group := l_group r;
     l_carrier := l_carrier r; l_carrier_changes := l_carrier_changes r; l_af_ops := l_af_ops r;
     l_phys_port_id := l_phys_port_id r; l_phys_port_name := l_phys_port_name r;
     l_phys_switch_id := l_phys_switch_id r; l_ns_fd := l_ns_fd r; l_ns_pid := l_ns_pid r;
     l_vf_list := l_vf_list r |}.

Definition link_0 {I A} : rtnl_link I A :=
  {| l_name := []; l_family := 0; l_arptype := 0; l_index := 0; l_flags := 0; l_change := 0;
     l_mtu := 0; l_link := 0; l_link_netnsid := 0; l_txqlen := 0; l_weight := 0; l_master := 0;
     l_addr := None; l_bcast := None; l_qdisc := []; l_map := zeros 32;
     l_stats := zeros (RTNL_LINK_STATS_MAX + 1); l_flag_mask := 0; l_num_vf := 0; l_operstate := 0;
     l_linkmode := 0; l_info_kind := NoString; l_info_slave_kind := None; l_info_ops := 0;
     l_af_data := repeat None (Z.to_nat AF_MAX); l_info := None; l_ifalias := None;
     l_promiscuity := 0; l_num_tx_queues := 0; l_num_rx_queues := 0; l_gso_max_segs := 0;
     l_gso_max_size := 0; l_group := 0; l_carrier := 0; l_carrier_changes := 0; l_af_ops := 0;
     l_phys_port_id := None; l_phys_port_name := []; l_phys_switch_id := None; l_ns_fd := 0;
     l_ns_pid := 0; l_vf_list := None |}.

(** The link with other data of its kind. *)
Definition with_info {I A} (l : body (rtnl_link I A)) (x : option I) : body (rtnl_link I A) :=
  let d := ce_data l in Body (ce_mask l) (d <| l_info := x |>).

(** ** Tables of functions *)

Section Tables.
Context {I A : Type}.
Abbreviation link := (body (rtnl_link I A)).

(** struct rtnl_link_info_ops.  The parser gets the message and the offsets of the
    two attributes, 0 for the null pointer not being one of them.  A copy is made
    with [rtnl_link_set_type] of the link the copy is made into, which is handed to
    the function here. *)
Record rtnl_link_info_ops := {
  io_name : option (list Z);
  io_refcnt : Z;
  io_alloc : option (link -> Z * link);
  io_parse : option (list Z -> link -> option Z -> option Z -> exec (Z * link));
  io_clone : option ((link -> option (list Z) -> exec (Z * link)) -> link -> link -> exec (Z * link));
  io_put_attrs : option (link -> nl_msg -> step_msg);
  io_free : option (link -> link);
  io_compare : option (link -> link -> Z -> exec Z)
}.
#[export] Instance eta_info_ops : Eta rtnl_link_info_ops := fun o =>
  {| io_name := io_name o; io_refcnt := io_refcnt o; io_alloc := io_alloc o; io_parse := io_parse o;
     io_clone := io_clone o; io_put_attrs := io_put_attrs o; io_free := io_free o; io_compare := io_compare o |}.

(** struct rtnl_link_af_ops.  The parsers give back the link and the data they have
    been handed. *)
Record rtnl_link_af_ops := {
  ao_family : Z;
  ao_refcnt : Z;
  ao_protinfo_policy : option nla_policy;
  ao_alloc : option (link -> option A);
  ao_clone : option (link -> A -> option A);
  ao_free : option (link -> A -> link);
  ao_parse_protinfo : option (list Z -> link -> Z -> A -> exec (Z * link * A));
  ao_parse_af : option (list Z -> link -> Z -> A -> exec (Z * link * A));
  ao_fill_af : option (link -> A -> nl_msg -> step_msg);
  ao_compare : option (link -> link -> Z -> Z -> Z -> Z);
  ao_override_rtm : option (link -> Z);
  ao_fill_pi : option (link -> A -> nl_msg -> step_msg);
  ao_fill_pi_flags : Z;
  ao_fill_af_no_nest : Z
}.
#[export] Instance eta_af_ops : Eta rtnl_link_af_ops := fun o =>
  {| ao_family := ao_family o; ao_refcnt := ao_refcnt o; ao_protinfo_policy := ao_protinfo_policy o;
     ao_alloc := ao_alloc o; ao_clone := ao_clone o; ao_free := ao_free o;
     ao_parse_protinfo := ao_parse_protinfo o; ao_parse_af := ao_parse_af o; ao_fill_af := ao_fill_af o;
     ao_compare := ao_compare o; ao_override_rtm := ao_override_rtm o; ao_fill_pi := ao_fill_pi o;
     ao_fill_pi_flags := ao_fill_pi_flags o; ao_fill_af_no_nest := ao_fill_af_no_nest o |}.

(** ** The registries

    The tables at their addresses; [info_ops]: the list of the kinds; [af_ops]: the
    array, with 0 where nothing is registered. *)
Record link_reg := {
  r_infos : gmap Z rtnl_link_info_ops;
  r_afs : gmap Z rtnl_link_af_ops;
  info_ops : list Z;
  af_ops : list Z
}.
Definition link_reg_0 (infos : gmap Z rtnl_link_info_ops) (afs : gmap Z rtnl_link_af_ops) : link_reg :=
  {| r_infos := infos; r_afs := afs; info_ops := []; af_ops := zeros AF_MAX |}.

Definition get_info (g : link_reg) (a : Z) : exec rtnl_link_info_ops :=
  match r_infos g !! a with Some o => mret o | None => Fault end.
Definition set_info (g : link_reg) (a : Z) (o : rtnl_link_info_ops) : link_reg :=
  {| r_infos := <[a := o]> (r_infos g); r_afs := r_afs g; info_ops := info_ops g; af_ops := af_ops g |}.
Definition with_list (g : link_reg) (l : list Z) : link_reg :=
  {| r_infos := r_infos g; r_afs := r_afs g; info_ops := l; af_ops := af_ops g |}.
Definition get_af (g : link_reg) (a : Z) : exec rtnl_link_af_ops :=
  match r_afs g !! a with Some o => mret o | None => Fault end.
Definition set_af (g : link_reg) (a : Z) (o : rtnl_link_af_ops) : link_reg :=
  {| r_infos := r_infos g; r_afs := <[a := o]> (r_afs g); info_ops := info_ops g; af_ops := af_ops g |}.
Definition with_array (g : link_reg) (l : list Z) : link_reg :=
  {| r_infos := r_infos g; r_afs := r_afs g; info_ops := info_ops g; af_ops := l |}.

(** *** Kinds *)

Fixpoint find_info (g : link_reg) (l : list Z) (name : list Z) : exec Z :=
  match l with
  | [] => mret 0
  | a :: l =>
      ops ← get_info g a;
      match io_name ops with
      | None => Fault
      | Some n => if bool_decide (n = name) then mret a else find_info g l name
      end
  end.
Definition __rtnl_link_info_ops_lookup (g : link_reg) (name : list Z) : exec Z :=
  find_info g (info_ops g) name.

Definition info_ref (g : link_reg) (a d : Z) : exec link_reg :=
  ops ← get_info g a; mret (set_info g a (let n := s32 (io_refcnt ops + d) in ops <| io_refcnt := n |>)).
Definition rtnl_link_info_ops_lookup (g : link_reg) (name : list Z) : exec (Z * link_reg) :=
  a ← __rtnl_link_info_ops_lookup g name;
  if a =? 0 then mret (0, g) else g ← info_ref g a 1; mret (a, g).
Definition rtnl_link_info_ops_put (g : link_reg) (ops : Z) : exec link_reg :=
  if ops =? 0 then mret g else info_ref g ops (-1).

Definition rtnl_link_register_info (g : link_reg) (ops : Z) : exec (Z * link_reg) :=
  o ← get_info g ops;
  match io_name o with
  | None => mret (- NLE_INVAL, g)
  | Some name =>
      a ← __rtnl_link_info_ops_lookup g name;
      if negb (a =? 0) then mret (- NLE_EXIST, g)
      else mret (0, with_list g (info_ops g ++ [ops]))
  end.
(** The list without the first [a]. *)
Fixpoint remove_first (a : Z) (l : list Z) : list Z :=
  match l with [] => [] | x :: l => if x =? a then l else x :: remove_first a l end.
Definition rtnl_link_unregister_info (g : link_reg) (ops : Z) : exec (Z * link_reg) :=
  if bool_decide (ops ∈ info_ops g) then
    t ← get_info g ops;
    if 0 <? io_refcnt t then mret (- NLE_BUSY, g)
    else mret (0, with_list g (remove_first ops (info_ops g)))
  else mret (- NLE_OPNOTSUPP, g).

(** *** Address families *)

(** [af_ops[family]]. *)
Definition af_slot (g : link_reg) (family : Z) : exec Z :=
  match (if 0 <=? family then af_ops g !! Z.to_nat family else None) with Some a => mret a | None => Fault end.
Definition af_out_of_range (family : Z) : bool := (family =? AF_UNSPEC) || (AF_MAX <=? family).
Definition af_ref (g : link_reg) (a d : Z) : exec link_reg :=
  ops ← get_af g a; mret (set_af g a (let n := s32 (ao_refcnt ops + d) in ops <| ao_refcnt := n |>)).

Definition rtnl_link_af_ops_lookup (g : link_reg) (family : Z) : exec (Z * link_reg) :=
  let family := u32 family in
  if af_out_of_range family then mret (0, g)
  else
    a ← af_slot g family;
    if a =? 0 then mret (0, g) else g ← af_ref g a 1; mret (a, g).
Definition rtnl_link_af_ops_put (g : link_reg) (ops : Z) : exec link_reg :=
  if ops =? 0 then mret g else af_ref g ops (-1).

(** [link->l_af_data[family]]. *)
Definition af_data (l : link) (family : Z) : exec (option A) :=
  match (if 0 <=? family then l_af_data (ce_data l) !! Z.to_nat family else None) with
  | Some x => mret x
  | None => Fault
  end.
Definition set_af_data (l : link) (family : Z) (x : option A) : link :=
  let d := ce_data l in
  Body (ce_mask l) (d <| l_af_data := <[Z.to_nat family := x]> (l_af_data d) |>).

(** Whether there are data then, and the link. *)
Definition rtnl_link_af_alloc (l : link) (ops : rtnl_link_af_ops) : exec (option A * link) :=
  x ← af_data l (ao_family ops);
  match x with
  | Some x => mret (Some x, l)
  | None =>
      match ao_alloc ops with
      | None => Bug
      | Some alloc => let x := alloc l in mret (x, set_af_data l (ao_family ops) x)
      end
  end.
Definition rtnl_link_af_data (l : link) (ops : rtnl_link_af_ops) : exec (option A) :=
  af_data l (ao_family ops).

Definition rtnl_link_af_register (g : link_reg) (ops : Z) : exec (Z * link_reg) :=
  o ← get_af g ops;
  if af_out_of_range (ao_family o) then mret (- NLE_INVAL, g)
  else
    a ← af_slot g (ao_family o);
    if negb (a =? 0) then mret (- NLE_EXIST, g)
    else
      let g := set_af g ops (o <| ao_refcnt := 0 |>) in
      mret (0, with_array g (<[Z.to_nat (ao_family o) := ops]> (af_ops g))).
(** [ops]: 0 for the null pointer. *)
Definition rtnl_link_af_unregister (g : link_reg) (ops : Z) : exec (Z * link_reg) :=
  if ops =? 0 then mret (- NLE_INVAL, g)
  else
    o ← get_af g ops;
    a ← af_slot g (ao_family o);
    if a =? 0 then mret (- NLE_OBJ_NOTFOUND, g)
    else if 0 <? ao_refcnt o then mret (- NLE_BUSY, g)
    else mret (0, with_array g (<[Z.to_nat (ao_family o) := 0]> (af_ops g))).

(** *** Comparing what kinds and families added

    The reference a comparison takes it gives back, so the registry is the same
    afterwards. *)
Definition rtnl_link_af_data_compare (g : link_reg) (a b : link) (family : Z) : exec Z :=
  x ← af_data a family;
  y ← af_data b family;
  match x, y with
  | None, None => mret 0
  | Some _, Some _ =>
      '(ops, g) ← rtnl_link_af_ops_lookup g family;
      if ops =? 0 then mret (-1)
      else
        o ← get_af g ops;
        _ ← rtnl_link_af_ops_put g ops;
        mret (match ao_compare o with None => -1 | Some compare => compare a b family UINT32_MAX 0 end)
  | _, _ => mret (-1)
  end.
Definition rtnl_link_info_data_compare (g : link_reg) (a b : link) (flags : Z) : exec Z :=
  let p := l_info_ops (ce_data a) in
  if negb (p =? l_info_ops (ce_data b)) then mret (-1)
  else if p =? 0 then mret 0
  else
    o ← get_info g p;
    match io_compare o with None => mret 0 | Some compare => compare a b flags end.
End Tables.
Arguments rtnl_link_info_ops I A : clear implicits.
Arguments rtnl_link_af_ops I A : clear implicits.
Arguments link_reg I A : clear implicits.
