(* ===== verification/LinkReg.v ===== *)
(** The registries of kinds of links and of address families in use
    (lib/route/link/api.c): what modules and links do with them as a step relation,
    and that a table that is in use stays registered. *)
From S2P Require Import Prelude Errors Addr Object LinkApi.

(** ** Users of the registries

    Modules register the tables of kinds and families and take them away again;
    links look them up, which takes a reference, and give the reference back.
    [u_info], [u_af]: the references that are out, by table. *)
Section Users.
Context {I A : Type}.

Record users := Users { u_reg : link_reg I A; u_info : Z -> Z; u_af : Z -> Z }.

Inductive reg_call :=
  | RegisterInfo (a : Z) | UnregisterInfo (a : Z) | LookupInfo (name : list Z) | PutInfo (a : Z)
  | RegisterAf (a : Z) | UnregisterAf (a : Z) | LookupAf (family : Z) | PutAf (a : Z).

Definition count (f : Z -> Z) (a d : Z) : Z -> Z :=
  fun x => if (x =? a) && negb (a =? 0) then f x + d else f x.

Definition run_reg (w : users) (x : reg_call) : exec (Z * users) :=
  let g := u_reg w in
  match x with
  | RegisterInfo a => '(e, g) ← rtnl_link_register_info g a; mret (e, Users g (u_info w) (u_af w))
  | UnregisterInfo a => '(e, g) ← rtnl_link_unregister_info g a; mret (e, Users g (u_info w) (u_af w))
  | LookupInfo name => '(a, g) ← rtnl_link_info_ops_lookup g name; mret (a, Users g (count (u_info w) a 1) (u_af w))
  | PutInfo a => g ← rtnl_link_info_ops_put g a; mret (0, Users g (count (u_info w) a (-1)) (u_af w))
  | RegisterAf a => '(e, g) ← rtnl_link_af_register g a; mret (e, Users g (u_info w) (u_af w))
  | UnregisterAf a => '(e, g) ← rtnl_link_af_unregister g a; mret (e, Users g (u_info w) (u_af w))
  | LookupAf family => '(a, g) ← rtnl_link_af_ops_lookup g family; mret (a, Users g (u_info w) (count (u_af w) a 1))
  | PutAf a => g ← rtnl_link_af_ops_put g a; mret (0, Users g (u_info w) (count (u_af w) a (-1)))
  end.

(** The table of a kind, and that of a family which is in range. *)
Definition is_info (g : link_reg I A) (a : Z) : Prop := a <> 0 /\ is_Some (r_infos g !! a).
Definition is_af (g : link_reg I A) (a : Z) : Prop :=
  a <> 0 /\ exists o, r_afs g !! a = Some o /\ 0 < ao_family o < AF_MAX.
(** [family]: its table. *)
Definition af_at (g : link_reg I A) (family : Z) : Z := nth (Z.to_nat family) (af_ops g) 0.

(** What callers have to keep to: a reference is given back once, a family is taken
    away by the table that is registered for it, and fewer than 2^31 - 1 references
    are out. *)
Definition reg_call_ok (w : users) (x : reg_call) : Prop :=
  match x with
  | RegisterInfo a | UnregisterInfo a => is_info (u_reg w) a
  | LookupInfo _ => forall a, u_info w a < 2 ^ 31 - 1
  | PutInfo a => a <> 0 -> 0 < u_info w a
  | RegisterAf a => is_af (u_reg w) a
  | UnregisterAf a =>
      is_af (u_reg w) a /\
      forall o, r_afs (u_reg w) !! a = Some o -> af_at (u_reg w) (ao_family o) = 0 \/ af_at (u_reg w) (ao_family o) = a
  | LookupAf family => 0 <= family < 2 ^ 32 /\ forall a, u_af w a < 2 ^ 31 - 1
  | PutAf a => a <> 0 -> 0 < u_af w a
  end.
Inductive reg_step (w : users) : users -> Prop :=
  | RegStep x e w' : reg_call_ok w x -> run_reg w x = Done (e, w') -> reg_step w w'.

(** ** The invariant *)

Definition name_of (g : link_reg I A) (a : Z) : option (list Z) := r_infos g !! a ≫= io_name.
Record infos_ok (g : link_reg I A) (refs : Z -> Z) : Prop := {
  io_known a : a ∈ info_ops g -> a <> 0 /\ exists n, name_of g a = Some n;
  io_names : NoDup (name_of g <$> info_ops g);
  io_counts a o : r_infos g !! a = Some o -> io_refcnt o = refs a;
  io_refs a : 0 <= refs a < 2 ^ 31;
  io_in_use a : 0 < refs a -> a ∈ info_ops g
}.
Record afs_ok (g : link_reg I A) (refs : Z -> Z) : Prop := {
  as_size : zlen (af_ops g) = AF_MAX;
  as_known f : 0 <= f < AF_MAX -> af_at g f <> 0 ->
    exists o, r_afs g !! af_at g f = Some o /\ ao_family o = f;
  as_unspec : af_at g 0 = 0;
  as_counts a o : r_afs g !! a = Some o -> ao_refcnt o = refs a;
  as_refs a : 0 <= refs a < 2 ^ 31;
  as_in_use a : 0 < refs a -> a <> 0 /\ exists o, r_afs g !! a = Some o /\ 0 < ao_family o < AF_MAX /\ af_at g (ao_family o) = a
}.

Definition users_ok (w : users) : Prop := infos_ok (u_reg w) (u_info w) /\ afs_ok (u_reg w) (u_af w).

Lemma find_info_done g refs l name :
  infos_ok g refs -> (forall a, a ∈ l -> a ∈ info_ops g) ->
  exists a, find_info g l name = Done a /\
    ((a = 0 /\ Some name ∉ (name_of g <$> l)) \/ (a ∈ l /\ name_of g a = Some name)).
Proof.
  intros Hi. induction l as [|a l IH]; intros Hl; [exists 0; split; [done|left; set_solver]|].
  destruct (io_known _ _ Hi a) as [_ [n Hn]]; [apply Hl; constructor|]. cbn [find_info]. unfold get_info, name_of in *.
  destruct (r_infos g !! a) as [o|] eqn:Eo; [|done]. simpl in Hn. exec_simpl. rewrite Hn. case_bool_decide as He.
  - exists a. split; [done|]. right. split; [constructor|]. by rewrite Eo, <- He.
  - destruct IH as (b & -> & Hb); [intros b Hb; apply Hl; by constructor|]. exists b. split; [done|]. destruct Hb as [[-> Hb]|[Hb Hbn]].
    + left. split; [done|]. rewrite fmap_cons, not_elem_of_cons, Eo. simpl. split; [congruence|done].
    + right. split; [by constructor|done].
Qed.

Lemma count_same f a d : a <> 0 -> count f a d a = f a + d.
Proof. intros Ha. unfold count. rewrite Z.eqb_refl. by apply Z.eqb_neq in Ha as ->. Qed.
Lemma count_other f a d x : x <> a -> count f a d x = f x.
Proof. intros Hx. unfold count. by apply Z.eqb_neq in Hx as ->. Qed.
Lemma count_null f d x : count f 0 d x = f x.
Proof. unfold count. simpl. by rewrite andb_false_r. Qed.

Lemma infos_ok_ext g refs refs' : (forall a, refs' a = refs a) -> infos_ok g refs -> infos_ok g refs'.
Proof. intros H [H1 H2 H3 H4 H5]. split; [done|done|..]; intros; rewrite ?H in *; eauto. Qed.
Lemma afs_ok_ext g refs refs' : (forall a, refs' a = refs a) -> afs_ok g refs -> afs_ok g refs'.
Proof. intros H [H1 H2 H3 H4 H5 H6]. split; [done|done|done|..]; intros; rewrite ?H in *; eauto. Qed.

(** Operations on one kind of table leave the other alone. *)
Lemma infos_ok_other g g' refs :
  r_infos g' = r_infos g -> info_ops g' = info_ops g -> infos_ok g refs -> infos_ok g' refs.
Proof. intros H1 H2 []. split; unfold name_of; rewrite ?H1, ?H2; done. Qed.
Lemma afs_ok_other g g' refs :
  r_afs g' = r_afs g -> af_ops g' = af_ops g -> afs_ok g refs -> afs_ok g' refs.
Proof. intros H1 H2 []. split; unfold af_at; rewrite ?H1, ?H2; done. Qed.

(** *** Kinds *)

Lemma info_ref_ok g refs a d :
  infos_ok g refs -> a ∈ info_ops g -> 0 <= refs a + d < 2 ^ 31 ->
  exists g', info_ref g a d = Done g' /\ infos_ok g' (count refs a d) /\
    r_afs g' = r_afs g /\ af_ops g' = af_ops g /\ info_ops g' = info_ops g /\ forall b, name_of g' b = name_of g b.
Proof.
  intros Hi Ha Hr. destruct (io_known _ _ Hi a Ha) as [Hz [n Hn]]. unfold name_of in Hn.
  destruct (r_infos g !! a) as [o|] eqn:Eo; [|done]. unfold info_ref, get_info. rewrite Eo. exec_simpl.
  rewrite (io_counts _ _ Hi _ _ Eo), s32_id by lia. eexists. split; [reflexivity|].
  set (o' := {| io_name := _ |}). assert (forall b, name_of (set_info g a o') b = name_of g b) as Hname.
  { intros b. unfold name_of, set_info. simpl. destruct (decide (b = a)) as [->|Hb].
    - by rewrite lookup_insert_eq, Eo.
    - by rewrite lookup_insert_ne. }
  split; [|done]. destruct Hi as [H1 H2 H3 H4 H5]. split; try done.
  - intros b Hb. setoid_rewrite Hname. by apply H1.
  - simpl. rewrite (list_fmap_ext _ (name_of g)); [done|]. intros; apply Hname.
  - intros b p Hb. simpl in Hb. destruct (decide (b = a)) as [->|Hne].
    + rewrite lookup_insert_eq in Hb. injection Hb as <-. by rewrite count_same.
    + rewrite lookup_insert_ne in Hb by done. rewrite count_other by done. by apply H3.
  - intros b. destruct (decide (b = a)) as [->|Hne]; [by rewrite count_same|by rewrite count_other].
  - intros b Hb. destruct (decide (b = a)) as [->|Hne]; [done|]. rewrite count_other in Hb by done. by apply H5.
Qed.

Lemma remove_first_in a l b : NoDup l -> b ∈ remove_first a l <-> b ∈ l /\ b <> a.
Proof.
  intros Hd. induction l as [|x l IH]; cbn [remove_first]; [set_solver|]. apply NoDup_cons in Hd as [Hx Hd].
  destruct (Z.eqb_spec x a) as [->|Hne]; [set_solver|]. rewrite elem_of_cons, IH by done. set_solver.
Qed.
Lemma remove_first_sub a l : sublist (remove_first a l) l.
Proof.
  induction l as [|x l IH]; cbn [remove_first]; [done|]. destruct (x =? a); [by apply sublist_cons|by apply sublist_skip].
Qed.

Lemma register_info_ok g refs a :
  infos_ok g refs -> is_info g a ->
  exists e g', rtnl_link_register_info g a = Done (e, g') /\ infos_ok g' refs /\ r_afs g' = r_afs g /\ af_ops g' = af_ops g.
Proof.
  intros Hi [Hz [o Ho]]. unfold rtnl_link_register_info, get_info. rewrite Ho. exec_simpl.
  destruct (io_name o) as [n|] eqn:En; [|by eauto 6].
  destruct (find_info_done _ _ (info_ops g) n Hi) as (b & Hb & Hc); [done|]. unfold __rtnl_link_info_ops_lookup. rewrite Hb.
  exec_simpl. destruct (Z.eqb_spec b 0) as [->|Hbz]; cbn [negb]; [|by eauto 6].
  do 2 eexists. split; [reflexivity|]. split; [|done].
  destruct Hc as [[_ Hc]|[Hc _]]; [|by destruct (io_known _ _ Hi _ Hc)].
  assert (name_of g a = Some n) as Hna by (unfold name_of; by rewrite Ho).
  destruct Hi as [H1 H2 H3 H4 H5]. split; try done; simpl.
  - intros c Hin. apply elem_of_app in Hin as [Hin|Hin]; [by apply H1|]. apply list_elem_of_singleton in Hin as ->. by eauto.
  - change (name_of (with_list g (info_ops g ++ [a]))) with (name_of g). rewrite fmap_app. apply NoDup_app. simpl.
    split; [done|]. split; [|apply NoDup_singleton]. intros x Hx Hin. apply list_elem_of_singleton in Hin as ->.
    by rewrite Hna in Hx.
  - intros c Hin. apply elem_of_app. left. by apply H5.
Qed.

Lemma unregister_info_ok g refs a :
  infos_ok g refs -> is_info g a ->
  exists e g', rtnl_link_unregister_info g a = Done (e, g') /\ infos_ok g' refs /\ r_afs g' = r_afs g /\ af_ops g' = af_ops g.
Proof.
  intros Hi [Hz [o Ho]]. unfold rtnl_link_unregister_info, get_info. case_bool_decide as Hin; [|by eauto 6].
  rewrite Ho. exec_simpl. pose proof (io_counts _ _ Hi _ _ Ho) as Hc. rewrite Hc. destruct (Z.ltb_spec 0 (refs a)); [by eauto 6|].
  do 2 eexists. split; [reflexivity|]. split; [|done].
  destruct Hi as [H1 H2 H3 H4 H5]. assert (NoDup (info_ops g)) as Hd by (eapply NoDup_fmap_1, H2).
  split; try done; simpl; unfold with_list; simpl.
  - intros b Hb. apply remove_first_in in Hb as [Hb _]; [|done]. by apply H1.
  - eapply sublist_NoDup; [exact H2|]. apply fmap_sublist, remove_first_sub.
  - intros b Hb. apply remove_first_in; [done|]. split; [by apply H5|]. intros ->. lia.
Qed.

Lemma lookup_info_ok g refs name :
  infos_ok g refs -> (forall a, refs a < 2 ^ 31 - 1) ->
  exists a g', rtnl_link_info_ops_lookup g name = Done (a, g') /\ infos_ok g' (count refs a 1) /\
    r_afs g' = r_afs g /\ af_ops g' = af_ops g.
Proof.
  intros Hi Hm. destruct (find_info_done _ _ (info_ops g) name Hi) as (a & Ha & Hc); [done|].
  unfold rtnl_link_info_ops_lookup, __rtnl_link_info_ops_lookup. rewrite Ha. exec_simpl.
  destruct (Z.eqb_spec a 0) as [->|Hz].
  - do 2 eexists. split; [reflexivity|]. split; [|done]. by apply (infos_ok_ext _ refs); [apply count_null|].
  - destruct Hc as [[? _]|[Hin Hn]]; [done|]. pose proof (io_refs _ _ Hi a). pose proof (Hm a).
    destruct (info_ref_ok g refs a 1) as (g' & -> & Hg & H1 & H2 & _); [done|done|lia|]. by eauto 7.
Qed.

Lemma put_info_ok g refs a :
  infos_ok g refs -> (a <> 0 -> 0 < refs a) ->
  exists g', rtnl_link_info_ops_put g a = Done g' /\ infos_ok g' (count refs a (-1)) /\
    r_afs g' = r_afs g /\ af_ops g' = af_ops g.
Proof.
  intros Hi Ha. unfold rtnl_link_info_ops_put. destruct (Z.eqb_spec a 0) as [->|Hz].
  - eexists. split; [reflexivity|]. split; [|done]. by apply (infos_ok_ext _ refs); [apply count_null|].
  - specialize (Ha Hz). pose proof (io_refs _ _ Hi a).
    destruct (info_ref_ok g refs a (-1)) as (g' & -> & Hg & H1 & H2 & _); [done|by apply Hi|lia|]. by eauto 6.
Qed.

(** *** Address families *)

Lemma af_slot_done g refs f : afs_ok g refs -> 0 <= f < AF_MAX -> af_slot g f = Done (af_at g f).
Proof.
  intros Ha Hf. unfold af_slot, af_at. rewrite (proj2 (Z.leb_le 0 f)) by lia.
  destruct (af_ops g !! Z.to_nat f) as [a|] eqn:E; [by rewrite (nth_lookup_Some _ _ _ _ E)|].
  apply lookup_ge_None in E. pose proof (as_size _ _ Ha) as Hs. unfold zlen in Hs. lia.
Qed.

Lemma af_at_insert g refs f a f' :
  afs_ok g refs -> 0 <= f < AF_MAX -> 0 <= f' ->
  af_at (with_array g (<[Z.to_nat f := a]> (af_ops g))) f' = if f' =? f then a else af_at g f'.
Proof.
  intros Ha Hf Hf'. pose proof (as_size _ _ Ha) as Hs. unfold zlen in Hs. unfold af_at, with_array. cbn [af_ops].
  rewrite !nth_lookup. destruct (Z.eqb_spec f' f) as [->|Hne].
  - by rewrite list_lookup_insert_eq by lia.
  - by rewrite list_lookup_insert_ne by lia.
Qed.

Lemma af_ref_ok g refs a d o :
  afs_ok g refs -> r_afs g !! a = Some o -> 0 < ao_family o < AF_MAX -> af_at g (ao_family o) = a -> a <> 0 ->
  0 <= refs a + d < 2 ^ 31 ->
  exists g', af_ref g a d = Done g' /\ afs_ok g' (count refs a d) /\ r_infos g' = r_infos g /\ info_ops g' = info_ops g.
Proof.
  intros Ha Ho Hf Hat Hz Hr. unfold af_ref, get_af. rewrite Ho. exec_simpl. rewrite (as_counts _ _ Ha _ _ Ho), s32_id by lia.
  eexists. split; [reflexivity|]. split; [|done]. set (o' := {| ao_family := _ |}).
  destruct Ha as [H1 H2 H3 H4 H5 H6]. split; try done.
  - intros f Hf'. change (af_at (set_af g a o') f) with (af_at g f). intros Hne.
    destruct (H2 f Hf' Hne) as (p & Hp & Hpf). unfold set_af. cbn [r_afs]. destruct (decide (af_at g f = a)) as [He|He].
    + rewrite He, lookup_insert_eq. exists o'. split; [done|]. rewrite He, Ho in Hp. by injection Hp as <-.
    + rewrite lookup_insert_ne by done. eauto.
  - intros b p. simpl. destruct (decide (b = a)) as [->|Hne].
    + rewrite lookup_insert_eq. intros [= <-]. by rewrite count_same.
    + rewrite lookup_insert_ne by done. intros Hb. rewrite count_other by done. by apply H4.
  - intros b. destruct (decide (b = a)) as [->|Hne]; [by rewrite count_same|by rewrite count_other].
  - intros b Hb. simpl. destruct (decide (b = a)) as [->|Hne].
    + rewrite lookup_insert_eq. split; [done|]. by exists o'.
    + rewrite lookup_insert_ne by done. rewrite count_other in Hb by done. by apply H6.
Qed.

Lemma in_range_false f : 0 < f < AF_MAX -> af_out_of_range f = false.
Proof. intros Hf. unfold af_out_of_range, AF_UNSPEC. apply orb_false_iff. split; [apply Z.eqb_neq|apply Z.leb_gt]; lia. Qed.

Lemma register_af_ok g refs a :
  afs_ok g refs -> is_af g a ->
  exists e g', rtnl_link_af_register g a = Done (e, g') /\ afs_ok g' refs /\ r_infos g' = r_infos g /\ info_ops g' = info_ops g.
Proof.
  intros Ha [Hz [o [Ho Hf]]]. unfold rtnl_link_af_register, get_af. rewrite Ho. exec_simpl.
  rewrite in_range_false by done. rewrite (af_slot_done _ _ _ Ha) by lia. exec_simpl.
  destruct (Z.eqb_spec (af_at g (ao_family o)) 0) as [Hat|Hat]; cbn [negb]; [|by eauto 7].
  do 2 eexists. split; [reflexivity|]. split; [|done].
  assert (refs a = 0) as Hr0.
  { destruct (Z.eqb_spec (refs a) 0) as [?|Hne]; [done|]. pose proof (as_refs _ _ Ha a).
    destruct (as_in_use _ _ Ha a) as (_ & p & Hp & _ & Hpa); [lia|]. congruence. }
  set (o' := {| ao_family := ao_family o |}).
  assert (forall f', 0 <= f' -> af_at (with_array (set_af g a o') (<[Z.to_nat (ao_family o) := a]> (af_ops g))) f' =
    if f' =? ao_family o then a else af_at g f') as Hat'.
  { intros f' Hf'. by apply (af_at_insert g refs); [|lia|]. }
  destruct Ha as [H1 H2 H3 H4 H5 H6]. split; try done.
  - simpl. unfold zlen. by rewrite length_insert.
  - intros f Hf'. rewrite Hat' by lia. unfold with_array, set_af. cbn [r_afs]. destruct (Z.eqb_spec f (ao_family o)) as [->|Hne].
    + intros _. rewrite lookup_insert_eq. by exists o'.
    + intros Hnz. destruct (H2 f Hf' Hnz) as (p & Hp & Hpf). rewrite lookup_insert_ne; [eauto|].
      intros He. rewrite <- He, Ho in Hp. congruence.
  - rewrite Hat' by lia. destruct (Z.eqb_spec 0 (ao_family o)); [lia|done].
  - intros b p. simpl. destruct (decide (b = a)) as [->|Hne].
    + rewrite lookup_insert_eq. by intros [= <-].
    + rewrite lookup_insert_ne by done. apply H4.
  - intros b Hb. destruct (H6 b Hb) as (Hbz & p & Hp & Hpf & Hpa). split; [done|]. exists p.
    assert (b <> a) by (intros ->; lia). split; [unfold with_array, set_af; cbn [r_afs]; by rewrite lookup_insert_ne|]. split; [done|].
    rewrite Hat' by lia. destruct (Z.eqb_spec (ao_family p) (ao_family o)) as [He|He]; [congruence|done].
Qed.

Lemma unregister_af_ok g refs a :
  afs_ok g refs -> is_af g a ->
  (forall o, r_afs g !! a = Some o -> af_at g (ao_family o) = 0 \/ af_at g (ao_family o) = a) ->
  exists e g', rtnl_link_af_unregister g a = Done (e, g') /\ afs_ok g' refs /\ r_infos g' = r_infos g /\ info_ops g' = info_ops g.
Proof.
  intros Ha [Hz [o [Ho Hf]]] Hown. specialize (Hown o Ho). unfold rtnl_link_af_unregister, get_af. apply Z.eqb_neq in Hz as Hz'.
  rewrite Hz', Ho. exec_simpl. rewrite (af_slot_done _ _ _ Ha) by lia. exec_simpl.
  destruct (Z.eqb_spec (af_at g (ao_family o)) 0) as [Hat|Hat]; [by eauto 7|].
  rewrite (as_counts _ _ Ha _ _ Ho). destruct (Z.ltb_spec 0 (refs a)) as [Hr|Hr]; [by eauto 7|].
  do 2 eexists. split; [reflexivity|]. split; [|done].
  pose proof (fun f' => af_at_insert g refs (ao_family o) 0 f' Ha) as Hat'. destruct Ha as [H1 H2 H3 H4 H5 H6].
  split; try done.
  - simpl. unfold zlen. by rewrite length_insert.
  - intros f Hf'. rewrite Hat' by lia. destruct (f =? ao_family o); [done|]. by apply H2.
  - rewrite Hat' by lia. by destruct (Z.eqb_spec 0 (ao_family o)).
  - intros b Hb. destruct (H6 b Hb) as (Hbz & p & Hp & Hpf & Hpa). split; [done|]. exists p. split; [done|]. split; [done|].
    rewrite Hat' by lia. destruct (Z.eqb_spec (ao_family p) (ao_family o)) as [He|He]; [|done].
    rewrite He in Hpa. destruct Hown as [?|Hown]; [done|]. assert (b = a) as -> by congruence. lia.
Qed.

Lemma lookup_af_ok g refs f :
  afs_ok g refs -> 0 <= f < 2 ^ 32 -> (forall a, refs a < 2 ^ 31 - 1) ->
  exists a g', rtnl_link_af_ops_lookup g f = Done (a, g') /\ afs_ok g' (count refs a 1) /\
    r_infos g' = r_infos g /\ info_ops g' = info_ops g.
Proof.
  intros Ha Hf Hm. unfold rtnl_link_af_ops_lookup. rewrite u32_id by lia.
  assert (afs_ok g (count refs 0 1)) as Hnull by (by apply (afs_ok_ext _ refs); [apply count_null|]).
  destruct (af_out_of_range f) eqn:Er; [by eauto 6|]. unfold af_out_of_range, AF_UNSPEC in Er. bool_hyps.
  rewrite (af_slot_done _ _ _ Ha) by lia. exec_simpl. destruct (Z.eqb_spec (af_at g f) 0) as [Hat|Hat]; [by eauto 6|].
  destruct (as_known _ _ Ha f) as (o & Ho & Hof); [lia|done|]. pose proof (as_refs _ _ Ha (af_at g f)) as Hr.
  pose proof (Hm (af_at g f)) as Hm'.
  destruct (af_ref_ok g refs (af_at g f) 1 o) as (g' & -> & Hg & H1 & H2); [done|done|lia|congruence|done|lia|].
  by eauto 7.
Qed.

Lemma put_af_ok g refs a :
  afs_ok g refs -> (a <> 0 -> 0 < refs a) ->
  exists g', rtnl_link_af_ops_put g a = Done g' /\ afs_ok g' (count refs a (-1)) /\
    r_infos g' = r_infos g /\ info_ops g' = info_ops g.
Proof.
  intros Ha Hr. unfold rtnl_link_af_ops_put. destruct (Z.eqb_spec a 0) as [->|Hz].
  - eexists. split; [reflexivity|]. split; [|done]. by apply (afs_ok_ext _ refs); [apply count_null|].
  - specialize (Hr Hz). pose proof (as_refs _ _ Ha a). destruct (as_in_use _ _ Ha a Hr) as (_ & o & Ho & Hof & Hat).
    destruct (af_ref_ok g refs a (-1) o) as (g' & -> & Hg & H1 & H2); [done..|lia|]. by eauto 6.
Qed.

(** *** All calls *)

Lemma reg_call_done w x :
  users_ok w -> reg_call_ok w x -> exists e w', run_reg w x = Done (e, w') /\ users_ok w'.
Proof.
  intros [Hi Ha] Hc. unfold run_reg, users_ok. destruct x; simpl in Hc; cbv zeta.
  - edestruct register_info_ok as (e & g & -> & Hg & H1 & H2); [done..|]. exec_simpl. do 2 eexists. split; [reflexivity|].
    split; [done|by apply (afs_ok_other (u_reg w))].
  - edestruct unregister_info_ok as (e & g & -> & Hg & H1 & H2); [done..|]. exec_simpl. do 2 eexists. split; [reflexivity|].
    split; [done|by apply (afs_ok_other (u_reg w))].
  - edestruct lookup_info_ok as (e & g & -> & Hg & H1 & H2); [done..|]. exec_simpl. do 2 eexists. split; [reflexivity|].
    split; [done|by apply (afs_ok_other (u_reg w))].
  - edestruct put_info_ok as (g & -> & Hg & H1 & H2); [done..|]. exec_simpl. do 2 eexists. split; [reflexivity|].
    split; [done|by apply (afs_ok_other (u_reg w))].
  - edestruct register_af_ok as (e & g & -> & Hg & H1 & H2); [done..|]. exec_simpl. do 2 eexists. split; [reflexivity|].
    split; [by apply (infos_ok_other (u_reg w))|done].
  - destruct Hc as [Hc Hown].
    edestruct unregister_af_ok as (e & g & -> & Hg & H1 & H2); [done..|]. exec_simpl. do 2 eexists. split; [reflexivity|].
    split; [by apply (infos_ok_other (u_reg w))|done].
  - destruct Hc as [Hf Hm]. edestruct lookup_af_ok as (e & g & -> & Hg & H1 & H2); [done..|]. exec_simpl. do 2 eexists.
    split; [reflexivity|]. split; [by apply (infos_ok_other (u_reg w))|done].
  - edestruct put_af_ok as (g & -> & Hg & H1 & H2); [done..|]. exec_simpl. do 2 eexists. split; [reflexivity|].
    split; [by apply (infos_ok_other (u_reg w))|done].
Qed.

Lemma reg_reachable w0 w : users_ok w0 -> rtc reg_step w0 w -> users_ok w.
Proof.
  intros H0 Hs. induction Hs as [|w1 w2 w3 [x e w2' Hc Hx] _ IH]; [done|]. apply IH.
  destruct (reg_call_done _ _ H0 Hc) as (e' & w4 & Hx' & H4). rewrite Hx in Hx'. by injection Hx' as _ <-.
Qed.

(** The start: nothing registered, all counts 0. *)
Definition users_0 (infos : gmap Z (rtnl_link_info_ops I A)) (afs : gmap Z (rtnl_link_af_ops I A)) : users :=
  Users (link_reg_0 infos afs) (fun _ => 0) (fun _ => 0).
Definition unused (infos : gmap Z (rtnl_link_info_ops I A)) (afs : gmap Z (rtnl_link_af_ops I A)) : Prop :=
  (forall a o, infos !! a = Some o -> io_refcnt o = 0) /\ (forall a o, afs !! a = Some o -> ao_refcnt o = 0).

Lemma users_0_ok infos afs : unused infos afs -> users_ok (users_0 infos afs).
Proof.
  intros [Hi Ha].
  assert (forall f, af_at (link_reg_0 infos afs) f = 0) as Hz.
  { intros f. unfold af_at. destruct (nth_in_or_default (Z.to_nat f) (zeros AF_MAX) 0) as [H|H]; [|done].
    apply list_elem_of_In, elem_of_replicate in H. apply H. }
  split; split; simpl; try done; try (intros; lia).
  - intros a Hin. by apply elem_of_nil in Hin.
  - apply NoDup_nil_2.
  - intros f _ Hne. by rewrite Hz in Hne.
Qed.

(** C19. The registries of kinds of links and of address families.  From the start,
    whatever users register, take away, look up and give back, every further call
    ends, the counts in the tables of both registries are the references that are
    out, and a table in use stays registered: it cannot be taken away, and the name
    of the kind, or the number of the family, finds it.  Users keep to
    [reg_call_ok]: a reference is given back once, fewer than 2^31 - 1 are out, and
    a family is taken away with the table that is registered for it (the library
    does not compare them). *)
Theorem registry_in_use infos afs w x :
  unused infos afs -> rtc reg_step (users_0 infos afs) w -> reg_call_ok w x ->
  (exists e w', run_reg w x = Done (e, w')) /\
  (forall a o, r_infos (u_reg w) !! a = Some o -> io_refcnt o = u_info w a) /\
  (forall a o, r_afs (u_reg w) !! a = Some o -> ao_refcnt o = u_af w a) /\
  (forall a, 0 < u_info w a ->
     rtnl_link_unregister_info (u_reg w) a = Done (- NLE_BUSY, u_reg w) /\
     exists n, name_of (u_reg w) a = Some n /\ __rtnl_link_info_ops_lookup (u_reg w) n = Done a) /\
  (forall a, 0 < u_af w a ->
     rtnl_link_af_unregister (u_reg w) a = Done (- NLE_BUSY, u_reg w) /\
     exists o, r_afs (u_reg w) !! a = Some o /\ af_slot (u_reg w) (ao_family o) = Done a).
Proof.
  intros Hun Hs Hc. pose proof (reg_reachable _ _ (users_0_ok _ _ Hun) Hs) as [Hi Ha].
  split; [|split; [exact (io_counts _ _ Hi)|split; [exact (as_counts _ _ Ha)|split]]].
  - destruct (reg_call_done w x) as (e & w' & H & _); [done..|by eauto].
  - intros a Hr. pose proof (io_in_use _ _ Hi a Hr) as Hin. destruct (io_known _ _ Hi a Hin) as [Hz [n Hn]]. split.
    + unfold rtnl_link_unregister_info, get_info. rewrite bool_decide_eq_true_2 by done. unfold name_of in Hn.
      destruct (r_infos (u_reg w) !! a) as [o|] eqn:Eo; [|done]. exec_simpl. rewrite (io_counts _ _ Hi _ _ Eo).
      by rewrite (proj2 (Z.ltb_lt 0 (u_info w a))).
    + exists n. split; [done|]. unfold __rtnl_link_info_ops_lookup.
      destruct (find_info_done _ _ (info_ops (u_reg w)) n Hi) as (b & -> & [[_ Hb]|[Hb Hbn]]); [done| |].
      * destruct Hb. rewrite <- Hn. by apply list_elem_of_fmap_2.
      * f_equal. apply list_elem_of_lookup in Hb as [i Hbi]. apply list_elem_of_lookup in Hin as [j Haj].
        assert (i = j) as ->; [|congruence].
        eapply (NoDup_lookup _ i j (Some n)); [apply (io_names _ _ Hi)|..]; rewrite list_lookup_fmap, ?Hbi, ?Haj; cbn; congruence.
  - intros a Hr. destruct (as_in_use _ _ Ha a Hr) as (Hz & o & Ho & Hf & Hat). split.
    + unfold rtnl_link_af_unregister, get_af. rewrite (proj2 (Z.eqb_neq a 0)), Ho by done. exec_simpl.
      rewrite (af_slot_done _ _ _ Ha) by lia. exec_simpl. rewrite Hat, (proj2 (Z.eqb_neq a 0)) by done.
      by rewrite (as_counts _ _ Ha _ _ Ho), (proj2 (Z.ltb_lt 0 (u_af w a))).
    + exists o. split; [done|]. rewrite (af_slot_done _ _ _ Ha) by lia. by rewrite Hat.
Qed.
End Users.

(** ** At concrete inputs *)

Module SampleReg.
Definition kind (name : list Z) : rtnl_link_info_ops unit unit :=
  {| io_name := Some name; io_refcnt := 0; io_alloc := None; io_parse := None; io_clone := None;
     io_put_attrs := None; io_free := None; io_compare := None |}.
Definition family (f : Z) : rtnl_link_af_ops unit unit :=
  {| ao_family := f; ao_refcnt := 0; ao_protinfo_policy := None; ao_alloc := None; ao_clone := None;
     ao_free := None; ao_parse_protinfo := None; ao_parse_af := None; ao_fill_af := None; ao_compare := None;
     ao_override_rtm := None; ao_fill_pi := None; ao_fill_pi_flags := 0; ao_fill_af_no_nest := 0 |}.
(** "vlan" and "vrf". *)
Definition vlan := [118; 108; 97; 110].
Definition infos : gmap Z (rtnl_link_info_ops unit unit) := {[ 1 := kind vlan; 2 := kind [118; 114; 102] ]}.
Definition afs : gmap Z (rtnl_link_af_ops unit unit) := {[ 3 := family 2; 4 := family 2; 5 := family 10 ]}.

Lemma tables_unused : unused infos afs.
Proof.
  split; intros a o H.
  - unfold infos in H. rewrite lookup_insert_Some, lookup_singleton_Some in H. by destruct H as [[_ <-]|[_ [_ <-]]].
  - unfold afs in H. rewrite !lookup_insert_Some, lookup_singleton_Some in H.
    by destruct H as [[_ <-]|[_ [[_ <-]|[_ [_ <-]]]]].
Qed.

Abbreviation state := (@users unit unit).
Definition after (w : state) (x : reg_call) : state := match run_reg w x with Done (_, w) => w | _ => w end.
Definition calls : list reg_call := [RegisterInfo 1; RegisterAf 3; RegisterInfo 2; LookupInfo vlan; LookupAf 2].
Fixpoint calls_ok (w : state) (l : list reg_call) : Prop :=
  match l with
  | [] => True
  | x :: l => reg_call_ok w x /\ (exists e, run_reg w x = Done (e, after w x)) /\ calls_ok (after w x) l
  end.
Lemma calls_steps l : forall w, calls_ok w l -> rtc reg_step w (foldl after w l).
Proof.
  induction l as [|x l IH]; intros w; [done|]. intros (Hx & [e He] & Hl). eapply rtc_l; [by econstructor|by apply IH].
Qed.
Lemma calls_fine : calls_ok (users_0 infos afs) calls.
Proof.
  unfold calls, calls_ok. repeat split; try (eexists; vm_compute; reflexivity); try done.
  eexists. split; [vm_compute; reflexivity|done].
Qed.
End SampleReg.

Lemma registry_in_use_witness :
  let w := foldl SampleReg.after (users_0 SampleReg.infos SampleReg.afs) SampleReg.calls in
  unused SampleReg.infos SampleReg.afs /\ rtc reg_step (users_0 SampleReg.infos SampleReg.afs) w /\
  reg_call_ok w (UnregisterInfo 1) /\ u_info w 1 = 1 /\ u_af w 3 = 1 /\
  rtnl_link_unregister_info (u_reg w) 1 = Done (- NLE_BUSY, u_reg w).
Proof.
  cbv zeta. pose proof (SampleReg.calls_steps _ _ SampleReg.calls_fine) as Hs.
  assert (reg_call_ok (foldl SampleReg.after (users_0 SampleReg.infos SampleReg.afs) SampleReg.calls) (UnregisterInfo 1)) as Hc
    by (split; [done|eexists; vm_compute; reflexivity]).
  split_and!; [exact SampleReg.tables_unused|exact Hs|exact Hc|by vm_compute|by vm_compute|].
  by apply (registry_in_use _ _ _ _ SampleReg.tables_unused Hs Hc).
Defined.

(** A table that was never registered takes away the one that is, in use as it
    is: only the family is looked at. *)
Lemma af_unregister_other :
  let w := foldl SampleReg.after (users_0 SampleReg.infos SampleReg.afs) SampleReg.calls in
  af_at (u_reg w) 2 = 3 /\ u_af w 3 = 1 /\
  exists g, rtnl_link_af_unregister (u_reg w) 4 = Done (0, g) /\ af_at g 2 = 0.
Proof. cbv zeta. split_and!; try (by vm_compute). eexists. split; [vm_compute; reflexivity|by vm_compute]. Qed.

(** Families from AF_MAX on are not in the array, and are not kept out of it: those
    of links that the kernel may name are compared outside it. *)
Lemma af_compare_out_of_range {I A} (g : link_reg I A) m n family :
  AF_MAX <= family -> rtnl_link_af_data_compare g (Body m link_0) (Body n link_0) family = Fault.
Proof.
  intros Hf. unfold rtnl_link_af_data_compare, af_data. rewrite (proj2 (Z.leb_le 0 family)) by (unfold AF_MAX in Hf; lia).
  cbn [ce_data l_af_data link_0]. rewrite lookup_ge_None_2; [done|]. rewrite repeat_length. unfold AF_MAX in *. lia.
Qed.
