(* ===== verification/Link.v ===== *)
(** Links (lib/route/link.c), as objects: members, copies, comparison and names.
    What a kind or a family adds is reached through its table in the registry [g]
    that is at hand; the references to the tables are followed in LinkReg, not
    here.  Abstract addresses, data and virtual functions are values. *)
From S2P Require Import Prelude Errors Msg Attr Data Hash CString Utils Addr Object ObjAttr Wire Build Rtnl StepMsg Sriov LinkApi.

(** ** Data *)

Definition LINK_ATTR_MTU := 1.
Definition LINK_ATTR_LINK := 2.
Definition LINK_ATTR_TXQLEN := 4.
Definition LINK_ATTR_WEIGHT := 8.
Definition LINK_ATTR_MASTER := 16.
Definition LINK_ATTR_QDISC := 32.
Definition LINK_ATTR_MAP := 64.
Definition LINK_ATTR_ADDR := 128.
Definition LINK_ATTR_BRD := 256.
Definition LINK_ATTR_FLAGS := 512.
Definition LINK_ATTR_IFNAME := 1024.
Definition LINK_ATTR_IFINDEX := 2048.
Definition LINK_ATTR_FAMILY := 4096.
Definition LINK_ATTR_ARPTYPE := 8192.
Definition LINK_ATTR_STATS := 16384.
Definition LINK_ATTR_CHANGE := 32768.
Definition LINK_ATTR_OPERSTATE := 65536.
Definition LINK_ATTR_LINKMODE := 131072.
Definition LINK_ATTR_LINKINFO := 262144.
Definition LINK_ATTR_IFALIAS := 524288.
Definition LINK_ATTR_NUM_VF := 1048576.
Definition LINK_ATTR_PROMISCUITY := 2097152.
Definition LINK_ATTR_NUM_TX_QUEUES := 4194304.
Definition LINK_ATTR_NUM_RX_QUEUES := 8388608.
Definition LINK_ATTR_GROUP := 16777216.
Definition LINK_ATTR_CARRIER := 33554432.
Definition LINK_ATTR_PROTINFO := 67108864.
Definition LINK_ATTR_AF_SPEC := 134217728.
Definition LINK_ATTR_PHYS_PORT_ID := 268435456.
Definition LINK_ATTR_NS_FD := 536870912.
Definition LINK_ATTR_NS_PID := 1073741824.
Definition LINK_ATTR_LINK_NETNSID := 4294967296.
Definition LINK_ATTR_VF_LIST := 8589934592.
Definition LINK_ATTR_CARRIER_CHANGES := 17179869184.
Definition LINK_ATTR_PHYS_PORT_NAME := 34359738368.
Definition LINK_ATTR_PHYS_SWITCH_ID := 68719476736.
Definition LINK_ATTR_GSO_MAX_SEGS := 137438953472.
Definition LINK_ATTR_GSO_MAX_SIZE := 274877906944.
Definition LINK_ATTR_LINKINFO_SLAVE_KIND := 549755813888.

Definition IFQDISCSIZ := 32.
Definition ARPHRD_VOID := 65535.

Section Link.
Context {I A : Type}.
Abbreviation rlink := (rtnl_link I A).
Abbreviation link := (body (rtnl_link I A)).

(** [x->field = v] and the attribute: for the members that hold a number. *)
Definition set_l (l : link) (attr : Z) (f : rlink -> rlink) : link := fill_attr l attr f.

(** ** Getting and setting *)

(** [strncpy] into the array of the name, the last byte of which is 0. *)
Definition rtnl_link_set_name (l : link) (name : list Z) : link :=
  set_l l LINK_ATTR_IFNAME (fun d => d <| l_name := take (Z.to_nat (IFNAMSIZ - 1)) name |>).
Definition rtnl_link_get_name (l : link) : option (list Z) :=
  if has_attr l LINK_ATTR_IFNAME then Some (l_name (ce_data l)) else None.
Definition rtnl_link_set_group (l : link) (group : Z) : link :=
  set_l l LINK_ATTR_GROUP (fun d => d <| l_group := u32 group |>).
Definition rtnl_link_get_group (l : link) : Z := l_group (ce_data l).

(** [set]: storing in the member [pos] points to. *)
Definition __assign_addr (l : link) (set : option nl_addr -> rlink -> rlink) (new : nl_addr) (flag : Z) : link :=
  set_l l flag (set (Some new)).
Definition set_l_addr (a : option nl_addr) (d : rlink) : rlink := d <| l_addr := a |>.
Definition set_l_bcast (a : option nl_addr) (d : rlink) : rlink := d <| l_bcast := a |>.
Definition rtnl_link_set_addr (l : link) (addr : nl_addr) : link := __assign_addr l set_l_addr addr LINK_ATTR_ADDR.
Definition rtnl_link_get_addr (l : link) : option nl_addr :=
  if has_attr l LINK_ATTR_ADDR then l_addr (ce_data l) else None.
Definition rtnl_link_set_broadcast (l : link) (addr : nl_addr) : link := __assign_addr l set_l_bcast addr LINK_ATTR_BRD.
Definition rtnl_link_get_broadcast (l : link) : option nl_addr :=
  if has_attr l LINK_ATTR_BRD then l_bcast (ce_data l) else None.

Definition rtnl_link_set_flags (l : link) (flags : Z) : link :=
  set_l l LINK_ATTR_FLAGS (fun d => d <| l_flag_mask := Z.lor (l_flag_mask d) (u32 flags) |>
                                      <| l_flags := Z.lor (l_flags d) (u32 flags) |>).
Definition rtnl_link_unset_flags (l : link) (flags : Z) : link :=
  set_l l LINK_ATTR_FLAGS (fun d => d <| l_flag_mask := Z.lor (l_flag_mask d) (u32 flags) |>
                                      <| l_flags := clear_flag (l_flags d) (u32 flags) |>).
Definition rtnl_link_get_flags (l : link) : Z := l_flags (ce_data l).
Definition rtnl_link_get_family (l : link) : Z :=
  if has_attr l LINK_ATTR_FAMILY then s32 (l_family (ce_data l)) else AF_UNSPEC.
Definition rtnl_link_set_arptype (l : link) (arptype : Z) : link :=
  set_l l LINK_ATTR_ARPTYPE (fun d => d <| l_arptype := u32 arptype |>).
Definition rtnl_link_get_arptype (l : link) : Z :=
  if has_attr l LINK_ATTR_ARPTYPE then l_arptype (ce_data l) else ARPHRD_VOID.
Definition rtnl_link_set_ifindex (l : link) (ifindex : Z) : link :=
  set_l l LINK_ATTR_IFINDEX (fun d => d <| l_index := u32 ifindex |>).
Definition rtnl_link_get_ifindex (l : link) : Z := s32 (l_index (ce_data l)).
Definition rtnl_link_set_mtu (l : link) (mtu : Z) : link :=
  set_l l LINK_ATTR_MTU (fun d => d <| l_mtu := u32 mtu |>).
Definition rtnl_link_get_mtu (l : link) : Z := l_mtu (ce_data l).
Definition rtnl_link_set_txqlen (l : link) (txqlen : Z) : link :=
  set_l l LINK_ATTR_TXQLEN (fun d => d <| l_txqlen := u32 txqlen |>).
Definition rtnl_link_get_txqlen (l : link) : Z :=
  if has_attr l LINK_ATTR_TXQLEN then l_txqlen (ce_data l) else 0.
Definition rtnl_link_set_link (l : link) (ifindex : Z) : link :=
  set_l l LINK_ATTR_LINK (fun d => d <| l_link := u32 ifindex |>).
Definition rtnl_link_get_link (l : link) : Z := s32 (l_link (ce_data l)).
Definition rtnl_link_set_link_netnsid (l : link) (netnsid : Z) : Z * link :=
  (0, set_l l LINK_ATTR_LINK_NETNSID (fun d => d <| l_link_netnsid := netnsid |>)).
(** The error, or what is stored. *)
Definition rtnl_link_get_link_netnsid (l : link) : Z + Z :=
  if negb (has_attr l LINK_ATTR_LINK_NETNSID) then inl (- NLE_INVAL) else inr (l_link_netnsid (ce_data l)).
Definition rtnl_link_set_master (l : link) (ifindex : Z) : link :=
  set_l l LINK_ATTR_MASTER (fun d => d <| l_master := u32 ifindex |>).
Definition rtnl_link_get_master (l : link) : Z := s32 (l_master (ce_data l)).
Definition rtnl_link_set_carrier (l : link) (status : Z) : link :=
  set_l l LINK_ATTR_CARRIER (fun d => d <| l_carrier := u8 status |>).
Definition rtnl_link_get_carrier (l : link) : Z := l_carrier (ce_data l).
Definition rtnl_link_get_carrier_changes (l : link) : Z + Z :=
  if negb (has_attr l LINK_ATTR_CARRIER_CHANGES) then inl (- NLE_NOATTR) else inr (l_carrier_changes (ce_data l)).
Definition rtnl_link_set_operstate (l : link) (status : Z) : link :=
  set_l l LINK_ATTR_OPERSTATE (fun d => d <| l_operstate := u8 status |>).
Definition rtnl_link_get_operstate (l : link) : Z := l_operstate (ce_data l).
Definition rtnl_link_set_linkmode (l : link) (mode : Z) : link :=
  set_l l LINK_ATTR_LINKMODE (fun d => d <| l_linkmode := u8 mode |>).
Definition rtnl_link_get_linkmode (l : link) : Z := l_linkmode (ce_data l).

Definition rtnl_link_get_ifalias (l : link) : option (list Z) := l_ifalias (ce_data l).
(** [c]: whether strdup succeeds, which is not looked at. *)
Definition rtnl_link_set_ifalias (c : bool) (l : link) (alias : option (list Z)) : link :=
  match alias with
  | Some s => set_l l LINK_ATTR_IFALIAS (fun d => d <| l_ifalias := if c then Some s else None |>)
  | None => let d := ce_data l in Body (clear_flag (ce_mask l) LINK_ATTR_IFALIAS) (d <| l_ifalias := @None (list Z) |>)
  end.
Definition rtnl_link_set_qdisc (l : link) (name : list Z) : link :=
  set_l l LINK_ATTR_QDISC (fun d => d <| l_qdisc := take (Z.to_nat (IFQDISCSIZ - 1)) name |>).
Definition rtnl_link_get_qdisc (l : link) : option (list Z) :=
  if has_attr l LINK_ATTR_QDISC then Some (l_qdisc (ce_data l)) else None.
Definition rtnl_link_get_num_vf (l : link) : Z + Z :=
  if has_attr l LINK_ATTR_NUM_VF then inr (l_num_vf (ce_data l)) else inl (- NLE_OPNOTSUPP).
(** [id]: an unsigned number. *)
Definition rtnl_link_get_stat (l : link) (id : Z) : Z :=
  if RTNL_LINK_STATS_MAX <? u32 id then 0 else nth (Z.to_nat (u32 id)) (l_stats (ce_data l)) 0.
Definition rtnl_link_set_stat (l : link) (id value : Z) : Z * link :=
  if RTNL_LINK_STATS_MAX <? u32 id then (- NLE_INVAL, l)
  else let d := ce_data l in (0, Body (ce_mask l) (d <| l_stats := <[Z.to_nat (u32 id) := u64 value]> (l_stats d) |>)).

Definition rtnl_link_set_slave_type (c : bool) (l : link) (type : option (list Z)) : Z * link :=
  let d := ce_data l in
  match type with
  | Some _ =>
      if negb c then (- NLE_NOMEM, l)
      else (0, Body (set_flag (ce_mask l) LINK_ATTR_LINKINFO_SLAVE_KIND) (d <| l_info_slave_kind := type |>))
  | None => (0, Body (clear_flag (ce_mask l) LINK_ATTR_LINKINFO_SLAVE_KIND) (d <| l_info_slave_kind := type |>))
  end.
Definition rtnl_link_get_slave_type (l : link) : option (list Z) := l_info_slave_kind (ce_data l).
Definition rtnl_link_set_promiscuity (l : link) (count : Z) : link :=
  set_l l LINK_ATTR_PROMISCUITY (fun d => d <| l_promiscuity := u32 count |>).
Definition rtnl_link_get_promiscuity (l : link) : Z := l_promiscuity (ce_data l).
Definition rtnl_link_set_num_tx_queues (l : link) (nqueues : Z) : link :=
  set_l l LINK_ATTR_NUM_TX_QUEUES (fun d => d <| l_num_tx_queues := u32 nqueues |>).
Definition rtnl_link_get_num_tx_queues (l : link) : Z := l_num_tx_queues (ce_data l).
Definition rtnl_link_set_num_rx_queues (l : link) (nqueues : Z) : link :=
  set_l l LINK_ATTR_NUM_RX_QUEUES (fun d => d <| l_num_rx_queues := u32 nqueues |>).
Definition rtnl_link_get_num_rx_queues (l : link) : Z := l_num_rx_queues (ce_data l).
Definition rtnl_link_get_gso_max_segs (l : link) : Z + Z :=
  if negb (has_attr l LINK_ATTR_GSO_MAX_SEGS) then inl (- NLE_NOATTR) else inr (l_gso_max_segs (ce_data l)).
Definition rtnl_link_get_gso_max_size (l : link) : Z + Z :=
  if negb (has_attr l LINK_ATTR_GSO_MAX_SIZE) then inl (- NLE_NOATTR) else inr (l_gso_max_size (ce_data l)).
Definition rtnl_link_get_phys_port_id (l : link) : option nl_data := l_phys_port_id (ce_data l).
Definition rtnl_link_get_phys_port_name (l : link) : list Z := l_phys_port_name (ce_data l).
Definition rtnl_link_get_phys_switch_id (l : link) : option nl_data := l_phys_switch_id (ce_data l).
Definition rtnl_link_set_ns_fd (l : link) (fd : Z) : link :=
  set_l l LINK_ATTR_NS_FD (fun d => d <| l_ns_fd := fd |>).
Definition rtnl_link_get_ns_fd (l : link) : Z := l_ns_fd (ce_data l).
Definition rtnl_link_set_ns_pid (l : link) (pid : Z) : link :=
  set_l l LINK_ATTR_NS_PID (fun d => d <| l_ns_pid := pid |>).
Definition rtnl_link_get_ns_pid (l : link) : Z := l_ns_pid (ce_data l).
Definition rtnl_link_has_vf_list (l : link) : bool := has_attr l LINK_ATTR_VF_LIST.
Definition rtnl_link_set_vf_list (l : link) : link :=
  if rtnl_link_has_vf_list l then l else Body (set_flag (ce_mask l) LINK_ATTR_VF_LIST) (ce_data l).
Definition rtnl_link_unset_vf_list (l : link) : link :=
  if rtnl_link_has_vf_list l then Body (clear_flag (ce_mask l) LINK_ATTR_VF_LIST) (ce_data l) else l.
Definition rtnl_link_set_weight (l : link) (weight : Z) : link :=
  set_l l LINK_ATTR_WEIGHT (fun d => d <| l_weight := u32 weight |>).
Definition rtnl_link_get_weight (l : link) : Z := l_weight (ce_data l).
(** [c]: whether the head of the list can be allocated; [None]: a null pointer.
    The function is put behind the head. *)
Definition rtnl_link_vf_add (c : bool) (l : link) (v : option vf) : Z * link :=
  match v with
  | None => (- NLE_OBJ_NOTFOUND, l)
  | Some v =>
      let d := ce_data l in
      match (match l_vf_list d with Some k => Some k | None => if c then Some [] else None end) with
      | None => (- NLE_NOMEM, l)
      | Some k => (0, rtnl_link_set_vf_list (Body (ce_mask l) (d <| l_vf_list := Some (v :: k) |>)))
      end
  end.

(** ** Kinds and families

    The tables are looked up in the registry at hand. *)
Variable g : link_reg I A.

Definition info_by_name (name : list Z) : exec Z := '(a, _) ← rtnl_link_info_ops_lookup g name; mret a.
Definition af_by_family (family : Z) : exec Z := '(a, _) ← rtnl_link_af_ops_lookup g family; mret a.

(** The address of the table, 0 for none or where the data cannot be allocated. *)
Definition af_lookup_and_alloc (l : link) (family : Z) : exec (Z * link) :=
  a ← af_by_family family;
  if a =? 0 then mret (0, l)
  else ops ← get_af g a; '(x, l) ← rtnl_link_af_alloc l ops; mret (if is_some x then a else 0, l).

Definition RTM_NEWLINK := 16.
Definition RTM_DELLINK := 17.
Definition RTM_GETLINK := 18.
Definition RTM_SETLINK := 19.
Definition af_request_type (af_type : Z) (changes : link) : exec Z :=
  a ← af_by_family af_type;
  if a =? 0 then mret RTM_NEWLINK
  else
    ops ← get_af g a;
    match ao_override_rtm ops with
    | None => Fault
    | Some f => mret (if negb (f changes =? 0) then RTM_SETLINK else RTM_NEWLINK)
    end.

(** The loop over the data of families from the family [i] on; [cb] works on a
    state. *)
Fixpoint foreach_af {S} (cb : rtnl_link_af_ops I A -> A -> S -> exec (Z * S)) (data : list (option A))
    (i : Z) (st : S) : exec (Z * S) :=
  match data with
  | [] => mret (0, st)
  | None :: data => foreach_af cb data (i + 1) st
  | Some x :: data =>
      a ← af_by_family i;
      if a =? 0 then Bug
      else
        ops ← get_af g a;
        '(e, st) ← cb ops x st;
        if e <? 0 then mret (e, st) else foreach_af cb data (i + 1) st
  end.
Definition do_foreach_af {S} (l : link) (cb : rtnl_link_af_ops I A -> A -> S -> exec (Z * S)) (st : S) : exec (Z * S) :=
  foreach_af cb (l_af_data (ce_data l)) 0 st.

Definition af_free (l : link) (ops : rtnl_link_af_ops I A) (x : A) : link :=
  match ao_free ops with Some f => f l x | None => l end.
Definition af_clone (ops : rtnl_link_af_ops I A) (x : A) (dst : link) : exec (Z * link) :=
  match ao_clone ops with
  | None => mret (0, dst)
  | Some f =>
      let y := f dst x in
      mret (if is_some y then 0 else - NLE_NOMEM, set_af_data dst (ao_family ops) y)
  end.

Definition release_link_info (l : link) : exec link :=
  let d := ce_data l in
  if l_info_ops d =? 0 then mret l
  else
    io ← get_info g (l_info_ops d);
    l ← (match io_free io with
         | Some f => mret (f l)
         | None => if is_some (l_info d) then Bug else mret l
         end);
    mret (let d : rlink := ce_data l in Body (ce_mask l) (d <| l_info_ops := 0 |>)).

(** free(): what is freed stays reachable through the pointer. *)
Definition free_kind (k : link_string) : exec link_string :=
  match k with NoString => mret NoString | Freed => Fault | Kind _ => mret Freed end.
(** [c]: whether strdup succeeds. *)
Definition rtnl_link_set_type (c : bool) (l : link) (type : option (list Z)) : exec (Z * link) :=
  let d := ce_data l in
  k ← free_kind (l_info_kind d);
  l ← release_link_info (Body (clear_flag (ce_mask l) LINK_ATTR_LINKINFO) (d <| l_info_kind := k |>));
  match type with
  | None => mret (0, l)
  | Some type =>
      if negb c then mret (- NLE_NOMEM, l)
      else
        io ← info_by_name type;
        '(e, l) ← (if io =? 0 then mret (0, l)
                   else
                     ops ← get_info g io;
                     let '(e, l) := match io_alloc ops with Some f => f l | None => (0, l) end in
                     let d : rlink := ce_data l in
                     mret (e, if e <? 0 then l else Body (ce_mask l) (d <| l_info_ops := io |>)));
        if e <? 0 then mret (e, l)
        else let d : rlink := ce_data l in
             mret (0, Body (set_flag (ce_mask l) LINK_ATTR_LINKINFO) (d <| l_info_kind := Kind type |>))
  end.
Definition rtnl_link_get_type (l : link) : link_string := l_info_kind (ce_data l).
Definition rtnl_link_set_info_type := rtnl_link_set_type.
Definition rtnl_link_get_info_type := rtnl_link_get_type.

(** The data of the family the link has had are given up. *)
Definition clear_family (l : link) : exec link :=
  let a := l_af_ops (ce_data l) in
  if a =? 0 then mret l
  else
    ops ← get_af g a;
    x ← af_data l (ao_family ops);
    let l := match x with Some x => af_free l ops x | None => l end in
    mret (set_af_data l (ao_family ops) None).
Definition rtnl_link_set_family (l : link) (family : Z) : exec link :=
  l ← clear_family (set_l l LINK_ATTR_FAMILY (fun d => d <| l_family := u32 family |>));
  '(a, l) ← af_lookup_and_alloc l family;
  mret (let d : rlink := ce_data l in Body (ce_mask l) (d <| l_af_ops := a |>)).

(** What is left of a link that is freed; the memory it points to goes with it. *)
Definition link_free_data (l : link) : exec link :=
  l ← release_link_info l;
  _ ← free_kind (l_info_kind (ce_data l));
  '(_, l) ← do_foreach_af l (fun ops x l => mret (0, af_free l ops x)) l;
  mret l.

(** ** Copies

    [c attr]: whether what the attribute stands for can be copied. *)
Section Clone.
Variable c : Z -> bool.

(** Storing a copy where there is something to copy; without memory the member is
    null and the copy ends. *)
Definition clone_member {T} (attr : Z) (o : option T) (set : option T -> rlink -> rlink) (dst : link) : Z * link :=
  match o with
  | None => (0, dst)
  | Some v => if c attr then (0, Body (ce_mask dst) (set (Some v) (ce_data dst)))
              else (- NLE_NOMEM, Body (ce_mask dst) (set None (ce_data dst)))
  end.
Definition then_clone (r : Z * link) (k : link -> exec (Z * link)) : exec (Z * link) :=
  let '(e, dst) := r in if e <? 0 then mret (e, dst) else k dst.

(** nl_addr_clone, nl_data_clone: the value that is stored. *)
Definition addr_copy (attr : Z) (o : option nl_addr) : option nl_addr :=
  match clone_addr (c attr) o with Some a => a | None => o end.
Definition data_copy (o : option nl_data) : exec (option nl_data) :=
  match o with Some d => nl_data_clone true true d | None => mret None end.

Definition with_vfs (l : link) (v : vf_list) : link :=
  let d := ce_data l in Body (ce_mask l) (d <| l_vf_list := v |>).
Definition kind_text (k : link_string) : exec (option (list Z)) :=
  match k with NoString => mret None | Freed => Fault | Kind s => mret (Some s) end.

Definition link_clone (dst src : link) : exec (Z * link) :=
  let s := ce_data src in
  then_clone (clone_member LINK_ATTR_ADDR (addr_copy LINK_ATTR_ADDR (l_addr s)) set_l_addr dst) (fun dst =>
  then_clone (clone_member LINK_ATTR_BRD (addr_copy LINK_ATTR_BRD (l_bcast s)) set_l_bcast dst) (fun dst =>
  then_clone (clone_member LINK_ATTR_IFALIAS (l_ifalias s) (fun x (d : rlink) => d <| l_ifalias := x |>) dst) (fun dst =>
  kind ← kind_text (l_info_kind s);
  then_clone (clone_member LINK_ATTR_LINKINFO kind
                (fun x (d : rlink) => d <| l_info_kind := match x with Some k => Kind k | None => NoString end |>) dst) (fun dst =>
  then_clone (clone_member LINK_ATTR_LINKINFO_SLAVE_KIND (l_info_slave_kind s)
                (fun x (d : rlink) => d <| l_info_slave_kind := x |>) dst) (fun dst =>
  r ← (if l_info_ops s =? 0 then mret (0, dst)
       else
         io ← get_info g (l_info_ops s);
         match io_clone io with
         | Some f => f (rtnl_link_set_type (c LINK_ATTR_LINKINFO)) dst src
         | None => mret (0, dst)
         end);
  then_clone r (fun dst =>
  r ← do_foreach_af src af_clone dst;
  then_clone r (fun dst =>
  port ← data_copy (l_phys_port_id s);
  then_clone (clone_member LINK_ATTR_PHYS_PORT_ID port (fun x (d : rlink) => d <| l_phys_port_id := x |>) dst) (fun dst =>
  switch ← data_copy (l_phys_switch_id s);
  then_clone (clone_member LINK_ATTR_PHYS_SWITCH_ID switch (fun x (d : rlink) => d <| l_phys_switch_id := x |>) dst) (fun dst =>
  if has_attr src LINK_ATTR_VF_LIST then
    if negb (c LINK_ATTR_VF_LIST) then mret (- NLE_NOMEM, with_vfs dst None)
    else
      match l_vf_list s with
      | None => Fault
      | Some k => let '(e, k) := clone_vfs true true true true k [] in mret (if e <? 0 then e else 0, with_vfs dst (Some k))
      end
  else mret (0, dst)))))))))).
End Clone.

(** ** Links as objects *)

(** An expression that is only evaluated when both links have the attribute. *)
Definition lazy_diff (attrs attr : Z) (a b : link) (expr : exec bool) : exec Z :=
  if has_flag attrs attr && AVAILABLE a b attr then e ← expr; mret (ATTR_DIFF attrs attr a b e)
  else mret (ATTR_DIFF attrs attr a b false).
Definition link_diffs (a b : link) (flags : Z) : list (Z * bool) :=
  let x := ce_data a in let y := ce_data b in
  [(LINK_ATTR_IFINDEX, negb (l_index x =? l_index y));
   (LINK_ATTR_MTU, negb (l_mtu x =? l_mtu y));
   (LINK_ATTR_LINK, negb (l_link x =? l_link y));
   (LINK_ATTR_LINK_NETNSID, negb (l_link_netnsid x =? l_link_netnsid y));
   (LINK_ATTR_TXQLEN, negb (l_txqlen x =? l_txqlen y));
   (LINK_ATTR_WEIGHT, negb (l_weight x =? l_weight y));
   (LINK_ATTR_MASTER, negb (l_master x =? l_master y));
   (LINK_ATTR_FAMILY, negb (l_family x =? l_family y));
   (LINK_ATTR_OPERSTATE, negb (l_operstate x =? l_operstate y));
   (LINK_ATTR_LINKMODE, negb (l_linkmode x =? l_linkmode y));
   (LINK_ATTR_QDISC, negb (bool_decide (l_qdisc x = l_qdisc y)));
   (LINK_ATTR_IFNAME, negb (bool_decide (l_name x = l_name y)));
   (LINK_ATTR_ADDR, addr_differs (l_addr x) (l_addr y));
   (LINK_ATTR_BRD, addr_differs (l_bcast x) (l_bcast y));
   (LINK_ATTR_NUM_VF, negb (l_num_vf x =? l_num_vf y));
   (LINK_ATTR_PROMISCUITY, negb (l_promiscuity x =? l_promiscuity y));
   (LINK_ATTR_NUM_TX_QUEUES, negb (l_num_tx_queues x =? l_num_tx_queues y));
   (LINK_ATTR_NUM_RX_QUEUES, negb (l_num_rx_queues x =? l_num_rx_queues y));
   (LINK_ATTR_GROUP, negb (l_group x =? l_group y));
   (LINK_ATTR_FLAGS, if has_flag flags LOOSE_COMPARISON
                     then negb (Z.land (Z.lxor (l_flags x) (l_flags y)) (l_flag_mask y) =? 0)
                     else negb (l_flags x =? l_flags y))].
Definition link_compare (a b : link) (attrs flags : Z) : exec Z :=
  let x := ce_data a in let y := ce_data b in
  alias ← lazy_diff attrs LINK_ATTR_IFALIAS a b
            (match l_ifalias x, l_ifalias y with
             | Some s, Some t => mret (negb (bool_decide (s = t)))
             | _, _ => Fault
             end);
  let diff := Z.lor (attr_diffs attrs a b (link_diffs a b flags)) alias in
  af ← (if l_family x =? l_family y then rtnl_link_af_data_compare g a b (s32 (l_family x)) else mret 0);
  if negb (af =? 0) then mret (Z.lor diff (ATTR_DIFF attrs LINK_ATTR_PROTINFO a b true))
  else
    info ← lazy_diff attrs LINK_ATTR_LINKINFO a b
             (e ← rtnl_link_info_data_compare g a b flags; mret (negb (e =? 0)));
    mret (Z.lor diff info).

Definition link_keygen (l : link) (table_sz : Z) : Z :=
  let key := le_encode 4 (l_index (ce_data l)) ++ le_encode 4 (l_family (ce_data l)) in
  match nl_hash key 8 0 with Done h => h mod table_sz | _ => 0 end.

(** The functions of the object keep to values where they end, as they do for links
    whose families are registered and in range (LinkProps). *)
Definition link_obj_ops (c : Z -> bool) : nl_object_ops rlink :=
  {| oo_name := "route/link"; oo_size := 1224; oo_id_attrs := Z.lor LINK_ATTR_IFINDEX LINK_ATTR_FAMILY;
     oo_constructor := None; oo_free_data := true;
     oo_clone := Some (fun dst src =>
       match link_clone c (Body (ce_mask src) dst) src with
       | Done (e, l) => (e, ce_data l)
       | _ => (- NLE_FAILURE, dst)
       end);
     oo_compare := Some (fun a b attrs flags => match link_compare a b attrs flags with Done d => d | _ => UINT64_MAX end);
     oo_update := None; oo_keygen := Some link_keygen; oo_id_attrs_get := None |}.
End Link.

(** ** Names *)

Definition link_attrs : list trans_tbl :=
  [Tr LINK_ATTR_MTU "mtu"; Tr LINK_ATTR_LINK "link"; Tr LINK_ATTR_TXQLEN "txqlen";
   Tr LINK_ATTR_WEIGHT "weight"; Tr LINK_ATTR_MASTER "master"; Tr LINK_ATTR_QDISC "qdisc";
   Tr LINK_ATTR_MAP "map"; Tr LINK_ATTR_ADDR "address"; Tr LINK_ATTR_BRD "broadcast";
   Tr LINK_ATTR_FLAGS "flags"; Tr LINK_ATTR_IFNAME "name"; Tr LINK_ATTR_IFINDEX "ifindex";
   Tr LINK_ATTR_FAMILY "family"; Tr LINK_ATTR_ARPTYPE "arptype"; Tr LINK_ATTR_STATS "stats";
   Tr LINK_ATTR_CHANGE "change"; Tr LINK_ATTR_OPERSTATE "operstate"; Tr LINK_ATTR_LINKMODE "linkmode";
   Tr LINK_ATTR_IFALIAS "ifalias"; Tr LINK_ATTR_NUM_VF "num_vf"; Tr LINK_ATTR_PROMISCUITY "promiscuity";
   Tr LINK_ATTR_NUM_TX_QUEUES "num_tx_queues"; Tr LINK_ATTR_NUM_RX_QUEUES "num_rx_queues";
   Tr LINK_ATTR_GSO_MAX_SEGS "gso_max_segs"; Tr LINK_ATTR_GSO_MAX_SIZE "gso_max_size";
   Tr LINK_ATTR_GROUP "group"; Tr LINK_ATTR_CARRIER "carrier";
   Tr LINK_ATTR_CARRIER_CHANGES "carrier_changes"; Tr LINK_ATTR_PHYS_PORT_ID "phys_port_id";
   Tr LINK_ATTR_PHYS_PORT_NAME "phys_port_name"; Tr LINK_ATTR_PHYS_SWITCH_ID "phys_switch_id";
   Tr LINK_ATTR_NS_FD "ns_fd"; Tr LINK_ATTR_NS_PID "ns_pid"; Tr LINK_ATTR_LINK_NETNSID "link_netnsid"].
(** [attrs]: an int. *)
Definition link_attrs2str (attrs len : Z) : exec (list Z) := __flags2str attrs len link_attrs.

Definition link_flags : list trans_tbl :=
  [Tr 8 "loopback"; Tr 2 "broadcast"; Tr 16 "pointopoint"; Tr 4096 "multicast"; Tr 128 "noarp";
   Tr 512 "allmulti"; Tr 256 "promisc"; Tr 1024 "master"; Tr 2048 "slave"; Tr 4 "debug";
   Tr 32768 "dynamic"; Tr 16384 "automedia"; Tr 8192 "portsel"; Tr 32 "notrailers"; Tr 1 "up";
   Tr 64 "running"; Tr 65536 "lowerup"; Tr 131072 "dormant"; Tr 262144 "echo"].
Definition rtnl_link_flags2str (flags len : Z) : exec (list Z) := __flags2str flags len link_flags.
Definition rtnl_link_str2flags name := __str2flags name link_flags.

Definition link_stats : list trans_tbl :=
  [Tr 0 "rx_packets"; Tr 1 "tx_packets"; Tr 2 "rx_bytes"; Tr 3 "tx_bytes"; Tr 4 "rx_errors";
   Tr 5 "tx_errors"; Tr 6 "rx_dropped"; Tr 7 "tx_dropped"; Tr 8 "rx_compressed"; Tr 9 "tx_compressed";
   Tr 10 "rx_fifo_err"; Tr 11 "tx_fifo_err"; Tr 12 "rx_len_err"; Tr 13 "rx_over_err"; Tr 14 "rx_crc_err";
   Tr 15 "rx_frame_err"; Tr 16 "rx_missed_err"; Tr 17 "tx_abort_err"; Tr 18 "tx_carrier_err";
   Tr 19 "tx_hbeat_err"; Tr 20 "tx_win_err"; Tr 21 "collisions"; Tr 22 "multicast";
   Tr 23 "Ip6InReceives"; Tr 24 "Ip6InHdrErrors"; Tr 25 "Ip6InTooBigErrors"; Tr 26 "Ip6InNoRoutes";
   Tr 27 "Ip6InAddrErrors"; Tr 28 "Ip6InUnknownProtos"; Tr 29 "Ip6InTruncatedPkts";
   Tr 30 "Ip6InDiscards"; Tr 31 "Ip6InDelivers"; Tr 32 "Ip6OutForwDatagrams"; Tr 33 "Ip6OutRequests";
   Tr 34 "Ip6OutDiscards"; Tr 35 "Ip6OutNoRoutes"; Tr 36 "Ip6ReasmTimeout"; Tr 37 "Ip6ReasmReqds";
   Tr 38 "Ip6ReasmOKs"; Tr 39 "Ip6ReasmFails"; Tr 40 "Ip6FragOKs"; Tr 41 "Ip6FragFails";
   Tr 42 "Ip6FragCreates"; Tr 43 "Ip6InMcastPkts"; Tr 44 "Ip6OutMcastPkts"; Tr 45 "Ip6InBcastPkts";
   Tr 46 "Ip6OutBcastPkts"; Tr 47 "Ip6InOctets"; Tr 48 "Ip6OutOctets"; Tr 49 "Ip6InMcastOctets";
   Tr 50 "Ip6OutMcastOctets"; Tr 51 "Ip6InBcastOctets"; Tr 52 "Ip6OutBcastOctets";
   Tr 53 "ICMP6_InMsgs"; Tr 54 "ICMP6_InErrors"; Tr 55 "ICMP6_OutMsgs"; Tr 56 "ICMP6_OutErrors";
   Tr 57 "ICMP6_InCsumErrors"; Tr 58 "Ip6_InCsumErrors"; Tr 59 "Ip6_InNoECTPkts";
   Tr 60 "Ip6_InECT1Pkts"; Tr 61 "Ip6_InECT0Pkts"; Tr 62 "Ip6_InCEPkts"; Tr 63 "rx_nohandler"].
Definition rtnl_link_stat2str st old size := __type2str st old size link_stats.
Definition rtnl_link_str2stat name := __str2type name link_stats.

Definition link_operstates : list trans_tbl :=
  [Tr 0 "unknown"; Tr 1 "notpresent"; Tr 2 "down"; Tr 3 "lowerlayerdown"; Tr 4 "testing";
   Tr 5 "dormant"; Tr 6 "up"].
Definition rtnl_link_operstate2str st old size := __type2str st old size link_operstates.
Definition rtnl_link_str2operstate name := __str2type name link_operstates.
Definition link_modes : list trans_tbl := [Tr 0 "default"; Tr 1 "dormant"].
Definition rtnl_link_mode2str st old size := __type2str st old size link_modes.
Definition rtnl_link_str2mode name := __str2type name link_modes.
Definition carrier_states : list trans_tbl := [Tr 0 "down"; Tr 1 "up"].
Definition rtnl_link_carrier2str st old size := __type2str st old size carrier_states.
Definition rtnl_link_str2carrier name := __str2type name carrier_states.

Lemma link_tables_ok : forallb (tbl_ok 32) [link_stats; link_operstates; link_modes; carrier_states] = true.
Proof. by vm_compute. Qed.
(** The names of statistics, states and modes read back. *)
Lemma link_names_roundtrip v old size :
  -2 ^ 31 <= v < 2 ^ 31 -> 32 <= size ->
  rtnl_link_str2stat (rtnl_link_stat2str v old size) = v /\
  rtnl_link_str2operstate (rtnl_link_operstate2str v old size) = v /\
  rtnl_link_str2mode (rtnl_link_mode2str v old size) = v /\
  rtnl_link_str2carrier (rtnl_link_carrier2str v old size) = v.
Proof.
  intros Hv Hs. pose proof link_tables_ok as Hok. rewrite forallb_forall in Hok.
  repeat split; apply (str2type_type2str 32); try lia; apply Hok; simpl; tauto.
Qed.
(** Attributes from bit 32 on are in the table but not in an int: they have no
    name. *)
Lemma high_attrs_unnamed : link_attrs2str (s32 LINK_ATTR_LINK_NETNSID) 64 = Done [].
Proof. by vm_compute. Qed.
