(* ===== verification/LinkMsg.v ===== *)
(** Links and the messages that carry them (lib/route/link.c): the parser, the
    requests, and the caches.  [g]: the registry at hand, which parsing, building
    and the functions of kinds and families leave as it is but for counts of
    references, which are not followed here. *)
From S2P Require Import Prelude Errors Msg Attr Data CString Utils Addr Handlers Socket Nl NlList Object Cache CacheInv ObjAttr CacheMngt CacheDump Wire Build Rtnl StepMsg Sriov LinkApi Link.

Definition IFLA_ADDRESS := 1.
Definition IFLA_BROADCAST := 2.
Definition IFLA_IFNAME := 3.
Definition IFLA_MTU := 4.
Definition IFLA_LINK := 5.
Definition IFLA_QDISC := 6.
Definition IFLA_STATS := 7.
Definition IFLA_MASTER := 10.
Definition IFLA_PROTINFO := 12.
Definition IFLA_TXQLEN := 13.
Definition IFLA_MAP := 14.
Definition IFLA_WEIGHT := 15.
Definition IFLA_OPERSTATE := 16.
Definition IFLA_LINKMODE := 17.
Definition IFLA_LINKINFO := 18.
Definition IFLA_NET_NS_PID := 19.
Definition IFLA_IFALIAS := 20.
Definition IFLA_NUM_VF := 21.
Definition IFLA_STATS64 := 23.
Definition IFLA_AF_SPEC := 26.
Definition IFLA_GROUP := 27.
Definition IFLA_NET_NS_FD := 28.
Definition IFLA_EXT_MASK := 29.
Definition IFLA_PROMISCUITY := 30.
Definition IFLA_NUM_TX_QUEUES := 31.
Definition IFLA_NUM_RX_QUEUES := 32.
Definition IFLA_CARRIER := 33.
Definition IFLA_PHYS_PORT_ID := 34.
Definition IFLA_CARRIER_CHANGES := 35.
Definition IFLA_PHYS_SWITCH_ID := 36.
Definition IFLA_LINK_NETNSID := 37.
Definition IFLA_PHYS_PORT_NAME := 38.
Definition IFLA_GSO_MAX_SEGS := 40.
Definition IFLA_GSO_MAX_SIZE := 41.
Definition IFLA_MAX := 51.
Definition IFLA_INFO_KIND := 1.
Definition IFLA_INFO_DATA := 2.
Definition IFLA_INFO_XSTATS := 3.
Definition IFLA_INFO_SLAVE_KIND := 4.
Definition IFLA_INFO_MAX := 5.
Definition IFALIASZ := 256.
Definition RTNLGRP_LINK := 1.

(** ** Policies *)

Definition min_of (n : Z) : nla_policy := {| pol_type := 0; pol_minlen := n; pol_maxlen := 0 |}.
Definition string_of (n : Z) : nla_policy := {| pol_type := NLA_STRING; pol_minlen := 0; pol_maxlen := n |}.
Definition u32_policy := pol_of NLA_U32.
Definition rtln_link_policy : list nla_policy :=
  [pol_of 0; pol_of 0; pol_of 0; string_of IFNAMSIZ; u32_policy; u32_policy; string_of IFQDISCSIZ; min_of 92;
   pol_of 0; pol_of 0; u32_policy; pol_of 0; pol_of 0; u32_policy; min_of 32; u32_policy;
   pol_of NLA_U8; pol_of NLA_U8; pol_of NLA_NESTED; u32_policy; string_of IFALIASZ; u32_policy;
   pol_of NLA_NESTED; min_of 184; pol_of 0; pol_of 0; pol_of NLA_NESTED; u32_policy; u32_policy; pol_of 0;
   u32_policy; u32_policy; u32_policy; pol_of NLA_U8; pol_of 0; u32_policy; pol_of 0; pol_of 0;
   string_of IFNAMSIZ; pol_of 0; u32_policy; u32_policy; pol_of 0; pol_of 0; pol_of 0; pol_of 0; pol_of 0;
   pol_of 0; pol_of 0; pol_of 0; pol_of 0; pol_of 0].
Definition link_info_policy : list nla_policy :=
  [pol_of 0; pol_of NLA_STRING; pol_of NLA_NESTED; pol_of NLA_NESTED; pol_of 0; pol_of 0].

(** ** Statistics

    The members of struct rtnl_link_stats in their order, by the number of the
    statistic they are stored as. *)
Definition stat_order : list Z :=
  [0; 1; 2; 3; 4; 5; 6; 7; 22; 21; 12; 13; 14; 15; 10; 16; 17; 18; 11; 19; 20; 8; 9].
Definition RTNL_LINK_RX_NOHANDLER := 63.
(** Members of [k] bytes from [pos] on. *)
Fixpoint stats_from (get : list Z -> Z -> exec Z) (k : Z) (b : list Z) (pos : Z) (ids st : list Z) : exec (list Z) :=
  match ids with
  | [] => mret st
  | i :: ids => v ← get b pos; stats_from get k b (pos + k) ids (<[Z.to_nat i := v]> st)
  end.

Section Parse.
Context {I A : Type}.
Abbreviation rlink := (rtnl_link I A).
Abbreviation link := (body (rtnl_link I A)).
Variable g : link_reg I A.
(** [c t]: whether what attribute [t] needs can be allocated. *)
Variable c : Z -> bool.
Variable b : list Z.

Definition with_stats (l : link) (st : list Z) : link :=
  set_l l LINK_ATTR_STATS (fun d : rlink => d <| l_stats := st |>).
Definition stats32 (nla : Z) (l : link) : exec link :=
  st ← stats_from get_u32 4 b (nla_data nla) stat_order (l_stats (ce_data l));
  len ← nla_len b nla;
  v ← (if 96 <=? len then get_u32 b (nla_data nla + 92) else mret 0);
  mret (with_stats l (<[Z.to_nat RTNL_LINK_RX_NOHANDLER := v]> st)).
Definition stats64 (nla : Z) (l : link) : exec link :=
  '(_, s) ← nla_memcpy b (zeros 192) (Some nla) 192;
  st ← stats_from get_u64 8 s 0 (stat_order ++ [RTNL_LINK_RX_NOHANDLER]) (l_stats (ce_data l));
  mret (with_stats l st).

(** [get]: reading the value of the attribute [t], which [set] stores. *)
Definition link_attr {T} (tb : list (option Z)) (t attr : Z) (get : Z -> exec T) (set : T -> rlink -> rlink)
    (l : link) : exec link :=
  if_attr tb t (fun nla l => v ← get nla; mret (set_l l attr (set v))) l.
(** An address, of the family its length stands for. *)
Definition link_addr (tb : list (option Z)) (t attr : Z) (set : option nl_addr -> rlink -> rlink) (l : link)
    : exec (Z + link) :=
  if_attr_or tb t (fun nla l =>
    a ←! addr_of_attr b (c t) nla AF_UNSPEC;
    ok (set_l l attr (set (Some (nl_addr_set_family a (nl_addr_guess_family a)))))) l.
(** A copy of the value of an attribute. *)
Definition link_data (tb : list (option Z)) (t attr : Z) (set : option nl_data -> rlink -> rlink) (l : link)
    : exec (Z + link) :=
  if_attr_or tb t (fun nla l =>
    x ← nl_data_alloc_attr (c t) (c t) b nla;
    match x with None => err NLE_NOMEM | Some _ => ok (set_l l attr (set x)) end) l.

Definition rtnl_link_info_parse (l : link) (tb : list (option Z)) : exec (Z + link) :=
  name ← tb_at tb IFLA_IFNAME;
  match name with
  | None => err NLE_MISSING_ATTR
  | Some nla =>
      s ← attr_strlcpy b nla IFNAMSIZ;
      let l := set_l l LINK_ATTR_IFNAME (fun d : rlink => d <| l_name := s |>) in
      l ← if_attr tb IFLA_STATS stats32 l;
      l ← if_attr tb IFLA_STATS64 stats64 l;
      l ← link_attr tb IFLA_TXQLEN LINK_ATTR_TXQLEN (nla_get_u32 b) (fun v (d : rlink) => d <| l_txqlen := v |>) l;
      l ← link_attr tb IFLA_MTU LINK_ATTR_MTU (nla_get_u32 b) (fun v (d : rlink) => d <| l_mtu := v |>) l;
      l ←! link_addr tb IFLA_ADDRESS LINK_ATTR_ADDR set_l_addr l;
      l ←! link_addr tb IFLA_BROADCAST LINK_ATTR_BRD set_l_bcast l;
      l ← link_attr tb IFLA_LINK LINK_ATTR_LINK (nla_get_u32 b) (fun v (d : rlink) => d <| l_link := v |>) l;
      l ← link_attr tb IFLA_LINK_NETNSID LINK_ATTR_LINK_NETNSID (nla_get_s32 b)
            (fun v (d : rlink) => d <| l_link_netnsid := v |>) l;
      l ← link_attr tb IFLA_WEIGHT LINK_ATTR_WEIGHT (nla_get_u32 b) (fun v (d : rlink) => d <| l_weight := v |>) l;
      l ← link_attr tb IFLA_QDISC LINK_ATTR_QDISC (fun nla => attr_strlcpy b nla IFQDISCSIZ)
            (fun v (d : rlink) => d <| l_qdisc := v |>) l;
      l ← if_attr tb IFLA_MAP (fun nla l =>
            '(_, m) ← nla_memcpy b (l_map (ce_data l)) (Some nla) 32;
            mret (set_l l LINK_ATTR_MAP (fun d : rlink => d <| l_map := (m : list Z) |>))) l;
      l ← link_attr tb IFLA_MASTER LINK_ATTR_MASTER (nla_get_u32 b) (fun v (d : rlink) => d <| l_master := v |>) l;
      l ← link_attr tb IFLA_CARRIER LINK_ATTR_CARRIER (nla_get_u8 b) (fun v (d : rlink) => d <| l_carrier := v |>) l;
      l ← link_attr tb IFLA_CARRIER_CHANGES LINK_ATTR_CARRIER_CHANGES (nla_get_u32 b)
            (fun v (d : rlink) => d <| l_carrier_changes := v |>) l;
      l ← link_attr tb IFLA_OPERSTATE LINK_ATTR_OPERSTATE (nla_get_u8 b)
            (fun v (d : rlink) => d <| l_operstate := v |>) l;
      l ← link_attr tb IFLA_LINKMODE LINK_ATTR_LINKMODE (nla_get_u8 b)
            (fun v (d : rlink) => d <| l_linkmode := v |>) l;
      l ←! if_attr_or tb IFLA_IFALIAS (fun nla l =>
             s ← nla_strdup b nla;
             if c IFLA_IFALIAS then ok (set_l l LINK_ATTR_IFALIAS (fun d : rlink => d <| l_ifalias := Some s |>))
             else err NLE_NOMEM) l;
      l ← link_attr tb IFLA_NET_NS_FD LINK_ATTR_NS_FD (nla_get_s32 b) (fun v (d : rlink) => d <| l_ns_fd := v |>) l;
      l ← link_attr tb IFLA_NET_NS_PID LINK_ATTR_NS_PID (nla_get_s32 b) (fun v (d : rlink) => d <| l_ns_pid := v |>) l;
      ok l
  end.

(** ** Families and kinds in a message *)

Definition add_attr (l : link) (attr : Z) : link := Body (set_flag (ce_mask l) attr) (ce_data l).

(** The parser of a family on its data in the link, which have been allocated. *)
Definition run_af (f : list Z -> link -> Z -> A -> exec (Z * link * A)) (family nla : Z) (l : link) : exec (Z + link) :=
  x ← af_data l family;
  match x with
  | None => Fault
  | Some x => '(e, l, x) ← f b l nla x; if e <? 0 then mret (inl e) else ok (set_af_data l family (Some x))
  end.

Definition af_parse_bridge (l : link) (af_spec : Z) : exec (Z + link) :=
  let family := l_family (ce_data l) in
  '(a, l) ← af_lookup_and_alloc g l family;
  l ←! (if a =? 0 then ok l
        else
          ops ← get_af g a;
          match ao_parse_af ops with Some f => run_af f family af_spec l | None => ok l end);
  ok (add_attr l LINK_ATTR_AF_SPEC).

Definition af_parse_one (l : link) (af_attr : Z) : exec (link + Z) :=
  family ← nla_type b af_attr;
  '(a, l) ← af_lookup_and_alloc g l family;
  if a =? 0 then mret (inl l)
  else
    ops ← get_af g a;
    match ao_parse_af ops with
    | None => mret (inl l)
    | Some f =>
        r ← run_af f family af_attr l;
        mret (match r with inl e => inr e | inr l => inl l end)
    end.
Definition af_parse (l : link) (af_spec : Z) : exec (Z + link) :=
  r ← nla_for_each_nested b af_parse_one af_spec l;
  match r with inl l => ok (add_attr l LINK_ATTR_AF_SPEC) | inr e => mret (inl e) end.

(** The link, the table of its family, and whether tb[IFLA_PROTINFO] has been
    overwritten with the address of a policy. *)
Abbreviation info_state := (link * Z * bool)%type.
Definition with_kind_ops (l : link) (io : Z) : link :=
  let d := ce_data l in Body (ce_mask l) (d <| l_info_ops := io |>).
Definition with_family_ops (l : link) (family a : Z) : link :=
  let d := ce_data l in Body (ce_mask l) (d <| l_family := family |> <| l_af_ops := a |>).

(** A kind that is also the name of a family. *)
Definition kind_family (kind : list Z) (s : info_state) : exec info_state :=
  let '(l, af, wild) := s in
  let family := nl_str2af kind in
  if (0 <=? family) && (af =? 0) then
    '(a, l) ← af_lookup_and_alloc g l family;
    if a =? 0 then mret (l, 0, wild)
    else ops ← get_af g a; mret (with_family_ops l family a, a, wild || is_some (ao_protinfo_policy ops))
  else mret s.
(** What the kind reads of its attributes. *)
Definition kind_parse (li : list (option Z)) (kind : list Z) (l : link) : exec (Z + link) :=
  io ← info_by_name g kind;
  let l := with_kind_ops l io in
  if io =? 0 then ok l
  else
    ops ← get_info g io;
    data ← tb_at li IFLA_INFO_DATA;
    xstats ← tb_at li IFLA_INFO_XSTATS;
    match io_parse ops with
    | Some f =>
        if is_some data || is_some xstats
        then '(e, l) ← f b l data xstats; if e <? 0 then mret (inl e) else ok l
        else ok l
    | None => ok l
    end.
Definition link_kind (li : list (option Z)) (nla : Z) (s : info_state) : exec (Z + info_state) :=
  let '(l, af, wild) := s in
  kind ← nla_strdup b nla;
  '(e, l) ← rtnl_link_set_type g (c IFLA_LINKINFO) l (Some kind);
  if e <? 0 then mret (inl e)
  else
    '(l, af, wild) ← kind_family kind (l, af, wild);
    l ←! kind_parse li kind l;
    ok (add_attr l LINK_ATTR_LINKINFO, af, wild).
Definition link_slave_kind (nla : Z) (s : info_state) : exec (Z + info_state) :=
  let '(l, af, wild) := s in
  kind ← nla_strdup b nla;
  let '(e, l) := rtnl_link_set_slave_type (c IFLA_LINKINFO) l (Some kind) in
  if e <? 0 then mret (inl e) else ok (add_attr l LINK_ATTR_LINKINFO_SLAVE_KIND, af, wild).
Definition link_info (nla : Z) (s : info_state) : exec (Z + info_state) :=
  '(e, li) ← nla_parse_nested b IFLA_INFO_MAX nla (Some link_info_policy);
  if e <? 0 then mret (inl e)
  else
    s ←! if_attr_or li IFLA_INFO_KIND (link_kind li) s;
    if_attr_or li IFLA_INFO_SLAVE_KIND link_slave_kind s.

(** ** The parser *)

Definition link_vfs (tb : list (option Z)) (l : link) : exec (Z + link) :=
  if_attr_or tb IFLA_NUM_VF (fun nla l =>
    n ← nla_get_u32 b nla;
    let l := set_l l LINK_ATTR_NUM_VF (fun d : rlink => d <| l_num_vf := (n : Z) |>) in
    if n =? 0 then ok l
    else
      if_attr_or tb IFLA_VFINFO_LIST (fun nla l =>
        let a := c IFLA_VFINFO_LIST in
        '(e, k) ← rtnl_link_sriov_parse_vflist a a a a b a nla;
        if e <? 0 then mret (inl e) else ok (add_attr (with_vfs l k) LINK_ATTR_VF_LIST)) l) l.

(** The policy with the entry for IFLA_PROTINFO the family has. *)
Definition real_link_policy (p : option nla_policy) : list nla_policy :=
  match p with Some p => <[Z.to_nat IFLA_PROTINFO := p]> rtln_link_policy | None => rtln_link_policy end.

Definition link_hdr_data (family arptype index flags change : Z) : rlink :=
  let d := link_0 : rlink in
  d <| l_family := family |> <| l_arptype := arptype |> <| l_index := index |> <| l_flags := flags |> <| l_change := change |>.
Definition link_hdr_attrs : Z :=
  Z.lor LINK_ATTR_FAMILY (Z.lor LINK_ATTR_ARPTYPE (Z.lor LINK_ATTR_IFINDEX (Z.lor LINK_ATTR_FLAGS LINK_ATTR_CHANGE))).

Definition link_protinfo (tb : list (option Z)) (s : info_state) : exec (Z + link) :=
  let '(l, af, wild) := s in
  p ← tb_at tb IFLA_PROTINFO;
  if (is_some p || wild) && negb (af =? 0) then
    ops ← get_af g af;
    match ao_parse_protinfo ops with
    | None => ok l
    | Some f =>
        if wild then Fault
        else match p with
             | None => ok l
             | Some nla => l ←! run_af f (l_family (ce_data l)) nla l; ok (add_attr l LINK_ATTR_PROTINFO)
             end
    end
  else ok l.

Definition link_rest (tb : list (option Z)) (l : link) : exec (Z + link) :=
  l ← link_attr tb IFLA_PROMISCUITY LINK_ATTR_PROMISCUITY (nla_get_u32 b) (fun v (d : rlink) => d <| l_promiscuity := v |>) l;
  l ← link_attr tb IFLA_NUM_TX_QUEUES LINK_ATTR_NUM_TX_QUEUES (nla_get_u32 b)
        (fun v (d : rlink) => d <| l_num_tx_queues := v |>) l;
  l ← link_attr tb IFLA_NUM_RX_QUEUES LINK_ATTR_NUM_RX_QUEUES (nla_get_u32 b)
        (fun v (d : rlink) => d <| l_num_rx_queues := v |>) l;
  l ← link_attr tb IFLA_GSO_MAX_SEGS LINK_ATTR_GSO_MAX_SEGS (nla_get_u32 b) (fun v (d : rlink) => d <| l_gso_max_segs := v |>) l;
  l ← link_attr tb IFLA_GSO_MAX_SIZE LINK_ATTR_GSO_MAX_SIZE (nla_get_u32 b) (fun v (d : rlink) => d <| l_gso_max_size := v |>) l;
  l ← link_attr tb IFLA_GROUP LINK_ATTR_GROUP (nla_get_u32 b) (fun v (d : rlink) => d <| l_group := v |>) l;
  l ←! link_data tb IFLA_PHYS_PORT_ID LINK_ATTR_PHYS_PORT_ID (fun x (d : rlink) => d <| l_phys_port_id := x |>) l;
  l ← link_attr tb IFLA_PHYS_PORT_NAME LINK_ATTR_PHYS_PORT_NAME (fun nla => attr_strlcpy b nla IFNAMSIZ)
        (fun v (d : rlink) => d <| l_phys_port_name := v |>) l;
  link_data tb IFLA_PHYS_SWITCH_ID LINK_ATTR_PHYS_SWITCH_ID (fun x (d : rlink) => d <| l_phys_switch_id := x |>) l.

(** What [__link_msg_parser] makes of a message. *)
Definition link_decode (af_parser : link -> Z -> exec (Z + link)) : exec (Z + link) :=
  valid ← nlmsg_valid_hdr b 0 16;
  if negb (valid : bool) then err NLE_MSG_TOOSHORT
  else
    let ifi := nlmsg_data 0 in
    family ← get_u8 b ifi;
    arptype ← get_u16 b (ifi + 2);
    index ← get_u32 b (ifi + 4);
    flags ← get_u32 b (ifi + 8);
    change ← get_u32 b (ifi + 12);
    '(af, l) ← af_lookup_and_alloc g (Body link_hdr_attrs (link_hdr_data family arptype index flags change)) family;
    '(policy, l) ← (if af =? 0 then mret (None, l)
                    else ops ← get_af g af; mret (ao_protinfo_policy ops, with_family_ops l (l_family (ce_data l)) af));
    '(e, tb) ← nlmsg_parse b 0 16 IFLA_MAX (Some (real_link_policy policy));
    if e <? 0 then mret (inl e)
    else
      l ←! rtnl_link_info_parse l tb;
      l ←! link_vfs tb l;
      s ←! if_attr_or tb IFLA_LINKINFO link_info (l, af, false);
      l ←! link_protinfo tb s;
      l ←! if_attr_or tb IFLA_AF_SPEC (fun nla l => af_parser l nla) l;
      link_rest tb l.
End Parse.

(** ** Requests *)

Section Build.
Context {I A : Type}.
Abbreviation rlink := (rtnl_link I A).
Abbreviation link := (body (rtnl_link I A)).
Variable g : link_reg I A.

(** struct ifinfomsg. *)
Definition ifinfomsg (family type index flags change : Z) : list Z :=
  [u8 family; 0] ++ le_encode 2 type ++ le_encode 4 index ++ le_encode 4 flags ++ le_encode 4 change.

Definition keep_num (k : nat) (t v : Z) : nl_msg -> step_msg := keep_put t (Z.of_nat k) (le_encode k v).
Definition keep_string (t : Z) (s : list Z) : nl_msg -> step_msg := keep_put t (s32 (s32 (zlen s) + 1)) (s ++ [0]).
(** [None]: the null pointer. *)
Definition keep_string_opt (t : Z) (s : option (list Z)) (msg : nl_msg) : step_msg :=
  match s with Some s => keep_string t s msg | None => Fault end.
Definition keep_kind (t : Z) (k : link_string) (msg : nl_msg) : step_msg :=
  match k with Kind s => keep_string t s msg | NoString | Freed => Fault end.

(** Steps one after the other. *)
Fixpoint steps (l : list (nl_msg -> step_msg)) (msg : nl_msg) : step_msg :=
  match l with [] => mret (0, msg) | put :: l => next_msg (put msg) (steps l) end.

Definition rtnl_link_fill_info (l : link) : nl_msg -> step_msg :=
  let d := ce_data l in
  steps
    [keep_if (has_attr l LINK_ATTR_ADDR) (keep_put_addr IFLA_ADDRESS (l_addr d));
     keep_if (has_attr l LINK_ATTR_BRD) (keep_put_addr IFLA_BROADCAST (l_bcast d));
     keep_if (has_attr l LINK_ATTR_MTU) (keep_num 4 IFLA_MTU (l_mtu d));
     keep_if (has_attr l LINK_ATTR_TXQLEN) (keep_num 4 IFLA_TXQLEN (l_txqlen d));
     keep_if (has_attr l LINK_ATTR_WEIGHT) (keep_num 4 IFLA_WEIGHT (l_weight d));
     keep_if (has_attr l LINK_ATTR_IFNAME) (keep_string IFLA_IFNAME (l_name d));
     keep_if (has_attr l LINK_ATTR_OPERSTATE) (keep_num 1 IFLA_OPERSTATE (l_operstate d));
     keep_if (has_attr l LINK_ATTR_CARRIER) (keep_num 1 IFLA_CARRIER (l_carrier d));
     keep_if (has_attr l LINK_ATTR_LINKMODE) (keep_num 1 IFLA_LINKMODE (l_linkmode d));
     keep_if (has_attr l LINK_ATTR_IFALIAS) (keep_string_opt IFLA_IFALIAS (l_ifalias d));
     keep_if (has_attr l LINK_ATTR_LINK) (keep_num 4 IFLA_LINK (l_link d));
     keep_if (has_attr l LINK_ATTR_LINK_NETNSID) (keep_num 4 IFLA_LINK_NETNSID (l_link_netnsid d));
     keep_if (has_attr l LINK_ATTR_MASTER) (keep_num 4 IFLA_MASTER (l_master d));
     keep_if (has_attr l LINK_ATTR_NUM_TX_QUEUES) (keep_num 4 IFLA_NUM_TX_QUEUES (l_num_tx_queues d));
     keep_if (has_attr l LINK_ATTR_NUM_RX_QUEUES) (keep_num 4 IFLA_NUM_RX_QUEUES (l_num_rx_queues d));
     keep_if (has_attr l LINK_ATTR_NS_FD) (keep_num 4 IFLA_NET_NS_FD (l_ns_fd d));
     keep_if (has_attr l LINK_ATTR_NS_PID) (keep_num 4 IFLA_NET_NS_PID (l_ns_pid d))].

(** *** Families *)

Definition af_fill_bridge (l : link) (ops : rtnl_link_af_ops I A) (x : A) (msg : nl_msg) : step_msg :=
  match ao_fill_af ops with
  | None => mret (0, msg)
  | Some f => '(e, msg) ← f l x msg; mret (if e <? 0 then e else 0, msg)
  end.
Definition af_fill (l : link) (ops : rtnl_link_af_ops I A) (x : A) (msg : nl_msg) : step_msg :=
  match ao_fill_af ops with
  | None => mret (0, msg)
  | Some f =>
      if ao_fill_af_no_nest ops =? 0 then nested (Z.lor (ao_family ops) NLA_F_NESTED) (f l x) msg
      else '(e, msg) ← f l x msg; mret (if e <? 0 then e else 0, msg)
  end.
Definition af_fill_pi (l : link) (ops : rtnl_link_af_ops I A) (x : A) (msg : nl_msg) : step_msg :=
  match ao_fill_pi ops with
  | None => mret (0, msg)
  | Some f =>
      nested (if 0 <? ao_fill_pi_flags ops then Z.lor IFLA_PROTINFO (ao_fill_pi_flags ops) else IFLA_PROTINFO) (f l x) msg
  end.

(** *** The whole request *)

Definition put_info (l : link) : nl_msg -> step_msg :=
  let d := ce_data l in
  steps
    [keep_if (has_attr l LINK_ATTR_LINKINFO)
       (steps
          [keep_kind IFLA_INFO_KIND (l_info_kind d);
           fun msg =>
             if l_info_ops d =? 0 then mret (0, msg)
             else
               io ← get_info g (l_info_ops d);
               match io_put_attrs io with Some f => f l msg | None => mret (0, msg) end]);
     keep_if (has_attr l LINK_ATTR_LINKINFO_SLAVE_KIND) (keep_string_opt IFLA_INFO_SLAVE_KIND (l_info_slave_kind d))].

(** [pad2], [pad4]: the bytes between the members of the structures of virtual
    functions (see Sriov). *)
Definition link_msg_parts (pad2 pad4 : list Z) (bridge : bool) (l : link) : nl_msg -> step_msg :=
  let filler := if bridge then af_fill_bridge l else af_fill l in
  let d := ce_data l in
  steps
    [rtnl_link_fill_info l;
     keep_if (has_attr l LINK_ATTR_GROUP) (keep_num 4 IFLA_GROUP (l_group d));
     keep_if (has_attr l (Z.lor LINK_ATTR_LINKINFO LINK_ATTR_LINKINFO_SLAVE_KIND)) (nested IFLA_LINKINFO (put_info l));
     keep_if (has_attr l LINK_ATTR_VF_LIST) (rtnl_link_sriov_fill_vflist pad2 pad4 (l_vf_list d));
     do_foreach_af g l (af_fill_pi l);
     nested IFLA_AF_SPEC (do_foreach_af g l filler)].

(** Allocating, the header, and then [parts]; at nla_put_failure the message is
    freed. *)
Definition build_parts (c1 c2 : bool) (default_msg_size cmd flags : Z) (hdr : list Z) (parts : nl_msg -> step_msg)
    : exec (Z + nl_msg) :=
  msg ←! start_msg c1 c2 default_msg_size cmd flags hdr;
  '(e, msg) ← parts msg;
  if e <? 0 then nla_put_failure msg else ok msg.

Definition build_link_msg (c1 c2 : bool) (default_msg_size : Z) (pad2 pad4 : list Z) (cmd family index ifflags change : Z)
    (l : link) (flags : Z) : exec (Z + nl_msg) :=
  build_parts c1 c2 default_msg_size cmd flags (ifinfomsg family 0 index ifflags change)
    (link_msg_parts pad2 pad4 (u8 family =? AF_BRIDGE) l).

Definition rtnl_link_build_add_request c1 c2 default_msg_size pad2 pad4 (l : link) (flags : Z) : exec (Z + nl_msg) :=
  let d := ce_data l in
  build_link_msg c1 c2 default_msg_size pad2 pad4 RTM_NEWLINK (l_family d) (l_index d) (l_flags d) (l_flag_mask d) l flags.

(** The error or the message, and the changes: a name that is not changed is left
    out. *)
Definition same_name (orig changes : link) : bool :=
  has_attr orig LINK_ATTR_IFINDEX && has_attr orig LINK_ATTR_IFNAME && has_attr changes LINK_ATTR_IFNAME &&
  bool_decide (l_name (ce_data orig) = l_name (ce_data changes)).
Definition rtnl_link_build_change_request c1 c2 default_msg_size pad2 pad4 (orig changes : link) (flags : Z)
    : exec ((Z + nl_msg) * link) :=
  let o := ce_data orig in let d := ce_data changes in
  let set := has_attr changes LINK_ATTR_FLAGS in
  let ifflags := if set then Z.lor (clear_flag (l_flags o) (l_flag_mask d)) (l_flags d) else 0 in
  let change := if set then l_flag_mask d else 0 in
  if negb (l_family d =? 0) && negb (l_family d =? l_family o) then mret (inl (- NLE_IMMUTABLE), changes)
  else
    let changes := if same_name orig changes then Body (clear_flag (ce_mask changes) LINK_ATTR_IFNAME) d else changes in
    rt ← af_request_type g (l_family o) changes;
    r ← build_link_msg c1 c2 default_msg_size pad2 pad4 rt (l_family o) (l_index o) ifflags change changes flags;
    mret (r, changes).

Definition rtnl_link_build_delete_request (c1 c2 : bool) (default_msg_size : Z) (l : link) : exec (Z + nl_msg) :=
  if negb (has_attr l (Z.lor LINK_ATTR_IFINDEX LINK_ATTR_IFNAME)) then err NLE_MISSING_ATTR
  else
    build_parts c1 c2 default_msg_size RTM_DELLINK 0 (ifinfomsg 0 0 (l_index (ce_data l)) 0 0)
      (keep_if (has_attr l LINK_ATTR_IFNAME) (keep_string IFLA_IFNAME (l_name (ce_data l)))).
Definition rtnl_link_build_delete_request_af c1 c2 default_msg_size pad2 pad4 (l : link) : exec (Z + nl_msg) :=
  let d := ce_data l in
  if negb (has_attr l (Z.lor LINK_ATTR_IFINDEX LINK_ATTR_IFNAME)) then err NLE_MISSING_ATTR
  else build_link_msg c1 c2 default_msg_size pad2 pad4 RTM_DELLINK (l_family d) (l_index d) (l_flags d) 0 l 0.

(** [name]: [None] for the null pointer; [ifindex], [family]: ints. *)
Definition __rtnl_link_build_get_request (c1 c2 : bool) (default_msg_size ifindex : Z) (name : option (list Z)) (flags family : Z)
    : exec (Z + nl_msg) :=
  build_parts c1 c2 default_msg_size RTM_GETLINK flags
    (ifinfomsg family 0 (if 0 <? ifindex then ifindex else 0) 0 0)
    (steps [put_opt name (keep_string IFLA_IFNAME); keep_num 4 IFLA_EXT_MASK UINT32_MAX]).
Definition rtnl_link_build_get_request (c1 c2 : bool) (default_msg_size ifindex : Z) (name : option (list Z)) : exec (Z + nl_msg) :=
  if (ifindex <=? 0) && negb (is_some name) then err NLE_MISSING_ATTR
  else __rtnl_link_build_get_request c1 c2 default_msg_size ifindex name 0 AF_UNSPEC.
End Build.

(** ** Talking to the kernel *)

Section Requests.
Context {I A W : Type}.
Abbreviation rlink := (rtnl_link I A).
Abbreviation link := (body (rtnl_link I A)).
Variable g : link_reg I A.
Variable n : net W.
Variables pad2 pad4 : list Z.

(** A message that could be built is sent, and its acknowledgement awaited. *)
Definition send_built (build : exec (Z + nl_msg)) (p : port_map) (sk : nl_sock) (w : W)
    : exec (Z * nl_sock * port_map * W) :=
  r ← build;
  match r with inl e => mret (e, sk, p, w) | inr msg => net_send_sync n p sk msg w end.
Definition rtnl_link_add (p : port_map) (sk : nl_sock) (l : link) (flags : Z) (w : W) :=
  send_built (rtnl_link_build_add_request g (n_msg n) (n_buf n) (n_size n) pad2 pad4 l flags) p sk w.
Definition rtnl_link_delete (p : port_map) (sk : nl_sock) (l : link) (w : W) :=
  send_built (rtnl_link_build_delete_request (n_msg n) (n_buf n) (n_size n) l) p sk w.
Definition rtnl_link_delete_af (p : port_map) (sk : nl_sock) (l : link) (w : W) :=
  send_built (rtnl_link_build_delete_request_af g (n_msg n) (n_buf n) (n_size n) pad2 pad4 l) p sk w.

(** A kernel that does not support RTM_NEWLINK here is asked again with RTM_SETLINK;
    the request is sent at most twice. *)
Fixpoint change_rounds (rounds : nat) (p : port_map) (sk : nl_sock) (msg : nl_msg) (w : W)
    : exec (Z * nl_sock * nl_msg * port_map * W) :=
  match rounds with
  | O => NoFuel
  | S rounds =>
      '(e, sk, msg, p, w) ← net_send_auto n p sk msg w;
      if e <? 0 then mret (e, sk, msg, p, w)
      else
        '(e, sk, w) ← net_wait_for_ack n sk w;
        type ← nlmsg_type (nm_nlh msg) 0;
        if ((e =? - NLE_OPNOTSUPP) || (e =? - NLE_AF_NOSUPPORT)) && (type =? RTM_NEWLINK) then
          b ← set_nlmsg_type (nm_nlh msg) 0 RTM_SETLINK;
          b ← set_nlmsg_seq b 0 NL_AUTO_SEQ;
          change_rounds rounds p sk (set_buf msg b) w
        else mret (e, sk, msg, p, w)
  end.
Definition rtnl_link_change (rounds : nat) (p : port_map) (sk : nl_sock) (orig changes : link) (flags : Z) (w : W)
    : exec (Z * link * nl_sock * port_map * W) :=
  '(r, changes) ← rtnl_link_build_change_request g (n_msg n) (n_buf n) (n_size n) pad2 pad4 orig changes flags;
  match r with
  | inl e => mret (e, changes, sk, p, w)
  | inr msg =>
      seq ← nlmsg_seq (nm_nlh msg) 0;
      if negb (seq =? NL_AUTO_SEQ) then Bug
      else
        '(e, sk, msg, p, w) ← change_rounds rounds p sk msg w;
        _ ← nlmsg_free (Some msg);
        mret (e, changes, sk, p, w)
  end.

Definition link_request_update (c : nl_cache) (sk : nl_sock) (p : port_map) (w : W)
    : exec (Z * nl_sock * port_map * W) :=
  r ← __rtnl_link_build_get_request (n_msg n) (n_buf n) (n_size n) 0 None NLM_F_DUMP (c_iarg1 c);
  match r with
  | inl e => mret (e, sk, p, w)
  | inr msg =>
      '(e, sk, msg, p, w) ← net_send_auto n p sk msg w;
      _ ← nlmsg_free (Some msg);
      mret (e, sk, p, w)
  end.
End Requests.

(** ** The caches

    Objects of one kind, at [LINK_OPS], in caches of two types: rtnl_link_ops and
    rtnl_link_bridge_ops, at the addresses [link_type] and [bridge_type]. *)
Definition link_groups : list nl_af_group :=
  [{| ag_family := AF_UNSPEC; ag_group := RTNLGRP_LINK |}; {| ag_family := AF_BRIDGE; ag_group := RTNLGRP_LINK |}].
Definition link_bridge_groups : list nl_af_group := [{| ag_family := AF_BRIDGE; ag_group := RTNLGRP_LINK |}].
Definition link_msgtypes : list nl_msgtype :=
  [{| mt_id := RTM_NEWLINK; mt_act := NL_ACT_NEW; mt_name := str "new" |};
   {| mt_id := RTM_DELLINK; mt_act := NL_ACT_DEL; mt_name := str "del" |};
   {| mt_id := RTM_GETLINK; mt_act := NL_ACT_GET; mt_name := str "get" |};
   {| mt_id := RTM_SETLINK; mt_act := NL_ACT_CHANGE; mt_name := str "set" |}].
Definition LINK_OPS : Z := 1.
Definition rtnl_link_ops : nl_cache_ops :=
  {| co_name := Some (str "route/link"); co_hdrsize := 16; co_protocol := NETLINK_ROUTE; co_hash_size := 0;
     co_flags := 0; co_groups := Some link_groups; co_obj_ops := LINK_OPS; co_msgtypes := link_msgtypes |}.
Definition rtnl_link_bridge_ops : nl_cache_ops :=
  {| co_name := Some (str "route/link/bridge"); co_hdrsize := 16; co_protocol := NETLINK_ROUTE; co_hash_size := 0;
     co_flags := 0; co_groups := Some link_bridge_groups; co_obj_ops := LINK_OPS; co_msgtypes := link_msgtypes |}.

Section Caches.
Context {I A : Type}.
Abbreviation rlink := (rtnl_link I A).
Abbreviation link := (body (rtnl_link I A)).
Variable g : link_reg I A.
Variables link_type bridge_type : Z.
(** [c]: whether what an attribute needs can be allocated; [c0]: the object. *)
Variable c : Z -> bool.
Variable c0 : bool.

Definition link_ops_at (_ : Z) : nl_object_ops rlink := link_obj_ops g c.
Definition link_cops_at (a : Z) : nl_cache_ops := if a =? bridge_type then rtnl_link_bridge_ops else rtnl_link_ops.
Definition link_msg_parser : parser_t (D := rlink) :=
  object_parser link_ops_at link_0 c0 LINK_OPS (fun b => link_decode g c b (af_parse g b)).
Definition link_bridge_msg_parser : parser_t (D := rlink) :=
  object_parser link_ops_at link_0 c0 LINK_OPS (fun b => link_decode g c b (af_parse_bridge g b)).
Definition link_parser_at (a : Z) : parser_t (D := rlink) :=
  if a =? bridge_type then link_bridge_msg_parser else link_msg_parser.

Definition rtnl_link_alloc (h : heap rlink) := nl_object_alloc link_ops_at c0 link_0 h LINK_OPS.
Definition rtnl_link_put (h : heap rlink) (o : Z) := nl_object_put link_ops_at h (Some o).

(** A cache of links of either type. *)
Definition of_links (h : heap rlink) (cache : Z) : exec bool :=
  x ← get_cache h cache; mret ((c_ops x =? link_type) || (c_ops x =? bridge_type)).
Definition rtnl_link_get (h : heap rlink) (cache ifindex : Z) : exec (option Z * heap rlink) :=
  ok ← of_links h cache;
  if negb ok then mret (None, h)
  else find_item h cache (fun x => mret (l_index (ce_data (ce_body x)) =? u32 ifindex)).
Definition rtnl_link_get_by_name (h : heap rlink) (cache : Z) (name : list Z) : exec (option Z * heap rlink) :=
  ok ← of_links h cache;
  if negb ok then mret (None, h)
  else find_item h cache (fun x => mret (bool_decide (l_name (ce_data (ce_body x)) = name))).
(** [cache]: 0 for the null pointer; [m]: the types of caches. *)
Definition link_lookup (m : mngt) (h : heap rlink) (cache ifindex : Z) : exec (option Z * mngt * heap rlink) :=
  '(cache, m) ← (if cache =? 0 then __nl_cache_mngt_require m (str "route/link") else mret (cache, m));
  if cache =? 0 then mret (None, m, h)
  else '(o, h) ← rtnl_link_get h cache ifindex; mret (o, m, h).
(** Whether there is a name, and the buffer of [len] bytes with it. *)
Definition rtnl_link_i2name (h : heap rlink) (cache ifindex : Z) (dst : list Z) (len : Z)
    : exec (bool * list Z * heap rlink) :=
  '(o, h) ← rtnl_link_get h cache ifindex;
  match o with
  | None => mret (false, dst, h)
  | Some o =>
      x ← get_obj h o;
      dst ← strncpy dst (Some (l_name (ce_data (ce_body x)))) (u64 (len - 1));
      h ← rtnl_link_put h o;
      mret (true, dst, h)
  end.
Definition rtnl_link_name2i (h : heap rlink) (cache : Z) (name : list Z) : exec (Z * heap rlink) :=
  '(o, h) ← rtnl_link_get_by_name h cache name;
  match o with
  | None => mret (0, h)
  | Some o => x ← get_obj h o; h ← rtnl_link_put h o; mret (s32 (l_index (ce_data (ce_body x))), h)
  end.

Section Fill.
Context {V : Type}.
Variable f : filling rlink V.
Definition rtnl_link_alloc_cache_flags (family flags : Z) :=
  cache_init_fill f link_ops_at link_cops_at link_0 (fun _ => Some (link_request_update (f_net f))) link_parser_at
    (fun x => let x := nl_cache_set_arg1 x family in if negb (flags =? 0) then nl_cache_set_flags x flags else x)
    (fun h c => nl_cache_free link_ops_at h (Some c))
    (if family =? AF_BRIDGE then bridge_type else link_type).
Definition rtnl_link_alloc_cache (family : Z) := rtnl_link_alloc_cache_flags family 0.
End Fill.
End Caches.

(** ** One link from the kernel *)

Section Kernel.
Context {I A V : Type}.
Abbreviation rlink := (rtnl_link I A).
Abbreviation link := (body (rtnl_link I A)).
Abbreviation W := (world (pickup_param (D := rlink)) V).
Variable g : link_reg I A.
Variable c : Z -> bool.
Variable c0 : bool.
Variable n : net W.
Variable app : Z -> Z -> Z -> nl_msg -> V -> Z * V.
Variable app_err : Z -> Z -> sockaddr_nl -> list Z -> V -> Z * V.
Variables pad2 pad4 : list Z.

(** The parser, when it is called by the pickup functions: the link is handed to
    the callback and given back. *)
Definition link_answer_parser : pickup_parser (D := rlink) := fun who b cb s =>
  let with_heap h := {| pk_heap := h; pk_result := pk_result s; pk_syserror := pk_syserror s |} in
  '(r, h) ← rtnl_link_alloc g c c0 (pk_heap s);
  match r with
  | None => mret (- NLE_NOMEM, with_heap h)
  | Some o =>
      d ← link_decode g c b (af_parse g b);
      match d with
      | inl e => h ← rtnl_link_put g c h o; mret (e, with_heap h)
      | inr bd =>
          type ← nlmsg_type b 0;
          x ← get_obj h o;
          let h := put_obj h o {| ce_refcnt := ce_refcnt x; ce_ops := ce_ops x; ce_cache := ce_cache x;
                                  ce_msgtype := type; ce_flags := ce_flags x; ce_body := bd |} in
          s ← cb (with_heap h) h o;
          h ← rtnl_link_put g c (pk_heap s) o;
          mret (0, {| pk_heap := h; pk_result := pk_result s; pk_syserror := pk_syserror s |})
      end
  end.

Definition start_world (h : heap rlink) (v : V) : W :=
  World (Done {| pk_heap := h; pk_result := None; pk_syserror := 0 |}) v.
(** [name]: [None] for the null pointer.  The link is returned by its address. *)
Definition rtnl_link_get_kernel (p : port_map) (sk : nl_sock) (ifindex : Z) (name : option (list Z))
    (h : heap rlink) (v : V) : exec (Z * option Z * heap rlink * nl_sock * port_map * V) :=
  r ← rtnl_link_build_get_request (n_msg n) (n_buf n) (n_size n) ifindex name;
  match r with
  | inl e => mret (e, None, h, sk, p, v)
  | inr msg =>
      '(e, sk, msg, p, w) ← net_send_auto n p sk msg (start_world h v);
      _ ← nlmsg_free (Some msg);
      if e <? 0 then mret (e, None, h, sk, p, w_out w)
      else
        '(e, obj, syserr, h, sk, v) ←
          nl_pickup_keep_syserr app app_err (n_recvmsg n) (n_recv_ow n) (n_recvmsgs_ow n) (n_rfuel n) (n_mem n)
            (n_page_size n) (n_fuel n) (n_cb n) (n_msg n) (n_buf n) sk link_answer_parser h (w_out w) true;
        if e <? 0 then
          mret (if (syserr =? - EINVAL) && (ifindex <=? 0) && negb (bool_decide (default [] name = []))
                then - NLE_OPNOTSUPP else e, None, h, sk, p, v)
        else
          '(sk, v) ← (if (e =? 0) && is_some obj
                      then '(_, sk, w) ← net_wait_for_ack n sk (start_world h v); mret (sk, w_out w)
                      else mret (sk, v));
          mret (0, obj, h, sk, p, v)
  end.

(** The link for the request is given back at once; the one from the kernel when
    its master has been compared. *)
Definition rtnl_link_enslave_ifindex (rounds : nat) (p : port_map) (sk : nl_sock) (master slave : Z)
    (h : heap rlink) (v : V) : exec (Z * heap rlink * nl_sock * port_map * V) :=
  '(o, h) ← rtnl_link_alloc g c c0 h;
  match o with
  | None => mret (- NLE_NOMEM, h, sk, p, v)
  | Some o =>
      x ← get_obj h o;
      let l := rtnl_link_set_master (rtnl_link_set_ifindex (ce_body x) slave) master in
      '(e, l, sk, p, w) ← rtnl_link_change g n pad2 pad4 rounds p sk l l 0 (start_world h v);
      h ← rtnl_link_put g c (put_obj h o (with_body x l)) o;
      if e <? 0 then mret (e, h, sk, p, w_out w)
      else
        '(e, r, h, sk, p, v) ← rtnl_link_get_kernel p sk slave None h (w_out w);
        if e <? 0 then mret (e, h, sk, p, v)
        else
          match r with
          | None => Fault
          | Some r =>
              y ← get_obj h r;
              let e := if negb (rtnl_link_get_master (ce_body y) =? master) then - NLE_OPNOTSUPP else e in
              h ← rtnl_link_put g c h r;
              mret (e, h, sk, p, v)
          end
  end.
(** By the links themselves. *)
Definition rtnl_link_enslave rounds p sk (master slave : link) h v :=
  rtnl_link_enslave_ifindex rounds p sk (rtnl_link_get_ifindex master) (rtnl_link_get_ifindex slave) h v.
Definition rtnl_link_release_ifindex rounds p sk (slave : Z) h v :=
  rtnl_link_enslave_ifindex rounds p sk 0 slave h v.
Definition rtnl_link_release rounds p sk (slave : link) h v :=
  rtnl_link_release_ifindex rounds p sk (rtnl_link_get_ifindex slave) h v.
End Kernel.
