(* ===== verification/LinkProps.v ===== *)
(** What holds of the links that applications make (lib/route/link.c): requests that
    are always composed, keys that agree, copies and comparisons that end, and a
    parser that ends. *)
From S2P Require Import Prelude Errors Msg Attr Data CString Utils Addr Object Cache CacheInv ObjAttr Wire Build Rtnl Ends StepMsg Sriov LinkApi LinkReg Link LinkMsg.

Lemma has_attr_split {D} (b : body D) x y :
  has_attr b (Z.lor x y) = has_attr b x || has_attr b y.
Proof.
  unfold has_attr, has_flag. rewrite Z.land_lor_distr_r.
  destruct (Z.eqb_spec (Z.land (ce_mask b) x) 0) as [E|E], (Z.eqb_spec (Z.land (ce_mask b) y) 0) as [F|F]; simpl;
    rewrite ?negb_true_iff, ?negb_false_iff, ?Z.eqb_eq, ?Z.eqb_neq, Z.lor_eq_0_iff; tauto.
Qed.

Section LinkProps.
Context {I A : Type}.
Abbreviation rlink := (rtnl_link I A).
Abbreviation link := (body (rtnl_link I A)).
Variable g : link_reg I A.
(** What the data of the kind whose table is at an address, and of a family, are. *)
Variable data_ok : Z -> option I -> Prop.
Variable fam_ok : Z -> A -> Prop.

(** ** The registry at hand *)

(** What is registered is there, under its family and with its name. *)
Record reg_ok : Prop := {
  ro_size : zlen (af_ops g) = AF_MAX;
  ro_unspec : af_at g 0 = 0;
  ro_fam f : 0 <= f < AF_MAX -> af_at g f <> 0 -> exists o, r_afs g !! af_at g f = Some o /\ ao_family o = f;
  ro_kind a : a ∈ info_ops g -> exists o n, r_infos g !! a = Some o /\ io_name o = Some n
}.

(** ** Well-formed links *)

Definition text_ok (s : list Z) : Prop := bytes_ok s /\ zlen s <= 65530.
Record link_wf (l : link) : Prop := {
  lw_name : text_ok (l_name (ce_data l));
  lw_addr : addr_opt_ok (l_addr (ce_data l));
  lw_bcast : addr_opt_ok (l_bcast (ce_data l));
  lw_addr_attr : has_attr l LINK_ATTR_ADDR = true -> is_Some (l_addr (ce_data l));
  lw_bcast_attr : has_attr l LINK_ATTR_BRD = true -> is_Some (l_bcast (ce_data l));
  lw_alias : has_attr l LINK_ATTR_IFALIAS = true -> exists s, l_ifalias (ce_data l) = Some s /\ text_ok s;
  lw_kind : has_attr l LINK_ATTR_LINKINFO = true -> exists s, l_info_kind (ce_data l) = Kind s /\ text_ok s;
  lw_slave : has_attr l LINK_ATTR_LINKINFO_SLAVE_KIND = true -> exists s, l_info_slave_kind (ce_data l) = Some s /\ text_ok s;
  lw_vfs : has_attr l LINK_ATTR_VF_LIST = true -> is_Some (l_vf_list (ce_data l));
  lw_vf k : l_vf_list (ce_data l) = Some k -> Forall vf_ok k;
  lw_info :
    (l_info_ops (ce_data l) = 0 /\ l_info (ce_data l) = None) \/
    l_info_ops (ce_data l) <> 0 /\
    exists io, r_infos g !! l_info_ops (ce_data l) = Some io /\ (io_free io = None -> l_info (ce_data l) = None) /\
      data_ok (l_info_ops (ce_data l)) (l_info (ce_data l));
  lw_af : l_af_ops (ce_data l) = 0 \/ exists o, r_afs g !! l_af_ops (ce_data l) = Some o /\ 0 <= ao_family o < AF_MAX;
  lw_room : zlen (l_af_data (ce_data l)) = AF_MAX;
  lw_fams i x : l_af_data (ce_data l) !! i = Some (Some x) -> af_at g (Z.of_nat i) <> 0 /\ fam_ok (Z.of_nat i) x
}.

(** What the functions of kinds and families promise: a kind allocates and frees the
    data of the kind and nothing else, every family can allocate its data, and what
    they put into a message leaves the rest of it alone. *)
Record tables_ok : Prop := {
  to_alloc a io f l : r_infos g !! a = Some io -> io_alloc io = Some f ->
    exists x, (f l).2 = with_info l x /\ ((f l).1 < 0 \/ io_free io = None -> x = l_info (ce_data l)) /\
      (0 <= (f l).1 -> data_ok a x);
  to_none a io : r_infos g !! a = Some io -> io_alloc io = None -> data_ok a None;
  to_free a io f l : r_infos g !! a = Some io -> io_free io = Some f -> f l = with_info l None;
  to_put a io f l : r_infos g !! a = Some io -> io_put_attrs io = Some f -> link_wf l ->
    l_info_ops (ce_data l) = a -> safe (f l);
  to_af_alloc a o : r_afs g !! a = Some o ->
    exists f, ao_alloc o = Some f /\ forall l x, f l = Some x -> fam_ok (ao_family o) x;
  to_af_free a o f l x : r_afs g !! a = Some o -> ao_free o = Some f -> f l x = l;
  to_fill a o f l x : r_afs g !! a = Some o -> ao_fill_af o = Some f -> link_wf l ->
    fam_ok (ao_family o) x -> safe (f l x);
  to_fill_pi a o f l x : r_afs g !! a = Some o -> ao_fill_pi o = Some f -> link_wf l ->
    fam_ok (ao_family o) x -> safe (f l x)
}.

(** *** Looking up *)

Lemma af_slot_family f :
  reg_ok -> 0 <= f < AF_MAX ->
  af_slot g f = Done (af_at g f) /\ (af_at g f <> 0 -> exists o, r_afs g !! af_at g f = Some o /\ ao_family o = f).
Proof.
  intros Hr Hf. split; [|by apply (ro_fam Hr)]. unfold af_slot. rewrite (proj2 (Z.leb_le 0 f)) by lia.
  pose proof (ro_size Hr) as Hz. unfold zlen in Hz. unfold af_at.
  destruct (nth_lookup_or_length (af_ops g) (Z.to_nat f) 0) as [->|]; [done|lia].
Qed.
Lemma af_by_family_done f :
  reg_ok -> 0 <= f < 2 ^ 32 ->
  exists a, af_by_family g f = Done a /\ (f < AF_MAX -> a = af_at g f) /\
    (a <> 0 -> 0 < f < AF_MAX /\ exists o, r_afs g !! a = Some o /\ ao_family o = f).
Proof.
  intros Hr Hf. unfold af_by_family, rtnl_link_af_ops_lookup. rewrite u32_id by lia.
  destruct (af_out_of_range f) eqn:E; exec_simpl.
  - exists 0. split; [done|]. split; [|done]. intros Hlt. unfold af_out_of_range in E. apply orb_true_iff in E as [E|E].
    + apply Z.eqb_eq in E as ->. symmetry. exact (ro_unspec Hr).
    + apply Z.leb_le in E. lia.
  - unfold af_out_of_range, AF_UNSPEC in E. bool_hyps. destruct (af_slot_family f Hr) as [-> _]; [lia|].
    exec_simpl. destruct (Z.eqb_spec (af_at g f) 0) as [Ha|Ha].
    + exec_simpl. rewrite <- Ha. by exists (af_at g f).
    + destruct (ro_fam Hr f) as (o & Ho & Hfam); [lia|done|]. unfold af_ref, get_af. rewrite Ho. exec_simpl.
      exists (af_at g f). split; [done|]. split; [done|]. intros _. split; [lia|]. by exists o.
Qed.
Lemma info_by_name_done name :
  reg_ok -> exists a, info_by_name g name = Done a /\ (a = 0 \/ is_Some (r_infos g !! a)).
Proof.
  intros Hr. unfold info_by_name, rtnl_link_info_ops_lookup, __rtnl_link_info_ops_lookup.
  assert (exists a, find_info g (info_ops g) name = Done a /\ (a = 0 \/ is_Some (r_infos g !! a))) as (a & -> & Ha).
  { pose proof (ro_kind Hr) as Hk. induction (info_ops g) as [|a l IH]; [exists 0; by split; [|left]|].
    destruct (Hk a) as (o & n & Ho & Hn); [constructor|]. cbn [find_info]. unfold get_info. rewrite Ho. exec_simpl. rewrite Hn.
    case_bool_decide; [exists a; split; [done|right; by eexists]|]. apply IH. intros b Hb. apply Hk. by constructor. }
  exec_simpl. destruct (Z.eqb_spec a 0) as [->|Hne]; exec_simpl; [exists 0; by split; [|left]|].
  destruct Ha as [?|[o Ho]]; [done|]. unfold info_ref, get_info. rewrite Ho. exec_simpl. exists a. split; [done|right; by eexists].
Qed.

(** The loop over the data of families, when every step is safe. *)
Lemma foreach_af_safe l cb :
  reg_ok -> link_wf l -> (forall a o x, r_afs g !! a = Some o -> fam_ok (ao_family o) x -> safe (cb o x)) ->
  safe (do_foreach_af g l cb).
Proof.
  intros Hr Hw Hcb. unfold do_foreach_af. set (data := l_af_data (ce_data l)).
  assert (forall pre rest, data = pre ++ rest -> safe (fun m => foreach_af g cb rest (zlen pre) m)) as H; [|by apply (H [])].
  intros pre rest. revert pre. induction rest as [|[x|] rest IH]; intros pre Hd m Hm; cbn [foreach_af]; [by apply safe_at_done| |].
  - assert (data !! length pre = Some (Some x)) as Hx.
    { rewrite Hd. by rewrite lookup_app_r, Nat.sub_diag by lia. }
    pose proof (lw_fams l Hw _ _ Hx) as [Ha Hfam]. pose proof (lw_room l Hw) as Hz. apply lookup_lt_Some in Hx.
    fold data in Hz. unfold zlen in Hz. unfold AF_MAX in Hz. change (zlen pre) with (Z.of_nat (length pre)).
    destruct (af_by_family_done (Z.of_nat (length pre)) Hr) as (a & -> & Hat & Hno); [lia|]. exec_simpl. rewrite Hat in * by (unfold AF_MAX; lia).
    apply Z.eqb_neq in Ha as Ha'. rewrite Ha'. destruct (Hno Ha) as (_ & o & Ho & Hfo). unfold get_af. rewrite Ho. exec_simpl.
    apply safe_at_bind; [eapply Hcb; [exact Ho|by rewrite Hfo|done]|]. intros e m' [Hm' Hl _ _ _]. destruct (e <? 0); [by apply safe_at_done|].
    eapply safe_weaken; [exact Hl|]. replace (Z.of_nat (length pre) + 1) with (zlen (pre ++ [Some x])) by (by rewrite zlen_app).
    apply IH; [|done]. by rewrite Hd, <- app_assoc.
  - replace (zlen pre + 1) with (zlen (pre ++ [@None A])) by (by rewrite zlen_app).
    apply IH; [|done]. by rewrite Hd, <- app_assoc.
Qed.

(** ** Requests *)

Lemma text_safe t s : text_ok s -> safe (keep_string t s).
Proof.
  intros [Hb Hz]. pose proof (zlen_nonneg s). unfold keep_string. rewrite (s32_id (zlen s)), s32_id by lia. apply keep_put_safe; [|lia|].
  - apply bytes_ok_app. split; [done|]. by repeat constructor.
  - rewrite zlen_app. change (zlen [0]) with 1. lia.
Qed.
Lemma steps_safe l : Forall safe l -> safe (steps l).
Proof.
  intros Hl. induction Hl as [|put l Hp Hl IH]; intros m Hm; [by apply safe_at_done|]. cbn [steps].
  apply safe_next; [lia|by apply Hp|done].
Qed.

Lemma fill_info_safe l : link_wf l -> safe (rtnl_link_fill_info l).
Proof.
  intros Hw. unfold rtnl_link_fill_info. cbv zeta. apply steps_safe.
  repeat first [apply Forall_cons_2; [apply safe_if; intros Hattr|] | apply Forall_nil_2];
    try (unfold keep_num; by apply keep_word_safe).
  - destruct (lw_addr_attr l Hw Hattr) as [a Ha]. pose proof (lw_addr l Hw) as Hok. rewrite Ha in *. by apply keep_addr_safe.
  - destruct (lw_bcast_attr l Hw Hattr) as [a Ha]. pose proof (lw_bcast l Hw) as Hok. rewrite Ha in *. by apply keep_addr_safe.
  - apply text_safe, Hw.
  - destruct (lw_alias l Hw Hattr) as (s & -> & Hs). by apply text_safe.
Qed.
Lemma put_info_safe l : tables_ok -> link_wf l -> safe (put_info g l).
Proof.
  intros Ht Hw. unfold put_info. cbv zeta. apply steps_safe.
  apply Forall_cons_2; [|apply Forall_cons_2; [|apply Forall_nil_2]]; apply safe_if; intros Hattr.
  - destruct (lw_kind l Hw Hattr) as (s & Hk & Hs). apply steps_safe.
    apply Forall_cons_2; [rewrite Hk; by apply text_safe|]. apply Forall_cons_2; [|apply Forall_nil_2]. intros m Hm.
    destruct (Z.eqb_spec (l_info_ops (ce_data l)) 0) as [|Hne]; [by apply safe_at_done|].
    destruct (lw_info l Hw) as [[??]|(_ & io & Hio & _)]; [done|]. unfold get_info. rewrite Hio. exec_simpl.
    destruct (io_put_attrs io) eqn:Ef; [by eapply to_put|by apply safe_at_done].
  - destruct (lw_slave l Hw Hattr) as (s & -> & Hs). by apply text_safe.
Qed.
Lemma af_fills_safe l : reg_ok -> tables_ok -> link_wf l ->
  safe (do_foreach_af g l (af_fill_pi l)) /\ safe (do_foreach_af g l (af_fill l)) /\ safe (do_foreach_af g l (af_fill_bridge l)).
Proof.
  intros Hr Ht Hw. split_and!; (apply foreach_af_safe; [done..|]); intros a o x Ho Hx m Hm;
    unfold af_fill_pi, af_fill, af_fill_bridge.
  - destruct (ao_fill_pi o) eqn:Ef; [|by apply safe_at_done]. apply nested_safe; [|done]. by eapply to_fill_pi.
  - destruct (ao_fill_af o) eqn:Ef; [|by apply safe_at_done]. destruct (_ =? 0).
    + apply nested_safe; [|done]. by eapply to_fill.
    + apply safe_at_bind; [by eapply to_fill|]. intros e m' []. by apply safe_at_done.
  - destruct (ao_fill_af o) eqn:Ef; [|by apply safe_at_done].
    apply safe_at_bind; [by eapply to_fill|]. intros e m' []. by apply safe_at_done.
Qed.
Lemma msg_parts_safe pad2 pad4 bridge l :
  reg_ok -> tables_ok -> link_wf l -> pad_ok 2 pad2 -> pad_ok 4 pad4 -> safe (link_msg_parts g pad2 pad4 bridge l).
Proof.
  intros Hr Ht Hw H2 H4. destruct (af_fills_safe l Hr Ht Hw) as (Hpi & Haf & Hbr).
  unfold link_msg_parts. cbv zeta. apply steps_safe.
  repeat first [apply Forall_cons_2|apply Forall_nil_2].
  - by apply fill_info_safe.
  - apply safe_if. intros _. unfold keep_num. by apply keep_word_safe.
  - apply safe_if. intros _. by apply nested_safe, put_info_safe.
  - apply safe_if. intros Hv. destruct (lw_vfs l Hw Hv) as [k Hk]. rewrite Hk. apply sriov_fill_safe; [done..|].
    by apply (lw_vf l Hw).
  - done.
  - apply nested_safe. by destruct bridge.
Qed.

(** Composing ends, and what is composed begins with the headers. *)
Lemma build_parts_result c1 c2 size cmd flags hdr parts :
  size < 2147483648 -> bytes_ok hdr -> zlen hdr < 1073741824 -> safe parts ->
  exists r, build_parts c1 c2 size cmd flags hdr parts = Done r /\ request_result size cmd flags hdr r.
Proof.
  intros Hs Hb Hz Hp. destruct (start_msg_done c1 c2 size cmd flags hdr Hs Hb Hz) as ([e|m] & E & Hr);
    unfold build_parts; rewrite E; unfold run_or; exec_simpl; unfold build_result in Hr; cbn [total_room] in Hr.
  - exists (inl e). split; [done|]. unfold request_result. destruct Hr as [[_ ->]|(_ & _ & ->)]; done.
  - destruct Hr as (_ & Hroom & [(Hw & Hal & _) Hh Hn Hl Hsz Href]). cbn [total_room] in Hl. assert (aligned m) as Ha by done.
    pose proof (zlen_nonneg hdr). pose proof (align4_bounds (zlen hdr)).
    destruct (Hp m Ha) as (e & m' & -> & [Ha' Hl' Hs' Hr' Hk]). exec_simpl. destruct (Z.ltb_spec e 0).
    + unfold nla_put_failure. rewrite nlmsg_free_last by congruence. exec_simpl. by exists (inl (- NLE_MSGSIZE)).
    + exists (inr m'). split; [done|]. unfold request_result. split_and!; [done|lia|congruence|congruence| |].
      * unfold hdr_is, le_at in *. rewrite !Hk by lia. exact Hn.
      * by rewrite Hk by lia.
Qed.
Lemma ifinfomsg_ok family type index flags change :
  bytes_ok (ifinfomsg family type index flags change) /\ zlen (ifinfomsg family type index flags change) = 16.
Proof.
  unfold ifinfomsg. split; [|by rewrite !zlen_app, !zlen_le_encode].
  repeat (apply bytes_ok_app; split); auto with nl. apply Forall_cons_2; [apply u8_range|]. by apply Forall_cons_2.
Qed.
Lemma build_link_result c1 c2 size pad2 pad4 cmd family index ifflags change l flags :
  reg_ok -> tables_ok -> link_wf l -> pad_ok 2 pad2 -> pad_ok 4 pad4 -> size < 2147483648 ->
  exists r, build_link_msg g c1 c2 size pad2 pad4 cmd family index ifflags change l flags = Done r /\
    request_result size cmd flags (ifinfomsg family 0 index ifflags change) r.
Proof.
  intros Hr Ht Hw H2 H4 Hs. destruct (ifinfomsg_ok family 0 index ifflags change) as [Hb Hz].
  apply build_parts_result; [done|done|lia|]. by apply msg_parts_safe.
Qed.

(** ** Links that applications make *)

(** The attributes and members that requests depend on: the others can change. *)
Definition guarded_attrs : Z :=
  Z.lor LINK_ATTR_ADDR (Z.lor LINK_ATTR_BRD (Z.lor LINK_ATTR_IFALIAS (Z.lor LINK_ATTR_LINKINFO
    (Z.lor LINK_ATTR_LINKINFO_SLAVE_KIND LINK_ATTR_VF_LIST)))).
Definition parts (d : rlink) :=
  (l_name d, l_addr d, l_bcast d, (l_ifalias d, l_info_kind d, l_info_slave_kind d),
   (l_vf_list d, l_info_ops d, l_info d, l_af_ops d, l_af_data d)).

Lemma guarded_same (a b : link) attr :
  Z.land (ce_mask a) guarded_attrs = Z.land (ce_mask b) guarded_attrs -> Z.land guarded_attrs attr = attr ->
  has_attr a attr = has_attr b attr.
Proof.
  intros Hm Ha. unfold has_attr, has_flag. rewrite <- Ha, !Z.land_assoc, Hm. done.
Qed.
Lemma link_wf_same (a b : link) :
  Z.land (ce_mask a) guarded_attrs = Z.land (ce_mask b) guarded_attrs -> parts (ce_data a) = parts (ce_data b) ->
  link_wf a -> link_wf b.
Proof.
  intros Hm Hp [W1 W2 W3 W4 W5 W6 W7 W8 W9 W10 W11 W12 W13 W14]. injection Hp as E1 E2 E3 E4 E5 E6 E7 E8 E9 E10 E11.
  split; rewrite <- ?E1, <- ?E2, <- ?E3, <- ?E4, <- ?E5, <- ?E6, <- ?E7, <- ?E8, <- ?E9, <- ?E10, <- ?E11,
    <- ?(guarded_same a b _ Hm) by reflexivity; done.
Qed.
Lemma link_wf_number (l : link) attr (f : rlink -> rlink) :
  Z.land attr guarded_attrs = 0 -> parts (f (ce_data l)) = parts (ce_data l) -> link_wf l -> link_wf (set_l l attr f).
Proof.
  intros Ha Hp. apply link_wf_same; [|done]. cbn [set_l fill_attr ce_mask]. unfold set_flag.
  by rewrite Z.land_lor_distr_l, Ha, Z.lor_0_r.
Qed.

Lemma link_0_wf : link_wf (Body 0 link_0).
Proof.
  split; try done; cbn [ce_data link_0 l_info_ops l_af_ops l_af_data]; try by left.
  - split; [constructor|done].
  - intros i x H. apply list_elem_of_lookup_2, list_elem_of_In, repeat_spec in H. done.
Qed.

(** One attribute at a time: the others of the mask stay. *)
Lemma has_set_l (l : link) attr f attr' :
  Z.land attr attr' = 0 -> has_attr (set_l l attr f) attr' = has_attr l attr'.
Proof. apply has_fill_other. Qed.
Lemma has_clear (l : link) attr attr' (d : rlink) :
  Z.land attr attr' = 0 -> has_attr (Body (clear_flag (ce_mask l) attr) d) attr' = has_attr l attr'.
Proof. intros H. unfold has_attr. cbn [ce_mask]. by rewrite has_flag_clear_other. Qed.

(** Each condition is about a member that stays, or about the one that changes. *)
Ltac link_update Hw :=
  destruct Hw as [W1 W2 W3 W4 W5 W6 W7 W8 W9 W10 W11 W12 W13 W14]; split; unfold has_attr in *;
  cbn [set_l fill_attr ce_mask ce_data l_name l_addr l_bcast l_ifalias l_info_kind l_info_slave_kind l_vf_list
       l_info_ops l_info l_af_ops l_af_data] in *;
  rewrite ?has_flag_set_other, ?has_flag_clear_other, ?has_flag_clear by reflexivity; try done.

Lemma set_addr_wf l a : link_wf l -> addr_ok a -> link_wf (rtnl_link_set_addr l a).
Proof. intros Hw Ha. unfold rtnl_link_set_addr, __assign_addr, set_l_addr. link_update Hw. Qed.
Lemma set_broadcast_wf l a : link_wf l -> addr_ok a -> link_wf (rtnl_link_set_broadcast l a).
Proof. intros Hw Ha. unfold rtnl_link_set_broadcast, __assign_addr, set_l_bcast. link_update Hw. Qed.
Lemma take_text n s : bytes_ok s -> n <= 65530 -> text_ok (take (Z.to_nat n) s).
Proof. intros Hb Hn. split; [by apply Forall_take|]. unfold zlen. rewrite length_take. lia. Qed.
Lemma set_name_wf l s : link_wf l -> bytes_ok s -> link_wf (rtnl_link_set_name l s).
Proof. intros Hw Hs. unfold rtnl_link_set_name. link_update Hw. by apply take_text. Qed.
Lemma set_ifalias_wf l o : link_wf l -> (forall s, o = Some s -> text_ok s) -> link_wf (rtnl_link_set_ifalias true l o).
Proof.
  intros Hw Ho. destruct o as [s|]; unfold rtnl_link_set_ifalias; link_update Hw. intros _. exists s. auto.
Qed.
Lemma set_slave_type_wf c l o : link_wf l -> (forall s, o = Some s -> text_ok s) -> link_wf (rtnl_link_set_slave_type c l o).2.
Proof.
  intros Hw Ho. destruct o as [s|]; unfold rtnl_link_set_slave_type; [destruct c; [|done]|]; cbn [negb snd]; link_update Hw.
  intros _. exists s. auto.
Qed.
Lemma vf_add_wf c l v : link_wf l -> (forall x, v = Some x -> vf_ok x) -> link_wf (rtnl_link_vf_add c l v).2.
Proof.
  intros Hw Hv. destruct v as [v|]; [|done]. unfold rtnl_link_vf_add.
  destruct (match l_vf_list (ce_data l) with Some k => Some k | None => if c then Some [] else None end) as [k|] eqn:E; [|done].
  assert (Forall vf_ok (v :: k)) as Hk.
  { apply Forall_cons_2; [by apply Hv|]. destruct (l_vf_list (ce_data l)) eqn:El; [injection E as <-; by apply (lw_vf l Hw)|].
    destruct c; [by injection E as <-|done]. }
  cbn [snd]. unfold rtnl_link_set_vf_list, rtnl_link_has_vf_list. destruct (has_attr _ _) eqn:Ea; link_update Hw;
    by intros k' [= <-].
Qed.
Lemma set_vf_list_wf l : link_wf l -> is_Some (l_vf_list (ce_data l)) -> link_wf (rtnl_link_set_vf_list l).
Proof. intros Hw Hv. unfold rtnl_link_set_vf_list. destruct (rtnl_link_has_vf_list l); [done|]. link_update Hw. Qed.
Lemma unset_vf_list_wf l : link_wf l -> link_wf (rtnl_link_unset_vf_list l).
Proof. intros Hw. unfold rtnl_link_unset_vf_list. destruct (rtnl_link_has_vf_list l); [|done]. link_update Hw. Qed.

(** *** Kinds *)


(** *** Kinds *)

Lemma release_info_done l :
  tables_ok -> link_wf l ->
  exists l', release_link_info g l = Done l' /\ link_wf l' /\ l_info_ops (ce_data l') = 0 /\ l_info (ce_data l') = None /\
    ce_mask l' = ce_mask l.
Proof.
  intros Ht Hw. unfold release_link_info. cbv zeta.
  destruct (lw_info l Hw) as [[Ho Hi]|(Hne & io & Hio & Hf)]; [rewrite Ho; by exists l|].
  apply Z.eqb_neq in Hne as ->. unfold get_info. rewrite Hio. exec_simpl. destruct (io_free io) as [f|] eqn:Ef; exec_simpl.
  - rewrite (to_free Ht _ _ _ l Hio Ef). eexists. split; [done|]. split; [|done]. unfold with_info. link_update Hw. by left.
  - destruct Hf as [Hf _]. rewrite Hf by done. exec_simpl. eexists. split; [done|]. split; [|by rewrite Hf]. link_update Hw. left. by rewrite Hf.
Qed.

(** Setting the kind ends, unless the one before has been freed already. *)
Lemma set_type_done c l o :
  reg_ok -> tables_ok -> link_wf l -> l_info_kind (ce_data l) <> Freed -> (forall s, o = Some s -> text_ok s) ->
  exists e l', rtnl_link_set_type g c l o = Done (e, l') /\ link_wf l'.
Proof.
  intros Hr Ht Hw Hk Ho. unfold rtnl_link_set_type. cbv zeta.
  assert (exists k, free_kind (l_info_kind (ce_data l)) = Done k) as [k ->] by (destruct (l_info_kind (ce_data l)); [by eexists|done|by eexists]).
  exec_simpl. set (l0 := Body _ _). assert (link_wf l0) as Hw0 by (unfold l0; link_update Hw).
  destruct (release_info_done l0 Ht Hw0) as (l1 & -> & Hw1 & Ho1 & Hi1 & Hm1). exec_simpl.
  destruct o as [s|]; [|by exists 0, l1]. destruct c; cbn [negb]; [|by exists (- NLE_NOMEM), l1].
  destruct (info_by_name_done s Hr) as (a & -> & Ha). exec_simpl. specialize (Ho s eq_refl).
  destruct (Z.eqb_spec a 0) as [|Hne]; exec_simpl.
  - change (0 <? 0) with false. cbv iota. do 2 eexists. split; [done|]. link_update Hw1. intros _. by exists s.
  - destruct Ha as [?|[io Hio]]; [done|]. unfold get_info. rewrite Hio. exec_simpl. destruct (io_alloc io) as [f|] eqn:Ef; exec_simpl.
    + destruct (to_alloc Ht _ _ _ l1 Hio Ef) as (x & Hx & Hno & Hok). destruct (f l1) as [e l2]. cbn [fst snd] in *. subst l2.
      destruct (e <? 0) eqn:Ee; exec_simpl; rewrite Ee; do 2 eexists; (split; [done|]); unfold with_info.
      * apply Z.ltb_lt in Ee. rewrite Hno by (by left). link_update Hw1.
      * link_update Hw1; [intros _; by exists s|]. right. split; [done|]. exists io. split; [done|]. apply Z.ltb_ge in Ee.
        split; [|by apply Hok]. intros Hn. rewrite Hno by (by right). done.
    + change (0 <? 0) with false. cbv iota. do 2 eexists. split; [done|]. link_update Hw1; [intros _; by exists s|].
      right. split; [done|]. exists io. split; [done|]. split; [done|]. rewrite Hi1. by eapply to_none.
Qed.

(** *** Families *)

Lemma af_data_done (l : link) f : link_wf l -> 0 <= f < AF_MAX -> exists x, af_data l f = Done x.
Proof.
  intros Hw Hf. unfold af_data. rewrite (proj2 (Z.leb_le 0 f)) by lia. pose proof (lw_room l Hw) as Hz. unfold zlen in Hz.
  destruct (lookup_lt_is_Some_2 (l_af_data (ce_data l)) (Z.to_nat f)) as [x ->]; [lia|by exists x].
Qed.
Lemma set_af_data_wf l f x :
  link_wf l -> 0 <= f < AF_MAX -> (forall y, x = Some y -> af_at g f <> 0 /\ fam_ok f y) -> link_wf (set_af_data l f x).
Proof.
  intros Hw Hf Hx. unfold set_af_data. cbv zeta. link_update Hw.
  - unfold zlen in *. by rewrite length_insert.
  - intros i y Hy. destruct (decide (Z.to_nat f = i)) as [<-|Hne].
    + rewrite Z2Nat.id by lia. apply Hx. by apply list_lookup_insert_Some in Hy as [(_ & -> & _)|[? _]].
    + rewrite list_lookup_insert_ne in Hy by done. eauto.
Qed.
Lemma af_lookup_alloc_done l f :
  reg_ok -> tables_ok -> link_wf l -> 0 <= f < 2 ^ 32 ->
  exists a l', af_lookup_and_alloc g l f = Done (a, l') /\ link_wf l' /\ ce_mask l' = ce_mask l /\
    (a = 0 \/ 0 < f < AF_MAX /\ exists o, r_afs g !! a = Some o /\ ao_family o = f).
Proof.
  intros Hr Ht Hw Hf. unfold af_lookup_and_alloc. destruct (af_by_family_done f Hr Hf) as (a & -> & Hat & Ha). exec_simpl.
  destruct (Z.eqb_spec a 0) as [|Hne]; [exists 0, l; by split_and!; try left|].
  destruct (Ha Hne) as (Hrange & o & Ho & Hfam). unfold get_af. rewrite Ho. exec_simpl. unfold rtnl_link_af_alloc. rewrite Hfam.
  destruct (af_data_done l f Hw) as [x Hx]; [lia|]. rewrite Hx. exec_simpl. destruct x as [x|]; exec_simpl.
  - exists a, l. split_and!; try done. right. split; [done|]. by exists o.
  - destruct (to_af_alloc Ht _ _ Ho) as (f' & -> & Hok). exec_simpl. eexists _, _. split; [done|]. split; [|split; [done|]].
    + apply set_af_data_wf; [done|lia|]. intros y Hy. rewrite <- Hat by lia. split; [done|]. rewrite <- Hfam. by eapply Hok.
    + destruct (is_some (f' l)); [right|by left]. split; [done|]. by exists o.
Qed.
Lemma set_family_done l f :
  reg_ok -> tables_ok -> link_wf l -> 0 <= f < 2 ^ 32 -> exists l', rtnl_link_set_family g l f = Done l' /\ link_wf l'.
Proof.
  intros Hr Ht Hw Hf. unfold rtnl_link_set_family. set (l0 := set_l _ _ _). cbv zeta.
  assert (link_wf l0) as Hw0 by (unfold l0; by apply link_wf_number).
  assert (exists l1, clear_family g l0 = Done l1 /\ link_wf l1) as (l1 & -> & Hw1).
  { unfold clear_family. cbv zeta. destruct (lw_af l0 Hw0) as [->|(o & Ho & Hfam)]; [by exists l0|].
    destruct (Z.eqb_spec (l_af_ops (ce_data l0)) 0); [by exists l0|]. unfold get_af. rewrite Ho. exec_simpl.
    destruct (af_data_done l0 _ Hw0 Hfam) as [x ->]. exec_simpl. eexists. split; [done|].
    assert (match x with Some x => af_free l0 o x | None => l0 end = l0) as ->.
    { destruct x as [x|]; [|done]. unfold af_free. destruct (ao_free o) eqn:Ef; [|done]. by eapply to_af_free. }
    by apply set_af_data_wf. }
  exec_simpl. destruct (af_lookup_alloc_done l1 f Hr Ht Hw1 Hf) as (a & l2 & -> & Hw2 & _ & Ha). exec_simpl.
  eexists. split; [done|]. link_update Hw2. destruct Ha as [->|(Hrange & o & Ho & <-)]; [by left|]. right. exists o. split; [done|lia].
Qed.

(** *** What an application does to a link *)

Inductive link_op :=
| LkName (s : list Z) | LkGroup (v : Z) | LkAddr (a : nl_addr) | LkBroadcast (a : nl_addr) | LkFlags (v : Z)
| LkUnsetFlags (v : Z) | LkArptype (v : Z) | LkIfindex (v : Z) | LkMtu (v : Z) | LkTxqlen (v : Z) | LkLink (v : Z)
| LkNetnsid (v : Z) | LkMaster (v : Z) | LkCarrier (v : Z) | LkOperstate (v : Z) | LkLinkmode (v : Z)
| LkAlias (s : option (list Z)) | LkQdisc (s : list Z) | LkStat (id v : Z) | LkSlaveType (c : bool) (s : option (list Z))
| LkPromiscuity (v : Z) | LkTxQueues (v : Z) | LkRxQueues (v : Z) | LkNsFd (v : Z) | LkNsPid (v : Z) | LkWeight (v : Z)
| LkVfAdd (c : bool) (v : option vf) | LkVfList | LkNoVfList
| LkType (c : bool) (s : option (list Z)) | LkFamily (f : Z) | LkInfo (x : I).
Definition run_link_op (l : link) (op : link_op) : exec link :=
  match op with
  | LkName s => mret (rtnl_link_set_name l s)
  | LkGroup v => mret (rtnl_link_set_group l v)
  | LkAddr a => mret (rtnl_link_set_addr l a)
  | LkBroadcast a => mret (rtnl_link_set_broadcast l a)
  | LkFlags v => mret (rtnl_link_set_flags l v)
  | LkUnsetFlags v => mret (rtnl_link_unset_flags l v)
  | LkArptype v => mret (rtnl_link_set_arptype l v)
  | LkIfindex v => mret (rtnl_link_set_ifindex l v)
  | LkMtu v => mret (rtnl_link_set_mtu l v)
  | LkTxqlen v => mret (rtnl_link_set_txqlen l v)
  | LkLink v => mret (rtnl_link_set_link l v)
  | LkNetnsid v => mret (rtnl_link_set_link_netnsid l v).2
  | LkMaster v => mret (rtnl_link_set_master l v)
  | LkCarrier v => mret (rtnl_link_set_carrier l v)
  | LkOperstate v => mret (rtnl_link_set_operstate l v)
  | LkLinkmode v => mret (rtnl_link_set_linkmode l v)
  | LkAlias s => mret (rtnl_link_set_ifalias true l s)
  | LkQdisc s => mret (rtnl_link_set_qdisc l s)
  | LkStat id v => mret (rtnl_link_set_stat l id v).2
  | LkSlaveType c s => mret (rtnl_link_set_slave_type c l s).2
  | LkPromiscuity v => mret (rtnl_link_set_promiscuity l v)
  | LkTxQueues v => mret (rtnl_link_set_num_tx_queues l v)
  | LkRxQueues v => mret (rtnl_link_set_num_rx_queues l v)
  | LkNsFd v => mret (rtnl_link_set_ns_fd l v)
  | LkNsPid v => mret (rtnl_link_set_ns_pid l v)
  | LkWeight v => mret (rtnl_link_set_weight l v)
  | LkVfAdd c v => mret (rtnl_link_vf_add c l v).2
  | LkVfList => mret (rtnl_link_set_vf_list l)
  | LkNoVfList => mret (rtnl_link_unset_vf_list l)
  | LkType c s => '(_, l) ← rtnl_link_set_type g c l s; mret l
  | LkFamily f => rtnl_link_set_family g l f
  | LkInfo x => mret (with_info l (Some x))
  end.
(** What the application has to keep to: strings and addresses of the library's
    kinds, memory for a copy of the alias, a list before it is said to be there, and
    no second kind after the first has been taken away. *)
Definition link_op_ok (l : link) (op : link_op) : Prop :=
  match op with
  | LkName s => bytes_ok s
  | LkAddr a | LkBroadcast a => addr_ok a
  | LkAlias s | LkSlaveType _ s => forall x, s = Some x -> text_ok x
  | LkVfAdd _ v => forall x, v = Some x -> vf_ok x
  | LkVfList => is_Some (l_vf_list (ce_data l))
  | LkType _ s => l_info_kind (ce_data l) <> Freed /\ forall x, s = Some x -> text_ok x
  | LkFamily f => 0 <= f < 2 ^ 32
  | LkInfo x =>
      data_ok (l_info_ops (ce_data l)) (Some x) /\
      exists io, r_infos g !! l_info_ops (ce_data l) = Some io /\ is_Some (io_free io) /\ l_info_ops (ce_data l) <> 0
  | _ => True
  end.
Inductive link_made : link -> Prop :=
| link_made_alloc : link_made (Body 0 link_0)
| link_made_op l op l' : link_made l -> link_op_ok l op -> run_link_op l op = Done l' -> link_made l'.

Lemma link_op_done l op :
  reg_ok -> tables_ok -> link_wf l -> link_op_ok l op -> exists l', run_link_op l op = Done l' /\ link_wf l'.
Proof.
  intros Hr Ht Hw Ho. destruct op; cbn [run_link_op link_op_ok] in *;
    try (eexists; split; [reflexivity|]; by apply link_wf_number).
  - eexists. split; [done|]. by apply set_name_wf.
  - eexists. split; [done|]. by apply set_addr_wf.
  - eexists. split; [done|]. by apply set_broadcast_wf.
  - eexists. split; [done|]. by apply set_ifalias_wf.
  - eexists. split; [done|]. unfold rtnl_link_set_stat. destruct (_ <? _); [done|]. revert Hw. by apply link_wf_same.
  - eexists. split; [done|]. by apply set_slave_type_wf.
  - eexists. split; [done|]. by apply vf_add_wf.
  - eexists. split; [done|]. by apply set_vf_list_wf.
  - eexists. split; [done|]. by apply unset_vf_list_wf.
  - destruct Ho as [Hk Hs]. destruct (set_type_done c l s Hr Ht Hw Hk Hs) as (e & l' & -> & Hw'). exec_simpl. by exists l'.
  - by apply set_family_done.
  - destruct Ho as (Hok & io & Hio & Hf & Hne). eexists. split; [done|]. unfold with_info. link_update Hw. right. split; [done|].
    exists io. split; [done|]. split; [|done]. intros Hn. rewrite Hn in Hf. by destruct Hf.
Qed.
Lemma link_made_wf l : reg_ok -> tables_ok -> link_made l -> link_wf l.
Proof.
  intros Hr Ht H. induction H as [|l op l' _ Hw Ho Hrun]; [apply link_0_wf|].
  destruct (link_op_done l op Hr Ht Hw Ho) as (l2 & E & Hw2). congruence.
Qed.
End LinkProps.

(** ** Properties *)

(** C18. Requests about links that applications make are always composed: what the
    application does next to the link ends, and a request to add it (or one of any
    command, with any header) is an error, or a message that is well formed, has one
    owner and begins with the headers, whatever kinds and families that keep their
    promises have put in.  So no such link makes the library write outside the
    message, however many virtual functions it has.  The application keeps to
    [link_op_ok]: alias, kind and slave kind are texts of at most 65530 bytes (what
    the 16 bit length of an attribute can hold; a longer one is put with its length
    cut), there is memory for the copy of an alias, addresses and virtual functions
    are well formed, the data set are what the kind takes, a list of virtual
    functions is said to be there only where there is one, and the type is not set
    again after it was set to NULL, which leaves a pointer to the freed name. *)
Theorem link_requests_safe {I A} (g : link_reg I A) data_ok fam_ok l pad2 pad4 :
  reg_ok g -> tables_ok g data_ok fam_ok -> link_made g data_ok l -> pad_ok 2 pad2 -> pad_ok 4 pad4 ->
  (forall op, link_op_ok g data_ok l op -> exists l', run_link_op g l op = Done l' /\ link_wf g data_ok fam_ok l') /\
  forall c1 c2 size cmd family index ifflags change flags, size < 2147483648 ->
    exists r, build_link_msg g c1 c2 size pad2 pad4 cmd family index ifflags change l flags = Done r /\
      request_result size cmd flags (ifinfomsg family 0 index ifflags change) r.
Proof.
  intros Hr Ht Hl H2 H4. apply (link_made_wf g data_ok fam_ok) in Hl; [|done..]. split.
  - intros op Ho. by apply link_op_done.
  - intros. by apply (build_link_result g data_ok fam_ok).
Qed.

(** ** What the caches take for the same *)

Definition LINK_ID_ATTRS := Z.lor LINK_ATTR_IFINDEX LINK_ATTR_FAMILY.
Definition has_ids {I A} (l : body (rtnl_link I A)) : Prop := Z.land (ce_mask l) LINK_ID_ATTRS = LINK_ID_ATTRS.

Section Identity.
Context {I A : Type}.
Abbreviation rlink := (rtnl_link I A).
Abbreviation link := (body (rtnl_link I A)).
Variable g : link_reg I A.
Variable data_ok : Z -> option I -> Prop.
Variable fam_ok : Z -> A -> Prop.
Abbreviation link_wf := (link_wf g data_ok fam_ok).

Lemma done_inj {X} (x y : X) : Done x = Done y -> x = y.
Proof. congruence. Qed.
(** With the attributes that identify a link: only these are compared, and the data
    of a family only make the comparison end early. *)
Lemma compare_ids (a b : link) d :
  link_compare g a b LINK_ID_ATTRS ID_COMPARISON = Done d -> d = attr_diffs LINK_ID_ATTRS a b (link_diffs a b ID_COMPARISON).
Proof.
  unfold link_compare, lazy_diff. cbv zeta.
  assert (forall attr, has_flag LINK_ID_ATTRS attr = false -> forall e, ATTR_DIFF LINK_ID_ATTRS attr a b e = 0) as Hno
    by (intros attr H e; unfold ATTR_DIFF; by rewrite H).
  change (has_flag LINK_ID_ATTRS LINK_ATTR_IFALIAS) with false. change (has_flag LINK_ID_ATTRS LINK_ATTR_LINKINFO) with false.
  cbn [andb]. exec_simpl. rewrite (Hno LINK_ATTR_IFALIAS), (Hno LINK_ATTR_LINKINFO) by done.
  intros (r & _ & H)%bind_inv. rewrite (Hno LINK_ATTR_PROTINFO) in H by done. destruct (negb (r =? 0)); apply done_inj in H; by rewrite <- H, !Z.lor_0_r.
Qed.
Lemma id_diffs (a b : link) : has_ids a -> has_ids b ->
  attr_diffs LINK_ID_ATTRS a b (link_diffs a b ID_COMPARISON) = 0 <->
  l_index (ce_data a) = l_index (ce_data b) /\ l_family (ce_data a) = l_family (ce_data b).
Proof.
  intros Ha Hb. split.
  - intros Hd. assert (forall attr e, (attr, e) ∈ link_diffs a b ID_COMPARISON -> has_flag LINK_ID_ATTRS attr = true -> e = false) as H
      by (intros attr e Hin Hf; exact (diff_none _ _ _ _ attr e Hd Ha Hb Hin Hf)).
    pose proof (H LINK_ATTR_IFINDEX _ ltac:(constructor) eq_refl) as H1.
    pose proof (H LINK_ATTR_FAMILY (negb (l_family (ce_data a) =? l_family (ce_data b))) ltac:(unfold link_diffs; set_solver) eq_refl) as H2.
    apply negb_false_iff, Z.eqb_eq in H1, H2. done.
  - intros [Hi Hf]. apply attr_diffs_zero. unfold link_diffs. cbv zeta. rewrite Hi, Hf, !Z.eqb_refl.
    repeat first [apply Forall_cons_2; [try (intros H; discriminate H)|] | apply Forall_nil_2]; intros _;
      cbn [fst snd negb]; unfold ATTR_MISMATCH; rewrite andb_false_r, orb_false_r; unfold AVAILABLE_MISMATCH, has_flag;
      apply negb_false_iff, Z.eqb_eq; unfold has_ids in *; apply Z.bits_inj'; intros i Hi'; rewrite Z.land_spec, Z.lxor_spec, Z.bits_0;
      pose proof (f_equal (fun z => Z.testbit z i) Ha) as Ea; pose proof (f_equal (fun z => Z.testbit z i) Hb) as Eb;
      cbv beta in Ea, Eb; rewrite Z.land_spec in Ea, Eb; unfold LINK_ID_ATTRS in Ea, Eb; rewrite Z.lor_spec in Ea, Eb;
      destruct (Z.testbit LINK_ATTR_IFINDEX i), (Z.testbit LINK_ATTR_FAMILY i), (Z.testbit (ce_mask a) i), (Z.testbit (ce_mask b) i); done.
Qed.
Lemma identical_inv c (a b : link) :
  identical_by (link_obj_ops g c) a b = true ->
  has_ids a /\ has_ids b /\ l_index (ce_data a) = l_index (ce_data b) /\ l_family (ce_data a) = l_family (ce_data b).
Proof.
  unfold identical_by. cbv zeta beta. cbn [link_obj_ops oo_id_attrs_get oo_id_attrs oo_compare]. fold LINK_ID_ATTRS.
  change (if negb (LINK_ID_ATTRS =? 0) then LINK_ID_ATTRS else UINT32_MAX) with LINK_ID_ATTRS.
  change (LINK_ID_ATTRS =? UINT32_MAX) with false. cbv iota.
  destruct (Z.eqb_spec (Z.land (ce_mask a) LINK_ID_ATTRS) LINK_ID_ATTRS) as [Ha|]; [|done].
  destruct (Z.eqb_spec (Z.land (ce_mask b) LINK_ID_ATTRS) LINK_ID_ATTRS) as [Hb|]; [|done]. cbn [negb orb].
  destruct (link_compare g a b LINK_ID_ATTRS ID_COMPARISON) as [d| | |] eqn:E; try done. intros Hd%Z.eqb_eq. subst d.
  apply compare_ids in E. symmetry in E. apply id_diffs in E; [|done..]. done.
Qed.

(** Comparing what families have added ends. *)
Lemma af_compare_done (a b : link) f :
  reg_ok g -> link_wf a -> link_wf b -> 0 <= f < AF_MAX -> exists r, rtnl_link_af_data_compare g a b f = Done r.
Proof.
  intros Hr Ha Hb Hf. unfold rtnl_link_af_data_compare.
  destruct (af_data_done g data_ok fam_ok a f Ha Hf) as [x ->]. destruct (af_data_done g data_ok fam_ok b f Hb Hf) as [y ->]. exec_simpl.
  destruct x as [x|], y as [y|]; try by eexists. unfold rtnl_link_af_ops_lookup. rewrite u32_id by (unfold AF_MAX in *; lia).
  destruct (af_out_of_range f); exec_simpl; [by eexists|].
  destruct (af_slot_family g f Hr Hf) as [-> Hfam]. exec_simpl. destruct (Z.eqb_spec (af_at g f) 0) as [E|E]; exec_simpl; [by eexists|].
  destruct (Hfam E) as (o & Ho & _). apply Z.eqb_neq in E. unfold rtnl_link_af_ops_put, af_ref, get_af. rewrite Ho. exec_simpl.
  rewrite E. cbn [set_af r_afs]. rewrite lookup_insert_eq. exec_simpl.
  by eexists.
Qed.
Lemma identical_intro c (a b : link) :
  reg_ok g -> link_wf a -> link_wf b -> has_ids a -> has_ids b -> 0 <= l_family (ce_data a) < AF_MAX ->
  l_index (ce_data a) = l_index (ce_data b) -> l_family (ce_data a) = l_family (ce_data b) ->
  identical_by (link_obj_ops g c) a b = true.
Proof.
  intros Hr Ha Hb Hia Hib Hf Hi Hfam. unfold identical_by. cbv zeta beta. cbn [link_obj_ops oo_id_attrs_get oo_id_attrs oo_compare].
  fold LINK_ID_ATTRS. change (if negb (LINK_ID_ATTRS =? 0) then LINK_ID_ATTRS else UINT32_MAX) with LINK_ID_ATTRS.
  change (LINK_ID_ATTRS =? UINT32_MAX) with false. cbv iota. rewrite Hia, Hib, Z.eqb_refl. cbn [negb orb].
  assert (exists d, link_compare g a b LINK_ID_ATTRS ID_COMPARISON = Done d) as [d E].
  { unfold link_compare, lazy_diff. cbv zeta. change (has_flag LINK_ID_ATTRS LINK_ATTR_IFALIAS) with false.
    change (has_flag LINK_ID_ATTRS LINK_ATTR_LINKINFO) with false. cbn [andb]. exec_simpl.
    rewrite Hfam, Z.eqb_refl. rewrite Hfam in Hf. rewrite s32_id by (unfold AF_MAX in *; lia).
    destruct (af_compare_done a b _ Hr Ha Hb Hf) as [r ->]. exec_simpl. destruct (negb _); by eexists. }
  rewrite E. apply compare_ids in E. apply Z.eqb_eq. rewrite E. by apply id_diffs.
Qed.
End Identity.

(** C20. Links that the caches take for the same have the same key, so that looking
    one up in the hash table of a cache finds the other; and for links that
    applications make, with an index and a family in range, being the same is having
    the same index and the same family, whatever a kind, a family or the other
    attributes say. *)
Theorem link_identity {I A} (g : link_reg I A) data_ok fam_ok c a b :
  (identical_by (link_obj_ops g c) a b = true -> forall n, link_keygen a n = link_keygen b n) /\
  (reg_ok g -> tables_ok g data_ok fam_ok -> link_made g data_ok a -> link_made g data_ok b -> has_ids a -> has_ids b ->
   0 <= l_family (ce_data a) < AF_MAX ->
   identical_by (link_obj_ops g c) a b = true <->
   l_index (ce_data a) = l_index (ce_data b) /\ l_family (ce_data a) = l_family (ce_data b)).
Proof.
  split.
  - intros (_ & _ & Hi & Hf)%identical_inv n. unfold link_keygen. by rewrite Hi, Hf.
  - intros Hr Ht Ha%(link_made_wf g data_ok fam_ok) Hb%(link_made_wf g data_ok fam_ok) Hia Hib Hf; [|done..]. split.
    + by intros (_ & _ & H)%identical_inv.
    + intros [Hi Hfam]. by apply (identical_intro g data_ok fam_ok).
Qed.

(** ** The parser ends *)

Section Ends.
Context {I A : Type}.
Abbreviation rlink := (rtnl_link I A).
Abbreviation link := (body (rtnl_link I A)).
Variable g : link_reg I A.
Variable c : Z -> bool.
Variable b : list Z.
Hypothesis Hb : bytes_ok b.

(** The parsers of kinds and families end. *)
Record tables_end : Prop := {
  te_kind a io f l data xstats : r_infos g !! a = Some io -> io_parse io = Some f -> ends (f b l data xstats);
  te_af a o f l nla x : r_afs g !! a = Some o -> ao_parse_af o = Some f -> ends (f b l nla x);
  te_pi a o f l nla x : r_afs g !! a = Some o -> ao_parse_protinfo o = Some f -> ends (f b l nla x)
}.
Hypothesis Ht : tables_end.

Lemma ends_get_info a (k : rtnl_link_info_ops I A -> exec (Z + link)) :
  (forall io, r_infos g !! a = Some io -> ends (k io)) -> ends (io ← get_info g a; k io).
Proof. intros Hk. unfold get_info. destruct (r_infos g !! a) eqn:E; [by apply Hk|done]. Qed.
Lemma ends_get_af {X} a (k : rtnl_link_af_ops I A -> exec X) :
  (forall o, r_afs g !! a = Some o -> ends (k o)) -> ends (o ← get_af g a; k o).
Proof. intros Hk. unfold get_af. destruct (r_afs g !! a) eqn:E; [by apply Hk|done]. Qed.
Lemma ends_find_info l name : ends (find_info g l name).
Proof.
  induction l as [|a l IH]; [done|]. cbn [find_info]. unfold get_info. destruct (r_infos g !! a) as [o|]; [|done]. exec_simpl.
  destruct (io_name o); [|done]. by case_bool_decide.
Qed.
Lemma ends_by_name name : ends (info_by_name g name).
Proof.
  unfold info_by_name, rtnl_link_info_ops_lookup, __rtnl_link_info_ops_lookup, info_ref, get_info. ends_steps. apply ends_find_info.
Qed.
Lemma ends_lookup_alloc l f : ends (af_lookup_and_alloc g l f).
Proof.
  unfold af_lookup_and_alloc, af_by_family, rtnl_link_af_ops_lookup, af_ref, af_slot, get_af, rtnl_link_af_alloc, af_data. ends_steps.
Qed.
Lemma ends_set_type cc l o : ends (rtnl_link_set_type g cc l o).
Proof.
  unfold rtnl_link_set_type, free_kind, release_link_info, get_info. ends_steps; try apply ends_by_name.
Qed.

Lemma ends_get_u64 d i : ends (get_u64 d i).
Proof. apply ends_bind; [apply ends_load|done]. Qed.
Lemma ends_strlcpy nla n : ends (attr_strlcpy b nla n).
Proof. unfold attr_strlcpy, nla_strlcpy. ends_steps. Qed.
Lemma ends_strdup nla : ends (nla_strdup b nla).
Proof. apply ends_c_string. Qed.
Lemma ends_stats get k d pos ids st : (forall i, ends (get d i)) -> ends (stats_from get k d pos ids st).
Proof. intros Hg. revert pos st. induction ids as [|i ids IH]; intros; [done|]. cbn [stats_from]. by apply ends_bind. Qed.
Lemma ends_link_attr {T} tb t attr (get : Z -> exec T) set (l : link) :
  (forall nla, ends (get nla)) -> ends (link_attr tb t attr get set l).
Proof. intros Hg. apply ends_if_attr. intros nla. by apply ends_bind. Qed.
Lemma ends_number nla : ends (nla_get_u32 b nla) /\ ends (nla_get_u8 b nla) /\ ends (nla_get_s32 b nla).
Proof. split_and!; [apply ends_u32|apply ends_u8|]. unfold nla_get_s32. apply ends_bind; [apply ends_u32|done]. Qed.
Lemma ends_link_addr tb t attr set (l : link) : ends (link_addr c b tb t attr set l).
Proof. apply ends_if_attr_or. intros nla _. apply ends_run_or; [apply ends_addr_of_attr|done]. Qed.
Lemma ends_link_data tb t attr set (l : link) : ends (link_data c b tb t attr set l).
Proof. apply ends_if_attr_or. intros nla _. unfold nl_data_alloc_attr, nl_data_alloc. ends_steps. Qed.
Lemma ends_stats32 nla (l : link) : ends (stats32 b nla l).
Proof. unfold stats32. apply ends_bind; [apply ends_stats, ends_u32|]. intros st. ends_steps. Qed.
Lemma ends_stats64 nla (l : link) : ends (stats64 b nla l).
Proof.
  unfold stats64. apply ends_pair; [apply ends_memcpy|]. intros n s. apply ends_bind; [apply ends_stats, ends_get_u64|done].
Qed.

Ltac ends_members := repeat first
  [ apply ends_run_or; [first [apply ends_link_addr|apply ends_link_data]|intros ?]
  | apply ends_bind; [apply ends_link_attr; intros ?; first [apply ends_strlcpy|apply ends_number]|intros ?] ].
Lemma ends_info_parse (l : link) tb : ends (rtnl_link_info_parse c b l tb).
Proof.
  unfold rtnl_link_info_parse. apply ends_bind; [apply ends_tb_at|]. intros [nla|]; [|done].
  apply ends_bind; [apply ends_strlcpy|]. intros s.
  apply ends_bind; [apply ends_if_attr; intros; apply ends_stats32|]. intros ?.
  apply ends_bind; [apply ends_if_attr; intros; apply ends_stats64|]. intros ?. ends_members.
  apply ends_bind; [|intros ?; ends_members].
  { apply ends_if_attr. intros. apply ends_pair; [apply ends_memcpy|done]. }
  apply ends_run_or; [|intros ?; ends_members; done].
  apply ends_if_attr_or. intros. apply ends_bind; [apply ends_strdup|]. ends_steps.
Qed.

Lemma ends_run_af (f : list Z -> link -> Z -> A -> exec (Z * link * A)) family nla l : (forall l nla x, ends (f b l nla x)) -> ends (run_af b f family nla l).
Proof. intros Hf. unfold run_af, af_data. ends_steps. Qed.
Lemma ends_af_one l nla : ends (af_parse_one g b l nla).
Proof.
  unfold af_parse_one. apply ends_bind; [apply ends_bind; [apply ends_u16|done]|]. intros f.
  apply ends_pair; [apply ends_lookup_alloc|]. intros a l'. destruct (_ =? 0); [done|]. apply ends_get_af. intros o Ho.
  destruct (ao_parse_af o) eqn:Ef; [|done]. apply ends_bind; [apply ends_run_af; intros; by eapply te_af|done].
Qed.
Lemma ends_af_parse l nla : ends (af_parse g b l nla).
Proof.
  unfold af_parse. apply ends_bind; [|by intros []]. apply ends_for_each_nested; [done|]. intros. apply ends_af_one.
Qed.
Lemma ends_af_bridge l nla : ends (af_parse_bridge g b l nla).
Proof.
  unfold af_parse_bridge. apply ends_pair; [apply ends_lookup_alloc|]. intros a l'. apply ends_run_or; [|done].
  destruct (_ =? 0); [done|]. apply ends_get_af. intros o Ho.
  destruct (ao_parse_af o) eqn:Ef; [|done]. apply ends_run_af. intros. by eapply te_af.
Qed.
Lemma ends_kind_parse li kind l : ends (kind_parse g b li kind l).
Proof.
  unfold kind_parse. apply ends_bind; [apply ends_by_name|]. intros io. destruct (_ =? 0); [done|]. unfold get_info.
  destruct (r_infos g !! io) as [o|] eqn:Eo; [|done]. exec_simpl.
  apply ends_bind; [apply ends_tb_at|]. intros data. apply ends_bind; [apply ends_tb_at|]. intros xs.
  destruct (io_parse o) eqn:Ef; [|done]. destruct (_ || _); [|done]. apply ends_pair; [by eapply te_kind|]. ends_steps.
Qed.
Lemma ends_link_kind li nla s : ends (link_kind g c b li nla s).
Proof.
  unfold link_kind. destruct s as [[l af] wild]. apply ends_bind; [apply ends_strdup|]. intros kind.
  apply ends_pair; [apply ends_set_type|]. intros e l1. destruct (e <? 0); [done|]. apply ends_bind.
  - unfold kind_family. destruct (_ && _); [|done]. apply ends_pair; [apply ends_lookup_alloc|]. intros a l2.
    destruct (_ =? 0); [done|]. by apply ends_get_af.
  - intros [[l2 af2] wild2]. apply ends_run_or; [apply ends_kind_parse|done].
Qed.
Lemma ends_link_info nla s : ends (link_info g c b nla s).
Proof.
  unfold link_info. apply ends_pair; [by apply ends_nested|]. intros e li. destruct (e <? 0); [done|].
  apply ends_run_or; [apply ends_if_attr_or; intros; apply ends_link_kind|]. intros s2. apply ends_if_attr_or. intros nla2 _.
  unfold link_slave_kind. destruct s2 as [[l2 af2] wild2]. apply ends_bind; [apply ends_strdup|]. intros kind.
  destruct (rtnl_link_set_slave_type _ _ _). by destruct (_ <? 0).
Qed.
Lemma ends_protinfo tb s : ends (link_protinfo g b tb s).
Proof.
  unfold link_protinfo. destruct s as [[l af] wild]. apply ends_bind; [apply ends_tb_at|]. intros p.
  destruct (_ && _); [|done]. apply ends_get_af. intros o Ho. destruct (ao_parse_protinfo o) eqn:Ef; [|done].
  destruct wild; [done|]. destruct p; [|done]. apply ends_run_or; [apply ends_run_af; intros; by eapply te_pi|done].
Qed.
Lemma ends_link_vfs tb (l : link) : ends (link_vfs c b tb l).
Proof.
  unfold link_vfs. apply ends_if_attr_or. intros nla _. apply ends_bind; [apply ends_u32|]. intros n. destruct (n =? 0); [done|].
  apply ends_if_attr_or. intros nla2 _. apply ends_pair; [by apply ends_parse_vflist|]. ends_steps.
Qed.
Lemma ends_link_decode af_parser : (forall l nla, ends (af_parser l nla)) -> ends (link_decode g c b af_parser).
Proof.
  intros Haf. unfold link_decode. apply ends_bind; [unfold nlmsg_valid_hdr, nlmsg_len; ends_steps|]. intros v. destruct (negb v); [done|].
  do 5 (apply ends_bind; [first [apply ends_u8|apply ends_u16|apply ends_u32]|]; intros ?).
  apply ends_pair; [apply ends_lookup_alloc|]. intros af l. apply ends_pair; [destruct (_ =? 0); [done|by apply ends_get_af]|].
  intros p l1. apply ends_pair; [by apply ends_nlmsg_parse|]. intros e tb. destruct (e <? 0); [done|].
  apply ends_run_or; [apply ends_info_parse|]. intros l2. apply ends_run_or; [apply ends_link_vfs|]. intros l3.
  apply ends_run_or; [apply ends_if_attr_or; intros; apply ends_link_info|]. intros s.
  apply ends_run_or; [apply ends_protinfo|]. intros l4. apply ends_run_or; [by apply ends_if_attr_or|]. intros l5.
  unfold link_rest. ends_members. apply ends_link_data.
Qed.
End Ends.

(** C21. The parser of links ends for every message: with a link, an error, or a read
    outside the message; the loops over attributes, families and virtual functions
    always get on, whatever the lengths in the message say, as long as the parsers of
    kinds and families do. *)
Theorem link_parse_terminates {I A} (g : link_reg I A) c b :
  bytes_ok b -> tables_end g b ->
  link_decode g c b (af_parse g b) <> NoFuel /\ link_decode g c b (af_parse_bridge g b) <> NoFuel.
Proof.
  intros Hb Ht. split; apply ends_link_decode; [done..| |done|done|]; intros; [by apply ends_af_parse|by apply ends_af_bridge].
Qed.

(** ** What modelling showed *)

(** A kind that is taken away twice, or set after it has been taken away, or a link
    that is freed then: the string is freed a second time. *)
Lemma type_freed_twice {I A} (g : link_reg I A) c m d s o :
  l_info_kind d = Kind s -> l_info_ops d = 0 ->
  exists l, rtnl_link_set_type g c (Body m d) None = Done (0, l) /\ rtnl_link_set_type g c l o = Fault /\ link_free_data g l = Fault.
Proof.
  intros Hk Ho. unfold rtnl_link_set_type at 1, release_link_info. cbv zeta. cbn [ce_data ce_mask]. rewrite Hk. cbn [free_kind]. exec_simpl.
  cbn [ce_data l_info_ops]. rewrite Ho. exec_simpl. eexists. split; [done|]. split; [done|].
  done.
Qed.
(** A family whose table says nothing about the type of requests: asking for it goes
    through a null pointer. *)
Lemma change_request_null {I A} (g : link_reg I A) f (changes : body (rtnl_link I A)) o :
  reg_ok g -> 0 < f < AF_MAX -> af_at g f <> 0 -> r_afs g !! af_at g f = Some o -> ao_override_rtm o = None ->
  af_request_type g f changes = Fault.
Proof.
  intros Hr Hf Ha Ho Hno. unfold af_request_type. destruct (af_by_family_done g f Hr) as (a & -> & Hat & _); [unfold AF_MAX in *; lia|].
  exec_simpl. rewrite Hat by lia. apply Z.eqb_neq in Ha as ->. unfold get_af. rewrite Ho. exec_simpl. by rewrite Hno.
Qed.
(** A list of virtual functions that is said to be there before one has been added:
    it is read through a null pointer. *)
Lemma vf_list_null : let l := rtnl_link_set_vf_list (Body 0 link_0 : body (rtnl_link Z Z)) in
  rtnl_link_has_vf_list l = true /\ keep_if (rtnl_link_has_vf_list l) (rtnl_link_sriov_fill_vflist [] [] (l_vf_list (ce_data l))) ex_room = Fault.
Proof. split; [done|]. by vm_compute. Qed.

(** ** A registry and links *)

Module SampleLink.
Definition vlan : rtnl_link_info_ops Z Z :=
  {| io_name := Some SampleReg.vlan; io_refcnt := 0;
     io_alloc := Some (fun l => (0, with_info l (Some 100))); io_parse := None; io_clone := None;
     io_put_attrs := Some (fun l => keep_num 2 1 (default 0 (l_info (ce_data l))));
     io_free := Some (fun l => with_info l None); io_compare := None |}.
Definition inet : rtnl_link_af_ops Z Z :=
  {| ao_family := 2; ao_refcnt := 0; ao_protinfo_policy := None; ao_alloc := Some (fun _ => Some 7); ao_clone := None;
     ao_free := Some (fun l _ => l); ao_parse_protinfo := None; ao_parse_af := None;
     ao_fill_af := Some (fun _ x => keep_num 4 1 x); ao_compare := None; ao_override_rtm := None; ao_fill_pi := None;
     ao_fill_pi_flags := 0; ao_fill_af_no_nest := 0 |}.
Definition reg : link_reg Z Z :=
  {| r_infos := {[ 1 := vlan ]}; r_afs := {[ 2 := inet ]}; info_ops := [1]; af_ops := <[2%nat := 2]> (zeros AF_MAX) |}.

Lemma reg_fine : reg_ok reg.
Proof.
  split.
  - done.
  - done.
  - intros f Hf Ha. assert (f = 2) as ->; [|by exists inet].
    unfold af_at, reg in Ha. cbn [af_ops] in Ha. rewrite nth_lookup in Ha.
    destruct (decide (2%nat = Z.to_nat f)) as [E|E]; [lia|]. rewrite list_lookup_insert_ne in Ha by done.
    destruct (zeros AF_MAX !! Z.to_nat f) as [v|] eqn:Ev; [|done]. apply lookup_replicate in Ev as [-> _]. done.
  - intros a [->|H%elem_of_nil]%elem_of_cons; [|done]. by exists vlan, SampleReg.vlan.
Qed.
Definition data_ok (_ : Z) (o : option Z) : Prop := is_Some o.
Definition fam_ok (_ : Z) (x : Z) : Prop := x = 7.
Lemma tables_fine : tables_ok reg data_ok fam_ok.
Proof.
  split; unfold reg; cbn [r_infos r_afs].
  - intros a io f l [_ <-]%lookup_singleton_Some [= <-]. exists (Some 100). split; [done|]. split; [by intros [?|?]|]. intros _. by eexists.
  - by intros a io [_ <-]%lookup_singleton_Some.
  - by intros a io f l [_ <-]%lookup_singleton_Some [= <-].
  - intros a io f l [_ <-]%lookup_singleton_Some [= <-] _ _. by apply (keep_word_safe 1 2).
  - intros a o [_ <-]%lookup_singleton_Some. eexists. split; [done|]. by intros l x [= <-].
  - by intros a o f l x [_ <-]%lookup_singleton_Some [= <-].
  - intros a o f l x [_ <-]%lookup_singleton_Some [= <-] _ _. by apply (keep_word_safe 1 4).
  - by intros a o f l x [_ <-]%lookup_singleton_Some [= ].
Qed.
(** A device, step by step. *)
Definition mac : nl_addr :=
  {| a_family := AF_LLC; a_maxsize := 6; a_len := 6; a_prefixlen := 48; a_refcnt := 1; a_addr := [2; 0; 0; 0; 0; 1] |}.
Definition dev_ops : list (@link_op Z) :=
  [LkName (str "eth0"); LkIfindex 3; LkMtu 1500; LkAddr mac; LkType true (Some SampleReg.vlan); LkFamily 2].
Definition after (l : body (rtnl_link Z Z)) (op : @link_op Z) := match run_link_op reg l op with Done l => l | _ => l end.
Definition dev (n : nat) := foldl after (Body 0 link_0) (take n dev_ops).
End SampleLink.

Lemma dev_step (n : nat) op : SampleLink.dev_ops !! n = Some op -> link_made SampleLink.reg SampleLink.data_ok (SampleLink.dev n) ->
  link_op_ok SampleLink.reg SampleLink.data_ok (SampleLink.dev n) op -> (exists l, run_link_op SampleLink.reg (SampleLink.dev n) op = Done l) ->
  link_made SampleLink.reg SampleLink.data_ok (SampleLink.dev (S n)).
Proof.
  intros Hn Hm Ho [l Hl]. apply (link_made_op _ _ (SampleLink.dev n) op); [done..|]. unfold SampleLink.dev at 2.
  rewrite (take_S_r _ _ op) by done. rewrite foldl_snoc. fold (SampleLink.dev n). unfold SampleLink.after. by rewrite Hl.
Qed.
Lemma mac_ok : addr_ok SampleLink.mac.
Proof. split; [split; [cbn; lia|by vm_compute]|]. split; [|done]. repeat constructor; lia. Qed.
Lemma dev_made : link_made SampleLink.reg SampleLink.data_ok (SampleLink.dev 6).
Proof.
  repeat (eapply dev_step; [reflexivity| |cbn [link_op_ok]|eexists; vm_compute; reflexivity]); [constructor|..]; try done.
  - change (str "eth0") with [101; 116; 104; 48]. repeat constructor; lia.
  - apply mac_ok.
  - split; [done|]. intros x [= <-]. split; [|done]. repeat constructor; lia.
Qed.

Lemma link_requests_safe_witness :
  exists r, build_link_msg SampleLink.reg true true 256 [0; 0] [0; 0; 0; 0] RTM_NEWLINK AF_UNSPEC 3 0 0 (SampleLink.dev 6) 0 = Done r /\
    request_result 256 RTM_NEWLINK 0 (ifinfomsg AF_UNSPEC 0 3 0 0) r /\
    match r with inr m => 100 < msg_len m | inl _ => False end.
Proof.
  destruct (link_requests_safe SampleLink.reg SampleLink.data_ok SampleLink.fam_ok (SampleLink.dev 6) [0; 0] [0; 0; 0; 0] SampleLink.reg_fine SampleLink.tables_fine dev_made)
    as [_ H]; [by split; [repeat constructor|]..|].
  destruct (H true true 256 RTM_NEWLINK AF_UNSPEC 3 0 0 0 ltac:(lia)) as (r & Hr & Hres). exists r. split; [exact Hr|]. split; [exact Hres|].
  revert Hr. vm_compute. intros [= <-]. reflexivity.
Defined.

Lemma link_identity_witness :
  let a := rtnl_link_set_mtu (SampleLink.dev 6) 9000 in
  identical_by (link_obj_ops SampleLink.reg (fun _ => true)) (SampleLink.dev 6) a = true /\
  link_keygen (SampleLink.dev 6) 1024 = link_keygen a 1024.
Proof.
  cbv zeta. set (a := rtnl_link_set_mtu _ _).
  assert (link_made SampleLink.reg SampleLink.data_ok a) as Ha by (apply (link_made_op _ _ (SampleLink.dev 6) (LkMtu 9000)); [exact dev_made|done|reflexivity]).
  destruct (link_identity SampleLink.reg SampleLink.data_ok SampleLink.fam_ok (fun _ => true) (SampleLink.dev 6) a) as [Hk Hi].
  assert (identical_by (link_obj_ops SampleLink.reg (fun _ => true)) (SampleLink.dev 6) a = true) as Hid.
  { apply Hi; [exact SampleLink.reg_fine|exact SampleLink.tables_fine|exact dev_made|exact Ha|reflexivity|reflexivity|vm_compute; by split|vm_compute; by split]. }
  split; [exact Hid|]. by apply Hk.
Defined.

(** A message of the kernel about a device, cut short in the middle. *)
Lemma link_parse_terminates_witness :
  let b := le_encode 4 36 ++ zeros 12 ++ [0; 0; 1; 0; 3; 0; 0; 0; 1; 0; 0; 0; 0; 0; 0; 0] ++ [8; 0; 3; 0] in
  bytes_ok b /\ link_decode SampleLink.reg (fun _ => true) b (af_parse SampleLink.reg b) <> NoFuel.
Proof.
  cbv zeta. set (b := le_encode 4 36 ++ _). assert (bytes_ok b) as Hb.
  { unfold b. repeat (apply bytes_ok_app; split); auto with nl; repeat constructor; lia. } split; [exact Hb|].
  apply (link_parse_terminates SampleLink.reg (fun _ => true) b Hb). split; unfold SampleLink.reg; cbn [r_infos r_afs].
  - by intros a io f l data xstats [_ <-]%lookup_singleton_Some [= ].
  - by intros a o f l nla x [_ <-]%lookup_singleton_Some [= ].
  - by intros a o f l nla x [_ <-]%lookup_singleton_Some [= ].
Defined.
