(* ===== verification/Nexthop.v ===== *)
(** Next hops of routes (lib/route/nexthop.c) and their encapsulations
    (lib/route/nexthop_encap.c, lib/route/nh_encap_mpls.c).  Next hops and abstract
    addresses are values here; [inet_pton] is the function of the C library. *)
From S2P Require Import Prelude Errors Msg Attr CString Utils Addr Handlers Socket Nl Object ObjAttr Wire Build Rtnl StepMsg.

(** ** Data *)

Definition NH_ATTR_FLAGS := 1.
Definition NH_ATTR_WEIGHT := 2.
Definition NH_ATTR_IFINDEX := 4.
Definition NH_ATTR_GATEWAY := 8.
Definition NH_ATTR_REALMS := 16.
Definition NH_ATTR_NEWDST := 32.
Definition NH_ATTR_VIA := 64.
Definition NH_ATTR_ENCAP := 128.

Definition RTA_ENCAP_TYPE := 21.
Definition RTA_ENCAP := 22.
Definition LWTUNNEL_ENCAP_NONE := 0.
Definition LWTUNNEL_ENCAP_MPLS := 1.
Definition LWTUNNEL_ENCAP_MAX := 7.
Definition MPLS_IPTUNNEL_DST := 1.
Definition MPLS_IPTUNNEL_TTL := 2.
Definition MPLS_IPTUNNEL_MAX := 2.

Record mpls_iptunnel_encap := { me_dst : nl_addr; me_ttl : Z }.

(** The tables of functions for encapsulations: there is one. *)
Inductive nh_encap_ops := mpls_encap_ops.
#[export] Instance nh_encap_ops_eq : EqDecision nh_encap_ops.
Proof. solve_decision. Defined.
Definition encap_type (o : nh_encap_ops) : Z := match o with mpls_encap_ops => LWTUNNEL_ENCAP_MPLS end.

Record rtnl_nh_encap := { ne_ops : option nh_encap_ops; ne_priv : mpls_iptunnel_encap }.

Record rtnl_nexthop := {
  rtnh_flags : Z;
  rtnh_flag_mask : Z;
  rtnh_weight : Z;
  rtnh_ifindex : Z;
  rtnh_gateway : option nl_addr;
  rtnh_realms : Z;
  rtnh_newdst : option nl_addr;
  rtnh_via : option nl_addr;
  rtnh_encap : option rtnl_nh_encap
}.
#[export] Instance eta_nexthop : Eta rtnl_nexthop := fun n =>
  {| rtnh_flags := rtnh_flags n; rtnh_flag_mask := rtnh_flag_mask n; rtnh_weight := rtnh_weight n;
     rtnh_ifindex := rtnh_ifindex n; rtnh_gateway := rtnh_gateway n; rtnh_realms := rtnh_realms n;
     rtnh_newdst := rtnh_newdst n; rtnh_via := rtnh_via n; rtnh_encap := rtnh_encap n |}.
Definition nexthop_0 : rtnl_nexthop :=
  {| rtnh_flags := 0; rtnh_flag_mask := 0; rtnh_weight := 0; rtnh_ifindex := 0; rtnh_gateway := None;
     rtnh_realms := 0; rtnh_newdst := None; rtnh_via := None; rtnh_encap := None |}.

Abbreviation nexthop := (body rtnl_nexthop).

Definition rtnl_route_nh_alloc (c : bool) : option nexthop := if c then Some (Body 0 nexthop_0) else None.

(** [c]: whether the addresses can be allocated. *)
Definition rtnl_route_nh_clone (c0 : bool) (c : bool) (src : nexthop) : option nexthop :=
  match rtnl_route_nh_alloc c0 with
  | None => None
  | Some nh =>
      let s := ce_data src in
      match clone_addr c (rtnh_gateway s), clone_addr c (rtnh_newdst s), clone_addr c (rtnh_via s) with
      | Some gateway, Some newdst, Some via =>
          Some (Body (ce_mask src)
            {| rtnh_flags := rtnh_flags s; rtnh_flag_mask := rtnh_flag_mask s; rtnh_weight := rtnh_weight s;
               rtnh_ifindex := rtnh_ifindex s; rtnh_gateway := gateway; rtnh_realms := rtnh_realms (ce_data nh);
               rtnh_newdst := newdst; rtnh_via := via; rtnh_encap := rtnh_encap (ce_data nh) |})
      | _, _, _ => None
      end
  end.

(** ** Encapsulations *)

Definition mpls_encap_compare (a b : mpls_iptunnel_encap) : bool :=
  negb (me_ttl a =? me_ttl b) || addr_differs (Some (me_dst a)) (Some (me_dst b)).
(** Whether the result is not 0. *)
Definition nh_encap_compare (a b : option rtnl_nh_encap) : bool :=
  match a, b with
  | None, None => false
  | Some a, Some b =>
      if negb (bool_decide (ne_ops a = ne_ops b)) then true
      else match ne_ops a with
           | None => false
           | Some mpls_encap_ops => mpls_encap_compare (ne_priv a) (ne_priv b)
           end
  | _, _ => true
  end.

Definition mpls_encap_build_msg (msg : nl_msg) (e : mpls_iptunnel_encap) : step_msg :=
  next_msg (keep_put_addr MPLS_IPTUNNEL_DST (Some (me_dst e)) msg)
    (keep_if (negb (me_ttl e =? 0)) (keep_put MPLS_IPTUNNEL_TTL 1 (le_encode 1 (me_ttl e)))).

(** The result of nla_nest_end is not looked at. *)
Definition nh_encap_build_msg (msg : nl_msg) (e : rtnl_nh_encap) : step_msg :=
  match ne_ops e with
  | None => mret (- NLE_INVAL, msg)
  | Some ops =>
      next_msg (keep_put RTA_ENCAP_TYPE 2 (le_encode 2 (encap_type ops)) msg) (fun msg =>
        '(encap, msg) ← nla_nest_start msg RTA_ENCAP;
        match encap with
        | None => mret (- NLE_MSGSIZE, msg)
        | Some encap =>
            '(err, msg) ← mpls_encap_build_msg msg (ne_priv e);
            if negb (err =? 0) then mret (err, msg)
            else '(_, msg) ← nla_nest_end msg encap; mret (0, msg)
        end)
  end.

(** ** Getting and setting *)

Definition nh_set_encap (nh : nexthop) (e : option rtnl_nh_encap) : nexthop :=
  match e with
  | Some e => fill_attr nh NH_ATTR_ENCAP (fun d => d <| rtnh_encap := Some e |>)
  | None => let d := ce_data nh in Body (clear_flag (ce_mask nh) NH_ATTR_ENCAP) (d <| rtnh_encap := @None rtnl_nh_encap |>)
  end.
Definition rtnl_route_nh_set_weight (nh : nexthop) (weight : Z) : nexthop :=
  fill_attr nh NH_ATTR_WEIGHT (fun d => d <| rtnh_weight := u8 weight |>).
Definition rtnl_route_nh_get_weight (nh : nexthop) : Z := rtnh_weight (ce_data nh).
Definition rtnl_route_nh_set_ifindex (nh : nexthop) (ifindex : Z) : nexthop :=
  fill_attr nh NH_ATTR_IFINDEX (fun d => d <| rtnh_ifindex := u32 ifindex |>).
Definition rtnl_route_nh_get_ifindex (nh : nexthop) : Z := s32 (rtnh_ifindex (ce_data nh)).
Definition rtnl_route_nh_set_gateway (nh : nexthop) (addr : option nl_addr) : nexthop :=
  match addr with
  | Some a => fill_attr nh NH_ATTR_GATEWAY (fun d => d <| rtnh_gateway := Some a |>)
  | None => let d := ce_data nh in Body (clear_flag (ce_mask nh) NH_ATTR_GATEWAY) (d <| rtnh_gateway := @None nl_addr |>)
  end.
Definition rtnl_route_nh_get_gateway (nh : nexthop) : option nl_addr := rtnh_gateway (ce_data nh).
Definition rtnl_route_nh_set_flags (nh : nexthop) (flags : Z) : nexthop :=
  fill_attr nh NH_ATTR_FLAGS (fun d => d <| rtnh_flag_mask := u8 (Z.lor (rtnh_flag_mask d) (u32 flags)) |>
                                        <| rtnh_flags := u8 (Z.lor (rtnh_flags d) (u32 flags)) |>).
Definition rtnl_route_nh_unset_flags (nh : nexthop) (flags : Z) : nexthop :=
  fill_attr nh NH_ATTR_FLAGS (fun d => d <| rtnh_flag_mask := u8 (Z.lor (rtnh_flag_mask d) (u32 flags)) |>
                                        <| rtnh_flags := u8 (Z.land (rtnh_flags d) (Z.lnot (u32 flags))) |>).
Definition rtnl_route_nh_get_flags (nh : nexthop) : Z := rtnh_flags (ce_data nh).
Definition rtnl_route_nh_set_realms (nh : nexthop) (realms : Z) : nexthop :=
  fill_attr nh NH_ATTR_REALMS (fun d => d <| rtnh_realms := u32 realms |>).
Definition rtnl_route_nh_get_realms (nh : nexthop) : Z := rtnh_realms (ce_data nh).

Section Valid.
Variable inet_pton : Z -> list Z -> option (list Z).

(** nl_addr_valid on the bytes of an address, with its length in the place of the
    family: for some lengths the bytes are read as a text. *)
Definition addr_valid (a : nl_addr) : exec bool :=
  let family := s32 (nl_addr_get_len a) in
  if bool_decide (family ∈ [AF_INET; AF_INET6; AF_MPLS; AF_DECnet; AF_LLC])
  then s ← c_string (nl_addr_get_binary_addr a); mret (nl_addr_valid inet_pton s family)
  else mret (nl_addr_valid inet_pton [] family).

(** [set]: storing in the member.  A null pointer is read before it is looked at. *)
Definition set_checked (nh : nexthop) (attr : Z) (set : option nl_addr -> rtnl_nexthop -> rtnl_nexthop)
    (addr : option nl_addr) : exec (Z * nexthop) :=
  match addr with
  | None => Fault
  | Some a =>
      valid ← addr_valid a;
      mret (if negb valid then (- NLE_INVAL, nh) else (0, fill_attr nh attr (set (Some a))))
  end.
Definition rtnl_route_nh_set_newdst (nh : nexthop) (addr : option nl_addr) : exec (Z * nexthop) :=
  set_checked nh NH_ATTR_NEWDST (fun x d => d <| rtnh_newdst := x |>) addr.
Definition rtnl_route_nh_get_newdst (nh : nexthop) : option nl_addr := rtnh_newdst (ce_data nh).
Definition rtnl_route_nh_set_via (nh : nexthop) (addr : option nl_addr) : exec (Z * nexthop) :=
  set_checked nh NH_ATTR_VIA (fun x d => d <| rtnh_via := x |>) addr.
Definition rtnl_route_nh_get_via (nh : nexthop) : option nl_addr := rtnh_via (ce_data nh).

(** [c]: the two allocations. *)
Definition rtnl_route_nh_encap_mpls (c : bool) (nh : nexthop) (addr : option nl_addr) (ttl : Z)
    : exec (Z * nexthop) :=
  match addr with
  | None => mret (- NLE_INVAL, nh)
  | Some a =>
      valid ← addr_valid a;
      mret (if negb valid then (- NLE_INVAL, nh)
            else if negb c then (- NLE_NOMEM, nh)
            else (0, nh_set_encap nh (Some {| ne_ops := Some mpls_encap_ops;
                                              ne_priv := {| me_dst := a; me_ttl := u8 ttl |} |})))
  end.

(** *** Parsing; [c1], [c2]: the labels, the encapsulation. *)

Definition mpls_encap_policy : list nla_policy := [pol_of 0; pol_of NLA_U32; pol_of NLA_U8].
Definition mpls_encap_parse_msg (c1 c2 : bool) (b : list Z) (nla : Z) (nh : nexthop) : exec (Z * nexthop) :=
  '(err, tb) ← nla_parse_nested b MPLS_IPTUNNEL_MAX nla (Some mpls_encap_policy);
  if negb (err =? 0) then mret (err, nh)
  else
    o ← tb_at tb MPLS_IPTUNNEL_DST;
    match o with
    | None => mret (- NLE_INVAL, nh)
    | Some dst =>
        labels ← addr_of_attr b c1 dst AF_MPLS;
        match labels with
        | inl e => mret (e, nh)
        | inr labels =>
            o ← tb_at tb MPLS_IPTUNNEL_TTL;
            ttl ← (match o with Some t => nla_get_u8 b t | None => mret 0 end);
            rtnl_route_nh_encap_mpls c2 nh (Some labels) ttl
        end
    end.

(** The table of encapsulations has functions for one type. *)
Definition encap_ops_of (type : Z) : option nh_encap_ops :=
  if type =? LWTUNNEL_ENCAP_MPLS then Some mpls_encap_ops else None.
Definition nh_encap_parse_msg (c1 c2 : bool) (b : list Z) (encap encap_type : Z) (nh : nexthop)
    : exec (Z * nexthop) :=
  e_type ← nla_get_u16 b encap_type;
  if e_type =? LWTUNNEL_ENCAP_NONE then mret (- NLE_INVAL, nh)
  else if LWTUNNEL_ENCAP_MAX <? e_type then mret (- NLE_INVAL, nh)
  else match encap_ops_of e_type with
       | None => mret (- NLE_MSGTYPE_NOSUPPORT, nh)
       | Some mpls_encap_ops => mpls_encap_parse_msg c1 c2 b encap nh
       end.
End Valid.

(** ** Comparison *)

Definition rtnl_route_nh_compare (a b : nexthop) (attrs : Z) (loose : bool) : Z :=
  let x := ce_data a in let y := ce_data b in
  attr_diffs attrs a b
    [(NH_ATTR_IFINDEX, negb (rtnh_ifindex x =? rtnh_ifindex y));
     (NH_ATTR_WEIGHT, negb (rtnh_weight x =? rtnh_weight y));
     (NH_ATTR_REALMS, negb (rtnh_realms x =? rtnh_realms y));
     (NH_ATTR_GATEWAY, addr_differs (rtnh_gateway x) (rtnh_gateway y));
     (NH_ATTR_NEWDST, addr_differs (rtnh_newdst x) (rtnh_newdst y));
     (NH_ATTR_VIA, addr_differs (rtnh_via x) (rtnh_via y));
     (NH_ATTR_ENCAP, nh_encap_compare (rtnh_encap x) (rtnh_encap y));
     (NH_ATTR_FLAGS,
        if loose then negb (Z.land (Z.lxor (rtnh_flags x) (rtnh_flags y)) (rtnh_flag_mask y) =? 0)
        else negb (rtnh_flags x =? rtnh_flags y))].

Definition nh_flags : list trans_tbl := [Tr 1 "dead"; Tr 2 "pervasive"; Tr 4 "onlink"].
Definition rtnl_route_nh_flags2str (flags len : Z) : exec (list Z) := __flags2str flags len nh_flags.
Definition rtnl_route_nh_str2flags (name : list Z) : exec Z := __str2flags name nh_flags.

(** ** Well-formed next hops

    Members in their range, and addresses an attribute can carry; RTA_VIA also
    carries the family. *)
Definition via_ok (a : nl_addr) : Prop := addr_ok a /\ a_len a <= 65529.
Record hop_wf (d : rtnl_nexthop) : Prop := {
  hw_flags : 0 <= rtnh_flags d < 256;
  hw_weight : 0 <= rtnh_weight d < 256;
  hw_gateway : addr_opt_ok (rtnh_gateway d);
  hw_newdst : addr_opt_ok (rtnh_newdst d);
  hw_via : from_option via_ok True (rtnh_via d);
  hw_encap : from_option (fun e => addr_ok (me_dst (ne_priv e))) True (rtnh_encap d)
}.

(** What an application does to a next hop. *)
Inductive hop_op :=
| HopWeight (v : Z) | HopIfindex (v : Z) | HopGateway (a : option nl_addr) | HopFlags (v : Z) | HopUnsetFlags (v : Z)
| HopRealms (v : Z) | HopNewdst (a : nl_addr) | HopVia (a : nl_addr) | HopMpls (c : bool) (a : option nl_addr) (ttl : Z).
Definition run_hop_op (inet_pton : Z -> list Z -> option (list Z)) (nh : nexthop) (op : hop_op) : exec nexthop :=
  match op with
  | HopWeight v => mret (rtnl_route_nh_set_weight nh v)
  | HopIfindex v => mret (rtnl_route_nh_set_ifindex nh v)
  | HopGateway a => mret (rtnl_route_nh_set_gateway nh a)
  | HopFlags v => mret (rtnl_route_nh_set_flags nh v)
  | HopUnsetFlags v => mret (rtnl_route_nh_unset_flags nh v)
  | HopRealms v => mret (rtnl_route_nh_set_realms nh v)
  | HopNewdst a => snd <$> rtnl_route_nh_set_newdst inet_pton nh (Some a)
  | HopVia a => snd <$> rtnl_route_nh_set_via inet_pton nh (Some a)
  | HopMpls c a ttl => snd <$> rtnl_route_nh_encap_mpls inet_pton c nh a ttl
  end.
Definition hop_op_ok (op : hop_op) : Prop :=
  match op with
  | HopGateway a | HopMpls _ a _ => addr_opt_ok a
  | HopNewdst a => addr_ok a
  | HopVia a => via_ok a
  | _ => True
  end.

(** Solves the conditions after a member has changed. *)
Ltac hop_fill Hw :=
  destruct Hw; split;
  cbn [ce_data fill_attr rtnh_flags rtnh_flag_mask rtnh_weight rtnh_ifindex rtnh_gateway rtnh_realms rtnh_newdst
       rtnh_via rtnh_encap from_option addr_opt_ok nh_set_encap ne_priv me_dst];
  try apply u8_range; try done; try assumption.

Lemma set_checked_wf inet_pton nh attr set a e nh' :
  (forall d, hop_wf d -> hop_wf (set (Some a) d)) -> hop_wf (ce_data nh) ->
  set_checked inet_pton nh attr set (Some a) = Done (e, nh') -> hop_wf (ce_data nh').
Proof.
  intros Hs Hw. unfold set_checked. intros (v & _ & H)%bind_inv. injection H as H. destruct v; injection H as _ <-; [by apply Hs|done].
Qed.
Lemma set_newdst_wf inet_pton nh a e nh' :
  addr_ok a -> hop_wf (ce_data nh) -> rtnl_route_nh_set_newdst inet_pton nh (Some a) = Done (e, nh') -> hop_wf (ce_data nh').
Proof. intros Ha. apply set_checked_wf. intros d Hd. hop_fill Hd. Qed.
Lemma set_via_wf inet_pton nh a e nh' :
  via_ok a -> hop_wf (ce_data nh) -> rtnl_route_nh_set_via inet_pton nh (Some a) = Done (e, nh') -> hop_wf (ce_data nh').
Proof. intros Ha. apply set_checked_wf. intros d Hd. hop_fill Hd. Qed.
Lemma encap_mpls_wf inet_pton c nh a ttl e nh' :
  addr_opt_ok a -> hop_wf (ce_data nh) -> rtnl_route_nh_encap_mpls inet_pton c nh a ttl = Done (e, nh') ->
  hop_wf (ce_data nh').
Proof.
  intros Ha Hw. unfold rtnl_route_nh_encap_mpls. destruct a as [a|]; [|by intros [= _ <-]].
  intros (v & _ & H)%bind_inv. injection H as H. revert H. destruct v, c; cbn [negb]; intros [= _ <-]; try done. hop_fill Hw.
Qed.
Lemma hop_0_wf : hop_wf nexthop_0.
Proof. split; cbn; (done || lia). Qed.
Lemma hop_op_wf inet_pton nh op nh' :
  hop_wf (ce_data nh) -> hop_op_ok op -> run_hop_op inet_pton nh op = Done nh' -> hop_wf (ce_data nh').
Proof.
  intros Hw Ho. destruct op as [v|v|[a|]|v|v|v|a|a|c a ttl]; cbn [run_hop_op];
    try (intros H; injection H as <-; hop_fill Hw; fail); unfold fmap, exec_fmap;
    (match goal with |- context [match ?m with _ => _ end] => destruct m as [[e n]| | |] eqn:E; try done end);
    cbn [snd]; intros [= <-];
    [eapply set_newdst_wf|eapply set_via_wf|eapply encap_mpls_wf]; eauto.
Qed.
Lemma clone_via_ok c o o' : from_option via_ok True o -> clone_addr c o = Some o' -> from_option via_ok True o'.
Proof.
  intros Ho H. destruct o as [a|]; [|by injection H as <-]. destruct Ho as [Ha Hl].
  destruct (clone_addr_ok c (Some a) o' Ha H) as [Ho' _]. destruct o' as [a'|]; [|done]. split; [exact Ho'|].
  revert H. unfold clone_addr, nl_addr_clone, nl_addr_build, nl_addr_alloc. destruct c; [|done]. cbn [negb].
  destruct (load _ _ _); try done. exec_simpl. intros [= <-]. cbn. destruct Ha as [[? _] _]. rewrite u32_id; lia.
Qed.
Lemma hop_clone_wf c0 c nh nh' :
  hop_wf (ce_data nh) -> rtnl_route_nh_clone c0 c nh = Some nh' -> hop_wf (ce_data nh').
Proof.
  intros Hw. unfold rtnl_route_nh_clone. destruct (rtnl_route_nh_alloc c0) as [x|] eqn:Ex; [|done].
  destruct c0; [|done]. injection Ex as <-.
  destruct (clone_addr c (rtnh_gateway _)) as [g|] eqn:E1; [|done].
  destruct (clone_addr c (rtnh_newdst _)) as [n|] eqn:E2; [|done].
  destruct (clone_addr c (rtnh_via _)) as [v|] eqn:E3; [|done]. intros [= <-].
  apply clone_addr_ok in E1 as [H1 _]; [|apply Hw]. apply clone_addr_ok in E2 as [H2 _]; [|apply Hw].
  apply clone_via_ok in E3; [|apply Hw]. hop_fill Hw.
Qed.

(** Where next hops come from. *)
Inductive hop_made (inet_pton : Z -> list Z -> option (list Z)) : nexthop -> Prop :=
| hop_alloc : hop_made inet_pton (Body 0 nexthop_0)
| hop_op_made nh op nh' :
    hop_made inet_pton nh -> hop_op_ok op -> run_hop_op inet_pton nh op = Done nh' -> hop_made inet_pton nh'
| hop_clone_made c0 c nh nh' :
    hop_made inet_pton nh -> rtnl_route_nh_clone c0 c nh = Some nh' -> hop_made inet_pton nh'.
Lemma hop_made_wf inet_pton nh : hop_made inet_pton nh -> hop_wf (ce_data nh).
Proof. induction 1; [apply hop_0_wf|by eapply hop_op_wf|by eapply hop_clone_wf]. Qed.

(** The encapsulation can be put into any message. *)
Lemma encap_safe e : addr_ok (me_dst (ne_priv e)) -> safe (fun msg => nh_encap_build_msg msg e).
Proof.
  intros He m Hm. unfold nh_encap_build_msg. destruct (ne_ops e) as [ops|]; [|by apply safe_at_done].
  apply safe_next; [done|by apply (keep_word_safe RTA_ENCAP_TYPE 2)|]. intros m1 Hm1.
  destruct (nest_start_safe m1 RTA_ENCAP Hm1) as (o & m2 & -> & Hx & Ho). exec_simpl.
  destruct o as [start|]; [|by exists (- NLE_MSGSIZE), m2]. destruct Ho as [-> Hl].
  assert (safe (fun msg => mpls_encap_build_msg msg (ne_priv e))) as Hp.
  { intros m3 Hm3. apply safe_next; [done|by apply keep_addr_safe|]. apply safe_if. intros _. by apply (keep_word_safe MPLS_IPTUNNEL_TTL 1). }
  destruct (Hp m2 (ex_wf _ _ _ Hx)) as (err & m3 & -> & Hx3). exec_simpl. pose proof (ex_len _ _ _ Hx3).
  assert (extends (msg_len m1) m1 m3) as Hx'.
  { eapply extends_trans, extends_weaken; [exact Hx| |exact Hx3]. lia. }
  destruct (err =? 0); cbn [negb]; [|by exists err, m3].
  destruct (nest_close_safe m1 m3) as (e' & m4 & -> & Hx4); [done..|lia|]. exec_simpl. by exists 0, m4.
Qed.

(** ** What modelling showed *)

(** The clone of a next hop with realms claims to have them, but has not. *)
Lemma clone_loses_realms :
  let nh := rtnl_route_nh_set_realms (Body 0 nexthop_0) 7 in
  match rtnl_route_nh_clone true true nh with
  | Some new => rtnl_route_nh_get_realms new = 0 /\ rtnl_route_nh_compare nh new UINT32_MAX false = NH_ATTR_REALMS
  | None => False
  end.
Proof. by vm_compute. Qed.

(** A stack of seven labels is rejected: its length is AF_MPLS, so that its bytes
    are parsed as a text. *)
Lemma seven_labels_rejected inet_pton :
  let a := ex_addr AF_MPLS (concat (repeat [0; 1; 0; 0] 6) ++ [0; 1; 1; 0]) 20 in
  rtnl_route_nh_set_newdst inet_pton (Body 0 nexthop_0) (Some a) = Done (- NLE_INVAL, Body 0 nexthop_0).
Proof. by vm_compute. Qed.

(** Taking the address away is meant to be possible with a null pointer. *)
Lemma newdst_of_nothing inet_pton nh : rtnl_route_nh_set_newdst inet_pton nh None = Fault.
Proof. done. Qed.
