(* ===== verification/Route.v ===== *)
(** Routes (lib/route/route_obj.c, lib/route/route.c), as objects.  Next hops and
    abstract addresses are values here: the list of next hops is a sequence, and a
    next hop in it is known by its position. *)
From S2P Require Import Prelude Errors Msg Attr Hash CString Utils Addr Handlers Socket Nl NlList Object Cache CacheInv ObjAttr CacheMngt CacheDump Wire Build Rtnl Neigh Rule Ends StepMsg Nexthop.

(** ** Data *)

Definition ROUTE_ATTR_FAMILY := 1.
Definition ROUTE_ATTR_TOS := 2.
Definition ROUTE_ATTR_TABLE := 4.
Definition ROUTE_ATTR_PROTOCOL := 8.
Definition ROUTE_ATTR_SCOPE := 16.
Definition ROUTE_ATTR_TYPE := 32.
Definition ROUTE_ATTR_FLAGS := 64.
Definition ROUTE_ATTR_DST := 128.
Definition ROUTE_ATTR_SRC := 256.
Definition ROUTE_ATTR_IIF := 512.
Definition ROUTE_ATTR_PRIO := 4096.
Definition ROUTE_ATTR_PREF_SRC := 8192.
Definition ROUTE_ATTR_METRICS := 16384.
Definition ROUTE_ATTR_MULTIPATH := 32768.
Definition ROUTE_ATTR_CACHEINFO := 131072.
Definition ROUTE_ATTR_TTL_PROPAGATE := 262144.

Definition RTA_DST := 1.
Definition RTA_SRC := 2.
Definition RTA_IIF := 3.
Definition RTA_OIF := 4.
Definition RTA_GATEWAY := 5.
Definition RTA_PRIORITY := 6.
Definition RTA_PREFSRC := 7.
Definition RTA_METRICS := 8.
Definition RTA_MULTIPATH := 9.
Definition RTA_FLOW := 11.
Definition RTA_CACHEINFO := 12.
Definition RTA_TABLE := 15.
Definition RTA_VIA := 18.
Definition RTA_NEWDST := 19.
Definition RTA_TTL_PROPAGATE := 26.
Definition RTA_MAX := 29.
Definition RTAX_MAX := 17.
Definition RTN_UNICAST := 1.
Definition RTN_LOCAL := 2.
Definition RTN_MAX := 11.
Definition RTPROT_STATIC := 4.
Definition RT_TABLE_MAIN := 254.
Definition RT_TABLE_LOCAL := 255.
Definition RTNL_FAMILY_IPMR := 128.
Definition RTM_F_CLONED := 512.
Definition RTM_NEWROUTE := 24.
Definition RTM_DELROUTE := 25.
Definition RTM_GETROUTE := 26.
Definition ROUTE_CACHE_CONTENT := 1.
Definition EMSGSIZE := 90.

(** [rt_metrics]: the array; [rt_cacheinfo]: the bytes of the structure;
    [rt_msgtype]: ce_msgtype of the object, which [route_update] looks at. *)
Record rtnl_route := {
  rt_family : Z;
  rt_tos : Z;
  rt_protocol : Z;
  rt_scope : Z;
  rt_type : Z;
  rt_nmetrics : Z;
  rt_ttl_propagate : Z;
  rt_flags : Z;
  rt_dst : option nl_addr;
  rt_src : option nl_addr;
  rt_table : Z;
  rt_iif : Z;
  rt_prio : Z;
  rt_metrics : list Z;
  rt_metrics_mask : Z;
  rt_nr_nh : Z;
  rt_pref_src : option nl_addr;
  rt_nexthops : list nexthop;
  rt_cacheinfo : list Z;
  rt_flag_mask : Z;
  rt_msgtype : Z
}.
#[export] Instance eta_route : Eta rtnl_route := fun r =>
  {| rt_family := rt_family r; rt_tos := rt_tos r; rt_protocol := rt_protocol r; rt_scope := rt_scope r;
     rt_type := rt_type r; rt_nmetrics := rt_nmetrics r; rt_ttl_propagate := rt_ttl_propagate r;
     rt_flags := rt_flags r; rt_dst := rt_dst r; rt_src := rt_src r; rt_table := rt_table r;
     rt_iif := rt_iif r; rt_prio := rt_prio r; rt_metrics := rt_metrics r;
     rt_metrics_mask := rt_metrics_mask r; rt_nr_nh := rt_nr_nh r; rt_pref_src := rt_pref_src r;
     rt_nexthops := rt_nexthops r; rt_cacheinfo := rt_cacheinfo r; rt_flag_mask := rt_flag_mask r;
     rt_msgtype := rt_msgtype r |}.

Definition route_0 : rtnl_route :=
  {| rt_family := 0; rt_tos := 0; rt_protocol := 0; rt_scope := 0; rt_type := 0; rt_nmetrics := 0;
     rt_ttl_propagate := 0; rt_flags := 0; rt_dst := None; rt_src := None; rt_table := 0; rt_iif := 0;
     rt_prio := 0; rt_metrics := zeros RTAX_MAX; rt_metrics_mask := 0; rt_nr_nh := 0; rt_pref_src := None;
     rt_nexthops := []; rt_cacheinfo := zeros 32; rt_flag_mask := 0; rt_msgtype := 0 |}.
Definition route_constructor (r : rtnl_route) : rtnl_route :=
  r <| rt_family := AF_UNSPEC |> <| rt_scope := RT_SCOPE_NOWHERE |> <| rt_table := RT_TABLE_MAIN |>
    <| rt_protocol := RTPROT_STATIC |> <| rt_type := RTN_UNICAST |> <| rt_prio := 0 |> <| rt_nexthops := @nil nexthop |>.

Abbreviation route := (body rtnl_route).

(** ** Getting and setting *)

Definition rtnl_route_set_table (r : route) (table : Z) : route :=
  fill_attr r ROUTE_ATTR_TABLE (fun d => d <| rt_table := u32 table |>).
Definition rtnl_route_get_table (r : route) : Z := rt_table (ce_data r).
Definition rtnl_route_set_scope (r : route) (scope : Z) : route :=
  fill_attr r ROUTE_ATTR_SCOPE (fun d => d <| rt_scope := u8 scope |>).
Definition rtnl_route_get_scope (r : route) : Z := rt_scope (ce_data r).
Definition rtnl_route_set_tos (r : route) (tos : Z) : route :=
  fill_attr r ROUTE_ATTR_TOS (fun d => d <| rt_tos := u8 tos |>).
Definition rtnl_route_get_tos (r : route) : Z := rt_tos (ce_data r).
Definition rtnl_route_set_protocol (r : route) (protocol : Z) : route :=
  fill_attr r ROUTE_ATTR_PROTOCOL (fun d => d <| rt_protocol := u8 protocol |>).
Definition rtnl_route_get_protocol (r : route) : Z := rt_protocol (ce_data r).
Definition rtnl_route_set_priority (r : route) (prio : Z) : route :=
  fill_attr r ROUTE_ATTR_PRIO (fun d => d <| rt_prio := u32 prio |>).
Definition rtnl_route_get_priority (r : route) : Z := rt_prio (ce_data r).
Definition rtnl_route_set_family (r : route) (family : Z) : Z * route :=
  if bool_decide (family ∈ [AF_INET; AF_INET6; AF_DECnet; AF_MPLS; RTNL_FAMILY_IPMR])
  then (0, fill_attr r ROUTE_ATTR_FAMILY (fun d => d <| rt_family := family |>))
  else (- NLE_AF_NOSUPPORT, r).
Definition rtnl_route_get_family (r : route) : Z := rt_family (ce_data r).

(** Storing an address ([set]) of the family of the route. *)
Definition set_address (r : route) (attr : Z) (set : nl_addr -> rtnl_route -> rtnl_route) (addr : nl_addr)
    : Z * route :=
  let assign d := fill_attr (Body (ce_mask r) d) (Z.lor attr ROUTE_ATTR_FAMILY) (set addr) in
  if has_attr r ROUTE_ATTR_FAMILY then
    if negb (a_family addr =? rt_family (ce_data r)) then (- NLE_AF_MISMATCH, r) else (0, assign (ce_data r))
  else let d := ce_data r in (0, assign (d <| rt_family := u8 (a_family addr) |>)).
Definition rtnl_route_set_dst (r : route) (addr : nl_addr) : Z * route :=
  set_address r ROUTE_ATTR_DST (fun a d => d <| rt_dst := Some a |>) addr.
Definition rtnl_route_get_dst (r : route) : option nl_addr := rt_dst (ce_data r).
Definition rtnl_route_set_src (r : route) (addr : nl_addr) : Z * route :=
  if a_family addr =? AF_INET then (- NLE_SRCRT_NOSUPPORT, r)
  else set_address r ROUTE_ATTR_SRC (fun a d => d <| rt_src := Some a |>) addr.
Definition rtnl_route_get_src (r : route) : option nl_addr := rt_src (ce_data r).
Definition rtnl_route_set_pref_src (r : route) (addr : nl_addr) : Z * route :=
  set_address r ROUTE_ATTR_PREF_SRC (fun a d => d <| rt_pref_src := Some a |>) addr.
Definition rtnl_route_get_pref_src (r : route) : option nl_addr := rt_pref_src (ce_data r).

Definition rtnl_route_set_type (r : route) (type : Z) : Z * route :=
  if RTN_MAX <? u8 type then (- NLE_RANGE, r)
  else (0, fill_attr r ROUTE_ATTR_TYPE (fun d => d <| rt_type := u8 type |>)).
Definition rtnl_route_get_type (r : route) : Z := rt_type (ce_data r).
Definition rtnl_route_set_flags (r : route) (flags : Z) : route :=
  fill_attr r ROUTE_ATTR_FLAGS (fun d => d <| rt_flag_mask := Z.lor (rt_flag_mask d) (u32 flags) |>
                                           <| rt_flags := Z.lor (rt_flags d) (u32 flags) |>).
Definition rtnl_route_unset_flags (r : route) (flags : Z) : route :=
  fill_attr r ROUTE_ATTR_FLAGS (fun d => d <| rt_flag_mask := Z.lor (rt_flag_mask d) (u32 flags) |>
                                           <| rt_flags := Z.land (rt_flags d) (Z.lnot (u32 flags)) |>).
Definition rtnl_route_get_flags (r : route) : Z := rt_flags (ce_data r).

Definition metric_range (metric : Z) : bool := (RTAX_MAX <? metric) || (metric <? 1).
Definition has_metric (d : rtnl_route) (metric : Z) : bool := Z.testbit (rt_metrics_mask d) (metric - 1).
Definition rtnl_route_set_metric (r : route) (metric value : Z) : Z * route :=
  if metric_range metric then (- NLE_RANGE, r)
  else
    (0, fill_attr r ROUTE_ATTR_METRICS (fun d =>
          let d := d <| rt_metrics := <[Z.to_nat (metric - 1) := u32 value]> (rt_metrics d) |> in
          if has_metric d metric then d
          else d <| rt_nmetrics := u8 (rt_nmetrics d + 1) |>
                 <| rt_metrics_mask := Z.lor (rt_metrics_mask d) (Z.shiftl 1 (metric - 1)) |>)).
Definition rtnl_route_unset_metric (r : route) (metric : Z) : Z * route :=
  if metric_range metric then (- NLE_RANGE, r)
  else
    let d := ce_data r in
    (0, if has_metric d metric
        then Body (ce_mask r)
               (d <| rt_nmetrics := u8 (rt_nmetrics d - 1) |>
                  <| rt_metrics_mask := Z.land (rt_metrics_mask d) (Z.lnot (Z.shiftl 1 (metric - 1))) |>)
        else r).
(** The error, or the value. *)
Definition rtnl_route_get_metric (r : route) (metric : Z) : Z + Z :=
  if metric_range metric then inl (- NLE_RANGE)
  else if negb (has_metric (ce_data r) metric) then inl (- NLE_OBJ_NOTFOUND)
  else inr (nth (Z.to_nat (metric - 1)) (rt_metrics (ce_data r)) 0).

Definition rtnl_route_set_iif (r : route) (ifindex : Z) : route :=
  fill_attr r ROUTE_ATTR_IIF (fun d => d <| rt_iif := u32 ifindex |>).
Definition rtnl_route_get_iif (r : route) : Z := s32 (rt_iif (ce_data r)).
Definition rtnl_route_set_ttl_propagate (r : route) (ttl_prop : Z) : route :=
  fill_attr r ROUTE_ATTR_TTL_PROPAGATE (fun d => d <| rt_ttl_propagate := u8 ttl_prop |>).
Definition rtnl_route_get_ttl_propagate (r : option route) : Z :=
  match r with
  | None => - NLE_INVAL
  | Some r => if negb (has_attr r ROUTE_ATTR_TTL_PROPAGATE) then - NLE_MISSING_ATTR
              else rt_ttl_propagate (ce_data r)
  end.

(** *** Next hops *)

Definition rtnl_route_add_nexthop (r : route) (nh : nexthop) : route :=
  fill_attr r ROUTE_ATTR_MULTIPATH (fun d =>
    d <| rt_nexthops := rt_nexthops d ++ [nh] |> <| rt_nr_nh := u32 (rt_nr_nh d + 1) |>).
(** [i]: the position of the next hop. *)
Definition rtnl_route_remove_nexthop (r : route) (i : nat) : route :=
  let d := ce_data r in
  if has_attr r ROUTE_ATTR_MULTIPATH
  then Body (ce_mask r) (d <| rt_nr_nh := u32 (rt_nr_nh d - 1) |> <| rt_nexthops := delete i (rt_nexthops d) |>)
  else r.
Definition rtnl_route_get_nexthops (r : route) : option (list nexthop) :=
  if has_attr r ROUTE_ATTR_MULTIPATH then Some (rt_nexthops (ce_data r)) else None.
Definition rtnl_route_get_nnexthops (r : route) : Z :=
  if has_attr r ROUTE_ATTR_MULTIPATH then s32 (rt_nr_nh (ce_data r)) else 0.
(** [cb] on a state. *)
Definition rtnl_route_foreach_nexthop {S} (r : route) (cb : nexthop -> S -> S) (st : S) : S :=
  if has_attr r ROUTE_ATTR_MULTIPATH then fold_left (fun st nh => cb nh st) (rt_nexthops (ce_data r)) st else st.
Definition rtnl_route_nexthop_n (r : route) (n : Z) : option nexthop :=
  if has_attr r ROUTE_ATTR_MULTIPATH && (u32 n <? rt_nr_nh (ce_data r))
  then rt_nexthops (ce_data r) !! Z.to_nat (u32 n) else None.

Definition rtnl_route_guess_scope (r : route) : Z :=
  let d := ce_data r in
  if rt_type d =? RTN_LOCAL then RT_SCOPE_HOST
  else if rt_family d =? AF_MPLS then RT_SCOPE_UNIVERSE
  else if rt_family d =? RTNL_FAMILY_IPMR then RT_SCOPE_UNIVERSE
  else if existsb (fun nh => is_some (rtnh_gateway (ce_data nh))) (rt_nexthops d) then RT_SCOPE_UNIVERSE
  else RT_SCOPE_LINK.

(** ** Routes as objects *)

(** [c]: whether addresses can be allocated, [c0]: next hops. *)
Fixpoint clone_nexthops (c0 c : bool) (l : list nexthop) (dst : route) : Z * route :=
  match l with
  | [] => (0, dst)
  | nh :: l =>
      match rtnl_route_nh_clone c0 c nh with
      | None => (- NLE_NOMEM, dst)
      | Some new => clone_nexthops c0 c l (rtnl_route_add_nexthop dst new)
      end
  end.
Definition route_clone (c0 c : bool) (dst : rtnl_route) (src : route) : Z * rtnl_route :=
  let s := ce_data src in
  match clone_addr c (rt_dst s) with
  | None => (- NLE_NOMEM, dst <| rt_dst := @None nl_addr |>)
  | Some a =>
      let dst := store_clone (fun a (d : rtnl_route) => d <| rt_dst := a |>) a dst in
      match clone_addr c (rt_src s) with
      | None => (- NLE_NOMEM, dst <| rt_src := @None nl_addr |>)
      | Some a =>
          let dst := store_clone (fun a (d : rtnl_route) => d <| rt_src := a |>) a dst in
          match clone_addr c (rt_pref_src s) with
          | None => (- NLE_NOMEM, dst <| rt_pref_src := @None nl_addr |>)
          | Some a =>
              let dst := store_clone (fun a (d : rtnl_route) => d <| rt_pref_src := a |>) a dst in
              let dst := dst <| rt_nr_nh := 0 |> <| rt_nexthops := @nil nexthop |> in
              let '(e, dst) := clone_nexthops c0 c (rt_nexthops s) (Body (ce_mask src) dst) in (e, ce_data dst)
          end
      end
  end.

Definition route_hash_key (family tos table prio : Z) (addr : list Z) : list Z :=
  [u8 family; u8 tos] ++ le_encode 4 table ++ le_encode 4 prio ++ addr.
Definition route_keygen (c : bool) (r : route) (table_sz : Z) : Z :=
  let d := ce_data r in
  if negb c then 0
  else
    let bytes := match rt_dst d with Some a => sub (a_addr a) 0 (a_len a) | None => [] end in
    let key := route_hash_key (rt_family d) (rt_tos d) (rt_table d) (rt_prio d) bytes in
    match nl_hash key (zlen key) 0 with Done h => h mod table_sz | _ => 0 end.

Definition route_id_attrs : Z := 4231.   (* FAMILY, TOS, TABLE, DST, PRIO *)
Definition route_id_attrs_get (r : route) : Z :=
  if rt_family (ce_data r) =? AF_MPLS then Z.land route_id_attrs (Z.lnot ROUTE_ATTR_PRIO) else route_id_attrs.

(** Whether every next hop of [l] has one in [m] that compares equal. *)
Definition all_found (same : nexthop -> nexthop -> bool) (l m : list nexthop) : bool :=
  forallb (fun x => existsb (same x) m) l.
Definition nh_same (a b : nexthop) : bool := rtnl_route_nh_compare a b UINT32_MAX false =? 0.

(** The loops over the metrics leave the last one out. *)
Definition metric_diffs (diff : Z -> bool) : list (Z * bool) :=
  map (fun i => (ROUTE_ATTR_METRICS, diff (Z.of_nat i))) (seq 0 (Z.to_nat (RTAX_MAX - 1))).
Definition metric_at (d : rtnl_route) (i : Z) : Z := nth (Z.to_nat i) (rt_metrics d) 0.

Definition route_compare (a b : route) (attrs flags : Z) : Z :=
  let x := ce_data a in let y := ce_data b in
  let hops := rt_nexthops x in let hops' := rt_nexthops y in
  let loose := has_flag flags LOOSE_COMPARISON in
  let mismatch :=
    if loose
    then negb (all_found (fun nh_b nh_a => rtnl_route_nh_compare nh_a nh_b (ce_mask nh_b) true =? 0) hops' hops)
    else negb (rt_nr_nh x =? rt_nr_nh y) || negb (all_found nh_same hops hops') ||
         negb (all_found (fun nh_b nh_a => nh_same nh_a nh_b) hops' hops) in
  let has d i := Z.testbit (rt_metrics_mask d) i in
  attr_diffs attrs a b
    ([(ROUTE_ATTR_FAMILY, negb (rt_family x =? rt_family y));
      (ROUTE_ATTR_TOS, negb (rt_tos x =? rt_tos y));
      (ROUTE_ATTR_TABLE, negb (rt_table x =? rt_table y));
      (ROUTE_ATTR_PROTOCOL, negb (rt_protocol x =? rt_protocol y));
      (ROUTE_ATTR_SCOPE, negb (rt_scope x =? rt_scope y));
      (ROUTE_ATTR_TYPE, negb (rt_type x =? rt_type y));
      (ROUTE_ATTR_PRIO, negb (rt_prio x =? rt_prio y));
      (ROUTE_ATTR_DST, addr_differs (rt_dst x) (rt_dst y));
      (ROUTE_ATTR_SRC, addr_differs (rt_src x) (rt_src y));
      (ROUTE_ATTR_IIF, negb (rt_iif x =? rt_iif y));
      (ROUTE_ATTR_PREF_SRC, addr_differs (rt_pref_src x) (rt_pref_src y));
      (ROUTE_ATTR_TTL_PROPAGATE, negb (rt_ttl_propagate x =? rt_ttl_propagate y))] ++
     if mismatch then [(ROUTE_ATTR_MULTIPATH, true)]
     else if loose then
       List.filter snd
         (metric_diffs (fun i => has x i && (negb (has y i) || negb (metric_at x i =? metric_at y i)))) ++
       [(ROUTE_ATTR_FLAGS, negb (Z.land (Z.lxor (rt_flags x) (rt_flags y)) (rt_flag_mask y) =? 0))]
     else
       metric_diffs (fun i => xorb (has x i) (has y i) || negb (metric_at x i =? metric_at y i)) ++
       [(ROUTE_ATTR_FLAGS, negb (rt_flags x =? rt_flags y))]).

(** The position of the first next hop that compares equal to [nh]. *)
Fixpoint find_nexthop (nh : nexthop) (l : list nexthop) (i : nat) : option nat :=
  match l with
  | [] => None
  | old :: l => if rtnl_route_nh_compare old nh UINT32_MAX false =? 0 then Some i else find_nexthop nh l (S i)
  end.
(** A route of IPv6 with one next hop is one next hop of a route with several. *)
Definition route_update (c0 c : bool) (old new : route) : Z * route :=
  let d := ce_data new in
  if negb (rt_family d =? AF_INET6) || (rt_table d =? RT_TABLE_LOCAL) then (- NLE_OPNOTSUPP, old)
  else if negb (rtnl_route_get_nnexthops new =? 1) then (- NLE_OPNOTSUPP, old)
  else match rtnl_route_nexthop_n new 0 with
       | None => (- NLE_OPNOTSUPP, old)
       | Some new_nh =>
           if negb (is_some (rtnl_route_nh_get_gateway new_nh)) then (- NLE_OPNOTSUPP, old)
           else if rt_msgtype d =? RTM_NEWROUTE then
             match rtnl_route_nh_clone c0 c new_nh with
             | None => (- NLE_NOMEM, old)
             | Some cloned => (0, rtnl_route_add_nexthop old cloned)
             end
           else if rt_msgtype d =? RTM_DELROUTE then
             if rtnl_route_get_nnexthops old <=? 1 then (- NLE_OPNOTSUPP, old)
             else (0, match find_nexthop new_nh (rt_nexthops (ce_data old)) 0 with
                      | Some i => rtnl_route_remove_nexthop old i
                      | None => old
                      end)
           else (- NLE_OPNOTSUPP, old)
       end.

Definition route_attrs : list trans_tbl :=
  [Tr 1 "family"; Tr 2 "tos"; Tr 4 "table"; Tr 8 "protocol"; Tr 16 "scope"; Tr 32 "type"; Tr 64 "flags";
   Tr 128 "dst"; Tr 256 "src"; Tr 512 "iif"; Tr 1024 "oif"; Tr 2048 "gateway"; Tr 4096 "prio";
   Tr 8192 "pref_src"; Tr 16384 "metrics"; Tr 32768 "multipath"; Tr 65536 "realms"; Tr 131072 "cacheinfo";
   Tr 262144 "ttl_propagate"].
Definition route_attrs2str (attrs len : Z) : exec (list Z) := __flags2str attrs len route_attrs.

Definition route_obj_ops (c0 c : bool) : nl_object_ops rtnl_route :=
  {| oo_name := "route/route"; oo_size := 240; oo_id_attrs := route_id_attrs;
     oo_constructor := Some route_constructor; oo_free_data := true; oo_clone := Some (route_clone c0 c);
     oo_compare := Some route_compare; oo_update := Some (route_update c0 c);
     oo_keygen := Some (route_keygen c); oo_id_attrs_get := Some route_id_attrs_get |}.

(** ** Parsing *)

Definition route_policy : list nla_policy :=
  [pol_of 0; pol_of 0; pol_of 0; pol_of NLA_U32; pol_of NLA_U32; pol_of 0; pol_of NLA_U32; pol_of 0;
   pol_of NLA_NESTED; pol_of NLA_NESTED; pol_of 0; pol_of NLA_U32; pol_min 32; pol_of 0; pol_of 0; pol_of 0;
   pol_of 0; pol_of 0; pol_of 0; pol_of 0; pol_of 0; pol_of NLA_U16; pol_of NLA_NESTED; pol_of 0; pol_of 0;
   pol_of 0; pol_of NLA_U8; pol_of 0; pol_of 0; pol_of 0].

Section Parse.
Variable inet_pton : Z -> list Z -> option (list Z).
(** The allocations for attribute [t] of the message, and for that of the [i]-th
    next hop; 0 is the next hop itself, RTA_ENCAP the labels, RTA_ENCAP_TYPE the
    encapsulation. *)
Variable c : Z -> bool.
Variable ch : Z -> Z -> bool.
Variable b : list Z.

(** The address of struct rtvia: the family, then the bytes. *)
Definition rtnl_route_parse_via (c : bool) (nla : Z) : exec (Z + nl_addr) :=
  len ← nla_len b nla;
  let alen := s32 (len - 2) in
  family ← get_u16 b (nla_data nla);
  d ← load b (nla_data nla + 2) alen;
  a ← nl_addr_build c family d alen;
  match a with Some a => ok a | None => err NLE_NOMEM end.

(** Goes on when the code is 0. *)
Definition checked (m : exec (Z * nexthop)) : exec (Z + nexthop) :=
  '(e, nh) ← m; if negb (e =? 0) then mret (inl e) else ok nh.

(** What the attributes of a next hop do to it.  [nomem]: what it means that an
    address cannot be allocated. *)
Definition hop_newdst (c : bool) (nomem : Z) (family : Z) (nla : Z) (nh : nexthop) : exec (Z + nexthop) :=
  a ← addr_of_attr b c nla family;
  match a with
  | inl _ => mret (inl nomem)
  | inr a => checked (rtnl_route_nh_set_newdst inet_pton nh (Some a))
  end.
Definition hop_via (c : bool) (nomem : Z) (nla : Z) (nh : nexthop) : exec (Z + nexthop) :=
  a ← rtnl_route_parse_via c nla;
  match a with
  | inl _ => mret (inl nomem)
  | inr a => checked (rtnl_route_nh_set_via inet_pton nh (Some a))
  end.
Definition hop_encap (c : Z -> bool) (tb : list (option Z)) (nh : nexthop) : exec (Z + nexthop) :=
  e ← tb_at tb RTA_ENCAP;
  t ← tb_at tb RTA_ENCAP_TYPE;
  match e, t with
  | Some e, Some t => checked (nh_encap_parse_msg inet_pton (c RTA_ENCAP) (c RTA_ENCAP_TYPE) b e t nh)
  | _, _ => ok nh
  end.

(** The attributes of the next hop at [rtnh]; an address that cannot be allocated
    is the end of the loop without an error, apart from the gateway. *)
Definition hop_attrs (c : Z -> bool) (family rtnh len : Z) (nh : nexthop) : exec (Z + nexthop) :=
  '(e, ntb) ← nla_parse b RTA_MAX (rtnh + 8) (len - 8) (Some route_policy);
  if e <? 0 then mret (inl e)
  else
    nh ←! if_attr_or ntb RTA_GATEWAY (fun nla nh =>
            a ←! addr_of_attr b (c RTA_GATEWAY) nla family; ok (rtnl_route_nh_set_gateway nh (Some a))) nh;
    nh ← if_attr ntb RTA_FLOW (fun nla nh =>
           v ← nla_get_u32 b nla; mret (rtnl_route_nh_set_realms nh v)) nh;
    nh ←! if_attr_or ntb RTA_NEWDST (hop_newdst (c RTA_NEWDST) 0 family) nh;
    nh ←! if_attr_or ntb RTA_VIA (hop_via (c RTA_VIA) 0) nh;
    hop_encap c ntb nh.

(** One next hop of the list of RTA_MULTIPATH. *)
Definition parse_hop (c : Z -> bool) (family rtnh len : Z) : exec (Z + nexthop) :=
  match rtnl_route_nh_alloc (c 0) with
  | None => err NLE_NOMEM
  | Some nh =>
      hops ← get_u8 b (rtnh + 3);
      ifindex ← get_u32 b (rtnh + 4);
      flags ← get_u8 b (rtnh + 2);
      let nh := rtnl_route_nh_set_flags
                  (rtnl_route_nh_set_ifindex (rtnl_route_nh_set_weight nh hops) ifindex) flags in
      if 8 <? len then hop_attrs c family rtnh len nh else ok nh
  end.

(** [rtnh]: where the next one starts, [tlen]: how much is left.  Next hops whose
    length is 0 would be read for ever: then the model runs out of fuel. *)
Fixpoint parse_hops (fuel : nat) (i : Z) (r : route) (rtnh tlen : Z) : exec (Z * route) :=
  match fuel with
  | O => NoFuel
  | S fuel =>
      if tlen <? 8 then mret (0, r)
      else
        len ← get_u16 b rtnh;
        if tlen <? len then mret (0, r)
        else
          nh ← parse_hop (ch i) (rt_family (ce_data r)) rtnh len;
          match nh with
          | inl e => mret (e, r)
          | inr nh =>
              parse_hops fuel (i + 1) (rtnl_route_add_nexthop r nh) (rtnh + align4 len) (u64 (tlen - align4 len))
          end
  end.
Definition rtnl_route_parse_multipath (r : route) (attr : Z) : exec (Z * route) :=
  len ← nla_len b attr;
  parse_hops (S (Z.to_nat (zlen b))) 0 r (nla_data attr) (u64 len).

(** The metrics of [mtb] from [i] on. *)
Fixpoint parse_metrics (mtb : list (option Z)) (n : nat) (i : Z) (r : route) : exec (Z + route) :=
  match n with
  | O => ok r
  | S n =>
      o ← tb_at mtb i;
      match o with
      | None => parse_metrics mtb n (i + 1) r
      | Some nla =>
          len ← nla_len b nla;
          if u64 len <? 4 then parse_metrics mtb n (i + 1) r
          else
            m ← nla_get_u32 b nla;
            let '(e, r) := rtnl_route_set_metric r i m in
            if e <? 0 then mret (inl e) else parse_metrics mtb n (i + 1) r
      end
  end.

(** The next hop that the attributes of the message itself describe, made when the
    first of them is there. *)
Definition old_hop (old_nh : option nexthop) : exec (Z + nexthop) :=
  match old_nh with
  | Some nh => ok nh
  | None => match rtnl_route_nh_alloc (c 0) with Some nh => ok nh | None => err NLE_NOMEM end
  end.
Definition with_hop (tb : list (option Z)) (t : Z) (f : Z -> nexthop -> exec (Z + nexthop))
    (old_nh : option nexthop) : exec (Z + option nexthop) :=
  if_attr_or tb t (fun nla o => nh ←! old_hop o; nh ←! f nla nh; ok (Some nh)) old_nh.

Definition old_nexthop (tb : list (option Z)) (family : Z) : exec (Z + option nexthop) :=
  nh ←! with_hop tb RTA_OIF (fun nla nh =>
          v ← nla_get_u32 b nla; ok (rtnl_route_nh_set_ifindex nh v)) None;
  nh ←! with_hop tb RTA_GATEWAY (fun nla nh =>
          a ←! addr_of_attr b (c RTA_GATEWAY) nla family; ok (rtnl_route_nh_set_gateway nh (Some a))) nh;
  nh ←! with_hop tb RTA_FLOW (fun nla nh =>
          v ← nla_get_u32 b nla; ok (rtnl_route_nh_set_realms nh v)) nh;
  nh ←! with_hop tb RTA_NEWDST (hop_newdst (c RTA_NEWDST) (- NLE_NOMEM) family) nh;
  with_hop tb RTA_VIA (hop_via (c RTA_VIA) (- NLE_NOMEM)) nh.

(** The next hop of the message is added where there are no others, and has to
    agree with the first of them otherwise. *)
Definition join_nexthop (r : route) (flags : Z) (old_nh : option nexthop) : exec (Z + route) :=
  match old_nh with
  | None => ok r
  | Some nh =>
      let nh := rtnl_route_nh_set_flags nh (Z.land flags 255) in
      if rt_nr_nh (ce_data r) =? 0 then ok (rtnl_route_add_nexthop r nh)
      else match rt_nexthops (ce_data r) with
           | [] => Bug
           | first :: _ =>
               if negb (rtnl_route_nh_compare nh first (ce_mask nh) false =? 0) then err NLE_INVAL else ok r
           end
  end.

Definition route_addr_or_empty (tb : list (option Z)) (t family len : Z) : exec (Z + nl_addr) :=
  o ← tb_at tb t;
  a ←! (match o with
        | Some nla => addr_of_attr b (c t) nla family
        | None => match nl_addr_alloc (c t) 0 with
                  | Some a => ok (nl_addr_set_family a family) | None => err NLE_NOMEM end
        end);
  ok (nl_addr_set_prefixlen a len).

(** The source, where there is one: its family is not set when it is empty. *)
Definition route_source (tb : list (option Z)) (family len : Z) (r : route) : exec (Z + route) :=
  o ← tb_at tb RTA_SRC;
  src ←! (match o with
          | Some nla => a ←! addr_of_attr b (c RTA_SRC) nla family; ok (Some a)
          | None => if len =? 0 then ok None
                    else match nl_addr_alloc (c RTA_SRC) 0 with Some a => ok (Some a) | None => err NLE_NOMEM end
          end);
  ok (match src with
      | Some a => (rtnl_route_set_src r (nl_addr_set_prefixlen a len)).2
      | None => r
      end).

Definition route_hdr_attrs (family : Z) : Z :=
  let mask := 127 in   (* FAMILY, TOS, TABLE, PROTOCOL, SCOPE, TYPE, FLAGS *)
  if negb (family =? AF_MPLS) then set_flag mask ROUTE_ATTR_PRIO else mask.
Definition route_hdr_data (msgtype family tos table type scope protocol flags : Z) : rtnl_route :=
  {| rt_family := family; rt_tos := tos; rt_protocol := protocol; rt_scope := scope; rt_type := type;
     rt_nmetrics := 0; rt_ttl_propagate := 0; rt_flags := flags; rt_dst := None; rt_src := None;
     rt_table := table; rt_iif := 0; rt_prio := 0; rt_metrics := zeros RTAX_MAX; rt_metrics_mask := 0;
     rt_nr_nh := 0; rt_pref_src := None; rt_nexthops := []; rt_cacheinfo := zeros 32; rt_flag_mask := 0;
     rt_msgtype := msgtype |}.

(** What becomes of the route that was allocated. *)
Definition rtnl_route_parse : exec (Z + route) :=
  msgtype ← get_u16 b 4;
  '(e, tb) ← nlmsg_parse b 0 12 RTA_MAX (Some route_policy);
  if e <? 0 then mret (inl e)
  else
    let rtm := nlmsg_data 0 in
    family ← get_u8 b rtm;
    tos ← get_u8 b (rtm + 3);
    table ← get_u8 b (rtm + 4);
    type ← get_u8 b (rtm + 7);
    scope ← get_u8 b (rtm + 6);
    protocol ← get_u8 b (rtm + 5);
    flags ← get_u32 b (rtm + 8);
    let r := Body (route_hdr_attrs family) (route_hdr_data msgtype family tos table type scope protocol flags) in
    dst_len ← get_u8 b (rtm + 1);
    dst ←! route_addr_or_empty tb RTA_DST family dst_len;
    let '(e, r) := rtnl_route_set_dst r dst in
    if e <? 0 then mret (inl e)
    else
      src_len ← get_u8 b (rtm + 2);
      r ←! route_source tb family src_len r;
      r ← if_attr tb RTA_TABLE (fun nla r => v ← nla_get_u32 b nla; mret (rtnl_route_set_table r v)) r;
      r ← if_attr tb RTA_IIF (fun nla r => v ← nla_get_u32 b nla; mret (rtnl_route_set_iif r v)) r;
      r ← if_attr tb RTA_PRIORITY (fun nla r => v ← nla_get_u32 b nla; mret (rtnl_route_set_priority r v)) r;
      r ←! if_attr_or tb RTA_PREFSRC (fun nla r =>
             a ←! addr_of_attr b (c RTA_PREFSRC) nla family; ok (rtnl_route_set_pref_src r a).2) r;
      r ←! if_attr_or tb RTA_METRICS (fun nla r =>
             '(e, mtb) ← nla_parse_nested b RTAX_MAX nla None;
             if e <? 0 then mret (inl e) else parse_metrics mtb (Z.to_nat RTAX_MAX) 1 r) r;
      r ←! if_attr_or tb RTA_MULTIPATH (fun nla r =>
             '(e, r) ← rtnl_route_parse_multipath r nla;
             if e <? 0 then mret (inl e) else ok r) r;
      r ← if_attr tb RTA_CACHEINFO (fun nla r =>
            '(_, ci) ← nla_memcpy b (rt_cacheinfo (ce_data r)) (Some nla) 32;
            mret (fill_attr r ROUTE_ATTR_CACHEINFO (fun d : rtnl_route => d <| rt_cacheinfo := ci |>))) r;
      old_nh ←! old_nexthop tb family;
      r ← if_attr tb RTA_TTL_PROPAGATE (fun nla r =>
            v ← nla_get_u8 b nla; mret (rtnl_route_set_ttl_propagate r v)) r;
      e ← tb_at tb RTA_ENCAP;
      t ← tb_at tb RTA_ENCAP_TYPE;
      old_nh ←! (if is_some e && is_some t
                 then nh ←! old_hop old_nh; nh ←! hop_encap c tb nh; ok (Some nh)
                 else ok old_nh);
      join_nexthop r flags old_nh.
End Parse.

(** The address of [route_obj_ops]. *)
Definition ROUTE_OPS : Z := 1.
Definition route_ops_at (_ : Z) : nl_object_ops rtnl_route := route_obj_ops true true.
Definition route_msg_parser (inet_pton : Z -> list Z -> option (list Z)) (c : Z -> bool) (ch : Z -> Z -> bool)
    (c0 : bool) : parser_t (D := rtnl_route) :=
  object_parser route_ops_at route_0 c0 ROUTE_OPS (rtnl_route_parse inet_pton c ch).

Definition rtnl_route_alloc (c : bool) (h : heap rtnl_route) :=
  nl_object_alloc route_ops_at c route_0 h ROUTE_OPS.
Definition rtnl_route_get (h : heap rtnl_route) (o : Z) := nl_object_get h o.
Definition rtnl_route_put (h : heap rtnl_route) (o : Z) := nl_object_put route_ops_at h (Some o).

(** ** Composing requests *)

(** struct rtmsg. *)
Definition rtmsg (family dst_len src_len tos table protocol scope type flags : Z) : list Z :=
  [u8 family; u8 dst_len; u8 src_len; u8 tos; u8 table; u8 protocol; u8 scope; u8 type] ++ le_encode 4 flags.

Definition rtnl_route_put_via (msg : nl_msg) (addr : nl_addr) : step_msg :=
  let alen := nl_addr_get_len addr in
  '(nla, msg) ← nla_reserve msg RTA_VIA (s32 (alen + 2));
  match nla with
  | None => mret (- EMSGSIZE, msg)
  | Some nla =>
      b ← put_u16 (nm_nlh msg) (nla_data nla) (nl_addr_get_family addr);
      d ← load (nl_addr_get_binary_addr addr) 0 alen;
      b ← store b (nla_data nla + 2) d;
      mret (0, set_buf msg b)
  end.

(** The attributes of a next hop; [oif]: with the interface among them, as where it
    is the only one. *)
Definition put_nexthop (oif : bool) (nh : rtnl_nexthop) (msg : nl_msg) : step_msg :=
  next_msg (put_opt (rtnh_gateway nh) (fun a => keep_put_addr RTA_GATEWAY (Some a)) msg) (fun msg =>
  next_msg (keep_if (oif && negb (rtnh_ifindex nh =? 0)) (keep_put RTA_OIF 4 (le_encode 4 (rtnh_ifindex nh))) msg) (fun msg =>
  next_msg (keep_if (oif && negb (rtnh_realms nh =? 0)) (keep_put RTA_FLOW 4 (le_encode 4 (rtnh_realms nh))) msg) (fun msg =>
  next_msg (put_opt (rtnh_newdst nh) (fun a => keep_put_addr RTA_NEWDST (Some a)) msg) (fun msg =>
  next_msg (put_failure (put_opt (rtnh_via nh) (fun a msg => rtnl_route_put_via msg a) msg)) (fun msg =>
  next_msg (keep_if (negb oif && negb (rtnh_realms nh =? 0)) (keep_put RTA_FLOW 4 (le_encode 4 (rtnh_realms nh))) msg) (fun msg =>
  put_failure (put_opt (rtnh_encap nh) (fun e msg => nh_encap_build_msg msg e) msg))))))).

(** struct rtnexthop and the attributes after it; the length is filled in at the
    end. *)
Definition put_hop (nh : nexthop) (msg : nl_msg) : step_msg :=
  '(p, msg) ← nlmsg_reserve msg 8 NLMSG_ALIGNTO;
  match p with
  | None => mret (- NLE_MSGSIZE, msg)
  | Some rtnh =>
      let d := ce_data nh in
      b ← store (nm_nlh msg) (rtnh + 2) [rtnh_flags d];
      b ← store b (rtnh + 3) [rtnh_weight d];
      b ← put_u32 b (rtnh + 4) (rtnh_ifindex d);
      next_msg (put_nexthop false d (set_buf msg b)) (fun msg =>
        tail ← nlmsg_tail (nm_nlh msg) 0;
        b ← put_u16 (nm_nlh msg) rtnh (tail - rtnh);
        mret (0, set_buf msg b))
  end.
Fixpoint put_hops (l : list nexthop) (msg : nl_msg) : step_msg :=
  match l with
  | [] => mret (0, msg)
  | nh :: l => next_msg (put_hop nh msg) (put_hops l)
  end.

Fixpoint put_metrics (r : route) (n : nat) (i : Z) (msg : nl_msg) : step_msg :=
  match n with
  | O => mret (0, msg)
  | S n =>
      next_msg (match rtnl_route_get_metric r i with
                | inl _ => mret (0, msg)
                | inr v => keep_put i 4 (le_encode 4 v) msg
                end) (put_metrics r n (i + 1))
  end.

(** The header; the null pointer of the only next hop of a route is not looked
    for. *)
Definition route_hdr (r : route) (dst : nl_addr) : exec (list Z) :=
  let d := ce_data r in
  hop_flags ← (if rtnl_route_get_nnexthops r =? 1
               then match rtnl_route_nexthop_n r 0 with
                    | None => Fault
                    | Some nh => mret (rtnh_flags (ce_data nh))
                    end
               else mret 0);
  mret (rtmsg (rt_family d) (nl_addr_get_prefixlen dst)
          (match rt_src d with Some a => nl_addr_get_prefixlen a | None => 0 end) (rt_tos d) (rt_table d)
          (rt_protocol d)
          (if negb (has_attr r ROUTE_ATTR_SCOPE) then rtnl_route_guess_scope r else rt_scope d) (rt_type d)
          (Z.lor (rt_flags d) hop_flags)).

Definition rtnl_route_build_msg (msg : nl_msg) (r : route) : step_msg :=
  let d := ce_data r in
  match rt_dst d with
  | None => mret (- NLE_MISSING_ATTR, msg)
  | Some dst =>
      hdr ← route_hdr r dst;
      '(e, msg) ← nlmsg_append msg hdr (zlen hdr) NLMSG_ALIGNTO;
      if e <? 0 then mret (- NLE_MSGSIZE, msg)
      else
        next_msg (keep_if (negb (rt_family d =? AF_MPLS)) (keep_put RTA_TABLE 4 (le_encode 4 (rt_table d))) msg) (fun msg =>
        next_msg (keep_if (negb (nl_addr_get_len dst =? 0)) (keep_put_addr RTA_DST (Some dst)) msg) (fun msg =>
        next_msg (keep_if (has_attr r ROUTE_ATTR_PRIO) (keep_put RTA_PRIORITY 4 (le_encode 4 (rt_prio d))) msg) (fun msg =>
        next_msg (keep_if (has_attr r ROUTE_ATTR_SRC) (keep_put_addr RTA_SRC (rt_src d)) msg) (fun msg =>
        next_msg (keep_if (has_attr r ROUTE_ATTR_PREF_SRC) (keep_put_addr RTA_PREFSRC (rt_pref_src d)) msg) (fun msg =>
        next_msg (keep_if (has_attr r ROUTE_ATTR_IIF) (keep_put RTA_IIF 4 (le_encode 4 (rt_iif d))) msg) (fun msg =>
        next_msg (keep_if (has_attr r ROUTE_ATTR_TTL_PROPAGATE)
                    (keep_put RTA_TTL_PROPAGATE 1 (le_encode 1 (rt_ttl_propagate d))) msg) (fun msg =>
        next_msg (keep_if (0 <? rt_nmetrics d) (nested RTA_METRICS (put_metrics r (Z.to_nat RTAX_MAX) 1)) msg) (fun msg =>
        if rtnl_route_get_nnexthops r =? 1 then
          match rtnl_route_nexthop_n r 0 with
          | None => Fault
          | Some nh => put_nexthop true (ce_data nh) msg
          end
        else if 1 <? rtnl_route_get_nnexthops r then nested RTA_MULTIPATH (put_hops (rt_nexthops d)) msg
        else mret (0, msg)))))))))
  end.

Definition build_route_msg (c1 c2 : bool) (default_msg_size : Z) (tmpl : route) (cmd flags : Z)
    : exec (Z + nl_msg) :=
  m ← nlmsg_alloc_simple c1 c2 default_msg_size cmd flags;
  match m with
  | None => err NLE_NOMEM
  | Some msg =>
      '(e, msg) ← rtnl_route_build_msg msg tmpl;
      if e <? 0 then _ ← nlmsg_free (Some msg); mret (inl e) else ok msg
  end.
Definition rtnl_route_build_add_request c1 c2 default_msg_size (tmpl : route) (flags : Z) :=
  build_route_msg c1 c2 default_msg_size tmpl RTM_NEWROUTE (Z.lor NLM_F_CREATE flags).
Definition rtnl_route_build_del_request c1 c2 default_msg_size (tmpl : route) (flags : Z) :=
  build_route_msg c1 c2 default_msg_size tmpl RTM_DELROUTE flags.

Section Requests.
Context {W : Type}.
Variable n : net W.
Definition rtnl_route_add (p : port_map) (sk : nl_sock) (r : route) (flags : Z) (w : W) :=
  request_and_ack n (rtnl_route_build_add_request (n_msg n) (n_buf n) (n_size n) r flags) p sk w.
Definition rtnl_route_delete (p : port_map) (sk : nl_sock) (r : route) (flags : Z) (w : W) :=
  request_and_ack n (rtnl_route_build_del_request (n_msg n) (n_buf n) (n_size n) r flags) p sk w.
Definition route_request_update (c : nl_cache) (h : nl_sock) (p : port_map) (w : W) :=
  net_send_simple n p h RTM_GETROUTE NLM_F_DUMP
    (rtmsg (c_iarg1 c) 0 0 0 0 0 0 0 (if has_flag (c_iarg2 c) ROUTE_CACHE_CONTENT then RTM_F_CLONED else 0)) w.
End Requests.

(** ** The cache *)

Definition route_groups : list nl_af_group :=
  [{| ag_family := AF_INET; ag_group := 7 |}; {| ag_family := AF_INET6; ag_group := 11 |};
   {| ag_family := AF_MPLS; ag_group := 27 |}; {| ag_family := AF_DECnet; ag_group := 15 |}].
Definition rtnl_route_ops : nl_cache_ops :=
  {| co_name := Some (str "route/route"); co_hdrsize := 12; co_protocol := NETLINK_ROUTE;
     co_hash_size := 0; co_flags := 0; co_groups := Some route_groups; co_obj_ops := ROUTE_OPS;
     co_msgtypes := [{| mt_id := RTM_NEWROUTE; mt_act := NL_ACT_NEW; mt_name := str "new" |};
                     {| mt_id := RTM_DELROUTE; mt_act := NL_ACT_DEL; mt_name := str "del" |};
                     {| mt_id := RTM_GETROUTE; mt_act := NL_ACT_GET; mt_name := str "get" |}] |}.

Definition rtnl_route_alloc_cache {V} (f : filling rtnl_route V) (type : Z) (c0 : bool)
    (inet_pton : Z -> list Z -> option (list Z)) (c : Z -> bool) (ch : Z -> Z -> bool) (family flags : Z) :=
  cache_init_fill f route_ops_at (fun _ => rtnl_route_ops) route_0
    (fun _ => Some (route_request_update (f_net f))) (fun _ => route_msg_parser inet_pton c ch c0)
    (fun x => nl_cache_set_arg2 (nl_cache_set_arg1 x family) flags)
    (fun h c => mret (free_cache h c)) type.

(** ** Termination *)

Lemma ends_addr_valid pton a : ends (addr_valid pton a).
Proof. unfold addr_valid. ends_steps. Qed.
Lemma ends_set_checked pton nh attr set a : ends (set_checked pton nh attr set a).
Proof. unfold set_checked. destruct a; [|done]. apply ends_bind; [apply ends_addr_valid|done]. Qed.
Lemma ends_encap_parse pton c1 c2 b e t nh : bytes_ok b -> ends (nh_encap_parse_msg pton c1 c2 b e t nh).
Proof.
  intros Hb. unfold nh_encap_parse_msg, nla_get_u16, mpls_encap_parse_msg, nla_get_u8, rtnl_route_nh_encap_mpls.
  ends_steps; first [by apply ends_nested|apply ends_addr_of_attr|apply ends_addr_valid].
Qed.

Section Ends.
Variable inet_pton : Z -> list Z -> option (list Z).
Variable b : list Z.
Hypothesis Hb : bytes_ok b.

Lemma ends_newdst c nomem family nla nh : ends (hop_newdst inet_pton b c nomem family nla nh).
Proof. unfold hop_newdst, checked. ends_steps; first [apply ends_addr_of_attr|apply ends_set_checked]. Qed.
Lemma ends_via c nomem nla nh : ends (hop_via inet_pton b c nomem nla nh).
Proof.
  unfold hop_via, rtnl_route_parse_via, checked, nl_addr_build. ends_steps; apply ends_set_checked.
Qed.
Lemma ends_hop_encap c tb nh : ends (hop_encap inet_pton b c tb nh).
Proof. unfold hop_encap, checked. ends_steps; by apply ends_encap_parse. Qed.
Lemma ends_parse_hop c family rtnh len : ends (parse_hop inet_pton b c family rtnh len).
Proof.
  unfold parse_hop, hop_attrs, nla_get_u32. ends_steps;
    first [ by apply ends_nla_parse
          | apply ends_if_attr_or; intros ? _; ends_steps; apply ends_addr_of_attr
          | apply ends_if_attr; intros ?; ends_steps
          | apply ends_if_attr_or; intros ? _; apply ends_newdst
          | apply ends_if_attr_or; intros ? _; apply ends_via
          | apply ends_hop_encap ].
Qed.

(** The places where the loop over next hops looks, from [p] with [t] bytes left. *)
Inductive visits : Z -> Z -> Z -> Z -> Prop :=
| visits_here p t : visits p t p t
| visits_next p t len p' t' :
    8 <= t -> get_u16 b p = Done len -> len <= t ->
    visits (p + align4 len) (u64 (t - align4 len)) p' t' -> visits p t p' t'.

(** No next hop of the attribute has length 0. *)
Definition hops_advance (attr : Z) : Prop :=
  forall len, nla_len b attr = Done len ->
  forall p t, visits (nla_data attr) (u64 len) p t -> 8 <= t -> get_u16 b p <> Done 0.

Lemma get_u16_inside p v : get_u16 b p = Done v -> 0 <= p /\ p + 2 <= zlen b.
Proof.
  unfold get_u16, load, in_bounds. destruct (_ && _) eqn:E; [|done]. intros _. bool_hyps. lia.
Qed.

Lemma ends_parse_hops ch fuel : forall i r p t,
  0 <= p -> Z.max 0 (zlen b - p) < Z.of_nat fuel ->
  (forall p' t', visits p t p' t' -> 8 <= t' -> get_u16 b p' <> Done 0) ->
  ends (parse_hops inet_pton ch b fuel i r p t).
Proof.
  induction fuel as [|fuel IH]; intros i r p t Hp Hf Hv; cbn [parse_hops]; [lia|].
  destruct (Z.ltb_spec t 8); [done|].
  destruct (get_u16 b p) as [len| | |] eqn:E; [|done|done|by destruct (ends_u16 b p)]. exec_simpl.
  pose proof (get_u16_inside p len E). apply get_u16_range in E as Hl; [|done].
  destruct (Z.ltb_spec t len); [done|]. apply ends_bind; [apply ends_parse_hop|]. intros [e|nh]; [done|].
  assert (len <> 0) by (intros ->; by destruct (Hv p t (visits_here p t))).
  pose proof (align4_bounds len). apply IH; [lia|lia|].
  intros p' t' Hv'. apply Hv. eapply visits_next; [lia|exact E|lia|exact Hv'].
Qed.

Lemma ends_multipath ch r attr :
  hops_advance attr -> ends (rtnl_route_parse_multipath inet_pton ch b r attr).
Proof.
  intros Hv. unfold rtnl_route_parse_multipath.
  destruct (nla_len b attr) as [len| | |] eqn:E; [|done|done|by destruct (ends_nla_len b attr)]. exec_simpl.
  assert (0 <= attr).
  { unfold nla_len, nlattr_len in E. destruct (get_u16 b attr) as [v| | |] eqn:E'; try done. apply get_u16_inside in E'; lia. }
  pose proof (zlen_nonneg b). unfold nla_data, NLA_HDRLEN in *. apply ends_parse_hops; [lia|lia|].
  intros p t. by apply Hv.
Qed.

Lemma ends_parse_metrics mtb n : forall i r, ends (parse_metrics b mtb n i r).
Proof.
  induction n as [|n IH]; intros i r; cbn [parse_metrics]; [done|]. unfold nla_get_u32.
  ends_steps; apply IH.
Qed.
Lemma ends_old_hop c o : ends (old_hop c o).
Proof. unfold old_hop. destruct o; [done|]. by destruct (rtnl_route_nh_alloc (c 0)). Qed.
Lemma ends_with_hop c tb t f o : (forall nla nh, ends (f nla nh)) -> ends (with_hop c tb t f o).
Proof.
  intros Hf. unfold with_hop. apply ends_if_attr_or. intros nla _. apply ends_run_or; [apply ends_old_hop|]. intros nh.
  apply ends_run_or; [apply Hf|done].
Qed.
Lemma ends_old_nexthop c tb family : ends (old_nexthop inet_pton c b tb family).
Proof.
  unfold old_nexthop, nla_get_u32. ends_steps; apply ends_with_hop; intros;
    first [apply ends_newdst | apply ends_via | ends_steps; apply ends_addr_of_attr].
Qed.

(** No next hop of the message has length 0. *)
Definition multipath_advances : Prop :=
  forall e tb nla, nlmsg_parse b 0 12 RTA_MAX (Some route_policy) = Done (e, tb) -> 0 <= e ->
    tb_at tb RTA_MULTIPATH = Done (Some nla) -> hops_advance nla.

Lemma ends_addr_or_empty c tb t family len : ends (route_addr_or_empty c b tb t family len).
Proof. unfold route_addr_or_empty, nl_addr_alloc. ends_steps; apply ends_addr_of_attr. Qed.
Lemma ends_source c tb family len r : ends (route_source c b tb family len r).
Proof. unfold route_source, nl_addr_alloc. ends_steps; apply ends_addr_of_attr. Qed.
Lemma ends_join r flags o : ends (join_nexthop r flags o).
Proof. unfold join_nexthop. ends_steps. Qed.

Lemma ends_route_parse c ch : multipath_advances -> ends (rtnl_route_parse inet_pton c ch b).
Proof.
  intros Hm. unfold rtnl_route_parse. apply ends_bind; [apply ends_u16|]. intros msgtype.
  destruct (nlmsg_parse b 0 12 RTA_MAX (Some route_policy)) as [[e tb]| | |] eqn:Ep; [|done|done|by destruct (ends_nlmsg_parse b 0 12 RTA_MAX (Some route_policy) Hb)].
  exec_simpl. destruct (Z.ltb_spec e 0); [done|]. unfold nla_get_u32, nla_get_u8.
  ends_steps;
    first [ apply ends_addr_or_empty | apply ends_source | apply ends_old_nexthop | apply ends_old_hop
          | apply ends_hop_encap | apply ends_join
          | apply ends_if_attr; intros ?; ends_steps; apply ends_memcpy
          | apply ends_if_attr_or; intros nla Hn; ends_steps;
              first [ apply ends_addr_of_attr | by apply ends_nested | apply ends_parse_metrics
                    | apply ends_multipath; by apply (Hm e tb) ] ].
Qed.
End Ends.
