(* ===== verification/RouteProps.v ===== *)
(** What holds of the routes that applications and the parser can make
    (lib/route/route_obj.c): a well-formedness invariant, requests that are always
    composed, keys that agree, and a parser that ends. *)
From S2P Require Import Prelude Errors Msg Attr CString Utils Addr Handlers Socket Nl NlList Object Cache CacheInv ObjAttr CacheMngt CacheDump Wire Build Rtnl Neigh Rule StepMsg Nexthop Route.

(** ** Well-formed routes *)

(** How many of the bits below [n] are set. *)
Fixpoint bits_below (m : Z) (n : nat) : Z :=
  match n with O => 0 | S n => Z.b2z (Z.testbit m (Z.of_nat n)) + bits_below m n end.

Lemma bits_below_range m n : 0 <= bits_below m n <= Z.of_nat n.
Proof. induction n as [|n IH]; [done|]. cbn [bits_below]. destruct (Z.testbit m (Z.of_nat n)); simpl; lia. Qed.
Lemma bits_below_ext m m' n :
  (forall i, 0 <= i < Z.of_nat n -> Z.testbit m i = Z.testbit m' i) -> bits_below m n = bits_below m' n.
Proof.
  induction n as [|n IH]; intros H; [done|]. cbn [bits_below]. rewrite H by lia. rewrite IH; [done|]. intros i Hi. apply H. lia.
Qed.
(** One bit of the word changes from [v] to [negb v]. *)
Lemma bits_below_flip m m' i n :
  0 <= i < Z.of_nat n -> (forall j, j <> i -> Z.testbit m' j = Z.testbit m j) -> Z.testbit m' i = negb (Z.testbit m i) ->
  bits_below m' n = bits_below m n + if Z.testbit m i then -1 else 1.
Proof.
  intros Hi Ho Hf. induction n as [|n IH]; [lia|]. cbn [bits_below]. destruct (decide (i = Z.of_nat n)) as [->|Hne].
  - rewrite Hf, (bits_below_ext m' m) by (intros j Hj; apply Ho; lia). destruct (Z.testbit m (Z.of_nat n)); simpl; lia.
  - rewrite Ho, IH by lia. lia.
Qed.
Lemma bit_set m i j : 0 <= i -> Z.testbit (Z.lor m (Z.shiftl 1 i)) j = Z.testbit m j || bool_decide (j = i).
Proof.
  intros Hi. rewrite Z.lor_spec, Z.shiftl_1_l. f_equal. case_bool_decide as E; [subst; by apply Z.pow2_bits_true|].
  apply Z.pow2_bits_false. congruence.
Qed.
Lemma bit_clear m i j : 0 <= i -> 0 <= j -> Z.testbit (Z.land m (Z.lnot (Z.shiftl 1 i))) j = Z.testbit m j && negb (bool_decide (j = i)).
Proof.
  intros Hi Hj. rewrite Z.land_spec, Z.lnot_spec, Z.shiftl_1_l by done. do 2 f_equal.
  case_bool_decide as E; [subst; by apply Z.pow2_bits_true|]. apply Z.pow2_bits_false. congruence.
Qed.

(** The metrics: the number of them is that of the bits of the mask. *)
Definition metrics_wf (d : rtnl_route) : Prop :=
  zlen (rt_metrics d) = RTAX_MAX /\ rt_nmetrics d = bits_below (rt_metrics_mask d) (Z.to_nat RTAX_MAX).
Record route_wf (r : route) : Prop := {
  rw_hops : rt_nr_nh (ce_data r) = u32 (zlen (rt_nexthops (ce_data r)));
  rw_hops_attr : rt_nexthops (ce_data r) <> [] -> has_attr r ROUTE_ATTR_MULTIPATH = true;
  rw_hops_wf : Forall (fun nh => hop_wf (ce_data nh)) (rt_nexthops (ce_data r));
  rw_metrics : metrics_wf (ce_data r);
  rw_dst : addr_opt_ok (rt_dst (ce_data r));
  rw_src : addr_opt_ok (rt_src (ce_data r));
  rw_pref_src : addr_opt_ok (rt_pref_src (ce_data r));
  rw_dst_attr : has_attr r ROUTE_ATTR_DST = true -> is_Some (rt_dst (ce_data r));
  rw_src_attr : has_attr r ROUTE_ATTR_SRC = true -> is_Some (rt_src (ce_data r));
  rw_pref_attr : has_attr r ROUTE_ATTR_PREF_SRC = true -> is_Some (rt_pref_src (ce_data r))
}.

Lemma has_flag_set_keeps f m m' : has_flag f m = true -> has_flag (set_flag f m') m = true.
Proof.
  unfold has_flag, set_flag. rewrite Z.land_lor_distr_l, !negb_true_iff, !Z.eqb_neq, Z.lor_eq_0_iff. tauto.
Qed.

(** A member other than these changes. *)
Lemma route_wf_fill r attr f :
  route_wf r ->
  (let d := f (ce_data r) in
   rt_nr_nh d = rt_nr_nh (ce_data r) /\ rt_nexthops d = rt_nexthops (ce_data r) /\ metrics_wf d /\
   addr_opt_ok (rt_dst d) /\ addr_opt_ok (rt_src d) /\ addr_opt_ok (rt_pref_src d) /\
   (Z.land attr ROUTE_ATTR_DST = 0 /\ rt_dst d = rt_dst (ce_data r) \/ is_Some (rt_dst d)) /\
   (Z.land attr ROUTE_ATTR_SRC = 0 /\ rt_src d = rt_src (ce_data r) \/ is_Some (rt_src d)) /\
   (Z.land attr ROUTE_ATTR_PREF_SRC = 0 /\ rt_pref_src d = rt_pref_src (ce_data r) \/ is_Some (rt_pref_src d))) ->
  route_wf (fill_attr r attr f).
Proof.
  intros Hw (H1 & H2 & H3 & H4 & H5 & H6 & H7 & H8 & H9).
  split; try done; unfold has_attr; cbn [fill_attr ce_data ce_mask] in *.
  - rewrite H1, H2. apply Hw.
  - rewrite H2. intros Hn. apply has_flag_set_keeps. by apply (rw_hops_attr r Hw).
  - rewrite H2. apply Hw.
  - destruct H7 as [[Hz He]|?]; [|done]. rewrite has_flag_set_other by done. rewrite He. apply Hw.
  - destruct H8 as [[Hz He]|?]; [|done]. rewrite has_flag_set_other by done. rewrite He. apply Hw.
  - destruct H9 as [[Hz He]|?]; [|done]. rewrite has_flag_set_other by done. rewrite He. apply Hw.
Qed.

(** Solves the conditions for a member that is a number or an address. *)
Ltac route_fill Hw :=
  apply route_wf_fill; [exact Hw|]; destruct Hw;
  cbn [ce_data rt_nr_nh rt_nexthops rt_nmetrics rt_metrics rt_metrics_mask rt_dst rt_src rt_pref_src] in *;
  split_and!; try done; try assumption; first [left; split; reflexivity | right; by eexists | idtac].

Lemma set_metric_wf r i v e r' :
  route_wf r -> rtnl_route_set_metric r i v = (e, r') -> route_wf r'.
Proof.
  intros Hw. unfold rtnl_route_set_metric. destruct (metric_range i) eqn:Er; [by intros [= _ <-]|]. intros [= _ <-].
  unfold metric_range, RTAX_MAX in Er. bool_hyps. pose proof (rw_metrics r Hw) as [Hl Hn].
  apply route_wf_fill; [done|]. unfold has_metric. cbn [rt_metrics_mask].
  pose proof (bits_below_range (rt_metrics_mask (ce_data r)) (Z.to_nat RTAX_MAX)).
  destruct (Z.testbit (rt_metrics_mask (ce_data r)) (i - 1)) eqn:Et.
  - destruct Hw. unfold metrics_wf in *. 
    cbn [rt_nr_nh rt_nexthops rt_nmetrics rt_metrics rt_metrics_mask rt_dst rt_src rt_pref_src].
    unfold zlen in *. rewrite length_insert. split_and!; try done; left; done.
  - destruct Hw. unfold metrics_wf in *.
    cbn [rt_nr_nh rt_nexthops rt_nmetrics rt_metrics rt_metrics_mask rt_dst rt_src rt_pref_src].
    unfold zlen in *. rewrite length_insert. split_and!; try done; try (left; done).
    rewrite (bits_below_flip (rt_metrics_mask (ce_data r)) _ (i - 1)), Et.
    + rewrite Hn, u8_id; [done|]. unfold RTAX_MAX in *. lia.
    + unfold RTAX_MAX. lia.
    + intros j Hj. rewrite bit_set by lia. rewrite bool_decide_false by done. apply orb_false_r.
    + rewrite bit_set by lia. by rewrite Et, bool_decide_true.
Qed.
Lemma unset_metric_wf r i e r' : route_wf r -> rtnl_route_unset_metric r i = (e, r') -> route_wf r'.
Proof.
  intros Hw. unfold rtnl_route_unset_metric. destruct (metric_range i) eqn:Er; [by intros [= _ <-]|]. intros [= _ <-].
  unfold metric_range, RTAX_MAX in Er. bool_hyps. unfold has_metric.
  destruct (Z.testbit (rt_metrics_mask (ce_data r)) (i - 1)) eqn:Et; [|done].
  pose proof (bits_below_range (rt_metrics_mask (ce_data r)) (Z.to_nat RTAX_MAX)) as Hr.
  destruct Hw as [? ? ? [Hl Hn] ? ? ? ? ? ?].
  set (m' := Z.land (rt_metrics_mask (ce_data r)) (Z.lnot (Z.shiftl 1 (i - 1)))).
  assert (u8 (rt_nmetrics (ce_data r) - 1) = bits_below m' (Z.to_nat RTAX_MAX)) as Hm.
  { assert (bits_below m' (Z.to_nat RTAX_MAX) = rt_nmetrics (ce_data r) + -1) as Hb.
    - rewrite (bits_below_flip (rt_metrics_mask (ce_data r)) m' (i - 1)); [rewrite Et; lia|unfold RTAX_MAX; lia| |].
      + intros j Hj. destruct (Z.ltb_spec j 0); [by rewrite !Z.testbit_neg_r by lia|].
        unfold m'. rewrite bit_clear by lia. rewrite bool_decide_false by done. apply andb_true_r.
      + unfold m'. rewrite bit_clear by lia. by rewrite Et, bool_decide_true.
    - pose proof (bits_below_range m' (Z.to_nat RTAX_MAX)). unfold RTAX_MAX in *. rewrite u8_id; lia. }
  by split.
Qed.

Lemma set_address_wf r attr set a :
  route_wf r -> addr_ok a ->
  (attr = ROUTE_ATTR_DST /\ set = (fun a (d : rtnl_route) => d <| rt_dst := Some a |>) \/
   attr = ROUTE_ATTR_SRC /\ set = (fun a (d : rtnl_route) => d <| rt_src := Some a |>) \/
   attr = ROUTE_ATTR_PREF_SRC /\ set = (fun a (d : rtnl_route) => d <| rt_pref_src := Some a |>)) ->
  route_wf (set_address r attr set a).2.
Proof.
  intros Hw Ha Hs. unfold set_address.
  assert (forall fam, route_wf (fill_attr (Body (ce_mask r) (let d := ce_data r in d <| rt_family := fam |>))
            (Z.lor attr ROUTE_ATTR_FAMILY) (set a))) as Hfam.
  { intros fam. destruct Hs as [[-> ->]|[[-> ->]|[-> ->]]]; destruct Hw;
      (apply route_wf_fill; [by split|]); split_and!; try done; first [by left|right; by eexists]. }
  assert (route_wf (fill_attr (Body (ce_mask r) (ce_data r)) (Z.lor attr ROUTE_ATTR_FAMILY) (set a))) as Hsame.
  { destruct Hs as [[-> ->]|[[-> ->]|[-> ->]]]; destruct Hw;
      (apply route_wf_fill; [by split|]); split_and!; try done; first [by left|right; by eexists]. }
  destruct (has_attr r ROUTE_ATTR_FAMILY); [destruct (negb _); [done|exact Hsame]|apply Hfam].
Qed.
Lemma set_dst_wf r a : route_wf r -> addr_ok a -> route_wf (rtnl_route_set_dst r a).2.
Proof. intros Hw Ha. apply set_address_wf; [done..|by left]. Qed.
Lemma set_src_wf r a : route_wf r -> addr_ok a -> route_wf (rtnl_route_set_src r a).2.
Proof.
  intros Hw Ha. unfold rtnl_route_set_src. destruct (_ =? _); [done|]. apply set_address_wf; [done..|by right; left].
Qed.
Lemma set_pref_src_wf r a : route_wf r -> addr_ok a -> route_wf (rtnl_route_set_pref_src r a).2.
Proof. intros Hw Ha. apply set_address_wf; [done..|by right; right]. Qed.

Lemma u32_add x y : u32 (u32 x + y) = u32 (x + y).
Proof. unfold u32. by rewrite Zplus_mod_idemp_l. Qed.

Lemma add_nexthop_wf r nh : route_wf r -> hop_wf (ce_data nh) -> route_wf (rtnl_route_add_nexthop r nh).
Proof.
  intros Hw Hn. assert (forall attr, Z.land ROUTE_ATTR_MULTIPATH attr = 0 ->
    has_attr (rtnl_route_add_nexthop r nh) attr = has_attr r attr) as Ha by (intros; by apply has_flag_set_other).
  destruct Hw as [H1 H2 H3 H4 H5 H6 H7 H8 H9 H10].
  split; try done; cbn [rtnl_route_add_nexthop fill_attr ce_data rt_nr_nh rt_nexthops]; rewrite ?Ha by done; try done.
  - rewrite H1, u32_add. f_equal. rewrite zlen_app. change (zlen [nh]) with 1. lia.
  - intros _. by apply has_flag_set.
  - apply Forall_app_2; [done|]. by apply Forall_cons_2.
Qed.
Lemma remove_nexthop_wf r i :
  route_wf r -> (i < length (rt_nexthops (ce_data r)))%nat -> route_wf (rtnl_route_remove_nexthop r i).
Proof.
  intros Hw Hi. unfold rtnl_route_remove_nexthop. destruct (has_attr r ROUTE_ATTR_MULTIPATH) eqn:E; [|done].
  destruct Hw as [H1 H2 H3 H4 H5 H6 H7 H8 H9 H10].
  split; try done; cbn [ce_data rt_nr_nh rt_nexthops].
  - rewrite H1. replace (u32 (zlen (rt_nexthops (ce_data r))) - 1) with (u32 (zlen (rt_nexthops (ce_data r))) + -1) by lia.
    rewrite u32_add. f_equal. unfold zlen. rewrite length_delete; [lia|]. by apply lookup_lt_is_Some.
  - by apply Forall_delete.
Qed.

(** What an application does to a route.  A next hop that is removed is one of the
    route's. *)
Inductive route_op :=
| RtTable (v : Z) | RtScope (v : Z) | RtTos (v : Z) | RtProtocol (v : Z) | RtPriority (v : Z) | RtFamily (v : Z)
| RtDst (a : nl_addr) | RtSrc (a : nl_addr) | RtPrefSrc (a : nl_addr) | RtType (v : Z) | RtFlags (v : Z)
| RtUnsetFlags (v : Z) | RtMetric (i v : Z) | RtUnsetMetric (i : Z) | RtIif (v : Z) | RtTtl (v : Z)
| RtAddHop (nh : nexthop) | RtRemoveHop (i : nat).
Definition run_route_op (r : route) (op : route_op) : route :=
  match op with
  | RtTable v => rtnl_route_set_table r v
  | RtScope v => rtnl_route_set_scope r v
  | RtTos v => rtnl_route_set_tos r v
  | RtProtocol v => rtnl_route_set_protocol r v
  | RtPriority v => rtnl_route_set_priority r v
  | RtFamily v => (rtnl_route_set_family r v).2
  | RtDst a => (rtnl_route_set_dst r a).2
  | RtSrc a => (rtnl_route_set_src r a).2
  | RtPrefSrc a => (rtnl_route_set_pref_src r a).2
  | RtType v => (rtnl_route_set_type r v).2
  | RtFlags v => rtnl_route_set_flags r v
  | RtUnsetFlags v => rtnl_route_unset_flags r v
  | RtMetric i v => (rtnl_route_set_metric r i v).2
  | RtUnsetMetric i => (rtnl_route_unset_metric r i).2
  | RtIif v => rtnl_route_set_iif r v
  | RtTtl v => rtnl_route_set_ttl_propagate r v
  | RtAddHop nh => rtnl_route_add_nexthop r nh
  | RtRemoveHop i => rtnl_route_remove_nexthop r i
  end.
Definition route_op_ok (inet_pton : Z -> list Z -> option (list Z)) (r : route) (op : route_op) : Prop :=
  match op with
  | RtDst a | RtSrc a | RtPrefSrc a => addr_ok a
  | RtAddHop nh => hop_made inet_pton nh
  | RtRemoveHop i => (i < length (rt_nexthops (ce_data r)))%nat
  | _ => True
  end.

Lemma route_op_wf inet_pton r op : route_wf r -> route_op_ok inet_pton r op -> route_wf (run_route_op r op).
Proof.
  intros Hw Ho. destruct op; cbn [run_route_op route_op_ok] in *; try (route_fill Hw; fail).
  - unfold rtnl_route_set_family. case_bool_decide; [cbn [snd]; route_fill Hw|done].
  - by apply set_dst_wf.
  - by apply set_src_wf.
  - by apply set_pref_src_wf.
  - unfold rtnl_route_set_type. destruct (_ <? _); [done|cbn [snd]; route_fill Hw].
  - destruct (rtnl_route_set_metric r i v) eqn:E. by eapply set_metric_wf.
  - destruct (rtnl_route_unset_metric r i) eqn:E. by eapply unset_metric_wf.
  - apply add_nexthop_wf; [done|]. by eapply hop_made_wf.
  - by apply remove_nexthop_wf.
Qed.

Lemma clone_nexthops_wf c0 c l : forall dst dst',
  clone_nexthops c0 c l dst = (0, dst') -> route_wf dst -> Forall (fun nh => hop_wf (ce_data nh)) l ->
  route_wf dst' /\ rt_dst (ce_data dst') = rt_dst (ce_data dst) /\ rt_src (ce_data dst') = rt_src (ce_data dst) /\
  rt_pref_src (ce_data dst') = rt_pref_src (ce_data dst) /\ (l = [] -> dst' = dst).
Proof.
  induction l as [|nh l IH]; intros dst dst'; cbn [clone_nexthops]; [by intros [= <-]|].
  destruct (rtnl_route_nh_clone c0 c nh) as [new|] eqn:E; [|done]. intros H Hw [Hn Hl]%Forall_cons.
  apply IH in H as (H1 & H2 & H3 & H4 & _); [done|apply add_nexthop_wf; [done|by eapply hop_clone_wf]|done].
Qed.

Lemma route_clone_wf c0 c r d : route_wf r -> route_clone c0 c (ce_data r) r = (0, d) -> route_wf (Body (ce_mask r) d).
Proof.
  intros Hw. unfold route_clone.
  destruct (clone_addr c (rt_dst (ce_data r))) as [a|] eqn:E1; [|done].
  destruct (clone_addr c (rt_src (ce_data r))) as [a'|] eqn:E2; [|done].
  destruct (clone_addr c (rt_pref_src (ce_data r))) as [a''|] eqn:E3; [|done].
  set (b := Body _ _). destruct (clone_nexthops c0 c _ b) as [e dst'] eqn:E. intros [= -> <-].
  apply clone_addr_ok in E1 as [H1 H1']; [|apply Hw]. apply clone_addr_ok in E2 as [H2 H2']; [|apply Hw].
  apply clone_addr_ok in E3 as [H3 H3']; [|apply Hw]. destruct Hw as [W1 W2 W3 W4 W5 W6 W7 W8 W9 W10].
  assert (rt_dst (ce_data b) = a /\ rt_src (ce_data b) = a' /\ rt_pref_src (ce_data b) = a'') as (B1 & B2 & B3).
  { unfold b. destruct a, a', a'', (rt_dst (ce_data r)) eqn:D1, (rt_src (ce_data r)) eqn:D2, (rt_pref_src (ce_data r)) eqn:D3;
      try done; cbn [store_clone ce_data rt_dst rt_src rt_pref_src]; by rewrite ?D1, ?D2, ?D3. }
  assert (forall o o' : option nl_addr, is_some o = is_some o' -> is_Some o' -> is_Some o) as Hsome
    by (intros [] []; naive_solver).
  assert (route_wf b) as Hb.
  { split; rewrite ?B1, ?B2, ?B3; try done; eauto. by destruct a, a', a''. }
  apply clone_nexthops_wf in E as ([V1 V2 V3 V4 V5 V6 V7 V8 V9 V10] & D1 & D2 & D3 & Hnil); [|done..].
  rewrite B1 in D1. rewrite B2 in D2. rewrite B3 in D3.
  split; cbn [ce_data]; rewrite ?D1, ?D2, ?D3; try done; eauto.
  intros Hne. apply W2. intros Hn. apply Hne. by rewrite (Hnil Hn).
Qed.

Lemma find_nexthop_lt nh l : forall i j, find_nexthop nh l i = Some j -> (i <= j < i + length l)%nat.
Proof.
  induction l as [|old l IH]; intros i j; [done|]. cbn [find_nexthop]. destruct (_ =? 0).
  - intros [= <-]. simpl. lia.
  - intros H%IH. simpl. lia.
Qed.

(** A next hop of a route. *)
Lemma nexthop_n_in r n nh : rtnl_route_nexthop_n r n = Some nh -> nh ∈ rt_nexthops (ce_data r).
Proof. unfold rtnl_route_nexthop_n. destruct (_ && _); [|done]. apply list_elem_of_lookup_2. Qed.

Lemma route_update_wf c0 c old new e old' :
  route_wf old -> route_wf new -> route_update c0 c old new = (e, old') -> route_wf old'.
Proof.
  intros Ho Hn. unfold route_update.
  destruct (_ || _); [by intros [= _ <-]|]. destruct (negb _); [by intros [= _ <-]|].
  destruct (rtnl_route_nexthop_n new 0) as [nh|] eqn:En; [|by intros [= _ <-]].
  destruct (negb _); [by intros [= _ <-]|]. destruct (_ =? RTM_NEWROUTE).
  - destruct (rtnl_route_nh_clone c0 c nh) as [cl|] eqn:Ec; intros [= _ <-]; [|done].
    apply add_nexthop_wf; [done|]. eapply hop_clone_wf; [|done].
    apply nexthop_n_in in En. pose proof (rw_hops_wf new Hn) as Hf. rewrite Forall_forall in Hf. by apply Hf.
  - destruct (_ =? RTM_DELROUTE); [|by intros [= _ <-]]. destruct (_ <=? 1); [by intros [= _ <-]|]. intros [= _ <-].
    destruct (find_nexthop nh _ 0) as [i|] eqn:Ef; [|done]. apply find_nexthop_lt in Ef.
    apply remove_nexthop_wf; [done|lia].
Qed.

(** *** Parsing *)

Section ParseWf.
Variable inet_pton : Z -> list Z -> option (list Z).
Variable b : list Z.
Hypothesis Hb : bytes_ok b.

Lemma empty_addr_ok c a : nl_addr_alloc c 0 = Some a -> addr_ok a.
Proof. unfold nl_addr_alloc. destruct c; [|done]. intros [= <-]. split; [done|]. split; [constructor|done]. Qed.

Lemma nla_len_bound nla len : nla_len b nla = Done len -> -4 <= len <= 65531.
Proof.
  unfold nla_len. intros (v & Hv & Hlen)%bind_inv. apply get_u16_range in Hv; [|done].
  change (2 ^ 16) with 65536 in Hv. injection Hlen as <-. unfold NLA_HDRLEN. lia.
Qed.

Lemma parse_via_ok c nla a : rtnl_route_parse_via b c nla = Done (inr a) -> via_ok a.
Proof.
  unfold rtnl_route_parse_via. intros (len & Hl & H)%bind_inv. apply nla_len_bound in Hl.
  apply bind_inv in H as (fam & _ & H). apply bind_inv in H as (d & Hd & H).
  apply load_inv in Hd as [Hd Hz]; [|done]. pose proof (zlen_nonneg d). rewrite s32_id in * by lia.
  apply bind_inv in H as (o & Ho & H). unfold nl_addr_build, nl_addr_alloc in Ho.
  destruct c; cbn [negb] in Ho; [|by injection Ho as <-]. rewrite load_done, <- Hz, sub_all in Ho by lia.
  injection Ho as <-. injection H as <-. unfold via_ok, addr_ok, addr_wf, addr_bytes. cbn [a_len a_addr a_maxsize].
  rewrite u32_id, sub_all by lia. split_and!; (done || lia).
Qed.

Lemma checked_wf m nh' : (forall e nh, m = Done (e, nh) -> hop_wf (ce_data nh)) -> checked m = Done (inr nh') -> hop_wf (ce_data nh').
Proof.
  intros Hm. unfold checked. intros ([e nh] & E & H)%bind_inv. apply Hm in E. destruct (negb _); [done|]. by injection H as <-.
Qed.
Lemma hop_newdst_wf c nomem family nla nh nh' :
  hop_wf (ce_data nh) -> hop_newdst inet_pton b c nomem family nla nh = Done (inr nh') -> hop_wf (ce_data nh').
Proof.
  intros Hw. unfold hop_newdst. intros ([e|a] & Ha & H)%bind_inv; [done|]. apply addr_of_attr_ok in Ha; [|done].
  revert H. apply checked_wf. intros e x. by apply set_newdst_wf.
Qed.
Lemma hop_via_wf c nomem nla nh nh' :
  hop_wf (ce_data nh) -> hop_via inet_pton b c nomem nla nh = Done (inr nh') -> hop_wf (ce_data nh').
Proof.
  intros Hw. unfold hop_via. intros ([e|a] & Ha & H)%bind_inv; [done|]. apply parse_via_ok in Ha.
  revert H. apply checked_wf. intros e x. by apply set_via_wf.
Qed.
Lemma encap_parse_wf c1 c2 e t nh err nh' :
  hop_wf (ce_data nh) -> nh_encap_parse_msg inet_pton c1 c2 b e t nh = Done (err, nh') -> hop_wf (ce_data nh').
Proof.
  intros Hw. unfold nh_encap_parse_msg. intros (type & _ & H)%bind_inv. revert H.
  destruct (type =? LWTUNNEL_ENCAP_NONE); [by intros [= _ <-]|].
  destruct (LWTUNNEL_ENCAP_MAX <? type); [by intros [= _ <-]|].
  destruct (encap_ops_of type) as [[]|]; [|by intros [= _ <-]].
  unfold mpls_encap_parse_msg. intros ([e' tb] & _ & H)%bind_inv. revert H.
  destruct (negb _); [by intros [= _ <-]|]. intros ([dst|] & _ & H)%bind_inv; [|by injection H as _ <-].
  apply bind_inv in H as ([x|labels] & Hl & H); [by injection H as _ <-|]. apply addr_of_attr_ok in Hl; [|done].
  apply bind_inv in H as (ttl_at & _ & H). apply bind_inv in H as (ttl & _ & H).
  by eapply encap_mpls_wf, H.
Qed.
Lemma hop_encap_wf c tb nh nh' :
  hop_wf (ce_data nh) -> hop_encap inet_pton b c tb nh = Done (inr nh') -> hop_wf (ce_data nh').
Proof.
  intros Hw. unfold hop_encap. intros (e & _ & H)%bind_inv. apply bind_inv in H as (t & _ & H).
  destruct e as [e|], t as [t|]; try (by injection H as <-). revert H. apply checked_wf. intros err x. by apply encap_parse_wf.
Qed.

Lemma hop_attrs_wf c family rtnh len nh nh' :
  hop_wf (ce_data nh) -> hop_attrs inet_pton b c family rtnh len nh = Done (inr nh') -> hop_wf (ce_data nh').
Proof.
  intros Hw. unfold hop_attrs. intros ([e tb] & _ & H)%bind_inv. destruct (e <? 0); [done|].
  apply run_or_inv in H as (n1 & H1 & H). apply bind_inv in H as (n2 & H2 & H).
  apply run_or_inv in H as (n3 & H3 & H). apply run_or_inv in H as (n4 & H4 & H).
  revert H. apply hop_encap_wf. revert H4. apply (if_attr_or_keeps (fun n => hop_wf (ce_data n))).
  { intros nla x y Hx. by apply hop_via_wf. }
  revert H3. apply (if_attr_or_keeps (fun n => hop_wf (ce_data n))).
  { intros nla x y Hx. by apply hop_newdst_wf. }
  revert H2. apply (if_attr_keeps (fun n => hop_wf (ce_data n))).
  { intros nla x y Hx (v & _ & [= <-])%bind_inv. hop_fill Hx. }
  revert H1. apply (if_attr_or_keeps (fun n => hop_wf (ce_data n))); [|done].
  intros nla x y Hx (a & Ha & [= <-])%run_or_inv. apply addr_of_attr_ok in Ha; [|done]. hop_fill Hx.
Qed.
Lemma parse_hop_wf c family rtnh len nh :
  parse_hop inet_pton b c family rtnh len = Done (inr nh) -> hop_wf (ce_data nh).
Proof.
  unfold parse_hop, rtnl_route_nh_alloc. destruct (c 0); [|done].
  intros (hops & _ & H)%bind_inv. apply bind_inv in H as (ifindex & _ & H). apply bind_inv in H as (flags & _ & H).
  match type of H with context [hop_attrs _ _ _ _ _ _ ?n] => assert (hop_wf (ce_data n)) as Hn end.
  { pose proof hop_0_wf as H0. hop_fill H0. }
  destruct (8 <? len); [by eapply hop_attrs_wf|]. by injection H as <-.
Qed.
Lemma parse_hops_wf ch fuel : forall i r p t e r',
  route_wf r -> parse_hops inet_pton ch b fuel i r p t = Done (e, r') -> route_wf r'.
Proof.
  induction fuel as [|fuel IH]; intros i r p t e r' Hw; [done|]. cbn [parse_hops].
  destruct (t <? 8); [by intros [= _ <-]|]. intros (len & _ & H)%bind_inv. destruct (t <? len); [by injection H as _ <-|].
  apply bind_inv in H as ([x|nh] & Hn & H); [by injection H as _ <-|]. apply parse_hop_wf in Hn.
  revert H. apply IH. by apply add_nexthop_wf.
Qed.
Lemma multipath_wf ch r nla e r' :
  route_wf r -> rtnl_route_parse_multipath inet_pton ch b r nla = Done (e, r') -> route_wf r'.
Proof. intros Hw (len & _ & H)%bind_inv. by eapply parse_hops_wf. Qed.

Lemma parse_metrics_wf mtb n : forall i r r', route_wf r -> parse_metrics b mtb n i r = Done (inr r') -> route_wf r'.
Proof.
  induction n as [|n IH]; intros i r r' Hw; cbn [parse_metrics]; [by intros [= <-]|].
  intros ([nla|] & _ & H)%bind_inv; [|by revert H; apply IH].
  apply bind_inv in H as (len & _ & H). destruct (u64 len <? 4); [by revert H; apply IH|].
  apply bind_inv in H as (m & _ & H). destruct (rtnl_route_set_metric r i m) as [e x] eqn:E.
  destruct (e <? 0); [done|]. revert H. apply IH. by eapply set_metric_wf.
Qed.

(** The next hop of the message. *)
Definition opt_hop_wf (o : option nexthop) : Prop := from_option (fun nh => hop_wf (ce_data nh)) True o.
Lemma old_hop_wf c o nh : opt_hop_wf o -> old_hop c o = Done (inr nh) -> hop_wf (ce_data nh).
Proof.
  unfold old_hop, rtnl_route_nh_alloc. destruct o as [x|]; [by intros Hx [= <-]|]. intros _.
  destruct (c 0); [|done]. intros [= <-]. apply hop_0_wf.
Qed.
Lemma with_hop_wf c tb t f o o' :
  (forall nla nh nh', hop_wf (ce_data nh) -> f nla nh = Done (inr nh') -> hop_wf (ce_data nh')) ->
  opt_hop_wf o -> with_hop c tb t f o = Done (inr o') -> opt_hop_wf o'.
Proof.
  intros Hf Ho. apply (if_attr_or_keeps opt_hop_wf); [|done]. intros nla x y Hx (nh & Hn & H)%run_or_inv.
  apply old_hop_wf in Hn; [|done]. apply run_or_inv in H as (nh' & Hn' & H). injection H as <-. by eapply Hf.
Qed.
Lemma old_nexthop_wf c tb family o : old_nexthop inet_pton c b tb family = Done (inr o) -> opt_hop_wf o.
Proof.
  unfold old_nexthop. intros (n1 & H1 & H)%run_or_inv. apply run_or_inv in H as (n2 & H2 & H).
  apply run_or_inv in H as (n3 & H3 & H). apply run_or_inv in H as (n4 & H4 & H).
  revert H. apply with_hop_wf. { intros nla x y Hx. by apply hop_via_wf. }
  revert H4. apply with_hop_wf. { intros nla x y Hx. by apply hop_newdst_wf. }
  revert H3. apply with_hop_wf. { intros nla x y Hx (v & _ & E)%bind_inv. injection E as <-. hop_fill Hx. }
  revert H2. apply with_hop_wf.
  { intros nla x y Hx (a & Ha & [= <-])%run_or_inv. apply addr_of_attr_ok in Ha; [|done]. hop_fill Hx. }
  revert H1. apply with_hop_wf; [|done]. intros nla x y Hx (v & _ & E)%bind_inv. injection E as <-. hop_fill Hx.
Qed.
Lemma join_wf r flags o r' :
  route_wf r -> opt_hop_wf o -> join_nexthop r flags o = Done (inr r') -> route_wf r'.
Proof.
  intros Hw Ho. unfold join_nexthop. destruct o as [nh|]; [|by intros [= <-]]. simpl in Ho.
  destruct (_ =? 0).
  - intros [= <-]. apply add_nexthop_wf; [done|]. hop_fill Ho.
  - destruct (rt_nexthops _); [done|]. destruct (negb _); [done|]. by intros [= <-].
Qed.

Lemma addr_or_empty_ok c tb t family len a : route_addr_or_empty c b tb t family len = Done (inr a) -> addr_ok a.
Proof.
  unfold route_addr_or_empty. intros (o & _ & H)%bind_inv. apply run_or_inv in H as (x & Hx & H). injection H as <-.
  assert (addr_ok x); [|done]. destruct o as [nla|]; [by eapply addr_of_attr_ok|].
  destruct (nl_addr_alloc (c t) 0) as [y|] eqn:E; [|done]. injection Hx as <-. by apply empty_addr_ok in E.
Qed.
Lemma source_wf c tb family len r r' : route_wf r -> route_source c b tb family len r = Done (inr r') -> route_wf r'.
Proof.
  intros Hw. unfold route_source. intros (o & _ & H)%bind_inv. apply run_or_inv in H as (x & Hx & H). injection H as <-.
  destruct x as [a|]; [|done]. apply set_src_wf; [done|]. change (addr_ok a). destruct o as [nla|].
  - apply run_or_inv in Hx as (y & Hy & [= <-]). by eapply addr_of_attr_ok.
  - destruct (len =? 0); [done|]. destruct (nl_addr_alloc (c RTA_SRC) 0) as [y|] eqn:E; [|done].
    injection Hx as <-. by eapply empty_addr_ok.
Qed.

Lemma route_parse_wf c ch r : rtnl_route_parse inet_pton c ch b = Done (inr r) -> route_wf r.
Proof.
  unfold rtnl_route_parse. intros (msgtype & _ & H)%bind_inv. apply bind_inv in H as ([e tb] & _ & H).
  destruct (e <? 0); [done|]. cbv zeta in H.
  apply bind_inv in H as (family & _ & H). apply bind_inv in H as (tos & _ & H).
  apply bind_inv in H as (table & _ & H). apply bind_inv in H as (type & _ & H).
  apply bind_inv in H as (scope & _ & H). apply bind_inv in H as (protocol & _ & H).
  apply bind_inv in H as (flags & _ & H). apply bind_inv in H as (dst_len & _ & H).
  apply run_or_inv in H as (dst & Hdst & H). apply addr_or_empty_ok in Hdst.
  match type of H with context [rtnl_route_set_dst ?r ?a] =>
    assert (route_wf r) as H0; [|pose proof (set_dst_wf r a H0 Hdst) as Hw; destruct (rtnl_route_set_dst r a) as [e' r0]] end.
  { unfold route_hdr_attrs. destruct (negb _); split; try done; by split. }
  simpl in Hw. clear H0. destruct (e' <? 0); [done|].
  apply bind_inv in H as (src_len & _ & H). apply run_or_inv in H as (r1 & H1 & H). apply source_wf in H1; [|done].
  apply bind_inv in H as (r2 & H2 & H). apply bind_inv in H as (r3 & H3 & H). apply bind_inv in H as (r4 & H4 & H).
  apply run_or_inv in H as (r5 & H5 & H). apply run_or_inv in H as (r6 & H6 & H). apply run_or_inv in H as (r7 & H7 & H).
  apply bind_inv in H as (r8 & H8 & H). apply run_or_inv in H as (nh & Hnh & H). apply old_nexthop_wf in Hnh.
  apply bind_inv in H as (r9 & H9 & H). apply bind_inv in H as (en & _ & H). apply bind_inv in H as (et & _ & H).
  apply run_or_inv in H as (nh' & Hnh' & H).
  revert H. apply join_wf; cycle 1.
  { revert Hnh'. destruct (_ && _); [|by intros [= <-]]. intros (x & Hx & Hy)%run_or_inv.
    apply old_hop_wf in Hx; [|done]. apply run_or_inv in Hy as (y & Hy & [= <-]). by eapply hop_encap_wf. }
  revert H9. apply if_attr_keeps. { intros nla x y Hx (v & _ & [= <-])%bind_inv. route_fill Hx. }
  revert H8. apply if_attr_keeps. { intros nla x y Hx ([k ci] & _ & [= <-])%bind_inv. route_fill Hx. }
  revert H7. apply if_attr_or_keeps.
  { intros nla x y Hx ([k r'] & E & Hk)%bind_inv. apply multipath_wf in E; [|done]. destruct (k <? 0); [done|by injection Hk as <-]. }
  revert H6. apply if_attr_or_keeps.
  { intros nla x y Hx ([k mtb] & _ & E)%bind_inv. destruct (k <? 0); [done|by eapply parse_metrics_wf]. }
  revert H5. apply if_attr_or_keeps.
  { intros nla x y Hx (a & Ha & [= <-])%run_or_inv. apply set_pref_src_wf; [done|by eapply addr_of_attr_ok]. }
  revert H4. apply if_attr_keeps. { intros nla x y Hx (v & _ & [= <-])%bind_inv. route_fill Hx. }
  revert H3. apply if_attr_keeps. { intros nla x y Hx (v & _ & [= <-])%bind_inv. route_fill Hx. }
  revert H2. apply if_attr_keeps; [|done]. intros nla x y Hx (v & _ & [= <-])%bind_inv. route_fill Hx.
Qed.
End ParseWf.

(** Where routes come from. *)
Inductive route_made (inet_pton : Z -> list Z -> option (list Z)) : route -> Prop :=
| route_made_alloc : route_made inet_pton (Body 0 (route_constructor route_0))
| route_made_parsed c ch b r :
    bytes_ok b -> rtnl_route_parse inet_pton c ch b = Done (inr r) -> route_made inet_pton r
| route_made_op r op : route_made inet_pton r -> route_op_ok inet_pton r op -> route_made inet_pton (run_route_op r op)
| route_made_clone c0 c r d :
    route_made inet_pton r -> route_clone c0 c (ce_data r) r = (0, d) -> route_made inet_pton (Body (ce_mask r) d)
| route_made_update c0 c old new e r :
    route_made inet_pton old -> route_made inet_pton new -> route_update c0 c old new = (e, r) ->
    route_made inet_pton r.

Lemma route_made_wf inet_pton r : route_made inet_pton r -> route_wf r.
Proof.
  induction 1 as [|c ch b r Hb Hp|r op Hr IH Ho|c0 c r d Hr IH Hc|c0 c old new e r Ho IHo Hn IHn Hu].
  - by split.
  - by eapply route_parse_wf.
  - by eapply route_op_wf.
  - by eapply route_clone_wf.
  - by eapply route_update_wf, Hu.
Qed.

(** ** Requests *)

Lemma flag_store_ok v : 0 <= v < 256 -> bytes_ok [v].
Proof. intros. by apply Forall_cons_2. Qed.

Lemma put_via_safe a : via_ok a -> safe (fun msg => rtnl_route_put_via msg a).
Proof.
  intros [([Hl Hz] & Hb & _) H2] m Hm. unfold rtnl_route_put_via, nl_addr_get_len, nl_addr_get_binary_addr, nl_addr_get_family.
  rewrite s32_id by lia. destruct (reserve_safe m RTA_VIA (a_len a + 2) Hm) as (o & m1 & -> & Hx & Ho); [lia|].
  exec_simpl. destruct o as [nla|]; [|by exists (- EMSGSIZE), m1]. destruct Ho as [-> Hl1].
  pose proof (align4_bounds (4 + (a_len a + 2))). pose proof Hm as [[_ [_ [Hlen _]]] _]. unfold sizeof_nlmsghdr in Hlen.
  unfold nla_data, NLA_HDRLEN, put_u16.
  destruct (store_safe (msg_len m) m1 (msg_len m + 4) (le_encode 2 (a_family a))) as (b1 & -> & Hx1 & Hl2);
    [apply Hx|auto with nl|lia|lia|rewrite zlen_le_encode; lia|]. exec_simpl.
  rewrite load_done by lia. exec_simpl. unfold addr_bytes in Hb.
  assert (zlen (sub (a_addr a) 0 (a_len a)) = a_len a) as Hs by (apply zlen_sub; lia).
  destruct (store_safe (msg_len m) (set_buf m1 b1) (msg_len m + 4 + 2) (sub (a_addr a) 0 (a_len a))) as (b2 & E2 & Hx2 & _);
    [apply Hx1|done|lia|lia|lia|]. cbn [nm_nlh set_buf] in E2. rewrite E2. exec_simpl.
  exists 0, (set_buf m1 b2). split; [done|]. eapply extends_trans, extends_trans; [exact Hx|exact Hx1|exact Hx2].
Qed.

Lemma put_nexthop_safe oif nh : hop_wf nh -> safe (put_nexthop oif nh).
Proof.
  intros [? ? Hg Hn Hv He] m Hm. unfold put_nexthop.
  repeat (apply safe_next; [done| |let m' := fresh "m" in let H := fresh in intros m' H]);
    try (apply safe_failure); first [apply safe_opt | apply safe_if]; try done; intros a E;
    try (rewrite E in *); first [by apply keep_addr_safe | by apply put_via_safe | by apply encap_safe
      | by apply (keep_word_safe RTA_OIF 4) | by apply (keep_word_safe RTA_FLOW 4)].
Qed.
Lemma zlen_one (x : Z) : zlen [x] = 1.
Proof. done. Qed.
(** Changing the message in place, behind [lo]. *)
Lemma store_in lo m b i d (k : list Z -> step_msg) :
  aligned (set_buf m b) -> bytes_ok d -> 4 <= i -> lo <= i -> i + zlen d <= msg_len (set_buf m b) ->
  (forall b', extends lo (set_buf m b) (set_buf m b') -> msg_len (set_buf m b') = msg_len (set_buf m b) ->
     safe_at lo (set_buf m b') (k b')) ->
  safe_at lo (set_buf m b) (b' ← store b i d; k b').
Proof.
  intros Hm Hd Hi Hlo Hf Hk. destruct (store_safe lo (set_buf m b) i d Hm Hd Hi Hlo Hf) as (b' & E & Hx & Hl).
  cbn [nm_nlh set_buf] in E. rewrite E. exec_simpl.
  destruct (Hk b' Hx Hl) as (e & m' & -> & Hx'). exists e, m'. split; [done|by eapply extends_trans].
Qed.

Lemma hop_tail_safe lo m :
  aligned m -> 16 <= lo -> lo + 8 <= msg_len m ->
  safe_at lo m (tail ← nlmsg_tail (nm_nlh m) 0; b ← put_u16 (nm_nlh m) lo (tail - lo); mret (0, set_buf m b)).
Proof.
  intros Ha H16 Hl. rewrite (proj1 (aligned_tail m Ha)). exec_simpl. unfold put_u16.
  destruct (store_safe lo m lo (le_encode 2 (msg_len m - lo)) Ha) as (b & -> & Hx & _);
    [auto with nl|lia|lia|rewrite zlen_le_encode; simpl; lia|]. by exists 0, (set_buf m b).
Qed.

Lemma put_hop_safe nh : hop_wf (ce_data nh) -> safe (put_hop nh).
Proof.
  intros Hn m Hm. pose proof Hm as [Hw Hal]. pose proof Hw as (Hz & Hb & Hlen & Hs). unfold sizeof_nlmsghdr in Hlen.
  unfold put_hop. assert (pad_len 8 NLMSG_ALIGNTO = 8) as Hp by done.
  destruct (decide (msg_len m + 8 <= nm_size m)).
  - destruct (nlmsg_reserve_ok m 8 NLMSG_ALIGNTO) as (b & Hres & Hr); rewrite ?Hp; [done|lia..|]. rewrite Hres, Hp in *.
    exec_simpl. pose proof (reserved_wf m b 8 8 Hw) as Hw1. cbn [nm_nlh set_buf].
    assert (msg_len (set_buf m b) = msg_len m + 8) as Hl1 by (destruct Hr as (_ & _ & ? & _); done).
    pose proof Hr as (_ & _ & _ & _ & Hlo & _).
    assert (extends (msg_len m) m (set_buf m b)) as Hx1.
    { split; [|lia|done..|intros; apply Hlo; lia]. split; [apply Hw1; (done || lia)|]. rewrite Hl1, Z.add_mod, Hal by lia. done. }
    cut (safe_at (msg_len m) (set_buf m b) (b ← store b (msg_len m + 2) [rtnh_flags (ce_data nh)];
        b ← store b (msg_len m + 3) [rtnh_weight (ce_data nh)]; b ← put_u32 b (msg_len m + 4) (rtnh_ifindex (ce_data nh));
        next_msg (put_nexthop false (ce_data nh) (set_buf m b)) (fun msg =>
          tail ← nlmsg_tail (nm_nlh msg) 0; b ← put_u16 (nm_nlh msg) (msg_len m) (tail - msg_len m);
          mret (0, set_buf msg b)))).
    { intros (e & m2 & E & Hx2). exists e, m2. split; [exact E|by eapply extends_trans]. }
    apply store_in; [apply Hx1|apply flag_store_ok, Hn|lia|lia|rewrite zlen_one; lia|]. intros b1 Hb1 Hl2.
    apply store_in; [apply Hb1|apply flag_store_ok, Hn|lia|lia|rewrite zlen_one; lia|]. intros b2 Hb2 Hl3. unfold put_u32.
    apply store_in; [apply Hb2|auto with nl|lia|lia|rewrite zlen_le_encode; lia|]. intros b3 Hb3 Hl4.
    unfold next_msg. apply safe_at_bind.
    { eapply safe_weaken; [|apply put_nexthop_safe; [done|apply Hb3]]. lia. }
    intros e m3 Hx3. pose proof (ex_len _ _ _ Hx3).
    destruct (e <? 0); [apply safe_at_done, Hx3|]. apply hop_tail_safe; [apply Hx3|lia|lia].
  - rewrite nlmsg_reserve_full; rewrite ?Hp; [by apply safe_at_done|done|lia|lia|done|lia].
Qed.
Lemma put_hops_safe l : Forall (fun nh => hop_wf (ce_data nh)) l -> safe (put_hops l).
Proof.
  induction l as [|nh l IH]; intros Hl m Hm; [by apply safe_at_done|]. apply Forall_cons in Hl as [Hn Hl].
  cbn [put_hops]. apply safe_next; [done|by apply put_hop_safe|by apply IH].
Qed.
Lemma put_metrics_safe r n : forall i, safe (put_metrics r n i).
Proof.
  induction n as [|n IH]; intros i m Hm; [by apply safe_at_done|]. cbn [put_metrics].
  apply safe_next; [done| |apply IH]. destruct (rtnl_route_get_metric r i); [by apply safe_at_done|by apply (keep_word_safe i 4)].
Qed.

(** The next hop of a route that has one. *)
Lemma single_nexthop r :
  route_wf r -> rtnl_route_get_nnexthops r = 1 -> exists nh, rtnl_route_nexthop_n r 0 = Some nh /\ hop_wf (ce_data nh).
Proof.
  intros Hw. unfold rtnl_route_get_nnexthops, rtnl_route_nexthop_n. change (u32 0) with 0.
  destruct (has_attr r ROUTE_ATTR_MULTIPATH); [|done]. rewrite (rw_hops r Hw). intros H1.
  pose proof (u32_range (zlen (rt_nexthops (ce_data r)))) as Hr.
  assert (u32 (zlen (rt_nexthops (ce_data r))) = 1) as Hu.
  { revert H1 Hr. generalize (u32 (zlen (rt_nexthops (ce_data r)))). intros v. unfold s32.
    change (2 ^ 31) with 2147483648. change (2 ^ 32) with 4294967296. intros. zdiv_lia. }
  rewrite Hu. cbn [andb]. pose proof (rw_hops_wf r Hw) as Hf. destruct (rt_nexthops (ce_data r)) as [|nh l]; [done|].
  exists nh. split; [done|]. by apply Forall_cons in Hf as [Hf _].
Qed.

Lemma rtmsg_ok a b c d e f g h fl : bytes_ok (rtmsg a b c d e f g h fl) /\ zlen (rtmsg a b c d e f g h fl) = 12.
Proof.
  unfold rtmsg. split; [|rewrite zlen_app, zlen_le_encode; done].
  apply bytes_ok_app. split; [|auto with nl]. repeat (apply Forall_cons_2; [apply u8_range|]). apply Forall_nil_2.
Qed.
Lemma route_hdr_done r dst : route_wf r -> exists hdr, route_hdr r dst = Done hdr /\ bytes_ok hdr /\ zlen hdr = 12.
Proof.
  intros Hw. unfold route_hdr. destruct (Z.eqb_spec (rtnl_route_get_nnexthops r) 1) as [E|E].
  - destruct (single_nexthop r Hw E) as (nh & -> & _). exec_simpl. eexists. split; [done|apply rtmsg_ok].
  - exec_simpl. eexists. split; [done|apply rtmsg_ok].
Qed.

(** Everything behind the header. *)
Definition route_body (r : route) (dst : nl_addr) (msg : nl_msg) : step_msg :=
  let d := ce_data r in
  next_msg (keep_if (negb (rt_family d =? AF_MPLS)) (keep_put RTA_TABLE 4 (le_encode 4 (rt_table d))) msg) (fun msg =>
  next_msg (keep_if (negb (nl_addr_get_len dst =? 0)) (keep_put_addr RTA_DST (Some dst)) msg) (fun msg =>
  next_msg (keep_if (has_attr r ROUTE_ATTR_PRIO) (keep_put RTA_PRIORITY 4 (le_encode 4 (rt_prio d))) msg) (fun msg =>
  next_msg (keep_if (has_attr r ROUTE_ATTR_SRC) (keep_put_addr RTA_SRC (rt_src d)) msg) (fun msg =>
  next_msg (keep_if (has_attr r ROUTE_ATTR_PREF_SRC) (keep_put_addr RTA_PREFSRC (rt_pref_src d)) msg) (fun msg =>
  next_msg (keep_if (has_attr r ROUTE_ATTR_IIF) (keep_put RTA_IIF 4 (le_encode 4 (rt_iif d))) msg) (fun msg =>
  next_msg (keep_if (has_attr r ROUTE_ATTR_TTL_PROPAGATE)
              (keep_put RTA_TTL_PROPAGATE 1 (le_encode 1 (rt_ttl_propagate d))) msg) (fun msg =>
  next_msg (keep_if (0 <? rt_nmetrics d) (nested RTA_METRICS (put_metrics r (Z.to_nat RTAX_MAX) 1)) msg) (fun msg =>
  if rtnl_route_get_nnexthops r =? 1 then
    match rtnl_route_nexthop_n r 0 with
    | None => Fault
    | Some nh => put_nexthop true (ce_data nh) msg
    end
  else if 1 <? rtnl_route_get_nnexthops r then nested RTA_MULTIPATH (put_hops (rt_nexthops d)) msg
  else mret (0, msg))))))))).

Lemma safe_opt_addr (c : bool) t o : addr_opt_ok o -> (c = true -> is_Some o) -> safe (keep_if c (keep_put_addr t o)).
Proof.
  intros Ho Hc. apply safe_if. intros E. destruct (Hc E) as [a ->]. by apply keep_addr_safe.
Qed.
Lemma route_body_safe r dst : route_wf r -> addr_ok dst -> safe (route_body r dst).
Proof.
  intros Hw Hd m Hm. unfold route_body.
  apply safe_next; [done|by apply safe_if; [intros _; apply (keep_word_safe RTA_TABLE 4)|]|clear m Hm; intros m Hm].
  apply safe_next; [done|by apply safe_opt_addr|clear m Hm; intros m Hm].
  apply safe_next; [done|by apply safe_if; [intros _; apply (keep_word_safe RTA_PRIORITY 4)|]|clear m Hm; intros m Hm].
  apply safe_next; [done|by apply safe_opt_addr; [apply Hw..|]|clear m Hm; intros m Hm].
  apply safe_next; [done|by apply safe_opt_addr; [apply Hw..|]|clear m Hm; intros m Hm].
  apply safe_next; [done|by apply safe_if; [intros _; apply (keep_word_safe RTA_IIF 4)|]|clear m Hm; intros m Hm].
  apply safe_next; [done|by apply safe_if; [intros _; apply (keep_word_safe RTA_TTL_PROPAGATE 1)|]|clear m Hm; intros m Hm].
  apply safe_next; [done|by apply safe_if; [intros _; apply nested_safe, put_metrics_safe|]|clear m Hm; intros m Hm].
  destruct (Z.eqb_spec (rtnl_route_get_nnexthops r) 1) as [E|E].
  - destruct (single_nexthop r Hw E) as (nh & -> & Hn). by apply put_nexthop_safe.
  - destruct (1 <? _); [|by apply safe_at_done]. apply nested_safe; [apply put_hops_safe, Hw|done].
Qed.

Lemma build_route_result c1 c2 size r cmd flags dst :
  route_wf r -> size < 2147483648 -> rt_dst (ce_data r) = Some dst ->
  exists hdr res, route_hdr r dst = Done hdr /\ build_route_msg c1 c2 size r cmd flags = Done res /\
    request_result size cmd flags hdr res.
Proof.
  intros Hw Hs Hdst. destruct (route_hdr_done r dst Hw) as (hdr & Hh & Hb & Hz). exists hdr. unfold build_route_msg.
  destruct (alloc_simple_done c1 c2 size cmd flags Hs) as ([m|] & -> & Hr); exec_simpl;
    [|by exists (inl (- NLE_NOMEM))].
  destruct Hr as (_ & Hm & Hsz & Hl & Href & Hhdr). unfold rtnl_route_build_msg. rewrite Hdst, Hh. exec_simpl.
  assert (pad_ok NLMSG_ALIGNTO) as Hp by (right; by exists 2).
  assert (pad_len (zlen hdr) NLMSG_ALIGNTO = 12) as Hpl by (rewrite Hz; done).
  destruct (Z_le_gt_dec 28 (nm_size m)) as [Hfit|Hfull].
  - destruct (nlmsg_append_ok m hdr NLMSG_ALIGNTO Hm Hb) as (m1 & Happ & Hm1 & Hsz1 & Hl1 & Hd1 & Hk1); [lia|done|lia|].
    rewrite Happ. exec_simpl. change (0 <? 0) with false. cbv iota. fold (route_body r dst m1). rewrite Hpl in *.
    assert (nm_refcnt m1 = 1) as Href1 by (by rewrite (nlmsg_append_refcnt _ _ _ _ _ _ Happ)).
    assert (aligned m1) as Ha1 by (split; [done|rewrite Hl1, Hl; done]).
    assert (addr_ok dst) as Hda by (pose proof (rw_dst r Hw) as Hd; by rewrite Hdst in Hd).
    destruct (route_body_safe r dst Hw Hda m1 Ha1) as (e & m2 & -> & [Ha2 Hl2 Hs2 Hr2 Hk2]). exec_simpl.
    destruct (Z.ltb_spec e 0).
    + rewrite nlmsg_free_last by congruence. exec_simpl. by exists (inl e).
    + exists (inr m2). split; [done|]. split; [done|]. unfold request_result. rewrite Hz, Hl in *.
      split_and!; [done|lia|congruence|congruence| |].
      * unfold hdr_is, le_at in *. by rewrite !Hk2, !Hk1 by lia.
      * rewrite Hk2 by lia. rewrite Hd1. change (zeros (12 - 12)) with (@nil Z). by rewrite app_nil_r.
  - rewrite nlmsg_append_full by (done || lia). exec_simpl. change (- NLE_NOMEM <? 0) with true. cbv iota. exec_simpl.
    change (- NLE_MSGSIZE <? 0) with true. cbv iota. rewrite nlmsg_free_last by done. exec_simpl.
    by exists (inl (- NLE_MSGSIZE)).
Qed.

(** ** Keys *)

Lemma identical_route c0 c a b :
  identical_by (route_obj_ops c0 c) a b = true ->
  rt_family (ce_data a) = rt_family (ce_data b) /\ rt_tos (ce_data a) = rt_tos (ce_data b) /\
  rt_table (ce_data a) = rt_table (ce_data b) /\ addr_differs (rt_dst (ce_data a)) (rt_dst (ce_data b)) = false /\
  (rt_family (ce_data a) <> AF_MPLS -> rt_prio (ce_data a) = rt_prio (ce_data b)).
Proof.
  unfold identical_by. cbn [route_obj_ops oo_id_attrs_get oo_compare].
  destruct (Z.eqb_spec (route_id_attrs_get a) (route_id_attrs_get b)) as [Hid|]; [|done]. cbn [negb].
  assert (route_id_attrs_get a = if rt_family (ce_data a) =? AF_MPLS then 135 else 4231) as Ha
    by (unfold route_id_attrs_get; by destruct (_ =? _)).
  assert (forall k, (k = 135 \/ k = 4231) -> u32 k = k /\ (k =? UINT32_MAX) = false) as Hk by (by intros k [-> | ->]).
  destruct (Hk (route_id_attrs_get a)) as [-> ->]; [rewrite Ha; destruct (_ =? _); auto|].
  destruct (Z.eqb_spec (Z.land (ce_mask a) (route_id_attrs_get a)) (route_id_attrs_get a)) as [Hma|]; [|done].
  destruct (Z.eqb_spec (Z.land (ce_mask b) (route_id_attrs_get a)) (route_id_attrs_get a)) as [Hmb|]; [|done].
  cbn [negb orb]. intros Hcmp%Z.eqb_eq. unfold route_compare in Hcmp.
  match type of Hcmp with attr_diffs _ _ _ (?l ++ _) = _ =>
    assert (forall attr e, (attr, e) ∈ l -> has_flag (route_id_attrs_get a) attr = true -> e = false) as Heq
  end.
  { intros attr e Hin. apply (diff_none _ _ _ _ attr e Hcmp Hma Hmb). apply elem_of_app. by left. }
  assert (forall x y, negb (x =? y) = false -> x = y) as Hz by (intros x y E; bool_hyps; done).
  rewrite Ha in Heq. split_and!.
  - apply Hz, (Heq ROUTE_ATTR_FAMILY); [left|by destruct (_ =? _)].
  - apply Hz, (Heq ROUTE_ATTR_TOS); [do 1 right; left|by destruct (_ =? _)].
  - apply Hz, (Heq ROUTE_ATTR_TABLE); [do 2 right; left|by destruct (_ =? _)].
  - apply (Heq ROUTE_ATTR_DST); [do 7 right; left|by destruct (_ =? _)].
  - intros Hf. apply Hz, (Heq ROUTE_ATTR_PRIO); [do 6 right; left|]. by rewrite (proj2 (Z.eqb_neq _ _) Hf).
Qed.

(** ** Properties *)

(** C25. Whatever routes applications and the parser make, and however they are
    copied and merged, the number of next hops and of metrics is that of the next
    hops and metrics stored, and what the attributes claim is there.  So composing
    a request never dereferences a null pointer, leaves the buffer or corrupts the
    message, with next hops, nests and encapsulations in it: without a destination
    there is no request, otherwise an error or a well-formed message with the header
    of the request and of the route. *)
Theorem route_requests_safe inet_pton c1 c2 size r cmd flags :
  route_made inet_pton r -> size < 2147483648 ->
  route_wf r /\
  match rt_dst (ce_data r) with
  | None => build_route_msg c1 c2 size r cmd flags = Done (inl (if c1 && c2 then - NLE_MISSING_ATTR else - NLE_NOMEM))
  | Some dst => exists hdr res,
      route_hdr r dst = Done hdr /\ build_route_msg c1 c2 size r cmd flags = Done res /\
      request_result size cmd flags hdr res
  end.
Proof.
  intros Hw%route_made_wf Hs. split; [done|]. destruct (rt_dst (ce_data r)) as [dst|] eqn:E.
  - by apply build_route_result.
  - unfold build_route_msg, rtnl_route_build_msg. rewrite E.
    destruct (alloc_simple_done c1 c2 size cmd flags Hs) as ([m|] & -> & Hr); exec_simpl; [|by rewrite Hr].
    destruct Hr as (-> & _ & _ & _ & Href & _). change (- NLE_MISSING_ATTR <? 0) with true. cbv iota.
    by rewrite nlmsg_free_last.
Qed.

(** C27. Routes that the caches take for the same have the same key, so that looking
    one up in the hash table of a cache finds the other: for MPLS, where the
    priority does not identify a route, if they also have the same priority. *)
Theorem route_keys_agree inet_pton c0 c a b n :
  route_made inet_pton a -> route_made inet_pton b ->
  (rt_family (ce_data a) = AF_MPLS -> rt_prio (ce_data a) = rt_prio (ce_data b)) ->
  identical_by (route_obj_ops c0 c) a b = true -> route_keygen c a n = route_keygen c b n.
Proof.
  intros Ha%route_made_wf Hb%route_made_wf Hp Hi. apply identical_route in Hi as (Hf & Ht & Htab & Hd & Hprio).
  assert (rt_prio (ce_data a) = rt_prio (ce_data b)) as Hpr.
  { destruct (decide (rt_family (ce_data a) = AF_MPLS)); auto. }
  apply same_key_bytes in Hd; [|apply Ha|apply Hb]. unfold key_bytes in Hd. unfold route_keygen.
  by rewrite Hf, Ht, Htab, Hpr, Hd.
Qed.

(** C26. The parser of routes ends: with a route, an error, or a read outside the
    message, for every message in whose list of next hops - at the places where the
    loop over them looks - no length is 0.  The loop itself has no such bound: a
    length of 0 with enough left keeps it where it is. *)
Theorem route_parse_terminates inet_pton c ch b :
  bytes_ok b ->
  (multipath_advances b -> rtnl_route_parse inet_pton c ch b <> NoFuel) /\
  (forall fuel i r p t, 0 <= p -> p + 8 <= zlen b -> 8 <= t < 2 ^ 64 -> get_u16 b p = Done 0 -> (forall i, ch i 0 = true) ->
     parse_hops inet_pton ch b fuel i r p t = NoFuel).
Proof.
  intros Hb. split; [by apply ends_route_parse|].
  induction fuel as [|fuel IH]; intros i r p t Hp Hz Ht H0 Hc; [done|]. cbn [parse_hops].
  rewrite (proj2 (Z.ltb_ge t 8)), H0 by lia. exec_simpl. rewrite (proj2 (Z.ltb_ge t 0)) by lia.
  unfold parse_hop, rtnl_route_nh_alloc. rewrite Hc.
  do 3 exec_step. change (8 <? 0) with false. cbv iota. exec_simpl. change (align4 0) with 0.
  rewrite Z.add_0_r, Z.sub_0_r, u64_id by (split; [lia|apply Ht]). by apply IH.
Qed.

(** ** Witnesses *)

Definition no_pton (_ : Z) (_ : list Z) : option (list Z) := None.
Definition ex_hop (ifindex : Z) (gw : nl_addr) : nexthop :=
  rtnl_route_nh_set_gateway (rtnl_route_nh_set_ifindex (Body 0 nexthop_0) ifindex) (Some gw).
Lemma ex_hop_made ifindex gw : addr_ok gw -> hop_made no_pton (ex_hop ifindex gw).
Proof.
  intros Hg. apply (hop_op_made no_pton (rtnl_route_nh_set_ifindex (Body 0 nexthop_0) ifindex) (HopGateway (Some gw)));
    [|done|done]. by apply (hop_op_made no_pton (Body 0 nexthop_0) (HopIfindex ifindex)); [constructor|..].
Qed.

Definition ex_net : nl_addr := ex_addr AF_INET [192; 0; 2; 0] 24.
Definition ex_gw (n : Z) : nl_addr := ex_addr AF_INET [10; 0; 0; n] 32.
Definition ex_route_ops : list route_op :=
  [RtFamily AF_INET; RtTos 0; RtTable 254; RtPriority 5; RtDst ex_net; RtMetric 2 1400; RtAddHop (ex_hop 3 (ex_gw 1)); RtAddHop (ex_hop 4 (ex_gw 2))].
Definition ex_route : route := fold_left run_route_op ex_route_ops (Body 0 (route_constructor route_0)).
Lemma ex_route_made : route_made no_pton ex_route.
Proof.
  unfold ex_route, ex_route_ops. cbn [fold_left].
  repeat (apply route_made_op; [|try done; first [by apply ex_hop_made, ex_addr_ok | by apply ex_addr_ok]]).
  constructor.
Qed.
Definition ex_route_msg : nl_msg :=
  match build_route_msg true true 256 ex_route RTM_NEWROUTE 0 with Done (inr m) => m | _ => ex_msg end.

Lemma route_requests_safe_witness :
  exists hdr, route_hdr ex_route ex_net = Done hdr /\
    build_route_msg true true 256 ex_route RTM_NEWROUTE 0 = Done (inr ex_route_msg) /\ msg_len ex_route_msg = 100.
Proof.
  destruct (route_requests_safe no_pton true true 256 ex_route RTM_NEWROUTE 0 ex_route_made ltac:(lia)) as (_ & hdr & res & Hh & Hb & Hr).
  exists hdr. split; [exact Hh|]. split; [|vm_compute; reflexivity]. rewrite Hb. unfold ex_route_msg. rewrite Hb.
  destruct res as [e|m]; [|reflexivity]. exfalso. revert Hb. vm_compute. discriminate.
Defined.

Lemma route_keys_agree_witness :
  route_keygen true ex_route 1024 = route_keygen true (rtnl_route_set_iif ex_route 7) 1024.
Proof.
  apply (route_keys_agree no_pton true true ex_route (rtnl_route_set_iif ex_route 7) 1024 ex_route_made).
  - exact (route_made_op no_pton ex_route (RtIif 7) ex_route_made I).
  - intros H. discriminate H.
  - vm_compute. reflexivity.
Defined.

(** The check that no length is 0, for a concrete message. *)
Fixpoint advancing (b : list Z) (fuel : nat) (p t : Z) : bool :=
  match fuel with
  | O => false
  | S fuel =>
      if t <? 8 then true
      else match get_u16 b p with
           | Done len => negb (len =? 0) && ((t <? len) || advancing b fuel (p + align4 len) (u64 (t - align4 len)))
           | _ => true
           end
  end.
Lemma advancing_ok b fuel : forall p t p' t',
  advancing b fuel p t = true -> visits b p t p' t' -> 8 <= t' -> get_u16 b p' <> Done 0.
Proof.
  induction fuel as [|fuel IH]; intros p t p' t' Ha Hv Ht; [done|]. cbn [advancing] in Ha.
  destruct Hv as [p t|p t len p' t' H8 Hg Hlen Hv].
  - rewrite (proj2 (Z.ltb_ge t 8)) in Ha by lia. intros H0. by rewrite H0 in Ha.
  - rewrite (proj2 (Z.ltb_ge t 8)), Hg, (proj2 (Z.ltb_ge t len)) in Ha by lia.
    apply andb_prop in Ha as [_ Ha]. cbn [orb] in Ha. by eapply IH.
Qed.

Definition ex_route_bytes : list Z := nm_nlh ex_route_msg.
Lemma route_parse_terminates_witness :
  rtnl_route_parse no_pton (fun _ => true) (fun _ _ => true) ex_route_bytes <> NoFuel.
Proof.
  apply (route_parse_terminates no_pton (fun _ => true) (fun _ _ => true) ex_route_bytes).
  - by apply bytes_ok_dec; vm_compute.
  - intros e tb nla Hp _ Hn. vm_compute in Hp. injection Hp as <- <-. vm_compute in Hn. injection Hn as <-.
    intros len Hl p t Hv Ht. refine (advancing_ok ex_route_bytes 5 _ _ p t _ Hv Ht).
    vm_compute in Hl. injection Hl as <-. vm_compute. reflexivity.
Defined.

(** ** What else modelling showed *)

(** The priority does not identify routes of MPLS, but is part of their keys. *)
Definition ex_mpls (prio : Z) : route :=
  fold_left run_route_op
    [RtFamily AF_MPLS; RtTos 0; RtTable 254; RtPriority prio; RtDst (ex_addr AF_MPLS [0; 1; 1; 0] 20)]
    (Body 0 (route_constructor route_0)).
Lemma mpls_keys_differ :
  identical_by (route_obj_ops true true) (ex_mpls 1) (ex_mpls 2) = true /\
  route_keygen true (ex_mpls 1) 1024 <> route_keygen true (ex_mpls 2) 1024.
Proof. split; [by vm_compute|]. intros H. vm_compute in H. discriminate H. Qed.

(** The policy says nothing about RTA_VIA: the length of an address of a shorter
    attribute is negative. *)
Definition route_msg_with (attrs : list Z) : list Z :=
  le_encode 4 (28 + zlen attrs) ++ le_encode 2 RTM_NEWROUTE ++ zeros 10 ++ rtmsg AF_INET 0 0 0 0 0 0 0 0 ++ attrs.
Lemma via_too_short :
  rtnl_route_parse no_pton (fun _ => true) (fun _ _ => true)
    (route_msg_with (le_encode 2 4 ++ le_encode 2 RTA_VIA)) = Fault.
Proof. by vm_compute. Qed.

(** A next hop whose length is not a multiple of four at the end of the list: what
    is left becomes a huge number, and the loop goes on behind the message. *)
Lemma hop_behind_message :
  rtnl_route_parse no_pton (fun _ => true) (fun _ _ => true)
    (route_msg_with (le_encode 2 13 ++ le_encode 2 RTA_MULTIPATH ++ le_encode 2 9 ++ zeros 10)) = Fault.
Proof. by vm_compute. Qed.

(** Where an address of a next hop cannot be allocated, the route is parsed
    without that next hop and those after it, and there is no error. *)
Definition ex_via_hop : list Z :=
  le_encode 2 24 ++ le_encode 2 RTA_MULTIPATH ++ le_encode 2 20 ++ zeros 6 ++
  le_encode 2 10 ++ le_encode 2 RTA_VIA ++ le_encode 2 AF_INET ++ [10; 0; 0; 1; 0; 0].
Lemma unallocated_hop_dropped :
  match rtnl_route_parse no_pton (fun _ => true) (fun i t => negb (t =? RTA_VIA)) (route_msg_with ex_via_hop) with
  | Done (inr r) => rtnl_route_get_nnexthops r = 0
  | _ => False
  end.
Proof. by vm_compute. Qed.

(** Two routes that differ in the last metric compare as equal. *)
Lemma last_metric_ignored :
  let a := (rtnl_route_set_metric ex_route RTAX_MAX 1).2 in
  let b := (rtnl_route_set_metric ex_route RTAX_MAX 2).2 in
  route_compare a b UINT32_MAX 0 = 0 /\ rtnl_route_get_metric a RTAX_MAX <> rtnl_route_get_metric b RTAX_MAX.
Proof. by vm_compute. Qed.
