(* ===== verification/Genl.v ===== *)
(** Generic netlink (lib/genl): messages (genl.c), families as objects
    (family.c), the registry of families and their commands (mngt.c), and the
    controller, which knows the families of the kernel (ctrl.c). *)
From S2P Require Import Prelude Errors Msg Attr CString Handlers Socket Nl NlList Object Cache ObjAttr CacheMngt CacheDump Wire.

Definition NETLINK_GENERIC := 16.
Definition GENL_NAMSIZ := 16.
Definition GENL_HDRLEN := 4.
Definition GENL_HDRSIZE (hdrlen : Z) : Z := GENL_HDRLEN + hdrlen.
Definition GENL_ID_CTRL := 16.
Definition CTRL_CMD_NEWFAMILY := 1.
Definition CTRL_CMD_DELFAMILY := 2.
Definition CTRL_CMD_GETFAMILY := 3.
Definition CTRL_CMD_NEWOPS := 4.
Definition CTRL_CMD_DELOPS := 5.
Definition CTRL_ATTR_FAMILY_ID := 1.
Definition CTRL_ATTR_FAMILY_NAME := 2.
Definition CTRL_ATTR_VERSION := 3.
Definition CTRL_ATTR_HDRSIZE := 4.
Definition CTRL_ATTR_MAXATTR := 5.
Definition CTRL_ATTR_OPS := 6.
Definition CTRL_ATTR_MCAST_GROUPS := 7.
Definition CTRL_ATTR_MAX := 7.
Definition CTRL_ATTR_OP_ID := 1.
Definition CTRL_ATTR_OP_FLAGS := 2.
Definition CTRL_ATTR_OP_MAX := 2.
Definition CTRL_ATTR_MCAST_GRP_NAME := 1.
Definition CTRL_ATTR_MCAST_GRP_ID := 2.
Definition CTRL_ATTR_MCAST_GRP_MAX := 2.

(** ** Messages (genl.c)

    [nlh] and [gnlh] are the offsets of the two headers in a buffer. *)

Definition genlmsg_hdr (nlh : Z) : Z := nlmsg_data nlh.
Definition genlmsg_len (b : list Z) (gnlh : Z) : exec Z :=
  len ← nlmsg_len b (gnlh - NLMSG_HDRLEN);
  mret (s32 (len - GENL_HDRLEN - NLMSG_HDRLEN)).
Definition genlmsg_data (gnlh : Z) : Z := gnlh + GENL_HDRLEN.
Definition genlmsg_user_hdr (gnlh : Z) : Z := genlmsg_data gnlh.
Definition genlmsg_user_data (gnlh hdrlen : Z) : Z := genlmsg_user_hdr gnlh + NLMSG_ALIGN hdrlen.
Definition genlmsg_user_datalen (b : list Z) (gnlh hdrlen : Z) : exec Z :=
  len ← genlmsg_len b gnlh; mret (s32 (len - NLMSG_ALIGN hdrlen)).
Definition genlmsg_attrdata (gnlh hdrlen : Z) : Z := genlmsg_user_data gnlh hdrlen.
Definition genlmsg_attrlen (b : list Z) (gnlh hdrlen : Z) : exec Z :=
  len ← genlmsg_len b gnlh; mret (s32 (len - NLMSG_ALIGN hdrlen)).

Definition genlmsg_valid_hdr (b : list Z) (nlh hdrlen : Z) : exec bool :=
  valid ← nlmsg_valid_hdr b nlh GENL_HDRLEN;
  if negb valid then mret false
  else
    len ← genlmsg_len b (nlmsg_data nlh);
    mret (negb (u32 len <? NLMSG_ALIGN hdrlen)).

Definition genlmsg_validate (b : list Z) (nlh hdrlen maxtype : Z)
    (policy : option (list nla_policy)) : exec Z :=
  valid ← genlmsg_valid_hdr b nlh hdrlen;
  if negb valid then mret (- NLE_MSG_TOOSHORT)
  else
    let ghdr := nlmsg_data nlh in
    len ← genlmsg_attrlen b ghdr hdrlen;
    nla_validate b (genlmsg_attrdata ghdr hdrlen) len maxtype policy.

Definition genlmsg_parse (b : list Z) (nlh hdrlen maxtype : Z)
    (policy : option (list nla_policy)) : exec (Z * list (option Z)) :=
  valid ← genlmsg_valid_hdr b nlh hdrlen;
  if negb valid then mret (- NLE_MSG_TOOSHORT, [])
  else
    let ghdr := nlmsg_data nlh in
    len ← genlmsg_attrlen b ghdr hdrlen;
    nla_parse b maxtype (genlmsg_attrdata ghdr hdrlen) len policy.

(** struct genlmsghdr: command, version, two reserved bytes. *)
Definition genlmsghdr (cmd version : Z) : list Z := [u8 cmd; u8 version; 0; 0].
Definition ghdr_cmd (b : list Z) (gnlh : Z) : exec Z := get_u8 b gnlh.

(** The offset of the user header, [None] when the message has no room. *)
Definition genlmsg_put (msg : nl_msg) (port seq family hdrlen flags cmd version : Z)
    : exec (option Z * nl_msg) :=
  '(nlh, msg) ← nlmsg_put msg port seq family (s32 (GENL_HDRLEN + hdrlen)) flags;
  match nlh with
  | None => mret (None, msg)
  | Some nlh =>
      b ← store (nm_nlh msg) (nlmsg_data nlh) (genlmsghdr cmd version);
      mret (Some (nlmsg_data nlh + GENL_HDRLEN), set_buf msg b)
  end.

Definition genl_connect (p : port_map) (sk : nl_sock) (sys : connect_sys) :=
  nl_connect p sk NETLINK_GENERIC sys.

(** A message started for a family: its headers, and nothing behind them yet. *)
Lemma genlmsg_put_done m port seq family hdrlen flags cmd version :
  msg_wf m -> msg_len m = 16 -> 0 <= hdrlen < 1073741820 -> 16 + align4 (4 + hdrlen) <= nm_size m ->
  exists b, genlmsg_put m port seq family hdrlen flags cmd version = Done (Some 20, set_buf m b) /\
    holds (set_buf m b) (16 + align4 (4 + hdrlen)) [] /\ le_at 4 b 0 = 16 + align4 (4 + hdrlen) /\
    hdr_is b family flags seq port /\ sub b 16 4 = genlmsghdr cmd version.
Proof.
  intros Hw Hl Hh Hfit. unfold genlmsg_put, GENL_HDRLEN. rewrite s32_id by lia.
  destruct (nlmsg_put_done m port seq family (4 + hdrlen) flags) as (b & Hput & Hw' & Hhdr & Hlen); [done|lia|].
  rewrite Hl, (proj2 (Z.leb_le _ _)) in Hput, Hlen by lia. rewrite Hput. exec_simpl.
  pose proof (align4_bounds (4 + hdrlen)). pose proof Hw' as (Hz & Hb & _ & Hs). cbn [nm_nlh nm_size set_buf] in *.
  unfold nlmsg_data, NLMSG_HDRLEN. change (0 + 16) with 16.
  assert (zlen (genlmsghdr cmd version) = 4) as Hg by done.
  rewrite store_done by lia. exec_simpl. exists (splice b 16 (genlmsghdr cmd version)).
  assert (forall k i, 0 <= i -> 0 <= k -> i + k <= 16 ->
    le_at k (splice b 16 (genlmsghdr cmd version)) i = le_at k b i) as Hlo.
  { intros k i ???. unfold le_at. by rewrite sub_splice_before by lia. }
  assert (msg_len (set_buf m (splice b 16 (genlmsghdr cmd version))) = 16 + align4 (4 + hdrlen)) as Hlen'.
  { unfold msg_len. cbn [nm_nlh set_buf]. by rewrite Hlo by lia. }
  split; [done|]. split; [apply holds_nil; [|done|lia]|split; [done|split]].
  - unfold msg_wf. rewrite Hlen'. cbn [nm_nlh nm_size set_buf]. rewrite zlen_splice by lia.
    unfold sizeof_nlmsghdr. split_and!; try (done || lia). apply bytes_ok_splice; [done|].
    repeat (constructor; [unfold u8; zdiv_lia|]); constructor.
  - unfold hdr_is in *. by rewrite !Hlo by lia.
  - by apply sub_splice_eq; [lia| |lia].
Qed.

(** ** Families (family.c)

    The lists of operations and groups are sequences here; see below for the list
    heads and the clone function. *)

Record genl_family := {
  gf_id : Z;
  gf_name : list Z;
  gf_version : Z;
  gf_hdrsize : Z;
  gf_maxattr : Z;
  gf_ops : list (Z * Z);          (* o_id, o_flags *)
  gf_mc_grps : list (Z * list Z)  (* id, name *)
}.
#[export] Instance eta_family : Eta genl_family := fun f =>
  {| gf_id := gf_id f; gf_name := gf_name f; gf_version := gf_version f; gf_hdrsize := gf_hdrsize f;
     gf_maxattr := gf_maxattr f; gf_ops := gf_ops f; gf_mc_grps := gf_mc_grps f |}.

Definition FAMILY_ATTR_ID := 1.
Definition FAMILY_ATTR_NAME := 2.
Definition FAMILY_ATTR_VERSION := 4.
Definition FAMILY_ATTR_HDRSIZE := 8.
Definition FAMILY_ATTR_MAXATTR := 16.
Definition FAMILY_ATTR_OPS := 32.

(** Zeroed storage, after the constructor. *)
Definition family_0 : genl_family :=
  {| gf_id := 0; gf_name := []; gf_version := 0; gf_hdrsize := 0; gf_maxattr := 0; gf_ops := [];
     gf_mc_grps := [] |}.
Definition family_constructor (f : genl_family) : genl_family :=
  f <| gf_ops := @nil (Z * Z) |> <| gf_mc_grps := @nil (Z * list Z) |>.

Abbreviation family := (body genl_family).

Definition genl_family_get_id (f : family) : Z :=
  if has_attr f FAMILY_ATTR_ID then gf_id (ce_data f) else 0.
Definition genl_family_set_id (f : family) (id : Z) : family :=
  let d := ce_data f in set_attr f FAMILY_ATTR_ID (d <| gf_id := u16 id |>).
Definition genl_family_get_name (f : family) : option (list Z) :=
  if has_attr f FAMILY_ATTR_NAME then Some (gf_name (ce_data f)) else None.
(** [strncpy(_, name, GENL_NAMSIZ - 1)] in a buffer whose last byte is 0. *)
Definition genl_family_set_name (f : family) (name : list Z) : family :=
  let d := ce_data f in
  set_attr f FAMILY_ATTR_NAME (d <| gf_name := take (Z.to_nat (GENL_NAMSIZ - 1)) name |>).
Definition genl_family_get_version (f : family) : Z :=
  if has_attr f FAMILY_ATTR_VERSION then u8 (gf_version (ce_data f)) else 0.
Definition genl_family_set_version (f : family) (version : Z) : family :=
  let d := ce_data f in set_attr f FAMILY_ATTR_VERSION (d <| gf_version := u8 version |>).
Definition genl_family_get_hdrsize (f : family) : Z :=
  if has_attr f FAMILY_ATTR_HDRSIZE then gf_hdrsize (ce_data f) else 0.
Definition genl_family_set_hdrsize (f : family) (hdrsize : Z) : family :=
  let d := ce_data f in set_attr f FAMILY_ATTR_HDRSIZE (d <| gf_hdrsize := u32 hdrsize |>).
Definition genl_family_get_maxattr (f : family) : Z :=
  if has_attr f FAMILY_ATTR_MAXATTR then gf_maxattr (ce_data f) else 0.
Definition genl_family_set_maxattr (f : family) (maxattr : Z) : family :=
  let d := ce_data f in set_attr f FAMILY_ATTR_MAXATTR (d <| gf_maxattr := u32 maxattr |>).

(** [c]: whether calloc succeeds. *)
Definition genl_family_add_op (c : bool) (f : family) (id flags : Z) : Z * family :=
  if negb c then (- NLE_NOMEM, f)
  else
    let d := ce_data f in
    (0, set_attr f FAMILY_ATTR_OPS (d <| gf_ops := gf_ops d ++ [(u32 id, u32 flags)] |>)).

Definition genl_family_add_grp (c : bool) (f : family) (id : Z) (name : option (list Z)) : Z * family :=
  match name with
  | None => (- NLE_INVAL, f)
  | Some name =>
      if GENL_NAMSIZ <=? zlen name then (- NLE_INVAL, f)
      else if negb c then (- NLE_NOMEM, f)
      else
        let d := ce_data f in
        (0, Body (ce_mask f) (d <| gf_mc_grps := gf_mc_grps d ++ [(u32 id, name)] |>))
  end.

Definition family_compare (a b : family) (attrs flags : Z) : Z :=
  let x := ce_data a in let y := ce_data b in
  attr_diffs attrs a b
    [(FAMILY_ATTR_ID, negb (gf_id x =? gf_id y));
     (FAMILY_ATTR_VERSION, negb (gf_version x =? gf_version y));
     (FAMILY_ATTR_HDRSIZE, negb (gf_hdrsize x =? gf_hdrsize y));
     (FAMILY_ATTR_MAXATTR, negb (gf_maxattr x =? gf_maxattr y));
     (FAMILY_ATTR_NAME, negb (bool_decide (gf_name x = gf_name y)))].
