(* ===== verification/GenlMngt.v ===== *)
(** The registry of generic netlink families (lib/genl/mngt.c): the list of
    families, their commands, and the dispatch of messages to the parser of a
    command. *)
From S2P Require Import Prelude Errors Msg Attr CString NlList Object Cache CacheInv ObjAttr CacheMngt Wire Genl.

(** struct genl_info; the message is [gi_nlh], the other pointers are offsets in
    it. *)
Record genl_info := {
  gi_who : option sockaddr_nl;
  gi_nlh : list Z;
  gi_genlhdr : Z;
  gi_userhdr : Z;
  gi_attrs : list (option Z)
}.

Section Mngt.
(** What the parsers of commands work on. *)
Context {St : Type}.

(** c_msg_parser, by the address of the cache type (0 for none), the number of the
    command and what the message is. *)
Definition cmd_parser : Type := Z -> Z -> genl_info -> St -> exec (Z * St).

Record genl_cmd := {
  c_id : Z;
  c_name : option (list Z);
  c_maxattr : Z;
  c_attr_policy : option (list nla_policy);
  c_msg_parser : option cmd_parser
}.

Record genl_ops := {
  o_hdrsize : Z;
  o_id : Z;
  o_name : option (list Z);
  o_cache_ops : Z;
  o_cmds : option (list genl_cmd);
  o_ncmds : Z
}.
#[export] Instance eta_genl_ops : Eta genl_ops := fun f =>
  {| o_hdrsize := o_hdrsize f; o_id := o_id f; o_name := o_name f; o_cache_ops := o_cache_ops f;
     o_cmds := o_cmds f; o_ncmds := o_ncmds f |}.

Definition with_o_id (f : genl_ops) (id : Z) : genl_ops := f <| o_id := id |>.

(** The list heads [o_list], with [genl_ops_list] at address 0, and the families
    at their addresses. *)
Record genl_state := { g_links : gmap Z (Z * Z); g_fams : gmap Z genl_ops }.

Definition genl_ops_list : Z := 0.
Definition get_fam (g : genl_state) (a : Z) : exec genl_ops :=
  match g_fams g !! a with Some f => Done f | None => Fault end.
Definition set_fam (g : genl_state) (a : Z) (f : genl_ops) : genl_state :=
  {| g_links := g_links g; g_fams := <[a := f]> (g_fams g) |}.

(** ** Commands *)

(** The loop from the command [i] on. *)
Fixpoint find_cmd (n : nat) (cmds : option (list genl_cmd)) (i cmd_id : Z) : exec (option genl_cmd) :=
  match n with
  | O => mret None
  | S n =>
      match cmds with
      | None => Fault
      | Some l =>
          match l !! Z.to_nat i with
          | None => Fault
          | Some cmd => if c_id cmd =? cmd_id then mret (Some cmd) else find_cmd n cmds (i + 1) cmd_id
          end
      end
  end.
Definition lookup_cmd (ops : genl_ops) (cmd_id : Z) : exec (option genl_cmd) :=
  find_cmd (Z.to_nat (o_ncmds ops)) (o_cmds ops) 0 cmd_id.

(** [c]: whether malloc succeeds; tables of up to 300 bytes are on the stack. *)
Definition _nl_malloc_maybe_a (c : bool) (alloca_maxlen bytes : Z) : bool :=
  (bytes <=? alloca_maxlen) || c.

Definition cmd_msg_parser (c : bool) (who : option sockaddr_nl) (nlh : list Z) (ops : genl_ops)
    (cache_ops : Z) (s : St) : exec (Z * St) :=
  let ghdr := genlmsg_hdr 0 in
  id ← ghdr_cmd nlh ghdr;
  cmd ← lookup_cmd ops id;
  match cmd with
  | None => mret (- NLE_MSGTYPE_NOSUPPORT, s)
  | Some cmd =>
      match c_msg_parser cmd with
      | None => mret (- NLE_OPNOTSUPP, s)
      | Some parser =>
          if negb (_nl_malloc_maybe_a c 300 (u64 (u64 (u64 (c_maxattr cmd) + 1) * 8)))
          then mret (- NLE_NOMEM, s)
          else
            '(err, tb) ← nlmsg_parse nlh 0 (s32 (GENL_HDRSIZE (o_hdrsize ops))) (c_maxattr cmd)
                           (c_attr_policy cmd);
            if err <? 0 then mret (err, s)
            else
              parser cache_ops (c_id cmd)
                {| gi_who := who; gi_nlh := nlh; gi_genlhdr := ghdr;
                   gi_userhdr := genlmsg_user_hdr ghdr; gi_attrs := tb |} s
      end
  end.

(** [co_genl]: the family of a cache type, 0 for none. *)
Definition genl_msg_parser (c : bool) (g : genl_state) (co_genl : Z -> Z) (ops : Z)
    (who : option sockaddr_nl) (nlh : list Z) (s : St) : exec (Z * St) :=
  if co_genl ops =? 0 then Bug
  else f ← get_fam g (co_genl ops); cmd_msg_parser c who nlh f ops s.

(** ** Families *)

(** The first family of the list the test holds for. *)
Definition find_family (g : genl_state) (test : genl_ops -> exec bool) : exec (option Z) :=
  r ← nl_list_for_each_entry (fun _ : unit => g_links g)
        (fun a _ => f ← get_fam g a; t ← test f; mret (if t : bool then inl a else inr tt))
        (S (size (g_links g))) genl_ops_list tt;
  mret (match r with inl a => Some a | inr _ => None end).

Definition lookup_family (g : genl_state) (family : Z) : exec (option Z) :=
  find_family g (fun f => mret (o_id f =? family)).
Definition lookup_family_by_name (g : genl_state) (name : list Z) : exec (option Z) :=
  find_family g (fun f =>
    match o_name f with Some n => mret (bool_decide (n = name)) | None => Fault end).

(** The buffer after the call, and whether a name has been found. *)
Definition genl_op2name (g : genl_state) (family op : Z) (buf : list Z) (len : Z)
    : exec (bool * list Z) :=
  let unknown := buf ← strncpy buf (Some [117; 110; 107; 110; 111; 119; 110]) (u64 (len - 1));
                 mret (false, buf) in
  a ← lookup_family g family;
  match a with
  | None => unknown
  | Some a =>
      ops ← get_fam g a;
      cmd ← lookup_cmd ops op;
      match cmd with
      | Some cmd => buf ← strncpy buf (c_name cmd) (u64 (len - 1)); mret (true, buf)
      | None => unknown
      end
  end.

Definition genl_register_family (g : genl_state) (a : Z) : exec (Z * genl_state) :=
  ops ← get_fam g a;
  match o_name ops with
  | None => mret (- NLE_INVAL, g)
  | Some name =>
      if is_some (o_cmds ops) && (o_ncmds ops <=? 0) then mret (- NLE_INVAL, g)
      else
        same ← (if negb (o_id ops =? 0) then lookup_family g (o_id ops) else mret None);
        match same with
        | Some _ => mret (- NLE_EXIST, g)
        | None =>
            same ← lookup_family_by_name g name;
            match same with
            | Some _ => mret (- NLE_EXIST, g)
            | None =>
                links ← nl_list_add_tail (g_links g) a genl_ops_list;
                mret (0, {| g_links := links; g_fams := g_fams g |})
            end
        end
  end.

Definition genl_unregister_family (g : genl_state) (a : Z) : exec (Z * genl_state) :=
  links ← nl_list_del (g_links g) a;
  mret (0, {| g_links := links; g_fams := g_fams g |}).

Definition genl_handle_msg (c : bool) (g : genl_state) (msg : nl_msg) (s : St) : exec (Z * St) :=
  let nlh := nm_nlh msg in
  valid ← genlmsg_valid_hdr nlh 0 0;
  if negb valid then mret (- NLE_INVAL, s)
  else
    type ← nlmsg_type nlh 0;
    a ← lookup_family g type;
    match a with
    | None => mret (- NLE_MSGTYPE_NOSUPPORT, s)
    | Some a => ops ← get_fam g a; cmd_msg_parser c (Some (nm_src msg)) nlh ops 0 s
    end.

(** ** Families with a type of cache *)

Section Types.
Context {D : Type}.
Variable ops_at : Z -> nl_object_ops D.
Variable co_genl : Z -> Z.

(** The first entry of [co_msgtypes], its end marker when there is no other. *)
Definition msgtype0 (t : cache_type) : Z * option (list Z) :=
  match co_msgtypes (ct_ops t) with
  | mt :: _ => (mt_id mt, Some (mt_name mt))
  | [] => (-1, None)
  end.

(** [ps]: the types of caches whose [co_msg_parser] is [genl_msg_parser]. *)
Definition genl_register (g : genl_state) (m : mngt) (ps : gset Z) (a : Z)
    : exec (Z * genl_state * mngt * gset Z) :=
  t ← get_type m a;
  if negb (co_protocol (ct_ops t) =? NETLINK_GENERIC) then mret (- NLE_PROTO_MISMATCH, g, m, ps)
  else if co_hdrsize (ct_ops t) <? GENL_HDRSIZE 0 then mret (- NLE_INVAL, g, m, ps)
  else if co_genl a =? 0 then mret (- NLE_INVAL, g, m, ps)
  else
    f ← get_fam g (co_genl a);
    let '(id, name) := msgtype0 t in
    let f := f <| o_cache_ops := a |>
               <| o_hdrsize := u32 (co_hdrsize (ct_ops t) - GENL_HDRLEN) |>
               <| o_name := name |> <| o_id := id |> in
    let ps := {[a]} ∪ ps in
    '(err, g) ← genl_register_family (set_fam g (co_genl a) f) (co_genl a);
    if err <? 0 then mret (err, g, m, ps)
    else '(err, m) ← nl_cache_mngt_register ops_at m a; mret (err, g, m, ps).

(** [a] is 0 for NULL. *)
Definition genl_unregister (g : genl_state) (m : mngt) (a : Z) : exec (genl_state * mngt) :=
  if a =? 0 then mret (g, m)
  else
    '(_, m) ← nl_cache_mngt_unregister m a;
    '(_, g) ← genl_unregister_family g (co_genl a);
    mret (g, m).
End Types.
End Mngt.
Arguments genl_cmd : clear implicits.
Arguments genl_ops : clear implicits.
Arguments genl_state : clear implicits.

(** ** The registry as a sequence of families *)

Section Registry.
Context {St : Type}.
Implicit Types (g : genl_state St) (f : genl_ops St).

Definition reg g (l : list Z) : Prop :=
  is_list (g_links g) genl_ops_list l /\
  forall a, a ∈ l -> exists f, g_fams g !! a = Some f /\ is_Some (o_name f).

(** The first family [p] holds for. *)
Definition fam_with g (p : genl_ops St -> bool) (l : list Z) : option Z :=
  List.find (fun a => match g_fams g !! a with Some f => p f | None => false end) l.

Lemma reg_bound g l : reg g l -> (length l <= S (size (g_links g)))%nat.
Proof.
  intros [Hl _]. pose proof Hl as [Hd _]. apply NoDup_cons in Hd as [_ Hd].
  rewrite <- size_dom, <- (size_list_to_set (C := gset Z) l) by done.
  apply le_S, subseteq_size. intros a Ha. apply elem_of_list_to_set in Ha.
  apply elem_of_dom. apply (is_list_some _ _ _ a Hl). by right.
Qed.

Lemma find_family_done g l test p :
  reg g l -> (forall a f, a ∈ l -> g_fams g !! a = Some f -> test f = Done (p f)) ->
  find_family g test = Done (fam_with g p l).
Proof.
  intros Hr Ht. pose proof (reg_bound g l Hr) as Hb. destruct Hr as [Hl Hf]. unfold find_family.
  rewrite (nl_list_for_each_entry_eq (fun _ : unit => g_links g) _ genl_ops_list
    (fun k _ => NlList.walk (g_links g) k genl_ops_list) (fun k s H => H) _ l tt); [| |apply (is_list_walk _ _ _ Hl)|done..].
  - assert (forall k, (forall a, a ∈ k -> a ∈ l) ->
      loop_list (fun a (_ : unit) => f ← get_fam g a; t ← test f; mret (if t : bool then inl a else inr tt)) k tt =
      Done (match fam_with g p k with Some a => inl a | None => inr tt end)) as Hg.
    { induction k as [|a k IH]; intros Hk; [done|]. simpl. destruct (Hf a) as (f & Hfa & _); [apply Hk; left|].
      unfold get_fam. rewrite Hfa. exec_simpl. rewrite (Ht a f) by (done || apply Hk; left). exec_simpl.
      destruct (p f); [done|]. apply IH. intros x Hx. apply Hk. by right. }
    rewrite Hg by done. exec_simpl. by destruct (fam_with g p l).
  - intros a k _ s' (_ & Hn & Hw) _. done.
Qed.

Lemma lookup_family_done g l family :
  reg g l -> lookup_family g family = Done (fam_with g (fun f => o_id f =? family) l).
Proof. intros Hr. by apply find_family_done. Qed.

Lemma lookup_name_done g l name :
  reg g l ->
  lookup_family_by_name g name = Done (fam_with g (fun f => bool_decide (o_name f = Some name)) l).
Proof.
  intros Hr. apply find_family_done; [done|]. intros a f Ha Hf. destruct Hr as [_ Hr].
  destruct (Hr a Ha) as (f' & Hf' & [n Hn]). simplify_eq. rewrite Hn. f_equal.
  apply bool_decide_ext. naive_solver.
Qed.

Lemma fam_with_some g p l a :
  fam_with g p l = Some a -> a ∈ l /\ exists f, g_fams g !! a = Some f /\ p f = true.
Proof.
  intros H. apply List.find_some in H as [Hin Hp]. split; [by apply list_elem_of_In|].
  simpl in Hp. destruct (g_fams g !! a) as [f|]; [by exists f|done].
Qed.

Lemma fam_with_none g p l a f :
  fam_with g p l = None -> a ∈ l -> g_fams g !! a = Some f -> p f = false.
Proof.
  intros H Ha Hf. apply list_elem_of_In in Ha. pose proof (List.find_none _ _ H a Ha) as Hp.
  simpl in Hp. by rewrite Hf in Hp.
Qed.

(** A family with a number no other family has is the one found. *)
Lemma fam_with_unique g p l a f :
  a ∈ l -> g_fams g !! a = Some f -> p f = true ->
  (forall a' f', a' ∈ l -> g_fams g !! a' = Some f' -> p f' = true -> a' = a) ->
  fam_with g p l = Some a.
Proof.
  intros Ha Hf Hp Hu. destruct (fam_with g p l) as [a'|] eqn:E.
  - apply fam_with_some in E as (Hin & f' & Hf' & Hp'). by rewrite (Hu a' f').
  - by rewrite (fam_with_none _ _ _ _ _ E Ha Hf) in Hp.
Qed.

(** ** Commands *)

Lemma find_cmd_done (cmds pre l : list (genl_cmd St)) id :
  cmds = pre ++ l ->
  find_cmd (length l) (Some cmds) (zlen pre) id = Done (List.find (fun c => c_id c =? id) l).
Proof.
  revert pre. induction l as [|cmd l IH]; intros pre ->; [done|]. cbn [find_cmd length List.find].
  unfold zlen. rewrite Nat2Z.id, list_lookup_middle by done.
  destruct (c_id cmd =? id); [done|]. rewrite <- (IH (pre ++ [cmd])); [|by rewrite <- app_assoc].
  f_equal. unfold zlen. rewrite length_app. simpl. lia.
Qed.

(** The commands of a family are an array of [o_ncmds] elements. *)
Definition cmds_ok f (l : list (genl_cmd St)) : Prop := o_cmds f = Some l /\ o_ncmds f = zlen l.

Lemma lookup_cmd_done f l id :
  cmds_ok f l -> lookup_cmd f id = Done (List.find (fun c => c_id c =? id) l).
Proof.
  intros [Hc Hn]. unfold lookup_cmd. rewrite Hc, Hn. unfold zlen. rewrite Nat2Z.id.
  by apply (find_cmd_done l [] l).
Qed.

(** ** Registration *)

Lemma register_family_done g l a f name :
  reg g l -> a ∉ l -> a <> genl_ops_list -> is_Some (g_links g !! a) -> g_fams g !! a = Some f ->
  o_name f = Some name -> (is_Some (o_cmds f) -> 0 < o_ncmds f) ->
  let taken := (negb (o_id f =? 0) && is_some (fam_with g (fun f' => o_id f' =? o_id f) l)) ||
               is_some (fam_with g (fun f' => bool_decide (o_name f' = Some name)) l) in
  if taken then genl_register_family g a = Done (- NLE_EXIST, g)
  else exists links, genl_register_family g a = Done (0, {| g_links := links; g_fams := g_fams g |}) /\
         reg {| g_links := links; g_fams := g_fams g |} (l ++ [a]).
Proof.
  intros Hr Ha H0 Hs Hf Hname Hc taken. unfold genl_register_family, get_fam. rewrite Hf. exec_simpl.
  rewrite Hname.
  assert (is_some (o_cmds f) && (o_ncmds f <=? 0) = false) as ->.
  { destruct (o_cmds f); [|done]. simpl. specialize (Hc ltac:(by eexists)). lia. }
  rewrite (lookup_family_done g l), (lookup_name_done g l) by done. unfold taken. clear taken.
  destruct (fam_with g (fun f' => bool_decide (o_name f' = Some name)) l) eqn:E2.
  - rewrite orb_true_r. destruct (negb (o_id f =? 0)); exec_simpl; [|done].
    by destruct (fam_with g (fun f' => o_id f' =? o_id f) l).
  - rewrite orb_false_r. destruct Hr as [Hl Hfs].
    destruct (nl_list_add_tail_spec (g_links g) genl_ops_list l a) as (links & Hadd & Hl' & _);
      [done|by rewrite not_elem_of_cons|done|].
    assert (reg {| g_links := links; g_fams := g_fams g |} (l ++ [a])) as Hr'.
    { split; [done|]. intros x [Hx|Hx]%elem_of_app; [by apply Hfs|].
      apply list_elem_of_singleton in Hx as ->. exists f. split; [done|by rewrite Hname]. }
    destruct (negb (o_id f =? 0)); exec_simpl;
      [destruct (fam_with g (fun f' => o_id f' =? o_id f) l); [done|]|]; exec_simpl;
      rewrite Hadd; exec_simpl; by exists links.
Qed.

Lemma unregister_family_done g l1 a l2 :
  reg g (l1 ++ a :: l2) ->
  exists links, genl_unregister_family g a = Done (0, {| g_links := links; g_fams := g_fams g |}) /\
    reg {| g_links := links; g_fams := g_fams g |} (l1 ++ l2).
Proof.
  intros [Hl Hf]. destruct (nl_list_del_spec _ _ _ _ _ Hl) as (links & Hd & Hl' & _).
  exists links. unfold genl_unregister_family. rewrite Hd. exec_simpl. split; [done|]. split; [done|].
  intros x Hx. apply Hf. set_solver.
Qed.
End Registry.

(** ** From a request to the parser of its command *)

Section Dispatch.
Context {St : Type}.
Implicit Types (g : genl_state St) (f : genl_ops St).

Lemma sub_u8 b off v r : sub b off 4 = u8 v :: r -> le_at 1 b off = u8 v.
Proof.
  intros H. unfold le_at. replace (sub b off 1) with (take 1 (sub b off 4)).
  - rewrite H. simpl. lia.
  - unfold sub. by rewrite take_take.
Qed.

(** The dispatch of a message whose family and command are found. *)
Lemma handle_msg_done g l a f cmds cmd parser m s family tb :
  reg g l -> a ∈ l -> g_fams g !! a = Some f -> o_id f = family ->
  (forall a' f', a' ∈ l -> g_fams g !! a' = Some f' -> o_id f' = family -> a' = a) ->
  cmds_ok f cmds -> List.find (fun c => c_id c =? c_id cmd) cmds = Some cmd -> c_msg_parser cmd = Some parser ->
  msg_wf m -> 20 <= msg_len m -> le_at 2 (nm_nlh m) 4 = family -> le_at 1 (nm_nlh m) 16 = c_id cmd ->
  0 <= o_hdrsize f < 1073741820 ->
  nlmsg_parse (nm_nlh m) 0 (4 + o_hdrsize f) (c_maxattr cmd) (c_attr_policy cmd) = Done (0, tb) ->
  genl_handle_msg true g m s =
  parser 0 (c_id cmd) {| gi_who := Some (nm_src m); gi_nlh := nm_nlh m; gi_genlhdr := 16;
                         gi_userhdr := 20; gi_attrs := tb |} s.
Proof.
  intros Hr Ha Hf Hid Hu Hc Hfind Hp Hw Hlen Hty Hcmd Hh Hparse. unfold genl_handle_msg, genlmsg_valid_hdr.
  pose proof Hw as (Hz & _ & [_ Hb] & Hs). unfold nlmsg_valid_hdr, genlmsg_len.
  change (nlmsg_data 0 - NLMSG_HDRLEN) with 0. rewrite nlmsg_len_done by done. exec_simpl.
  unfold nlmsg_msg_size, nlmsg_size. change (u32 (s32 (NLMSG_HDRLEN + GENL_HDRLEN))) with 20.
  rewrite (proj2 (Z.ltb_ge _ 20)) by lia. exec_simpl. cbn [negb].
  change (NLMSG_ALIGN 0) with 0. rewrite (proj2 (Z.ltb_ge _ 0)) by apply u32_range. cbn [negb].
  unfold nlmsg_type. rewrite get_u16_done by lia. exec_simpl. change (0 + 4) with 4. rewrite Hty.
  rewrite (lookup_family_done g l) by done.
  rewrite (fam_with_unique g _ l a f); [|done|done|by rewrite Hid, Z.eqb_refl|].
  2: { intros a' f' Ha' Hf' He. apply Z.eqb_eq in He. by apply (Hu a' f'). }
  exec_simpl. unfold get_fam. rewrite Hf. exec_simpl. unfold cmd_msg_parser, ghdr_cmd.
  change (genlmsg_hdr 0) with 16. rewrite get_u8_done by lia. exec_simpl. rewrite Hcmd.
  rewrite (lookup_cmd_done f cmds) by done. exec_simpl. rewrite Hfind, Hp.
  unfold _nl_malloc_maybe_a. rewrite orb_true_r. cbn [negb].
  unfold GENL_HDRSIZE, GENL_HDRLEN. rewrite s32_id by lia. rewrite Hparse. exec_simpl. done.
Qed.

(** C11. A generic netlink message composed for a registered family and one of its
    commands, with any attributes the command's policy accepts, is dispatched to
    the parser of exactly that command, which is run once, on that message, with
    a table that gives for every attribute type the payload put last under it. *)
Theorem genl_request_dispatch g l a f cmds cmd parser m port seq flags version ats s :
  reg g l -> a ∈ l -> g_fams g !! a = Some f ->
  (forall a' f', a' ∈ l -> g_fams g !! a' = Some f' -> o_id f' = o_id f -> a' = a) ->
  0 <= o_id f < 65536 -> 0 <= o_hdrsize f < 1073741820 -> 0 <= c_id cmd < 256 ->
  cmds_ok f cmds -> List.find (fun c => c_id c =? c_id cmd) cmds = Some cmd ->
  c_msg_parser cmd = Some parser -> policy_opt_ok (c_maxattr cmd) (c_attr_policy cmd) ->
  msg_wf m -> msg_len m = 16 -> Forall attr_fits ats ->
  Forall (content_ok (c_maxattr cmd) (c_attr_policy cmd)) ats ->
  16 + align4 (4 + o_hdrsize f) + total_room ats <= nm_size m ->
  exists m1 m2 tb,
    genlmsg_put m port seq (o_id f) (o_hdrsize f) flags (c_id cmd) version = Done (Some 20, m1) /\
    nla_put_all m1 ats = Done (0, m2) /\
    genl_handle_msg true g m2 s =
      parser 0 (c_id cmd) {| gi_who := Some (nm_src m2); gi_nlh := nm_nlh m2; gi_genlhdr := 16;
                             gi_userhdr := 20; gi_attrs := tb |} s /\
    table (nm_nlh m2) ats (c_maxattr cmd) tb.
Proof.
  intros Hr Ha Hf Hu Hid Hh Hcid Hc Hfind Hp Hpol Hw Hl Hfits Hok Hroom.
  pose proof (total_room_nonneg ats). pose proof (align4_bounds (4 + o_hdrsize f)).
  destruct (genlmsg_put_done m port seq (o_id f) (o_hdrsize f) flags (c_id cmd) version)
    as (b & Hput & Hh1 & Hlen & (Hty & _) & Hg); [done..|lia|].
  destruct (holds_put_all ats (set_buf m b) _ [] Hh1 Hfits) as (m2 & Hall & Hh2 & Hl2 & Hs2 & Hsame).
  { unfold msg_len. cbn [nm_nlh nm_size set_buf]. lia. }
  assert (msg_len (set_buf m b) = 16 + align4 (4 + o_hdrsize f)) as Hlb by done. rewrite Hlb in *.
  destruct (holds_parse m2 (4 + o_hdrsize f) ats (c_maxattr cmd) (c_attr_policy cmd)) as (tb & Hparse & Htb);
    [done|lia|done..|].
  exists (set_buf m b), m2, tb. split; [done|]. split; [done|]. split; [|done].
  pose proof Hh2 as (Hw2 & _). cbn [nm_nlh set_buf] in Hsame.
  apply (handle_msg_done g l a f cmds cmd parser m2 s (o_id f)); try done; [lia| |].
  - rewrite (same_bytes_le_at b (nm_nlh m2) _ _ _ _ Hsame) by lia. rewrite Hty. by apply u16_id.
  - rewrite (same_bytes_le_at b (nm_nlh m2) _ _ _ _ Hsame) by lia.
    rewrite (sub_u8 _ _ _ _ Hg). unfold u8. by apply Z.mod_small.
Qed.
End Dispatch.

(** ** The property at a concrete input *)

Module SampleGenl.
(** A parser that keeps what it was given of attribute 2. *)
Definition parser : cmd_parser (St := list (list Z)) := fun _ id info s =>
  nla ← tb_at (gi_attrs info) 2;
  match nla with
  | None => mret (0, s ++ [[id]])
  | Some nla => d ← load (gi_nlh info) (nla_data nla) 3; mret (0, s ++ [id :: d])
  end.
Definition cmd : genl_cmd (list (list Z)) :=
  {| c_id := 5; c_name := None; c_maxattr := 3; c_attr_policy := None; c_msg_parser := Some parser |}.
Definition cmds : list (genl_cmd (list (list Z))) :=
  [{| c_id := 4; c_name := None; c_maxattr := 0; c_attr_policy := None; c_msg_parser := None |}; cmd].
Definition fam (id : Z) (name : list Z) : genl_ops (list (list Z)) :=
  {| o_hdrsize := 2; o_id := id; o_name := Some name; o_cache_ops := 0;
     o_cmds := Some cmds; o_ncmds := 2 |}.
Definition g0 : genl_state (list (list Z)) :=
  {| g_links := <[8 := (0, 0)]> (<[9 := (0, 0)]> (NL_INIT_LIST_HEAD ∅ genl_ops_list));
     g_fams := <[8 := fam 30 [97]]> (<[9 := fam 31 [98]]> ∅) |}.

Lemma g0_reg : reg g0 [].
Proof.
  split; [|intros a Ha; set_solver]. apply (is_list_frame (NL_INIT_LIST_HEAD ∅ 0)); [apply init_list|].
  intros x Hx. apply list_elem_of_singleton in Hx as ->. reflexivity.
Qed.

(** The registry with the family at 8, and with both. *)
Lemma g1_reg : exists links, genl_register_family g0 8 = Done (0, {| g_links := links; g_fams := g_fams g0 |}) /\
  reg {| g_links := links; g_fams := g_fams g0 |} [8].
Proof.
  apply (register_family_done g0 [] 8 (fam 30 [97]) [97]);
    [apply g0_reg|set_solver|done|by eexists|done|done|done].
Qed.

(** A second family with the name or the number of the first is refused. *)
Lemma same_name_refused :
  ('(e, g) ← genl_register_family g0 8; '(e', g) ← genl_register_family (set_fam g 9 (fam 31 [97])) 9;
   mret (e, e')) = Done (0, - NLE_EXIST) /\
  ('(e, g) ← genl_register_family g0 8; '(e', g) ← genl_register_family (set_fam g 9 (fam 30 [98])) 9;
   mret (e, e')) = Done (0, - NLE_EXIST).
Proof. by vm_compute. Qed.
End SampleGenl.

Lemma genl_request_dispatch_witness :
  exists g m1 m2, genl_register_family SampleGenl.g0 8 = Done (0, g) /\
    genlmsg_put ex_msg 7 9 30 2 0 5 1 = Done (Some 20, m1) /\
    nla_put_all m1 [(2, [10; 20; 30])] = Done (0, m2) /\
    genl_handle_msg true g m2 [] = Done (0, [[5; 10; 20; 30]]).
Proof.
  destruct SampleGenl.g1_reg as (links & Hg & Hr).
  destruct (genl_request_dispatch _ [8] 8 (SampleGenl.fam 30 [97]) SampleGenl.cmds SampleGenl.cmd SampleGenl.parser ex_msg 7 9 0 1
    [(2, [10; 20; 30])] [] Hr) as (m1 & m2 & tb & H1 & H2 & H3 & H4).
  - left.
  - reflexivity.
  - intros a' f' Ha' _ _. by apply list_elem_of_singleton in Ha'.
  - done.
  - done.
  - done.
  - split; reflexivity.
  - reflexivity.
  - reflexivity.
  - done.
  - exact ex_msg_wf.
  - by vm_compute.
  - apply Forall_cons_2; [|apply Forall_nil_2]. split_and!; [done|done|by apply bytes_ok_dec|done].
  - apply Forall_cons_2; [done|apply Forall_nil_2].
  - by vm_compute.
  - eexists _, m1, m2. split; [exact Hg|]. split; [exact H1|]. split; [exact H2|]. rewrite H3.
    unfold SampleGenl.parser. cbn [gi_attrs gi_nlh c_id SampleGenl.cmd].
    destruct (H4 2) as (nla & Hnla & Hat); [done|]. rewrite Hnla. exec_simpl.
    pose proof (attr_at_get 3 _ _ _ Hat eq_refl) as Hd. change (Z.of_nat 3) with 3 in Hd.
    by rewrite Hd.
Defined.
