(* ===== verification/GenlCtrl.v ===== *)
(** The controller of generic netlink (lib/genl/ctrl.c): the families of the
    kernel as a cache, the parser of its messages, and looking families up by
    asking the kernel. *)
From S2P Require Import Prelude Errors Msg Attr CString Utils Handlers Socket Nl NlList Object Cache CacheInv ObjAttr CacheMngt CacheDump Wire Genl GenlMngt.

Definition CTRL_VERSION := 1.

Definition pol (type maxlen : Z) : nla_policy :=
  {| pol_type := type; pol_minlen := 0; pol_maxlen := maxlen |}.
Definition ctrl_policy : list nla_policy :=
  [pol 0 0; pol NLA_U16 0; pol NLA_STRING GENL_NAMSIZ; pol NLA_U32 0; pol NLA_U32 0; pol NLA_U32 0;
   pol NLA_NESTED 0; pol NLA_NESTED 0].
Definition family_op_policy : list nla_policy := [pol 0 0; pol NLA_U32 0; pol NLA_U32 0].
Definition family_grp_policy : list nla_policy := [pol 0 0; pol NLA_STRING 0; pol NLA_U32 0].

(** ** Parsing

    [b]: the message; [c]: whether the callocs of operations and groups
    succeed. *)
Section Parse.
Variable c : bool.
Variable b : list Z.

Definition get_str (nla : Z) : exec (list Z) := c_string (drop (Z.to_nat (nla_get_string nla)) b).

(** The body of a loop over nested attributes: leaves with an error. *)
Definition grp_body (family : family) (nla : Z) : exec (Genl.family + (Z * Genl.family)) :=
  '(err, tb) ← nla_parse_nested b CTRL_ATTR_MCAST_GRP_MAX nla (Some family_grp_policy);
  if err <? 0 then mret (inr (err, family))
  else
    id ← tb_at tb CTRL_ATTR_MCAST_GRP_ID;
    match id with
    | None => mret (inr (- NLE_MISSING_ATTR, family))
    | Some nla_id =>
        id ← (s32 <$> nla_get_u32 b nla_id);
        name ← tb_at tb CTRL_ATTR_MCAST_GRP_NAME;
        match name with
        | None => mret (inr (- NLE_MISSING_ATTR, family))
        | Some nla_name =>
            name ← get_str nla_name;
            let '(err, family) := genl_family_add_grp c family id (Some name) in
            mret (if err <? 0 then inr (err, family) else inl family)
        end
    end.

Definition loop_result (r : Genl.family + (Z * Genl.family)) : Z * Genl.family :=
  match r with inl family => (0, family) | inr x => x end.

Definition parse_mcast_grps (family : family) (grp_attr : option Z) : exec (Z * Genl.family) :=
  match grp_attr with
  | None => Bug
  | Some nla => loop_result <$> nla_for_each_nested b grp_body nla family
  end.

Definition op_body (family : family) (nla : Z) : exec (Genl.family + (Z * Genl.family)) :=
  '(err, tb) ← nla_parse_nested b CTRL_ATTR_OP_MAX nla (Some family_op_policy);
  if err <? 0 then mret (inr (err, family))
  else
    id ← tb_at tb CTRL_ATTR_OP_ID;
    match id with
    | None => mret (inr (- NLE_MISSING_ATTR, family))
    | Some nla_id =>
        id ← (s32 <$> nla_get_u32 b nla_id);
        flags ← if_attr tb CTRL_ATTR_OP_FLAGS (fun nla _ => s32 <$> nla_get_u32 b nla) 0;
        let '(err, family) := genl_family_add_op c family id flags in
        mret (if err <? 0 then inr (err, family) else inl family)
    end.

(** What [ctrl_msg_parser] makes of a message: the family, or an error. *)
Definition ctrl_decode (tb : list (option Z)) : exec (Z + family) :=
  let family := Body 0 (family_constructor family_0) in
  name ← tb_at tb CTRL_ATTR_FAMILY_NAME;
  match name with
  | None => err NLE_MISSING_ATTR
  | Some nla_name =>
      id ← tb_at tb CTRL_ATTR_FAMILY_ID;
      match id with
      | None => err NLE_MISSING_ATTR
      | Some nla_id =>
          id ← nla_get_u16 b nla_id;
          let family := genl_family_set_id family id in
          name ← get_str nla_name;
          let family := genl_family_set_name family name in
          family ← if_attr tb CTRL_ATTR_VERSION (fun nla f =>
                     v ← nla_get_u32 b nla; mret (genl_family_set_version f v)) family;
          family ← if_attr tb CTRL_ATTR_HDRSIZE (fun nla f =>
                     v ← nla_get_u32 b nla; mret (genl_family_set_hdrsize f v)) family;
          family ← if_attr tb CTRL_ATTR_MAXATTR (fun nla f =>
                     v ← nla_get_u32 b nla; mret (genl_family_set_maxattr f v)) family;
          '(e, family) ← if_attr tb CTRL_ATTR_OPS (fun nla r =>
                     loop_result <$> nla_for_each_nested b op_body nla r.2) (0, family);
          if e <? 0 then mret (inl e)
          else
            '(e, family) ← if_attr tb CTRL_ATTR_MCAST_GROUPS (fun nla r =>
                       parse_mcast_grps r.2 (Some nla)) (0, family);
            if e <? 0 then mret (inl e) else ok family
      end
  end.

(** The callback of a probe. *)
Definition probe_response (ret : family) : exec (Z * Genl.family) :=
  '(e, tb) ← genlmsg_parse b 0 0 CTRL_ATTR_MAX (Some ctrl_policy);
  if negb (e =? 0) then mret (NL_SKIP, ret)
  else
    ret ← if_attr tb CTRL_ATTR_FAMILY_ID (fun nla f =>
            id ← nla_get_u16 b nla; mret (genl_family_set_id f id)) ret;
    '(e, ret) ← if_attr tb CTRL_ATTR_MCAST_GROUPS (fun nla r =>
                  parse_mcast_grps r.2 (Some nla)) (0, ret);
    mret (if e <? 0 then NL_SKIP else NL_STOP, ret).
End Parse.

(** ** Families as objects

    Copying an object copies its list heads with the rest, so that the loop of
    [family_clone] over the lists of the original adds to the lists it walks
    along: see the section on the lists below. *)

Definition family_clone (dst : genl_family) (src : family) : Z * genl_family :=
  match gf_ops (ce_data src), gf_mc_grps (ce_data src) with
  | [], [] => (0, dst)
  | _, _ => (- NLE_NOMEM, dst)
  end.

Definition genl_family_ops : nl_object_ops genl_family :=
  {| oo_name := "genl/family"; oo_size := 128; oo_id_attrs := FAMILY_ATTR_ID;
     oo_constructor := Some family_constructor; oo_free_data := true;
     oo_clone := Some family_clone; oo_compare := Some family_compare; oo_update := None;
     oo_keygen := None; oo_id_attrs_get := None |}.

(** The one kind of objects here, at an address other than 0. *)
Definition genl_ops_at (_ : Z) : nl_object_ops genl_family := genl_family_ops.
Definition GENL_FAMILY_OPS : Z := 1.

Definition genl_family_alloc (c : bool) (h : heap genl_family) :=
  nl_object_alloc genl_ops_at c family_0 h GENL_FAMILY_OPS.
Definition genl_family_put (h : heap genl_family) (o : Z) := nl_object_put genl_ops_at h (Some o).

(** The state parsers of commands work on here: what change callbacks have been
    told, and the heap. *)
Abbreviation gstate := (list change * heap genl_family)%type.

Definition ctrl_msg_parser (c0 c : bool) (cb : pp_cb_t (D := genl_family))
    : cmd_parser (St := gstate) := fun _ _ info s =>
  '(e, ev, h) ← object_parser genl_ops_at family_0 c0 GENL_FAMILY_OPS
                  (fun b => ctrl_decode c b (gi_attrs info)) (gi_who info) (gi_nlh info) cb s.2;
  mret (e, (s.1 ++ ev, h)).

Definition genl_cmds (c0 c : bool) (cb : pp_cb_t) : list (genl_cmd gstate) :=
  let bare id name := {| c_id := id; c_name := Some name; c_maxattr := 0; c_attr_policy := None;
                         c_msg_parser := None |} in
  [{| c_id := CTRL_CMD_NEWFAMILY; c_name := Some (str "NEWFAMILY"); c_maxattr := CTRL_ATTR_MAX;
      c_attr_policy := Some ctrl_policy; c_msg_parser := Some (ctrl_msg_parser c0 c cb) |};
   bare CTRL_CMD_DELFAMILY (str "DELFAMILY"); bare CTRL_CMD_GETFAMILY (str "GETFAMILY");
   bare CTRL_CMD_NEWOPS (str "NEWOPS"); bare CTRL_CMD_DELOPS (str "DELOPS")].

(** The family of the controller as [genl_register] leaves it. *)
Definition genl_ctrl_fam (c0 c : bool) (cb : pp_cb_t) (a : Z) : genl_ops gstate :=
  {| o_hdrsize := 0; o_id := GENL_ID_CTRL; o_name := Some (str "nlctrl"); o_cache_ops := a;
     o_cmds := Some (genl_cmds c0 c cb); o_ncmds := zlen (genl_cmds c0 c cb) |}.

Definition genl_ctrl_ops : nl_cache_ops :=
  {| co_name := Some (str "genl/family"); co_hdrsize := GENL_HDRSIZE 0;
     co_protocol := NETLINK_GENERIC; co_hash_size := 0; co_flags := 0; co_groups := None;
     co_obj_ops := GENL_FAMILY_OPS;
     co_msgtypes := [{| mt_id := GENL_ID_CTRL; mt_act := NL_ACT_UNSPEC; mt_name := str "nlctrl" |}] |}.

(** ** The cache of families *)

Section Ctrl.
Context {V : Type}.
Abbreviation W := (world gstate V).

(** The address of [genl_ctrl_ops]. *)
Variable ctrl_type : Z.

(** co_msg_parser of [genl_ctrl_ops], as [genl_register] sets it. *)
Definition ctrl_parser (cm c0 c : bool) : parser_t (D := genl_family) := fun who b cb h =>
  '(e, s) ← cmd_msg_parser cm who b (genl_ctrl_fam c0 c cb ctrl_type) ctrl_type ([], h);
  mret (e, s.1, s.2).

Section Send.
Variable user : Z -> Z -> Z -> nl_msg -> W -> Z * W.
Variable sendmsg : sockaddr_nl -> option ucred -> list Z -> W -> (Z + Z) * W.
Variable send_ow : Z -> nl_sock -> nl_msg -> W -> exec (Z * nl_sock * nl_msg * W).

Definition genl_send_simple (c1 c2 : bool) (default_msg_size : Z) (p : port_map) (sk : nl_sock)
    (family cmd version flags getpid time : Z) (w : W) : exec (Z * nl_sock * port_map * W) :=
  nl_send_simple user sendmsg send_ow c1 c2 default_msg_size p sk family flags
    (Some (genlmsghdr cmd version)) GENL_HDRLEN getpid time w.

Definition ctrl_request_update (c1 c2 : bool) (default_msg_size getpid time : Z)
    : request_t (D := genl_family) (V := V) := fun _ sk p w =>
  genl_send_simple c1 c2 default_msg_size p sk GENL_ID_CTRL CTRL_CMD_GETFAMILY CTRL_VERSION NLM_F_DUMP
    getpid time w.
End Send.

Definition genl_ctrl_search (h : heap genl_family) (cache id : Z) : exec (option Z * heap genl_family) :=
  x ← get_cache h cache;
  if negb (c_ops x =? ctrl_type) then Bug
  else find_item h cache (fun fam => mret (gf_id (ce_data (ce_body fam)) =? id)).

Definition genl_ctrl_search_by_name (h : heap genl_family) (cache : Z) (name : list Z)
    : exec (option Z * heap genl_family) :=
  x ← get_cache h cache;
  if negb (c_ops x =? ctrl_type) then Bug
  else find_item h cache (fun fam => mret (bool_decide (name = gf_name (ce_data (ce_body fam))))).

(** *** Asking the kernel for one family *)

Section Probe.
Abbreviation PW := (world family V).
Variable app : Z -> Z -> Z -> nl_msg -> V -> Z * V.
Variable app_err : Z -> Z -> sockaddr_nl -> list Z -> V -> Z * V.
Variable sendmsg : sockaddr_nl -> option ucred -> list Z -> PW -> (Z + Z) * PW.
Variable send_ow : Z -> nl_sock -> nl_msg -> PW -> exec (Z * nl_sock * nl_msg * PW).
Variable recvmsg : Z -> Z -> Z -> PW -> (Z + rcv) * PW.
Variable recv_ow : Z -> nl_sock -> PW -> exec (recv_out * PW).
Variable recvmsgs_ow : Z -> nl_sock -> nl_cb -> PW -> exec (Z * rstate (W := PW)).
Variable rfuel : nat.
Variable mem : recv_mem.
Variable page_size : Z.
Variable fuel : nat.

Definition probe_user (c : bool) :=
  lib_user (fun msg f => probe_response c (nm_nlh msg) f) app.
Definition probe_user_err : Z -> Z -> sockaddr_nl -> list Z -> PW -> Z * PW :=
  lib_user_err (fun _ f => mret (NL_STOP, f)) app_err.

(** Which allocations succeed: the family, the message and its buffer, the
    callback set, its copy while waiting for the acknowledgement, the received
    messages, and the groups. *)
Record probe_mem := {
  pm_family : bool; pm_msg : bool; pm_buf : bool; pm_cb : bool; pm_ack : bool;
  pm_rcv1 : bool; pm_rcv2 : bool; pm_grp : bool
}.
Variable pm : probe_mem.
Variable default_msg_size : Z.

(** The result is [None] for NULL. *)
Definition genl_ctrl_probe_by_name (p : port_map) (sk : nl_sock) (name : list Z) (getpid time : Z) (v : V)
    : exec (option family * nl_sock * port_map * V) :=
  if negb (pm_family pm) then mret (None, sk, p, v)
  else
    let ret := genl_family_set_name (Body 0 (family_constructor family_0)) name in
    m ← nlmsg_alloc (pm_msg pm) (pm_buf pm) default_msg_size;
    match m with
    | None => mret (None, sk, p, v)
    | Some msg =>
        match nl_cb_clone (pm_cb pm) (s_cb sk) with
        | None => mret (None, sk, p, v)
        | Some cb =>
            '(hdr, msg) ← genlmsg_put msg NL_AUTO_PORT NL_AUTO_SEQ GENL_ID_CTRL 0 0
                            CTRL_CMD_GETFAMILY 1;
            if negb (is_some hdr) then Bug
            else
              '(e, msg) ← nla_put_string msg CTRL_ATTR_FAMILY_NAME name;
              if e <? 0 then mret (None, sk, p, v)
              else
                let '(e, cb) := nl_cb_set cb NL_CB_VALID NL_CB_CUSTOM (Some (msg_cb_user own_cb)) 0 in
                if e <? 0 then mret (None, sk, p, v)
                else
                  let user := probe_user (pm_grp pm) in
                  '(e, sk, msg, p, w) ← nl_send_auto_complete user sendmsg send_ow p sk msg getpid time
                                          (World (Done ret) v);
                  if e <? 0 then mret (None, sk, p, w_out w)
                  else
                    '(e, st) ← nl_recvmsgs user probe_user_err recvmsg recv_ow rfuel mem page_size
                                 recvmsgs_ow fuel (pm_rcv1 pm) (pm_rcv2 pm) sk cb w;
                    ret ← w_lib (r_w st);
                    if e <? 0 then mret (None, r_sk st, p, w_out (r_w st))
                    else
                      '(e, sk, w) ← wait_for_ack user probe_user_err recvmsg recv_ow rfuel mem page_size
                                      recvmsgs_ow fuel (pm_ack pm) (pm_rcv1 pm) (pm_rcv2 pm)
                                      (r_sk st) (r_w st);
                      if e <? 0 then mret (None, sk, p, w_out w)
                      else
                        ret ← w_lib w;
                        mret (if negb (genl_family_get_id ret =? 0) then Some ret else None, sk, p,
                              w_out w)
        end
    end.

Definition genl_ctrl_resolve (p : port_map) (sk : nl_sock) (name : list Z) (getpid time : Z) (v : V)
    : exec (Z * nl_sock * port_map * V) :=
  '(family, sk, p, v) ← genl_ctrl_probe_by_name p sk name getpid time v;
  match family with
  | None => mret (- NLE_OBJ_NOTFOUND, sk, p, v)
  | Some f => mret (genl_family_get_id f, sk, p, v)
  end.

Fixpoint grp_by_name (grps : list (Z * list Z)) (grp_name : list Z) : Z :=
  match grps with
  | [] => - NLE_OBJ_NOTFOUND
  | grp :: grps => if bool_decide (grp.2 = grp_name) then s32 grp.1 else grp_by_name grps grp_name
  end.
Definition genl_ctrl_grp_by_name (f : family) (grp_name : list Z) : Z :=
  grp_by_name (gf_mc_grps (ce_data f)) grp_name.

Definition genl_ctrl_resolve_grp (p : port_map) (sk : nl_sock) (family_name grp_name : list Z)
    (getpid time : Z) (v : V) : exec (Z * nl_sock * port_map * V) :=
  '(family, sk, p, v) ← genl_ctrl_probe_by_name p sk family_name getpid time v;
  match family with
  | None => mret (- NLE_OBJ_NOTFOUND, sk, p, v)
  | Some f => mret (genl_ctrl_grp_by_name f grp_name, sk, p, v)
  end.
End Probe.
End Ctrl.

(** ** Resolving the numbers of registered families (lib/genl/mngt.c) *)

Section Resolve.
Context {V : Type}.
Abbreviation W := (world gstate V).
Variable ctrl_type : Z.

(** The number of a cache type's first message type. *)
Definition set_msgtype0 (m : mngt) (a id : Z) : exec mngt :=
  t ← get_type m a;
  let o := ct_ops t in
  match co_msgtypes o with
  | [] => Fault
  | mt :: l =>
      mret (set_type m a (with_ct_ops t
        {| co_name := co_name o; co_hdrsize := co_hdrsize o; co_protocol := co_protocol o;
           co_hash_size := co_hash_size o; co_flags := co_flags o; co_groups := co_groups o;
           co_obj_ops := co_obj_ops o;
           co_msgtypes := {| mt_id := id; mt_act := mt_act mt; mt_name := mt_name mt |} :: l |}))
  end.

(** The state: the registries of families and of cache types, and the heap. *)
Definition rstate3 : Type := genl_state gstate * mngt * heap genl_family.

Definition __genl_ops_resolve (ctrl a : Z) (s : rstate3) : exec (Z * rstate3) :=
  let '(g, m, h) := s in
  ops ← get_fam g a;
  match o_name ops with
  | None => Fault
  | Some name =>
      '(family, h) ← genl_ctrl_search_by_name ctrl_type h ctrl name;
      match family with
      | None => mret (- NLE_OBJ_NOTFOUND, (g, m, h))
      | Some o =>
          fam ← get_obj h o;
          let id := genl_family_get_id (ce_body fam) in
          let g := set_fam g a (with_o_id ops id) in
          m ← (if negb (o_cache_ops ops =? 0) then set_msgtype0 m (o_cache_ops ops) id else mret m);
          h ← genl_family_put h o;
          mret (0, (g, m, h))
      end
  end.

(** The loop over all families; the result is that of the last one. *)
Definition resolve_all (ctrl : Z) (s : rstate3) : exec (Z * rstate3) :=
  r ← nl_list_for_each_entry (fun s : Z * rstate3 => g_links s.2.1.1)
        (fun a s => r ← __genl_ops_resolve ctrl a s.2; mret (inr r : unit + _))
        (S (size (g_links s.1.1))) genl_ops_list (0, s);
  match r with inl _ => Fault | inr r => mret r end.

Variable app : Z -> Z -> Z -> nl_msg -> V -> Z * V.
Variable app_err : Z -> Z -> sockaddr_nl -> list Z -> V -> Z * V.
Variable sendmsg : sockaddr_nl -> option ucred -> list Z -> W -> (Z + Z) * W.
Variable send_ow : Z -> nl_sock -> nl_msg -> W -> exec (Z * nl_sock * nl_msg * W).
Variable recvmsg : Z -> Z -> Z -> W -> (Z + rcv) * W.
Variable recv_ow : Z -> nl_sock -> W -> exec (recv_out * W).
Variable recvmsgs_ow : Z -> nl_sock -> nl_cb -> W -> exec (Z * rstate (W := W)).
Variable rfuel : nat.
Variable mem : recv_mem.
Variable page_size default_msg_size getpid time : Z.
Variable fuel tries : nat.

(** Which allocations succeed: the cache (three), the callback set, the received
    messages, added objects, the request (two), the parser's table, family and
    entries. *)
Record fill_mem := {
  fm_a1 : bool; fm_a2 : bool; fm_a3 : bool; fm_cb : bool; fm_rcv : bool; fm_add : bool;
  fm_req1 : bool; fm_req2 : bool; fm_tb : bool; fm_family : bool; fm_entry : bool
}.
Variable fm : fill_mem.

Definition ctrl_user : Z -> Z -> Z -> nl_msg -> W -> Z * W :=
  lib_user (fun _ s => mret (NL_OK, s)) app.

Definition genl_ctrl_alloc_cache (sk : option nl_sock) (p : port_map) (w : W) :=
  nl_cache_alloc_and_fill genl_ops_at (fun _ => genl_ctrl_ops) family_0 app app_err recvmsg recv_ow
    recvmsgs_ow rfuel mem page_size fuel (fm_rcv fm) (fm_add fm)
    (fun _ => Some (ctrl_request_update ctrl_user sendmsg send_ow (fm_req1 fm) (fm_req2 fm)
                      default_msg_size getpid time))
    (fun _ => ctrl_parser ctrl_type (fm_tb fm) (fm_family fm) (fm_entry fm))
    tries (fm_a1 fm) (fm_a2 fm) (fm_a3 fm) (fm_cb fm) ctrl_type sk p w.

(** Fills a cache with the kernel's families, runs [f] on it and frees it. *)
Definition with_ctrl_cache (f : Z -> rstate3 -> exec (Z * rstate3)) (g : genl_state gstate) (m : mngt)
    (p : port_map) (sk : nl_sock) (w : W)
    : exec (Z * genl_state gstate * mngt * nl_sock * port_map * W) :=
  '(e, ctrl, sk', p, w) ← genl_ctrl_alloc_cache (Some sk) p w;
  let sk := default sk sk' in
  match ctrl with
  | None => mret (e, g, m, sk, p, w)
  | Some ctrl =>
      s ← w_lib w;
      '(e, (g, m, h)) ← f ctrl (g, m, s.2);
      h ← nl_cache_free genl_ops_at h (Some ctrl);
      mret (e, g, m, sk, p, World (Done (s.1, h)) (w_out w))
  end.

Definition genl_ops_resolve g m p sk (a : Z) (w : W) :=
  with_ctrl_cache (fun ctrl => __genl_ops_resolve ctrl a) g m p sk w.
Definition genl_mngt_resolve g m p sk (w : W) := with_ctrl_cache resolve_all g m p sk w.

Definition genl_resolve_id (c1 c2 : bool) (default_cb stime : Z) (sys : connect_sys) g m
    (p : port_map) (a : Z) (w : W) : exec (Z * genl_state gstate * mngt * port_map * W) :=
  ops ← get_fam g a;
  if negb (o_id ops =? 0) then mret (0, g, m, p, w)
  else match o_name ops with
  | None => mret (- NLE_INVAL, g, m, p, w)
  | Some _ =>
      sk ← nl_socket_alloc c1 c2 default_cb stime;
      match sk with
      | None => mret (- NLE_NOMEM, g, m, p, w)
      | Some sk =>
          '(e, sk, p) ← genl_connect p sk sys;
          '(e, g, m, sk, p, w) ← (if e <? 0 then mret (e, g, m, sk, p, w)
                                  else genl_ops_resolve g m p sk a w);
          '(_, _, p) ← nl_socket_free p (Some sk);
          mret (e, g, m, p, w)
      end
  end.
End Resolve.

(** ** The lists of a family (lib/genl/family.c)

    The list heads and entries at their addresses, the values of the entries, and
    how many more callocs succeed. *)

Module Lists.
Record store := {
  st_links : gmap Z (Z * Z);
  st_ops : gmap Z (Z * Z);
  st_next : Z;
  st_mem : nat
}.

Definition genl_family_add_op (s : store) (head : Z) (id flags : Z) : exec (Z * store) :=
  match st_mem s with
  | O => mret (- NLE_NOMEM, s)
  | S mem =>
      let op := st_next s in
      links ← nl_list_add_tail (<[op := (0, 0)]> (st_links s)) op head;
      mret (0, {| st_links := links; st_ops := <[op := (id, flags)]> (st_ops s);
                  st_next := op + 1; st_mem := mem |})
  end.

(** The first loop of [family_clone]; the bytes of the original, its list head
    [src] with them, have just been copied to [dst]. *)
Definition copy_head (s : store) (dst src : Z) : exec store :=
  match st_links s !! src with
  | Some v => mret {| st_links := <[dst := v]> (st_links s); st_ops := st_ops s;
                      st_next := st_next s; st_mem := st_mem s |}
  | None => Fault
  end.
Definition clone_body (dst : Z) (op : Z) (s : store) : exec (Z * store + store) :=
  match st_ops s !! op with
  | None => Fault
  | Some v =>
      '(e, s) ← genl_family_add_op s dst v.1 v.2;
      mret (if e <? 0 then inl (e, s) else inr s)
  end.
Definition family_clone_ops (fuel : nat) (s : store) (dst src : Z) : exec (Z * store) :=
  r ← nl_list_for_each_entry st_links (clone_body dst) fuel src s;
  mret (match r with inl x => x | inr s => (0, s) end).

(** The first loop of [family_free_data]; [free] of an address that is no entry
    is an error. *)
Definition free_body (op : Z) (s : store) : exec (unit + store) :=
  links ← nl_list_del (st_links s) op;
  match st_ops s !! op with
  | None => Fault
  | Some _ => mret (inr {| st_links := delete op links; st_ops := delete op (st_ops s);
                           st_next := st_next s; st_mem := st_mem s |})
  end.
Definition family_free_ops (fuel : nat) (s : store) (head : Z) : exec store :=
  r ← nl_list_for_each_entry_safe st_links free_body fuel head s;
  match r with inl _ => Fault | inr s => mret s end.
End Lists.

(** ** What the controller's messages say *)

(** A family as the kernel announces it: an operation is a number and perhaps its
    flags, a group a name and a number; both come with the type of the attribute
    they are in. *)
Record announce := {
  an_id : Z;
  an_name : list Z;
  an_version : option Z;
  an_hdrsize : option Z;
  an_maxattr : option Z;
  an_ops : option (list (Z * (Z * option Z)));
  an_grps : option (list (Z * (list Z * Z)))
}.

Definition op_attr (x : Z * (Z * option Z)) : Z * list Z :=
  (x.1, attrs_bytes (enc [(CTRL_ATTR_OP_ID, Some (le_encode 4 x.2.1)); (CTRL_ATTR_OP_FLAGS, le_encode 4 <$> x.2.2)])).
Definition grp_attr (x : Z * (list Z * Z)) : Z * list Z :=
  (x.1, attrs_bytes (enc [(CTRL_ATTR_MCAST_GRP_NAME, Some (x.2.1 ++ [0]));
                          (CTRL_ATTR_MCAST_GRP_ID, Some (le_encode 4 x.2.2))])).
Definition ann_fields (a : announce) : list (Z * option (list Z)) :=
  [(CTRL_ATTR_FAMILY_ID, Some (le_encode 2 (an_id a))); (CTRL_ATTR_FAMILY_NAME, Some (an_name a ++ [0]));
   (CTRL_ATTR_VERSION, le_encode 4 <$> an_version a); (CTRL_ATTR_HDRSIZE, le_encode 4 <$> an_hdrsize a);
   (CTRL_ATTR_MAXATTR, le_encode 4 <$> an_maxattr a);
   (CTRL_ATTR_OPS, (attrs_bytes ∘ map op_attr) <$> an_ops a);
   (CTRL_ATTR_MCAST_GROUPS, (attrs_bytes ∘ map grp_attr) <$> an_grps a)].

Definition name_ok (s : list Z) : Prop := Forall (fun c => 0 < c < 256) s /\ zlen s < GENL_NAMSIZ.
Definition ann_ok (a : announce) : Prop :=
  name_ok (an_name a) /\
  from_option (fun l => Forall (fun x => 0 <= x.1 < 16384) l /\ zlen (attrs_bytes (map op_attr l)) <= 65531) True
    (an_ops a) /\
  from_option (fun l => Forall (fun x => 0 <= x.1 < 16384 /\ name_ok x.2.1) l /\
                        zlen (attrs_bytes (map grp_attr l)) <= 65531) True (an_grps a).

(** The family object it stands for. *)
Definition scalar_mask (a : announce) : Z :=
  let bit m b := if b : bool then m else 0 in
  Z.lor (Z.lor (Z.lor (Z.lor FAMILY_ATTR_ID FAMILY_ATTR_NAME)
    (bit FAMILY_ATTR_VERSION (is_some (an_version a)))) (bit FAMILY_ATTR_HDRSIZE (is_some (an_hdrsize a))))
    (bit FAMILY_ATTR_MAXATTR (is_some (an_maxattr a))).
Definition family_mask (a : announce) : Z :=
  if default [] (an_ops a) is [] then scalar_mask a else set_flag (scalar_mask a) FAMILY_ATTR_OPS.
Definition family_of (a : announce) : family :=
  Body (family_mask a)
    {| gf_id := u16 (an_id a); gf_name := an_name a; gf_version := from_option u8 0 (an_version a);
       gf_hdrsize := from_option u32 0 (an_hdrsize a); gf_maxattr := from_option u32 0 (an_maxattr a);
       gf_ops := map (fun x => (u32 x.2.1, from_option u32 0 x.2.2)) (default [] (an_ops a));
       gf_mc_grps := map (fun x => (u32 x.2.2, x.2.1)) (default [] (an_grps a)) |}.

Lemma name_bytes s : name_ok s -> bytes_ok (s ++ [0]) /\ Forall (fun c => c <> 0) s.
Proof.
  intros [Hs _]. split; [apply bytes_ok_app; split|]; [|by repeat constructor|];
    (eapply Forall_impl; [exact Hs|]; intros; simpl in *; lia).
Qed.

Lemma u32_u32 z : u32 (u32 z) = u32 z.
Proof. unfold u32. by rewrite Zmod_mod. Qed.

Lemma op_fields_ok x :
  0 <= x.1 < 16384 ->
  carries (op_attr x).2 0 (zlen (op_attr x).2)
    (enc [(CTRL_ATTR_OP_ID, Some (le_encode 4 x.2.1)); (CTRL_ATTR_OP_FLAGS, le_encode 4 <$> x.2.2)]).
Proof.
  intros _. apply carries_attrs, fields_fit. repeat (apply Forall_cons_2; [split; [done|]|]); [| |constructor].
  - by split; [apply bytes_ok_le_encode|].
  - destruct x.2.2; simpl; [by split; [apply (bytes_ok_le_encode 4)|]|done].
Qed.

Lemma op_body_done b f nla x :
  0 <= x.1 < 16384 -> attr_at b nla (op_attr x).2 ->
  op_body true b f nla = Done (inl (genl_family_add_op true f x.2.1 (default 0 x.2.2)).2).
Proof.
  intros Hx Ha. unfold op_body.
  destruct (nested_parse b nla (op_attr x).2 (enc [(CTRL_ATTR_OP_ID, Some (le_encode 4 x.2.1));
     (CTRL_ATTR_OP_FLAGS, le_encode 4 <$> x.2.2)]) CTRL_ATTR_OP_MAX (Some family_op_policy)) as (tb & -> & Htb);
    [done|by apply op_fields_ok|split; [done|by repeat constructor]| |].
  { unfold enc. simpl. repeat constructor; [intros _; exists (pol NLA_U32 0); by split_and!|].
    destruct x.2.2; simpl; repeat constructor. intros _. exists (pol NLA_U32 0). by split_and!. }
  exec_simpl. destruct (table_some _ _ _ _ CTRL_ATTR_OP_ID (le_encode 4 x.2.1) Htb) as (i & -> & Hi);
    [done|by rewrite attr_of_enc by (repeat constructor; set_solver)|].
  exec_simpl. rewrite (attr_at_u32 _ _ _ Hi). exec_simpl.
  rewrite (table_if _ _ _ _ CTRL_ATTR_OP_FLAGS _ (fun d _ => s32 (le_decode d)) 0 Htb); [|done|].
  - rewrite attr_of_enc by (repeat constructor; set_solver). simpl.
    unfold genl_family_add_op. simpl. exec_simpl. change (0 <? 0) with false. cbv iota.
    rewrite u32_s32, u32_u32. do 4 f_equal. destruct x.2.2 as [fl|]; [|done]. cbn [fmap option_fmap option_map default].
    rewrite u32_s32, le_decode_encode. change (256 ^ Z.of_nat 4) with (2 ^ 32). fold (u32 fl). by rewrite u32_u32.
  - intros j d Hd Hj. rewrite attr_of_enc in Hd by (repeat constructor; set_solver). simpl in Hd.
    destruct x.2.2 as [fl|]; [|done]. injection Hd as <-. rewrite (attr_at_u32 _ _ _ Hj). simpl fmap.
    by rewrite le_decode_encode.
Qed.

Lemma grp_body_done b f nla x :
  0 <= x.1 < 16384 -> name_ok x.2.1 -> attr_at b nla (grp_attr x).2 ->
  grp_body true b f nla = Done (inl (genl_family_add_grp true f x.2.2 (Some x.2.1)).2).
Proof.
  intros Hx Hn Ha. destruct (name_bytes _ Hn) as [Hnb Hnz]. pose proof Hn as [_ Hlen]. unfold grp_body.
  pose proof (zlen_nonneg x.2.1). change GENL_NAMSIZ with 16 in Hlen.
  destruct (nested_parse b nla (grp_attr x).2 (enc [(CTRL_ATTR_MCAST_GRP_NAME, Some (x.2.1 ++ [0]));
     (CTRL_ATTR_MCAST_GRP_ID, Some (le_encode 4 x.2.2))]) CTRL_ATTR_MCAST_GRP_MAX (Some family_grp_policy))
    as (tb & -> & Htb); [done| |split; [done|by repeat constructor]| |].
  { apply carries_attrs, fields_fit. repeat (apply Forall_cons_2; [split; [done|]|]); [| |constructor].
    - split; [done|]. rewrite zlen_app. change (zlen [0]) with 1. lia.
    - by split; [apply bytes_ok_le_encode|]. }
  { unfold enc. simpl. repeat constructor; intros _.
    - exists (pol NLA_STRING 0). split; [done|]. split_and!; [|done|intros _; cbn [snd]; by rewrite last_snoc].
      cbn [snd]. rewrite zlen_app. change (zlen [0]) with 1. change (policy_min (pol NLA_STRING 0)) with 1. lia.
    - exists (pol NLA_U32 0). by split_and!. }
  exec_simpl. destruct (table_some _ _ _ _ CTRL_ATTR_MCAST_GRP_ID (le_encode 4 x.2.2) Htb) as (i & -> & Hi);
    [done|by rewrite attr_of_enc by (repeat constructor; set_solver)|].
  exec_simpl. rewrite (attr_at_u32 _ _ _ Hi). exec_simpl.
  destruct (table_some _ _ _ _ CTRL_ATTR_MCAST_GRP_NAME (x.2.1 ++ [0]) Htb) as (j & -> & Hj);
    [done|by rewrite attr_of_enc by (repeat constructor; set_solver)|].
  exec_simpl. unfold get_str. rewrite (attr_at_string _ _ _ Hj Hnz). exec_simpl.
  unfold genl_family_add_grp. change GENL_NAMSIZ with 16. rewrite (proj2 (Z.leb_gt 16 _)) by done. simpl.
  exec_simpl. by rewrite u32_s32, u32_u32.
Qed.

(** Adding the operations, and the groups, of a list one after the other. *)
Lemma add_ops_fold l : forall f : family,
  fold_left (fun f x => (genl_family_add_op true f x.2.1 (default 0 x.2.2)).2) l f =
  Body (if l is [] then ce_mask f else set_flag (ce_mask f) FAMILY_ATTR_OPS)
    (let d := ce_data f in
     d <| gf_ops := gf_ops d ++ map (fun x : Z * (Z * option Z) => (u32 x.2.1, from_option u32 0 x.2.2)) l |>).
Proof.
  induction l as [|x l IH]; intros f; simpl.
  - rewrite app_nil_r. by destruct f as [m []].
  - rewrite IH. unfold set_attr. cbn [ce_mask ce_data gf_ops]. f_equal.
    + unfold set_flag. destruct l; [done|]. by rewrite <- Z.lor_assoc, Z.lor_diag.
    + simpl. rewrite <- app_assoc. simpl. do 4 f_equal. destruct x.2.2; [done|]. done.
Qed.

Lemma add_grps_fold l : forall f : family,
  Forall (fun x : Z * (list Z * Z) => name_ok x.2.1) l ->
  fold_left (fun f x => (genl_family_add_grp true f x.2.2 (Some x.2.1)).2) l f =
  Body (ce_mask f)
    (let d := ce_data f in
     d <| gf_mc_grps := gf_mc_grps d ++ map (fun x : Z * (list Z * Z) => (u32 x.2.2, x.2.1)) l |>).
Proof.
  induction l as [|x l IH]; intros f Hl; simpl.
  - rewrite app_nil_r. by destruct f as [m []].
  - apply Forall_cons in Hl as [[_ Hx] Hl]. rewrite IH by done. unfold genl_family_add_grp.
    rewrite (proj2 (Z.leb_gt _ _)) by done. simpl. by rewrite <- app_assoc.
Qed.

(** The setters of the fields that may be missing. *)
Definition set_version (d : list Z) (f : family) : family := genl_family_set_version f (le_decode d).
Definition set_hdrsize (d : list Z) (f : family) : family := genl_family_set_hdrsize f (le_decode d).
Definition set_maxattr (d : list Z) (f : family) : family := genl_family_set_maxattr f (le_decode d).

Lemma u32_attr (a : option Z) d b nla : le_encode 4 <$> a = Some d -> attr_at b nla d ->
  nla_get_u32 b nla = Done (le_decode d).
Proof.
  destruct a as [v|]; [|done]. intros [= <-] Ha. rewrite (attr_at_u32 _ _ _ Ha). by rewrite le_decode_encode.
Qed.

Lemma ann_types a : NoDup (map fst (ann_fields a)).
Proof. by apply (bool_decide_unpack _). Qed.

Lemma op_attr_fits x : 0 <= x.1 < 16384 -> attr_fits (op_attr x).
Proof.
  intros Hx. destruct (op_fields_ok x Hx) as (Hb & _). split; [done|]. split; [done|].
  unfold op_attr. cbn [snd]. rewrite zlen_attrs_bytes. unfold enc. simpl.
  destruct x.2.2; simpl; unfold attr_room; cbn [snd]; rewrite ?zlen_le_encode; by vm_compute.
Qed.

Lemma grp_attr_fits x : 0 <= x.1 < 16384 -> name_ok x.2.1 -> attr_fits (grp_attr x).
Proof.
  intros Hx Hn. destruct (name_bytes _ Hn) as [Hnb _]. destruct Hn as [_ Hl]. change GENL_NAMSIZ with 16 in Hl.
  pose proof (zlen_nonneg x.2.1). pose proof (align4_bounds (4 + (zlen x.2.1 + 1))).
  split; [done|]. unfold grp_attr. cbn [snd]. split.
  - apply bytes_ok_attrs, fields_fit. repeat (apply Forall_cons_2; [split; [done|]|]); [| |constructor].
    + split; [done|]. rewrite zlen_app. change (zlen [0]) with 1. lia.
    + by split; [apply bytes_ok_le_encode|].
  - rewrite zlen_attrs_bytes. unfold enc. simpl. unfold attr_room. cbn [snd].
    rewrite zlen_app, zlen_le_encode. change (zlen [0]) with 1. change (align4 (4 + Z.of_nat 4)) with 8. lia.
Qed.

Lemma ops_loop b f nla l :
  Forall (fun x => 0 <= x.1 < 16384) l -> attr_at b nla (attrs_bytes (map op_attr l)) ->
  nla_for_each_nested b (op_body true b) nla f =
  Done (inl (fold_left (fun f x => (genl_family_add_op true f x.2.1 (default 0 x.2.2)).2) l f)).
Proof.
  intros Hl Ha. rewrite Forall_forall in Hl.
  apply (nested_loop b nla (attrs_bytes (map op_attr l)) l op_attr); [done| |].
  - apply carries_attrs. rewrite Forall_map, Forall_forall. intros x Hx. by apply op_attr_fits, Hl.
  - intros s x i Hx Hi. apply op_body_done; [by apply Hl|done].
Qed.

Lemma grps_loop b f nla l :
  Forall (fun x => 0 <= x.1 < 16384 /\ name_ok x.2.1) l -> attr_at b nla (attrs_bytes (map grp_attr l)) ->
  nla_for_each_nested b (grp_body true b) nla f =
  Done (inl (fold_left (fun f x => (genl_family_add_grp true f x.2.2 (Some x.2.1)).2) l f)).
Proof.
  intros Hl Ha. rewrite Forall_forall in Hl.
  apply (nested_loop b nla (attrs_bytes (map grp_attr l)) l grp_attr); [done| |].
  - apply carries_attrs. rewrite Forall_map, Forall_forall. intros x Hx.
    by apply grp_attr_fits; apply Hl.
  - intros s x i Hx Hi. by apply grp_body_done; [apply Hl..|].
Qed.

(** The family before its operations and groups are added. *)
Lemma scalars_done a :
  name_ok (an_name a) ->
  let set (f : list Z -> family -> family) (t : Z) fam :=
    match field (ann_fields a) t with Some d => f d fam | None => fam end in
  let f := set set_maxattr CTRL_ATTR_MAXATTR (set set_hdrsize CTRL_ATTR_HDRSIZE (set set_version CTRL_ATTR_VERSION
    (genl_family_set_name (genl_family_set_id (Body 0 (family_constructor family_0)) (u16 (an_id a))) (an_name a)))) in
  f = Body (scalar_mask a)
        (let d := ce_data (family_of a) in
         d <| gf_ops := @nil (Z * Z) |> <| gf_mc_grps := @nil (Z * list Z) |>).
Proof.
  intros [_ Hl]. change GENL_NAMSIZ with 16 in Hl.
  assert (take (Z.to_nat (GENL_NAMSIZ - 1)) (an_name a) = an_name a) as Ht.
  { apply take_ge. unfold zlen in Hl. change (Z.to_nat (GENL_NAMSIZ - 1)) with 15%nat. lia. }
  assert (forall z, u16 (u16 z) = u16 z) as H16 by (intros; unfold u16; apply Zmod_mod).
  assert (forall z, u8 (z mod 256 ^ Z.of_nat 4) = u8 z) as H8.
  { intros z. unfold u8. change (256 ^ Z.of_nat 4) with 4294967296. zdiv_lia. }
  assert (forall z, u32 (z mod 256 ^ Z.of_nat 4) = u32 z) as H32 by (intros z; apply (u32_u32 z)).
  cbv zeta. unfold genl_family_set_name. rewrite Ht.
  change (field (ann_fields a) CTRL_ATTR_MAXATTR) with (le_encode 4 <$> an_maxattr a).
  change (field (ann_fields a) CTRL_ATTR_HDRSIZE) with (le_encode 4 <$> an_hdrsize a).
  change (field (ann_fields a) CTRL_ATTR_VERSION) with (le_encode 4 <$> an_version a).
  unfold family_of, scalar_mask. cbn [ce_data gf_id gf_name gf_version gf_hdrsize gf_maxattr].
  unfold set_version, set_hdrsize, set_maxattr, genl_family_set_version, genl_family_set_hdrsize,
    genl_family_set_maxattr, set_attr.
  destruct (an_version a), (an_hdrsize a), (an_maxattr a);
    cbn [fmap option_fmap option_map ce_data ce_mask from_option]; rewrite ?le_decode_encode, ?H8, ?H32;
    simpl; by rewrite ?H8, ?H32, ?H16.
Qed.

Lemma option_pair {A B : Type} (o : option (list A)) (F : list A -> list Z) (step : B -> A -> B) b d :
  d = F <$> o ->
  match d with Some _ => (0, fold_left step (default [] o) b) | None => (0, b) end =
  (0, fold_left step (default [] o) b).
Proof. intros ->. by destruct o. Qed.

Lemma ctrl_decode_done b tb a :
  table b (enc (ann_fields a)) CTRL_ATTR_MAX tb -> ann_ok a ->
  ctrl_decode true b tb = Done (inr (family_of a)).
Proof.
  intros Htb (Hn & Hops & Hgrps). destruct (name_bytes _ Hn) as [_ Hnz].
  assert (forall t, attr_of (enc (ann_fields a)) t = field (ann_fields a) t) as Hof.
  { intros t. apply attr_of_enc, ann_types. }
  unfold ctrl_decode.
  destruct (table_some _ _ _ _ CTRL_ATTR_FAMILY_NAME (an_name a ++ [0]) Htb) as (i & -> & Hi); [done|by rewrite Hof|].
  exec_simpl.
  destruct (table_some _ _ _ _ CTRL_ATTR_FAMILY_ID (le_encode 2 (an_id a)) Htb) as (j & -> & Hj); [done|by rewrite Hof|].
  exec_simpl. rewrite (attr_at_u16 _ _ _ Hj). exec_simpl. unfold get_str.
  rewrite (attr_at_string _ _ _ Hi Hnz). exec_simpl.
  rewrite (table_if _ _ _ _ CTRL_ATTR_VERSION _ set_version _ Htb); [|done|].
  2: { intros nla d Hd Ha. rewrite Hof in Hd. by rewrite (u32_attr _ _ _ _ Hd Ha). }
  exec_simpl. rewrite (table_if _ _ _ _ CTRL_ATTR_HDRSIZE _ set_hdrsize _ Htb); [|done|].
  2: { intros nla d Hd Ha. rewrite Hof in Hd. by rewrite (u32_attr _ _ _ _ Hd Ha). }
  exec_simpl. rewrite (table_if _ _ _ _ CTRL_ATTR_MAXATTR _ set_maxattr _ Htb); [|done|].
  2: { intros nla d Hd Ha. rewrite Hof in Hd. by rewrite (u32_attr _ _ _ _ Hd Ha). }
  exec_simpl. rewrite !Hof.
  pose proof (scalars_done a Hn) as Hs. cbv zeta in Hs. rewrite Hs.
  set (f := Body _ _).
  rewrite (table_if _ _ _ _ CTRL_ATTR_OPS _ (fun _ r => (0, fold_left (fun f x =>
    (genl_family_add_op true f x.2.1 (default 0 x.2.2)).2) (default [] (an_ops a)) r.2)) _ Htb); [|done|].
  2: { intros nla d Hd Ha. rewrite Hof in Hd. simpl in Hd. destruct (an_ops a) as [l|]; [|done].
       injection Hd as <-. destruct Hops as [Hl _]. by rewrite (ops_loop _ _ _ l). }
  exec_simpl. rewrite Hof.
  rewrite (option_pair (an_ops a) (attrs_bytes ∘ map op_attr)) by done. change (0 <? 0) with false. cbv iota.
  rewrite (table_if _ _ _ _ CTRL_ATTR_MCAST_GROUPS _ (fun _ r => (0, fold_left (fun f x =>
    (genl_family_add_grp true f x.2.2 (Some x.2.1)).2) (default [] (an_grps a)) r.2)) _ Htb); [|done|].
  2: { intros nla d Hd Ha. rewrite Hof in Hd. simpl in Hd. destruct (an_grps a) as [l|]; [|done].
       injection Hd as <-. unfold parse_mcast_grps. destruct Hgrps as [Hl _]. by rewrite (grps_loop _ _ _ l). }
  exec_simpl. rewrite Hof. rewrite (option_pair (an_grps a) (attrs_bytes ∘ map grp_attr)) by done. change (0 <? 0) with false. cbv iota.
  rewrite add_ops_fold, add_grps_fold by (destruct (an_grps a); [apply (Forall_impl _ _ _ (proj1 Hgrps)); naive_solver|done]).
  done.
Qed.

(** ** The controller among the kinds of caches *)

#[export] Instance genl_env : Env genl_family :=
  {| ops_at := genl_ops_at; cops_at := fun _ => genl_ctrl_ops |}.
#[export] Instance genl_env_ok : EnvOk genl_env.
Proof.
  split; [|by intros].
  intros p _. split; try done.
Qed.

(** The message that announces a family. *)
Definition announces (m : wire_msg) (version : Z) (a : announce) : Prop :=
  wm_ok m /\ wm_type m = GENL_ID_CTRL /\
  wm_payload m = genlmsghdr CTRL_CMD_NEWFAMILY version ++ attrs_bytes (enc (ann_fields a)).

Lemma ann_fits a : ann_ok a -> Forall attr_fits (enc (ann_fields a)).
Proof.
  intros (Hn & Hops & Hgrps). destruct (name_bytes _ Hn) as [Hnb _]. destruct Hn as [_ Hl].
  change GENL_NAMSIZ with 16 in Hl. pose proof (zlen_nonneg (an_name a)).
  assert (forall o, from_option (fun d => bytes_ok d /\ zlen d <= 65531) True (le_encode 4 <$> o)) as H4.
  { intros [v|]; [|done]. by split; [apply (bytes_ok_le_encode 4)|]. }
  apply fields_fit. repeat (apply Forall_cons_2; [split; [done|cbn [snd]]|]); try apply H4; try constructor.
  - by apply bytes_ok_le_encode.
  - by rewrite zlen_le_encode.
  - done.
  - rewrite zlen_app. change (zlen [0]) with 1. lia.
  - destruct (an_ops a) as [l|]; [|done]. destruct Hops as [Hl' Hz]. split; [|done].
    apply bytes_ok_attrs. rewrite Forall_map. eapply Forall_impl; [exact Hl'|]. intros x. apply op_attr_fits.
  - destruct (an_grps a) as [l|]; [|done]. destruct Hgrps as [Hl' Hz]. split; [|done].
    apply bytes_ok_attrs. rewrite Forall_map. eapply Forall_impl; [exact Hl'|].
    intros x [Hx Hnx]. by apply grp_attr_fits.
Qed.

Lemma ann_complies a :
  ann_ok a -> Forall (content_ok CTRL_ATTR_MAX (Some ctrl_policy)) (enc (ann_fields a)).
Proof.
  intros (Hn & _). destruct Hn as [_ Hl]. change GENL_NAMSIZ with 16 in Hl. pose proof (zlen_nonneg (an_name a)).
  assert (forall t o, ctrl_policy !! Z.to_nat t = Some (pol NLA_U32 0) ->
    from_option (fun d => content_ok CTRL_ATTR_MAX (Some ctrl_policy) (t, d)) True (le_encode 4 <$> o)) as H4.
  { intros t [v|] Ht; [|done]. intros _. exists (pol NLA_U32 0). by split_and!. }
  assert (forall t o, ctrl_policy !! Z.to_nat t = Some (pol NLA_NESTED 0) ->
    from_option (fun d => content_ok CTRL_ATTR_MAX (Some ctrl_policy) (t, d)) True o) as Hnest.
  { intros t [v|] Ht; [|done]. intros _. exists (pol NLA_NESTED 0). split; [done|].
    split_and!; [apply zlen_nonneg|done..]. }
  apply Forall_enc. repeat (apply Forall_cons_2); try (by apply H4) || (by apply Hnest); [| |constructor].
  - intros _. exists (pol NLA_U16 0). by split_and!.
  - intros _. exists (pol NLA_STRING GENL_NAMSIZ). split; [done|].
    cbn [snd]. split_and!; [|intros _|intros _; by rewrite last_snoc];
      rewrite zlen_app; change (zlen [0]) with 1; [change (policy_min _) with 1; lia|].
    change (pol_maxlen _) with 16. lia.
Qed.

(** C12. The cache of families takes a message of the kernel that announces a
    family, and the object its parser makes of it is that family: number, name,
    the version, header size and number of attributes that are given, and all
    operations and groups in the order of the message. *)
Theorem ctrl_accepts_announce ctrl_type m version a :
  announces m version a -> ann_ok a ->
  accepts family_0 (ctrl_parser ctrl_type true true true) genl_ctrl_ops (wm_bytes m) (family_of a).
Proof.
  intros (Hm & Hty & Hp) Ha. pose proof (wm_len_bounds m Hm). pose proof (align4_bounds (wm_len m)).
  pose proof (zlen_wm_bytes m Hm) as Hz. pose proof (zlen_nonneg (attrs_bytes (enc (ann_fields a)))).
  assert (wm_len m = 20 + zlen (attrs_bytes (enc (ann_fields a)))) as Hlen.
  { unfold wm_len. rewrite Hp, zlen_app. change (zlen (genlmsghdr _ _)) with 4. lia. }
  destruct (wm_fields [] m [] Hm) as (Hl4 & Ht & _). rewrite app_nil_l, app_nil_r in Hl4, Ht.
  change (zlen []) with 0 in Hl4, Ht.
  split; [lia|]. split; [|split].
  - unfold nlmsg_valid_hdr, nlmsg_len. rewrite get_u32_done by lia. exec_simpl. rewrite Hl4.
    change (nlmsg_msg_size _) with 20. rewrite (proj2 (Z.ltb_ge _ _)); [done|]. change (u32 20) with 20. lia.
  - exists GENL_ID_CTRL. unfold nlmsg_type. rewrite get_u16_done by lia. rewrite Ht, Hty.
    by eexists.
  - intros who cb h. unfold ctrl_parser, cmd_msg_parser, ghdr_cmd. change (genlmsg_hdr 0) with 16.
    rewrite get_u8_done by lia. exec_simpl.
    assert (le_at 1 (wm_bytes m) 16 = CTRL_CMD_NEWFAMILY) as ->.
    { apply (sub_u8 _ _ CTRL_CMD_NEWFAMILY [u8 version; 0; 0]). exact (wm_header m (genlmsghdr CTRL_CMD_NEWFAMILY version) _ Hm Hp). }
    rewrite (lookup_cmd_done _ (genl_cmds true true cb)) by (by split). exec_simpl. cbn [negb].
    destruct (wm_parse m _ (enc (ann_fields a)) 4 CTRL_ATTR_MAX (Some ctrl_policy) Hm Hp) as (tb & Hparse & Htb);
      [done|done|by apply ann_fits|split; [done|by repeat constructor]|by apply ann_complies|].
    change (s32 (GENL_HDRSIZE _)) with 4. cbn [List.find genl_cmds c_id].
    change (CTRL_CMD_NEWFAMILY =? CTRL_CMD_NEWFAMILY) with true.
    cbn [c_maxattr c_attr_policy c_msg_parser orb _nl_malloc_maybe_a]. rewrite Hparse. exec_simpl.
    unfold _nl_malloc_maybe_a. rewrite orb_true_r. cbn [negb]. change (0 <? 0) with false. cbv iota.
    unfold ctrl_msg_parser. cbn [gi_who gi_nlh gi_attrs fst snd]. unfold object_parser.
    rewrite (ctrl_decode_done _ _ _ Htb Ha). change ops_at with genl_ops_at.
    change (co_obj_ops genl_ctrl_ops) with GENL_FAMILY_OPS.
    destruct (nl_object_alloc genl_ops_at true family_0 h GENL_FAMILY_OPS) as [[[o|] h1]| | |]; exec_simpl; try done.
    destruct (nlmsg_type (wm_bytes m) 0); exec_simpl; try done.
    destruct (get_obj h1 o); exec_simpl; try done.
    destruct (cb _ o) as [[[e ev] h2]| | |]; exec_simpl; try done.
    by destruct (nl_object_put genl_ops_at h2 (Some o)).
Qed.

Definition ex_announce : announce :=
  {| an_id := 27; an_name := str "nl80211"; an_version := Some 1; an_hdrsize := None; an_maxattr := Some 200;
     an_ops := Some [(1, (3, Some 10)); (2, (4, None))]; an_grps := Some [(1, (str "scan", 6))] |}.
Definition ex_announcement : wire_msg :=
  {| wm_type := GENL_ID_CTRL; wm_flags := 2; wm_seq := 7; wm_pid := 4242;
     wm_payload := genlmsghdr CTRL_CMD_NEWFAMILY 2 ++ attrs_bytes (enc (ann_fields ex_announce)) |}.

Lemma ctrl_accepts_announce_witness :
  accepts family_0 (ctrl_parser 3 true true true) genl_ctrl_ops (wm_bytes ex_announcement)
    (Body 55 {| gf_id := 27; gf_name := str "nl80211"; gf_version := 1; gf_hdrsize := 0; gf_maxattr := 200;
                gf_ops := [(3, 10); (4, 0)]; gf_mc_grps := [(6, str "scan")] |}).
Proof.
  refine (ctrl_accepts_announce 3 ex_announcement 2 ex_announce _ _).
  - split; [|done]. split_and!; try done. by apply bytes_ok_dec.
  - split; [split; [|done]|split]; [by apply (bool_decide_unpack _)| |]; split; try done;
      repeat constructor; done.
Defined.

(** ** Cloning a family

    The copy of a list head belongs to the list of the original: cloning a family
    that has an operation adds to the list it walks along until the memory is
    used up, and releasing the clone of a family without operations takes the
    original's list head for an entry. *)

Module CloneFindings.
Import Lists.

(** A family object with its list head at 1 and one operation at 10; the clone's
    list head is at 2. *)
Definition one_op (mem : nat) : store :=
  {| st_links := <[1 := (10, 10)]> (<[10 := (1, 1)]> (<[2 := (0, 0)]> ∅));
     st_ops := <[10 := (3, 0)]> ∅; st_next := 20; st_mem := mem |}.
Definition no_op : store :=
  {| st_links := <[1 := (1, 1)]> (<[2 := (0, 0)]> ∅); st_ops := ∅; st_next := 20; st_mem := 5 |}.

Lemma free_clone_of_empty :
  (s ← copy_head no_op 2 1; '(e, s) ← family_clone_ops 5 s 2 1; mret (e, st_links s !! 2)) =
    Done (0, Some (1, 1)) /\
  (s ← copy_head no_op 2 1; '(e, s) ← family_clone_ops 5 s 2 1; family_free_ops 5 s 2) = Fault.
Proof. by vm_compute. Qed.

(** The entry the loop is at is the last one of the clone's list, and has just
    been added. *)
Lemma clone_runs_on mem : forall s p v,
  st_mem s = mem -> 20 <= st_next s -> 2 < p < st_next s -> prv (st_links s) 2 = Some p ->
  is_Some (st_links s !! p) -> st_ops s !! p = Some v ->
  exists s', for_each_entry st_links (clone_body 2) (S mem) p 1 s = Done (inl (- NLE_NOMEM, s')).
Proof.
  assert (forall fuel s p, p <> 1 -> for_each_entry st_links (clone_body 2) (S fuel) p 1 s =
    (r ← clone_body 2 p s; match r with
     | inl r => mret (inl r)
     | inr s => n ← get_next (st_links s) p; for_each_entry st_links (clone_body 2) fuel n 1 s
     end)) as Hstep.
  { intros fuel s p Hp. cbn [for_each_entry]. by rewrite bool_decide_false. }
  induction mem as [|mem IH]; intros s p v Hmem Hnext Hp H2 [w Hw] Hv; rewrite Hstep by lia;
    unfold clone_body at 2; rewrite Hv; exec_simpl;
    unfold genl_family_add_op; rewrite Hmem; exec_simpl; [by eexists|].
  unfold prv in H2. destruct (st_links s !! 2) as [[a b]|] eqn:E2; [|done]. simpl in H2. simplify_eq.
  set (n := st_next s) in *. unfold nl_list_add_tail, get_prev, __nl_list_add, set_next, set_prev.
  rewrite lookup_insert_ne, E2 by lia. exec_simpl. cbn [snd].
  rewrite lookup_insert_ne, Hw by lia. exec_simpl.
  rewrite lookup_insert_ne, lookup_insert_eq by lia. exec_simpl.
  rewrite lookup_insert_ne, lookup_insert_ne, lookup_insert_ne, E2 by lia. exec_simpl.
  rewrite lookup_insert_ne, lookup_insert_eq by lia. exec_simpl. change (0 <? 0) with false. cbv iota. exec_simpl.
  unfold get_next. cbn [st_links]. rewrite !(lookup_insert_ne _ _ p) by lia. rewrite lookup_insert_eq. exec_simpl.
  cbn [fst]. eapply (IH _ n); cbn [st_mem st_next st_links st_ops]; [done|lia|lia| | |by rewrite lookup_insert_eq].
  - unfold prv. rewrite lookup_insert_ne, lookup_insert_eq by lia. done.
  - rewrite lookup_insert_eq. by eexists.
Qed.

Lemma clone_uses_all_memory mem :
  exists s', (s ← copy_head (one_op mem) 2 1; family_clone_ops (S mem) s 2 1) = Done (- NLE_NOMEM, s').
Proof.
  destruct (clone_runs_on mem {| st_links := <[2 := (10, 10)]> (st_links (one_op mem)); st_ops := st_ops (one_op mem);
    st_next := 20; st_mem := mem |} 10 (3, 0)) as (s' & Hs); try done.
  exists s'. change (copy_head (one_op mem) 2 1) with (Done {| st_links := <[2 := (10, 10)]> (st_links (one_op mem));
    st_ops := st_ops (one_op mem); st_next := 20; st_mem := mem |}). exec_simpl.
  unfold family_clone_ops, nl_list_for_each_entry. set (s := {| st_mem := mem |}) in *.
  change (get_next (st_links s) 1) with (Done 10). exec_simpl. by rewrite Hs.
Qed.
End CloneFindings.
