(* ===== verification/LinkKind.v ===== *)
(** What the kinds of links have in common (lib/route/link/*.c): a structure of
    numbers and addresses with a mask of attributes, at [l_info] of the link; the
    functions of a kind that allocate, free, parse, compose and copy it; and the
    functions that set and get its members.

    A kind is described by what its parser reads and what its composer writes, in
    the order of the code.  The structures of all kinds are the members of a union,
    which a kind reaches through [Packed]. *)
From S2P Require Import Prelude Errors Msg Attr Data CString Addr Socket Nl Object Cache ObjAttr Wire Build Rtnl Ends StepMsg Sriov CacheDump LinkApi LinkReg Link LinkMsg LinkProps.

(** A policy by the entries the code writes: the others are zero. *)
Definition policy_of (max : Z) (l : list (Z * nla_policy)) : list nla_policy :=
  map (fun t => match find (fun e => e.1 =? t) l with Some e => e.2 | None => pol_of 0 end) (seqZ 0 (max + 1)).
(** htons, ntohs and htonl, ntohl. *)
Definition htons (v : Z) : Z := ntohs (u16 v).
Definition htonl (v : Z) : Z := le_decode (rev (le_encode 4 v)).
Definition ntohl : Z -> Z := htonl.

(** The structure [V] as a member of the union [I]. *)
Class Packed (I V : Type) := {
  pack : V -> I;
  unpack : I -> option V;
  unpack_pack v : unpack (pack v) = Some v
}.

(** ** Reading and writing members *)

Section Members.
Context {V : Type}.

(** How a member is read from an attribute: a number, or [n] bytes copied over it
    (four over a number: an address). *)
Inductive reading :=
| ReadU8 (set : Z -> V -> V)
| ReadU16 (set : Z -> V -> V)
| ReadU32 (set : Z -> V -> V)
| ReadS32 (set : Z -> V -> V)
| ReadU64 (set : Z -> V -> V)
| ReadWord (get : V -> Z) (set : Z -> V -> V)
| ReadRaw (n : Z) (get : V -> list Z) (set : list Z -> V -> V)
| ReadFlag (set : V -> V).
(** [if (tb[type])]: the member is stored, [rd_bit] set in the mask and [rd_clear]
    cleared. *)
Record reader := Reader { rd_type : Z; rd_bit : Z; rd_clear : Z; rd_how : reading }.
Definition rd_s32 t bit set := Reader t bit 0 (ReadS32 set).
Definition rd_u64 t bit set := Reader t bit 0 (ReadU64 set).
Definition rd_u8 t bit set := Reader t bit 0 (ReadU8 set).
Definition rd_u16 t bit set := Reader t bit 0 (ReadU16 set).
Definition rd_u32 t bit set := Reader t bit 0 (ReadU32 set).
Definition rd_raw t bit n get set := Reader t bit 0 (ReadRaw n get set).
Definition rd_flag t set := Reader t 0 0 (ReadFlag set).

Definition read_member (h : reading) (b : list Z) (nla : Z) (d : V) : exec V :=
  match h with
  | ReadU8 set => v ← nla_get_u8 b nla; mret (set v d)
  | ReadU16 set => v ← nla_get_u16 b nla; mret (set v d)
  | ReadU32 set => v ← nla_get_u32 b nla; mret (set v d)
  | ReadS32 set => v ← nla_get_s32 b nla; mret (set v d)
  | ReadU64 set => v ← nla_get_u64 b (Some nla); mret (set v d)
  | ReadWord get set => '(_, s) ← nla_memcpy b (le_encode 4 (get d)) (Some nla) 4; mret (set (le_decode s) d)
  | ReadRaw n get set => '(_, s) ← nla_memcpy b (get d) (Some nla) n; mret (set s d)
  | ReadFlag set => mret (set d)
  end.
Definition run_reader (b : list Z) (tb : list (option Z)) (r : reader) (x : body V) : exec (body V) :=
  if_attr tb (rd_type r) (fun nla (x : body V) =>
    d ← read_member (rd_how r) b nla (ce_data x); mret (Body (clear_flag (set_flag (ce_mask x) (rd_bit r)) (rd_clear r)) d)) x.
Fixpoint run_readers (b : list Z) (tb : list (option Z)) (l : list reader) (x : body V) : exec (body V) :=
  match l with
  | [] => mret x
  | r :: l => x ← run_reader b tb r x; run_readers b tb l x
  end.

(** How a member is written: a number of [k] bytes, zero in its place when [bit] is not
    set, or the first [n] of its bytes. *)
Inductive writing :=
| WriteNum (k : nat) (get : V -> Z)
| WriteElse (bit : Z) (k : nat) (get : V -> Z)
| WriteRaw (n : Z) (get : V -> list Z).
Record writer := Writer { wr_when : body V -> bool; wr_type : Z; wr_how : writing }.

Definition write_len (h : writing) : Z :=
  match h with WriteNum k _ | WriteElse _ k _ => Z.of_nat k | WriteRaw n _ => n end.
Definition write_data (h : writing) (x : body V) : list Z :=
  match h with
  | WriteNum k get => le_encode k (get (ce_data x))
  | WriteElse bit k get => le_encode k (if has_attr x bit then get (ce_data x) else 0)
  | WriteRaw _ get => get (ce_data x)
  end.
Definition run_writer (x : body V) (w : writer) : nl_msg -> step_msg :=
  keep_if (wr_when w x) (keep_put (wr_type w) (write_len (wr_how w)) (write_data (wr_how w) x)).
Definition run_writers (l : list writer) (x : body V) : list (nl_msg -> step_msg) := map (run_writer x) l.

(** [if (mask & bit) NLA_PUT...]. *)
Definition put_u8 (bit t : Z) get := Writer (fun x => has_attr x bit) t (WriteNum 1 get).
Definition put_u16 (bit t : Z) get := Writer (fun x => has_attr x bit) t (WriteNum 2 get).
Definition put_u32 (bit t : Z) get := Writer (fun x => has_attr x bit) t (WriteNum 4 get).
Definition put_s32 (bit t : Z) get := put_u32 bit t get.
Definition put_u64 (bit t : Z) get := Writer (fun x => has_attr x bit) t (WriteNum 8 get).
Definition put_raw (bit t n : Z) get := Writer (fun x => has_attr x bit) t (WriteRaw n get).
Definition put_u8_else (bit t : Z) get := Writer (fun _ => true) t (WriteElse bit 1 get).
Definition put_flag (when : V -> bool) (t : Z) := Writer (fun x : body V => when (ce_data x)) t (WriteRaw 0 (fun _ => [])).

(** Storing a member and saying that it is there. *)
Definition store_member (bit : Z) (f : V -> V) (x : body V) : body V :=
  Body (set_flag (ce_mask x) bit) (f (ce_data x)).
End Members.
Arguments reader : clear implicits.
Arguments writer : clear implicits.

Section Kind.
Context {I A V : Type} {P : Packed I (body V)}.
Abbreviation rlink := (rtnl_link I A).
Abbreviation link := (body (rtnl_link I A)).

(** ** The functions of a kind *)

(** The structure behind [l_info]. *)
Definition kind_data (l : link) : exec (body V) :=
  match l_info (ce_data l) with
  | Some i => match unpack i with Some x => mret x | None => Fault end
  | None => Fault
  end.
Definition put_data (l : link) (x : body V) : link := with_info l (Some (pack x)).

(** The structure there is is cleared, or a clear one allocated if [c]. *)
Definition kind_alloc (c : bool) (zero : V) (l : link) : Z * link :=
  if is_some (l_info (ce_data l)) || c then (0, put_data l (Body 0 zero)) else (- NLE_NOMEM, l).
Definition kind_free (l : link) : link := with_info l None.

(** [data]: the attribute IFLA_INFO_DATA, [None] for the null pointer. *)
Definition kind_read (c : bool) (zero : V) (max : Z) (policy : list nla_policy) (readers : list (reader V))
    (b : list Z) (l : link) (data xstats : option Z) : exec (Z * link) :=
  match data with
  | None => Fault
  | Some data =>
      '(e, tb) ← nla_parse_nested b max data (Some policy);
      if e <? 0 then mret (e, l)
      else
        let '(e, l) := kind_alloc c zero l in
        if e <? 0 then mret (e, l)
        else
          x ← kind_data l;
          x ← run_readers b tb readers x;
          mret (0, put_data l x)
  end.

(** What is returned when the nest cannot be started is [start_err]; at the label
    nla_put_failure, [put_err] with the nest left as it is. *)
Definition kind_put (start_err put_err : Z) (parts : body V -> list (nl_msg -> step_msg)) (l : link) (msg : nl_msg)
    : step_msg :=
  '(start, msg) ← nla_nest_start msg IFLA_INFO_DATA;
  match start with
  | None => mret (start_err, msg)
  | Some start =>
      x ← kind_data l;
      '(e, msg) ← steps (parts x) msg;
      if e <? 0 then mret (put_err, msg)
      else '(_, msg) ← nla_nest_end msg start; mret (0, msg)
  end.

(** [null]: what happens when one of the structures is missing; [set_type]:
    rtnl_link_set_type for the link that is copied into. *)
Definition kind_clone (name : list Z) (null : link -> exec (Z * link))
    (set_type : link -> option (list Z) -> exec (Z * link)) (dst src : link) : exec (Z * link) :=
  '(e, dst) ← set_type (with_info dst None) (Some name);
  if e <? 0 then mret (e, dst)
  else
    match l_info (ce_data dst), l_info (ce_data src) with
    | Some _, Some _ => x ← kind_data src; mret (0, put_data dst x)
    | _, _ => null dst
    end.
Definition no_memory (l : link) : exec (Z * link) := mret (- NLE_NOMEM, l).

(** ** Members of the structure of a link

    [at_] the address of the table of the kind: APPBUG for a link of another kind. *)
Definition of_kind {T} (ats : list Z) (l : link) (k : body V -> exec T) : exec T :=
  if bool_decide (l_info_ops (ce_data l) ∈ ats) then x ← kind_data l; k x else Bug.
Definition kind_set (ats : list Z) (l : link) (f : body V -> body V) : exec (Z * link) :=
  of_kind ats l (fun x => mret (0, put_data l (f x))).
Definition kind_get {T} (ats : list Z) (l : link) (f : body V -> T) : exec T := of_kind ats l (fun x => mret (f x)).
(** A value that is refused. *)
Definition kind_set_if (ats : list Z) (l : link) (c : bool) (err : Z) (f : body V -> body V) : exec (Z * link) :=
  of_kind ats l (fun x => if c then mret (0, put_data l (f x)) else mret (- err, l)).
(** An error, or the member. *)
Definition kind_get_attr {T} (ats : list Z) (l : link) (err bit : Z) (f : V -> T) : exec (Z + T) :=
  kind_get ats l (fun x => if has_attr x bit then inr (f (ce_data x)) else inl (- err)).
(** An address of four bytes or of sixteen: one attribute or the other. *)
Definition kind_set_addr (ats : list Z) (l : link) (bit4 bit6 : Z) (set4 : Z -> V -> V) (set6 : list Z -> V -> V)
    (a : nl_addr) : exec (Z * link) :=
  of_kind ats l (fun x =>
    if (nl_addr_get_family a =? AF_INET) && (nl_addr_get_len a =? 4) then
      s ← load (nl_addr_get_binary_addr a) 0 4;
      mret (0, put_data l (Body (clear_flag (set_flag (ce_mask x) bit4) bit6) (set4 (le_decode s) (ce_data x))))
    else if (nl_addr_get_family a =? AF_INET6) && (nl_addr_get_len a =? 16) then
      s ← load (nl_addr_get_binary_addr a) 0 16;
      mret (0, put_data l (Body (clear_flag (set_flag (ce_mask x) bit6) bit4) (set6 s (ce_data x))))
    else mret (- NLE_INVAL, l)).
(** An error, or the address that has been made ([c]: memory allocation succeeds). *)
Definition kind_get_addr (c : bool) (ats : list Z) (l : link) (bit4 bit6 : Z) (get4 : V -> Z) (get6 : V -> list Z)
    : exec (Z + option nl_addr) :=
  of_kind ats l (fun x =>
    if has_attr x bit4 then a ← nl_addr_build c AF_INET (le_encode 4 (get4 (ce_data x))) 4; mret (inr a)
    else if has_attr x bit6 then a ← nl_addr_build c AF_INET6 (get6 (ce_data x)) 16; mret (inr a)
    else mret (inl (- NLE_AGAIN))).
(** The differences between the structures of two links. *)
Definition kind_compare (diffs : body V -> body V -> list (Z * bool)) (a b : link) (flags : Z) : exec Z :=
  x ← kind_data a;
  y ← kind_data b;
  let attrs := if has_flag flags LOOSE_COMPARISON then ce_mask y else UINT32_MAX in
  mret (attr_diffs attrs x y (diffs x y)).
End Kind.

(** The name of the kind of the link. *)
Definition is_kind {I A} (g : link_reg I A) (l : body (rtnl_link I A)) (name : list Z) : exec bool :=
  if l_info_ops (ce_data l) =? 0 then mret false
  else
    io ← get_info g (l_info_ops (ce_data l));
    match io_name io with Some n => mret (bool_decide (n = name)) | None => Fault end.

(** ** Links of a kind *)

Section Links.
Context {I A : Type}.
Abbreviation rlink := (rtnl_link I A).
Abbreviation link := (body (rtnl_link I A)).
Variable g : link_reg I A.
Variable c : Z -> bool.
Variable c0 : bool.

Definition alloc_of_kind (name : list Z) (h : heap rlink) : exec (option Z * heap rlink) :=
  '(o, h) ← rtnl_link_alloc g c c0 h;
  match o with
  | None => mret (None, h)
  | Some o =>
      x ← get_obj h o;
      '(e, l) ← rtnl_link_set_type g (c LINK_ATTR_LINKINFO) (ce_body x) (Some name);
      let h := put_obj h o (with_body x l) in
      if e <? 0 then h ← rtnl_link_put g c h o; mret (None, h) else mret (Some o, h)
  end.

Context {W : Type}.
Variable n : net W.
Variables pad2 pad4 : list Z.
(** [name]: [None] for the null pointer. *)
Definition add_of_kind (kind : list Z) (p : port_map) (sk : nl_sock) (name : option (list Z)) (h : heap rlink) (w : W)
    : exec (Z * heap rlink * nl_sock * port_map * W) :=
  '(o, h) ← alloc_of_kind kind h;
  match o with
  | None => mret (- NLE_NOMEM, h, sk, p, w)
  | Some o =>
      x ← get_obj h o;
      let l := match name with Some s => rtnl_link_set_name (ce_body x) s | None => ce_body x end in
      '(e, sk, p, w) ← rtnl_link_add g n pad2 pad4 p sk l NLM_F_CREATE w;
      h ← rtnl_link_put g c (put_obj h o (with_body x l)) o;
      mret (e, h, sk, p, w)
  end.
End Links.

(** ** What the members are

    The specification of a structure: its members with their bits and sizes, or one
    flag of [all] in a member that has no bit.  A structure is typed when its members
    have the size of their types, and canonical when what is not there is zero and
    nothing else is in the mask. *)
Section Spec.
Context {V : Type}.

Inductive member :=
| Num (bit : Z) (k : nat) (get : V -> Z)
| SNum (bit : Z) (get : V -> Z)
| Raw (bit : Z) (n : Z) (get : V -> list Z)
| Flag (f all : Z) (get : V -> Z).
Definition member_bit (m : member) : Z :=
  match m with Num bit _ _ | SNum bit _ | Raw bit _ _ => bit | Flag _ _ _ => 0 end.
Definition member_typed (d : V) (m : member) : Prop :=
  match m with
  | Num _ k get => 0 <= get d < 256 ^ Z.of_nat k
  | SNum _ get => -2147483648 <= get d < 2147483648
  | Raw _ n get => bytes_ok (get d) /\ zlen (get d) = n
  | Flag _ all get => Z.land (get d) all = get d
  end.
Definition member_clear (x : body V) (m : member) : Prop :=
  has_attr x (member_bit m) = false ->
  match m with
  | Num _ _ get | SNum _ get => get (ce_data x) = 0
  | Raw _ n get => get (ce_data x) = zeros n
  | Flag _ _ _ => True
  end.
Definition typed (ms : list member) (d : V) : Prop := Forall (member_typed d) ms.
Definition all_bits (ms : list member) : Z := fold_right (fun m a => Z.lor (member_bit m) a) 0 ms.
Definition canonical (ms : list member) (x : body V) : Prop :=
  Forall (member_clear x) ms /\ Z.land (ce_mask x) (all_bits ms) = ce_mask x.

(** *** The attributes that stand for a structure *)

Definition payload (w : writer V) (x : body V) : list Z := sub (write_data (wr_how w) x) 0 (write_len (wr_how w)).
Definition sent (ws : list (writer V)) (x : body V) : list (Z * list Z) :=
  map (fun w => (wr_type w, payload w x)) (filter (fun w => wr_when w x = true) ws).

(** The structure that attributes stand for. *)
Definition read_payload (h : reading) (p : list Z) (d : V) : V :=
  match h with
  | ReadU8 set => set (le_decode (take 1 p)) d
  | ReadU16 set => set (le_decode (take 2 p)) d
  | ReadU32 set => set (le_decode (take 4 p)) d
  | ReadS32 set => set (s32 (le_decode (take 4 p))) d
  | ReadU64 set => set (le_decode (take 8 p)) d
  | ReadWord _ set => set (le_decode (take 4 p)) d
  | ReadRaw n _ set => set (take (Z.to_nat n) p) d
  | ReadFlag set => set d
  end.
Definition reading_size (h : @reading V) : Z :=
  match h with
  | ReadU8 _ => 1 | ReadU16 _ => 2 | ReadU32 _ => 4 | ReadS32 _ => 4 | ReadU64 _ => 8
  | ReadWord _ _ => 4 | ReadRaw n _ _ => n | ReadFlag _ => 0
  end.
Definition decode1 (l : list (Z * list Z)) (x : body V) (r : reader V) : body V :=
  match attr_of l (rd_type r) with
  | Some p => Body (clear_flag (set_flag (ce_mask x) (rd_bit r)) (rd_clear r)) (read_payload (rd_how r) p (ce_data x))
  | None => x
  end.
Definition decode (l : list (Z * list Z)) (rs : list (reader V)) (x : body V) : body V := fold_left (decode1 l) rs x.

(** Readers keep structures typed, writers send members of their size. *)
Definition reading_ok (ms : list member) (h : reading) : Prop :=
  match h with
  | ReadU8 set => forall v d, 0 <= v < 256 -> typed ms d -> typed ms (set v d)
  | ReadU16 set => forall v d, 0 <= v < 65536 -> typed ms d -> typed ms (set v d)
  | ReadU32 set | ReadWord _ set => forall v d, 0 <= v < 4294967296 -> typed ms d -> typed ms (set v d)
  | ReadS32 set => forall v d, typed ms d -> typed ms (set (s32 v) d)
  | ReadU64 set => forall v d, 0 <= v < 18446744073709551616 -> typed ms d -> typed ms (set v d)
  | ReadRaw n get set =>
      0 <= n /\ (forall d, typed ms d -> bytes_ok (get d) /\ zlen (get d) = n) /\
      (forall s d, bytes_ok s -> zlen s = n -> typed ms d -> typed ms (set s d))
  | ReadFlag set => forall d, typed ms d -> typed ms (set d)
  end.
Definition writer_ok (ms : list member) (w : writer V) : Prop :=
  0 <= wr_type w < 16384 /\
  match wr_how w with
  | WriteNum k _ | WriteElse _ k _ => (k <= 8)%nat
  | WriteRaw n get => 0 <= n <= 65531 /\ forall d, typed ms d -> bytes_ok (get d) /\ zlen (get d) = n
  end.

Lemma zlen_write ms w x : writer_ok ms w -> typed ms (ce_data x) ->
  bytes_ok (write_data (wr_how w) x) /\ 0 <= write_len (wr_how w) <= 65531 /\ zlen (write_data (wr_how w) x) = write_len (wr_how w).
Proof.
  intros [_ Hw] Hd. destruct (wr_how w) as [k get|bit k get|n get]; cbn [write_data write_len].
  - rewrite zlen_le_encode. split; [auto with nl|]. split; [lia|done].
  - rewrite zlen_le_encode. split; [auto with nl|]. split; [lia|done].
  - destruct Hw as [Hn Hg]. destruct (Hg _ Hd). done.
Qed.
Lemma payload_eq ms w x : writer_ok ms w -> typed ms (ce_data x) -> payload w x = write_data (wr_how w) x.
Proof.
  intros Hw Hd. destruct (zlen_write ms w x Hw Hd) as (_ & _ & Hz). unfold payload. rewrite <- Hz. apply sub_all.
Qed.

(** Composing is safe. *)
Lemma writers_safe ms ws x : Forall (writer_ok ms) ws -> typed ms (ce_data x) -> Forall safe (run_writers ws x).
Proof.
  intros Hws Hd. unfold run_writers. apply Forall_map. eapply Forall_impl; [exact Hws|]. intros w Hw. unfold run_writer.
  destruct (zlen_write ms w _ Hw Hd) as (Hb & Hn & Hz). apply safe_if. intros _. apply keep_put_safe; [done|done|lia].
Qed.
Lemma sent_fits ms ws x : Forall (writer_ok ms) ws -> typed ms (ce_data x) -> Forall attr_fits (sent ws x).
Proof.
  intros Hws Hd. unfold sent. apply Forall_map, Forall_forall. intros w [_ Hw]%list_elem_of_filter.
  rewrite Forall_forall in Hws. pose proof (Hws w Hw) as Hok. destruct (zlen_write ms w _ Hok Hd) as (Hb & Hn & Hz).
  unfold attr_fits. cbn [fst snd]. rewrite (payload_eq ms) by done. split; [apply Hok|]. split; [done|lia].
Qed.

(** With room for everything, exactly the attributes of the structure are put. *)
Lemma steps_puts ms ws x m m' :
  Forall (writer_ok ms) ws -> typed ms (ce_data x) ->
  nla_put_all m (sent ws x) = Done (0, m') -> steps (run_writers ws x) m = Done (0, m').
Proof.
  intros Hws Hd. revert m. induction Hws as [|w ws Hw Hws IH]; intros m; [by intros [= ->]|].
  unfold sent. rewrite filter_cons. cbn [run_writers map steps]. unfold run_writer at 1, next_msg.
  destruct (wr_when w x) eqn:E; unfold keep_if.
  - rewrite decide_True by done. cbn [map nla_put_all fst snd]. intros (r & Hput & H)%bind_inv. destruct r as [e m1].
    destruct (Z.ltb_spec e 0); [injection H; discriminate|]. destruct (zlen_write ms w _ Hw Hd) as (_ & Hn & Hz).
    rewrite (payload_eq ms), Hz in Hput by done. unfold keep_put. rewrite Hput. exec_simpl.
    rewrite (proj2 (Z.ltb_ge e 0)) by lia. change (0 <? 0) with false. cbv iota. by apply IH.
  - rewrite decide_False by congruence. intros H. exec_simpl. change (0 <? 0) with false. cbv iota. by apply IH.
Qed.
End Spec.
Arguments member : clear implicits.

Section Decode.
Context {V : Type}.
Implicit Types (ws : list (writer V)) (rs : list (reader V)) (ms : list (member V)).

(** What there is of a type among the attributes sent: each writer has its own. *)
Definition find_writer ws (t : Z) : option (writer V) := find (fun w => wr_type w =? t) ws.
Definition sent_of ws (x : body V) (t : Z) : option (list Z) :=
  match find_writer ws t with
  | Some w => if wr_when w x then Some (payload w x) else None
  | None => None
  end.
Lemma sent_other ws x t : t ∉ map wr_type ws -> attr_of (sent ws x) t = None.
Proof.
  induction ws as [|w ws IH]; [done|]. cbn [map]. intros [Ht Hn]%not_elem_of_cons. unfold sent. rewrite filter_cons.
  case_decide; [|by apply IH]. cbn [map]. rewrite attr_of_cons. fold (sent ws x). rewrite IH by done. cbn [fst].
  by rewrite (proj2 (Z.eqb_neq _ _)) by congruence.
Qed.
Lemma attr_of_sent ws x t : NoDup (map wr_type ws) -> attr_of (sent ws x) t = sent_of ws x t.
Proof.
  unfold sent_of, find_writer. induction ws as [|w ws IH]; [done|]. cbn [map find]. intros [Hn Hd]%NoDup_cons.
  unfold sent. rewrite filter_cons. destruct (Z.eqb_spec (wr_type w) t) as [<-|Ht].
  - destruct (wr_when w x) eqn:E; [rewrite decide_True by done|rewrite decide_False by congruence].
    + cbn [map]. rewrite attr_of_cons. fold (sent ws x). rewrite sent_other by done. cbn [fst snd]. by rewrite Z.eqb_refl.
    + by apply sent_other.
  - destruct (decide (wr_when w x = true)); [|by apply IH]. cbn [map]. rewrite attr_of_cons. fold (sent ws x).
    rewrite IH by done. cbn [fst snd]. rewrite (proj2 (Z.eqb_neq _ _)) by done. by destruct (match find _ ws with Some _ => _ | None => _ end).
Qed.

(** ** Parsing *)

(** A payload with room for the member. *)
Lemma attr_at_prefix k b nla d : attr_at b nla d -> Z.of_nat k <= zlen d -> load b (nla_data nla) (Z.of_nat k) = Done (take k d).
Proof.
  intros (Hb & H0 & Hz & _ & Hd) Hk. pose proof (zlen_nonneg d). unfold nla_data, NLA_HDRLEN. rewrite load_done by lia.
  f_equal. transitivity (sub (sub b (nla + 4) (zlen d)) 0 (Z.of_nat k)).
  - rewrite sub_sub by lia. by rewrite Z.add_0_r.
  - rewrite Hd. unfold sub. by rewrite Nat2Z.id.
Qed.
Lemma take_payload k b nla d : attr_at b nla d -> Z.of_nat k <= zlen d ->
  bytes_ok (take k d) /\ length (take k d) = k.
Proof.
  intros Ha Hk. split; [by eapply Forall_take, attr_at_bytes|]. unfold zlen in Hk. rewrite length_take. lia.
Qed.
Lemma take_range k b nla d : attr_at b nla d -> Z.of_nat k <= zlen d -> 0 <= le_decode (take k d) < 256 ^ Z.of_nat k.
Proof. intros Ha Hk. destruct (take_payload k b nla d Ha Hk) as [Hb Hl]. rewrite <- Hl at 3. by apply le_decode_range. Qed.

Lemma read_member_ok ms h b nla p d :
  reading_ok ms h -> typed ms d -> attr_at b nla p -> reading_size h <= zlen p ->
  read_member h b nla d = Done (read_payload h p d) /\ typed ms (read_payload h p d).
Proof.
  intros Hh Hd Ha Hz. pose proof (fun k => take_payload k b nla p Ha) as Ht.
  destruct h as [set|set|set|set|set|g set|n get set|set]; cbn [read_member read_payload reading_ok reading_size] in *.
  - unfold nla_get_u8, Prelude.get_u8. change 1 with (Z.of_nat 1). rewrite (attr_at_prefix 1 b nla p) by done. exec_simpl.
    split; [done|]. apply Hh; [|done]. by apply (take_range 1 b nla).
  - unfold nla_get_u16, Prelude.get_u16. change 2 with (Z.of_nat 2). rewrite (attr_at_prefix 2 b nla p) by done. exec_simpl.
    split; [done|]. apply Hh; [|done]. by apply (take_range 2 b nla).
  - unfold nla_get_u32, Prelude.get_u32. change 4 with (Z.of_nat 4). rewrite (attr_at_prefix 4 b nla p) by done. exec_simpl.
    split; [done|]. apply Hh; [|done]. by apply (take_range 4 b nla).
  - unfold nla_get_s32, Prelude.get_u32. change 4 with (Z.of_nat 4). rewrite (attr_at_prefix 4 b nla p) by done. exec_simpl.
    split; [done|]. by apply Hh.
  - unfold nla_get_u64. rewrite (attr_at_len _ _ _ Ha). exec_simpl. rewrite u64_id by (destruct Ha as (Hb & ? & ? & ? & ?); unfold attr_len in *; pose proof (le_at_range 2 b nla Hb); lia).
    rewrite (proj2 (Z.leb_le _ _)) by done. unfold Prelude.get_u64. change 8 with (Z.of_nat 8). rewrite (attr_at_prefix 8 b nla p) by done. exec_simpl.
    split; [done|]. apply Hh; [|done]. by apply (take_range 8 b nla).
  - unfold nla_memcpy. rewrite (attr_at_len _ _ _ Ha). exec_simpl. rewrite Z.min_l by done.
    pose proof (attr_at_prefix 4 b nla p Ha Hz) as Hload. change (Z.of_nat 4) with 4 in Hload. rewrite Hload. exec_simpl. destruct (Ht 4%nat Hz) as [_ Hl].
    rewrite store_done by (rewrite ?zlen_le_encode; unfold zlen; lia). exec_simpl.
    rewrite splice_all by (rewrite zlen_le_encode; unfold zlen; lia). split; [done|]. apply Hh; [|done]. by apply (take_range 4 b nla).
  - destruct Hh as (Hn & Hg & Hs). destruct (Hg d Hd) as [Hb Hl]. unfold nla_memcpy. rewrite (attr_at_len _ _ _ Ha). exec_simpl.
    rewrite Z.min_l by done. rewrite <- (Z2Nat.id n) at 1 by done. rewrite (attr_at_prefix _ b nla p) by (done || lia). exec_simpl.
    destruct (Ht (Z.to_nat n)) as [Htb Htl]; [lia|].
    assert (zlen (take (Z.to_nat n) p) = n) as Hzt by (unfold zlen; lia).
    rewrite store_done by lia. exec_simpl. rewrite splice_all by (unfold zlen in *; lia). split; [done|]. by apply Hs.
  - split; [done|]. by apply Hh.
Qed.
End Decode.

Section Safe.
Context {I A V : Type} {P : Packed I (body V)}.
Abbreviation link := (body (rtnl_link I A)).

(** Composing a nest of safe steps is safe, also when it is left open. *)
Lemma put_nested_safe se pe (parts : body V -> list (nl_msg -> step_msg)) (l : link) x :
  kind_data l = Done x -> Forall safe (parts x) -> safe (kind_put se pe parts l).
Proof.
  intros Hl Hp m Ha. unfold kind_put. destruct (nest_start_safe m IFLA_INFO_DATA Ha) as (o & m1 & -> & Hx & Ho). exec_simpl.
  destruct o as [start|]; [|by exists se, m1]. destruct Ho as [-> Hl1]. rewrite Hl. exec_simpl.
  destruct (steps_safe (parts x) Hp m1 (ex_wf _ _ _ Hx)) as (e & m2 & -> & Hx2). exec_simpl. pose proof (ex_len _ _ _ Hx2).
  assert (extends (msg_len m) m m2) as Hx'.
  { eapply extends_trans, extends_weaken; [exact Hx| |exact Hx2]. lia. }
  destruct (e <? 0); [by exists pe, m2|].
  destruct (nest_close_safe m m2) as (e' & m3 & -> & Hx3); [done..|lia|]. exec_simpl. by exists 0, m3.
Qed.

(** Parsing ends. *)
Lemma ends_read_member (h : @reading V) b nla d : ends (read_member h b nla d).
Proof.
  destruct h; cbn [read_member]; try (apply ends_bind; [first [apply ends_u8|apply ends_u16|apply ends_u32]|done]).
  - apply ends_bind; [|done]. unfold nla_get_s32. apply ends_bind; [apply ends_u32|done].
  - apply ends_bind; [|done]. unfold nla_get_u64. apply ends_bind; [apply ends_nla_len|]. intros n. destruct (_ <=? _); [|done].
    apply ends_bind; [apply ends_load|done].
  - apply ends_pair; [apply ends_memcpy|done].
  - apply ends_pair; [apply ends_memcpy|done].
  - done.
Qed.
Lemma ends_run_readers b tb (rs : list (reader V)) x : ends (run_readers b tb rs x).
Proof.
  revert x. induction rs as [|r rs IH]; intros x; [done|]. cbn [run_readers]. apply ends_bind; [|done].
  apply ends_if_attr. intros nla. apply ends_bind; [apply ends_read_member|done].
Qed.
Lemma ends_kind_data (l : link) : ends (kind_data l).
Proof. unfold kind_data. ends_steps. Qed.
Lemma ends_kind_read c zero max policy (rs : list (reader V)) b (l : link) data xs :
  bytes_ok b -> ends (kind_read c zero max policy rs b l data xs).
Proof.
  intros Hb. unfold kind_read. destruct data as [nla|]; [|done]. apply ends_pair; [by apply ends_nested|].
  intros e tb. destruct (e <? 0); [done|]. destruct (kind_alloc c zero l) as [e' l']. destruct (e' <? 0); [done|].
  apply ends_bind; [apply ends_kind_data|]. intros x. apply ends_bind; [apply ends_run_readers|done].
Qed.
End Safe.

(** ** A kind and what holds of it *)

Record kind_desc (V : Type) := Kind_desc {
  k_zero : V;
  k_max : Z;
  k_policy : list nla_policy;
  k_readers : list (reader V);
  k_writers : list (writer V);
  k_members : list (member V)
}.
Arguments Kind_desc {V}.
Arguments k_zero {V}. Arguments k_max {V}. Arguments k_policy {V}. Arguments k_readers {V}. Arguments k_writers {V}. Arguments k_members {V}.

(** What the policy asks of an attribute: at least what its reader needs, and no more
    than its writer sends. *)
Definition policy_covers {V} (p : list nla_policy) (r : reader V) : bool :=
  match p !! Z.to_nat (rd_type r) with Some pt => reading_size (rd_how r) <=? policy_min pt | None => false end.
Definition policy_takes {V} (p : list nla_policy) (w : writer V) : bool :=
  match p !! Z.to_nat (wr_type w) with
  | Some pt => (policy_min pt <=? write_len (wr_how w)) && (pol_maxlen pt =? 0) && negb (pol_type pt =? NLA_STRING)
  | None => false
  end.
(** A reader gets enough from the writer of its attribute. *)
Definition sized {V} (ws : list (writer V)) (r : reader V) : bool :=
  match find_writer ws (rd_type r) with Some w => reading_size (rd_how r) <=? write_len (wr_how w) | None => true end.
Record desc_ok {V} (k : kind_desc V) : Prop := {
  do_zero : typed (k_members k) (k_zero k);
  do_policy : policy_okb (k_max k) (k_policy k) = true;
  do_sizes : forallb (sized (k_writers k)) (k_readers k) = true;
  do_takes : forallb (policy_takes (k_policy k)) (k_writers k) = true;
  do_types : forallb (fun r => (0 <=? rd_type r) && (rd_type r <=? k_max k)) (k_readers k) = true;
  do_readers : Forall (fun r => reading_ok (k_members k) (rd_how r)) (k_readers k);
  do_writers : Forall (writer_ok (k_members k)) (k_writers k);
  do_distinct : NoDup (map wr_type (k_writers k))
}.

(** The policy keeps what is too short away from the readers. *)
Definition covered {V} (k : kind_desc V) : Prop := forallb (policy_covers (k_policy k)) (k_readers k) = true.

Section Desc.
Context {V : Type}.
Variable k : kind_desc V.
Hypothesis Hk : desc_ok k.

Lemma run_readers_decode b l tb x :
  table b l (k_max k) tb ->
  (forall r p, r ∈ k_readers k -> attr_of l (rd_type r) = Some p -> reading_size (rd_how r) <= zlen p) ->
  typed (k_members k) (ce_data x) ->
  run_readers b tb (k_readers k) x = Done (decode l (k_readers k) x) /\
  typed (k_members k) (ce_data (decode l (k_readers k) x)).
Proof.
  intros Htb Hsz. pose proof (do_types _ Hk) as Ht. pose proof (do_readers _ Hk) as Hr. unfold decode. revert Hsz Ht Hr x.
  induction (k_readers k) as [|r rs IH]; intros Hsz Ht Hr x Hx; [done|]. cbn [run_readers fold_left forallb] in *.
  apply andb_prop in Ht as [Hrt Ht]. apply Forall_cons in Hr as [Hrd Hr]. bool_hyps.
  assert (run_reader b tb r x = Done (decode1 l x r) /\ typed (k_members k) (ce_data (decode1 l x r))) as [-> Hx'].
  { unfold run_reader, if_attr, decode1. specialize (Htb (rd_type r) ltac:(lia)).
    destruct (attr_of l (rd_type r)) as [p|] eqn:E; [|rewrite Htb; exec_simpl; done].
    destruct Htb as (nla & -> & Hat). exec_simpl.
    destruct (read_member_ok (k_members k) (rd_how r) b nla p (ce_data x)) as [-> Hy]; [done..| |done].
    apply (Hsz r); [left|done]. }
  exec_simpl. apply IH; [|done..]. intros r' p Hr'. apply Hsz. by right.
Qed.

(** An attribute of a region that complies has what its reader needs. *)
Lemma complies_size l r p :
  covered k -> Forall (content_ok (k_max k) (Some (k_policy k))) l -> r ∈ k_readers k -> attr_of l (rd_type r) = Some p ->
  reading_size (rd_how r) <= zlen p.
Proof.
  intros Hc Hl Hr Hp. unfold covered in Hc. pose proof (do_types _ Hk) as Ht. rewrite forallb_forall in Hc, Ht.
  apply list_elem_of_In in Hr. specialize (Hc r Hr). specialize (Ht r Hr). unfold policy_covers in Hc. bool_hyps.
  unfold attr_of in Hp. destruct (last _) as [[t q]|] eqn:E; [|done]. injection Hp as <-.
  apply last_Some_elem_of, list_elem_of_filter in E as [Ht E]. cbn [fst snd] in *. subst t.
  rewrite Forall_forall in Hl. specialize (Hl _ E). cbn [content_ok fst snd] in Hl.
  destruct Hl as (pt & Hpt & Hmin & _); [lia|]. rewrite Hpt in Hc. bool_hyps. lia.
Qed.

(** So has what is sent. *)
Lemma sent_size x r p :
  typed (k_members k) (ce_data x) -> r ∈ k_readers k -> attr_of (sent (k_writers k) x) (rd_type r) = Some p ->
  reading_size (rd_how r) <= zlen p.
Proof.
  intros Hx Hr. rewrite attr_of_sent by apply Hk. unfold sent_of. pose proof (do_sizes _ Hk) as Hs. rewrite forallb_forall in Hs.
  apply list_elem_of_In in Hr. specialize (Hs r Hr). unfold sized in Hs.
  destruct (find_writer (k_writers k) (rd_type r)) as [w|] eqn:E; [|done]. destruct (wr_when w x); [|done]. intros [= <-].
  pose proof (do_writers _ Hk) as Hw. rewrite Forall_forall in Hw. unfold find_writer in E. apply find_some in E as [Hin _].
  apply list_elem_of_In in Hin. specialize (Hw w Hin). rewrite (payload_eq (k_members k)) by done.
  destruct (zlen_write _ w x Hw Hx) as (_ & _ & ->). bool_hyps. lia.
Qed.

Context {I A : Type} {P : Packed I (body V)}.
Abbreviation link := (body (rtnl_link I A)).
Definition desc_parse c := kind_read (I := I) (A := A) c (k_zero k) (k_max k) (k_policy k) (k_readers k).

Lemma kind_data_put (l : link) (x : body V) : kind_data (put_data l x) = Done x.
Proof. unfold kind_data, put_data, with_info. cbn [ce_data l_info]. by rewrite unpack_pack. Qed.
Lemma put_put (l : link) (x y : body V) : put_data (put_data l x) y = put_data l y.
Proof. done. Qed.

(** Attributes that comply with the policy and have what the readers need are parsed
    into the structure they stand for. *)
Lemma parse_decode c b nla d attrs (l : link) xs :
  attr_at b nla d -> carries b (nla_data nla) (zlen d) attrs ->
  Forall (content_ok (k_max k) (Some (k_policy k))) attrs ->
  (forall r p, r ∈ k_readers k -> attr_of attrs (rd_type r) = Some p -> reading_size (rd_how r) <= zlen p) ->
  is_some (l_info (ce_data l)) || c = true ->
  desc_parse c b l (Some nla) xs = Done (0, put_data l (decode attrs (k_readers k) (Body 0 (k_zero k)))) /\
  typed (k_members k) (ce_data (decode attrs (k_readers k) (Body 0 (k_zero k)))).
Proof.
  intros Ha Hc Hok Hsz Hm. unfold desc_parse, kind_read, nla_parse_nested. rewrite (attr_at_len _ _ _ Ha). exec_simpl.
  destruct (carries_parse b (nla_data nla) (zlen d) attrs (k_max k) (Some (k_policy k))) as (tb & -> & Htb);
    [done|apply policy_okb_ok, Hk|done|]. exec_simpl. change (0 <? 0) with false. cbv iota.
  unfold kind_alloc. rewrite Hm. cbv iota beta. change (0 <? 0) with false. cbv iota. rewrite kind_data_put. exec_simpl.
  destruct (run_readers_decode b attrs tb (Body 0 (k_zero k)) Htb) as [-> Hty]; [done|apply Hk|by exec_simpl].
Qed.

(** What is sent complies. *)
Lemma sent_complies x :
  typed (k_members k) (ce_data x) -> Forall (content_ok (k_max k) (Some (k_policy k))) (sent (k_writers k) x).
Proof.
  intros Hx. unfold sent. apply Forall_map, Forall_forall. intros w [_ Hw]%list_elem_of_filter.
  pose proof (do_takes _ Hk) as Ht. rewrite forallb_forall in Ht. pose proof Hw as Hin. apply list_elem_of_In in Hw. specialize (Ht w Hw).
  unfold policy_takes in Ht. destruct (k_policy k !! _) as [pt|] eqn:E; [|done]. bool_hyps.
  cbn [content_ok fst snd]. intros _. exists pt. split; [done|]. unfold entry_ok.
  pose proof (do_writers _ Hk) as Hwr. rewrite Forall_forall in Hwr. specialize (Hwr w Hin).
  destruct (zlen_write _ w _ Hwr Hx) as (_ & _ & Hz). rewrite (payload_eq (k_members k)), Hz by done.
  split; [lia|]. by split.
Qed.

(** Composing into a message with room for everything, and what the message holds
    then; what it holds is parsed into what was sent. *)
Definition room_for (m : nl_msg) (head : Z) (inner : list (Z * list Z)) : Prop :=
  head <= msg_len m /\ 0 < total_room inner /\ 4 + total_room inner <= USHRT_MAX /\
  msg_len m + 4 + total_room inner <= nm_size m.
Lemma put_then_parse se pe (l : link) x m head before :
  kind_data l = Done x -> typed (k_members k) (ce_data x) -> holds m head before ->
  room_for m head (sent (k_writers k) x) ->
  exists m' d, kind_put se pe (run_writers (k_writers k)) l m = Done (0, m') /\
    holds m' head (before ++ [(IFLA_INFO_DATA, d)]) /\
    forall c (l2 : link) xs, is_some (l_info (ce_data l2)) || c = true ->
      desc_parse c (nm_nlh m') l2 (Some (msg_len m)) xs =
        Done (0, put_data l2 (decode (sent (k_writers k) x) (k_readers k) (Body 0 (k_zero k)))).
Proof.
  intros Hl Hx Hh (Hle & Hn & Hu & Hroom). set (inner := sent (k_writers k) x) in *.
  destruct (nest_start_ok m head before IFLA_INFO_DATA) as (m1 & Hst & Hn1 & Hl1 & Hs1 & _); [done..|unfold IFLA_INFO_DATA; lia|done|lia|].
  destruct (nest_put_all m1 head (msg_len m) IFLA_INFO_DATA before inner) as (m2 & Hput & Hn2 & Hl2 & Hs2 & _);
    [done|done|apply (sent_fits (k_members k)); [apply Hk|done]|lia|].
  destruct (nest_end_ok m2 head (msg_len m) IFLA_INFO_DATA before inner)
    as (m3 & d & He & Ho & Hi & _ & Hd & Hl3 & Hs3 & Hal & Hpay); [done|unfold IFLA_INFO_DATA; lia|lia|].
  exists m3, d. split; [|split; [done|]].
  - unfold kind_put. rewrite Hst. exec_simpl. rewrite Hl. exec_simpl.
    rewrite (steps_puts (k_members k) (k_writers k) x m1 m2) by (apply Hk || done). exec_simpl. change (0 <? 0) with false. cbv iota.
    rewrite He. by exec_simpl.
  - intros c l2 xs Hm. destruct Hi as (Hw & _ & H16 & offs & Hex & Hoffs). destruct Ho as (_ & _ & Hh16 & _).
    pose proof Hw as (Hz & Hb & Hlw & Hsw).
    assert (attr_at (nm_nlh m3) (msg_len m) d) as Hat.
    { split_and!; [done|lia|lia|lia|]. rewrite Hpay at 2. unfold attr_payload, NLA_HDRLEN. f_equal. lia. }
    destruct (parse_decode c (nm_nlh m3) (msg_len m) d inner l2 xs Hat) as [-> _]; [|by apply sent_complies|intros r p; by apply sent_size|done|done].
    unfold nla_data, NLA_HDRLEN. split_and!; [done|lia|lia|]. exists offs. split; [|done].
    by replace (zlen d) with (msg_len m3 - (msg_len m + 4)) by lia.
Qed.

(** Composing leaves the rest of the message alone, whatever room there is. *)
Lemma desc_put_safe se pe (l : link) x :
  kind_data l = Done x -> typed (k_members k) (ce_data x) -> safe (kind_put se pe (run_writers (k_writers k)) l).
Proof.
  intros Hl Hx. apply put_nested_safe with x; [done|]. apply (writers_safe (k_members k)); [apply Hk|done].
Qed.
End Desc.

(** *** Whatever is received

    The attributes that are in the table complied with the policy, so a kind whose
    policy covers its readers never reads past them. *)
Lemma parse_any b nla d max p :
  attr_at b nla d -> policy_okb max p = true ->
  exists e tb, nla_parse_nested b max nla (Some p) = Done (e, tb) /\
    (e < 0 \/ e = 0 /\ forall t, 0 <= t <= max ->
      tb_at tb t = Done None \/
      exists a q pt, tb_at tb t = Done (Some a) /\ attr_at b a q /\ p !! Z.to_nat t = Some pt /\ policy_min pt <= zlen q).
Proof.
  intros Ha Hp%policy_okb_ok. pose proof Ha as (Hb & H0 & Hz & _ & _). pose proof (zlen_nonneg d).
  unfold nla_parse_nested. rewrite (attr_at_len _ _ _ Ha). exec_simpl. unfold nla_parse.
  rewrite nla_for_each_attr_foldx by (unfold nla_data, NLA_HDRLEN; done || lia).
  destruct (parse_fold b max (nla_data nla) (zlen d) (Some p) (attrs b (nla_data nla) (zlen d)) []
    (replicate (Z.to_nat (max + 1)) None)) as (e & tb & pre & -> & Hr & Hi);
    [done|unfold nla_data, NLA_HDRLEN; lia|unfold nla_data, NLA_HDRLEN; lia|done|apply attrs_in|constructor|apply index_of_nil|].
  exec_simpl. exists e, tb. destruct (Z.ltb_spec e 0) as [He|He]; [split; [done|by left]|].
  destruct Hr as (Hacc & [[-> Hpre]|[? _]]); [|lia]. split; [done|]. right. split; [done|]. intros t Ht.
  destruct Hi as [_ Hi]. unfold tb_at. rewrite (Hi t Ht). unfold last_of_type.
  destruct (last (filter _ _)) as [a|] eqn:E; [|by left]. right. cbn [app] in *.
  apply last_Some_elem_of, list_elem_of_filter in E as [Hat E]. pose proof E as Hin. rewrite <- Hpre in Hin.
  pose proof (attrs_in b (nla_data nla) (zlen d)) as Hall. rewrite Forall_forall in Hall, Hacc. specialize (Hall a Hin).
  specialize (Hacc a E). cbn [accepts] in Hacc. destruct Hacc as (pt & Hpt & Hmin & _); [lia|]. rewrite Hat in Hpt.
  pose proof (attr_at_content b (nla_data nla) (zlen d) a Hb) as Hc. unfold nla_data, NLA_HDRLEN in Hc.
  specialize (Hc ltac:(lia) ltac:(lia) Hall). exists a, (attr_payload b a), pt. split; [done|]. split; [done|]. split; [done|].
  destruct Hc as (_ & _ & _ & Hlen & _). lia.
Qed.

Section Any.
Context {V : Type}.
Variable k : kind_desc V.
Hypothesis Hk : desc_ok k.
Hypothesis Hcov : covered k.

Lemma run_readers_any b tb x :
  (forall t, 0 <= t <= k_max k ->
    tb_at tb t = Done None \/
    exists a q pt, tb_at tb t = Done (Some a) /\ attr_at b a q /\ k_policy k !! Z.to_nat t = Some pt /\ policy_min pt <= zlen q) ->
  typed (k_members k) (ce_data x) ->
  exists y, run_readers b tb (k_readers k) x = Done y /\ typed (k_members k) (ce_data y).
Proof.
  intros Htb. pose proof (do_types _ Hk) as Ht. pose proof (do_readers _ Hk) as Hr. pose proof Hcov as Hc. unfold covered in Hc.
  revert Ht Hr Hc x. induction (k_readers k) as [|r rs IH]; intros Ht Hr Hc x Hx; [by exists x|]. cbn [run_readers forallb] in *.
  apply andb_prop in Ht as [Hrt Ht], Hc as [Hrc Hc]. apply Forall_cons in Hr as [Hrd Hr]. unfold policy_covers in Hrc. bool_hyps.
  assert (exists y, run_reader b tb r x = Done y /\ typed (k_members k) (ce_data y)) as (y & -> & Hy).
  { unfold run_reader, if_attr. destruct (Htb (rd_type r) ltac:(lia)) as [->|(a & q & pt & -> & Ha & Hpt & Hmin)]; exec_simpl; [by exists x|].
    rewrite Hpt in Hrc. bool_hyps.
    destruct (read_member_ok (k_members k) (rd_how r) b a q (ce_data x)) as [-> Hy]; [done..|lia|]. exec_simpl. by eexists. }
  exec_simpl. by apply IH.
Qed.
Context {I A : Type} {P : Packed I (body V)}.
Lemma parse_total c b nla d (l : body (rtnl_link I A)) xs :
  attr_at b nla d ->
  exists e l', desc_parse k c b l (Some nla) xs = Done (e, l') /\
    (e < 0 /\ l' = l \/ e = 0 /\ exists y, l' = put_data l y /\ typed (k_members k) (ce_data y)).
Proof.
  intros Ha. unfold desc_parse, kind_read.
  destruct (parse_any b nla d (k_max k) (k_policy k) Ha (do_policy _ Hk)) as (e & tb & -> & Hr). exec_simpl.
  destruct (Z.ltb_spec e 0) as [He|He]; [by exists e, l; split; [|left]|]. destruct Hr as [?|[_ Htb]]; [lia|].
  unfold kind_alloc. destruct (is_some _ || c).
  - change (0 <? 0) with false. cbv iota beta. rewrite kind_data_put. exec_simpl.
    destruct (run_readers_any b tb (Body 0 (k_zero k)) Htb) as (y & -> & Hy); [apply Hk|]. exec_simpl.
    exists 0, (put_data l y). split; [done|]. right. split; [done|]. by exists y.
  - change (- NLE_NOMEM <? 0) with true. cbv iota beta. exists (- NLE_NOMEM), l. split; [done|]. by left.
Qed.
End Any.

(** ** What is sent is read back

    Every reader has a member of the specification and a writer of its type. *)
Section Roundtrip.
Context {V : Type}.

Definition num_reading (h : @reading V) : option (nat * (Z -> V -> V)) :=
  match h with
  | ReadU8 set => Some (1%nat, set) | ReadU16 set => Some (2%nat, set)
  | ReadU32 set => Some (4%nat, set) | ReadU64 set => Some (8%nat, set)
  | ReadWord _ set => Some (4%nat, set) | _ => None
  end.
Definition paired (ws : list (writer V)) (r : reader V) (m : member V) : Prop :=
  rd_bit r = member_bit m /\
  match find_writer ws (rd_type r) with
  | None => False
  | Some w =>
      match m, wr_how w with
      | Num _ k get, WriteNum k' get' =>
          match num_reading (rd_how r) with
          | Some (n, set) => n = k /\ (k <= k')%nat /\ get' = get /\ forall d, set (get d) d = d
          | None => False
          end
      | Num _ k get, WriteElse bit k' get' =>
          match num_reading (rd_how r) with
          | Some (n, set) => n = k /\ (k <= k')%nat /\ get' = get /\ bit = rd_bit r /\ forall d, set (get d) d = d
          | None => False
          end
      | SNum _ get, WriteNum k' get' =>
          match rd_how r with
          | ReadS32 set => k' = 4%nat /\ get' = get /\ forall d, set (get d) d = d
          | _ => False
          end
      | Raw _ n get, WriteRaw n' get' =>
          match rd_how r with
          | ReadRaw n'' _ set => n' = n /\ n'' = n /\ get' = get /\ forall d, set (get d) d = d
          | _ => False
          end
      | Flag f _ get, WriteRaw n' _ =>
          match rd_how r with
          | ReadFlag set => n' = 0 /\ rd_clear r = 0 /\ forall x, wr_when w x = has_flag (get (ce_data x)) f
          | _ => False
          end
      | _, _ => False
      end
  end.

(** The member of [v] stored in [d]; storing them one after the other over zeros
    gives [v]. *)
Definition copy_member (r : reader V) (m : member V) (v d : V) : V :=
  match m with
  | Num _ _ get => match num_reading (rd_how r) with Some (_, set) => set (get v) d | None => d end
  | SNum _ get => match rd_how r with ReadS32 set => set (get v) d | _ => d end
  | Raw _ _ get => match rd_how r with ReadRaw _ _ set => set (get v) d | _ => d end
  | Flag f _ get => match rd_how r with ReadFlag set => if has_flag (get v) f then set d else d | _ => d end
  end.
Definition member_zero (m : member V) (d : V) : Prop :=
  match m with
  | Num _ _ get | SNum _ get => get d = 0
  | Raw _ n get => get d = zeros n
  | Flag _ _ _ => True
  end.
Fixpoint staged (rs : list (reader V)) (ms : list (member V)) (v d : V) : Prop :=
  match rs, ms with
  | r :: rs, m :: ms => member_zero m d /\ staged rs ms v (copy_member r m v d)
  | [], [] => d = v
  | _, _ => False
  end.

(** The composer sends a member when its bit is set, and no bit is set together with
    one that its reader clears. *)
Definition sends (ws : list (writer V)) (x : body V) (r : reader V) : Prop :=
  match rd_how r with
  | ReadFlag _ => True
  | _ => option_map (fun w => wr_when w x) (find_writer ws (rd_type r)) = Some (has_attr x (rd_bit r))
  end /\ (has_attr x (rd_bit r) = true -> Z.land (ce_mask x) (rd_clear r) = 0).
Definition is_bit (b : Z) : bool := (b =? 0) || (b =? 2 ^ Z.log2 b).

Lemma land_bit m b : is_bit b = true -> Z.land m b = if has_flag m b then b else 0.
Proof.
  unfold is_bit, has_flag. intros H. destruct (Z.eqb_spec (Z.land m b) 0) as [E|E]; [done|]. cbn [negb].
  apply orb_prop in H as [->%Z.eqb_eq|Hb%Z.eqb_eq]; [by rewrite Z.land_0_r|]. rewrite Hb in *.
  pose proof (Z.log2_nonneg b). set (n := Z.log2 b) in *. apply Z.bits_inj'. intros i Hi.
  rewrite Z.land_spec, Z.pow2_bits_eqb by done. destruct (Z.eqb_spec n i) as [Hib|Hib]; [|by rewrite andb_false_r].
  rewrite andb_true_r. destruct (Z.testbit m i) eqn:Em; [done|]. destruct E. apply Z.bits_inj'. intros j Hj.
  rewrite Z.land_spec, Z.pow2_bits_eqb, Z.bits_0 by done. destruct (Z.eqb_spec n j); [|by rewrite andb_false_r].
  replace j with i by lia. by rewrite Em.
Qed.
Lemma clear_disjoint m b c : Z.land m c = 0 -> clear_flag (Z.land m b) c = Z.land m b.
Proof.
  intros H. unfold clear_flag. apply Z.bits_inj'. intros i Hi. rewrite !Z.land_spec, Z.lnot_spec by done.
  assert (Z.testbit (Z.land m c) i = false) as Hc by (by rewrite H, Z.bits_0). rewrite Z.land_spec in Hc.
  destruct (Z.testbit m i), (Z.testbit c i); try done; by rewrite ?andb_true_r, ?andb_false_r.
Qed.
(** One more bit of the mask. *)
Lemma mask_step m b bit clear :
  is_bit bit = true -> (has_flag m bit = true -> Z.land m clear = 0) ->
  (if has_flag m bit then clear_flag (set_flag (Z.land m b) bit) clear else Z.land m b) = Z.land m (Z.lor b bit).
Proof.
  intros Hb Hc. pose proof (land_bit m bit Hb) as Hl. destruct (has_flag m bit).
  - unfold set_flag. rewrite <- Hl at 1. rewrite <- Z.land_lor_distr_r. by apply clear_disjoint, Hc.
  - by rewrite Z.land_lor_distr_r, Hl, Z.lor_0_r.
Qed.

Lemma take_le_encode k n v : (k <= n)%nat -> take k (le_encode n v) = le_encode k v.
Proof.
  revert n v. induction k as [|k IH]; intros n v H; [done|]. destruct n as [|n]; [lia|]. unfold le_encode; fold le_encode. cbn [take firstn].
  f_equal. apply IH. lia.
Qed.
(** One member: it is sent when it is there, and read back. *)
Lemma decode1_member ms ws x r m b d :
  Forall (writer_ok ms) ws -> NoDup (map wr_type ws) -> typed ms (ce_data x) -> m ∈ ms -> member_clear x m ->
  is_bit (member_bit m) = true -> paired ws r m -> sends ws x r -> member_zero m d ->
  decode1 (sent ws x) (Body (Z.land (ce_mask x) b) d) r =
    Body (Z.land (ce_mask x) (Z.lor b (member_bit m))) (copy_member r m (ce_data x) d).
Proof.
  intros Hws Hnd Hx Hm Hcl Hbit [Hb Hp] [Hs Hc] Hz. unfold decode1. rewrite attr_of_sent by done. unfold sent_of.
  destruct (find_writer ws (rd_type r)) as [w|] eqn:Ew; [|done]. cbn [option_map ce_mask ce_data] in *.
  assert (payload w x = write_data (wr_how w) x) as ->.
  { apply (payload_eq ms); [|done]. rewrite Forall_forall in Hws. apply Hws. unfold find_writer in Ew. apply find_some in Ew as [Ew _].
    by apply list_elem_of_In. }
  pose proof (proj1 (Forall_forall _ _) Hx m Hm) as Hty.
  pose proof (mask_step (ce_mask x) b (member_bit m) (rd_clear r) Hbit) as Hstep. rewrite Hb in *. unfold member_clear, has_attr in *.
  destruct m as [bit k get|bit get|bit n get|f all get]; cbn [member_bit member_typed member_zero copy_member] in *;
    destruct (wr_how w) as [k' get'|bit' k' get'|n' get'] eqn:Eh; try done; cbn [write_data].
  - destruct (num_reading (rd_how r)) as [[n set]|] eqn:En; [|done]. destruct Hp as (-> & Hk & -> & Hset).
    assert (wr_when w x = has_flag (ce_mask x) bit) as ->.
    { destruct (rd_how r); try done; by injection Hs. }
    rewrite <- Hstep by done. destruct (has_flag (ce_mask x) bit); f_equal.
    + assert (le_decode (take k (le_encode k' (get (ce_data x)))) = get (ce_data x)) as Hv.
      { rewrite take_le_encode by done. rewrite le_decode_encode. by apply Z.mod_small. }
      destruct (rd_how r); try done; injection En as <- <-; cbn [read_payload]; by rewrite Hv.
    + rewrite Hcl, <- Hz by done. by rewrite Hset.
  - destruct (num_reading (rd_how r)) as [[n set]|] eqn:En; [|done]. destruct Hp as (-> & Hk & -> & -> & Hset).
    assert (wr_when w x = has_flag (ce_mask x) bit) as ->.
    { destruct (rd_how r); try done; by injection Hs. }
    rewrite <- Hstep by done. unfold has_attr. destruct (has_flag (ce_mask x) bit); f_equal.
    + assert (le_decode (take k (le_encode k' (get (ce_data x)))) = get (ce_data x)) as Hv.
      { rewrite take_le_encode by done. rewrite le_decode_encode. by apply Z.mod_small. }
      destruct (rd_how r); try done; injection En as <- <-; cbn [read_payload]; by rewrite Hv.
    + rewrite Hcl, <- Hz by done. by rewrite Hset.
  - destruct (rd_how r) as [| | |set| | | |]; try done. destruct Hp as (-> & -> & Hset). injection Hs as ->.
    rewrite <- Hstep by done. destruct (has_flag (ce_mask x) bit); f_equal.
    + cbn [read_payload]. rewrite take_le_encode by lia. rewrite le_decode_encode. f_equal.
      change (256 ^ Z.of_nat 4) with (2 ^ 32). rewrite s32_u32. by apply s32_id.
    + rewrite Hcl, <- Hz by done. by rewrite Hset.
  - destruct (rd_how r) as [| | | | | |n'' g set|]; try done. destruct Hp as (-> & -> & -> & Hset). injection Hs as ->.
    rewrite <- Hstep by done. destruct (has_flag (ce_mask x) bit); f_equal.
    + cbn [read_payload]. rewrite take_ge; [done|]. destruct Hty as [_ Hl]. unfold zlen in Hl. lia.
    + rewrite Hcl, <- Hz by done. by rewrite Hset.
  - destruct (rd_how r) as [| | | | | | |set]; try done. destruct Hp as (-> & Hc0 & Hw). rewrite Hw. clear Hstep.
    rewrite (Z.lor_0_r b). destruct (has_flag (get (ce_data x)) f); [|done]. f_equal. rewrite Hc0. unfold set_flag. rewrite Z.lor_0_r.
    by apply clear_disjoint, Z.land_0_r.
Qed.

Lemma decode_members ms ws x rs ms' b d :
  Forall (writer_ok ms) ws -> NoDup (map wr_type ws) -> typed ms (ce_data x) -> (forall m, m ∈ ms' -> m ∈ ms) ->
  Forall (member_clear x) ms' -> forallb (fun m => is_bit (member_bit m)) ms' = true ->
  Forall2 (paired ws) rs ms' -> Forall (sends ws x) rs -> staged rs ms' (ce_data x) d ->
  decode (sent ws x) rs (Body (Z.land (ce_mask x) b) d) =
    Body (Z.land (ce_mask x) (Z.lor b (all_bits ms'))) (ce_data x).
Proof.
  intros Hws Hnd Hx. unfold decode. revert ms' b d. induction rs as [|r rs IH]; intros ms' b d Hin Hcl Hbit Hp Hs Hst;
    inversion Hp as [|? m ? ms'' Hp1 Hp2]; subst; cbn [staged all_bits fold_right fold_left forallb] in *.
  - by rewrite Hst, Z.lor_0_r.
  - apply Forall_cons in Hs as [Hs1 Hs2], Hcl as [Hc1 Hc2]. apply andb_prop in Hbit as [Hb1 Hb2]. destruct Hst as [Hz Hst].
    rewrite (decode1_member ms ws x r m) by (try done; apply Hin; left).
    rewrite IH with (ms' := ms''); [|by intros m' Hm'; apply Hin; right|done..]. f_equal. by rewrite Z.lor_assoc.
Qed.

(** A structure is what its attributes stand for. *)
Record regular (k : kind_desc V) : Prop := {
  rg_bits : forallb (fun m => is_bit (member_bit m)) (k_members k) = true;
  rg_paired : Forall2 (paired (k_writers k)) (k_readers k) (k_members k);
  rg_staged v : typed (k_members k) v -> staged (k_readers k) (k_members k) v (k_zero k)
}.
Lemma decode_sent k x :
  desc_ok k -> regular k -> typed (k_members k) (ce_data x) -> canonical (k_members k) x ->
  Forall (sends (k_writers k) x) (k_readers k) ->
  decode (sent (k_writers k) x) (k_readers k) (Body 0 (k_zero k)) = x.
Proof.
  intros Hk Hr Hx [Hcl Hall] Hs. pose proof (decode_members (k_members k) (k_writers k) x (k_readers k) (k_members k) 0 (k_zero k)) as H.
  rewrite Z.land_0_r in H. destruct Hr as [Hbits Hpair Hst]. rewrite H; [|apply Hk|apply Hk|done|done|done..|by apply Hst].
  rewrite Z.lor_0_l, Hall. by destruct x.
Qed.
End Roundtrip.

(** ** Setting members *)

Section Setters.
Context {I A V : Type} {P : Packed I (body V)}.
Abbreviation link := (body (rtnl_link I A)).
Implicit Types (ms : list (member V)).

(** A function of a kind on a link of the kind with typed data: it ends, and leaves
    the link alone or with typed data, canonical ones ([canon]) where they were. *)
Definition set_ok (ats : list Z) ms (canon : bool) (run : link -> exec (Z * link)) : Prop :=
  forall l x, l_info_ops (ce_data l) ∈ ats -> kind_data l = Done x -> typed ms (ce_data x) ->
    exists e l', run l = Done (e, l') /\
      (l' = l \/ exists y, l' = put_data l y /\ typed ms (ce_data y) /\ (canon = true -> canonical ms x -> canonical ms y)).

(** The member is the one that is set, or is not changed. *)
Definition member_kept (bit : Z) (f : V -> V) (m : member V) : Prop :=
  match m with
  | Num b _ get | SNum b get => b = bit \/ Z.land bit b = 0 /\ forall d, get (f d) = get d
  | Raw b _ get => b = bit \/ Z.land bit b = 0 /\ forall d, get (f d) = get d
  | Flag _ _ _ => True
  end.
Lemma store_canonical ms bit f x :
  bit <> 0 -> Z.land bit (all_bits ms) = bit -> Forall (member_kept bit f) ms -> canonical ms x ->
  canonical ms (store_member bit f x).
Proof.
  intros Hb Hall Hk [Hc Hm]. split.
  - rewrite Forall_forall in Hk, Hc. apply Forall_forall. intros m Hin. specialize (Hk m Hin). specialize (Hc m Hin).
    unfold member_clear, store_member, has_attr in *. cbn [ce_mask ce_data].
    destruct m as [b k get|b get|b n get|]; cbn [member_kept member_bit] in *; try done;
      (destruct Hk as [->|[Hl Hg]]; [by rewrite has_flag_set|rewrite has_flag_set_other by done; intros H; rewrite Hg; by apply Hc]).
  - cbn [store_member ce_mask]. unfold set_flag. by rewrite Z.land_lor_distr_l, Hm, Hall.
Qed.

(** The bytes of an address. *)
Lemma addr_load a n : addr_ok a -> 0 <= n <= a_len a -> exists s, load (a_addr a) 0 n = Done s /\ bytes_ok s /\ zlen s = n.
Proof.
  intros ([Hl Hz] & Hb & _) Hn. rewrite load_done by lia. eexists. split; [done|]. split; [|apply zlen_sub; lia].
  replace (sub (a_addr a) 0 n) with (sub (addr_bytes a) 0 n); [by apply bytes_ok_sub|]. unfold addr_bytes. rewrite sub_sub by lia.
  by rewrite Z.add_0_r.
Qed.
Lemma kind_set_ok ats ms canon (f : body V -> body V) :
  (forall x, typed ms (ce_data x) -> typed ms (ce_data (f x))) ->
  (canon = true -> forall x, canonical ms x -> canonical ms (f x)) ->
  set_ok ats ms canon (fun l => kind_set ats l f).
Proof.
  intros Ht Hc l x Ha Hl Hx. unfold kind_set, of_kind. rewrite bool_decide_eq_true_2 by done. rewrite Hl. exec_simpl.
  exists 0, (put_data l (f x)). split; [done|]. right. exists (f x). eauto.
Qed.
Lemma kind_set_if_ok ats ms canon c err (f : body V -> body V) :
  (c = true -> forall x, typed ms (ce_data x) -> typed ms (ce_data (f x))) ->
  (canon = true -> forall x, canonical ms x -> canonical ms (f x)) ->
  set_ok ats ms canon (fun l => kind_set_if ats l c err f).
Proof.
  intros Ht Hc l x Ha Hl Hx. unfold kind_set_if, of_kind. rewrite bool_decide_eq_true_2 by done. rewrite Hl. exec_simpl.
  destruct c; [|exists (- err), l; by split; [|left]].
  exists 0, (put_data l (f x)). split; [done|]. right. exists (f x). eauto.
Qed.
(** The same for an address, canonical data staying so unless the structure has an
    address of the other family. *)
Definition other_bit (a : nl_addr) (bit4 bit6 : Z) : Z := if nl_addr_get_family a =? AF_INET then bit6 else bit4.
Definition set_addr_ok (ats : list Z) ms (bit4 bit6 : Z) (run : link -> nl_addr -> exec (Z * link)) : Prop :=
  forall a l x, addr_ok a -> l_info_ops (ce_data l) ∈ ats -> kind_data l = Done x -> typed ms (ce_data x) ->
    exists e l', run l a = Done (e, l') /\
      (l' = l \/ exists y, l' = put_data l y /\ typed ms (ce_data y) /\
        (has_attr x (other_bit a bit4 bit6) = false -> canonical ms x -> canonical ms y)).
Lemma clear_unset m b other : Z.land b other = 0 -> has_flag m other = false -> clear_flag (set_flag m b) other = set_flag m b.
Proof.
  unfold has_flag, clear_flag, set_flag. intros Hb Hm. apply negb_false_iff, Z.eqb_eq in Hm.
  rewrite <- Z.ldiff_land. apply Z.bits_inj'. intros i Hi. rewrite Z.ldiff_spec, Z.lor_spec.
  pose proof (f_equal (fun z => Z.testbit z i) Hb) as B1. pose proof (f_equal (fun z => Z.testbit z i) Hm) as B2. cbv beta in B1, B2.
  rewrite Z.land_spec, Z.bits_0 in B1, B2. destruct (Z.testbit m i), (Z.testbit b i), (Z.testbit other i); done.
Qed.
Lemma kind_set_addr_canonical ats ms bit4 bit6 set4 set6 :
  (forall v d, 0 <= v < 4294967296 -> typed ms d -> typed ms (set4 v d)) ->
  (forall s d, bytes_ok s -> zlen s = 16 -> typed ms d -> typed ms (set6 s d)) ->
  bit4 <> 0 -> bit6 <> 0 -> Z.land bit4 bit6 = 0 ->
  Z.land bit4 (all_bits ms) = bit4 -> Z.land bit6 (all_bits ms) = bit6 ->
  (forall v, Forall (member_kept bit4 (set4 v)) ms) -> (forall s, Forall (member_kept bit6 (set6 s)) ms) ->
  set_addr_ok ats ms bit4 bit6 (fun l a => kind_set_addr ats l bit4 bit6 set4 set6 a).
Proof.
  intros H4 H6 N4 N6 Hd A4 A6 K4 K6 a l x Hok Ha Hl Hx. unfold kind_set_addr, of_kind, other_bit.
  rewrite bool_decide_eq_true_2 by done. rewrite Hl. exec_simpl.
  pose proof (fun n => addr_load a n Hok) as Hload. unfold nl_addr_get_len, nl_addr_get_binary_addr.
  destruct (nl_addr_get_family a =? AF_INET) eqn:E4; cbn [andb].
  - bool_hyps. rewrite E4. change (AF_INET =? AF_INET6) with false. cbn [andb].
    destruct (a_len a =? 4) eqn:El; [|exists (- NLE_INVAL), l; by split; [|left]]. bool_hyps.
    destruct (Hload 4) as (s & -> & Hb & Hz); [lia|]. exec_simpl. eexists _, _. split; [done|]. right. eexists. split; [done|]. split.
    + apply H4; [|done]. pose proof (le_decode_range s Hb) as Hr. by rewrite Hz in Hr.
    + intros Ho Hc. rewrite clear_unset by done. by apply store_canonical.
  - destruct ((nl_addr_get_family a =? AF_INET6) && _) eqn:E6; [|exists (- NLE_INVAL), l; by split; [|left]].
    bool_hyps. destruct (Hload 16) as (s & -> & Hb & Hz); [lia|]. exec_simpl. eexists _, _. split; [done|]. right. eexists. split; [done|]. split.
    + by apply H6.
    + intros Ho Hc. rewrite clear_unset by (by rewrite 1?Z.land_comm). by apply store_canonical.
Qed.
Lemma kind_get_done {T} ats (l : link) x (f : body V -> T) :
  l_info_ops (ce_data l) ∈ ats -> kind_data l = Done x -> kind_get ats l f = Done (f x).
Proof. intros Ha Hl. unfold kind_get, of_kind. rewrite bool_decide_eq_true_2 by done. rewrite Hl. done. Qed.

(** The data of a kind in a link. *)
Definition data_of ms (o : option I) : Prop := exists x : body V, o = Some (pack x) /\ typed ms (ce_data x).
Lemma data_of_kind ms (l : link) : data_of ms (l_info (ce_data l)) -> exists x, kind_data l = Done x /\ typed ms (ce_data x).
Proof. intros (x & Hl & Hx). exists x. split; [|done]. unfold kind_data. by rewrite Hl, unpack_pack. Qed.
Lemma alloc_data ms c zero (l : link) :
  typed ms zero ->
  exists x, (kind_alloc c zero l).2 = with_info l x /\ ((kind_alloc c zero l).1 < 0 -> x = l_info (ce_data l)) /\
    (0 <= (kind_alloc c zero l).1 -> data_of ms x).
Proof.
  intros Hz. unfold kind_alloc. destruct (is_some _ || c).
  - eexists. split; [done|]. split; [done|]. intros _. by exists (Body 0 zero).
  - exists (l_info (ce_data l)). split; [by destruct l as [m []]|]. split; [done|]. done.
Qed.
End Setters.

(** *** Automation for the kinds *)

Lemma s32_range v : -2147483648 <= s32 v < 2147483648.
Proof. unfold s32. change (2 ^ 31) with 2147483648. change (2 ^ 32) with 4294967296. zdiv_lia. Qed.
Lemma u64_range v : 0 <= u64 v < 18446744073709551616.
Proof. unfold u64. zdiv_lia. Qed.
Lemma htons_range v : 0 <= htons v < 65536.
Proof.
  unfold htons, ntohs. pose proof (u16_range v). change 65536 with (2 ^ 16). change 256 with (2 ^ 8).
  apply lor_range; [lia| |]; rewrite ?Z.shiftl_mul_pow2 by lia; zdiv_lia.
Qed.
Lemma htonl_range v : 0 <= htonl v < 4294967296.
Proof.
  unfold htonl. apply (le_decode_range (rev (le_encode 4 v))). apply Forall_forall. intros x Hx.
  apply list_elem_of_In, in_rev, list_elem_of_In in Hx. pose proof (bytes_ok_le_encode 4 v) as Hb. by eapply Forall_forall in Hb.
Qed.
Lemma flag_add a f m : Z.land f m = f -> Z.land a m = a -> Z.land (Z.lor a f) m = Z.lor a f.
Proof. intros Hf Ha. by rewrite Z.land_lor_distr_l, Hf, Ha. Qed.
Lemma typed_at {V} i (ms : list (member V)) m d : typed ms d -> ms !! i = Some m -> member_typed d m.
Proof. intros Hd Hi. by eapply Forall_lookup_1 in Hd. Qed.
(** One after the other: the member that changes, or one that stays. *)
Ltac typed_members :=
  repeat match goal with
    | H : typed _ _ |- _ => unfold typed in H
    | |- typed _ _ => unfold typed
    end;
  repeat match goal with
    | H : Forall ?f (_ :: _) |- Forall ?g (_ :: _) =>
        let H1 := fresh in apply Forall_cons in H as [H1 H]; apply Forall_cons_2; [first [exact H1|clear H]|clear H1]
    | |- Forall _ [] => apply Forall_nil_2
    | |- Forall _ (_ :: _) => apply Forall_cons_2
    end.
Ltac member_range :=
  cbn [member_typed];
  first [ assumption | solve [split; assumption] | solve [split; [first [solve [auto with nl]|apply (bool_decide_unpack (Forall _ _)); vm_compute; reflexivity]|reflexivity]]
        | solve [split; [by apply Z.leb_le|by apply Z.ltb_lt]] | apply s32_range | apply u8_range | apply u16_range | apply u32_range | apply u64_range | apply flag_add; [reflexivity|assumption] | apply htons_range | apply htonl_range | reflexivity ].
Ltac desc_reader :=
  cbn [reading_ok rd_how rd_u8 rd_u16 rd_u32 rd_u64 rd_s32 rd_raw rd_flag];
  first
    [ split; [lia|]; split;
      [ intros ? Hd; unfold typed in Hd; repeat (let H := fresh in apply Forall_cons in Hd as [H Hd]; try exact H)
      | intros; typed_members; member_range ]
    | intros; typed_members; member_range ].
Ltac desc_writer :=
  unfold writer_ok, put_s32, put_u8, put_u16, put_u32, put_u64, put_raw, put_flag, put_u8_else; cbn [wr_how wr_type]; split;
  [ split; [apply Z.leb_le|apply Z.ltb_lt]; reflexivity
  | first [ lia
          | split; [lia|]; intros ? Hd; first [split; [constructor|reflexivity]|unfold typed in Hd; repeat (let H := fresh in apply Forall_cons in Hd as [H Hd]; try exact H)] ] ].
Ltac each := repeat first [apply Forall_nil_2|apply Forall_cons_2].
Ltac desc_tac ms :=
  match goal with |- desc_ok ?k => unfold k end;
  split; cbn [k_zero k_max k_policy k_readers k_writers k_members];
  [ unfold typed, ms; each; member_range
  | vm_compute; reflexivity | vm_compute; reflexivity | vm_compute; reflexivity | vm_compute; reflexivity
  | each; unfold ms; desc_reader
  | each; unfold ms; desc_writer
  | apply (bool_decide_unpack _); vm_compute; reflexivity ].
Ltac paired_tac := split; [reflexivity|]; cbn; repeat split; first [reflexivity|lia|intros []; reflexivity].
Ltac regular_tac :=
  match goal with |- regular ?k => unfold k end;
  split; cbn [k_zero k_readers k_writers k_members];
  [ vm_compute; reflexivity
  | repeat first [apply Forall2_nil_2|apply Forall2_cons_2; [paired_tac|]]
  | try solve [intros [] _; repeat split] ].
Ltac sends_tac :=
  each; (split; [first [reflexivity|match goal with H : @eq bool _ _ |- _ => exact (f_equal Some H) end]|first [assumption|intros _; apply Z.land_0_r]]).

(** A list of functions that store members. *)
Ltac canonical_tac ms := unfold ms; apply store_canonical; [done|reflexivity|each; first [left; reflexivity|right; split; reflexivity|done]|done].
Ltac set_tac ms :=
  first
    [ apply kind_set_ok; [intros x Hx; cbn [store_member ce_data]; unfold ms in *; typed_members; member_range|]
    | apply kind_set_if_ok; [intros Hle x Hx; cbn [store_member ce_data]; unfold ms in *; typed_members; member_range|] ];
  first [discriminate|intros _ x Hx; canonical_tac ms].

Ltac addr_tac ms :=
  apply kind_set_addr_canonical;
  [ intros; unfold ms in *; typed_members; member_range
  | intros; unfold ms in *; typed_members; member_range
  | done | done | reflexivity | reflexivity | reflexivity
  | intros; unfold ms; each; first [left; reflexivity|right; split; reflexivity|done]
  | intros; unfold ms; each; first [left; reflexivity|right; split; reflexivity|done] ].
(** What is not stored is as it was. *)
Ltac each_kept :=
  repeat match goal with
    | H : Forall (member_clear _) (_ :: _) |- _ => let H1 := fresh in apply Forall_cons in H as [H1 H]
    end; each; assumption.
