(* ===== verification/KindTunnel.v ===== *)
(** The kinds of tunnels: lib/route/link/ipip.c, ipgre.c (gre and gretap), ipvti.c,
    sit.c, ip6tnl.c and xfrmi.c.  A section per kind: its structure, what its parser
    reads and its composer writes, its functions and the functions on its members;
    after it the description of the kind and what LinkKind proves about it. *)
From S2P Require Import Prelude Errors Msg Attr Data CString Addr Socket Nl Object Cache ObjAttr Wire Build Rtnl Ends StepMsg Sriov CacheDump LinkApi LinkReg Link LinkMsg LinkProps LinkKind.

(** linux/if_tunnel.h and linux/if_link.h, as far as the kinds use them. *)
Definition IFLA_IPTUN_LINK := 1.
Definition IFLA_IPTUN_LOCAL := 2.
Definition IFLA_IPTUN_REMOTE := 3.
Definition IFLA_IPTUN_TTL := 4.
Definition IFLA_IPTUN_TOS := 5.
Definition IFLA_IPTUN_ENCAP_LIMIT := 6.
Definition IFLA_IPTUN_FLOWINFO := 7.
Definition IFLA_IPTUN_FLAGS := 8.
Definition IFLA_IPTUN_PROTO := 9.
Definition IFLA_IPTUN_PMTUDISC := 10.
Definition IFLA_IPTUN_6RD_PREFIX := 11.
Definition IFLA_IPTUN_6RD_RELAY_PREFIX := 12.
Definition IFLA_IPTUN_6RD_PREFIXLEN := 13.
Definition IFLA_IPTUN_6RD_RELAY_PREFIXLEN := 14.
Definition IFLA_IPTUN_MAX := 20.
Definition IFLA_GRE_LINK := 1.
Definition IFLA_GRE_IFLAGS := 2.
Definition IFLA_GRE_OFLAGS := 3.
Definition IFLA_GRE_IKEY := 4.
Definition IFLA_GRE_OKEY := 5.
Definition IFLA_GRE_LOCAL := 6.
Definition IFLA_GRE_REMOTE := 7.
Definition IFLA_GRE_TTL := 8.
Definition IFLA_GRE_TOS := 9.
Definition IFLA_GRE_PMTUDISC := 10.
Definition IFLA_GRE_MAX := 24.
Definition IFLA_VTI_LINK := 1.
Definition IFLA_VTI_IKEY := 2.
Definition IFLA_VTI_OKEY := 3.
Definition IFLA_VTI_LOCAL := 4.
Definition IFLA_VTI_REMOTE := 5.
Definition IFLA_VTI_FWMARK := 6.
Definition IFLA_VTI_MAX := 6.
Definition IFLA_XFRM_LINK := 1.
Definition IFLA_XFRM_IF_ID := 2.
Definition IFLA_XFRM_MAX := 2.


(** ** IPIP tunnels (lib/route/link/ipip.c) *)

Definition IPIP_ATTR_LINK := 1.
Definition IPIP_ATTR_LOCAL := 2.
Definition IPIP_ATTR_REMOTE := 4.
Definition IPIP_ATTR_TTL := 8.
Definition IPIP_ATTR_TOS := 16.
Definition IPIP_ATTR_PMTUDISC := 32.

Record ipip_info := {
  ipip_ttl : Z;
  ipip_tos : Z;
  ipip_pmtudisc : Z;
  ipip_link : Z;
  ipip_local : Z;
  ipip_remote : Z
}.
#[export] Instance eta_ipip : Eta ipip_info := fun r =>
  {| ipip_ttl := ipip_ttl r; ipip_tos := ipip_tos r; ipip_pmtudisc := ipip_pmtudisc r; ipip_link := ipip_link r;
     ipip_local := ipip_local r; ipip_remote := ipip_remote r |}.
Definition ipip_0 : ipip_info :=
  {| ipip_ttl := 0; ipip_tos := 0; ipip_pmtudisc := 0; ipip_link := 0; ipip_local := 0; ipip_remote := 0 |}.

Definition ipip_policy : list nla_policy :=
  policy_of IFLA_IPTUN_MAX [(IFLA_IPTUN_LINK, pol_of NLA_U32); (IFLA_IPTUN_LOCAL, pol_of NLA_U32);
    (IFLA_IPTUN_REMOTE, pol_of NLA_U32); (IFLA_IPTUN_TTL, pol_of NLA_U8); (IFLA_IPTUN_TOS, pol_of NLA_U8);
    (IFLA_IPTUN_PMTUDISC, pol_of NLA_U8)].

Definition ipip_readers : list (reader ipip_info) :=
  [rd_u32 IFLA_IPTUN_LINK IPIP_ATTR_LINK (fun v d => d <| ipip_link := v |>);
   rd_u32 IFLA_IPTUN_LOCAL IPIP_ATTR_LOCAL (fun v d => d <| ipip_local := v |>);
   rd_u32 IFLA_IPTUN_REMOTE IPIP_ATTR_REMOTE (fun v d => d <| ipip_remote := v |>);
   rd_u8 IFLA_IPTUN_TTL IPIP_ATTR_TTL (fun v d => d <| ipip_ttl := v |>);
   rd_u8 IFLA_IPTUN_TOS IPIP_ATTR_TOS (fun v d => d <| ipip_tos := v |>);
   rd_u8 IFLA_IPTUN_PMTUDISC IPIP_ATTR_PMTUDISC (fun v d => d <| ipip_pmtudisc := v |>)].
Definition ipip_writers : list (writer ipip_info) :=
  [put_u32 IPIP_ATTR_LINK IFLA_IPTUN_LINK ipip_link;
   put_u32 IPIP_ATTR_LOCAL IFLA_IPTUN_LOCAL ipip_local;
   put_u32 IPIP_ATTR_REMOTE IFLA_IPTUN_REMOTE ipip_remote;
   put_u8 IPIP_ATTR_TTL IFLA_IPTUN_TTL ipip_ttl;
   put_u8 IPIP_ATTR_TOS IFLA_IPTUN_TOS ipip_tos;
   put_u8 IPIP_ATTR_PMTUDISC IFLA_IPTUN_PMTUDISC ipip_pmtudisc].
Definition ipip_members : list (member ipip_info) :=
  [Num IPIP_ATTR_LINK 4 ipip_link;
   Num IPIP_ATTR_LOCAL 4 ipip_local;
   Num IPIP_ATTR_REMOTE 4 ipip_remote;
   Num IPIP_ATTR_TTL 1 ipip_ttl;
   Num IPIP_ATTR_TOS 1 ipip_tos;
   Num IPIP_ATTR_PMTUDISC 1 ipip_pmtudisc].

(** The address of the table of the kind. *)
Definition ipip_at : Z := 1.
Section Ipip.
Context {I A : Type} {P : Packed I (body ipip_info)}.
Abbreviation link := (body (rtnl_link I A)).

Definition ipip_alloc (c : bool) : link -> Z * link := kind_alloc c ipip_0.
Definition ipip_free : link -> link := kind_free.
Definition ipip_parse (c : bool) : list Z -> link -> option Z -> option Z -> exec (Z * link) :=
  kind_read c ipip_0 IFLA_IPTUN_MAX ipip_policy ipip_readers.
Definition ipip_put_attrs : link -> nl_msg -> step_msg := kind_put (- NLE_MSGSIZE) 0 (run_writers ipip_writers).
Definition ipip_clone := kind_clone (A := A) (str "ipip") (fun _ => Bug).
Definition ipip_info_ops (c : bool) : rtnl_link_info_ops I A :=
  {| io_name := Some (str "ipip"); io_refcnt := 0; io_alloc := Some (ipip_alloc c);
     io_parse := Some (ipip_parse c);
     io_clone := Some ipip_clone; io_put_attrs := Some ipip_put_attrs; io_free := Some ipip_free;
     io_compare := None |}.

Definition rtnl_link_ipip_set_link (l : link) (index : Z) : exec (Z * link) :=
  kind_set [ipip_at] l (store_member IPIP_ATTR_LINK (fun d => d <| ipip_link := u32 index |>)).
Definition rtnl_link_ipip_get_link (l : link) : exec Z :=
  kind_get [ipip_at] l (fun x => ipip_link (ce_data x)).
Definition rtnl_link_ipip_set_local (l : link) (addr : Z) : exec (Z * link) :=
  kind_set [ipip_at] l (store_member IPIP_ATTR_LOCAL (fun d => d <| ipip_local := u32 addr |>)).
Definition rtnl_link_ipip_get_local (l : link) : exec Z :=
  kind_get [ipip_at] l (fun x => ipip_local (ce_data x)).
Definition rtnl_link_ipip_set_remote (l : link) (addr : Z) : exec (Z * link) :=
  kind_set [ipip_at] l (store_member IPIP_ATTR_REMOTE (fun d => d <| ipip_remote := u32 addr |>)).
Definition rtnl_link_ipip_get_remote (l : link) : exec Z :=
  kind_get [ipip_at] l (fun x => ipip_remote (ce_data x)).
Definition rtnl_link_ipip_set_ttl (l : link) (ttl : Z) : exec (Z * link) :=
  kind_set [ipip_at] l (store_member IPIP_ATTR_TTL (fun d => d <| ipip_ttl := u8 ttl |>)).
Definition rtnl_link_ipip_get_ttl (l : link) : exec Z :=
  kind_get [ipip_at] l (fun x => ipip_ttl (ce_data x)).
Definition rtnl_link_ipip_set_tos (l : link) (tos : Z) : exec (Z * link) :=
  kind_set [ipip_at] l (store_member IPIP_ATTR_TOS (fun d => d <| ipip_tos := u8 tos |>)).
Definition rtnl_link_ipip_get_tos (l : link) : exec Z :=
  kind_get [ipip_at] l (fun x => ipip_tos (ce_data x)).
Definition rtnl_link_ipip_set_pmtudisc (l : link) (pmtudisc : Z) : exec (Z * link) :=
  kind_set [ipip_at] l (store_member IPIP_ATTR_PMTUDISC (fun d => d <| ipip_pmtudisc := u8 pmtudisc |>)).
Definition rtnl_link_ipip_get_pmtudisc (l : link) : exec Z :=
  kind_get [ipip_at] l (fun x => ipip_pmtudisc (ce_data x)).
End Ipip.
Definition rtnl_link_ipip_alloc {I A} (g : link_reg I A) c c0 := alloc_of_kind g c c0 (str "ipip").
Definition rtnl_link_is_ipip {I A} (g : link_reg I A) l := is_kind g l (str "ipip").
Definition rtnl_link_ipip_add {I A W} (g : link_reg I A) c c0 (n : net W) pad2 pad4 :=
  add_of_kind g c c0 n pad2 pad4 (str "ipip").

Definition ipip_desc : kind_desc ipip_info :=
  Kind_desc ipip_0 IFLA_IPTUN_MAX ipip_policy ipip_readers ipip_writers ipip_members.
Lemma ipip_desc_ok : desc_ok ipip_desc.
Proof. desc_tac ipip_members. Qed.
Lemma ipip_covered : covered ipip_desc.
Proof. by vm_compute. Qed.
Lemma ipip_regular : regular ipip_desc.
Proof. regular_tac. Qed.
Lemma ipip_sends x : Forall (sends ipip_writers x) ipip_readers.
Proof. sends_tac. Qed.
(** The functions that set a member. *)
Definition ipip_setters {I A : Type} {P : Packed I (body ipip_info)} (v : Z) (s : list Z) : list (body (rtnl_link
  I A) -> exec (Z * body (rtnl_link I A))) :=
  [fun l => rtnl_link_ipip_set_link l v; fun l => rtnl_link_ipip_set_local l v;
   fun l => rtnl_link_ipip_set_remote l v; fun l => rtnl_link_ipip_set_ttl l v;
   fun l => rtnl_link_ipip_set_tos l v; fun l => rtnl_link_ipip_set_pmtudisc l v].
Lemma ipip_sets_ok {I A : Type} {P : Packed I (body ipip_info)} canon v s :
  bytes_ok s -> zlen s = 0 -> Forall (set_ok (I := I) (A := A) [ipip_at] ipip_members canon) (ipip_setters v s).
Proof. intros Hb Hz. unfold ipip_setters. each; set_tac ipip_members. Qed.

(** ** GRE tunnels (lib/route/link/ipgre.c) *)

Definition IPGRE_ATTR_LINK := 1.
Definition IPGRE_ATTR_IFLAGS := 2.
Definition IPGRE_ATTR_OFLAGS := 4.
Definition IPGRE_ATTR_IKEY := 8.
Definition IPGRE_ATTR_OKEY := 16.
Definition IPGRE_ATTR_LOCAL := 32.
Definition IPGRE_ATTR_REMOTE := 64.
Definition IPGRE_ATTR_TTL := 128.
Definition IPGRE_ATTR_TOS := 256.
Definition IPGRE_ATTR_PMTUDISC := 512.

Record ipgre_info := {
  ipgre_ttl : Z;
  ipgre_tos : Z;
  ipgre_pmtudisc : Z;
  ipgre_iflags : Z;
  ipgre_oflags : Z;
  ipgre_ikey : Z;
  ipgre_okey : Z;
  ipgre_link : Z;
  ipgre_local : Z;
  ipgre_remote : Z
}.
#[export] Instance eta_ipgre : Eta ipgre_info := fun r =>
  {| ipgre_ttl := ipgre_ttl r; ipgre_tos := ipgre_tos r; ipgre_pmtudisc := ipgre_pmtudisc r;
     ipgre_iflags := ipgre_iflags r; ipgre_oflags := ipgre_oflags r; ipgre_ikey := ipgre_ikey r;
     ipgre_okey := ipgre_okey r; ipgre_link := ipgre_link r; ipgre_local := ipgre_local r;
     ipgre_remote := ipgre_remote r |}.
Definition ipgre_0 : ipgre_info :=
  {| ipgre_ttl := 0; ipgre_tos := 0; ipgre_pmtudisc := 0; ipgre_iflags := 0; ipgre_oflags := 0; ipgre_ikey := 0;
     ipgre_okey := 0; ipgre_link := 0; ipgre_local := 0; ipgre_remote := 0 |}.

Definition ipgre_policy : list nla_policy :=
  policy_of IFLA_GRE_MAX [(IFLA_GRE_LINK, pol_of NLA_U32); (IFLA_GRE_IFLAGS, pol_of NLA_U16);
    (IFLA_GRE_OFLAGS, pol_of NLA_U16); (IFLA_GRE_IKEY, pol_of NLA_U32); (IFLA_GRE_OKEY, pol_of NLA_U32);
    (IFLA_GRE_LOCAL, pol_of NLA_U32); (IFLA_GRE_REMOTE, pol_of NLA_U32); (IFLA_GRE_TTL, pol_of NLA_U8);
    (IFLA_GRE_TOS, pol_of NLA_U8); (IFLA_GRE_PMTUDISC, pol_of NLA_U8)].

Definition ipgre_readers : list (reader ipgre_info) :=
  [rd_u32 IFLA_GRE_LINK IPGRE_ATTR_LINK (fun v d => d <| ipgre_link := v |>);
   rd_u16 IFLA_GRE_IFLAGS IPGRE_ATTR_IFLAGS (fun v d => d <| ipgre_iflags := v |>);
   rd_u16 IFLA_GRE_OFLAGS IPGRE_ATTR_OFLAGS (fun v d => d <| ipgre_oflags := v |>);
   rd_u32 IFLA_GRE_IKEY IPGRE_ATTR_IKEY (fun v d => d <| ipgre_ikey := v |>);
   rd_u32 IFLA_GRE_OKEY IPGRE_ATTR_OKEY (fun v d => d <| ipgre_okey := v |>);
   rd_u32 IFLA_GRE_LOCAL IPGRE_ATTR_LOCAL (fun v d => d <| ipgre_local := v |>);
   rd_u32 IFLA_GRE_REMOTE IPGRE_ATTR_REMOTE (fun v d => d <| ipgre_remote := v |>);
   rd_u8 IFLA_GRE_TTL IPGRE_ATTR_TTL (fun v d => d <| ipgre_ttl := v |>);
   rd_u8 IFLA_GRE_TOS IPGRE_ATTR_TOS (fun v d => d <| ipgre_tos := v |>);
   rd_u8 IFLA_GRE_PMTUDISC IPGRE_ATTR_PMTUDISC (fun v d => d <| ipgre_pmtudisc := v |>)].
Definition ipgre_writers : list (writer ipgre_info) :=
  [put_u32 IPGRE_ATTR_LINK IFLA_GRE_LINK ipgre_link;
   put_u16 IFLA_GRE_IFLAGS IFLA_GRE_IFLAGS ipgre_iflags;
   put_u16 IFLA_GRE_OFLAGS IFLA_GRE_OFLAGS ipgre_oflags;
   put_u32 IPGRE_ATTR_IKEY IFLA_GRE_IKEY ipgre_ikey;
   put_u32 IPGRE_ATTR_OKEY IFLA_GRE_OKEY ipgre_okey;
   put_u32 IPGRE_ATTR_LOCAL IFLA_GRE_LOCAL ipgre_local;
   put_u32 IPGRE_ATTR_REMOTE IFLA_GRE_REMOTE ipgre_remote;
   put_u8 IPGRE_ATTR_TTL IFLA_GRE_TTL ipgre_ttl;
   put_u8 IPGRE_ATTR_TOS IFLA_GRE_TOS ipgre_tos;
   put_u8 IPGRE_ATTR_PMTUDISC IFLA_GRE_PMTUDISC ipgre_pmtudisc].
Definition ipgre_members : list (member ipgre_info) :=
  [Num IPGRE_ATTR_LINK 4 ipgre_link;
   Num IPGRE_ATTR_IFLAGS 2 ipgre_iflags;
   Num IPGRE_ATTR_OFLAGS 2 ipgre_oflags;
   Num IPGRE_ATTR_IKEY 4 ipgre_ikey;
   Num IPGRE_ATTR_OKEY 4 ipgre_okey;
   Num IPGRE_ATTR_LOCAL 4 ipgre_local;
   Num IPGRE_ATTR_REMOTE 4 ipgre_remote;
   Num IPGRE_ATTR_TTL 1 ipgre_ttl;
   Num IPGRE_ATTR_TOS 1 ipgre_tos;
   Num IPGRE_ATTR_PMTUDISC 1 ipgre_pmtudisc].

(** The address of the table of the kind. *)
Definition ipgre_at : Z := 2.
Definition ipgretap_at : Z := 3.
Definition ipgre_ats := [ipgre_at; ipgretap_at].
Section Ipgre.
Context {I A : Type} {P : Packed I (body ipgre_info)}.
Abbreviation link := (body (rtnl_link I A)).

Definition ipgre_alloc (c : bool) : link -> Z * link := kind_alloc c ipgre_0.
Definition ipgre_free : link -> link := kind_free.
Definition ipgre_parse (c : bool) : list Z -> link -> option Z -> option Z -> exec (Z * link) :=
  kind_read c ipgre_0 IFLA_GRE_MAX ipgre_policy ipgre_readers.
Definition ipgre_put_attrs : link -> nl_msg -> step_msg := kind_put (- NLE_MSGSIZE) 0 (run_writers ipgre_writers).
Definition ipgre_clone := kind_clone (A := A) (str "gre") (fun _ => Bug).
Definition ipgretap_clone := kind_clone (A := A) (str "gretap") (fun _ => Bug).
Definition ipgre_info_ops (c : bool) : rtnl_link_info_ops I A :=
  {| io_name := Some (str "gre"); io_refcnt := 0; io_alloc := Some (ipgre_alloc c);
     io_parse := Some (ipgre_parse c);
     io_clone := Some ipgre_clone; io_put_attrs := Some ipgre_put_attrs; io_free := Some ipgre_free;
     io_compare := None |}.
Definition ipgretap_info_ops (c : bool) : rtnl_link_info_ops I A :=
  {| io_name := Some (str "gretap"); io_refcnt := 0; io_alloc := Some (ipgre_alloc c);
     io_parse := Some (ipgre_parse c);
     io_clone := Some ipgretap_clone; io_put_attrs := Some ipgre_put_attrs; io_free := Some ipgre_free;
     io_compare := None |}.

Definition rtnl_link_ipgre_set_link (l : link) (index : Z) : exec (Z * link) :=
  kind_set ipgre_ats l (store_member IPGRE_ATTR_LINK (fun d => d <| ipgre_link := u32 index |>)).
Definition rtnl_link_ipgre_get_link (l : link) : exec Z :=
  kind_get ipgre_ats l (fun x => ipgre_link (ce_data x)).
Definition rtnl_link_ipgre_set_iflags (l : link) (iflags : Z) : exec (Z * link) :=
  kind_set ipgre_ats l (store_member IPGRE_ATTR_IFLAGS (fun d => d <| ipgre_iflags := u16 iflags |>)).
Definition rtnl_link_ipgre_get_iflags (l : link) : exec Z :=
  kind_get ipgre_ats l (fun x => ipgre_iflags (ce_data x)).
Definition rtnl_link_ipgre_set_oflags (l : link) (oflags : Z) : exec (Z * link) :=
  kind_set ipgre_ats l (store_member IPGRE_ATTR_OFLAGS (fun d => d <| ipgre_oflags := u16 oflags |>)).
Definition rtnl_link_ipgre_get_oflags (l : link) : exec Z :=
  kind_get ipgre_ats l (fun x => ipgre_oflags (ce_data x)).
Definition rtnl_link_ipgre_set_ikey (l : link) (ikey : Z) : exec (Z * link) :=
  kind_set ipgre_ats l (store_member IPGRE_ATTR_IKEY (fun d => d <| ipgre_ikey := u32 ikey |>)).
Definition rtnl_link_ipgre_get_ikey (l : link) : exec Z :=
  kind_get ipgre_ats l (fun x => ipgre_ikey (ce_data x)).
Definition rtnl_link_ipgre_set_okey (l : link) (okey : Z) : exec (Z * link) :=
  kind_set ipgre_ats l (store_member IPGRE_ATTR_OKEY (fun d => d <| ipgre_okey := u32 okey |>)).
Definition rtnl_link_ipgre_get_okey (l : link) : exec Z :=
  kind_get ipgre_ats l (fun x => ipgre_okey (ce_data x)).
Definition rtnl_link_ipgre_set_local (l : link) (addr : Z) : exec (Z * link) :=
  kind_set ipgre_ats l (store_member IPGRE_ATTR_LOCAL (fun d => d <| ipgre_local := u32 addr |>)).
Definition rtnl_link_ipgre_get_local (l : link) : exec Z :=
  kind_get ipgre_ats l (fun x => ipgre_local (ce_data x)).
Definition rtnl_link_ipgre_set_remote (l : link) (remote : Z) : exec (Z * link) :=
  kind_set ipgre_ats l (store_member IPGRE_ATTR_REMOTE (fun d => d <| ipgre_remote := u32 remote |>)).
Definition rtnl_link_ipgre_get_remote (l : link) : exec Z :=
  kind_get ipgre_ats l (fun x => ipgre_remote (ce_data x)).
Definition rtnl_link_ipgre_set_ttl (l : link) (ttl : Z) : exec (Z * link) :=
  kind_set ipgre_ats l (store_member IPGRE_ATTR_TTL (fun d => d <| ipgre_ttl := u8 ttl |>)).
Definition rtnl_link_ipgre_get_ttl (l : link) : exec Z :=
  kind_get ipgre_ats l (fun x => ipgre_ttl (ce_data x)).
Definition rtnl_link_ipgre_set_tos (l : link) (tos : Z) : exec (Z * link) :=
  kind_set ipgre_ats l (store_member IPGRE_ATTR_TOS (fun d => d <| ipgre_tos := u8 tos |>)).
Definition rtnl_link_ipgre_get_tos (l : link) : exec Z :=
  kind_get ipgre_ats l (fun x => ipgre_tos (ce_data x)).
Definition rtnl_link_ipgre_set_pmtudisc (l : link) (pmtudisc : Z) : exec (Z * link) :=
  kind_set ipgre_ats l (store_member IPGRE_ATTR_PMTUDISC (fun d => d <| ipgre_pmtudisc := u8 pmtudisc |>)).
Definition rtnl_link_ipgre_get_pmtudisc (l : link) : exec Z :=
  kind_get ipgre_ats l (fun x => ipgre_pmtudisc (ce_data x)).
Definition rtnl_link_get_pmtudisc (l : link) : exec Z :=
  rtnl_link_ipgre_get_pmtudisc l.
End Ipgre.
Definition rtnl_link_ipgre_alloc {I A} (g : link_reg I A) c c0 := alloc_of_kind g c c0 (str "gre").
Definition rtnl_link_is_ipgre {I A} (g : link_reg I A) l := is_kind g l (str "gre").
Definition rtnl_link_ipgre_add {I A W} (g : link_reg I A) c c0 (n : net W) pad2 pad4 :=
  add_of_kind g c c0 n pad2 pad4 (str "gre").
Definition rtnl_link_ipgretap_alloc {I A} (g : link_reg I A) c c0 := alloc_of_kind g c c0 (str "gretap").
Definition rtnl_link_is_ipgretap {I A} (g : link_reg I A) l := is_kind g l (str "gretap").
Definition rtnl_link_ipgretap_add {I A W} (g : link_reg I A) c c0 (n : net W) pad2 pad4 :=
  add_of_kind g c c0 n pad2 pad4 (str "gretap").

Definition ipgre_desc : kind_desc ipgre_info :=
  Kind_desc ipgre_0 IFLA_GRE_MAX ipgre_policy ipgre_readers ipgre_writers ipgre_members.
Lemma ipgre_desc_ok : desc_ok ipgre_desc.
Proof. desc_tac ipgre_members. Qed.
Lemma ipgre_covered : covered ipgre_desc.
Proof. by vm_compute. Qed.
Lemma ipgre_regular : regular ipgre_desc.
Proof. regular_tac. Qed.
(** The functions that set a member. *)
Definition ipgre_setters {I A : Type} {P : Packed I (body ipgre_info)} (v : Z) (s : list Z) : list (body
  (rtnl_link I A) -> exec (Z * body (rtnl_link I A))) :=
  [fun l => rtnl_link_ipgre_set_link l v; fun l => rtnl_link_ipgre_set_iflags l v;
   fun l => rtnl_link_ipgre_set_oflags l v; fun l => rtnl_link_ipgre_set_ikey l v;
   fun l => rtnl_link_ipgre_set_okey l v; fun l => rtnl_link_ipgre_set_local l v;
   fun l => rtnl_link_ipgre_set_remote l v; fun l => rtnl_link_ipgre_set_ttl l v;
   fun l => rtnl_link_ipgre_set_tos l v; fun l => rtnl_link_ipgre_set_pmtudisc l v].
Lemma ipgre_sets_ok {I A : Type} {P : Packed I (body ipgre_info)} canon v s :
  bytes_ok s -> zlen s = 0 -> Forall (set_ok (I := I) (A := A) ipgre_ats ipgre_members canon) (ipgre_setters v s).
Proof. intros Hb Hz. unfold ipgre_setters. each; set_tac ipgre_members. Qed.

(** The mask is tested with the numbers of attributes: incoming flags by chance with
    their bit, outgoing flags with those of the link and of incoming flags. *)
Lemma ipgre_sends x :
  has_attr x IFLA_GRE_OFLAGS = has_attr x IPGRE_ATTR_OFLAGS -> Forall (sends ipgre_writers x) ipgre_readers.
Proof. intros Ho. sends_tac. Qed.
Lemma ipgre_oflags_lost v : sent ipgre_writers (store_member IPGRE_ATTR_OFLAGS (fun d => d <| ipgre_oflags := v |>) (Body 0 ipgre_0)) = [].
Proof. done. Qed.

(** ** VTI tunnels (lib/route/link/ipvti.c) *)

Definition IPVTI_ATTR_LINK := 1.
Definition IPVTI_ATTR_IKEY := 2.
Definition IPVTI_ATTR_OKEY := 4.
Definition IPVTI_ATTR_LOCAL := 8.
Definition IPVTI_ATTR_REMOTE := 16.

Record ipvti_info := {
  ipvti_link : Z;
  ipvti_ikey : Z;
  ipvti_okey : Z;
  ipvti_local : Z;
  ipvti_remote : Z
}.
#[export] Instance eta_ipvti : Eta ipvti_info := fun r =>
  {| ipvti_link := ipvti_link r; ipvti_ikey := ipvti_ikey r; ipvti_okey := ipvti_okey r;
     ipvti_local := ipvti_local r; ipvti_remote := ipvti_remote r |}.
Definition ipvti_0 : ipvti_info :=
  {| ipvti_link := 0; ipvti_ikey := 0; ipvti_okey := 0; ipvti_local := 0; ipvti_remote := 0 |}.

Definition ipvti_policy : list nla_policy :=
  policy_of IFLA_VTI_MAX [(IFLA_VTI_LINK, pol_of NLA_U32); (IFLA_VTI_IKEY, pol_of NLA_U32);
    (IFLA_VTI_OKEY, pol_of NLA_U32); (IFLA_VTI_LOCAL, pol_of NLA_U32); (IFLA_VTI_REMOTE, pol_of NLA_U32)].

Definition ipvti_readers : list (reader ipvti_info) :=
  [rd_u32 IFLA_VTI_LINK IPVTI_ATTR_LINK (fun v d => d <| ipvti_link := v |>);
   rd_u32 IFLA_VTI_IKEY IPVTI_ATTR_IKEY (fun v d => d <| ipvti_ikey := v |>);
   rd_u32 IFLA_VTI_OKEY IPVTI_ATTR_OKEY (fun v d => d <| ipvti_okey := v |>);
   rd_u32 IFLA_VTI_LOCAL IPVTI_ATTR_LOCAL (fun v d => d <| ipvti_local := v |>);
   rd_u32 IFLA_VTI_REMOTE IPVTI_ATTR_REMOTE (fun v d => d <| ipvti_remote := v |>)].
Definition ipvti_writers : list (writer ipvti_info) :=
  [put_u32 IPVTI_ATTR_LINK IFLA_VTI_LINK ipvti_link;
   put_u32 IPVTI_ATTR_IKEY IFLA_VTI_IKEY ipvti_ikey;
   put_u32 IFLA_VTI_IKEY IFLA_VTI_OKEY ipvti_okey;
   put_u32 IPVTI_ATTR_LOCAL IFLA_VTI_LOCAL ipvti_local;
   put_u32 IPVTI_ATTR_REMOTE IFLA_VTI_REMOTE ipvti_remote].
Definition ipvti_members : list (member ipvti_info) :=
  [Num IPVTI_ATTR_LINK 4 ipvti_link;
   Num IPVTI_ATTR_IKEY 4 ipvti_ikey;
   Num IPVTI_ATTR_OKEY 4 ipvti_okey;
   Num IPVTI_ATTR_LOCAL 4 ipvti_local;
   Num IPVTI_ATTR_REMOTE 4 ipvti_remote].

(** The address of the table of the kind. *)
Definition ipvti_at : Z := 4.
Section Ipvti.
Context {I A : Type} {P : Packed I (body ipvti_info)}.
Abbreviation link := (body (rtnl_link I A)).

Definition ipvti_alloc (c : bool) : link -> Z * link := kind_alloc c ipvti_0.
Definition ipvti_free : link -> link := kind_free.
Definition ipvti_parse (c : bool) : list Z -> link -> option Z -> option Z -> exec (Z * link) :=
  kind_read c ipvti_0 IFLA_VTI_MAX ipvti_policy ipvti_readers.
Definition ipvti_put_attrs : link -> nl_msg -> step_msg := kind_put (- NLE_MSGSIZE) 0 (run_writers ipvti_writers).
Definition ipvti_clone := kind_clone (A := A) (str "vti") (fun _ => Bug).
Definition ipvti_info_ops (c : bool) : rtnl_link_info_ops I A :=
  {| io_name := Some (str "vti"); io_refcnt := 0; io_alloc := Some (ipvti_alloc c);
     io_parse := Some (ipvti_parse c);
     io_clone := Some ipvti_clone; io_put_attrs := Some ipvti_put_attrs; io_free := Some ipvti_free;
     io_compare := None |}.

Definition rtnl_link_ipvti_set_link (l : link) (index : Z) : exec (Z * link) :=
  kind_set [ipvti_at] l (store_member IPVTI_ATTR_LINK (fun d => d <| ipvti_link := u32 index |>)).
Definition rtnl_link_ipvti_get_link (l : link) : exec Z :=
  kind_get [ipvti_at] l (fun x => ipvti_link (ce_data x)).
Definition rtnl_link_ipvti_set_ikey (l : link) (ikey : Z) : exec (Z * link) :=
  kind_set [ipvti_at] l (store_member IPVTI_ATTR_IKEY (fun d => d <| ipvti_ikey := u32 ikey |>)).
Definition rtnl_link_ipvti_get_ikey (l : link) : exec Z :=
  kind_get [ipvti_at] l (fun x => ipvti_ikey (ce_data x)).
Definition rtnl_link_ipvti_set_okey (l : link) (okey : Z) : exec (Z * link) :=
  kind_set [ipvti_at] l (store_member IPVTI_ATTR_OKEY (fun d => d <| ipvti_okey := u32 okey |>)).
Definition rtnl_link_ipvti_get_okey (l : link) : exec Z :=
  kind_get [ipvti_at] l (fun x => ipvti_okey (ce_data x)).
Definition rtnl_link_ipvti_set_local (l : link) (addr : Z) : exec (Z * link) :=
  kind_set [ipvti_at] l (store_member IPVTI_ATTR_LOCAL (fun d => d <| ipvti_local := u32 addr |>)).
Definition rtnl_link_ipvti_get_local (l : link) : exec Z :=
  kind_get [ipvti_at] l (fun x => ipvti_local (ce_data x)).
Definition rtnl_link_ipvti_set_remote (l : link) (remote : Z) : exec (Z * link) :=
  kind_set [ipvti_at] l (store_member IPVTI_ATTR_REMOTE (fun d => d <| ipvti_remote := u32 remote |>)).
Definition rtnl_link_ipvti_get_remote (l : link) : exec Z :=
  kind_get [ipvti_at] l (fun x => ipvti_remote (ce_data x)).
End Ipvti.
Definition rtnl_link_ipvti_alloc {I A} (g : link_reg I A) c c0 := alloc_of_kind g c c0 (str "vti").
Definition rtnl_link_is_ipvti {I A} (g : link_reg I A) l := is_kind g l (str "vti").
Definition rtnl_link_ipvti_add {I A W} (g : link_reg I A) c c0 (n : net W) pad2 pad4 :=
  add_of_kind g c c0 n pad2 pad4 (str "vti").

Definition ipvti_desc : kind_desc ipvti_info :=
  Kind_desc ipvti_0 IFLA_VTI_MAX ipvti_policy ipvti_readers ipvti_writers ipvti_members.
Lemma ipvti_desc_ok : desc_ok ipvti_desc.
Proof. desc_tac ipvti_members. Qed.
Lemma ipvti_covered : covered ipvti_desc.
Proof. by vm_compute. Qed.
Lemma ipvti_regular : regular ipvti_desc.
Proof. regular_tac. Qed.
(** The functions that set a member. *)
Definition ipvti_setters {I A : Type} {P : Packed I (body ipvti_info)} (v : Z) (s : list Z) : list (body
  (rtnl_link I A) -> exec (Z * body (rtnl_link I A))) :=
  [fun l => rtnl_link_ipvti_set_link l v; fun l => rtnl_link_ipvti_set_ikey l v;
   fun l => rtnl_link_ipvti_set_okey l v; fun l => rtnl_link_ipvti_set_local l v;
   fun l => rtnl_link_ipvti_set_remote l v].
Lemma ipvti_sets_ok {I A : Type} {P : Packed I (body ipvti_info)} canon v s :
  bytes_ok s -> zlen s = 0 -> Forall (set_ok (I := I) (A := A) [ipvti_at] ipvti_members canon) (ipvti_setters v s).
Proof. intros Hb Hz. unfold ipvti_setters. each; set_tac ipvti_members. Qed.

(** The key of outgoing packets is sent with that of incoming ones. *)
Lemma ipvti_sends x :
  has_attr x IPVTI_ATTR_IKEY = has_attr x IPVTI_ATTR_OKEY -> Forall (sends ipvti_writers x) ipvti_readers.
Proof. intros Hk. sends_tac. Qed.
Lemma ipvti_okey_lost v : sent ipvti_writers (store_member IPVTI_ATTR_OKEY (fun d => d <| ipvti_okey := v |>) (Body 0 ipvti_0)) = [].
Proof. done. Qed.

(** ** SIT tunnels (lib/route/link/sit.c) *)

Definition SIT_ATTR_LINK := 1.
Definition SIT_ATTR_LOCAL := 2.
Definition SIT_ATTR_REMOTE := 4.
Definition SIT_ATTR_TTL := 8.
Definition SIT_ATTR_TOS := 16.
Definition SIT_ATTR_PMTUDISC := 32.
Definition SIT_ATTR_FLAGS := 64.
Definition SIT_ATTR_PROTO := 128.
Definition SIT_ATTR_6RD_PREFIX := 256.
Definition SIT_ATTR_6RD_RELAY_PREFIX := 512.
Definition SIT_ATTR_6RD_PREFIXLEN := 1024.
Definition SIT_ATTR_6RD_RELAY_PREFIXLEN := 2048.

Record sit_info := {
  sit_ttl : Z;
  sit_tos : Z;
  sit_pmtudisc : Z;
  sit_proto : Z;
  sit_flags : Z;
  sit_link : Z;
  sit_local : Z;
  sit_remote : Z;
  sit_ip6rd_prefix : list Z;
  sit_ip6rd_relay_prefix : Z;
  sit_ip6rd_prefixlen : Z;
  sit_ip6rd_relay_prefixlen : Z
}.
#[export] Instance eta_sit : Eta sit_info := fun r =>
  {| sit_ttl := sit_ttl r; sit_tos := sit_tos r; sit_pmtudisc := sit_pmtudisc r; sit_proto := sit_proto r;
     sit_flags := sit_flags r; sit_link := sit_link r; sit_local := sit_local r; sit_remote := sit_remote r;
     sit_ip6rd_prefix := sit_ip6rd_prefix r; sit_ip6rd_relay_prefix := sit_ip6rd_relay_prefix r;
     sit_ip6rd_prefixlen := sit_ip6rd_prefixlen r; sit_ip6rd_relay_prefixlen := sit_ip6rd_relay_prefixlen r |}.
Definition sit_0 : sit_info :=
  {| sit_ttl := 0; sit_tos := 0; sit_pmtudisc := 0; sit_proto := 0; sit_flags := 0; sit_link := 0; sit_local := 0;
     sit_remote := 0; sit_ip6rd_prefix := zeros 16; sit_ip6rd_relay_prefix := 0; sit_ip6rd_prefixlen := 0;
     sit_ip6rd_relay_prefixlen := 0 |}.

Definition sit_policy : list nla_policy :=
  policy_of IFLA_IPTUN_MAX [(IFLA_IPTUN_LINK, pol_of NLA_U32); (IFLA_IPTUN_LOCAL, pol_of NLA_U32);
    (IFLA_IPTUN_REMOTE, pol_of NLA_U32); (IFLA_IPTUN_TTL, pol_of NLA_U8); (IFLA_IPTUN_TOS, pol_of NLA_U8);
    (IFLA_IPTUN_PMTUDISC, pol_of NLA_U8); (IFLA_IPTUN_FLAGS, pol_of NLA_U16);
    (IFLA_IPTUN_PROTO, pol_of NLA_U8); (IFLA_IPTUN_6RD_PREFIX, pol_min 16);
    (IFLA_IPTUN_6RD_RELAY_PREFIX, pol_of NLA_U32); (IFLA_IPTUN_6RD_PREFIXLEN, pol_of NLA_U16);
    (IFLA_IPTUN_6RD_RELAY_PREFIXLEN, pol_of NLA_U16)].

Definition sit_readers : list (reader sit_info) :=
  [rd_u32 IFLA_IPTUN_LINK SIT_ATTR_LINK (fun v d => d <| sit_link := v |>);
   rd_u32 IFLA_IPTUN_LOCAL SIT_ATTR_LOCAL (fun v d => d <| sit_local := v |>);
   rd_u32 IFLA_IPTUN_REMOTE SIT_ATTR_REMOTE (fun v d => d <| sit_remote := v |>);
   rd_u8 IFLA_IPTUN_TTL SIT_ATTR_TTL (fun v d => d <| sit_ttl := v |>);
   rd_u8 IFLA_IPTUN_TOS SIT_ATTR_TOS (fun v d => d <| sit_tos := v |>);
   rd_u8 IFLA_IPTUN_PMTUDISC SIT_ATTR_PMTUDISC (fun v d => d <| sit_pmtudisc := v |>);
   rd_u16 IFLA_IPTUN_FLAGS SIT_ATTR_FLAGS (fun v d => d <| sit_flags := v |>);
   rd_u8 IFLA_IPTUN_PROTO SIT_ATTR_PROTO (fun v d => d <| sit_proto := v |>);
   rd_raw IFLA_IPTUN_6RD_PREFIX SIT_ATTR_6RD_PREFIX 16 sit_ip6rd_prefix (fun s d => d <| sit_ip6rd_prefix := s |>);
   rd_u32 IFLA_IPTUN_6RD_RELAY_PREFIX SIT_ATTR_6RD_RELAY_PREFIX (fun v d => d <| sit_ip6rd_relay_prefix := v |>);
   rd_u16 IFLA_IPTUN_6RD_PREFIXLEN SIT_ATTR_6RD_PREFIXLEN (fun v d => d <| sit_ip6rd_prefixlen := v |>);
   rd_u16 IFLA_IPTUN_6RD_RELAY_PREFIXLEN SIT_ATTR_6RD_RELAY_PREFIXLEN
     (fun v d => d <| sit_ip6rd_relay_prefixlen := v |>)].
Definition sit_writers : list (writer sit_info) :=
  [put_u32 SIT_ATTR_LINK IFLA_IPTUN_LINK sit_link;
   put_u32 SIT_ATTR_LOCAL IFLA_IPTUN_LOCAL sit_local;
   put_u32 SIT_ATTR_REMOTE IFLA_IPTUN_REMOTE sit_remote;
   put_u8 SIT_ATTR_TTL IFLA_IPTUN_TTL sit_ttl;
   put_u8 SIT_ATTR_TOS IFLA_IPTUN_TOS sit_tos;
   put_u8 SIT_ATTR_PMTUDISC IFLA_IPTUN_PMTUDISC sit_pmtudisc;
   put_u16 SIT_ATTR_FLAGS IFLA_IPTUN_FLAGS sit_flags;
   put_u8 SIT_ATTR_PROTO IFLA_IPTUN_PROTO sit_proto;
   put_raw SIT_ATTR_6RD_PREFIX IFLA_IPTUN_6RD_PREFIX 16 sit_ip6rd_prefix;
   put_u32 SIT_ATTR_6RD_RELAY_PREFIX IFLA_IPTUN_6RD_RELAY_PREFIX sit_ip6rd_relay_prefix;
   put_u16 SIT_ATTR_6RD_PREFIXLEN IFLA_IPTUN_6RD_PREFIXLEN sit_ip6rd_prefixlen;
   put_u16 SIT_ATTR_6RD_RELAY_PREFIXLEN IFLA_IPTUN_6RD_RELAY_PREFIXLEN sit_ip6rd_relay_prefixlen].
Definition sit_members : list (member sit_info) :=
  [Num SIT_ATTR_LINK 4 sit_link;
   Num SIT_ATTR_LOCAL 4 sit_local;
   Num SIT_ATTR_REMOTE 4 sit_remote;
   Num SIT_ATTR_TTL 1 sit_ttl;
   Num SIT_ATTR_TOS 1 sit_tos;
   Num SIT_ATTR_PMTUDISC 1 sit_pmtudisc;
   Num SIT_ATTR_FLAGS 2 sit_flags;
   Num SIT_ATTR_PROTO 1 sit_proto;
   Raw SIT_ATTR_6RD_PREFIX 16 sit_ip6rd_prefix;
   Num SIT_ATTR_6RD_RELAY_PREFIX 4 sit_ip6rd_relay_prefix;
   Num SIT_ATTR_6RD_PREFIXLEN 2 sit_ip6rd_prefixlen;
   Num SIT_ATTR_6RD_RELAY_PREFIXLEN 2 sit_ip6rd_relay_prefixlen].

(** The address of the table of the kind. *)
Definition sit_at : Z := 5.
Section Sit.
Context {I A : Type} {P : Packed I (body sit_info)}.
Abbreviation link := (body (rtnl_link I A)).

Definition sit_alloc (c : bool) : link -> Z * link := kind_alloc c sit_0.
Definition sit_free : link -> link := kind_free.
Definition sit_parse (c : bool) : list Z -> link -> option Z -> option Z -> exec (Z * link) :=
  kind_read c sit_0 IFLA_IPTUN_MAX sit_policy sit_readers.
Definition sit_put_attrs : link -> nl_msg -> step_msg := kind_put (- NLE_MSGSIZE) 0 (run_writers sit_writers).
Definition sit_clone := kind_clone (A := A) (str "sit") (no_memory).
Definition sit_info_ops (c : bool) : rtnl_link_info_ops I A :=
  {| io_name := Some (str "sit"); io_refcnt := 0; io_alloc := Some (sit_alloc c); io_parse := Some (sit_parse c);
     io_clone := Some sit_clone; io_put_attrs := Some sit_put_attrs; io_free := Some sit_free;
     io_compare := None |}.

Definition rtnl_link_sit_set_link (l : link) (index : Z) : exec (Z * link) :=
  kind_set [sit_at] l (store_member SIT_ATTR_LINK (fun d => d <| sit_link := u32 index |>)).
Definition rtnl_link_sit_get_link (l : link) : exec Z :=
  kind_get [sit_at] l (fun x => sit_link (ce_data x)).
Definition rtnl_link_sit_set_local (l : link) (addr : Z) : exec (Z * link) :=
  kind_set [sit_at] l (store_member SIT_ATTR_LOCAL (fun d => d <| sit_local := u32 addr |>)).
Definition rtnl_link_sit_get_local (l : link) : exec Z :=
  kind_get [sit_at] l (fun x => sit_local (ce_data x)).
Definition rtnl_link_sit_set_remote (l : link) (addr : Z) : exec (Z * link) :=
  kind_set [sit_at] l (store_member SIT_ATTR_REMOTE (fun d => d <| sit_remote := u32 addr |>)).
Definition rtnl_link_sit_get_remote (l : link) : exec Z :=
  kind_get [sit_at] l (fun x => sit_remote (ce_data x)).
Definition rtnl_link_sit_set_ttl (l : link) (ttl : Z) : exec (Z * link) :=
  kind_set [sit_at] l (store_member SIT_ATTR_TTL (fun d => d <| sit_ttl := u8 ttl |>)).
Definition rtnl_link_sit_get_ttl (l : link) : exec Z :=
  kind_get [sit_at] l (fun x => sit_ttl (ce_data x)).
Definition rtnl_link_sit_set_tos (l : link) (tos : Z) : exec (Z * link) :=
  kind_set [sit_at] l (store_member SIT_ATTR_TOS (fun d => d <| sit_tos := u8 tos |>)).
Definition rtnl_link_sit_get_tos (l : link) : exec Z :=
  kind_get [sit_at] l (fun x => sit_tos (ce_data x)).
Definition rtnl_link_sit_set_pmtudisc (l : link) (pmtudisc : Z) : exec (Z * link) :=
  kind_set [sit_at] l (store_member SIT_ATTR_PMTUDISC (fun d => d <| sit_pmtudisc := u8 pmtudisc |>)).
Definition rtnl_link_sit_get_pmtudisc (l : link) : exec Z :=
  kind_get [sit_at] l (fun x => sit_pmtudisc (ce_data x)).
Definition rtnl_link_sit_set_flags (l : link) (flags : Z) : exec (Z * link) :=
  kind_set [sit_at] l (store_member SIT_ATTR_FLAGS (fun d => d <| sit_flags := u16 flags |>)).
Definition rtnl_link_sit_get_flags (l : link) : exec Z :=
  kind_get [sit_at] l (fun x => sit_flags (ce_data x)).
Definition rtnl_link_sit_set_proto (l : link) (proto : Z) : exec (Z * link) :=
  kind_set [sit_at] l (store_member SIT_ATTR_PROTO (fun d => d <| sit_proto := u8 proto |>)).
Definition rtnl_link_sit_get_proto (l : link) : exec Z :=
  kind_get [sit_at] l (fun x => sit_proto (ce_data x)).
Definition rtnl_link_sit_set_ip6rd_prefix (l : link) (prefix : list Z) : exec (Z * link) :=
  kind_set [sit_at] l (store_member SIT_ATTR_6RD_PREFIX (fun d => d <| sit_ip6rd_prefix := prefix |>)).
Definition rtnl_link_sit_get_ip6rd_prefix (l : link) : exec (Z + list Z) :=
  kind_get_attr [sit_at] l NLE_NOATTR SIT_ATTR_6RD_PREFIX sit_ip6rd_prefix.
Definition rtnl_link_sit_set_ip6rd_prefixlen (l : link) (prefixlen : Z) : exec (Z * link) :=
  kind_set [sit_at] l (store_member SIT_ATTR_6RD_PREFIXLEN (fun d => d <| sit_ip6rd_prefixlen :=
    u16 prefixlen |>)).
Definition rtnl_link_sit_get_ip6rd_prefixlen (l : link) : exec (Z + Z) :=
  kind_get_attr [sit_at] l NLE_NOATTR SIT_ATTR_6RD_PREFIXLEN sit_ip6rd_prefixlen.
Definition rtnl_link_sit_set_ip6rd_relay_prefix (l : link) (prefix : Z) : exec (Z * link) :=
  kind_set [sit_at] l (store_member SIT_ATTR_6RD_RELAY_PREFIX (fun d => d <| sit_ip6rd_relay_prefix :=
    u32 prefix |>)).
Definition rtnl_link_sit_get_ip6rd_relay_prefix (l : link) : exec (Z + Z) :=
  kind_get_attr [sit_at] l NLE_NOATTR SIT_ATTR_6RD_RELAY_PREFIX sit_ip6rd_relay_prefix.
Definition rtnl_link_sit_set_ip6rd_relay_prefixlen (l : link) (prefixlen : Z) : exec (Z * link) :=
  kind_set [sit_at] l (store_member SIT_ATTR_6RD_RELAY_PREFIXLEN (fun d => d <| sit_ip6rd_relay_prefixlen :=
    u16 prefixlen |>)).
Definition rtnl_link_sit_get_ip6rd_relay_prefixlen (l : link) : exec (Z + Z) :=
  kind_get_attr [sit_at] l NLE_NOATTR SIT_ATTR_6RD_RELAY_PREFIX sit_ip6rd_relay_prefixlen.
End Sit.
Definition rtnl_link_sit_alloc {I A} (g : link_reg I A) c c0 := alloc_of_kind g c c0 (str "sit").
Definition rtnl_link_is_sit {I A} (g : link_reg I A) l := is_kind g l (str "sit").
Definition rtnl_link_sit_add {I A W} (g : link_reg I A) c c0 (n : net W) pad2 pad4 :=
  add_of_kind g c c0 n pad2 pad4 (str "sit").

Definition sit_desc : kind_desc sit_info :=
  Kind_desc sit_0 IFLA_IPTUN_MAX sit_policy sit_readers sit_writers sit_members.
Lemma sit_desc_ok : desc_ok sit_desc.
Proof. desc_tac sit_members. Qed.
Lemma sit_covered : covered sit_desc.
Proof. by vm_compute. Qed.
Lemma sit_regular : regular sit_desc.
Proof. regular_tac. Qed.
Lemma sit_sends x : Forall (sends sit_writers x) sit_readers.
Proof. sends_tac. Qed.
(** The functions that set a member to a number, or to 16 bytes. *)
Definition sit_setters {I A : Type} {P : Packed I (body sit_info)} (v : Z) (s : list Z) : list (body (rtnl_link I
  A) -> exec (Z * body (rtnl_link I A))) :=
  [fun l => rtnl_link_sit_set_link l v; fun l => rtnl_link_sit_set_local l v;
   fun l => rtnl_link_sit_set_remote l v; fun l => rtnl_link_sit_set_ttl l v; fun l => rtnl_link_sit_set_tos l v;
   fun l => rtnl_link_sit_set_pmtudisc l v; fun l => rtnl_link_sit_set_flags l v;
   fun l => rtnl_link_sit_set_proto l v; fun l => rtnl_link_sit_set_ip6rd_prefix l s;
   fun l => rtnl_link_sit_set_ip6rd_prefixlen l v; fun l => rtnl_link_sit_set_ip6rd_relay_prefix l v;
   fun l => rtnl_link_sit_set_ip6rd_relay_prefixlen l v].
Lemma sit_sets_ok {I A : Type} {P : Packed I (body sit_info)} canon v s :
  bytes_ok s -> zlen s = 16 -> Forall (set_ok (I := I) (A := A) [sit_at] sit_members canon) (sit_setters v s).
Proof. intros Hb Hz. unfold sit_setters. each; set_tac sit_members. Qed.

(** ** IPv6 tunnels (lib/route/link/ip6tnl.c) *)

Definition IP6_TNL_ATTR_LINK := 1.
Definition IP6_TNL_ATTR_LOCAL := 2.
Definition IP6_TNL_ATTR_REMOTE := 4.
Definition IP6_TNL_ATTR_TTL := 8.
Definition IP6_TNL_ATTR_TOS := 16.
Definition IP6_TNL_ATTR_ENCAPLIMIT := 32.
Definition IP6_TNL_ATTR_FLAGS := 64.
Definition IP6_TNL_ATTR_PROTO := 128.
Definition IP6_TNL_ATTR_FLOWINFO := 256.

Record ip6_tnl_info := {
  ip6_tnl_ttl : Z;
  ip6_tnl_tos : Z;
  ip6_tnl_encap_limit : Z;
  ip6_tnl_proto : Z;
  ip6_tnl_flags : Z;
  ip6_tnl_link : Z;
  ip6_tnl_flowinfo : Z;
  ip6_tnl_local : list Z;
  ip6_tnl_remote : list Z
}.
#[export] Instance eta_ip6_tnl : Eta ip6_tnl_info := fun r =>
  {| ip6_tnl_ttl := ip6_tnl_ttl r; ip6_tnl_tos := ip6_tnl_tos r; ip6_tnl_encap_limit := ip6_tnl_encap_limit r;
     ip6_tnl_proto := ip6_tnl_proto r; ip6_tnl_flags := ip6_tnl_flags r; ip6_tnl_link := ip6_tnl_link r;
     ip6_tnl_flowinfo := ip6_tnl_flowinfo r; ip6_tnl_local := ip6_tnl_local r;
     ip6_tnl_remote := ip6_tnl_remote r |}.
Definition ip6_tnl_0 : ip6_tnl_info :=
  {| ip6_tnl_ttl := 0; ip6_tnl_tos := 0; ip6_tnl_encap_limit := 0; ip6_tnl_proto := 0; ip6_tnl_flags := 0;
     ip6_tnl_link := 0; ip6_tnl_flowinfo := 0; ip6_tnl_local := zeros 16; ip6_tnl_remote := zeros 16 |}.

Definition ip6_tnl_policy : list nla_policy :=
  policy_of IFLA_IPTUN_MAX [(IFLA_IPTUN_LINK, pol_of NLA_U32); (IFLA_IPTUN_LOCAL, pol_min 16);
    (IFLA_IPTUN_REMOTE, pol_min 16); (IFLA_IPTUN_TTL, pol_of NLA_U8); (IFLA_IPTUN_TOS, pol_of NLA_U8);
    (IFLA_IPTUN_ENCAP_LIMIT, pol_of NLA_U8); (IFLA_IPTUN_FLOWINFO, pol_of NLA_U32);
    (IFLA_IPTUN_FLAGS, pol_of NLA_U32); (IFLA_IPTUN_PROTO, pol_of NLA_U8)].

Definition ip6_tnl_readers : list (reader ip6_tnl_info) :=
  [rd_u32 IFLA_IPTUN_LINK IP6_TNL_ATTR_LINK (fun v d => d <| ip6_tnl_link := v |>);
   rd_raw IFLA_IPTUN_LOCAL IP6_TNL_ATTR_LOCAL 16 ip6_tnl_local (fun s d => d <| ip6_tnl_local := s |>);
   rd_raw IFLA_IPTUN_REMOTE IP6_TNL_ATTR_REMOTE 16 ip6_tnl_remote (fun s d => d <| ip6_tnl_remote := s |>);
   rd_u8 IFLA_IPTUN_TTL IP6_TNL_ATTR_TTL (fun v d => d <| ip6_tnl_ttl := v |>);
   rd_u8 IFLA_IPTUN_TOS IP6_TNL_ATTR_TOS (fun v d => d <| ip6_tnl_tos := v |>);
   rd_u8 IFLA_IPTUN_ENCAP_LIMIT IP6_TNL_ATTR_ENCAPLIMIT (fun v d => d <| ip6_tnl_encap_limit := v |>);
   rd_u32 IFLA_IPTUN_FLAGS IP6_TNL_ATTR_FLAGS (fun v d => d <| ip6_tnl_flags := v |>);
   rd_u32 IFLA_IPTUN_FLOWINFO IP6_TNL_ATTR_FLOWINFO (fun v d => d <| ip6_tnl_flowinfo := v |>);
   rd_u8 IFLA_IPTUN_PROTO IP6_TNL_ATTR_PROTO (fun v d => d <| ip6_tnl_proto := v |>)].
Definition ip6_tnl_writers : list (writer ip6_tnl_info) :=
  [put_u32 IP6_TNL_ATTR_LINK IFLA_IPTUN_LINK ip6_tnl_link;
   put_raw IP6_TNL_ATTR_LOCAL IFLA_IPTUN_LOCAL 16 ip6_tnl_local;
   put_raw IP6_TNL_ATTR_REMOTE IFLA_IPTUN_REMOTE 16 ip6_tnl_remote;
   put_u8 IP6_TNL_ATTR_TTL IFLA_IPTUN_TTL ip6_tnl_ttl;
   put_u8 IP6_TNL_ATTR_TOS IFLA_IPTUN_TOS ip6_tnl_tos;
   put_u8 IP6_TNL_ATTR_ENCAPLIMIT IFLA_IPTUN_ENCAP_LIMIT ip6_tnl_encap_limit;
   put_u32 IP6_TNL_ATTR_FLAGS IFLA_IPTUN_FLAGS ip6_tnl_flags;
   put_u32 IP6_TNL_ATTR_FLOWINFO IFLA_IPTUN_FLOWINFO ip6_tnl_flowinfo;
   put_u8_else IP6_TNL_ATTR_PROTO IFLA_IPTUN_PROTO ip6_tnl_proto].
Definition ip6_tnl_members : list (member ip6_tnl_info) :=
  [Num IP6_TNL_ATTR_LINK 4 ip6_tnl_link;
   Raw IP6_TNL_ATTR_LOCAL 16 ip6_tnl_local;
   Raw IP6_TNL_ATTR_REMOTE 16 ip6_tnl_remote;
   Num IP6_TNL_ATTR_TTL 1 ip6_tnl_ttl;
   Num IP6_TNL_ATTR_TOS 1 ip6_tnl_tos;
   Num IP6_TNL_ATTR_ENCAPLIMIT 1 ip6_tnl_encap_limit;
   Num IP6_TNL_ATTR_FLAGS 4 ip6_tnl_flags;
   Num IP6_TNL_ATTR_FLOWINFO 4 ip6_tnl_flowinfo;
   Num IP6_TNL_ATTR_PROTO 1 ip6_tnl_proto].

(** The address of the table of the kind. *)
Definition ip6_tnl_at : Z := 6.
Section Ip6Tnl.
Context {I A : Type} {P : Packed I (body ip6_tnl_info)}.
Abbreviation link := (body (rtnl_link I A)).

Definition ip6_tnl_alloc (c : bool) : link -> Z * link := kind_alloc c ip6_tnl_0.
Definition ip6_tnl_free : link -> link := kind_free.
Definition ip6_tnl_parse (c : bool) : list Z -> link -> option Z -> option Z -> exec (Z * link) :=
  kind_read c ip6_tnl_0 IFLA_IPTUN_MAX ip6_tnl_policy ip6_tnl_readers.
Definition ip6_tnl_put_attrs : link -> nl_msg -> step_msg :=
  kind_put (- NLE_MSGSIZE) 0 (run_writers ip6_tnl_writers).
Definition ip6_tnl_clone := kind_clone (A := A) (str "ip6tnl") (fun _ => Bug).
Definition ip6_tnl_info_ops (c : bool) : rtnl_link_info_ops I A :=
  {| io_name := Some (str "ip6tnl"); io_refcnt := 0; io_alloc := Some (ip6_tnl_alloc c);
     io_parse := Some (ip6_tnl_parse c);
     io_clone := Some ip6_tnl_clone; io_put_attrs := Some ip6_tnl_put_attrs; io_free := Some ip6_tnl_free;
     io_compare := None |}.

Definition rtnl_link_ip6_tnl_set_link (l : link) (index : Z) : exec (Z * link) :=
  kind_set [ip6_tnl_at] l (store_member IP6_TNL_ATTR_LINK (fun d => d <| ip6_tnl_link := u32 index |>)).
Definition rtnl_link_ip6_tnl_get_link (l : link) : exec Z :=
  kind_get [ip6_tnl_at] l (fun x => ip6_tnl_link (ce_data x)).
Definition rtnl_link_ip6_tnl_set_local (l : link) (addr : list Z) : exec (Z * link) :=
  kind_set [ip6_tnl_at] l (store_member IP6_TNL_ATTR_LOCAL (fun d => d <| ip6_tnl_local := addr |>)).
Definition rtnl_link_ip6_tnl_get_local (l : link) : exec (list Z) :=
  kind_get [ip6_tnl_at] l (fun x => ip6_tnl_local (ce_data x)).
Definition rtnl_link_ip6_tnl_set_remote (l : link) (addr : list Z) : exec (Z * link) :=
  kind_set [ip6_tnl_at] l (store_member IP6_TNL_ATTR_REMOTE (fun d => d <| ip6_tnl_remote := addr |>)).
Definition rtnl_link_ip6_tnl_get_remote (l : link) : exec (list Z) :=
  kind_get [ip6_tnl_at] l (fun x => ip6_tnl_remote (ce_data x)).
Definition rtnl_link_ip6_tnl_set_ttl (l : link) (ttl : Z) : exec (Z * link) :=
  kind_set [ip6_tnl_at] l (store_member IP6_TNL_ATTR_TTL (fun d => d <| ip6_tnl_ttl := u8 ttl |>)).
Definition rtnl_link_ip6_tnl_get_ttl (l : link) : exec Z :=
  kind_get [ip6_tnl_at] l (fun x => ip6_tnl_ttl (ce_data x)).
Definition rtnl_link_ip6_tnl_set_tos (l : link) (tos : Z) : exec (Z * link) :=
  kind_set [ip6_tnl_at] l (store_member IP6_TNL_ATTR_TOS (fun d => d <| ip6_tnl_tos := u8 tos |>)).
Definition rtnl_link_ip6_tnl_get_tos (l : link) : exec Z :=
  kind_get [ip6_tnl_at] l (fun x => ip6_tnl_tos (ce_data x)).
Definition rtnl_link_ip6_tnl_set_encaplimit (l : link) (encap_limit : Z) : exec (Z * link) :=
  kind_set [ip6_tnl_at] l (store_member IP6_TNL_ATTR_ENCAPLIMIT (fun d => d <| ip6_tnl_encap_limit :=
    u8 encap_limit |>)).
Definition rtnl_link_ip6_tnl_get_encaplimit (l : link) : exec Z :=
  kind_get [ip6_tnl_at] l (fun x => ip6_tnl_encap_limit (ce_data x)).
Definition rtnl_link_ip6_tnl_set_flowinfo (l : link) (flowinfo : Z) : exec (Z * link) :=
  kind_set [ip6_tnl_at] l (store_member IP6_TNL_ATTR_FLOWINFO (fun d => d <| ip6_tnl_flowinfo := u32 flowinfo |>)).
Definition rtnl_link_ip6_tnl_get_flowinfo (l : link) : exec Z :=
  kind_get [ip6_tnl_at] l (fun x => ip6_tnl_flowinfo (ce_data x)).
Definition rtnl_link_ip6_tnl_set_flags (l : link) (flags : Z) : exec (Z * link) :=
  kind_set [ip6_tnl_at] l (store_member IP6_TNL_ATTR_FLAGS (fun d => d <| ip6_tnl_flags := u32 flags |>)).
Definition rtnl_link_ip6_tnl_get_flags (l : link) : exec Z :=
  kind_get [ip6_tnl_at] l (fun x => ip6_tnl_flags (ce_data x)).
Definition rtnl_link_ip6_tnl_set_proto (l : link) (proto : Z) : exec (Z * link) :=
  kind_set [ip6_tnl_at] l (store_member IP6_TNL_ATTR_PROTO (fun d => d <| ip6_tnl_proto := u8 proto |>)).
Definition rtnl_link_ip6_tnl_get_proto (l : link) : exec Z :=
  kind_get [ip6_tnl_at] l (fun x => ip6_tnl_proto (ce_data x)).
End Ip6Tnl.
Definition rtnl_link_ip6_tnl_alloc {I A} (g : link_reg I A) c c0 := alloc_of_kind g c c0 (str "ip6tnl").
Definition rtnl_link_is_ip6_tnl {I A} (g : link_reg I A) l := is_kind g l (str "ip6tnl").
Definition rtnl_link_ip6_tnl_add {I A W} (g : link_reg I A) c c0 (n : net W) pad2 pad4 :=
  add_of_kind g c c0 n pad2 pad4 (str "ip6tnl").

Definition ip6_tnl_desc : kind_desc ip6_tnl_info :=
  Kind_desc ip6_tnl_0 IFLA_IPTUN_MAX ip6_tnl_policy ip6_tnl_readers ip6_tnl_writers ip6_tnl_members.
Lemma ip6_tnl_desc_ok : desc_ok ip6_tnl_desc.
Proof. desc_tac ip6_tnl_members. Qed.
Lemma ip6_tnl_covered : covered ip6_tnl_desc.
Proof. by vm_compute. Qed.
Lemma ip6_tnl_regular : regular ip6_tnl_desc.
Proof. regular_tac. Qed.
(** The functions that set a member to a number, or to 16 bytes. *)
Definition ip6_tnl_setters {I A : Type} {P : Packed I (body ip6_tnl_info)} (v : Z) (s : list Z) : list (body
  (rtnl_link I A) -> exec (Z * body (rtnl_link I A))) :=
  [fun l => rtnl_link_ip6_tnl_set_link l v; fun l => rtnl_link_ip6_tnl_set_local l s;
   fun l => rtnl_link_ip6_tnl_set_remote l s; fun l => rtnl_link_ip6_tnl_set_ttl l v;
   fun l => rtnl_link_ip6_tnl_set_tos l v; fun l => rtnl_link_ip6_tnl_set_encaplimit l v;
   fun l => rtnl_link_ip6_tnl_set_flowinfo l v; fun l => rtnl_link_ip6_tnl_set_flags l v;
   fun l => rtnl_link_ip6_tnl_set_proto l v].
Lemma ip6_tnl_sets_ok {I A : Type} {P : Packed I (body ip6_tnl_info)} canon v s :
  bytes_ok s -> zlen s = 16 -> Forall (set_ok (I := I) (A :=
    A) [ip6_tnl_at] ip6_tnl_members canon) (ip6_tnl_setters v s).
Proof. intros Hb Hz. unfold ip6_tnl_setters. each; set_tac ip6_tnl_members. Qed.

(** The protocol is always sent: when it has not been set, as zero. *)
Lemma ip6_tnl_sends x : has_attr x IP6_TNL_ATTR_PROTO = true -> Forall (sends ip6_tnl_writers x) ip6_tnl_readers.
Proof.
  intros Hp. apply eq_sym in Hp. sends_tac.
Qed.

(** ** XFRM interfaces (lib/route/link/xfrmi.c) *)

Definition XFRMI_ATTR_LINK := 1.
Definition XFRMI_ATTR_IF_ID := 2.

Record xfrmi_info := {
  xfrmi_link : Z;
  xfrmi_if_id : Z
}.
#[export] Instance eta_xfrmi : Eta xfrmi_info := fun r =>
  {| xfrmi_link := xfrmi_link r; xfrmi_if_id := xfrmi_if_id r |}.
Definition xfrmi_0 : xfrmi_info :=
  {| xfrmi_link := 0; xfrmi_if_id := 0 |}.

Definition xfrmi_policy : list nla_policy :=
  policy_of IFLA_XFRM_MAX [(IFLA_XFRM_LINK, pol_of NLA_U32); (IFLA_XFRM_IF_ID, pol_of NLA_U32)].

Definition xfrmi_readers : list (reader xfrmi_info) :=
  [rd_u32 IFLA_XFRM_LINK XFRMI_ATTR_LINK (fun v d => d <| xfrmi_link := v |>);
   rd_u32 IFLA_XFRM_IF_ID XFRMI_ATTR_IF_ID (fun v d => d <| xfrmi_if_id := v |>)].
Definition xfrmi_writers : list (writer xfrmi_info) :=
  [put_u32 XFRMI_ATTR_LINK IFLA_XFRM_LINK xfrmi_link;
   put_u32 XFRMI_ATTR_IF_ID IFLA_XFRM_IF_ID xfrmi_if_id].
Definition xfrmi_members : list (member xfrmi_info) :=
  [Num XFRMI_ATTR_LINK 4 xfrmi_link;
   Num XFRMI_ATTR_IF_ID 4 xfrmi_if_id].

(** The address of the table of the kind. *)
Definition xfrmi_at : Z := 7.
Section Xfrmi.
Context {I A : Type} {P : Packed I (body xfrmi_info)}.
Abbreviation link := (body (rtnl_link I A)).

Definition xfrmi_alloc (c : bool) : link -> Z * link := kind_alloc c xfrmi_0.
Definition xfrmi_free : link -> link := kind_free.
Definition xfrmi_parse (c : bool) : list Z -> link -> option Z -> option Z -> exec (Z * link) :=
  kind_read c xfrmi_0 IFLA_XFRM_MAX xfrmi_policy xfrmi_readers.
Definition xfrmi_put_attrs : link -> nl_msg -> step_msg := kind_put (- NLE_MSGSIZE) 0 (run_writers xfrmi_writers).
Definition xfrmi_clone := kind_clone (A := A) (str "xfrm") (fun _ => Bug).
Definition xfrmi_info_ops (c : bool) : rtnl_link_info_ops I A :=
  {| io_name := Some (str "xfrm"); io_refcnt := 0; io_alloc := Some (xfrmi_alloc c);
     io_parse := Some (xfrmi_parse c);
     io_clone := Some xfrmi_clone; io_put_attrs := Some xfrmi_put_attrs; io_free := Some xfrmi_free;
     io_compare := None |}.

Definition rtnl_link_xfrmi_set_link (l : link) (index : Z) : exec (Z * link) :=
  kind_set [xfrmi_at] l (store_member XFRMI_ATTR_LINK (fun d => d <| xfrmi_link := u32 index |>)).
Definition rtnl_link_xfrmi_get_link (l : link) : exec (Z + Z) :=
  kind_get_attr [xfrmi_at] l NLE_NOATTR XFRMI_ATTR_LINK xfrmi_link.
Definition rtnl_link_xfrmi_set_if_id (l : link) (if_id : Z) : exec (Z * link) :=
  kind_set [xfrmi_at] l (store_member XFRMI_ATTR_IF_ID (fun d => d <| xfrmi_if_id := u32 if_id |>)).
Definition rtnl_link_xfrmi_get_if_id (l : link) : exec (Z + Z) :=
  kind_get_attr [xfrmi_at] l NLE_NOATTR XFRMI_ATTR_IF_ID xfrmi_if_id.
End Xfrmi.
Definition rtnl_link_xfrmi_alloc {I A} (g : link_reg I A) c c0 := alloc_of_kind g c c0 (str "xfrm").
Definition rtnl_link_is_xfrmi {I A} (g : link_reg I A) l := is_kind g l (str "xfrm").

Definition xfrmi_desc : kind_desc xfrmi_info :=
  Kind_desc xfrmi_0 IFLA_XFRM_MAX xfrmi_policy xfrmi_readers xfrmi_writers xfrmi_members.
Lemma xfrmi_desc_ok : desc_ok xfrmi_desc.
Proof. desc_tac xfrmi_members. Qed.
Lemma xfrmi_covered : covered xfrmi_desc.
Proof. by vm_compute. Qed.
Lemma xfrmi_regular : regular xfrmi_desc.
Proof. regular_tac. Qed.
Lemma xfrmi_sends x : Forall (sends xfrmi_writers x) xfrmi_readers.
Proof. sends_tac. Qed.
(** The functions that set a member. *)
Definition xfrmi_setters {I A : Type} {P : Packed I (body xfrmi_info)} (v : Z) (s : list Z) : list (body
  (rtnl_link I A) -> exec (Z * body (rtnl_link I A))) :=
  [fun l => rtnl_link_xfrmi_set_link l v; fun l => rtnl_link_xfrmi_set_if_id l v].
Lemma xfrmi_sets_ok {I A : Type} {P : Packed I (body xfrmi_info)} canon v s :
  bytes_ok s -> zlen s = 0 -> Forall (set_ok (I := I) (A := A) [xfrmi_at] xfrmi_members canon) (xfrmi_setters v s).
Proof. intros Hb Hz. unfold xfrmi_setters. each; set_tac xfrmi_members. Qed.
