(* ===== verification/KindMisc.v ===== *)
(** Kinds of links with few attributes, or none: lib/route/link/vrf.c, ppp.c,
    ipvlan.c, and dummy.c, ifb.c, bonding.c and team.c, whose tables hold a name. *)
From S2P Require Import Prelude Errors Msg Attr Data CString Addr Socket Nl Object Cache ObjAttr Wire Build Rtnl Ends StepMsg Sriov CacheDump LinkApi LinkReg Link LinkMsg LinkProps Utils LinkKind.

(** linux/if_link.h. *)
Definition IFLA_VRF_TABLE := 1.
Definition IFLA_VRF_MAX := 1.
Definition IFLA_PPP_DEV_FD := 1.
Definition IFLA_PPP_MAX := 1.
Definition IFLA_IPVLAN_MODE := 1.
Definition IFLA_IPVLAN_FLAGS := 2.
Definition IFLA_IPVLAN_MAX := 2.
Definition IPVLAN_MODE_L2 := 0.
Definition IPVLAN_MODE_L3 := 1.
Definition VRF_TABLE_ID_MAX := UINT32_MAX.


(** ** VRF (lib/route/link/vrf.c) *)

Definition VRF_HAS_TABLE_ID := 1.

Record vrf_info := {
  vrf_table_id : Z
}.
#[export] Instance eta_vrf : Eta vrf_info := fun r =>
  {| vrf_table_id := vrf_table_id r |}.
Definition vrf_0 : vrf_info :=
  {| vrf_table_id := 0 |}.

Definition vrf_policy : list nla_policy :=
  policy_of IFLA_VRF_MAX [(IFLA_VRF_TABLE, pol_of NLA_U32)].

Definition vrf_readers : list (reader vrf_info) :=
  [rd_u32 IFLA_VRF_TABLE VRF_HAS_TABLE_ID (fun v d => d <| vrf_table_id := v |>)].
Definition vrf_writers : list (writer vrf_info) :=
  [put_u32 VRF_HAS_TABLE_ID IFLA_VRF_TABLE vrf_table_id].
Definition vrf_members : list (member vrf_info) :=
  [Num VRF_HAS_TABLE_ID 4 vrf_table_id].

(** The address of the table of the kind. *)
Definition vrf_at : Z := 8.
Section Vrf.
Context {I A : Type} {P : Packed I (body vrf_info)}.
Abbreviation link := (body (rtnl_link I A)).

Definition vrf_alloc (c : bool) : link -> Z * link := kind_alloc c vrf_0.
Definition vrf_free : link -> link := kind_free.
Definition vrf_parse (c : bool) : list Z -> link -> option Z -> option Z -> exec (Z * link) :=
  kind_read c vrf_0 IFLA_VRF_MAX vrf_policy vrf_readers.
Definition vrf_put_attrs : link -> nl_msg -> step_msg := kind_put (- NLE_NOMEM) 0 (run_writers vrf_writers).
Definition vrf_clone := kind_clone (A := A) (str "vrf") (fun _ => Bug).
Definition vrf_info_ops (c : bool) : rtnl_link_info_ops I A :=
  {| io_name := Some (str "vrf"); io_refcnt := 0; io_alloc := Some (vrf_alloc c); io_parse := Some (vrf_parse c);
     io_clone := Some vrf_clone; io_put_attrs := Some vrf_put_attrs; io_free := Some vrf_free;
     io_compare := None |}.

Definition rtnl_link_vrf_get_tableid (l : link) : exec (Z + Z) :=
  kind_get_attr [vrf_at] l NLE_AGAIN VRF_HAS_TABLE_ID vrf_table_id.
Definition rtnl_link_vrf_set_tableid (l : link) (id : Z) : exec (Z * link) :=
  kind_set_if [vrf_at] l (u32 id <=? VRF_TABLE_ID_MAX) NLE_INVAL
    (store_member VRF_HAS_TABLE_ID (fun d => d <| vrf_table_id := u32 id |>)).
End Vrf.
Definition rtnl_link_vrf_alloc {I A} (g : link_reg I A) c c0 := alloc_of_kind g c c0 (str "vrf").
Definition rtnl_link_is_vrf {I A} (g : link_reg I A) l := is_kind g l (str "vrf").

Definition vrf_desc : kind_desc vrf_info :=
  Kind_desc vrf_0 IFLA_VRF_MAX vrf_policy vrf_readers vrf_writers vrf_members.
Lemma vrf_desc_ok : desc_ok vrf_desc.
Proof. desc_tac vrf_members. Qed.
Lemma vrf_covered : covered vrf_desc.
Proof. by vm_compute. Qed.
Lemma vrf_regular : regular vrf_desc.
Proof. regular_tac. Qed.
Lemma vrf_sends x : Forall (sends vrf_writers x) vrf_readers.
Proof. sends_tac. Qed.
(** The functions that set a member. *)
Definition vrf_setters {I A : Type} {P : Packed I (body vrf_info)} (v : Z) (s : list Z) : list (body (rtnl_link I
  A) -> exec (Z * body (rtnl_link I A))) :=
  [fun l => rtnl_link_vrf_set_tableid l v].
Lemma vrf_sets_ok {I A : Type} {P : Packed I (body vrf_info)} canon v s :
  bytes_ok s -> zlen s = 0 -> Forall (set_ok (I := I) (A := A) [vrf_at] vrf_members canon) (vrf_setters v s).
Proof. intros Hb Hz. unfold vrf_setters. each; set_tac vrf_members. Qed.

(** ** PPP (lib/route/link/ppp.c) *)

Definition PPP_ATTR_FD := 1.

Record ppp_info := {
  pi_fd : Z
}.
#[export] Instance eta_ppp : Eta ppp_info := fun r =>
  {| pi_fd := pi_fd r |}.
Definition ppp_0 : ppp_info :=
  {| pi_fd := 0 |}.

Definition ppp_nl_policy : list nla_policy :=
  policy_of IFLA_PPP_MAX [(IFLA_PPP_DEV_FD, pol_of NLA_S32)].

Definition ppp_readers : list (reader ppp_info) :=
  [rd_s32 IFLA_PPP_DEV_FD PPP_ATTR_FD (fun v d => d <| pi_fd := v |>)].
Definition ppp_writers : list (writer ppp_info) :=
  [put_s32 PPP_ATTR_FD IFLA_PPP_DEV_FD pi_fd].
Definition ppp_members : list (member ppp_info) :=
  [SNum PPP_ATTR_FD pi_fd].

(** The address of the table of the kind. *)
Definition ppp_at : Z := 9.
Section Ppp.
Context {I A : Type} {P : Packed I (body ppp_info)}.
Abbreviation link := (body (rtnl_link I A)).

Definition ppp_alloc (c : bool) : link -> Z * link := kind_alloc c ppp_0.
Definition ppp_free : link -> link := kind_free.
Definition ppp_parse (c : bool) : list Z -> link -> option Z -> option Z -> exec (Z * link) :=
  kind_read c ppp_0 IFLA_PPP_MAX ppp_nl_policy ppp_readers.
Definition ppp_put_attrs : link -> nl_msg -> step_msg := kind_put (- NLE_MSGSIZE) 0 (run_writers ppp_writers).
Definition ppp_clone := kind_clone (A := A) (str "ppp") (no_memory).
Definition ppp_info_ops (c : bool) : rtnl_link_info_ops I A :=
  {| io_name := Some (str "ppp"); io_refcnt := 0; io_alloc := Some (ppp_alloc c); io_parse := Some (ppp_parse c);
     io_clone := Some ppp_clone; io_put_attrs := Some ppp_put_attrs; io_free := Some ppp_free;
     io_compare := None |}.

Definition rtnl_link_ppp_set_fd (l : link) (fd : Z) : exec (Z * link) :=
  kind_set [ppp_at] l (store_member PPP_ATTR_FD (fun d => d <| pi_fd := s32 (Z.lor (pi_fd d) (s32 fd)) |>)).
Definition rtnl_link_ppp_get_fd (l : link) : exec (Z + Z) :=
  kind_get_attr [ppp_at] l NLE_NOATTR PPP_ATTR_FD pi_fd.
End Ppp.
Definition rtnl_link_ppp_alloc {I A} (g : link_reg I A) c c0 := alloc_of_kind g c c0 (str "ppp").

Definition ppp_desc : kind_desc ppp_info :=
  Kind_desc ppp_0 IFLA_PPP_MAX ppp_nl_policy ppp_readers ppp_writers ppp_members.
Lemma ppp_desc_ok : desc_ok ppp_desc.
Proof. desc_tac ppp_members. Qed.
Lemma ppp_regular : regular ppp_desc.
Proof. regular_tac. Qed.
Lemma ppp_sends x : Forall (sends ppp_writers x) ppp_readers.
Proof. sends_tac. Qed.
(** The functions that set a member. *)
Definition ppp_setters {I A : Type} {P : Packed I (body ppp_info)} (v : Z) (s : list Z) : list (body (rtnl_link I
  A) -> exec (Z * body (rtnl_link I A))) :=
  [fun l => rtnl_link_ppp_set_fd l v].
Lemma ppp_sets_ok {I A : Type} {P : Packed I (body ppp_info)} canon v s :
  bytes_ok s -> zlen s = 0 -> Forall (set_ok (I := I) (A := A) [ppp_at] ppp_members canon) (ppp_setters v s).
Proof. intros Hb Hz. unfold ppp_setters. each; set_tac ppp_members. Qed.

(** ** IPVLAN (lib/route/link/ipvlan.c) *)

Definition IPVLAN_HAS_MODE := 1.

Record ipvlan_info := {
  ipi_mode : Z
}.
#[export] Instance eta_ipvlan : Eta ipvlan_info := fun r =>
  {| ipi_mode := ipi_mode r |}.
Definition ipvlan_0 : ipvlan_info :=
  {| ipi_mode := 0 |}.

Definition ipvlan_policy : list nla_policy :=
  policy_of IFLA_IPVLAN_MAX [(IFLA_IPVLAN_MODE, pol_of NLA_U16)].

Definition ipvlan_readers : list (reader ipvlan_info) :=
  [rd_u16 IFLA_IPVLAN_MODE IPVLAN_HAS_MODE (fun v d => d <| ipi_mode := v |>)].
Definition ipvlan_writers : list (writer ipvlan_info) :=
  [put_u16 IPVLAN_HAS_MODE IFLA_IPVLAN_MODE ipi_mode].
Definition ipvlan_members : list (member ipvlan_info) :=
  [Num IPVLAN_HAS_MODE 2 ipi_mode].

(** The address of the table of the kind. *)
Definition ipvlan_at : Z := 10.
Section Ipvlan.
Context {I A : Type} {P : Packed I (body ipvlan_info)}.
Abbreviation link := (body (rtnl_link I A)).

Definition ipvlan_alloc (c : bool) : link -> Z * link := kind_alloc c ipvlan_0.
Definition ipvlan_free : link -> link := kind_free.
Definition ipvlan_parse (c : bool) : list Z -> link -> option Z -> option Z -> exec (Z * link) :=
  kind_read c ipvlan_0 IFLA_IPVLAN_MAX ipvlan_policy ipvlan_readers.
Definition ipvlan_put_attrs : link -> nl_msg -> step_msg :=
  kind_put (- NLE_MSGSIZE) 0 (run_writers ipvlan_writers).
Definition ipvlan_clone := kind_clone (A := A) (str "ipvlan") (no_memory).
Definition ipvlan_info_ops (c : bool) : rtnl_link_info_ops I A :=
  {| io_name := Some (str "ipvlan"); io_refcnt := 0; io_alloc := Some (ipvlan_alloc c);
     io_parse := Some (ipvlan_parse c);
     io_clone := Some ipvlan_clone; io_put_attrs := Some ipvlan_put_attrs; io_free := Some ipvlan_free;
     io_compare := None |}.

Definition rtnl_link_ipvlan_set_mode (l : link) (mode : Z) : exec (Z * link) :=
  kind_set [ipvlan_at] l (store_member IPVLAN_HAS_MODE (fun d => d <| ipi_mode := u16 mode |>)).
Definition rtnl_link_ipvlan_get_mode (l : link) : exec (Z + Z) :=
  kind_get_attr [ipvlan_at] l NLE_INVAL IPVLAN_HAS_MODE ipi_mode.
End Ipvlan.
Definition rtnl_link_ipvlan_alloc {I A} (g : link_reg I A) c c0 := alloc_of_kind g c c0 (str "ipvlan").
Definition rtnl_link_is_ipvlan {I A} (g : link_reg I A) l := is_kind g l (str "ipvlan").

Definition ipvlan_desc : kind_desc ipvlan_info :=
  Kind_desc ipvlan_0 IFLA_IPVLAN_MAX ipvlan_policy ipvlan_readers ipvlan_writers ipvlan_members.
Lemma ipvlan_desc_ok : desc_ok ipvlan_desc.
Proof. desc_tac ipvlan_members. Qed.
Lemma ipvlan_covered : covered ipvlan_desc.
Proof. by vm_compute. Qed.
Lemma ipvlan_regular : regular ipvlan_desc.
Proof. regular_tac. Qed.
Lemma ipvlan_sends x : Forall (sends ipvlan_writers x) ipvlan_readers.
Proof. sends_tac. Qed.
(** The functions that set a member. *)
Definition ipvlan_setters {I A : Type} {P : Packed I (body ipvlan_info)} (v : Z) (s : list Z) : list (body
  (rtnl_link I A) -> exec (Z * body (rtnl_link I A))) :=
  [fun l => rtnl_link_ipvlan_set_mode l v].
Lemma ipvlan_sets_ok {I A : Type} {P : Packed I (body ipvlan_info)} canon v s :
  bytes_ok s -> zlen s = 0 -> Forall (set_ok (I := I) (A :=
    A) [ipvlan_at] ipvlan_members canon) (ipvlan_setters v s).
Proof. intros Hb Hz. unfold ipvlan_setters. each; set_tac ipvlan_members. Qed.

Definition ipvlan_modes : list trans_tbl := [Tr IPVLAN_MODE_L2 "l2"; Tr IPVLAN_MODE_L3 "l3"].
Definition rtnl_link_ipvlan_mode2str mode old size := __type2str mode old size ipvlan_modes.
Definition rtnl_link_ipvlan_str2mode name := __str2type name ipvlan_modes.


(** ** Kinds that are a name (dummy.c, ifb.c, bonding.c, team.c) *)

Definition bare_info_ops {I A} (name : list Z) : rtnl_link_info_ops I A :=
  {| io_name := Some name; io_refcnt := 0; io_alloc := None; io_parse := None; io_clone := None;
     io_put_attrs := None; io_free := None; io_compare := None |}.
Definition dummy_info_ops {I A} : rtnl_link_info_ops I A := bare_info_ops (str "dummy").
Definition ifb_info_ops {I A} : rtnl_link_info_ops I A := bare_info_ops (str "ifb").
Definition bonding_info_ops {I A} : rtnl_link_info_ops I A := bare_info_ops (str "bond").
Definition team_info_ops {I A} : rtnl_link_info_ops I A := bare_info_ops (str "team").

(** The name of the new link: [name], or that of [opts]. *)
Definition name_or {I A} (name : option (list Z)) (opts : option (body (rtnl_link I A))) : option (list Z) :=
  match name, opts with
  | None, Some l => rtnl_link_get_name l
  | _, _ => name
  end.
Definition rtnl_link_bond_alloc {I A} (g : link_reg I A) c c0 := alloc_of_kind g c c0 (str "bond").
Definition rtnl_link_bond_add {I A W} (g : link_reg I A) c c0 (n : net W) pad2 pad4 p sk name (opts : option (body (rtnl_link I A))) :=
  add_of_kind g c c0 n pad2 pad4 (str "bond") p sk (name_or name opts).
Definition rtnl_link_team_alloc {I A} (g : link_reg I A) c c0 := alloc_of_kind g c c0 (str "team").
Definition rtnl_link_team_add {I A W} (g : link_reg I A) c c0 (n : net W) pad2 pad4 p sk name (opts : option (body (rtnl_link I A))) :=
  add_of_kind g c c0 n pad2 pad4 (str "team") p sk (name_or name opts).
