(* ===== verification/KindVxlan.v ===== *)
(** VXLAN and GENEVE links: lib/route/link/vxlan.c and geneve.c. *)
From S2P Require Import Prelude Errors Msg Attr Data CString Addr Socket Nl Object Cache ObjAttr Wire Build Rtnl Ends StepMsg Sriov CacheDump LinkApi LinkReg Link LinkMsg LinkProps LinkKind.

(** linux/if_link.h and the flags of netlink/route/link/vxlan.h and geneve.h. *)
Definition IFLA_VXLAN_ID := 1.
Definition IFLA_VXLAN_GROUP := 2.
Definition IFLA_VXLAN_LINK := 3.
Definition IFLA_VXLAN_LOCAL := 4.
Definition IFLA_VXLAN_TTL := 5.
Definition IFLA_VXLAN_TOS := 6.
Definition IFLA_VXLAN_LEARNING := 7.
Definition IFLA_VXLAN_AGEING := 8.
Definition IFLA_VXLAN_LIMIT := 9.
Definition IFLA_VXLAN_PORT_RANGE := 10.
Definition IFLA_VXLAN_PROXY := 11.
Definition IFLA_VXLAN_RSC := 12.
Definition IFLA_VXLAN_L2MISS := 13.
Definition IFLA_VXLAN_L3MISS := 14.
Definition IFLA_VXLAN_PORT := 15.
Definition IFLA_VXLAN_GROUP6 := 16.
Definition IFLA_VXLAN_LOCAL6 := 17.
Definition IFLA_VXLAN_UDP_CSUM := 18.
Definition IFLA_VXLAN_UDP_ZERO_CSUM6_TX := 19.
Definition IFLA_VXLAN_UDP_ZERO_CSUM6_RX := 20.
Definition IFLA_VXLAN_REMCSUM_TX := 21.
Definition IFLA_VXLAN_REMCSUM_RX := 22.
Definition IFLA_VXLAN_GBP := 23.
Definition IFLA_VXLAN_REMCSUM_NOPARTIAL := 24.
Definition IFLA_VXLAN_COLLECT_METADATA := 25.
Definition IFLA_VXLAN_LABEL := 26.
Definition IFLA_VXLAN_GPE := 27.
Definition IFLA_VXLAN_TTL_INHERIT := 28.
Definition IFLA_VXLAN_MAX := 28.
Definition IFLA_GENEVE_ID := 1.
Definition IFLA_GENEVE_REMOTE := 2.
Definition IFLA_GENEVE_TTL := 3.
Definition IFLA_GENEVE_TOS := 4.
Definition IFLA_GENEVE_PORT := 5.
Definition IFLA_GENEVE_COLLECT_METADATA := 6.
Definition IFLA_GENEVE_REMOTE6 := 7.
Definition IFLA_GENEVE_UDP_CSUM := 8.
Definition IFLA_GENEVE_UDP_ZERO_CSUM6_TX := 9.
Definition IFLA_GENEVE_UDP_ZERO_CSUM6_RX := 10.
Definition IFLA_GENEVE_LABEL := 11.
Definition IFLA_GENEVE_MAX := 11.
Definition VXLAN_ID_MAX := 16777215.
Definition RTNL_GENEVE_ID_MAX := 16777215.
Definition RTNL_LINK_VXLAN_F_GBP := 1.
Definition RTNL_LINK_VXLAN_F_GPE := 2.
Definition RTNL_LINK_VXLAN_F_REMCSUM_NOPARTIAL := 4.
Definition VXLAN_F_ALL :=
  Z.lor RTNL_LINK_VXLAN_F_GBP (Z.lor RTNL_LINK_VXLAN_F_GPE RTNL_LINK_VXLAN_F_REMCSUM_NOPARTIAL).
Definition RTNL_LINK_GENEVE_F_COLLECT_METADATA := 1.

(** Flags stored in eight bits, and those that a kind knows. *)
Lemma low_range v n : 0 <= n < 8 -> 0 <= v < 2 ^ n -> u8 v = v.
Proof.
  intros Hn Hv. unfold u8. apply Z.mod_small. assert (2 ^ n <= 2 ^ 8) by (apply Z.pow_le_mono_r; lia). change (2 ^ 8) with 256 in *. lia.
Qed.
Lemma flags_in v n : 0 <= n -> Z.land v (Z.ones n) = v -> 0 <= v < 2 ^ n.
Proof. intros Hn H. rewrite <- H, Z.land_ones by done. apply Z.mod_pos_bound. lia. Qed.
Lemma flags_known v all : (Z.land v (Z.lnot all) =? 0) = true -> Z.land v all = v.
Proof.
  intros H%Z.eqb_eq. apply Z.bits_inj'. intros i Hi. pose proof (f_equal (fun z => Z.testbit z i) H) as Hb. cbv beta in Hb.
  rewrite Z.land_spec, Z.lnot_spec, Z.bits_0 in Hb by done. rewrite Z.land_spec. by destruct (Z.testbit v i), (Z.testbit all i).
Qed.
Lemma flags8 v : Z.land v 7 = v -> v = 0 \/ v = 1 \/ v = 2 \/ v = 3 \/ v = 4 \/ v = 5 \/ v = 6 \/ v = 7.
Proof. intros H%(flags_in v 3); [|done]. change (2 ^ 3) with 8 in H. lia. Qed.
Lemma flags2 v : Z.land v 1 = v -> v = 0 \/ v = 1.
Proof. intros H%(flags_in v 1); [|done]. change (2 ^ 1) with 2 in H. lia. Qed.
Lemma flags_or a b all n : 0 <= n < 8 -> all = Z.ones n -> Z.land a all = a -> Z.land b all = b -> Z.land (u8 (Z.lor a b)) all = u8 (Z.lor a b).
Proof.
  intros Hn -> Ha Hb. assert (Z.land (Z.lor a b) (Z.ones n) = Z.lor a b) as H by (by rewrite Z.land_lor_distr_l, Ha, Hb).
  by rewrite (low_range _ n) by (done || (apply flags_in; [lia|done])).
Qed.
Lemma flags_less a b all n : 0 <= n < 8 -> all = Z.ones n -> Z.land a all = a -> Z.land (u8 (Z.land a b)) all = u8 (Z.land a b).
Proof.
  intros Hn -> Ha. assert (Z.land (Z.land a b) (Z.ones n) = Z.land a b) as H.
  { by rewrite <- Z.land_assoc, (Z.land_comm b), Z.land_assoc, Ha. }
  by rewrite (low_range _ n) by (done || (apply flags_in; [lia|done])).
Qed.


(** ** VXLAN (lib/route/link/vxlan.c) *)

Definition VXLAN_ATTR_ID := 1.
Definition VXLAN_ATTR_GROUP := 2.
Definition VXLAN_ATTR_LINK := 4.
Definition VXLAN_ATTR_LOCAL := 8.
Definition VXLAN_ATTR_TTL := 16.
Definition VXLAN_ATTR_TOS := 32.
Definition VXLAN_ATTR_LEARNING := 64.
Definition VXLAN_ATTR_AGEING := 128.
Definition VXLAN_ATTR_LIMIT := 256.
Definition VXLAN_ATTR_PORT_RANGE := 512.
Definition VXLAN_ATTR_PROXY := 1024.
Definition VXLAN_ATTR_RSC := 2048.
Definition VXLAN_ATTR_L2MISS := 4096.
Definition VXLAN_ATTR_L3MISS := 8192.
Definition VXLAN_ATTR_GROUP6 := 16384.
Definition VXLAN_ATTR_LOCAL6 := 32768.
Definition VXLAN_ATTR_PORT := 65536.
Definition VXLAN_ATTR_UDP_CSUM := 131072.
Definition VXLAN_ATTR_UDP_ZERO_CSUM6_TX := 262144.
Definition VXLAN_ATTR_UDP_ZERO_CSUM6_RX := 524288.
Definition VXLAN_ATTR_REMCSUM_TX := 1048576.
Definition VXLAN_ATTR_REMCSUM_RX := 2097152.
Definition VXLAN_ATTR_COLLECT_METADATA := 4194304.
Definition VXLAN_ATTR_LABEL := 8388608.
Definition VXLAN_ATTR_FLAGS := 16777216.

Record vxlan_info := {
  vxi_id : Z;
  vxi_group : Z;
  vxi_group6 : list Z;
  vxi_link : Z;
  vxi_local : Z;
  vxi_local6 : list Z;
  vxi_ttl : Z;
  vxi_tos : Z;
  vxi_learning : Z;
  vxi_flags : Z;
  vxi_ageing : Z;
  vxi_limit : Z;
  vxi_port_range : list Z;
  vxi_proxy : Z;
  vxi_rsc : Z;
  vxi_l2miss : Z;
  vxi_l3miss : Z;
  vxi_port : Z;
  vxi_udp_csum : Z;
  vxi_udp_zero_csum6_tx : Z;
  vxi_udp_zero_csum6_rx : Z;
  vxi_remcsum_tx : Z;
  vxi_remcsum_rx : Z;
  vxi_collect_metadata : Z;
  vxi_label : Z
}.
#[export] Instance eta_vxlan : Eta vxlan_info := fun r =>
  {| vxi_id := vxi_id r; vxi_group := vxi_group r; vxi_group6 := vxi_group6 r; vxi_link := vxi_link r;
     vxi_local := vxi_local r; vxi_local6 := vxi_local6 r; vxi_ttl := vxi_ttl r; vxi_tos := vxi_tos r;
     vxi_learning := vxi_learning r; vxi_flags := vxi_flags r; vxi_ageing := vxi_ageing r;
     vxi_limit := vxi_limit r; vxi_port_range := vxi_port_range r; vxi_proxy := vxi_proxy r; vxi_rsc := vxi_rsc r;
     vxi_l2miss := vxi_l2miss r; vxi_l3miss := vxi_l3miss r; vxi_port := vxi_port r;
     vxi_udp_csum := vxi_udp_csum r; vxi_udp_zero_csum6_tx := vxi_udp_zero_csum6_tx r;
     vxi_udp_zero_csum6_rx := vxi_udp_zero_csum6_rx r; vxi_remcsum_tx := vxi_remcsum_tx r;
     vxi_remcsum_rx := vxi_remcsum_rx r; vxi_collect_metadata := vxi_collect_metadata r;
     vxi_label := vxi_label r |}.
Definition vxlan_0 : vxlan_info :=
  {| vxi_id := 0; vxi_group := 0; vxi_group6 := zeros 16; vxi_link := 0; vxi_local := 0; vxi_local6 := zeros 16;
     vxi_ttl := 0; vxi_tos := 0; vxi_learning := 0; vxi_flags := 0; vxi_ageing := 0; vxi_limit := 0;
     vxi_port_range := zeros 4; vxi_proxy := 0; vxi_rsc := 0; vxi_l2miss := 0; vxi_l3miss := 0; vxi_port := 0;
     vxi_udp_csum := 0; vxi_udp_zero_csum6_tx := 0; vxi_udp_zero_csum6_rx := 0; vxi_remcsum_tx := 0;
     vxi_remcsum_rx := 0; vxi_collect_metadata := 0; vxi_label := 0 |}.

Definition vxlan_policy : list nla_policy :=
  policy_of IFLA_VXLAN_MAX [(IFLA_VXLAN_ID, pol_of NLA_U32); (IFLA_VXLAN_GROUP, pol_min 4);
    (IFLA_VXLAN_GROUP6, pol_min 16); (IFLA_VXLAN_LINK, pol_of NLA_U32); (IFLA_VXLAN_LOCAL, pol_min 4);
    (IFLA_VXLAN_LOCAL6, pol_min 16); (IFLA_VXLAN_TTL, pol_of NLA_U8); (IFLA_VXLAN_TOS, pol_of NLA_U8);
    (IFLA_VXLAN_LABEL, pol_of NLA_U32); (IFLA_VXLAN_LEARNING, pol_of NLA_U8);
    (IFLA_VXLAN_AGEING, pol_of NLA_U32); (IFLA_VXLAN_LIMIT, pol_of NLA_U32); (IFLA_VXLAN_PORT_RANGE, pol_min 4);
    (IFLA_VXLAN_PROXY, pol_of NLA_U8); (IFLA_VXLAN_RSC, pol_of NLA_U8); (IFLA_VXLAN_L2MISS, pol_of NLA_U8);
    (IFLA_VXLAN_L3MISS, pol_of NLA_U8); (IFLA_VXLAN_COLLECT_METADATA, pol_of NLA_U8);
    (IFLA_VXLAN_PORT, pol_of NLA_U16); (IFLA_VXLAN_UDP_CSUM, pol_of NLA_U8);
    (IFLA_VXLAN_UDP_ZERO_CSUM6_TX, pol_of NLA_U8); (IFLA_VXLAN_UDP_ZERO_CSUM6_RX, pol_of NLA_U8);
    (IFLA_VXLAN_REMCSUM_TX, pol_of NLA_U8); (IFLA_VXLAN_REMCSUM_RX, pol_of NLA_U8);
    (IFLA_VXLAN_GBP, pol_of NLA_FLAG); (IFLA_VXLAN_GPE, pol_of NLA_FLAG);
    (IFLA_VXLAN_REMCSUM_NOPARTIAL, pol_of NLA_FLAG)].

Definition vxlan_readers : list (reader vxlan_info) :=
  [rd_u32 IFLA_VXLAN_ID VXLAN_ATTR_ID (fun v d => d <| vxi_id := v |>);
   rd_raw IFLA_VXLAN_GROUP6 VXLAN_ATTR_GROUP6 16 vxi_group6 (fun s d => d <| vxi_group6 := s |>);
   Reader IFLA_VXLAN_GROUP VXLAN_ATTR_GROUP VXLAN_ATTR_GROUP6 (ReadWord vxi_group (fun v d => d <| vxi_group :=
     v |>));
   rd_u32 IFLA_VXLAN_LINK VXLAN_ATTR_LINK (fun v d => d <| vxi_link := v |>);
   rd_raw IFLA_VXLAN_LOCAL6 VXLAN_ATTR_LOCAL6 16 vxi_local6 (fun s d => d <| vxi_local6 := s |>);
   Reader IFLA_VXLAN_LOCAL VXLAN_ATTR_LOCAL VXLAN_ATTR_LOCAL6 (ReadWord vxi_local (fun v d => d <| vxi_local :=
     v |>));
   rd_u8 IFLA_VXLAN_TTL VXLAN_ATTR_TTL (fun v d => d <| vxi_ttl := v |>);
   rd_u8 IFLA_VXLAN_TOS VXLAN_ATTR_TOS (fun v d => d <| vxi_tos := v |>);
   rd_u8 IFLA_VXLAN_LEARNING VXLAN_ATTR_LEARNING (fun v d => d <| vxi_learning := v |>);
   rd_u32 IFLA_VXLAN_AGEING VXLAN_ATTR_AGEING (fun v d => d <| vxi_ageing := v |>);
   rd_u32 IFLA_VXLAN_LIMIT VXLAN_ATTR_LIMIT (fun v d => d <| vxi_limit := v |>);
   rd_raw IFLA_VXLAN_PORT_RANGE VXLAN_ATTR_PORT_RANGE 4 vxi_port_range (fun s d => d <| vxi_port_range := s |>);
   rd_u8 IFLA_VXLAN_PROXY VXLAN_ATTR_PROXY (fun v d => d <| vxi_proxy := v |>);
   rd_u8 IFLA_VXLAN_RSC VXLAN_ATTR_RSC (fun v d => d <| vxi_rsc := v |>);
   rd_u8 IFLA_VXLAN_L2MISS VXLAN_ATTR_L2MISS (fun v d => d <| vxi_l2miss := v |>);
   rd_u8 IFLA_VXLAN_L3MISS VXLAN_ATTR_L3MISS (fun v d => d <| vxi_l3miss := v |>);
   rd_u16 IFLA_VXLAN_PORT VXLAN_ATTR_PORT (fun v d => d <| vxi_port := v |>);
   rd_u8 IFLA_VXLAN_UDP_CSUM VXLAN_ATTR_UDP_CSUM (fun v d => d <| vxi_udp_csum := v |>);
   rd_u8 IFLA_VXLAN_UDP_ZERO_CSUM6_TX VXLAN_ATTR_UDP_ZERO_CSUM6_TX (fun v d => d <| vxi_udp_zero_csum6_tx := v |>);
   rd_u8 IFLA_VXLAN_UDP_ZERO_CSUM6_RX VXLAN_ATTR_UDP_ZERO_CSUM6_RX (fun v d => d <| vxi_udp_zero_csum6_rx := v |>);
   rd_u8 IFLA_VXLAN_REMCSUM_TX VXLAN_ATTR_REMCSUM_TX (fun v d => d <| vxi_remcsum_tx := v |>);
   rd_u8 IFLA_VXLAN_REMCSUM_RX VXLAN_ATTR_REMCSUM_RX (fun v d => d <| vxi_remcsum_rx := v |>);
   rd_flag IFLA_VXLAN_GBP (fun d => d <| vxi_flags := Z.lor (vxi_flags d) RTNL_LINK_VXLAN_F_GBP |>);
   rd_flag IFLA_VXLAN_REMCSUM_NOPARTIAL (fun d => d <| vxi_flags :=
     Z.lor (vxi_flags d) RTNL_LINK_VXLAN_F_REMCSUM_NOPARTIAL |>);
   rd_u8 IFLA_VXLAN_COLLECT_METADATA VXLAN_ATTR_COLLECT_METADATA (fun v d => d <| vxi_collect_metadata := v |>);
   rd_u32 IFLA_VXLAN_LABEL VXLAN_ATTR_LABEL (fun v d => d <| vxi_label := v |>);
   rd_flag IFLA_VXLAN_GPE (fun d => d <| vxi_flags := Z.lor (vxi_flags d) RTNL_LINK_VXLAN_F_GPE |>)].
Definition vxlan_writers : list (writer vxlan_info) :=
  [put_u32 VXLAN_ATTR_ID IFLA_VXLAN_ID vxi_id;
   put_u32 VXLAN_ATTR_GROUP IFLA_VXLAN_GROUP vxi_group;
   put_raw VXLAN_ATTR_GROUP6 IFLA_VXLAN_GROUP6 16 vxi_group6;
   put_u32 VXLAN_ATTR_LINK IFLA_VXLAN_LINK vxi_link;
   put_u32 VXLAN_ATTR_LOCAL IFLA_VXLAN_LOCAL vxi_local;
   put_raw VXLAN_ATTR_LOCAL6 IFLA_VXLAN_LOCAL6 16 vxi_local6;
   put_u8 VXLAN_ATTR_TTL IFLA_VXLAN_TTL vxi_ttl;
   put_u8 VXLAN_ATTR_TOS IFLA_VXLAN_TOS vxi_tos;
   put_u8 VXLAN_ATTR_LEARNING IFLA_VXLAN_LEARNING vxi_learning;
   put_u32 VXLAN_ATTR_AGEING IFLA_VXLAN_AGEING vxi_ageing;
   put_u32 VXLAN_ATTR_LIMIT IFLA_VXLAN_LIMIT vxi_limit;
   put_raw VXLAN_ATTR_PORT_RANGE IFLA_VXLAN_PORT_RANGE 4 vxi_port_range;
   put_u8 VXLAN_ATTR_PROXY IFLA_VXLAN_PROXY vxi_proxy;
   put_u8 VXLAN_ATTR_RSC IFLA_VXLAN_RSC vxi_rsc;
   put_u8 VXLAN_ATTR_L2MISS IFLA_VXLAN_L2MISS vxi_l2miss;
   put_u8 VXLAN_ATTR_L3MISS IFLA_VXLAN_L3MISS vxi_l3miss;
   put_u32 VXLAN_ATTR_PORT IFLA_VXLAN_PORT vxi_port;
   put_u8 VXLAN_ATTR_UDP_CSUM IFLA_VXLAN_UDP_CSUM vxi_udp_csum;
   put_u8 VXLAN_ATTR_UDP_ZERO_CSUM6_TX IFLA_VXLAN_UDP_ZERO_CSUM6_TX vxi_udp_zero_csum6_tx;
   put_u8 VXLAN_ATTR_UDP_ZERO_CSUM6_RX IFLA_VXLAN_UDP_ZERO_CSUM6_RX vxi_udp_zero_csum6_rx;
   put_u8 VXLAN_ATTR_REMCSUM_TX IFLA_VXLAN_REMCSUM_TX vxi_remcsum_tx;
   put_u8 VXLAN_ATTR_REMCSUM_RX IFLA_VXLAN_REMCSUM_RX vxi_remcsum_rx;
   put_flag (fun d => has_flag (vxi_flags d) RTNL_LINK_VXLAN_F_GBP) IFLA_VXLAN_GBP;
   put_flag (fun d => has_flag (vxi_flags d) RTNL_LINK_VXLAN_F_REMCSUM_NOPARTIAL) IFLA_VXLAN_REMCSUM_NOPARTIAL;
   put_u8 VXLAN_ATTR_COLLECT_METADATA IFLA_VXLAN_COLLECT_METADATA vxi_collect_metadata;
   put_u32 VXLAN_ATTR_LABEL IFLA_VXLAN_LABEL vxi_label;
   put_flag (fun d => has_flag (vxi_flags d) RTNL_LINK_VXLAN_F_GPE) IFLA_VXLAN_GPE].
Definition vxlan_members : list (member vxlan_info) :=
  [Num VXLAN_ATTR_ID 4 vxi_id;
   Raw VXLAN_ATTR_GROUP6 16 vxi_group6;
   Num VXLAN_ATTR_GROUP 4 vxi_group;
   Num VXLAN_ATTR_LINK 4 vxi_link;
   Raw VXLAN_ATTR_LOCAL6 16 vxi_local6;
   Num VXLAN_ATTR_LOCAL 4 vxi_local;
   Num VXLAN_ATTR_TTL 1 vxi_ttl;
   Num VXLAN_ATTR_TOS 1 vxi_tos;
   Num VXLAN_ATTR_LEARNING 1 vxi_learning;
   Num VXLAN_ATTR_AGEING 4 vxi_ageing;
   Num VXLAN_ATTR_LIMIT 4 vxi_limit;
   Raw VXLAN_ATTR_PORT_RANGE 4 vxi_port_range;
   Num VXLAN_ATTR_PROXY 1 vxi_proxy;
   Num VXLAN_ATTR_RSC 1 vxi_rsc;
   Num VXLAN_ATTR_L2MISS 1 vxi_l2miss;
   Num VXLAN_ATTR_L3MISS 1 vxi_l3miss;
   Num VXLAN_ATTR_PORT 2 vxi_port;
   Num VXLAN_ATTR_UDP_CSUM 1 vxi_udp_csum;
   Num VXLAN_ATTR_UDP_ZERO_CSUM6_TX 1 vxi_udp_zero_csum6_tx;
   Num VXLAN_ATTR_UDP_ZERO_CSUM6_RX 1 vxi_udp_zero_csum6_rx;
   Num VXLAN_ATTR_REMCSUM_TX 1 vxi_remcsum_tx;
   Num VXLAN_ATTR_REMCSUM_RX 1 vxi_remcsum_rx;
   Flag RTNL_LINK_VXLAN_F_GBP VXLAN_F_ALL vxi_flags;
   Flag RTNL_LINK_VXLAN_F_REMCSUM_NOPARTIAL VXLAN_F_ALL vxi_flags;
   Num VXLAN_ATTR_COLLECT_METADATA 1 vxi_collect_metadata;
   Num VXLAN_ATTR_LABEL 4 vxi_label;
   Flag RTNL_LINK_VXLAN_F_GPE VXLAN_F_ALL vxi_flags].

(** The address of the table of the kind. *)
Definition vxlan_at : Z := 11.
Section Vxlan.
Context {I A : Type} {P : Packed I (body vxlan_info)}.
Abbreviation link := (body (rtnl_link I A)).

Definition vxlan_alloc (c : bool) : link -> Z * link := kind_alloc c vxlan_0.
Definition vxlan_free : link -> link := kind_free.
Definition vxlan_parse (c : bool) : list Z -> link -> option Z -> option Z -> exec (Z * link) :=
  kind_read c vxlan_0 IFLA_VXLAN_MAX vxlan_policy vxlan_readers.
Definition vxlan_put_attrs : link -> nl_msg -> step_msg := kind_put (- NLE_MSGSIZE) 0 (run_writers vxlan_writers).
Definition vxlan_clone := kind_clone (A := A) (str "vxlan") (no_memory).
Definition vxlan_diffs (x y : body vxlan_info) : list (Z * bool) :=
  let a := ce_data x in
  let b := ce_data y in
  let proxy := negb (vxi_proxy a =? vxi_proxy b) in
  [(VXLAN_ATTR_ID, negb (vxi_id a =? vxi_id b));
   (VXLAN_ATTR_GROUP, negb (vxi_group a =? vxi_group b));
   (VXLAN_ATTR_LINK, negb (vxi_link a =? vxi_link b));
   (VXLAN_ATTR_LOCAL, negb (vxi_local a =? vxi_local b));
   (VXLAN_ATTR_TOS, negb (vxi_tos a =? vxi_tos b));
   (VXLAN_ATTR_TTL, negb (vxi_ttl a =? vxi_ttl b));
   (VXLAN_ATTR_LEARNING, negb (vxi_learning a =? vxi_learning b));
   (VXLAN_ATTR_AGEING, negb (vxi_ageing a =? vxi_ageing b));
   (VXLAN_ATTR_LIMIT, negb (vxi_limit a =? vxi_limit b));
   (VXLAN_ATTR_PORT_RANGE, negb (bool_decide (take 2 (vxi_port_range a) = take 2 (vxi_port_range b))));
   (VXLAN_ATTR_PORT_RANGE, negb (bool_decide (drop 2 (vxi_port_range a) = drop 2 (vxi_port_range b))));
   (VXLAN_ATTR_PROXY, proxy); (VXLAN_ATTR_RSC, proxy); (VXLAN_ATTR_L2MISS, proxy); (VXLAN_ATTR_L3MISS, proxy);
   (VXLAN_ATTR_PORT, negb (vxi_port a =? vxi_port b));
   (VXLAN_ATTR_GROUP6, negb (bool_decide (vxi_group6 a = vxi_group6 b)));
   (VXLAN_ATTR_LOCAL6, negb (bool_decide (vxi_local6 a = vxi_local6 b)));
   (VXLAN_ATTR_UDP_CSUM, proxy); (VXLAN_ATTR_UDP_ZERO_CSUM6_TX, proxy); (VXLAN_ATTR_UDP_ZERO_CSUM6_RX, proxy);
   (VXLAN_ATTR_REMCSUM_TX, proxy); (VXLAN_ATTR_REMCSUM_RX, proxy);
   (VXLAN_ATTR_COLLECT_METADATA, negb (vxi_collect_metadata a =? vxi_collect_metadata b));
   (VXLAN_ATTR_LABEL, negb (vxi_label a =? vxi_label b));
   (VXLAN_ATTR_FLAGS, negb (vxi_flags a =? vxi_flags b))].
Definition vxlan_compare : link -> link -> Z -> exec Z := kind_compare vxlan_diffs.
Definition vxlan_info_ops (c : bool) : rtnl_link_info_ops I A :=
  {| io_name := Some (str "vxlan"); io_refcnt := 0; io_alloc := Some (vxlan_alloc c);
     io_parse := Some (vxlan_parse c);
     io_clone := Some vxlan_clone; io_put_attrs := Some vxlan_put_attrs; io_free := Some vxlan_free;
     io_compare := Some vxlan_compare |}.

Definition rtnl_link_vxlan_set_id (l : link) (id : Z) : exec (Z * link) :=
  kind_set_if [vxlan_at] l (u32 id <=? VXLAN_ID_MAX) NLE_INVAL
    (store_member VXLAN_ATTR_ID (fun d => d <| vxi_id := u32 id |>)).
Definition rtnl_link_vxlan_get_id (l : link) : exec (Z + Z) :=
  kind_get_attr [vxlan_at] l NLE_AGAIN VXLAN_ATTR_ID vxi_id.
Definition rtnl_link_vxlan_set_group (l : link) (addr : nl_addr) : exec (Z * link) :=
  kind_set_addr [vxlan_at] l VXLAN_ATTR_GROUP VXLAN_ATTR_GROUP6 (fun v d => d <| vxi_group :=
    v |>) (fun s d => d <| vxi_group6 := s |>) addr.
Definition rtnl_link_vxlan_get_group (c : bool) (l : link) : exec (Z + option nl_addr) :=
  kind_get_addr c [vxlan_at] l VXLAN_ATTR_GROUP VXLAN_ATTR_GROUP6 vxi_group vxi_group6.
Definition rtnl_link_vxlan_set_link (l : link) (index : Z) : exec (Z * link) :=
  kind_set [vxlan_at] l (store_member VXLAN_ATTR_LINK (fun d => d <| vxi_link := u32 index |>)).
Definition rtnl_link_vxlan_get_link (l : link) : exec (Z + Z) :=
  kind_get_attr [vxlan_at] l NLE_AGAIN VXLAN_ATTR_LINK vxi_link.
Definition rtnl_link_vxlan_set_local (l : link) (addr : nl_addr) : exec (Z * link) :=
  kind_set_addr [vxlan_at] l VXLAN_ATTR_LOCAL VXLAN_ATTR_LOCAL6 (fun v d => d <| vxi_local :=
    v |>) (fun s d => d <| vxi_local6 := s |>) addr.
Definition rtnl_link_vxlan_get_local (c : bool) (l : link) : exec (Z + option nl_addr) :=
  kind_get_addr c [vxlan_at] l VXLAN_ATTR_LOCAL VXLAN_ATTR_LOCAL6 vxi_local vxi_local6.
Definition rtnl_link_vxlan_set_ttl (l : link) (ttl : Z) : exec (Z * link) :=
  kind_set [vxlan_at] l (store_member VXLAN_ATTR_TTL (fun d => d <| vxi_ttl := u8 ttl |>)).
Definition rtnl_link_vxlan_get_ttl (l : link) : exec (Z + Z) :=
  kind_get_attr [vxlan_at] l NLE_AGAIN VXLAN_ATTR_TTL vxi_ttl.
Definition rtnl_link_vxlan_set_tos (l : link) (tos : Z) : exec (Z * link) :=
  kind_set [vxlan_at] l (store_member VXLAN_ATTR_TOS (fun d => d <| vxi_tos := u8 tos |>)).
Definition rtnl_link_vxlan_get_tos (l : link) : exec (Z + Z) :=
  kind_get_attr [vxlan_at] l NLE_AGAIN VXLAN_ATTR_TOS vxi_tos.
Definition rtnl_link_vxlan_set_learning (l : link) (learning : Z) : exec (Z * link) :=
  kind_set [vxlan_at] l (store_member VXLAN_ATTR_LEARNING (fun d => d <| vxi_learning := u8 learning |>)).
Definition rtnl_link_vxlan_get_learning (l : link) : exec (Z + Z) :=
  kind_get_attr [vxlan_at] l NLE_AGAIN VXLAN_ATTR_LEARNING vxi_learning.
Definition rtnl_link_vxlan_enable_learning (l : link) : exec (Z * link) :=
  rtnl_link_vxlan_set_learning l 1.
Definition rtnl_link_vxlan_disable_learning (l : link) : exec (Z * link) :=
  rtnl_link_vxlan_set_learning l 0.
Definition rtnl_link_vxlan_set_ageing (l : link) (expiry : Z) : exec (Z * link) :=
  kind_set [vxlan_at] l (store_member VXLAN_ATTR_AGEING (fun d => d <| vxi_ageing := u32 expiry |>)).
Definition rtnl_link_vxlan_get_ageing (l : link) : exec (Z + Z) :=
  kind_get_attr [vxlan_at] l NLE_AGAIN VXLAN_ATTR_AGEING vxi_ageing.
Definition rtnl_link_vxlan_set_limit (l : link) (limit : Z) : exec (Z * link) :=
  kind_set [vxlan_at] l (store_member VXLAN_ATTR_LIMIT (fun d => d <| vxi_limit := u32 limit |>)).
Definition rtnl_link_vxlan_get_limit (l : link) : exec (Z + Z) :=
  kind_get_attr [vxlan_at] l NLE_AGAIN VXLAN_ATTR_LIMIT vxi_limit.
Definition rtnl_link_vxlan_set_port_range (l : link) (range : list Z) : exec (Z * link) :=
  kind_set [vxlan_at] l (store_member VXLAN_ATTR_PORT_RANGE (fun d => d <| vxi_port_range := range |>)).
Definition rtnl_link_vxlan_get_port_range (l : link) : exec (Z + list Z) :=
  kind_get_attr [vxlan_at] l NLE_AGAIN VXLAN_ATTR_PORT_RANGE vxi_port_range.
Definition rtnl_link_vxlan_set_proxy (l : link) (proxy : Z) : exec (Z * link) :=
  kind_set [vxlan_at] l (store_member VXLAN_ATTR_PROXY (fun d => d <| vxi_proxy := u8 proxy |>)).
Definition rtnl_link_vxlan_get_proxy (l : link) : exec (Z + Z) :=
  kind_get_attr [vxlan_at] l NLE_AGAIN VXLAN_ATTR_PROXY vxi_proxy.
Definition rtnl_link_vxlan_enable_proxy (l : link) : exec (Z * link) :=
  rtnl_link_vxlan_set_proxy l 1.
Definition rtnl_link_vxlan_disable_proxy (l : link) : exec (Z * link) :=
  rtnl_link_vxlan_set_proxy l 0.
Definition rtnl_link_vxlan_set_rsc (l : link) (rsc : Z) : exec (Z * link) :=
  kind_set [vxlan_at] l (store_member VXLAN_ATTR_RSC (fun d => d <| vxi_rsc := u8 rsc |>)).
Definition rtnl_link_vxlan_get_rsc (l : link) : exec (Z + Z) :=
  kind_get_attr [vxlan_at] l NLE_AGAIN VXLAN_ATTR_RSC vxi_rsc.
Definition rtnl_link_vxlan_enable_rsc (l : link) : exec (Z * link) :=
  rtnl_link_vxlan_set_rsc l 1.
Definition rtnl_link_vxlan_disable_rsc (l : link) : exec (Z * link) :=
  rtnl_link_vxlan_set_rsc l 0.
Definition rtnl_link_vxlan_set_l2miss (l : link) (miss : Z) : exec (Z * link) :=
  kind_set [vxlan_at] l (store_member VXLAN_ATTR_L2MISS (fun d => d <| vxi_l2miss := u8 miss |>)).
Definition rtnl_link_vxlan_get_l2miss (l : link) : exec (Z + Z) :=
  kind_get_attr [vxlan_at] l NLE_AGAIN VXLAN_ATTR_L2MISS vxi_l2miss.
Definition rtnl_link_vxlan_enable_l2miss (l : link) : exec (Z * link) :=
  rtnl_link_vxlan_set_l2miss l 1.
Definition rtnl_link_vxlan_disable_l2miss (l : link) : exec (Z * link) :=
  rtnl_link_vxlan_set_l2miss l 0.
Definition rtnl_link_vxlan_set_l3miss (l : link) (miss : Z) : exec (Z * link) :=
  kind_set [vxlan_at] l (store_member VXLAN_ATTR_L3MISS (fun d => d <| vxi_l3miss := u8 miss |>)).
Definition rtnl_link_vxlan_get_l3miss (l : link) : exec (Z + Z) :=
  kind_get_attr [vxlan_at] l NLE_AGAIN VXLAN_ATTR_L3MISS vxi_l3miss.
Definition rtnl_link_vxlan_enable_l3miss (l : link) : exec (Z * link) :=
  rtnl_link_vxlan_set_l3miss l 1.
Definition rtnl_link_vxlan_disable_l3miss (l : link) : exec (Z * link) :=
  rtnl_link_vxlan_set_l3miss l 0.
Definition rtnl_link_vxlan_set_port (l : link) (port : Z) : exec (Z * link) :=
  kind_set [vxlan_at] l (store_member VXLAN_ATTR_PORT (fun d => d <| vxi_port := htons port |>)).
Definition rtnl_link_vxlan_get_port (l : link) : exec (Z + Z) :=
  kind_get_attr [vxlan_at] l NLE_NOATTR VXLAN_ATTR_PORT (fun d => ntohs (vxi_port d)).
Definition rtnl_link_vxlan_set_udp_csum (l : link) (csum : Z) : exec (Z * link) :=
  kind_set [vxlan_at] l (store_member VXLAN_ATTR_UDP_CSUM (fun d => d <| vxi_udp_csum := u8 csum |>)).
Definition rtnl_link_vxlan_get_udp_csum (l : link) : exec (Z + Z) :=
  kind_get_attr [vxlan_at] l NLE_NOATTR VXLAN_ATTR_UDP_CSUM vxi_udp_csum.
Definition rtnl_link_vxlan_set_udp_zero_csum6_tx (l : link) (csum : Z) : exec (Z * link) :=
  kind_set [vxlan_at] l (store_member VXLAN_ATTR_UDP_ZERO_CSUM6_TX (fun d => d <| vxi_udp_zero_csum6_tx :=
    u8 csum |>)).
Definition rtnl_link_vxlan_get_udp_zero_csum6_tx (l : link) : exec (Z + Z) :=
  kind_get_attr [vxlan_at] l NLE_NOATTR VXLAN_ATTR_UDP_ZERO_CSUM6_TX vxi_udp_zero_csum6_tx.
Definition rtnl_link_vxlan_set_udp_zero_csum6_rx (l : link) (csum : Z) : exec (Z * link) :=
  kind_set [vxlan_at] l (store_member VXLAN_ATTR_UDP_ZERO_CSUM6_RX (fun d => d <| vxi_udp_zero_csum6_rx :=
    u8 csum |>)).
Definition rtnl_link_vxlan_get_udp_zero_csum6_rx (l : link) : exec (Z + Z) :=
  kind_get_attr [vxlan_at] l NLE_NOATTR VXLAN_ATTR_UDP_ZERO_CSUM6_RX vxi_udp_zero_csum6_rx.
Definition rtnl_link_vxlan_set_remcsum_tx (l : link) (csum : Z) : exec (Z * link) :=
  kind_set [vxlan_at] l (store_member VXLAN_ATTR_REMCSUM_TX (fun d => d <| vxi_remcsum_tx := u8 csum |>)).
Definition rtnl_link_vxlan_get_remcsum_tx (l : link) : exec (Z + Z) :=
  kind_get_attr [vxlan_at] l NLE_NOATTR VXLAN_ATTR_REMCSUM_TX vxi_remcsum_tx.
Definition rtnl_link_vxlan_set_remcsum_rx (l : link) (csum : Z) : exec (Z * link) :=
  kind_set [vxlan_at] l (store_member VXLAN_ATTR_REMCSUM_RX (fun d => d <| vxi_remcsum_rx := u8 csum |>)).
Definition rtnl_link_vxlan_get_remcsum_rx (l : link) : exec (Z + Z) :=
  kind_get_attr [vxlan_at] l NLE_NOATTR VXLAN_ATTR_REMCSUM_RX vxi_remcsum_rx.
Definition rtnl_link_vxlan_set_collect_metadata (l : link) (collect : Z) : exec (Z * link) :=
  kind_set [vxlan_at] l (store_member VXLAN_ATTR_COLLECT_METADATA (fun d => d <| vxi_collect_metadata :=
    u8 collect |>)).
Definition rtnl_link_vxlan_get_collect_metadata (l : link) : exec (Z + Z) :=
  kind_get_attr [vxlan_at] l NLE_NOATTR VXLAN_ATTR_COLLECT_METADATA vxi_collect_metadata.
Definition rtnl_link_vxlan_set_label (l : link) (label : Z) : exec (Z * link) :=
  kind_set [vxlan_at] l (store_member VXLAN_ATTR_LABEL (fun d => d <| vxi_label := htonl (u32 label) |>)).
Definition rtnl_link_vxlan_get_label (l : link) : exec (Z + Z) :=
  kind_get_attr [vxlan_at] l NLE_NOATTR VXLAN_ATTR_LABEL (fun d => ntohl (vxi_label d)).
Definition rtnl_link_vxlan_set_flags (l : link) (flags : Z) (enable : bool) : exec (Z * link) :=
  kind_set_if [vxlan_at] l (Z.land (u32 flags) (Z.lnot VXLAN_F_ALL) =? 0) NLE_INVAL (fun x =>
    let d := ce_data x in
    Body (ce_mask x) (d <| vxi_flags :=
      u8 (if enable then Z.lor (vxi_flags d) (u32 flags) else Z.land (vxi_flags d) (Z.lnot (u32 flags))) |>)).
Definition rtnl_link_vxlan_get_flags (l : link) : exec Z := kind_get [vxlan_at] l (fun x => vxi_flags (ce_data x)).
End Vxlan.
Definition rtnl_link_vxlan_alloc {I A} (g : link_reg I A) c c0 := alloc_of_kind g c c0 (str "vxlan").
Definition rtnl_link_is_vxlan {I A} (g : link_reg I A) l := is_kind g l (str "vxlan").

Definition vxlan_desc : kind_desc vxlan_info :=
  Kind_desc vxlan_0 IFLA_VXLAN_MAX vxlan_policy vxlan_readers vxlan_writers vxlan_members.
Lemma vxlan_desc_ok : desc_ok vxlan_desc.
Proof. desc_tac vxlan_members. Qed.
Lemma vxlan_covered : covered vxlan_desc.
Proof. by vm_compute. Qed.
(** The functions that set a member to a number, or to 4 bytes. *)
Definition vxlan_setters {I A : Type} {P : Packed I (body vxlan_info)} (v : Z) (s : list Z) : list (body
  (rtnl_link I A) -> exec (Z * body (rtnl_link I A))) :=
  [fun l => rtnl_link_vxlan_set_id l v; fun l => rtnl_link_vxlan_set_link l v;
   fun l => rtnl_link_vxlan_set_ttl l v; fun l => rtnl_link_vxlan_set_tos l v;
   fun l => rtnl_link_vxlan_set_learning l v; fun l => rtnl_link_vxlan_set_ageing l v;
   fun l => rtnl_link_vxlan_set_limit l v; fun l => rtnl_link_vxlan_set_proxy l v;
   fun l => rtnl_link_vxlan_set_rsc l v; fun l => rtnl_link_vxlan_set_l2miss l v;
   fun l => rtnl_link_vxlan_set_l3miss l v; fun l => rtnl_link_vxlan_set_port l v;
   fun l => rtnl_link_vxlan_set_udp_csum l v; fun l => rtnl_link_vxlan_set_udp_zero_csum6_tx l v;
   fun l => rtnl_link_vxlan_set_udp_zero_csum6_rx l v; fun l => rtnl_link_vxlan_set_remcsum_tx l v;
   fun l => rtnl_link_vxlan_set_remcsum_rx l v; fun l => rtnl_link_vxlan_set_collect_metadata l v;
   fun l => rtnl_link_vxlan_set_label l v; fun l => rtnl_link_vxlan_set_port_range l s].
Lemma vxlan_sets_ok {I A : Type} {P : Packed I (body vxlan_info)} canon v s :
  bytes_ok s -> zlen s = 4 -> Forall (set_ok (I := I) (A := A) [vxlan_at] vxlan_members canon) (vxlan_setters v s).
Proof. intros Hb Hz. unfold vxlan_setters. each; set_tac vxlan_members. Qed.

Lemma vxlan_regular : regular vxlan_desc.
Proof.
  regular_tac. intros v Hv. pose proof (flags8 _ (typed_at 22 _ _ _ Hv eq_refl)) as Hf. clear Hv. destruct v. cbn [vxi_flags] in Hf.
  decompose [or] Hf; subst; repeat split.
Qed.
(** A link has an address of one length or of the other. *)
Lemma vxlan_sends x :
  (has_attr x VXLAN_ATTR_GROUP = true -> Z.land (ce_mask x) VXLAN_ATTR_GROUP6 = 0) ->
  (has_attr x VXLAN_ATTR_LOCAL = true -> Z.land (ce_mask x) VXLAN_ATTR_LOCAL6 = 0) ->
  Forall (sends vxlan_writers x) vxlan_readers.
Proof. intros Hg Hl. sends_tac. Qed.

(** The functions that set addresses, with the bits of the two families: one of the
    other family is replaced in the mask only. *)
Definition vxlan_addrs {I A : Type} {P : Packed I (body vxlan_info)} :
    list (Z * Z * (body (rtnl_link I A) -> nl_addr -> exec (Z * body (rtnl_link I A)))) :=
  [(VXLAN_ATTR_GROUP, VXLAN_ATTR_GROUP6, rtnl_link_vxlan_set_group);
   (VXLAN_ATTR_LOCAL, VXLAN_ATTR_LOCAL6, rtnl_link_vxlan_set_local)].
Lemma vxlan_addrs_ok {I A : Type} {P : Packed I (body vxlan_info)} :
  Forall (fun '(b4, b6, f) => set_addr_ok (I := I) (A := A) [vxlan_at] vxlan_members b4 b6 f) vxlan_addrs.
Proof. unfold vxlan_addrs. each; addr_tac vxlan_members. Qed.
(** Flags have no bit in the mask. *)
Definition vxlan_flag_setters {I A : Type} {P : Packed I (body vxlan_info)} (flags : Z) (enable : bool) :
    list (body (rtnl_link I A) -> exec (Z * body (rtnl_link I A))) :=
  [fun l => rtnl_link_vxlan_set_flags l flags enable].
Lemma vxlan_flags_ok {I A : Type} {P : Packed I (body vxlan_info)} canon flags enable :
  Forall (set_ok (I := I) (A := A) [vxlan_at] vxlan_members canon) (vxlan_flag_setters flags enable).
Proof.
  unfold vxlan_flag_setters. each. apply kind_set_if_ok.
  - intros Hc%flags_known x Hx. cbv zeta. cbn [ce_data]. unfold vxlan_members in *. typed_members; cbn [member_typed vxi_flags] in *;
      (destruct enable; [by apply (flags_or _ _ _ 3)|by apply (flags_less _ _ _ 3)]).
  - intros _ x [Hx Hm]. split; [|done]. unfold vxlan_members in *. each_kept.
Qed.

(** ** GENEVE (lib/route/link/geneve.c) *)

Definition GENEVE_ATTR_ID := 1.
Definition GENEVE_ATTR_REMOTE := 2.
Definition GENEVE_ATTR_REMOTE6 := 4.
Definition GENEVE_ATTR_TTL := 8.
Definition GENEVE_ATTR_TOS := 16.
Definition GENEVE_ATTR_LABEL := 32.
Definition GENEVE_ATTR_PORT := 64.
Definition GENEVE_ATTR_FLAGS := 128.
Definition GENEVE_ATTR_UDP_CSUM := 256.
Definition GENEVE_ATTR_UDP_ZERO_CSUM6_TX := 512.
Definition GENEVE_ATTR_UDP_ZERO_CSUM6_RX := 1024.

Record geneve_info := {
  geneve_id : Z;
  geneve_remote : Z;
  geneve_remote6 : list Z;
  geneve_ttl : Z;
  geneve_tos : Z;
  geneve_label : Z;
  geneve_port : Z;
  geneve_flags : Z;
  geneve_udp_csum : Z;
  geneve_udp_zero_csum6_tx : Z;
  geneve_udp_zero_csum6_rx : Z
}.
#[export] Instance eta_geneve : Eta geneve_info := fun r =>
  {| geneve_id := geneve_id r; geneve_remote := geneve_remote r; geneve_remote6 := geneve_remote6 r;
     geneve_ttl := geneve_ttl r; geneve_tos := geneve_tos r; geneve_label := geneve_label r;
     geneve_port := geneve_port r; geneve_flags := geneve_flags r; geneve_udp_csum := geneve_udp_csum r;
     geneve_udp_zero_csum6_tx := geneve_udp_zero_csum6_tx r;
     geneve_udp_zero_csum6_rx := geneve_udp_zero_csum6_rx r |}.
Definition geneve_0 : geneve_info :=
  {| geneve_id := 0; geneve_remote := 0; geneve_remote6 := zeros 16; geneve_ttl := 0; geneve_tos := 0;
     geneve_label := 0; geneve_port := 0; geneve_flags := 0; geneve_udp_csum := 0; geneve_udp_zero_csum6_tx := 0;
     geneve_udp_zero_csum6_rx := 0 |}.

Definition geneve_policy : list nla_policy :=
  policy_of IFLA_GENEVE_MAX [(IFLA_GENEVE_ID, pol_of NLA_U32); (IFLA_GENEVE_REMOTE, pol_min 4);
    (IFLA_GENEVE_REMOTE6, pol_min 16); (IFLA_GENEVE_TTL, pol_of NLA_U8); (IFLA_GENEVE_TOS, pol_of NLA_U8);
    (IFLA_GENEVE_LABEL, pol_of NLA_U32); (IFLA_GENEVE_PORT, pol_of NLA_U16);
    (IFLA_GENEVE_COLLECT_METADATA, pol_of NLA_FLAG); (IFLA_GENEVE_UDP_CSUM, pol_of NLA_U8);
    (IFLA_GENEVE_UDP_ZERO_CSUM6_TX, pol_of NLA_U8); (IFLA_GENEVE_UDP_ZERO_CSUM6_RX, pol_of NLA_U8)].

Definition geneve_readers : list (reader geneve_info) :=
  [rd_u32 IFLA_GENEVE_ID GENEVE_ATTR_ID (fun v d => d <| geneve_id := v |>);
   Reader IFLA_GENEVE_REMOTE GENEVE_ATTR_REMOTE GENEVE_ATTR_REMOTE6 (ReadWord geneve_remote
     (fun v d => d <| geneve_remote := v |>));
   Reader IFLA_GENEVE_REMOTE6 GENEVE_ATTR_REMOTE6 GENEVE_ATTR_REMOTE (ReadRaw 16 geneve_remote6
     (fun s d => d <| geneve_remote6 := s |>));
   rd_u8 IFLA_GENEVE_TTL GENEVE_ATTR_TTL (fun v d => d <| geneve_ttl := v |>);
   rd_u8 IFLA_GENEVE_TOS GENEVE_ATTR_TOS (fun v d => d <| geneve_tos := v |>);
   rd_u32 IFLA_GENEVE_LABEL GENEVE_ATTR_LABEL (fun v d => d <| geneve_label := v |>);
   rd_u16 IFLA_GENEVE_PORT GENEVE_ATTR_PORT (fun v d => d <| geneve_port := v |>);
   rd_flag IFLA_GENEVE_COLLECT_METADATA (fun d => d <| geneve_flags :=
     Z.lor (geneve_flags d) RTNL_LINK_GENEVE_F_COLLECT_METADATA |>);
   rd_u8 IFLA_GENEVE_UDP_CSUM GENEVE_ATTR_UDP_CSUM (fun v d => d <| geneve_udp_csum := v |>);
   rd_u8 IFLA_GENEVE_UDP_ZERO_CSUM6_TX GENEVE_ATTR_UDP_ZERO_CSUM6_TX (fun v d => d <| geneve_udp_zero_csum6_tx :=
     v |>);
   rd_u8 IFLA_GENEVE_UDP_ZERO_CSUM6_RX GENEVE_ATTR_UDP_ZERO_CSUM6_RX (fun v d => d <| geneve_udp_zero_csum6_rx :=
     v |>)].
Definition geneve_writers : list (writer geneve_info) :=
  [put_u32 GENEVE_ATTR_ID IFLA_GENEVE_ID geneve_id;
   put_u32 GENEVE_ATTR_REMOTE IFLA_GENEVE_REMOTE geneve_remote;
   put_raw GENEVE_ATTR_REMOTE6 IFLA_GENEVE_REMOTE6 16 geneve_remote6;
   put_u8 GENEVE_ATTR_TTL IFLA_GENEVE_TTL geneve_ttl;
   put_u8 GENEVE_ATTR_TOS IFLA_GENEVE_TOS geneve_tos;
   put_u32 GENEVE_ATTR_LABEL IFLA_GENEVE_LABEL geneve_label;
   put_u32 GENEVE_ATTR_PORT IFLA_GENEVE_PORT geneve_port;
   put_u8 GENEVE_ATTR_UDP_CSUM IFLA_GENEVE_UDP_CSUM geneve_udp_csum;
   put_u8 GENEVE_ATTR_UDP_ZERO_CSUM6_TX IFLA_GENEVE_UDP_ZERO_CSUM6_TX geneve_udp_zero_csum6_tx;
   put_u8 GENEVE_ATTR_UDP_ZERO_CSUM6_RX IFLA_GENEVE_UDP_ZERO_CSUM6_RX geneve_udp_zero_csum6_rx;
   put_flag (fun d => has_flag (geneve_flags d) RTNL_LINK_GENEVE_F_COLLECT_METADATA) IFLA_GENEVE_COLLECT_METADATA].
Definition geneve_members : list (member geneve_info) :=
  [Num GENEVE_ATTR_ID 4 geneve_id;
   Num GENEVE_ATTR_REMOTE 4 geneve_remote;
   Raw GENEVE_ATTR_REMOTE6 16 geneve_remote6;
   Num GENEVE_ATTR_TTL 1 geneve_ttl;
   Num GENEVE_ATTR_TOS 1 geneve_tos;
   Num GENEVE_ATTR_LABEL 4 geneve_label;
   Num GENEVE_ATTR_PORT 2 geneve_port;
   Flag RTNL_LINK_GENEVE_F_COLLECT_METADATA RTNL_LINK_GENEVE_F_COLLECT_METADATA geneve_flags;
   Num GENEVE_ATTR_UDP_CSUM 1 geneve_udp_csum;
   Num GENEVE_ATTR_UDP_ZERO_CSUM6_TX 1 geneve_udp_zero_csum6_tx;
   Num GENEVE_ATTR_UDP_ZERO_CSUM6_RX 1 geneve_udp_zero_csum6_rx].

(** The address of the table of the kind. *)
Definition geneve_at : Z := 12.
Section Geneve.
Context {I A : Type} {P : Packed I (body geneve_info)}.
Abbreviation link := (body (rtnl_link I A)).

Definition geneve_alloc (c : bool) : link -> Z * link := kind_alloc c geneve_0.
Definition geneve_free : link -> link := kind_free.
Definition geneve_parse (c : bool) : list Z -> link -> option Z -> option Z -> exec (Z * link) :=
  kind_read c geneve_0 IFLA_GENEVE_MAX geneve_policy geneve_readers.
Definition geneve_put_attrs : link -> nl_msg -> step_msg :=
  kind_put (- NLE_MSGSIZE) 0 (run_writers geneve_writers).
Definition geneve_clone := kind_clone (A := A) (str "geneve") (no_memory).
Definition geneve_info_ops (c : bool) : rtnl_link_info_ops I A :=
  {| io_name := Some (str "geneve"); io_refcnt := 0; io_alloc := Some (geneve_alloc c);
     io_parse := Some (geneve_parse c);
     io_clone := Some geneve_clone; io_put_attrs := Some geneve_put_attrs; io_free := Some geneve_free;
     io_compare := None |}.

Definition rtnl_link_geneve_set_id (l : link) (id : Z) : exec (Z * link) :=
  kind_set_if [geneve_at] l (u32 id <=? RTNL_GENEVE_ID_MAX) NLE_INVAL
    (store_member GENEVE_ATTR_ID (fun d => d <| geneve_id := u32 id |>)).
Definition rtnl_link_geneve_get_id (l : link) : exec (Z + Z) :=
  kind_get_attr [geneve_at] l NLE_AGAIN GENEVE_ATTR_ID geneve_id.
Definition rtnl_link_geneve_set_remote (l : link) (addr : nl_addr) : exec (Z * link) :=
  kind_set_addr [geneve_at] l GENEVE_ATTR_REMOTE GENEVE_ATTR_REMOTE6 (fun v d => d <| geneve_remote :=
    v |>) (fun s d => d <| geneve_remote6 := s |>) addr.
Definition rtnl_link_geneve_get_remote (c : bool) (l : link) : exec (Z + option nl_addr) :=
  kind_get_addr c [geneve_at] l GENEVE_ATTR_REMOTE GENEVE_ATTR_REMOTE6 geneve_remote geneve_remote6.
Definition rtnl_link_geneve_set_ttl (l : link) (ttl : Z) : exec (Z * link) :=
  kind_set [geneve_at] l (store_member GENEVE_ATTR_TTL (fun d => d <| geneve_ttl := u8 ttl |>)).
Definition rtnl_link_geneve_get_ttl (l : link) : exec (Z + Z) :=
  kind_get_attr [geneve_at] l NLE_AGAIN GENEVE_ATTR_TTL geneve_ttl.
Definition rtnl_link_geneve_set_tos (l : link) (tos : Z) : exec (Z * link) :=
  kind_set [geneve_at] l (store_member GENEVE_ATTR_TOS (fun d => d <| geneve_tos := u8 tos |>)).
Definition rtnl_link_geneve_get_tos (l : link) : exec (Z + Z) :=
  kind_get_attr [geneve_at] l NLE_AGAIN GENEVE_ATTR_TOS geneve_tos.
Definition rtnl_link_geneve_set_port (l : link) (port : Z) : exec (Z * link) :=
  kind_set [geneve_at] l (store_member GENEVE_ATTR_PORT (fun d => d <| geneve_port := htons port |>)).
Definition rtnl_link_geneve_get_port (l : link) : exec (Z + Z) :=
  kind_get_attr [geneve_at] l NLE_NOATTR GENEVE_ATTR_PORT (fun d => ntohs (geneve_port d)).
Definition rtnl_link_geneve_set_label (l : link) (label : Z) : exec (Z * link) :=
  kind_set [geneve_at] l (store_member GENEVE_ATTR_LABEL (fun d => d <| geneve_label := htonl (u32 label) |>)).
Definition rtnl_link_geneve_get_label (l : link) : exec (Z + Z) :=
  kind_get_attr [geneve_at] l NLE_NOATTR GENEVE_ATTR_LABEL (fun d => ntohl (geneve_label d)).
Definition rtnl_link_geneve_set_udp_csum (l : link) (csum : Z) : exec (Z * link) :=
  kind_set [geneve_at] l (store_member GENEVE_ATTR_UDP_CSUM (fun d => d <| geneve_udp_csum := u8 csum |>)).
Definition rtnl_link_geneve_get_udp_csum (l : link) : exec (Z + Z) :=
  kind_get_attr [geneve_at] l NLE_NOATTR GENEVE_ATTR_UDP_CSUM geneve_udp_csum.
Definition rtnl_link_geneve_set_udp_zero_csum6_tx (l : link) (csum : Z) : exec (Z * link) :=
  kind_set [geneve_at] l (store_member GENEVE_ATTR_UDP_ZERO_CSUM6_TX (fun d => d <| geneve_udp_zero_csum6_tx :=
    u8 csum |>)).
Definition rtnl_link_geneve_get_udp_zero_csum6_tx (l : link) : exec (Z + Z) :=
  kind_get_attr [geneve_at] l NLE_NOATTR GENEVE_ATTR_UDP_ZERO_CSUM6_TX geneve_udp_zero_csum6_tx.
Definition rtnl_link_geneve_set_udp_zero_csum6_rx (l : link) (csum : Z) : exec (Z * link) :=
  kind_set [geneve_at] l (store_member GENEVE_ATTR_UDP_ZERO_CSUM6_RX (fun d => d <| geneve_udp_zero_csum6_rx :=
    u8 csum |>)).
Definition rtnl_link_geneve_get_udp_zero_csum6_rx (l : link) : exec (Z + Z) :=
  kind_get_attr [geneve_at] l NLE_NOATTR GENEVE_ATTR_UDP_ZERO_CSUM6_RX geneve_udp_zero_csum6_rx.
Definition rtnl_link_geneve_set_flags (l : link) (flags : Z) (enable : bool) : exec (Z * link) :=
  kind_set_if [geneve_at] l (Z.land (u8 flags) (Z.lnot RTNL_LINK_GENEVE_F_COLLECT_METADATA) =? 0) NLE_INVAL
    (fun x =>
    let d := ce_data x in
    Body (ce_mask x) (d <| geneve_flags :=
      u8 (if enable then u8 flags else Z.land (geneve_flags d) (Z.lnot (u8 flags))) |>)).
Definition rtnl_link_geneve_get_flags (l : link) : exec Z :=
  kind_get [geneve_at] l (fun x => geneve_flags (ce_data x)).
End Geneve.
Definition rtnl_link_geneve_alloc {I A} (g : link_reg I A) c c0 := alloc_of_kind g c c0 (str "geneve").
Definition rtnl_link_is_geneve {I A} (g : link_reg I A) l := is_kind g l (str "geneve").

Definition geneve_desc : kind_desc geneve_info :=
  Kind_desc geneve_0 IFLA_GENEVE_MAX geneve_policy geneve_readers geneve_writers geneve_members.
Lemma geneve_desc_ok : desc_ok geneve_desc.
Proof. desc_tac geneve_members. Qed.
Lemma geneve_covered : covered geneve_desc.
Proof. by vm_compute. Qed.
(** The functions that set a member. *)
Definition geneve_setters {I A : Type} {P : Packed I (body geneve_info)} (v : Z) (s : list Z) : list (body
  (rtnl_link I A) -> exec (Z * body (rtnl_link I A))) :=
  [fun l => rtnl_link_geneve_set_id l v; fun l => rtnl_link_geneve_set_ttl l v;
   fun l => rtnl_link_geneve_set_tos l v; fun l => rtnl_link_geneve_set_port l v;
   fun l => rtnl_link_geneve_set_label l v; fun l => rtnl_link_geneve_set_udp_csum l v;
   fun l => rtnl_link_geneve_set_udp_zero_csum6_tx l v; fun l => rtnl_link_geneve_set_udp_zero_csum6_rx l v].
Lemma geneve_sets_ok {I A : Type} {P : Packed I (body geneve_info)} canon v s :
  bytes_ok s -> zlen s = 0 -> Forall (set_ok (I := I) (A :=
    A) [geneve_at] geneve_members canon) (geneve_setters v s).
Proof. intros Hb Hz. unfold geneve_setters. each; set_tac geneve_members. Qed.

Lemma geneve_regular : regular geneve_desc.
Proof.
  regular_tac. intros v Hv. pose proof (flags2 _ (typed_at 7 _ _ _ Hv eq_refl)) as Hf. clear Hv. destruct v. cbn [geneve_flags] in Hf.
  decompose [or] Hf; subst; repeat split.
Qed.
Lemma geneve_sends x :
  (has_attr x GENEVE_ATTR_REMOTE = true -> Z.land (ce_mask x) GENEVE_ATTR_REMOTE6 = 0) ->
  Forall (sends geneve_writers x) geneve_readers.
Proof.
  intros Hr. assert (has_attr x GENEVE_ATTR_REMOTE6 = true -> Z.land (ce_mask x) GENEVE_ATTR_REMOTE = 0) as Hr6.
  { intros H6. destruct (has_attr x GENEVE_ATTR_REMOTE) eqn:E; [|by apply negb_false_iff, Z.eqb_eq in E]. unfold has_attr, has_flag in H6.
    by rewrite Hr in H6. }
  sends_tac.
Qed.

Definition geneve_addrs {I A : Type} {P : Packed I (body geneve_info)} :
    list (Z * Z * (body (rtnl_link I A) -> nl_addr -> exec (Z * body (rtnl_link I A)))) :=
  [(GENEVE_ATTR_REMOTE, GENEVE_ATTR_REMOTE6, rtnl_link_geneve_set_remote)].
Lemma geneve_addrs_ok {I A : Type} {P : Packed I (body geneve_info)} :
  Forall (fun '(b4, b6, f) => set_addr_ok (I := I) (A := A) [geneve_at] geneve_members b4 b6 f) geneve_addrs.
Proof. unfold geneve_addrs. each; addr_tac geneve_members. Qed.
Definition geneve_flag_setters {I A : Type} {P : Packed I (body geneve_info)} (flags : Z) (enable : bool) :
    list (body (rtnl_link I A) -> exec (Z * body (rtnl_link I A))) :=
  [fun l => rtnl_link_geneve_set_flags l flags enable].
Lemma geneve_flags_ok {I A : Type} {P : Packed I (body geneve_info)} canon flags enable :
  Forall (set_ok (I := I) (A := A) [geneve_at] geneve_members canon) (geneve_flag_setters flags enable).
Proof.
  unfold geneve_flag_setters. each. apply kind_set_if_ok.
  - intros Hc%flags_known x Hx. cbv zeta. cbn [ce_data]. unfold geneve_members in *. typed_members; cbn [member_typed geneve_flags] in *.
    destruct enable; [|by apply (flags_less _ _ _ 1)]. rewrite <- (Z.lor_0_l (u8 flags)). by apply (flags_or _ _ _ 1).
  - intros _ x [Hx Hm]. split; [|done]. unfold geneve_members in *. each_kept.
Qed.
