(* ===== verification/KindLib.v ===== *)
(** The kinds of links that are modelled together: the union of their structures, the
    registry that holds their tables, and what is proved about every kind: that the
    tables keep the promises links depend on (LinkProps), that what a kind composes it
    reads back, that whatever is received is read inside the attribute, and that the
    functions that set members keep this so.

    They are sixteen: ipip, gre, gretap, vti, sit, ip6tnl, xfrm, vrf, ppp, ipvlan,
    vxlan, geneve (KindTunnel, KindMisc, KindVxlan), and dummy, ifb, bond and team,
    which have no attributes.  The library registers six more, which are not modelled
    and about which nothing is said here: vlan, macvlan, macvtap, macsec, veth, can. *)
From S2P Require Import Prelude Errors Msg Attr Data CString Addr Socket Nl Object Cache ObjAttr Wire Build Rtnl Ends StepMsg Sriov CacheDump LinkApi LinkReg Link LinkMsg LinkProps LinkKind KindTunnel KindMisc KindVxlan.

(** What [l_info] points to. *)
Inductive kind_info :=
| OfIpip (x : body ipip_info) | OfGre (x : body ipgre_info) | OfVti (x : body ipvti_info) | OfSit (x : body sit_info)
| OfIp6Tnl (x : body ip6_tnl_info) | OfXfrmi (x : body xfrmi_info) | OfVrf (x : body vrf_info)
| OfPpp (x : body ppp_info) | OfIpvlan (x : body ipvlan_info) | OfVxlan (x : body vxlan_info)
| OfGeneve (x : body geneve_info).
#[export] Instance packed_ipip : Packed kind_info (body ipip_info) :=
  {| pack := OfIpip; unpack i := match i with OfIpip x => Some x | _ => None end; unpack_pack v := eq_refl |}.
#[export] Instance packed_gre : Packed kind_info (body ipgre_info) :=
  {| pack := OfGre; unpack i := match i with OfGre x => Some x | _ => None end; unpack_pack v := eq_refl |}.
#[export] Instance packed_vti : Packed kind_info (body ipvti_info) :=
  {| pack := OfVti; unpack i := match i with OfVti x => Some x | _ => None end; unpack_pack v := eq_refl |}.
#[export] Instance packed_sit : Packed kind_info (body sit_info) :=
  {| pack := OfSit; unpack i := match i with OfSit x => Some x | _ => None end; unpack_pack v := eq_refl |}.
#[export] Instance packed_ip6_tnl : Packed kind_info (body ip6_tnl_info) :=
  {| pack := OfIp6Tnl; unpack i := match i with OfIp6Tnl x => Some x | _ => None end; unpack_pack v := eq_refl |}.
#[export] Instance packed_xfrmi : Packed kind_info (body xfrmi_info) :=
  {| pack := OfXfrmi; unpack i := match i with OfXfrmi x => Some x | _ => None end; unpack_pack v := eq_refl |}.
#[export] Instance packed_vrf : Packed kind_info (body vrf_info) :=
  {| pack := OfVrf; unpack i := match i with OfVrf x => Some x | _ => None end; unpack_pack v := eq_refl |}.
#[export] Instance packed_ppp : Packed kind_info (body ppp_info) :=
  {| pack := OfPpp; unpack i := match i with OfPpp x => Some x | _ => None end; unpack_pack v := eq_refl |}.
#[export] Instance packed_ipvlan : Packed kind_info (body ipvlan_info) :=
  {| pack := OfIpvlan; unpack i := match i with OfIpvlan x => Some x | _ => None end; unpack_pack v := eq_refl |}.
#[export] Instance packed_vxlan : Packed kind_info (body vxlan_info) :=
  {| pack := OfVxlan; unpack i := match i with OfVxlan x => Some x | _ => None end; unpack_pack v := eq_refl |}.
#[export] Instance packed_geneve : Packed kind_info (body geneve_info) :=
  {| pack := OfGeneve; unpack i := match i with OfGeneve x => Some x | _ => None end; unpack_pack v := eq_refl |}.

(** ** Tables that implement a description *)

Section Implements.
Context {A : Type}.
Abbreviation link := (body (rtnl_link kind_info A)).
Abbreviation info_ops := (rtnl_link_info_ops kind_info A).

Record implements {V} {P : Packed kind_info (body V)} (name : list Z) (ops : bool -> info_ops) (k : kind_desc V) : Prop := {
  im_name c : io_name (ops c) = Some name;
  im_alloc c : io_alloc (ops c) = Some (kind_alloc c (k_zero k));
  im_free c : io_free (ops c) = Some kind_free;
  im_parse c : io_parse (ops c) = Some (desc_parse k c);
  im_put c : exists se pe, io_put_attrs (ops c) = Some (kind_put se pe (run_writers (k_writers k)))
}.

(** A kind of the library: its table ([lk_ops c]: memory allocation succeeds for [c]),
    the description of its structure, and its functions that set members: to a number
    or to [lk_raw] bytes, flags on or off, and addresses of one of two families, with
    the bits of these. *)
Record lib_kind := Lib_kind {
  lk_type : Type;
  lk_packed : Packed kind_info (body lk_type);
  lk_at : Z;
  lk_name : list Z;
  lk_ops : bool -> info_ops;
  lk_desc : kind_desc lk_type;
  lk_raw : Z;
  lk_ats : list Z;
  lk_setters : Z -> list Z -> list (link -> exec (Z * link));
  lk_flags : Z -> bool -> list (link -> exec (Z * link));
  lk_addrs : list (Z * Z * (link -> nl_addr -> exec (Z * link)))
}.
Record lib_kind_ok (k : lib_kind) : Prop := {
  lo_at : lk_at k <> 0 /\ lk_at k ∈ lk_ats k;
  lo_impl : implements (P := lk_packed k) (lk_name k) (lk_ops k) (lk_desc k);
  lo_desc : desc_ok (lk_desc k);
  lo_regular : regular (lk_desc k);
  lo_zero : canonical (k_members (lk_desc k)) (Body 0 (k_zero (lk_desc k)));
  lo_setters canon v s : bytes_ok s -> zlen s = lk_raw k ->
    Forall (set_ok (P := lk_packed k) (lk_ats k) (k_members (lk_desc k)) canon) (lk_setters k v s);
  lo_flags canon v b : Forall (set_ok (P := lk_packed k) (lk_ats k) (k_members (lk_desc k)) canon) (lk_flags k v b);
  lo_addrs : Forall (fun '(b4, b6, f) => set_addr_ok (P := lk_packed k) (lk_ats k) (k_members (lk_desc k)) b4 b6 f) (lk_addrs k)
}.

Definition no_flags (v : Z) (b : bool) : list (link -> exec (Z * link)) := [].
Definition no_addrs : list (Z * Z * (link -> nl_addr -> exec (Z * link))) := [].

(** The modelled kinds with attributes. *)
Definition lib_kinds : list lib_kind :=
  [Lib_kind ipip_info packed_ipip ipip_at (str "ipip") ipip_info_ops ipip_desc 0 [ipip_at] ipip_setters no_flags no_addrs;
   Lib_kind ipgre_info packed_gre ipgre_at (str "gre") ipgre_info_ops ipgre_desc 0 ipgre_ats ipgre_setters no_flags no_addrs;
   Lib_kind ipgre_info packed_gre ipgretap_at (str "gretap") ipgretap_info_ops ipgre_desc 0 ipgre_ats ipgre_setters no_flags no_addrs;
   Lib_kind ipvti_info packed_vti ipvti_at (str "vti") ipvti_info_ops ipvti_desc 0 [ipvti_at] ipvti_setters no_flags no_addrs;
   Lib_kind sit_info packed_sit sit_at (str "sit") sit_info_ops sit_desc 16 [sit_at] sit_setters no_flags no_addrs;
   Lib_kind ip6_tnl_info packed_ip6_tnl ip6_tnl_at (str "ip6tnl") ip6_tnl_info_ops ip6_tnl_desc 16 [ip6_tnl_at] ip6_tnl_setters no_flags no_addrs;
   Lib_kind xfrmi_info packed_xfrmi xfrmi_at (str "xfrm") xfrmi_info_ops xfrmi_desc 0 [xfrmi_at] xfrmi_setters no_flags no_addrs;
   Lib_kind vrf_info packed_vrf vrf_at (str "vrf") vrf_info_ops vrf_desc 0 [vrf_at] vrf_setters no_flags no_addrs;
   Lib_kind ppp_info packed_ppp ppp_at (str "ppp") ppp_info_ops ppp_desc 0 [ppp_at] ppp_setters no_flags no_addrs;
   Lib_kind ipvlan_info packed_ipvlan ipvlan_at (str "ipvlan") ipvlan_info_ops ipvlan_desc 0 [ipvlan_at] ipvlan_setters no_flags no_addrs;
   Lib_kind vxlan_info packed_vxlan vxlan_at (str "vxlan") vxlan_info_ops vxlan_desc 4 [vxlan_at] vxlan_setters vxlan_flag_setters vxlan_addrs;
   Lib_kind geneve_info packed_geneve geneve_at (str "geneve") geneve_info_ops geneve_desc 0 [geneve_at] geneve_setters geneve_flag_setters geneve_addrs].

(** The kinds without attributes. *)
Definition dummy_at := 15.
Definition ifb_at := 16.
Definition bonding_at := 17.
Definition team_at := 18.
Definition bare_tables : list (Z * info_ops) :=
  [(dummy_at, dummy_info_ops); (ifb_at, ifb_info_ops); (bonding_at, bonding_info_ops); (team_at, team_info_ops)].
Definition lib_tables (c : bool) : list (Z * info_ops) := map (fun k => (lk_at k, lk_ops k c)) lib_kinds ++ bare_tables.

Ltac kind_ok d r sets flags addrs :=
  split;
  [ split; [discriminate|repeat first [apply list_elem_of_here|apply list_elem_of_further]]
  | split; intros c; [reflexivity|reflexivity|reflexivity|reflexivity|eexists _, _; reflexivity]
  | exact d | exact r | split; [each; intros _; first [exact I|reflexivity]|reflexivity] | intros canon v s; apply sets
  | intros canon v b; apply flags | apply addrs ].
Lemma no_flags_ok {V} {P : Packed kind_info (body V)} ats ms canon v b : Forall (set_ok (P := P) ats ms canon) (no_flags v b).
Proof. apply Forall_nil_2. Qed.
Lemma no_addrs_ok {V} {P : Packed kind_info (body V)} ats ms :
  Forall (fun '(b4, b6, f) => set_addr_ok (P := P) ats ms b4 b6 f) no_addrs.
Proof. apply Forall_nil_2. Qed.
Lemma lib_kinds_ok : Forall lib_kind_ok lib_kinds.
Proof.
  unfold lib_kinds. repeat apply Forall_cons_2; [..|apply Forall_nil_2].
  - kind_ok ipip_desc_ok ipip_regular (@ipip_sets_ok) (@no_flags_ok) (@no_addrs_ok).
  - kind_ok ipgre_desc_ok ipgre_regular (@ipgre_sets_ok) (@no_flags_ok) (@no_addrs_ok).
  - kind_ok ipgre_desc_ok ipgre_regular (@ipgre_sets_ok) (@no_flags_ok) (@no_addrs_ok).
  - kind_ok ipvti_desc_ok ipvti_regular (@ipvti_sets_ok) (@no_flags_ok) (@no_addrs_ok).
  - kind_ok sit_desc_ok sit_regular (@sit_sets_ok) (@no_flags_ok) (@no_addrs_ok).
  - kind_ok ip6_tnl_desc_ok ip6_tnl_regular (@ip6_tnl_sets_ok) (@no_flags_ok) (@no_addrs_ok).
  - kind_ok xfrmi_desc_ok xfrmi_regular (@xfrmi_sets_ok) (@no_flags_ok) (@no_addrs_ok).
  - kind_ok vrf_desc_ok vrf_regular (@vrf_sets_ok) (@no_flags_ok) (@no_addrs_ok).
  - kind_ok ppp_desc_ok ppp_regular (@ppp_sets_ok) (@no_flags_ok) (@no_addrs_ok).
  - kind_ok ipvlan_desc_ok ipvlan_regular (@ipvlan_sets_ok) (@no_flags_ok) (@no_addrs_ok).
  - kind_ok vxlan_desc_ok vxlan_regular (@vxlan_sets_ok) (@vxlan_flags_ok) (@vxlan_addrs_ok).
  - kind_ok geneve_desc_ok geneve_regular (@geneve_sets_ok) (@geneve_flags_ok) (@geneve_addrs_ok).
Qed.
End Implements.
Arguments lib_kind A : clear implicits.

(** ** The registry of the library *)

Section Lib.
Context {A : Type}.
Abbreviation link := (body (rtnl_link kind_info A)).
Variable c : bool.
Variable afs : gmap Z (rtnl_link_af_ops kind_info A).
Variable slots : list Z.

(** With the tables of kinds [l] registered, and some families. *)
Definition reg_with (l : list Z) : link_reg kind_info A :=
  {| r_infos := list_to_map (lib_tables c); r_afs := afs; info_ops := l; af_ops := slots |}.
Definition lib_reg : link_reg kind_info A := reg_with (map fst (lib_tables (A := A) c)).

(** The __init functions, up to the first that fails. *)
Fixpoint register_infos (g : link_reg kind_info A) (l : list Z) : exec (Z * link_reg kind_info A) :=
  match l with
  | [] => mret (0, g)
  | a :: l => '(e, g) ← rtnl_link_register_info g a; if e <? 0 then mret (e, g) else register_infos g l
  end.

(** What the table at an address says about [l_info]. *)
Definition lib_data (a : Z) (o : option kind_info) : Prop :=
  match find (fun k => lk_at k =? a) (@lib_kinds A) with
  | Some k => data_of (P := lk_packed k) (k_members (lk_desc k)) o
  | None => o = None
  end.

Lemma find_kind (k : lib_kind A) : k ∈ lib_kinds -> find (fun k' => lk_at k' =? lk_at k) lib_kinds = Some k.
Proof.
  unfold lib_kinds at 1. intros H. repeat (apply elem_of_cons in H as [->|H]; [reflexivity|]). by apply elem_of_nil in H.
Qed.
Lemma kind_in (k : lib_kind A) : k ∈ lib_kinds -> lib_kind_ok k.
Proof. pose proof (@lib_kinds_ok A) as H. rewrite Forall_forall in H. apply H. Qed.
Lemma table_cases a io : r_infos lib_reg !! a = Some io ->
  (exists k, k ∈ lib_kinds /\ a = lk_at k /\ io = lk_ops k c) \/
  lib_data a None /\ exists n, io = bare_info_ops n.
Proof.
  intros H%elem_of_list_to_map_2. unfold lib_tables in H. apply elem_of_app in H as [H|H].
  - left. apply list_elem_of_fmap in H as (k & [= -> ->] & Hk). by exists k.
  - right. unfold bare_tables in H. repeat (apply elem_of_cons in H as [[= -> ->]|H]; [split; [done|by eexists]|]). by apply elem_of_nil in H.
Qed.

(** What is asked of the families. *)
Record families_ok (fam_ok : Z -> A -> Prop) : Prop := {
  fo_alloc a o : afs !! a = Some o -> exists f, ao_alloc o = Some f /\ forall l x, f l = Some x -> fam_ok (ao_family o) x;
  fo_free a o f l x : afs !! a = Some o -> ao_free o = Some f -> f l x = l;
  fo_fill a o f l x : afs !! a = Some o -> ao_fill_af o = Some f -> fam_ok (ao_family o) x -> safe (f l x);
  fo_fill_pi a o f l x : afs !! a = Some o -> ao_fill_pi o = Some f -> fam_ok (ao_family o) x -> safe (f l x)
}.
End Lib.
Arguments families_ok {A}.

(** ** Links that a kind has been set up for *)

Section Configured.
Context {A : Type}.
Abbreviation link := (body (rtnl_link kind_info A)).
Variable k : lib_kind A.
#[local] Existing Instance lk_packed.

(** Allocated, and members set by calls of the kind's functions; an address only
    where there is none of the other family. *)
Definition set_call (f : link -> exec (Z * link)) : Prop :=
  (exists v s, bytes_ok s /\ zlen s = lk_raw k /\ f ∈ lk_setters k v s) \/ exists v b, f ∈ lk_flags k v b.
Inductive configured : link -> Prop :=
| conf_alloc c l l' : l_info_ops (ce_data l) ∈ lk_ats k -> kind_alloc c (k_zero (lk_desc k)) l = (0, l') -> configured l'
| conf_set f l e l' : configured l -> set_call f -> f l = Done (e, l') -> configured l'
| conf_addr b4 b6 f a l (x : body (lk_type k)) e l' : configured l -> (b4, b6, f) ∈ lk_addrs k -> addr_ok a ->
    kind_data l = Done x -> has_attr x (other_bit a b4 b6) = false -> f l a = Done (e, l') -> configured l'.

Lemma configured_data l : lib_kind_ok k -> configured l ->
  l_info_ops (ce_data l) ∈ lk_ats k /\
  exists x, kind_data l = Done x /\ typed (k_members (lk_desc k)) (ce_data x) /\ canonical (k_members (lk_desc k)) x.
Proof.
  intros Hk H. induction H as [c l l' Ha He|f l e l' _ [Ha (x & Hl & Hx & Hc)] Hf He|b4 b6 f a l z e l' _ [Ha (x & Hl & Hx & Hc)] Hf Hok Hz Ho He].
  - unfold kind_alloc in He. destruct (is_some _ || c); [|done]. injection He as <-. split; [done|].
    exists (Body 0 (k_zero (lk_desc k))). split; [apply kind_data_put|]. split; [apply Hk|apply Hk].
  - assert (set_ok (lk_ats k) (k_members (lk_desc k)) true f) as Hs.
    { destruct Hf as [(v & s & Hb & Hz & Hf)|(v & b & Hf)].
      - pose proof (lo_setters k Hk true v s Hb Hz) as Hs. rewrite Forall_forall in Hs. by apply Hs.
      - pose proof (lo_flags k Hk true v b) as Hs. rewrite Forall_forall in Hs. by apply Hs. }
    destruct (Hs l x Ha Hl Hx) as (e' & l2 & E & Hr). rewrite He in E. apply done_inj in E. injection E as -> ->.
    destruct Hr as [->|(y & -> & Hy & Hcy)]; [split; [done|by exists x]|]. split; [done|]. exists y. split; [apply kind_data_put|].
    split; [done|]. by apply Hcy.
  - rewrite Hl in Hz. apply done_inj in Hz. subst z. pose proof (lo_addrs k Hk) as Hs. rewrite Forall_forall in Hs.
    destruct (Hs _ Hf a l x Hok Ha Hl Hx) as (e' & l2 & E & Hr). rewrite He in E. apply done_inj in E. injection E as -> ->.
    destruct Hr as [->|(y & -> & Hy & Hcy)]; [split; [done|by exists x]|]. split; [done|]. exists y. split; [apply kind_data_put|].
    split; [done|]. by apply Hcy.
Qed.
End Configured.

(** ** Helpers for the properties *)

Section Tables.
Context {A : Type}.
Abbreviation link := (body (rtnl_link kind_info A)).

(** A table of the library keeps its promises. *)
Lemma lib_alloc (k : lib_kind A) c f (l : link) : k ∈ lib_kinds -> io_alloc (lk_ops k c) = Some f ->
  exists x, (f l).2 = with_info l x /\ ((f l).1 < 0 \/ io_free (lk_ops k c) = None -> x = l_info (ce_data l)) /\
    (0 <= (f l).1 -> lib_data (A := A) (lk_at k) x).
Proof.
  intros Hin. pose proof (kind_in k Hin) as Hk. destruct (lo_impl k Hk) as [_ Ha Hf _ _]. rewrite Ha, Hf. intros [= <-].
  destruct (alloc_data (P := lk_packed k) (k_members (lk_desc k)) c (k_zero (lk_desc k)) l) as (x & E & H1 & H2); [apply Hk|].
  exists x. split; [exact E|]. split; [intros [H|H]; [by apply H1|done]|]. intros H. unfold lib_data. rewrite find_kind by done. by apply H2.
Qed.
Lemma lib_put (k : lib_kind A) c f (l : link) : k ∈ lib_kinds -> io_put_attrs (lk_ops k c) = Some f ->
  lib_data (A := A) (lk_at k) (l_info (ce_data l)) -> safe (f l).
Proof.
  intros Hin Hf Hd. pose proof (kind_in k Hin) as Hk. destruct (im_put _ _ _ (lo_impl k Hk) c) as (se & pe & E). rewrite E in Hf.
  injection Hf as <-. unfold lib_data in Hd. rewrite find_kind in Hd by done.
  destruct (data_of_kind (P := lk_packed k) _ l Hd) as (x & Hx & Ht).
  by apply (desc_put_safe (lk_desc k) (lo_desc k Hk) (P := lk_packed k) se pe l x).
Qed.
Lemma lib_ends (k : lib_kind A) c f b (l : link) data xs : k ∈ lib_kinds -> io_parse (lk_ops k c) = Some f -> bytes_ok b ->
  ends (f b l data xs).
Proof.
  intros Hin Hf Hb. destruct (lo_impl k (kind_in k Hin)) as [_ _ _ Hp _]. rewrite Hp in Hf. injection Hf as <-.
  by apply (ends_kind_read (P := lk_packed k)).
Qed.
Lemma lib_covered (k : lib_kind A) : k ∈ lib_kinds -> lk_at k <> ppp_at -> covered (lk_desc k).
Proof.
  unfold lib_kinds. intros H Hne. repeat (apply elem_of_cons in H as [->|H]; [first [by vm_compute|by destruct Hne]|]). by apply elem_of_nil in H.
Qed.
(** Every table that is registered has a name. *)
Lemma lib_named c (afs : gmap Z (rtnl_link_af_ops kind_info A)) slots a :
  a ∈ info_ops (lib_reg c afs slots) -> exists o n, r_infos (lib_reg c afs slots) !! a = Some o /\ io_name o = Some n.
Proof.
  change (info_ops (lib_reg c afs slots)) with [1; 2; 3; 4; 5; 6; 7; 8; 9; 10; 11; 12; 15; 16; 17; 18]. intros H.
  repeat (apply elem_of_cons in H as [->|H]; [eexists _, _; split; reflexivity|]). by apply elem_of_nil in H.
Qed.
End Tables.

(** ** Properties *)

(** C22. The sixteen kinds that are modelled (ipip, gre, gretap, vti, sit, ip6tnl,
    xfrm, vrf, ppp, ipvlan, vxlan, geneve, dummy, ifb, bond, team; not vlan, macvlan,
    macvtap, macsec, veth and can) keep the promises that links depend on, whatever
    families that keep theirs there are: registering their tables in turn where none
    is registered succeeds and gives the registry [lib_reg]; in it every table
    allocates and frees the structure of its kind and nothing else, and composing a
    structure of the kind leaves the rest of the message alone; and the parsers of
    these kinds end for every message. *)
Theorem kinds_tables_ok {A} (c : bool) (afs : gmap Z (rtnl_link_af_ops kind_info A)) slots (fam_ok : Z -> A -> Prop) :
  families_ok afs fam_ok -> reg_ok (reg_with c afs slots []) ->
  register_infos (reg_with c afs slots []) (map fst (lib_tables (A := A) c)) = Done (0, lib_reg c afs slots) /\
  reg_ok (lib_reg c afs slots) /\
  tables_ok (lib_reg c afs slots) (lib_data (A := A)) fam_ok /\
  forall b a io f l data xs, bytes_ok b -> r_infos (lib_reg c afs slots) !! a = Some io -> io_parse io = Some f ->
    ends (f b l data xs).
Proof.
  intros Hf [R1 R2 R3 _]. split; [reflexivity|]. split; [split; [exact R1|exact R2|exact R3|]|split; [split|]].
  - apply lib_named.
  - intros a io f l Hio Hal. destruct (table_cases c afs slots a io Hio) as [(k & Hk & -> & ->)|(_ & n & ->)]; [|done]. by apply lib_alloc.
  - intros a io Hio Hal. destruct (table_cases c afs slots a io Hio) as [(k & Hk & -> & ->)|(Hd & _)]; [|done].
    destruct (lo_impl k (kind_in k Hk)) as [_ Ha _ _ _]. by rewrite Ha in Hal.
  - intros a io f l Hio Hfr. destruct (table_cases c afs slots a io Hio) as [(k & Hk & -> & ->)|(_ & n & ->)]; [|done].
    destruct (lo_impl k (kind_in k Hk)) as [_ _ Hfree _ _]. rewrite Hfree in Hfr. by injection Hfr as <-.
  - intros a io f l Hio Hput Hw Hat. destruct (table_cases c afs slots a io Hio) as [(k & Hk & -> & ->)|(_ & n & ->)]; [|done].
    apply (lib_put k c f l Hk Hput). destruct (lw_info _ _ _ l Hw) as [[H0 _]|(_ & io' & _ & _ & Hd)].
    + destruct (lo_at k (kind_in k Hk)) as [Hne _]. congruence.
    + by rewrite Hat in Hd.
  - apply Hf.
  - apply Hf.
  - intros a o f l x Ho Hfi _ Hx. by eapply fo_fill.
  - intros a o f l x Ho Hfi _ Hx. by eapply fo_fill_pi.
  - intros b a io f l data xs Hb Hio Hp. destruct (table_cases c afs slots a io Hio) as [(k & Hk & -> & ->)|(_ & n & ->)]; [|done].
    by eapply lib_ends.
Qed.

(** C23. What has been set of a link of one of the twelve modelled kinds with
    attributes is what the other side reads: after calls of the kind's functions that
    set numbers, bytes, flags and addresses, composing into a message with room ends
    in a nest after what the message held, and the kind's parser, on any link of the
    kind, reads exactly the structure from it.  Two things are left out.  An address
    of VXLAN or GENEVE must not be set over one of the other family, which stays in
    the structure and is not sent (see [vxlan_stale_group]); and every member is sent
    under its own bit, which [ipgre_sends], [ipvti_sends], [ip6_tnl_sends],
    [vxlan_sends] and [geneve_sends] give for the kinds where it is not always so. *)
Theorem kinds_roundtrip {A} (k : lib_kind A) c (l : body (rtnl_link kind_info A)) x m head before :
  k ∈ lib_kinds -> configured k l -> kind_data (P := lk_packed k) l = Done x ->
  Forall (sends (k_writers (lk_desc k)) x) (k_readers (lk_desc k)) ->
  holds m head before -> room_for m head (sent (k_writers (lk_desc k)) x) ->
  exists put parse m' d,
    io_put_attrs (lk_ops k c) = Some put /\ io_parse (lk_ops k c) = Some parse /\
    put l m = Done (0, m') /\ holds m' head (before ++ [(IFLA_INFO_DATA, d)]) /\
    forall l2 xs, is_some (l_info (ce_data l2)) || c = true ->
      parse (nm_nlh m') l2 (Some (msg_len m)) xs = Done (0, put_data (P := lk_packed k) l2 x).
Proof.
  intros Hin Hconf Hl Hs Hh Hroom. pose proof (kind_in k Hin) as Hk. destruct (configured_data k l Hk Hconf) as (_ & y & Hy & Ht & Hc).
  rewrite Hl in Hy. apply done_inj in Hy. subst y. destruct (lo_impl k Hk) as [_ _ _ Hp Hput]. destruct (Hput c) as (se & pe & E).
  destruct (put_then_parse (lk_desc k) (lo_desc k Hk) (P := lk_packed k) se pe l x m head before) as (m' & d & H1 & H2 & H3); [done..|].
  eexists _, _, m', d. split; [exact E|]. split; [apply Hp|]. split; [exact H1|]. split; [exact H2|]. intros l2 xs H.
  rewrite H3 by done. do 3 f_equal. by apply (decode_sent (lk_desc k)); [apply Hk..| | |].
Qed.


(** ** What modelling showed *)

(** The policy of PPP asks for nothing, since the table of least lengths has no entry
    for signed numbers: a descriptor cut short is read past the end of what has been
    received. *)
Lemma ppp_short_fd :
  let b := [10; 0; 2; 0] ++ [6; 0; 1; 0; 7; 7] in
  ppp_parse (P := packed_ppp) (A := Z) true b (Body 0 link_0) (Some 0) None = Fault.
Proof. by vm_compute. Qed.
(** Setting the descriptor again mixes it with the old one. *)
Lemma ppp_fd_mixed (l : body (rtnl_link kind_info Z)) m d v w :
  l_info_ops (ce_data l) = ppp_at -> kind_data (P := packed_ppp) l = Done (Body m d) -> pi_fd d = v -> 
  exists l', rtnl_link_ppp_set_fd (P := packed_ppp) l w = Done (0, l') /\
    option_map (fun i => match i with OfPpp x => pi_fd (ce_data x) | _ => 0 end) (l_info (ce_data l')) = Some (s32 (Z.lor v (s32 w))).
Proof.
  intros Ha Hl <-. unfold rtnl_link_ppp_set_fd, kind_set, of_kind. rewrite bool_decide_eq_true_2 by (rewrite Ha; by left).
  rewrite Hl. exec_simpl. eexists. split; [done|]. done.
Qed.
(** Links that differ in what they do about checksums compare as the same: the
    comparison looks at another member. *)
Lemma vxlan_csum_ignored :
  let l v : body (rtnl_link kind_info Z) := put_data (P := packed_vxlan) (Body 0 link_0)
    (Body VXLAN_ATTR_UDP_CSUM (let d := vxlan_0 in d <| vxi_udp_csum := v |>)) in
  vxlan_compare (P := packed_vxlan) (l 0) (l 1) 0 = Done 0.
Proof. by vm_compute. Qed.
(** So do links that differ in their flags, which have no bit in the mask. *)
Lemma vxlan_flags_ignored :
  let l v : body (rtnl_link kind_info Z) := put_data (P := packed_vxlan) (Body 0 link_0)
    (Body VXLAN_ATTR_ID (let d := vxlan_0 in d <| vxi_flags := v |>)) in
  vxlan_compare (P := packed_vxlan) (l 0) (l RTNL_LINK_VXLAN_F_GBP) 0 = Done 0.
Proof. by vm_compute. Qed.
(** The length of the relay prefix is kept back unless the prefix itself is set. *)
Lemma sit_prefixlen_hidden :
  let l : body (rtnl_link kind_info Z) := put_data (P := packed_sit) (Body 0 (let d := link_0 in d <| l_info_ops := sit_at |>))
    (Body SIT_ATTR_6RD_RELAY_PREFIXLEN (let d := sit_0 in d <| sit_ip6rd_relay_prefixlen := 16 |>)) in
  rtnl_link_sit_get_ip6rd_relay_prefixlen (P := packed_sit) l = Done (inl (- NLE_NOATTR)).
Proof. by vm_compute. Qed.
(** An IPv6 group and then an IPv4 group: the first stays in the structure, and is not
    what the other side gets to know. *)
Lemma vxlan_stale_group :
  let l0 : body (rtnl_link kind_info Z) := put_data (P := packed_vxlan)
    (Body 0 (let d := link_0 in d <| l_info_ops := vxlan_at |>)) (Body 0 vxlan_0) in
  exists l1 l2 x, rtnl_link_vxlan_set_group (P := packed_vxlan) l0 (ex_addr AF_INET6 (replicate 16 1) 128) = Done (0, l1) /\
    rtnl_link_vxlan_set_group (P := packed_vxlan) l1 (ex_addr AF_INET [224; 0; 0; 1] 32) = Done (0, l2) /\
    kind_data (P := packed_vxlan) l2 = Done x /\ vxi_group6 (ce_data x) = replicate 16 1 /\
    map fst (sent vxlan_writers x) = [IFLA_VXLAN_GROUP].
Proof. cbv zeta. do 3 eexists. split; [vm_compute; reflexivity|]. split; [vm_compute; reflexivity|]. split; [vm_compute; reflexivity|]. by split. Qed.
(** Statistics without data: the parsers of kinds are called with a null pointer. *)
Lemma kind_data_null {A} (k : lib_kind A) c b l xs : k ∈ lib_kinds ->
  exists parse, io_parse (lk_ops k c) = Some parse /\ parse b l None (Some xs) = Fault.
Proof.
  intros Hin. destruct (lo_impl k (kind_in k Hin)) as [_ _ _ Hp _]. eexists. split; [apply Hp|done].
Qed.

(** ** The registry with a family, and a device *)

Module SampleKinds.
Definition inet : rtnl_link_af_ops kind_info Z :=
  {| ao_family := 2; ao_refcnt := 0; ao_protinfo_policy := None; ao_alloc := Some (fun _ => Some 7); ao_clone := None;
     ao_free := Some (fun l _ => l); ao_parse_protinfo := None; ao_parse_af := None;
     ao_fill_af := Some (fun _ x => keep_num 4 1 x); ao_compare := None; ao_override_rtm := None; ao_fill_pi := None;
     ao_fill_pi_flags := 0; ao_fill_af_no_nest := 0 |}.
Definition afs : gmap Z (rtnl_link_af_ops kind_info Z) := {[ 2 := inet ]}.
Definition slots : list Z := <[2%nat := 2]> (zeros AF_MAX).
Definition fam_ok (_ : Z) (x : Z) : Prop := x = 7.

Lemma kinds_reg_fine : reg_ok (reg_with true afs slots []).
Proof.
  split.
  - done.
  - done.
  - intros f Hf Ha. assert (f = 2) as ->; [|by exists inet]. unfold af_at, reg_with, slots in Ha. cbn [af_ops] in Ha.
    rewrite nth_lookup in Ha. destruct (decide (2%nat = Z.to_nat f)) as [E|E]; [lia|]. rewrite list_lookup_insert_ne in Ha by done.
    destruct (zeros AF_MAX !! Z.to_nat f) as [v|] eqn:Ev; [|done]. by apply lookup_replicate in Ev as [-> _].
  - by intros a H%elem_of_nil.
Qed.
Lemma families_fine : families_ok afs fam_ok.
Proof.
  split; unfold afs.
  - intros a o [_ <-]%lookup_singleton_Some. eexists. split; [done|]. by intros l x [= <-].
  - by intros a o f l x [_ <-]%lookup_singleton_Some [= <-].
  - intros a o f l x [_ <-]%lookup_singleton_Some [= <-] _. by apply (keep_word_safe 1 4).
  - by intros a o f l x [_ <-]%lookup_singleton_Some [= ].
Qed.

(** A VXLAN device: an identifier, a port, a flag and a group have been set. *)
Definition vxlan : lib_kind Z :=
  Lib_kind vxlan_info packed_vxlan vxlan_at (str "vxlan") vxlan_info_ops vxlan_desc 4 [vxlan_at] vxlan_setters
    vxlan_flag_setters vxlan_addrs.
Definition fresh : body (rtnl_link kind_info Z) := Body 0 (let d := link_0 in d <| l_info_ops := vxlan_at |>).
Definition data : body vxlan_info :=
  Body (Z.lor (Z.lor VXLAN_ATTR_ID VXLAN_ATTR_PORT) VXLAN_ATTR_GROUP)
    (let d := vxlan_0 in d <| vxi_id := 42 |> <| vxi_port := htons 4789 |> <| vxi_flags := RTNL_LINK_VXLAN_F_GBP |>
       <| vxi_group := 16777440 |>).
Definition group : nl_addr := ex_addr AF_INET [224; 0; 0; 1] 32.
Definition dev : body (rtnl_link kind_info Z) := put_data fresh data.

Lemma vxlan_in : vxlan ∈ lib_kinds.
Proof. unfold lib_kinds, vxlan. repeat first [apply list_elem_of_here|apply list_elem_of_further]. Qed.
Lemma dev_configured : configured vxlan dev.
Proof.
  eapply conf_addr with (f := rtnl_link_vxlan_set_group) (a := group);
    [eapply conf_set with (f := fun l => rtnl_link_vxlan_set_flags l RTNL_LINK_VXLAN_F_GBP true);
      [eapply conf_set with (f := fun l => rtnl_link_vxlan_set_port l 4789);
        [eapply conf_set with (f := fun l => rtnl_link_vxlan_set_id l 42)|..]|..]|..].
  - apply conf_alloc with true fresh; [by left|reflexivity].
  - left. exists 42, (zeros 4). split; [by apply bytes_ok_zeros|]. split; [done|]. apply list_elem_of_here.
  - reflexivity.
  - left. exists 4789, (zeros 4). split; [by apply bytes_ok_zeros|]. split; [done|]. unfold vxlan, vxlan_setters. cbn [lk_setters].
    repeat first [apply list_elem_of_here|apply list_elem_of_further].
  - reflexivity.
  - right. exists RTNL_LINK_VXLAN_F_GBP, true. apply list_elem_of_here.
  - reflexivity.
  - apply list_elem_of_here.
  - by apply ex_addr_ok.
  - reflexivity.
  - reflexivity.
  - vm_compute. reflexivity.
Qed.
Lemma room_holds : holds ex_room 16 [].
Proof. apply (holds_nil ex_room 0); [|done..]. repeat split; try done. apply (bool_decide_unpack (Forall _ _)). by vm_compute. Qed.
End SampleKinds.

Lemma kinds_tables_ok_witness :
  register_infos (reg_with true SampleKinds.afs SampleKinds.slots []) (map fst (lib_tables (A := Z) true)) =
    Done (0, lib_reg true SampleKinds.afs SampleKinds.slots) /\
  tables_ok (lib_reg true SampleKinds.afs SampleKinds.slots) (lib_data (A := Z)) SampleKinds.fam_ok.
Proof.
  destruct (kinds_tables_ok true SampleKinds.afs SampleKinds.slots SampleKinds.fam_ok SampleKinds.families_fine SampleKinds.kinds_reg_fine)
    as (Hr & _ & Ht & _). split; [exact Hr|exact Ht].
Defined.

Lemma kinds_roundtrip_witness :
  exists put parse m' d,
    put SampleKinds.dev ex_room = Done (0, m') /\ holds m' 16 [(IFLA_INFO_DATA, d)] /\
    parse (nm_nlh m') SampleKinds.fresh (Some 16) None = Done (0, SampleKinds.dev) /\
    io_put_attrs (vxlan_info_ops (I := kind_info) (A := Z) true) = Some put /\
    io_parse (vxlan_info_ops (I := kind_info) (A := Z) true) = Some parse.
Proof.
  destruct (kinds_roundtrip SampleKinds.vxlan true SampleKinds.dev SampleKinds.data ex_room 16 [] SampleKinds.vxlan_in
    SampleKinds.dev_configured) as (put & parse & m' & d & H1 & H2 & H3 & H4 & H5).
  - reflexivity.
  - apply vxlan_sends; by vm_compute.
  - apply SampleKinds.room_holds.
  - split; [|split; [|split]]; vm_compute; congruence.
  - exists put, parse, m', d. split; [exact H3|]. split; [exact H4|]. split; [|split; [exact H1|exact H2]].
    exact (H5 SampleKinds.fresh None eq_refl).
Defined.

